(* ===== verification/_CoqProject ===== *)
-Q . S2P
Prelude.v
Floats.v
FloatExact.v
FloatBound.v
Registers.v
DataFrame.v
NodeTimer.v
CC1101.v
TaskDataReceive.v
MbCrc.v
MbData.v
MbFunc.v
MbRtu.v
Mb.v
MbSpec.v
Device.v
SerialFifo.v
Serial.v
SerialModbus.v
CommConfig.v
CJson.v
CJsonRoundtrip.v
CJsonSafe.v
CJsonBuffered.v
CJsonMinify.v
CJsonHeap.v
CJsonDup.v
ConfigJson.v
TaskModbus.v
KernelTimer.v
KernelSched.v
KernelThread.v
KernelIpc.v
KernelQueue.v
KernelSync.v
KernelRuns.v
KernelEvent.v
KernelService.v
KernelMem.v
KernelHeap.v
KernelPrintf.v
Console.v
KernelObject.v
PortDevice.v
NodeClock.v
KernelPool.v
Spi.v
Sfud.v
SfudInit.v
SfudSpec.v
SpiFlash.v
SfudProbe.v
SpiBus.v
