(* ===== verification/Prelude.v ===== *)
(** * A verification of the data-receiving relay

    The relay is an STM32F429 board under RT-Thread.  Battery-powered
    temperature transmitters send 12-byte frames over a CC1101 radio; the relay
    checks and decodes each frame, looks its device id up in a table and keeps
    the readings of up to 256 nodes in the holding registers of a Modbus-RTU
    slave, from which a host reads them.  Nodes that stay silent are cleared.
    The host also configures the relay through registers; the settings and the
    table of ids are kept in files.

    ** The parts and where they are modelled

    The parts meet in one shared store, the register array [usSRegHoldBuf].
    - [Prelude] (this file): outcomes of C code ([res] with its faults), machine
      integers, checked array access, counted loops, shared lemmas and tactics.
    - [Floats]: the float and double arithmetic of the source as IEEE-754
      binary32 and binary64, executable; [FloatExact]: where binary64 arithmetic
      on integers is exact; [FloatBound]: rounding stays below a power of two.
    - [Registers]: the register array and its layout
      (port/user_mb_app.c, Task/DataFrame.h).
    - [DataFrame]: Task/DataFrame.c, every function: frame check, checksum,
      conversions, id lookup, the five stores of a node's data.
    - [NodeTimer]: the counter and elapsed-time test of Task/Timer.c;
      [NodeClock]: [TimerInit], the counter running on the kernel timer.
    - [CC1101]: the radio driver (Task/drivers/CC1101.c, DriverSPI.c) over a
      class of hardware operations; chip and pins are the class's parameters.
    - [TaskDataReceive]: the receive thread and the overtime thread
      (Task/TaskDataReceive.c), one definition per round of each.
    - [MbCrc]: modbus/rtu/mbcrc.c.  [MbData]: the slave's register files and
      callbacks (port/user_mb_app.c, functions/mbutils.c).  [MbFunc]: the
      function handlers (functions/mbfunc*.c).  [MbRtu]: framing state machines
      and port layer (rtu/mbrtu.c, port/portserial.c, porttimer.c,
      portevent.c).  [Mb]: initialisation, handler table, poll loop
      (modbus/mb.c), and the slave as a step relation of its interrupt routines
      and threads.  [MbSpec]: the holding-register service on plain lists and
      the proof that the slave refines it.
    - [Device]: the device layer (src/device.c) over a class of driver
      operations.  [SerialFifo]: the receive FIFO and [Serial]: the serial driver
      (components/drivers/serial/serial.c), an instance of that class over a class
      of UARTs, with the board's UART as its instance (HAL_Drivers/drv_usart.c).
      [SerialModbus]: the port functions of portserial.c on this driver, and that
      they implement the port layer of [MbRtu].
    - [CommConfig]: Task/CommunicationConfig.c and Struct2Json/ConfigFile.c,
      with the FatFs string functions they call.  [CJson]: parser and printer of
      Struct2Json/cJSON.c; [CJsonRoundtrip]: that they are inverse;
      [CJsonSafe]: the parser on arbitrary text; [CJsonBuffered]: printing into a
      growing buffer; [CJsonMinify]: removing the layout of a text in place;
      [CJsonHeap]: linking, unlinking and freeing items in memory; [CJsonDup]:
      copies of items and arrays from C arrays, with allocations that fail.
      [ConfigJson]: ConfigFile.json (JsonFileOperation.c, Interface_S2J.c).
      [TaskModbus]: the start and a round of the configuration thread
      (Task/TaskModbus.c).
    - [KernelTimer]: the kernel's hard timers and tick (src/timer.c,
      src/clock.c).  [KernelSched]: ready queues, bit group, scheduler and its
      lock (src/scheduler.c, src/irq.c, the first-bit search of
      libcpu/arm/cortex-m4/cpuport.c and src/kservice.c).  [KernelThread]: every
      operation on threads (src/thread.c, the thread part of src/object.c), the
      idle thread's clean-up (src/idle.c) and the tick interrupt on the whole
      kernel.  [KernelIpc]: semaphores, mutexes and events; [KernelQueue]:
      mailboxes and message queues, and the rests of blocked calls (src/ipc.c).
      [KernelSync]: threads that call them, as a machine over scheduler, timers
      and blocked calls; [KernelRuns]: concrete runs of it; [KernelEvent]: what a
      send of events wakes.
    - [KernelService]: the block and string functions of src/kservice.c.
      [KernelMem]: the system heap (src/mem.c), its headers in the bytes of the
      heap and the chain of blocks they form; [KernelHeap]: the heap as a store of
      disjoint areas, its sessions and where it falls short.  [KernelPool]: memory
      pools (src/mempool.c), their sessions and blocked allocations.  [KernelPrintf]: the
      formatted output of src/kservice.c and the console; [Console]: the console
      on a serial port.  [KernelObject]: objects by name (src/object.c) and the
      device registry (src/device.c); [PortDevice]: the search of the slave's
      UART by its number.
    - [Spi]: the SPI bus (components/spi/spi_core.c, spi_dev.c) and its driver
      (Task/drivers/drv_spi.c) over classes of hardware and of chips.  [Sfud]: the
      flash driver (components/spi/sfud/src/sfud.c) over a class of ports;
      [SfudInit]: its initialisation and the SFDP tables (sfud_sfdp.c); [SfudSpec]:
      NOR chips and what the driver does to them.  [SpiFlash]: the flash as a block
      device, and the driver's port on the bus (components/spi/spi_flash_sfud.c);
      [SfudProbe]: what probing a chip establishes; [SpiBus]: registration of bus,
      device and flash at start-up (Task/drivers/drv_spi_flash.c).  The sources in
      components/spi are those of the board's project, not the copies in
      components/drivers/spi.

    ** How the code is represented

    Functions keep their names.  A function of the source that can go wrong in
    a way C leaves undefined returns [res]: [Fault] says how ([OutOfBounds],
    [NullDeref], [FloatConv], ...).  Such an outcome is given a value in one case
    only: a left shift of an [int] by less than 32 bits that reaches the sign bit,
    or of a negative one, which the C standard leaves undefined and which the
    compilers of the board (GCC and ARM) document as the shift of the two's
    complement pattern.  It occurs where bytes are put together
    ([CalculateDeviceId] and [read_pair] with the top bit set,
    [SaveSignalStrength] with a negative strength, [shl_int] of [Sfud]) and in
    the bit of priority 31 ([number_mask] in [KernelThread]).
    Overflow of signed additions and subtractions is the fault [SignedOverflow]
    where the code can reach it ([int_res]).
    Error codes of the source are ordinary results.  Integers are [Z] with the
    wrap-around of their width written out ([u8], [u16], [u32], ...); arrays are
    lists with checked access; a pointer into an array is an offset.  Globals
    and the locals of a thread are records passed explicitly.

    Interleaving: in [Mb] every interrupt routine and every thread round is one
    atomic step, and the theorems about it hold for every sequence of steps.  One
    routine is cut where an interrupt matters: the last call of the transmit
    routine enables reception before it marks the sender idle, and a byte that
    arrives between the two fails an assertion.  Other switches inside a routine
    are not modelled.  In [Serial] interrupts come between calls; the last close
    of a port has such a window too ([close_window]).  The thread rounds of
    [TaskDataReceive] and [TaskModbus] are stated for a register array that no
    other thread writes during the round.  In the kernel a call runs without
    interruption up to its call of the scheduler.  A blocking call is cut there:
    it returns [Blocked] with what is left ([pending]), and [resume_call] is that
    rest, run when the thread is current again; what follows a scheduler call
    without reading the scheduler's state is run at once.  The nodes of a list
    are the names of their threads, and linking a node that is in a list is the
    fault [ListCorrupt].  A heap operation runs between its take and release of
    the heap's semaphore and is one step.

    Fuel: busy-waits of the driver take the number of polls as an argument and
    report [Hang] beyond it; where the code bounds its own wait (the 8-bit
    counter of the receive wait) 256 polls are proved to be enough.  The
    reader of the id file is given one round more than the file has bytes, the
    timer loop one round more than there are timers, and both are proved to
    return.  The transmit loop of the slave is bounded by the buffer.  The JSON
    parser gets twice the length of the text, which is shown to be enough for
    every text whose escapes are complete; the formatter one round more than the format has characters,
    proved enough; the receive interrupt as many rounds as bytes arrive; the searches of the heap get one round more than it has bytes and
    the string functions one more than the memory, proved enough; the length loop
    of the JSON string printer gets a number of rounds
    that only matters for strings with escapes, for which it runs until its
    counter overflows.
    Minifying gets one round more than the text has characters, and the loops
    along JSON items one more than there are cells in memory, and copying twice that,
    proved enough.
    The busy-waits of the SPI driver take their polls as an argument; the loops of
    the flash driver get one round more than there are bytes, proved enough, and its
    wait for the chip has the code's own count of retries.

    Parameters: the radio chip and pins, the SPI peripheral, its pins and mutex (with
    the laws of [SpiBoard]) and the chips on the bus, the UART (in [Serial]; in
    [SerialModbus] it is the bytes held and sent), the C library's [pow]
    and floating-point formats (only [pow(x, 0) = 1] is used, and of the formats the
    length and the characters of their texts), the blocks that buffered printing is
    given, whether a file
    can be opened, and whether a store through a null pointer is ignored: the
    reader of the JSON file makes one, and what depends on it is stated for both
    cases ([restart_restores]) or says that it presupposes the reading.

    ** What is proved

    - Data path: a transmitter's frame for a listed id ends in exactly that
      node's registers, with the voltage, the temperature (of a negative one only
      the whole degrees, against the comment in the source) and the signal
      strength encoded as the code does, and nothing else changes;
      frame analysis on every return code; encode/decode round trip; lookup of
      the first matching id; the values of the temperature and voltage registers
      for every 10-bit reading, and where the conversion becomes undefined.
    - Radio: reset, configuration and reception return, stay in their buffers
      and deselect the chip; a receive round with packets of at most 12 bytes is
      safe, its debug strings included, once the nodes' values are set; two longer
      packets overrun the buffer, and values that were never set can overrun the
      strings.
    - Silence: the overtime sweep clears exactly the expired nodes; the
      elapsed-time test is right across the wrap of its counter; the counter
      counts seconds on the kernel's timers.
    - Modbus: the slave refines the specification [MbSpec] from bytes on the
      line to bytes on the line; its invariant holds in every interleaving but
      for a byte that arrives in the window at the end of a reply; every
      register handler is safe on any request; write/read round trip; framing in
      both directions; the table CRC equals the bitwise one, has zero residue and
      detects every one-byte error; exactly which coil accesses are answered and
      which leave the array; defects of the event queue and the handler table.
    - Serial line: the receive FIFO is a queue that keeps its newest bytes, in
      interrupt and in DMA mode; every session of device calls and interrupts
      within a stated contract (all users ask for the receive interrupt and leave
      it to the driver to enable it, there is memory, ...) returns and keeps the
      port well-formed, with the FIFO there whenever the interrupt is enabled;
      outside it a FIFO is overrun or an assertion fails; the driver implements the
      port layer of the slave byte by byte.  The callback takes one byte per
      interrupt, so an interrupt that finds two leaves the slave a byte behind,
      and it refuses every request whose shifted frame has no valid CRC.
    - Configuration: the id file reads back as written, the configuration
      registers read back as shown, one round of the thread does exactly what the
      flags ask, writes the files and acknowledges it; JSON printing and parsing
      are inverse on trees of non-negative integers and strings without escapes,
      the JSON file gives the parameters back, and a restart restores parameters
      and ids from both files where the store through a null pointer is ignored;
      the reader of the id file always returns, but without
      a file writes through a null pointer; a configuration cannot be saved after
      it was read from its file.  The JSON parser stays in its text and buffers
      on every text whose escapes are complete and returns or stops at a number
      that overflows, returns when the numbers have at most nine digits, and
      leaves its buffer on some other texts; the printer never finishes a string
      with an escape whose first character is printable or has a short escape.  Printing into a growing buffer gives the text of the
      unbuffered printer, or null and no leak; minifying a formatted text gives
      the unformatted one; edits of the children of an item, on the pointers, are
      edits of a list of trees, and deleting frees exactly what an item owns.  A
      copy of an item says the same on cells of its own, or is null with the memory
      as it was.
    - Kernel timers: list order, firing exactly the due timers, on time.
    - Scheduler: the first-bit searches find the lowest bit; the scheduler does
      what a search through the queues does, round robin among equals, and leaves
      no ready thread above the running one.  Every sequence of thread
      operations, ticks and clean-ups keeps queues, waiting lists, timers and
      objects consistent and never faults; a sleeping thread is woken by exactly
      the tick it asked for.
    - IPC: mailboxes and message queues refine bounded lists; a send of events
      delivers the pending bits to the waiting threads as a specification over
      the list of requests says, thread by thread and bit by bit.  For threads that take and release
      mutexes and semaphores under every schedule: mutual exclusion, the count of
      tokens, no token left while a thread waits, priority inheritance on
      waiting; and two runs in which inheritance fails, by the order of releases
      and by the hand-over to the first in line.
    - Memory: the word-wise fill and copy (below 2^31 bytes) and the overlapping
      move equal their byte-wise descriptions; strings are measured, compared and searched right.
      Any session of allocations, reallocations, frees and stores into live areas
      refines a map from addresses to contents: areas are aligned, disjoint and
      keep their bytes, and no call faults; when all is given back the heap is one
      block again; wrong frees stop at an assertion.  Requests near 2^32, a
      shrinking reallocation and the bounds of the search have defects, each shown
      on a small heap.  Sessions of allocations and frees on a pool, with threads
      that wait without a time limit, refine a store of equal disjoint blocks: no
      block stays free while a thread waits.  A wait that times out leaves the count of waiting threads too
      high, and the next free faults.
    - Formatted output equals the concatenation of its fields, cut to the buffer
      and terminated, as long as the text fits an [int] and the address space;
      larger precisions overflow; integer conversions print the numeral of the value; what
      [rt_kprintf] puts on the line of a serial console.
    - Flash: every session of calls on an SPI bus that keeps the contract of the
      driver (words of at most 16 bits, ...) gives each chip exactly the
      frames sent to it under its device's settings, whichever device used the bus
      before; every session of sector reads, writes and erases of the flash device
      is one on an array of bytes; start-up and the probe of a chip with valid SFDP
      tables register a block device that meets the conditions of this.  The three
      compose: the port of the flash driver on the bus is an instance of the class
      that the theorems about the driver ask for.
    - Names: the device registry refines a map from names of eight characters to
      devices; a port number finds the UART of that number.

    ** Not modelled

    The failure of allocations inside the JSON library (buffered printing, creation and
    copies of items apart), DMA
    transmission, the POSIX file operations of the serial driver, hooks, signals,
    stacks and the context switch itself, the FAT file system between the string
    functions and the flash device, DMA and QSPI transfers, the HAL and board files, and the components the relay does not use
    (FreeModbus ASCII, TCP and master, lwIP, shell).  Debug messages are left out,
    but not the [sprintf] calls that fill buffers for them.
    A file is its contents and the disk does not run full.

    ** Plan

    Events, mailboxes and message queues in the machine of
    [KernelSync]; the event of the slave and the delays of the threads on the
    kernel model. *)

From stdpp Require Export base list numbers option.
From Stdlib Require Export ZArith Lia.
From Stdlib Require Ascii.
From Stdlib Require Export (notations) String.
#[global] Open Scope Z_scope.

Ltac Zify.zify_post_hook ::= Z.div_mod_to_equations.

(** ** Outcomes of C code

    A computation either returns a value or stops in one of the ways the C
    standard leaves undefined. *)
Inductive fault : Set :=
| OutOfBounds      (* array access outside the object *)
| NullDeref        (* dereference or call through a null pointer *)
| FloatConv        (* float to integer conversion out of range *)
| AssertFail       (* RT_ASSERT failed *)
| Uninit           (* use of an uninitialised variable *)
| DivZero          (* integer division by zero *)
| SignedOverflow   (* overflow of a signed integer *)
| Hang             (* a busy-wait loop not left within the given polls *)
| ListCorrupt      (* a list node linked into a second list *).

Inductive res (A : Type) : Type :=
| Ok (a : A)
| Fault (f : fault).
Arguments Ok {A} _.
Arguments Fault {A} _.

#[global] Instance fault_eq_dec : EqDecision fault.
Proof. solve_decision. Defined.
#[global] Instance res_ret : MRet res := fun A a => Ok a.
#[global] Instance res_bind : MBind res :=
  fun A B f m => match m with Ok a => f a | Fault e => Fault e end.

Definition is_Ok {A} (m : res A) : bool :=
  match m with Ok _ => true | Fault _ => false end.

Lemma bind_Ok {A B} (m : res A) (f : A -> res B) b :
  (m ≫= f) = Ok b <-> exists a, m = Ok a /\ f a = Ok b.
Proof. destruct m; cbn; naive_solver. Qed.

Lemma bind_ret_l {A B} (a : A) (f : A -> res B) : (Ok a ≫= f) = f a.
Proof. done. Qed.

Lemma bind_assoc {A B C} (m : res A) (f : A -> res B) (g : B -> res C) :
  ((m ≫= f) ≫= g) = (m ≫= (fun a => f a ≫= g)).
Proof. by destruct m. Qed.

(** A computation for each element, in order. *)
Definition mapR {A B} (f : A -> res B) : list A -> res (list B) :=
  fix go (l : list A) : res (list B) :=
    match l with
    | [] => Ok []
    | a :: l' => b ← f a; bs ← go l'; Ok (b :: bs)
    end.

Lemma mapR_Forall2 {A B C} (f : A -> res B) (g : C -> A) (P : C -> B -> Prop) l :
  Forall (fun c => exists b, f (g c) = Ok b /\ P c b) l ->
  exists bs, mapR f (map g l) = Ok bs /\ Forall2 P l bs.
Proof.
  induction 1 as [|c l (b & Hb & HP) H (bs & Hbs & IH)]; [by exists []|].
  exists (b :: bs). split; [|by constructor]. cbn [map].
  change (mapR f (?a :: ?l)) with (b ← f a; bs ← mapR f l; Ok (b :: bs)).
  rewrite Hb, bind_ret_l, Hbs. done.
Qed.

(** Turns [H : (x ← m; k x) = Ok v] into its steps. *)
Ltac bind_inv H :=
  repeat match type of H with
  | (_ ≫= _) = Ok _ =>
      let a := fresh "a" in let Ha := fresh "Ha" in
      apply bind_Ok in H; destruct H as (a & Ha & H)
  end.

(** ** Machine integers *)
Definition u8 (z : Z) : Z := z mod 256.
Definition u16 (z : Z) : Z := z mod 65536.
Definition u32 (z : Z) : Z := z mod 4294967296.
Definition s8 (z : Z) : Z := (z + 128) mod 256 - 128.
Definition s16 (z : Z) : Z := (z + 32768) mod 65536 - 32768.
Definition s32 (z : Z) : Z := (z + 2147483648) mod 4294967296 - 2147483648.

Definition is_u8 (z : Z) : Prop := 0 <= z < 256.
Definition is_u16 (z : Z) : Prop := 0 <= z < 65536.
Definition is_u32 (z : Z) : Prop := 0 <= z < 4294967296.

Ltac machine_unfold :=
  unfold is_u8, is_u16, is_u32, u8, u16, u32, s8, s16, s32 in *.
Ltac mlia := machine_unfold; lia.

Create HintDb machine.
Create Rewrite HintDb machine_rw.

Lemma u8_range z : is_u8 (u8 z). Proof. mlia. Qed.
Lemma u16_range z : is_u16 (u16 z). Proof. mlia. Qed.
Lemma u32_range z : is_u32 (u32 z). Proof. mlia. Qed.
Lemma u8_id z : is_u8 z -> u8 z = z. Proof. mlia. Qed.
Lemma u16_id z : is_u16 z -> u16 z = z. Proof. mlia. Qed.
Lemma u32_id z : is_u32 z -> u32 z = z. Proof. mlia. Qed.
Lemma s8_range z : -128 <= s8 z < 128. Proof. mlia. Qed.
Lemma s8_id z : -128 <= z < 128 -> s8 z = z. Proof. mlia. Qed.
Lemma s16_id z : -32768 <= z < 32768 -> s16 z = z. Proof. mlia. Qed.
#[export] Hint Resolve u8_range u16_range u32_range : machine.

(** Masks and shifts of the source, as arithmetic. *)
Lemma land_ff z : Z.land z 255 = z mod 256.
Proof. change 255 with (Z.ones 8). by rewrite Z.land_ones. Qed.
Lemma land_ffff z : Z.land z 65535 = z mod 65536.
Proof. change 65535 with (Z.ones 16). by rewrite Z.land_ones. Qed.
Lemma land_7f z : Z.land z 127 = z mod 128.
Proof. change 127 with (Z.ones 7). by rewrite Z.land_ones. Qed.
Lemma shiftr_8 z : Z.shiftr z 8 = z / 256.
Proof. by rewrite Z.shiftr_div_pow2. Qed.
Lemma shiftr_16 z : Z.shiftr z 16 = z / 65536.
Proof. by rewrite Z.shiftr_div_pow2. Qed.
Lemma shiftl_8 z : Z.shiftl z 8 = z * 256.
Proof. by rewrite Z.shiftl_mul_pow2. Qed.
Lemma shiftl_16 z : Z.shiftl z 16 = z * 65536.
Proof. by rewrite Z.shiftl_mul_pow2. Qed.
Lemma shiftl_24 z : Z.shiftl z 24 = z * 16777216.
Proof. by rewrite Z.shiftl_mul_pow2. Qed.
Lemma shiftr_land_hi z n m : 0 <= n ->
  Z.shiftr (Z.land z (Z.shiftl m n)) n = Z.land (Z.shiftr z n) m.
Proof.
  intros Hn. apply Z.bits_inj'. intros i Hi.
  rewrite Z.shiftr_spec, !Z.land_spec, Z.shiftl_spec, Z.shiftr_spec by lia.
  f_equal. f_equal. lia.
Qed.
Lemma hi16_of_mask z : is_u32 z -> Z.shiftr (Z.land z 4294901760) 16 = z / 65536.
Proof.
  intros Hz. change 4294901760 with (Z.shiftl 65535 16).
  rewrite shiftr_land_hi, land_ffff, shiftr_16 by lia. mlia.
Qed.
Lemma hi8_of_mask z : is_u16 z -> Z.shiftr (Z.land z 65280) 8 = z / 256.
Proof.
  intros Hz. change 65280 with (Z.shiftl 255 8).
  rewrite shiftr_land_hi, land_ff, shiftr_8 by lia. mlia.
Qed.
#[export] Hint Rewrite land_ff land_ffff land_7f shiftr_8 shiftr_16 shiftl_8
  shiftl_16 shiftl_24 : machine_rw.

(** [x] below [2^k] and [y] shifted by [k] do not overlap. *)
Lemma lor_disjoint x y k : 0 <= k -> 0 <= x < 2 ^ k ->
  Z.lor (y * 2 ^ k) x = y * 2 ^ k + x.
Proof.
  intros Hk Hx. rewrite <- Z.lxor_lor.
  - symmetry. rewrite <- Z.shiftl_mul_pow2 by done.
    apply Z.add_nocarry_lxor. apply Z.bits_inj'. intros i Hi.
    rewrite Z.land_spec, Z.bits_0, Z.shiftl_spec by lia.
    destruct (Z.lt_ge_cases i k).
    + by rewrite Z.testbit_neg_r by lia.
    + rewrite <- (Z.mod_small x (2 ^ k)) by done.
      by rewrite Z.mod_pow2_bits_high, andb_false_r by lia.
  - rewrite <- Z.shiftl_mul_pow2 by done. apply Z.bits_inj'. intros i Hi.
    rewrite Z.land_spec, Z.bits_0, Z.shiftl_spec by lia.
    destruct (Z.lt_ge_cases i k).
    + by rewrite Z.testbit_neg_r by lia.
    + rewrite <- (Z.mod_small x (2 ^ k)) by done.
      by rewrite Z.mod_pow2_bits_high, andb_false_r by lia.
Qed.

(** The characters of a string literal, without the terminating zero. *)
Definition text (s : String.string) : list Z :=
  map (fun a => Z.of_nat (Ascii.nat_of_ascii a)) (String.list_ascii_of_string s).
Arguments text s%_string.

(** ** Decimal digits *)
Definition digit (c : Z) : Prop := 48 <= c <= 57.
(** The number a digit string denotes. *)
Definition str_val (acc : Z) (ds : list Z) : Z := foldl (fun a c => 10 * a + (c - 48)) acc ds.

Lemma str_val_mono ds acc : Forall digit ds -> 0 <= acc -> acc <= str_val acc ds.
Proof.
  intros H. revert acc. induction H as [|c ds Hc H IH]; intros acc Ha; [done|].
  unfold digit in Hc. cbn. etransitivity; [|apply IH]; lia.
Qed.

Lemma str_val_snoc ds c acc : str_val acc (ds ++ [c]) = 10 * str_val acc ds + (c - 48).
Proof. unfold str_val. by rewrite foldl_snoc. Qed.

(** The result of a computation on [int]s. *)
Definition int_res (z : Z) : res Z :=
  if (-2147483648 <=? z) && (z <=? 2147483647) then Ok z else Fault SignedOverflow.

Lemma int_res_ok z : -2147483648 <= z <= 2147483647 -> int_res z = Ok z.
Proof. intros [H1 H2]. unfold int_res. by rewrite (proj2 (Z.leb_le _ _) H1), (proj2 (Z.leb_le _ _) H2). Qed.
Lemma int_res_inv z v : int_res z = Ok v -> v = z /\ -2147483648 <= z <= 2147483647.
Proof.
  unfold int_res. destruct (_ && _) eqn:E; [|done]. apply andb_true_iff in E as [H1%Z.leb_le H2%Z.leb_le].
  by intros [= <-].
Qed.

(** ** Arrays: checked access, and the access the checks allow *)
Definition in_range (l : list Z) (i : Z) : Prop := 0 <= i < Z.of_nat (length l).
#[global] Instance in_range_dec l i : Decision (in_range l i).
Proof. unfold in_range. apply _. Defined.

Definition rd (l : list Z) (i : Z) : Z := default 0 (l !! Z.to_nat i).
Definition upd (l : list Z) (i x : Z) : list Z := <[Z.to_nat i := x]> l.

Definition get (l : list Z) (i : Z) : res Z :=
  if decide (in_range l i) then Ok (rd l i) else Fault OutOfBounds.
Definition set (l : list Z) (i x : Z) : res (list Z) :=
  if decide (in_range l i) then Ok (upd l i x) else Fault OutOfBounds.

Lemma get_in l i : in_range l i -> get l i = Ok (rd l i).
Proof. intros. unfold get. by rewrite decide_True. Qed.
Lemma get_out l i : ~ in_range l i -> get l i = Fault OutOfBounds.
Proof. intros. unfold get. by rewrite decide_False. Qed.
Lemma set_in l i x : in_range l i -> set l i x = Ok (upd l i x).
Proof. intros. unfold set. by rewrite decide_True. Qed.
Lemma set_out l i x : ~ in_range l i -> set l i x = Fault OutOfBounds.
Proof. intros. unfold set. by rewrite decide_False. Qed.
Lemma get_Ok l i v : get l i = Ok v -> in_range l i /\ v = rd l i.
Proof. unfold get. case_decide; naive_solver. Qed.
Lemma set_Ok l i x l' : set l i x = Ok l' -> in_range l i /\ l' = upd l i x.
Proof. unfold set. case_decide; naive_solver. Qed.

Lemma length_upd l i x : length (upd l i x) = length l.
Proof. apply length_insert. Qed.
Lemma in_range_upd l i x j : in_range (upd l i x) j <-> in_range l j.
Proof. unfold in_range. by rewrite length_upd. Qed.
Lemma rd_upd_eq l i x : in_range l i -> rd (upd l i x) i = x.
Proof.
  unfold rd, upd, in_range. intros H. by rewrite list_lookup_insert_eq by lia.
Qed.
Lemma rd_upd_ne l i x j : 0 <= i -> 0 <= j -> i <> j -> rd (upd l i x) j = rd l j.
Proof.
  unfold rd, upd. intros. by rewrite list_lookup_insert_ne by lia.
Qed.
Lemma upd_rd_id l i : in_range l i -> upd l i (rd l i) = l.
Proof.
  unfold upd, rd, in_range. intros H.
  apply list_insert_id. destruct (lookup_lt_is_Some_2 l (Z.to_nat i)) as [v Hv]; [lia|].
  by rewrite Hv.
Qed.
Lemma rd_lookup l i x : l !! Z.to_nat i = Some x -> rd l i = x.
Proof. unfold rd. by intros ->. Qed.
Lemma rd_Forall P l i : Forall P l -> in_range l i -> P (rd l i).
Proof.
  unfold rd, in_range. intros HF Hi.
  destruct (lookup_lt_is_Some_2 l (Z.to_nat i)) as [v Hv]; [lia|].
  rewrite Hv. cbn. by eapply Forall_lookup_1.
Qed.
Lemma Forall_upd (P : Z -> Prop) l i x : Forall P l -> P x -> Forall P (upd l i x).
Proof. intros. by apply Forall_insert. Qed.
Lemma rd_ext (l l' : list Z) :
  length l = length l' ->
  (forall i, in_range l i -> rd l i = rd l' i) -> l = l'.
Proof.
  intros Hlen H. apply list_eq. intros i.
  destruct (decide (i < length l)%nat) as [Hi|Hi].
  - destruct (lookup_lt_is_Some_2 l i Hi) as [v Hv].
    destruct (lookup_lt_is_Some_2 l' i) as [v' Hv']; [lia|].
    specialize (H (Z.of_nat i)). unfold rd, in_range in H.
    rewrite Nat2Z.id, Hv, Hv' in H. cbn in H. rewrite Hv, Hv'. f_equal. apply H. lia.
  - rewrite !lookup_ge_None_2 by lia. done.
Qed.
Lemma upd_same_rd l i j x : in_range l j -> 0 <= i ->
  rd (upd l i x) j = if decide (i = j) then x else rd l j.
Proof.
  intros Hj Hi. case_decide; subst; [by apply rd_upd_eq|].
  apply rd_upd_ne; unfold in_range in *; lia.
Qed.

(** ** Counting loops [for (i = lo; i < lo + n; i++)] *)
Fixpoint for_loop {S : Type} (n : nat) (i : Z) (body : Z -> S -> res S) (s : S) : res S :=
  match n with
  | O => Ok s
  | Datatypes.S n' => s' ← body i s; for_loop n' (i + 1) body s'
  end.

Lemma for_loop_inv {S} (P : Z -> S -> Prop) body n lo s :
  P lo s ->
  (forall i t, lo <= i < lo + Z.of_nat n -> P i t ->
     exists t', body i t = Ok t' /\ P (i + 1) t') ->
  exists s', for_loop n lo body s = Ok s' /\ P (lo + Z.of_nat n) s'.
Proof.
  revert lo s. induction n as [|n IH]; intros lo s HP Hstep; cbn [for_loop].
  - exists s. split; [done|]. by replace (lo + Z.of_nat 0) with lo by lia.
  - destruct (Hstep lo s) as (t & -> & Ht); [lia|done|]. cbn.
    replace (lo + Z.of_nat (Datatypes.S n)) with (lo + 1 + Z.of_nat n) by lia.
    apply IH; [done|]. intros i u Hi. apply Hstep. lia.
Qed.

Lemma for_loop_ext {S} body1 body2 n lo (s : S) :
  (forall i t, lo <= i < lo + Z.of_nat n -> body1 i t = body2 i t) ->
  for_loop n lo body1 s = for_loop n lo body2 s.
Proof.
  revert lo s. induction n as [|n IH]; intros lo s H; cbn; [done|].
  rewrite H by lia. destruct (body2 lo s); cbn; [|done]. apply IH.
  intros. apply H. lia.
Qed.

(** Exhaustive checks over an interval of integers. *)
Fixpoint all_below (n : nat) (p : Z -> bool) : bool :=
  match n with
  | O => true
  | Datatypes.S n' => p (Z.of_nat n') && all_below n' p
  end.

Lemma all_below_spec n p : all_below n p = true ->
  forall z, 0 <= z < Z.of_nat n -> p z = true.
Proof.
  induction n as [|n IH]; cbn [all_below]; intros H z Hz; [lia|].
  apply andb_true_iff in H as [H1 H2].
  destruct (decide (z = Z.of_nat n)) as [->|]; [done|]. apply IH; [done|lia].
Qed.

(** Proves [b = true] for all values of [z] below [n] by evaluating [b]. *)
Ltac by_enumeration n z :=
  match goal with
  | |- ?b = true =>
      let p := eval pattern z in b in
      match p with
      | ?f z => apply (all_below_spec n f); [vm_compute; reflexivity | mlia]
      end
  end.
