(* ===== verification/Floats.v ===== *)
(** * IEEE-754 arithmetic of the C expressions

    [float] and [double] as the binary32 and binary64 formats of the Standard
    Library's executable [SpecFloat] model (round to nearest, ties to even),
    with the conversions the source uses: int to float, float to double,
    double to float and truncation to an integer type. *)
From S2P Require Import Prelude.
From Stdlib Require Export SpecFloat.

Module F32.
Definition prec : Z := 24.
Definition emax : Z := 128.
Definition of_Z (z : Z) : spec_float := binary_normalize prec emax z 0 false.
Definition mul := SFmul prec emax.
End F32.

Module F64.
Definition prec : Z := 53.
Definition emax : Z := 1024.
Definition of_Z (z : Z) : spec_float := binary_normalize prec emax z 0 false.
Definition mul := SFmul prec emax.
Definition add := SFadd prec emax.
Definition sub := SFsub prec emax.
Definition div := SFdiv prec emax.
Definition sqrt := SFsqrt prec emax.
(** [pow(x, 2)] of math.h, as the correctly rounded square. *)
Definition square (x : spec_float) : spec_float := mul x x.
(** A decimal literal [n / 10^k]: the nearest binary64. *)
Definition lit (n d : Z) : spec_float := div (of_Z n) (of_Z d).
End F64.

Definition round_to (prec emax : Z) (x : spec_float) : spec_float :=
  match x with
  | S754_finite s m e => binary_round prec emax s m e
  | _ => x
  end.
Definition double_of_float : spec_float -> spec_float := round_to F64.prec F64.emax.
Definition float_of_double : spec_float -> spec_float := round_to F32.prec F32.emax.

(** Truncation toward zero; [None] for an infinity or a NaN. *)
Definition trunc (x : spec_float) : option Z :=
  match x with
  | S754_zero _ => Some 0
  | S754_finite s m e =>
      let a := if 0 <=? e then Z.pos m * 2 ^ e else Z.pos m / 2 ^ (- e) in
      Some (if s then - a else a)
  | _ => None
  end.

(** A C cast of a floating value to an integer type with range [lo, hi]: the
    value is undefined when the truncated value is outside the range. *)
Definition cast (lo hi : Z) (x : spec_float) : res Z :=
  match trunc x with
  | Some z => if (lo <=? z) && (z <=? hi) then Ok z else Fault FloatConv
  | None => Fault FloatConv
  end.
Definition cast_u16 : spec_float -> res Z := cast 0 65535.
Definition cast_s16 : spec_float -> res Z := cast (-32768) 32767.
Definition cast_s32 : spec_float -> res Z := cast (-2147483648) 2147483647.

Lemma cast_range lo hi x z : cast lo hi x = Ok z -> lo <= z <= hi.
Proof.
  unfold cast. destruct (trunc x); [|done]. destruct (_ && _) eqn:E; [|done].
  intros [= <-]. apply andb_true_iff in E. lia.
Qed.
