(* ===== verification/FloatExact.v ===== *)
(** * Exact binary64 arithmetic on integers

    Integers below 2^53 are represented exactly, and the sum and the product
    of two of them are exact as long as the result is below 2^53. *)
From S2P Require Import Prelude Floats.

Definition digits (p : positive) : Z := Z.pos (digits2_pos p).

Lemma digits_log2 p : digits p = Z.log2 (Z.pos p) + 1.
Proof.
  unfold digits. induction p as [p IH|p IH|]; cbn [digits2_pos]; [| |done].
  - rewrite Pos2Z.inj_succ, IH, Pos2Z.inj_xI, Z.log2_succ_double by lia. lia.
  - rewrite Pos2Z.inj_succ, IH, Pos2Z.inj_xO, Z.log2_double by lia. lia.
Qed.

Lemma digits_bounds p : 2 ^ (digits p - 1) <= Z.pos p < 2 ^ digits p.
Proof.
  rewrite digits_log2. replace (Z.log2 (Z.pos p) + 1 - 1) with (Z.log2 (Z.pos p)) by lia.
  apply Z.log2_spec. lia.
Qed.

Lemma digits_pos p : 1 <= digits p.
Proof. unfold digits. lia. Qed.

(** Multiplying by a power of two adds to the digits. *)
Lemma digits_shift p q k : 0 <= k -> Z.pos q = Z.pos p * 2 ^ k -> digits q = digits p + k.
Proof.
  intros Hk E. rewrite !digits_log2, E, Z.log2_mul_pow2 by lia. lia.
Qed.

Lemma iter_xO m d : Z.pos (Pos.iter xO m d) = Z.pos m * 2 ^ Z.pos d.
Proof.
  induction d as [|d IH] using Pos.peano_ind; [by rewrite Z.mul_comm|].
  rewrite Pos.iter_succ, Pos2Z.inj_xO, IH, Pos2Z.inj_succ, Z.pow_succ_r by lia. lia.
Qed.

Lemma shr_1_even m : 0 < m -> shr_1 (Build_shr_record (m * 2) false false)
  = Build_shr_record m false false.
Proof. intros Hm. destruct m as [|m|m]; try lia. by rewrite <- Pos2Z.inj_mul, Pos.mul_comm. Qed.

Lemma iter_shr n m : 0 < m -> iter_pos shr_1 n (Build_shr_record (m * 2 ^ Z.pos n) false false)
  = Build_shr_record m false false.
Proof.
  revert m. induction n as [n IH|n IH|]; intros m Hm; cbn [iter_pos].
  - replace (m * 2 ^ Z.pos n~1) with (m * 2 ^ Z.pos n * 2 ^ Z.pos n * 2).
    + rewrite shr_1_even by lia. by rewrite !IH by lia.
    + replace (Z.pos n~1) with (Z.pos n + Z.pos n + 1) by lia.
      rewrite !Z.pow_add_r by lia. change (2 ^ 1) with 2. lia.
  - replace (m * 2 ^ Z.pos n~0) with (m * 2 ^ Z.pos n * 2 ^ Z.pos n); [by rewrite !IH by lia|].
    replace (Z.pos n~0) with (Z.pos n + Z.pos n) by lia. rewrite Z.pow_add_r by lia. lia.
  - change (2 ^ 1) with 2. by apply shr_1_even.
Qed.

(** Exponents far from the limits of the format. *)
Definition mid (e : Z) : Prop := -900 <= e <= 900.

Abbreviation b64_round := (binary_round 53 1024).
Abbreviation b64_round_aux := (binary_round_aux 53 1024).
Abbreviation b64_fexp := (fexp 53 1024).

Lemma fexp_mid e : -900 <= e -> b64_fexp e = e - 53.
Proof. intros He. unfold fexp, emin. lia. Qed.

(** Rounding [q = p * 2^k] with [p] of 53 digits. *)
Lemma shr_fexp_exact p q k e : digits p = 53 -> 0 <= k <= 900 -> mid e -> Z.pos q = Z.pos p * 2 ^ k ->
  shr_fexp 53 1024 (Z.pos q) e loc_Exact = (Build_shr_record (Z.pos p) false false, e + k).
Proof.
  intros Hp Hk He Hq. unfold shr_fexp. cbn [Zdigits2 shr_record_of_loc].
  change (Z.pos (digits2_pos q)) with (digits q). rewrite (digits_shift p q k), Hp by lia.
  rewrite fexp_mid by (unfold mid in He; lia).
  replace (53 + k + e - 53 - e) with k by lia. rewrite Hq. destruct k as [|k|k]; [| |lia].
  - cbn. by rewrite Z.mul_1_r, Z.add_0_r.
  - cbn [shr]. by rewrite iter_shr by lia.
Qed.

Lemma round_aux_exact s p q k e : digits p = 53 -> 0 <= k <= 400 -> -400 <= e <= 400 ->
  Z.pos q = Z.pos p * 2 ^ k -> b64_round_aux s (Z.pos q) e loc_Exact = S754_finite s p (e + k).
Proof.
  intros Hp Hk He Hq. unfold binary_round_aux.
  rewrite (shr_fexp_exact p q k) by (unfold mid; lia). cbn [shr_m loc_of_shr_record round_nearest_even].
  rewrite (shr_fexp_exact p p 0) by (unfold mid; lia). cbn [shr_m].
  rewrite Z.add_0_r. destruct (Z.leb_spec (e + k) (1024 - 53)); [done|lia].
Qed.

(** [m] scaled to 53 digits. *)
Definition scale53 (m : positive) : positive :=
  match (53 - digits m)%Z with Z.pos d => Pos.iter xO m d | _ => m end.
Lemma scale53_ok m : digits m <= 53 ->
  Z.pos (scale53 m) = Z.pos m * 2 ^ (53 - digits m) /\ digits (scale53 m) = 53.
Proof.
  intros Hm. assert (Z.pos (scale53 m) = Z.pos m * 2 ^ (53 - digits m)) as E.
  { unfold scale53. destruct (53 - digits m) as [|d|d] eqn:Ed; [| |lia].
    - by rewrite Z.mul_1_r.
    - apply iter_xO. }
  split; [done|]. rewrite (digits_shift m _ (53 - digits m)) by (done || lia). lia.
Qed.

(** The float of [m * 2^e]. *)
Definition fl (s : bool) (m : positive) (e : Z) : spec_float :=
  S754_finite s (scale53 m) (e - (53 - digits m)).

Lemma round_scaled s m q k e : digits m <= 53 -> 0 <= k <= 200 -> -200 <= e <= 200 ->
  Z.pos q = Z.pos m * 2 ^ k -> b64_round s q e = fl s m (e + k).
Proof.
  intros Hm Hk He Hq. destruct (scale53_ok m Hm) as [Es Ds]. pose proof (digits_pos m) as Hd.
  pose proof (digits_shift m q k ltac:(lia) Hq) as Dq.
  unfold binary_round, shl_align. change (Z.pos (digits2_pos q)) with (digits q).
  rewrite Dq, fexp_mid by lia. unfold fl.
  replace (digits m + k + e - 53 - e) with (digits m + k - 53) by lia.
  destruct (digits m + k - 53) as [|d|d] eqn:Ed.
  - rewrite (round_aux_exact s (scale53 m) q 0); [f_equal; lia|done|lia|lia|].
    rewrite Es, Hq. replace (53 - digits m) with k by lia. lia.
  - rewrite (round_aux_exact s (scale53 m) q (Z.pos d)); [f_equal; lia|done|lia|lia|].
    rewrite Es, Hq, <- Z.mul_assoc, <- Z.pow_add_r by lia. f_equal. f_equal. lia.
  - rewrite (round_aux_exact s (scale53 m) _ 0); [f_equal; lia|done|lia|lia|].
    rewrite iter_xO, Es, Hq, <- Z.mul_assoc, <- Z.pow_add_r, Z.mul_1_r by lia.
    f_equal. f_equal. lia.
Qed.

Lemma digits_le m k : Z.pos m < 2 ^ k -> digits m <= k.
Proof.
  intros H. pose proof (digits_bounds m) as [Hb _].
  destruct (Z.le_gt_cases (digits m) k); [done|]. exfalso.
  assert (2 ^ k <= 2 ^ (digits m - 1)) by (apply Z.pow_le_mono_r; lia). lia.
Qed.

Lemma digits_mul m1 m2 :
  digits m1 + digits m2 - 1 <= digits (m1 * m2) <= digits m1 + digits m2.
Proof.
  pose proof (digits_bounds m1) as B1. pose proof (digits_bounds m2) as B2.
  pose proof (digits_pos m1). pose proof (digits_pos m2). split.
  - destruct (Z.le_gt_cases (digits m1 + digits m2 - 1) (digits (m1 * m2))) as [|Hlt]; [done|].
    exfalso. pose proof (digits_bounds (m1 * m2)) as [_ B].
    assert (2 ^ digits (m1 * m2) <= 2 ^ ((digits m1 - 1) + (digits m2 - 1)))
      by (apply Z.pow_le_mono_r; lia).
    rewrite Z.pow_add_r in * by lia. rewrite Pos2Z.inj_mul in B.
    assert (2 ^ (digits m1 - 1) * 2 ^ (digits m2 - 1) <= Z.pos m1 * Z.pos m2); [|lia].
    apply Z.mul_le_mono_nonneg; try lia; apply Z.pow_nonneg; lia.
  - apply digits_le. rewrite Pos2Z.inj_mul, Z.pow_add_r by lia.
    apply Z.mul_lt_mono_nonneg; lia || apply B1 || apply B2.
Qed.

Lemma fl_mul s1 s2 m1 m2 : digits m1 <= 53 -> digits m2 <= 53 -> digits (m1 * m2) <= 53 ->
  F64.mul (fl s1 m1 0) (fl s2 m2 0) = fl (xorb s1 s2) (m1 * m2) 0.
Proof.
  intros H1 H2 H. destruct (scale53_ok m1 H1) as [E1 D1], (scale53_ok m2 H2) as [E2 D2].
  destruct (scale53_ok _ H) as [E D]. pose proof (digits_pos m1). pose proof (digits_pos m2).
  pose proof (digits_pos (m1 * m2)).
  unfold F64.mul, F64.prec, F64.emax, fl, SFmul.
  pose proof (digits_mul m1 m2) as [Hge Hle].
  rewrite (round_aux_exact _ (scale53 (m1 * m2)) _ (53 + digits (m1 * m2) - digits m1 - digits m2));
    [f_equal; lia|done|lia|lia|].
  rewrite Pos2Z.inj_mul, E1, E2, E, Pos2Z.inj_mul.
  rewrite <- (Z.mul_assoc (Z.pos m1 * Z.pos m2)), <- Z.pow_add_r by lia.
  replace (53 - digits (m1 * m2) + (53 + digits (m1 * m2) - digits m1 - digits m2))
    with ((53 - digits m1) + (53 - digits m2)) by lia.
  rewrite Z.pow_add_r by lia. lia.
Qed.

Lemma shl_align_val m e e' : e' <= e ->
  Z.pos (fst (shl_align m e e')) = Z.pos m * 2 ^ (e - e').
Proof.
  intros He. unfold shl_align. destruct (e' - e) as [|d|d] eqn:Ed; [| lia|].
  - replace (e - e') with 0 by lia. cbn. lia.
  - cbn [fst]. rewrite iter_xO. f_equal. f_equal. lia.
Qed.

Lemma fl_add m1 m2 : digits m1 <= 53 -> digits m2 <= 53 -> digits (m1 + m2) <= 53 ->
  F64.add (fl false m1 0) (fl false m2 0) = fl false (m1 + m2) 0.
Proof.
  intros H1 H2 H. destruct (scale53_ok m1 H1) as [E1 D1], (scale53_ok m2 H2) as [E2 D2].
  pose proof (digits_pos m1). pose proof (digits_pos m2).
  unfold F64.add, F64.prec, F64.emax, fl, SFadd. cbn [cond_Zopp].
  set (e1 := 0 - (53 - digits m1)). set (e2 := 0 - (53 - digits m2)). set (ez := Z.min e1 e2).
  pose proof (shl_align_val (scale53 m1) e1 ez ltac:(lia)) as V1.
  pose proof (shl_align_val (scale53 m2) e2 ez ltac:(lia)) as V2.
  set (q1 := fst (shl_align (scale53 m1) e1 ez)) in *.
  set (q2 := fst (shl_align (scale53 m2) e2 ez)) in *.
  change (Z.pos q1 + Z.pos q2) with (Z.pos (q1 + q2)). cbn [binary_normalize].
  rewrite (round_scaled false (m1 + m2) (q1 + q2) (- ez)); [|done|lia|lia|].
  - unfold fl. f_equal. lia.
  - rewrite !Pos2Z.inj_add, V1, V2, E1, E2, Z.mul_add_distr_r.
    rewrite <- !Z.mul_assoc, <- !Z.pow_add_r by lia. do 2 f_equal; f_equal; lia.
Qed.

(** ** In terms of integers *)
Definition exact (z : Z) : Prop := Z.abs z < 2 ^ 53.

Lemma of_Z_fl m : digits m <= 53 ->
  F64.of_Z (Z.pos m) = fl false m 0 /\ F64.of_Z (Z.neg m) = fl true m 0.
Proof.
  intros H. unfold F64.of_Z, F64.prec, F64.emax. cbn [binary_normalize].
  by rewrite !(round_scaled _ m m 0 0) by lia.
Qed.

Lemma of_Z_0 : F64.of_Z 0 = S754_zero false.
Proof. done. Qed.

Lemma add_exact a b : 0 <= a -> 0 <= b -> exact (a + b) ->
  F64.add (F64.of_Z a) (F64.of_Z b) = F64.of_Z (a + b).
Proof.
  unfold exact. intros Ha Hb He.
  destruct a as [|a|a], b as [|b|b]; try lia; rewrite ?of_Z_0.
  - done.
  - rewrite Z.add_0_l, (proj1 (of_Z_fl b ltac:(apply digits_le; lia))). done.
  - rewrite Z.add_0_r, (proj1 (of_Z_fl a ltac:(apply digits_le; lia))). done.
  - rewrite (proj1 (of_Z_fl a ltac:(apply digits_le; lia))), (proj1 (of_Z_fl b ltac:(apply digits_le; lia))).
    change (Z.pos a + Z.pos b) with (Z.pos (a + b)) in *.
    rewrite (proj1 (of_Z_fl (a + b) ltac:(apply digits_le; lia))).
    apply fl_add; apply digits_le; lia.
Qed.

(** The product is exact; a zero takes the sign of the two factors. *)
Lemma mul_exact a b : 0 <= a -> 0 <= b -> exact a -> exact b -> exact (a * b) ->
  F64.mul (F64.of_Z a) (F64.of_Z b) = F64.of_Z (a * b).
Proof.
  unfold exact. intros Ha Hb Ea Eb He.
  destruct a as [|a|a], b as [|b|b]; try lia; rewrite ?of_Z_0.
  - done.
  - rewrite (proj1 (of_Z_fl b ltac:(apply digits_le; lia))). done.
  - rewrite (proj1 (of_Z_fl a ltac:(apply digits_le; lia))). done.
  - rewrite (proj1 (of_Z_fl a ltac:(apply digits_le; lia))), (proj1 (of_Z_fl b ltac:(apply digits_le; lia))).
    change (Z.pos a * Z.pos b) with (Z.pos (a * b)) in *.
    rewrite (proj1 (of_Z_fl (a * b) ltac:(apply digits_le; lia))).
    apply (fl_mul false false); apply digits_le; lia.
Qed.

(** Truncation gives the integer back. *)
Lemma trunc_of_Z z : exact z -> trunc (F64.of_Z z) = Some z.
Proof.
  unfold exact. intros Hz. destruct z as [|m|m]; [done| |].
  all: assert (digits m <= 53) as Hm by (apply digits_le; lia).
  all: destruct (of_Z_fl m Hm) as [Ep En]; destruct (scale53_ok m Hm) as [Es _];
    rewrite ?Ep, ?En; unfold fl, trunc; pose proof (digits_pos m) as Hd.
  all: destruct (Z.leb_spec 0 (0 - (53 - digits m))).
  all: rewrite Es; f_equal.
  all: try (replace (53 - digits m) with 0 by lia; cbn; lia).
  all: replace (- (0 - (53 - digits m))) with (53 - digits m) by lia; rewrite Z.div_mul; lia.
Qed.

Lemma digits_mono a b : Z.pos a <= Z.pos b -> digits a <= digits b.
Proof. intros H. rewrite !digits_log2. apply Zplus_le_compat_r, Z.log2_le_mono, H. Qed.

Lemma leb_exact a b : 0 <= a <= b -> exact b -> SFleb (F64.of_Z a) (F64.of_Z b) = true.
Proof.
  unfold exact. intros [Ha Hab] Hb. destruct a as [|a|a]; [|..|lia].
  - destruct b as [|b|b]; [done| |lia].
    by rewrite (proj1 (of_Z_fl b ltac:(apply digits_le; lia))).
  - destruct b as [|b|b]; try lia.
    rewrite (proj1 (of_Z_fl a ltac:(apply digits_le; lia))), (proj1 (of_Z_fl b ltac:(apply digits_le; lia))).
    pose proof (digits_mono a b Hab). unfold SFleb, fl. cbn [SFcompare].
    destruct (Z.compare_spec (0 - (53 - digits a)) (0 - (53 - digits b))); [|done|lia].
    destruct (scale53_ok a) as [Ea _]; [apply digits_le; lia|].
    destruct (scale53_ok b) as [Eb _]; [apply digits_le; lia|].
    fold (Pos.compare (scale53 a) (scale53 b)).
    assert (Z.pos (scale53 a) <= Z.pos (scale53 b)) as Hle.
    { rewrite Ea, Eb. replace (digits b) with (digits a) by lia.
      apply Z.mul_le_mono_nonneg_r; [apply Z.pow_nonneg; lia|done]. }
    destruct (Pos.compare_spec (scale53 a) (scale53 b)); try done. lia.
Qed.

Lemma sub_self s m e : F64.sub (S754_finite s m e) (S754_finite s m e) = S754_zero false.
Proof. unfold F64.sub, SFsub. by rewrite Z.sub_diag. Qed.
