(* ===== verification/FloatBound.v ===== *)
(** * Bounds that rounding keeps

    A power of two is a float, so rounding does not pass it: when the exact
    result of an operation is at most [2^k] in magnitude, so is the rounded one.
    This bounds the values computed from a sensor's reading. *)
From S2P Require Import Prelude Floats FloatExact.

(** The magnitude of a finite float is at most [2^k], or at least that. *)
Definition le_pow (k : Z) (x : spec_float) : Prop :=
  match x with S754_finite _ m e => Z.pos m <= 2 ^ (k - e) | _ => True end.
Definition ge_pow (k : Z) (x : spec_float) : Prop :=
  match x with S754_finite _ m e => e <= k /\ 2 ^ (k - e) <= Z.pos m | _ => True end.

(** What lies beyond the mantissa is less than one unit. *)
Definition excess (l : location) : Z := match l with loc_Exact => 0 | _ => 1 end.

Lemma pow_ge_1 j m : 1 <= m -> m <= 2 ^ j -> 0 <= j.
Proof. intros Hm H. destruct (Z.le_gt_cases 0 j); [done|]. rewrite Z.pow_neg_r in H by lia. lia. Qed.

Lemma pow_succ_l j : 1 <= j -> 2 ^ j = 2 * 2 ^ (j - 1).
Proof. intros H. rewrite <- Z.pow_succ_r by lia. f_equal. lia. Qed.

Lemma le_pow_mono k k' x : k <= k' -> le_pow k x -> le_pow k' x.
Proof.
  intros Hk. destruct x as [| | |s m e]; cbn; try done. intros H.
  etransitivity; [exact H|]. apply Z.pow_le_mono_r; lia.
Qed.

Lemma shr_1_bound r j : 0 <= shr_m r -> 1 <= j -> shr_m r + excess (loc_of_shr_record r) <= 2 ^ j ->
  0 <= shr_m (shr_1 r) /\ shr_m (shr_1 r) + excess (loc_of_shr_record (shr_1 r)) <= 2 ^ (j - 1).
Proof.
  intros Hm Hj. rewrite (pow_succ_l j Hj). assert (0 < 2 ^ (j - 1)) by (apply Z.pow_pos_nonneg; lia).
  destruct r as [m r s]. cbn [shr_m] in Hm. destruct m as [|[p|p|]|]; [| | | |lia];
    destruct r, s; cbn [shr_1 shr_m loc_of_shr_record excess orb]; lia.
Qed.

Lemma iter_shr_bound n : forall r j, 0 <= shr_m r -> Z.pos n <= j ->
  shr_m r + excess (loc_of_shr_record r) <= 2 ^ j ->
  0 <= shr_m (iter_pos shr_1 n r)
  /\ shr_m (iter_pos shr_1 n r) + excess (loc_of_shr_record (iter_pos shr_1 n r)) <= 2 ^ (j - Z.pos n).
Proof.
  induction n as [n IH|n IH|]; intros r j Hm Hj H; cbn [iter_pos].
  - destruct (shr_1_bound r j) as [H1 H2]; [done|lia|done|].
    destruct (IH _ (j - 1) H1) as [H3 H4]; [lia|done|].
    destruct (IH _ (j - 1 - Z.pos n) H3) as [H5 H6]; [lia|done|]. split; [done|].
    by replace (j - Z.pos n~1) with (j - 1 - Z.pos n - Z.pos n) by lia.
  - destruct (IH _ j Hm) as [H3 H4]; [lia|done|].
    destruct (IH _ (j - Z.pos n) H3) as [H5 H6]; [lia|done|]. split; [done|].
    by replace (j - Z.pos n~0) with (j - Z.pos n - Z.pos n) by lia.
  - by apply shr_1_bound.
Qed.

Lemma record_of_loc m l : shr_m (shr_record_of_loc m l) = m /\ loc_of_shr_record (shr_record_of_loc m l) = l.
Proof. by destruct l as [|[]]. Qed.

Lemma round_even_bound m l : 0 <= m -> 0 <= round_nearest_even m l <= m + excess l.
Proof. intros Hm. destruct l as [|[]]; cbn; try lia. destruct (Z.even m); lia. Qed.

(** The digits of a bounded number. *)
Lemma digits_le_pow m k e : Z.pos m <= 2 ^ (k - e) -> digits m + e <= k + 1.
Proof.
  intros H. pose proof (pow_ge_1 _ _ (ltac:(lia) : 1 <= Z.pos m) H). pose proof (digits_bounds m) as [Hb _].
  destruct (Z.le_gt_cases (digits m + e) (k + 1)); [done|]. exfalso.
  assert (2 ^ (k - e + 1) <= 2 ^ (digits m - 1)) by (apply Z.pow_le_mono_r; lia).
  rewrite Z.pow_add_r in * by lia. change (2 ^ 1) with 2 in *.
  assert (0 < 2 ^ (k - e)) by (apply Z.pow_pos_nonneg; lia). lia.
Qed.
Lemma digits_ge_pow m k e : e <= k -> 2 ^ (k - e) <= Z.pos m -> k + 1 <= digits m + e.
Proof.
  intros He H. pose proof (digits_bounds m) as [_ Hb].
  destruct (Z.le_gt_cases (k + 1) (digits m + e)); [done|]. exfalso.
  assert (2 ^ digits m <= 2 ^ (k - e)) by (apply Z.pow_le_mono_r; lia). lia.
Qed.

Section Format.
Context (prec emax : Z) (Hprec : 1 <= prec).

Lemma shr_fexp_bound m e l k : 0 <= m -> 1 <= m + excess l -> emin prec emax <= k -> m + excess l <= 2 ^ (k - e) ->
  let '(r, e') := shr_fexp prec emax m e l in
  0 <= shr_m r /\ shr_m r + excess (loc_of_shr_record r) <= 2 ^ (k - e').
Proof.
  intros Hm H1 Hk H. pose proof (pow_ge_1 _ _ H1 H) as Hj. unfold shr_fexp, shr.
  destruct (record_of_loc m l) as [Em El].
  assert (Hd : Zdigits2 m + e <= k + 1).
  { destruct m as [|p|]; cbn [Zdigits2]; [lia| |lia]. change (Z.pos (digits2_pos p)) with (digits p).
    apply digits_le_pow. destruct l; cbn [excess] in H; lia. }
  assert (Hf : fexp prec emax (Zdigits2 m + e) <= k) by (unfold fexp; lia).
  destruct (fexp prec emax (Zdigits2 m + e) - e) as [|n|n] eqn:En; try by rewrite Em, El.
  destruct (iter_shr_bound n (shr_record_of_loc m l) (k - e)) as [B1 B2]; [by rewrite Em|lia|by rewrite Em, El|].
  split; [done|]. by replace (k - (e + Z.pos n)) with (k - e - Z.pos n) by lia.
Qed.

Lemma shr_zero n : iter_pos shr_1 n (Build_shr_record 0 false false) = Build_shr_record 0 false false.
Proof. induction n as [n IH|n IH|]; cbn [iter_pos shr_1 orb]; [by rewrite !IH|by rewrite !IH|done]. Qed.

Lemma shr_fexp_zero e : exists e', shr_fexp prec emax 0 e loc_Exact = (Build_shr_record 0 false false, e').
Proof.
  unfold shr_fexp, shr. cbn [shr_record_of_loc]. destruct (_ - e) as [|n|n]; eexists; [done| |done]. by rewrite shr_zero.
Qed.

Lemma round_aux_le k s m e l : 0 <= m -> emin prec emax <= k -> m + excess l <= 2 ^ (k - e) ->
  le_pow k (binary_round_aux prec emax s m e l).
Proof.
  intros Hm Hk H. unfold binary_round_aux.
  destruct (decide (1 <= m + excess l)) as [H1|H1].
  2:{ assert (m = 0 /\ l = loc_Exact) as [-> ->] by (destruct l; cbn [excess] in H1; [split; [lia|done]|lia]).
      destruct (shr_fexp_zero e) as [e' ->]. cbn. by destruct (shr_fexp_zero e') as [e'' ->]. }
  pose proof (shr_fexp_bound m e l k Hm H1 Hk H) as B. destruct (shr_fexp prec emax m e l) as [r e'].
  destruct B as [B1 B2]. pose proof (round_even_bound (shr_m r) (loc_of_shr_record r) B1) as [R1 R2].
  set (m2 := round_nearest_even _ _) in *. destruct (decide (1 <= m2)) as [H2|H2].
  2:{ assert (m2 = 0) as -> by lia. by destruct (shr_fexp_zero e') as [e'' ->]. }
  pose proof (shr_fexp_bound m2 e' loc_Exact k R1) as B3. cbn [excess] in B3. rewrite Z.add_0_r in B3.
  specialize (B3 H2 Hk ltac:(lia)). destruct (shr_fexp prec emax m2 e' loc_Exact) as [r2 e2]. destruct B3 as [B3 B4].
  destruct (shr_m r2) as [|p|p] eqn:Er; [done| |done]. destruct (_ <=? _); [|done]. cbn [le_pow].
  destruct (loc_of_shr_record r2); cbn [excess] in B4; lia.
Qed.

(** Aligning to a smaller exponent. *)
Lemma shl_align_le m e e' k : e' <= e -> Z.pos m <= 2 ^ (k - e) ->
  Z.pos (fst (shl_align m e e')) <= 2 ^ (k - e').
Proof.
  intros He H. pose proof (pow_ge_1 _ _ (ltac:(lia) : 1 <= Z.pos m) H). unfold shl_align.
  destruct (e' - e) as [|d|d] eqn:Ed; [| lia|]; cbn [fst].
  - by replace e' with e by lia.
  - rewrite iter_xO. replace (k - e') with (k - e + Z.pos d) by lia. rewrite Z.pow_add_r by lia.
    apply Z.mul_le_mono_nonneg_r; [apply Z.pow_nonneg; lia|done].
Qed.

Lemma round_le k s m e : emin prec emax <= k -> Z.pos m <= 2 ^ (k - e) -> le_pow k (binary_round prec emax s m e).
Proof.
  intros Hk H. unfold binary_round. set (f := fexp prec emax _).
  destruct (shl_align m e f) as [m' e'] eqn:E. apply round_aux_le; [lia|done|]. cbn [excess]. rewrite Z.add_0_r.
  pose proof E as E'. unfold shl_align in E'. destruct (f - e) as [|d|d] eqn:Ed; injection E' as <- <-; try done.
  pose proof (shl_align_le m e f k ltac:(lia) H) as Ha. by rewrite E in Ha.
Qed.

Lemma normalize_le k m e z : emin prec emax <= k -> Z.abs m <= 2 ^ (k - e) -> le_pow k (binary_normalize prec emax m e z).
Proof. intros Hk H. destruct m as [|m|m]; [done| |]; by apply round_le. Qed.

Lemma mul_le a b x y : emin prec emax <= a + b -> le_pow a x -> le_pow b y -> le_pow (a + b) (SFmul prec emax x y).
Proof.
  destruct x as [| | |sx mx ex], y as [| | |sy my ey]; try done. cbn [le_pow SFmul]. intros Hk Hx Hy.
  apply round_aux_le; [lia|done|]. cbn [excess]. rewrite Z.add_0_r, Pos2Z.inj_mul.
  pose proof (pow_ge_1 _ _ (ltac:(lia) : 1 <= Z.pos mx) Hx). pose proof (pow_ge_1 _ _ (ltac:(lia) : 1 <= Z.pos my) Hy).
  replace (a + b - (ex + ey)) with ((a - ex) + (b - ey)) by lia. rewrite Z.pow_add_r by lia.
  apply Z.mul_le_mono_nonneg; lia.
Qed.

Lemma sum_le k x y f : (forall u v, Z.abs (f u v) <= Z.abs u + Z.abs v) -> emin prec emax <= k + 1 ->
  match x, y with
  | S754_finite sx mx ex, S754_finite sy my ey =>
      le_pow k x -> le_pow k y ->
      let ez := Z.min ex ey in
      le_pow (k + 1) (binary_normalize prec emax
        (f (cond_Zopp sx (Z.pos (fst (shl_align mx ex ez)))) (cond_Zopp sy (Z.pos (fst (shl_align my ey ez))))) ez false)
  | _, _ => True
  end.
Proof.
  intros Hf Hk. destruct x as [| | |sx mx ex], y as [| | |sy my ey]; try exact I. intros Hx Hy ez. cbn [le_pow] in Hx, Hy.
  apply normalize_le; [done|]. etransitivity; [apply Hf|].
  pose proof (shl_align_le mx ex ez k ltac:(lia) Hx). pose proof (shl_align_le my ey ez k ltac:(lia) Hy).
  pose proof (pow_ge_1 _ _ (ltac:(lia) : 1 <= Z.pos mx) Hx).
  replace (k + 1 - ez) with (k - ez + 1) by lia. rewrite Z.pow_add_r by lia. change (2 ^ 1) with 2.
  destruct sx, sy; cbn [cond_Zopp]; lia.
Qed.

Lemma add_le k x y : emin prec emax <= k + 1 -> le_pow k x -> le_pow k y -> le_pow (k + 1) (SFadd prec emax x y).
Proof.
  intros Hk Hx Hy. pose proof (sum_le k x y Z.add ltac:(lia) Hk) as H.
  destruct x as [[]|[]| |sx mx ex], y as [[]|[]| |sy my ey]; try done; cbn [SFadd];
    try by eapply le_pow_mono; [|eassumption]; lia. by apply H.
Qed.
Lemma sub_le k x y : emin prec emax <= k + 1 -> le_pow k x -> le_pow k y -> le_pow (k + 1) (SFsub prec emax x y).
Proof.
  intros Hk Hx Hy. pose proof (sum_le k x y Z.sub ltac:(lia) Hk) as H.
  destruct x as [[]|[]| |sx mx ex], y as [[]|[]| |sy my ey]; try done; cbn [SFsub];
    try by (cbn in *; etransitivity; [eassumption|]; apply Z.pow_le_mono_r; lia). by apply H.
Qed.

Lemma location_excess n r : 0 < n -> 0 <= r < n -> excess (new_location n r) = if r =? 0 then 0 else 1.
Proof.
  intros Hn Hr. unfold new_location, new_location_even, new_location_odd.
  destruct (Z.even n), (r =? 0); done.
Qed.

Lemma div_le a b x y : emin prec emax <= a - b -> le_pow a x -> ge_pow b y -> le_pow (a - b) (SFdiv prec emax x y).
Proof.
  destruct x as [| | |sx mx ex], y as [| | |sy my ey]; try done. intros Hk Hx [Hey Hy]. cbn [le_pow] in Hx. cbn [SFdiv].
  unfold SFdiv_core_binary. cbn [Zdigits2].
  change (Z.pos (digits2_pos mx)) with (digits mx). change (Z.pos (digits2_pos my)) with (digits my).
  pose proof (digits_le_pow _ _ _ Hx). pose proof (digits_ge_pow _ _ _ Hey Hy).
  set (e' := Z.min _ _). assert (He' : e' <= a - b /\ e' <= ex - ey) by (unfold e', fexp; lia).
  pose proof (pow_ge_1 _ _ (ltac:(lia) : 1 <= Z.pos mx) Hx) as Hax. clearbody e'.
  assert (Em : (match ex - ey - e' with Z.pos _ => Z.shiftl (Z.pos mx) (ex - ey - e') | Z0 => Z.pos mx | Z.neg _ => 0 end)
               = Z.pos mx * 2 ^ (ex - ey - e')).
  { destruct (ex - ey - e') as [|p|p] eqn:E; [by rewrite Z.mul_1_r|apply Z.shiftl_mul_pow2; lia|lia]. }
  rewrite Em. destruct (Z.div_eucl _ (Z.pos my)) as [q r] eqn:Eq.
  pose proof (Z_div_mod (Z.pos mx * 2 ^ (ex - ey - e')) (Z.pos my) ltac:(lia)) as Hqr. rewrite Eq in Hqr. destruct Hqr as [Hq Hr].
  assert (Hm : Z.pos mx * 2 ^ (ex - ey - e') <= Z.pos my * 2 ^ (a - b - e')).
  { transitivity (2 ^ (a - ex) * 2 ^ (ex - ey - e')); [apply Z.mul_le_mono_nonneg_r; [apply Z.pow_nonneg; lia|done]|].
    transitivity (2 ^ (b - ey) * 2 ^ (a - b - e')); [|apply Z.mul_le_mono_nonneg_r; [apply Z.pow_nonneg; lia|done]].
    rewrite <- !Z.pow_add_r by lia. apply Z.pow_le_mono_r; lia. }
  assert (0 <= q).
  { assert (0 <= Z.pos mx * 2 ^ (ex - ey - e')) by (apply Z.mul_nonneg_nonneg; [lia|apply Z.pow_nonneg; lia]). nia. }
  apply round_aux_le; [done|done|]. rewrite location_excess by lia.
  destruct (Z.eqb_spec r 0); nia.
Qed.

Lemma sqrt_le a x : emin prec emax <= a -> le_pow (2 * a) x -> le_pow a (SFsqrt prec emax x).
Proof.
  intros Hk. destruct x as [|[]| |[] m e]; try done. cbn [le_pow SFsqrt]. intros Hx. unfold SFsqrt_core_binary. cbn [Zdigits2].
  change (Z.pos (digits2_pos m)) with (digits m). pose proof (digits_le_pow _ _ _ Hx) as Hd.
  pose proof (Z.div2_div (digits m + e + 1)). pose proof (Z.div2_div e).
  set (e' := Z.min _ _). assert (He' : e' <= a /\ 2 * e' <= e) by (unfold e', fexp; lia). clearbody e'.
  pose proof (pow_ge_1 _ _ (ltac:(lia) : 1 <= Z.pos m) Hx) as Hax.
  assert (Em : (match e - 2 * e' with Z.pos _ => Z.shiftl (Z.pos m) (e - 2 * e') | Z0 => Z.pos m | Z.neg _ => 0 end)
               = Z.pos m * 2 ^ (e - 2 * e')).
  { destruct (e - 2 * e') as [|p|p] eqn:E; [by rewrite Z.mul_1_r|apply Z.shiftl_mul_pow2; lia|lia]. }
  rewrite Em. pose proof (Z.sqrtrem_spec (Z.pos m * 2 ^ (e - 2 * e'))) as Hs.
  destruct (Z.sqrtrem _) as [q r]. destruct Hs as [Hq Hr]; [apply Z.mul_nonneg_nonneg; [lia|apply Z.pow_nonneg; lia]|].
  assert (Hm : q * q + r <= 2 ^ (a - e') * 2 ^ (a - e')).
  { rewrite <- Hq. transitivity (2 ^ (2 * a - e) * 2 ^ (e - 2 * e'));
      [apply Z.mul_le_mono_nonneg_r; [apply Z.pow_nonneg; lia|done]|].
    rewrite <- !Z.pow_add_r by lia. apply Z.pow_le_mono_r; lia. }
  assert (0 <= q) by lia. assert (0 < 2 ^ (a - e')) by (apply Z.pow_pos_nonneg; lia).
  apply round_aux_le; [done|done|]. destruct (Z.eqb_spec r 0); cbn [excess]; nia.
Qed.

Lemma opp_le k x : le_pow k x -> le_pow k (SFopp x).
Proof. by destruct x. Qed.
Lemma opp_ge k x : ge_pow k x -> ge_pow k (SFopp x).
Proof. by destruct x. Qed.
Lemma round_to_le k x : emin prec emax <= k -> le_pow k x -> le_pow k (round_to prec emax x).
Proof. intros Hk. destruct x; try done. by apply round_le. Qed.
End Format.
