(* ===== verification/Registers.v ===== *)
(** * The Modbus holding-register map

    [usSRegHoldBuf] of components/net/freemodbus/port/user_mb_app.c is the
    relay's central shared store: the radio task writes node data into it, the
    overtime task clears it, the configuration task reads and writes its first
    words, and the Modbus slave serves it to the host.  Its layout is the set
    of addresses of Task/DataFrame.h. *)
From S2P Require Import Prelude.

Definition S_REG_HOLDING_START : Z := 0.
Definition S_REG_HOLDING_NREGS : Z := 3080.

Definition CONFIG_FLAG_ADDRESS : Z := 0x007.
Definition TEMPERATURE_FIRST_ADDRESS : Z := 0x008.
Definition VOLTAGE_FIRST_ADDRESS : Z := 0x108.
Definition LAUNCH_NUMBER_FIRAT_ADDRESS : Z := 0x208.
Definition NODE_STATUS_FIRST_ADDRESS : Z := 0x408.
Definition NODE_DEVICE_ID_FIRST_ADDRESS : Z := 0x708.
Definition MEASUREMENT_TYPE_FIRAT_ADDRESS : Z := 0x908.
Definition RECEIVING_MOMENT_FIRAT_ADDRESS : Z := 0xA08.

(** Well-formed contents: the declared length, every word a [USHORT]. *)
Definition regs_wf (b : list Z) : Prop :=
  length b = Z.to_nat S_REG_HOLDING_NREGS /\ Forall is_u16 b.
Definition regs_init : list Z := replicate (Z.to_nat S_REG_HOLDING_NREGS) 0.

Ltac reg_unfold :=
  unfold CONFIG_FLAG_ADDRESS, TEMPERATURE_FIRST_ADDRESS, VOLTAGE_FIRST_ADDRESS,
    LAUNCH_NUMBER_FIRAT_ADDRESS, NODE_STATUS_FIRST_ADDRESS,
    NODE_DEVICE_ID_FIRST_ADDRESS, MEASUREMENT_TYPE_FIRAT_ADDRESS,
    RECEIVING_MOMENT_FIRAT_ADDRESS, S_REG_HOLDING_NREGS, S_REG_HOLDING_START in *.

Lemma regs_init_wf : regs_wf regs_init.
Proof.
  split; [apply length_replicate|]. apply Forall_replicate. mlia.
Qed.

Lemma in_range_regs b i : regs_wf b -> (in_range b i <-> 0 <= i < S_REG_HOLDING_NREGS).
Proof. intros [H _]. unfold in_range. rewrite H. reg_unfold. lia. Qed.
Lemma regs_rd b i : regs_wf b -> 0 <= i < S_REG_HOLDING_NREGS -> is_u16 (rd b i).
Proof. intros H Hi. apply rd_Forall; [apply H|by apply in_range_regs]. Qed.
Lemma regs_upd b i x : regs_wf b -> is_u16 x -> regs_wf (upd b i x).
Proof.
  intros [H1 H2] Hx. split; [by rewrite length_upd|by apply Forall_upd].
Qed.
Lemma regs_set b i x : regs_wf b -> is_u16 x -> 0 <= i < S_REG_HOLDING_NREGS ->
  set b i x = Ok (upd b i x) /\ regs_wf (upd b i x).
Proof.
  intros. split; [apply set_in; by apply in_range_regs|by apply regs_upd].
Qed.
Lemma regs_get b i : regs_wf b -> 0 <= i < S_REG_HOLDING_NREGS ->
  get b i = Ok (rd b i).
Proof. intros. apply get_in. by apply in_range_regs. Qed.
#[export] Hint Resolve regs_upd regs_init_wf : machine.

(** ** 32-bit values kept in two consecutive registers, low word first

    The high word is shifted as an [int]; with its top bit set the value is the one
    the compilers of the board give (see the head of [Prelude]). *)
Definition read_pair (b : list Z) (a : Z) : res Z :=
  lo ← get b a; hi ← get b (a + 1);
  Ok (u32 (lo + Z.shiftl hi 16)).

Definition write_pair (b : list Z) (a v : Z) : res (list Z) :=
  b ← set b a (Z.land v 0x0000FFFF);
  set b (a + 1) (Z.shiftr (Z.land v 0xFFFF0000) 16).

(** The value the two registers hold. *)
Definition pair_at (b : list Z) (a : Z) : Z := rd b a + 65536 * rd b (a + 1).
Definition put_pair (b : list Z) (a v : Z) : list Z :=
  upd (upd b a (v mod 65536)) (a + 1) (v / 65536).

Lemma read_pair_ok b a : regs_wf b -> 0 <= a < S_REG_HOLDING_NREGS - 1 ->
  read_pair b a = Ok (pair_at b a) /\ is_u32 (pair_at b a).
Proof.
  intros Hb Ha. unfold read_pair, pair_at.
  pose proof (regs_rd b a Hb ltac:(lia)). pose proof (regs_rd b (a + 1) Hb ltac:(lia)).
  rewrite !regs_get by (done || lia). cbn. rewrite shiftl_16.
  split; [f_equal|]; mlia.
Qed.
Lemma write_pair_ok b a v : regs_wf b -> is_u32 v -> 0 <= a < S_REG_HOLDING_NREGS - 1 ->
  write_pair b a v = Ok (put_pair b a v) /\ regs_wf (put_pair b a v).
Proof.
  intros Hb Hv Ha. unfold write_pair, put_pair. rewrite land_ffff, hi16_of_mask by done.
  destruct (regs_set b a (v mod 65536)) as [-> Hb1]; [done|mlia|lia|]. cbn.
  apply regs_set; [done|mlia|lia].
Qed.
Lemma put_pair_same b a v : regs_wf b -> is_u32 v -> 0 <= a < S_REG_HOLDING_NREGS - 1 ->
  pair_at (put_pair b a v) a = v.
Proof.
  intros Hb Hv Ha. unfold pair_at, put_pair.
  rewrite rd_upd_ne, !rd_upd_eq by
    (try (apply in_range_upd); try (by apply in_range_regs; [done|lia]); lia).
  mlia.
Qed.
Lemma put_pair_other b a v j : 0 <= a -> 0 <= j -> j <> a -> j <> a + 1 ->
  rd (put_pair b a v) j = rd b j.
Proof. intros. unfold put_pair. by rewrite !rd_upd_ne by lia. Qed.

(** ** Layout: the registers that belong to node [n] *)
Definition node_regs (n : Z) : list Z :=
  [TEMPERATURE_FIRST_ADDRESS + n; VOLTAGE_FIRST_ADDRESS + n;
   NODE_STATUS_FIRST_ADDRESS + 2 + 3 * n;
   LAUNCH_NUMBER_FIRAT_ADDRESS + 2 * n; LAUNCH_NUMBER_FIRAT_ADDRESS + 1 + 2 * n;
   RECEIVING_MOMENT_FIRAT_ADDRESS + 2 * n; RECEIVING_MOMENT_FIRAT_ADDRESS + 1 + 2 * n].
Definition id_regs (n : Z) : list Z :=
  [NODE_DEVICE_ID_FIRST_ADDRESS + 2 * n; NODE_DEVICE_ID_FIRST_ADDRESS + 1 + 2 * n].

Lemma node_regs_bounds n a : is_u8 n -> a ∈ node_regs n ->
  CONFIG_FLAG_ADDRESS < a < S_REG_HOLDING_NREGS.
Proof. unfold node_regs. rewrite !elem_of_cons, elem_of_nil. reg_unfold. mlia. Qed.
Lemma id_regs_bounds n a : is_u8 n -> a ∈ id_regs n ->
  CONFIG_FLAG_ADDRESS < a < S_REG_HOLDING_NREGS.
Proof. unfold id_regs. rewrite !elem_of_cons, elem_of_nil. reg_unfold. mlia. Qed.
Lemma node_regs_disjoint n m a : is_u8 n -> is_u8 m -> a ∈ node_regs n ->
  a ∈ node_regs m -> n = m.
Proof. unfold node_regs. rewrite !elem_of_cons, !elem_of_nil. reg_unfold. mlia. Qed.
Lemma node_id_disjoint n m a : is_u8 n -> is_u8 m -> a ∈ node_regs n ->
  ~ a ∈ id_regs m.
Proof. unfold node_regs, id_regs. rewrite !elem_of_cons, !elem_of_nil. reg_unfold. mlia. Qed.
