(* ===== verification/DataFrame.v ===== *)
(** * Radio frames and the node table (Task/DataFrame.c)

    Validation of a 12-byte sensor frame, the conversions of its raw words
    into a device id, a temperature and a voltage, the lookup of the device id
    in the register map, and the five operations that store a node's data. *)
From S2P Require Import Prelude Floats Registers.

(** The function-pointer members of [struct NodeData]. *)
Inductive node_fn : Set :=
| FN_NULL | FN_GetDeviceNumber | FN_SaveTemperature | FN_SaveVoltage
| FN_SaveSignalStrength | FN_SaveLaunchNumber | FN_SaveReceiveTime.
#[global] Instance node_fn_eq_dec : EqDecision node_fn.
Proof. solve_decision. Defined.

Record NodeData := mkNodeData {
  isDataValid : bool;
  deviceId : Z;
  temperatureValue : spec_float;
  voltageValue : spec_float;
  deviceNumber : Z;
  RSSI_Value : Z;
  LQI_Value : Z;
  getDeviceNumber : node_fn;
  saveTemperature : node_fn;
  saveVoltage : node_fn;
  saveSignalStrength : node_fn;
  saveLaunchNumber : node_fn;
  saveReceiveTime : node_fn }.

(** Assignments to one member. *)
Definition set_valid (v : bool) (n : NodeData) : NodeData :=
  mkNodeData v (deviceId n) (temperatureValue n) (voltageValue n) (deviceNumber n)
    (RSSI_Value n) (LQI_Value n) (getDeviceNumber n) (saveTemperature n)
    (saveVoltage n) (saveSignalStrength n) (saveLaunchNumber n) (saveReceiveTime n).
Definition set_signal (rssi lqi : Z) (n : NodeData) : NodeData :=
  mkNodeData (isDataValid n) (deviceId n) (temperatureValue n) (voltageValue n)
    (deviceNumber n) rssi lqi (getDeviceNumber n) (saveTemperature n)
    (saveVoltage n) (saveSignalStrength n) (saveLaunchNumber n) (saveReceiveTime n).
Definition set_measures (id : Z) (t v : spec_float) (n : NodeData) : NodeData :=
  mkNodeData (isDataValid n) id t v (deviceNumber n)
    (RSSI_Value n) (LQI_Value n) (getDeviceNumber n) (saveTemperature n)
    (saveVoltage n) (saveSignalStrength n) (saveLaunchNumber n) (saveReceiveTime n).
Definition set_number (k : Z) (n : NodeData) : NodeData :=
  mkNodeData (isDataValid n) (deviceId n) (temperatureValue n) (voltageValue n) k
    (RSSI_Value n) (LQI_Value n) (getDeviceNumber n) (saveTemperature n)
    (saveVoltage n) (saveSignalStrength n) (saveLaunchNumber n) (saveReceiveTime n).

Definition NodeDataStructInit (n : NodeData) : NodeData :=
  mkNodeData false (deviceId n) (temperatureValue n) (voltageValue n) (deviceNumber n)
    (RSSI_Value n) (LQI_Value n) FN_GetDeviceNumber FN_SaveTemperature FN_SaveVoltage
    FN_SaveSignalStrength FN_SaveLaunchNumber FN_SaveReceiveTime.

(** ** Frame decoding *)

(** The accumulating loop of [CheckSum]: [result] is a [uint16_t]. *)
Definition sum_bytes (data : list Z) (n : Z) : res Z :=
  for_loop (Z.to_nat n) 0 (fun i result => d ← get data i; Ok (u16 (result + d))) 0.

Definition CheckSum (data : list Z) (lenth : Z) : res Z :=
  result ← sum_bytes data (lenth - 2);
  hi ← get data (lenth - 2);
  if hi =? Z.shiftr (Z.land result 0xFF00) 8 then
    lo ← get data (lenth - 1);
    if lo =? Z.land result 0x00FF then Ok 0 else Ok 1
  else Ok 1.

(** [data[0] << 24] shifts an [int] into its sign bit when the top bit of the id
    is set: undefined in C, the shifted bit pattern with the compilers of the
    board (see the head of [Prelude]). *)
Definition CalculateDeviceId (data : list Z) (off : Z) : res Z :=
  d0 ← get data off; d1 ← get data (off + 1);
  d2 ← get data (off + 2); d3 ← get data (off + 3);
  Ok (u32 (Z.shiftl d0 24 + Z.shiftl d1 16 + Z.shiftl d2 8 + d3)).

Definition volts_per_count : spec_float := F64.div (F64.of_Z 2500) (F64.of_Z 1023).

(** The two float formulas on the 16-bit raw word. *)
Definition voltage_of_raw (voltageInt : Z) : spec_float :=
  float_of_double
    (F64.mul (F64.mul (F64.of_Z voltageInt) volts_per_count) (F64.of_Z 2)).

Definition temperature_of_raw (temperatureInt : Z) : spec_float :=
  let temperatureFloat :=
    float_of_double (F64.mul (F64.of_Z temperatureInt) volts_per_count) in
  let k := F64.lit 176 100000 in
  let c := F64.lit 5506 1000 in
  let disc :=
    F64.add (F64.square (SFopp c))
      (F64.mul (F64.mul (F64.of_Z 4) k)
         (F64.sub (F64.lit 8706 10) (double_of_float temperatureFloat))) in
  float_of_double
    (F64.add
       (F64.div (F64.sub c (F64.sqrt disc)) (F64.mul (F64.of_Z 2) (SFopp k)))
       (F64.of_Z 30)).

Definition CalculateVolatge (data : list Z) (off : Z) : res spec_float :=
  d0 ← get data off; d1 ← get data (off + 1);
  Ok (voltage_of_raw (u16 (Z.shiftl d0 8 + d1))).

Definition CalculateTemperature (data : list Z) (off : Z) : res spec_float :=
  d0 ← get data off; d1 ← get data (off + 1);
  Ok (temperature_of_raw (u16 (Z.shiftl d0 8 + d1))).

(** [value] is what [Read_RSSI_LQI_Register] returns. *)
Definition CalculateSignalStrength (value : Z * Z) (n : NodeData) : NodeData :=
  let '(v0, v1) := value in
  let RSSI_offset := 75 in
  let rssi :=
    if 128 <=? v0
    then s8 (s8 (Z.quot (s8 (v0 - 256)) 2) - RSSI_offset)
    else s8 (v0 / 2 - RSSI_offset) in
  set_signal rssi (Z.land v1 0x7F) n.

Definition DataFrameAnalysis (sourceData : list Z) (value : Z * Z) (n : NodeData)
  : res (Z * NodeData) :=
  head ← get sourceData 0;
  if head =? 0x5A then
    c ← CheckSum sourceData 12;
    if c =? 0 then
      let n := CalculateSignalStrength value n in
      id ← CalculateDeviceId sourceData 2;
      t ← CalculateTemperature sourceData 6;
      v ← CalculateVolatge sourceData 8;
      Ok (0, set_valid true (set_measures id t v n))
    else Ok (1, n)
  else Ok (2, n).

(** ** Device lookup *)
Fixpoint scan_ids (fuel : nat) (i : Z) (regs : list Z) (id : Z) : res (option Z) :=
  match fuel with
  | O => Ok None
  | S fuel' =>
      x ← read_pair regs (NODE_DEVICE_ID_FIRST_ADDRESS + 2 * i);
      if id =? x then Ok (Some i) else scan_ids fuel' (i + 1) regs id
  end.

Definition GetDeviceNumber (regs : list Z) (n : NodeData) : res (Z * NodeData) :=
  found ← scan_ids 256 0 regs (deviceId n);
  match found with
  | Some i => Ok (0, set_number (u8 i) n)
  | None => Ok (1, n)
  end.

(** ** Stores into the register map *)
Definition temperatureFormat (t : spec_float) : res Z :=
  if SFltb (S754_zero false) t then cast_u16 (F32.mul t (F32.of_Z 10))
  else
    temp ← cast_s16 (SFopp t);
    Ok (u16 (2000 + u16 (temp * 10))).

Definition SaveTemperature (n : NodeData) (regs : list Z) : res (list Z) :=
  if isDataValid n then
    f ← temperatureFormat (temperatureValue n);
    set regs (TEMPERATURE_FIRST_ADDRESS + deviceNumber n) f
  else Ok regs.

Definition SaveVoltage (n : NodeData) (regs : list Z) : res (list Z) :=
  if isDataValid n then
    voltage ← cast_s16 (voltageValue n);
    set regs (VOLTAGE_FIRST_ADDRESS + deviceNumber n) (u16 voltage)
  else Ok regs.

(** The strength is negative and is shifted as an [int] (see the head of [Prelude]). *)
Definition SaveSignalStrength (n : NodeData) (regs : list Z) : res (list Z) :=
  if isDataValid n then
    set regs (NODE_STATUS_FIRST_ADDRESS + 2 + 3 * deviceNumber n)
      (u16 (Z.shiftl (RSSI_Value n) 8 + LQI_Value n))
  else Ok regs.

Definition SaveLaunchNumber (n : NodeData) (regs : list Z) : res (list Z) :=
  if isDataValid n then
    launchNumber ← read_pair regs (LAUNCH_NUMBER_FIRAT_ADDRESS + 2 * deviceNumber n);
    write_pair regs (LAUNCH_NUMBER_FIRAT_ADDRESS + 2 * deviceNumber n)
      (u32 (launchNumber + 1))
  else Ok regs.

(** [receiveTime] is the value of [GetNodeOvertime]. *)
Definition SaveReceiveTime (receiveTime : Z) (n : NodeData) (regs : list Z) : res (list Z) :=
  if isDataValid n then
    write_pair regs (RECEIVING_MOMENT_FIRAT_ADDRESS + 2 * deviceNumber n) receiveTime
  else Ok regs.

(** A call through a function-pointer member. *)
Definition call_save (f : node_fn) (now : Z) (n : NodeData) (regs : list Z) : res (list Z) :=
  match f with
  | FN_SaveTemperature => SaveTemperature n regs
  | FN_SaveVoltage => SaveVoltage n regs
  | FN_SaveSignalStrength => SaveSignalStrength n regs
  | FN_SaveLaunchNumber => SaveLaunchNumber n regs
  | FN_SaveReceiveTime => SaveReceiveTime now n regs
  | _ => Fault NullDeref
  end.
Definition call_get (f : node_fn) (regs : list Z) (n : NodeData) : res (Z * NodeData) :=
  match f with
  | FN_GetDeviceNumber => GetDeviceNumber regs n
  | _ => Fault NullDeref
  end.

(** ** Specifications *)

(** A received buffer: the 12 bytes the frame format has. *)
Definition frame_shape (f : list Z) : Prop := length f = 12%nat /\ Forall is_u8 f.

Fixpoint byte_sum (f : list Z) (n : nat) : Z :=
  match n with O => 0 | S k => byte_sum f k + rd f (Z.of_nat k) end.
Definition be16 (f : list Z) (off : Z) : Z := 256 * rd f off + rd f (off + 1).
Definition be32 (f : list Z) (off : Z) : Z := 65536 * be16 f off + be16 f (off + 2).

(** The exact value [floor (k * |x|)] of a finite float. *)
Definition abs_scaled (k : Z) (x : spec_float) : Z :=
  match x with
  | S754_finite _ m e => if 0 <=? e then k * Z.pos m * 2 ^ e else k * Z.pos m / 2 ^ (- e)
  | _ => 0
  end.

Definition is_finite (x : spec_float) : bool :=
  match x with S754_zero _ | S754_finite _ _ _ => true | _ => false end.
(** The exact value of a finite single-precision float, in units of [2^-149]. *)
Definition units149 (x : spec_float) : Z :=
  match x with
  | S754_finite s m e => (if s then -1 else 1) * Z.pos m * 2 ^ (e + 149)
  | _ => 0
  end.

(** A sensor frame as the transmitters build it: header, type byte, id, raw
    temperature, raw voltage and the big-endian sum of the ten bytes. *)
Definition frame_body (typ id traw vraw : Z) : list Z :=
  [0x5A; typ; id / 16777216 mod 256; id / 65536 mod 256; id / 256 mod 256; id mod 256;
   traw / 256; traw mod 256; vraw / 256; vraw mod 256].
Definition encode_frame (typ id traw vraw : Z) : list Z :=
  let b := frame_body typ id traw vraw in
  let s := byte_sum b 10 in b ++ [s / 256; s mod 256].

(** ** Lemmas *)
Lemma byte_sum_bound f n : Forall is_u8 f -> (n <= length f)%nat ->
  0 <= byte_sum f n <= 255 * Z.of_nat n.
Proof.
  intros Hf. induction n as [|n IH]; cbn [byte_sum]; intros Hn; [lia|].
  assert (is_u8 (rd f (Z.of_nat n))) by (apply rd_Forall; [done|unfold in_range; lia]).
  specialize (IH ltac:(lia)). mlia.
Qed.

Lemma sum_bytes_ok f n : Forall is_u8 f -> 0 <= n <= 257 -> n <= Z.of_nat (length f) ->
  sum_bytes f n = Ok (byte_sum f (Z.to_nat n)).
Proof.
  intros Hf Hn Hl. unfold sum_bytes.
  destruct (for_loop_inv (fun i r => r = byte_sum f (Z.to_nat i))
    (fun i result => d ← get f i; Ok (u16 (result + d))) (Z.to_nat n) 0 0)
    as (s & -> & Hs); [done| |].
  - intros i t Hi ->. rewrite get_in by (unfold in_range; lia). cbn.
    eexists. split; [done|].
    replace (Z.to_nat (i + 1)) with (S (Z.to_nat i)) by lia. cbn [byte_sum].
    rewrite Z2Nat.id by lia.
    pose proof (byte_sum_bound f (S (Z.to_nat i)) Hf ltac:(lia)) as Hb.
    cbn [byte_sum] in Hb. rewrite Z2Nat.id in Hb by lia. rewrite u16_id; mlia.
  - f_equal. rewrite Hs. do 2 f_equal. lia.
Qed.

Lemma byte_at f i : frame_shape f -> 0 <= i < 12 -> get f i = Ok (rd f i) /\ is_u8 (rd f i).
Proof.
  intros [Hl Hf] Hi. assert (in_range f i) by (unfold in_range; rewrite Hl; lia).
  split; [by apply get_in|by apply rd_Forall].
Qed.

(** Reads the bytes of the frame in the goal. *)
Ltac read_bytes Hf :=
  repeat match goal with
  | |- context [get ?f ?i] =>
      let H := fresh "Hg" in let B := fresh "Hb" in
      destruct (byte_at f i Hf ltac:(lia)) as [H B]; rewrite H; clear H; cbn
  end.

Lemma CheckSum_ok f : frame_shape f ->
  CheckSum f 12 = Ok (if byte_sum f 10 =? 256 * rd f 10 + rd f 11 then 0 else 1).
Proof.
  intros Hf. unfold CheckSum. destruct (Hf) as [Hl HF].
  rewrite sum_bytes_ok by (done || rewrite ?Hl; lia).
  pose proof (byte_sum_bound f 10 HF ltac:(lia)).
  replace (Z.to_nat (12 - 2)) with 10%nat by lia. rewrite bind_ret_l.
  rewrite hi8_of_mask, land_ff by mlia.
  replace (12 - 2) with 10 by lia. replace (12 - 1) with 11 by lia.
  destruct (byte_at f 10 Hf ltac:(lia)) as [-> B1].
  destruct (byte_at f 11 Hf ltac:(lia)) as [E2 B2]. rewrite bind_ret_l.
  destruct (Z.eqb_spec (byte_sum f 10) (256 * rd f 10 + rd f 11)) as [E|E].
  - rewrite E in *. replace (rd f 10 =? _) with true by mlia.
    rewrite E2, bind_ret_l. by replace (rd f 11 =? _) with true by mlia.
  - destruct (Z.eqb_spec (rd f 10) (byte_sum f 10 / 256)); [|done].
    rewrite E2, bind_ret_l. by replace (rd f 11 =? _) with false by mlia.
Qed.

Lemma be16_ok f off : frame_shape f -> 0 <= off <= 10 ->
  (d0 ← get f off; d1 ← get f (off + 1); Ok (u16 (Z.shiftl d0 8 + d1))) = Ok (be16 f off)
  /\ is_u16 (be16 f off).
Proof.
  intros Hf Ho. unfold be16. read_bytes Hf. rewrite shiftl_8.
  split; [f_equal|]; mlia.
Qed.

Lemma CalculateDeviceId_ok f off : frame_shape f -> 0 <= off <= 8 ->
  CalculateDeviceId f off = Ok (be32 f off) /\ is_u32 (be32 f off).
Proof.
  intros Hf Ho. unfold CalculateDeviceId, be32, be16. read_bytes Hf.
  replace (off + 2 + 1) with (off + 3) by lia.
  rewrite shiftl_8, shiftl_16, shiftl_24. split; [f_equal|]; mlia.
Qed.

Lemma CalculateTemperature_ok f off : frame_shape f -> 0 <= off <= 10 ->
  CalculateTemperature f off = Ok (temperature_of_raw (be16 f off)).
Proof.
  intros Hf Ho. unfold CalculateTemperature.
  destruct (be16_ok f off Hf Ho) as [H _]. bind_inv H.
  rewrite Ha, bind_ret_l, Ha0, bind_ret_l. by injection H as ->.
Qed.
Lemma CalculateVolatge_ok f off : frame_shape f -> 0 <= off <= 10 ->
  CalculateVolatge f off = Ok (voltage_of_raw (be16 f off)).
Proof.
  intros Hf Ho. unfold CalculateVolatge.
  destruct (be16_ok f off Hf Ho) as [H _]. bind_inv H.
  rewrite Ha, bind_ret_l, Ha0, bind_ret_l. by injection H as ->.
Qed.

(** The outcome of the analysis, as a function of the frame. *)
Definition analysis_spec (f : list Z) (value : Z * Z) (n : NodeData) : Z * NodeData :=
  if rd f 0 =? 0x5A then
    if byte_sum f 10 =? be16 f 10 then
      (0, set_valid true
            (set_measures (be32 f 2) (temperature_of_raw (be16 f 6))
               (voltage_of_raw (be16 f 8)) (CalculateSignalStrength value n)))
    else (1, n)
  else (2, n).

Lemma analysis_ok f value n : frame_shape f ->
  DataFrameAnalysis f value n = Ok (analysis_spec f value n).
Proof.
  intros Hf. unfold DataFrameAnalysis, analysis_spec.
  destruct (byte_at f 0 Hf ltac:(lia)) as [-> _]. rewrite bind_ret_l.
  destruct (_ =? 90); [|done]. rewrite CheckSum_ok, bind_ret_l by done.
  change (be16 f 10) with (256 * rd f 10 + rd f 11).
  destruct (byte_sum f 10 =? 256 * rd f 10 + rd f 11); cbn [Z.eqb]; [|done].
  destruct (CalculateDeviceId_ok f 2 Hf ltac:(lia)) as [-> _]. rewrite bind_ret_l.
  rewrite CalculateTemperature_ok, bind_ret_l by (done || lia).
  by rewrite CalculateVolatge_ok, bind_ret_l by (done || lia).
Qed.

Lemma encode_frame_shape typ id traw vraw :
  is_u8 typ -> is_u16 traw -> is_u16 vraw -> frame_shape (encode_frame typ id traw vraw).
Proof.
  intros Ht Hr Hv. unfold encode_frame.
  assert (Forall is_u8 (frame_body typ id traw vraw)) as HF
    by (unfold frame_body; repeat constructor; mlia).
  split; [done|]. apply Forall_app. split; [done|].
  pose proof (byte_sum_bound _ 10 HF ltac:(cbn; lia)).
  repeat constructor; mlia.
Qed.

Lemma encode_frame_id_hi typ id traw vraw : is_u32 id ->
  be16 (encode_frame typ id traw vraw) 2 = id / 65536.
Proof.
  intros. transitivity (256 * (id / 16777216 mod 256) + id / 65536 mod 256);
    [reflexivity|mlia].
Qed.
Lemma encode_frame_id_lo typ id traw vraw :
  be16 (encode_frame typ id traw vraw) (2 + 2) = id mod 65536.
Proof. transitivity (256 * (id / 256 mod 256) + id mod 256); [reflexivity|mlia]. Qed.
Lemma encode_frame_temperature typ id traw vraw :
  be16 (encode_frame typ id traw vraw) 6 = traw.
Proof. transitivity (256 * (traw / 256) + traw mod 256); [reflexivity|mlia]. Qed.
Lemma encode_frame_voltage typ id traw vraw :
  be16 (encode_frame typ id traw vraw) 8 = vraw.
Proof. transitivity (256 * (vraw / 256) + vraw mod 256); [reflexivity|mlia]. Qed.

Lemma scan_ids_spec fuel i regs id : regs_wf regs -> 0 <= i -> i + Z.of_nat fuel <= 256 ->
  exists r, scan_ids fuel i regs id = Ok r /\
  match r with
  | Some k => i <= k < i + Z.of_nat fuel
      /\ pair_at regs (NODE_DEVICE_ID_FIRST_ADDRESS + 2 * k) = id
      /\ forall j, i <= j < k -> pair_at regs (NODE_DEVICE_ID_FIRST_ADDRESS + 2 * j) <> id
  | None => forall j, i <= j < i + Z.of_nat fuel ->
      pair_at regs (NODE_DEVICE_ID_FIRST_ADDRESS + 2 * j) <> id
  end.
Proof.
  intros Hr. revert i. induction fuel as [|fuel IH]; intros i Hi Hf; cbn [scan_ids].
  - exists None. split; [done|]. lia.
  - destruct (read_pair_ok regs (NODE_DEVICE_ID_FIRST_ADDRESS + 2 * i) Hr) as [-> _];
      [reg_unfold; lia|]. rewrite bind_ret_l.
    destruct (Z.eqb_spec id (pair_at regs (NODE_DEVICE_ID_FIRST_ADDRESS + 2 * i))) as [E|E].
    + exists (Some i). split; [done|]. split; [lia|]. split; [done|]. lia.
    + destruct (IH (i + 1)) as (r & -> & Hres); [lia|lia|]. exists r. split; [done|].
      destruct r as [k|].
      * destruct Hres as (H1 & H2 & H3). split; [lia|]. split; [done|].
        intros j Hj. destruct (decide (j = i)) as [->|]; [congruence|]. apply H3. lia.
      * intros j Hj. destruct (decide (j = i)) as [->|]; [congruence|]. apply Hres. lia.
Qed.

(** One evaluation of the conversion table of the 10-bit converter: value of
    the register, documented range, finiteness and monotonicity. *)
Definition table_row (raw : Z) : bool :=
  let t := temperature_of_raw raw in
  let t' := temperature_of_raw (raw + 1) in
  let above := SFltb (S754_zero false) t in
  match temperatureFormat t with
  | Ok v =>
      (v =? (if above then abs_scaled 10 t else 2000 + 10 * abs_scaled 1 t))
      && (if above then (0 <=? v) && (v <? 2000)
          else (2000 <=? v) && ((v <=? 2500) || (534 <? raw)))
      && is_finite t && (units149 t' <=? units149 t)
  | Fault _ => false
  end.

Lemma table_row_10bit raw : 0 <= raw < 1024 -> table_row raw = true.
Proof. intros. by_enumeration 1024%nat raw. Qed.

Lemma temperatureFormat_table raw : 0 <= raw < 1024 ->
  temperatureFormat (temperature_of_raw raw)
  = Ok (if SFltb (S754_zero false) (temperature_of_raw raw)
        then abs_scaled 10 (temperature_of_raw raw)
        else 2000 + 10 * abs_scaled 1 (temperature_of_raw raw)).
Proof.
  intros Hr.
  pose proof (table_row_10bit raw Hr) as H. unfold table_row in H. cbv zeta in H |- *.
  destruct (temperatureFormat _) as [v|]; [|done]. f_equal.
  rewrite !andb_true_iff in H. lia.
Qed.

Lemma voltage_table raw : 0 <= raw < 1024 ->
  cast_s16 (voltage_of_raw raw) = Ok (raw * 5000 / 1023).
Proof.
  intros Hr.
  assert ((match cast_s16 (voltage_of_raw raw) with
           | Ok v => v =? raw * 5000 / 1023 | Fault _ => false end) = true) as H.
  { by_enumeration 1024%nat raw. }
  destruct (cast_s16 _); [|done]. f_equal. lia.
Qed.

(** What the analysis of a transmitter's frame yields. *)
Lemma encode_accepted typ id traw vraw value n :
  is_u8 typ -> is_u32 id -> is_u16 traw -> is_u16 vraw ->
  DataFrameAnalysis (encode_frame typ id traw vraw) value n
  = Ok (0, set_valid true (set_measures id (temperature_of_raw traw) (voltage_of_raw vraw)
                             (CalculateSignalStrength value n))).
Proof.
  intros Ht Hi Hr Hv. rewrite analysis_ok by by apply encode_frame_shape.
  unfold analysis_spec.
  assert (byte_sum (encode_frame typ id traw vraw) 10 =
          byte_sum (frame_body typ id traw vraw) 10) as E1 by done.
  pose proof (encode_frame_shape typ id traw vraw Ht Hr Hv) as [_ HF].
  pose proof (byte_sum_bound _ 10 HF ltac:(cbn; lia)) as Hb. rewrite E1 in *.
  assert (be16 (encode_frame typ id traw vraw) 10 =
          byte_sum (frame_body typ id traw vraw) 10) as E2.
  { unfold be16, encode_frame. change (rd _ 10) with
      (byte_sum (frame_body typ id traw vraw) 10 / 256).
    change (rd _ (10 + 1)) with (byte_sum (frame_body typ id traw vraw) 10 mod 256).
    mlia. }
  change (rd (encode_frame typ id traw vraw) 0) with 0x5A.
  rewrite E2, !Z.eqb_refl. 
  unfold be32. rewrite !encode_frame_id_hi, !encode_frame_id_lo, !encode_frame_temperature,
    !encode_frame_voltage by done.
  by replace (65536 * (id / 65536) + id mod 65536) with id by mlia.
Qed.

(** ** Properties *)

(** C8: [DataFrameAnalysis] on any 12-byte buffer never leaves the buffer and
    returns 2 for a wrong header, 1 for a wrong sum (in both cases leaving the
    node structure as it was), and otherwise 0 with the big-endian id, the
    converted temperature and voltage, the signal strength and the valid flag. *)
Theorem DataFrameAnalysis_correct f value n : frame_shape f ->
  DataFrameAnalysis f value n = Ok (analysis_spec f value n).
Proof. apply analysis_ok. Qed.

Definition sample_node : NodeData :=
  mkNodeData false 0 (S754_zero false) (S754_zero false) 0 0 0
    FN_NULL FN_NULL FN_NULL FN_NULL FN_NULL FN_NULL.

Lemma DataFrameAnalysis_correct_witness :
  DataFrameAnalysis [0x5A;1;0xAB;0xBA;0x5A;0xA5;1;100;2;0;3;0xC6] (200, 0x85) sample_node
  = Ok (analysis_spec [0x5A;1;0xAB;0xBA;0x5A;0xA5;1;100;2;0;3;0xC6] (200, 0x85) sample_node).
Proof.
  apply DataFrameAnalysis_correct. split; [reflexivity|]. repeat constructor; lia.
Defined.

(** A frame built by a transmitter for a 32-bit id and 16-bit raw words is
    accepted, and the decoded id, temperature and voltage are those of the
    transmitted words. *)
Theorem frame_roundtrip typ id traw vraw value n :
  is_u8 typ -> is_u32 id -> is_u16 traw -> is_u16 vraw ->
  exists n', DataFrameAnalysis (encode_frame typ id traw vraw) value n = Ok (0, n')
    /\ isDataValid n' = true /\ deviceId n' = id
    /\ temperatureValue n' = temperature_of_raw traw
    /\ voltageValue n' = voltage_of_raw vraw.
Proof.
  intros. rewrite encode_accepted by done. by eexists.
Qed.

Lemma frame_roundtrip_witness :
  exists n', DataFrameAnalysis (encode_frame 1 0xABBA5AA5 356 512) (200, 0x85) sample_node
      = Ok (0, n')
    /\ isDataValid n' = true /\ deviceId n' = 0xABBA5AA5
    /\ temperatureValue n' = temperature_of_raw 356
    /\ voltageValue n' = voltage_of_raw 512.
Proof. apply frame_roundtrip; vm_compute; (split; [discriminate|reflexivity]). Defined.

(** [GetDeviceNumber] searches the whole 256-entry id table: it returns 0
    and records the first entry that holds the node's id, or returns 1 and
    leaves the node unchanged when no entry holds it. *)
Theorem GetDeviceNumber_first regs n : regs_wf regs ->
  exists r n', GetDeviceNumber regs n = Ok (r, n') /\
  ((r = 0 /\ exists k, is_u8 k /\ n' = set_number k n
      /\ pair_at regs (NODE_DEVICE_ID_FIRST_ADDRESS + 2 * k) = deviceId n
      /\ forall j, 0 <= j < k ->
           pair_at regs (NODE_DEVICE_ID_FIRST_ADDRESS + 2 * j) <> deviceId n)
   \/ (r = 1 /\ n' = n /\ forall j, 0 <= j < 256 ->
           pair_at regs (NODE_DEVICE_ID_FIRST_ADDRESS + 2 * j) <> deviceId n)).
Proof.
  intros Hr. unfold GetDeviceNumber.
  destruct (scan_ids_spec 256 0 regs (deviceId n) Hr) as ([k|] & -> & H); [lia|lia| |].
  - destruct H as (H1 & H2 & H3). eexists _, _. split; [reflexivity|]. left.
    split; [done|]. exists k. rewrite u8_id by mlia. split; [mlia|done].
  - eexists _, _. split; [reflexivity|]. right. auto with lia.
Qed.

Lemma GetDeviceNumber_first_witness :
  regs_wf regs_init /\ exists r n', GetDeviceNumber regs_init sample_node = Ok (r, n') /\
  ((r = 0 /\ exists k, is_u8 k /\ n' = set_number k sample_node
      /\ pair_at regs_init (NODE_DEVICE_ID_FIRST_ADDRESS + 2 * k) = deviceId sample_node
      /\ forall j, 0 <= j < k ->
           pair_at regs_init (NODE_DEVICE_ID_FIRST_ADDRESS + 2 * j) <> deviceId sample_node)
   \/ (r = 1 /\ n' = sample_node /\ forall j, 0 <= j < 256 ->
           pair_at regs_init (NODE_DEVICE_ID_FIRST_ADDRESS + 2 * j) <> deviceId sample_node)).
Proof.
  split; [apply regs_init_wf|]. apply GetDeviceNumber_first, regs_init_wf.
Defined.

(** For every reading of the 10-bit converter the temperature register is
    defined: above zero it holds the exact number of tenths of a degree, at or
    below zero 2000 plus ten times the whole degrees, the tenths being lost
    before the scaling. *)
Theorem temperature_format_10bit raw : 0 <= raw < 1024 ->
  temperatureFormat (temperature_of_raw raw)
  = Ok (let t := temperature_of_raw raw in
        if SFltb (S754_zero false) t then abs_scaled 10 t else 2000 + 10 * abs_scaled 1 t).
Proof.
  intros Hr. by rewrite temperatureFormat_table.
Qed.

Lemma temperature_format_10bit_witness :
  temperatureFormat (temperature_of_raw 500)
  = Ok (let t := temperature_of_raw 500 in
        if SFltb (S754_zero false) t then abs_scaled 10 t else 2000 + 10 * abs_scaled 1 t).
Proof. apply (temperature_format_10bit 500). lia. Defined.

(** Every reading up to 534 counts (the sensor's range down to -50 degrees)
    is stored in the documented encoding: below 2000 above zero, between 2000
    and 2500 at or below zero. *)
Theorem temperature_encoding_range raw v : 0 <= raw <= 534 ->
  temperatureFormat (temperature_of_raw raw) = Ok v ->
  if SFltb (S754_zero false) (temperature_of_raw raw) then 0 <= v < 2000
  else 2000 <= v <= 2500.
Proof.
  intros Hr Hv.
  pose proof (table_row_10bit raw ltac:(lia)) as H. unfold table_row in H.
  rewrite Hv in H. cbv zeta in H. destruct (SFltb _ _); rewrite !andb_true_iff in H; lia.
Qed.

(** Over the readings of the 10-bit converter the computed temperature is
    finite and never increases with the reading, as the sensor's falling curve
    requires. *)
Theorem temperature_monotone a b : 0 <= a <= b -> b < 1024 ->
  is_finite (temperature_of_raw b) = true
  /\ units149 (temperature_of_raw b) <= units149 (temperature_of_raw a).
Proof.
  intros Ha Hb.
  assert (forall r, 0 <= r < 1024 -> is_finite (temperature_of_raw r) = true
    /\ units149 (temperature_of_raw (r + 1)) <= units149 (temperature_of_raw r)) as Hstep.
  { intros r Hr. pose proof (table_row_10bit r Hr) as H. unfold table_row in H.
    cbv zeta in H. destruct (temperatureFormat _); [|done].
    rewrite !andb_true_iff in H. split; [apply H|lia]. }
  split; [apply Hstep; lia|].
  replace b with (a + Z.of_nat (Z.to_nat (b - a))) in * by lia.
  destruct Ha as [Ha _]. generalize dependent (Z.to_nat (b - a)). intros k Hk. induction k as [|k IH].
  - by replace (a + Z.of_nat 0) with a by lia.
  - destruct (Hstep (a + Z.of_nat k) ltac:(lia)) as [_ Hs].
    replace (a + Z.of_nat (S k)) with (a + Z.of_nat k + 1) by lia.
    specialize (IH ltac:(lia)). lia.
Qed.

(** The temperature store stops being defined between two raw words, 2118
    and 2119: beyond it the argument of the square root is negative, the
    temperature is not a number and its conversion to an integer undefined. *)
Theorem temperature_defined_iff raw : 1990 <= raw < 2246 ->
  is_Ok (temperatureFormat (temperature_of_raw raw)) = (raw <=? 2118).
Proof.
  intros Hr. replace raw with (1990 + (raw - 1990)) by lia.
  assert (0 <= raw - 1990 < 256) as Hk by lia. revert Hk.
  generalize (raw - 1990). intros k Hk. apply Bool.eqb_prop. by_enumeration 256%nat k.
Qed.

Lemma temperature_defined_iff_witness :
  is_Ok (temperatureFormat (temperature_of_raw 2119)) = (2119 <=? 2118).
Proof. apply temperature_defined_iff. lia. Defined.

(** For every 10-bit reading the stored voltage is the exact integer part
    of [raw * 5000 / 1023] millivolts: the double arithmetic, the rounding to
    single precision and the cast lose nothing. *)
Theorem voltage_10bit raw : 0 <= raw < 1024 ->
  cast_s16 (voltage_of_raw raw) = Ok (raw * 5000 / 1023).
Proof. apply voltage_table. Qed.

Lemma voltage_10bit_witness : cast_s16 (voltage_of_raw 1023) = Ok (1023 * 5000 / 1023).
Proof. apply voltage_10bit. lia. Defined.

(** The signal strength is the CC1101 formula (two's-complement half minus
    75) whenever that fits a signed byte; for raw values 128 to 148 the formula
    is below -128 and the stored value is 256 too large, a positive number.
    The link quality is the low seven bits. *)
Lemma signal_strength_ok v0 v1 n : is_u8 v0 -> is_u8 v1 ->
  let dbm := (if 128 <=? v0 then Z.quot (v0 - 256) 2 else v0 / 2) - 75 in
  RSSI_Value (CalculateSignalStrength (v0, v1) n)
    = (if (128 <=? v0) && (v0 <=? 148) then dbm + 256 else dbm)
  /\ LQI_Value (CalculateSignalStrength (v0, v1) n) = v1 mod 128.
Proof.
  intros H0 H1 dbm. split; [|apply land_7f].
  apply Z.eqb_eq. subst dbm. by_enumeration 256%nat v0.
Qed.
