(* ===== verification/NodeTimer.v ===== *)
(** * The node clock (Task/Timer.c)

    A periodic one-second kernel timer increments a 32-bit counter; a node has
    timed out when the counter, read modulo 2^32, is at least [overtime] past
    the moment the node was last heard. *)
From S2P Require Import Prelude.

(** [NodeOvertimeTimerNumber] after one expiry of the timer. *)
Definition NodeOvertimeTiming (NodeOvertimeTimerNumber : Z) : Z :=
  u32 (NodeOvertimeTimerNumber + 1).
Definition GetNodeOvertime (NodeOvertimeTimerNumber : Z) : Z := NodeOvertimeTimerNumber.

Definition CheckOvertime (NodeOvertimeTimerNumber startTime overtime : Z) : Z :=
  let nowTime := GetNodeOvertime NodeOvertimeTimerNumber in
  if overtime <=? u32 (nowTime - startTime) then 1 else 0.

(** The clock after [k] expiries. *)
Definition clock_after (k : nat) (t : Z) : Z := Nat.iter k NodeOvertimeTiming t.

Lemma clock_after_spec k t : is_u32 t -> clock_after k t = u32 (t + Z.of_nat k).
Proof.
  intros Ht. unfold clock_after. induction k as [|k IH].
  - cbn. rewrite Z.add_0_r. symmetry. by apply u32_id.
  - rewrite Nat.iter_succ, IH. unfold NodeOvertimeTiming. mlia.
Qed.

(** The elapsed-time test is right across the wrap of the 32-bit counter:
    a node last heard at clock value [t] is reported as timed out after [k]
    seconds exactly when [k] is at least the limit, for every elapsed time
    below 2^32 seconds. *)
Theorem CheckOvertime_elapsed t overtime k : is_u32 t ->
  Z.of_nat k < 4294967296 ->
  CheckOvertime (clock_after k t) t overtime
  = if overtime <=? Z.of_nat k then 1 else 0.
Proof.
  intros Ht Hk. unfold CheckOvertime, GetNodeOvertime. rewrite clock_after_spec by done.
  by replace (u32 (u32 (t + Z.of_nat k) - t)) with (Z.of_nat k) by mlia.
Qed.

Lemma CheckOvertime_elapsed_witness :
  CheckOvertime (clock_after 60 4294967290) 4294967290 60 = if 60 <=? Z.of_nat 60 then 1 else 0.
Proof. apply CheckOvertime_elapsed; vm_compute; [split; [discriminate|reflexivity]|reflexivity]. Defined.
