(* ===== verification/CC1101.v ===== *)
(** * The CC1101 radio driver (Task/drivers/CC1101.c, DriverSPI.c)

    The chip and the microcontroller's pins are hardware: a class gives the
    operations the driver performs on them.  Each driver function is a
    computation over the hardware state; a busy-wait is bounded by [polls],
    the number of times the level may be sampled before the model reports
    [Hang]. *)
From S2P Require Import Prelude.

Definition WRITE_BURST : Z := 0x40.
Definition READ_SINGLE : Z := 0x80.
Definition READ_BURST : Z := 0xC0.
Definition BYTES_IN_RXFIFO : Z := 0x7F.
Definition CRC_OK : Z := 0x80.

Definition CCxxx0_SRES : Z := 0x30.
Definition CCxxx0_SRX : Z := 0x34.
Definition CCxxx0_STX : Z := 0x35.
Definition CCxxx0_SFRX : Z := 0x3A.
Definition CCxxx0_SFTX : Z := 0x3B.
Definition CCxxx0_RXBYTES : Z := 0x3B.
Definition CCxxx0_PATABLE : Z := 0x3E.
Definition CCxxx0_TXFIFO : Z := 0x3F.
Definition CCxxx0_RXFIFO : Z := 0x3F.

(** [RF_SETTINGS] of CC1101.h, in its order, and the constant [rfSettings]. *)
Record RF_SETTINGS := mkRF {
  FSCTRL2 : Z; FSCTRL1 : Z; FSCTRL0 : Z; FREQ2 : Z; FREQ1 : Z; FREQ0 : Z;
  MDMCFG4 : Z; MDMCFG3 : Z; MDMCFG2 : Z; MDMCFG1 : Z; MDMCFG0 : Z; CHANNR :
  Z; DEVIATN : Z; FREND1 : Z; FREND0 : Z; MCSM0 : Z; FOCCFG : Z; BSCFG : Z;
  AGCCTRL2 : Z; AGCCTRL1 : Z; AGCCTRL0 : Z; FSCAL3 : Z; FSCAL2 : Z; FSCAL1 :
  Z; FSCAL0 : Z; FSTEST : Z; TEST2 : Z; TEST1 : Z; TEST0 : Z; IOCFG2 : Z;
  IOCFG0 : Z; PKTCTRL1 : Z; PKTCTRL0 : Z; ADDR : Z; PKTLEN : Z }.

Definition rfSettings : RF_SETTINGS :=
  mkRF 0x00 0x08 0x00 0x10 0xA7 0x62 0x5B 0xF8 0x03 0x22 0xF8 0x01 0x47 0xB6
    0x10 0x18 0x1D 0x1C 0xC7 0x00 0xB2 0xEA 0x2A 0x00 0x11 0x59 0x81 0x35
    0x09 0x0B 0x06 0x04 0x05 0x00 0x50.

(** What the driver does to the hardware: a full-duplex SPI byte, the levels of
    MISO and GDO0, the chip-select pin, a delay, and the two peripheral
    initialisations. *)
Class Radio (W : Type) := {
  spi_transfer : Z -> W -> Z * W;
  pin_MISO : W -> bool * W;
  pin_GDO0 : W -> bool * W;
  pin_CSn : bool -> W -> W;
  delay : Z -> W -> W;
  spi2_peripheral_init : W -> W;
  gpio_init : W -> W }.

Definition drv (W A : Type) : Type := W -> res (A * W).
#[global] Instance drv_ret {W} : MRet (drv W) := fun A a w => Ok (a, w).
#[global] Instance drv_bind {W} : MBind (drv W) :=
  fun A B f m w => match m w with Ok (a, w') => f a w' | Fault e => Fault e end.

Definition drv_lift {W A} (m : res A) : drv W A :=
  fun w => match m with Ok a => Ok (a, w) | Fault e => Fault e end.
Definition drv_do {W} (f : W -> W) : drv W unit := fun w => Ok (tt, f w).

Section Driver.
Context {W : Type} `{Radio W}.
Variable polls : nat.

Definition SPI2_ReadWriteByte (TxData : Z) : drv W Z :=
  fun w => let '(r, w') := spi_transfer TxData w in Ok (u8 r, w').
Definition CSn (b : bool) : drv W unit := drv_do (pin_CSn b).
Definition MISO : drv W bool := fun w => Ok (pin_MISO w).
Definition GDO0 : drv W bool := fun w => Ok (pin_GDO0 w).
Definition delay_us (n : Z) : drv W unit := drv_do (delay n).

(** [while (pin == level);] *)
Fixpoint wait_while (fuel : nat) (pin : drv W bool) (level : bool) : drv W unit :=
  match fuel with
  | O => drv_lift (Fault Hang)
  | S f => b ← pin; if Bool.eqb b level then wait_while f pin level else mret tt
  end.
Definition wait_MISO : drv W unit := wait_while polls MISO true.

Definition SPI2_Init : drv W unit :=
  _ ← drv_do spi2_peripheral_init;
  _ ← SPI2_ReadWriteByte 0xFF; mret tt.

(** The GPIO set-up ends with PB12, the chip select, high. *)
Definition CC1101_IO_Init : drv W unit :=
  _ ← drv_do gpio_init; CSn true.

Definition SPI_WriteReg (addr value : Z) : drv W unit :=
  _ ← CSn false; _ ← wait_MISO;
  _ ← SPI2_ReadWriteByte addr; _ ← SPI2_ReadWriteByte value;
  CSn true.

Fixpoint write_bytes (buffer : list Z) : drv W unit :=
  match buffer with
  | [] => mret tt
  | b :: rest => _ ← SPI2_ReadWriteByte b; write_bytes rest
  end.

(** [count] bytes of [buffer]; reading past its end is undefined. *)
Definition SPI_WriteBrustReg (addr : Z) (buffer : list Z) (count : Z) : drv W unit :=
  _ ← CSn false; _ ← wait_MISO;
  _ ← SPI2_ReadWriteByte (Z.lor addr WRITE_BURST);
  _ ← write_bytes (take (Z.to_nat count) buffer);
  if Z.of_nat (length buffer) <? count then drv_lift (Fault OutOfBounds) else CSn true.

Definition SPI_Strobe (strobe : Z) : drv W unit :=
  _ ← CSn false; _ ← wait_MISO; _ ← SPI2_ReadWriteByte strobe; CSn true.

Definition read_one (temp : Z) : drv W Z :=
  _ ← CSn false; _ ← wait_MISO; _ ← SPI2_ReadWriteByte temp;
  value ← SPI2_ReadWriteByte 0; _ ← CSn true; mret value.
Definition SPI_ReadReg (addr : Z) : drv W Z := read_one (Z.lor addr READ_SINGLE).
Definition SPI_ReadStatus (addr : Z) : drv W Z := read_one (Z.lor addr READ_BURST).

Fixpoint read_bytes (n : nat) (i : Z) (buffer : list Z) : drv W (list Z) :=
  match n with
  | O => mret buffer
  | S n' =>
      v ← SPI2_ReadWriteByte 0;
      buffer ← drv_lift (set buffer i v);
      read_bytes n' (i + 1) buffer
  end.

Definition SPI_ReadBrustReg (addr : Z) (buffer : list Z) (count : Z) : drv W (list Z) :=
  _ ← CSn false; _ ← wait_MISO;
  _ ← SPI2_ReadWriteByte (Z.lor addr READ_BURST);
  buffer ← read_bytes (Z.to_nat count) 0 buffer;
  _ ← CSn true; mret buffer.

Definition CC1101_Reset : drv W unit :=
  _ ← CSn false; _ ← wait_MISO; _ ← SPI2_ReadWriteByte CCxxx0_SRES;
  _ ← wait_MISO; CSn true.

Definition CC1101_PowerUp : drv W unit :=
  _ ← SPI2_Init; _ ← CC1101_IO_Init;
  _ ← CSn true; _ ← delay_us 4; _ ← CSn false; _ ← delay_us 4;
  _ ← CSn true; _ ← delay_us 100; CC1101_Reset.

(** The register writes of [CC1101_SettingsReg], in order: the address of each
    register of CC1101.h and the member of [rfSettings] written to it; FSCTRL0
    is written first with FSCTRL2 and then with FSCTRL0. *)
Definition settings_writes : list (Z * Z) :=
  [(0x0C, FSCTRL2 rfSettings); (0x0B, FSCTRL1 rfSettings); (0x0C, FSCTRL0 rfSettings);
   (0x0D, FREQ2 rfSettings); (0x0E, FREQ1 rfSettings); (0x0F, FREQ0 rfSettings);
   (0x10, MDMCFG4 rfSettings); (0x11, MDMCFG3 rfSettings); (0x12, MDMCFG2 rfSettings);
   (0x13, MDMCFG1 rfSettings); (0x14, MDMCFG0 rfSettings); (0x0A, CHANNR rfSettings);
   (0x15, DEVIATN rfSettings); (0x21, FREND1 rfSettings); (0x22, FREND0 rfSettings);
   (0x18, MCSM0 rfSettings); (0x19, FOCCFG rfSettings); (0x1A, BSCFG rfSettings);
   (0x1B, AGCCTRL2 rfSettings); (0x1C, AGCCTRL1 rfSettings); (0x1D, AGCCTRL0 rfSettings);
   (0x23, FSCAL3 rfSettings); (0x24, FSCAL2 rfSettings); (0x25, FSCAL1 rfSettings);
   (0x26, FSCAL0 rfSettings); (0x29, FSTEST rfSettings); (0x2C, TEST2 rfSettings);
   (0x2D, TEST1 rfSettings); (0x2E, TEST0 rfSettings); (0x00, IOCFG2 rfSettings);
   (0x02, IOCFG0 rfSettings); (0x07, PKTCTRL1 rfSettings); (0x08, PKTCTRL0 rfSettings);
   (0x09, ADDR rfSettings); (0x06, PKTLEN rfSettings)].

Fixpoint write_regs (l : list (Z * Z)) : drv W unit :=
  match l with
  | [] => mret tt
  | (a, v) :: rest => _ ← SPI_WriteReg a v; write_regs rest
  end.

Definition CC1101_SettingsReg : drv W unit :=
  let paTabel := [0x60; 0x60; 0x60; 0x60; 0x60; 0x60; 0x60; 0x60] in
  _ ← write_regs settings_writes;
  SPI_WriteBrustReg CCxxx0_PATABLE paTabel 8.

Definition CC1101_SendPacket (txBuffer : list Z) (size : Z) : drv W unit :=
  _ ← SPI_WriteReg CCxxx0_TXFIFO size;
  _ ← SPI_WriteBrustReg CCxxx0_TXFIFO txBuffer size;
  _ ← SPI_Strobe CCxxx0_STX;
  _ ← wait_while polls GDO0 false;
  _ ← wait_while polls GDO0 true;
  SPI_Strobe CCxxx0_SFTX.

Definition CC1101_SetRxMode : drv W unit := SPI_Strobe CCxxx0_SRX.

(** The loop [while (GDO0) { delay_us(4); --i; if (i < 1) return 0; }]: [true]
    when it ends because GDO0 is low.  256 rounds are enough: [i] is a
    [uint8_t] that reaches 0 within them. *)
Fixpoint wait_GDO0 (fuel : nat) (i : Z) : drv W bool :=
  match fuel with
  | O => drv_lift (Fault Hang)
  | S f =>
      g ← GDO0;
      if (g : bool) then
        _ ← delay_us 4;
        let i := u8 (i - 1) in
        if i <? 1 then mret false else wait_GDO0 f i
      else mret true
  end.

(** Result of [CC1101_ReceivePacket]: the return value, the caller's buffer and
    length, and the new [RSSI_RegisterValue] and [LQI_RegisterValue]. *)
Record rx_result := mkRx {
  rx_ret : Z; rx_buffer : list Z; rx_length : Z; rx_RSSI : Z; rx_LQI : Z }.

Definition CC1101_ReceivePacket (rxBuffer : list Z) (len rssi lqi : Z) : drv W rx_result :=
  let i := u8 (len * 4) in
  _ ← SPI_Strobe CCxxx0_SRX;
  _ ← delay_us 4;
  low ← wait_GDO0 256 i;
  if (low : bool) then
    rxbytes ← SPI_ReadStatus CCxxx0_RXBYTES;
    if negb (Z.land rxbytes BYTES_IN_RXFIFO =? 0) then
      packetLength ← SPI_ReadReg CCxxx0_RXFIFO;
      if packetLength <=? len then
        rxBuffer ← SPI_ReadBrustReg CCxxx0_RXFIFO rxBuffer packetLength;
        status ← SPI_ReadBrustReg CCxxx0_RXFIFO [0; 0] 2;
        _ ← SPI_Strobe CCxxx0_SFRX;
        mret (mkRx (Z.land (rd status 1) CRC_OK) rxBuffer packetLength
                (rd status 0) (rd status 1))
      else
        _ ← SPI_Strobe CCxxx0_SFRX;
        mret (mkRx 0 rxBuffer packetLength rssi lqi)
    else mret (mkRx 0 rxBuffer len rssi lqi)
  else mret (mkRx 0 rxBuffer len rssi lqi).

Definition Read_RSSI_LQI_Register (rssi lqi : Z) : Z * Z := (rssi, lqi).

End Driver.

Lemma land_80 z : Z.land z CRC_OK = 0 \/ Z.land z CRC_OK = CRC_OK.
Proof.
  unfold CRC_OK. destruct (Z.testbit z 7) eqn:E; [right|left];
    apply Z.bits_inj'; intros i Hi; rewrite Z.land_spec, ?Z.bits_0;
    destruct (decide (i = 7)) as [->|Hne]; rewrite ?E; try done;
    change 0x80 with (2 ^ 7); rewrite Z.pow2_bits_false by lia; apply andb_false_r.
Qed.

(** ** Reasoning about driver code

    [returns m Q w]: run on the hardware state [w], [m] returns, and its result
    and the new state satisfy [Q]. *)
Definition returns {W A} (m : drv W A) (Q : A -> W -> Prop) (w : W) : Prop :=
  match m w with Ok (a, w') => Q a w' | Fault _ => False end.

Lemma returns_bind {W A B} (m : drv W A) (f : A -> drv W B) Q w :
  returns m (fun a w' => returns (f a) Q w') w -> returns (m ≫= f) Q w.
Proof.
  unfold returns, mbind, drv_bind. by destruct (m w) as [[a w']|].
Qed.
Lemma returns_ret {W A} (a : A) (Q : A -> W -> Prop) w : Q a w -> returns (mret a) Q w.
Proof. done. Qed.
Lemma returns_mono {W A} (m : drv W A) (P Q : A -> W -> Prop) w :
  returns m P w -> (forall a w', P a w' -> Q a w') -> returns m Q w.
Proof. unfold returns. destruct (m w) as [[a w']|]; auto. Qed.

(** What the hardware promises: the chip-select level is what was last written
    and nothing else changes it, and the selected chip signals that it is ready
    (MISO low) within the polls the driver makes. *)
Class RadioLaws (W : Type) `{Radio W} (polls : nat) := {
  csn : W -> bool;
  csn_set b w : csn (pin_CSn b w) = b;
  csn_transfer b w : csn (spi_transfer b w).2 = csn w;
  csn_MISO w : csn (pin_MISO w).2 = csn w;
  csn_GDO0 w : csn (pin_GDO0 w).2 = csn w;
  csn_delay n w : csn (delay n w) = csn w;
  chip_ready w : csn w = false -> returns (wait_MISO polls) (fun _ _ => True) w }.

Section DriverFacts.
Context {W : Type} `{HL : RadioLaws W polls}.

(** One driver step. *)
Ltac drv_step := apply returns_bind.

Lemma csn_returns b (Q : unit -> W -> Prop) w :
  (forall w', csn w' = b -> Q tt w') -> returns (CSn b) Q w.
Proof. intros HQ. unfold returns, CSn, drv_do. apply HQ, csn_set. Qed.
Lemma transfer_returns b (Q : Z -> W -> Prop) w :
  (forall v w', is_u8 v -> csn w' = csn w -> Q v w') ->
  returns (SPI2_ReadWriteByte b) Q w.
Proof.
  intros HQ. unfold returns, SPI2_ReadWriteByte.
  pose proof (csn_transfer b w) as Hc. destruct (spi_transfer b w) as [r w'].
  apply HQ; [apply u8_range|done].
Qed.
Lemma delay_returns n (Q : unit -> W -> Prop) w :
  (forall w', csn w' = csn w -> Q tt w') -> returns (delay_us n) Q w.
Proof. intros HQ. unfold returns, delay_us, drv_do. apply HQ, csn_delay. Qed.

Lemma wait_while_csn fuel w w' :
  wait_while fuel (MISO (W := W)) true w = Ok (tt, w') -> csn w' = csn w.
Proof.
  revert w. induction fuel as [|f IH]; intros w; cbn; [done|].
  unfold mbind, drv_bind, MISO. pose proof (csn_MISO w) as Hc.
  destruct (pin_MISO w) as [b w1]. cbn in Hc. destruct (Bool.eqb b true).
  - intros E. rewrite (IH _ E). done.
  - intros E. by injection E as <-.
Qed.
Lemma ready_returns (Q : unit -> W -> Prop) w : csn w = false ->
  (forall w', csn w' = false -> Q tt w') -> returns (wait_MISO polls) Q w.
Proof.
  intros Hw HQ. pose proof (chip_ready w Hw) as Hr. unfold returns in *.
  destruct (wait_MISO polls w) as [[[] w']|] eqn:E; [|done].
  apply HQ. apply wait_while_csn in E. congruence.
Qed.

Lemma strobe_returns s (Q : unit -> W -> Prop) w :
  (forall w', csn w' = true -> Q tt w') -> returns (SPI_Strobe polls s) Q w.
Proof.
  intros HQ. unfold SPI_Strobe.
  drv_step. apply csn_returns. intros w1 H1.
  drv_step. apply ready_returns; [done|]. intros w2 H2.
  drv_step. apply transfer_returns. intros v w3 _ H3. by apply csn_returns.
Qed.
Lemma write_reg_returns a v (Q : unit -> W -> Prop) w :
  (forall w', csn w' = true -> Q tt w') -> returns (SPI_WriteReg polls a v) Q w.
Proof.
  intros HQ. unfold SPI_WriteReg.
  drv_step. apply csn_returns. intros w1 H1.
  drv_step. apply ready_returns; [done|]. intros w2 H2.
  drv_step. apply transfer_returns. intros x w3 _ H3.
  drv_step. apply transfer_returns. intros y w4 _ H4. by apply csn_returns.
Qed.
Lemma read_one_returns t (Q : Z -> W -> Prop) w :
  (forall v w', is_u8 v -> csn w' = true -> Q v w') -> returns (read_one polls t) Q w.
Proof.
  intros HQ. unfold read_one.
  drv_step. apply csn_returns. intros w1 H1.
  drv_step. apply ready_returns; [done|]. intros w2 H2.
  drv_step. apply transfer_returns. intros x w3 _ H3.
  drv_step. apply transfer_returns. intros y w4 Hy H4.
  drv_step. apply csn_returns. intros w5 H5. apply returns_ret. auto.
Qed.
Lemma read_bytes_returns n i buf (Q : list Z -> W -> Prop) w :
  0 <= i -> i + Z.of_nat n <= Z.of_nat (length buf) -> Forall is_u8 buf ->
  (forall buf' w', length buf' = length buf -> Forall is_u8 buf' ->
     (n = 0%nat -> buf' = buf) -> csn w' = csn w -> Q buf' w') ->
  returns (read_bytes n i buf) Q w.
Proof.
  revert i buf w. induction n as [|n IH]; intros i buf w Hi Hn Hb HQ; cbn [read_bytes].
  - apply returns_ret. auto.
  - drv_step. apply transfer_returns. intros v w1 Hv H1.
    drv_step. unfold returns at 1, drv_lift.
    rewrite set_in by (unfold in_range; lia).
    apply IH; rewrite ?length_upd; try lia; [by apply Forall_upd|].
    intros buf' w2 Hl Hf _ H2. apply HQ; [by rewrite Hl|done|done|congruence].
Qed.
Lemma read_burst_returns a buf c (Q : list Z -> W -> Prop) w :
  0 <= c <= Z.of_nat (length buf) -> Forall is_u8 buf ->
  (forall buf' w', length buf' = length buf -> Forall is_u8 buf' ->
     (c = 0 -> buf' = buf) -> csn w' = true -> Q buf' w') ->
  returns (SPI_ReadBrustReg polls a buf c) Q w.
Proof.
  intros Hc Hb HQ. unfold SPI_ReadBrustReg.
  drv_step. apply csn_returns. intros w1 H1.
  drv_step. apply ready_returns; [done|]. intros w2 H2.
  drv_step. apply transfer_returns. intros x w3 _ H3.
  drv_step. apply read_bytes_returns; [lia|lia|done|]. intros buf' w4 Hl Hf Hz H4.
  drv_step. apply csn_returns. intros w5 H5. apply returns_ret.
  apply HQ; auto. intros ->. by apply Hz.
Qed.
Lemma write_bytes_returns l (Q : unit -> W -> Prop) w :
  (forall w', csn w' = csn w -> Q tt w') -> returns (write_bytes l) Q w.
Proof.
  revert w. induction l as [|b l IH]; intros w HQ; cbn [write_bytes].
  - apply returns_ret. auto.
  - drv_step. apply transfer_returns. intros v w1 _ H1. apply IH. intros w2 H2.
    apply HQ. congruence.
Qed.
Lemma write_burst_returns a buf c (Q : unit -> W -> Prop) w :
  c <= Z.of_nat (length buf) ->
  (forall w', csn w' = true -> Q tt w') -> returns (SPI_WriteBrustReg polls a buf c) Q w.
Proof.
  intros Hc HQ. unfold SPI_WriteBrustReg.
  drv_step. apply csn_returns. intros w1 H1.
  drv_step. apply ready_returns; [done|]. intros w2 H2.
  drv_step. apply transfer_returns. intros x w3 _ H3.
  drv_step. apply write_bytes_returns. intros w4 H4.
  replace (_ <? c) with false by lia. by apply csn_returns.
Qed.
Lemma write_regs_returns l (Q : unit -> W -> Prop) w : csn w = true ->
  (forall w', csn w' = true -> Q tt w') -> returns (write_regs polls l) Q w.
Proof.
  revert w. induction l as [|[a v] l IH]; intros w Hw HQ; cbn [write_regs].
  - apply returns_ret. auto.
  - drv_step. apply write_reg_returns. intros w1 H1. by apply IH.
Qed.
Lemma settings_returns (Q : unit -> W -> Prop) w : csn w = true ->
  (forall w', csn w' = true -> Q tt w') -> returns (CC1101_SettingsReg polls) Q w.
Proof.
  intros Hw HQ. unfold CC1101_SettingsReg. drv_step.
  apply write_regs_returns; [done|]. intros w1 H1. by apply write_burst_returns.
Qed.
Lemma reset_returns (Q : unit -> W -> Prop) w :
  (forall w', csn w' = true -> Q tt w') -> returns (CC1101_Reset polls) Q w.
Proof.
  intros HQ. unfold CC1101_Reset.
  drv_step. apply csn_returns. intros w1 H1.
  drv_step. apply ready_returns; [done|]. intros w2 H2.
  drv_step. apply transfer_returns. intros x w3 _ H3.
  drv_step. apply ready_returns; [congruence|]. intros w4 H4. by apply csn_returns.
Qed.
Lemma wait_GDO0_returns fuel i (Q : bool -> W -> Prop) w :
  is_u8 i -> (if i =? 0 then 256 else i) <= Z.of_nat fuel ->
  (forall b w', csn w' = csn w -> Q b w') -> returns (wait_GDO0 fuel i) Q w.
Proof.
  revert i w. induction fuel as [|f IH]; intros i w Hi Hf HQ; cbn [wait_GDO0].
  - destruct (Z.eqb_spec i 0); mlia.
  - drv_step. unfold returns at 1, GDO0. pose proof (csn_GDO0 w) as Hg.
    destruct (pin_GDO0 w) as [[] w1]; cbn in Hg; [|apply returns_ret; auto].
    drv_step. apply delay_returns. intros w2 H2.
    destruct (Z.ltb_spec (u8 (i - 1)) 1); [apply returns_ret, HQ; congruence|].
    apply IH; [apply u8_range| |intros; apply HQ; congruence].
    destruct (Z.eqb_spec i 0), (Z.eqb_spec (u8 (i - 1)) 0); mlia.
Qed.

(** What a call of [CC1101_ReceivePacket] leaves: the buffer keeps its size, the
    chip is deselected, an accepted packet is no longer than the caller's
    length, and a rejected one replaces that length. *)
Definition rx_post (buf : list Z) (len : Z) (r : rx_result) (w : W) : Prop :=
  length (rx_buffer r) = length buf /\ Forall is_u8 (rx_buffer r) /\ csn w = true
  /\ is_u8 (rx_length r) /\ is_u8 (rx_RSSI r) /\ is_u8 (rx_LQI r)
  /\ (rx_ret r = 0 \/ rx_ret r = CRC_OK)
  /\ (rx_ret r <> 0 -> rx_length r <= len)
  /\ (rx_length r <= len \/ (rx_ret r = 0 /\ rx_buffer r = buf))
  /\ (rx_length r = 0 -> rx_buffer r = buf).

Lemma receive_returns buf len rssi lqi w :
  is_u8 len -> len <= Z.of_nat (length buf) -> Forall is_u8 buf ->
  is_u8 rssi -> is_u8 lqi ->
  returns (CC1101_ReceivePacket polls buf len rssi lqi) (rx_post buf len) w.
Proof.
  intros Hl Hlen Hb Hr Hq. unfold CC1101_ReceivePacket.
  drv_step. apply strobe_returns. intros w1 H1.
  drv_step. apply delay_returns. intros w2 H2.
  drv_step. apply wait_GDO0_returns; [apply u8_range|destruct (_ =? 0); mlia|].
  intros [] w3 H3; [|apply returns_ret; unfold rx_post; cbn; naive_solver (congruence||lia)].
  drv_step. apply read_one_returns. intros rxb w4 Hrx H4.
  destruct (negb _); [|apply returns_ret; unfold rx_post; cbn; naive_solver (congruence||lia)].
  drv_step. apply read_one_returns. intros pl w5 Hpl H5.
  destruct (Z.leb_spec pl len).
  - drv_step. apply read_burst_returns; [mlia|done|]. intros buf' w6 Hl' Hf' Hz' H6.
    drv_step. apply read_burst_returns; [cbn; lia|repeat constructor; mlia|].
    intros st w7 Hst Hfs _ H7.
    drv_step. apply strobe_returns. intros w8 H8. apply returns_ret.
    assert (is_u8 (rd st 0) /\ is_u8 (rd st 1)) as [? ?].
    { split; apply rd_Forall; try done; unfold in_range; rewrite Hst; cbn; lia. }
    unfold rx_post; cbn. repeat (split; [done|]). split; [apply land_80|].
    split; [done|]. split; [by left|done].
  - drv_step. apply strobe_returns. intros w6 H6. apply returns_ret.
    unfold rx_post; cbn. naive_solver lia.
Qed.
End DriverFacts.

(** ** A scripted chip

    A concrete radio: MISO and GDO0 are low, every transfer shifts out the next
    byte of a script and records the byte shifted in. *)
Record sim := mkSim { sim_csn : bool; sim_in : list Z; sim_out : list Z }.

#[global] Instance sim_radio : Radio sim := {
  spi_transfer b w :=
    (hd 0 (sim_in w), mkSim (sim_csn w) (tl (sim_in w)) (sim_out w ++ [b]));
  pin_MISO w := (false, w);
  pin_GDO0 w := (false, w);
  pin_CSn b w := mkSim b (sim_in w) (sim_out w);
  delay _ w := w;
  spi2_peripheral_init w := w;
  gpio_init w := w }.

#[global] Program Instance sim_laws : RadioLaws sim 1 := { csn := sim_csn }.
Solve All Obligations with (intros; done).

(** ** Properties *)

(** A call of [CC1101_ReceivePacket] with a length no greater than the
    caller's buffer always returns (the GDO0 loop ends within 256 rounds), never
    writes outside the buffer, leaves the chip deselected, returns success only
    for a packet no longer than the caller's length, and otherwise may replace
    that length by the length byte of the packet it dropped. *)
Theorem CC1101_ReceivePacket_safe {W} `{HL : RadioLaws W polls} buf len rssi lqi w :
  is_u8 len -> len <= Z.of_nat (length buf) -> Forall is_u8 buf ->
  is_u8 rssi -> is_u8 lqi ->
  returns (CC1101_ReceivePacket polls buf len rssi lqi) (rx_post buf len) w.
Proof. apply receive_returns. Qed.

Lemma CC1101_ReceivePacket_safe_witness :
  returns (CC1101_ReceivePacket 1 (replicate 12 0) 12 0 0) (rx_post (replicate 12 0) 12)
    (mkSim true [0; 0; 15; 0; 12] []).
Proof.
  apply CC1101_ReceivePacket_safe; try (vm_compute; (split; [discriminate|reflexivity])).
  - vm_compute. discriminate.
  - apply Forall_replicate. vm_compute. split; [discriminate|reflexivity].
Defined.

(** Resetting and reconfiguring the radio always completes on a chip that
    signals ready, and leaves it deselected. *)
Theorem radio_reconfigure_completes {W} `{HL : RadioLaws W polls} (w : W) :
  returns (CC1101_Reset polls ≫= fun _ => CC1101_SettingsReg polls)
    (fun _ w' => csn w' = true) w.
Proof.
  apply returns_bind, reset_returns. intros w1 H1. by apply settings_returns.
Qed.

Lemma radio_reconfigure_completes_witness :
  returns (CC1101_Reset 1 ≫= fun _ => CC1101_SettingsReg 1)
    (fun _ (w' : sim) => csn w' = true) (mkSim true [] []).
Proof. apply (radio_reconfigure_completes (polls := 1)). Defined.
