(* ===== verification/TaskDataReceive.v ===== *)
(** * The receive and overtime tasks (Task/TaskDataReceive.c)

    [receive_iteration] is one round of the receive thread's [while (1)],
    [overtime_sweep] one round of the overtime thread's.  Both work on the
    shared register map.  The output of the debug messages is left out, but not
    the two [sprintf] calls that prepare it. *)
From S2P Require Import Prelude Floats FloatExact FloatBound Registers DataFrame NodeTimer CC1101.

(** ** Printing with one decimal *)

(** The numeral of [n]; it has no more digits than bits. *)
Fixpoint decimal_chars (fuel : nat) (n : Z) (acc : list Z) : list Z :=
  match fuel with
  | O => acc
  | S fuel' =>
      let acc := 48 + n mod 10 :: acc in
      if n / 10 =? 0 then acc else decimal_chars fuel' (n / 10) acc
  end.
Definition decimal (n : Z) : list Z := decimal_chars (S (Z.to_nat (Z.log2 n))) n [].

(** The tenths in [m * 2^e], to the nearest, a tie to the even one. *)
Definition tenths (m e : Z) : Z :=
  if 0 <=? e then 10 * m * 2 ^ e
  else
    let d := 2 ^ (- e) in let q := 10 * m / d in let r := 10 * m mod d in
    if 2 * r <? d then q else if d <? 2 * r then q + 1 else if Z.even q then q else q + 1.

(** What ["%.1f"] makes of a value. *)
Definition minus (s : bool) : list Z := if s then text "-" else [].
Definition format_1f (x : spec_float) : list Z :=
  match x with
  | S754_zero s => minus s ++ text "0.0"
  | S754_infinity s => minus s ++ text "inf"
  | S754_nan => text "nan"
  | S754_finite s m e =>
      let n := tenths (Z.pos m) e in minus s ++ decimal (n / 10) ++ [46; 48 + n mod 10]
  end.

(** [sprintf(string, "%.1f", x)] with its terminating zero. *)
Definition sprintf_1f (string : list Z) (x : spec_float) : res (list Z) :=
  let s := format_1f x ++ [0] in
  if (length s <=? length string)%nat then Ok (s ++ drop (length s) string) else Fault OutOfBounds.

(** ** The receive thread *)

(** The thread's locals, the driver's two statics and the register map. *)
Record rx_task := mkTask {
  t_num : Z;
  t_rxBuffer : list Z;
  t_leng : Z;
  t_nodeData : NodeData;
  t_RSSI : Z;
  t_LQI : Z;
  t_regs : list Z }.

(** The five stores of an accepted frame, through the node's members. *)
Definition store_node (now : Z) (n : NodeData) (regs : list Z) : res (list Z) :=
  regs ← call_save (saveTemperature n) now n regs;
  regs ← call_save (saveVoltage n) now n regs;
  regs ← call_save (saveSignalStrength n) now n regs;
  regs ← call_save (saveLaunchNumber n) now n regs;
  call_save (saveReceiveTime n) now n regs.

(** The handling of the buffer's contents: analysis, the two strings of the debug
    output, lookup, stores. *)
Definition process_frame (now : Z) (buf : list Z) (value : Z * Z) (n : NodeData)
    (regs : list Z) : res (NodeData * list Z) :=
  '(ret, n) ← DataFrameAnalysis buf value n;
  _ ← sprintf_1f (replicate 10 0) (temperatureValue n);
  _ ← sprintf_1f (replicate 10 0) (voltageValue n);
  if ret =? 0 then
    '(ret, n) ← call_get (getDeviceNumber n) regs n;
    if ret =? 0 then
      regs ← store_node now n regs;
      Ok (n, regs)
    else Ok (n, regs)
  else Ok (n, regs).

(** [memset(buf, 0, n)] *)
Definition memset0 (buf : list Z) (n : Z) : res (list Z) :=
  if n <=? Z.of_nat (length buf)
  then Ok (replicate (Z.to_nat n) 0 ++ drop (Z.to_nat n) buf)
  else Fault OutOfBounds.

Section ReceiveTask.
Context {W : Type} `{Radio W}.
Variable polls : nat.

Definition reset_radio : drv W unit :=
  _ ← CC1101_Reset polls; CC1101_SettingsReg polls.

(** The start of the thread: the radio is powered up and configured and the
    locals initialised; the node structure's other members are whatever the
    stack held. *)
Definition receive_start (uninit : NodeData) (rssi lqi : Z) (regs : list Z) : drv W rx_task :=
  _ ← CC1101_PowerUp polls;
  _ ← CC1101_SettingsReg polls;
  mret (mkTask 0 (replicate 12 0) 0 (NodeDataStructInit uninit) rssi lqi regs).

(** [now] is the value of [GetNodeOvertime] in this round. *)
Definition receive_iteration (now : Z) (s : rx_task) : drv W rx_task :=
  r ← CC1101_ReceivePacket polls (t_rxBuffer s) (t_leng s) (t_RSSI s) (t_LQI s);
  let s := mkTask (t_num s) (rx_buffer r) (rx_length r) (t_nodeData s)
             (rx_RSSI r) (rx_LQI r) (t_regs s) in
  s ← (if negb (rx_ret r =? 0) then
         '(n, regs) ← drv_lift (process_frame now (t_rxBuffer s)
                         (Read_RSSI_LQI_Register (t_RSSI s) (t_LQI s))
                         (t_nodeData s) (t_regs s));
         buf ← drv_lift (memset0 (t_rxBuffer s) (t_leng s));
         _ ← reset_radio;
         mret (mkTask 0 buf (t_leng s) (set_valid false n) (t_RSSI s) (t_LQI s) regs)
       else mret s);
  s ← (if t_num s =? 20 then
         _ ← reset_radio;
         mret (mkTask 0 (t_rxBuffer s) (t_leng s) (t_nodeData s) (t_RSSI s) (t_LQI s)
                 (t_regs s))
       else mret s);
  mret (mkTask (u8 (t_num s + 1)) (t_rxBuffer s) (t_leng s) (t_nodeData s)
          (t_RSSI s) (t_LQI s) (t_regs s)).

(** Rounds of the thread at the clock values [nows]. *)
Fixpoint receive_rounds (nows : list Z) (s : rx_task) : drv W rx_task :=
  match nows with
  | [] => mret s
  | now :: rest => s ← receive_iteration now s; receive_rounds rest s
  end.
End ReceiveTask.

(** ** The overtime thread *)

(** [overtime] as the thread computes it once, before its loop. *)
Definition overtime_limit (parameter2 : Z) : Z := u32 (parameter2 * 60).

Definition clear_node (i : Z) (regs : list Z) : res (list Z) :=
  regs ← set regs (TEMPERATURE_FIRST_ADDRESS + i) 0;
  regs ← set regs (VOLTAGE_FIRST_ADDRESS + i) 0;
  regs ← set regs (NODE_STATUS_FIRST_ADDRESS + 2 + 3 * i) 0;
  regs ← set regs (LAUNCH_NUMBER_FIRAT_ADDRESS + 2 * i) 0;
  regs ← set regs (LAUNCH_NUMBER_FIRAT_ADDRESS + 1 + 2 * i) 0;
  regs ← set regs (RECEIVING_MOMENT_FIRAT_ADDRESS + 2 * i) 0;
  set regs (RECEIVING_MOMENT_FIRAT_ADDRESS + 1 + 2 * i) 0.

Definition overtime_check (now overtime : Z) (i : Z) (regs : list Z) : res (list Z) :=
  startTime ← read_pair regs (RECEIVING_MOMENT_FIRAT_ADDRESS + 2 * i);
  if startTime =? 0 then Ok regs
  else if negb (CheckOvertime now startTime overtime =? 0) then clear_node i regs
  else Ok regs.

Definition overtime_sweep (now overtime : Z) (regs : list Z) : res (list Z) :=
  for_loop 256 0 (overtime_check now overtime) regs.

(** ** Texts that fit *)

(** The text and its zero fit into ten characters. *)
Definition printable (x : spec_float) : Prop := (length (format_1f x) <= 9)%nat.

Lemma decimal_chars_length fuel : forall n acc j, 0 <= n < 10 ^ Z.of_nat (S j) ->
  (length (decimal_chars fuel n acc) <= S j + length acc)%nat.
Proof.
  induction fuel as [|fuel IH]; intros n acc j Hn; cbn [decimal_chars]; [lia|].
  destruct (Z.eqb_spec (n / 10) 0) as [E|E]; [cbn; lia|].
  destruct j as [|j]; [change (10 ^ Z.of_nat 1) with 10 in Hn; lia|].
  specialize (IH (n / 10) (48 + n mod 10 :: acc) j). cbn [length] in IH. etransitivity; [apply IH|lia].
  replace (Z.of_nat (S (S j))) with (Z.succ (Z.of_nat (S j))) in Hn by lia. rewrite Z.pow_succ_r in Hn by lia.
  split; [lia|]. apply Z.div_lt_upper_bound; lia.
Qed.

Lemma tenths_bound m e k : 1 <= m -> m <= 2 ^ (k - e) -> 0 <= k -> 0 <= tenths m e <= 10 * 2 ^ k.
Proof.
  intros Hm H Hk. pose proof (pow_ge_1 _ _ Hm H). unfold tenths. destruct (Z.leb_spec 0 e).
  - replace k with (k - e + e) at 1 by lia. rewrite Z.pow_add_r by lia.
    assert (0 < 2 ^ e) by (apply Z.pow_pos_nonneg; lia). nia.
  - set (d := 2 ^ (- e)). assert (Hd : 0 < d) by (apply Z.pow_pos_nonneg; lia).
    assert (Hmd : 10 * m <= 10 * 2 ^ k * d).
    { unfold d. replace (k - e) with (k + - e) in H by lia. rewrite Z.pow_add_r in H by lia. lia. }
    pose proof (Z.div_mod (10 * m) d ltac:(lia)) as Hdm. pose proof (Z.mod_pos_bound (10 * m) d Hd) as Hr.
    assert (0 <= 10 * m / d) by (apply Z.div_pos; lia). cbv zeta. fold d.
    destruct (Z.ltb_spec (2 * (10 * m mod d)) d); [nia|]. destruct (Z.ltb_spec d (2 * (10 * m mod d))); [nia|].
    destruct (Z.even _); nia.
Qed.

(** Values up to half a million print in nine characters. *)
Lemma printable_le x : le_pow 19 x -> printable x.
Proof.
  unfold printable. destruct x as [[]|[]| |s m e]; cbn [format_1f]; try (intros _; cbn; lia). intros H.
  pose proof (tenths_bound (Z.pos m) e 19 ltac:(lia) H ltac:(lia)) as Ht. change (2 ^ 19) with 524288 in Ht.
  rewrite !length_app. cbn [length].
  assert (length (minus s) <= 1)%nat by (destruct s; cbn; lia).
  pose proof (decimal_chars_length (S (Z.to_nat (Z.log2 (tenths (Z.pos m) e / 10)))) (tenths (Z.pos m) e / 10) [] 5) as Hl.
  unfold decimal. cbn [length] in Hl. change (10 ^ Z.of_nat 6) with 1000000 in Hl.
  assert (0 <= tenths (Z.pos m) e / 10 < 1000000) by mlia. lia.
Qed.

Lemma sprintf_ok string x : length string = 10%nat -> printable x -> exists s, sprintf_1f string x = Ok s.
Proof.
  unfold printable. intros Hl H. unfold sprintf_1f. rewrite length_app, Hl. cbn [length].
  replace (_ <=? 10)%nat with true by (symmetry; apply Nat.leb_le; lia). by eexists.
Qed.

(** Bounds on constants. *)
Ltac const_bound := vm_compute; first [discriminate | split; discriminate].

Lemma voltage_printable raw : is_u16 raw -> printable (voltage_of_raw raw).
Proof.
  intros Hr. apply printable_le. unfold voltage_of_raw, float_of_double.
  apply (round_to_le F32.prec F32.emax); [const_bound..|].
  apply (mul_le F64.prec F64.emax ltac:(const_bound) 18 1); [const_bound| |const_bound].
  apply (mul_le F64.prec F64.emax ltac:(const_bound) 16 2); [const_bound| |const_bound].
  apply normalize_le; [const_bound..|]. change (2 ^ (16 - 0)) with 65536. mlia.
Qed.

Lemma temperature_printable raw : is_u16 raw -> printable (temperature_of_raw raw).
Proof.
  intros Hr. apply printable_le. unfold temperature_of_raw, float_of_double, double_of_float. cbv zeta.
  apply (round_to_le F32.prec F32.emax); [const_bound..|]. apply (le_pow_mono 18); [lia|].
  apply (add_le F64.prec F64.emax ltac:(const_bound) 17); [const_bound| |const_bound].
  apply (div_le F64.prec F64.emax ltac:(const_bound) 8 (-9)); [const_bound| |const_bound].
  apply (sub_le F64.prec F64.emax ltac:(const_bound) 7); [const_bound|const_bound|].
  apply (sqrt_le F64.prec F64.emax ltac:(const_bound) 7); [const_bound|]. apply (le_pow_mono 13); [lia|].
  apply (add_le F64.prec F64.emax ltac:(const_bound) 12); [const_bound|const_bound|].
  apply (mul_le F64.prec F64.emax ltac:(const_bound) (-7) 19); [const_bound|const_bound|].
  apply (sub_le F64.prec F64.emax ltac:(const_bound) 18); [const_bound|const_bound|].
  apply (round_to_le F64.prec F64.emax); [const_bound..|]. apply (round_to_le F32.prec F32.emax); [const_bound..|].
  apply (mul_le F64.prec F64.emax ltac:(const_bound) 16 2); [const_bound| |const_bound].
  apply normalize_le; [const_bound..|]. change (2 ^ (16 - 0)) with 65536. mlia.
Qed.

(** The values of a node print into the debug strings. *)
Definition node_printable (n : NodeData) : Prop := printable (temperatureValue n) /\ printable (voltageValue n).

Lemma analysis_printable f value n : frame_shape f -> node_printable n ->
  node_printable (snd (analysis_spec f value n)).
Proof.
  intros Hf Hn. unfold analysis_spec. destruct (_ =? 90); [|done]. destruct (_ =? _); [|done].
  split; [apply temperature_printable|apply voltage_printable]; by apply be16_ok.
Qed.

Lemma debug_strings {A} n (k : res A) : node_printable n ->
  (_ ← sprintf_1f (replicate 10 0) (temperatureValue n); _ ← sprintf_1f (replicate 10 0) (voltageValue n); k) = k.
Proof.
  intros [Ht Hv]. destruct (sprintf_ok (replicate 10 0) _ eq_refl Ht) as [s1 ->].
  by destruct (sprintf_ok (replicate 10 0) _ eq_refl Hv) as [s2 ->].
Qed.

(** ** Stores *)

(** A node ready to be stored: the members are the initialised ones. *)
Definition node_initialised (n : NodeData) : Prop :=
  getDeviceNumber n = FN_GetDeviceNumber /\ saveTemperature n = FN_SaveTemperature
  /\ saveVoltage n = FN_SaveVoltage /\ saveSignalStrength n = FN_SaveSignalStrength
  /\ saveLaunchNumber n = FN_SaveLaunchNumber /\ saveReceiveTime n = FN_SaveReceiveTime.

Definition LAUNCH_OF (k : Z) : Z := LAUNCH_NUMBER_FIRAT_ADDRESS + 2 * k.
Definition MOMENT_OF (k : Z) : Z := RECEIVING_MOMENT_FIRAT_ADDRESS + 2 * k.

(** The register map after the stores of node [n], whose temperature and
    voltage convert to [tf] and [vf]. *)
Definition stored (now tf vf : Z) (n : NodeData) (regs : list Z) : list Z :=
  let k := deviceNumber n in
  let r1 := upd regs (TEMPERATURE_FIRST_ADDRESS + k) tf in
  let r2 := upd r1 (VOLTAGE_FIRST_ADDRESS + k) (u16 vf) in
  let r3 := upd r2 (NODE_STATUS_FIRST_ADDRESS + 2 + 3 * k)
              (u16 (RSSI_Value n * 256 + LQI_Value n)) in
  let r4 := put_pair r3 (LAUNCH_OF k) (u32 (pair_at regs (LAUNCH_OF k) + 1)) in
  put_pair r4 (MOMENT_OF k) now.

Lemma temperatureFormat_range t v : temperatureFormat t = Ok v -> is_u16 v.
Proof.
  unfold temperatureFormat. destruct (SFltb _ _).
  - intros H. apply cast_range in H. mlia.
  - intros H. bind_inv H. injection H as <-. auto with machine.
Qed.

Ltac regs_step :=
  match goal with
  | |- context [set ?r ?i ?x] =>
      let H := fresh "Hset" in let W := fresh "Hwf" in
      destruct (regs_set r i x) as [H W];
        [done | first [done | auto with machine | mlia] | reg_unfold; mlia | ];
      rewrite H, ?bind_ret_l; clear H
  end.

Lemma store_node_ok now n regs tf vf :
  regs_wf regs -> is_u32 now -> is_u8 (deviceNumber n) ->
  node_initialised n -> isDataValid n = true ->
  temperatureFormat (temperatureValue n) = Ok tf -> cast_s16 (voltageValue n) = Ok vf ->
  store_node now n regs = Ok (stored now tf vf n regs)
  /\ regs_wf (stored now tf vf n regs).
Proof.
  intros Hr Hnow Hk (_ & E1 & E2 & E3 & E4 & E5) Hv Ht Hvf.
  unfold store_node, stored. rewrite E1, E2, E3, E4, E5. cbn [call_save].
  unfold SaveTemperature, SaveVoltage, SaveSignalStrength, SaveLaunchNumber, SaveReceiveTime.
  rewrite Hv, Ht, Hvf, !bind_ret_l, shiftl_8. pose proof (temperatureFormat_range _ _ Ht).
  do 3 regs_step. unfold LAUNCH_OF, MOMENT_OF.
  set (r3 := upd (upd (upd _ _ _) _ _) _ _) in *.
  destruct (read_pair_ok r3 (LAUNCH_NUMBER_FIRAT_ADDRESS + 2 * deviceNumber n))
    as [-> Hu]; [done|reg_unfold; mlia|]. rewrite bind_ret_l.
  assert (pair_at r3 (LAUNCH_NUMBER_FIRAT_ADDRESS + 2 * deviceNumber n)
          = pair_at regs (LAUNCH_NUMBER_FIRAT_ADDRESS + 2 * deviceNumber n)) as ->.
  { unfold pair_at, r3. rewrite !rd_upd_ne; (done || (reg_unfold; mlia)). }
  match goal with |- context [write_pair r3 ?a ?v] =>
    destruct (write_pair_ok r3 a v) as [-> Hw];
      [done|auto with machine|reg_unfold; mlia|] end.
  rewrite bind_ret_l. apply write_pair_ok; [done|done|reg_unfold; mlia].
Qed.

Lemma stored_other now tf vf n regs a : is_u8 (deviceNumber n) -> 0 <= a ->
  ~ a ∈ node_regs (deviceNumber n) -> rd (stored now tf vf n regs) a = rd regs a.
Proof.
  intros Hk Ha Hn. unfold node_regs in Hn. rewrite !elem_of_cons, elem_of_nil in Hn.
  unfold stored, LAUNCH_OF, MOMENT_OF.
  rewrite !put_pair_other, !rd_upd_ne; (done || (reg_unfold; mlia)).
Qed.

(** Reads one register of [stored]: peels the updates that miss it. *)
Ltac peel :=
  repeat first
    [ rewrite put_pair_other by (reg_unfold; mlia)
    | rewrite rd_upd_ne by (reg_unfold; mlia)
    | rewrite rd_upd_eq by
        (unfold put_pair; rewrite ?in_range_upd; apply in_range_regs; [done|reg_unfold; mlia]) ].

Lemma stored_fields now tf vf n regs : let k := deviceNumber n in
  regs_wf regs -> is_u32 now -> is_u8 k -> is_u16 tf ->
  rd (stored now tf vf n regs) (TEMPERATURE_FIRST_ADDRESS + k) = tf
  /\ rd (stored now tf vf n regs) (VOLTAGE_FIRST_ADDRESS + k) = u16 vf
  /\ rd (stored now tf vf n regs) (NODE_STATUS_FIRST_ADDRESS + 2 + 3 * k)
     = u16 (RSSI_Value n * 256 + LQI_Value n)
  /\ pair_at (stored now tf vf n regs) (LAUNCH_OF k) = u32 (pair_at regs (LAUNCH_OF k) + 1)
  /\ pair_at (stored now tf vf n regs) (MOMENT_OF k) = now.
Proof.
  intros k Hr Hnow Hk Ht. unfold stored, LAUNCH_OF, MOMENT_OF. fold k.
  set (r3 := upd (upd (upd _ _ _) _ _) _ _).
  assert (regs_wf r3) as H3 by (unfold r3; auto 10 with machine).
  split; [unfold r3; peel; done|]. split; [unfold r3; peel; done|].
  split; [unfold r3; peel; done|]. split.
  - transitivity (pair_at (put_pair r3 (LAUNCH_NUMBER_FIRAT_ADDRESS + 2 * k)
      (u32 (pair_at regs (LAUNCH_NUMBER_FIRAT_ADDRESS + 2 * k) + 1)))
      (LAUNCH_NUMBER_FIRAT_ADDRESS + 2 * k)).
    + unfold pair_at at 1 3. rewrite !(put_pair_other _ (RECEIVING_MOMENT_FIRAT_ADDRESS + 2 * k))
        by (reg_unfold; mlia). done.
    + apply put_pair_same; [done|auto with machine|reg_unfold; mlia].
  - apply put_pair_same; [|done|reg_unfold; mlia].
    apply write_pair_ok; [done|auto with machine|reg_unfold; mlia].
Qed.

(** ** The overtime sweep *)

(** The node was heard and its time is over. *)
Definition expired (now overtime : Z) (regs : list Z) (i : Z) : bool :=
  negb (pair_at regs (MOMENT_OF i) =? 0)
  && (overtime <=? u32 (now - pair_at regs (MOMENT_OF i))).

Lemma clear_node_ok i regs : regs_wf regs -> is_u8 i ->
  exists regs', clear_node i regs = Ok regs' /\ regs_wf regs'
  /\ (forall a, a ∈ node_regs i -> rd regs' a = 0)
  /\ (forall a, 0 <= a -> ~ a ∈ node_regs i -> rd regs' a = rd regs a).
Proof.
  intros Hr Hi. unfold clear_node. do 6 regs_step.
  match goal with |- context [set ?r ?a ?x] =>
    destruct (regs_set r a x) as [-> Hw]; [done|mlia|reg_unfold; mlia|] end.
  eexists. split; [done|]. split; [done|].
  unfold node_regs. split; intros a; rewrite !elem_of_cons, elem_of_nil.
  - intros Ha. destruct_or?; subst; try done;
      repeat first
        [ rewrite rd_upd_eq by (rewrite ?in_range_upd; apply in_range_regs;
                                [done|reg_unfold; mlia])
        | rewrite rd_upd_ne by (reg_unfold; mlia) ]; done.
  - intros Ha Hn. rewrite !rd_upd_ne; (done || (reg_unfold; mlia)).
Qed.

Lemma overtime_check_ok now overtime i regs : regs_wf regs -> is_u8 i ->
  overtime_check now overtime i regs
  = if expired now overtime regs i then clear_node i regs else Ok regs.
Proof.
  intros Hr Hi. unfold overtime_check, expired, MOMENT_OF.
  destruct (read_pair_ok regs (RECEIVING_MOMENT_FIRAT_ADDRESS + 2 * i)) as [-> _];
    [done|reg_unfold; mlia|]. rewrite bind_ret_l.
  destruct (_ =? 0); [done|]. cbn [negb andb]. unfold CheckOvertime, GetNodeOvertime.
  by destruct (overtime <=? _).
Qed.

(** What the sweep has done before it looks at node [i]. *)
Definition swept (now overtime : Z) (regs0 : list Z) (i : Z) (regs : list Z) : Prop :=
  regs_wf regs
  /\ (forall j a, 0 <= j < i -> expired now overtime regs0 j = true ->
        a ∈ node_regs j -> rd regs a = 0)
  /\ (forall a, 0 <= a ->
        (forall j, 0 <= j < i -> a ∈ node_regs j -> expired now overtime regs0 j = false) ->
        rd regs a = rd regs0 a).

Lemma swept_moment now overtime regs0 i regs : is_u8 i ->
  swept now overtime regs0 i regs ->
  pair_at regs (MOMENT_OF i) = pair_at regs0 (MOMENT_OF i).
Proof.
  intros Hi (_ & _ & H). unfold pair_at.
  assert (MOMENT_OF i ∈ node_regs i /\ MOMENT_OF i + 1 ∈ node_regs i) as [M1 M2].
  { unfold node_regs, MOMENT_OF. rewrite !elem_of_cons. lia. }
  rewrite !H; [done| | | |]; try (unfold MOMENT_OF; reg_unfold; mlia);
    intros j Hj Hm; exfalso;
    [pose proof (node_regs_disjoint i j _ Hi ltac:(mlia) M2 Hm)
    |pose proof (node_regs_disjoint i j _ Hi ltac:(mlia) M1 Hm)]; lia.
Qed.

Lemma sweep_step now overtime regs0 i regs : is_u8 i ->
  swept now overtime regs0 i regs ->
  exists regs', overtime_check now overtime i regs = Ok regs'
    /\ swept now overtime regs0 (i + 1) regs'.
Proof.
  intros Hi Hs. pose proof (swept_moment _ _ _ _ _ Hi Hs) as Hm.
  destruct Hs as (Hw & Hz & Ho). rewrite overtime_check_ok by done.
  assert (expired now overtime regs i = expired now overtime regs0 i) as ->
    by (unfold expired; by rewrite Hm).
  destruct (expired now overtime regs0 i) eqn:E.
  - destruct (clear_node_ok i regs Hw Hi) as (regs' & -> & Hw' & Hin & Hout).
    exists regs'. split; [done|]. split; [done|]. split.
    + intros j a Hj Hej Ha. destruct (decide (a ∈ node_regs i)); [by apply Hin|].
      assert (j <> i) by congruence.
      rewrite Hout; [apply (Hz j a); (done || lia)| |done].
      pose proof (node_regs_bounds j a ltac:(mlia) Ha). reg_unfold. lia.
    + intros a Ha Hall. assert (~ a ∈ node_regs i) as Hn.
      { intros Hn. specialize (Hall i ltac:(mlia) Hn). congruence. }
      rewrite Hout by done. apply Ho; [done|]. intros j Hj. apply Hall. lia.
  - exists regs. split; [done|]. split; [done|]. split.
    + intros j a Hj Hej Ha. assert (j <> i) by congruence. apply (Hz j a); (done || lia).
    + intros a Ha Hall. apply Ho; [done|]. intros j Hj. apply Hall. lia.
Qed.

(** ** The receive thread never overruns its buffer while the length fits *)

(** [m] returns with [Q], or stops at an undefined float conversion. *)
Definition no_overrun {W A} (m : drv W A) (Q : A -> W -> Prop) (w : W) : Prop :=
  match m w with Ok (a, w') => Q a w' | Fault e => e = FloatConv end.

Lemma no_overrun_bind {W A B} (m : drv W A) (f : A -> drv W B) Q w :
  no_overrun m (fun a w' => no_overrun (f a) Q w') w -> no_overrun (m ≫= f) Q w.
Proof. unfold no_overrun, mbind, drv_bind. by destruct (m w) as [[a w']|]. Qed.
Lemma no_overrun_returns {W A} (m : drv W A) Q w : returns m Q w -> no_overrun m Q w.
Proof. unfold no_overrun, returns. by destruct (m w) as [[a w']|]. Qed.

Definition task_inv (s : rx_task) : Prop :=
  length (t_rxBuffer s) = 12%nat /\ Forall is_u8 (t_rxBuffer s) /\ is_u8 (t_leng s)
  /\ is_u8 (t_RSSI s) /\ is_u8 (t_LQI s) /\ (node_initialised (t_nodeData s) /\ node_printable (t_nodeData s))
  /\ regs_wf (t_regs s) /\ 0 <= t_num s <= 20.

Lemma GetDeviceNumber_ok regs n : regs_wf regs ->
  exists r k, GetDeviceNumber regs n = Ok (r, if r =? 0 then set_number k n else n) /\ is_u8 k.
Proof.
  intros Hr. unfold GetDeviceNumber.
  destruct (scan_ids_spec 256 0 regs (deviceId n) Hr) as ([k|] & -> & H); [lia|lia| |].
  - exists 0, (u8 k). auto with machine.
  - exists 1, 0. split; [done|mlia].
Qed.

Lemma store_node_total now n regs :
  regs_wf regs -> is_u32 now -> is_u8 (deviceNumber n) ->
  node_initialised n -> isDataValid n = true ->
  match store_node now n regs with Ok r => regs_wf r | Fault e => e = FloatConv end.
Proof.
  intros Hr Hnow Hk Hi Hv.
  destruct (temperatureFormat (temperatureValue n)) as [tf|e] eqn:Et.
  - destruct (cast_s16 (voltageValue n)) as [vf|e] eqn:Ev.
    + destruct (store_node_ok now n regs tf vf) as [-> H]; done.
    + destruct Hi as (_ & E1 & E2 & _). unfold store_node. rewrite E1, E2.
      cbn [call_save]. unfold SaveTemperature, SaveVoltage. rewrite Hv, Et, Ev, bind_ret_l.
      pose proof (temperatureFormat_range _ _ Et). regs_step. cbn.
      unfold cast_s16, cast in Ev. destruct (trunc _); [destruct (_ && _)|]; congruence.
  - destruct Hi as (_ & E1 & _). unfold store_node. rewrite E1. cbn [call_save].
    unfold SaveTemperature. rewrite Hv, Et. cbn.
    unfold temperatureFormat, cast_u16, cast_s16, cast in Et.
    destruct (SFltb _ _), (trunc _); try (destruct (_ && _)); cbn in Et; congruence.
Qed.

Lemma process_frame_total now buf value n regs :
  frame_shape buf -> regs_wf regs -> is_u32 now -> node_initialised n -> node_printable n ->
  match process_frame now buf value n regs with
  | Ok (n', regs') => regs_wf regs' /\ (node_initialised n' /\ node_printable n')
                      /\ (rd buf 0 <> 0x5A -> regs' = regs)
  | Fault e => e = FloatConv
  end.
Proof.
  intros Hb Hr Hnow Hi Hpr. unfold process_frame. rewrite analysis_ok, bind_ret_l by done.
  pose proof (analysis_printable buf value n Hb Hpr) as Hpr1.
  destruct (analysis_spec buf value n) as [ret n0] eqn:Ea. cbn [snd] in Hpr1. rewrite debug_strings by done. revert Ea.
  unfold analysis_spec. destruct (Z.eqb_spec (rd buf 0) 0x5A) as [E0|E0]; [|by intros [= <- <-]].
  destruct (_ =? be16 buf 10); [|by intros [= <- <-]]. intros [= <- <-]. cbn [Z.eqb].
  set (n1 := set_valid true _) in *.
  assert (node_initialised n1 /\ isDataValid n1 = true) as [Hn1 Hv1].
  { split; [|done]. unfold n1, node_initialised. by destruct value. }
  destruct Hn1 as (Hg & Hrest). rewrite Hg. cbn [call_get].
  destruct (GetDeviceNumber_ok regs n1 Hr) as (r & k & -> & Hk). rewrite bind_ret_l.
  destruct (Z.eqb_spec r 0) as [_|Hr0]; [|done].
  pose proof (store_node_total now (set_number k n1) regs Hr Hnow Hk
    (conj Hg Hrest) Hv1) as Hs.
  destruct (store_node _ _ _) as [regs'|e]; cbn; [|done]. done.
Qed.

Lemma memset0_ok buf n : 0 <= n <= Z.of_nat (length buf) -> Forall is_u8 buf ->
  exists b, memset0 buf n = Ok b /\ length b = length buf /\ Forall is_u8 b.
Proof.
  intros Hn Hb. unfold memset0. replace (_ <=? _) with true by lia.
  eexists. split; [done|]. split.
  - rewrite length_app, length_replicate, length_drop. lia.
  - apply Forall_app. split; [apply Forall_replicate; mlia|by apply Forall_drop].
Qed.

Section ReceiveFacts.
Context {W : Type} `{HL : RadioLaws W polls}.

Lemma reset_radio_returns (Q : unit -> W -> Prop) w :
  (forall w', csn w' = true -> Q tt w') -> returns (reset_radio polls) Q w.
Proof.
  intros HQ. unfold reset_radio. apply returns_bind, reset_returns. intros w1 H1.
  by apply settings_returns.
Qed.

(** The second half of a round: the reset every twenty rounds, the counter. *)
Lemma round_tail s w (Q : rx_task -> Prop) : csn w = true -> 0 <= t_num s <= 20 ->
  (forall n, 0 <= n <= 20 -> Q (mkTask n (t_rxBuffer s) (t_leng s) (t_nodeData s)
     (t_RSSI s) (t_LQI s) (t_regs s))) ->
  no_overrun (s ← (if t_num s =? 20 then
         _ ← reset_radio polls;
         mret (mkTask 0 (t_rxBuffer s) (t_leng s) (t_nodeData s) (t_RSSI s) (t_LQI s)
                 (t_regs s))
       else mret s);
     mret (mkTask (u8 (t_num s + 1)) (t_rxBuffer s) (t_leng s) (t_nodeData s)
          (t_RSSI s) (t_LQI s) (t_regs s)))
    (fun s' w' => Q s' /\ csn w' = true) w.
Proof.
  intros Hw Hn HQ. apply no_overrun_returns, returns_bind.
  destruct (Z.eqb_spec (t_num s) 20).
  - apply returns_bind, reset_radio_returns. intros w1 H1. apply returns_ret, returns_ret.
    cbn. split; [apply (HQ 1); lia|done].
  - apply returns_ret, returns_ret. rewrite u8_id by mlia. split; [apply HQ; lia|done].
Qed.

Lemma receive_iteration_ok now s w :
  task_inv s -> t_leng s <= 12 -> is_u32 now ->
  no_overrun (receive_iteration polls now s)
    (fun s' w' => (task_inv s' /\
       (t_leng s = 0 -> Forall (eq 0) (t_rxBuffer s) -> t_regs s' = t_regs s))
       /\ csn w' = true) w.
Proof.
  intros (Hl & Hb & Hg & Hr & Hq & (Hi & Hpr) & Hregs & Hn) Hle Hnow. unfold receive_iteration.
  apply no_overrun_bind, no_overrun_returns.
  eapply returns_mono; [apply receive_returns; (done || (rewrite Hl; lia))|].
  intros r w1 (Hlen & Hf & Hc & Hru & Hrs & Hlq & Hret & Hacc & _ & Hzero). cbn [t_rxBuffer
    t_leng t_nodeData t_RSSI t_LQI t_regs t_num]. apply no_overrun_bind.
  destruct (Z.eqb_spec (rx_ret r) 0) as [E|E]; cbn [negb].
  - apply no_overrun_returns, returns_ret, round_tail; [done|done|].
    intros k Hk. unfold task_inv. cbn. rewrite Hlen. done.
  - specialize (Hacc E). apply no_overrun_bind. unfold no_overrun at 1, drv_lift.
    pose proof (process_frame_total now (rx_buffer r)
      (Read_RSSI_LQI_Register (rx_RSSI r) (rx_LQI r)) (t_nodeData s) (t_regs s)
      (conj (eq_trans Hlen Hl) Hf) Hregs Hnow Hi Hpr) as Hp.
    destruct (process_frame _ _ _ _ _) as [[n' regs']|e]; [|done].
    destruct Hp as (Hw' & Hi' & Hhead). apply no_overrun_bind.
    destruct (memset0_ok (rx_buffer r) (rx_length r)) as (b & Hm & Hbl & Hbf);
      [rewrite Hlen, Hl; mlia|done|]. unfold no_overrun at 1. rewrite Hm.
    apply no_overrun_bind, no_overrun_returns, reset_radio_returns. intros w2 H2.
    apply no_overrun_returns, returns_ret, round_tail; [done|cbn; lia|].
    intros k Hk. unfold task_inv. cbn. rewrite Hbl, Hlen. split; [done|].
    intros H0 Hz. apply Hhead. rewrite Hzero by mlia.
    assert (0 = rd (t_rxBuffer s) 0) as <-
      by (apply rd_Forall; [done|unfold in_range; rewrite Hl; lia]). done.
Qed.
End ReceiveFacts.

(** ** Properties *)

(** The signal strength in dBm by the radio's formula: half of the raw value, a
    byte in two's complement, less the offset of 75. *)
Definition rssi_dbm (raw : Z) : Z := (if 128 <=? raw then Z.quot (raw - 256) 2 else raw / 2) - 75.

(** The register keeps its low byte. *)
Lemma status_register v0 v1 n : is_u8 v0 -> is_u8 v1 ->
  u16 (RSSI_Value (CalculateSignalStrength (v0, v1) n) * 256 + LQI_Value (CalculateSignalStrength (v0, v1) n))
  = u16 (256 * rssi_dbm v0 + v1 mod 128).
Proof.
  intros H0 H1. pose proof (signal_strength_ok v0 v1 n H0 H1) as [-> ->]. unfold rssi_dbm.
  set (dbm := _ - 75). clearbody dbm. destruct (_ && _); mlia.
Qed.


Definition demo_node : NodeData := NodeDataStructInit sample_node.


(** C7: One sweep of the overtime thread clears all seven registers of exactly
    the nodes that were heard (non-zero receive time) and whose elapsed time
    has reached the limit; every other register, of other nodes or of none,
    keeps its value, and no access leaves the map. *)
Theorem overtime_sweep_correct now overtime regs : regs_wf regs ->
  exists regs', overtime_sweep now overtime regs = Ok regs' /\ regs_wf regs'
  /\ (forall i a, is_u8 i -> expired now overtime regs i = true ->
        a ∈ node_regs i -> rd regs' a = 0)
  /\ (forall a, 0 <= a ->
        (forall i, is_u8 i -> a ∈ node_regs i -> expired now overtime regs i = false) ->
        rd regs' a = rd regs a).
Proof.
  intros Hr.
  destruct (for_loop_inv (swept now overtime regs) (overtime_check now overtime) 256 0 regs)
    as (regs' & Hrun & Hw & Hz & Ho).
  - split; [done|]. split; [lia|done].
  - intros i t Hi Hs. apply sweep_step; [mlia|done].
  - exists regs'. split; [done|]. split; [done|]. split.
    + intros i a Hi. apply Hz. mlia.
    + intros a Ha Hall. apply Ho; [done|]. intros j Hj. apply Hall. mlia.
Qed.

Lemma overtime_sweep_correct_witness :
  exists regs', overtime_sweep 100 60 (put_pair regs_init (MOMENT_OF 3) 40) = Ok regs'
  /\ regs_wf regs'
  /\ (forall i a, is_u8 i -> expired 100 60 (put_pair regs_init (MOMENT_OF 3) 40) i = true ->
        a ∈ node_regs i -> rd regs' a = 0)
  /\ (forall a, 0 <= a ->
        (forall i, is_u8 i -> a ∈ node_regs i ->
           expired 100 60 (put_pair regs_init (MOMENT_OF 3) 40) i = false) ->
        rd regs' a = rd (put_pair regs_init (MOMENT_OF 3) 40) a).
Proof.
  apply overtime_sweep_correct, write_pair_ok;
    [apply regs_init_wf|mlia|unfold MOMENT_OF; reg_unfold; lia].
Defined.

(** C36: A round of the receive thread that starts with a packet length of at
    most 12, and with node values whose text has at most nine characters, never
    leaves a buffer (the packet, the two debug strings) or the register map and
    keeps all this but the length; the only way it can stop is an undefined float
    conversion of a frame with an impossible reading.  Every value computed from a
    frame has such a text. *)
Theorem receive_round_safe {W} `{HL : RadioLaws W polls} now s w :
  task_inv s -> t_leng s <= 12 -> is_u32 now ->
  no_overrun (receive_iteration polls now s)
    (fun s' w' => task_inv s' /\ csn w' = true) w.
Proof.
  intros Hs Hl Hn. pose proof (receive_iteration_ok now s w Hs Hl Hn) as Hok.
  unfold no_overrun in *. destruct (receive_iteration _ _ _ _) as [[s' w']|e]; [|done].
  by destruct Hok as [[Hi _] Hc].
Qed.

Definition demo_task : rx_task := mkTask 0 (replicate 12 0) 0 demo_node 0 0 regs_init.
Lemma demo_task_inv : task_inv demo_task.
Proof.
  repeat split; try (vm_compute; discriminate); try (vm_compute; reflexivity); try (vm_compute; lia).
  - apply Forall_replicate. mlia.
  - apply regs_init_wf.
Defined.

(** The bytes a chip shifts out for a packet of 12 bytes that passes its check. *)
Definition packet12 (f : list Z) : list Z := [0; 0; 15; 0; 12; 0] ++ f ++ [0; 200; 0x85].
(** A task that has seen a packet of 12 bytes, and whose table lists an id. *)
Definition ready_regs : list Z := put_pair regs_init (NODE_DEVICE_ID_FIRST_ADDRESS + 2 * 0) 0xABBA5AA5.
Definition ready_task : rx_task := mkTask 0 (replicate 12 0) 12 demo_node 0 0 ready_regs.
Lemma ready_task_inv : task_inv ready_task.
Proof.
  repeat split; try (vm_compute; discriminate); try (vm_compute; reflexivity); try (vm_compute; lia).
  - apply Forall_replicate. mlia.
  - apply write_pair_ok; [apply regs_init_wf|mlia|reg_unfold; lia].
Defined.

(** A frame that is accepted and stored: 30.1 degrees. *)
Lemma receive_round_safe_witness :
  no_overrun (receive_iteration 1 5 ready_task) (fun s' (w' : sim) => task_inv s' /\ csn w' = true)
    (mkSim true (packet12 (encode_frame 1 0xABBA5AA5 356 512)) [])
  /\ match receive_iteration 1 5 ready_task (mkSim true (packet12 (encode_frame 1 0xABBA5AA5 356 512)) []) with
     | Ok (s', _) => rd (t_regs s') TEMPERATURE_FIRST_ADDRESS = 301
     | Fault _ => False
     end.
Proof.
  split; [|vm_compute; reflexivity].
  apply (receive_round_safe (polls := 1)); [apply ready_task_inv|vm_compute; discriminate|mlia].
Defined.

(** The debug strings are filled from the node before the analysis of a frame is
    looked at: with the value an uninitialised float may have, a frame with a
    wrong head is enough to overrun the ten characters. *)
Theorem uninitialised_value_overruns :
  let garbage := mkNodeData false 0 (S754_finite false 8388608 40) (S754_zero false) 0 0 0
                   FN_NULL FN_NULL FN_NULL FN_NULL FN_NULL FN_NULL in
  receive_iteration 1 5 (mkTask 0 (replicate 12 0) 12 (NodeDataStructInit garbage) 0 0 regs_init)
    (mkSim true (packet12 (replicate 12 0x11)) []) = Fault OutOfBounds.
Proof. vm_compute. reflexivity. Qed.

(** The first packet after power-up is always lost: from the initial
    length 0 a round cannot change the register map, whatever the radio
    delivers, because a packet is accepted only when it is no longer than the
    previous one. *)
Theorem first_packet_lost {W} `{HL : RadioLaws W polls} now s w :
  task_inv s -> t_leng s = 0 -> Forall (eq 0) (t_rxBuffer s) -> is_u32 now ->
  no_overrun (receive_iteration polls now s) (fun s' _ => t_regs s' = t_regs s) w.
Proof.
  intros Hs Hl Hz Hn.
  pose proof (receive_iteration_ok now s w Hs ltac:(lia) Hn) as Hok.
  unfold no_overrun in *. destruct (receive_iteration _ _ _ _) as [[s' w']|e]; [|done].
  destruct Hok as [[_ Hi] _]. by apply Hi.
Qed.

Lemma first_packet_lost_witness :
  no_overrun (receive_iteration 1 5 demo_task) (fun s' (_ : sim) => t_regs s' = t_regs demo_task)
    (mkSim true [0; 0; 15; 0; 12] []).
Proof.
  apply (first_packet_lost (polls := 1));
    [apply demo_task_inv|reflexivity|by apply Forall_replicate|mlia].
Defined.

(** The bytes a chip shifts out for two packets of 13 bytes. *)
Definition two_long_packets : list Z :=
  [0; 0; 15; 0; 13; 0] ++ [0; 0; 15; 0; 13; 0] ++ replicate 13 0x5A.

(** Two packets of 13 bytes, within the 80 the radio is configured to
    accept, make the second round write past the thread's 12-byte buffer: the
    first, rejected, sets the length the second is admitted with. *)
Theorem two_long_packets_overrun :
  receive_rounds 1 [1; 2] demo_task (mkSim true two_long_packets []) = Fault OutOfBounds
  /\ PKTLEN rfSettings = 80.
Proof. split; vm_compute; reflexivity. Qed.
