(* ===== verification/MbCrc.v ===== *)
(** * CRC-16 of the Modbus RTU line (freemodbus/modbus/rtu/mbcrc.c)

    The table-driven [usMBCRC16] with its two 256-byte tables, the bitwise CRC
    it implements, and the two facts the line protocol needs: a message followed
    by its CRC has CRC zero, and an error confined to one byte is detected. *)
From S2P Require Import Prelude.

Definition aucCRCHi : list Z :=
  [0x00; 0xC1; 0x81; 0x40; 0x01; 0xC0; 0x80; 0x41; 0x01; 0xC0; 0x80; 0x41;
   0x00; 0xC1; 0x81; 0x40; 0x01; 0xC0; 0x80; 0x41; 0x00; 0xC1; 0x81; 0x40;
   0x00; 0xC1; 0x81; 0x40; 0x01; 0xC0; 0x80; 0x41; 0x01; 0xC0; 0x80; 0x41;
   0x00; 0xC1; 0x81; 0x40; 0x00; 0xC1; 0x81; 0x40; 0x01; 0xC0; 0x80; 0x41;
   0x00; 0xC1; 0x81; 0x40; 0x01; 0xC0; 0x80; 0x41; 0x01; 0xC0; 0x80; 0x41;
   0x00; 0xC1; 0x81; 0x40; 0x01; 0xC0; 0x80; 0x41; 0x00; 0xC1; 0x81; 0x40;
   0x00; 0xC1; 0x81; 0x40; 0x01; 0xC0; 0x80; 0x41; 0x00; 0xC1; 0x81; 0x40;
   0x01; 0xC0; 0x80; 0x41; 0x01; 0xC0; 0x80; 0x41; 0x00; 0xC1; 0x81; 0x40;
   0x00; 0xC1; 0x81; 0x40; 0x01; 0xC0; 0x80; 0x41; 0x01; 0xC0; 0x80; 0x41;
   0x00; 0xC1; 0x81; 0x40; 0x01; 0xC0; 0x80; 0x41; 0x00; 0xC1; 0x81; 0x40;
   0x00; 0xC1; 0x81; 0x40; 0x01; 0xC0; 0x80; 0x41; 0x01; 0xC0; 0x80; 0x41;
   0x00; 0xC1; 0x81; 0x40; 0x00; 0xC1; 0x81; 0x40; 0x01; 0xC0; 0x80; 0x41;
   0x00; 0xC1; 0x81; 0x40; 0x01; 0xC0; 0x80; 0x41; 0x01; 0xC0; 0x80; 0x41;
   0x00; 0xC1; 0x81; 0x40; 0x00; 0xC1; 0x81; 0x40; 0x01; 0xC0; 0x80; 0x41;
   0x01; 0xC0; 0x80; 0x41; 0x00; 0xC1; 0x81; 0x40; 0x01; 0xC0; 0x80; 0x41;
   0x00; 0xC1; 0x81; 0x40; 0x00; 0xC1; 0x81; 0x40; 0x01; 0xC0; 0x80; 0x41;
   0x00; 0xC1; 0x81; 0x40; 0x01; 0xC0; 0x80; 0x41; 0x01; 0xC0; 0x80; 0x41;
   0x00; 0xC1; 0x81; 0x40; 0x01; 0xC0; 0x80; 0x41; 0x00; 0xC1; 0x81; 0x40;
   0x00; 0xC1; 0x81; 0x40; 0x01; 0xC0; 0x80; 0x41; 0x01; 0xC0; 0x80; 0x41;
   0x00; 0xC1; 0x81; 0x40; 0x00; 0xC1; 0x81; 0x40; 0x01; 0xC0; 0x80; 0x41;
   0x00; 0xC1; 0x81; 0x40; 0x01; 0xC0; 0x80; 0x41; 0x01; 0xC0; 0x80; 0x41;
   0x00; 0xC1; 0x81; 0x40].

Definition aucCRCLo : list Z :=
  [0x00; 0xC0; 0xC1; 0x01; 0xC3; 0x03; 0x02; 0xC2; 0xC6; 0x06; 0x07; 0xC7;
   0x05; 0xC5; 0xC4; 0x04; 0xCC; 0x0C; 0x0D; 0xCD; 0x0F; 0xCF; 0xCE; 0x0E;
   0x0A; 0xCA; 0xCB; 0x0B; 0xC9; 0x09; 0x08; 0xC8; 0xD8; 0x18; 0x19; 0xD9;
   0x1B; 0xDB; 0xDA; 0x1A; 0x1E; 0xDE; 0xDF; 0x1F; 0xDD; 0x1D; 0x1C; 0xDC;
   0x14; 0xD4; 0xD5; 0x15; 0xD7; 0x17; 0x16; 0xD6; 0xD2; 0x12; 0x13; 0xD3;
   0x11; 0xD1; 0xD0; 0x10; 0xF0; 0x30; 0x31; 0xF1; 0x33; 0xF3; 0xF2; 0x32;
   0x36; 0xF6; 0xF7; 0x37; 0xF5; 0x35; 0x34; 0xF4; 0x3C; 0xFC; 0xFD; 0x3D;
   0xFF; 0x3F; 0x3E; 0xFE; 0xFA; 0x3A; 0x3B; 0xFB; 0x39; 0xF9; 0xF8; 0x38;
   0x28; 0xE8; 0xE9; 0x29; 0xEB; 0x2B; 0x2A; 0xEA; 0xEE; 0x2E; 0x2F; 0xEF;
   0x2D; 0xED; 0xEC; 0x2C; 0xE4; 0x24; 0x25; 0xE5; 0x27; 0xE7; 0xE6; 0x26;
   0x22; 0xE2; 0xE3; 0x23; 0xE1; 0x21; 0x20; 0xE0; 0xA0; 0x60; 0x61; 0xA1;
   0x63; 0xA3; 0xA2; 0x62; 0x66; 0xA6; 0xA7; 0x67; 0xA5; 0x65; 0x64; 0xA4;
   0x6C; 0xAC; 0xAD; 0x6D; 0xAF; 0x6F; 0x6E; 0xAE; 0xAA; 0x6A; 0x6B; 0xAB;
   0x69; 0xA9; 0xA8; 0x68; 0x78; 0xB8; 0xB9; 0x79; 0xBB; 0x7B; 0x7A; 0xBA;
   0xBE; 0x7E; 0x7F; 0xBF; 0x7D; 0xBD; 0xBC; 0x7C; 0xB4; 0x74; 0x75; 0xB5;
   0x77; 0xB7; 0xB6; 0x76; 0x72; 0xB2; 0xB3; 0x73; 0xB1; 0x71; 0x70; 0xB0;
   0x50; 0x90; 0x91; 0x51; 0x93; 0x53; 0x52; 0x92; 0x96; 0x56; 0x57; 0x97;
   0x55; 0x95; 0x94; 0x54; 0x9C; 0x5C; 0x5D; 0x9D; 0x5F; 0x9F; 0x9E; 0x5E;
   0x5A; 0x9A; 0x9B; 0x5B; 0x99; 0x59; 0x58; 0x98; 0x88; 0x48; 0x49; 0x89;
   0x4B; 0x8B; 0x8A; 0x4A; 0x4E; 0x8E; 0x8F; 0x4F; 0x8D; 0x4D; 0x4C; 0x8C;
   0x44; 0x84; 0x85; 0x45; 0x87; 0x47; 0x46; 0x86; 0x82; 0x42; 0x43; 0x83;
   0x41; 0x81; 0x80; 0x40].

(** One round of the loop on [(ucCRCHi, ucCRCLo)]. *)
Definition crc_step (crc : Z * Z) (byte : Z) : res (Z * Z) :=
  let '(ucCRCHi, ucCRCLo) := crc in
  let iIndex := Z.lxor ucCRCLo byte in
  th ← get aucCRCHi iIndex;
  tl ← get aucCRCLo iIndex;
  Ok (tl, u8 (Z.lxor ucCRCHi th)).

Definition usMBCRC16 (pucFrame : list Z) (usLen : Z) : res Z :=
  '(ucCRCHi, ucCRCLo) ←
     for_loop (Z.to_nat usLen) 0
       (fun i crc => b ← get pucFrame i; crc_step crc b) (0xFF, 0xFF);
  Ok (u16 (Z.lor (Z.shiftl ucCRCHi 8) ucCRCLo)).

(** ** Reference: the bitwise CRC with the reflected polynomial 0xA001 *)
Definition crc_bit (c : Z) : Z :=
  if Z.odd c then Z.lxor (Z.shiftr c 1) 0xA001 else Z.shiftr c 1.
Definition crc_byte (c b : Z) : Z := Nat.iter 8 crc_bit (Z.lxor c b).
Definition crc16 (msg : list Z) : Z := foldl crc_byte 0xFFFF msg.

(** ** Lemmas *)
Definition crc_tab (i : Z) : Z := Z.lor (Z.shiftl (rd aucCRCLo i) 8) (rd aucCRCHi i).

Lemma crc_tables i : is_u8 i ->
  crc_tab i = Nat.iter 8 crc_bit i /\ is_u8 (rd aucCRCHi i) /\ is_u8 (rd aucCRCLo i)
  /\ in_range aucCRCHi i /\ in_range aucCRCLo i.
Proof.
  intros Hi.
  assert ((crc_tab i =? Nat.iter 8 crc_bit i) && (0 <=? rd aucCRCHi i) && (rd aucCRCHi i <? 256)
          && (0 <=? rd aucCRCLo i) && (rd aucCRCLo i <? 256) = true) as H.
  { by_enumeration 256%nat i. }
  rewrite !andb_true_iff in H. unfold in_range.
  change (length aucCRCHi) with 256%nat. change (length aucCRCLo) with 256%nat. mlia.
Qed.

Lemma crc_bit_high h l : crc_bit (Z.lxor (2 * h) l) = Z.lxor h (crc_bit l).
Proof.
  unfold crc_bit.
  assert (Z.odd (Z.lxor (2 * h) l) = Z.odd l) as ->.
  { rewrite <- !Z.bit0_odd, Z.lxor_spec, Z.testbit_even_0. by destruct (Z.testbit l 0). }
  assert (Z.shiftr (Z.lxor (2 * h) l) 1 = Z.lxor h (Z.shiftr l 1)) as ->.
  { rewrite Z.shiftr_lxor. f_equal. rewrite Z.shiftr_div_pow2 by lia.
    change (2 ^ 1) with 2. rewrite Z.mul_comm. apply Z.div_mul. lia. }
  destruct (Z.odd l); [|done]. by rewrite Z.lxor_assoc.
Qed.
Lemma crc_bits_high k h l :
  Nat.iter k crc_bit (Z.lxor (2 ^ Z.of_nat k * h) l) = Z.lxor h (Nat.iter k crc_bit l).
Proof.
  revert h l. induction k as [|k IH]; intros h l.
  - cbn. by rewrite Z.mul_1_l.
  - rewrite Nat2Z.inj_succ, Z.pow_succ_r by lia.
    replace (2 * 2 ^ Z.of_nat k * h) with (2 ^ Z.of_nat k * (2 * h)) by ring.
    rewrite !Nat.iter_succ, IH. apply crc_bit_high.
Qed.

Lemma crc_bits_byte h l :
  Nat.iter 8 crc_bit (Z.lxor (256 * h) l) = Z.lxor h (Nat.iter 8 crc_bit l).
Proof. apply (crc_bits_high 8). Qed.

Lemma lxor_u8 a b : is_u8 a -> is_u8 b -> is_u8 (Z.lxor a b).
Proof.
  unfold is_u8. intros Ha Hb. change 256 with (2 ^ 8) in *.
  destruct (Z.eq_dec (Z.lxor a b) 0) as [->|Hne]; [lia|].
  assert (0 <= Z.lxor a b) as Hpos by (apply Z.lxor_nonneg; lia).
  split; [done|]. apply Z.log2_lt_pow2; [lia|].
  eapply Z.le_lt_trans; [apply Z.log2_lxor; lia|].
  apply Z.max_lub_lt.
  - destruct (decide (a = 0)) as [->|]; [done|]. apply Z.log2_lt_pow2; lia.
  - destruct (decide (b = 0)) as [->|]; [done|]. apply Z.log2_lt_pow2; lia.
Qed.

Lemma lor_bytes hi lo : is_u8 lo -> Z.lor (Z.shiftl hi 8) lo = 256 * hi + lo.
Proof.
  intros. rewrite shiftl_8. change 256 with (2 ^ 8). rewrite lor_disjoint; [lia|lia|mlia].
Qed.
Lemma bytes_lxor h l : is_u8 l -> 256 * h + l = Z.lxor (256 * h) l.
Proof.
  intros Hl. apply Z.add_nocarry_lxor. rewrite Z.mul_comm. change 256 with (2 ^ 8).
  rewrite <- Z.shiftl_mul_pow2 by lia. apply Z.bits_inj'. intros i Hi.
  rewrite Z.land_spec, Z.bits_0, Z.shiftl_spec by lia.
  destruct (Z.lt_ge_cases i 8).
  - by rewrite Z.testbit_neg_r by lia.
  - rewrite <- (Z.mod_small l (2 ^ 8)) by mlia.
    by rewrite Z.mod_pow2_bits_high, andb_false_r by lia.
Qed.
Lemma lxor_bytes h l b : is_u8 l ->
  Z.lxor (256 * h + l) b = Z.lxor (256 * h) (Z.lxor l b).
Proof. intros Hl. by rewrite bytes_lxor, Z.lxor_assoc by done. Qed.

Definition crc_pair_ok (c : Z * Z) : Prop := is_u8 c.1 /\ is_u8 c.2.
Definition crc_val (c : Z * Z) : Z := 256 * c.1 + c.2.

(** A round never leaves the tables and is the bitwise CRC of one byte. *)
Lemma crc_step_ok c b : crc_pair_ok c -> is_u8 b ->
  exists c', crc_step c b = Ok c' /\ crc_pair_ok c' /\ crc_val c' = crc_byte (crc_val c) b
  /\ c'.1 = rd aucCRCLo (Z.lxor c.2 b) /\ c'.2 = Z.lxor c.1 (rd aucCRCHi (Z.lxor c.2 b)).
Proof.
  destruct c as [hi lo]. intros [Hh Hl] Hb. cbn [fst snd] in *. unfold crc_step.
  pose proof (lxor_u8 lo b Hl Hb) as Hi.
  destruct (crc_tables _ Hi) as (Ht & B1 & B2 & R1 & R2).
  rewrite !get_in, !bind_ret_l by done. pose proof (lxor_u8 hi _ Hh B1) as Hx.
  rewrite u8_id by done. eexists. split; [done|]. split; [by split|]. split; [|done].
  unfold crc_val, crc_byte. cbn [fst snd]. rewrite lxor_bytes by done.
  rewrite crc_bits_byte, <- Ht.
  unfold crc_tab. rewrite lor_bytes by done.
  set (L := rd aucCRCLo (Z.lxor lo b)) in *. set (Hv := rd aucCRCHi (Z.lxor lo b)) in *.
  by rewrite (Z.lxor_comm hi (256 * L + Hv)), lxor_bytes, (Z.lxor_comm Hv hi), <- bytes_lxor
    by done.
Qed.

Definition crc_run (c : Z * Z) (msg : list Z) : res (Z * Z) :=
  foldl (fun m b => c ← m; crc_step c b) (Ok c) msg.

Lemma crc_run_ok msg c : crc_pair_ok c -> Forall is_u8 msg ->
  exists c', crc_run c msg = Ok c' /\ crc_pair_ok c'
  /\ crc_val c' = foldl crc_byte (crc_val c) msg.
Proof.
  intros Hc Hm. revert c Hc. induction Hm as [|b msg Hb Hm IH]; intros c Hc.
  - by exists c.
  - destruct (crc_step_ok c b Hc Hb) as (c1 & E & Hc1 & V & _).
    destruct (IH c1 Hc1) as (c' & E' & Hc' & V').
    exists c'. unfold crc_run in *. cbn [foldl]. rewrite bind_ret_l, E. by rewrite V', V.
Qed.
Lemma crc_run_snoc c msg b : crc_run c (msg ++ [b]) = (c' ← crc_run c msg; crc_step c' b).
Proof. unfold crc_run. by rewrite foldl_snoc. Qed.

Lemma crc_loop_run buf n c : 0 <= n <= Z.of_nat (length buf) ->
  for_loop (Z.to_nat n) 0 (fun i crc => b ← get buf i; crc_step crc b) c
  = crc_run c (take (Z.to_nat n) buf).
Proof.
  intros Hn. rewrite <- (Z2Nat.id n) in Hn by lia. generalize dependent (Z.to_nat n).
  clear n. intros n [_ Hn].
  enough (forall k i c, (k + Z.to_nat i <= length buf)%nat -> 0 <= i ->
    for_loop k i (fun i crc => b ← get buf i; crc_step crc b) c
    = crc_run c (take k (drop (Z.to_nat i) buf))) as H.
  { rewrite H by lia. by rewrite drop_0. }
  induction k as [|k IH]; intros i c0 Hk Hi; cbn [for_loop]; [done|].
  destruct (lookup_lt_is_Some_2 buf (Z.to_nat i)) as [b Hb]; [lia|].
  rewrite get_in by (unfold in_range; lia). rewrite (rd_lookup _ _ _ Hb).
  rewrite bind_ret_l, (drop_S buf b (Z.to_nat i)) by done.
  replace (S (Z.to_nat i)) with (Z.to_nat (i + 1)) by lia. cbn [take].
  unfold crc_run at 1. cbn [foldl]. rewrite bind_ret_l.
  destruct (crc_step c0 b) as [c1|e] eqn:E.
  - by rewrite bind_ret_l, IH by lia.
  - clear. by induction (take k (drop (Z.to_nat (i + 1)) buf)) as [|x l IHl].
Qed.

Lemma usMBCRC16_ok buf n : Forall is_u8 buf -> 0 <= n <= Z.of_nat (length buf) ->
  usMBCRC16 buf n = Ok (crc16 (take (Z.to_nat n) buf))
  /\ is_u16 (crc16 (take (Z.to_nat n) buf)).
Proof.
  intros Hb Hn. unfold usMBCRC16. rewrite crc_loop_run by done.
  destruct (crc_run_ok (take (Z.to_nat n) buf) (0xFF, 0xFF)) as ([hi lo] & -> & [H1 H2] & V);
    [split; cbn; mlia|by apply Forall_take|].
  cbn [fst snd] in *. rewrite bind_ret_l. unfold crc16.
  change 0xFFFF with (crc_val (0xFF, 0xFF)). rewrite <- V. unfold crc_val. cbn [fst snd].
  rewrite lor_bytes by done. split; [f_equal|]; mlia.
Qed.

(** The CRC of a message followed by its own CRC, low byte first, is zero. *)
Lemma crc16_residue msg : Forall is_u8 msg ->
  crc16 (msg ++ [crc16 msg mod 256; crc16 msg / 256]) = 0.
Proof.
  intros Hm.
  destruct (crc_run_ok msg (0xFF, 0xFF)) as ([hi lo] & _ & [H1 H2] & V);
    [split; cbn; mlia|done|].
  cbn [fst snd] in *. unfold crc16 at 1. rewrite foldl_app.
  fold (crc16 msg). change (foldl crc_byte 0xFFFF msg) with (crc16 msg) in *.
  assert (crc16 msg = 256 * hi + lo) as E by (symmetry; exact V).
  rewrite E. cbn [foldl].
  replace ((256 * hi + lo) mod 256) with lo by mlia.
  replace ((256 * hi + lo) / 256) with hi by mlia.
  assert (crc_byte (256 * hi + lo) lo = hi) as ->.
  { unfold crc_byte. rewrite lxor_bytes, Z.lxor_nilpotent by done.
    rewrite crc_bits_byte.
    change (Nat.iter 8 crc_bit 0) with 0. apply Z.lxor_0_r. }
  unfold crc_byte. by rewrite Z.lxor_nilpotent.
Qed.

Lemma crc_lo_inj i j : is_u8 i -> is_u8 j -> rd aucCRCLo i = rd aucCRCLo j -> i = j.
Proof.
  intros Hi Hj E.
  assert (forall k, is_u8 k -> Z.of_nat (default 0%nat (fst <$> list_find (eq (rd aucCRCLo k)) aucCRCLo)) = k)
    as H.
  { intros k Hk. apply Z.eqb_eq. by_enumeration 256%nat k. }
  rewrite <- (H i Hi), <- (H j Hj). by rewrite E.
Qed.

Lemma lxor_cancel_l a x y : Z.lxor a x = Z.lxor a y -> x = y.
Proof.
  intros H. apply (f_equal (Z.lxor a)) in H.
  by rewrite <- !Z.lxor_assoc, Z.lxor_nilpotent, !Z.lxor_0_l in H.
Qed.
Lemma lxor_cancel_r a x y : Z.lxor x a = Z.lxor y a -> x = y.
Proof. rewrite !(Z.lxor_comm _ a). apply lxor_cancel_l. Qed.
Lemma crc_val_inj c d : crc_pair_ok c -> crc_pair_ok d -> crc_val c = crc_val d -> c = d.
Proof.
  destruct c as [a b], d as [a' b']. unfold crc_pair_ok, crc_val. cbn [fst snd].
  intros H1 H2 H. f_equal; mlia.
Qed.

(** The byte step is injective in the register and in the byte. *)
Lemma crc_byte_inj c d x y : crc_pair_ok c -> crc_pair_ok d -> is_u8 x -> is_u8 y ->
  crc_byte (crc_val c) x = crc_byte (crc_val d) y ->
  Z.lxor c.2 x = Z.lxor d.2 y /\ c.1 = d.1.
Proof.
  intros Hc Hd Hx Hy E.
  destruct (crc_step_ok c x Hc Hx) as (c' & _ & Hc' & Vc & C1 & C2).
  destruct (crc_step_ok d y Hd Hy) as (d' & _ & Hd' & Vd & D1 & D2).
  assert (c' = d') as Heq by (apply crc_val_inj; [done|done|congruence]).
  assert (Z.lxor c.2 x = Z.lxor d.2 y) as Hi.
  { destruct Hc, Hd. apply crc_lo_inj; [by apply lxor_u8|by apply lxor_u8|congruence]. }
  split; [done|]. rewrite Heq in C2. rewrite C2, Hi in D2. by apply lxor_cancel_r in D2.
Qed.

Lemma crc_suffix_inj msg c d : Forall is_u8 msg -> crc_pair_ok c -> crc_pair_ok d ->
  foldl crc_byte (crc_val c) msg = foldl crc_byte (crc_val d) msg -> c = d.
Proof.
  intros Hm. revert c d. induction Hm as [|b msg Hb Hm IH]; intros c d Hc Hd E.
  - by apply crc_val_inj.
  - cbn [foldl] in E.
    destruct (crc_step_ok c b Hc Hb) as (c' & _ & Hc' & Vc & _).
    destruct (crc_step_ok d b Hd Hb) as (d' & _ & Hd' & Vd & _).
    rewrite <- Vc, <- Vd in E. apply IH in E; [|done|done].
    destruct (crc_byte_inj c d b b Hc Hd Hb Hb) as [H1 H2]; [congruence|].
    apply lxor_cancel_r in H1. destruct c, d. cbn in *. congruence.
Qed.

(** ** Properties *)

(** C24: The table-driven [usMBCRC16] stays inside the buffer and its tables and
    computes the bitwise CRC-16 with polynomial 0xA001 and initial value
    0xFFFF of the first [usLen] bytes. *)
Theorem usMBCRC16_is_crc16 buf usLen :
  Forall is_u8 buf -> 0 <= usLen <= Z.of_nat (length buf) ->
  usMBCRC16 buf usLen = Ok (crc16 (take (Z.to_nat usLen) buf)).
Proof. intros Hb Hn. by apply usMBCRC16_ok. Qed.

Lemma usMBCRC16_is_crc16_witness :
  usMBCRC16 [0x01; 0x03; 0x00; 0x08; 0x00; 0x02] 6
  = Ok (crc16 (take (Z.to_nat 6) [0x01; 0x03; 0x00; 0x08; 0x00; 0x02])).
Proof.
  apply usMBCRC16_is_crc16; [repeat constructor; mlia|cbn; lia].
Defined.

(** A message followed by its CRC, low byte first, as the sender appends it,
    has CRC zero, which is what the receiver tests. *)
Theorem crc_residue_zero msg rest :
  Forall is_u8 msg -> Forall is_u8 rest ->
  usMBCRC16 (msg ++ [crc16 msg mod 256; crc16 msg / 256] ++ rest)
    (Z.of_nat (length msg) + 2) = Ok 0.
Proof.
  intros Hm Hr. rewrite app_assoc.
  assert (is_u16 (crc16 msg)) as Hc.
  { destruct (usMBCRC16_ok msg (Z.of_nat (length msg)) Hm ltac:(lia)) as [_ H].
    by rewrite Nat2Z.id, firstn_all in H. }
  replace (Z.of_nat (length msg) + 2) with
    (Z.of_nat (length (msg ++ [crc16 msg mod 256; crc16 msg / 256])))
    by (rewrite length_app; cbn; lia).
  edestruct usMBCRC16_ok as [-> _].
  - apply Forall_app. split; [|done]. apply Forall_app. split; [done|].
    repeat constructor; mlia.
  - rewrite !length_app. lia.
  - rewrite Nat2Z.id, take_app_length. by rewrite crc16_residue.
Qed.

(** Messages that differ in exactly one byte have different CRCs. *)
Lemma crc16_byte_inj pre x y post :
  Forall is_u8 pre -> Forall is_u8 post -> is_u8 x -> is_u8 y -> x <> y ->
  crc16 (pre ++ x :: post) <> crc16 (pre ++ y :: post).
Proof.
  intros Hp Hq Hx Hy Hne E. unfold crc16 in E. rewrite !foldl_app in E. cbn [foldl] in E.
  destruct (crc_run_ok pre (0xFF, 0xFF)) as (c & _ & Hc & V); [split; cbn; mlia|done|].
  change (crc_val (0xFF, 0xFF)) with 0xFFFF in V. rewrite <- V in E.
  destruct (crc_step_ok c x Hc Hx) as (cx & _ & Hcx & Vx & _).
  destruct (crc_step_ok c y Hc Hy) as (cy & _ & Hcy & Vy & _).
  rewrite <- Vx, <- Vy in E. apply crc_suffix_inj in E; [|done|done|done].
  destruct (crc_byte_inj c c x y Hc Hc Hx Hy) as [H1 _]; [congruence|].
  apply Hne, (lxor_cancel_l _ _ _ H1).
Qed.

(** C37: An error confined to one byte is always detected: if [usMBCRC16]
    accepts a frame (result 0), it rejects every frame that differs from it
    in exactly one byte. *)
Theorem crc_detects_byte_error pre x y post n :
  Forall is_u8 pre -> Forall is_u8 post -> is_u8 x -> is_u8 y -> x <> y ->
  n = Z.of_nat (length pre + 1 + length post) ->
  usMBCRC16 (pre ++ x :: post) n = Ok 0 -> usMBCRC16 (pre ++ y :: post) n <> Ok 0.
Proof.
  intros Hp Hq Hx Hy Hne ->.
  destruct (usMBCRC16_ok (pre ++ x :: post) (Z.of_nat (length pre + 1 + length post)))
    as [-> _]; [apply Forall_app; auto|rewrite length_app; cbn; lia|].
  destruct (usMBCRC16_ok (pre ++ y :: post) (Z.of_nat (length pre + 1 + length post)))
    as [-> _]; [apply Forall_app; auto|rewrite length_app; cbn; lia|].
  rewrite Nat2Z.id, !take_ge by (rewrite length_app; cbn; lia).
  intros [= E] [= E']. apply (crc16_byte_inj pre x y post); congruence.
Qed.

Lemma crc_detects_byte_error_witness :
  usMBCRC16 ([1; 3] ++ 1 :: [0; 0; 2; 0xC4; 0x0B]) 8 <> Ok 0.
Proof.
  apply (crc_detects_byte_error [1; 3] 0); try (repeat constructor; mlia); try mlia.
Defined.
