(* ===== verification/MbData.v ===== *)
(** * The slave's data model and register callbacks
    (freemodbus/port/user_mb_app.c, freemodbus/modbus/functions/mbutils.c)

    The four register files of the slave and the callbacks the protocol stack
    uses to read and write them.  A [UCHAR *] argument is an array with an
    offset into it. *)
From S2P Require Import Prelude Registers.

Inductive eMBErrorCode : Set :=
| MB_ENOERR | MB_ENOREG | MB_EINVAL | MB_EPORTERR | MB_ENORES | MB_EIO | MB_EILLSTATE
| MB_ETIMEDOUT.
Inductive eMBException : Set :=
| MB_EX_NONE | MB_EX_ILLEGAL_FUNCTION | MB_EX_ILLEGAL_DATA_ADDRESS
| MB_EX_ILLEGAL_DATA_VALUE | MB_EX_SLAVE_DEVICE_FAILURE | MB_EX_ACKNOWLEDGE
| MB_EX_SLAVE_BUSY | MB_EX_MEMORY_PARITY_ERROR | MB_EX_GATEWAY_PATH_FAILED
| MB_EX_GATEWAY_TGT_FAILED.
Inductive eMBRegisterMode : Set := MB_REG_READ | MB_REG_WRITE.
#[global] Instance eMBErrorCode_eq_dec : EqDecision eMBErrorCode.
Proof. solve_decision. Defined.
#[global] Instance eMBException_eq_dec : EqDecision eMBException.
Proof. solve_decision. Defined.

(** The byte an exception code is sent as. *)
Definition exception_code (e : eMBException) : Z :=
  match e with
  | MB_EX_NONE => 0x00 | MB_EX_ILLEGAL_FUNCTION => 0x01
  | MB_EX_ILLEGAL_DATA_ADDRESS => 0x02 | MB_EX_ILLEGAL_DATA_VALUE => 0x03
  | MB_EX_SLAVE_DEVICE_FAILURE => 0x04 | MB_EX_ACKNOWLEDGE => 0x05
  | MB_EX_SLAVE_BUSY => 0x06 | MB_EX_MEMORY_PARITY_ERROR => 0x08
  | MB_EX_GATEWAY_PATH_FAILED => 0x0A | MB_EX_GATEWAY_TGT_FAILED => 0x0B
  end.

Definition S_DISCRETE_INPUT_START : Z := 0.
Definition S_DISCRETE_INPUT_NDISCRETES : Z := 16.
Definition S_COIL_START : Z := 0.
Definition S_COIL_NCOILS : Z := 64.
Definition S_REG_INPUT_START : Z := 0.
Definition S_REG_INPUT_NREGS : Z := 120.

Record mb_data := mkData {
  ucSDiscInBuf : list Z;
  ucSCoilBuf : list Z;
  usSRegInBuf : list Z;
  usSRegHoldBuf : list Z }.

(** The arrays as declared, zero at start-up. *)
Definition mb_data_init : mb_data :=
  mkData (replicate 2 0) (replicate 8 0) (replicate 120 0) regs_init.

Definition data_wf (d : mb_data) : Prop :=
  length (ucSDiscInBuf d) = 2%nat /\ Forall is_u8 (ucSDiscInBuf d)
  /\ length (ucSCoilBuf d) = 8%nat /\ Forall is_u8 (ucSCoilBuf d)
  /\ length (usSRegInBuf d) = 120%nat /\ Forall is_u16 (usSRegInBuf d)
  /\ regs_wf (usSRegHoldBuf d).

Definition set_coils (c : list Z) (d : mb_data) : mb_data :=
  mkData (ucSDiscInBuf d) c (usSRegInBuf d) (usSRegHoldBuf d).
Definition set_holding (h : list Z) (d : mb_data) : mb_data :=
  mkData (ucSDiscInBuf d) (ucSCoilBuf d) (usSRegInBuf d) h.

(** ** Bit utilities *)
Definition BITS_UCHAR : Z := 8.

(** [xMBUtilSetBits(&buf[p], usBitOffset, ucNBits, ucValue)] *)
Definition xMBUtilSetBits (buf : list Z) (p usBitOffset ucNBits ucValue : Z) : res (list Z) :=
  if ucNBits <=? 8 then
    let usByteOffset := u16 (usBitOffset / BITS_UCHAR) in
    let usNPreBits := u16 (usBitOffset - usByteOffset * BITS_UCHAR) in
    let usValue := u16 (Z.shiftl ucValue usNPreBits) in
    let usMask := u16 (Z.shiftl 1 ucNBits - 1) in
    let usMask := u16 (Z.shiftl usMask (usBitOffset - usByteOffset * BITS_UCHAR)) in
    b0 ← get buf (p + usByteOffset);
    b1 ← get buf (p + usByteOffset + 1);
    let usWordBuf := u16 (Z.lor b0 (Z.shiftl b1 BITS_UCHAR)) in
    let usWordBuf := u16 (Z.lor (Z.land usWordBuf (Z.lnot usMask)) usValue) in
    buf ← set buf (p + usByteOffset) (u8 (Z.land usWordBuf 0xFF));
    set buf (p + usByteOffset + 1) (u8 (Z.shiftr usWordBuf BITS_UCHAR))
  else Fault AssertFail.

(** [xMBUtilGetBits(&buf[p], usBitOffset, ucNBits)] *)
Definition xMBUtilGetBits (buf : list Z) (p usBitOffset ucNBits : Z) : res Z :=
  let usByteOffset := u16 (usBitOffset / BITS_UCHAR) in
  let usNPreBits := u16 (usBitOffset - usByteOffset * BITS_UCHAR) in
  let usMask := u16 (Z.shiftl 1 ucNBits - 1) in
  b0 ← get buf (p + usByteOffset);
  b1 ← get buf (p + usByteOffset + 1);
  let usWordBuf := u16 (Z.lor b0 (Z.shiftl b1 BITS_UCHAR)) in
  let usWordBuf := Z.shiftr usWordBuf usNPreBits in
  let usWordBuf := Z.land usWordBuf usMask in
  Ok (u8 usWordBuf).

Definition prveMBError2Exception (eErrorCode : eMBErrorCode) : eMBException :=
  match eErrorCode with
  | MB_ENOERR => MB_EX_NONE
  | MB_ENOREG => MB_EX_ILLEGAL_DATA_ADDRESS
  | MB_ETIMEDOUT => MB_EX_SLAVE_BUSY
  | _ => MB_EX_SLAVE_DEVICE_FAILURE
  end.

(** ** Register callbacks *)

(** The reading loop: [n] registers from [regs[i]] on, two bytes each, high
    byte first, into [buf] at [off]. *)
Fixpoint put_regs (n : nat) (regs : list Z) (i : Z) (buf : list Z) (off : Z) : res (list Z) :=
  match n with
  | O => Ok buf
  | S n' =>
      v ← get regs i;
      buf ← set buf off (u8 (Z.shiftr v 8));
      buf ← set buf (off + 1) (u8 (Z.land v 0xFF));
      put_regs n' regs (u16 (i + 1)) buf (off + 2)
  end.

(** The writing loop. *)
Fixpoint take_regs (n : nat) (regs : list Z) (i : Z) (buf : list Z) (off : Z) : res (list Z) :=
  match n with
  | O => Ok regs
  | S n' =>
      h ← get buf off;
      regs ← set regs i (u16 (Z.shiftl h 8));
      l ← get buf (off + 1);
      v ← get regs i;
      regs ← set regs i (Z.lor v l);
      take_regs n' regs (u16 (i + 1)) buf (off + 2)
  end.

Definition eMBRegInputCB (d : mb_data) (buf : list Z) (off usAddress usNRegs : Z)
  : res (eMBErrorCode * list Z) :=
  let usAddress := u16 (usAddress - 1) in
  if (S_REG_INPUT_START <=? usAddress)
     && (usAddress + usNRegs <=? S_REG_INPUT_START + S_REG_INPUT_NREGS) then
    let iRegIndex := u16 (usAddress - S_REG_INPUT_START) in
    buf ← put_regs (Z.to_nat usNRegs) (usSRegInBuf d) iRegIndex buf off;
    Ok (MB_ENOERR, buf)
  else Ok (MB_ENOREG, buf).

(** Reads fill [buf], writes change the data. *)
Definition eMBRegHoldingCB (d : mb_data) (buf : list Z) (off usAddress usNRegs : Z)
    (eMode : eMBRegisterMode) : res (eMBErrorCode * mb_data * list Z) :=
  let usAddress := u16 (usAddress - 1) in
  if (S_REG_HOLDING_START <=? usAddress)
     && (usAddress + usNRegs <=? S_REG_HOLDING_START + S_REG_HOLDING_NREGS) then
    let iRegIndex := u16 (usAddress - S_REG_HOLDING_START) in
    match eMode with
    | MB_REG_READ =>
        buf ← put_regs (Z.to_nat usNRegs) (usSRegHoldBuf d) iRegIndex buf off;
        Ok (MB_ENOERR, d, buf)
    | MB_REG_WRITE =>
        h ← take_regs (Z.to_nat usNRegs) (usSRegHoldBuf d) iRegIndex buf off;
        Ok (MB_ENOERR, set_holding h d, buf)
    end
  else Ok (MB_ENOREG, d, buf).

(** [n] bytes of bits from [bits[i]] on, starting at bit [bit] of each. *)
Fixpoint put_bits (n : nat) (bits : list Z) (i bit : Z) (buf : list Z) (off : Z)
  : res (list Z) :=
  match n with
  | O => Ok buf
  | S n' =>
      v ← xMBUtilGetBits bits i bit 8;
      buf ← set buf off v;
      put_bits n' bits (u16 (i + 1)) bit buf (off + 1)
  end.

Fixpoint take_bits (n : nat) (bits : list Z) (i bit : Z) (buf : list Z) (off : Z)
  : res (list Z) :=
  match n with
  | O => Ok bits
  | S n' =>
      v ← get buf off;
      bits ← xMBUtilSetBits bits i bit 8 v;
      take_bits n' bits (u16 (i + 1)) bit buf (off + 1)
  end.

(** The reading half shared by coils and discrete inputs: all bytes, then the
    unused high bits of the last one cleared. *)
Definition read_bits (bits : list Z) (idx bit n : Z) (buf : list Z) (off : Z)
  : res (list Z) :=
  let iNReg := u16 (n / 8 + 1) in
  buf ← put_bits (Z.to_nat iNReg) bits idx bit buf off;
  let last := off + iNReg - 1 in
  let n := n mod 8 in
  v ← get buf last;
  buf ← set buf last (u8 (Z.shiftl v (8 - n)));
  v ← get buf last;
  set buf last (u8 (Z.shiftr v (8 - n))).

Definition eMBRegCoilsCB (d : mb_data) (buf : list Z) (off usAddress usNCoils : Z)
    (eMode : eMBRegisterMode) : res (eMBErrorCode * mb_data * list Z) :=
  let iNReg := u16 (usNCoils / 8 + 1) in
  let usAddress := u16 (usAddress - 1) in
  if (S_COIL_START <=? usAddress)
     && (usAddress + usNCoils <=? S_COIL_START + S_COIL_NCOILS) then
    let iRegIndex := u16 (usAddress - S_COIL_START) / 8 in
    let iRegBitIndex := u16 (usAddress - S_COIL_START) mod 8 in
    match eMode with
    | MB_REG_READ =>
        buf ← read_bits (ucSCoilBuf d) iRegIndex iRegBitIndex usNCoils buf off;
        Ok (MB_ENOERR, d, buf)
    | MB_REG_WRITE =>
        let whole := Z.to_nat (iNReg - 1) in
        coils ← take_bits whole (ucSCoilBuf d) iRegIndex iRegBitIndex buf off;
        let n := usNCoils mod 8 in
        coils ← (if n =? 0 then Ok coils else
                   v ← get buf (off + Z.of_nat whole);
                   xMBUtilSetBits coils (u16 (iRegIndex + Z.of_nat whole)) iRegBitIndex n v);
        Ok (MB_ENOERR, set_coils coils d, buf)
    end
  else Ok (MB_ENOREG, d, buf).

Definition eMBRegDiscreteCB (d : mb_data) (buf : list Z) (off usAddress usNDiscrete : Z)
  : res (eMBErrorCode * list Z) :=
  let usAddress := u16 (usAddress - 1) in
  if (S_DISCRETE_INPUT_START <=? usAddress)
     && (usAddress + usNDiscrete <=? S_DISCRETE_INPUT_START + S_DISCRETE_INPUT_NDISCRETES) then
    let iRegIndex := u16 (usAddress - S_DISCRETE_INPUT_START) / 8 in
    let iRegBitIndex := u16 (usAddress - S_DISCRETE_INPUT_START) mod 8 in
    buf ← read_bits (ucSDiscInBuf d) iRegIndex iRegBitIndex usNDiscrete buf off;
    Ok (MB_ENOERR, buf)
  else Ok (MB_ENOREG, buf).

(** ** Lemmas *)

Lemma data_init_wf : data_wf mb_data_init.
Proof.
  repeat split; try apply Forall_replicate; try apply regs_init_wf; mlia.
Qed.

(** What a block of registers looks like on the wire. *)
Definition wire_regs (buf : list Z) (off : Z) (regs : list Z) (i n : Z) : Prop :=
  forall k, 0 <= k < n ->
    rd buf (off + 2 * k) = rd regs (i + k) / 256
    /\ rd buf (off + 2 * k + 1) = rd regs (i + k) mod 256.

Lemma put_regs_ok n regs i buf off :
  Forall is_u16 regs -> Forall is_u8 buf -> 0 <= i -> 0 <= off ->
  i + Z.of_nat n <= Z.of_nat (length regs) -> Z.of_nat (length regs) < 65536 ->
  off + 2 * Z.of_nat n <= Z.of_nat (length buf) ->
  exists buf', put_regs n regs i buf off = Ok buf'
  /\ length buf' = length buf /\ Forall is_u8 buf'
  /\ wire_regs buf' off regs i (Z.of_nat n)
  /\ forall j, 0 <= j -> (j < off \/ off + 2 * Z.of_nat n <= j) -> rd buf' j = rd buf j.
Proof.
  intros Hr. revert i buf off.
  induction n as [|n IH]; intros i buf off Hb Hi Ho Hin Hlen Hoff; cbn [put_regs].
  - exists buf. repeat split; try done; lia.
  - assert (is_u16 (rd regs i)) as Hv by (apply rd_Forall; [done|unfold in_range; lia]).
    rewrite get_in, bind_ret_l by (unfold in_range; lia).
    rewrite shiftr_8, land_ff, !u8_id by mlia.
    rewrite set_in, bind_ret_l by (unfold in_range; lia).
    rewrite set_in, bind_ret_l by (apply in_range_upd; unfold in_range; lia).
    rewrite u16_id by mlia.
    set (b2 := upd (upd buf _ _) _ _).
    assert (length b2 = length buf) as L2 by (unfold b2; by rewrite !length_upd).
    destruct (IH (i + 1) b2 (off + 2)) as (buf' & -> & L & F & Wr & Out); try lia.
    { unfold b2. repeat apply Forall_upd; (done || mlia). }
    exists buf'. split; [done|]. split; [lia|]. split; [done|]. split.
    + intros k Hk. destruct (decide (k = 0)) as [->|Hk0].
      * rewrite !Out by lia. replace (off + 2 * 0) with off by lia.
        replace (i + 0) with i by lia. unfold b2.
        rewrite rd_upd_ne, !rd_upd_eq by (rewrite ?in_range_upd; unfold in_range; lia). done.
      * specialize (Wr (k - 1) ltac:(lia)).
        replace (off + 2 * k) with (off + 2 + 2 * (k - 1)) by lia.
        by replace (i + k) with (i + 1 + (k - 1)) by lia.
    + intros j Hj Hjo. rewrite Out by lia. unfold b2. by rewrite !rd_upd_ne by lia.
Qed.

Lemma lor_word v l : is_u8 l -> Z.lor (u16 (Z.shiftl v 8)) l = u16 (256 * v) + l.
Proof.
  intros Hl. rewrite shiftl_8.
  replace (u16 (v * 256)) with (v mod 256 * 2 ^ 8) by (change (2 ^ 8) with 256; mlia).
  rewrite lor_disjoint by mlia. change (2 ^ 8) with 256. mlia.
Qed.

Lemma take_regs_ok n regs i buf off :
  Forall is_u16 regs -> Forall is_u8 buf -> 0 <= i -> 0 <= off ->
  i + Z.of_nat n <= Z.of_nat (length regs) -> Z.of_nat (length regs) < 65536 ->
  off + 2 * Z.of_nat n <= Z.of_nat (length buf) ->
  exists regs', take_regs n regs i buf off = Ok regs'
  /\ length regs' = length regs /\ Forall is_u16 regs'
  /\ (forall k, 0 <= k < Z.of_nat n ->
        rd regs' (i + k) = 256 * rd buf (off + 2 * k) + rd buf (off + 2 * k + 1))
  /\ forall j, 0 <= j -> (j < i \/ i + Z.of_nat n <= j) -> rd regs' j = rd regs j.
Proof.
  intros Hr Hb. revert regs Hr i off.
  induction n as [|n IH]; intros regs Hr i off Hi Ho Hin Hlen Hoff; cbn [take_regs].
  - exists regs. repeat split; try done; lia.
  - assert (is_u8 (rd buf off)) as Bh by (apply rd_Forall; [done|unfold in_range; lia]).
    assert (is_u8 (rd buf (off + 1))) as Bl by (apply rd_Forall; [done|unfold in_range; lia]).
    rewrite (get_in buf off), bind_ret_l by (unfold in_range; lia).
    rewrite set_in, bind_ret_l by (unfold in_range; lia).
    rewrite (get_in buf (off + 1)), bind_ret_l by (unfold in_range; lia).
    rewrite get_in, bind_ret_l by (apply in_range_upd; unfold in_range; lia).
    rewrite rd_upd_eq by (unfold in_range; lia).
    rewrite set_in, bind_ret_l by (apply in_range_upd; unfold in_range; lia).
    rewrite lor_word by done. rewrite (u16_id (256 * rd buf off)), (u16_id (i + 1)) by mlia.
    set (r2 := upd (upd regs _ _) _ _).
    assert (length r2 = length regs) as L2 by (unfold r2; by rewrite !length_upd).
    destruct (IH r2) with (i := i + 1) (off := off + 2) as (regs' & -> & L & F & Wr & Out);
      try lia.
    { unfold r2. repeat apply Forall_upd; (done || auto with machine || mlia). }
    exists regs'. split; [done|]. split; [lia|]. split; [done|]. split.
    + intros k Hk. destruct (decide (k = 0)) as [->|Hk0].
      * rewrite Out by lia. replace (off + 2 * 0) with off by lia.
        replace (i + 0) with i by lia. unfold r2.
        by rewrite rd_upd_eq by (rewrite ?in_range_upd; unfold in_range; lia).
      * specialize (Wr (k - 1) ltac:(lia)).
        replace (off + 2 * k) with (off + 2 + 2 * (k - 1)) by lia.
        by replace (i + k) with (i + 1 + (k - 1)) by lia.
    + intros j Hj Hjo. rewrite Out by lia. unfold r2. by rewrite !rd_upd_ne by lia.
Qed.

(** ** Bits *)

(** Bit [j] of a bit array. *)
Definition bit_at (bits : list Z) (j : Z) : bool := Z.testbit (rd bits (j / 8)) (j mod 8).

Lemma testbit_u8 z k : 0 <= k < 8 -> Z.testbit (u8 z) k = Z.testbit z k.
Proof. intros. unfold u8. change 256 with (2 ^ 8). apply Z.mod_pow2_bits_low. lia. Qed.
Lemma testbit_u16 z k : 0 <= k < 16 -> Z.testbit (u16 z) k = Z.testbit z k.
Proof. intros. unfold u16. change 65536 with (2 ^ 16). apply Z.mod_pow2_bits_low. lia. Qed.
Lemma testbit_u8_high z k : is_u8 z -> 8 <= k -> Z.testbit z k = false.
Proof.
  intros Hz Hk. rewrite <- (Z.mod_small z (2 ^ 8)) by mlia.
  apply Z.mod_pow2_bits_high. lia.
Qed.

(** The two bytes the bit utilities work on, as one word. *)
Lemma testbit_two_bytes b0 b1 j : is_u8 b0 -> 0 <= j < 16 ->
  Z.testbit (u16 (Z.lor b0 (Z.shiftl b1 BITS_UCHAR))) j
  = if decide (j < 8) then Z.testbit b0 j else Z.testbit b1 (j - 8).
Proof.
  intros H0 Hj. unfold BITS_UCHAR.
  rewrite testbit_u16, Z.lor_spec, Z.shiftl_spec by lia. case_decide.
  - by rewrite (Z.testbit_neg_r b1), orb_false_r by lia.
  - by rewrite (testbit_u8_high b0) by (done || lia).
Qed.

Lemma bit_at_word bits p j : 0 <= p -> 0 <= j < 16 ->
  (if decide (j < 8) then Z.testbit (rd bits p) j else Z.testbit (rd bits (p + 1)) (j - 8))
  = bit_at bits (8 * p + j).
Proof.
  intros Hp Hj. unfold bit_at. case_decide.
  - replace ((8 * p + j) / 8) with p by lia. by replace ((8 * p + j) mod 8) with j by lia.
  - replace ((8 * p + j) / 8) with (p + 1) by lia.
    by replace ((8 * p + j) mod 8) with (j - 8) by lia.
Qed.

Lemma xMBUtilGetBits_in buf p bit :
  Forall is_u8 buf -> 0 <= p -> 0 <= bit < 8 -> p + 1 < Z.of_nat (length buf) ->
  exists v, xMBUtilGetBits buf p bit 8 = Ok v /\ is_u8 v
  /\ forall k, 0 <= k < 8 -> Z.testbit v k = bit_at buf (8 * p + bit + k).
Proof.
  intros Hb Hp Hbit Hlen. unfold xMBUtilGetBits.
  replace (u16 (bit / BITS_UCHAR)) with 0 by (unfold BITS_UCHAR; mlia).
  replace (u16 (bit - 0 * BITS_UCHAR)) with bit by (unfold BITS_UCHAR; mlia).
  replace (p + 0) with p by lia.
  rewrite !get_in, !bind_ret_l by (unfold in_range; lia).
  eexists. split; [done|]. split; [apply u8_range|]. intros k Hk.
  change (u16 (Z.shiftl 1 8 - 1)) with (Z.ones 8).
  rewrite testbit_u8, Z.land_spec, Z.ones_spec_low, andb_true_r, Z.shiftr_spec by lia.
  rewrite testbit_two_bytes; [|apply rd_Forall; [done|unfold in_range; lia]|lia].
  rewrite bit_at_word by lia. f_equal. lia.
Qed.

Lemma xMBUtilGetBits_out buf p bit :
  0 <= p -> 0 <= bit < 8 -> Z.of_nat (length buf) <= p + 1 ->
  xMBUtilGetBits buf p bit 8 = Fault OutOfBounds.
Proof.
  intros Hp Hbit Hlen. unfold xMBUtilGetBits.
  replace (u16 (bit / BITS_UCHAR)) with 0 by (unfold BITS_UCHAR; mlia).
  replace (p + 0) with p by lia.
  rewrite (get_out buf (p + 1)) by (unfold in_range; lia).
  unfold get. by case_decide.
Qed.

Lemma u16_ones n : 0 <= n <= 8 -> u16 (Z.shiftl 1 n - 1) = Z.ones n.
Proof.
  intros Hn. rewrite Z.shiftl_1_l, Z.ones_equiv.
  assert (1 <= 2 ^ n <= 2 ^ 8) as H.
  { split; [change 1 with (2 ^ 0)|]; apply Z.pow_le_mono_r; lia. }
  change (2 ^ 8) with 256 in H. rewrite u16_id by mlia. lia.
Qed.

(** A write of [n] bits into a word: the value's bits are or-ed in, not only
    the [n] addressed ones. *)
Lemma testbit_set_word w v n bit i :
  0 <= n <= 8 -> 0 <= bit < 8 -> 0 <= i < 16 ->
  Z.testbit (u16 (Z.lor (Z.land w (Z.lnot (u16 (Z.shiftl (u16 (Z.shiftl 1 n - 1)) bit))))
                        (u16 (Z.shiftl v bit)))) i
  = if decide (bit <= i < bit + n) then Z.testbit v (i - bit)
    else Z.testbit w i || Z.testbit v (i - bit).
Proof.
  intros Hn Hbit Hi. rewrite u16_ones by done.
  rewrite testbit_u16, Z.lor_spec, Z.land_spec, Z.lnot_spec, !testbit_u16,
    !Z.shiftl_spec by lia.
  assert (Z.testbit (Z.ones n) (i - bit) = bool_decide (bit <= i < bit + n)) as ->.
  { rewrite Z.testbit_ones by lia. case_bool_decide; repeat case_bool_decide; lia. }
  case_decide as H.
  - by rewrite bool_decide_true, andb_false_r by done.
  - by rewrite bool_decide_false, andb_true_r by done.
Qed.

Lemma xMBUtilSetBits_in buf p bit n v :
  Forall is_u8 buf -> 0 <= p -> 0 <= bit < 8 -> 0 <= n <= 8 -> is_u8 v ->
  p + 1 < Z.of_nat (length buf) ->
  exists buf', xMBUtilSetBits buf p bit n v = Ok buf'
  /\ length buf' = length buf /\ Forall is_u8 buf'
  /\ forall j, 0 <= j -> bit_at buf' j =
       if decide (8 * p + bit <= j < 8 * p + bit + n) then Z.testbit v (j - (8 * p + bit))
       else bit_at buf j || Z.testbit v (j - (8 * p + bit)).
Proof.
  intros Hb Hp Hbit Hn Hv Hlen. unfold xMBUtilSetBits.
  rewrite (proj2 (Z.leb_le n 8)) by lia.
  replace (u16 (bit / BITS_UCHAR)) with 0 by (unfold BITS_UCHAR; mlia).
  replace (bit - 0 * BITS_UCHAR) with bit by (unfold BITS_UCHAR; mlia).
  rewrite (u16_id bit) by mlia. replace (p + 0) with p by lia.
  rewrite !get_in, !bind_ret_l by (unfold in_range; lia). cbv zeta.
  match goal with |- context [Z.land (u16 ?x) 255] => set (w := u16 x) end.
  rewrite set_in, bind_ret_l by (unfold in_range; lia).
  rewrite set_in by (apply in_range_upd; unfold in_range; lia).
  eexists. split; [done|]. split; [by rewrite !length_upd|].
  split; [repeat apply Forall_upd; auto with machine|].
  assert (forall i, 0 <= i < 16 -> Z.testbit w i =
    if decide (bit <= i < bit + n) then Z.testbit v (i - bit)
    else bit_at buf (8 * p + i) || Z.testbit v (i - bit)) as Hw.
  { intros i Hi. unfold w. rewrite testbit_set_word by lia.
    rewrite testbit_two_bytes; [|apply rd_Forall; [done|unfold in_range; lia]|lia].
    by rewrite bit_at_word by lia. }
  intros j Hj. unfold bit_at at 1.
  destruct (decide (j / 8 = p)) as [E|E].
  - rewrite E, rd_upd_ne, rd_upd_eq by (unfold in_range; lia).
    change 255 with (Z.ones 8). rewrite testbit_u8, Z.land_spec, Z.ones_spec_low, andb_true_r,
      Hw by lia. replace (8 * p + j mod 8) with j by lia.
    replace (j mod 8 - bit) with (j - (8 * p + bit)) by lia. repeat case_decide; (done || lia).
  - destruct (decide (j / 8 = p + 1)) as [E'|E'].
    + rewrite E', rd_upd_eq by (rewrite ?in_range_upd; unfold in_range; lia).
      rewrite testbit_u8, Z.shiftr_spec by lia. unfold BITS_UCHAR. rewrite Hw by lia.
      replace (8 * p + (j mod 8 + 8)) with j by lia.
      replace (j mod 8 + 8 - bit) with (j - (8 * p + bit)) by lia.
      repeat case_decide; (done || lia).
    + rewrite !rd_upd_ne by lia. rewrite decide_False by lia.
      change (Z.testbit (rd buf (j / 8)) (j mod 8)) with (bit_at buf j).
      destruct (decide (j < 8 * p + bit)).
      * by rewrite Z.testbit_neg_r, orb_false_r by lia.
      * by rewrite (testbit_u8_high v), orb_false_r by (done || lia).
Qed.

Lemma xMBUtilSetBits_out buf p bit n v :
  0 <= p -> 0 <= bit < 8 -> n <= 8 -> Z.of_nat (length buf) <= p + 1 ->
  xMBUtilSetBits buf p bit n v = Fault OutOfBounds.
Proof.
  intros Hp Hbit Hn Hlen. unfold xMBUtilSetBits. rewrite (proj2 (Z.leb_le n 8)) by lia.
  replace (u16 (bit / BITS_UCHAR)) with 0 by (unfold BITS_UCHAR; mlia).
  replace (p + 0) with p by lia.
  rewrite (get_out buf (p + 1)) by (unfold in_range; lia).
  unfold get. by case_decide.
Qed.

(** What a run of [n] bits looks like on the wire. *)
Definition wire_bits (buf : list Z) (off : Z) (bits : list Z) (j n : Z) : Prop :=
  forall k, 0 <= k < n ->
    Z.testbit (rd buf (off + k / 8)) (k mod 8) = bit_at bits (j + k).

Lemma put_bits_ok n bits i bit buf off :
  Forall is_u8 bits -> Forall is_u8 buf -> 0 <= i -> 0 <= bit < 8 -> 0 <= off ->
  (n = 0%nat \/ i + Z.of_nat n < Z.of_nat (length bits)) ->
  Z.of_nat (length bits) < 65536 -> off + Z.of_nat n <= Z.of_nat (length buf) ->
  exists buf', put_bits n bits i bit buf off = Ok buf'
  /\ length buf' = length buf /\ Forall is_u8 buf'
  /\ wire_bits buf' off bits (8 * i + bit) (8 * Z.of_nat n)
  /\ forall j, 0 <= j -> (j < off \/ off + Z.of_nat n <= j) -> rd buf' j = rd buf j.
Proof.
  intros Hbits. revert i buf off.
  induction n as [|n IH]; intros i buf off Hb Hi Hbit Ho Hin Hlen Hoff; cbn [put_bits].
  - exists buf. repeat split; try done. intros k Hk. lia.
  - destruct (xMBUtilGetBits_in bits i bit) as (v & -> & Hv & Hbv); [done|lia..|].
    rewrite bind_ret_l, set_in, bind_ret_l, u16_id by (unfold in_range; mlia).
    destruct (IH (i + 1) (upd buf off v) (off + 1)) as (buf' & -> & L & F & Wr & Out);
      try (rewrite ?length_upd; lia); [by apply Forall_upd|].
    exists buf'. rewrite length_upd in L. split; [done|]. split; [done|]. split; [done|]. split.
    + intros k Hk. destruct (decide (k < 8)) as [Hk8|Hk8].
      * rewrite Out by lia. replace (off + k / 8) with off by lia.
        rewrite rd_upd_eq, Hbv by (unfold in_range; lia). f_equal. lia.
      * specialize (Wr (k - 8) ltac:(lia)).
        replace (off + 1 + (k - 8) / 8) with (off + k / 8) in Wr by lia.
        replace ((k - 8) mod 8) with (k mod 8) in Wr by lia. rewrite Wr. f_equal. lia.
    + intros j Hj Hjo. rewrite Out by lia. by rewrite rd_upd_ne by lia.
Qed.

Lemma put_bits_out n bits i bit buf off :
  Forall is_u8 bits -> (n > 0)%nat -> 0 <= i -> 0 <= bit < 8 ->
  Z.of_nat (length bits) <= i + Z.of_nat n -> i + Z.of_nat n < 65536 ->
  put_bits n bits i bit buf off = Fault OutOfBounds.
Proof.
  intros Hbits. revert i buf off.
  induction n as [|n IH]; intros i buf off Hn Hi Hbit Hin Hlen; [lia|]. cbn [put_bits].
  destruct (decide (Z.of_nat (length bits) <= i + 1)) as [Hl|Hl].
  - by rewrite xMBUtilGetBits_out by lia.
  - destruct (xMBUtilGetBits_in bits i bit) as (v & -> & _); [done|lia..|].
    rewrite bind_ret_l. destruct (set buf off v) as [buf'|f] eqn:E.
    + rewrite bind_ret_l, u16_id by mlia. apply IH; lia.
    + unfold set in E. case_decide; naive_solver.
Qed.

Lemma testbit_cut v m k : is_u8 v -> 0 <= m < 8 -> 0 <= k < 8 ->
  Z.testbit (u8 (Z.shiftr (u8 (Z.shiftl v (8 - m))) (8 - m))) k
  = if decide (k < m) then Z.testbit v k else false.
Proof.
  intros Hv Hm Hk. rewrite testbit_u8, Z.shiftr_spec by lia. case_decide.
  - rewrite testbit_u8, Z.shiftl_spec by lia. f_equal. lia.
  - apply testbit_u8_high; [apply u8_range|lia].
Qed.

Lemma read_bits_ok bits i bit n buf off :
  Forall is_u8 bits -> Forall is_u8 buf -> 0 <= i -> 0 <= bit < 8 -> 0 <= off -> 0 <= n ->
  i + n / 8 + 1 < Z.of_nat (length bits) -> Z.of_nat (length bits) < 8192 ->
  off + n / 8 + 1 <= Z.of_nat (length buf) ->
  exists buf', read_bits bits i bit n buf off = Ok buf'
  /\ length buf' = length buf /\ Forall is_u8 buf'
  /\ wire_bits buf' off bits (8 * i + bit) n
  /\ (forall k, n <= k < 8 * (n / 8) + 8 -> Z.testbit (rd buf' (off + k / 8)) (k mod 8) = false)
  /\ forall j, 0 <= j -> (j < off \/ off + n / 8 + 1 <= j) -> rd buf' j = rd buf j.
Proof.
  intros Hbits Hb Hi Hbit Ho Hn Hin Hlen Hoff. unfold read_bits.
  rewrite (u16_id (n / 8 + 1)) by mlia. cbv zeta.
  destruct (put_bits_ok (Z.to_nat (n / 8 + 1)) bits i bit buf off)
    as (b1 & -> & L & F & Wr & Out); try (done || lia).
  rewrite bind_ret_l. replace (off + (n / 8 + 1) - 1) with (off + n / 8) by lia.
  rewrite get_in, bind_ret_l by (unfold in_range; lia).
  rewrite set_in, bind_ret_l by (unfold in_range; lia).
  rewrite get_in, bind_ret_l by (apply in_range_upd; unfold in_range; lia).
  rewrite rd_upd_eq by (unfold in_range; lia).
  rewrite set_in by (apply in_range_upd; unfold in_range; lia).
  assert (is_u8 (rd b1 (off + n / 8))) as Hl by (apply rd_Forall; [done|unfold in_range; lia]).
  eexists. split; [done|]. split; [by rewrite !length_upd|].
  split; [repeat apply Forall_upd; auto with machine|]. split; [|split].
  - intros k Hk. destruct (decide (k / 8 = n / 8)) as [E|E].
    + rewrite E, rd_upd_eq by (rewrite ?in_range_upd; unfold in_range; lia).
      rewrite testbit_cut, decide_True by (done || lia). rewrite <- E. apply Wr. lia.
    + rewrite !rd_upd_ne by lia. apply Wr. lia.
  - intros k Hk. replace (k / 8) with (n / 8) by lia.
    rewrite rd_upd_eq by (rewrite ?in_range_upd; unfold in_range; lia).
    by rewrite testbit_cut, decide_False by (done || lia).
  - intros j Hj Hjo. rewrite !rd_upd_ne by lia. apply Out; lia.
Qed.

Lemma take_bits_ok n bits i bit buf off :
  Forall is_u8 bits -> Forall is_u8 buf -> 0 <= i -> 0 <= bit < 8 -> 0 <= off ->
  (n = 0%nat \/ i + Z.of_nat n < Z.of_nat (length bits)) ->
  Z.of_nat (length bits) < 65536 -> off + Z.of_nat n <= Z.of_nat (length buf) ->
  exists bits', take_bits n bits i bit buf off = Ok bits'
  /\ length bits' = length bits /\ Forall is_u8 bits'
  /\ wire_bits buf off bits' (8 * i + bit) (8 * Z.of_nat n)
  /\ forall j, 0 <= j -> (j < 8 * i + bit \/ 8 * i + bit + 8 * Z.of_nat n <= j) ->
       bit_at bits' j = bit_at bits j.
Proof.
  intros Hbits Hb. revert bits Hbits i off.
  induction n as [|n IH]; intros bits Hbits i off Hi Hbit Ho Hin Hlen Hoff; cbn [take_bits].
  - exists bits. repeat split; try done. intros k Hk. lia.
  - assert (is_u8 (rd buf off)) as Hv by (apply rd_Forall; [done|unfold in_range; lia]).
    rewrite get_in, bind_ret_l by (unfold in_range; lia).
    destruct (xMBUtilSetBits_in bits i bit 8 (rd buf off))
      as (b1 & -> & L1 & F1 & B1); [done|lia|done|lia|done|lia|].
    rewrite bind_ret_l, u16_id by mlia.
    destruct (IH b1 F1 (i + 1) (off + 1)) as (b2 & -> & L & F & Wr & Out); [lia..|].
    exists b2. split; [done|]. split; [lia|]. split; [done|]. split.
    + intros k Hk. destruct (decide (k < 8)) as [Hk8|Hk8].
      * rewrite Out, B1, decide_True by lia.
        replace (off + k / 8) with off by lia. f_equal. lia.
      * specialize (Wr (k - 8) ltac:(lia)).
        replace (off + 1 + (k - 8) / 8) with (off + k / 8) in Wr by lia.
        replace ((k - 8) mod 8) with (k mod 8) in Wr by lia. rewrite Wr. f_equal. lia.
    + intros j Hj Hjo. rewrite Out, B1, decide_False by lia.
      destruct (decide (j < 8 * i + bit)).
      * by rewrite Z.testbit_neg_r, orb_false_r by lia.
      * by rewrite (testbit_u8_high (rd buf off)), orb_false_r by (done || lia).
Qed.

(** ** The callbacks, branch by branch *)

(** Zero-based address [a] reaches the callbacks as [a + 1]. *)
Lemma callback_address a : is_u16 a -> u16 (u16 (a + 1) - 1) = a.
Proof. mlia. Qed.

(** Enters the branch of a callback whose range check accepts [a]. *)
Ltac callback_accepts a :=
  rewrite callback_address by done; cbv zeta;
  rewrite (proj2 (andb_true_iff _ _)) by (split; apply Z.leb_le; mlia);
  replace (u16 (a - 0)) with a by mlia.

Lemma holding_read_ok d buf off a n :
  data_wf d -> Forall is_u8 buf -> 0 <= off -> is_u16 a -> 0 <= n -> a + n <= S_REG_HOLDING_NREGS ->
  off + 2 * n <= Z.of_nat (length buf) ->
  exists buf', eMBRegHoldingCB d buf off (u16 (a + 1)) n MB_REG_READ = Ok (MB_ENOERR, d, buf')
  /\ length buf' = length buf /\ Forall is_u8 buf'
  /\ wire_regs buf' off (usSRegHoldBuf d) a n
  /\ forall j, 0 <= j -> (j < off \/ off + 2 * n <= j) -> rd buf' j = rd buf j.
Proof.
  intros (_ & _ & _ & _ & _ & _ & [Hl Hr]) Hb Ho Ha Hn Han Hoff.
  unfold eMBRegHoldingCB, S_REG_HOLDING_NREGS, S_REG_HOLDING_START in *.
  callback_accepts a.
  destruct (put_regs_ok (Z.to_nat n) (usSRegHoldBuf d) a buf off)
    as (b & -> & L & F & Wr & Out); try (done || mlia).
  exists b. rewrite Z2Nat.id in * by lia. done.
Qed.

Lemma holding_write_ok d buf off a n :
  data_wf d -> Forall is_u8 buf -> 0 <= off -> is_u16 a -> 0 <= n -> a + n <= S_REG_HOLDING_NREGS ->
  off + 2 * n <= Z.of_nat (length buf) ->
  exists h, eMBRegHoldingCB d buf off (u16 (a + 1)) n MB_REG_WRITE
            = Ok (MB_ENOERR, set_holding h d, buf)
  /\ regs_wf h /\ wire_regs buf off h a n
  /\ forall j, 0 <= j -> (j < a \/ a + n <= j) -> rd h j = rd (usSRegHoldBuf d) j.
Proof.
  intros (_ & _ & _ & _ & _ & _ & [Hl Hr]) Hb Ho Ha Hn Han Hoff.
  unfold eMBRegHoldingCB, S_REG_HOLDING_NREGS, S_REG_HOLDING_START in *.
  callback_accepts a.
  destruct (take_regs_ok (Z.to_nat n) (usSRegHoldBuf d) a buf off)
    as (h & -> & L & F & Wr & Out); try (done || mlia).
  exists h. rewrite Z2Nat.id in * by lia. split; [done|].
  split; [split; [by rewrite L|done]|]. split; [|done].
  intros k Hk. rewrite (Wr k Hk).
  assert (is_u8 (rd buf (off + 2 * k + 1))) by (apply rd_Forall; [done|unfold in_range; lia]).
  mlia.
Qed.

Lemma holding_no_register d buf off a n mode :
  is_u16 a -> S_REG_HOLDING_NREGS < a + n ->
  eMBRegHoldingCB d buf off (u16 (a + 1)) n mode = Ok (MB_ENOREG, d, buf).
Proof.
  intros Ha Han. unfold eMBRegHoldingCB. rewrite callback_address by done. cbv zeta.
  replace ((S_REG_HOLDING_START <=? a) && _) with false; [done|].
  unfold S_REG_HOLDING_START in *. mlia.
Qed.

Lemma input_read_ok d buf off a n :
  data_wf d -> Forall is_u8 buf -> 0 <= off -> is_u16 a -> 0 <= n -> a + n <= S_REG_INPUT_NREGS ->
  off + 2 * n <= Z.of_nat (length buf) ->
  exists buf', eMBRegInputCB d buf off (u16 (a + 1)) n = Ok (MB_ENOERR, buf')
  /\ length buf' = length buf /\ Forall is_u8 buf'
  /\ wire_regs buf' off (usSRegInBuf d) a n
  /\ forall j, 0 <= j -> (j < off \/ off + 2 * n <= j) -> rd buf' j = rd buf j.
Proof.
  intros (_ & _ & _ & _ & Hl & Hr & _) Hb Ho Ha Hn Han Hoff.
  unfold eMBRegInputCB, S_REG_INPUT_NREGS, S_REG_INPUT_START in *. callback_accepts a.
  destruct (put_regs_ok (Z.to_nat n) (usSRegInBuf d) a buf off)
    as (b & -> & L & F & Wr & Out); try (done || mlia).
  exists b. rewrite Z2Nat.id in * by lia. done.
Qed.

Lemma input_no_register d buf off a n :
  is_u16 a -> S_REG_INPUT_NREGS < a + n ->
  eMBRegInputCB d buf off (u16 (a + 1)) n = Ok (MB_ENOREG, buf).
Proof.
  intros Ha Han. unfold eMBRegInputCB. rewrite callback_address by done. cbv zeta.
  replace ((S_REG_INPUT_START <=? a) && _) with false; [done|].
  unfold S_REG_INPUT_START in *. mlia.
Qed.

Lemma coils_read_ok d buf off a n :
  data_wf d -> Forall is_u8 buf -> 0 <= off -> is_u16 a -> 0 <= n -> a + n <= S_COIL_NCOILS ->
  a / 8 + n / 8 < 7 -> off + n / 8 + 1 <= Z.of_nat (length buf) ->
  exists buf', eMBRegCoilsCB d buf off (u16 (a + 1)) n MB_REG_READ = Ok (MB_ENOERR, d, buf')
  /\ length buf' = length buf /\ Forall is_u8 buf'
  /\ wire_bits buf' off (ucSCoilBuf d) a n
  /\ (forall k, n <= k < 8 * (n / 8) + 8 -> Z.testbit (rd buf' (off + k / 8)) (k mod 8) = false)
  /\ forall j, 0 <= j -> (j < off \/ off + n / 8 + 1 <= j) -> rd buf' j = rd buf j.
Proof.
  intros (_ & _ & Hl & Hr & _) Hb Ho Ha Hn Han Hin Hoff.
  unfold eMBRegCoilsCB, S_COIL_NCOILS, S_COIL_START in *. callback_accepts a.
  destruct (read_bits_ok (ucSCoilBuf d) (a / 8) (a mod 8) n buf off)
    as (b & -> & L & F & Wr & Z & Out); try (done || mlia).
  exists b. replace (8 * (a / 8) + a mod 8) with a in Wr by lia. done.
Qed.

(** The last byte the reading loop touches lies past the array. *)
Lemma coils_read_overrun d buf off a n :
  data_wf d -> is_u16 a -> 0 <= n -> a + n <= S_COIL_NCOILS -> 7 <= a / 8 + n / 8 ->
  eMBRegCoilsCB d buf off (u16 (a + 1)) n MB_REG_READ = Fault OutOfBounds.
Proof.
  intros (_ & _ & Hl & Hr & _) Ha Hn Han Hin.
  unfold eMBRegCoilsCB, S_COIL_NCOILS, S_COIL_START in *. callback_accepts a.
  unfold read_bits. rewrite put_bits_out; [done|done|mlia..].
Qed.

Lemma coils_write_ok d buf off a n :
  data_wf d -> Forall is_u8 buf -> 0 <= off -> is_u16 a -> 1 <= n -> a + n <= S_COIL_NCOILS ->
  a / 8 + (n + 7) / 8 < 8 -> off + (n + 7) / 8 <= Z.of_nat (length buf) ->
  (forall k, n <= k < 8 * ((n + 7) / 8) -> Z.testbit (rd buf (off + k / 8)) (k mod 8) = false) ->
  exists c, eMBRegCoilsCB d buf off (u16 (a + 1)) n MB_REG_WRITE
            = Ok (MB_ENOERR, set_coils c d, buf)
  /\ length c = 8%nat /\ Forall is_u8 c /\ wire_bits buf off c a n
  /\ forall j, 0 <= j -> (j < a \/ a + n <= j) -> bit_at c j = bit_at (ucSCoilBuf d) j.
Proof.
  intros (_ & _ & Hl & Hr & _) Hb Ho Ha Hn Han Hin Hoff Hpad.
  unfold eMBRegCoilsCB, S_COIL_NCOILS, S_COIL_START in *. callback_accepts a. unfold is_u16 in Ha.
  rewrite (u16_id (n / 8 + 1)) by mlia. replace (n / 8 + 1 - 1) with (n / 8) by lia.
  destruct (take_bits_ok (Z.to_nat (n / 8)) (ucSCoilBuf d) (a / 8) (a mod 8) buf off)
    as (c & -> & L & F & Wr & Out); try (done || mlia).
  rewrite bind_ret_l. replace (Z.of_nat (Z.to_nat (n / 8))) with (n / 8) in * by lia.
  replace (8 * (a / 8) + a mod 8) with a in * by lia.
  destruct (Z.eqb_spec (n mod 8) 0) as [E|E].
  - rewrite bind_ret_l. exists c. split; [done|]. split; [lia|]. split; [done|]. split.
    + intros k Hk. apply Wr. lia.
    + intros j Hj Hjo. apply Out; lia.
  - rewrite get_in, bind_ret_l by (unfold in_range; lia).
    rewrite (u16_id (a / 8 + n / 8)) by mlia.
    set (v := rd buf (off + n / 8)) in *.
    assert (is_u8 v) as Hv by (apply rd_Forall; [done|unfold in_range; lia]).
    destruct (xMBUtilSetBits_in c (a / 8 + n / 8) (a mod 8) (n mod 8) v)
      as (c' & -> & L' & F' & B); try (done || mlia).
    replace (8 * (a / 8 + n / 8) + a mod 8) with (a + 8 * (n / 8)) in B by lia.
    rewrite bind_ret_l. exists c'. split; [done|]. split; [lia|]. split; [done|]. split.
    + intros k Hk. rewrite B by lia. destruct (decide (k < 8 * (n / 8))).
      * rewrite decide_False, (Z.testbit_neg_r v), orb_false_r by lia. apply Wr. lia.
      * rewrite decide_True by lia. replace (k / 8) with (n / 8) by lia.
        unfold v. f_equal. lia.
    + intros j Hj Hjo. rewrite B, decide_False by lia.
      assert (Z.testbit v (j - (a + 8 * (n / 8))) = false) as ->.
      { destruct (decide (j < a)); [apply Z.testbit_neg_r; lia|].
        destruct (decide (j < a + 8 * (n / 8) + 8)); [|apply testbit_u8_high; (done || lia)].
        rewrite <- (Hpad (j - a)) by lia. unfold v.
        replace ((j - a) / 8) with (n / 8) by lia. f_equal. lia. }
      rewrite orb_false_r. apply Out; lia.
Qed.

Lemma coil_write_overrun d v0 v1 a :
  data_wf d -> is_u16 a -> 56 <= a < 64 ->
  eMBRegCoilsCB d [v0; v1] 0 (u16 (a + 1)) 1 MB_REG_WRITE = Fault OutOfBounds.
Proof.
  intros (_ & _ & Hl & Hr & _) Ha Hin.
  unfold eMBRegCoilsCB, S_COIL_NCOILS, S_COIL_START in *. callback_accepts a.
  change (Z.to_nat (u16 (1 / 8 + 1) - 1)) with 0%nat. cbn [take_bits]. rewrite bind_ret_l.
  change (1 mod 8 =? 0) with false. cbv iota. change (get [v0; v1] _) with (Ok v0).
  rewrite bind_ret_l, xMBUtilSetBits_out by (rewrite ?Hl; mlia). done.
Qed.

Lemma coils_no_register d buf off a n mode :
  is_u16 a -> S_COIL_NCOILS < a + n ->
  eMBRegCoilsCB d buf off (u16 (a + 1)) n mode = Ok (MB_ENOREG, d, buf).
Proof.
  intros Ha Han. unfold eMBRegCoilsCB. rewrite callback_address by done. cbv zeta.
  replace ((S_COIL_START <=? a) && _) with false; [done|].
  unfold S_COIL_START in *. mlia.
Qed.

Lemma discrete_read_overrun d buf off a n :
  data_wf d -> is_u16 a -> 0 <= n -> a + n <= S_DISCRETE_INPUT_NDISCRETES ->
  1 <= a / 8 + n / 8 ->
  eMBRegDiscreteCB d buf off (u16 (a + 1)) n = Fault OutOfBounds.
Proof.
  intros (Hl & Hr & _) Ha Hn Han Hin.
  unfold eMBRegDiscreteCB, S_DISCRETE_INPUT_NDISCRETES, S_DISCRETE_INPUT_START in *.
  callback_accepts a. unfold read_bits. rewrite put_bits_out; [done|done|mlia..].
Qed.

Lemma discrete_read_ok d buf off a n :
  data_wf d -> Forall is_u8 buf -> 0 <= off -> is_u16 a -> 0 <= n ->
  a + n <= S_DISCRETE_INPUT_NDISCRETES ->
  a / 8 + n / 8 < 1 -> off + n / 8 + 1 <= Z.of_nat (length buf) ->
  exists buf', eMBRegDiscreteCB d buf off (u16 (a + 1)) n = Ok (MB_ENOERR, buf')
  /\ length buf' = length buf /\ Forall is_u8 buf'
  /\ wire_bits buf' off (ucSDiscInBuf d) a n
  /\ (forall k, n <= k < 8 * (n / 8) + 8 -> Z.testbit (rd buf' (off + k / 8)) (k mod 8) = false)
  /\ forall j, 0 <= j -> (j < off \/ off + n / 8 + 1 <= j) -> rd buf' j = rd buf j.
Proof.
  intros (Hl & Hr & _) Hb Ho Ha Hn Han Hin Hoff.
  unfold eMBRegDiscreteCB, S_DISCRETE_INPUT_NDISCRETES, S_DISCRETE_INPUT_START in *.
  callback_accepts a.
  destruct (read_bits_ok (ucSDiscInBuf d) (a / 8) (a mod 8) n buf off)
    as (b & -> & L & F & Wr & Z & Out); try (done || mlia).
  exists b. replace (8 * (a / 8) + a mod 8) with a in Wr by lia. done.
Qed.

Lemma discrete_no_register d buf off a n :
  is_u16 a -> S_DISCRETE_INPUT_NDISCRETES < a + n ->
  eMBRegDiscreteCB d buf off (u16 (a + 1)) n = Ok (MB_ENOREG, buf).
Proof.
  intros Ha Han. unfold eMBRegDiscreteCB. rewrite callback_address by done. cbv zeta.
  replace ((S_DISCRETE_INPUT_START <=? a) && _) with false; [done|].
  unfold S_DISCRETE_INPUT_START in *. mlia.
Qed.

(** ** What the bit callbacks can do at all: succeed within their arrays, or
    run out of bounds. *)
Definition ok_or_oob {A} (P : A -> Prop) (m : res A) : Prop :=
  match m with Ok a => P a | Fault f => f = OutOfBounds end.

Lemma ok_or_oob_bind {A B} (P : A -> Prop) (Q : B -> Prop) m (f : A -> res B) :
  ok_or_oob P m -> (forall a, P a -> ok_or_oob Q (f a)) -> ok_or_oob Q (m ≫= f).
Proof. destruct m; cbn; auto. Qed.
Lemma get_oob l i : Forall is_u8 l -> ok_or_oob is_u8 (get l i).
Proof. intros H. unfold get. case_decide; cbn; [by apply rd_Forall|done]. Qed.
(** A byte array of the same length that agrees outside [lo, hi). *)
Definition bytes_like (l : list Z) (lo hi : Z) (l' : list Z) : Prop :=
  length l' = length l /\ Forall is_u8 l'
  /\ forall j, 0 <= j -> (j < lo \/ hi <= j) -> rd l' j = rd l j.
Lemma bytes_like_trans l l1 l2 lo hi :
  bytes_like l lo hi l1 -> bytes_like l1 lo hi l2 -> bytes_like l lo hi l2.
Proof.
  intros (L1 & F1 & O1) (L2 & F2 & O2). split; [congruence|]. split; [done|].
  intros j Hj Hjo. by rewrite O2, O1.
Qed.
Lemma set_oob l i v lo hi : Forall is_u8 l -> is_u8 v -> 0 <= lo <= i -> i < hi ->
  ok_or_oob (bytes_like l lo hi) (set l i v).
Proof.
  intros Hl Hv Hi Hhi. unfold set. case_decide; cbn; [|done]. split; [apply length_upd|].
  split; [by apply Forall_upd|]. intros j Hj Hjo. apply rd_upd_ne; lia.
Qed.

Lemma getbits_oob buf p o n : Forall is_u8 buf -> ok_or_oob is_u8 (xMBUtilGetBits buf p o n).
Proof.
  intros Hb. unfold xMBUtilGetBits. eapply ok_or_oob_bind; [by apply get_oob|]. intros b0 _.
  eapply ok_or_oob_bind; [by apply get_oob|]. intros b1 _. apply u8_range.
Qed.

Definition bytes_of_len (l l' : list Z) : Prop := length l' = length l /\ Forall is_u8 l'.
Lemma set_len_oob l i v : Forall is_u8 l -> is_u8 v -> ok_or_oob (bytes_of_len l) (set l i v).
Proof.
  intros Hl Hv. unfold set. case_decide; cbn; [|done].
  split; [apply length_upd|by apply Forall_upd].
Qed.

Lemma setbits_oob buf p o n v : Forall is_u8 buf -> n <= 8 ->
  ok_or_oob (bytes_of_len buf) (xMBUtilSetBits buf p o n v).
Proof.
  intros Hb Hn. unfold xMBUtilSetBits. rewrite (proj2 (Z.leb_le n 8)) by done.
  eapply ok_or_oob_bind; [by apply get_oob|]. intros b0 _.
  eapply ok_or_oob_bind; [by apply get_oob|]. intros b1 _. cbv zeta.
  eapply ok_or_oob_bind; [apply set_len_oob; auto with machine|]. intros l1 [L1 F1].
  unfold bytes_of_len. rewrite <- L1. apply set_len_oob; auto with machine.
Qed.

Lemma put_bits_oob n bits i bit buf off lo hi :
  Forall is_u8 bits -> Forall is_u8 buf -> 0 <= lo <= off -> off + Z.of_nat n <= hi ->
  ok_or_oob (bytes_like buf lo hi) (put_bits n bits i bit buf off).
Proof.
  intros Hbits. revert i buf off.
  induction n as [|n IH]; intros i buf off Hb Hlo Hhi; cbn [put_bits]; [done|].
  eapply ok_or_oob_bind; [by apply getbits_oob|]. intros v Hv.
  eapply ok_or_oob_bind; [apply (set_oob _ _ _ lo hi); (done || lia)|]. intros b1 Hb1.
  destruct (put_bits n bits (u16 (i + 1)) bit b1 (off + 1)) as [b2|f] eqn:E.
  - specialize (IH (u16 (i + 1)) b1 (off + 1)). rewrite E in IH.
    eapply bytes_like_trans; [exact Hb1|]. apply IH; [apply Hb1|lia|lia].
  - specialize (IH (u16 (i + 1)) b1 (off + 1)). rewrite E in IH.
    apply IH; [apply Hb1|lia|lia].
Qed.

Lemma take_bits_oob n bits i bit buf off :
  Forall is_u8 bits -> ok_or_oob (bytes_of_len bits) (take_bits n bits i bit buf off).
Proof.
  revert bits i off. induction n as [|n IH]; intros bits i off Hb; cbn [take_bits]; [done|].
  unfold get. case_decide; cbn [mbind res_bind]; [|done].
  eapply ok_or_oob_bind; [by apply setbits_oob|]. intros b1 [L1 F1].
  unfold bytes_of_len. rewrite <- L1. by apply IH.
Qed.

Lemma read_bits_oob bits i bit n buf off lo hi :
  Forall is_u8 bits -> Forall is_u8 buf -> 0 <= lo <= off -> 0 <= n < 65536 ->
  off + n / 8 + 1 <= hi ->
  ok_or_oob (bytes_like buf lo hi) (read_bits bits i bit n buf off).
Proof.
  intros Hbits Hb Hlo Hn Hhi. unfold read_bits. rewrite (u16_id (n / 8 + 1)) by mlia. cbv zeta.
  eapply ok_or_oob_bind; [apply (put_bits_oob _ _ _ _ _ _ lo hi); (done || lia)|].
  intros b1 H1. eapply ok_or_oob_bind; [apply get_oob, H1|]. intros v _.
  eapply ok_or_oob_bind; [apply (set_oob _ _ _ lo hi); (apply H1 || lia || auto with machine)|].
  intros b2 H2. eapply ok_or_oob_bind; [apply get_oob, H2|]. intros w _.
  pose proof (set_oob b2 (off + (n / 8 + 1) - 1) (u8 (Z.shiftr w (8 - n mod 8))) lo hi) as H3.
  destruct (set _ _ _); cbn in *.
  - eapply bytes_like_trans; [exact H1|]. eapply bytes_like_trans; [exact H2|].
    apply H3; (apply H2 || lia || auto with machine).
  - apply H3; (apply H2 || lia || auto with machine).
Qed.

Lemma data_wf_coils d c : data_wf d -> bytes_of_len (ucSCoilBuf d) c -> data_wf (set_coils c d).
Proof.
  unfold data_wf. intros (?&?&L&?) [Hl Hc]. cbn. rewrite Hl, L. tauto.
Qed.

Lemma coils_cb_oob d buf off a n mode lo hi :
  data_wf d -> Forall is_u8 buf -> 0 <= lo <= off -> is_u16 n ->
  (n <= S_COIL_NCOILS -> off + n / 8 + 1 <= hi) -> 0 <= a ->
  ok_or_oob (fun x => let '(e, d', buf') := x in data_wf d' /\ bytes_like buf lo hi buf')
    (eMBRegCoilsCB d buf off a n mode).
Proof.
  intros Hd Hb Hlo Hn Hhi Ha. unfold eMBRegCoilsCB. cbv zeta. unfold S_COIL_START.
  destruct ((0 <=? u16 (a - 1)) && _) eqn:G; [|done].
  apply andb_true_iff in G as [G1 G2]. apply Z.leb_le in G1, G2.
  assert (Forall is_u8 (ucSCoilBuf d)) as Hc by apply Hd.
  destruct mode.
  - eapply ok_or_oob_bind; [apply (read_bits_oob _ _ _ _ _ _ lo hi); (done || lia || mlia)|].
    intros b1 H1. done.
  - eapply ok_or_oob_bind; [by apply take_bits_oob|]. intros c [L1 F1].
    eapply (ok_or_oob_bind (bytes_of_len (ucSCoilBuf d))).
    + destruct (n mod 8 =? 0); [done|]. eapply ok_or_oob_bind; [by apply get_oob|].
      intros v Hv. unfold bytes_of_len. rewrite <- L1. apply setbits_oob; [done|mlia].
    + intros c' Hc'. split; [by apply data_wf_coils|done].
Qed.

Lemma discrete_cb_oob d buf off a n lo hi :
  data_wf d -> Forall is_u8 buf -> 0 <= lo <= off -> is_u16 n ->
  (n <= S_DISCRETE_INPUT_NDISCRETES -> off + n / 8 + 1 <= hi) -> 0 <= a ->
  ok_or_oob (fun x => let '(e, buf') := x in bytes_like buf lo hi buf')
    (eMBRegDiscreteCB d buf off a n).
Proof.
  intros Hd Hb Hlo Hn Hhi Ha. unfold eMBRegDiscreteCB. cbv zeta.
  unfold S_DISCRETE_INPUT_START.
  destruct ((0 <=? u16 (a - 1)) && _) eqn:G; [|done].
  apply andb_true_iff in G as [G1 G2]. apply Z.leb_le in G1, G2.
  assert (Forall is_u8 (ucSDiscInBuf d)) as Hc by apply Hd.
  eapply ok_or_oob_bind; [apply (read_bits_oob _ _ _ _ _ _ lo hi); (done || lia || mlia)|].
  intros b1 H1. done.
Qed.
