(* ===== verification/MbFunc.v ===== *)
(** * Modbus function handlers
    (freemodbus/modbus/functions: mbfuncholding.c, mbfuncinput.c,
    mbfunccoils.c, mbfuncdisc.c, mbfuncother.c)

    A handler gets the frame buffer with the position [p] of the PDU in it
    ([pucFrame = &buf[p]]) and the PDU length [*usLen]; it returns the
    exception, the new data, the buffer with the response in place of the
    request, and the new length. *)
From S2P Require Import Prelude Registers MbData.

Definition MB_PDU_SIZE_MIN : Z := 1.
Definition MB_PDU_SIZE_MAX : Z := 253.
Definition MB_PDU_FUNC_OFF : Z := 0.
Definition MB_PDU_DATA_OFF : Z := 1.

Definition MB_FUNC_READ_COILS : Z := 1.
Definition MB_FUNC_READ_DISCRETE_INPUTS : Z := 2.
Definition MB_FUNC_READ_HOLDING_REGISTER : Z := 3.
Definition MB_FUNC_READ_INPUT_REGISTER : Z := 4.
Definition MB_FUNC_WRITE_SINGLE_COIL : Z := 5.
Definition MB_FUNC_WRITE_REGISTER : Z := 6.
Definition MB_FUNC_WRITE_MULTIPLE_COILS : Z := 15.
Definition MB_FUNC_WRITE_MULTIPLE_REGISTERS : Z := 16.
Definition MB_FUNC_OTHER_REPORT_SLAVEID : Z := 17.
Definition MB_FUNC_READWRITE_MULTIPLE_REGISTERS : Z := 23.

Definition MB_FUNC_OTHER_REP_SLAVEID_BUF : Z := 32.

(** The state the handlers work on: the four register files and the static
    slave-id report of mbfuncother.c. *)
Record slave := mkSlave {
  sl_data : mb_data;
  ucMBSlaveID : list Z;
  usMBSlaveIDLen : Z }.

Definition slave_init : slave :=
  mkSlave mb_data_init (replicate (Z.to_nat MB_FUNC_OTHER_REP_SLAVEID_BUF) 0) 0.

Definition slave_wf (s : slave) : Prop :=
  data_wf (sl_data s)
  /\ length (ucMBSlaveID s) = Z.to_nat MB_FUNC_OTHER_REP_SLAVEID_BUF
  /\ Forall is_u8 (ucMBSlaveID s)
  /\ 0 <= usMBSlaveIDLen s < MB_FUNC_OTHER_REP_SLAVEID_BUF.

Definition set_data (d : mb_data) (s : slave) : slave :=
  mkSlave d (ucMBSlaveID s) (usMBSlaveIDLen s).

Definition handler_result : Type := res (eMBException * slave * list Z * Z).
Definition handler : Type := slave -> list Z -> Z -> Z -> handler_result.

(** [(USHORT)(pucFrame[o] << 8) | (USHORT)pucFrame[o + 1]] *)
Definition frame_word (buf : list Z) (o : Z) : res Z :=
  h ← get buf o;
  l ← get buf (o + 1);
  Ok (Z.lor (u16 (Z.shiftl h 8)) (u16 l)).

(** [if (eRegStatus != MB_ENOERR) eStatus = prveMBError2Exception(eRegStatus);] *)
Definition reg_status (e : eMBErrorCode) : eMBException :=
  if decide (e = MB_ENOERR) then MB_EX_NONE else prveMBError2Exception e.

(** ** Holding registers *)

Definition eMBFuncWriteHoldingRegister : handler := fun s buf p usLen =>
  if usLen =? 4 + MB_PDU_SIZE_MIN then
    a ← frame_word buf (p + MB_PDU_DATA_OFF);
    let usRegAddress := u16 (a + 1) in
    '(e, d, buf) ← eMBRegHoldingCB (sl_data s) buf (p + MB_PDU_DATA_OFF + 2) usRegAddress 1
                     MB_REG_WRITE;
    Ok (reg_status e, set_data d s, buf, usLen)
  else Ok (MB_EX_ILLEGAL_DATA_VALUE, s, buf, usLen).

Definition eMBFuncWriteMultipleHoldingRegister : handler := fun s buf p usLen =>
  if 5 + MB_PDU_SIZE_MIN <=? usLen then
    a ← frame_word buf (p + MB_PDU_DATA_OFF);
    let usRegAddress := u16 (a + 1) in
    usRegCount ← frame_word buf (p + MB_PDU_DATA_OFF + 2);
    ucRegByteCount ← get buf (p + MB_PDU_DATA_OFF + 4);
    if (1 <=? usRegCount) && (usRegCount <=? 0x0078)
       && (ucRegByteCount =? u8 (2 * usRegCount)) then
      '(e, d, buf) ← eMBRegHoldingCB (sl_data s) buf (p + MB_PDU_DATA_OFF + 5) usRegAddress
                       usRegCount MB_REG_WRITE;
      Ok (reg_status e, set_data d s, buf,
          if decide (e = MB_ENOERR) then MB_PDU_DATA_OFF + 4 else usLen)
    else Ok (MB_EX_ILLEGAL_DATA_VALUE, s, buf, usLen)
  else Ok (MB_EX_ILLEGAL_DATA_VALUE, s, buf, usLen).

Definition eMBFuncReadHoldingRegister : handler := fun s buf p usLen =>
  if usLen =? 4 + MB_PDU_SIZE_MIN then
    a ← frame_word buf (p + MB_PDU_DATA_OFF);
    let usRegAddress := u16 (a + 1) in
    usRegCount ← frame_word buf (p + MB_PDU_DATA_OFF + 2);
    if (1 <=? usRegCount) && (usRegCount <=? 0x007D) then
      buf ← set buf (p + MB_PDU_FUNC_OFF) MB_FUNC_READ_HOLDING_REGISTER;
      let usLen := MB_PDU_FUNC_OFF + 1 in
      buf ← set buf (p + MB_PDU_FUNC_OFF + 1) (u8 (usRegCount * 2));
      let usLen := usLen + 1 in
      '(e, d, buf) ← eMBRegHoldingCB (sl_data s) buf (p + MB_PDU_FUNC_OFF + 2) usRegAddress
                       usRegCount MB_REG_READ;
      Ok (reg_status e, set_data d s, buf,
          if decide (e = MB_ENOERR) then u16 (usLen + usRegCount * 2) else usLen)
    else Ok (MB_EX_ILLEGAL_DATA_VALUE, s, buf, usLen)
  else Ok (MB_EX_ILLEGAL_DATA_VALUE, s, buf, usLen).

(** A request shorter than the minimum falls through both branches: the
    request itself goes back as a positive response. *)
Definition eMBFuncReadWriteMultipleHoldingRegister : handler := fun s buf p usLen =>
  if 9 + MB_PDU_SIZE_MIN <=? usLen then
    ra ← frame_word buf (p + MB_PDU_DATA_OFF);
    let usRegReadAddress := u16 (ra + 1) in
    usRegReadCount ← frame_word buf (p + MB_PDU_DATA_OFF + 2);
    wa ← frame_word buf (p + MB_PDU_DATA_OFF + 4);
    let usRegWriteAddress := u16 (wa + 1) in
    usRegWriteCount ← frame_word buf (p + MB_PDU_DATA_OFF + 6);
    ucRegWriteByteCount ← get buf (p + MB_PDU_DATA_OFF + 8);
    if (1 <=? usRegReadCount) && (usRegReadCount <=? 0x7D)
       && (1 <=? usRegWriteCount) && (usRegWriteCount <=? 0x79)
       && (2 * usRegWriteCount =? ucRegWriteByteCount) then
      '(e, d, buf) ← eMBRegHoldingCB (sl_data s) buf (p + MB_PDU_DATA_OFF + 9)
                       usRegWriteAddress usRegWriteCount MB_REG_WRITE;
      if decide (e = MB_ENOERR) then
        buf ← set buf (p + MB_PDU_FUNC_OFF) MB_FUNC_READWRITE_MULTIPLE_REGISTERS;
        let usLen := MB_PDU_FUNC_OFF + 1 in
        buf ← set buf (p + MB_PDU_FUNC_OFF + 1) (u8 (usRegReadCount * 2));
        let usLen := usLen + 1 in
        '(e, d, buf) ← eMBRegHoldingCB d buf (p + MB_PDU_FUNC_OFF + 2) usRegReadAddress
                         usRegReadCount MB_REG_READ;
        Ok (reg_status e, set_data d s, buf,
            if decide (e = MB_ENOERR) then u16 (usLen + 2 * usRegReadCount) else usLen)
      else Ok (reg_status e, set_data d s, buf, usLen)
    else Ok (MB_EX_ILLEGAL_DATA_VALUE, s, buf, usLen)
  else Ok (MB_EX_NONE, s, buf, usLen).

(** ** Input registers *)

Definition eMBFuncReadInputRegister : handler := fun s buf p usLen =>
  if usLen =? 4 + MB_PDU_SIZE_MIN then
    a ← frame_word buf (p + MB_PDU_DATA_OFF);
    let usRegAddress := u16 (a + 1) in
    usRegCount ← frame_word buf (p + MB_PDU_DATA_OFF + 2);
    if (1 <=? usRegCount) && (usRegCount <? 0x007D) then
      buf ← set buf (p + MB_PDU_FUNC_OFF) MB_FUNC_READ_INPUT_REGISTER;
      let usLen := MB_PDU_FUNC_OFF + 1 in
      buf ← set buf (p + MB_PDU_FUNC_OFF + 1) (u8 (usRegCount * 2));
      let usLen := usLen + 1 in
      '(e, buf) ← eMBRegInputCB (sl_data s) buf (p + MB_PDU_FUNC_OFF + 2) usRegAddress
                    usRegCount;
      Ok (reg_status e, s, buf,
          if decide (e = MB_ENOERR) then u16 (usLen + usRegCount * 2) else usLen)
    else Ok (MB_EX_ILLEGAL_DATA_VALUE, s, buf, usLen)
  else Ok (MB_EX_ILLEGAL_DATA_VALUE, s, buf, usLen).

(** ** Coils and discrete inputs *)

(** Bytes needed for [n] bits: [if ((n & 7) != 0) n / 8 + 1 else n / 8]. *)
Definition bit_bytes (n : Z) : Z :=
  if negb (Z.land n 0x0007 =? 0) then u8 (n / 8 + 1) else u8 (n / 8).

Definition eMBFuncReadCoils : handler := fun s buf p usLen =>
  if usLen =? 4 + MB_PDU_SIZE_MIN then
    a ← frame_word buf (p + MB_PDU_DATA_OFF);
    let usRegAddress := u16 (a + 1) in
    usCoilCount ← frame_word buf (p + MB_PDU_DATA_OFF + 2);
    if (1 <=? usCoilCount) && (usCoilCount <? 0x07D0) then
      buf ← set buf (p + MB_PDU_FUNC_OFF) MB_FUNC_READ_COILS;
      let usLen := MB_PDU_FUNC_OFF + 1 in
      let ucNBytes := bit_bytes usCoilCount in
      buf ← set buf (p + MB_PDU_FUNC_OFF + 1) ucNBytes;
      let usLen := usLen + 1 in
      '(e, d, buf) ← eMBRegCoilsCB (sl_data s) buf (p + MB_PDU_FUNC_OFF + 2) usRegAddress
                       usCoilCount MB_REG_READ;
      Ok (reg_status e, set_data d s, buf,
          if decide (e = MB_ENOERR) then u16 (usLen + ucNBytes) else usLen)
    else Ok (MB_EX_ILLEGAL_DATA_VALUE, s, buf, usLen)
  else Ok (MB_EX_ILLEGAL_DATA_VALUE, s, buf, usLen).

Definition eMBFuncWriteCoil : handler := fun s buf p usLen =>
  if usLen =? 4 + MB_PDU_SIZE_MIN then
    a ← frame_word buf (p + MB_PDU_DATA_OFF);
    let usRegAddress := u16 (a + 1) in
    lo ← get buf (p + MB_PDU_DATA_OFF + 2 + 1);
    hi ← get buf (p + MB_PDU_DATA_OFF + 2);
    if (lo =? 0x00) && ((hi =? 0xFF) || (hi =? 0x00)) then
      let ucBuf := [if hi =? 0xFF then 1 else 0; 0] in
      '(e, d, _) ← eMBRegCoilsCB (sl_data s) ucBuf 0 usRegAddress 1 MB_REG_WRITE;
      Ok (reg_status e, set_data d s, buf, usLen)
    else Ok (MB_EX_ILLEGAL_DATA_VALUE, s, buf, usLen)
  else Ok (MB_EX_ILLEGAL_DATA_VALUE, s, buf, usLen).

Definition eMBFuncWriteMultipleCoils : handler := fun s buf p usLen =>
  if 4 + MB_PDU_SIZE_MIN <? usLen then
    a ← frame_word buf (p + MB_PDU_DATA_OFF);
    let usRegAddress := u16 (a + 1) in
    usCoilCnt ← frame_word buf (p + MB_PDU_DATA_OFF + 2);
    ucByteCount ← get buf (p + MB_PDU_DATA_OFF + 4);
    let ucByteCountVerify := bit_bytes usCoilCnt in
    if (1 <=? usCoilCnt) && (usCoilCnt <=? 0x07B0) && (ucByteCountVerify =? ucByteCount) then
      '(e, d, buf) ← eMBRegCoilsCB (sl_data s) buf (p + MB_PDU_DATA_OFF + 5) usRegAddress
                       usCoilCnt MB_REG_WRITE;
      Ok (reg_status e, set_data d s, buf,
          if decide (e = MB_ENOERR) then MB_PDU_DATA_OFF + 4 else usLen)
    else Ok (MB_EX_ILLEGAL_DATA_VALUE, s, buf, usLen)
  else Ok (MB_EX_ILLEGAL_DATA_VALUE, s, buf, usLen).

Definition eMBFuncReadDiscreteInputs : handler := fun s buf p usLen =>
  if usLen =? 4 + MB_PDU_SIZE_MIN then
    a ← frame_word buf (p + MB_PDU_DATA_OFF);
    let usRegAddress := u16 (a + 1) in
    usDiscreteCnt ← frame_word buf (p + MB_PDU_DATA_OFF + 2);
    if (1 <=? usDiscreteCnt) && (usDiscreteCnt <? 0x07D0) then
      buf ← set buf (p + MB_PDU_FUNC_OFF) MB_FUNC_READ_DISCRETE_INPUTS;
      let usLen := MB_PDU_FUNC_OFF + 1 in
      let ucNBytes := bit_bytes usDiscreteCnt in
      buf ← set buf (p + MB_PDU_FUNC_OFF + 1) ucNBytes;
      let usLen := usLen + 1 in
      '(e, buf) ← eMBRegDiscreteCB (sl_data s) buf (p + MB_PDU_FUNC_OFF + 2) usRegAddress
                    usDiscreteCnt;
      Ok (reg_status e, s, buf,
          if decide (e = MB_ENOERR) then u16 (usLen + ucNBytes) else usLen)
    else Ok (MB_EX_ILLEGAL_DATA_VALUE, s, buf, usLen)
  else Ok (MB_EX_ILLEGAL_DATA_VALUE, s, buf, usLen).

(** ** Slave identification *)

(** [memcpy(&dst[d], &src[s], n)] *)
Definition memcpy (dst : list Z) (d : Z) (src : list Z) (so n : Z) : res (list Z) :=
  for_loop (Z.to_nat n) 0 (fun i dst => v ← get src (so + i); set dst (d + i) v) dst.

Definition eMBSetSlaveID (s : slave) (ucSlaveID : Z) (xIsRunning : bool)
    (pucAdditional : list Z) (usAdditionalLen : Z) : res (eMBErrorCode * slave) :=
  if usAdditionalLen + 2 <? MB_FUNC_OTHER_REP_SLAVEID_BUF then
    id ← set (ucMBSlaveID s) 0 ucSlaveID;
    id ← set id 1 (if xIsRunning then 0xFF else 0x00);
    if 0 <? usAdditionalLen then
      id ← memcpy id 2 pucAdditional 0 usAdditionalLen;
      Ok (MB_ENOERR, mkSlave (sl_data s) id (u16 (2 + usAdditionalLen)))
    else Ok (MB_ENOERR, mkSlave (sl_data s) id 2)
  else Ok (MB_ENORES, s).

Definition eMBFuncReportSlaveID : handler := fun s buf p usLen =>
  buf ← memcpy buf (p + MB_PDU_DATA_OFF) (ucMBSlaveID s) 0 (usMBSlaveIDLen s);
  Ok (MB_EX_NONE, s, buf, u16 (MB_PDU_DATA_OFF + usMBSlaveIDLen s)).

(** ** Lemmas *)

(** The frame buffer: bytes, with room for a PDU at [p]. *)
Definition frame_ok (buf : list Z) (p : Z) : Prop :=
  Forall is_u8 buf /\ 0 <= p /\ p + MB_PDU_SIZE_MAX <= Z.of_nat (length buf).

(** The big-endian word at [o]. *)
Definition word_at (buf : list Z) (o : Z) : Z := 256 * rd buf o + rd buf (o + 1).

Ltac pdu_unfold :=
  unfold MB_PDU_SIZE_MIN, MB_PDU_SIZE_MAX, MB_PDU_FUNC_OFF, MB_PDU_DATA_OFF in *.

Lemma frame_byte buf p o : frame_ok buf p -> 0 <= o < MB_PDU_SIZE_MAX ->
  get buf (p + o) = Ok (rd buf (p + o)) /\ is_u8 (rd buf (p + o)).
Proof.
  intros (Hb & Hp & Hl) Ho. assert (in_range buf (p + o)) by (unfold in_range; lia).
  split; [by apply get_in | by apply rd_Forall].
Qed.

Lemma frame_word_ok buf p o : frame_ok buf p -> 0 <= o < MB_PDU_SIZE_MAX - 1 ->
  frame_word buf (p + o) = Ok (word_at buf (p + o)) /\ is_u16 (word_at buf (p + o)).
Proof.
  intros Hf Ho. unfold frame_word, word_at.
  destruct (frame_byte buf p o) as [-> Hh]; [done|lia|].
  destruct (frame_byte buf p (o + 1)) as [E Hl]; [done|lia|].
  rewrite Z.add_assoc in E, Hl. rewrite E, !bind_ret_l, (u16_id (rd buf _)) by mlia.
  rewrite lor_word by done. split; [f_equal|]; mlia.
Qed.

Lemma frame_ok_upd buf p i v : frame_ok buf p -> is_u8 v -> frame_ok (upd buf i v) p.
Proof.
  intros (Hb & Hp & Hl) Hv. split; [by apply Forall_upd|]. by rewrite length_upd.
Qed.

Lemma frame_set buf p o v : frame_ok buf p -> 0 <= o < MB_PDU_SIZE_MAX ->
  set buf (p + o) v = Ok (upd buf (p + o) v).
Proof. intros (_ & Hp & Hl) Ho. apply set_in. unfold in_range. lia. Qed.

Lemma frame_ok_same buf buf' p :
  frame_ok buf p -> length buf' = length buf -> Forall is_u8 buf' -> frame_ok buf' p.
Proof. intros (_ & Hp & Hl) HL HF. split; [done|]. by rewrite HL. Qed.

Lemma slave_wf_holding s h : slave_wf s -> regs_wf h ->
  slave_wf (set_data (set_holding h (sl_data s)) s).
Proof. intros [Hd Hr] Hh. split; [|exact Hr]. unfold data_wf in *. cbn. tauto. Qed.
Lemma slave_wf_coils s c : slave_wf s -> length c = 8%nat -> Forall is_u8 c ->
  slave_wf (set_data (set_coils c (sl_data s)) s).
Proof. intros [Hd Hr] Hl Hc. split; [|exact Hr]. unfold data_wf in *. cbn. tauto. Qed.
Lemma set_data_id s : set_data (sl_data s) s = s.
Proof. by destruct s. Qed.
Lemma slave_init_wf : slave_wf slave_init.
Proof.
  split; [apply data_init_wf|]. unfold slave_init, MB_FUNC_OTHER_REP_SLAVEID_BUF; cbn.
  repeat split; try lia. repeat constructor; lia.
Qed.

(** Writing the two header bytes of a response. *)
Definition header (buf : list Z) (p fc c : Z) : list Z := upd (upd buf p fc) (p + 1) c.

Lemma put_header {B} buf p fc c (k : list Z -> res B) : frame_ok buf p ->
  (buf ← set buf (p + 0) fc; buf ← set buf (p + 0 + 1) c; k buf) = k (header buf p fc c).
Proof.
  intros (_ & Hp & Hl). pdu_unfold. replace (p + 0) with p by lia.
  rewrite set_in, bind_ret_l, set_in, bind_ret_l
    by (rewrite ?in_range_upd; unfold in_range; lia).
  done.
Qed.

Lemma header_ok buf p fc c : frame_ok buf p -> is_u8 fc -> is_u8 c ->
  frame_ok (header buf p fc c) p /\ length (header buf p fc c) = length buf
  /\ rd (header buf p fc c) p = fc /\ rd (header buf p fc c) (p + 1) = c
  /\ forall j, 0 <= j -> (j < p \/ p + 2 <= j) -> rd (header buf p fc c) j = rd buf j.
Proof.
  intros Hf Hfc Hc. unfold header. split; [by repeat apply frame_ok_upd|].
  destruct Hf as (_ & Hp & Hl). pdu_unfold. split; [by rewrite !length_upd|].
  split; [|split].
  - by rewrite rd_upd_ne, rd_upd_eq by (unfold in_range; lia).
  - by rewrite rd_upd_eq by (rewrite ?in_range_upd; unfold in_range; lia).
  - intros j Hj Hjo. by rewrite !rd_upd_ne by lia.
Qed.

(** Evaluates the decoding of the request words and of a guard that holds. *)
Ltac decode Hf :=
  pdu_unfold;
  repeat match goal with
  | |- context [frame_word ?buf (?p + ?o + ?o')] =>
      let q := eval vm_compute in (o + o') in replace (p + o + o') with (p + q) by lia
  | |- context [frame_word ?buf (?p + ?o)] =>
      let E := fresh "E" in let H := fresh "Hword" in
      destruct (frame_word_ok buf p o Hf ltac:(pdu_unfold; lia)) as [E H];
      rewrite E, bind_ret_l; clear E
  | |- context [get ?buf (?p + ?o + ?o')] =>
      let q := eval vm_compute in (o + o') in replace (p + o + o') with (p + q) by lia
  | |- context [get ?buf (?p + ?o)] =>
      let E := fresh "E" in let H := fresh "Hbyte" in
      destruct (frame_byte buf p o Hf ltac:(pdu_unfold; lia)) as [E H];
      rewrite E, bind_ret_l; clear E
  end.
Ltac guard_is b :=
  match goal with
  | |- context [if ?g then _ else _] =>
      replace g with b by (symmetry; rewrite ?andb_true_iff, ?andb_false_iff; lia);
      cbv iota
  end.

(** *** Read holding registers *)
Section read_holding.
Context (s : slave) (buf : list Z) (p : Z).
Context (Hs : slave_wf s) (Hf : frame_ok buf p).
Let a := word_at buf (p + 1).
Let n := word_at buf (p + 3).

Lemma read_holding_ok :
  1 <= n <= 125 -> a + n <= S_REG_HOLDING_NREGS ->
  exists buf', eMBFuncReadHoldingRegister s buf p 5 = Ok (MB_EX_NONE, s, buf', 2 + 2 * n)
  /\ length buf' = length buf /\ Forall is_u8 buf'
  /\ rd buf' p = MB_FUNC_READ_HOLDING_REGISTER /\ rd buf' (p + 1) = 2 * n
  /\ wire_regs buf' (p + 2) (usSRegHoldBuf (sl_data s)) a n
  /\ (forall j, 0 <= j -> (j < p \/ p + 2 + 2 * n <= j) -> rd buf' j = rd buf j).
Proof.
  intros Hn Han. unfold eMBFuncReadHoldingRegister. decode Hf.
  fold a n in Hword, Hword0 |- *. guard_is true.
  guard_is true. rewrite put_header by done.
  destruct (header_ok buf p MB_FUNC_READ_HOLDING_REGISTER (u8 (n * 2)))
    as (Hf2 & L2 & R0 & R1 & O2); [done|unfold MB_FUNC_READ_HOLDING_REGISTER; mlia|
      apply u8_range|].
  set (b2 := header _ _ _ _) in *.
  destruct Hf as (Hb & Hp & Hl), Hf2 as (Hb2 & _ & _). pdu_unfold.
  replace (p + 0 + 2) with (p + 2) by lia.
  destruct (holding_read_ok (sl_data s) b2 (p + 2) a n) as (b3 & -> & L3 & F3 & W3 & O3);
    try (done || lia); [apply Hs|].
  rewrite bind_ret_l, decide_True, set_data_id, u16_id by (done || mlia).
  replace (0 + 1 + 1 + n * 2) with (2 + 2 * n) by lia.
  exists b3. split; [done|]. split; [lia|]. split; [done|].
  split; [rewrite O3 by lia; done|]. split; [rewrite O3, R1 by lia; mlia|].
  split; [done|]. intros j Hj Hjo. by rewrite O3, O2 by lia.
Qed.

Lemma read_holding_address :
  1 <= n <= 125 -> S_REG_HOLDING_NREGS < a + n ->
  exists buf', eMBFuncReadHoldingRegister s buf p 5
               = Ok (MB_EX_ILLEGAL_DATA_ADDRESS, s, buf', 2)
  /\ frame_ok buf' p /\ length buf' = length buf
  /\ forall j, 0 <= j -> (j < p \/ p + 2 <= j) -> rd buf' j = rd buf j.
Proof.
  intros Hn Han. unfold eMBFuncReadHoldingRegister. decode Hf.
  fold a n in Hword, Hword0 |- *. guard_is true. guard_is true. rewrite put_header by done.
  destruct (header_ok buf p MB_FUNC_READ_HOLDING_REGISTER (u8 (n * 2)))
    as (Hf2 & L2 & R0 & R1 & O2); [done|unfold MB_FUNC_READ_HOLDING_REGISTER; mlia|
      apply u8_range|].
  rewrite holding_no_register, bind_ret_l, set_data_id by done.
  eexists. split; [done|]. done.
Qed.

Lemma read_holding_value len :
  len <> 5 \/ ~ (1 <= n <= 125) ->
  eMBFuncReadHoldingRegister s buf p len = Ok (MB_EX_ILLEGAL_DATA_VALUE, s, buf, len).
Proof.
  intros H. unfold eMBFuncReadHoldingRegister. decode Hf. fold a n.
  destruct (Z.eqb_spec len (4 + 1)); [|done]. guard_is false. done.
Qed.
End read_holding.

(** *** Write holding registers *)
Section write_holding.
Context (s : slave) (buf : list Z) (p : Z).
Context (Hs : slave_wf s) (Hf : frame_ok buf p).
Let a := word_at buf (p + 1).
Let n := word_at buf (p + 3).
Let regs := usSRegHoldBuf (sl_data s).

Lemma write_holding_ok :
  a < S_REG_HOLDING_NREGS ->
  exists h, eMBFuncWriteHoldingRegister s buf p 5
            = Ok (MB_EX_NONE, set_data (set_holding h (sl_data s)) s, buf, 5)
  /\ regs_wf h /\ rd h a = word_at buf (p + 3)
  /\ forall j, 0 <= j -> j <> a -> rd h j = rd regs j.
Proof.
  intros Ha. unfold eMBFuncWriteHoldingRegister. decode Hf. fold a in Hword |- *.
  guard_is true. destruct (frame_word_ok buf p 3) as [_ Hv]; [done|pdu_unfold; lia|].
  pose proof (frame_byte buf p 4 Hf ltac:(pdu_unfold; lia)) as [_ Hb4].
  destruct Hf as (Hb & Hp & Hl). pdu_unfold. replace (p + 1 + 2) with (p + 3) by lia.
  destruct (holding_write_ok (sl_data s) buf (p + 3) a 1) as (h & -> & Wf & Wr & Out);
    try (done || lia); [apply Hs|].
  rewrite bind_ret_l. exists h. split; [done|]. split; [done|]. split.
  - destruct (Wr 0 ltac:(lia)) as [W0 W1]. unfold word_at.
    replace (p + 3 + 2 * 0) with (p + 3) in * by lia.
    replace (a + 0) with a in * by lia. rewrite W0, W1. lia.
  - intros j Hj Hja. apply Out; lia.
Qed.

Lemma write_holding_address :
  S_REG_HOLDING_NREGS <= a ->
  eMBFuncWriteHoldingRegister s buf p 5 = Ok (MB_EX_ILLEGAL_DATA_ADDRESS, s, buf, 5).
Proof.
  intros Ha. unfold eMBFuncWriteHoldingRegister. decode Hf. fold a in Hword |- *.
  guard_is true. by rewrite holding_no_register, bind_ret_l, set_data_id by (done || lia).
Qed.

Lemma write_holding_value len : len <> 5 ->
  eMBFuncWriteHoldingRegister s buf p len = Ok (MB_EX_ILLEGAL_DATA_VALUE, s, buf, len).
Proof. intros. unfold eMBFuncWriteHoldingRegister. decode Hf. by guard_is false. Qed.

Lemma write_multiple_ok len :
  6 <= len -> 1 <= n <= 120 -> rd buf (p + 5) = 2 * n -> a + n <= S_REG_HOLDING_NREGS ->
  exists h, eMBFuncWriteMultipleHoldingRegister s buf p len
            = Ok (MB_EX_NONE, set_data (set_holding h (sl_data s)) s, buf, 5)
  /\ regs_wf h /\ wire_regs buf (p + 6) h a n
  /\ forall j, 0 <= j -> (j < a \/ a + n <= j) -> rd h j = rd regs j.
Proof.
  intros Hlen Hn Hbc Han. unfold eMBFuncWriteMultipleHoldingRegister. decode Hf.
  fold a n in Hword, Hword0 |- *. guard_is true.
  rewrite (u8_id (2 * n)) by mlia. guard_is true.
  destruct Hf as (Hb & Hp & Hl). pdu_unfold. replace (p + 1 + 5) with (p + 6) by lia.
  destruct (holding_write_ok (sl_data s) buf (p + 6) a n) as (h & -> & Wf & Wr & Out);
    try (done || lia); [apply Hs|].
  rewrite bind_ret_l. by exists h.
Qed.

Lemma write_multiple_address len :
  6 <= len -> 1 <= n <= 120 -> rd buf (p + 5) = 2 * n -> S_REG_HOLDING_NREGS < a + n ->
  eMBFuncWriteMultipleHoldingRegister s buf p len
  = Ok (MB_EX_ILLEGAL_DATA_ADDRESS, s, buf, len).
Proof.
  intros Hlen Hn Hbc Han. unfold eMBFuncWriteMultipleHoldingRegister. decode Hf.
  fold a n in Hword, Hword0 |- *. guard_is true.
  rewrite (u8_id (2 * n)) by mlia. guard_is true.
  by rewrite holding_no_register, bind_ret_l, set_data_id by done.
Qed.

Lemma write_multiple_value len :
  len < 6 \/ ~ (1 <= n <= 120 /\ rd buf (p + 5) = 2 * n) ->
  eMBFuncWriteMultipleHoldingRegister s buf p len
  = Ok (MB_EX_ILLEGAL_DATA_VALUE, s, buf, len).
Proof.
  intros H. unfold eMBFuncWriteMultipleHoldingRegister. decode Hf.
  fold a n in Hword, Hword0 |- *.
  destruct (Z.leb_spec (5 + 1) len); [|done].
  destruct (decide (1 <= n <= 120)) as [Hn|Hn]; [rewrite (u8_id (2 * n)) by mlia|];
    guard_is false; done.
Qed.
End write_holding.

(** *** Read and write holding registers: the write comes first *)
Section readwrite_holding.
Context (s : slave) (buf : list Z) (p : Z).
Context (Hs : slave_wf s) (Hf : frame_ok buf p).
Let ra := word_at buf (p + 1).
Let rn := word_at buf (p + 3).
Let wa := word_at buf (p + 5).
Let wn := word_at buf (p + 7).
Let regs := usSRegHoldBuf (sl_data s).

Lemma readwrite_ok len :
  10 <= len -> 1 <= rn <= 125 -> 1 <= wn <= 121 -> rd buf (p + 9) = 2 * wn ->
  wa + wn <= S_REG_HOLDING_NREGS -> ra + rn <= S_REG_HOLDING_NREGS ->
  exists h buf', eMBFuncReadWriteMultipleHoldingRegister s buf p len
    = Ok (MB_EX_NONE, set_data (set_holding h (sl_data s)) s, buf', 2 + 2 * rn)
  /\ regs_wf h /\ length buf' = length buf /\ Forall is_u8 buf'
  /\ rd buf' p = MB_FUNC_READWRITE_MULTIPLE_REGISTERS /\ rd buf' (p + 1) = 2 * rn
  /\ wire_regs buf (p + 10) h wa wn /\ wire_regs buf' (p + 2) h ra rn
  /\ (forall j, 0 <= j -> (j < wa \/ wa + wn <= j) -> rd h j = rd regs j)
  /\ (forall j, 0 <= j -> (j < p \/ p + 2 + 2 * rn <= j) -> rd buf' j = rd buf j).
Proof.
  intros Hlen Hrn Hwn Hbc Hw Hr. unfold eMBFuncReadWriteMultipleHoldingRegister. decode Hf.
  fold ra rn wa wn in Hword, Hword0, Hword1, Hword2 |- *. guard_is true. guard_is true.
  pose proof Hf as (Hb & Hp & Hl). pdu_unfold. replace (p + 1 + 9) with (p + 10) by lia.
  destruct (holding_write_ok (sl_data s) buf (p + 10) wa wn) as (h & -> & Wf & Ww & Wo);
    try (done || lia); [apply Hs|].
  rewrite bind_ret_l, decide_True, put_header by done.
  destruct (header_ok buf p MB_FUNC_READWRITE_MULTIPLE_REGISTERS (u8 (rn * 2)))
    as (Hf2 & L2 & R0 & R1 & O2); [done|unfold MB_FUNC_READWRITE_MULTIPLE_REGISTERS; mlia|
      apply u8_range|].
  set (b2 := header _ _ _ _) in *. destruct Hf2 as (Hb2 & _ & _).
  replace (p + 0 + 2) with (p + 2) by lia.
  destruct (holding_read_ok (set_holding h (sl_data s)) b2 (p + 2) ra rn)
    as (b3 & -> & L3 & F3 & W3 & O3); try (done || lia);
    [apply (slave_wf_holding s h Hs Wf)|].
  rewrite bind_ret_l, decide_True, u16_id by (done || mlia).
  replace (0 + 1 + 1 + 2 * rn) with (2 + 2 * rn) by lia.
  exists h, b3. split; [done|]. split; [done|]. split; [lia|]. split; [done|].
  split; [rewrite O3 by lia; done|]. split; [rewrite O3, R1 by lia; mlia|].
  split; [done|]. split; [done|]. split; [done|].
  intros j Hj Hjo. by rewrite O3, O2 by lia.
Qed.

Lemma readwrite_write_address len :
  10 <= len -> 1 <= rn <= 125 -> 1 <= wn <= 121 -> rd buf (p + 9) = 2 * wn ->
  S_REG_HOLDING_NREGS < wa + wn ->
  eMBFuncReadWriteMultipleHoldingRegister s buf p len
  = Ok (MB_EX_ILLEGAL_DATA_ADDRESS, s, buf, len).
Proof.
  intros Hlen Hrn Hwn Hbc Hw. unfold eMBFuncReadWriteMultipleHoldingRegister. decode Hf.
  fold ra rn wa wn in Hword, Hword0, Hword1, Hword2 |- *. guard_is true. guard_is true.
  rewrite holding_no_register, bind_ret_l, decide_False, set_data_id by done. done.
Qed.

(** A bad read range is noticed only after the write has been done. *)
Lemma readwrite_read_address len :
  10 <= len -> 1 <= rn <= 125 -> 1 <= wn <= 121 -> rd buf (p + 9) = 2 * wn ->
  wa + wn <= S_REG_HOLDING_NREGS -> S_REG_HOLDING_NREGS < ra + rn ->
  exists h buf', eMBFuncReadWriteMultipleHoldingRegister s buf p len
    = Ok (MB_EX_ILLEGAL_DATA_ADDRESS, set_data (set_holding h (sl_data s)) s, buf', 2)
  /\ regs_wf h /\ wire_regs buf (p + 10) h wa wn /\ frame_ok buf' p
  /\ length buf' = length buf
  /\ (forall j, 0 <= j -> (j < p \/ p + 2 <= j) -> rd buf' j = rd buf j)
  /\ (forall j, 0 <= j -> (j < wa \/ wa + wn <= j) -> rd h j = rd regs j).
Proof.
  intros Hlen Hrn Hwn Hbc Hw Hr. unfold eMBFuncReadWriteMultipleHoldingRegister. decode Hf.
  fold ra rn wa wn in Hword, Hword0, Hword1, Hword2 |- *. guard_is true. guard_is true.
  pose proof Hf as (Hb & Hp & Hl). pdu_unfold. replace (p + 1 + 9) with (p + 10) by lia.
  destruct (holding_write_ok (sl_data s) buf (p + 10) wa wn) as (h & -> & Wf & Ww & Wo);
    try (done || lia); [apply Hs|].
  rewrite bind_ret_l, decide_True, put_header by done.
  destruct (header_ok buf p MB_FUNC_READWRITE_MULTIPLE_REGISTERS (u8 (rn * 2)))
    as (Hf2 & L2 & R0 & R1 & O2); [done|unfold MB_FUNC_READWRITE_MULTIPLE_REGISTERS; mlia|
      apply u8_range|].
  rewrite holding_no_register, bind_ret_l by done. by eexists h, _.
Qed.

Lemma readwrite_value len :
  10 <= len -> ~ (1 <= rn <= 125 /\ 1 <= wn <= 121 /\ rd buf (p + 9) = 2 * wn) ->
  eMBFuncReadWriteMultipleHoldingRegister s buf p len
  = Ok (MB_EX_ILLEGAL_DATA_VALUE, s, buf, len).
Proof.
  intros Hlen H. unfold eMBFuncReadWriteMultipleHoldingRegister. decode Hf.
  fold ra rn wa wn in Hword, Hword0, Hword1, Hword2 |- *. guard_is true. by guard_is false.
Qed.

Lemma readwrite_short len : len < 10 ->
  eMBFuncReadWriteMultipleHoldingRegister s buf p len = Ok (MB_EX_NONE, s, buf, len).
Proof.
  intros H. unfold eMBFuncReadWriteMultipleHoldingRegister. pdu_unfold. by guard_is false.
Qed.
End readwrite_holding.

(** *** Read input registers *)
Section read_input.
Context (s : slave) (buf : list Z) (p : Z).
Context (Hs : slave_wf s) (Hf : frame_ok buf p).
Let a := word_at buf (p + 1).
Let n := word_at buf (p + 3).

Lemma read_input_ok :
  1 <= n < 125 -> a + n <= S_REG_INPUT_NREGS ->
  exists buf', eMBFuncReadInputRegister s buf p 5 = Ok (MB_EX_NONE, s, buf', 2 + 2 * n)
  /\ length buf' = length buf /\ Forall is_u8 buf'
  /\ rd buf' p = MB_FUNC_READ_INPUT_REGISTER /\ rd buf' (p + 1) = 2 * n
  /\ wire_regs buf' (p + 2) (usSRegInBuf (sl_data s)) a n
  /\ (forall j, 0 <= j -> (j < p \/ p + 2 + 2 * n <= j) -> rd buf' j = rd buf j).
Proof.
  intros Hn Han. unfold eMBFuncReadInputRegister. decode Hf.
  fold a n in Hword, Hword0 |- *. guard_is true. guard_is true. rewrite put_header by done.
  destruct (header_ok buf p MB_FUNC_READ_INPUT_REGISTER (u8 (n * 2)))
    as (Hf2 & L2 & R0 & R1 & O2); [done|unfold MB_FUNC_READ_INPUT_REGISTER; mlia|
      apply u8_range|].
  set (b2 := header _ _ _ _) in *.
  destruct Hf as (Hb & Hp & Hl), Hf2 as (Hb2 & _ & _). pdu_unfold.
  replace (p + 0 + 2) with (p + 2) by lia.
  destruct (input_read_ok (sl_data s) b2 (p + 2) a n) as (b3 & -> & L3 & F3 & W3 & O3);
    try (done || lia); [apply Hs|].
  rewrite bind_ret_l, decide_True, u16_id by (done || mlia).
  replace (0 + 1 + 1 + n * 2) with (2 + 2 * n) by lia.
  exists b3. split; [done|]. split; [lia|]. split; [done|].
  split; [rewrite O3 by lia; done|]. split; [rewrite O3, R1 by lia; mlia|].
  split; [done|]. intros j Hj Hjo. by rewrite O3, O2 by lia.
Qed.

Lemma read_input_address :
  1 <= n < 125 -> S_REG_INPUT_NREGS < a + n ->
  exists buf', eMBFuncReadInputRegister s buf p 5
               = Ok (MB_EX_ILLEGAL_DATA_ADDRESS, s, buf', 2)
  /\ frame_ok buf' p /\ length buf' = length buf
  /\ forall j, 0 <= j -> (j < p \/ p + 2 <= j) -> rd buf' j = rd buf j.
Proof.
  intros Hn Han. unfold eMBFuncReadInputRegister. decode Hf.
  fold a n in Hword, Hword0 |- *. guard_is true. guard_is true. rewrite put_header by done.
  destruct (header_ok buf p MB_FUNC_READ_INPUT_REGISTER (u8 (n * 2)))
    as (Hf2 & L2 & R0 & R1 & O2); [done|unfold MB_FUNC_READ_INPUT_REGISTER; mlia|
      apply u8_range|].
  rewrite input_no_register, bind_ret_l by done. by eexists.
Qed.

Lemma read_input_value len :
  len <> 5 \/ ~ (1 <= n < 125) ->
  eMBFuncReadInputRegister s buf p len = Ok (MB_EX_ILLEGAL_DATA_VALUE, s, buf, len).
Proof.
  intros H. unfold eMBFuncReadInputRegister. decode Hf. fold a n.
  destruct (Z.eqb_spec len (4 + 1)); [|done]. by guard_is false.
Qed.
End read_input.

(** *** Coils *)
Lemma land_7 z : Z.land z 7 = z mod 8.
Proof. change 7 with (Z.ones 3). by rewrite Z.land_ones. Qed.

Lemma bit_bytes_ceil n : 0 <= n < 2040 -> bit_bytes n = (n + 7) / 8.
Proof.
  intros Hn. unfold bit_bytes. change 0x0007 with 7. rewrite land_7.
  destruct (Z.eqb_spec (n mod 8) 0); cbn [negb]; mlia.
Qed.

Section coils.
Context (s : slave) (buf : list Z) (p : Z).
Context (Hs : slave_wf s) (Hf : frame_ok buf p).
Let a := word_at buf (p + 1).
Let n := word_at buf (p + 3).
Let coils := ucSCoilBuf (sl_data s).

Lemma read_coils_ok :
  1 <= n -> a + n <= S_COIL_NCOILS -> a / 8 + n / 8 < 7 ->
  exists buf', eMBFuncReadCoils s buf p 5 = Ok (MB_EX_NONE, s, buf', 2 + (n + 7) / 8)
  /\ length buf' = length buf /\ Forall is_u8 buf'
  /\ rd buf' p = MB_FUNC_READ_COILS /\ rd buf' (p + 1) = (n + 7) / 8
  /\ wire_bits buf' (p + 2) coils a n
  /\ forall k, n <= k < 8 * ((n + 7) / 8) ->
       Z.testbit (rd buf' (p + 2 + k / 8)) (k mod 8) = false.
Proof.
  intros Hn Han Hin. unfold eMBFuncReadCoils. decode Hf.
  fold a n in Hword, Hword0 |- *. unfold S_COIL_NCOILS in *. unfold is_u16 in Hword.
  guard_is true. guard_is true. rewrite put_header by done. rewrite bit_bytes_ceil by lia.
  destruct (header_ok buf p MB_FUNC_READ_COILS ((n + 7) / 8))
    as (Hf2 & L2 & R0 & R1 & O2); [done|unfold MB_FUNC_READ_COILS; mlia|mlia|].
  set (b2 := header _ _ _ _) in *.
  destruct Hf as (Hb & Hp & Hl), Hf2 as (Hb2 & _ & _). pdu_unfold.
  replace (p + 0 + 2) with (p + 2) by lia.
  destruct (coils_read_ok (sl_data s) b2 (p + 2) a n) as (b3 & -> & L3 & F3 & W3 & Z3 & O3);
    try (done || mlia); [apply Hs|].
  rewrite bind_ret_l, decide_True, set_data_id, u16_id by (done || mlia).
  replace (0 + 1 + 1 + (n + 7) / 8) with (2 + (n + 7) / 8) by lia.
  exists b3. split; [done|]. split; [lia|]. split; [done|].
  split; [rewrite O3 by lia; done|]. split; [rewrite O3, R1 by lia; done|].
  split; [done|]. intros k Hk. apply Z3. lia.
Qed.

Lemma read_coils_overrun :
  1 <= n -> a + n <= S_COIL_NCOILS -> 7 <= a / 8 + n / 8 ->
  eMBFuncReadCoils s buf p 5 = Fault OutOfBounds.
Proof.
  intros Hn Han Hin. unfold eMBFuncReadCoils. decode Hf.
  fold a n in Hword, Hword0 |- *. pose proof Han. unfold S_COIL_NCOILS in *.
  unfold is_u16 in Hword. guard_is true. guard_is true. rewrite put_header by done.
  rewrite coils_read_overrun; (done || mlia || apply Hs).
Qed.

Lemma read_coils_address :
  1 <= n < 2000 -> S_COIL_NCOILS < a + n ->
  exists buf', eMBFuncReadCoils s buf p 5 = Ok (MB_EX_ILLEGAL_DATA_ADDRESS, s, buf', 2)
  /\ frame_ok buf' p.
Proof.
  intros Hn Han. unfold eMBFuncReadCoils. decode Hf.
  fold a n in Hword, Hword0 |- *. guard_is true. guard_is true. rewrite put_header by done.
  rewrite bit_bytes_ceil by lia.
  destruct (header_ok buf p MB_FUNC_READ_COILS ((n + 7) / 8))
    as (Hf2 & _); [done|unfold MB_FUNC_READ_COILS; mlia|mlia|].
  rewrite coils_no_register, bind_ret_l, set_data_id by done. by eexists.
Qed.

Lemma read_coils_value len :
  len <> 5 \/ ~ (1 <= n < 2000) ->
  eMBFuncReadCoils s buf p len = Ok (MB_EX_ILLEGAL_DATA_VALUE, s, buf, len).
Proof.
  intros H. unfold eMBFuncReadCoils. decode Hf. fold a n.
  destruct (Z.eqb_spec len (4 + 1)); [|done]. by guard_is false.
Qed.

Lemma write_coil_ok (on : bool) :
  a < 56 -> rd buf (p + 3) = (if on then 0xFF else 0x00) -> rd buf (p + 4) = 0 ->
  exists c, eMBFuncWriteCoil s buf p 5
            = Ok (MB_EX_NONE, set_data (set_coils c (sl_data s)) s, buf, 5)
  /\ length c = 8%nat /\ Forall is_u8 c /\ bit_at c a = on
  /\ forall j, 0 <= j -> j <> a -> bit_at c j = bit_at coils j.
Proof.
  intros Ha Hhi Hlo. unfold eMBFuncWriteCoil. decode Hf.
  fold a in Hword |- *. unfold is_u16 in Hword. guard_is true.
  replace ((rd buf (p + 4) =? 0) && _) with true by (rewrite Hlo, Hhi; by destruct on).
  cbv iota. rewrite Hhi.
  replace (if (if on then 0xFF else 0) =? 0xFF then 1 else 0) with (Z.b2z on) by by destruct on.
  destruct (coils_write_ok (sl_data s) [Z.b2z on; 0] 0 a 1)
    as (c & -> & L & F & Wr & Out); try (apply Hs || done || mlia).
  - repeat constructor; destruct on; cbn; mlia.
  - unfold S_COIL_NCOILS. lia.
  - intros k Hk. replace (k / 8) with 0 by lia. replace (k mod 8) with k by lia.
    destruct on; [|apply Z.testbit_0_l]. change (rd _ _) with 1.
    apply (Z.ones_spec_high 1 k). lia.
  - rewrite bind_ret_l. exists c. split; [done|]. split; [done|]. split; [done|]. split.
    + replace a with (a + 0) by lia. rewrite <- (Wr 0) by lia. by destruct on.
    + intros j Hj Hja. apply Out; lia.
Qed.

(** The last eight coils exist but cannot be written. *)
Lemma write_coil_overrun :
  56 <= a < S_COIL_NCOILS -> rd buf (p + 3) = 0xFF \/ rd buf (p + 3) = 0 ->
  rd buf (p + 4) = 0 ->
  eMBFuncWriteCoil s buf p 5 = Fault OutOfBounds.
Proof.
  intros Ha Hhi Hlo. unfold eMBFuncWriteCoil. decode Hf. fold a in Hword |- *.
  guard_is true. guard_is true.
  by rewrite coil_write_overrun by (done || apply Hs).
Qed.

Lemma write_coils_ok len :
  6 <= len -> 1 <= n -> a + n <= S_COIL_NCOILS -> a / 8 + (n + 7) / 8 < 8 ->
  rd buf (p + 5) = (n + 7) / 8 ->
  (forall k, n <= k < 8 * ((n + 7) / 8) ->
     Z.testbit (rd buf (p + 6 + k / 8)) (k mod 8) = false) ->
  exists c, eMBFuncWriteMultipleCoils s buf p len
            = Ok (MB_EX_NONE, set_data (set_coils c (sl_data s)) s, buf, 5)
  /\ length c = 8%nat /\ Forall is_u8 c /\ wire_bits buf (p + 6) c a n
  /\ forall j, 0 <= j -> (j < a \/ a + n <= j) -> bit_at c j = bit_at coils j.
Proof.
  intros Hlen Hn Han Hin Hbc Hpad. unfold eMBFuncWriteMultipleCoils. decode Hf.
  fold a n in Hword, Hword0 |- *. pose proof Han. unfold S_COIL_NCOILS in *.
  unfold is_u16 in Hword. guard_is true. rewrite bit_bytes_ceil by lia. guard_is true.
  destruct Hf as (Hb & Hp & Hl). pdu_unfold. replace (p + 1 + 5) with (p + 6) by lia.
  destruct (coils_write_ok (sl_data s) buf (p + 6) a n) as (c & -> & L & F & Wr & Out);
    try (done || mlia || apply Hs).
  rewrite bind_ret_l. by exists c.
Qed.
End coils.

(** *** Discrete inputs *)
Section discrete.
Context (s : slave) (buf : list Z) (p : Z).
Context (Hs : slave_wf s) (Hf : frame_ok buf p).
Let a := word_at buf (p + 1).
Let n := word_at buf (p + 3).

Lemma read_discrete_ok :
  1 <= n -> a < 8 -> n < 8 -> 
  exists buf', eMBFuncReadDiscreteInputs s buf p 5
               = Ok (MB_EX_NONE, s, buf', 3)
  /\ length buf' = length buf /\ Forall is_u8 buf'
  /\ rd buf' p = MB_FUNC_READ_DISCRETE_INPUTS /\ rd buf' (p + 1) = 1
  /\ wire_bits buf' (p + 2) (ucSDiscInBuf (sl_data s)) a n
  /\ forall k, n <= k < 8 -> Z.testbit (rd buf' (p + 2)) k = false.
Proof.
  intros Hn Ha Hn8. unfold eMBFuncReadDiscreteInputs. decode Hf.
  fold a n in Hword, Hword0 |- *. unfold is_u16 in Hword.
  guard_is true. guard_is true. rewrite put_header by done. rewrite bit_bytes_ceil by lia.
  replace ((n + 7) / 8) with 1 by lia.
  destruct (header_ok buf p MB_FUNC_READ_DISCRETE_INPUTS 1)
    as (Hf2 & L2 & R0 & R1 & O2); [done|unfold MB_FUNC_READ_DISCRETE_INPUTS; mlia|mlia|].
  set (b2 := header _ _ _ _) in *.
  destruct Hf as (Hb & Hp & Hl), Hf2 as (Hb2 & _ & _). pdu_unfold.
  replace (p + 0 + 2) with (p + 2) by lia.
  destruct (discrete_read_ok (sl_data s) b2 (p + 2) a n)
    as (b3 & -> & L3 & F3 & W3 & Z3 & O3);
    try (apply Hs || done || (unfold S_DISCRETE_INPUT_NDISCRETES; mlia)).
  rewrite bind_ret_l, decide_True by done. change (u16 (0 + 1 + 1 + 1)) with 3.
  exists b3. split; [done|]. split; [lia|]. split; [done|].
  split; [rewrite O3 by lia; done|]. split; [rewrite O3, R1 by lia; done|].
  split; [done|]. intros k Hk. rewrite <- (Z3 k) by lia.
  replace (k / 8) with 0 by lia. f_equal; [f_equal|]; lia.
Qed.

Lemma read_discrete_overrun :
  1 <= n -> a + n <= S_DISCRETE_INPUT_NDISCRETES -> 8 <= a \/ 8 <= n ->
  eMBFuncReadDiscreteInputs s buf p 5 = Fault OutOfBounds.
Proof.
  intros Hn Han Hin. unfold eMBFuncReadDiscreteInputs. decode Hf.
  fold a n in Hword, Hword0 |- *. pose proof Han. unfold S_DISCRETE_INPUT_NDISCRETES in *.
  unfold is_u16 in Hword. guard_is true. guard_is true. rewrite put_header by done.
  rewrite discrete_read_overrun; (done || mlia || apply Hs).
Qed.
End discrete.

(** *** Slave identification *)
Lemma memcpy_ok dst d src so n :
  Forall is_u8 dst -> Forall is_u8 src -> 0 <= d -> 0 <= so -> 0 <= n ->
  so + n <= Z.of_nat (length src) -> d + n <= Z.of_nat (length dst) ->
  exists dst', memcpy dst d src so n = Ok dst' /\ length dst' = length dst /\ Forall is_u8 dst'
  /\ (forall k, 0 <= k < n -> rd dst' (d + k) = rd src (so + k))
  /\ forall j, 0 <= j -> (j < d \/ d + n <= j) -> rd dst' j = rd dst j.
Proof.
  intros Hd Hsrc Hd0 Hs0 Hn Hsl Hdl. unfold memcpy.
  destruct (for_loop_inv (fun i t => length t = length dst /\ Forall is_u8 t
      /\ (forall k, 0 <= k < i -> rd t (d + k) = rd src (so + k))
      /\ forall j, 0 <= j -> (j < d \/ d + i <= j) -> rd t j = rd dst j)
      (fun i dst => v ← get src (so + i); set dst (d + i) v) (Z.to_nat n) 0 dst)
    as (t & -> & L & F & C & O).
  - repeat split; try done. lia.
  - intros i t Hi (L & F & C & O).
    rewrite get_in, bind_ret_l, set_in by (unfold in_range; lia).
    eexists. split; [done|]. split; [by rewrite length_upd|].
    split; [apply Forall_upd; [done|apply rd_Forall; [done|unfold in_range; lia]]|].
    split; intros k Hk.
    + destruct (decide (k = i)) as [->|]; [by rewrite rd_upd_eq by (unfold in_range; lia)|].
      rewrite rd_upd_ne by lia. apply C. lia.
    + intros Hjo. rewrite rd_upd_ne by lia. apply O; lia.
  - exists t. rewrite Z.add_0_l, Z2Nat.id in * by lia. done.
Qed.

Lemma set_slave_id_ok s id running add :
  slave_wf s -> is_u8 id -> Forall is_u8 add -> Z.of_nat (length add) < 30 ->
  exists s', eMBSetSlaveID s id running add (Z.of_nat (length add)) = Ok (MB_ENOERR, s')
  /\ slave_wf s' /\ sl_data s' = sl_data s /\ usMBSlaveIDLen s' = 2 + Z.of_nat (length add)
  /\ rd (ucMBSlaveID s') 0 = id /\ rd (ucMBSlaveID s') 1 = (if running then 0xFF else 0)
  /\ forall k, 0 <= k < Z.of_nat (length add) -> rd (ucMBSlaveID s') (2 + k) = rd add k.
Proof.
  intros (Hd & Hl & Hb & Hn) Hid Hadd Hlen.
  unfold eMBSetSlaveID, MB_FUNC_OTHER_REP_SLAVEID_BUF in *.
  guard_is true. change (Z.to_nat 32) with 32%nat in *.
  rewrite set_in, bind_ret_l, set_in, bind_ret_l
    by (rewrite ?in_range_upd; unfold in_range; lia).
  set (b := upd (upd _ 0 id) 1 _).
  assert (length b = 32%nat) as Lb by (unfold b; by rewrite !length_upd).
  assert (Forall is_u8 b) as Fb
    by (unfold b; repeat apply Forall_upd; [done|done|destruct running; mlia]).
  assert (rd b 0 = id /\ rd b 1 = if running then 0xFF else 0) as [B0 B1].
  { unfold b. by rewrite rd_upd_ne, !rd_upd_eq
      by (rewrite ?in_range_upd; unfold in_range; lia). }
  destruct (Z.ltb_spec 0 (Z.of_nat (length add))).
  - destruct (memcpy_ok b 2 add 0 (Z.of_nat (length add))) as (b' & -> & L & F & C & O);
      try (done || lia).
    rewrite bind_ret_l, u16_id by mlia. eexists. split; [done|]. cbn.
    split; [split; [done|]; cbn; rewrite L, Lb; unfold MB_FUNC_OTHER_REP_SLAVEID_BUF;
      repeat split; (done || lia)|].
    rewrite !O by lia. done.
  - eexists. split; [done|]. cbn.
    split; [split; [done|]; cbn; rewrite Lb; unfold MB_FUNC_OTHER_REP_SLAVEID_BUF;
      repeat split; (done || lia)|].
    repeat split; (done || lia).
Qed.

Lemma report_slave_id_ok s buf p len :
  slave_wf s -> frame_ok buf p ->
  exists buf', eMBFuncReportSlaveID s buf p len
    = Ok (MB_EX_NONE, s, buf', 1 + usMBSlaveIDLen s)
  /\ length buf' = length buf /\ Forall is_u8 buf'
  /\ (forall k, 0 <= k < usMBSlaveIDLen s -> rd buf' (p + 1 + k) = rd (ucMBSlaveID s) k)
  /\ forall j, 0 <= j -> (j < p + 1 \/ p + 1 + usMBSlaveIDLen s <= j) -> rd buf' j = rd buf j.
Proof.
  intros (Hd & Hl & Hb & Hn) (Hbuf & Hp & Hlen). unfold eMBFuncReportSlaveID.
  unfold MB_FUNC_OTHER_REP_SLAVEID_BUF in *. pdu_unfold.
  destruct (memcpy_ok buf (p + 1) (ucMBSlaveID s) 0 (usMBSlaveIDLen s))
    as (b' & -> & L & F & C & O); try (done || lia).
  rewrite bind_ret_l, u16_id by mlia. by exists b'.
Qed.

(** ** What every handler guarantees *)

(** The handler returned: state and buffer stay well formed, nothing outside
    the PDU is touched, and the length is legal. *)
Definition handled (r : handler_result) (buf : list Z) (p : Z) : Prop :=
  exists e s' buf' len', r = Ok (e, s', buf', len')
  /\ slave_wf s' /\ frame_ok buf' p /\ length buf' = length buf
  /\ 1 <= len' <= MB_PDU_SIZE_MAX
  /\ forall j, 0 <= j -> (j < p \/ p + MB_PDU_SIZE_MAX <= j) -> rd buf' j = rd buf j.

Lemma handled_same r e s buf p len :
  r = Ok (e, s, buf, len) -> slave_wf s -> frame_ok buf p ->
  1 <= len <= MB_PDU_SIZE_MAX -> handled r buf p.
Proof. intros. by eexists _, _, _, _. Qed.

Lemma handled_new r e s buf buf' p len k :
  r = Ok (e, s, buf', len) -> slave_wf s -> frame_ok buf p ->
  length buf' = length buf -> Forall is_u8 buf' ->
  (forall j, 0 <= j -> (j < p \/ p + k <= j) -> rd buf' j = rd buf j) ->
  k <= MB_PDU_SIZE_MAX -> 1 <= len <= MB_PDU_SIZE_MAX -> handled r buf p.
Proof.
  intros E Hs Hf L F O Hk Hlen. eexists _, _, _, _. split; [done|]. split; [done|].
  split; [by eapply frame_ok_same|]. split; [done|]. split; [done|].
  intros j Hj Hjo. apply O; lia.
Qed.
Create HintDb handlers.
#[export] Hint Resolve slave_wf_holding slave_wf_coils frame_ok_same : handlers.

Section handled.
Context (s : slave) (buf : list Z) (p len : Z).
Context (Hs : slave_wf s) (Hf : frame_ok buf p) (Hlen : 1 <= len <= MB_PDU_SIZE_MAX).

Lemma read_holding_handled : handled (eMBFuncReadHoldingRegister s buf p len) buf p.
Proof.
  destruct (decide (len = 5 /\ 1 <= word_at buf (p + 3) <= 125)) as [[-> Hn]|Hn].
  - destruct (decide (word_at buf (p + 1) + word_at buf (p + 3) <= S_REG_HOLDING_NREGS)).
    + destruct (read_holding_ok s buf p) as (b & E & L & F & _ & _ & _ & O); try done.
      eapply (handled_new _ _ _ _ _ _ _ (2 + 2 * word_at buf (p + 3))); eauto;
        [|pdu_unfold; lia..]. intros. apply O; lia.
    + destruct (read_holding_address s buf p) as (b & E & Fr & L & O); try (done || lia).
      eapply (handled_new _ _ _ _ _ _ _ 2); eauto; (apply Fr || pdu_unfold; lia || done).
  - eapply handled_same; [apply read_holding_value; (done || lia)|done..].
Qed.

Lemma write_holding_handled : handled (eMBFuncWriteHoldingRegister s buf p len) buf p.
Proof.
  destruct (decide (len = 5)) as [->|Hn].
  - destruct (decide (word_at buf (p + 1) < S_REG_HOLDING_NREGS)).
    + destruct (write_holding_ok s buf p) as (h & E & Wf & _); try done.
      eapply handled_same; eauto with handlers.
    + eapply handled_same; [apply write_holding_address; (done || lia)|done..].
  - eapply handled_same; [apply write_holding_value; (done || lia)|done..].
Qed.

Lemma write_multiple_handled :
  handled (eMBFuncWriteMultipleHoldingRegister s buf p len) buf p.
Proof.
  destruct (decide (6 <= len /\ 1 <= word_at buf (p + 3) <= 120
    /\ rd buf (p + 5) = 2 * word_at buf (p + 3))) as [(Hl & Hn & Hbc)|Hn].
  - destruct (decide (word_at buf (p + 1) + word_at buf (p + 3) <= S_REG_HOLDING_NREGS)).
    + destruct (write_multiple_ok s buf p Hs Hf len) as (h & E & Wf & _); try done.
      eapply handled_same; eauto with handlers. pdu_unfold. lia.
    + eapply handled_same; [apply write_multiple_address; (done || lia)|done..].
  - eapply handled_same; [apply write_multiple_value; (done || lia)|done..].
Qed.

Lemma readwrite_handled :
  handled (eMBFuncReadWriteMultipleHoldingRegister s buf p len) buf p.
Proof.
  destruct (decide (10 <= len)) as [Hl|Hl];
    [|eapply handled_same; [apply readwrite_short; lia|done..]].
  destruct (decide (1 <= word_at buf (p + 3) <= 125 /\ 1 <= word_at buf (p + 7) <= 121
    /\ rd buf (p + 9) = 2 * word_at buf (p + 7))) as [(Hr & Hw & Hbc)|Hn];
    [|eapply handled_same; [apply readwrite_value; done|done..]].
  destruct (decide (word_at buf (p + 5) + word_at buf (p + 7) <= S_REG_HOLDING_NREGS));
    [|eapply handled_same; [apply readwrite_write_address; (done || lia)|done..]].
  destruct (decide (word_at buf (p + 1) + word_at buf (p + 3) <= S_REG_HOLDING_NREGS)).
  - destruct (readwrite_ok s buf p Hs Hf len)
      as (h & b & E & Wf & L & F & _ & _ & _ & _ & _ & O); try done.
    eapply (handled_new _ _ _ _ _ _ _ (2 + 2 * word_at buf (p + 3))); eauto with handlers;
      [|pdu_unfold; lia..]. intros. apply O; lia.
  - destruct (readwrite_read_address s buf p Hs Hf len)
      as (h & b & E & Wf & _ & Fr & L & O & _); try (done || lia).
    eapply (handled_new _ _ _ _ _ _ _ 2); eauto with handlers;
      (apply Fr || pdu_unfold; lia || done).
Qed.

Lemma read_input_handled : handled (eMBFuncReadInputRegister s buf p len) buf p.
Proof.
  destruct (decide (len = 5 /\ 1 <= word_at buf (p + 3) < 125)) as [[-> Hn]|Hn].
  - destruct (decide (word_at buf (p + 1) + word_at buf (p + 3) <= S_REG_INPUT_NREGS)).
    + destruct (read_input_ok s buf p) as (b & E & L & F & _ & _ & _ & O); try done.
      eapply (handled_new _ _ _ _ _ _ _ (2 + 2 * word_at buf (p + 3))); eauto;
        [|pdu_unfold; lia..]. intros. apply O; lia.
    + destruct (read_input_address s buf p) as (b & E & Fr & L & O); try (done || lia).
      eapply (handled_new _ _ _ _ _ _ _ 2); eauto; (apply Fr || pdu_unfold; lia || done).
  - eapply handled_same; [apply read_input_value; (done || lia)|done..].
Qed.

Lemma report_slave_id_handled : handled (eMBFuncReportSlaveID s buf p len) buf p.
Proof.
  destruct (report_slave_id_ok s buf p len) as (b & E & L & F & _ & O); try done.
  assert (0 <= usMBSlaveIDLen s < 32) as Hn by apply Hs.
  eapply (handled_new _ _ _ _ _ _ _ (1 + usMBSlaveIDLen s)); eauto; [|pdu_unfold; lia..].
  intros j Hj Hjo. apply O; lia.
Qed.
End handled.

(** The coil and discrete handlers: handled, or out of bounds. *)
Definition handled_or_oob (r : handler_result) (buf : list Z) (p : Z) : Prop :=
  handled r buf p \/ r = Fault OutOfBounds.

Lemma handled_or_oob_intro r buf p :
  ok_or_oob (fun x => let '(e, s', buf', len') := x in
    slave_wf s' /\ bytes_like buf p (p + MB_PDU_SIZE_MAX) buf' /\ frame_ok buf p
    /\ 1 <= len' <= MB_PDU_SIZE_MAX) r -> handled_or_oob r buf p.
Proof.
  destruct r as [[[[e s'] buf'] len']|f]; cbn; [|by intros ->; right].
  intros (Hs & (L & F & O) & Hf & Hl). left. eexists _, _, _, _. split; [done|].
  split; [done|]. split; [by eapply frame_ok_same|]. done.
Qed.

Lemma bytes_like_header buf p fc c : frame_ok buf p -> is_u8 fc -> is_u8 c ->
  bytes_like buf p (p + MB_PDU_SIZE_MAX) (header buf p fc c).
Proof.
  intros Hf Hfc Hc. destruct (header_ok buf p fc c) as ((F & _) & L & _ & _ & O); try done.
  split; [done|]. split; [done|]. intros j Hj Hjo. apply O; [done|]. pdu_unfold. lia.
Qed.

Lemma bit_bytes_range n : is_u8 (bit_bytes n).
Proof. unfold bit_bytes. destruct (negb _); apply u8_range. Qed.

Section handled_bits.
Context (s : slave) (buf : list Z) (p len : Z).
Context (Hs : slave_wf s) (Hf : frame_ok buf p) (Hlen : 1 <= len <= MB_PDU_SIZE_MAX).

Lemma same_or_oob e : handled_or_oob (Ok (e, s, buf, len)) buf p.
Proof. left. by eapply handled_same. Qed.

Lemma read_coils_handled : handled_or_oob (eMBFuncReadCoils s buf p len) buf p.
Proof.
  unfold eMBFuncReadCoils. decode Hf. destruct (len =? 4 + 1); [|apply same_or_oob].
  destruct (_ && _) eqn:G; [|apply same_or_oob]. rewrite put_header by done.
  apply andb_true_iff in G as [G1%Z.leb_le G2%Z.ltb_lt].
  pose proof (bytes_like_header buf p MB_FUNC_READ_COILS
    (bit_bytes (word_at buf (p + 3))) Hf ltac:(unfold MB_FUNC_READ_COILS; mlia)
    (bit_bytes_range _)) as Hh.
  apply handled_or_oob_intro.
  eapply ok_or_oob_bind; [eapply (coils_cb_oob _ _ _ _ _ _ p (p + MB_PDU_SIZE_MAX))|].
  - apply Hs.
  - apply Hh.
  - destruct Hf. lia.
  - done.
  - unfold S_COIL_NCOILS. pdu_unfold. lia.
  - mlia.
  - intros [[e d] b] [Hd Hb]. split; [split; [done|apply Hs]|].
    split; [by eapply bytes_like_trans|]. split; [done|].
    rewrite bit_bytes_ceil by lia. pdu_unfold. case_decide; mlia.
Qed.

Lemma read_discrete_handled : handled_or_oob (eMBFuncReadDiscreteInputs s buf p len) buf p.
Proof.
  unfold eMBFuncReadDiscreteInputs. decode Hf. destruct (len =? 4 + 1); [|apply same_or_oob].
  destruct (_ && _) eqn:G; [|apply same_or_oob]. rewrite put_header by done.
  apply andb_true_iff in G as [G1%Z.leb_le G2%Z.ltb_lt].
  pose proof (bytes_like_header buf p MB_FUNC_READ_DISCRETE_INPUTS
    (bit_bytes (word_at buf (p + 3))) Hf ltac:(unfold MB_FUNC_READ_DISCRETE_INPUTS; mlia)
    (bit_bytes_range _)) as Hh.
  apply handled_or_oob_intro.
  eapply ok_or_oob_bind; [eapply (discrete_cb_oob _ _ _ _ _ p (p + MB_PDU_SIZE_MAX))|].
  - apply Hs.
  - apply Hh.
  - destruct Hf. lia.
  - done.
  - unfold S_DISCRETE_INPUT_NDISCRETES. pdu_unfold. lia.
  - mlia.
  - intros [e b] Hb. split; [done|].
    split; [by eapply bytes_like_trans|]. split; [done|].
    rewrite bit_bytes_ceil by lia. pdu_unfold. case_decide; mlia.
Qed.

Lemma write_coil_handled : handled_or_oob (eMBFuncWriteCoil s buf p len) buf p.
Proof.
  unfold eMBFuncWriteCoil. decode Hf. destruct (len =? 4 + 1); [|apply same_or_oob].
  destruct (_ && _); [|apply same_or_oob]. apply handled_or_oob_intro.
  eapply ok_or_oob_bind; [eapply (coils_cb_oob _ _ _ _ _ _ 0 2)|].
  - apply Hs.
  - destruct (_ =? _); repeat constructor; mlia.
  - lia.
  - mlia.
  - lia.
  - mlia.
  - intros [[e d] b] [Hd _]. split; [split; [done|apply Hs]|]. split; [|done].
    split; [done|]. split; [apply Hf|done].
Qed.

Lemma write_coils_handled : handled_or_oob (eMBFuncWriteMultipleCoils s buf p len) buf p.
Proof.
  unfold eMBFuncWriteMultipleCoils. decode Hf. destruct (4 + 1 <? len); [|apply same_or_oob].
  destruct (_ && _); [|apply same_or_oob]. apply handled_or_oob_intro.
  eapply ok_or_oob_bind; [eapply (coils_cb_oob _ _ _ _ _ _ p (p + MB_PDU_SIZE_MAX))|].
  - apply Hs.
  - apply Hf.
  - destruct Hf. lia.
  - done.
  - unfold S_COIL_NCOILS. pdu_unfold. lia.
  - mlia.
  - intros [[e d] b] [Hd Hb]. split; [split; [done|apply Hs]|].
    split; [done|]. split; [done|]. pdu_unfold. case_decide; lia.
Qed.
End handled_bits.

Lemma wire_regs_same b o b' o' regs a n : wire_regs b o regs a n -> wire_regs b' o' regs a n ->
  forall k, 0 <= k < 2 * n -> rd b (o + k) = rd b' (o' + k).
Proof.
  intros W W' k Hk. destruct (W (k / 2) ltac:(lia)) as [E O].
  destruct (W' (k / 2) ltac:(lia)) as [E' O'].
  destruct (decide (k mod 2 = 0)).
  - replace (o + 2 * (k / 2)) with (o + k) in E by lia.
    replace (o' + 2 * (k / 2)) with (o' + k) in E' by lia. by rewrite E, E'.
  - replace (o + 2 * (k / 2) + 1) with (o + k) in O by lia.
    replace (o' + 2 * (k / 2) + 1) with (o' + k) in O' by lia. by rewrite O, O'.
Qed.

(** ** Properties *)

(** The handlers of the register function codes and of the id report. *)
Definition register_handlers : list handler :=
  [ eMBFuncReportSlaveID; eMBFuncReadInputRegister; eMBFuncReadHoldingRegister;
    eMBFuncWriteMultipleHoldingRegister; eMBFuncWriteHoldingRegister;
    eMBFuncReadWriteMultipleHoldingRegister ].

(** A 256-byte buffer holding [l] at its start; used by the examples. *)
Definition example_buf (l : list Z) : list Z := l ++ replicate (256 - length l) 0.
Lemma example_buf_ok l : Forall is_u8 l -> (length l <= 256)%nat -> frame_ok (example_buf l) 1.
Proof.
  intros Hl Hlen. unfold example_buf. split.
  - apply Forall_app; split; [done|]. apply Forall_replicate. mlia.
  - rewrite length_app, length_replicate. pdu_unfold. lia.
Qed.

(** C9: Whatever bytes a PDU of legal length holds, the register and slave-id
    handlers return: they never leave the frame buffer or a register array,
    keep every invariant of the data, touch nothing outside the PDU, and the
    response has a legal length. *)
Theorem register_handlers_safe s buf p len h :
  h ∈ register_handlers -> slave_wf s -> frame_ok buf p -> 1 <= len <= MB_PDU_SIZE_MAX ->
  handled (h s buf p len) buf p.
Proof.
  intros Hh Hs Hf Hlen. unfold register_handlers in Hh.
  rewrite !elem_of_cons in Hh. destruct Hh as [->|[->|[->|[->|[->|[->|Hh]]]]]].
  - by apply report_slave_id_handled.
  - by apply read_input_handled.
  - by apply read_holding_handled.
  - by apply write_multiple_handled.
  - by apply write_holding_handled.
  - by apply readwrite_handled.
  - by apply elem_of_nil in Hh.
Qed.

Lemma register_handlers_safe_witness :
  handled (eMBFuncReadHoldingRegister slave_init (example_buf [1; 3; 0; 8; 0; 4]) 1 5)
    (example_buf [1; 3; 0; 8; 0; 4]) 1.
Proof.
  apply register_handlers_safe.
  - unfold register_handlers. rewrite !elem_of_cons. tauto.
  - apply slave_init_wf.
  - apply example_buf_ok; [repeat constructor; mlia|cbn; lia].
  - pdu_unfold. lia.
Defined.

(** Registers written with function 16 are read back by function 3: the
    response carries the very bytes of the write request, and no register
    outside the written range has changed. *)
Theorem write_read_holding_roundtrip s buf p len buf2 a n :
  slave_wf s -> frame_ok buf p -> frame_ok buf2 p ->
  word_at buf (p + 1) = a -> word_at buf (p + 3) = n -> rd buf (p + 5) = 2 * n ->
  6 <= len -> 1 <= n <= 120 -> a + n <= S_REG_HOLDING_NREGS ->
  word_at buf2 (p + 1) = a -> word_at buf2 (p + 3) = n ->
  exists s' buf2',
    eMBFuncWriteMultipleHoldingRegister s buf p len = Ok (MB_EX_NONE, s', buf, 5)
    /\ eMBFuncReadHoldingRegister s' buf2 p 5 = Ok (MB_EX_NONE, s', buf2', 2 + 2 * n)
    /\ (forall k, 0 <= k < 2 * n -> rd buf2' (p + 2 + k) = rd buf (p + 6 + k))
    /\ (forall j, 0 <= j -> (j < a \/ a + n <= j) ->
          rd (usSRegHoldBuf (sl_data s')) j = rd (usSRegHoldBuf (sl_data s)) j).
Proof.
  intros Hs Hf Hf2 <- <- Hbc Hlen Hn Han Ha2 Hn2.
  destruct (write_multiple_ok s buf p Hs Hf len) as (h & E & Wf & Wr & Out); try done.
  set (s' := set_data (set_holding h (sl_data s)) s) in *.
  destruct (read_holding_ok s' buf2 p) as (b & E2 & _ & _ & _ & _ & Wr2 & _);
    [by apply slave_wf_holding|done|lia|lia|].
  rewrite Hn2, Ha2 in *. exists s', b. split; [done|]. split; [done|]. split; [|done].
  by eapply wire_regs_same.
Qed.

Lemma write_read_holding_roundtrip_witness :
  exists s' buf2',
    eMBFuncWriteMultipleHoldingRegister slave_init
      (example_buf [1; 16; 0; 8; 0; 2; 4; 18; 52; 86; 120]) 1 10
    = Ok (MB_EX_NONE, s', example_buf [1; 16; 0; 8; 0; 2; 4; 18; 52; 86; 120], 5)
    /\ eMBFuncReadHoldingRegister s' (example_buf [1; 3; 0; 8; 0; 2]) 1 5
       = Ok (MB_EX_NONE, s', buf2', 6).
Proof.
  destruct (write_read_holding_roundtrip slave_init
    (example_buf [1; 16; 0; 8; 0; 2; 4; 18; 52; 86; 120]) 1 10
    (example_buf [1; 3; 0; 8; 0; 2]) 8 2) as (s' & b & E & E2 & _);
    [apply slave_init_wf|apply example_buf_ok; [repeat constructor; mlia|cbn; lia]..
    |reflexivity|reflexivity|reflexivity|lia|lia|unfold S_REG_HOLDING_NREGS; lia
    |reflexivity|reflexivity|].
  by exists s', b.
Defined.

(** Reading coils, for every range the address check accepts: if the last
    byte loaded lies inside the coil array the response has exactly the
    requested coils, low bit first, padded with zeros; otherwise the load runs
    past the array. *)
Theorem read_coils_outcome s buf p a n :
  slave_wf s -> frame_ok buf p ->
  word_at buf (p + 1) = a -> word_at buf (p + 3) = n -> 1 <= n -> a + n <= S_COIL_NCOILS ->
  (a / 8 + n / 8 < 7 ->
     exists buf', eMBFuncReadCoils s buf p 5 = Ok (MB_EX_NONE, s, buf', 2 + (n + 7) / 8)
     /\ rd buf' p = MB_FUNC_READ_COILS /\ rd buf' (p + 1) = (n + 7) / 8
     /\ (forall k, 0 <= k < n -> Z.testbit (rd buf' (p + 2 + k / 8)) (k mod 8)
                                 = bit_at (ucSCoilBuf (sl_data s)) (a + k))
     /\ (forall k, n <= k < 8 * ((n + 7) / 8) ->
           Z.testbit (rd buf' (p + 2 + k / 8)) (k mod 8) = false))
  /\ (7 <= a / 8 + n / 8 -> eMBFuncReadCoils s buf p 5 = Fault OutOfBounds).
Proof.
  intros Hs Hf <- <- Hn Han. split; intros Hin.
  - destruct (read_coils_ok s buf p) as (b & E & _ & _ & R0 & R1 & W & Z); try done.
    exists b. repeat (split; [done|]). done.
  - by apply read_coils_overrun.
Qed.

Lemma read_coils_outcome_witness :
  (exists buf', eMBFuncReadCoils slave_init (example_buf [1; 1; 0; 0; 0; 8]) 1 5
                = Ok (MB_EX_NONE, slave_init, buf', 3))
  /\ eMBFuncReadCoils slave_init (example_buf [1; 1; 0; 0; 0; 64]) 1 5 = Fault OutOfBounds.
Proof.
  split.
  - destruct (read_coils_outcome slave_init (example_buf [1; 1; 0; 0; 0; 8]) 1 0 8)
      as [H _]; [apply slave_init_wf|apply example_buf_ok; [repeat constructor; mlia|cbn; lia]
      |reflexivity|reflexivity|lia|unfold S_COIL_NCOILS; lia|].
    destruct (H eq_refl) as (b & E & _). by exists b.
  - destruct (read_coils_outcome slave_init (example_buf [1; 1; 0; 0; 0; 64]) 1 0 64)
      as [_ H]; [apply slave_init_wf|apply example_buf_ok; [repeat constructor; mlia|cbn; lia]
      |reflexivity|reflexivity|lia|unfold S_COIL_NCOILS; lia|].
    apply H. by vm_compute.
Defined.

(** Writing one coil below 56 sets exactly that coil to the requested
    value; the coils 56 to 63 pass the address check, and writing one of them
    runs past the coil array. *)
Theorem write_coil_outcome s buf p a (on : bool) :
  slave_wf s -> frame_ok buf p -> word_at buf (p + 1) = a -> a < S_COIL_NCOILS ->
  rd buf (p + 3) = (if on then 0xFF else 0x00) -> rd buf (p + 4) = 0 ->
  (a < 56 ->
     exists s', eMBFuncWriteCoil s buf p 5 = Ok (MB_EX_NONE, s', buf, 5) /\ slave_wf s'
     /\ bit_at (ucSCoilBuf (sl_data s')) a = on
     /\ forall j, 0 <= j -> j <> a ->
          bit_at (ucSCoilBuf (sl_data s')) j = bit_at (ucSCoilBuf (sl_data s)) j)
  /\ (56 <= a -> eMBFuncWriteCoil s buf p 5 = Fault OutOfBounds).
Proof.
  intros Hs Hf <- Ha Hhi Hlo. split; intros H.
  - destruct (write_coil_ok s buf p Hs Hf on) as (c & E & L & F & B & O); try done.
    eexists. split; [exact E|]. split; [by apply slave_wf_coils|]. done.
  - apply write_coil_overrun; try done. destruct on; auto.
Qed.

Lemma write_coil_outcome_witness :
  (exists s', eMBFuncWriteCoil slave_init (example_buf [1; 5; 0; 9; 255; 0]) 1 5
     = Ok (MB_EX_NONE, s', example_buf [1; 5; 0; 9; 255; 0], 5)
     /\ bit_at (ucSCoilBuf (sl_data s')) 9 = true)
  /\ eMBFuncWriteCoil slave_init (example_buf [1; 5; 0; 56; 255; 0]) 1 5 = Fault OutOfBounds.
Proof.
  split.
  - destruct (write_coil_outcome slave_init (example_buf [1; 5; 0; 9; 255; 0]) 1 9 true)
      as [H _]; [apply slave_init_wf|apply example_buf_ok; [repeat constructor; mlia|cbn; lia]
      |reflexivity|unfold S_COIL_NCOILS; lia|reflexivity|reflexivity|].
    destruct (H eq_refl) as (s' & E & _ & B & _). by exists s'.
  - destruct (write_coil_outcome slave_init (example_buf [1; 5; 0; 56; 255; 0]) 1 56 true)
      as [_ H]; [apply slave_init_wf|apply example_buf_ok; [repeat constructor; mlia|cbn; lia]
      |reflexivity|unfold S_COIL_NCOILS; lia|reflexivity|reflexivity|].
    apply H. by vm_compute.
Defined.

(** A write of one coil whose value byte has other bits set changes the
    neighbouring coils too. *)
Example write_coils_padding :
  match eMBFuncWriteMultipleCoils slave_init (example_buf [1; 15; 0; 0; 0; 1; 1; 255]) 1 7 with
  | Ok (e, s, _, _) => (e, rd (ucSCoilBuf (sl_data s)) 0)
  | Fault _ => (MB_EX_SLAVE_DEVICE_FAILURE, 0)
  end = (MB_EX_NONE, 255).
Proof. by vm_compute. Qed.

(** A slave id set with [eMBSetSlaveID] (at most 29 additional bytes) is
    what function 17 reports: id, run indicator, then the additional bytes. *)
Theorem slave_id_roundtrip s id running add buf p len :
  slave_wf s -> is_u8 id -> Forall is_u8 add -> Z.of_nat (length add) < 30 -> frame_ok buf p ->
  exists s' buf', eMBSetSlaveID s id running add (Z.of_nat (length add)) = Ok (MB_ENOERR, s')
  /\ eMBFuncReportSlaveID s' buf p len
     = Ok (MB_EX_NONE, s', buf', 3 + Z.of_nat (length add))
  /\ rd buf' p = rd buf p /\ rd buf' (p + 1) = id
  /\ rd buf' (p + 2) = (if running then 0xFF else 0)
  /\ forall k, 0 <= k < Z.of_nat (length add) -> rd buf' (p + 3 + k) = rd add k.
Proof.
  intros Hs Hid Hadd Hlen Hf.
  destruct (set_slave_id_ok s id running add) as (s' & E & Hs' & _ & Hn & R0 & R1 & Rk);
    try done.
  destruct (report_slave_id_ok s' buf p len) as (b & Er & _ & _ & C & O); try done.
  destruct Hf as (_ & Hp & _). rewrite Hn in *.
  exists s', b. split; [done|].
  split; [rewrite Er; by replace (1 + (2 + Z.of_nat (length add))) with (3 + Z.of_nat (length add)) by lia|]. split; [apply O; lia|]. split; [|split].
  - rewrite <- R0. rewrite <- C by lia. f_equal. lia.
  - rewrite <- R1. rewrite <- C by lia. f_equal. lia.
  - intros k Hk. rewrite <- Rk by done. rewrite <- C by lia. f_equal. lia.
Qed.
