(* ===== verification/MbRtu.v ===== *)
(** * RTU framing and the port layer
    (freemodbus/modbus/rtu/mbrtu.c, freemodbus/port/portserial.c,
    porttimer.c, portevent.c)

    The receive and transmit state machines with the port state they drive:
    the UART's receive interrupt, the transmit-start event, the t3.5 timer and
    the slave's event flags.  Bytes handed to the UART are appended to
    [line]. *)
From S2P Require Import Prelude MbCrc Registers MbData MbFunc.

Definition MB_SER_PDU_SIZE_MIN : Z := 4.
Definition MB_SER_PDU_SIZE_MAX : Z := 256.
Definition MB_SER_PDU_SIZE_CRC : Z := 2.
Definition MB_SER_PDU_ADDR_OFF : Z := 0.
Definition MB_SER_PDU_PDU_OFF : Z := 1.

Inductive eMBRcvState : Set := STATE_RX_INIT | STATE_RX_IDLE | STATE_RX_RCV | STATE_RX_ERROR.
Inductive eMBSndState : Set := STATE_TX_IDLE | STATE_TX_XMIT.
Inductive eMBParity : Set := MB_PAR_NONE | MB_PAR_ODD | MB_PAR_EVEN.
Inductive eMBEventType : Set := EV_READY | EV_FRAME_RECEIVED | EV_EXECUTE | EV_FRAME_SENT.
#[global] Instance eMBRcvState_eq_dec : EqDecision eMBRcvState.
Proof. solve_decision. Defined.
#[global] Instance eMBSndState_eq_dec : EqDecision eMBSndState.
Proof. solve_decision. Defined.

Definition event_bit (e : eMBEventType) : Z :=
  match e with EV_READY => 1 | EV_FRAME_RECEIVED => 2 | EV_EXECUTE => 4 | EV_FRAME_SENT => 8 end.

Record rtu := mkRtu {
  eRcvState : eMBRcvState;
  eSndState : eMBSndState;
  ucRTUBuf : list Z;
  pucSndBufferCur : Z;         (* as an index into [ucRTUBuf] *)
  usSndBufferCount : Z;
  usRcvBufferPos : Z;
  rx_int : bool;               (* UART receive interrupt enabled *)
  event_serial : bool;         (* EVENT_SERIAL_TRANS_START pending *)
  timer : bool;                (* t3.5 timer active *)
  timer_ticks : Z;             (* its period in kernel ticks *)
  xSlaveOsEvent : Z;           (* pending event flags *)
  line : list Z                (* bytes written to the UART so far *)
}.

Section setters.
Context (r : rtu).
Definition set_rcv (v : eMBRcvState) : rtu :=
  mkRtu v (eSndState r) (ucRTUBuf r) (pucSndBufferCur r) (usSndBufferCount r)
    (usRcvBufferPos r) (rx_int r) (event_serial r) (timer r) (timer_ticks r)
    (xSlaveOsEvent r) (line r).
Definition set_snd (v : eMBSndState) : rtu :=
  mkRtu (eRcvState r) v (ucRTUBuf r) (pucSndBufferCur r) (usSndBufferCount r)
    (usRcvBufferPos r) (rx_int r) (event_serial r) (timer r) (timer_ticks r)
    (xSlaveOsEvent r) (line r).
Definition set_buf (v : list Z) : rtu :=
  mkRtu (eRcvState r) (eSndState r) v (pucSndBufferCur r) (usSndBufferCount r)
    (usRcvBufferPos r) (rx_int r) (event_serial r) (timer r) (timer_ticks r)
    (xSlaveOsEvent r) (line r).
Definition set_cursor (cur count : Z) : rtu :=
  mkRtu (eRcvState r) (eSndState r) (ucRTUBuf r) cur count
    (usRcvBufferPos r) (rx_int r) (event_serial r) (timer r) (timer_ticks r)
    (xSlaveOsEvent r) (line r).
Definition set_pos (v : Z) : rtu :=
  mkRtu (eRcvState r) (eSndState r) (ucRTUBuf r) (pucSndBufferCur r) (usSndBufferCount r)
    v (rx_int r) (event_serial r) (timer r) (timer_ticks r) (xSlaveOsEvent r) (line r).
Definition set_serial (rx tx : bool) : rtu :=
  mkRtu (eRcvState r) (eSndState r) (ucRTUBuf r) (pucSndBufferCur r) (usSndBufferCount r)
    (usRcvBufferPos r) rx tx (timer r) (timer_ticks r) (xSlaveOsEvent r) (line r).
Definition set_timer (v : bool) : rtu :=
  mkRtu (eRcvState r) (eSndState r) (ucRTUBuf r) (pucSndBufferCur r) (usSndBufferCount r)
    (usRcvBufferPos r) (rx_int r) (event_serial r) v (timer_ticks r) (xSlaveOsEvent r) (line r).
Definition set_events (v : Z) : rtu :=
  mkRtu (eRcvState r) (eSndState r) (ucRTUBuf r) (pucSndBufferCur r) (usSndBufferCount r)
    (usRcvBufferPos r) (rx_int r) (event_serial r) (timer r) (timer_ticks r) v (line r).
Definition put_line (b : Z) : rtu :=
  mkRtu (eRcvState r) (eSndState r) (ucRTUBuf r) (pucSndBufferCur r) (usSndBufferCount r)
    (usRcvBufferPos r) (rx_int r) (event_serial r) (timer r) (timer_ticks r)
    (xSlaveOsEvent r) (line r ++ [b]).
End setters.

(** Before initialisation: the zero-initialised static variables. *)
Definition rtu_reset : rtu :=
  mkRtu STATE_RX_INIT STATE_TX_IDLE (replicate (Z.to_nat MB_SER_PDU_SIZE_MAX) 0) 0 0 0
    false false false 0 0 [].

(** ** Port layer *)

Definition xMBPortEventInit (r : rtu) : rtu := set_events r 0.
Definition xMBPortEventPost (e : eMBEventType) (r : rtu) : rtu :=
  set_events r (Z.lor (xSlaveOsEvent r) (event_bit e)).

(** The wait returns all pending flags and clears them.  [None]: none is
    pending and the caller stays blocked.  With more than one flag no case of
    the switch applies, and [*eEvent] keeps its indeterminate value. *)
Definition xMBPortEventGet (r : rtu) : res (option (eMBEventType * rtu)) :=
  let recvedEvent := Z.land (xSlaveOsEvent r) (Z.lor 1 (Z.lor 2 (Z.lor 4 8))) in
  let r := set_events r (Z.ldiff (xSlaveOsEvent r) (Z.lor 1 (Z.lor 2 (Z.lor 4 8)))) in
  if recvedEvent =? 0 then Ok None
  else if recvedEvent =? event_bit EV_READY then Ok (Some (EV_READY, r))
  else if recvedEvent =? event_bit EV_FRAME_RECEIVED then Ok (Some (EV_FRAME_RECEIVED, r))
  else if recvedEvent =? event_bit EV_EXECUTE then Ok (Some (EV_EXECUTE, r))
  else if recvedEvent =? event_bit EV_FRAME_SENT then Ok (Some (EV_FRAME_SENT, r))
  else Fault Uninit.

Definition RT_TICK_PER_SECOND : Z := 1000.

Definition xMBPortTimersInit (usTim1Timerout50us : Z) (r : rtu) : rtu :=
  mkRtu (eRcvState r) (eSndState r) (ucRTUBuf r) (pucSndBufferCur r) (usSndBufferCount r)
    (usRcvBufferPos r) (rx_int r) (event_serial r) false
    ((50 * usTim1Timerout50us) / (1000 * 1000 / RT_TICK_PER_SECOND) + 1)
    (xSlaveOsEvent r) (line r).
Definition vMBPortTimersEnable (r : rtu) : rtu := set_timer r true.
Definition vMBPortTimersDisable (r : rtu) : rtu := set_timer r false.

(** Receive interrupt as asked; transmission started by the event, stopped by
    consuming it. *)
Definition vMBPortSerialEnable (xRxEnable xTxEnable : bool) (r : rtu) : rtu :=
  set_serial r xRxEnable xTxEnable.

Definition xMBPortSerialPutByte (ucByte : Z) (r : rtu) : rtu := put_line r ucByte.

(** The parameters written to the UART before it is opened. *)
Record serial_configure := mkSerialCfg { baud_rate : Z; data_bits : Z; parity : eMBParity }.
Definition serial_config (ulBaudRate : Z) (eParity : eMBParity) : serial_configure :=
  mkSerialCfg ulBaudRate (match eParity with MB_PAR_NONE => 8 | _ => 9 end) eParity.

(** [uart_found] and [uart_opens]: whether the device exists and opens.
    Opening enables the receive interrupt and re-creates the transmit event
    empty. *)
Definition xMBPortSerialInit (uart_found uart_opens : bool) (r : rtu) : bool * rtu :=
  if uart_found then
    if uart_opens then (true, set_serial r true false) else (false, r)
  else (false, r).

(** ** mbrtu.c *)

Definition usTimerT35_50us (ulBaudRate : Z) : res Z :=
  if 19200 <? ulBaudRate then Ok 35
  else if u32 (2 * ulBaudRate) =? 0 then Fault DivZero
  else Ok (u32 (7 * 220000) / u32 (2 * ulBaudRate)).

Definition eMBRTUInit (uart_found uart_opens : bool) (ulBaudRate : Z) (r : rtu)
  : res (eMBErrorCode * rtu) :=
  let '(ok, r) := xMBPortSerialInit uart_found uart_opens r in
  if ok then
    t ← usTimerT35_50us ulBaudRate;
    Ok (MB_ENOERR, xMBPortTimersInit (u16 t) r)
  else Ok (MB_EPORTERR, r).

Definition eMBRTUStart (r : rtu) : rtu :=
  vMBPortTimersEnable (vMBPortSerialEnable true false (set_rcv r STATE_RX_INIT)).
Definition eMBRTUStop (r : rtu) : rtu :=
  vMBPortTimersDisable (vMBPortSerialEnable false false r).

(** Returns address, position of the PDU in [ucRTUBuf] and its length. *)
Definition eMBRTUReceive (r : rtu) : res (eMBErrorCode * option (Z * Z * Z)) :=
  if usRcvBufferPos r <=? MB_SER_PDU_SIZE_MAX then
    good ← (if MB_SER_PDU_SIZE_MIN <=? usRcvBufferPos r then
              crc ← usMBCRC16 (ucRTUBuf r) (usRcvBufferPos r); Ok (crc =? 0)
            else Ok false);
    if good : bool then
      a ← get (ucRTUBuf r) MB_SER_PDU_ADDR_OFF;
      Ok (MB_ENOERR, Some (a, MB_SER_PDU_PDU_OFF,
            u16 (usRcvBufferPos r - MB_SER_PDU_PDU_OFF - MB_SER_PDU_SIZE_CRC)))
    else Ok (MB_EIO, None)
  else Fault AssertFail.

(** [pucFrame] as an index into [ucRTUBuf].  The CRC is computed over the
    buffer from [pucFrame - 1] on. *)
Definition eMBRTUSend (ucSlaveAddress pucFrame usLength : Z) (r : rtu)
  : res (eMBErrorCode * rtu) :=
  if decide (eRcvState r = STATE_RX_IDLE) then
    let cur := pucFrame - 1 in
    buf ← set (ucRTUBuf r) (cur + MB_SER_PDU_ADDR_OFF) ucSlaveAddress;
    let count := u16 (1 + usLength) in
    usCRC16 ← usMBCRC16 (drop (Z.to_nat cur) buf) count;
    buf ← set buf count (u8 (Z.land usCRC16 0xFF));
    buf ← set buf (count + 1) (u8 (Z.shiftr usCRC16 8));
    let count := u16 (count + 2) in
    Ok (MB_ENOERR,
        vMBPortSerialEnable false true
          (set_snd (set_cursor (set_buf r buf) cur count) STATE_TX_XMIT))
  else Ok (MB_EIO, r).

(** One byte from the UART. *)
Definition xMBRTUReceiveFSM (ucByte : Z) (r : rtu) : res rtu :=
  if decide (eSndState r = STATE_TX_IDLE) then
    match eRcvState r with
    | STATE_RX_INIT | STATE_RX_ERROR => Ok (vMBPortTimersEnable r)
    | STATE_RX_IDLE =>
        buf ← set (ucRTUBuf r) 0 ucByte;
        Ok (vMBPortTimersEnable (set_rcv (set_pos (set_buf r buf) 1) STATE_RX_RCV))
    | STATE_RX_RCV =>
        r ← (if usRcvBufferPos r <? MB_SER_PDU_SIZE_MAX then
               buf ← set (ucRTUBuf r) (usRcvBufferPos r) ucByte;
               Ok (set_pos (set_buf r buf) (u16 (usRcvBufferPos r + 1)))
             else Ok (set_rcv r STATE_RX_ERROR));
        Ok (vMBPortTimersEnable r)
    end
  else Fault AssertFail.

Definition xMBRTUTransmitFSM (r : rtu) : res rtu :=
  if decide (eRcvState r = STATE_RX_IDLE) then
    match eSndState r with
    | STATE_TX_IDLE => Ok (vMBPortSerialEnable true false r)
    | STATE_TX_XMIT =>
        if negb (usSndBufferCount r =? 0) then
          b ← get (ucRTUBuf r) (pucSndBufferCur r);
          Ok (set_cursor (xMBPortSerialPutByte b r) (pucSndBufferCur r + 1)
                (u16 (usSndBufferCount r - 1)))
        else
          Ok (set_snd (vMBPortSerialEnable true false (xMBPortEventPost EV_FRAME_SENT r))
                STATE_TX_IDLE)
    end
  else Fault AssertFail.

Definition xMBRTUTimerT35Expired (r : rtu) : res rtu :=
  r ← match eRcvState r with
      | STATE_RX_INIT => Ok (xMBPortEventPost EV_READY r)
      | STATE_RX_RCV => Ok (xMBPortEventPost EV_FRAME_RECEIVED r)
      | STATE_RX_ERROR => Ok r
      | STATE_RX_IDLE => Fault AssertFail
      end;
  Ok (set_rcv (vMBPortTimersDisable r) STATE_RX_IDLE).

(** ** The invariant of the framing layer *)
Record rtu_inv (r : rtu) : Prop := {
  inv_len : length (ucRTUBuf r) = 256%nat;
  inv_bytes : Forall is_u8 (ucRTUBuf r);
  inv_pos : 0 <= usRcvBufferPos r <= MB_SER_PDU_SIZE_MAX;
  inv_rcv : eRcvState r = STATE_RX_RCV -> 1 <= usRcvBufferPos r;
  inv_timer : timer r = true <-> eRcvState r <> STATE_RX_IDLE;
  inv_tx : event_serial r = true <-> eSndState r = STATE_TX_XMIT;
  inv_xmit : eSndState r = STATE_TX_XMIT ->
    eRcvState r = STATE_RX_IDLE /\ rx_int r = false /\ 0 <= pucSndBufferCur r
    /\ 0 <= usSndBufferCount r /\ pucSndBufferCur r + usSndBufferCount r <= 256;
  inv_events : 0 <= xSlaveOsEvent r < 16 }.

Ltac rtu_step :=
  unfold vMBPortTimersEnable, vMBPortTimersDisable, vMBPortSerialEnable, xMBPortEventPost,
    xMBPortSerialPutByte, set_rcv, set_snd, set_buf, set_cursor, set_pos, set_serial, set_timer,
    set_events, put_line in *;
  cbn [eRcvState eSndState ucRTUBuf pucSndBufferCur usSndBufferCount usRcvBufferPos rx_int
       event_serial timer timer_ticks xSlaveOsEvent line] in *.

Lemma lor_16 a b : 0 <= a < 16 -> 0 <= b < 16 -> 0 <= Z.lor a b < 16.
Proof.
  intros Ha Hb. split; [apply Z.lor_nonneg; lia|].
  assert (Z.log2 (Z.lor a b) < 4).
  { rewrite Z.log2_lor by lia. apply Z.max_lub_lt.
    - destruct (decide (a = 0)) as [->|]; [done|]. apply Z.log2_lt_pow2; lia.
    - destruct (decide (b = 0)) as [->|]; [done|]. apply Z.log2_lt_pow2; lia. }
  destruct (decide (Z.lor a b = 0)) as [->|]; [lia|].
  change 16 with (2 ^ 4). apply Z.log2_lt_pow2; [|done].
  pose proof (proj2 (Z.lor_nonneg a b)). lia.
Qed.

Lemma event_bit_16 e : 0 <= event_bit e < 16.
Proof. destruct e; cbn; lia. Qed.
#[export] Hint Resolve lor_16 event_bit_16 : machine.

(** Goals of the invariant after a step: the changed fields are constants. *)
Ltac inv_field :=
  rewrite ?length_upd in *;
  first [ done | (unfold MB_SER_PDU_SIZE_MAX; lia) | (intros; congruence) | (split; intros; congruence)
        | (by apply Forall_upd) | (apply lor_16; lia) ].

Lemma idle_sender r : rtu_inv r -> rx_int r = true ->
  eSndState r = STATE_TX_IDLE /\ event_serial r = false.
Proof.
  intros [L F P R T X M E] Hrx.
  assert (eSndState r = STATE_TX_IDLE) as Hs.
  { destruct (eSndState r); [done|]. destruct M as (_ & M & _); congruence. }
  split; [done|]. destruct (event_serial r) eqn:Ev; [|done].
  assert (eSndState r = STATE_TX_XMIT) by by apply X. congruence.
Qed.

Lemma receive_fsm_ok r b : rtu_inv r -> rx_int r = true -> is_u8 b ->
  exists r', xMBRTUReceiveFSM b r = Ok r' /\ rtu_inv r'
  /\ rx_int r' = true /\ xSlaveOsEvent r' = xSlaveOsEvent r /\ line r' = line r
  /\ timer r' = true.
Proof.
  intros Hr Hrx Hb. destruct (idle_sender r Hr Hrx) as [Hs He].
  destruct Hr as [L F P R T X M E]. unfold xMBRTUReceiveFSM, MB_SER_PDU_SIZE_MAX in *.
  rewrite decide_True by done.
  destruct (eRcvState r) eqn:Er.
  - eexists. split; [done|]. rtu_step. split; [split; cbn; inv_field|done].
  - rewrite set_in, bind_ret_l by (unfold in_range; lia).
    eexists. split; [done|]. rtu_step. split; [split; cbn; inv_field|done].
  - destruct (Z.ltb_spec (usRcvBufferPos r) 256).
    + rewrite set_in, !bind_ret_l by (unfold in_range; lia). rewrite u16_id by mlia.
      eexists. split; [done|]. rtu_step. split; [split; cbn; inv_field|done].
    + rewrite bind_ret_l. eexists. split; [done|]. rtu_step.
      split; [split; cbn; inv_field|done].
  - eexists. split; [done|]. rtu_step. split; [split; cbn; inv_field|done].
Qed.

Lemma timer_expired_ok r : rtu_inv r -> timer r = true ->
  exists r', xMBRTUTimerT35Expired r = Ok r' /\ rtu_inv r' /\ eRcvState r' = STATE_RX_IDLE
  /\ Z.testbit (xSlaveOsEvent r') 2 = Z.testbit (xSlaveOsEvent r) 2.
Proof.
  intros [L F P R T X M E] Ht. unfold xMBRTUTimerT35Expired.
  assert (eRcvState r <> STATE_RX_IDLE) as Hn by by apply T.
  assert (eSndState r <> STATE_TX_XMIT) as Hx by (intros Hx; destruct (M Hx); congruence).
  destruct (eRcvState r) eqn:Er; try done; rewrite bind_ret_l; eexists; (split; [done|]);
    rtu_step; (split; [split; cbn; inv_field|split; [done|]]);
    by rewrite ?Z.lor_spec, ?orb_false_r.
Qed.

Lemma transmit_fsm_ok r : rtu_inv r -> event_serial r = true ->
  exists r', xMBRTUTransmitFSM r = Ok r' /\ rtu_inv r' /\ eRcvState r' = STATE_RX_IDLE
  /\ Z.testbit (xSlaveOsEvent r') 2 = Z.testbit (xSlaveOsEvent r) 2.
Proof.
  intros [L F P R T X M E] Hs. unfold xMBRTUTransmitFSM.
  assert (eSndState r = STATE_TX_XMIT) as Hx by by apply X.
  destruct (M Hx) as (Hi & Hrx & Hc & Hn & Hcn). rewrite decide_True, Hx by done.
  destruct (Z.eqb_spec (usSndBufferCount r) 0) as [E0|E0]; cbn [negb].
  - eexists. split; [done|]. rtu_step. split; [split; cbn; inv_field|split; [done|]].
    by rewrite Z.lor_spec, orb_false_r.
  - rewrite get_in, bind_ret_l by (unfold in_range; lia). rewrite u16_id by mlia.
    eexists. split; [done|]. rtu_step. split; [|done].
    split; cbn; try inv_field. intros _. repeat split; (done || lia).
Qed.

(** ** Receiving a frame *)

(** Bytes arriving one after the other, without a t3.5 gap. *)
Fixpoint rx_bytes (l : list Z) (r : rtu) : res rtu :=
  match l with
  | [] => Ok r
  | b :: l' => r' ← xMBRTUReceiveFSM b r; rx_bytes l' r'
  end.

(** What receiving leaves alone. *)
Definition rx_frame_of (r r' : rtu) : Prop :=
  rx_int r' = true /\ xSlaveOsEvent r' = xSlaveOsEvent r /\ line r' = line r /\ timer r' = true.

Lemma rx_frame_of_trans r1 r2 r3 : rx_frame_of r1 r2 -> rx_frame_of r2 r3 -> rx_frame_of r1 r3.
Proof. unfold rx_frame_of. intros (?&?&?&?) (?&?&?&?). repeat split; congruence. Qed.

Lemma take_snoc_upd (buf : list Z) (n : nat) b : (n < length buf)%nat ->
  take (S n) (upd buf (Z.of_nat n) b) = take n buf ++ [b].
Proof.
  intros Hn. unfold upd. rewrite Nat2Z.id.
  rewrite (take_S_r _ _ b) by (by apply list_lookup_insert_eq).
  by rewrite take_insert_ge by done.
Qed.

Lemma rx_more l r pre :
  rtu_inv r -> rx_int r = true -> eRcvState r = STATE_RX_RCV -> Forall is_u8 l ->
  take (Z.to_nat (usRcvBufferPos r)) (ucRTUBuf r) = pre ->
  usRcvBufferPos r + Z.of_nat (length l) <= MB_SER_PDU_SIZE_MAX ->
  exists r', rx_bytes l r = Ok r' /\ rtu_inv r' /\ eRcvState r' = STATE_RX_RCV
  /\ usRcvBufferPos r' = usRcvBufferPos r + Z.of_nat (length l)
  /\ take (Z.to_nat (usRcvBufferPos r')) (ucRTUBuf r') = pre ++ l
  /\ rx_frame_of r r'.
Proof.
  revert r pre. induction l as [|b l IH]; intros r pre Hr Hrx Hs Hl Hpre Hlen; cbn [rx_bytes].
  - exists r. rewrite app_nil_r. repeat (split; [done || (cbn; lia)|]).
    repeat split; try done. apply inv_timer; [done|]. by rewrite Hs.
  - apply Forall_cons_1 in Hl as [Hb Hl]. cbn [length] in Hlen.
    destruct (receive_fsm_ok r b Hr Hrx Hb) as (r1 & E & Hr1 & Fr).
    rewrite E, bind_ret_l.
    destruct (idle_sender r Hr Hrx) as [Hi _].
    pose proof (inv_len r Hr) as L. pose proof (inv_pos r Hr) as P.
    unfold xMBRTUReceiveFSM, MB_SER_PDU_SIZE_MAX in *. rewrite decide_True, Hs in E by done.
    rewrite (proj2 (Z.ltb_lt _ _)) in E by lia.
    rewrite set_in, !bind_ret_l in E by (unfold in_range; lia).
    rewrite u16_id in E by mlia. injection E as <-.
    destruct (IH _ (pre ++ [b]) Hr1) as (r' & E' & Hr' & S' & P' & T' & F'); rtu_step;
      try (done || lia).
    { replace (Z.to_nat (usRcvBufferPos r + 1)) with (S (Z.to_nat (usRcvBufferPos r))) by lia.
      rewrite <- Hpre. replace (usRcvBufferPos r) with
        (Z.of_nat (Z.to_nat (usRcvBufferPos r))) at 2 by lia.
      apply take_snoc_upd. lia. }
    exists r'. split; [done|]. split; [done|]. split; [done|]. split; [cbn [length]; lia|].
    split; [by rewrite T', <- app_assoc|]. exact F'.
Qed.

Lemma rx_first r b :
  rtu_inv r -> rx_int r = true -> eRcvState r = STATE_RX_IDLE -> is_u8 b ->
  exists r', xMBRTUReceiveFSM b r = Ok r' /\ rtu_inv r' /\ eRcvState r' = STATE_RX_RCV
  /\ usRcvBufferPos r' = 1 /\ take 1 (ucRTUBuf r') = [b] /\ rx_frame_of r r'.
Proof.
  intros Hr Hrx Hs Hb. destruct (receive_fsm_ok r b Hr Hrx Hb) as (r1 & E & Hr1 & Fr).
  exists r1. split; [done|]. split; [done|].
  destruct (idle_sender r Hr Hrx) as [Hi _]. pose proof (inv_len r Hr) as L.
  unfold xMBRTUReceiveFSM in E. rewrite decide_True, Hs in E by done.
  rewrite set_in, bind_ret_l in E by (unfold in_range; lia). injection E as <-. rtu_step.
  split; [done|]. split; [done|]. split; [|done].
  apply (take_snoc_upd _ 0). lia.
Qed.

(** A frame of 1 to 256 bytes on an idle line ends up in the buffer. *)
Lemma rx_frame r l :
  rtu_inv r -> rx_int r = true -> eRcvState r = STATE_RX_IDLE -> Forall is_u8 l ->
  1 <= Z.of_nat (length l) <= MB_SER_PDU_SIZE_MAX ->
  exists r', rx_bytes l r = Ok r' /\ rtu_inv r' /\ eRcvState r' = STATE_RX_RCV
  /\ usRcvBufferPos r' = Z.of_nat (length l) /\ take (length l) (ucRTUBuf r') = l
  /\ rx_frame_of r r'.
Proof.
  intros Hr Hrx Hs Hl Hlen. destruct l as [|b l]; [cbn in Hlen; lia|].
  apply Forall_cons_1 in Hl as [Hb Hl]. cbn [rx_bytes length] in *.
  destruct (rx_first r b Hr Hrx Hs Hb) as (r1 & -> & Hr1 & S1 & P1 & T1 & F1).
  rewrite bind_ret_l.
  destruct (rx_more l r1 [b] Hr1) as (r2 & -> & Hr2 & S2 & P2 & T2 & F2);
    try (done || apply F1 || (rewrite P1; done) || lia).
  exists r2. split; [done|]. split; [done|]. split; [done|]. split; [lia|].
  rewrite P2, P1 in T2.
  replace (Z.to_nat (1 + Z.of_nat (length l))) with (S (length l)) in T2 by lia.
  split; [done|]. by eapply rx_frame_of_trans.
Qed.

(** Once the buffer is full the frame is damaged, and stays so. *)
Lemma rx_error l r :
  rtu_inv r -> rx_int r = true -> eRcvState r = STATE_RX_ERROR -> Forall is_u8 l ->
  exists r', rx_bytes l r = Ok r' /\ rtu_inv r' /\ eRcvState r' = STATE_RX_ERROR
  /\ rx_frame_of r r'.
Proof.
  revert r. induction l as [|b l IH]; intros r Hr Hrx Hs Hl; cbn [rx_bytes].
  - exists r. repeat (split; [done|]). repeat split; try done.
    apply inv_timer; [done|]. by rewrite Hs.
  - apply Forall_cons_1 in Hl as [Hb Hl].
    destruct (receive_fsm_ok r b Hr Hrx Hb) as (r1 & E & Hr1 & Fr). rewrite E, bind_ret_l.
    destruct (idle_sender r Hr Hrx) as [Hi _].
    unfold xMBRTUReceiveFSM in E. rewrite decide_True, Hs in E by done. injection E as <-.
    destruct (IH _ Hr1) as (r' & E' & Hr' & S' & F'); try done.
    exists r'. repeat (split; [done|]). exact F'.
Qed.

Lemma rx_bytes_app l1 l2 r : rx_bytes (l1 ++ l2) r = (r' ← rx_bytes l1 r; rx_bytes l2 r').
Proof.
  revert r. induction l1 as [|b l1 IH]; intros r; [done|]. cbn [rx_bytes app].
  rewrite bind_assoc. destruct (xMBRTUReceiveFSM b r); cbn; [apply IH|done].
Qed.

Lemma rx_full r b : rtu_inv r -> rx_int r = true -> eRcvState r = STATE_RX_RCV ->
  usRcvBufferPos r = MB_SER_PDU_SIZE_MAX -> is_u8 b ->
  exists r', xMBRTUReceiveFSM b r = Ok r' /\ rtu_inv r' /\ eRcvState r' = STATE_RX_ERROR
  /\ rx_frame_of r r'.
Proof.
  intros Hr Hrx Hs Hp Hb. destruct (receive_fsm_ok r b Hr Hrx Hb) as (r1 & E & Hr1 & Fr).
  exists r1. split; [done|]. split; [done|].
  destruct (idle_sender r Hr Hrx) as [Hi _]. unfold xMBRTUReceiveFSM in E.
  rewrite decide_True, Hs, Hp, Z.ltb_irrefl in E by done. injection E as <-. done.
Qed.

Lemma rx_overlong r l :
  rtu_inv r -> rx_int r = true -> eRcvState r = STATE_RX_IDLE -> Forall is_u8 l ->
  MB_SER_PDU_SIZE_MAX < Z.of_nat (length l) ->
  exists r', rx_bytes l r = Ok r' /\ rtu_inv r' /\ eRcvState r' = STATE_RX_ERROR
  /\ rx_frame_of r r'.
Proof.
  intros Hr Hrx Hs Hl Hlen. unfold MB_SER_PDU_SIZE_MAX in Hlen.
  rewrite <- (take_drop 256 l), rx_bytes_app.
  destruct (rx_frame r (take 256 l)) as (r1 & -> & Hr1 & S1 & P1 & _ & F1);
    [done|done|done|by apply Forall_take|rewrite length_take; unfold MB_SER_PDU_SIZE_MAX; lia|].
  rewrite bind_ret_l. destruct (drop 256 l) as [|b l2] eqn:Ed.
  { apply (f_equal length) in Ed. rewrite length_drop in Ed. cbn in Ed. lia. }
  assert (Forall is_u8 (b :: l2)) as Hd by (rewrite <- Ed; by apply Forall_drop).
  apply Forall_cons_1 in Hd as [Hb H2]. cbn [rx_bytes].
  destruct (rx_full r1 b Hr1) as (r2 & -> & Hr2 & S2 & F2);
    [apply F1|done|rewrite P1, length_take; unfold MB_SER_PDU_SIZE_MAX; lia|done|].
  rewrite bind_ret_l. destruct (rx_error l2 r2 Hr2) as (r3 & -> & Hr3 & S3 & F3);
    [apply F2|done|done|].
  exists r3. repeat (split; [done|]).
  eapply rx_frame_of_trans; [exact F1|]. by eapply rx_frame_of_trans.
Qed.

(** ** Taking the frame over *)
Lemma rtu_receive_ok r l :
  rtu_inv r -> usRcvBufferPos r = Z.of_nat (length l) -> take (length l) (ucRTUBuf r) = l ->
  MB_SER_PDU_SIZE_MIN <= Z.of_nat (length l) -> crc16 l = 0 ->
  eMBRTUReceive r = Ok (MB_ENOERR, Some (rd l 0, 1, Z.of_nat (length l) - 3)).
Proof.
  intros Hr Hp Ht Hmin Hc. pose proof (inv_pos r Hr) as P. pose proof (inv_len r Hr) as L.
  unfold MB_SER_PDU_SIZE_MIN, MB_SER_PDU_SIZE_MAX in *.
  unfold eMBRTUReceive, MB_SER_PDU_SIZE_MIN, MB_SER_PDU_SIZE_MAX, MB_SER_PDU_ADDR_OFF,
    MB_SER_PDU_PDU_OFF, MB_SER_PDU_SIZE_CRC. rewrite Hp in *.
  rewrite (proj2 (Z.leb_le _ _)), (proj2 (Z.leb_le 4 _)) by lia.
  destruct (usMBCRC16_ok (ucRTUBuf r) (Z.of_nat (length l))) as [-> _];
    [apply Hr|lia|]. rewrite Nat2Z.id, Ht, Hc. rewrite !bind_ret_l. cbn [Z.eqb].
  rewrite get_in, bind_ret_l, u16_id by (unfold in_range; mlia).
  replace (rd (ucRTUBuf r) 0) with (rd l 0);
    [by replace (Z.of_nat (length l) - 3) with (Z.of_nat (length l) - 1 - 2) by lia|].
  rewrite <- Ht at 1. unfold rd. by rewrite lookup_take_lt by lia.
Qed.

Lemma rtu_receive_bad r l :
  rtu_inv r -> usRcvBufferPos r = Z.of_nat (length l) -> take (length l) (ucRTUBuf r) = l ->
  Z.of_nat (length l) < MB_SER_PDU_SIZE_MIN \/ crc16 l <> 0 ->
  eMBRTUReceive r = Ok (MB_EIO, None).
Proof.
  intros Hr Hp Ht Hbad. pose proof (inv_pos r Hr) as P. pose proof (inv_len r Hr) as L.
  unfold eMBRTUReceive, MB_SER_PDU_SIZE_MIN, MB_SER_PDU_SIZE_MAX in *. rewrite Hp in *.
  rewrite (proj2 (Z.leb_le _ _)) by lia.
  destruct (Z.leb_spec 4 (Z.of_nat (length l))); [|done].
  destruct (usMBCRC16_ok (ucRTUBuf r) (Z.of_nat (length l))) as [-> _];
    [apply Hr|lia|]. rewrite Nat2Z.id, Ht, !bind_ret_l.
  destruct (Z.eqb_spec (crc16 l) 0); [lia|done].
Qed.

(** ** Sending a response *)

(** Address, PDU and CRC as they go over the line. *)
Definition ser_frame (addr : Z) (pdu : list Z) : list Z :=
  let body := addr :: pdu in body ++ [crc16 body mod 256; crc16 body / 256].

Lemma upd_app_r (l1 : list Z) x l2 v :
  upd (l1 ++ x :: l2) (Z.of_nat (length l1)) v = l1 ++ v :: l2.
Proof. unfold upd. rewrite Nat2Z.id. by rewrite insert_app_r_alt, Nat.sub_diag by lia. Qed.

Lemma crc_into_buffer (body : list Z) x y (rest : list Z) c0 c1 :
  upd (upd (body ++ x :: y :: rest) (Z.of_nat (length body)) c0)
    (Z.of_nat (length body) + 1) c1 = body ++ c0 :: c1 :: rest.
Proof.
  rewrite upd_app_r.
  replace (body ++ c0 :: y :: rest) with ((body ++ [c0]) ++ y :: rest) by by rewrite <- app_assoc.
  replace (Z.of_nat (length body) + 1) with (Z.of_nat (length (body ++ [c0])))
    by (rewrite length_app; cbn; lia).
  rewrite upd_app_r. by rewrite <- app_assoc.
Qed.

Lemma split_buffer (l : list Z) (n : nat) : (n + 3 <= length l)%nat ->
  exists a x y rest, l = a :: take n (drop 1 l) ++ x :: y :: rest.
Proof.
  intros Hn. destruct l as [|a l]; [cbn in Hn; lia|]. cbn [drop length] in *.
  assert (l = take n l ++ drop n l) as E by by rewrite take_drop.
  destruct (drop n l) as [|x [|y rest]] eqn:Ed.
  1,2: apply (f_equal length) in Ed; rewrite length_drop in Ed; cbn in Ed; lia.
  exists a, x, y, rest. cbn. by rewrite drop_0, <- E.
Qed.

Lemma rtu_send_ok r addr len :
  rtu_inv r -> eRcvState r = STATE_RX_IDLE -> is_u8 addr -> 1 <= len <= MB_PDU_SIZE_MAX ->
  exists r', eMBRTUSend addr 1 len r = Ok (MB_ENOERR, r') /\ rtu_inv r'
  /\ eSndState r' = STATE_TX_XMIT /\ eRcvState r' = STATE_RX_IDLE
  /\ event_serial r' = true /\ pucSndBufferCur r' = 0 /\ usSndBufferCount r' = len + 3
  /\ take (Z.to_nat (len + 3)) (ucRTUBuf r')
     = ser_frame addr (take (Z.to_nat len) (drop 1 (ucRTUBuf r)))
  /\ xSlaveOsEvent r' = xSlaveOsEvent r /\ line r' = line r.
Proof.
  intros [L F P R T X M E] Hs Ha Hlen. unfold MB_PDU_SIZE_MAX in *.
  destruct (split_buffer (ucRTUBuf r) (Z.to_nat len)) as (a & x & y & rest & Eb); [lia|].
  set (pdu := take (Z.to_nat len) (drop 1 (ucRTUBuf r))) in *.
  assert (length pdu = Z.to_nat len) as Lp
    by (unfold pdu; rewrite length_take, length_drop; lia).
  assert (Forall is_u8 (addr :: pdu)) as Fb
    by (constructor; [done|]; unfold pdu; by apply Forall_take, Forall_drop).
  unfold eMBRTUSend. rewrite decide_True by done. cbv zeta.
  change (Z.to_nat (1 - 1)) with 0%nat. change (1 - 1 + MB_SER_PDU_ADDR_OFF) with 0.
  rewrite set_in, bind_ret_l, drop_0 by (unfold in_range; lia).
  replace (upd (ucRTUBuf r) 0 addr) with ((addr :: pdu) ++ x :: y :: rest) by (by rewrite Eb).
  rewrite (u16_id (1 + len)) by mlia.
  assert (1 + len = Z.of_nat (length (addr :: pdu))) as -> by (cbn [length]; lia).
  assert (Forall is_u8 (x :: y :: rest)) as Fr
    by (rewrite Eb in F; apply Forall_cons_1 in F as [_ F]; by apply Forall_app in F as [_ F]).
  destruct (usMBCRC16_ok ((addr :: pdu) ++ x :: y :: rest) (Z.of_nat (length (addr :: pdu))))
    as [-> Hc]; [by apply Forall_app|rewrite length_app; lia|].
  rewrite Nat2Z.id, take_app_length in *. rewrite bind_ret_l, shiftr_8.
  change 0xFF with 255. rewrite land_ff, !u8_id by mlia.
  set (crc := crc16 (addr :: pdu)) in *.
  rewrite set_in, bind_ret_l by (unfold in_range; rewrite length_app; cbn [length]; lia).
  rewrite set_in, bind_ret_l
    by (unfold in_range; rewrite length_upd, length_app; cbn [length]; lia).
  rewrite crc_into_buffer. replace (u16 (Z.of_nat (length (addr :: pdu)) + 2)) with (len + 3)
    by (cbn [length]; mlia).
  apply (f_equal length) in Eb. cbn [length] in Eb. rewrite length_app in Eb. cbn [length] in Eb.
  eexists. split; [done|]. rtu_step. split; [|repeat (split; [done|])].
  - split; cbn [eRcvState eSndState ucRTUBuf pucSndBufferCur usSndBufferCount usRcvBufferPos
      rx_int event_serial timer timer_ticks xSlaveOsEvent line]; try done.
    + rewrite length_app. cbn [length]. lia.
    + apply Forall_app. split; [done|]. apply Forall_cons_1 in Fr as [_ Fr].
      apply Forall_cons_1 in Fr as [_ Fr]. repeat constructor; (done || mlia).
    + intros _. repeat split; (done || lia).
  - split; [|done]. unfold ser_frame. fold crc.
    replace (Z.to_nat (len + 3)) with (length ((addr :: pdu) ++ [crc mod 256; crc / 256]))
      by (rewrite length_app; cbn [length]; lia).
    change ((addr :: pdu) ++ crc mod 256 :: crc / 256 :: rest)
      with ((addr :: pdu) ++ [crc mod 256; crc / 256] ++ rest).
    by rewrite app_assoc, take_app_length.
Qed.

(** The transmit thread runs its routine as long as the start event is set. *)
Fixpoint tx_run (n : nat) (r : rtu) : res rtu :=
  match n with
  | O => Ok r
  | S n' => r' ← xMBRTUTransmitFSM r; tx_run n' r'
  end.

Lemma tx_run_ok n r :
  rtu_inv r -> eSndState r = STATE_TX_XMIT -> usSndBufferCount r = Z.of_nat n ->
  exists r', tx_run (S n) r = Ok r' /\ rtu_inv r'
  /\ line r' = line r ++ take n (drop (Z.to_nat (pucSndBufferCur r)) (ucRTUBuf r))
  /\ xSlaveOsEvent r' = Z.lor (xSlaveOsEvent r) (event_bit EV_FRAME_SENT)
  /\ eSndState r' = STATE_TX_IDLE /\ eRcvState r' = STATE_RX_IDLE /\ rx_int r' = true.
Proof.
  revert r. induction n as [|n IH]; intros r Hr Hx Hn.
  all: pose proof (inv_len r Hr) as L; destruct (inv_xmit r Hr Hx) as (Hi & Hrx & Hc & H0 & Hcn).
  all: assert (event_serial r = true) as He by (by apply inv_tx).
  all: destruct (transmit_fsm_ok r Hr He) as (r1 & E & Hr1 & _).
  all: change (tx_run (S ?k) r) with (r' ← xMBRTUTransmitFSM r; tx_run k r').
  all: rewrite E, bind_ret_l; unfold xMBRTUTransmitFSM in E; rewrite decide_True, Hx in E by done.
  all: rewrite Hn in E.
  - injection E as <-. eexists. split; [done|]. split; [done|].
    rtu_step. rewrite take_0, app_nil_r. done.
  - replace (negb _) with true in E by (symmetry; apply negb_true_iff, Z.eqb_neq; lia).
    rewrite get_in, bind_ret_l, u16_id in E by (unfold in_range; mlia). injection E as <-.
    destruct (IH _ Hr1) as (r' & E' & Hr' & Hl & Hrest); [done|rtu_step; lia|].
    exists r'. split; [exact E'|]. split; [done|]. split; [|exact Hrest]. rewrite Hl. rtu_step.
    rewrite <- app_assoc. f_equal. cbn [app].
    replace (Z.to_nat (pucSndBufferCur r + 1)) with (S (Z.to_nat (pucSndBufferCur r))) by lia.
    destruct (lookup_lt_is_Some_2 (ucRTUBuf r) (Z.to_nat (pucSndBufferCur r))) as [b Hb]; [lia|].
    rewrite (drop_S _ b (Z.to_nat (pucSndBufferCur r))) by done. cbn [take].
    by rewrite (rd_lookup _ _ b).
Qed.

(** ** Properties *)

(** A line that is idle and being listened to, with nothing pending. *)
Definition listening (r : rtu) : Prop :=
  rtu_inv r /\ eRcvState r = STATE_RX_IDLE /\ rx_int r = true /\ xSlaveOsEvent r = 0.

(** A frame on a listening line: after its bytes and the t3.5 gap, a frame
    of at most 256 bytes posts exactly the frame-received event and is handed
    over with its address and PDU when its length and CRC are right, and
    refused otherwise; a longer frame is dropped without an event.  In both
    cases the line is idle again. *)
Theorem receive_frame r l :
  listening r -> Forall is_u8 l -> 1 <= Z.of_nat (length l) ->
  exists r1 r2, rx_bytes l r = Ok r1 /\ xMBRTUTimerT35Expired r1 = Ok r2 /\ rtu_inv r2
  /\ eRcvState r2 = STATE_RX_IDLE /\ line r2 = line r
  /\ (Z.of_nat (length l) <= MB_SER_PDU_SIZE_MAX ->
        xSlaveOsEvent r2 = event_bit EV_FRAME_RECEIVED
        /\ take (length l) (ucRTUBuf r2) = l
        /\ eMBRTUReceive r2
           = if decide (MB_SER_PDU_SIZE_MIN <= Z.of_nat (length l) /\ crc16 l = 0)
             then Ok (MB_ENOERR, Some (rd l 0, 1, Z.of_nat (length l) - 3))
             else Ok (MB_EIO, None))
  /\ (MB_SER_PDU_SIZE_MAX < Z.of_nat (length l) -> xSlaveOsEvent r2 = 0).
Proof.
  intros (Hr & Hs & Hrx & Hev) Hl Hlen.
  destruct (decide (Z.of_nat (length l) <= MB_SER_PDU_SIZE_MAX)) as [Hm|Hm].
  - destruct (rx_frame r l) as (r1 & E & Hr1 & S1 & P1 & T1 & Fr); try done.
    destruct (timer_expired_ok r1 Hr1) as (r2 & E2 & Hr2 & S2); [apply Fr|].
    destruct Fr as (_ & Ev1 & L1 & _). exists r1, r2. split; [done|]. split; [done|].
    unfold xMBRTUTimerT35Expired in E2. rewrite S1, bind_ret_l in E2. injection E2 as <-.
    rtu_step. rewrite Hev in Ev1. rewrite Ev1 in Hr2 |- *. repeat (split; [done|]). 
 split; [|intros ?; exfalso; lia].
    intros _. split; [done|]. split; [done|]. case_decide as Hd.
    + apply rtu_receive_ok; (done || apply Hd).
    + apply (rtu_receive_bad _ l); try done.
      destruct (decide (MB_SER_PDU_SIZE_MIN <= Z.of_nat (length l))); [|lia].
      right. intros Hc. by apply Hd.
  - destruct (rx_overlong r l) as (r1 & E & Hr1 & S1 & Fr); try (done || lia).
    destruct (timer_expired_ok r1 Hr1) as (r2 & E2 & Hr2 & S2); [apply Fr|].
    destruct Fr as (_ & Ev1 & L1 & _). exists r1, r2. split; [done|]. split; [done|].
    unfold xMBRTUTimerT35Expired in E2. rewrite S1, bind_ret_l in E2. injection E2 as <-.
    rtu_step. repeat (split; [done|]). intros _. by rewrite Ev1.
Qed.

(** An idle line with the interrupt on; used by the examples. *)
Definition rtu_idle : rtu :=
  set_serial (set_rcv rtu_reset STATE_RX_IDLE) true false.
Lemma rtu_idle_listening : listening rtu_idle.
Proof.
  split; [|done]. split; cbn; unfold MB_SER_PDU_SIZE_MAX; try (done || lia).
  repeat constructor; mlia.
Qed.

Lemma receive_frame_witness :
  exists r1 r2, rx_bytes [1; 3; 0; 0; 0; 2; 0xC4; 0x0B] rtu_idle = Ok r1
  /\ xMBRTUTimerT35Expired r1 = Ok r2
  /\ eMBRTUReceive r2 = Ok (MB_ENOERR, Some (1, 1, 5)).
Proof.
  destruct (receive_frame rtu_idle [1; 3; 0; 0; 0; 2; 0xC4; 0x0B])
    as (r1 & r2 & E1 & E2 & _ & _ & _ & H & _);
    [apply rtu_idle_listening|repeat constructor; mlia|cbn; lia|].
  exists r1, r2. split; [done|]. split; [done|].
  destruct H as (_ & _ & ->); [unfold MB_SER_PDU_SIZE_MAX; cbn; lia|].
  rewrite decide_True; [done|]. split; [unfold MB_SER_PDU_SIZE_MIN; cbn; lia|reflexivity].
Defined.

Lemma tx_frame r addr len pdu :
  rtu_inv r -> eRcvState r = STATE_RX_IDLE -> is_u8 addr -> 1 <= len <= MB_PDU_SIZE_MAX ->
  pdu = take (Z.to_nat len) (drop 1 (ucRTUBuf r)) ->
  exists r1 r2, eMBRTUSend addr 1 len r = Ok (MB_ENOERR, r1)
  /\ tx_run (Z.to_nat (len + 3) + 1) r1 = Ok r2 /\ rtu_inv r2
  /\ line r2 = line r ++ ser_frame addr pdu /\ crc16 (ser_frame addr pdu) = 0
  /\ xSlaveOsEvent r2 = Z.lor (xSlaveOsEvent r) (event_bit EV_FRAME_SENT)
  /\ eRcvState r2 = STATE_RX_IDLE /\ rx_int r2 = true.
Proof.
  intros Hr Hs Ha Hlen ->.
  destruct (rtu_send_ok r addr len) as (r1 & E & Hr1 & X1 & _ & _ & C1 & N1 & T1 & Ev & Ln);
    try done.
  destruct (tx_run_ok (Z.to_nat (len + 3)) r1) as (r2 & E2 & Hr2 & Ln2 & Ev2 & _ & S2 & Rx2);
    [done|done|unfold MB_PDU_SIZE_MAX in *; lia|].
  exists r1, r2. split; [done|].
  split; [by replace (Z.to_nat (len + 3) + 1)%nat with (S (Z.to_nat (len + 3))) by lia|].
  split; [done|]. rewrite C1 in Ln2. change (Z.to_nat 0) with 0%nat in Ln2.
  rewrite drop_0, T1, Ln in Ln2. split; [done|].
  split; [|by rewrite <- Ev]. unfold ser_frame. apply crc16_residue.
  constructor; [done|]. apply Forall_take, Forall_drop, Hr.
Qed.

(** Sending a PDU of 1 to 253 bytes on an idle line: after the transmit
    thread has run, exactly address, PDU and CRC have gone over the line, the
    receiver's check accepts the frame, the sent event is posted and the slave
    listens again. *)
Theorem send_frame r addr len pdu :
  rtu_inv r -> eRcvState r = STATE_RX_IDLE -> is_u8 addr -> 1 <= len <= MB_PDU_SIZE_MAX ->
  pdu = take (Z.to_nat len) (drop 1 (ucRTUBuf r)) ->
  exists r1 r2, eMBRTUSend addr 1 len r = Ok (MB_ENOERR, r1)
  /\ tx_run (Z.to_nat (len + 3) + 1) r1 = Ok r2 /\ rtu_inv r2
  /\ line r2 = line r ++ ser_frame addr pdu /\ crc16 (ser_frame addr pdu) = 0
  /\ xSlaveOsEvent r2 = Z.lor (xSlaveOsEvent r) (event_bit EV_FRAME_SENT)
  /\ eRcvState r2 = STATE_RX_IDLE /\ rx_int r2 = true.
Proof. apply tx_frame. Qed.

Lemma send_frame_witness :
  exists r1 r2, eMBRTUSend 1 1 5 rtu_idle = Ok (MB_ENOERR, r1) /\ tx_run 9 r1 = Ok r2
  /\ length (line r2) = 8%nat.
Proof.
  destruct (send_frame rtu_idle 1 5 [0; 0; 0; 0; 0]) as (r1 & r2 & E1 & E2 & _ & L & _);
    [apply rtu_idle_listening|reflexivity|mlia|unfold MB_PDU_SIZE_MAX; lia|reflexivity|].
  exists r1, r2. split; [done|]. split; [done|]. by rewrite L.
Defined.
