(* ===== verification/Mb.v ===== *)
(** * The Modbus slave (freemodbus/modbus/mb.c)

    Initialisation, the handler table, and the poll loop that takes frames
    from the RTU layer, runs the handler and sends the response; then the
    slave as a transition system of its interrupt routines and threads. *)
From stdpp Require Import relations.
From S2P Require Import Prelude MbCrc Registers MbData MbFunc MbRtu.

Inductive eMBMode : Set := MB_RTU | MB_ASCII | MB_TCP.
Inductive eMBStateT : Set := STATE_ENABLED | STATE_DISABLED | STATE_NOT_INITIALIZED.
#[global] Instance eMBStateT_eq_dec : EqDecision eMBStateT.
Proof. solve_decision. Defined.

Definition MB_ADDRESS_BROADCAST : Z := 0.
Definition MB_ADDRESS_MIN : Z := 1.
Definition MB_ADDRESS_MAX : Z := 247.
Definition MB_FUNC_ERROR : Z := 128.
Definition MB_FUNC_HANDLERS_MAX : nat := 16.

(** Handler pointers: the stack's own functions, and functions an application
    registers, by number. *)
Inductive handler_ptr : Set :=
| pReportSlaveID | pReadInput | pReadHolding | pWriteMultiple | pWriteHolding | pReadWrite
| pReadCoils | pWriteCoil | pWriteMultipleCoils | pReadDiscrete
| pUser (id : Z).
#[global] Instance handler_ptr_eq_dec : EqDecision handler_ptr.
Proof. solve_decision. Defined.

Definition run_handler (user : Z -> handler) (h : handler_ptr) : handler :=
  match h with
  | pReportSlaveID => eMBFuncReportSlaveID
  | pReadInput => eMBFuncReadInputRegister
  | pReadHolding => eMBFuncReadHoldingRegister
  | pWriteMultiple => eMBFuncWriteMultipleHoldingRegister
  | pWriteHolding => eMBFuncWriteHoldingRegister
  | pReadWrite => eMBFuncReadWriteMultipleHoldingRegister
  | pReadCoils => eMBFuncReadCoils
  | pWriteCoil => eMBFuncWriteCoil
  | pWriteMultipleCoils => eMBFuncWriteMultipleCoils
  | pReadDiscrete => eMBFuncReadDiscreteInputs
  | pUser id => user id
  end.

Definition handler_table : Type := list (Z * option handler_ptr).

Definition xFuncHandlers_init : handler_table :=
  [ (MB_FUNC_OTHER_REPORT_SLAVEID, Some pReportSlaveID);
    (MB_FUNC_READ_INPUT_REGISTER, Some pReadInput);
    (MB_FUNC_READ_HOLDING_REGISTER, Some pReadHolding);
    (MB_FUNC_WRITE_MULTIPLE_REGISTERS, Some pWriteMultiple);
    (MB_FUNC_WRITE_REGISTER, Some pWriteHolding);
    (MB_FUNC_READWRITE_MULTIPLE_REGISTERS, Some pReadWrite);
    (MB_FUNC_READ_COILS, Some pReadCoils);
    (MB_FUNC_WRITE_SINGLE_COIL, Some pWriteCoil);
    (MB_FUNC_WRITE_MULTIPLE_COILS, Some pWriteMultipleCoils);
    (MB_FUNC_READ_DISCRETE_INPUTS, Some pReadDiscrete) ]
  ++ replicate 6 (0, None).

Record mb := mkMb {
  ucMBAddress : Z;
  eMBState : eMBStateT;
  xFuncHandlers : handler_table;
  ucMBFrame : option Z;          (* NULL, or an index into [ucRTUBuf] *)
  ucRcvAddress : Z;
  usLength : Z;
  mb_slave : slave;
  mb_rtu : rtu }.

Definition mb_reset : mb :=
  mkMb 0 STATE_NOT_INITIALIZED xFuncHandlers_init None 0 0 slave_init rtu_reset.

Definition with_rtu (r : rtu) (m : mb) : mb :=
  mkMb (ucMBAddress m) (eMBState m) (xFuncHandlers m) (ucMBFrame m) (ucRcvAddress m)
    (usLength m) (mb_slave m) r.
Definition with_state (st : eMBStateT) (m : mb) : mb :=
  mkMb (ucMBAddress m) st (xFuncHandlers m) (ucMBFrame m) (ucRcvAddress m)
    (usLength m) (mb_slave m) (mb_rtu m).
Definition with_address (a : Z) (m : mb) : mb :=
  mkMb a (eMBState m) (xFuncHandlers m) (ucMBFrame m) (ucRcvAddress m)
    (usLength m) (mb_slave m) (mb_rtu m).
Definition with_table (t : handler_table) (m : mb) : mb :=
  mkMb (ucMBAddress m) (eMBState m) t (ucMBFrame m) (ucRcvAddress m)
    (usLength m) (mb_slave m) (mb_rtu m).
Definition with_frame (a p len : Z) (m : mb) : mb :=
  mkMb (ucMBAddress m) (eMBState m) (xFuncHandlers m) (Some p) a len (mb_slave m) (mb_rtu m).
Definition with_result (s : slave) (buf : list Z) (len : Z) (m : mb) : mb :=
  mkMb (ucMBAddress m) (eMBState m) (xFuncHandlers m) (ucMBFrame m) (ucRcvAddress m)
    len s (set_buf (mb_rtu m) buf).

(** ** Initialisation

    The frame-layer function pointers are set to the RTU functions here and
    nowhere else; the model calls those functions directly. *)
Definition eMBInit (uart_found uart_opens : bool) (eMode : eMBMode) (ucSlaveAddress : Z)
    (ulBaudRate : Z) (m : mb) : res (eMBErrorCode * mb) :=
  if (ucSlaveAddress =? MB_ADDRESS_BROADCAST) || (ucSlaveAddress <? MB_ADDRESS_MIN)
     || (MB_ADDRESS_MAX <? ucSlaveAddress)
  then Ok (MB_EINVAL, m)
  else
    let m := with_address ucSlaveAddress m in
    '(eStatus, r) ← match eMode with
                    | MB_RTU => eMBRTUInit uart_found uart_opens ulBaudRate (mb_rtu m)
                    | _ => Ok (MB_EINVAL, mb_rtu m)
                    end;
    if decide (eStatus = MB_ENOERR)
    then Ok (MB_ENOERR, with_state STATE_DISABLED (with_rtu (xMBPortEventInit r) m))
    else Ok (eStatus, with_rtu r m).

Definition eMBEnable (m : mb) : eMBErrorCode * mb :=
  if decide (eMBState m = STATE_DISABLED)
  then (MB_ENOERR, with_state STATE_ENABLED (with_rtu (eMBRTUStart (mb_rtu m)) m))
  else (MB_EILLSTATE, m).

Definition eMBDisable (m : mb) : eMBErrorCode * mb :=
  match eMBState m with
  | STATE_ENABLED => (MB_ENOERR, with_state STATE_DISABLED (with_rtu (eMBRTUStop (mb_rtu m)) m))
  | STATE_DISABLED => (MB_ENOERR, m)
  | STATE_NOT_INITIALIZED => (MB_EILLSTATE, m)
  end.

(** The port has no close function: closing only checks the state. *)
Definition eMBClose (m : mb) : eMBErrorCode :=
  if decide (eMBState m = STATE_DISABLED) then MB_ENOERR else MB_EILLSTATE.

(** ** The handler table *)

(** Index of the first entry that satisfies [f]. *)
Fixpoint first_index (f : Z * option handler_ptr -> bool) (t : handler_table) : option nat :=
  match t with
  | [] => None
  | e :: t' => if f e then Some O else S <$> first_index f t'
  end.

Definition eMBRegisterCB (ucFunctionCode : Z) (pxHandler : option handler_ptr) (m : mb)
  : eMBErrorCode * mb :=
  if (0 <? ucFunctionCode) && (ucFunctionCode <=? 127) then
    match pxHandler with
    | Some h =>
        match first_index (fun e => bool_decide (e.2 = None) || bool_decide (e.2 = Some h))
                (xFuncHandlers m) with
        | Some i => (MB_ENOERR, with_table (<[i := (ucFunctionCode, Some h)]> (xFuncHandlers m)) m)
        | None => (MB_ENORES, m)
        end
    | None =>
        match first_index (fun e => e.1 =? ucFunctionCode) (xFuncHandlers m) with
        | Some i => (MB_ENOERR, with_table (<[i := (0, None)]> (xFuncHandlers m)) m)
        | None => (MB_ENOERR, m)
        end
    end
  else (MB_EINVAL, m).

(** The search of the poll loop: it ends at the first free entry. *)
Fixpoint find_handler (fc : Z) (t : handler_table) : option (option handler_ptr) :=
  match t with
  | [] => None
  | (c, h) :: t' => if c =? 0 then None else if c =? fc then Some h else find_handler fc t'
  end.

(** ** Polling *)
Section poll.
Context (user : Z -> handler).

Definition execute (fc p : Z) (m : mb) : handler_result :=
  match find_handler fc (xFuncHandlers m) with
  | None => Ok (MB_EX_ILLEGAL_FUNCTION, mb_slave m, ucRTUBuf (mb_rtu m), usLength m)
  | Some None => Fault NullDeref
  | Some (Some h) => run_handler user h (mb_slave m) (ucRTUBuf (mb_rtu m)) p (usLength m)
  end.

Definition poll_frame_received (m : mb) : res mb :=
  '(eStatus, f) ← eMBRTUReceive (mb_rtu m);
  match f with
  | Some (a, p, len) =>
      let m := with_frame a p len m in
      if (a =? ucMBAddress m) || (a =? MB_ADDRESS_BROADCAST)
      then Ok (with_rtu (xMBPortEventPost EV_EXECUTE (mb_rtu m)) m)
      else Ok m
  | None => Ok m
  end.

Definition poll_execute (m : mb) : res mb :=
  match ucMBFrame m with
  | None => Fault NullDeref
  | Some p =>
      fc ← get (ucRTUBuf (mb_rtu m)) (p + MB_PDU_FUNC_OFF);
      '(eException, s, buf, len) ← execute fc p m;
      if negb (ucRcvAddress m =? MB_ADDRESS_BROADCAST) then
        '(buf, len) ← (if decide (eException = MB_EX_NONE) then Ok (buf, len) else
                         buf ← set buf (p + 0) (u8 (Z.lor fc MB_FUNC_ERROR));
                         buf ← set buf (p + 1) (exception_code eException);
                         Ok (buf, 2));
        let m := with_result s buf len m in
        '(_, r) ← eMBRTUSend (ucMBAddress m) p len (mb_rtu m);
        Ok (with_rtu r m)
      else Ok (with_result s buf len m)
  end.

(** [None]: no event is pending and the thread waits. *)
Definition eMBPoll (m : mb) : res (option (eMBErrorCode * mb)) :=
  if decide (eMBState m = STATE_ENABLED) then
    ev ← xMBPortEventGet (mb_rtu m);
    match ev with
    | None => Ok None
    | Some (e, r) =>
        let m := with_rtu r m in
        m ← match e with
            | EV_READY | EV_FRAME_SENT => Ok m
            | EV_FRAME_RECEIVED => poll_frame_received m
            | EV_EXECUTE => poll_execute m
            end;
        Ok (Some (MB_ENOERR, m))
    end
  else Ok (Some (MB_EILLSTATE, m)).
End poll.

(** ** The slave as a transition system *)

(** The last call of the transmit state machine up to where it has enabled the
    receiver; [eSndState = STATE_TX_IDLE] is still to come. *)
Definition transmit_last (r : rtu) : rtu := vMBPortSerialEnable true false (xMBPortEventPost EV_FRAME_SENT r).

Lemma transmit_last_whole r : eRcvState r = STATE_RX_IDLE -> eSndState r = STATE_TX_XMIT -> usSndBufferCount r = 0 ->
  xMBRTUTransmitFSM r = Ok (set_snd (transmit_last r) STATE_TX_IDLE).
Proof. intros H1 H2 H3. unfold xMBRTUTransmitFSM. by rewrite decide_True, H2, H3. Qed.

(** One interrupt routine or one round of a thread; the flag says that the
    transmit thread is between the two halves of its last call, where the receive
    interrupt can come.  The send and receive functions of the frame layer run with
    interrupts disabled. *)
Inductive mb_step (user : Z -> handler) : mb * bool -> mb * bool -> Prop :=
| step_rx m w b r' : rx_int (mb_rtu m) = true -> is_u8 b ->
    xMBRTUReceiveFSM b (mb_rtu m) = Ok r' -> mb_step user (m, w) (with_rtu r' m, w)
| step_timer m w r' : timer (mb_rtu m) = true ->
    xMBRTUTimerT35Expired (mb_rtu m) = Ok r' -> mb_step user (m, w) (with_rtu r' m, w)
| step_tx m r' : event_serial (mb_rtu m) = true ->
    xMBRTUTransmitFSM (mb_rtu m) = Ok r' -> mb_step user (m, false) (with_rtu r' m, false)
| step_tx_enable m : event_serial (mb_rtu m) = true -> eRcvState (mb_rtu m) = STATE_RX_IDLE ->
    eSndState (mb_rtu m) = STATE_TX_XMIT -> usSndBufferCount (mb_rtu m) = 0 ->
    mb_step user (m, false) (with_rtu (transmit_last (mb_rtu m)) m, true)
| step_tx_idle m : mb_step user (m, true) (with_rtu (set_snd (mb_rtu m) STATE_TX_IDLE) m, false)
| step_poll m w e m' : eMBPoll user m = Ok (Some (e, m')) -> mb_step user (m, w) (m', w).

(** The received frame the poll loop remembers. *)
Definition frame_inv (m : mb) : Prop :=
  match ucMBFrame m with
  | None => Z.testbit (xSlaveOsEvent (mb_rtu m)) 2 = false
  | Some p => p = 1 /\ 1 <= usLength m <= MB_PDU_SIZE_MAX /\ is_u8 (ucRcvAddress m)
  end.

Record mb_inv (m : mb) : Prop := {
  mi_rtu : rtu_inv (mb_rtu m);
  mi_slave : slave_wf (mb_slave m);
  mi_addr : MB_ADDRESS_MIN <= ucMBAddress m <= MB_ADDRESS_MAX;
  mi_state : eMBState m = STATE_ENABLED;
  mi_table : xFuncHandlers m = xFuncHandlers_init;
  mi_frame : frame_inv m }.

(** The function codes whose handlers can run out of bounds. *)
Definition bit_function (fc : Z) : Prop :=
  fc = MB_FUNC_READ_COILS \/ fc = MB_FUNC_READ_DISCRETE_INPUTS
  \/ fc = MB_FUNC_WRITE_SINGLE_COIL \/ fc = MB_FUNC_WRITE_MULTIPLE_COILS.

Lemma inv_with_rtu m r' : mb_inv m -> rtu_inv r' ->
  Z.testbit (xSlaveOsEvent r') 2 = Z.testbit (xSlaveOsEvent (mb_rtu m)) 2 ->
  mb_inv (with_rtu r' m).
Proof.
  intros [Hr Hs Ha He Ht Hf] Hr' Hb. split; try done. unfold frame_inv in *.
  cbn [with_rtu ucMBFrame mb_rtu usLength ucRcvAddress].
  destruct (ucMBFrame m); [done|by rewrite Hb].
Qed.

Lemma rtu_frame_ok r : rtu_inv r -> frame_ok (ucRTUBuf r) 1.
Proof.
  intros Hr. split; [apply Hr|]. rewrite (inv_len r Hr). unfold MB_PDU_SIZE_MAX. lia.
Qed.

Lemma rtu_inv_buf r buf : rtu_inv r -> length buf = length (ucRTUBuf r) -> Forall is_u8 buf ->
  rtu_inv (set_buf r buf).
Proof. intros [L F P R T X M E] Hl Hb. split; cbn; try done. congruence. Qed.

Lemma set_events_inv r ev : rtu_inv r -> 0 <= ev < 16 -> rtu_inv (set_events r ev).
Proof. intros [L F P R T X M E] Hev. by split. Qed.

Section safety.
Context (user : Z -> handler).

(** Every function code's handler keeps the invariants or is one of the bit
    functions running out of bounds. *)
Lemma execute_ok m fc : mb_inv m -> ucMBFrame m = Some 1 ->
  handled (execute user fc 1 m) (ucRTUBuf (mb_rtu m)) 1
  \/ (bit_function fc /\ execute user fc 1 m = Fault OutOfBounds).
Proof.
  intros [Hr Hs Ha He Ht Hf] Hfr. unfold frame_inv in Hf. rewrite Hfr in Hf.
  destruct Hf as (_ & Hlen & _). pose proof (rtu_frame_ok _ Hr) as Hfo.
  unfold execute. rewrite Ht. cbn [xFuncHandlers_init find_handler app].
  unfold MB_FUNC_OTHER_REPORT_SLAVEID, MB_FUNC_READ_INPUT_REGISTER,
    MB_FUNC_READ_HOLDING_REGISTER, MB_FUNC_WRITE_MULTIPLE_REGISTERS, MB_FUNC_WRITE_REGISTER,
    MB_FUNC_READWRITE_MULTIPLE_REGISTERS, MB_FUNC_READ_COILS, MB_FUNC_WRITE_SINGLE_COIL,
    MB_FUNC_WRITE_MULTIPLE_COILS, MB_FUNC_READ_DISCRETE_INPUTS.
  repeat match goal with
  | |- context [Zpos ?c =? 0] => change (Zpos c =? 0) with false; cbv iota
  end.
  repeat match goal with
  | |- context [match (if ?c =? fc then _ else _) with _ => _ end] =>
      destruct (Z.eqb_spec c fc) as [<-|]
  end; cbn [run_handler].
  - left. by apply report_slave_id_handled.
  - left. by apply read_input_handled.
  - left. by apply read_holding_handled.
  - left. by apply write_multiple_handled.
  - left. by apply write_holding_handled.
  - left. by apply readwrite_handled.
  - destruct (read_coils_handled _ _ _ _ Hs Hfo Hlen); [by left|].
    right. split; [by left|done].
  - destruct (write_coil_handled _ _ _ _ Hs Hfo Hlen); [by left|].
    right. split; [unfold bit_function; tauto|done].
  - destruct (write_coils_handled _ _ _ _ Hs Hfo Hlen); [by left|].
    right. split; [unfold bit_function; tauto|done].
  - destruct (read_discrete_handled _ _ _ _ Hs Hfo Hlen); [by left|].
    right. split; [unfold bit_function; tauto|done].
  - left. by eapply handled_same.
Qed.

(** More than one event flag pending at once. *)
Definition several_events (ev : Z) : Prop := ev <> 0 /\ forall e, ev <> event_bit e.

Lemma event_get_cases r : 0 <= xSlaveOsEvent r < 16 ->
  (xSlaveOsEvent r = 0 /\ xMBPortEventGet r = Ok None)
  \/ (exists e, xSlaveOsEvent r = event_bit e
      /\ xMBPortEventGet r = Ok (Some (e, set_events r 0)))
  \/ (several_events (xSlaveOsEvent r) /\ xMBPortEventGet r = Fault Uninit).
Proof.
  intros Hev. unfold xMBPortEventGet. destruct (xSlaveOsEvent r) as [|q|q] eqn:E; [by left| |lia].
  assert (exists k, (k < 16)%nat /\ Z.pos q = Z.of_nat k) as (k & Hk & Hq)
    by (exists (Z.to_nat (Z.pos q)); lia). rewrite Hq in *.
  do 16 (destruct k as [|k]; [first
    [ by left | by right; left; exists EV_READY | by right; left; exists EV_FRAME_RECEIVED
    | by right; left; exists EV_EXECUTE | by right; left; exists EV_FRAME_SENT
    | by right; right; split; [split; [done|by intros []]|] ]|]).
  lia.
Qed.

Lemma rtu_receive_cases r : rtu_inv r ->
  eMBRTUReceive r = Ok (MB_EIO, None)
  \/ exists a len, eMBRTUReceive r = Ok (MB_ENOERR, Some (a, 1, len))
     /\ is_u8 a /\ 1 <= len <= MB_PDU_SIZE_MAX.
Proof.
  intros Hr. pose proof (inv_len r Hr) as L. pose proof (inv_pos r Hr) as P.
  unfold MB_SER_PDU_SIZE_MAX, MB_PDU_SIZE_MAX in *.
  set (l := take (Z.to_nat (usRcvBufferPos r)) (ucRTUBuf r)).
  assert (length l = Z.to_nat (usRcvBufferPos r)) as Ll
    by (unfold l; rewrite length_take; lia).
  assert (Forall is_u8 l) as Fl by apply Forall_take, Hr.
  destruct (decide (4 <= Z.of_nat (length l) /\ crc16 l = 0)) as [[Hl Hc]|Hn].
  - right. exists (rd l 0), (Z.of_nat (length l) - 3).
    split; [apply rtu_receive_ok; try done; [lia|by rewrite Ll]|].
    split; [|lia]. apply rd_Forall; [done|]. unfold in_range. lia.
  - left. apply (rtu_receive_bad r l); try done; [lia|by rewrite Ll|].
    unfold MB_SER_PDU_SIZE_MIN.
    destruct (decide (4 <= Z.of_nat (length l))); [right; tauto|lia].
Qed.

Lemma poll_frame_received_ok m : mb_inv m -> xSlaveOsEvent (mb_rtu m) = 0 ->
  exists m', poll_frame_received m = Ok m' /\ mb_inv m'.
Proof.
  intros Hm Hev. pose proof Hm as [Hr Hs Ha He Ht Hf]. unfold poll_frame_received.
  destruct (rtu_receive_cases _ Hr) as [->|(a & len & -> & Ha8 & Hlen)].
  - rewrite bind_ret_l. by exists m.
  - rewrite bind_ret_l. cbv zeta.
    assert (mb_inv (with_frame a 1 len m)) as Hm' by (split; (done || by split)).
    destruct (_ || _); [|by eexists]. eexists. split; [done|].
    split; try done. cbn [with_rtu mb_rtu with_frame]. destruct Hr as [L F P R T X M E].
    rtu_step. split; cbn [eRcvState eSndState ucRTUBuf pucSndBufferCur usSndBufferCount
      usRcvBufferPos rx_int event_serial timer timer_ticks xSlaveOsEvent line]; try done.
    apply lor_16; [done|]. apply event_bit_16.
Qed.

Lemma inv_with_result m s buf len p : mb_inv m -> ucMBFrame m = Some p -> slave_wf s ->
  length buf = length (ucRTUBuf (mb_rtu m)) -> Forall is_u8 buf ->
  1 <= len <= MB_PDU_SIZE_MAX -> mb_inv (with_result s buf len m).
Proof.
  intros [Hr Hs Ha He Ht Hf] Hfr Hs' Hl Hb Hlen. split; try done.
  - by apply rtu_inv_buf.
  - unfold frame_inv in *. cbn [with_result ucMBFrame usLength ucRcvAddress].
    rewrite Hfr in *. tauto.
Qed.

(** The answer goes out, or is dropped because a new frame has begun. *)
Lemma send_step m len : mb_inv m -> ucMBFrame m = Some 1 -> 1 <= len <= MB_PDU_SIZE_MAX ->
  exists st r', eMBRTUSend (ucMBAddress m) 1 len (mb_rtu m) = Ok (st, r')
  /\ mb_inv (with_rtu r' m).
Proof.
  intros Hm Hfr Hlen. pose proof Hm as [Hr Hs Ha He Ht Hf].
  unfold MB_ADDRESS_MIN, MB_ADDRESS_MAX in Ha.
  destruct (decide (eRcvState (mb_rtu m) = STATE_RX_IDLE)) as [Hi|Hi].
  - destruct (rtu_send_ok (mb_rtu m) (ucMBAddress m) len)
      as (r' & E & Hr' & _ & _ & _ & _ & _ & _ & Ev & _); try (done || mlia).
    exists MB_ENOERR, r'. split; [done|]. apply inv_with_rtu; [done..|]. by rewrite Ev.
  - unfold eMBRTUSend. rewrite decide_False by done. eexists _, _. split; [done|].
    by apply inv_with_rtu.
Qed.

Lemma exception_code_u8 e : is_u8 (exception_code e).
Proof. destruct e; cbn; mlia. Qed.

Lemma poll_execute_ok m : mb_inv m -> ucMBFrame m = Some 1 ->
  (exists m', poll_execute user m = Ok m' /\ mb_inv m')
  \/ (bit_function (rd (ucRTUBuf (mb_rtu m)) 1) /\ poll_execute user m = Fault OutOfBounds).
Proof.
  intros Hm Hfr. pose proof (mi_rtu m Hm) as Hr. pose proof (inv_len _ Hr) as L.
  unfold poll_execute. rewrite Hfr. change (1 + MB_PDU_FUNC_OFF) with 1.
  rewrite get_in, bind_ret_l by (unfold in_range; lia).
  set (fc := rd (ucRTUBuf (mb_rtu m)) 1).
  destruct (execute_ok m fc Hm Hfr) as [(e & s & b & len & -> & Hs & Fr & Lb & Hl & _)|[Hb ->]];
    [|right; done]. left. rewrite bind_ret_l. destruct Fr as (Fb & _).
  assert (mb_inv (with_result s b len m)) as Hm1 by (by eapply inv_with_result).
  destruct (negb _); [|by eexists].
  case_decide as He.
  - rewrite bind_ret_l.
    destruct (send_step (with_result s b len m) len) as (st & r' & -> & Hm'); try done.
    rewrite bind_ret_l. by eexists.
  - rewrite set_in, bind_ret_l, set_in, !bind_ret_l
      by (rewrite ?in_range_upd; unfold in_range; lia).
    set (b2 := upd (upd b _ _) _ _).
    assert (mb_inv (with_result s b2 2 m)) as Hm2.
    { eapply inv_with_result; try done.
      - unfold b2. by rewrite !length_upd.
      - unfold b2. repeat apply Forall_upd; auto using exception_code_u8 with machine. }
    destruct (send_step (with_result s b2 2 m) 2) as (st & r' & -> & Hm'); try done.
    rewrite bind_ret_l. by eexists.
Qed.

(** A poll waits, does its work, or meets one of the two faults. *)
Lemma poll_ok m : mb_inv m ->
  eMBPoll user m = Ok None
  \/ (exists m', eMBPoll user m = Ok (Some (MB_ENOERR, m')) /\ mb_inv m')
  \/ (several_events (xSlaveOsEvent (mb_rtu m)) /\ eMBPoll user m = Fault Uninit)
  \/ (xSlaveOsEvent (mb_rtu m) = event_bit EV_EXECUTE
      /\ bit_function (rd (ucRTUBuf (mb_rtu m)) 1) /\ eMBPoll user m = Fault OutOfBounds).
Proof.
  intros Hm. pose proof Hm as [Hr Hs Ha He Ht Hf]. unfold eMBPoll. rewrite decide_True by done.
  destruct (event_get_cases _ (inv_events _ Hr)) as [[E ->]|[(e & E & ->)|[E ->]]];
    [by left| |by right; right; left]. right. rewrite bind_ret_l. cbv zeta.
  assert (e <> EV_EXECUTE -> mb_inv (with_rtu (set_events (mb_rtu m) 0) m)) as Hm0.
  { intros Hne. apply inv_with_rtu; [done|..].
    - destruct Hr as [L F P R T X M Ev]. split; cbn; (done || lia).
    - rewrite E. destruct e; try done. }
  assert (e = EV_EXECUTE -> ucMBFrame m = Some 1
    /\ mb_inv (with_rtu (set_events (mb_rtu m) 0) m)) as Hm4.
  { intros ->. unfold frame_inv in Hf. rewrite E in Hf.
    destruct (ucMBFrame m) as [p|] eqn:Hfr; [|done]. destruct Hf as [-> Hf].
    split; [done|]. split; try done.
    - cbn. destruct Hr as [L F P R T X M Ev]. split; cbn; (done || lia).
    - unfold frame_inv. cbn [with_rtu ucMBFrame usLength ucRcvAddress]. by rewrite Hfr. }
  destruct e.
  - left. rewrite bind_ret_l. eexists. split; [done|]. by apply Hm0.
  - left. destruct (poll_frame_received_ok (with_rtu (set_events (mb_rtu m) 0) m))
      as (m' & -> & Hm'); [by apply Hm0|done|]. rewrite bind_ret_l. by eexists.
  - destruct (Hm4 eq_refl) as [Hfr Hm1].
    destruct (poll_execute_ok (with_rtu (set_events (mb_rtu m) 0) m) Hm1 Hfr)
      as [(m' & -> & Hm')|[Hb ->]].
    + left. rewrite bind_ret_l. by eexists.
    + right. right. done.
  - left. rewrite bind_ret_l. eexists. split; [done|]. by apply Hm0.
Qed.

(** No event is pending while a response goes out. *)
Definition quiet (r : rtu) : Prop := eSndState r = STATE_TX_XMIT -> xSlaveOsEvent r = 0.

Lemma execute_quiet m m' : poll_execute user m = Ok m' -> xSlaveOsEvent (mb_rtu m) = 0 -> xSlaveOsEvent (mb_rtu m') = 0.
Proof.
  unfold poll_execute. destruct (ucMBFrame m) as [p|]; [|done]. intros H He. bind_inv H.
  destruct a0 as [[[e s] b] len]. destruct (negb _); [|by injection H as <-]. bind_inv H. destruct a0 as [b2 len2]. bind_inv H.
  destruct a0 as [st r]. injection H as <-. cbn. unfold eMBRTUSend in Ha2. case_decide; [|by injection Ha2 as <- <-].
  cbv zeta in Ha2. bind_inv Ha2. by injection Ha2 as <- <-.
Qed.

Lemma poll_quiet m e m' : mb_inv m -> eMBPoll user m = Ok (Some (e, m')) -> quiet (mb_rtu m) -> quiet (mb_rtu m').
Proof.
  intros Hm. unfold eMBPoll. rewrite decide_True by apply Hm. intros H Hq.
  destruct (event_get_cases (mb_rtu m)) as [[_ Eg]|[(ev & Ev & Eg)|[_ Eg]]]; [apply Hm| | |]; rewrite Eg in H; [done| |done].
  assert (Hx : eSndState (mb_rtu m) <> STATE_TX_XMIT) by (intros Hx; rewrite (Hq Hx) in Ev; by destruct ev).
  cbn [mbind res_bind] in H. destruct ev; cbv zeta in H.
  - by injection H as _ <-.
  - bind_inv H. injection H as _ <-. unfold poll_frame_received in Ha. bind_inv Ha.
    destruct a0 as [st [[[x p] len]|]]; [|by injection Ha as <-]. destruct (_ || _); injection Ha as <-; [|done].
    intros Hs. by destruct (Hx Hs).
  - bind_inv H. injection H as _ <-. intros _. by eapply execute_quiet.
  - by injection H as _ <-.
Qed.

(** In the middle of the last call of the transmit state machine. *)
Record window (m : mb) : Prop := {
  wi_after : mb_inv (with_rtu (set_snd (mb_rtu m) STATE_TX_IDLE) m);
  wi_snd : eSndState (mb_rtu m) = STATE_TX_XMIT;
  wi_timer : timer (mb_rtu m) = false;
  wi_tx : event_serial (mb_rtu m) = false;
  wi_events : xSlaveOsEvent (mb_rtu m) = 0 \/ xSlaveOsEvent (mb_rtu m) = event_bit EV_FRAME_SENT }.

Definition safe_state (c : mb * bool) : Prop :=
  let '(m, w) := c in if w then window m else mb_inv m /\ quiet (mb_rtu m).

Lemma window_poll m : window m ->
  eMBPoll user m = Ok None
  \/ exists m', eMBPoll user m = Ok (Some (MB_ENOERR, m')) /\ window m'.
Proof.
  intros [Hi Hs Ht Hx He]. unfold eMBPoll. rewrite decide_True by apply (mi_state _ Hi).
  unfold xMBPortEventGet. destruct He as [-> | ->]; [by left|right]. cbn.
  eexists. split; [done|]. split; try done; [|by left].
  destruct Hi as [Hr Hsl Ha Hst Htb Hf]. split; try done.
  - cbn in *. by apply (set_events_inv _ 0) in Hr.
  - unfold frame_inv in *. cbn in *. by destruct (ucMBFrame m).
Qed.

Lemma window_rx m b : window m -> xMBRTUReceiveFSM b (mb_rtu m) = Fault AssertFail.
Proof. intros [_ Hs _ _ _]. unfold xMBRTUReceiveFSM. by rewrite decide_False by (rewrite Hs; done). Qed.

Lemma enter_window m : mb_inv m -> quiet (mb_rtu m) -> eSndState (mb_rtu m) = STATE_TX_XMIT ->
  usSndBufferCount (mb_rtu m) = 0 -> eRcvState (mb_rtu m) = STATE_RX_IDLE -> event_serial (mb_rtu m) = true ->
  window (with_rtu (transmit_last (mb_rtu m)) m).
Proof.
  intros Hm Hq Hs Hc Hi He. pose proof (mi_rtu m Hm) as Hr.
  destruct (transmit_fsm_ok _ Hr He) as (r1 & E1 & Hr1 & _ & Ev). rewrite transmit_last_whole in E1 by done.
  injection E1 as <-. split; cbn [with_rtu mb_rtu]; try done.
  - by apply (inv_with_rtu m (set_snd (transmit_last (mb_rtu m)) STATE_TX_IDLE)).
  - destruct (timer (mb_rtu m)) eqn:Et; [|done]. exfalso. by apply (inv_timer _ Hr) in Et.
  - right. cbn. by rewrite (Hq Hs).
Qed.

Lemma step_inv c c' : safe_state c -> mb_step user c c' -> safe_state c'.
Proof.
  intros Hc Hstep. destruct Hstep as [m [] b r' Hrx Hb E|m [] r' Ht E|m r' Hx E|m Hx Hi Hs Hn|m|m [] e m' E]; cbn in Hc |- *.
  - by rewrite window_rx in E.
  - destruct Hc as [Hm Hq]. pose proof (mi_rtu m Hm) as Hr.
    destruct (receive_fsm_ok _ b Hr Hrx Hb) as (r1 & E1 & Hr1 & Hrx1 & Ev & _).
    rewrite E1 in E. injection E as ->. split; [apply inv_with_rtu; [done..|]; by rewrite Ev|].
    destruct (idle_sender r' Hr1 Hrx1) as [Hs _]. intros Hs'. congruence.
  - destruct Hc as [_ _ Htm _ _]. congruence.
  - destruct Hc as [Hm Hq]. destruct (timer_expired_ok _ (mi_rtu m Hm) Ht) as (r1 & E1 & Hr1 & _ & Ev).
    rewrite E1 in E. injection E as ->. split; [by apply inv_with_rtu|]. intros Hs. exfalso.
    apply (inv_timer _ (mi_rtu m Hm)) in Ht. apply Ht. apply (inv_xmit _ (mi_rtu m Hm)).
    revert E1. unfold xMBRTUTimerT35Expired. destruct (eRcvState (mb_rtu m)); cbn; intros E1; try done; injection E1 as <-; done.
  - destruct Hc as [Hm Hq]. pose proof (mi_rtu m Hm) as Hr. destruct (transmit_fsm_ok _ Hr Hx) as (r1 & E1 & Hr1 & _ & Ev).
    rewrite E1 in E. injection E as ->. split; [by apply inv_with_rtu|].
    revert E1. unfold xMBRTUTransmitFSM. case_decide; [|done]. rewrite (proj1 (inv_tx _ Hr) Hx).
    destruct (negb _); intros E1; [bind_inv E1; injection E1 as <-; by apply Hq|by injection E1 as <-].
  - destruct Hc as [Hm Hq]. by apply enter_window.
  - split; [apply Hc|done].
  - destruct (window_poll m Hc) as [H|(m1 & H & Hw)]; congruence.
  - destruct Hc as [Hm Hq]. split; [|by eapply poll_quiet].
    destruct (poll_ok m Hm) as [H|[(m1 & H & Hm1)|[[_ H]|(_ & _ & H)]]]; congruence.
Qed.
End safety.

(** Initialisation and start as the relay does them. *)
Definition mb_start (ucSlaveAddress ulBaudRate : Z) : res (eMBErrorCode * mb) :=
  '(e, m) ← eMBInit true true MB_RTU ucSlaveAddress ulBaudRate mb_reset;
  if decide (e = MB_ENOERR) then Ok (eMBEnable m) else Ok (e, m).

Lemma mb_start_ok addr baud : MB_ADDRESS_MIN <= addr <= MB_ADDRESS_MAX -> 1 <= baud < 2147483648 ->
  exists m, mb_start addr baud = Ok (MB_ENOERR, m) /\ mb_inv m /\ ucMBAddress m = addr
  /\ eRcvState (mb_rtu m) = STATE_RX_INIT /\ rx_int (mb_rtu m) = true
  /\ xSlaveOsEvent (mb_rtu m) = 0.
Proof.
  unfold MB_ADDRESS_MIN, MB_ADDRESS_MAX. intros Ha Hb. unfold mb_start, eMBInit.
  unfold MB_ADDRESS_BROADCAST, MB_ADDRESS_MIN, MB_ADDRESS_MAX.
  destruct (Z.eqb_spec addr 0), (Z.ltb_spec addr 1), (Z.ltb_spec 247 addr); try lia.
  cbn [orb]. unfold eMBRTUInit, xMBPortSerialInit. cbv zeta iota beta.
  assert (exists t, usTimerT35_50us baud = Ok t) as [t ->].
  { unfold usTimerT35_50us. destruct (19200 <? baud); [by eexists|].
    destruct (Z.eqb_spec (u32 (2 * baud)) 0); [mlia|by eexists]. }
  rewrite !bind_ret_l, decide_True, bind_ret_l, decide_True by done.
  eexists. split; [reflexivity|]. repeat (split; [|done]).
  split.
  - split; cbn; unfold MB_SER_PDU_SIZE_MAX; try (done || lia). repeat constructor; mlia.
  - apply slave_init_wf.
  - cbn. unfold MB_ADDRESS_MIN, MB_ADDRESS_MAX. lia.
  - done.
  - done.
  - done.
Qed.

(** ** Properties *)


(** An application with no handlers of its own. *)
Definition no_user_handlers : Z -> handler :=
  fun _ s buf _ len => Ok (MB_EX_ILLEGAL_FUNCTION, s, buf, len).

(** Runs of the transition system, executed. *)
Inductive act : Set := ARx (b : Z) | ATimer | ATx | AEnable | AIdle | APoll.
Definition run_act (user : Z -> handler) (a : act) (c : mb * bool) : option (mb * bool) :=
  let '(m, w) := c in
  let keep (x : res rtu) := match x with Ok r' => Some (with_rtu r' m, w) | Fault _ => None end in
  match a with
  | ARx b => if rx_int (mb_rtu m) && (0 <=? b) && (b <? 256) then keep (xMBRTUReceiveFSM b (mb_rtu m)) else None
  | ATimer => if timer (mb_rtu m) then keep (xMBRTUTimerT35Expired (mb_rtu m)) else None
  | ATx => if event_serial (mb_rtu m) && negb w then keep (xMBRTUTransmitFSM (mb_rtu m)) else None
  | AEnable =>
      if event_serial (mb_rtu m) && bool_decide (eRcvState (mb_rtu m) = STATE_RX_IDLE)
         && bool_decide (eSndState (mb_rtu m) = STATE_TX_XMIT) && (usSndBufferCount (mb_rtu m) =? 0) && negb w
      then Some (with_rtu (transmit_last (mb_rtu m)) m, true) else None
  | AIdle => if w then Some (with_rtu (set_snd (mb_rtu m) STATE_TX_IDLE) m, false) else None
  | APoll => match eMBPoll user m with Ok (Some (_, m')) => Some (m', w) | _ => None end
  end.
Fixpoint run_acts (user : Z -> handler) (l : list act) (c : mb * bool) : option (mb * bool) :=
  match l with [] => Some c | a :: l' => c ← run_act user a c; run_acts user l' c end.

Lemma run_act_step user a c c' : run_act user a c = Some c' -> mb_step user c c'.
Proof.
  destruct c as [m w], a; cbn; intros H.
  - destruct (rx_int (mb_rtu m)) eqn:E1, (Z.leb_spec 0 b), (Z.ltb_spec b 256); cbn in H; try done.
    destruct (xMBRTUReceiveFSM _ _) eqn:E; [|done]. injection H as <-. apply (step_rx user m w b); [done|unfold is_u8; lia|done].
  - destruct (timer _) eqn:E1; [|done]. destruct (xMBRTUTimerT35Expired _) eqn:E; [|done]. injection H as <-. by apply step_timer.
  - destruct (event_serial _) eqn:E1, w; cbn in H; try done.
    destruct (xMBRTUTransmitFSM _) eqn:E; [|done]. injection H as <-. by apply step_tx.
  - destruct (event_serial _) eqn:E1; cbn in H; [|done]. case_bool_decide; cbn in H; [|done]. case_bool_decide; cbn in H; [|done].
    destruct (Z.eqb_spec (usSndBufferCount (mb_rtu m)) 0), w; cbn in H; try done. injection H as <-. by apply step_tx_enable.
  - destruct w; [|done]. injection H as <-. apply step_tx_idle.
  - destruct (eMBPoll user m) as [[[e m']|]|] eqn:E; try done. injection H as <-. by eapply step_poll.
Qed.

Lemma run_acts_steps user l : forall c c', run_acts user l c = Some c' -> rtc (mb_step user) c c'.
Proof.
  induction l as [|a l IH]; intros c c'; cbn [run_acts]; [by intros [= <-]|].
  destruct (run_act user a c) as [c1|] eqn:E; cbn; [|done]. intros H. eapply rtc_l; [by eapply run_act_step|by apply IH].
Qed.

(** A read of one register, answered up to the window. *)
Definition read_one : list act :=
  [ATimer; APoll] ++ map ARx [1; 3; 0; 0; 0; 1; 0x84; 0x0A] ++ [ATimer; APoll; APoll] ++ replicate 7 ATx ++ [AEnable].

Lemma read_one_window :
  match mb_start 1 9600 with
  | Ok (_, m0) =>
      match run_acts no_user_handlers read_one (m0, false) with
      | Some (m, w) => w && rx_int (mb_rtu m)
      | None => false
      end
  | Fault _ => false
  end = true.
Proof. vm_compute. reflexivity. Qed.


(** ** One request, from line to line *)

(** The bytes of a request, the t3.5 gap, the poll that takes the frame over,
    the poll that executes it, [ntx] rounds of the transmit thread, and the
    poll that consumes the sent event. *)
Definition serve (user : Z -> handler) (frame : list Z) (ntx : nat) (m : mb)
  : res (option mb) :=
  r ← rx_bytes frame (mb_rtu m);
  r ← xMBRTUTimerT35Expired r;
  x ← eMBPoll user (with_rtu r m);
  match x with
  | None => Ok None
  | Some (_, m) =>
      x ← eMBPoll user m;
      match x with
      | None => Ok None
      | Some (_, m) =>
          r ← tx_run ntx (mb_rtu m);
          x ← eMBPoll user (with_rtu r m);
          match x with
          | None => Ok None
          | Some (_, m) => Ok (Some m)
          end
      end
  end.

(** The PDU at the start of the buffer, after the address. *)
Definition pdu_of (buf : list Z) (len : Z) : list Z := take (Z.to_nat len) (drop 1 buf).

(** The PDU sent for a handler's result. *)
Definition response_pdu (fc : Z) (e : eMBException) (buf : list Z) (len : Z) : list Z :=
  if decide (e = MB_EX_NONE) then pdu_of buf len
  else [u8 (Z.lor fc MB_FUNC_ERROR); exception_code e].

Lemma rd_pdu_of buf len i : 0 <= i < len -> rd (pdu_of buf len) i = rd buf (1 + i).
Proof.
  intros Hi. unfold rd, pdu_of. rewrite lookup_take_lt, lookup_drop by lia.
  do 2 f_equal. lia.
Qed.
Lemma length_pdu_of buf len : 0 <= len -> 1 + len <= Z.of_nat (length buf) ->
  length (pdu_of buf len) = Z.to_nat len.
Proof. intros. unfold pdu_of. rewrite length_take, length_drop. lia. Qed.

Lemma poll_one_event user m e : mb_inv m -> xSlaveOsEvent (mb_rtu m) = event_bit e ->
  eMBPoll user m
  = (m' ← (let m := with_rtu (set_events (mb_rtu m) 0) m in
           match e with
           | EV_READY | EV_FRAME_SENT => Ok m
           | EV_FRAME_RECEIVED => poll_frame_received m
           | EV_EXECUTE => poll_execute user m
           end);
     Ok (Some (MB_ENOERR, m'))).
Proof.
  intros Hm E. unfold eMBPoll. rewrite decide_True by apply Hm.
  unfold xMBPortEventGet. rewrite E. by destruct e.
Qed.

Section serve.
Context (user : Z -> handler) (m : mb) (pdu rpdu : list Z) (s' : slave).
Context (Hm : mb_inv m) (Hl : listening (mb_rtu m)).
Context (Hpdu : Forall is_u8 pdu) (Hlen : 1 <= Z.of_nat (length pdu) <= MB_PDU_SIZE_MAX).
Let fc := rd pdu 0.
(** The handler's result on any buffer that holds the request. *)
Context (Hexec : forall m1, mb_inv m1 -> mb_slave m1 = mb_slave m ->
  usLength m1 = Z.of_nat (length pdu) -> ucMBFrame m1 = Some 1 ->
  pdu_of (ucRTUBuf (mb_rtu m1)) (usLength m1) = pdu ->
  exists e buf' len', execute user fc 1 m1 = Ok (e, s', buf', len')
  /\ slave_wf s' /\ Forall is_u8 buf' /\ length buf' = 256%nat
  /\ 1 <= len' <= MB_PDU_SIZE_MAX /\ response_pdu fc e buf' len' = rpdu).

Let frame := ser_frame (ucMBAddress m) pdu.

Lemma frame_facts : Forall is_u8 frame /\ length frame = (length pdu + 3)%nat
  /\ crc16 frame = 0 /\ rd frame 0 = ucMBAddress m.
Proof.
  pose proof (mi_addr m Hm) as Ha. unfold MB_ADDRESS_MIN, MB_ADDRESS_MAX in Ha.
  assert (Forall is_u8 (ucMBAddress m :: pdu)) as Hb by (constructor; [mlia|done]).
  destruct (usMBCRC16_ok (ucMBAddress m :: pdu)
    (Z.of_nat (length (ucMBAddress m :: pdu)))) as [_ Hc]; [done|lia|].
  rewrite Nat2Z.id, take_ge in Hc by lia.
  unfold frame, ser_frame. split; [|split; [|split]].
  - apply Forall_app. split; [done|]. repeat constructor; mlia.
  - rewrite length_app. cbn [length]. lia.
  - by apply crc16_residue.
  - done.
Qed.

(** The frame is taken over and scheduled for execution. *)
Lemma serve_receive : exists r1 r2 m1, rx_bytes frame (mb_rtu m) = Ok r1
  /\ xMBRTUTimerT35Expired r1 = Ok r2
  /\ eMBPoll user (with_rtu r2 m) = Ok (Some (MB_ENOERR, m1))
  /\ mb_inv m1 /\ mb_slave m1 = mb_slave m /\ ucMBAddress m1 = ucMBAddress m
  /\ usLength m1 = Z.of_nat (length pdu) /\ ucMBFrame m1 = Some 1
  /\ ucRcvAddress m1 = ucMBAddress m
  /\ pdu_of (ucRTUBuf (mb_rtu m1)) (usLength m1) = pdu
  /\ xSlaveOsEvent (mb_rtu m1) = event_bit EV_EXECUTE
  /\ eRcvState (mb_rtu m1) = STATE_RX_IDLE /\ line (mb_rtu m1) = line (mb_rtu m).
Proof.
  destruct frame_facts as (Ff & Lf & Cf & Rf). unfold MB_PDU_SIZE_MAX in Hlen.
  destruct Hl as (Hr & Hs & Hrx & Hev).
  destruct (rx_frame (mb_rtu m) frame) as (r1 & E1 & Hr1 & S1 & P1 & T1 & F1);
    try done; [unfold MB_SER_PDU_SIZE_MAX; lia|].
  destruct (timer_expired_ok r1 Hr1) as (r2 & E2 & Hr2 & _); [apply F1|].
  destruct F1 as (_ & Ev1 & Ln1 & _). exists r1, r2.
  pose proof E2 as E2'. unfold xMBRTUTimerT35Expired in E2'.
  rewrite S1, bind_ret_l in E2'. injection E2' as E2'.
  assert (xSlaveOsEvent r2 = event_bit EV_FRAME_RECEIVED) as Ev2
    by (rewrite <- E2'; rtu_step; by rewrite Ev1, Hev).
  assert (mb_inv (with_rtu r2 m)) as Hm2
    by (apply inv_with_rtu; [done..|]; by rewrite Ev2, Hev).
  rewrite (poll_one_event user _ EV_FRAME_RECEIVED) by done. cbv zeta.
  change (mb_rtu (with_rtu r2 m)) with r2.
  set (r3 := set_events r2 0).
  assert (rtu_inv r3) as Hr3 by (apply set_events_inv; [done|lia]).
  unfold poll_frame_received. cbn [with_rtu mb_rtu].
  assert (ucRTUBuf r3 = ucRTUBuf r1 /\ usRcvBufferPos r3 = usRcvBufferPos r1
    /\ eRcvState r3 = STATE_RX_IDLE /\ line r3 = line r1) as (B3 & P3 & S3 & Ln3)
    by (unfold r3; rewrite <- E2'; done).
  rewrite (rtu_receive_ok r3 frame), bind_ret_l; try done;
    [|by rewrite P3|by rewrite B3|rewrite Lf; unfold MB_SER_PDU_SIZE_MIN; lia].
  cbn [with_frame ucMBAddress]. rewrite Rf.
  cbn [with_rtu ucMBAddress]. rewrite Z.eqb_refl. cbn [orb]. rewrite bind_ret_l.
  eexists. split; [done|]. split; [done|]. split; [done|].
  cbn [with_rtu with_frame mb_rtu mb_slave ucMBAddress usLength ucMBFrame ucRcvAddress].
  assert (Z.of_nat (length frame) - 3 = Z.of_nat (length pdu)) as -> by lia.
  assert (rtu_inv (xMBPortEventPost EV_EXECUTE r3)) as Hr4
    by (apply set_events_inv; [done|apply lor_16; [apply Hr3|apply event_bit_16]]).
  split.
  { split; try done; try apply Hm.
    unfold frame_inv. cbn [with_rtu with_frame ucMBFrame usLength ucRcvAddress].
    pose proof (mi_addr m Hm) as Ha. unfold MB_ADDRESS_MIN, MB_ADDRESS_MAX in Ha.
    split; [done|]. split; [by unfold MB_PDU_SIZE_MAX|mlia]. }
  repeat (split; [done|]).
  split; [|split; [done|split; [done|by rewrite <- Ln1, <- Ln3]]].
  unfold pdu_of. change (ucRTUBuf (xMBPortEventPost EV_EXECUTE r3)) with (ucRTUBuf r3).
  rewrite B3, Nat2Z.id, take_drop_commute.
  replace (1 + length pdu)%nat with (length pdu + 1)%nat by lia.
  assert (take (length pdu + 1) (ucRTUBuf r1) = ucMBAddress m :: pdu) as ->; [|done].
  transitivity (take (length pdu + 1) frame).
  - rewrite <- T1, take_take, Lf. f_equal. lia.
  - unfold frame, ser_frame. rewrite take_app_le by (cbn [length]; lia).
    apply take_ge. cbn [length]. lia.
Qed.

(** The answer a handler's result turns into. *)
Lemma send_response m1 e buf' len' :
  mb_inv m1 -> ucMBFrame m1 = Some 1 -> Forall is_u8 buf' -> length buf' = 256%nat ->
  1 <= len' <= MB_PDU_SIZE_MAX -> slave_wf s' -> is_u8 fc ->
  exists b2 len2, ('(buf, len) ← (if decide (e = MB_EX_NONE) then Ok (buf', len') else
                         buf ← set buf' (1 + 0) (u8 (Z.lor fc MB_FUNC_ERROR));
                         buf ← set buf (1 + 1) (exception_code e);
                         Ok (buf, 2)); Ok (buf, len)) = Ok (b2, len2)
  /\ mb_inv (with_result s' b2 len2 m1) /\ 1 <= len2 <= MB_PDU_SIZE_MAX
  /\ pdu_of b2 len2 = response_pdu fc e buf' len'.
Proof.
  intros Hm1 Hfr Fb Lb Hl' Hs' Hfc. pose proof (inv_len _ (mi_rtu _ Hm1)) as L1.
  unfold response_pdu. case_decide as He.
  - eexists _, _. split; [done|]. split; [|done]. eapply inv_with_result; try done. congruence.
  - change (1 + 0) with 1. change (1 + 1) with 2.
    rewrite set_in, bind_ret_l, set_in, !bind_ret_l
      by (rewrite ?in_range_upd; unfold in_range; lia).
    eexists _, _. split; [done|]. unfold MB_PDU_SIZE_MAX. split; [|split; [lia|]].
    + eapply inv_with_result; try done.
      * rewrite !length_upd. congruence.
      * repeat apply Forall_upd; auto using exception_code_u8 with machine.
    + destruct buf' as [|b0 [|b1 [|b2 rest]]]; try done; by rewrite ?take_0.
Qed.

(** The whole exchange. *)
Lemma serve_ok :
  exists m', serve user frame (length rpdu + 4) m = Ok (Some m')
  /\ mb_inv m' /\ listening (mb_rtu m') /\ mb_slave m' = s'
  /\ ucMBAddress m' = ucMBAddress m
  /\ line (mb_rtu m') = line (mb_rtu m) ++ ser_frame (ucMBAddress m) rpdu.
Proof.
  destruct serve_receive as (r1 & r2 & m1 & E1 & E2 & E3 & Hm1 & Hs1 & Ha1 & Hl1 & Hf1 & Hra
    & Hp1 & Hev1 & Hi1 & Hln1).
  unfold serve. rewrite E1, bind_ret_l, E2, bind_ret_l, E3, bind_ret_l.
  rewrite (poll_one_event user m1 EV_EXECUTE) by done. cbv zeta.
  set (m2 := with_rtu (set_events (mb_rtu m1) 0) m1).
  assert (mb_inv m2) as Hm2.
  { split; try apply Hm1; [apply set_events_inv; [apply Hm1|lia]|].
    unfold m2, frame_inv. cbn [with_rtu ucMBFrame usLength ucRcvAddress].
    pose proof (mi_frame m1 Hm1) as H. unfold frame_inv in H. by rewrite Hf1 in *. }
  destruct (Hexec m2) as (e & b & len & Ex & Hs' & Fb & Lb & Hl' & Hresp); try done.
  assert (is_u8 fc) as Hfc
    by (apply rd_Forall; [done|]; unfold in_range, MB_PDU_SIZE_MAX in *; lia).
  assert (rd (ucRTUBuf (mb_rtu m2)) (1 + MB_PDU_FUNC_OFF) = fc) as Hrd
    by (unfold fc; rewrite <- Hp1; rewrite rd_pdu_of by (rewrite Hl1; lia); done).
  unfold poll_execute. change (ucMBFrame m2) with (ucMBFrame m1). rewrite Hf1.
  pose proof (inv_len _ (mi_rtu _ Hm2)) as L2.
  rewrite get_in, bind_ret_l, Hrd, Ex, bind_ret_l
    by (unfold in_range, MB_PDU_FUNC_OFF; lia).
  change (ucRcvAddress m2) with (ucRcvAddress m1). rewrite Hra.
  pose proof (mi_addr m Hm) as Ha. unfold MB_ADDRESS_MIN, MB_ADDRESS_MAX in Ha.
  unfold MB_ADDRESS_BROADCAST. destruct (Z.eqb_spec (ucMBAddress m) 0); [lia|]. cbn [negb].
  destruct (send_response m2 e b len) as (b2 & len2 & Eb & Hm3 & Hl2 & Hp2); try done.
  apply bind_Ok in Eb as ([b2' len2'] & -> & [= -> ->]). rewrite bind_ret_l.
  set (m3 := with_result s' b2 len2 m2) in *.
  destruct (tx_frame (mb_rtu m3) (ucMBAddress m3) len2 rpdu)
    as (r4 & r5 & E4 & E5 & Hr5 & Ln5 & _ & Ev5 & S5 & Rx5);
    [apply Hm3|exact Hi1|change (ucMBAddress m3) with (ucMBAddress m1); rewrite Ha1; mlia
    |done|rewrite <- Hresp, <- Hp2; done|].
  rewrite E4, !bind_ret_l.
  change (mb_rtu (with_rtu r4 m3)) with r4.
  assert (length rpdu = Z.to_nat len2) as Lr.
  { rewrite <- Hresp, <- Hp2. apply length_pdu_of; [lia|].
    pose proof (inv_len _ (mi_rtu _ Hm3)) as H. cbn in H. rewrite H.
    unfold MB_PDU_SIZE_MAX in Hl2. lia. }
  replace (length rpdu + 4)%nat with (Z.to_nat (len2 + 3) + 1)%nat by lia.
  rewrite E5, bind_ret_l.
  set (m5 := with_rtu r5 (with_rtu r4 m3)).
  assert (xSlaveOsEvent r5 = event_bit EV_FRAME_SENT) as Ev by (rewrite Ev5; done).
  assert (mb_inv m5) as Hm5.
  { apply (inv_with_rtu m3); [done..|]. by rewrite Ev. }
  rewrite (poll_one_event user m5 EV_FRAME_SENT) by done. cbv zeta. rewrite !bind_ret_l.
  eexists. split; [done|].
  assert (rtu_inv (set_events r5 0)) as Hr6 by (apply set_events_inv; [done|lia]).
  split; [apply (inv_with_rtu m5); [done|done|change (mb_rtu m5) with r5; by rewrite Ev]|].
  split; [by split|]. split; [done|]. split; [exact Ha1|].
  change (line r5 = line (mb_rtu m) ++ ser_frame (ucMBAddress m) rpdu). rewrite Ln5.
  change (line (mb_rtu m3)) with (line (mb_rtu m1)).
  change (ucMBAddress m3) with (ucMBAddress m1). by rewrite Ha1, Hln1.
Qed.
End serve.

(** ** Corner cases *)

(** Two events pending at once are not told apart.  If the poll thread is
    delayed at start-up until the first frame is in, the ready and the
    frame-received event are both set; no case of the switch in
    [xMBPortEventGet] matches and the poll continues with an uninitialised
    event. *)
Theorem delayed_poll_loses_events user :
  exists m0 m, mb_start 1 9600 = Ok (MB_ENOERR, m0) /\ rtc (mb_step user) (m0, false) (m, false)
  /\ xSlaveOsEvent (mb_rtu m) = Z.lor (event_bit EV_READY) (event_bit EV_FRAME_RECEIVED)
  /\ eMBPoll user m = Fault Uninit.
Proof.
  eexists _, _. split; [vm_compute; reflexivity|]. split.
  - eapply rtc_l; [eapply step_timer; [reflexivity|vm_compute; reflexivity]|].
    eapply rtc_l; [eapply (step_rx user _ false 1); [reflexivity|mlia|vm_compute; reflexivity]|].
    eapply rtc_l; [eapply step_timer; [reflexivity|vm_compute; reflexivity]|].
    apply rtc_refl.
  - split; by vm_compute.
Qed.

(** Removing a handler leaves a free entry at which the poll loop's search
    stops: after unregistering function 17, which comes first, no function
    code is served any more. *)
Theorem unregister_hides_all m fc :
  xFuncHandlers m = xFuncHandlers_init ->
  exists m', eMBRegisterCB MB_FUNC_OTHER_REPORT_SLAVEID None m = (MB_ENOERR, m')
  /\ find_handler fc (xFuncHandlers m') = None.
Proof.
  intros Ht. unfold eMBRegisterCB. rewrite Ht. eexists. split; [reflexivity|]. reflexivity.
Qed.

Lemma unregister_hides_all_witness :
  exists m', eMBRegisterCB 17 None mb_reset = (MB_ENOERR, m')
  /\ find_handler 3 (xFuncHandlers m') = None.
Proof. apply (unregister_hides_all mb_reset 3). reflexivity. Defined.
