(* ===== verification/MbSpec.v ===== *)
(** * What the slave promises its master

    A specification of the holding-register service on plain lists, with no
    buffers, state machines or events, and the proof that the slave of [Mb]
    implements it: the bytes of a request on the line are answered on the line
    with the specified bytes, and the register file changes as specified. *)
From S2P Require Import Prelude MbCrc Registers MbData MbFunc MbRtu Mb.

(** ** Specification *)

(** Byte [k] of the registers from [a] on, most significant byte first. *)
Definition spec_byte (regs : list Z) (a k : Z) : Z :=
  if Z.even k then rd regs (a + k / 2) / 256 else rd regs (a + k / 2) mod 256.

Definition spec_exception (fc code : Z) : list Z := [fc + 128; code].

(** Response PDU and new registers for a request PDU of function 3, 6 or 16;
    any other function code is illegal. *)
Definition spec_serve (regs pdu : list Z) : list Z * list Z :=
  let fc := rd pdu 0 in
  let a := word_at pdu 1 in
  let n := word_at pdu 3 in
  let len := Z.of_nat (length pdu) in
  if fc =? 3 then
    if (len =? 5) && (1 <=? n) && (n <=? 125) then
      if a + n <=? S_REG_HOLDING_NREGS
      then (3 :: 2 * n :: (spec_byte regs a <$> seqZ 0 (2 * n)), regs)
      else (spec_exception 3 2, regs)
    else (spec_exception 3 3, regs)
  else if fc =? 6 then
    if len =? 5 then
      if a <? S_REG_HOLDING_NREGS then (pdu, <[Z.to_nat a := n]> regs)
      else (spec_exception 6 2, regs)
    else (spec_exception 6 3, regs)
  else if fc =? 16 then
    if (6 <=? len) && (1 <=? n) && (n <=? 120) && (rd pdu 5 =? 2 * n) then
      if a + n <=? S_REG_HOLDING_NREGS
      then (take 5 pdu,
            take (Z.to_nat a) regs
            ++ ((fun k => word_at pdu (6 + 2 * k)) <$> seqZ 0 n)
            ++ drop (Z.to_nat (a + n)) regs)
      else (spec_exception 16 2, regs)
    else (spec_exception 16 3, regs)
  else (spec_exception fc 1, regs).

(** The requests the specification speaks about: functions 3, 6 and 16, the
    latter with as many bytes as it announces, and unknown functions. *)
Definition spec_request (pdu : list Z) : Prop :=
  rd pdu 0 = 3 \/ rd pdu 0 = 6
  \/ (rd pdu 0 = 16 /\ (6 <= Z.of_nat (length pdu) -> Z.of_nat (length pdu) = 6 + rd pdu 5))
  \/ (rd pdu 0 < 128 /\ forall h, find_handler (rd pdu 0) xFuncHandlers_init <> Some h).

(** ** The handlers meet it *)
Lemma rd_seqZ f n k : 0 <= k < n -> rd (f <$> seqZ 0 n) k = f k.
Proof.
  intros Hk. unfold rd. rewrite list_lookup_fmap, lookup_seqZ_lt by lia. cbn. f_equal. lia.
Qed.

Lemma wire_spec_byte buf o regs a n k : wire_regs buf o regs a n -> 0 <= k < 2 * n ->
  rd buf (o + k) = spec_byte regs a k.
Proof.
  intros W Hk. unfold spec_byte. destruct (W (k / 2) ltac:(lia)) as [E O].
  destruct (Z.even k) eqn:Ev.
  - apply Z.even_spec in Ev as [q ->]. rewrite <- E. f_equal. lia.
  - rewrite <- O. f_equal. assert (Z.odd k = true) as Od by by rewrite <- Z.negb_even, Ev.
    apply Z.odd_spec in Od as [q ->]. lia.
Qed.

Lemma pdu_words buf len o : pdu_of buf len = pdu_of buf len -> 0 <= o -> o + 1 < len ->
  word_at (pdu_of buf len) o = word_at buf (1 + o).
Proof.
  intros _ Ho Hl. unfold word_at. rewrite !rd_pdu_of by lia. do 2 f_equal. lia.
Qed.

Lemma holding_id s : set_data (set_holding (usSRegHoldBuf (sl_data s)) (sl_data s)) s = s.
Proof. by destruct s as [[]]. Qed.

(** What [execute] has to deliver for a request. *)
Definition meets_spec (user : Z -> handler) (s : slave) (pdu : list Z) (m : mb) : Prop :=
  exists e buf' len', execute user (rd pdu 0) 1 m
    = Ok (e, set_data (set_holding (spec_serve (usSRegHoldBuf (sl_data s)) pdu).2 (sl_data s)) s,
          buf', len')
  /\ regs_wf (spec_serve (usSRegHoldBuf (sl_data s)) pdu).2
  /\ Forall is_u8 buf' /\ length buf' = 256%nat /\ 1 <= len' <= MB_PDU_SIZE_MAX
  /\ response_pdu (rd pdu 0) e buf' len' = (spec_serve (usSRegHoldBuf (sl_data s)) pdu).1.

Section refinement.
Context (user : Z -> handler) (m : mb) (pdu : list Z).
Context (Hm : mb_inv m) (Hp : pdu_of (ucRTUBuf (mb_rtu m)) (usLength m) = pdu).
Context (Hlen : usLength m = Z.of_nat (length pdu)).
Context (Hlen1 : 1 <= Z.of_nat (length pdu) <= MB_PDU_SIZE_MAX).
Let buf := ucRTUBuf (mb_rtu m).
Let s := mb_slave m.
Let regs := usSRegHoldBuf (sl_data s).

Lemma Hregs : regs_wf regs.
Proof. destruct (mi_slave m Hm) as [(_ & _ & _ & _ & _ & _ & H) _]. exact H. Qed.
Lemma Hframe : frame_ok buf 1.
Proof. apply rtu_frame_ok, Hm. Qed.
Lemma Hbuf : length buf = 256%nat /\ Forall is_u8 buf.
Proof. split; apply Hm. Qed.
Lemma rd_request i : 0 <= i < Z.of_nat (length pdu) -> rd pdu i = rd buf (1 + i).
Proof. intros Hi. rewrite <- Hp at 1. apply rd_pdu_of. lia. Qed.
Lemma word_request o : 0 <= o -> o + 1 < Z.of_nat (length pdu) ->
  word_at pdu o = word_at buf (1 + o).
Proof.
  intros Ho Hl. unfold word_at. rewrite !rd_request by lia. do 2 f_equal. lia.
Qed.
(** Short requests read past [pdu] in the specification, where it is 0. *)

Lemma exec_table fc h : find_handler fc xFuncHandlers_init = Some (Some h) ->
  execute user fc 1 m = run_handler user h s buf 1 (usLength m).
Proof. intros E. unfold execute. by rewrite (mi_table m Hm), E. Qed.

Lemma exception_response fc c e buf' len' : 0 <= fc < 128 -> e <> MB_EX_NONE ->
  exception_code e = c -> response_pdu fc e buf' len' = spec_exception fc c.
Proof.
  intros Hfc He Hc. unfold response_pdu, spec_exception. rewrite decide_False by done.
  rewrite Hc. f_equal. unfold MB_FUNC_ERROR. rewrite Z.lor_comm.
  change 128 with (1 * 2 ^ 7) at 1. rewrite lor_disjoint by lia. cbn. mlia.
Qed.

(** A request refused: the registers stay. *)
Lemma refuse fc c e buf' len' : rd pdu 0 = fc -> 0 <= fc < 128 ->
  spec_serve regs pdu = (spec_exception fc c, regs) ->
  execute user fc 1 m = Ok (e, s, buf', len') -> e <> MB_EX_NONE -> exception_code e = c ->
  1 <= len' <= MB_PDU_SIZE_MAX -> length buf' = 256%nat -> Forall is_u8 buf' ->
  meets_spec user s pdu m.
Proof.
  intros Hfc Hfr Es Ex He Hc Hl L F.
  exists e, buf', len'. fold regs. rewrite Es, Hfc. cbn [fst snd].
  unfold regs. rewrite holding_id. split; [done|]. split; [apply Hregs|].
  split; [done|]. split; [done|]. split; [done|]. by apply exception_response.
Qed.

Ltac spec_guard b :=
  match goal with
  | |- context [if ?g then _ else _] =>
      replace g with b by (symmetry; rewrite ?andb_true_iff, ?andb_false_iff; lia);
      cbv iota
  end.

Lemma meets_read : rd pdu 0 = 3 -> meets_spec user s pdu m.
Proof.
  intros Hfc. destruct Hbuf as [L F]. pose proof Hframe as Hf.
  pose proof (mi_slave m Hm) as Hs. fold s in Hs.
  set (a := word_at pdu 1). set (n := word_at pdu 3).
  assert (spec_serve regs pdu =
    if (Z.of_nat (length pdu) =? 5) && (1 <=? n) && (n <=? 125) then
    if a + n <=? S_REG_HOLDING_NREGS
    then (3 :: 2 * n :: (spec_byte regs a <$> seqZ 0 (2 * n)), regs)
    else (spec_exception 3 2, regs) else (spec_exception 3 3, regs)) as Es
    by (unfold spec_serve; by rewrite Hfc).
  assert (execute user 3 1 m = eMBFuncReadHoldingRegister s buf 1 (usLength m)) as Ex
    by (by apply (exec_table 3 pReadHolding)).
  destruct (decide (Z.of_nat (length pdu) = 5 /\ 1 <= n <= 125)) as [[H5 Hn]|Hn].
  - assert (word_at buf (1 + 1) = a /\ word_at buf (1 + 3) = n) as [Ea En]
      by (unfold a, n; rewrite !word_request by lia; done).
    rewrite Hlen, H5 in Ex. revert Es. spec_guard true.
    destruct (Z.leb_spec (a + n) S_REG_HOLDING_NREGS) as [Han|Han]; intros Es.
    + destruct (read_holding_ok s buf 1 Hs Hf) as (b & E & Lb & Fb & R0 & R1 & W & _);
        [lia|lia|]. rewrite E in Ex. rewrite Ea, En in *.
      exists MB_EX_NONE, b, (2 + 2 * n). rewrite Hfc. fold regs. rewrite Es. cbn [fst snd].
      unfold regs at 1. rewrite holding_id. split; [done|]. split; [apply Hregs|].
      split; [done|]. split; [lia|]. unfold MB_PDU_SIZE_MAX. split; [lia|].
      unfold response_pdu. rewrite decide_True by done.
      apply rd_ext; [rewrite length_pdu_of; cbn [length];
        rewrite ?length_fmap, ?length_seqZ; lia|].
      intros i Hi. unfold in_range in Hi. rewrite length_pdu_of in Hi by lia.
      rewrite rd_pdu_of by lia. destruct (decide (i = 0)) as [->|]; [done|].
      destruct (decide (i = 1)) as [->|]; [done|].
      transitivity (spec_byte regs a (i - 2)).
      * rewrite <- (wire_spec_byte b (1 + 2) regs a n) by (done || lia). f_equal. lia.
      * rewrite <- (rd_seqZ (spec_byte regs a) (2 * n)) by lia. unfold rd.
        replace (Z.to_nat i) with (S (S (Z.to_nat (i - 2)))) by lia. done.
    + destruct (read_holding_address s buf 1 Hf) as (b & E & Fr & Lb & _);
        [lia|lia|]. rewrite E in Ex.
      apply (refuse 3 2 MB_EX_ILLEGAL_DATA_ADDRESS b 2); (done || apply Fr || (by rewrite Lb)).
  - revert Es. spec_guard false. intros Es.
    rewrite (read_holding_value s buf 1 Hf) in Ex.
    + apply (refuse 3 3 MB_EX_ILLEGAL_DATA_VALUE buf (usLength m)); (done || by rewrite Hlen).
    + destruct (decide (Z.of_nat (length pdu) = 5)); [|lia].
      right. change (1 + 3) with 4. unfold n in Hn. rewrite word_request in Hn by lia. tauto.
Qed.

Lemma meets_write : rd pdu 0 = 6 -> meets_spec user s pdu m.
Proof.
  intros Hfc. destruct Hbuf as [L F]. pose proof Hframe as Hf.
  pose proof (mi_slave m Hm) as Hs. fold s in Hs. pose proof Hregs as [Lr Fr].
  set (a := word_at pdu 1). set (n := word_at pdu 3).
  assert (spec_serve regs pdu =
    if Z.of_nat (length pdu) =? 5 then
    if a <? S_REG_HOLDING_NREGS then (pdu, <[Z.to_nat a := n]> regs)
    else (spec_exception 6 2, regs) else (spec_exception 6 3, regs)) as Es
    by (unfold spec_serve; by rewrite Hfc).
  assert (execute user 6 1 m = eMBFuncWriteHoldingRegister s buf 1 (usLength m)) as Ex
    by (by apply (exec_table 6 pWriteHolding)).
  destruct (Z.eqb_spec (Z.of_nat (length pdu)) 5) as [H5|H5].
  - assert (word_at buf (1 + 1) = a /\ word_at buf (1 + 3) = n) as [Ea En]
      by (unfold a, n; rewrite !word_request by lia; done).
    assert (is_u16 a) as Ha by (rewrite <- Ea; apply frame_word_ok; [done|pdu_unfold; lia]).
    rewrite Hlen, H5 in Ex.
    destruct (Z.ltb_spec a S_REG_HOLDING_NREGS) as [Han|Han].
    + destruct (write_holding_ok s buf 1 Hs Hf) as (h & E & Wf & R & O); [lia|].
      rewrite E in Ex. rewrite Ea, En in *.
      assert (<[Z.to_nat a := n]> regs = h) as Eh.
      { pose proof Wf as [Lh _]. apply rd_ext; [by rewrite length_insert, Lr, Lh|].
        intros i Hi. change (<[Z.to_nat a := n]> regs) with (upd regs a n) in *.
        rewrite in_range_upd in Hi. rewrite (upd_same_rd regs a i n Hi) by mlia.
        unfold in_range in Hi. case_decide; [by subst|]. by rewrite O by lia. }
      exists MB_EX_NONE, buf, 5. rewrite Hfc. fold regs. rewrite Es. cbn [fst snd].
      rewrite Eh. split; [done|]. split; [done|]. split; [done|]. split; [done|].
      unfold MB_PDU_SIZE_MAX. split; [lia|]. unfold response_pdu.
      rewrite decide_True by done. unfold buf. by rewrite <- H5, <- Hlen, Hp.
    + rewrite (write_holding_address s buf 1 Hf) in Ex by lia.
      apply (refuse 6 2 MB_EX_ILLEGAL_DATA_ADDRESS buf 5); done.
  - rewrite (write_holding_value s buf 1 Hf) in Ex by lia.
    apply (refuse 6 3 MB_EX_ILLEGAL_DATA_VALUE buf (usLength m)); (done || by rewrite Hlen).
Qed.

Lemma rd_splice a n w i : regs_wf regs -> 0 <= a -> 0 <= n -> a + n <= S_REG_HOLDING_NREGS ->
  0 <= i < S_REG_HOLDING_NREGS ->
  rd (take (Z.to_nat a) regs ++ (w <$> seqZ 0 n) ++ drop (Z.to_nat (a + n)) regs) i
  = if decide (a <= i < a + n) then w (i - a) else rd regs i.
Proof.
  intros [Lr _] Ha Hn Han Hi. unfold S_REG_HOLDING_NREGS in *. unfold rd at 1.
  destruct (decide (i < a)).
  - rewrite decide_False, lookup_app_l, lookup_take_lt
      by (rewrite ?length_take; lia). done.
  - rewrite lookup_app_r by (rewrite length_take; lia). rewrite length_take, Nat.min_l by lia.
    case_decide.
    + rewrite lookup_app_l by (rewrite length_fmap, length_seqZ; lia).
      rewrite list_lookup_fmap, lookup_seqZ_lt by lia. cbn. f_equal. lia.
    + rewrite lookup_app_r by (rewrite length_fmap, length_seqZ; lia).
      rewrite length_fmap, length_seqZ, lookup_drop. unfold rd. do 2 f_equal. lia.
Qed.

Lemma meets_multi : rd pdu 0 = 16 ->
  (6 <= Z.of_nat (length pdu) -> Z.of_nat (length pdu) = 6 + rd pdu 5) ->
  meets_spec user s pdu m.
Proof.
  intros Hfc Hbc. destruct Hbuf as [L F]. pose proof Hframe as Hf.
  pose proof (mi_slave m Hm) as Hs. fold s in Hs. pose proof Hregs as Hrg.
  set (a := word_at pdu 1). set (n := word_at pdu 3).
  set (h' := take (Z.to_nat a) regs ++ ((fun k => word_at pdu (6 + 2 * k)) <$> seqZ 0 n)
          ++ drop (Z.to_nat (a + n)) regs).
  assert (spec_serve regs pdu =
    if (6 <=? Z.of_nat (length pdu)) && (1 <=? n) && (n <=? 120) && (rd pdu 5 =? 2 * n) then
    if a + n <=? S_REG_HOLDING_NREGS then (take 5 pdu, h')
    else (spec_exception 16 2, regs) else (spec_exception 16 3, regs)) as Es
    by (unfold spec_serve; by rewrite Hfc).
  assert (execute user 16 1 m = eMBFuncWriteMultipleHoldingRegister s buf 1 (usLength m))
    as Ex by (by apply (exec_table 16 pWriteMultiple)).
  destruct (decide (6 <= Z.of_nat (length pdu) /\ 1 <= n <= 120 /\ rd pdu 5 = 2 * n))
    as [(H6 & Hn & Hb)|Hn].
  - assert (word_at buf (1 + 1) = a /\ word_at buf (1 + 3) = n) as [Ea En]
      by (unfold a, n; rewrite !word_request by lia; done).
    assert (rd buf (1 + 5) = 2 * n) as Eb by (by rewrite <- rd_request by lia).
    assert (is_u16 a) as Ha by (rewrite <- Ea; apply frame_word_ok; [done|pdu_unfold; lia]).
    revert Es. spec_guard true.
    destruct (Z.leb_spec (a + n) S_REG_HOLDING_NREGS) as [Han|Han]; intros Es.
    + destruct (write_multiple_ok s buf 1 Hs Hf (usLength m)) as (h & E & Wf & W & O);
        [lia|lia|by rewrite En|lia|]. rewrite E in Ex. rewrite Ea, En in *.
      assert (h' = h) as Eh.
      { pose proof Wf as [Lh _]. pose proof Hrg as [Lr _]. unfold S_REG_HOLDING_NREGS in *.
        apply rd_ext.
        - unfold h'. rewrite !length_app, length_fmap, length_take, length_drop, length_seqZ.
          mlia.
        - intros i Hi. assert (0 <= i < S_REG_HOLDING_NREGS) as Hi'.
          { unfold in_range, h' in Hi.
            rewrite !length_app, length_fmap, length_take, length_drop, length_seqZ in Hi.
            unfold S_REG_HOLDING_NREGS. mlia. }
          unfold h'. rewrite rd_splice by (done || mlia). case_decide as Hd.
          + destruct (W (i - a) ltac:(lia)) as [W0 W1]. replace (a + (i - a)) with i in * by lia.
            rewrite word_request by lia. unfold word_at.
            replace (1 + (6 + 2 * (i - a))) with (1 + 6 + 2 * (i - a)) by lia.
            rewrite W0, W1. lia.
          + unfold S_REG_HOLDING_NREGS in *. rewrite O by lia. done. }
      exists MB_EX_NONE, buf, 5. rewrite Hfc. fold regs. rewrite Es. cbn [fst snd].
      rewrite Eh. split; [done|]. split; [done|]. split; [done|]. split; [done|].
      unfold MB_PDU_SIZE_MAX. split; [lia|]. unfold response_pdu.
      rewrite decide_True by done. rewrite <- Hp at 1. unfold pdu_of, buf.
      rewrite take_take. f_equal. lia.
    + rewrite (write_multiple_address s buf 1 Hf) in Ex by (rewrite ?En; lia).
      apply (refuse 16 2 MB_EX_ILLEGAL_DATA_ADDRESS buf (usLength m)); (done || by rewrite Hlen).
  - revert Es. spec_guard false. intros Es.
    rewrite (write_multiple_value s buf 1 Hf) in Ex.
    + apply (refuse 16 3 MB_EX_ILLEGAL_DATA_VALUE buf (usLength m)); (done || by rewrite Hlen).
    + destruct (decide (6 <= Z.of_nat (length pdu))) as [H6|]; [|lia]. right.
      unfold n in Hn. rewrite word_request, rd_request in Hn by lia.
      change (1 + 3) with 4 in *. change (1 + 5) with 6 in *. tauto.
Qed.

Lemma meets_unknown : 0 <= rd pdu 0 < 128 ->
  (forall h, find_handler (rd pdu 0) xFuncHandlers_init <> Some h) -> meets_spec user s pdu m.
Proof.
  intros Hfc Hno. destruct Hbuf as [L F].
  assert (find_handler (rd pdu 0) xFuncHandlers_init = None) as E
    by (destruct (find_handler _ _) eqn:Ef; [by destruct (Hno o)|done]).
  apply (refuse (rd pdu 0) 1 MB_EX_ILLEGAL_FUNCTION buf (usLength m)); try done.
  - unfold spec_serve.
    destruct (Z.eqb_spec (rd pdu 0) 3) as [H|]; [by rewrite H in E|].
    destruct (Z.eqb_spec (rd pdu 0) 6) as [H|]; [by rewrite H in E|].
    destruct (Z.eqb_spec (rd pdu 0) 16) as [H|]; [by rewrite H in E|]. done.
  - unfold execute. by rewrite (mi_table m Hm), E.
  - by rewrite Hlen.
Qed.
End refinement.

(** After start-up, the t3.5 gap and one poll bring the slave to listening. *)
Lemma startup_listens user addr baud :
  MB_ADDRESS_MIN <= addr <= MB_ADDRESS_MAX -> 1 <= baud < 2147483648 ->
  exists m0 r m, mb_start addr baud = Ok (MB_ENOERR, m0)
  /\ xMBRTUTimerT35Expired (mb_rtu m0) = Ok r
  /\ eMBPoll user (with_rtu r m0) = Ok (Some (MB_ENOERR, m))
  /\ mb_inv m /\ listening (mb_rtu m) /\ ucMBAddress m = addr /\ mb_slave m = mb_slave m0.
Proof.
  intros Ha Hb. destruct (mb_start_ok addr baud Ha Hb) as (m0 & E & Hm & Had & Hs & Hrx & Hev).
  pose proof (mi_rtu m0 Hm) as Hr.
  destruct (timer_expired_ok (mb_rtu m0) Hr) as (r & Et & Hr' & S' & B').
  { apply inv_timer; [done|]. by rewrite Hs. }
  assert (xSlaveOsEvent r = event_bit EV_READY /\ rx_int r = true) as [Ev Rx].
  { unfold xMBRTUTimerT35Expired in Et. rewrite Hs, bind_ret_l in Et. injection Et as <-.
    rtu_step. by rewrite Hev. }
  assert (mb_inv (with_rtu r m0)) as Hm1 by (by apply inv_with_rtu).
  exists m0, r. eexists. split; [done|]. split; [done|].
  rewrite (poll_one_event user _ EV_READY) by done. split; [done|].
  assert (rtu_inv (set_events r 0)) as Hr2 by (apply set_events_inv; [done|lia]).
  split; [|split; [by split|done]].
  apply (inv_with_rtu (with_rtu r m0)); [done|done|].
  change (mb_rtu (with_rtu r m0)) with r. by rewrite Ev.
Qed.

(** ** Properties *)

(** C2: The slave implements the register service: for every request of
    functions 3, 6 and 16 (and every unknown function), however it is formed,
    the bytes that arrive on an idle line are answered by exactly the
    specified response frame, the holding registers become the specified ones,
    no other data changes, and the slave is listening again. *)
Theorem slave_refines_spec user m pdu rpdu regs' :
  mb_inv m -> listening (mb_rtu m) -> Forall is_u8 pdu ->
  1 <= Z.of_nat (length pdu) <= MB_PDU_SIZE_MAX -> spec_request pdu ->
  spec_serve (usSRegHoldBuf (sl_data (mb_slave m))) pdu = (rpdu, regs') ->
  exists m', serve user (ser_frame (ucMBAddress m) pdu) (length rpdu + 4) m = Ok (Some m')
  /\ mb_inv m' /\ listening (mb_rtu m') /\ ucMBAddress m' = ucMBAddress m
  /\ line (mb_rtu m') = line (mb_rtu m) ++ ser_frame (ucMBAddress m) rpdu
  /\ sl_data (mb_slave m') = set_holding regs' (sl_data (mb_slave m)).
Proof.
  intros Hm Hl Hpdu Hlen Hreq Es.
  assert (is_u8 (rd pdu 0)) as Hfc
    by (apply rd_Forall; [done|]; unfold in_range; lia).
  destruct (serve_ok user m pdu rpdu (set_data (set_holding regs' (sl_data (mb_slave m)))
    (mb_slave m)) Hm Hl Hpdu Hlen) as (m' & E & Hm' & Hl' & Hs' & Ha' & Hln).
  - intros m1 Hm1 Hs1 Hl1 _ Hp1.
    assert (meets_spec user (mb_slave m1) pdu m1) as (e & b & l & Ex & Wf & Fb & Lb & Hb & Hr).
    { destruct Hreq as [H|[H|[[H H']|[H H']]]].
      - by apply meets_read.
      - by apply meets_write.
      - by apply meets_multi.
      - apply meets_unknown; (done || mlia). }
    rewrite Hs1, Es in *. cbn [fst snd] in *. exists e, b, l. split; [done|].
    split; [|done]. apply slave_wf_holding; [apply Hm|done].
  - exists m'. repeat (split; [done|]). by rewrite Hs'.
Qed.

Lemma slave_refines_spec_witness :
  exists m m', mb_inv m
  /\ serve no_user_handlers (ser_frame 1 [3; 0; 8; 0; 1]) 8 m = Ok (Some m')
  /\ line (mb_rtu m') = line (mb_rtu m) ++ ser_frame 1 [3; 2; 0; 0].
Proof.
  destruct (startup_listens no_user_handlers 1 9600) as (m0 & r & m & E0 & _ & _ & Hm & Hl & Ha & Hs);
    [unfold MB_ADDRESS_MIN, MB_ADDRESS_MAX; lia|lia|].
  assert (mb_slave m0 = slave_init) as Hs0 by (cbv in E0; by injection E0 as <-).
  destruct (slave_refines_spec no_user_handlers m [3; 0; 8; 0; 1] [3; 2; 0; 0] regs_init)
    as (m' & E & _ & _ & _ & Ln & _); try done.
  - repeat constructor; mlia.
  - by left.
  - rewrite Hs, Hs0. by vm_compute.
  - rewrite Ha in *. exists m, m'. done.
Defined.
