(* ===== verification/Device.v ===== *)
(** * Devices (src/device.c)

    The generic layer between an application and a driver: flags, the count of
    opens, and the driver's operations, any of which may be missing.  A driver
    is an instance of [DeviceOps]; its data contains the device header.  The
    registry of names is left out. *)
From S2P Require Import Prelude.

Definition RT_EOK : Z := 0.
Definition RT_ERROR : Z := 1.
Definition RT_EBUSY : Z := 7.
Definition RT_EIO : Z := 8.
Definition RT_ENOSYS : Z := 6.

Definition RT_DEVICE_FLAG_STANDALONE : Z := 0x008.
Definition RT_DEVICE_FLAG_ACTIVATED : Z := 0x010.
Definition RT_DEVICE_FLAG_SUSPENDED : Z := 0x020.
Definition RT_DEVICE_FLAG_STREAM : Z := 0x040.
Definition RT_DEVICE_FLAG_INT_RX : Z := 0x100.
Definition RT_DEVICE_FLAG_DMA_RX : Z := 0x200.
Definition RT_DEVICE_FLAG_INT_TX : Z := 0x400.
Definition RT_DEVICE_FLAG_DMA_TX : Z := 0x800.
Definition RT_DEVICE_OFLAG_CLOSE : Z := 0x000.
Definition RT_DEVICE_OFLAG_RDWR : Z := 0x003.
Definition RT_DEVICE_OFLAG_OPEN : Z := 0x008.
Definition RT_DEVICE_OFLAG_MASK : Z := 0xf0f.

Definition has (flags bit : Z) : bool := negb (Z.land flags bit =? 0).

(** [struct rt_device]: its flags, the flags it was opened with, the count of
    opens (8 bit) and whether a receive callback is set. *)
Record device : Type := Device { flag : Z; open_flag : Z; ref_count : Z; rx_indicate : bool }.
Definition with_flag (v : Z) (d : device) : device := Device v (open_flag d) (ref_count d) (rx_indicate d).
Definition with_open_flag (v : Z) (d : device) : device := Device (flag d) v (ref_count d) (rx_indicate d).
Definition with_count (v : Z) (d : device) : device := Device (flag d) (open_flag d) v (rx_indicate d).

(** What [rt_device_register] leaves. *)
Definition registered (flags : Z) : device := Device flags 0 0 false.

Class DeviceOps (D : Type) : Type := {
  dev : D -> device;
  set_dev : device -> D -> D;
  device_init : option (D -> res (Z * D));
  device_open : option (Z -> D -> res (Z * D));
  device_close : option (D -> res (Z * D));
  device_read : option (Z -> D -> res (list Z * D));
  device_write : option (list Z -> D -> res (Z * D));
  device_control : option (Z -> Z -> D -> res (Z * D)) }.

Section operations.
Context {D : Type} `{!DeviceOps D}.

Definition on_dev (f : device -> device) (d : D) : D := set_dev (f (dev d)) d.

Definition rt_device_init (d : D) : res (Z * D) :=
  match device_init with
  | Some init =>
      if has (flag (dev d)) RT_DEVICE_FLAG_ACTIVATED then Ok (RT_EOK, d) else
      '(r, d) ← init d;
      if negb (r =? RT_EOK) then Ok (r, d)
      else Ok (r, on_dev (fun x => with_flag (Z.lor (flag x) RT_DEVICE_FLAG_ACTIVATED) x) d)
  | None => Ok (RT_EOK, d)
  end.

(** Initialise on first use; an error leaves the device as the driver left it. *)
Definition activate (d : D) : res (Z * D) :=
  if has (flag (dev d)) RT_DEVICE_FLAG_ACTIVATED then Ok (RT_EOK, d) else
  '(r, d) ← match device_init with Some init => init d | None => Ok (RT_EOK, d) end;
  if negb (r =? RT_EOK) then Ok (r, d)
  else Ok (RT_EOK, on_dev (fun x => with_flag (Z.lor (flag x) RT_DEVICE_FLAG_ACTIVATED) x) d).

Definition rt_device_open (oflag : Z) (d : D) : res (Z * D) :=
  '(r, d) ← activate d;
  if negb (r =? RT_EOK) then Ok (r, d) else
  if has (flag (dev d)) RT_DEVICE_FLAG_STANDALONE && has (open_flag (dev d)) RT_DEVICE_OFLAG_OPEN then Ok (- RT_EBUSY, d) else
  '(r, d) ← match device_open with
            | Some op => op oflag d
            | None => Ok (RT_EOK, on_dev (with_open_flag (Z.land oflag RT_DEVICE_OFLAG_MASK)) d)
            end;
  if (r =? RT_EOK) || (r =? - RT_ENOSYS) then
    let d := on_dev (fun x => with_count (u8 (ref_count x + 1)) (with_open_flag (Z.lor (open_flag x) RT_DEVICE_OFLAG_OPEN) x)) d in
    if ref_count (dev d) =? 0 then Fault AssertFail else Ok (r, d)
  else Ok (r, d).

Definition rt_device_close (d : D) : res (Z * D) :=
  if ref_count (dev d) =? 0 then Ok (- RT_ERROR, d) else
  let d := on_dev (fun x => with_count (ref_count x - 1) x) d in
  if negb (ref_count (dev d) =? 0) then Ok (RT_EOK, d) else
  '(r, d) ← match device_close with Some op => op d | None => Ok (RT_EOK, d) end;
  if (r =? RT_EOK) || (r =? - RT_ENOSYS) then Ok (r, on_dev (with_open_flag RT_DEVICE_OFLAG_CLOSE) d)
  else Ok (r, d).

(** The bytes read; none when the device is not open or cannot be read. *)
Definition rt_device_read (size : Z) (d : D) : res (list Z * D) :=
  if ref_count (dev d) =? 0 then Ok ([], d) else
  match device_read with Some op => op size d | None => Ok ([], d) end.
Definition rt_device_write (bytes : list Z) (d : D) : res (Z * D) :=
  if ref_count (dev d) =? 0 then Ok (0, d) else
  match device_write with Some op => op bytes d | None => Ok (0, d) end.
Definition rt_device_control (cmd arg : Z) (d : D) : res (Z * D) :=
  match device_control with Some op => op cmd arg d | None => Ok (- RT_ENOSYS, d) end.
Definition rt_device_set_rx_indicate (on : bool) (d : D) : D :=
  on_dev (fun x => Device (flag x) (open_flag x) (ref_count x) on) d.
End operations.

(** ** Flags *)

Lemma has_lor a b bit : has (Z.lor a b) bit = has a bit || has b bit.
Proof.
  unfold has. rewrite <- negb_andb, Z.land_lor_distr_l. f_equal.
  destruct (Z.eqb_spec (Z.land a bit) 0) as [->|Ha], (Z.eqb_spec (Z.land b bit) 0) as [->|Hb]; cbn; try done;
  apply Z.eqb_neq; rewrite Z.lor_eq_0_iff; tauto.
Qed.

Lemma has_land a m bit : has (Z.land a m) bit = has a (Z.land m bit).
Proof. unfold has. by rewrite Z.land_assoc. Qed.

Lemma has_0_r a : has a 0 = false.
Proof. unfold has. by rewrite Z.land_0_r. Qed.
