(* ===== verification/SerialFifo.v ===== *)
(** * The receive FIFO of a serial port (components/drivers/serial/serial.c)

    A ring buffer between the interrupt, which puts bytes in, and the reader.
    In interrupt mode a byte is put at a time and one place stays free; in DMA
    mode the controller writes a block and the indices follow it, and all
    places are used.  Both are shown to be a queue that keeps its newest
    bytes. *)
From Stdlib Require Import ZifyBool.
From S2P Require Import Prelude.

(** [struct rt_serial_rx_fifo] *)
Record rx_fifo : Type := Fifo { buffer : list Z; put_index : Z; get_index : Z; is_full : bool }.

(** ** Interrupt mode *)

(** One byte out, if there is one. *)
Definition fifo_get (bufsz : Z) (f : rx_fifo) : res (option (Z * rx_fifo)) :=
  if (get_index f =? put_index f) && negb (is_full f) then Ok None else
  ch ← get (buffer f) (get_index f);
  let g := u16 (get_index f + 1) in
  let g := if bufsz <=? g then 0 else g in
  Ok (Some (Z.land ch 0xff, Fifo (buffer f) (put_index f) g false)).

Fixpoint fifo_read (length : nat) (bufsz : Z) (f : rx_fifo) : res (list Z * rx_fifo) :=
  match length with
  | O => Ok ([], f)
  | S length' =>
      r ← fifo_get bufsz f;
      match r with
      | None => Ok ([], f)
      | Some (ch, f) => '(l, f) ← fifo_read length' bufsz f; Ok (ch :: l, f)
      end
  end.

(** One byte in; a full FIFO drops its oldest. *)
Definition fifo_put (bufsz ch : Z) (f : rx_fifo) : res rx_fifo :=
  b ← set (buffer f) (put_index f) (u8 ch);
  let p := u16 (put_index f + 1) in
  let p := if bufsz <=? p then 0 else p in
  if p =? get_index f then
    let g := u16 (get_index f + 1) in
    Ok (Fifo b p (if bufsz <=? g then 0 else g) true)
  else Ok (Fifo b p (get_index f) (is_full f)).

Definition _serial_fifo_calc_recved_len (bufsz : Z) (f : rx_fifo) : Z :=
  if put_index f =? get_index f then (if negb (is_full f) then 0 else bufsz)
  else if get_index f <? put_index f then put_index f - get_index f
  else bufsz - (get_index f - put_index f).

Definition rx_length (bufsz : Z) (f : rx_fifo) : Z :=
  if get_index f <=? put_index f then put_index f - get_index f
  else bufsz - (get_index f - put_index f).

Definition empty_fifo (bufsz : Z) : rx_fifo := Fifo (replicate (Z.to_nat bufsz) 0) 0 0 false.

(** ** DMA mode *)

Definition rt_dma_recv_update_get_index (bufsz len : Z) (f : rx_fifo) : res rx_fifo :=
  if negb (len <=? _serial_fifo_calc_recved_len bufsz f) then Fault AssertFail else
  let full := if is_full f && negb (len =? 0) then false else is_full f in
  let g := u16 (get_index f + len) in
  Ok (Fifo (buffer f) (put_index f) (if bufsz <=? g then g mod bufsz else g) full).

Definition rt_dma_recv_update_put_index (bufsz len : Z) (f : rx_fifo) : rx_fifo :=
  let p := u16 (put_index f + len) in
  let '(p, full) :=
    if get_index f <=? put_index f then
      if bufsz <=? p then
        let p := p mod bufsz in (p, if get_index f <=? p then true else is_full f)
      else (p, is_full f)
    else
      if get_index f <=? p then ((if bufsz <=? p then p mod bufsz else p), true)
      else (p, is_full f) in
  let g := if full : bool then p else get_index f in
  Fifo (buffer f) p (if bufsz <=? g then 0 else g) full.

(** The bytes of a copy out of the buffer. *)
Definition copy_out (b : list Z) (from n : Z) : res (list Z) := mapR (get b) (seqZ from n).

(** The branch of a configured buffer size. *)
Definition _serial_dma_rx (length bufsz : Z) (f : rx_fifo) : res (list Z * rx_fifo) :=
  let fifo_recved_len := _serial_fifo_calc_recved_len bufsz f in
  let recv_len := if length <? fifo_recved_len then length else fifo_recved_len in
  data ← (if get_index f + recv_len <? bufsz then copy_out (buffer f) (get_index f) recv_len
          else
            l ← copy_out (buffer f) (get_index f) (bufsz - get_index f);
            l' ← copy_out (buffer f) 0 (recv_len + get_index f - bufsz);
            Ok (l ++ l'));
  f ← rt_dma_recv_update_get_index bufsz recv_len f;
  Ok (data, f).

(** ** The bytes between the indices *)

Definition next (sz i : Z) : Z := if sz <=? i + 1 then 0 else i + 1.
Fixpoint window (b : list Z) (sz start : Z) (n : nat) : list Z :=
  match n with O => [] | S n' => rd b start :: window b sz (next sz start) n' end.
Definition contents (sz : Z) (f : rx_fifo) : list Z :=
  window (buffer f) sz (get_index f) (Z.to_nat (_serial_fifo_calc_recved_len sz f)).

(** The newest [cap] elements. *)
Definition newest (cap : Z) (l : list Z) : list Z := drop (length l - Z.to_nat cap) l.

Lemma newest_id cap l : Z.of_nat (length l) <= cap -> newest cap l = l.
Proof. intros. unfold newest. by replace (length l - Z.to_nat cap)%nat with 0%nat by lia. Qed.

Lemma newest_app cap a b : newest cap (newest cap a ++ b) = newest cap (a ++ b).
Proof.
  unfold newest. destruct (decide (length a <= Z.to_nat cap)%nat).
  - by replace (length a - Z.to_nat cap)%nat with 0%nat by lia.
  - rewrite !length_app, length_drop.
    replace (length a - (length a - Z.to_nat cap) + length b - Z.to_nat cap)%nat with (length b) by lia.
    replace (length a + length b - Z.to_nat cap)%nat with (length a - Z.to_nat cap + length b)%nat by lia.
    by rewrite <- drop_drop, (drop_app_le a) by lia.
Qed.

Record fifo_range (sz : Z) (f : rx_fifo) : Prop := {
  fr_size : 2 <= sz < 65536;
  fr_len : Z.of_nat (length (buffer f)) = sz;
  fr_put : 0 <= put_index f < sz;
  fr_get : 0 <= get_index f < sz;
  fr_bytes : Forall is_u8 (buffer f) }.
(** In interrupt mode a full FIFO has one free place. *)
Definition fifo_ok (sz : Z) (f : rx_fifo) : Prop :=
  fifo_range sz f /\ (get_index f = put_index f -> is_full f = false).
(** In DMA mode it has none. *)
Definition dma_ok (sz : Z) (f : rx_fifo) : Prop :=
  fifo_range sz f /\ (is_full f = true -> get_index f = put_index f).

Lemma next_u16 sz i : 0 <= i < sz -> sz < 65536 ->
  (if sz <=? u16 (i + 1) then 0 else u16 (i + 1)) = next sz i.
Proof. intros. unfold next. by rewrite u16_id by mlia. Qed.

Lemma next_range sz i : 0 <= i < sz -> 0 <= next sz i < sz.
Proof. unfold next. case_match; lia. Qed.

Lemma iter_next sz n i : 0 <= i < sz -> Z.of_nat n <= sz ->
  Nat.iter n (next sz) i = if i + Z.of_nat n <? sz then i + Z.of_nat n else i + Z.of_nat n - sz.
Proof.
  intros Hi. induction n as [|n IH]; intros Hn.
  - change (Nat.iter 0 (next sz) i) with i. case_match; lia.
  - rewrite Nat.iter_succ, IH by lia. unfold next. repeat case_match; lia.
Qed.

Lemma length_window b sz i n : length (window b sz i n) = n.
Proof. revert i. induction n as [|n IH]; intros i; cbn; [done|]. by rewrite IH. Qed.

Lemma window_app b sz i n m :
  window b sz i (n + m) = window b sz i n ++ window b sz (Nat.iter n (next sz) i) m.
Proof.
  revert i. induction n as [|n IH]; intros i; cbn [window app Nat.add]; [done|].
  by rewrite IH, <- Nat.iter_succ_r.
Qed.

Lemma window_ext b b' sz i n : 
  (forall k, (k < n)%nat -> rd b (Nat.iter k (next sz) i) = rd b' (Nat.iter k (next sz) i)) ->
  window b sz i n = window b' sz i n.
Proof.
  revert i. induction n as [|n IH]; intros i H; cbn [window]; [done|]. f_equal.
  - apply (H 0%nat). lia.
  - apply IH. intros k Hk. specialize (H (S k)). rewrite Nat.iter_succ_r in H. apply H. lia.
Qed.

Lemma length_contents sz f : length (contents sz f) = Z.to_nat (_serial_fifo_calc_recved_len sz f).
Proof. apply length_window. Qed.

(** The number of bytes and the indices determine each other. *)
Lemma recved_len_range sz f : fifo_range sz f ->
  0 <= _serial_fifo_calc_recved_len sz f <= sz /\
  put_index f = Nat.iter (Z.to_nat (_serial_fifo_calc_recved_len sz f)) (next sz) (get_index f).
Proof.
  intros [Hs Hl Hp Hg _].
  assert (Hn : 0 <= _serial_fifo_calc_recved_len sz f <= sz)
    by (unfold _serial_fifo_calc_recved_len; repeat case_match; lia).
  split; [done|]. rewrite iter_next by lia. rewrite Z2Nat.id by lia.
  unfold _serial_fifo_calc_recved_len. repeat case_match; lia.
Qed.

Lemma recved_len_ok sz f : fifo_ok sz f ->
  _serial_fifo_calc_recved_len sz f = rx_length sz f /\ _serial_fifo_calc_recved_len sz f < sz.
Proof.
  intros [[Hs Hl Hp Hg _] Hf]. unfold _serial_fifo_calc_recved_len, rx_length.
  repeat case_match; destruct (is_full f); cbn in *; try lia; naive_solver lia.
Qed.

Lemma recved_len_zero sz f : fifo_range sz f ->
  (_serial_fifo_calc_recved_len sz f =? 0) = (get_index f =? put_index f) && negb (is_full f).
Proof.
  intros [Hs Hl Hp Hg _]. unfold _serial_fifo_calc_recved_len.
  destruct (is_full f); repeat case_match; cbn in *; lia.
Qed.

(** The number of bytes after an index has moved. *)
Lemma recved_len_next sz b p g full : 0 <= p < sz -> 0 <= g < sz ->
  _serial_fifo_calc_recved_len sz (Fifo b p (next sz g) false) =
  if p =? g then sz - 1 else _serial_fifo_calc_recved_len sz (Fifo b p g full) - 1.
Proof. intros. unfold _serial_fifo_calc_recved_len, next. cbn. repeat case_match; lia. Qed.

Lemma fifo_get_spec sz f : fifo_ok sz f ->
  match contents sz f with
  | [] => fifo_get sz f = Ok None
  | ch :: l => exists f', fifo_get sz f = Ok (Some (ch, f')) /\ fifo_ok sz f' /\ contents sz f' = l
  end.
Proof.
  intros Hok. pose proof (recved_len_zero sz f (proj1 Hok)) as H0.
  pose proof (recved_len_range sz f (proj1 Hok)) as [Hr _].
  unfold fifo_get. rewrite <- H0. destruct Hok as [[Hs Hl Hp Hg Hb] Hf]. unfold contents.
  destruct (Z.eqb_spec (_serial_fifo_calc_recved_len sz f) 0) as [E|E]; [by rewrite E|].
  replace (Z.to_nat (_serial_fifo_calc_recved_len sz f))
    with (S (Z.to_nat (_serial_fifo_calc_recved_len sz f - 1))) by lia. cbn [window].
  rewrite get_in, bind_ret_l, next_u16 by (unfold in_range; lia).
  assert (Hch : is_u8 (rd (buffer f) (get_index f))) by (apply rd_Forall; unfold in_range; auto with lia).
  eexists. rewrite land_ff. split; [by rewrite Z.mod_small by done|].
  pose proof (next_range sz (get_index f) Hg). split; [split; [by constructor|done]|].
  cbn [buffer get_index]. f_equal.
  rewrite (recved_len_next sz _ (put_index f) (get_index f) (is_full f)) by done. destruct f as [b p g full]; cbn in *.
  unfold _serial_fifo_calc_recved_len in *. cbn in *. repeat case_match; lia.
Qed.

Lemma fifo_put_spec sz ch f : fifo_ok sz f ->
  exists f', fifo_put sz ch f = Ok f' /\ fifo_ok sz f' /\
    contents sz f' = newest (sz - 1) (contents sz f ++ [u8 ch]).
Proof.
  intros Hok. pose proof (recved_len_range sz f (proj1 Hok)) as [Hr Hput].
  pose proof (recved_len_ok sz f Hok) as [_ Hlt].
  destruct Hok as [[Hs Hl Hp Hg Hb] Hf]. unfold fifo_put.
  rewrite set_in, bind_ret_l, !next_u16 by (unfold in_range; lia).
  set (n := _serial_fifo_calc_recved_len sz f) in *. set (b := upd (buffer f) (put_index f) (u8 ch)).
  assert (Hw : window b sz (get_index f) (Z.to_nat n + 1) = contents sz f ++ [u8 ch]).
  { rewrite window_app, <- Hput. f_equal.
    - apply window_ext. intros k Hk. unfold b. pose proof (iter_next sz k (get_index f) Hg ltac:(lia)) as Hi.
      rewrite Hput, (iter_next sz (Z.to_nat n)) in * by lia.
      apply rd_upd_ne; rewrite ?Hi; repeat case_match; lia.
    - cbn [window]. unfold b. by rewrite rd_upd_eq by (unfold in_range; lia). }
  assert (Hnp := next_range sz _ Hp). assert (Hng := next_range sz _ Hg).
  assert (Hlb : length b = length (buffer f)) by apply length_upd.
  assert (Hbb : Forall is_u8 b) by (apply Forall_upd; auto with machine).
  assert (Hlc : length (contents sz f) = Z.to_nat n) by apply length_contents.
  unfold newest. rewrite length_app, Hlc. cbn [length].
  destruct (Z.eqb_spec (next sz (put_index f)) (get_index f)) as [E|E]; eexists; (split; [done|]).
  - split; [split; [constructor; cbn; lia || done|cbn; unfold next in *; repeat case_match; lia]|].
    assert (n = sz - 1).
    { unfold n, _serial_fifo_calc_recved_len, next in *. repeat case_match; lia. }
    replace (Z.to_nat n + 1 - Z.to_nat (sz - 1))%nat with 1%nat by lia.
    rewrite <- Hw, Nat.add_1_r. cbn [window drop]. rewrite drop_0. unfold contents. cbn. f_equal.
    unfold _serial_fifo_calc_recved_len, next in *. cbn. repeat case_match; lia.
  - split; [split; [constructor; cbn; lia || done|cbn; intros; congruence]|].
    assert (n < sz - 1).
    { unfold n, _serial_fifo_calc_recved_len, next in *. repeat case_match; lia. }
    replace (Z.to_nat n + 1 - Z.to_nat (sz - 1))%nat with 0%nat by lia.
    rewrite drop_0, <- Hw. unfold contents. cbn. f_equal.
    unfold n, _serial_fifo_calc_recved_len, next in *. cbn. repeat case_match; lia.
Qed.

Lemma fifo_read_spec sz n f : fifo_ok sz f ->
  exists f', fifo_read n sz f = Ok (take n (contents sz f), f') /\ fifo_ok sz f' /\
    contents sz f' = drop n (contents sz f).
Proof.
  revert f. induction n as [|n IH]; intros f Hf; cbn [fifo_read].
  - exists f. by rewrite drop_0.
  - pose proof (fifo_get_spec sz f Hf) as Hg. destruct (contents sz f) as [|ch l] eqn:E.
    + rewrite Hg, bind_ret_l. exists f. by rewrite E.
    + destruct Hg as (f1 & -> & Hf1 & <-). rewrite bind_ret_l.
      destruct (IH f1 Hf1) as (f2 & -> & Hf2 & Hc). rewrite bind_ret_l. by exists f2.
Qed.

Lemma empty_fifo_ok sz : 2 <= sz < 65536 -> fifo_ok sz (empty_fifo sz) /\ contents sz (empty_fifo sz) = [].
Proof.
  intros Hs. split; [|done]. split; [|done].
  constructor; cbn; rewrite ?length_replicate; try lia. apply Forall_replicate. mlia.
Qed.

(** *** Runs of the interrupt and the reader *)

Inductive fifo_op : Set := Receive (ch : Z) | Read (n : nat).

Fixpoint fifo_run (sz : Z) (ops : list fifo_op) (f : rx_fifo) : res (list (list Z) * rx_fifo) :=
  match ops with
  | [] => Ok ([], f)
  | Receive ch :: ops' => f ← fifo_put sz ch f; fifo_run sz ops' f
  | Read n :: ops' =>
      '(l, f) ← fifo_read n sz f;
      '(ls, f) ← fifo_run sz ops' f; Ok (l :: ls, f)
  end.

(** The specification: a queue that keeps the newest [cap] bytes. *)
Fixpoint queue_run (cap : Z) (ops : list fifo_op) (q : list Z) : list (list Z) * list Z :=
  match ops with
  | [] => ([], q)
  | Receive ch :: ops' => queue_run cap ops' (newest cap (q ++ [u8 ch]))
  | Read n :: ops' => let '(ls, q') := queue_run cap ops' (drop n q) in (take n q :: ls, q')
  end.

Lemma fifo_run_spec sz ops f : fifo_ok sz f ->
  exists f', fifo_run sz ops f = Ok (fst (queue_run (sz - 1) ops (contents sz f)), f') /\ fifo_ok sz f' /\
    contents sz f' = snd (queue_run (sz - 1) ops (contents sz f)).
Proof.
  revert f. induction ops as [|[ch|n] ops IH]; intros f Hf; cbn [fifo_run queue_run].
  - by exists f.
  - destruct (fifo_put_spec sz ch f Hf) as (f1 & -> & Hf1 & <-). apply IH, Hf1.
  - destruct (fifo_read_spec sz n f Hf) as (f1 & -> & Hf1 & Hc). rewrite bind_ret_l.
    destruct (IH f1 Hf1) as (f2 & -> & Hf2 & Hc2). rewrite bind_ret_l, <- Hc.
    destruct (queue_run _ _ _) as [ls q]. by exists f2.
Qed.

(** C20: A freshly opened receive FIFO implements a queue of [bufsz - 1] bytes
    that drops its oldest byte when another arrives: for every sequence of
    received bytes and reads no index leaves the buffer, every read returns
    what the queue returns, and the bytes left between the indices are the
    bytes left in the queue. *)
Theorem rx_fifo_refines_queue (bufsz : Z) (ops : list fifo_op) :
  2 <= bufsz < 65536 ->
  exists f', fifo_run bufsz ops (empty_fifo bufsz) = Ok (fst (queue_run (bufsz - 1) ops []), f') /\
    contents bufsz f' = snd (queue_run (bufsz - 1) ops []) /\
    _serial_fifo_calc_recved_len bufsz f' = Z.of_nat (length (snd (queue_run (bufsz - 1) ops []))).
Proof.
  intros Hs. destruct (empty_fifo_ok bufsz Hs) as [Hok He].
  destruct (fifo_run_spec bufsz ops _ Hok) as (f' & Hrun & Hok' & Hc). rewrite He in Hrun, Hc.
  exists f'. split; [done|]. split; [done|]. rewrite <- Hc, length_contents.
  pose proof (recved_len_range bufsz f' (proj1 Hok')) as [??]. lia.
Qed.

Lemma rx_fifo_refines_queue_witness : exists f',
  fifo_run 4 [Receive 1; Receive 2; Receive 3; Receive 4; Read 2] (empty_fifo 4) = Ok ([[2; 3]], f') /\
  contents 4 f' = [4].
Proof.
  destruct (rx_fifo_refines_queue 4 [Receive 1; Receive 2; Receive 3; Receive 4; Read 2]) as (f' & Hr & Hc & _);
    [lia|]. exists f'. split; [exact Hr|exact Hc].
Defined.

(** *** DMA mode *)

(** What the controller writes before the driver hears of it. *)
Fixpoint dma_store (sz : Z) (bytes : list Z) (p : Z) (b : list Z) : list Z :=
  match bytes with [] => b | x :: l => dma_store sz l (next sz p) (upd b p x) end.

Lemma length_dma_store sz bytes p b : length (dma_store sz bytes p b) = length b.
Proof. revert p b. induction bytes as [|x l IH]; intros p b; cbn; [done|]. by rewrite IH, length_upd. Qed.

Lemma dma_store_other sz bytes p b i : 0 <= p < sz -> 0 <= i ->
  (forall k, (k < length bytes)%nat -> Nat.iter k (next sz) p <> i) ->
  rd (dma_store sz bytes p b) i = rd b i.
Proof.
  revert p b. induction bytes as [|x l IH]; intros p b Hp Hi H; cbn [dma_store]; [done|].
  rewrite IH; [|by apply next_range|done|].
  - apply rd_upd_ne; [lia|done|]. apply (H 0%nat). cbn. lia.
  - intros k Hk. specialize (H (S k)). rewrite Nat.iter_succ_r in H. apply H. cbn. lia.
Qed.

Lemma dma_store_window sz bytes p b : 0 <= p < sz -> Z.of_nat (length b) = sz ->
  Z.of_nat (length bytes) <= sz -> window (dma_store sz bytes p b) sz p (length bytes) = bytes.
Proof.
  revert p b. induction bytes as [|x l IH]; intros p b Hp Hb Hl; cbn [length window dma_store] in *; [done|].
  f_equal.
  - rewrite dma_store_other; [by apply rd_upd_eq; unfold in_range; lia|by apply next_range|lia|].
    intros k Hk. rewrite <- Nat.iter_succ_r, iter_next by lia. case_match; lia.
  - apply IH; [by apply next_range|by rewrite length_upd|lia].
Qed.

Lemma window_drop b sz i n d : (d <= n)%nat ->
  drop d (window b sz i n) = window b sz (Nat.iter d (next sz) i) (n - d).
Proof.
  intros. replace n with (d + (n - d))%nat at 1 by lia. rewrite window_app, drop_app_length'; [done|].
  by rewrite length_window.
Qed.

(** The indices after a block of [len] bytes. *)
Lemma update_put_shape sz len f : dma_ok sz f -> sz <= 32768 -> 0 <= len <= sz ->
  let p := if sz <=? put_index f + len then put_index f + len - sz else put_index f + len in
  rt_dma_recv_update_put_index sz len f =
  if sz <=? _serial_fifo_calc_recved_len sz f + len then Fifo (buffer f) p p true
  else Fifo (buffer f) p (get_index f) false.
Proof.
  intros [[Hs _ Hp Hg _] Hf] Hz Hlen. unfold rt_dma_recv_update_put_index, _serial_fifo_calc_recved_len.
  rewrite u16_id by mlia. destruct f as [b p g full]; cbn in *.
  assert (Hm : sz <= p + len -> (p + len) mod sz = p + len - sz)
    by (intros; symmetry; apply Z.mod_unique with 1; lia).
  destruct (Z.leb_spec sz (p + len)) as [Hw|Hw]; [rewrite (Hm Hw)|]; clear Hm;
  destruct (Z.leb_spec g p), full; try (specialize (Hf eq_refl)); cbn;
  repeat case_match; simplify_eq; f_equal; lia.
Qed.

Lemma update_put_index sz len f : dma_ok sz f -> sz <= 32768 -> 0 <= len <= sz ->
  let n := _serial_fifo_calc_recved_len sz f in
  let f' := rt_dma_recv_update_put_index sz len f in
  dma_ok sz f' /\ buffer f' = buffer f /\ _serial_fifo_calc_recved_len sz f' = Z.min sz (n + len) /\
  get_index f' = Nat.iter (Z.to_nat (n + len - Z.min sz (n + len))) (next sz) (get_index f).
Proof.
  intros Hok Hz Hlen n f'. unfold f'. rewrite update_put_shape by done. fold n.
  pose proof (recved_len_range sz f (proj1 Hok)) as [Hn Hput]. fold n in Hn, Hput.
  destruct Hok as [[Hs Hl Hp Hg Hb] _]. rewrite iter_next in * by lia.
  rewrite Z2Nat.id in Hput by lia. revert Hput.
  set (p := if sz <=? put_index f + len then _ else _).
  intros Hput. assert (Hp' : 0 <= p < sz) by (unfold p; destruct (Z.leb_spec sz (put_index f + len)); lia).
  destruct (Z.leb_spec sz (n + len)).
  - split; [split; [by constructor|done]|]. split; [done|]. cbn. split.
    + unfold _serial_fifo_calc_recved_len. cbn. rewrite Z.eqb_refl. cbn. lia.
    + unfold p. repeat case_match; lia.
  - split; [split; [by constructor|done]|]. split; [done|]. cbn. split.
    + unfold _serial_fifo_calc_recved_len. cbn. unfold p. repeat case_match; lia.
    + repeat case_match; lia.
Qed.

Definition with_buffer (b : list Z) (f : rx_fifo) : rx_fifo := Fifo b (put_index f) (get_index f) (is_full f).

Lemma dma_store_range sz bytes f : dma_ok sz f -> Forall is_u8 bytes ->
  dma_ok sz (with_buffer (dma_store sz bytes (put_index f) (buffer f)) f).
Proof.
  intros [[Hs Hl Hp Hg Hb] Hf] Hu. split; [|done]. constructor; cbn; [done|by rewrite length_dma_store|done..|].
  clear - Hu Hb. generalize (put_index f) as p. revert Hb. generalize (buffer f) as b.
  induction Hu as [|x l Hx Hu IH]; intros b Hb p; cbn; [done|]. apply IH. by apply Forall_upd.
Qed.

Lemma dma_receive_spec sz bytes f : dma_ok sz f -> sz <= 32768 -> Forall is_u8 bytes ->
  Z.of_nat (length bytes) <= sz ->
  let f' := rt_dma_recv_update_put_index sz (Z.of_nat (length bytes))
              (with_buffer (dma_store sz bytes (put_index f) (buffer f)) f) in
  dma_ok sz f' /\ contents sz f' = newest sz (contents sz f ++ bytes).
Proof.
  intros Hok Hz Hu Hlen. pose proof (recved_len_range sz f (proj1 Hok)) as [Hn Hput].
  pose proof (update_put_index sz (Z.of_nat (length bytes)) _ (dma_store_range sz bytes f Hok Hu) Hz ltac:(lia))
    as (Hok' & Hb' & Hn' & Hg').
  split; [done|]. unfold contents at 1. rewrite Hb', Hn', Hg'. cbn [get_index buffer with_buffer].
  change (_serial_fifo_calc_recved_len sz (with_buffer ?b f)) with (_serial_fifo_calc_recved_len sz f).
  destruct (proj1 Hok) as [Hs Hl Hp Hg _].
  set (n := _serial_fifo_calc_recved_len sz f) in *. set (b' := dma_store sz bytes (put_index f) (buffer f)).
  set (n' := Z.min sz (n + Z.of_nat (length bytes))). set (d := Z.to_nat (n + Z.of_nat (length bytes) - n')).
  replace (Z.to_nat n') with ((Z.to_nat n - d) + length bytes)%nat by lia.
  assert (Hi : 0 <= Nat.iter d (next sz) (get_index f) < sz)
    by (rewrite iter_next by lia; case_match; lia).
  assert (Hj : put_index f = Nat.iter (Z.to_nat n - d) (next sz) (Nat.iter d (next sz) (get_index f)))
    by (rewrite <- Nat.iter_add; rewrite Hput; f_equal; lia).
  rewrite window_app, <- Hj. unfold b' at 2. rewrite dma_store_window by (done || lia).
  unfold newest. rewrite length_app, length_contents, drop_app_le by (rewrite length_contents; fold n; lia).
  f_equal. unfold contents. fold n. rewrite window_drop by lia.
  replace (Z.to_nat n + length bytes - Z.to_nat sz)%nat with d by lia.
  apply window_ext. intros k Hk. apply dma_store_other; [done| |].
  - rewrite iter_next by lia. case_match; lia.
  - intros k' Hk'. revert Hi Hj. generalize (Nat.iter d (next sz) (get_index f)) as i0. intros i0 Hi ->.
    rewrite <- Nat.iter_add, !iter_next by lia. repeat case_match; lia.
Qed.

Lemma copy_out_window b sz from n : Z.of_nat (length b) = sz -> 0 <= from -> from + Z.of_nat n <= sz ->
  copy_out b from (Z.of_nat n) = Ok (window b sz from n).
Proof.
  intros Hb. revert from. unfold copy_out. induction n as [|n IH]; intros from Hf Hn; [done|].
  rewrite Nat2Z.inj_succ, <- Z.add_1_r, seqZ_cons by lia. replace (Z.pred (Z.of_nat n + 1)) with (Z.of_nat n) by lia.
  change (mapR (get b) (?a :: ?l)) with (x ← get b a; xs ← mapR (get b) l; Ok (x :: xs)).
  rewrite get_in, bind_ret_l by (unfold in_range; lia). cbn [window].
  destruct (decide (n = 0%nat)) as [->|]; [done|].
  rewrite <- Z.add_1_r, IH by lia. unfold next. case_match; [lia|done].
Qed.

Lemma copy_ring sz m f : fifo_range sz f -> 0 <= m <= sz ->
  (if get_index f + m <? sz then copy_out (buffer f) (get_index f) m
   else l ← copy_out (buffer f) (get_index f) (sz - get_index f);
        l' ← copy_out (buffer f) 0 (m + get_index f - sz); Ok (l ++ l'))
  = Ok (window (buffer f) sz (get_index f) (Z.to_nat m)).
Proof.
  intros [Hs Hl Hp Hg _] Hm. case_match.
  - rewrite <- (Z2Nat.id m) at 1 by lia. by apply copy_out_window; lia.
  - rewrite <- (Z2Nat.id (sz - get_index f)), <- (Z2Nat.id (m + get_index f - sz)) by lia.
    rewrite (copy_out_window _ sz (get_index f)), bind_ret_l, (copy_out_window _ sz 0), bind_ret_l by lia.
    replace (Z.to_nat m) with (Z.to_nat (sz - get_index f) + Z.to_nat (m + get_index f - sz))%nat by lia.
    rewrite window_app, iter_next by lia. case_match; [lia|].
    replace (get_index f + Z.of_nat (Z.to_nat (sz - get_index f)) - sz) with 0 by lia. done.
Qed.

Lemma window_take b sz i n k : take k (window b sz i n) = window b sz i (k `min` n).
Proof.
  destruct (decide (k <= n)%nat).
  - replace n with (k + (n - k))%nat at 1 by lia.
    rewrite window_app, take_app_length' by (by rewrite length_window). f_equal. lia.
  - rewrite take_ge by (rewrite length_window; lia). f_equal. lia.
Qed.

Lemma update_get_index sz len f : dma_ok sz f -> sz <= 32768 ->
  0 <= len <= _serial_fifo_calc_recved_len sz f ->
  exists f', rt_dma_recv_update_get_index sz len f = Ok f' /\ dma_ok sz f' /\
    contents sz f' = drop (Z.to_nat len) (contents sz f).
Proof.
  intros Hok Hz Hlen. pose proof (recved_len_range sz f (proj1 Hok)) as [Hn _].
  destruct Hok as [[Hs Hl Hp Hg Hb] Hf]. unfold rt_dma_recv_update_get_index.
  set (n := _serial_fifo_calc_recved_len sz f) in *.
  destruct (Z.leb_spec len n); [|lia]. cbn [negb]. rewrite u16_id by mlia.
  assert (Hgi : (if sz <=? get_index f + len then (get_index f + len) mod sz else get_index f + len)
                = Nat.iter (Z.to_nat len) (next sz) (get_index f)).
  { rewrite iter_next, Z2Nat.id by lia. repeat case_match; try lia.
    symmetry. apply Z.mod_unique with 1; lia. }
  eexists. split; [done|]. rewrite Hgi. clear Hgi.
  assert (Hg' : 0 <= Nat.iter (Z.to_nat len) (next sz) (get_index f) < sz)
    by (rewrite iter_next by lia; case_match; lia).
  split; [split; [by constructor|]|].
  - cbn. destruct (is_full f), (Z.eqb_spec len 0) as [->|]; cbn; try done; by apply Hf.
  - unfold contents. cbn [buffer get_index]. fold n. rewrite window_drop by lia. f_equal.
    rewrite <- Z2Nat.inj_sub by lia. f_equal. revert Hg'. rewrite iter_next, Z2Nat.id by lia.
    unfold n, _serial_fifo_calc_recved_len in *. cbn. destruct (is_full f); repeat (case_match; cbn in * ); lia.
Qed.

Lemma _serial_dma_rx_spec sz len f : dma_ok sz f -> sz <= 32768 -> 0 <= len ->
  exists f', _serial_dma_rx len sz f = Ok (take (Z.to_nat len) (contents sz f), f') /\ dma_ok sz f' /\
    contents sz f' = drop (Z.to_nat len) (contents sz f).
Proof.
  intros Hok Hz Hlen. pose proof (recved_len_range sz f (proj1 Hok)) as [Hn _]. unfold _serial_dma_rx.
  set (n := _serial_fifo_calc_recved_len sz f) in *.
  set (m := if len <? n then len else n). assert (Hm : m = Z.min len n) by (unfold m; case_match; lia).
  rewrite copy_ring, bind_ret_l by (apply Hok || lia).
  destruct (update_get_index sz m f Hok Hz) as (f' & -> & Hok' & Hc); [fold n; lia|].
  rewrite bind_ret_l. exists f'. split; [|split; [done|]].
  - unfold contents. fold n. rewrite window_take. repeat f_equal. lia.
  - rewrite Hc. destruct (decide (len <= n)); [f_equal; lia|].
    rewrite !drop_ge; [done|rewrite length_contents; fold n; lia..].
Qed.

Inductive dma_op : Set := Block (bytes : list Z) | ReadUpTo (len : Z).

(** The controller stores a block and the interrupt (RT_SERIAL_EVENT_RX_DMADONE)
    follows, or the reader reads. *)
Fixpoint dma_run (sz : Z) (ops : list dma_op) (f : rx_fifo) : res (list (list Z) * rx_fifo) :=
  match ops with
  | [] => Ok ([], f)
  | Block bytes :: ops' =>
      dma_run sz ops' (rt_dma_recv_update_put_index sz (Z.of_nat (length bytes))
                         (with_buffer (dma_store sz bytes (put_index f) (buffer f)) f))
  | ReadUpTo len :: ops' =>
      '(l, f) ← _serial_dma_rx len sz f;
      '(ls, f) ← dma_run sz ops' f; Ok (l :: ls, f)
  end.

Fixpoint dma_queue_run (cap : Z) (ops : list dma_op) (q : list Z) : list (list Z) * list Z :=
  match ops with
  | [] => ([], q)
  | Block bytes :: ops' => dma_queue_run cap ops' (newest cap (q ++ bytes))
  | ReadUpTo len :: ops' =>
      let '(ls, q') := dma_queue_run cap ops' (drop (Z.to_nat len) q) in (take (Z.to_nat len) q :: ls, q')
  end.

(** A block holds at most the buffer's size; lengths are not negative. *)
Definition dma_op_ok (sz : Z) (o : dma_op) : Prop :=
  match o with
  | Block bytes => Forall is_u8 bytes /\ Z.of_nat (length bytes) <= sz
  | ReadUpTo len => 0 <= len
  end.

Lemma dma_run_spec sz ops f : dma_ok sz f -> sz <= 32768 -> Forall (dma_op_ok sz) ops ->
  exists f', dma_run sz ops f = Ok (fst (dma_queue_run sz ops (contents sz f)), f') /\ dma_ok sz f' /\
    contents sz f' = snd (dma_queue_run sz ops (contents sz f)).
Proof.
  intros Hf Hz Hops. revert f Hf. induction Hops as [|[bytes|len] ops Ho Hops IH]; intros f Hf; cbn [dma_run dma_queue_run].
  - by exists f.
  - destruct (dma_receive_spec sz bytes f Hf Hz) as [Hf1 <-]; [apply Ho..|]. apply IH, Hf1.
  - destruct (_serial_dma_rx_spec sz len f Hf Hz Ho) as (f1 & -> & Hf1 & Hc). rewrite bind_ret_l.
    destruct (IH f1 Hf1) as (f2 & -> & Hf2 & Hc2). rewrite bind_ret_l, <- Hc.
    destruct (dma_queue_run _ _ _) as [ls q]. by exists f2.
Qed.

(** In DMA mode the FIFO is a queue of [bufsz] bytes, all places used. *)
Theorem dma_fifo_refines_queue (bufsz : Z) (ops : list dma_op) :
  2 <= bufsz <= 32768 -> Forall (dma_op_ok bufsz) ops ->
  exists f', dma_run bufsz ops (empty_fifo bufsz) = Ok (fst (dma_queue_run bufsz ops []), f') /\
    contents bufsz f' = snd (dma_queue_run bufsz ops []).
Proof.
  intros Hs Hops. destruct (empty_fifo_ok bufsz) as [[Hr _] He]; [lia|].
  destruct (dma_run_spec bufsz ops (empty_fifo bufsz)) as (f' & Hrun & _ & Hc);
    [by split|lia|done|]. rewrite He in Hrun, Hc. by exists f'.
Qed.
