(* ===== verification/Serial.v ===== *)
(** * The serial driver (components/drivers/serial/serial.c)

    Interrupt and polling mode, as the Modbus port uses them; the UARTs of the
    board are registered without DMA, so an open that asks for it is refused.
    The UART itself is a parameter: an instance of [Uart] says what its
    operations ([struct rt_uart_ops]) return.  Allocation is an argument. *)
From S2P Require Import Prelude Device SerialFifo.

Class Uart (H : Type) : Type := {
  uart_getc : H -> Z * H;                (* -1: nothing received *)
  uart_putc : Z -> H -> Z * H;           (* -1: not accepted *)
  uart_tx_done : H -> H;                 (* until the transmit interrupt has come *)
  uart_control : Z -> Z -> H -> Z * H;
  uart_configure : Z -> H -> Z * H;      (* argument: the buffer size of the configuration *)
  uart_irq : H -> bool }.                (* the receive interrupt is enabled *)

Record serial (H : Type) : Type := Serial {
  parent : device; bufsz : Z; serial_rx : option rx_fifo; serial_tx : bool; uart : H }.
Arguments Serial {H} _ _ _ _ _.
Arguments parent {H} _. Arguments bufsz {H} _. Arguments serial_rx {H} _.
Arguments serial_tx {H} _. Arguments uart {H} _.

Section driver.
Context {H : Type} `{!Uart H}.
Implicit Types s : serial H.

Definition with_uart (h : H) (s : serial H) : serial H := Serial (parent s) (bufsz s) (serial_rx s) (serial_tx s) h.
Definition with_rx (f : option rx_fifo) (s : serial H) : serial H := Serial (parent s) (bufsz s) f (serial_tx s) (uart s).
Definition with_tx (t : bool) (s : serial H) : serial H := Serial (parent s) (bufsz s) (serial_rx s) t (uart s).
Definition with_parent (d : device) (s : serial H) : serial H := Serial d (bufsz s) (serial_rx s) (serial_tx s) (uart s).
Definition add_open (bit : Z) (s : serial H) : serial H :=
  with_parent (with_open_flag (Z.lor (open_flag (parent s)) bit) (parent s)) s.

(** ** Polling *)

(** Up to [length] bytes, until there is none or a line ends. *)
Fixpoint _serial_poll_rx (length : nat) (s : serial H) : list Z * serial H :=
  match length with
  | O => ([], s)
  | S length' =>
      let '(ch, h) := uart_getc (uart s) in
      let s := with_uart h s in
      if ch =? -1 then ([], s) else
      if ch =? 10 then ([u8 ch], s) else
      let '(l, s) := _serial_poll_rx length' s in (u8 ch :: l, s)
  end.

Fixpoint _serial_poll_tx (data : list Z) (s : serial H) : serial H :=
  match data with
  | [] => s
  | c :: data' =>
      let s := if (c =? 10) && has (open_flag (parent s)) RT_DEVICE_FLAG_STREAM
               then with_uart (snd (uart_putc 13 (uart s))) s else s in
      _serial_poll_tx data' (with_uart (snd (uart_putc c (uart s))) s)
  end.

(** ** Interrupt mode *)

Definition _serial_int_rx (length : nat) (s : serial H) : res (list Z * serial H) :=
  match serial_rx s with
  | None => Fault AssertFail
  | Some f => '(l, f) ← fifo_read length (bufsz s) f; Ok (l, with_rx (Some f) s)
  end.

(** At most [fuel] attempts to hand bytes over. *)
Fixpoint _serial_int_tx (fuel : nat) (data : list Z) (s : serial H) : res (serial H) :=
  match data with
  | [] => Ok s
  | c :: data' =>
      match fuel with
      | O => Fault Hang
      | S fuel' =>
          let '(r, h) := uart_putc c (uart s) in
          if r =? -1 then _serial_int_tx fuel' data (with_uart (uart_tx_done h) s)
          else _serial_int_tx fuel' data' (with_uart h s)
      end
  end.

(** ** The driver's operations *)

Definition rt_serial_init (s : serial H) : res (Z * serial H) :=
  let '(r, h) := uart_configure (bufsz s) (uart s) in
  Ok (r, with_uart h (with_tx false (with_rx None s))).

(** [alloc]: whether memory is left for the FIFO and for the transmit structure. *)
Definition open_rx (alloc : bool) (oflag : Z) (s : serial H) : res (serial H) :=
  match serial_rx s with
  | None =>
      if has oflag RT_DEVICE_FLAG_INT_RX then
        if negb alloc then Fault AssertFail else
        let s := add_open RT_DEVICE_FLAG_INT_RX (with_rx (Some (empty_fifo (bufsz s))) s) in
        Ok (with_uart (snd (uart_control 0x10 RT_DEVICE_FLAG_INT_RX (uart s))) s)
      else Ok s
  | Some _ => Ok (if has oflag RT_DEVICE_FLAG_INT_RX then add_open RT_DEVICE_FLAG_INT_RX s else s)
  end.
Definition open_tx (alloc : bool) (oflag : Z) (s : serial H) : res (serial H) :=
  if negb (serial_tx s) then
    if has oflag RT_DEVICE_FLAG_INT_TX then
      if negb alloc then Fault AssertFail else
      let s := add_open RT_DEVICE_FLAG_INT_TX (with_tx true s) in
      Ok (with_uart (snd (uart_control 0x10 RT_DEVICE_FLAG_INT_TX (uart s))) s)
    else Ok s
  else Ok (if has oflag RT_DEVICE_FLAG_INT_TX then add_open RT_DEVICE_FLAG_INT_TX s else s).

Definition rt_serial_open (alloc : bool) (oflag : Z) (s : serial H) : res (Z * serial H) :=
  let d := parent s in
  if has oflag RT_DEVICE_FLAG_DMA_RX && negb (has (flag d) RT_DEVICE_FLAG_DMA_RX) then Ok (- RT_EIO, s) else
  if has oflag RT_DEVICE_FLAG_DMA_TX && negb (has (flag d) RT_DEVICE_FLAG_DMA_TX) then Ok (- RT_EIO, s) else
  if has oflag RT_DEVICE_FLAG_INT_RX && negb (has (flag d) RT_DEVICE_FLAG_INT_RX) then Ok (- RT_EIO, s) else
  if has oflag RT_DEVICE_FLAG_INT_TX && negb (has (flag d) RT_DEVICE_FLAG_INT_TX) then Ok (- RT_EIO, s) else
  let stream_flag := if has oflag RT_DEVICE_FLAG_STREAM || has (open_flag d) RT_DEVICE_FLAG_STREAM
                     then RT_DEVICE_FLAG_STREAM else 0 in
  let s := with_parent (with_open_flag (Z.land oflag 0xff) d) s in
  s ← open_rx alloc oflag s;
  s ← open_tx alloc oflag s;
  Ok (RT_EOK, add_open stream_flag s).

Definition drop_open (bit : Z) (s : serial H) : serial H :=
  with_parent (with_open_flag (Z.land (open_flag (parent s)) (Z.lnot bit)) (parent s)) s.

(** The FIFO is given back before the UART is told to stop interrupting. *)
Definition close_rx_free (s : serial H) : res (serial H) :=
  match serial_rx s with
  | None => Fault AssertFail
  | Some _ => Ok (drop_open RT_DEVICE_FLAG_INT_RX (with_rx None s))
  end.

Definition rt_serial_close (s : serial H) : res (Z * serial H) :=
  if 1 <? ref_count (parent s) then Ok (RT_EOK, s) else
  s ← (if has (open_flag (parent s)) RT_DEVICE_FLAG_INT_RX then
         s ← close_rx_free s;
         Ok (with_uart (snd (uart_control 0x11 RT_DEVICE_FLAG_INT_RX (uart s))) s)
       else Ok s);
  s ← (if has (open_flag (parent s)) RT_DEVICE_FLAG_INT_TX then
         if negb (serial_tx s) then Fault AssertFail else
         let s := drop_open RT_DEVICE_FLAG_INT_TX (with_tx false s) in
         Ok (with_uart (snd (uart_control 0x11 RT_DEVICE_FLAG_INT_TX (uart s))) s)
       else Ok s);
  Ok (RT_EOK, s).

Definition rt_serial_read (size : Z) (s : serial H) : res (list Z * serial H) :=
  if size =? 0 then Ok ([], s) else
  if has (open_flag (parent s)) RT_DEVICE_FLAG_INT_RX then _serial_int_rx (Z.to_nat size) s
  else Ok (_serial_poll_rx (Z.to_nat size) s).

(** [fuel]: attempts in interrupt mode. *)
Definition rt_serial_write (fuel : nat) (data : list Z) (s : serial H) : res (Z * serial H) :=
  if Z.of_nat (length data) =? 0 then Ok (0, s) else
  if has (open_flag (parent s)) RT_DEVICE_FLAG_INT_TX then
    if negb (serial_tx s) then Fault AssertFail else
    s ← _serial_int_tx fuel data s; Ok (Z.of_nat (length data), s)
  else Ok (Z.of_nat (length data), _serial_poll_tx data s).

Definition FIONREAD : Z := s32 0x8004667F.

(** RT_DEVICE_CTRL_RESUME, _SUSPEND and _CONFIG (with the new buffer size as
    argument, -1 for none); FIONREAD, which stores
    [_serial_fifo_calc_recved_len] through its argument; the rest goes to the
    UART. *)
Definition rt_serial_control (cmd args : Z) (s : serial H) : res (Z * serial H) :=
  let d := parent s in
  if cmd =? 0x02 then Ok (RT_EOK, with_parent (with_flag (Z.lor (flag d) RT_DEVICE_FLAG_SUSPENDED) d) s)
  else if cmd =? 0x01 then
    Ok (RT_EOK, with_parent (with_flag (Z.land (flag d) (Z.lnot RT_DEVICE_FLAG_SUSPENDED)) d) s)
  else if cmd =? 0x03 then
    if args =? -1 then Ok (RT_EOK, s) else
    if negb (args =? bufsz s) && negb (ref_count d =? 0) then Ok (RT_EBUSY, s) else
    let s := Serial d args (serial_rx s) (serial_tx s) (uart s) in
    Ok (RT_EOK, if negb (ref_count d =? 0) then with_uart (snd (uart_configure args (uart s))) s else s)
  else if cmd =? FIONREAD then
    match serial_rx s with None => Fault AssertFail | Some _ => Ok (RT_EOK, s) end
  else let '(r, h) := uart_control cmd args (uart s) in Ok (r, with_uart h s).

#[global] Instance serial_device (alloc : bool) (fuel : nat) : DeviceOps (serial H) := {
  dev := parent; set_dev := with_parent;
  device_init := Some rt_serial_init; device_open := Some (rt_serial_open alloc);
  device_close := Some rt_serial_close; device_read := Some rt_serial_read;
  device_write := Some (rt_serial_write fuel); device_control := Some rt_serial_control }.

(** ** The interrupt *)

(** The loop of [RT_SERIAL_EVENT_RX_IND]; [fuel] bounds the bytes that arrive meanwhile. *)
Fixpoint isr_receive (fuel : nat) (s : serial H) : res (serial H) :=
  match fuel with
  | O => Fault Hang
  | S fuel' =>
      let '(ch, h) := uart_getc (uart s) in
      let s := with_uart h s in
      if ch =? -1 then Ok s else
      match serial_rx s with
      | None => Fault AssertFail
      | Some f => f ← fifo_put (bufsz s) ch f; isr_receive fuel' (with_rx (Some f) s)
      end
  end.

(** The callback works on the driver and on the state [A] of its owner. *)
Definition rt_hw_serial_isr {A : Type} (rx_ind : Z -> serial H * A -> res (serial H * A)) (fuel : nat)
    (s : serial H) (a : A) : res (serial H * A) :=
  match serial_rx s with
  | None => Fault AssertFail
  | Some _ =>
      s ← isr_receive fuel s;
      match serial_rx s with
      | None => Fault AssertFail
      | Some f =>
          if rx_indicate (parent s) && negb (rx_length (bufsz s) f =? 0)
          then rx_ind (rx_length (bufsz s) f) (s, a) else Ok (s, a)
      end
  end.

End driver.

(** ** The STM32 UART (bsp/stm32/libraries/HAL_Drivers/drv_usart.c)

    The bytes the receiver holds (its data register and what follows), the
    bytes sent, and the receive interrupt. *)
Record stm32_uart : Type := Stm32 { rx_held : list Z; sent : list Z; rxne_irq : bool }.

Definition stm32_getc (u : stm32_uart) : Z * stm32_uart :=
  match rx_held u with
  | [] => (-1, u)
  | dr :: l => (Z.land dr 0xff, Stm32 l (sent u) (rxne_irq u))
  end.
Definition stm32_putc (c : Z) (u : stm32_uart) : Z * stm32_uart :=
  (1, Stm32 (rx_held u) (sent u ++ [c]) (rxne_irq u)).
Definition stm32_control (cmd arg : Z) (u : stm32_uart) : Z * stm32_uart :=
  if cmd =? 0x11 then (RT_EOK, Stm32 (rx_held u) (sent u) false)
  else if cmd =? 0x10 then (RT_EOK, Stm32 (rx_held u) (sent u) true)
  else (RT_EOK, u).

#[global] Instance stm32_uart_ops : Uart stm32_uart := {
  uart_getc := stm32_getc; uart_putc := stm32_putc; uart_tx_done := id;
  uart_control := stm32_control; uart_configure := fun _ u => (RT_EOK, u);
  uart_irq := rxne_irq }.

(** ** Sessions: the invariant of a port whose users all ask for the receive interrupt *)

(** [pending h l h']: before it reports nothing, the UART hands over [l]. *)
Inductive pending {H : Type} `{!Uart H} : H -> list Z -> H -> Prop :=
| pending_nil h h' : uart_getc h = (-1, h') -> pending h [] h'
| pending_cons h c h1 l h' : uart_getc h = (c, h1) -> c <> -1 -> pending h1 l h' -> pending h (c :: l) h'.

(** A UART that runs dry when it is read, accepts every byte, and whose receive
    interrupt is enabled by RT_DEVICE_CTRL_SET_INT (0x10) alone and disabled by
    RT_DEVICE_CTRL_CLR_INT (0x11). *)
Class UartLaws (H : Type) `{!Uart H} : Prop := {
  getc_ends : forall h, exists l h', pending h l h';
  putc_accepts : forall c h, fst (uart_putc c h) <> -1;
  getc_irq : forall h, uart_irq (snd (uart_getc h)) = uart_irq h;
  putc_irq : forall c h, uart_irq (snd (uart_putc c h)) = uart_irq h;
  configure_irq : forall n h, uart_irq (snd (uart_configure n h)) = uart_irq h;
  control_irq : forall cmd a h, cmd <> 0x10 -> uart_irq (snd (uart_control cmd a h)) = true -> uart_irq h = true;
  clear_irq : forall a h, uart_irq (snd (uart_control 0x11 a h)) = false }.

#[global] Instance stm32_laws : UartLaws stm32_uart.
Proof.
  split; try done.
  - intros [l sent irq]. exists (map (fun dr => Z.land dr 0xff) l), (Stm32 [] sent irq).
    induction l as [|dr l IH]; cbn; [by constructor|]. econstructor; [done| |done].
    rewrite land_ff. mlia.
  - by intros [[|] sent irq].
  - intros cmd a [l sent irq] Hc. cbn. unfold stm32_control. case_match; [done|].
    by rewrite (proj2 (Z.eqb_neq cmd 0x10) Hc).
Qed.

Record serial_ok {H : Type} `{!Uart H} (s : serial H) : Prop := {
  so_size : 2 <= bufsz s < 65536;
  so_flag : has (flag (parent s)) RT_DEVICE_FLAG_DMA_RX = false /\
            has (flag (parent s)) RT_DEVICE_FLAG_DMA_TX = false;
  so_open : has (open_flag (parent s)) RT_DEVICE_FLAG_DMA_RX = false /\
            has (open_flag (parent s)) RT_DEVICE_FLAG_DMA_TX = false;
  so_count : 0 <= ref_count (parent s) < 256;
  so_active : has (flag (parent s)) RT_DEVICE_FLAG_ACTIVATED = false -> ref_count (parent s) = 0;
  so_rx : if ref_count (parent s) =? 0 then serial_rx s = None
          else has (open_flag (parent s)) RT_DEVICE_FLAG_INT_RX = true /\
               exists f, serial_rx s = Some f /\ fifo_ok (bufsz s) f;
  so_tx : has (open_flag (parent s)) RT_DEVICE_FLAG_INT_TX = true -> serial_tx s = true;
  so_closed : ref_count (parent s) = 0 -> open_flag (parent s) = 0;
  so_irq : uart_irq (uart s) = true -> ref_count (parent s) <> 0 }.

Section sessions.
Context {H : Type} `{!Uart H} `{!UartLaws H}.
Implicit Types s : serial H.

Inductive serial_op : Set :=
| SInit | SOpen (oflag : Z) (memory : bool) | SClose | SRead (size : Z) | SWrite (data : list Z)
| SControl (cmd args : Z) | SInterrupt.

(** One call through the device layer, or the moment of an interrupt, which
    comes when the UART's receive interrupt is enabled.  [memory]: whether the
    allocations of an open succeed. *)
Definition serial_step (fuel : nat) (o : serial_op) (s : serial H) : res (serial H) :=
  let _ := serial_device true fuel in
  match o with
  | SInit => '(_, s) ← rt_device_init s; Ok s
  | SOpen oflag memory => '(_, s) ← rt_device_open (DeviceOps0 := serial_device memory fuel) oflag s; Ok s
  | SClose => '(_, s) ← rt_device_close s; Ok s
  | SRead size => '(_, s) ← rt_device_read size s; Ok s
  | SWrite data => '(_, s) ← rt_device_write data s; Ok s
  | SControl cmd args => '(_, s) ← rt_device_control cmd args s; Ok s
  | SInterrupt =>
      if uart_irq (uart s) then '(s, _) ← rt_hw_serial_isr (fun _ x => Ok x) fuel s tt; Ok s else Ok s
  end.

Fixpoint serial_session (fuel : nat) (ops : list serial_op) (s : serial H) : res (serial H) :=
  match ops with [] => Ok s | o :: ops' => s ← serial_step fuel o s; serial_session fuel ops' s end.

Definition op_ok (o : serial_op) : Prop :=
  match o with
  | SOpen oflag memory => has oflag RT_DEVICE_FLAG_INT_RX = true /\ memory = true
  | SControl cmd args => cmd <> FIONREAD /\ cmd <> 0x10 /\ (cmd = 0x03 -> args = -1 \/ 2 <= args < 65536)
  | _ => True
  end.
Definition opens (o : serial_op) : Z := match o with SOpen _ _ => 1 | _ => 0 end.

(** A change of the UART alone that enables no interrupt. *)
Lemma with_uart_ok s h : serial_ok s -> (uart_irq h = true -> uart_irq (uart s) = true) -> serial_ok (with_uart h s).
Proof. intros [] Hi. constructor; cbn; auto. Qed.

Lemma poll_tx_uart data s : exists h, _serial_poll_tx data s = with_uart h s /\ uart_irq h = uart_irq (uart s).
Proof.
  revert s. induction data as [|c data IH]; intros s; cbn [_serial_poll_tx].
  - exists (uart s). by destruct s.
  - destruct (IH (with_uart (snd (uart_putc c (uart (if (c =? 10) && has (open_flag (parent s)) RT_DEVICE_FLAG_STREAM
      then with_uart (snd (uart_putc 13 (uart s))) s else s))))
      (if (c =? 10) && has (open_flag (parent s)) RT_DEVICE_FLAG_STREAM
      then with_uart (snd (uart_putc 13 (uart s))) s else s))) as (h & -> & Hi). exists h.
    rewrite Hi. cbn. rewrite putc_irq. case_match; cbn; by rewrite ?putc_irq.
Qed.

Lemma int_tx_uart data s :
  exists h, uart_irq h = uart_irq (uart s) /\
    forall fuel, (length data <= fuel)%nat -> _serial_int_tx fuel data s = Ok (with_uart h s).
Proof.
  revert s. induction data as [|c data IH]; intros s.
  - exists (uart s). split; [done|]. intros [|fuel]; by destruct s.
  - pose proof (putc_accepts c (uart s)) as Ha. destruct (uart_putc c (uart s)) as [r h] eqn:E.
    pose proof (putc_irq c (uart s)) as Hi. rewrite E in Hi.
    destruct (IH (with_uart h s)) as (h' & Hi' & IH'). exists h'. split; [by rewrite Hi'|].
    intros [|fuel] Hf; cbn in Hf; [lia|].
    cbn [_serial_int_tx]. rewrite E, (proj2 (Z.eqb_neq r (-1)) Ha). apply IH'. lia.
Qed.

Lemma isr_receive_spec l h' s f : pending (uart s) l h' -> serial_rx s = Some f -> fifo_ok (bufsz s) f ->
  exists f', (forall fuel, (length l < fuel)%nat -> isr_receive fuel s = Ok (with_uart h' (with_rx (Some f') s))) /\
    fifo_ok (bufsz s) f' /\ contents (bufsz s) f' = newest (bufsz s - 1) (contents (bufsz s) f ++ map u8 l).
Proof.
  intros Hp. revert s f Hp. induction l as [|c l IH]; intros s f Hp Hf Hok;
    inversion Hp as [h0 h1 E|h0 c' h1 l' h2 E Hc Hp']; simplify_eq.
  - exists f. split; [|split; [done|]].
    + intros [|fuel] Hfuel; cbn in Hfuel; [lia|]. cbn [isr_receive]. rewrite E, <- Hf. by destruct s.
    + cbn. rewrite app_nil_r. symmetry. apply newest_id. rewrite length_contents.
      pose proof (recved_len_ok _ _ Hok). pose proof (recved_len_range _ _ (proj1 Hok)). lia.
  - destruct (fifo_put_spec (bufsz s) c f Hok) as (f1 & Hput & Hok1 & Hc1).
    destruct (IH (with_rx (Some f1) (with_uart h1 s)) f1) as (f2 & Hrun & Hok2 & Hc2); [done..|].
    cbn [bufsz with_rx with_uart] in *. exists f2. split; [|split; [done|]].
    + intros [|fuel] Hfuel; cbn in Hfuel; [lia|]. cbn [isr_receive]. rewrite E, (proj2 (Z.eqb_neq c (-1)) Hc).
      cbn [serial_rx bufsz with_uart]. rewrite Hf, Hput, bind_ret_l. rewrite Hrun by lia. by destruct s.
    + by rewrite Hc2, Hc1, newest_app, <- app_assoc.
Qed.

Lemma pending_irq h l h' : pending h l h' -> uart_irq h' = uart_irq h.
Proof.
  induction 1 as [h h' E|h c h1 l h' E Hc Hp IH]; pose proof (getc_irq h) as Hi; rewrite E in Hi; [done|].
  by rewrite IH.
Qed.

Lemma irq_closed s : serial_ok s -> ref_count (parent s) = 0 -> uart_irq (uart s) = false.
Proof. intros Hs E. destruct (uart_irq (uart s)) eqn:Ei; [|done]. by destruct (so_irq s Hs Ei). Qed.

Definition steps_ok (o : serial_op) s : Prop :=
  exists n s', (forall fuel, (n <= fuel)%nat -> serial_step fuel o s = Ok s') /\ serial_ok s' /\
    ref_count (parent s') <= ref_count (parent s) + opens o.

(** Closed, the calls that move data do nothing. *)
Lemma step_closed o s : serial_ok s -> ref_count (parent s) = 0 ->
  match o with SWrite _ | SRead _ | SClose | SInterrupt => True | _ => False end -> steps_ok o s.
Proof.
  intros Hs E Ho. exists 0%nat, s. split; [|split; [done|destruct o; cbn; lia]]. intros fuel _.
  destruct o; try done; cbn.
  1-3: by unfold rt_device_close, rt_device_read, rt_device_write; cbn; rewrite E.
  by rewrite (irq_closed s Hs E).
Qed.

Lemma steps_uart o s n h : serial_ok s -> 0 <= opens o -> uart_irq h = uart_irq (uart s) ->
  (forall fuel, (n <= fuel)%nat -> serial_step fuel o s = Ok (with_uart h s)) -> steps_ok o s.
Proof.
  intros Hs Ho Hi Hrun. exists n, (with_uart h s). split; [done|].
  split; [apply with_uart_ok; [done|by rewrite Hi]|]. cbn. lia.
Qed.

Lemma step_write s data : serial_ok s -> steps_ok (SWrite data) s.
Proof.
  intros Hs. destruct (decide (ref_count (parent s) = 0)) as [E|E]; [by apply step_closed|].
  assert (Hstep : forall fuel, serial_step fuel (SWrite data) s = '(_, s) ← rt_serial_write fuel data s; Ok s).
  { intros fuel. cbn. unfold rt_device_write. cbn. by rewrite (proj2 (Z.eqb_neq _ _) E). }
  unfold rt_serial_write in Hstep. destruct (Z.of_nat (length data) =? 0).
  { apply (steps_uart _ _ 0 (uart s)); [done..|]. intros fuel _. rewrite Hstep. by destruct s. }
  destruct (has (open_flag (parent s)) RT_DEVICE_FLAG_INT_TX) eqn:Et.
  - destruct (int_tx_uart data s) as (h & Hi & Hh). apply (steps_uart _ _ (length data) h); [done..|].
    intros fuel Hf. by rewrite Hstep, (so_tx s Hs Et), Hh.
  - destruct (poll_tx_uart data s) as (h & Hh & Hi). apply (steps_uart _ _ 0 h); [done..|].
    intros fuel _. by rewrite Hstep, Hh.
Qed.

(** An open port with other bytes in its FIFO. *)
Lemma with_rx_ok s f f' : serial_ok s -> serial_rx s = Some f -> fifo_ok (bufsz s) f' ->
  serial_ok (with_rx (Some f') s).
Proof.
  intros [Hz Hfl Ho Hc Ha Hr Ht Hcl Hi] Hs Hf. constructor; cbn; try done.
  destruct (ref_count (parent s) =? 0); [congruence|]. split; [apply Hr|by exists f'].
Qed.

Lemma open_rx_ok s : serial_ok s -> ref_count (parent s) <> 0 ->
  has (open_flag (parent s)) RT_DEVICE_FLAG_INT_RX = true /\
  exists f, serial_rx s = Some f /\ fifo_ok (bufsz s) f.
Proof. intros Hs E. pose proof (so_rx s Hs) as Hr. by rewrite (proj2 (Z.eqb_neq _ _) E) in Hr. Qed.

Lemma step_read s size : serial_ok s -> steps_ok (SRead size) s.
Proof.
  intros Hs. destruct (decide (ref_count (parent s) = 0)) as [E|E]; [by apply step_closed|].
  destruct (open_rx_ok s Hs E) as (Ho & f & Hf & Hok).
  destruct (fifo_read_spec (bufsz s) (Z.to_nat size) f Hok) as (f' & Hrun & Hok' & _).
  exists 0%nat, (if size =? 0 then s else with_rx (Some f') s).
  split; [|split; [case_match; [done|by eapply with_rx_ok]|case_match; cbn; lia]].
  intros fuel _. cbn. unfold rt_device_read. cbn. rewrite (proj2 (Z.eqb_neq _ _) E). unfold rt_serial_read.
  case_match; [done|]. by rewrite Ho; unfold _serial_int_rx; rewrite Hf, Hrun.
Qed.

Lemma step_interrupt s : serial_ok s -> steps_ok SInterrupt s.
Proof.
  intros Hs. destruct (uart_irq (uart s)) eqn:Ei.
  2: { exists 0%nat, s. split; [|split; [done|cbn; lia]]. intros fuel _. cbn. by rewrite Ei. }
  pose proof (so_irq s Hs Ei) as E.
  destruct (open_rx_ok s Hs E) as (Ho & f & Hf & Hok). destruct (getc_ends (uart s)) as (l & h' & Hp).
  destruct (isr_receive_spec l h' s f Hp Hf Hok) as (f' & Hrun & Hok' & _).
  exists (S (length l)), (with_uart h' (with_rx (Some f') s)).
  split; [|split; [eapply with_uart_ok; [by eapply with_rx_ok|by rewrite (pending_irq _ _ _ Hp)]|cbn; lia]].
  intros fuel Hfuel. cbn. rewrite Ei. unfold rt_hw_serial_isr. rewrite Hf, Hrun by lia. cbn. by case_match.
Qed.

(** Initialisation on first use, marked when the UART reports no error. *)
Lemma mark_ok s r s1 : serial_ok s -> ref_count (parent s) = 0 -> rt_serial_init s = Ok (r, s1) ->
  serial_ok s1 /\ parent s1 = parent s /\
  serial_ok (with_parent (with_flag (Z.lor (flag (parent s1)) RT_DEVICE_FLAG_ACTIVATED) (parent s1)) s1).
Proof.
  intros Hs E Hi. unfold rt_serial_init in Hi. pose proof (configure_irq (bufsz s) (uart s)) as Hq.
  destruct (uart_configure _ _) as [r' h]. cbn in Hq. rewrite (irq_closed s Hs E) in Hq. simplify_eq.
  destruct Hs as [Hz [Hf1 Hf2] Ho Hc Ha Hr Ht Hcl _]. split; [|split; [done|]]; constructor; cbn; try done; try congruence.
  - by rewrite E.
  - by rewrite (Hcl E).
  - by rewrite !has_lor, Hf1, Hf2.
  - by rewrite E.
  - by rewrite (Hcl E).
Qed.

Lemma rt_serial_init_returns s : exists r s1, rt_serial_init s = Ok (r, s1).
Proof. unfold rt_serial_init. destruct (uart_configure _ _) as [r h]. by eexists _, _. Qed.

Lemma step_init s : serial_ok s -> steps_ok SInit s.
Proof.
  intros Hs. unfold steps_ok. cbn. unfold rt_device_init. cbn.
  destruct (has (flag (parent s)) RT_DEVICE_FLAG_ACTIVATED) eqn:Ea.
  { exists 0%nat, s. split; [done|]. split; [done|lia]. }
  destruct (rt_serial_init_returns s) as (r & s1 & Ei). rewrite Ei, bind_ret_l.
  destruct (mark_ok s r s1 Hs (so_active s Hs Ea) Ei) as (Hs1 & Hp & Hs2).
  exists 0%nat. destruct (r =? RT_EOK); cbn; eexists; (split; [done|]);
    (split; [done|]); cbn; rewrite Hp; cbn; lia.
Qed.

Lemma activate_ok fuel s : serial_ok s ->
  exists r s', activate (DeviceOps0 := serial_device true fuel) s = Ok (r, s') /\ serial_ok s' /\
    ref_count (parent s') = ref_count (parent s) /\
    (r = RT_EOK -> has (flag (parent s')) RT_DEVICE_FLAG_ACTIVATED = true) /\
    (forall fuel', activate (DeviceOps0 := serial_device true fuel') s = Ok (r, s')).
Proof.
  intros Hs. unfold activate. cbn.
  destruct (has (flag (parent s)) RT_DEVICE_FLAG_ACTIVATED) eqn:Ea; [by exists RT_EOK, s|].
  destruct (rt_serial_init_returns s) as (r & s1 & Ei). rewrite Ei, bind_ret_l.
  destruct (mark_ok s r s1 Hs (so_active s Hs Ea) Ei) as (Hs1 & Hp & Hs2).
  destruct (Z.eqb_spec r RT_EOK) as [->|]; cbn.
  - eexists _, _. split; [done|]. split; [done|]. cbn. rewrite Hp. split; [done|]. split; [|done].
    intros _. rewrite has_lor. apply orb_true_r.
  - exists r, s1. split; [done|]. rewrite Hp. done.
Qed.

(** An opened port: the device header with the new flags, and its structures. *)
Record opened s s' : Prop := {
  op_flag : flag (parent s') = flag (parent s);
  op_count : ref_count (parent s') = ref_count (parent s);
  op_size : bufsz s' = bufsz s;
  op_int : has (open_flag (parent s')) RT_DEVICE_FLAG_INT_RX = true;
  op_dma : has (open_flag (parent s')) RT_DEVICE_FLAG_DMA_RX = false /\
           has (open_flag (parent s')) RT_DEVICE_FLAG_DMA_TX = false;
  op_tx : has (open_flag (parent s')) RT_DEVICE_FLAG_INT_TX = true -> serial_tx s' = true;
  op_rx : exists f, serial_rx s' = Some f /\ fifo_ok (bufsz s) f }.

Lemma fifo_of_ok s f : serial_ok s -> serial_rx s = Some f -> fifo_ok (bufsz s) f.
Proof.
  intros Hs E. pose proof (so_rx s Hs) as Hr. case_match; [congruence|].
  destruct Hr as (_ & f' & E' & Hok). congruence.
Qed.

Lemma open_rx_opened s oflag : 2 <= bufsz s < 65536 -> (forall f, serial_rx s = Some f -> fifo_ok (bufsz s) f) ->
  has oflag RT_DEVICE_FLAG_INT_RX = true ->
  exists s' f, open_rx true oflag s = Ok s' /\ serial_rx s' = Some f /\ fifo_ok (bufsz s) f /\
    bufsz s' = bufsz s /\
    parent s' = with_open_flag (Z.lor (open_flag (parent s)) RT_DEVICE_FLAG_INT_RX) (parent s).
Proof.
  intros Hz Hok Ho. unfold open_rx. rewrite Ho. cbn. destruct (serial_rx s) as [f|] eqn:E.
  - exists (add_open RT_DEVICE_FLAG_INT_RX s), f. split; [done|]. split; [done|]. split; [by apply Hok|done].
  - eexists _, (empty_fifo (bufsz s)). split; [done|]. split; [done|]. split; [by apply empty_fifo_ok|done].
Qed.

Lemma open_tx_opened s oflag : exists s', open_tx true oflag s = Ok s' /\
  serial_rx s' = serial_rx s /\ bufsz s' = bufsz s /\
  (if has oflag RT_DEVICE_FLAG_INT_TX
   then serial_tx s' = true /\ parent s' = with_open_flag (Z.lor (open_flag (parent s)) RT_DEVICE_FLAG_INT_TX) (parent s)
   else s' = s).
Proof.
  unfold open_tx. destruct (serial_tx s) eqn:E, (has oflag RT_DEVICE_FLAG_INT_TX); cbn; by eexists.
Qed.

Lemma rt_serial_open_spec s oflag : serial_ok s -> has oflag RT_DEVICE_FLAG_INT_RX = true ->
  exists r s', rt_serial_open true oflag s = Ok (r, s') /\ (s' = s /\ r = - RT_EIO \/ opened s s' /\ r = RT_EOK).
Proof.
  intros Hs Ho. destruct (so_flag s Hs) as [Hf1 Hf2]. unfold rt_serial_open. rewrite Hf1, Hf2, Ho. cbn.
  destruct (has oflag RT_DEVICE_FLAG_DMA_RX) eqn:E1; cbn; [by eexists _, s; auto|].
  destruct (has oflag RT_DEVICE_FLAG_DMA_TX) eqn:E2; cbn; [by eexists _, s; auto|].
  destruct (negb (has (flag (parent s)) RT_DEVICE_FLAG_INT_RX)); [by eexists _, s; auto|].
  destruct (_ && negb (has (flag (parent s)) RT_DEVICE_FLAG_INT_TX)); [by eexists _, s; auto|].
  set (s0 := with_parent _ s). set (st := if _ || _ then _ else 0).
  assert (Hst : st = RT_DEVICE_FLAG_STREAM \/ st = 0) by (unfold st; case_match; auto). clearbody st.
  destruct (open_rx_opened s0 oflag (so_size s Hs) (fun f => fifo_of_ok s f Hs) Ho) as (s1 & f & -> & Hrx & Hok & Hz1 & Hp1).
  rewrite bind_ret_l. destruct (open_tx_opened s1 oflag) as (s2 & -> & Hrx2 & Hz2 & Ht). rewrite bind_ret_l.
  eexists _, _. split; [done|]. right. split; [|done].
  assert (Hst' : has st RT_DEVICE_FLAG_DMA_RX = false /\ has st RT_DEVICE_FLAG_DMA_TX = false /\
                 has st RT_DEVICE_FLAG_INT_TX = false) by (destruct Hst as [-> | ->]; done).
  destruct Hst' as (Hd1 & Hd2 & Hd3).
  destruct (has oflag RT_DEVICE_FLAG_INT_TX) eqn:E4; [destruct Ht as [Ht Hp2]|subst s2];
    constructor; cbn; rewrite ?Hp2, ?Hp1; cbn; try done; try congruence;
    rewrite ?has_lor, ?(has_land oflag), ?Hd1, ?Hd2, ?Hd3; cbn; rewrite ?has_0_r; try done.
  - by rewrite Hz2, Hz1.
  - exists f. by rewrite Hrx2.
  - by exists f.
Qed.

(** Calls that do not depend on the fuel. *)
Lemma steps_const o s : (forall fuel, serial_step fuel o s = serial_step 0 o s) ->
  (exists s', serial_step 0 o s = Ok s' /\ serial_ok s' /\ ref_count (parent s') <= ref_count (parent s) + opens o) ->
  steps_ok o s.
Proof. intros Hc (s' & Hrun & Hok). exists 0%nat, s'. split; [|done]. intros fuel _. by rewrite Hc. Qed.

Lemma counted_ok s s2 : serial_ok s -> has (flag (parent s)) RT_DEVICE_FLAG_ACTIVATED = true ->
  ref_count (parent s) < 255 -> opened s s2 ->
  let d := parent s2 in
  u8 (ref_count d + 1) = ref_count (parent s) + 1 /\
  serial_ok (with_parent (with_count (u8 (ref_count d + 1))
               (with_open_flag (Z.lor (open_flag d) RT_DEVICE_OFLAG_OPEN) d)) s2).
Proof.
  intros [Hz Hfl _ Hc Ha _ _ _ _] Hact Hlt [Hf Hcnt Hsz Hint [Hd1 Hd2] Htx (f & Hrx & Hok)]. cbn.
  rewrite Hcnt, u8_id by mlia. split; [done|].
  constructor; cbn; rewrite ?Hf, ?Hsz, ?has_lor, ?Hint, ?Hd1, ?Hd2; try done; try lia; try congruence.
  - rewrite (proj2 (Z.eqb_neq _ _)) by lia. split; [done|by exists f].
  - rewrite orb_false_r. done.
Qed.

Lemma step_open s oflag : serial_ok s -> has oflag RT_DEVICE_FLAG_INT_RX = true ->
  ref_count (parent s) < 255 -> steps_ok (SOpen oflag true) s.
Proof.
  intros Hs Ho Hlt. apply steps_const; [done|]. cbn. unfold rt_device_open.
  destruct (activate_ok 0 s Hs) as (r & s1 & Hrun & Hs1 & Hc & Hact & _). rewrite Hrun, bind_ret_l.
  destruct (Z.eqb_spec r RT_EOK) as [->|Hr]; cbn [negb].
  2: { exists s1. split; [done|]. split; [done|lia]. }
  case_match; [exists s1; split; [done|]; split; [done|lia]|]. cbn [device_open serial_device].
  destruct (rt_serial_open_spec s1 oflag Hs1 Ho) as (r2 & s2 & -> & [[-> ->]|[Hop ->]]); cbn.
  { exists s1. split; [done|]. split; [done|lia]. }
  destruct (counted_ok s1 s2 Hs1 (Hact eq_refl) ltac:(lia) Hop) as [Hcnt Hok].
  unfold on_dev. cbn. rewrite Hcnt in *. destruct (Z.eqb_spec (ref_count (parent s1) + 1) 0).
  { pose proof (so_count s1 Hs1). lia. }
  eexists. split; [done|]. split; [done|]. cbn. lia.
Qed.

Lemma port_closed_ok s s2 : serial_ok s -> flag (parent s2) = flag (parent s) -> bufsz s2 = bufsz s ->
  serial_rx s2 = None -> ref_count (parent s2) = 0 -> open_flag (parent s2) = 0 ->
  uart_irq (uart s2) = false -> serial_ok s2.
Proof.
  intros [Hz Hfl _ Hc Ha _ _ _ _] Hf Hb Hrx E Ho Hi.
  constructor; rewrite ?Hf, ?Hb, ?E, ?Ho, ?Hi; try done; lia.
Qed.

Lemma step_close s : serial_ok s -> steps_ok SClose s.
Proof.
  intros Hs. destruct (decide (ref_count (parent s) = 0)) as [E|E]; [by apply step_closed|].
  apply steps_const; [done|]. cbn. unfold rt_device_close. cbn. rewrite (proj2 (Z.eqb_neq _ _) E).
  destruct (open_rx_ok s Hs E) as (Ho & f & Hf & Hok). pose proof (so_count s Hs).
  destruct (Z.eqb_spec (ref_count (parent s) - 1) 0) as [E1|E1]; cbn [negb].
  - unfold rt_serial_close, close_rx_free. cbn. rewrite E1. cbn. rewrite Ho, Hf. cbn.
    rewrite has_land. change (Z.land (Z.lnot RT_DEVICE_FLAG_INT_RX) RT_DEVICE_FLAG_INT_TX) with RT_DEVICE_FLAG_INT_TX.
    destruct (has (open_flag (parent s)) RT_DEVICE_FLAG_INT_TX) eqn:Et; [rewrite (so_tx s Hs Et)|]; cbn;
    (eexists; split; [done|]; split; [apply (port_closed_ok s); try done; cbn; by rewrite clear_irq|cbn; lia]).
  - exists (with_parent (with_count (ref_count (parent s) - 1) (parent s)) s). split; [done|].
    split; [|cbn; lia]. destruct Hs as [Hz Hfl Hop Hc Ha _ Htx Hcl Hi]. constructor; cbn; try done; try lia.
    + rewrite (proj2 (Z.eqb_neq _ _) E1). split; [done|by exists f].
Qed.

Lemma suspend_flag_ok s v : serial_ok s ->
  (forall bit, bit = RT_DEVICE_FLAG_DMA_RX \/ bit = RT_DEVICE_FLAG_DMA_TX \/ bit = RT_DEVICE_FLAG_ACTIVATED ->
     has v bit = has (flag (parent s)) bit) ->
  serial_ok (with_parent (with_flag v (parent s)) s).
Proof.
  intros [Hz [Hf1 Hf2] Hop Hc Ha Hr Htx Hcl Hi] Hv. constructor; cbn; try done.
  - by rewrite !Hv by tauto.
  - rewrite Hv by tauto. done.
Qed.

Lemma step_control s cmd args : serial_ok s -> op_ok (SControl cmd args) -> steps_ok (SControl cmd args) s.
Proof.
  intros Hs Hop. apply steps_const; [done|]. cbn. unfold rt_device_control, device_control, serial_device, rt_serial_control.
  destruct (Z.eqb_spec cmd 2).
  { eexists. split; [done|]. split; [|cbn; lia]. apply suspend_flag_ok; [done|].
    intros bit [->|[->| ->]]; rewrite has_lor; apply orb_false_r. }
  destruct (Z.eqb_spec cmd 1).
  { eexists. split; [done|]. split; [|cbn; lia]. apply suspend_flag_ok; [done|].
    intros bit [->|[->| ->]]; by rewrite has_land. }
  destruct (Z.eqb_spec cmd 3) as [->|].
  2: { rewrite (proj2 (Z.eqb_neq cmd FIONREAD) (proj1 Hop)).
       pose proof (control_irq cmd args (uart s) (proj1 (proj2 Hop))) as Hi.
       destruct (uart_control cmd args (uart s)) as [r h]. eexists. split; [done|].
       split; [by apply with_uart_ok|cbn; lia]. }
  destruct (Z.eqb_spec args (-1)); [exists s; split; [done|]; split; [done|lia]|].
  destruct (_ && _) eqn:Eb; [exists s; split; [done|]; split; [done|lia]|].
  eexists. split; [done|]. split; [|case_match; cbn; lia].
  destruct (Z.eqb_spec (ref_count (parent s)) 0) as [E|E]; cbn in *.
  - destruct Hs as [Hz Hfl Ho Hc Ha Hr Htx Hcl Hi]. rewrite E in Hr. cbn in Hr.
    constructor; cbn; try done; [by destruct (proj2 (proj2 Hop) eq_refl)|by rewrite E].
  - rewrite andb_true_r in Eb. apply negb_false_iff, Z.eqb_eq in Eb as ->.
    replace (Serial _ _ _ _ _) with s by (by destruct s). apply with_uart_ok; [done|by rewrite configure_irq].
Qed.

Lemma serial_step_ok o s : serial_ok s -> op_ok o -> ref_count (parent s) + opens o <= 255 -> steps_ok o s.
Proof.
  intros Hs Ho Hc. destruct o; cbn in Hc.
  - by apply step_init.
  - destruct Ho as [Ho ->]. apply step_open; [done..|lia].
  - by apply step_close.
  - by apply step_read.
  - by apply step_write.
  - by apply step_control.
  - by apply step_interrupt.
Qed.

Lemma serial_session_ok ops s : serial_ok s -> Forall op_ok ops ->
  ref_count (parent s) + foldr (fun o n => opens o + n) 0 ops <= 255 ->
  exists n s', (forall fuel, (n <= fuel)%nat -> serial_session fuel ops s = Ok s') /\ serial_ok s'.
Proof.
  intros Hs Hops. revert s Hs. induction Hops as [|o ops Ho Hops IH]; intros s Hs Hc; cbn in Hc.
  - by exists 0%nat, s.
  - assert (0 <= foldr (fun o n => opens o + n) 0 ops) by (clear; induction ops as [|[] ops IH]; cbn in *; lia).
    destruct (serial_step_ok o s Hs Ho) as (n & s1 & Hrun & Hs1 & Hc1); [lia|].
    destruct (IH s1 Hs1) as (n' & s' & Hrun' & Hs'); [lia|].
    exists (n + n')%nat, s'. split; [|done]. intros fuel Hf. cbn [serial_session].
    rewrite Hrun by lia. apply Hrun'. lia.
Qed.
End sessions.

(** A port as [rt_hw_serial_register] leaves it. *)
Definition rt_hw_serial_register {H : Type} (flags bufsz : Z) (h : H) : serial H :=
  Serial (registered flags) bufsz None false h.

(** C19: A port registered without DMA, its UART not interrupting, is used
    within this contract: every open asks for the receive interrupt and finds
    memory for the FIFO, there are at most 255 opens, and no control call is
    FIONREAD, enables the UART's interrupt itself or configures a buffer outside
    2 to 65535 bytes.  Then every sequence of device calls (initialise, open,
    close, read, write, control), with an interrupt between any two of them
    whenever the UART's receive interrupt is enabled, returns: no assertion
    fails, the FIFO the interrupt asks for is there, and no index leaves it, for
    every UART that runs dry when read and accepts what is written.  The invariant
    holds at the end: the FIFO exists exactly while the port is open and has
    the configured size, the interrupt is enabled only while it exists, the
    count of opens matches the flags, and DMA mode is never entered.  The
    theorems after this one show what a caller outside the contract meets. *)
Theorem serial_sessions_well_formed {H : Type} `{!Uart H} `{!UartLaws H} (flags bufsz : Z) (h : H) (ops : list serial_op) :
  has flags RT_DEVICE_FLAG_DMA_RX = false -> has flags RT_DEVICE_FLAG_DMA_TX = false ->
  uart_irq h = false -> 2 <= bufsz < 65536 ->
  Forall op_ok ops -> foldr (fun o n => opens o + n) 0 ops <= 255 ->
  exists n s', (forall fuel, (n <= fuel)%nat ->
                  serial_session fuel ops (rt_hw_serial_register flags bufsz h) = Ok s') /\ serial_ok s'.
Proof.
  intros H1 H2 Hi Hz Hops Hc. apply serial_session_ok; [|done|done]. constructor; cbn; done || lia || congruence.
Qed.

Lemma serial_sessions_well_formed_witness : exists n s', (forall fuel, (n <= fuel)%nat ->
  serial_session fuel [SOpen 0x103 true; SInterrupt; SRead 1; SControl 3 32; SClose; SInterrupt; SControl 3 32; SOpen 0x103 true]
    (rt_hw_serial_register 0x503 64 (Stm32 [1; 2] [] false)) = Ok s') /\ serial_ok s'.
Proof.
  apply serial_sessions_well_formed; [reflexivity|reflexivity|reflexivity|lia| |cbn; lia].
  repeat (apply Forall_cons_2; [first [exact I|split; [reflexivity|reflexivity]
    |split; [discriminate|split; [discriminate|intros _; right; lia]]]|]). apply Forall_nil_2.
Defined.

(** Outside the contract.  A second open without the receive interrupt clears
    its flag, so the last close leaves the FIFO behind; the buffer size may then
    be changed, and the next open uses the old FIFO. *)
Theorem reopened_fifo_overrun :
  serial_session 100 [SOpen 0x103 true; SOpen 0x003 true; SClose; SClose; SControl 3 128; SOpen 0x103 true; SInterrupt]
    (rt_hw_serial_register 0x503 64 (Stm32 (replicate 65 1) [] false)) = Fault OutOfBounds.
Proof. vm_compute. reflexivity. Qed.

(** A closed port whose interrupt is enabled by hand, and an open that finds no memory. *)
Theorem interrupt_without_fifo memory :
  serial_session 100 [SControl 0x10 0; SInterrupt]
    (rt_hw_serial_register 0x503 64 (Stm32 [1] [] false)) = Fault AssertFail /\
  serial_session 100 [SOpen 0x103 memory]
    (rt_hw_serial_register 0x503 64 (Stm32 [1] [] false)) =
  (if memory then serial_session 100 [SOpen 0x103 true] (rt_hw_serial_register 0x503 64 (Stm32 [1] [] false))
   else Fault AssertFail).
Proof. by destruct memory. Qed.

(** The last close gives the FIFO back while the interrupt is still enabled: an
    interrupt that comes before it is disabled fails the assertion. *)
Theorem close_window {H : Type} `{!Uart H} (s s' : serial H) fuel : close_rx_free s = Ok s' ->
  uart s' = uart s /\ rt_hw_serial_isr (fun _ x => Ok x) fuel s' tt = Fault AssertFail.
Proof. unfold close_rx_free. destruct (serial_rx s); [|done]. by intros [= <-]. Qed.
