(* ===== verification/SerialModbus.v ===== *)
(** * The Modbus port on the serial driver
    (freemodbus/port/portserial.c over components/drivers/serial/serial.c and
    bsp/stm32/libraries/HAL_Drivers/drv_usart.c)

    [MbRtu] describes the port by the bytes it hands over and takes.  Here the
    same functions run on the driver: the receive callback reads one byte from
    the FIFO per interrupt, bytes go out by polling. *)
From S2P Require Import Prelude Device SerialFifo Serial MbCrc MbData MbRtu.

Section port.
Context (fuel : nat).
Implicit Types s : serial stm32_uart.
#[local] Instance port_device : DeviceOps (serial stm32_uart) := serial_device true fuel.

(** xMBPortSerialInit after the device is found: configure, open, callback. *)
Definition port_init (s : serial stm32_uart) : res (bool * serial stm32_uart) :=
  let s := with_uart (snd (uart_configure (bufsz s) (uart s))) s in
  '(r, s) ← rt_device_open (Z.lor RT_DEVICE_OFLAG_RDWR RT_DEVICE_FLAG_INT_RX) s;
  if r =? 0 then Ok (true, rt_device_set_rx_indicate true s) else Ok (false, s).

Definition port_enable (xRxEnable : bool) (s : serial stm32_uart) : serial stm32_uart :=
  with_uart (snd (uart_control (if xRxEnable then 0x10 else 0x11) RT_DEVICE_FLAG_INT_RX (uart s))) s.

Definition vMBPortClose (s : serial stm32_uart) : res (serial stm32_uart) :=
  '(_, s) ← rt_serial_close s; Ok s.

Definition port_put_byte (ucByte : Z) (s : serial stm32_uart) : res (serial stm32_uart) :=
  '(_, s) ← rt_serial_write fuel [ucByte] s; Ok s.

(** A byte that is not there leaves the variable unset. *)
Definition xMBPortSerialGetByte (s : serial stm32_uart) : res (Z * serial stm32_uart) :=
  '(l, s) ← rt_serial_read 1 s;
  match l with ucByte :: _ => Ok (ucByte, s) | [] => Fault Uninit end.

Definition prvvUARTRxISR (x : serial stm32_uart * rtu) : res (serial stm32_uart * rtu) :=
  let '(s, r) := x in
  '(ucByte, s) ← xMBPortSerialGetByte s;
  r ← xMBRTUReceiveFSM ucByte r;
  Ok (s, r).
Definition serial_rx_ind (size : Z) (x : serial stm32_uart * rtu) : res (serial stm32_uart * rtu) :=
  prvvUARTRxISR x.

(** The receive branch of the UART's interrupt. *)
Definition uart_isr (s : serial stm32_uart) (r : rtu) : res (serial stm32_uart * rtu) :=
  match rx_held (uart s) with
  | [] => Ok (s, r)
  | _ => if rxne_irq (uart s) then rt_hw_serial_isr serial_rx_ind fuel s r else Ok (s, r)
  end.

(** Bytes arrive and the interrupt runs: more than one byte when it was held up. *)
Definition arrive (bytes : list Z) (s : serial stm32_uart) : serial stm32_uart :=
  with_uart (Stm32 (rx_held (uart s) ++ bytes) (sent (uart s)) (rxne_irq (uart s))) s.
Fixpoint line_run (chunks : list (list Z)) (s : serial stm32_uart) (r : rtu) : res (serial stm32_uart * rtu) :=
  match chunks with
  | [] => Ok (s, r)
  | c :: chunks' => '(s, r) ← uart_isr (arrive c s) r; line_run chunks' s r
  end.

(** The port as the slave leaves it: open for interrupts, polled for sending,
    nothing held by the receiver, [q] in the FIFO. *)
Record port_ok (q : list Z) (s : serial stm32_uart) : Prop := {
  po_int : has (open_flag (parent s)) RT_DEVICE_FLAG_INT_RX = true;
  po_poll : has (open_flag (parent s)) RT_DEVICE_FLAG_INT_TX = false;
  po_raw : has (open_flag (parent s)) RT_DEVICE_FLAG_STREAM = false;
  po_ind : rx_indicate (parent s) = true;
  po_held : rx_held (uart s) = [];
  po_irq : rxne_irq (uart s) = true;
  po_fifo : exists f, serial_rx s = Some f /\ fifo_ok (bufsz s) f /\ contents (bufsz s) f = q }.

Lemma stm32_pending l sent irq : Forall is_u8 l -> pending (Stm32 l sent irq) l (Stm32 [] sent irq).
Proof.
  induction 1 as [|b l Hb Hl IH]; [by constructor|]. econstructor; [|mlia|done].
  cbn. unfold stm32_getc. cbn. by rewrite land_ff, Z.mod_small by done.
Qed.

(** One interrupt: the FIFO takes what has arrived and gives up one byte. *)
Lemma uart_isr_spec q c s r : port_ok q s -> c <> [] -> Forall is_u8 c -> (length c < fuel)%nat ->
  Z.of_nat (length (q ++ c)) < bufsz s ->
  exists b q' s', q ++ c = b :: q' /\ port_ok q' s' /\ bufsz s' = bufsz s /\ sent (uart s') = sent (uart s) /\
    uart_isr (arrive c s) r = (r' ← xMBRTUReceiveFSM b r; Ok (s', r')).
Proof.
  intros [Hint Hpoll Hraw Hind Hheld Hirq (f & Hf & Hok & Hq)] Hc Hu Hfuel Hlen.
  unfold uart_isr, arrive. cbn [uart rx_held with_uart rxne_irq sent]. rewrite Hheld, app_nil_l, Hirq.
  set (s0 := with_uart _ s).
  destruct (isr_receive_spec c (Stm32 [] (sent (uart s)) true) s0 f (stm32_pending c _ _ Hu) Hf Hok)
    as (f1 & Hrun & Hok1 & Hc1).
  change (bufsz s0) with (bufsz s) in *. rewrite Hq, newest_id in Hc1.
  2: { rewrite length_app, length_map. rewrite length_app in Hlen. lia. }
  assert (Hm : map u8 c = c).
  { clear -Hu. induction Hu as [|b c Hb Hu IH]; [done|]. cbn. by rewrite IH, u8_id. }
  rewrite Hm in Hc1. destruct (q ++ c) as [|b q'] eqn:E.
  { apply app_eq_nil in E as [_ ->]. done. }
  destruct (fifo_read_spec (bufsz s) 1 f1 Hok1) as (f2 & Hread & Hok2 & Hc2). rewrite Hc1 in Hread, Hc2. cbn [firstn skipn] in Hread, Hc2.
  exists b, q', (with_rx (Some f2) (with_uart (Stm32 [] (sent (uart s)) true) (with_rx (Some f1) s0))).
  split; [done|]. split; [by constructor; cbn; eauto|]. split; [done|]. split; [done|].
  destruct c as [|b0 c0]; [done|]. unfold rt_hw_serial_isr. change (serial_rx s0) with (serial_rx s). rewrite Hf, Hrun, bind_ret_l by done.
  cbn [serial_rx parent with_uart with_rx s0 bufsz]. rewrite Hind.
  assert (Hl : rx_length (bufsz s) f1 <> 0).
  { rewrite <- (proj1 (recved_len_ok _ _ Hok1)). pose proof (length_contents (bufsz s) f1) as Hl.
    rewrite Hc1 in Hl. cbn in Hl. lia. }
  rewrite (proj2 (Z.eqb_neq _ _) Hl). cbn [andb negb].
  unfold serial_rx_ind, prvvUARTRxISR, xMBPortSerialGetByte, rt_serial_read.
  cbn [parent with_uart with_rx s0 Z.eqb]. rewrite Hint. unfold _serial_int_rx. cbn [serial_rx with_uart with_rx bufsz s0].
  change (Z.to_nat 1) with 1%nat. by rewrite Hread.
Qed.

Definition chunk_ok (c : list Z) : Prop := c <> [] /\ Forall is_u8 c /\ (length c < fuel)%nat.

Lemma length_chunks chunks : Forall chunk_ok chunks -> (length chunks <= length (concat chunks))%nat.
Proof.
  induction 1 as [|c l (Hc & _) H IH]; [done|]. cbn. rewrite length_app. destruct c; [done|]. cbn. lia.
Qed.

Lemma line_run_spec chunks q s r : port_ok q s -> Forall chunk_ok chunks ->
  Z.of_nat (length q + length (concat chunks) - length chunks) < bufsz s - 1 ->
  exists s', port_ok (drop (length chunks) (q ++ concat chunks)) s' /\ sent (uart s') = sent (uart s) /\ bufsz s' = bufsz s /\
    line_run chunks s r = (r' ← rx_bytes (take (length chunks) (q ++ concat chunks)) r; Ok (s', r')).
Proof.
  intros Hp Hch. revert q s r Hp. induction Hch as [|c chunks (Hc & Hu & Hf) Hch IH]; intros q s r Hp Hlen.
  - exists s. cbn. by rewrite app_nil_r.
  - cbn [length concat] in *. pose proof (length_chunks chunks Hch). rewrite length_app in Hlen.
    assert (1 <= length c)%nat by (destruct c; [done|cbn; lia]).
    destruct (uart_isr_spec q c s r Hp Hc Hu Hf) as (b & q' & s1 & Hb & Hp1 & Hz & Hsent & Hrun);
      [rewrite length_app; lia|].
    assert (Hq : length (q ++ c) = S (length q')) by by rewrite Hb. rewrite length_app in Hq.
    rewrite app_assoc, Hb. cbn [app take drop rx_bytes line_run]. rewrite Hrun.
    destruct (xMBRTUReceiveFSM b r) as [r1|e]; cbn [mbind res_bind].
    + destruct (IH q' s1 r1 Hp1) as (s2 & Hp2 & Hsent2 & Hz2 & Hrun2); [rewrite Hz; lia|].
      exists s2. split; [done|]. split; [congruence|]. split; [congruence|exact Hrun2].
    + destruct (IH q' s1 r Hp1) as (s2 & Hp2 & Hsent2 & Hz2 & _); [rewrite Hz; lia|].
      exists s2. split; [done|]. split; [congruence|]. split; [congruence|done].
Qed.

(** ** The port layer of [MbRtu] is implemented by the driver *)

(** The driver's state matches the port state kept in [rtu]: its receive
    interrupt, the bytes sent, and no byte waiting. *)
Record port_sim (r : rtu) (s : serial stm32_uart) : Prop := {
  ps_flags : has (open_flag (parent s)) RT_DEVICE_FLAG_INT_RX = true /\
             has (open_flag (parent s)) RT_DEVICE_FLAG_INT_TX = false /\
             has (open_flag (parent s)) RT_DEVICE_FLAG_STREAM = false /\ rx_indicate (parent s) = true;
  ps_irq : rxne_irq (uart s) = rx_int r;
  ps_line : sent (uart s) = line r;
  ps_empty : rx_held (uart s) = [] /\
             exists f, serial_rx s = Some f /\ fifo_ok (bufsz s) f /\ contents (bufsz s) f = [] }.

Lemma port_sim_ok r s : port_sim r s -> rx_int r = true -> port_ok [] s.
Proof. intros [(H1 & H2 & H3 & H4) Hi Hl [Hh Hf]] E. constructor; done || congruence. Qed.

Lemma port_ok_sim r s : port_ok [] s -> rx_int r = true -> sent (uart s) = line r -> port_sim r s.
Proof. intros [] E1 E2. constructor; done || congruence. Qed.

Lemma port_put_byte_sim b r s : port_sim r s ->
  exists s', port_put_byte b s = Ok s' /\ port_sim (xMBPortSerialPutByte b r) s' /\ bufsz s' = bufsz s.
Proof.
  intros [(H1 & H2 & H3 & H4) Hi Hl Hf]. unfold port_put_byte, rt_serial_write. cbn. rewrite H2, H3, andb_false_r.
  eexists. split; [done|]. split; [|done]. constructor; cbn; [done|done|by rewrite Hl|done].
Qed.

Lemma port_enable_sim rx tx r s : port_sim r s -> port_sim (vMBPortSerialEnable rx tx r) (port_enable rx s).
Proof. intros [(H1 & H2 & H3 & H4) Hi Hl Hf]. destruct rx; by constructor. Qed.

Lemma port_byte_sim b r s : (1 < fuel)%nat -> 2 < bufsz s -> rtu_inv r -> rx_int r = true -> is_u8 b -> port_sim r s ->
  exists r' s', xMBRTUReceiveFSM b r = Ok r' /\ uart_isr (arrive [b] s) r = Ok (s', r') /\
    port_sim r' s' /\ bufsz s' = bufsz s.
Proof.
  intros Hfuel Hz Hr Hrx Hb Hs. destruct (receive_fsm_ok r b Hr Hrx Hb) as (r' & Hr' & _ & Hrx' & _ & Hl' & _).
  destruct (uart_isr_spec [] [b] s r (port_sim_ok r s Hs Hrx)) as (b' & q & s' & [= <- <-] & Hp & Hz' & Hsent & Hrun);
    [done|by constructor|done|cbn; lia|].
  exists r', s'. split; [done|]. rewrite Hrun, Hr'. split; [done|]. split; [|done].
  apply port_ok_sim; [done|done|]. rewrite Hsent, Hl'. apply Hs.
Qed.

(** The flags rt_hw_usart_init registers the board's UARTs with. *)
Definition usart_flags : Z := Z.lor RT_DEVICE_OFLAG_RDWR (Z.lor RT_DEVICE_FLAG_INT_RX RT_DEVICE_FLAG_INT_TX).

Lemma port_init_sim sz sent r : 2 <= sz < 65536 -> line r = sent ->
  exists s', port_init (rt_hw_serial_register usart_flags sz (Stm32 [] sent false)) = Ok (true, s') /\
    fst (xMBPortSerialInit true true r) = true /\ port_sim (snd (xMBPortSerialInit true true r)) s' /\ bufsz s' = sz.
Proof.
  intros Hz Hl. destruct (empty_fifo_ok sz Hz) as [Hok He].
  eexists. split; [cbv -[empty_fifo]; reflexivity|]. split; [done|]. split; [|done].
  constructor; cbn; [done|done|done|]. split; [done|]. by exists (empty_fifo sz).
Qed.

(** C18: The port layer used by the Modbus framing is implemented by the serial
    driver on the board's UART.  Opening a registered port gives a driver
    state that matches the port state after initialisation; from matching
    states, a byte arriving in its own interrupt drives the receive machine
    with exactly that byte, a byte to send goes out unchanged, and enabling or
    disabling reception switches the UART's interrupt, always to matching
    states. *)
Theorem serial_port_implements_mbport (sz : Z) (r0 r : rtu) (s : serial stm32_uart) (b : Z) (rx tx : bool) :
  (1 < fuel)%nat -> 2 < sz < 65536 -> rtu_inv r -> is_u8 b -> port_sim r s -> bufsz s = sz ->
  (exists s', port_init (rt_hw_serial_register usart_flags sz (Stm32 [] (line r0) false)) = Ok (true, s') /\
     port_sim (snd (xMBPortSerialInit true true r0)) s' /\ bufsz s' = sz) /\
  (rx_int r = true -> exists r' s', xMBRTUReceiveFSM b r = Ok r' /\ uart_isr (arrive [b] s) r = Ok (s', r') /\
     port_sim r' s' /\ bufsz s' = sz) /\
  (exists s', port_put_byte b s = Ok s' /\ port_sim (xMBPortSerialPutByte b r) s' /\ bufsz s' = sz) /\
  (port_sim (vMBPortSerialEnable rx tx r) (port_enable rx s) /\ bufsz (port_enable rx s) = sz).
Proof.
  intros Hfuel Hz Hr Hb Hs Hsz. split; [|split; [|split]].
  - destruct (port_init_sim sz (line r0) r0) as (s' & Hi & _ & Hp); [lia|done|]. by exists s'.
  - intros Hrx. destruct (port_byte_sim b r s Hfuel ltac:(lia) Hr Hrx Hb Hs) as (r' & s' & H1 & H2 & H3 & H4).
    exists r', s'. by rewrite <- Hsz.
  - rewrite <- Hsz. by apply port_put_byte_sim.
  - split; [by apply port_enable_sim|done].
Qed.

(** The receive callback takes one byte per interrupt, whatever has
    arrived.  If [q] was waiting in the FIFO and every interrupt finds at
    least one byte, then after [n] interrupts the receive machine has been
    given exactly the first [n] bytes of the line ([q] first) and the others
    still wait, as long as they fit the FIFO.  So with one byte per interrupt
    the machine sees the frame as it is on the line; once an interrupt has
    found two, it is a byte behind, and no number of further bytes lets it
    catch up. *)
Theorem one_byte_per_interrupt (q : list Z) (chunks : list (list Z)) (s : serial stm32_uart) (r : rtu) :
  port_ok q s -> Forall chunk_ok chunks ->
  Z.of_nat (length q + length (concat chunks) - length chunks) < bufsz s - 1 ->
  exists s', port_ok (drop (length chunks) (q ++ concat chunks)) s' /\ sent (uart s') = sent (uart s) /\ bufsz s' = bufsz s /\
    line_run chunks s r = (r' ← rx_bytes (take (length chunks) (q ++ concat chunks)) r; Ok (s', r')).
Proof. apply line_run_spec. Qed.

(** ** A lag that does not heal *)

(** A request and the silence after it: what the slave makes of it. *)
Definition hear (chunks : list (list Z)) (s : serial stm32_uart) (r : rtu)
  : res (eMBErrorCode * (serial stm32_uart * rtu)) :=
  '(s, r) ← line_run chunks s r;
  r ← xMBRTUTimerT35Expired r;
  '(e, _) ← eMBRTUReceive r;
  Ok (e, (s, r)).
Fixpoint hear_all (requests : list (list (list Z))) (s : serial stm32_uart) (r : rtu)
  : res (list eMBErrorCode * (serial stm32_uart * rtu)) :=
  match requests with
  | [] => Ok ([], (s, r))
  | c :: l =>
      '(e, (s, r)) ← hear c s r;
      '(es, x) ← hear_all l s r; Ok (e :: es, x)
  end.

Definition idle (r : rtu) : Prop := rtu_inv r /\ rx_int r = true /\ eRcvState r = STATE_RX_IDLE.

Lemma bad_bytes l r : idle r -> Forall is_u8 l -> 1 <= Z.of_nat (length l) <= MB_SER_PDU_SIZE_MAX -> crc16 l <> 0 ->
  exists r1 r2, rx_bytes l r = Ok r1 /\ xMBRTUTimerT35Expired r1 = Ok r2 /\ eMBRTUReceive r2 = Ok (MB_EIO, None) /\ idle r2.
Proof.
  intros (Hr & Hrx & Hs) Hl Hlen Hcrc. destruct (rx_frame r l Hr Hrx Hs Hl Hlen) as (r1 & E & Hr1 & S1 & P1 & T1 & Fr).
  destruct (timer_expired_ok r1 Hr1) as (r2 & E2 & Hr2 & S2 & _); [apply Fr|].
  exists r1, r2. split; [done|]. split; [done|].
  unfold xMBRTUTimerT35Expired in E2. rewrite S1, bind_ret_l in E2. injection E2 as <-.
  split; [|split; [done|split; [apply Fr|done]]].
  apply (rtu_receive_bad _ l); rtu_step; try done. by right.
Qed.

Lemma hear_bad q chunks s r l : port_ok q s -> Forall chunk_ok chunks -> idle r ->
  Z.of_nat (length q + length (concat chunks) - length chunks) < bufsz s - 1 ->
  take (length chunks) (q ++ concat chunks) = l -> Forall is_u8 l ->
  1 <= Z.of_nat (length l) <= MB_SER_PDU_SIZE_MAX -> crc16 l <> 0 ->
  exists s' r', hear chunks s r = Ok (MB_EIO, (s', r')) /\ port_ok (drop (length chunks) (q ++ concat chunks)) s' /\ bufsz s' = bufsz s /\ idle r'.
Proof.
  intros Hp Hc Hr Hz <- Hl Hlen Hcrc. destruct (bad_bytes _ r Hr Hl Hlen Hcrc) as (r1 & r2 & E1 & E2 & E3 & Hr2).
  destruct (line_run_spec chunks q s r Hp Hc Hz) as (s' & Hp' & _ & Hz' & Hrun).
  exists s', r2. unfold hear. rewrite Hrun, E1, !bind_ret_l, E2, bind_ret_l, E3. done.
Qed.

(** Bytes that come one per interrupt. *)
Definition one_each (frame : list Z) : list (list Z) := map (fun b => [b]) frame.

Lemma concat_one_each frame : concat (one_each frame) = frame.
Proof. unfold one_each. induction frame as [|b l IH]; [done|]. cbn. by rewrite IH. Qed.

Lemma chunk_ok_one_each frame : (1 < fuel)%nat -> Forall is_u8 frame -> Forall chunk_ok (one_each frame).
Proof.
  intros Hf. induction 1 as [|b l Hb Hl IH]; cbn; constructor; [|done].
  split; [done|]. split; [by constructor|done].
Qed.

(** One byte each: the receive machine sees the frame, and nothing is left behind. *)
Corollary frame_passes_driver (frame : list Z) (s : serial stm32_uart) (r : rtu) :
  port_ok [] s -> Forall is_u8 frame -> (1 < fuel)%nat -> 2 < bufsz s ->
  exists s', port_ok [] s' /\ line_run (one_each frame) s r = (r' ← rx_bytes frame r; Ok (s', r')).
Proof.
  intros Hp Hu Hf Hz. assert (Hl : length (one_each frame) = length frame) by apply length_map.
  destruct (line_run_spec (one_each frame) [] s r Hp) as (s' & Hp' & _ & _ & Hrun).
  - by apply chunk_ok_one_each.
  - rewrite concat_one_each, Hl. cbn. lia.
  - rewrite concat_one_each, Hl in Hp', Hrun. cbn [app] in Hp', Hrun. rewrite drop_all in Hp'.
    rewrite take_ge in Hrun by done. by exists s'.
Qed.

(** Requests that are heard one byte behind: each begins with the last byte of
    the one before it and lacks its own. *)
Fixpoint behind (b : Z) (requests : list (list Z)) : list (list Z) :=
  match requests with
  | [] => []
  | f :: l => (b :: removelast f) :: behind (List.last f b) l
  end.

Definition request_ok (f : list Z) : Prop := Forall is_u8 f /\ 1 <= Z.of_nat (length f) <= MB_SER_PDU_SIZE_MAX.

Lemma request_split (b : Z) f : request_ok f -> exists front, f = front ++ [List.last f b] /\ removelast f = front.
Proof.
  intros [_ Hl]. exists (removelast f). split; [|done]. apply app_removelast_last. intros ->. cbn in Hl. lia.
Qed.

Lemma hear_behind requests b s r : (1 < fuel)%nat -> port_ok [b] s -> idle r -> 3 < bufsz s -> is_u8 b ->
  Forall request_ok requests -> Forall (fun f => crc16 f <> 0) (behind b requests) ->
  exists x, hear_all (map one_each requests) s r = Ok (replicate (length requests) MB_EIO, x).
Proof.
  intros Hf Hp Hr Hz Hb Hok. revert b s r Hp Hr Hz Hb.
  induction Hok as [|f l Hreq Hok IH]; intros b s r Hp Hr Hz Hb Hbad; cbn [map hear_all length replicate]; [by eexists|].
  cbn [behind] in Hbad. apply Forall_cons_1 in Hbad as [Hcrc Hbad].
  destruct (request_split b f Hreq) as (front & Ef & Efront). destruct Hreq as [Hu Hlen]. rewrite Efront in Hcrc.
  assert (Hl : length (one_each f) = length f) by apply length_map.
  assert (Hlf : length f = S (length front)) by (rewrite Ef, length_app; cbn; lia).
  assert (Hc : [b] ++ concat (one_each f) = (b :: front) ++ [List.last f b])
    by (rewrite concat_one_each, Ef at 1; done).
  assert (Forall is_u8 front /\ is_u8 (List.last f b)) as [Hfront Hlast].
  { rewrite Ef in Hu. apply Forall_app in Hu as [? Hx]. by apply Forall_cons_1 in Hx as [??]. }
  destruct (hear_bad [b] (one_each f) s r (b :: front) Hp) as (s1 & r1 & -> & Hp1 & Hz1 & Hr1); try done.
  - by apply chunk_ok_one_each.
  - rewrite concat_one_each, Hl. cbn. lia.
  - rewrite Hl, Hc. apply take_app_length'. cbn. lia.
  - by constructor.
  - cbn. lia.
  - rewrite Hl, Hc in Hp1. rewrite drop_app_length' in Hp1 by (cbn; lia). rewrite bind_ret_l.
    destruct (IH _ s1 r1 Hp1 Hr1) as (x & ->); [congruence|done|done|]. by exists x.
Qed.

(** C40: One late interrupt puts the slave a byte behind for good.  A request
    [frame ++ [lst]] arrives on an idle port with an empty FIFO, every byte in its
    own interrupt but for one interrupt that finds two; then come any further
    requests, each byte in its own interrupt.  The slave judges the first without
    its last byte, and each later one with the last byte of its predecessor in
    front and its own last byte missing ([behind]).  Whenever none of these
    shifted frames happens to have a valid CRC, which is the hypothesis, every
    request is refused, the late one and all that follow, although each may be
    correct on the line. *)
Theorem late_interrupt_mutes_slave (frame : list Z) (lst : Z) (late : list (list Z)) (later : list (list Z))
    (s : serial stm32_uart) (r : rtu) :
  (1 < fuel)%nat -> port_ok [] s -> idle r -> 3 < bufsz s ->
  Forall chunk_ok late -> concat late = frame ++ [lst] -> length late = length frame ->
  Forall is_u8 (lst :: frame) -> 2 <= Z.of_nat (length (lst :: frame)) <= MB_SER_PDU_SIZE_MAX ->
  Forall request_ok later ->
  crc16 frame <> 0 -> Forall (fun f => crc16 f <> 0) (behind lst later) ->
  exists x, hear_all (late :: map one_each later) s r = Ok (replicate (S (length later)) MB_EIO, x).
Proof.
  intros Hf Hp Hr Hz Hch Hcat Hlen Hu Hsz Hok Hc1 Hc2. cbn [length] in Hsz. cbn [hear_all].
  destruct (hear_bad [] late s r frame Hp Hch Hr) as (s1 & r1 & -> & Hp1 & Hz1 & Hr1).
  - rewrite Hcat, length_app, Hlen. cbn. lia.
  - cbn. rewrite Hcat, Hlen. by apply take_app_length'.
  - by apply Forall_cons_1 in Hu as [??].
  - unfold MB_SER_PDU_SIZE_MAX in *. lia.
  - done.
  - cbn [app] in Hp1. rewrite Hcat, Hlen, drop_app_length' in Hp1 by done. rewrite bind_ret_l.
    destruct (hear_behind later lst s1 r1) as (x & ->); try done; [congruence|by apply Forall_cons_1 in Hu as [??]|].
    by exists x.
Qed.
End port.

(** ** A port at work *)

Definition open_port : serial stm32_uart :=
  match port_init 9 (rt_hw_serial_register usart_flags 64 (Stm32 [] [] false)) with
  | Ok (_, s) => s
  | Fault _ => rt_hw_serial_register usart_flags 64 (Stm32 [] [] false)
  end.

Lemma open_port_ok : port_ok [] open_port.
Proof. constructor; try reflexivity. exists (empty_fifo 64). split; [reflexivity|]. by apply empty_fifo_ok. Qed.

Lemma serial_port_implements_mbport_witness : exists r' s',
  xMBRTUReceiveFSM 17 rtu_idle = Ok r' /\ uart_isr 9 (arrive [17] open_port) rtu_idle = Ok (s', r').
Proof.
  destruct (serial_port_implements_mbport 9 64 rtu_reset rtu_idle open_port 17 true false)
    as (_ & Hb & _); [lia|lia| |mlia| |reflexivity|].
  - apply rtu_idle_listening.
  - apply port_ok_sim; [apply open_port_ok|reflexivity|reflexivity].
  - destruct Hb as (r' & s' & H1 & H2 & _); [reflexivity|]. exists r', s'. split; [exact H1|exact H2].
Defined.

Lemma one_byte_per_interrupt_witness : exists s',
  port_ok [0x0B] s' /\
  line_run 9 [[1]; [3; 0]; [0]; [0]; [2]; [0xC4]; [0x0B]] open_port rtu_idle =
  (r' ← rx_bytes [1; 3; 0; 0; 0; 2; 0xC4] rtu_idle; Ok (s', r')).
Proof.
  destruct (one_byte_per_interrupt 9 [] [[1]; [3; 0]; [0]; [0]; [2]; [0xC4]; [0x0B]] open_port rtu_idle)
    as (s' & Hp & _ & _ & Hrun); [apply open_port_ok| |reflexivity|].
  - repeat (apply Forall_cons_2; [split; [discriminate|split; [|cbn; lia]]; repeat constructor; lia|]).
    apply Forall_nil_2.
  - exists s'. split; [exact Hp|exact Hrun].
Defined.

(** A late read of registers, the same request again, then a write of a register. *)
Lemma late_interrupt_mutes_slave_witness : exists x,
  hear_all 9 ([[1]; [3; 0]; [0]; [0]; [2]; [0xC4]; [0x0B]]
      :: map one_each [[1; 3; 0; 0; 0; 2; 0xC4; 0x0B]; [1; 6; 0; 1; 0; 3; 0x98; 0x0B]])
    open_port rtu_idle = Ok (replicate 3 MB_EIO, x).
Proof.
  apply (late_interrupt_mutes_slave 9 [1; 3; 0; 0; 0; 2; 0xC4] 0x0B [[1]; [3; 0]; [0]; [0]; [2]; [0xC4]; [0x0B]]
    [[1; 3; 0; 0; 0; 2; 0xC4; 0x0B]; [1; 6; 0; 1; 0; 3; 0x98; 0x0B]]).
  - lia.
  - apply open_port_ok.
  - split; [apply rtu_idle_listening|split; reflexivity].
  - reflexivity.
  - repeat (apply Forall_cons_2; [split; [discriminate|split; [|cbn; lia]]; repeat constructor; lia|]). apply Forall_nil_2.
  - reflexivity.
  - reflexivity.
  - repeat constructor; lia.
  - unfold MB_SER_PDU_SIZE_MAX. cbn. lia.
  - repeat (apply Forall_cons_2; [split; [repeat constructor; lia|unfold MB_SER_PDU_SIZE_MAX; cbn; lia]|]). apply Forall_nil_2.
  - vm_compute. discriminate.
  - repeat (apply Forall_cons_2; [vm_compute; discriminate|]). apply Forall_nil_2.
Defined.

(** [vMBPortClose] calls the driver's close and not the device layer's, so the
    count of opens is never taken back: the first close works, but after the
    port has been opened again the second one finds a count of 2 and leaves the
    FIFO and the interrupt as they are. *)
Theorem second_close_ignored :
  match vMBPortClose open_port with
  | Ok s1 =>
      serial_rx s1 = None /\ rxne_irq (uart s1) = false /\ ref_count (parent s1) = 1 /\
      match port_init 9 s1 with
      | Ok (true, s2) => ref_count (parent s2) = 2 /\ vMBPortClose s2 = Ok s2 /\ rxne_irq (uart s2) = true
      | _ => False
      end
  | Fault _ => False
  end.
Proof. vm_compute. repeat split. Qed.
