(* ===== verification/CommConfig.v ===== *)
(** * Communication configuration (Task/CommunicationConfig.c, ConfigFile.c)

    The parameter table [g_ConfigFile], its exchange with the configuration
    registers, and the file of transmitter ids: number formatting and parsing,
    the writer, and the reader over FatFs's string functions
    (components/dfs/filesystems/elmfat/ff.c). *)
From S2P Require Import Prelude Registers.

(** ** Parameters *)
(** [cf_name]: the name pointer, [None] when it is null. *)
Record ConfigFile := mkConfig { cf_name : option (list Z); parameter : Z; number : Z }.

Definition ConfigFileEnum_ModbusBandrate : Z := 0.
Definition ConfigFileEnum_ModbusSlaveAddress : Z := 1.
Definition ConfigFileEnum_NodeOvertimeTime : Z := 2.

Record config_table := mkTable { cfg0 : ConfigFile; cfg1 : ConfigFile; cfg2 : ConfigFile }.

Definition g_ConfigFile : config_table :=
  mkTable (mkConfig (Some (text "Modbus_Baudrate")) 115200 ConfigFileEnum_ModbusBandrate)
          (mkConfig (Some (text "Modbus_SlaveAddress")) 1 ConfigFileEnum_ModbusSlaveAddress)
          (mkConfig (Some (text "NodeOvertimeTime")) 1 ConfigFileEnum_NodeOvertimeTime).

Definition set_parameter (c : ConfigFile) (v : Z) : ConfigFile :=
  mkConfig (cf_name c) v (number c).

(** The baud rate of a code, bits 8 and 9 of register 0. *)
Definition HostSetModbusParameter (regs : list Z) (t : config_table) : res config_table :=
  r0 ← get regs 0;
  let t := match Z.shiftr (Z.land r0 0x0300) 8 with
           | 0 => mkTable (set_parameter (cfg0 t) 2400) (cfg1 t) (cfg2 t)
           | 1 => mkTable (set_parameter (cfg0 t) 4800) (cfg1 t) (cfg2 t)
           | 2 => mkTable (set_parameter (cfg0 t) 9600) (cfg1 t) (cfg2 t)
           | 3 => mkTable (set_parameter (cfg0 t) 115200) (cfg1 t) (cfg2 t)
           | _ => t
           end in
  Ok (mkTable (cfg0 t) (set_parameter (cfg1 t) (Z.land r0 0x00FF)) (cfg2 t)).

Definition ConfigModbusHoldRegister (t : config_table) (regs : list Z) : res (list Z) :=
  regs ← set regs 0 (u16 (parameter (cfg1 t)));
  r0 ← get regs 0;
  regs ← (if 2400 =? parameter (cfg0 t) then set regs 0 (Z.lor r0 0)
          else if 4800 =? parameter (cfg0 t) then set regs 0 (Z.lor r0 0x100)
          else if 9600 =? parameter (cfg0 t) then set regs 0 (Z.lor r0 0x200)
          else if 115200 =? parameter (cfg0 t) then set regs 0 (Z.lor r0 0x300)
          else Ok regs);
  r0 ← get regs 0;
  regs ← set regs 0 (Z.lor r0 0xC00);
  set regs 1 (u16 (parameter (cfg2 t))).

(** ** Numbers and strings *)

(** [StrToInt] on the bytes from the pointer on. *)
Fixpoint StrToInt_loop (str : list Z) (acc : Z) : res Z :=
  match str with
  | [] => Fault OutOfBounds
  | c :: str' =>
      if c =? 0 then Ok acc
      else if (c <? 48) || (57 <? c) then Ok 0
      else StrToInt_loop str' (u32 (u32 (acc * 10) + (c - 48)))
  end.
(** [None] is a null pointer. *)
Definition StrToInt (str : option (list Z)) : res Z :=
  match str with None => Fault NullDeref | Some s => StrToInt_loop s 0 end.

Record its := mkIts { p_str : list Z; pos : Z; status : Z; intnum : Z; divider : Z }.

Definition IntToStr_step (_ : Z) (t : its) : res its :=
  let d := u8 (intnum t / divider t + 48) in
  str ← set (p_str t) (pos t) d;
  let pos := u32 (pos t + 1) in
  let n := intnum t mod divider t in
  let dv := divider t / 10 in
  last ← get str (pos - 1);
  if (last =? 48) && (status t =? 0)
  then Ok (mkIts str 0 (status t) n dv)
  else Ok (mkIts str pos (u32 (status t + 1)) n dv).

Definition IntToStr (str : list Z) (n : Z) : res (list Z) :=
  t ← for_loop 10 0 IntToStr_step (mkIts str 0 0 n 1000000000);
  Ok (p_str t).

(** The characters of a C string in a buffer. *)
Fixpoint c_string (buf : list Z) : res (list Z) :=
  match buf with
  | [] => Fault OutOfBounds
  | c :: buf' => if c =? 0 then Ok [] else s ← c_string buf'; Ok (c :: s)
  end.

(** [memset(str, 0, strlen(str))] *)
Definition clear_string (buf : list Z) : res (list Z) :=
  s ← c_string buf; Ok (replicate (length s) 0 ++ drop (length s) buf).

(** [strtok] with the separator [,]: the next token and where the following
    call continues. *)
Fixpoint skip_commas (s : list Z) : list Z :=
  match s with
  | c :: s' => if c =? 44 then skip_commas s' else s
  | [] => []
  end.
Fixpoint until_comma (s : list Z) : list Z * list Z :=
  match s with
  | [] => ([], [])
  | c :: s' => if c =? 44 then ([], s') else let '(t, r) := until_comma s' in (c :: t, r)
  end.
Definition strtok (s : list Z) : option (list Z) * list Z :=
  match skip_commas s with
  | [] => (None, [])
  | s' => let '(t, r) := until_comma s' in (Some (t ++ [0]), r)
  end.

(** ** Files

    A file is its contents; [None]: the object is not open, and operations on
    it fail without effect.  The disk does not run full. *)
Definition file : Type := option (list Z).

Definition f_putc (c : Z) (f : file) : file := (fun l => l ++ [c]) <$> f.
Definition f_puts (s : list Z) (f : file) : file := (fun l => l ++ s) <$> f.

(** Characters up to and including a newline, at most [n]; the rest of the
    file. *)
Fixpoint gets_loop (n : nat) (rest : list Z) : list Z * list Z :=
  match n, rest with
  | O, _ | _, [] => ([], rest)
  | S n', c :: rest' =>
      if c =? 10 then ([c], rest')
      else let '(l, r) := gets_loop n' rest' in (c :: l, r)
  end.
(** [f_gets] with a buffer of [len] characters, or none. *)
Definition f_gets (buffer : bool) (len : Z) (rest : list Z) : res (option (list Z) * list Z) :=
  if buffer then
    let '(l, r) := gets_loop (Z.to_nat (len - 1)) rest in
    Ok (match l with [] => None | _ => Some l end, r)
  else Fault NullDeref.

(** ** The transmitter-id file *)
Definition save_line (i : Z) (st : list Z * list Z * file) : res (list Z * list Z * file) :=
  let '(regs, str, f) := st in
  str ← IntToStr str (u32 i);
  s ← c_string str;
  let f := f_puts s f in
  str ← clear_string str;
  let f := f_putc 44 f in
  id ← read_pair regs (NODE_DEVICE_ID_FIRST_ADDRESS + 2 * i);
  str ← IntToStr str id;
  s ← c_string str;
  let f := f_puts s f in
  str ← clear_string str;
  let f := f_putc 44 f in
  let f := f_putc 10 f in
  Ok (regs, str, f).

(** [opens]: whether the file can be created; if so it starts empty. *)
Definition SaveDeviceIdFile (opens : bool) (regs : list Z) : res file :=
  '(_, _, f) ← for_loop 256 0 save_line
                 (regs, replicate 1024 0, if opens then Some [] else None);
  Ok f.

(** One line: the first field selects the node, the second is its id. *)
Definition read_line (line : list Z) (regs : list Z) : res (list Z) :=
  s ← c_string (line ++ [0]);
  let '(record, r) := strtok s in
  num ← StrToInt record;
  let num := u8 num in
  let '(record, _) := strtok r in
  temp ← StrToInt record;
  write_pair regs (NODE_DEVICE_ID_FIRST_ADDRESS + 2 * num) temp.

Fixpoint read_lines (fuel : nat) (buffer : bool) (len : Z) (rest regs : list Z)
  : res (list Z) :=
  match fuel with
  | O => Fault Hang
  | S fuel' =>
      '(l, rest) ← f_gets buffer len rest;
      match l with
      | None => Ok regs
      | Some line => regs ← read_line line regs; read_lines fuel' buffer len rest regs
      end
  end.

(** [contents]: the file, [None] if it cannot be opened, when the size of the
    unused file object, 0, is taken.  [mem]: whether the allocator has the
    memory; a request for 0 bytes yields no buffer. *)
Definition ReadDeviceIdFile (mem : bool) (contents : file) (regs : list Z) : res (list Z) :=
  let data := default [] contents in
  let fileSize := u16 (Z.of_nat (length data)) in
  let buffer := mem && negb (fileSize =? 0) in
  read_lines (S (length data)) buffer fileSize data regs.

(** ** Numbers *)

Lemma StrToInt_digits ds acc rest : Forall digit ds -> 0 <= acc ->
  is_u32 (str_val acc ds) -> StrToInt_loop (ds ++ 0 :: rest) acc = Ok (str_val acc ds).
Proof.
  intros H. revert acc. induction H as [|c ds Hc H IH]; intros acc Ha Hv; cbn; [done|].
  unfold digit in Hc. cbn in Hv.
  pose proof (str_val_mono ds (10 * acc + (c - 48)) H ltac:(lia)) as Hm.
  destruct (Z.eqb_spec c 0), (Z.ltb_spec c 48), (Z.ltb_spec 57 c); try lia. cbn.
  replace (u32 (u32 (acc * 10) + (c - 48))) with (10 * acc + (c - 48))
    by (unfold str_val in *; mlia).
  by apply IH; [lia|].
Qed.

(** Decomposition of one decimal digit. *)
Lemma digit_split n q : 0 < q ->
  n mod (10 * q) / q = n / q mod 10 /\ n mod (10 * q) mod q = n mod q
  /\ n / q = 10 * (n / (10 * q)) + n / q mod 10.
Proof.
  intros Hq. rewrite (Z.mul_comm 10 q). rewrite Z.rem_mul_r by lia.
  assert (n / (q * 10) = n / q / 10) as -> by (rewrite Z.div_div; lia).
  assert (0 <= n mod q < q) as Hm by (apply Z.mod_pos_bound; lia).
  split; [|split].
  - rewrite Z.mul_comm, Z.div_add, Z.div_small by lia. lia.
  - rewrite Z.mul_comm, Z.mod_add, Z.mod_small by lia. done.
  - pose proof (Z.div_mod (n / q) 10). lia.
Qed.

Definition its_inv (n : Z) (len : nat) (i : Z) (t : its) : Prop :=
  (i <= 9 -> divider t = 10 ^ (9 - i))
  /\ intnum t = n mod 10 ^ (10 - i)
  /\ exists ds, Forall digit ds /\ str_val 0 ds = n / 10 ^ (10 - i)
  /\ Z.of_nat (length ds) <= i
  /\ pos t = Z.of_nat (length ds) /\ status t = Z.of_nat (length ds)
  /\ p_str t = match ds with
               | [] => if i =? 0 then replicate len 0 else 48 :: replicate (len - 1) 0
               | _ => ds ++ replicate (len - length ds) 0
               end.

Lemma upd_zeros (ds : list Z) len x : (length ds < len)%nat ->
  upd (ds ++ replicate (len - length ds) 0) (Z.of_nat (length ds)) x
  = ds ++ x :: replicate (len - S (length ds)) 0.
Proof.
  intros Hl. replace (len - length ds)%nat with (S (len - S (length ds))) by lia.
  cbn [replicate]. unfold upd. rewrite Nat2Z.id.
  by rewrite insert_app_r_alt, Nat.sub_diag by lia.
Qed.

Lemma its_step n len i t : is_u32 n -> (11 <= len)%nat -> 0 <= i < 10 -> its_inv n len i t ->
  exists t', IntToStr_step i t = Ok t' /\ its_inv n len (i + 1) t'.
Proof.
  intros Hn Hlen Hi (Hd & Hint & ds & Hds & Hv & Hl & Hp & Hst & Hstr).
  specialize (Hd ltac:(lia)). set (q := 10 ^ (9 - i)) in *.
  assert (10 ^ (10 - i) = 10 * q) as E
    by (unfold q; replace (10 - i) with (Z.succ (9 - i)) by lia; rewrite Z.pow_succ_r; lia).
  assert (0 < q) as Hq by (unfold q; apply Z.pow_pos_nonneg; lia).
  destruct (digit_split n q Hq) as (D1 & D2 & D3). rewrite E in *.
  unfold IntToStr_step. rewrite Hint, Hd, D1, D2. set (d := n / q mod 10) in *.
  assert (0 <= d < 10) as Hd10 by (unfold d; lia).
  rewrite (u8_id (d + 48)) by mlia. rewrite Hp, Hst.
  unfold its_inv. replace (10 - (i + 1)) with (9 - i) by lia. fold q.
  assert (i + 1 <= 9 -> q / 10 = 10 ^ (9 - (i + 1))) as Hq'.
  { intros Hi'. unfold q. replace (9 - i) with (Z.succ (9 - (i + 1))) by lia.
    rewrite Z.pow_succ_r, Z.mul_comm, Z.div_mul; lia. }
  destruct ds as [|d0 ds].
  - (* leading zeros so far *)
    assert (exists y, p_str t = y :: replicate (len - 1) 0) as [y Ey].
    { rewrite Hstr. destruct (i =? 0); [|by eexists].
      exists 0. by replace len with (S (len - 1)) at 1 by lia. }
    rewrite Ey. cbn [length]. change (Z.of_nat 0) with 0.
    rewrite set_in, bind_ret_l by (unfold in_range; cbn; lia).
    change (u32 (0 + 1) - 1) with 0. change (upd (y :: _) 0 ?x) with (x :: replicate (len - 1) 0).
    rewrite get_in, bind_ret_l by (unfold in_range; cbn; lia).
    change (rd (?x :: _) 0) with x. cbn in Hv.
    destruct (Z.eqb_spec (d + 48) 48) as [Hz|Hz]; cbn [andb Z.eqb].
    + eexists. split; [done|]. split; [done|]. split; [done|]. exists [].
      split; [done|]. split; [cbn; lia|]. split; [cbn; lia|]. split; [done|].
      split; [done|]. destruct (Z.eqb_spec (i + 1) 0); [lia|]. cbn. f_equal. done.
    + eexists. split; [done|]. split; [done|]. split; [done|]. exists [d + 48].
      split; [repeat constructor; unfold digit; lia|]. split; [cbn; lia|].
      split; [cbn; lia|]. done.
  - set (l := d0 :: ds) in *. rewrite Hstr.
    rewrite set_in, bind_ret_l by
      (unfold in_range; rewrite length_app, length_replicate; lia).
    rewrite upd_zeros by lia.
    replace (u32 (Z.of_nat (length l) + 1) - 1) with (Z.of_nat (length l)) by mlia.
    rewrite get_in, bind_ret_l by (unfold in_range; rewrite length_app; cbn; lia).
    replace (Z.of_nat (length l) =? 0) with false by (symmetry; apply Z.eqb_neq; cbn; lia).
    rewrite andb_false_r. eexists. split; [done|]. split; [done|]. split; [done|].
    exists (l ++ [d + 48]). split; [apply Forall_app; split; [done|]; repeat constructor;
      unfold digit; lia|].
    rewrite str_val_snoc, Hv, length_app. cbn [length].
    split; [lia|]. split; [lia|]. split; [cbn [pos]; mlia|]. split; [cbn [status]; mlia|].
    cbn [p_str]. rewrite <- app_assoc. unfold l. cbn [app]. do 2 f_equal. cbn [length].
    f_equal. f_equal. lia.
Qed.

(** Formatting into a cleared buffer gives the number's digits. *)
Lemma IntToStr_ok n len : is_u32 n -> (11 <= len)%nat ->
  exists ds, IntToStr (replicate len 0) n = Ok (ds ++ replicate (len - length ds) 0)
  /\ Forall digit ds /\ (1 <= length ds <= 10)%nat /\ str_val 0 ds = n.
Proof.
  intros Hn Hlen. unfold IntToStr.
  destruct (for_loop_inv (its_inv n len) IntToStr_step 10 0
    (mkIts (replicate len 0) 0 0 n 1000000000)) as (t & -> & Ht).
  - split; [done|]. split; [cbn; mlia|]. exists []. repeat split; try done. cbn. mlia.
  - intros i t Hi Ht. by apply its_step.
  - rewrite bind_ret_l. destruct Ht as (_ & _ & ds & Hds & Hv & Hl & _ & _ & Hstr).
    change (0 + Z.of_nat 10) with 10 in *. change (10 ^ (10 - 10)) with 1 in Hv.
    rewrite Z.div_1_r in Hv. rewrite Hstr. destruct ds as [|d0 ds].
    + exists [48]. split; [done|]. split; [repeat constructor; unfold digit; lia|].
      split; [cbn; lia|]. done.
    + exists (d0 :: ds). split; [done|]. split; [done|]. cbn [length] in *. split; [lia|done].
Qed.

(** ** The transmitter-id file *)

Lemma c_string_ok s rest : Forall (fun c => c <> 0) s -> c_string (s ++ 0 :: rest) = Ok s.
Proof.
  induction 1 as [|c s Hc H IH]; [done|]. cbn [c_string app].
  destruct (Z.eqb_spec c 0); [done|]. by rewrite IH.
Qed.
Lemma digits_nonzero ds : Forall digit ds -> Forall (fun c => c <> 0) ds.
Proof. apply Forall_impl. unfold digit. lia. Qed.

Lemma digits_buffer ds len : Forall digit ds -> (length ds < len)%nat ->
  c_string (ds ++ replicate (len - length ds) 0) = Ok ds
  /\ clear_string (ds ++ replicate (len - length ds) 0) = Ok (replicate len 0).
Proof.
  intros Hd Hl. replace (len - length ds)%nat with (S (len - S (length ds))) by lia.
  cbn [replicate]. unfold clear_string.
  rewrite c_string_ok by by apply digits_nonzero. split; [done|].
  rewrite bind_ret_l, drop_app_length. f_equal.
  change (0 :: replicate (len - S (length ds)) 0) with (replicate (S (len - S (length ds))) 0).
  rewrite <- replicate_add. f_equal. lia.
Qed.

(** A line: number of the node, its id, each followed by a comma. *)
Definition id_line (i id : Z) (line : list Z) : Prop :=
  exists di dd, Forall digit di /\ Forall digit dd /\ (1 <= length di <= 10)%nat
  /\ (1 <= length dd <= 10)%nat /\ str_val 0 di = i /\ str_val 0 dd = id
  /\ line = di ++ 44 :: dd ++ [44; 10].

Lemma save_line_ok regs i l : regs_wf regs -> 0 <= i < 256 ->
  exists line, save_line i (regs, replicate 1024 0, Some l)
               = Ok (regs, replicate 1024 0, Some (l ++ line))
  /\ id_line i (pair_at regs (NODE_DEVICE_ID_FIRST_ADDRESS + 2 * i)) line.
Proof.
  intros Hr Hi. unfold save_line. rewrite (u32_id i) by mlia.
  destruct (IntToStr_ok i 1024) as (di & -> & Hdi & Ldi & Vdi); [mlia|lia|].
  destruct (digits_buffer di 1024 Hdi) as [Es Ec]; [lia|].
  rewrite bind_ret_l, Es, bind_ret_l, Ec, bind_ret_l.
  destruct (read_pair_ok regs (NODE_DEVICE_ID_FIRST_ADDRESS + 2 * i) Hr) as [-> Hid];
    [reg_unfold; lia|].
  rewrite bind_ret_l. set (id := pair_at _ _) in *.
  destruct (IntToStr_ok id 1024) as (dd & -> & Hdd & Ldd & Vdd); [done|lia|].
  destruct (digits_buffer dd 1024 Hdd) as [Es' Ec']; [lia|].
  rewrite bind_ret_l, Es', bind_ret_l, Ec', bind_ret_l.
  exists (di ++ 44 :: dd ++ [44; 10]). split; [|by exists di, dd].
  unfold f_puts, f_putc. cbn [fmap option_fmap option_map]. by rewrite <- !app_assoc.
Qed.

(** The file of the current ids. *)
Definition id_file (regs : list Z) (lines : list (list Z)) : Prop :=
  forall k line, lines !! k = Some line ->
    id_line (Z.of_nat k) (pair_at regs (NODE_DEVICE_ID_FIRST_ADDRESS + 2 * Z.of_nat k)) line.

Lemma save_file_ok regs : regs_wf regs ->
  exists lines, SaveDeviceIdFile true regs = Ok (Some (concat lines))
  /\ length lines = 256%nat /\ id_file regs lines.
Proof.
  intros Hr. unfold SaveDeviceIdFile.
  destruct (for_loop_inv (S := list Z * list Z * file)
      (fun i st => exists lines, st = (regs, replicate 1024 0,
      Some (concat lines)) /\ Z.of_nat (length lines) = i /\ id_file regs lines)
    save_line 256 0 (regs, replicate 1024 0, Some [] : file))
    as (st & E & lines & -> & Hl & Hf).
  - exists []. split; [done|]. split; [done|]. by intros k line.
  - intros i st Hi (lines & -> & Hl & Hf).
    destruct (save_line_ok regs i (concat lines) Hr) as (line & -> & Hline); [lia|].
    eexists. split; [done|]. exists (lines ++ [line]).
    split; [rewrite concat_app; cbn [concat]; by rewrite app_nil_r|]. split; [rewrite length_app; cbn; lia|].
    intros k l' Hk. apply lookup_app_Some in Hk as [Hk|[Hge Hk]]; [by apply Hf|].
    apply list_lookup_singleton_Some in Hk as [Hk0 <-]. by replace (Z.of_nat k) with i by lia.
  - exists lines. split; [|split; [lia|done]].
    apply bind_Ok. eexists. split; [exact E|done].
Qed.

Lemma gets_line body rest n : Forall (fun c => c <> 10) body -> (length body < n)%nat ->
  gets_loop n (body ++ 10 :: rest) = (body ++ [10], rest).
Proof.
  intros H. revert n. induction H as [|c body Hc H IH]; intros [|n] Hn; cbn in *; try lia; [done|].
  destruct (Z.eqb_spec c 10); [done|]. by rewrite IH by lia.
Qed.

Lemma until_comma_digits ds rest : Forall digit ds ->
  until_comma (ds ++ 44 :: rest) = (ds, rest).
Proof.
  induction 1 as [|c ds Hc H IH]; cbn; [done|]. unfold digit in Hc.
  destruct (Z.eqb_spec c 44); [lia|]. by rewrite IH.
Qed.
Lemma strtok_digits ds rest : Forall digit ds -> (1 <= length ds)%nat ->
  strtok (ds ++ 44 :: rest) = (Some (ds ++ [0]), rest).
Proof.
  intros H Hl. destruct ds as [|c ds]; [cbn in Hl; lia|]. unfold strtok. cbn [skip_commas app].
  pose proof H as H'. apply Forall_cons_1 in H' as [Hc _]. unfold digit in Hc.
  destruct (Z.eqb_spec c 44); [lia|].
  change (c :: ds ++ 44 :: rest) with ((c :: ds) ++ 44 :: rest).
  by rewrite until_comma_digits.
Qed.

Lemma read_line_ok i id line regs : id_line i id line -> 0 <= i < 256 -> is_u32 id ->
  read_line line regs = write_pair regs (NODE_DEVICE_ID_FIRST_ADDRESS + 2 * i) id.
Proof.
  intros (di & dd & Hdi & Hdd & Ldi & Ldd & Vi & Vd & ->) Hi Hid. unfold read_line.
  rewrite c_string_ok.
  2:{ apply Forall_app. split; [by apply digits_nonzero|]. constructor; [lia|].
      apply Forall_app. split; [by apply digits_nonzero|]. repeat constructor; lia. }
  rewrite bind_ret_l, strtok_digits by (done || lia). cbn [StrToInt].
  rewrite StrToInt_digits by (done || (rewrite Vi; mlia) || lia). rewrite bind_ret_l, Vi.
  rewrite u8_id by mlia. rewrite strtok_digits by (done || lia). cbn [StrToInt].
  rewrite StrToInt_digits by (done || (by rewrite Vd) || lia). by rewrite bind_ret_l, Vd.
Qed.

Lemma id_line_length i id line : id_line i id line -> (5 <= length line <= 23)%nat
  /\ exists body, line = body ++ [10] /\ Forall (fun c => c <> 10) body.
Proof.
  intros (di & dd & Hdi & Hdd & Ldi & Ldd & _ & _ & ->). split.
  - rewrite length_app. cbn. rewrite length_app. cbn. lia.
  - exists (di ++ 44 :: dd ++ [44]). split; [by rewrite <- !app_assoc; cbn; rewrite <- app_assoc|].
    assert (forall ds, Forall digit ds -> Forall (fun c => c <> 10) ds) as Hd
      by (intros ds; apply Forall_impl; unfold digit; lia).
    apply Forall_app. split; [by apply Hd|]. constructor; [lia|].
    apply Forall_app. split; [by apply Hd|]. repeat constructor; lia.
Qed.

(** Reading the lines from number [k] on. *)
Lemma read_lines_ok src lines k fuel len regs :
  regs_wf src -> regs_wf regs ->
  (forall j line, lines !! j = Some line ->
     id_line (Z.of_nat (k + j))
       (pair_at src (NODE_DEVICE_ID_FIRST_ADDRESS + 2 * Z.of_nat (k + j))) line) ->
  (k + length lines <= 256)%nat -> 24 <= len -> (length lines < fuel)%nat ->
  exists regs', read_lines fuel true len (concat lines) regs = Ok regs' /\ regs_wf regs'
  /\ (forall j, (k <= j < k + length lines)%nat ->
        pair_at regs' (NODE_DEVICE_ID_FIRST_ADDRESS + 2 * Z.of_nat j)
        = pair_at src (NODE_DEVICE_ID_FIRST_ADDRESS + 2 * Z.of_nat j))
  /\ (forall a, 0 <= a -> a < NODE_DEVICE_ID_FIRST_ADDRESS + 2 * Z.of_nat k
        \/ NODE_DEVICE_ID_FIRST_ADDRESS + 2 * Z.of_nat (k + length lines) <= a ->
        rd regs' a = rd regs a).
Proof.
  intros Hsrc. revert k fuel regs.
  induction lines as [|line lines IH]; intros k fuel regs Hr Hlines Hk Hlen Hfuel.
  - destruct fuel as [|fuel]; [cbn in Hfuel; lia|]. exists regs.
    cbn [read_lines concat f_gets]. replace (Z.to_nat (len - 1)) with (S (Z.to_nat (len - 2))) by lia.
    split; [done|]. split; [done|]. split; [|done]. cbn. lia.
  - destruct fuel as [|fuel]; [cbn in Hfuel; lia|]. cbn [length] in *.
    pose proof (Hlines 0%nat line eq_refl) as Hline. rewrite Nat.add_0_r in Hline.
    destruct (id_line_length _ _ _ Hline) as (Hll & body & Eb & Hbody).
    replace (concat (line :: lines)) with (body ++ 10 :: concat lines)
      by (cbn [concat]; rewrite Eb, <- app_assoc; done).
    cbn [read_lines f_gets].
    rewrite gets_line by (done || (rewrite Eb, length_app in Hll; cbn in Hll; lia)).
    rewrite <- Eb, bind_ret_l.
    destruct line as [|c0 line0]; [cbn in Hll; lia|]. set (line := c0 :: line0) in *.
    destruct (read_pair_ok src (NODE_DEVICE_ID_FIRST_ADDRESS + 2 * Z.of_nat k) Hsrc)
      as [_ Hid]; [reg_unfold; lia|].
    rewrite (read_line_ok _ _ _ regs Hline) by (done || lia).
    destruct (write_pair_ok regs (NODE_DEVICE_ID_FIRST_ADDRESS + 2 * Z.of_nat k)
      (pair_at src (NODE_DEVICE_ID_FIRST_ADDRESS + 2 * Z.of_nat k)) Hr Hid) as [-> Hr1];
      [reg_unfold; lia|].
    rewrite bind_ret_l. set (regs1 := put_pair _ _ _) in *.
    destruct (IH (S k) fuel regs1 Hr1) as (regs' & E & Hr' & Hp & Ho).
    + intros j l Hj. replace (S k + j)%nat with (k + S j)%nat by lia. by apply Hlines.
    + lia.
    + done.
    + lia.
    + exists regs'. split; [exact E|]. split; [done|]. split.
      * intros j Hj. destruct (decide (j = k)) as [->|Hne]; [|apply Hp; lia].
        unfold pair_at. rewrite !Ho by (reg_unfold; lia).
        pose proof (put_pair_same regs (NODE_DEVICE_ID_FIRST_ADDRESS + 2 * Z.of_nat k)
          _ Hr Hid ltac:(reg_unfold; lia)) as Hsame. exact Hsame.
      * intros a Ha Hout. rewrite Ho by (reg_unfold; lia).
        unfold regs1. apply put_pair_other; reg_unfold; lia.
Qed.

(** Every line read consumes input: the reader never runs out of its fuel. *)
Lemma gets_loop_shrinks n rest : (length (gets_loop n rest).2 + length (gets_loop n rest).1
  = length rest)%nat.
Proof.
  revert rest. induction n as [|n IH]; intros [|c rest]; cbn; try lia.
  destruct (c =? 10); cbn; [lia|]. specialize (IH rest).
  destruct (gets_loop n rest) as [l r]. cbn in *. lia.
Qed.

Lemma StrToInt_no_hang s : StrToInt s <> Fault Hang.
Proof.
  destruct s as [s|]; [|done]. cbn. generalize 0. induction s as [|c s IH]; intros acc; cbn; [done|].
  destruct (c =? 0); [done|]. destruct (_ || _); [done|]. apply IH.
Qed.
Lemma c_string_no_hang s : c_string s <> Fault Hang.
Proof.
  induction s as [|c s IH]; cbn; [done|]. destruct (c =? 0); [done|].
  destruct (c_string s); cbn; [done|]. congruence.
Qed.
Lemma read_line_no_hang line regs : read_line line regs <> Fault Hang.
Proof.
  unfold read_line. pose proof (c_string_no_hang (line ++ [0])) as Hc.
  destruct (c_string _) as [s|]; cbn; [|intros [= ->]; done]. destruct (strtok s) as [r1 rest].
  pose proof (StrToInt_no_hang r1) as H1. destruct (StrToInt r1); cbn; [|intros [= ->]; done].
  destruct (strtok rest) as [r2 ?]. pose proof (StrToInt_no_hang r2) as H2.
  destruct (StrToInt r2); cbn; [|intros [= ->]; done].
  unfold write_pair, set. repeat (case_decide; cbn; try done).
Qed.

Lemma read_lines_no_hang fuel buffer len rest regs : (length rest < fuel)%nat ->
  read_lines fuel buffer len rest regs <> Fault Hang.
Proof.
  revert rest regs. induction fuel as [|fuel IH]; intros rest regs Hf; [lia|]. cbn [read_lines].
  unfold f_gets. destruct buffer; [|done].
  pose proof (gets_loop_shrinks (Z.to_nat (len - 1)) rest) as Hs.
  destruct (gets_loop _ rest) as [[|c l] r]; [done|]. cbn [fst snd length] in Hs.
  rewrite bind_ret_l. pose proof (read_line_no_hang (c :: l) regs) as Hr.
  destruct (read_line (c :: l) regs) as [regs1|f]; [|intros [= ->]; done].
  rewrite bind_ret_l. apply IH. lia.
Qed.

Lemma id_file_lemma regs regs0 :
  regs_wf regs -> regs_wf regs0 ->
  exists contents regs',
    SaveDeviceIdFile true regs = Ok (Some contents)
    /\ ReadDeviceIdFile true (Some contents) regs0 = Ok regs' /\ regs_wf regs'
    /\ (forall n, is_u8 n ->
          pair_at regs' (NODE_DEVICE_ID_FIRST_ADDRESS + 2 * n)
          = pair_at regs (NODE_DEVICE_ID_FIRST_ADDRESS + 2 * n))
    /\ (forall a, 0 <= a < S_REG_HOLDING_NREGS ->
          (forall n, is_u8 n -> a ∉ id_regs n) -> rd regs' a = rd regs0 a).
Proof.
  intros Hr Hr0. destruct (save_file_ok regs Hr) as (lines & Es & Hl & Hf).
  exists (concat lines).
  assert (5 * 256 <= length (concat lines) <= 23 * 256)%nat as Hlen.
  { rewrite <- Hl. clear Es Hl. assert (Forall (fun l : list Z => (5 <= length l <= 23)%nat) lines)
      as HF by (apply Forall_lookup; intros k l Hk; by eapply id_line_length, Hf).
    clear Hf. induction HF as [|l lines Hx HF IH]; cbn; [lia|]. rewrite length_app. lia. }
  destruct (read_lines_ok regs lines 0 (S (length (concat lines)))
    (Z.of_nat (length (concat lines))) regs0 Hr Hr0) as (regs' & Er & Hr' & Hp & Ho); try lia.
  { intros j line Hj. by apply Hf. }
  exists regs'. split; [done|]. split; [|split; [done|split]].
  - unfold ReadDeviceIdFile. change (default [] (Some (concat lines))) with (concat lines). cbv zeta. rewrite (u16_id (Z.of_nat _)) by mlia.
    destruct (Z.eqb_spec (Z.of_nat (length (concat lines))) 0); [lia|]. exact Er.
  - intros n Hn. specialize (Hp (Z.to_nat n)). rewrite Z2Nat.id in Hp by mlia.
    apply Hp. mlia.
  - intros a Ha Hout. apply Ho; [lia|].
    destruct (decide (NODE_DEVICE_ID_FIRST_ADDRESS <= a < NODE_DEVICE_ID_FIRST_ADDRESS + 512));
      [|lia]. exfalso. apply (Hout ((a - NODE_DEVICE_ID_FIRST_ADDRESS) / 2)); [mlia|].
    unfold id_regs. rewrite !elem_of_cons. lia.
Qed.

(** ** Properties *)

(** C16: The id file keeps the transmitter table: whatever ids the registers
    hold, saving them and later reading the file (into any register contents)
    restores all 256 ids exactly and changes no other register. *)
Theorem device_id_file_roundtrip regs regs0 :
  regs_wf regs -> regs_wf regs0 ->
  exists contents regs',
    SaveDeviceIdFile true regs = Ok (Some contents)
    /\ ReadDeviceIdFile true (Some contents) regs0 = Ok regs' /\ regs_wf regs'
    /\ (forall n, is_u8 n ->
          pair_at regs' (NODE_DEVICE_ID_FIRST_ADDRESS + 2 * n)
          = pair_at regs (NODE_DEVICE_ID_FIRST_ADDRESS + 2 * n))
    /\ (forall a, 0 <= a < S_REG_HOLDING_NREGS ->
          (forall n, is_u8 n -> a ∉ id_regs n) -> rd regs' a = rd regs0 a).
Proof. apply id_file_lemma. Qed.

Lemma device_id_file_roundtrip_witness :
  exists contents regs', SaveDeviceIdFile true regs_init = Ok (Some contents)
  /\ ReadDeviceIdFile true (Some contents) regs_init = Ok regs' /\ regs_wf regs'.
Proof.
  destruct (device_id_file_roundtrip regs_init regs_init) as (c & r & H1 & H2 & H3 & _);
    [apply regs_init_wf|apply regs_init_wf|]. exists c, r. exact (conj H1 (conj H2 H3)).
Defined.

(** C37: [IntToStr] into a cleared buffer and [StrToInt] are inverse for every
    32-bit number. *)
Theorem number_roundtrip n len :
  is_u32 n -> (11 <= len)%nat ->
  exists str, IntToStr (replicate len 0) n = Ok str /\ StrToInt (Some str) = Ok n.
Proof.
  intros Hn Hl. destruct (IntToStr_ok n len Hn Hl) as (ds & E & Hd & Hlen & Hv).
  eexists. split; [exact E|]. cbn.
  replace (len - length ds)%nat with (S (len - length ds - 1)) by lia. cbn [replicate].
  rewrite StrToInt_digits by (done || (by rewrite Hv) || lia). by rewrite Hv.
Qed.

(** Reading the id file returns for every file contents and every register
    contents: it consumes at least one character per line. *)
Theorem read_id_file_terminates mem contents regs :
  ReadDeviceIdFile mem contents regs <> Fault Hang.
Proof. apply read_lines_no_hang. lia. Qed.

(** If the id file is missing, the reader asks for a buffer of 0 bytes,
    gets none, and stores the terminator of the first line through the null
    pointer. *)
Theorem missing_id_file_null mem regs :
  ReadDeviceIdFile mem None regs = Fault NullDeref.
Proof. unfold ReadDeviceIdFile. cbn. by rewrite andb_false_r. Qed.

(** The code of a baud rate in bits 8 and 9. *)
Definition baud_code (b : Z) : option Z :=
  if b =? 2400 then Some 0 else if b =? 4800 then Some 1
  else if b =? 9600 then Some 2 else if b =? 115200 then Some 3 else None.

(** Register 0 for slave address [a] and baud code [c]. *)
Definition reg0 (a c : Z) : Z := Z.lor (Z.lor (u16 a) (Z.shiftl c 8)) 0xC00.

Lemma reg0_fields a c : 0 <= a < 256 -> 0 <= c < 4 ->
  Z.shiftr (Z.land (reg0 a c) 0x0300) 8 = c /\ Z.land (reg0 a c) 0x00FF = a
  /\ is_u16 (reg0 a c) /\ is_u16 (Z.lor (u16 a) (Z.shiftl c 8)).
Proof.
  intros Ha Hc.
  assert (forallb (fun c => all_below 256 (fun a =>
    (Z.shiftr (Z.land (reg0 a c) 0x0300) 8 =? c) && (Z.land (reg0 a c) 0x00FF =? a)
    && (0 <=? reg0 a c) && (reg0 a c <? 65536)
    && (0 <=? Z.lor (u16 a) (Z.shiftl c 8)) && (Z.lor (u16 a) (Z.shiftl c 8) <? 65536)))
    [0; 1; 2; 3] = true) as H by (vm_compute; reflexivity).
  rewrite forallb_forall in H. specialize (H c).
  assert (c = 0 \/ c = 1 \/ c = 2 \/ c = 3) as Hc' by lia.
  specialize (H ltac:(cbn; intuition)). pose proof (all_below_spec _ _ H a ltac:(lia)) as Ht.
  cbv beta in Ht. rewrite !andb_true_iff, !Z.eqb_eq, !Z.leb_le, !Z.ltb_lt in Ht.
  unfold is_u16. lia.
Qed.

Lemma config_registers_ok t regs c :
  regs_wf regs -> 0 <= parameter (cfg1 t) < 256 -> baud_code (parameter (cfg0 t)) = Some c ->
  ConfigModbusHoldRegister t regs
  = Ok (upd (upd regs 0 (reg0 (parameter (cfg1 t)) c)) 1 (u16 (parameter (cfg2 t))))
  /\ 0 <= c < 4.
Proof.
  intros Hr Ha Hb. set (a := parameter (cfg1 t)) in *.
  assert (0 <= c < 4) as Hc.
  { unfold baud_code in Hb. repeat (destruct (_ =? _); [injection Hb as <-; lia|]). done. }
  split; [|done]. destruct (reg0_fields a c Ha Hc) as (_ & _ & U & U1).
  unfold ConfigModbusHoldRegister. fold a.
  destruct (regs_set regs 0 (u16 a)) as [-> H1]; [done|mlia|reg_unfold; lia|].
  rewrite bind_ret_l, regs_get, bind_ret_l by (done || reg_unfold; lia).
  rewrite rd_upd_eq by (apply in_range_regs; [done|reg_unfold; lia]).
  assert (forall x, is_u16 x -> upd (upd regs 0 (u16 a)) 0 x = upd regs 0 x) as Huu.
  { intros x _. unfold upd. apply list_insert_insert_eq. }
  assert (((if 2400 =? parameter (cfg0 t) then set (upd regs 0 (u16 a)) 0 (Z.lor (u16 a) 0)
     else if 4800 =? parameter (cfg0 t) then set (upd regs 0 (u16 a)) 0 (Z.lor (u16 a) 0x100)
     else if 9600 =? parameter (cfg0 t) then set (upd regs 0 (u16 a)) 0 (Z.lor (u16 a) 0x200)
     else if 115200 =? parameter (cfg0 t) then set (upd regs 0 (u16 a)) 0 (Z.lor (u16 a) 0x300)
     else Ok (upd regs 0 (u16 a)))
     = Ok (upd regs 0 (Z.lor (u16 a) (Z.shiftl c 8))))) as ->.
  { assert (set (upd regs 0 (u16 a)) 0 (Z.lor (u16 a) (Z.shiftl c 8))
      = Ok (upd regs 0 (Z.lor (u16 a) (Z.shiftl c 8)))) as Hset.
    { destruct (regs_set (upd regs 0 (u16 a)) 0 (Z.lor (u16 a) (Z.shiftl c 8)))
        as [-> _]; [done|done|reg_unfold; lia|]. by rewrite Huu. }
    unfold baud_code in Hb. rewrite !(Z.eqb_sym _ (parameter (cfg0 t))).
    repeat (destruct (_ =? _); [injection Hb as <-; exact Hset|]). done. }
  rewrite bind_ret_l.
  assert (regs_wf (upd regs 0 (Z.lor (u16 a) (Z.shiftl c 8)))) as H2 by (by apply regs_upd).
  rewrite regs_get, bind_ret_l by (done || reg_unfold; lia).
  rewrite rd_upd_eq by (apply in_range_regs; [done|reg_unfold; lia]). fold (reg0 a c).
  destruct (regs_set (upd regs 0 (Z.lor (u16 a) (Z.shiftl c 8))) 0 (reg0 a c))
    as [-> H3]; [done|done|reg_unfold; lia|]. rewrite bind_ret_l.
  replace (upd (upd regs 0 (Z.lor (u16 a) (Z.shiftl c 8))) 0 (reg0 a c))
    with (upd regs 0 (reg0 a c)) in * by (unfold upd; by rewrite list_insert_insert_eq).
  by destruct (regs_set (upd regs 0 (reg0 a c)) 1 (u16 (parameter (cfg2 t))))
    as [-> _]; [done|mlia|reg_unfold; lia|].
Qed.

(** Publishing the configuration in the registers and taking it over from
    them are inverse: for each of the four baud rates and every slave address
    below 256, [HostSetModbusParameter] after [ConfigModbusHoldRegister]
    restores rate and address, the overtime is in register 1, and no other
    register has changed. *)
Theorem config_register_roundtrip t t0 regs :
  regs_wf regs -> 0 <= parameter (cfg1 t) < 256 ->
  parameter (cfg0 t) ∈ [2400; 4800; 9600; 115200] ->
  exists regs' t', ConfigModbusHoldRegister t regs = Ok regs'
  /\ HostSetModbusParameter regs' t0 = Ok t'
  /\ parameter (cfg0 t') = parameter (cfg0 t) /\ parameter (cfg1 t') = parameter (cfg1 t)
  /\ cfg2 t' = cfg2 t0 /\ rd regs' 1 = u16 (parameter (cfg2 t))
  /\ forall a, 2 <= a -> rd regs' a = rd regs a.
Proof.
  intros Hr Ha Hb.
  assert (exists c, baud_code (parameter (cfg0 t)) = Some c) as [c Hc].
  { rewrite !elem_of_cons, elem_of_nil in Hb.
    destruct Hb as [->|[->|[->|[->|[]]]]]; by eexists. }
  destruct (config_registers_ok t regs c Hr Ha Hc) as [-> Hc4].
  set (a := parameter (cfg1 t)) in *. set (b := parameter (cfg0 t)) in *.
  destruct (reg0_fields a c Ha Hc4) as (F1 & F2 & U & _).
  set (regs' := upd (upd _ _ _) _ _).
  assert (regs_wf (upd regs 0 (reg0 a c))) as H1 by (by apply regs_upd).
  assert (regs_wf regs') as H2 by (apply regs_upd; [done|mlia]).
  assert (rd regs' 0 = reg0 a c) as R0
    by (unfold regs'; rewrite rd_upd_ne, rd_upd_eq by (lia || (apply in_range_regs;
          [done|reg_unfold; lia])); done).
  eexists regs', _. split; [done|].
  unfold HostSetModbusParameter. rewrite regs_get, bind_ret_l, R0, F1, F2
    by (done || reg_unfold; lia). split; [done|].
  split; [|split; [|split; [|split]]].
  - rewrite !elem_of_cons, elem_of_nil in Hb. clear -Hb Hc.
    destruct Hb as [E|[E|[E|[E|[]]]]]; rewrite E in Hc; injection Hc as <-; symmetry; exact E.
  - reflexivity.
  - clear -c. by destruct c as [|[[]|[]|]|].
  - unfold regs'. rewrite rd_upd_eq; [done|]. apply in_range_regs; [done|reg_unfold; lia].
  - intros j Hj. unfold regs'. by rewrite !rd_upd_ne by lia.
Qed.

Lemma config_register_roundtrip_witness :
  exists regs' t', ConfigModbusHoldRegister g_ConfigFile regs_init = Ok regs'
  /\ HostSetModbusParameter regs' g_ConfigFile = Ok t' /\ parameter (cfg0 t') = 115200.
Proof.
  destruct (config_register_roundtrip g_ConfigFile g_ConfigFile regs_init)
    as (r & t & H1 & H2 & H3 & _); [apply regs_init_wf|cbn; lia|rewrite !elem_of_cons; tauto|].
  exists r, t. exact (conj H1 (conj H2 H3)).
Defined.
