(* ===== verification/CJson.v ===== *)
(** * JSON trees: parser and printer (Task/Struct2Json/cJSON.c)

    Text is the list of bytes from the pointer on; reading past its end is a
    fault, and a C string ends with a zero byte in it.  Allocation succeeds.
    [None] of a parse function is its null result.  [pow] and the [printf]
    formats for numbers that are not integers belong to the C library and are
    arguments. *)
From S2P Require Import Prelude Floats.

(** ** Items *)
Inductive cJSON_type : Set :=
| cJSON_False | cJSON_True | cJSON_NULL | cJSON_Number | cJSON_String | cJSON_Array
| cJSON_Object.
#[global] Instance cJSON_type_eq_dec : EqDecision cJSON_type.
Proof. solve_decision. Defined.

(** The chain of children is a list; [i_string] is the name inside an object. *)
Inductive cJSON : Type :=
| mkItem (i_type : cJSON_type) (i_valuestring : option (list Z)) (i_valueint : Z)
    (i_valuedouble : spec_float) (i_string : option (list Z)) (i_child : list cJSON).

Definition j_type (c : cJSON) := let 'mkItem t _ _ _ _ _ := c in t.
Definition j_valueint (c : cJSON) := let 'mkItem _ _ v _ _ _ := c in v.
Definition j_string (c : cJSON) := let 'mkItem _ _ _ _ s _ := c in s.
Definition j_child (c : cJSON) := let 'mkItem _ _ _ _ _ l := c in l.
Definition set_name (s : list Z) (c : cJSON) : cJSON :=
  let 'mkItem t vs vi vd _ l := c in mkItem t vs vi vd (Some s) l.

Definition item (t : cJSON_type) : cJSON := mkItem t None 0 (S754_zero false) None [].
Definition cJSON_CreateObject : cJSON := item cJSON_Object.
Definition cJSON_CreateNumber (num : spec_float) : res cJSON :=
  i ← cast_s32 num; Ok (mkItem cJSON_Number None i num None []).
(** [cJSON_strdup] takes the length of a null pointer. *)
Definition cJSON_strdup (str : option (list Z)) : res (list Z) :=
  match str with None => Fault NullDeref | Some s => Ok s end.
Definition cJSON_CreateString (str : option (list Z)) : res cJSON :=
  s ← cJSON_strdup str; Ok (mkItem cJSON_String (Some s) 0 (S754_zero false) None []).
Definition cJSON_AddItemToArray (array c : cJSON) : cJSON :=
  let 'mkItem t vs vi vd s l := array in mkItem t vs vi vd s (l ++ [c]).
Definition cJSON_AddItemToObject (object : cJSON) (name : list Z) (c : cJSON) : cJSON :=
  cJSON_AddItemToArray object (set_name name c).

Definition cJSON_GetArraySize (array : cJSON) : Z := Z.of_nat (length (j_child array)).
Definition cJSON_GetArrayItem (array : cJSON) (i : Z) : option cJSON :=
  j_child array !! Z.to_nat i.

Definition tolower (c : Z) : Z := if (65 <=? c) && (c <=? 90) then c + 32 else c.
(** Whether [cJSON_strcasecmp] returns 0. *)
Definition cJSON_strcasecmp_eq (s1 : option (list Z)) (s2 : list Z) : bool :=
  match s1 with
  | None => false
  | Some s => bool_decide (map tolower s = map tolower s2)
  end.
Definition cJSON_GetObjectItem (object : cJSON) (name : list Z) : option cJSON :=
  snd <$> list_find (fun c => cJSON_strcasecmp_eq (j_string c) name = true) (j_child object).

(** ** Parsing *)

Definition peek (v : list Z) : res Z :=
  match v with [] => Fault OutOfBounds | c :: _ => Ok c end.
(** The pointer [n] bytes on; past the end it cannot be used any more. *)
Definition adv (n : nat) (v : list Z) : list Z := drop n v.

Fixpoint skip (v : list Z) : res (list Z) :=
  match v with
  | [] => Fault OutOfBounds
  | c :: v' => if negb (c =? 0) && (c <=? 32) then skip v' else Ok v
  end.

(** [!strncmp(value, lit, strlen(lit))] *)
Fixpoint starts_with (lit v : list Z) : res bool :=
  match lit with
  | [] => Ok true
  | x :: lit' =>
      match v with
      | [] => Fault OutOfBounds
      | c :: v' => if c =? x then starts_with lit' v' else Ok false
      end
  end.

Definition is_digit (c : Z) : bool := (48 <=? c) && (c <=? 57).
Definition ten : spec_float := F64.of_Z 10.

Fixpoint int_digits (n : spec_float) (v : list Z) : res (spec_float * list Z) :=
  match v with
  | [] => Fault OutOfBounds
  | c :: v' =>
      if is_digit c then int_digits (F64.add (F64.mul n ten) (F64.of_Z (c - 48))) v' else Ok (n, v)
  end.
Fixpoint frac_digits (n scale : spec_float) (v : list Z) : res (spec_float * spec_float * list Z) :=
  match v with
  | [] => Fault OutOfBounds
  | c :: v' =>
      if is_digit c
      then frac_digits (F64.add (F64.mul n ten) (F64.of_Z (c - 48))) (F64.sub scale (F64.of_Z 1)) v'
      else Ok (n, scale, v)
  end.
Fixpoint exp_digits (subscale : Z) (v : list Z) : res (Z * list Z) :=
  match v with
  | [] => Fault OutOfBounds
  | c :: v' =>
      if is_digit c then
        let s := subscale * 10 + (c - 48) in
        if s <=? 2147483647 then exp_digits s v' else Fault SignedOverflow
      else Ok (subscale, v)
  end.

Section parse.
Context (pow : spec_float -> spec_float -> spec_float).

Definition parse_number (num : list Z) : res (option (cJSON * list Z)) :=
  c ← peek num;
  let '(sign, num) := if c =? 45 then (F64.of_Z (-1), adv 1 num) else (F64.of_Z 1, num) in
  c ← peek num;
  let num := if c =? 48 then adv 1 num else num in
  c ← peek num;
  '(n, num) ← (if (49 <=? c) && (c <=? 57) then int_digits (S754_zero false) num
               else Ok (S754_zero false, num));
  c ← peek num;
  frac ← (if c =? 46 then c1 ← peek (adv 1 num); Ok (is_digit c1) else Ok false);
  '(n, scale, num) ← (if frac : bool then frac_digits n (S754_zero false) (adv 1 num)
                      else Ok (n, S754_zero false, num));
  c ← peek num;
  '(subscale, num) ←
    (if (c =? 101) || (c =? 69) then
       let num := adv 1 num in
       c ← peek num;
       let '(signsubscale, num) :=
         if c =? 43 then (1, adv 1 num) else if c =? 45 then (-1, adv 1 num) else (1, num) in
       '(s, num) ← exp_digits 0 num;
       Ok (s * signsubscale, num)
     else Ok (0, num));
  let n := F64.mul (F64.mul sign n) (pow ten (F64.add scale (F64.of_Z subscale))) in
  i ← cast_s32 n;
  Ok (Some (mkItem cJSON_Number None i n None [], num)).

(** *** Strings *)

Definition hex_digit (c : Z) : option Z :=
  if (48 <=? c) && (c <=? 57) then Some (c - 48)
  else if (65 <=? c) && (c <=? 70) then Some (10 + c - 65)
  else if (97 <=? c) && (c <=? 102) then Some (10 + c - 97)
  else None.
(** [k] hexadecimal digits after the value [h]; 0 if one is missing. *)
Fixpoint hex_loop (k : nat) (h : Z) (str : list Z) : res Z :=
  match k with
  | O => Ok h
  | S k' =>
      c ← peek str;
      match hex_digit c with
      | Some d => hex_loop k' (u32 (Z.shiftl h 4) + d) (adv 1 str)
      | None => Ok 0
      end
  end.
Definition parse_hex4 (str : list Z) : res Z := hex_loop 4 0 str.

(** The bytes of the character [uc]. *)
Definition firstByteMark : list Z := [0x00; 0x00; 0xC0; 0xE0; 0xF0; 0xF8; 0xFC].
Definition utf8 (uc : Z) : list Z :=
  let len := if uc <? 0x80 then 1 else if uc <? 0x800 then 2 else if uc <? 0x10000 then 3 else 4 in
  let tail k := Z.land (Z.lor (Z.shiftr uc (6 * k)) 0x80) 0xBF in
  let head := u8 (Z.lor (Z.shiftr uc (6 * (len - 1))) (rd firstByteMark len)) in
  head :: match len with
          | 1 => []
          | 2 => [tail 0]
          | 3 => [tail 1; tail 0]
          | _ => [tail 2; tail 1; tail 0]
          end.

(** An escape [\u]; [ptr] is at the [u].  The bytes written, and the position
    of the last character used. *)
Definition unescape_u (ptr : list Z) : res (list Z * list Z) :=
  uc ← parse_hex4 (adv 1 ptr);
  let ptr := adv 4 ptr in
  if ((0xDC00 <=? uc) && (uc <=? 0xDFFF)) || (uc =? 0) then Ok ([], ptr)
  else if (0xD800 <=? uc) && (uc <=? 0xDBFF) then
    c1 ← peek (adv 1 ptr);
    if negb (c1 =? 92) then Ok ([], ptr)
    else
      c2 ← peek (adv 2 ptr);
      if negb (c2 =? 117) then Ok ([], ptr)
      else
        uc2 ← parse_hex4 (adv 3 ptr);
        let ptr := adv 6 ptr in
        if (uc2 <? 0xDC00) || (0xDFFF <? uc2) then Ok ([], ptr)
        else Ok (utf8 (0x10000 + Z.lor (Z.shiftl (Z.land uc 0x3FF) 10) (Z.land uc2 0x3FF)), ptr)
  else Ok (utf8 uc, ptr).

(** The first pass: the number of characters and escapes up to the end of the
    string. *)
Fixpoint string_len (ptr : list Z) : res Z :=
  match ptr with
  | [] => Fault OutOfBounds
  | c :: ptr' =>
      if (c =? 34) || (c =? 0) then Ok 0
      else if c =? 92 then
        match ptr' with
        | [] => Fault OutOfBounds
        | _ :: ptr'' => n ← string_len ptr''; Ok (n + 1)
        end
      else n ← string_len ptr'; Ok (n + 1)
  end.

(** Writing at the end of [out], in a buffer of [cap] bytes. *)
Definition emit (cap : Z) (out bs : list Z) : res (list Z) :=
  if Z.of_nat (length out + length bs) <=? cap then Ok (out ++ bs) else Fault OutOfBounds.

(** The second pass. *)
Fixpoint unescape (fuel : nat) (cap : Z) (out ptr : list Z) : res (list Z * list Z) :=
  match fuel with
  | O => Fault Hang
  | S fuel' =>
      c ← peek ptr;
      if (c =? 34) || (c =? 0) then Ok (out, ptr)
      else if negb (c =? 92) then
        out ← emit cap out [c]; unescape fuel' cap out (adv 1 ptr)
      else
        let ptr := adv 1 ptr in
        c ← peek ptr;
        '(bs, ptr) ← (if c =? 98 then Ok ([8], ptr)
                      else if c =? 102 then Ok ([12], ptr)
                      else if c =? 110 then Ok ([10], ptr)
                      else if c =? 114 then Ok ([13], ptr)
                      else if c =? 116 then Ok ([9], ptr)
                      else if c =? 117 then unescape_u ptr
                      else Ok ([c], ptr));
        out ← emit cap out bs;
        unescape fuel' cap out (adv 1 ptr)
  end.

(** What a C string in a buffer is. *)
Fixpoint until_zero (l : list Z) : list Z :=
  match l with
  | [] => []
  | c :: l' => if c =? 0 then [] else c :: until_zero l'
  end.

Definition parse_string (str : list Z) : res (option (list Z * list Z)) :=
  c ← peek str;
  if negb (c =? 34) then Ok None
  else
    len ← string_len (adv 1 str);
    '(out, ptr) ← unescape (S (length str)) (len + 1) [] (adv 1 str);
    out ← emit (len + 1) out [0];
    c ← peek ptr;
    let ptr := if c =? 34 then adv 1 ptr else ptr in
    Ok (Some (until_zero out, ptr)).

(** *** Values

    [fuel] bounds the depth of calls and the length of arrays and objects. *)
Definition string_item (s : list Z) : cJSON :=
  mkItem cJSON_String (Some s) 0 (S754_zero false) None [].
Definition with_children (t : cJSON_type) (l : list cJSON) : cJSON :=
  mkItem t None 0 (S754_zero false) None l.

Fixpoint parse_value (fuel : nat) (value : list Z) : res (option (cJSON * list Z)) :=
  match fuel with
  | O => Fault Hang
  | S fuel' =>
      is_null ← starts_with (text "null") value;
      if is_null : bool then Ok (Some (item cJSON_NULL, adv 4 value)) else
      is_false ← starts_with (text "false") value;
      if is_false : bool then Ok (Some (item cJSON_False, adv 5 value)) else
      is_true ← starts_with (text "true") value;
      if is_true : bool
      then Ok (Some (mkItem cJSON_True None 1 (S754_zero false) None [], adv 4 value)) else
      c ← peek value;
      if c =? 34 then
        r ← parse_string value;
        Ok match r with Some (s, v) => Some (string_item s, v) | None => None end
      else if (c =? 45) || is_digit c then parse_number value
      else if c =? 91 then
        value ← skip (adv 1 value);
        c ← peek value;
        if c =? 93 then Ok (Some (with_children cJSON_Array [], adv 1 value))
        else
          r ← array_items fuel' value;
          Ok match r with Some (l, v) => Some (with_children cJSON_Array l, v) | None => None end
      else if c =? 123 then
        value ← skip (adv 1 value);
        c ← peek value;
        if c =? 125 then Ok (Some (with_children cJSON_Object [], adv 1 value))
        else
          r ← object_items fuel' value;
          Ok match r with Some (l, v) => Some (with_children cJSON_Object l, v) | None => None end
      else Ok None
  end
(** The elements of an array and its closing bracket. *)
with array_items (fuel : nat) (value : list Z) : res (option (list cJSON * list Z)) :=
  match fuel with
  | O => Fault Hang
  | S fuel' =>
      value ← skip value;
      r ← parse_value fuel' value;
      match r with
      | None => Ok None
      | Some (child, value) =>
          value ← skip value;
          c ← peek value;
          if c =? 44 then
            r ← array_items fuel' (adv 1 value);
            Ok match r with Some (l, v) => Some (child :: l, v) | None => None end
          else if c =? 93 then Ok (Some ([child], adv 1 value))
          else Ok None
      end
  end
(** The members of an object and its closing brace. *)
with object_items (fuel : nat) (value : list Z) : res (option (list cJSON * list Z)) :=
  match fuel with
  | O => Fault Hang
  | S fuel' =>
      value ← skip value;
      r ← parse_string value;
      match r with
      | None => Ok None
      | Some (name, value) =>
          value ← skip value;
          c ← peek value;
          if negb (c =? 58) then Ok None
          else
            value ← skip (adv 1 value);
            r ← parse_value fuel' value;
            match r with
            | None => Ok None
            | Some (child, value) =>
                value ← skip value;
                c ← peek value;
                if c =? 44 then
                  r ← object_items fuel' (adv 1 value);
                  Ok match r with
                     | Some (l, v) => Some (set_name name child :: l, v)
                     | None => None
                     end
                else if c =? 125 then Ok (Some ([set_name name child], adv 1 value))
                else Ok None
            end
      end
  end.

Definition cJSON_Parse (value : list Z) : res (option cJSON) :=
  v ← skip value;
  r ← parse_value (2 * length v + 2)%nat v;
  Ok match r with Some (c, _) => Some c | None => None end.
End parse.

(** ** Printing *)

(** [%d] *)
Fixpoint dec_digits (fuel : nat) (n : Z) (acc : list Z) : list Z :=
  match fuel with
  | O => acc
  | S fuel' =>
      let acc := n mod 10 + 48 :: acc in
      if n / 10 =? 0 then acc else dec_digits fuel' (n / 10) acc
  end.
Definition sprintf_d (z : Z) : list Z :=
  if z <? 0 then 45 :: dec_digits 11 (- z) [] else dec_digits 11 z [].

Definition DBL_EPSILON : spec_float := F64.lit 1 4503599627370496.
Definition floor (d : spec_float) : spec_float :=
  match d with
  | S754_finite s m e =>
      if 0 <=? e then d else F64.of_Z (Z.shiftr (if s then Z.neg m else Z.pos m) (- e))
  | _ => d
  end.
Definition is_normal (d : spec_float) : bool :=
  match d with
  | S754_finite _ m e => -1022 <? Z.log2 (Z.pos m) + e + 1
  | _ => false
  end.

(** The characters for which [print_string_ptr] takes its second branch. *)
Definition needs_escape (c : Z) : bool := ((0 <? c) && (c <? 32)) || (c =? 34) || (c =? 92).
(** [strchr(specials, token)], which also finds the terminating zero. *)
Definition in_specials (token : Z) : bool :=
  bool_decide (token ∈ [34; 92; 8; 12; 10; 13; 9; 0]).

(** The loop that computes the length of the escaped text, at most [fuel]
    rounds: [while ((token) && ++len)], with [len] an [int]. *)
Fixpoint escaped_len (fuel : nat) (token : Z) (ptr : list Z) (len : Z) : res Z :=
  match fuel with
  | O => Fault Hang
  | S fuel' =>
      if token =? 0 then Ok len
      else
        len ← int_res (len + 1);
        if len =? 0 then Ok len
        else
          token ← peek ptr;
          if in_specials token then len ← int_res (len + 1); escaped_len fuel' token ptr len
          else if token <? 32 then len ← int_res (len + 5); escaped_len fuel' token (adv 1 ptr) len
          else escaped_len fuel' token ptr len
  end.

Definition hex_char (d : Z) : Z := if d <? 10 then 48 + d else 87 + d.
(** One character with its escape. *)
Definition escape (c : Z) : list Z :=
  if (31 <? c) && negb (c =? 34) && negb (c =? 92) then [c]
  else 92 :: (if c =? 92 then [92] else if c =? 34 then [34] else if c =? 8 then [98]
              else if c =? 12 then [102] else if c =? 10 then [110] else if c =? 13 then [114]
              else if c =? 9 then [116]
              else [117; 48; 48; hex_char (c / 16); hex_char (c mod 16)]).

(** [str]: the characters before the terminating zero. *)
Definition print_string_ptr (fuel : nat) (str : option (list Z)) : res (list Z) :=
  match str with
  | None => Fault NullDeref
  | Some s =>
      if negb (existsb needs_escape s) then Ok (34 :: s ++ [34])
      else
        token ← peek (s ++ [0]);
        len ← escaped_len fuel token (s ++ [0]) 0;
        let out := 34 :: concat (map escape s) ++ [34; 0] in
        if Z.of_nat (length out) <=? len + 3 then Ok (34 :: concat (map escape s) ++ [34])
        else Fault OutOfBounds
  end.

(** The elements, separated. *)
Fixpoint array_body (entries : list (list Z)) (fmt : bool) : list Z :=
  match entries with
  | [] => []
  | e :: entries' =>
      e ++ match entries' with
           | [] => []
           | _ => (if fmt then [44; 32] else [44]) ++ array_body entries' fmt
           end
  end.
(** An array of texts, joined and closed; [len] bytes are allocated for it. *)
Definition print_array (entries : list (list Z)) (fmt : bool) : res (list Z) :=
  match entries with
  | [] => Ok [91; 93]
  | _ =>
      let len := foldl (fun l e => l + Z.of_nat (length e) + 2 + (if fmt then 1 else 0)) 5 entries in
      let out := 91 :: array_body entries fmt ++ [93] in
      if Z.of_nat (length out) + 1 <=? len then Ok out else Fault OutOfBounds
  end.

Definition tabs (n : Z) : list Z := replicate (Z.to_nat n) 9.

(** The lines of an object: names and values already printed. *)
Fixpoint object_lines (entries : list (list Z * list Z)) (depth : Z) (fmt : bool) : list Z :=
  match entries with
  | [] => []
  | (name, e) :: entries' =>
      (if fmt then tabs depth else []) ++ name ++ [58] ++ (if fmt then [9] else []) ++ e
      ++ (match entries' with [] => [] | _ => [44] end) ++ (if fmt then [10] else [])
      ++ object_lines entries' depth fmt
  end.
Definition print_object (entries : list (list Z * list Z)) (depth : Z) (fmt : bool) : res (list Z) :=
  match entries with
  | [] =>
      let out := [123] ++ (if fmt then 10 :: tabs (depth - 1) else []) ++ [125] in
      if Z.of_nat (length out) + 1 <=? (if fmt then depth + 4 else 3) then Ok out
      else Fault OutOfBounds
  | _ =>
      let depth := depth + 1 in
      let len := foldl (fun l '(name, e) => l + Z.of_nat (length e) + Z.of_nat (length name) + 2
                                            + (if fmt then 2 + depth else 0))
                   (7 + (if fmt then depth else 0)) entries in
      let out := [123] ++ (if fmt then [10] else []) ++ object_lines entries depth fmt
                 ++ (if fmt then tabs (depth - 1) else []) ++ [125] in
      if Z.of_nat (length out) + 1 <=? len then Ok out else Fault OutOfBounds
  end.

Section print.
(** [printf]'s [%.0f], [%e] and [%f]. *)
Context (fmt_0f fmt_e fmt_f : spec_float -> list Z).

Definition print_number (valueint : Z) (d : spec_float) : list Z :=
  if SFeqb d (S754_zero false) then text "0"
  else if SFleb (SFabs (F64.sub (F64.of_Z valueint) d)) DBL_EPSILON
          && SFleb d (F64.of_Z 2147483647) && SFleb (F64.of_Z (-2147483648)) d
  then sprintf_d valueint
  else if negb (is_normal d) then text "null"
  else if SFleb (SFabs (F64.sub (floor d) d)) DBL_EPSILON && SFltb (SFabs d) (F64.of_Z (10 ^ 60))
  then fmt_0f d
  else if SFltb (SFabs d) (F64.lit 1 1000000) || SFltb (F64.of_Z 1000000000) (SFabs d)
  then fmt_e d
  else fmt_f d.

(** [fuel] bounds the length loop of [print_string_ptr] only. *)
Fixpoint print_value (fuel : nat) (c : cJSON) (depth : Z) (fmt : bool) {struct c} : res (list Z) :=
  match c with
  | mkItem t vs vi vd _ children =>
      match t with
      | cJSON_NULL => Ok (text "null")
      | cJSON_False => Ok (text "false")
      | cJSON_True => Ok (text "true")
      | cJSON_Number => Ok (print_number vi vd)
      | cJSON_String => print_string_ptr fuel vs
      | cJSON_Array =>
          entries ← mapR (fun child => print_value fuel child (depth + 1) fmt) children;
          print_array entries fmt
      | cJSON_Object =>
          entries ← mapR (fun child =>
                      n ← print_string_ptr fuel (j_string child);
                      e ← print_value fuel child (depth + 1) fmt;
                      Ok (n, e)) children;
          print_object entries depth fmt
      end
  end.

Definition cJSON_Print (fuel : nat) (c : cJSON) : res (list Z) := print_value fuel c 0 true.
End print.
