(* ===== verification/CJsonRoundtrip.v ===== *)
(** * Printing and parsing JSON are inverse

    For trees of plain strings, integers, constants, arrays and objects the
    text [cJSON_Print] makes is read back by [cJSON_Parse] as the same tree. *)
From S2P Require Import Prelude Floats FloatExact CJson.

(** ** Trees *)
Inductive json : Type :=
| JNull | JBool (b : bool) | JNum (z : Z) | JStr (s : list Z) | JArr (l : list json)
| JObj (l : list (list Z * json)).

Fixpoint to_item (j : json) : cJSON :=
  match j with
  | JNull => item cJSON_NULL
  | JBool false => item cJSON_False
  | JBool true => mkItem cJSON_True None 1 (S754_zero false) None []
  | JNum z => mkItem cJSON_Number None z (F64.of_Z z) None []
  | JStr s => string_item s
  | JArr l => with_children cJSON_Array (map to_item l)
  | JObj l => with_children cJSON_Object (map (fun '(n, x) => set_name n (to_item x)) l)
  end.

(** Characters that are printed as they are. *)
Definition plain_char (c : Z) : Prop := 32 <= c < 256 /\ c <> 34 /\ c <> 92.
Definition plain (s : list Z) : Prop := Forall plain_char s.

Lemma plain_check s :
  forallb (fun c => (32 <=? c) && (c <? 256) && negb (c =? 34) && negb (c =? 92)) s = true -> plain s.
Proof.
  intros H. apply list.Forall_forall. intros c Hc. apply list_elem_of_In in Hc.
  rewrite forallb_forall in H. specialize (H c Hc). rewrite !andb_true_iff in H.
  unfold plain_char. lia.
Qed.

Inductive good : json -> Prop :=
| good_null : good JNull
| good_bool b : good (JBool b)
| good_num z : 0 <= z <= 2147483647 -> good (JNum z)
| good_str s : plain s -> good (JStr s)
| good_arr l : Forall good l -> good (JArr l)
| good_obj l : Forall (fun p => plain (fst p) /\ good (snd p)) l -> good (JObj l).

(** Rounds of the parser a tree needs. *)
Fixpoint jsize (j : json) : nat :=
  match j with
  | JArr l => S (list_sum (map (fun x => S (jsize x)) l))
  | JObj l => S (list_sum (map (fun '(_, x) => S (jsize x)) l))
  | _ => 1
  end.

(** Induction on trees. *)
Definition json_rect' (P : json -> Prop) (Hn : P JNull) (Hb : forall b, P (JBool b))
    (Hz : forall z, P (JNum z)) (Hs : forall s, P (JStr s))
    (Ha : forall l, Forall P l -> P (JArr l))
    (Ho : forall l, Forall (fun p => P (snd p)) l -> P (JObj l)) : forall j, P j :=
  fix go (j : json) : P j :=
    match j with
    | JNull => Hn
    | JBool b => Hb b
    | JNum z => Hz z
    | JStr s => Hs s
    | JArr l => Ha l (list_ind (Forall P) (Forall_nil_2 P) (fun x _ H => Forall_cons_2 P _ _ (go x) H) l)
    | JObj l => Ho l (list_ind (Forall (fun p => P (snd p))) (Forall_nil_2 _)
                        (fun p _ H => Forall_cons_2 (fun p => P (snd p)) p _ (go (snd p)) H) l)
    end.

(** ** Strings *)
Lemma plain_no_escape s : plain s -> existsb needs_escape s = false.
Proof.
  induction 1 as [|c s [Hc [H1 H2]] H IH]; [done|]. cbn. rewrite IH, orb_false_r.
  unfold needs_escape. rewrite !orb_false_iff, andb_false_iff. lia.
Qed.

Lemma print_plain fuel s : plain s -> print_string_ptr fuel (Some s) = Ok (34 :: s ++ [34]).
Proof. intros H. unfold print_string_ptr. by rewrite plain_no_escape. Qed.

Lemma string_len_plain s rest : plain s ->
  string_len (s ++ 34 :: rest) = Ok (Z.of_nat (length s)).
Proof.
  induction 1 as [|c s [Hc [H1 H2]] H IH]; [done|]. cbn [string_len app length].
  destruct (Z.eqb_spec c 34), (Z.eqb_spec c 0), (Z.eqb_spec c 92); try lia. cbn [orb].
  rewrite IH, bind_ret_l. f_equal. lia.
Qed.

Lemma unescape_plain s rest fuel cap out : plain s -> (length s < fuel)%nat ->
  Z.of_nat (length out + length s) <= cap ->
  unescape fuel cap out (s ++ 34 :: rest) = Ok (out ++ s, 34 :: rest).
Proof.
  intros H. revert fuel out. induction H as [|c s [Hc [H1 H2]] H IH]; intros fuel out Hf Hcap;
    (destruct fuel as [|fuel]; cbn [length] in *; [lia|]); cbn [unescape app peek]; rewrite bind_ret_l.
  - by rewrite app_nil_r.
  - destruct (Z.eqb_spec c 34), (Z.eqb_spec c 0), (Z.eqb_spec c 92); try lia. cbn [orb negb].
    unfold emit. rewrite (proj2 (Z.leb_le _ _)) by (cbn [length]; lia). rewrite bind_ret_l.
    change (adv 1 (c :: ?v)) with v. rewrite IH by (rewrite ?length_app; cbn [length]; lia).
    by rewrite <- app_assoc.
Qed.

Lemma until_zero_plain s : plain s -> until_zero (s ++ [0]) = s.
Proof.
  induction 1 as [|c s [Hc _] H IH]; [done|]. cbn.
  destruct (Z.eqb_spec c 0); [lia|]. by rewrite IH.
Qed.

Lemma parse_plain s rest : plain s ->
  parse_string (34 :: s ++ 34 :: rest) = Ok (Some (s, rest)).
Proof.
  intros H. unfold parse_string. cbn [peek]. rewrite bind_ret_l. cbn [negb Z.eqb Pos.eqb].
  change (adv 1 (34 :: ?v)) with v. rewrite string_len_plain, bind_ret_l by done.
  rewrite unescape_plain; [|done|rewrite length_cons, length_app; cbn; lia|cbn; lia].
  rewrite bind_ret_l. cbn [app]. unfold emit. rewrite (proj2 (Z.leb_le _ _)) by (cbn [length]; lia).
  rewrite bind_ret_l. cbn [peek]. rewrite bind_ret_l. by rewrite until_zero_plain.
Qed.

(** ** Numbers *)

(** A character after a number. *)
Definition stop (rest : list Z) : Prop :=
  exists c r, rest = c :: r /\ is_digit c = false /\ c <> 46 /\ c <> 101 /\ c <> 69.

Lemma dec_digits_ok fuel n acc : 0 <= n < 10 ^ Z.of_nat fuel -> (0 < fuel)%nat ->
  exists ds, dec_digits fuel n acc = ds ++ acc /\ Forall digit ds /\ str_val 0 ds = n
  /\ exists d ds', ds = d :: ds' /\ (d = 48 -> n = 0 /\ ds' = []).
Proof.
  revert n acc. induction fuel as [|fuel IH]; intros n acc Hn Hf; [lia|]. cbn [dec_digits].
  destruct (Z.eqb_spec (n / 10) 0) as [E|E].
  - exists [n mod 10 + 48]. split; [done|]. split; [repeat constructor; unfold digit; lia|].
    split; [cbn; lia|]. eexists _, _. split; [done|]. intros H. split; [lia|done].
  - rewrite Nat2Z.inj_succ, Z.pow_succ_r in Hn by lia.
    destruct fuel as [|fuel]; [cbn in Hn; lia|].
    destruct (IH (n / 10) (n mod 10 + 48 :: acc)) as (ds & -> & Hd & Hv & d & ds' & Hds & H0);
      [lia|lia|].
    exists (ds ++ [n mod 10 + 48]). rewrite <- app_assoc. split; [done|].
    split; [apply Forall_app; split; [done|]; repeat constructor; unfold digit; lia|].
    split; [rewrite str_val_snoc, Hv; lia|]. subst ds. eexists _, _. split; [done|].
    intros H48. destruct (H0 H48). lia.
Qed.

Lemma dec_digits_length fuel n acc : (length (dec_digits fuel n acc) <= fuel + length acc)%nat.
Proof.
  revert n acc. induction fuel as [|fuel IH]; intros n acc; cbn [dec_digits]; [lia|].
  destruct (_ =? 0); [cbn; lia|]. etransitivity; [apply IH|]. cbn. lia.
Qed.
Lemma sprintf_d_length z : (length (sprintf_d z) <= 12)%nat.
Proof.
  unfold sprintf_d. destruct (z <? 0); cbn [length];
    [pose proof (dec_digits_length 11 (- z) [])|pose proof (dec_digits_length 11 z [])];
    cbn [length] in *; lia.
Qed.

Lemma int_digits_ok ds a rest : Forall digit ds -> 0 <= a -> str_val a ds < 2 ^ 53 -> stop rest ->
  int_digits (F64.of_Z a) (ds ++ rest) = Ok (F64.of_Z (str_val a ds), rest).
Proof.
  intros H. revert a. induction H as [|c ds Hc H IH]; intros a Ha Hv Hs.
  - destruct Hs as (c & r & -> & Hd & _). cbn. by rewrite Hd.
  - cbn in Hv. pose proof (str_val_mono ds (10 * a + (c - 48)) H) as Hm. unfold digit in Hc.
    cbn [int_digits app].
    assert (is_digit c = true) as -> by (apply andb_true_iff; lia).
    unfold ten. fold (str_val (10 * a + (c - 48)) ds) in Hv.
    rewrite mul_exact, add_exact by (unfold exact; lia).
    replace (a * 10 + (c - 48)) with (10 * a + (c - 48)) by lia. apply IH; [lia|done|done].
Qed.

Section roundtrip.
Context (pow : spec_float -> spec_float -> spec_float).
(** [pow(x, 0)] is 1. *)
Context (Hpow : forall x, pow x (S754_zero false) = F64.of_Z 1).

Lemma cast_exact z : 0 <= z <= 2147483647 -> cast_s32 (F64.of_Z z) = Ok z.
Proof.
  intros Hz. unfold cast_s32, cast. rewrite trunc_of_Z by (unfold exact; lia).
  by rewrite (proj2 (andb_true_iff _ _)) by lia.
Qed.

Lemma parse_dec z rest : 0 <= z <= 2147483647 -> stop rest ->
  parse_number pow (sprintf_d z ++ rest) = Ok (Some (to_item (JNum z), rest)).
Proof.
  intros Hz Hs. unfold sprintf_d. rewrite (proj2 (Z.ltb_ge _ _)) by lia.
  destruct (dec_digits_ok 11 z []) as (ds & -> & Hd & Hv & d & ds' & Hds & H0); [cbn; lia|lia|].
  rewrite app_nil_r. subst ds. pose proof Hs as (c & r & Hr & Hdig & Hc1 & Hc2 & Hc3).
  apply list.Forall_cons in Hd as [Hd Hds]. unfold digit in Hd.
  unfold parse_number. cbn [app peek]. rewrite bind_ret_l.
  destruct (Z.eqb_spec d 45); [lia|]. cbn [peek]. rewrite bind_ret_l.
  assert (exists v, (if d =? 48 then adv 1 (d :: ds' ++ rest) else d :: ds' ++ rest) = v
    /\ (c0 ← peek v; '(n, num) ← (if (49 <=? c0) && (c0 <=? 57) then int_digits (S754_zero false) v
        else Ok (S754_zero false, v)); Ok (n, num)) = Ok (F64.of_Z z, rest)) as (v & -> & Hnum).
  { destruct (Z.eqb_spec d 48) as [E|E].
    - destruct (H0 E) as [-> ->]. eexists. split; [done|]. cbn [app adv drop]. rewrite Hr. cbn [peek].
      rewrite bind_ret_l. unfold is_digit in Hdig.
      destruct ((49 <=? c) && (c <=? 57)) eqn:E49; [|done].
      apply andb_true_iff in E49. apply andb_false_iff in Hdig. lia.
    - eexists. split; [done|]. cbn [peek]. rewrite bind_ret_l.
      assert ((49 <=? d) && (d <=? 57) = true) as -> by (apply andb_true_iff; lia).
      rewrite app_comm_cons, <- of_Z_0.
      rewrite int_digits_ok; [by rewrite Hv|by constructor|lia|lia|done]. }
  revert Hnum. destruct (peek v) as [c0|]; [|done]. rewrite !bind_ret_l.
  destruct (if _ && _ then _ else _) as [[x num]|]; [|done]. rewrite !bind_ret_l.
  intros [= -> ->]. rewrite Hr. cbn [peek]. rewrite !bind_ret_l.
  rewrite (proj2 (Z.eqb_neq c 46)), bind_ret_l by done. cbv beta iota.
  rewrite !bind_ret_l. cbn [peek]. rewrite bind_ret_l.
  rewrite (proj2 (Z.eqb_neq c 101)), (proj2 (Z.eqb_neq c 69)) by done. cbn [orb].
  rewrite !bind_ret_l.
  change (F64.add (S754_zero false) (F64.of_Z 0)) with (S754_zero false). rewrite Hpow.
  rewrite !mul_exact, Z.mul_1_l, Z.mul_1_r by (unfold exact; lia).
  rewrite cast_exact by done. done.
Qed.

Context (fmt_0f fmt_e fmt_f : spec_float -> list Z).

Lemma print_dec z : 0 <= z <= 2147483647 ->
  print_number fmt_0f fmt_e fmt_f z (F64.of_Z z) = sprintf_d z.
Proof.
  intros Hz. destruct z as [|m|m]; [done| |lia]. unfold print_number.
  assert (digits m <= 53) as Hm by (apply digits_le; lia).
  rewrite (leb_exact (Z.pos m)) by (unfold exact; lia).
  rewrite (proj1 (of_Z_fl m Hm)). unfold fl. rewrite sub_self.
  assert (SFleb (SFabs (S754_zero false)) DBL_EPSILON = true) as -> by (vm_compute; reflexivity).
  done.
Qed.

(** ** White space and constants *)
Lemma skip_here c v : 32 < c -> skip (c :: v) = Ok (c :: v).
Proof. intros H. cbn. by rewrite (proj2 (Z.leb_gt c 32)), andb_false_r by lia. Qed.
Lemma skip_ws c v : 1 <= c <= 32 -> skip (c :: v) = skip v.
Proof.
  intros H. cbn. rewrite (proj2 (Z.leb_le c 32)), (proj2 (Z.eqb_neq c 0)) by lia. done.
Qed.
Lemma skip_tabs n v : skip (tabs n ++ v) = skip v.
Proof. unfold tabs. induction (Z.to_nat n); [done|]. cbn [replicate app]. by rewrite skip_ws. Qed.

Lemma not_lit x lit c v : c <> x -> starts_with (x :: lit) (c :: v) = Ok false.
Proof. intros H. cbn. by rewrite (proj2 (Z.eqb_neq c x)). Qed.

(** A value that is no constant: what its first character decides. *)
Lemma parse_value_head f c v : c <> 110 -> c <> 102 -> c <> 116 ->
  parse_value pow (S f) (c :: v)
  = if c =? 34 then
      r ← parse_string (c :: v);
      Ok match r with Some (s, v) => Some (string_item s, v) | None => None end
    else if (c =? 45) || is_digit c then parse_number pow (c :: v)
    else if c =? 91 then
      value ← skip v; c ← peek value;
      if c =? 93 then Ok (Some (with_children cJSON_Array [], adv 1 value))
      else r ← array_items pow f value;
           Ok match r with Some (l, v) => Some (with_children cJSON_Array l, v) | None => None end
    else if c =? 123 then
      value ← skip v; c ← peek value;
      if c =? 125 then Ok (Some (with_children cJSON_Object [], adv 1 value))
      else r ← object_items pow f value;
           Ok match r with Some (l, v) => Some (with_children cJSON_Object l, v) | None => None end
    else Ok None.
Proof.
  intros H1 H2 H3. cbn [parse_value]. change (text "null") with [110; 117; 108; 108].
  change (text "false") with [102; 97; 108; 115; 101].
  change (text "true") with [116; 114; 117; 101].
  rewrite !not_lit, !bind_ret_l by done. done.
Qed.

(** ** Trees *)

(** [t] is the text of [j] at [depth] and is read back as [j]. *)
Record reads_back (spins : nat) (j : json) (depth : Z) (t : list Z) : Prop := {
  rb_print : print_value fmt_0f fmt_e fmt_f spins (to_item j) depth true = Ok t;
  rb_head : exists c t', t = c :: t' /\ 32 < c /\ c <> 93;
  rb_size : (jsize j <= 2 * length t)%nat;
  rb_parse : forall f rest, (jsize j <= f)%nat -> stop rest ->
    parse_value pow f (t ++ rest) = Ok (Some (to_item j, rest)) }.

Lemma null_reads_back spins depth : reads_back spins JNull depth (text "null").
Proof.
  split; [done|by eexists _, _|cbn; lia|]. intros [|f] rest Hf Hs; [cbn in Hf; lia|done].
Qed.
Lemma bool_reads_back spins b depth :
  reads_back spins (JBool b) depth (if b then text "true" else text "false").
Proof.
  split; [by destruct b|destruct b; by eexists _, _|destruct b; cbn; lia|].
  intros [|f] rest Hf Hs; [cbn in Hf; lia|]. by destruct b.
Qed.

Lemma num_reads_back spins z depth : 0 <= z <= 2147483647 ->
  reads_back spins (JNum z) depth (sprintf_d z).
Proof.
  intros Hz.
  assert (exists d ds, sprintf_d z = d :: ds /\ digit d) as (d & ds & E & Hd).
  { unfold sprintf_d. rewrite (proj2 (Z.ltb_ge _ _)) by lia.
    destruct (dec_digits_ok 11 z []) as (ds & -> & Hd & _ & d & ds' & -> & _); [cbn; lia|lia|].
    rewrite app_nil_r. apply list.Forall_cons in Hd as [Hd _]. by eexists _, _. }
  unfold digit in Hd. split.
  - cbn. by rewrite print_dec.
  - rewrite E. eexists _, _. split; [done|lia].
  - rewrite E. cbn. lia.
  - intros [|f] rest Hf Hs; [cbn in Hf; lia|]. pose proof (parse_dec z rest Hz Hs) as Hp.
    rewrite E in *. cbn [app] in *. rewrite parse_value_head by lia.
    rewrite (proj2 (Z.eqb_neq d 34)) by lia.
    assert (is_digit d = true) as -> by (apply andb_true_iff; lia). by rewrite orb_true_r.
Qed.

Lemma str_reads_back spins s depth : plain s ->
  reads_back spins (JStr s) depth (34 :: s ++ [34]).
Proof.
  intros H. split.
  - cbn. by apply print_plain.
  - by eexists _, _.
  - cbn. lia.
  - intros [|f] rest Hf Hs; [cbn in Hf; lia|]. cbn [app]. rewrite <- app_assoc. cbn [app].
    rewrite parse_value_head by lia. cbn [Z.eqb Pos.eqb]. by rewrite parse_plain.
Qed.

(** *** Arrays *)
Definition arr_rounds (l : list json) : nat := list_sum (map (fun x => S (jsize x)) l).

Lemma arr_rounds_cons x l : arr_rounds (x :: l) = (S (jsize x) + arr_rounds l)%nat.
Proof. done. Qed.

Lemma array_body_fits ts fmt a : a + Z.of_nat (length (array_body ts fmt))
  <= foldl (fun l e => l + Z.of_nat (length e) + 2 + (if fmt then 1 else 0)) a ts.
Proof.
  revert a. induction ts as [|t ts IH]; intros a; cbn [array_body foldl]; [cbn; lia|].
  etransitivity; [|apply IH]. rewrite length_app.
  destruct ts as [|t' ts]; [|rewrite length_app]; destruct fmt; cbn [length]; lia.
Qed.

Lemma array_items_ws f c v : 1 <= c <= 32 -> array_items pow f (c :: v) = array_items pow f v.
Proof. intros H. destruct f; [done|]. cbn [array_items]. by rewrite skip_ws. Qed.

Lemma rb_skip spins j d t v : reads_back spins j d t -> skip (t ++ v) = Ok (t ++ v).
Proof. intros H. destruct (rb_head _ _ _ _ H) as (c & t' & -> & Hc & _).
  by apply skip_here. Qed.

(** One element, up to what follows it. *)
Lemma array_item_step spins d x t f v : reads_back spins x d t -> (jsize x <= f)%nat -> stop v ->
  array_items pow (S f) (t ++ v)
  = (value ← skip v;
     c ← peek value;
     if c =? 44 then
       r ← array_items pow f (adv 1 value);
       Ok match r with Some (l, v) => Some (to_item x :: l, v) | None => None end
     else if c =? 93 then Ok (Some ([to_item x], adv 1 value))
     else Ok None).
Proof.
  intros Hx Hf Hv. cbn [array_items]. rewrite (rb_skip _ _ _ _ _ Hx), bind_ret_l.
  by rewrite (rb_parse _ _ _ _ Hx), bind_ret_l.
Qed.

Lemma array_items_ok spins d l ts : Forall2 (fun x t => reads_back spins x d t) l ts -> l <> [] ->
  forall f rest, (arr_rounds l <= f)%nat ->
  array_items pow f (array_body ts true ++ 93 :: rest) = Ok (Some (map to_item l, rest)).
Proof.
  induction 1 as [|x t l ts Hx Hl IH]; intros Hne f rest Hf; [done|].
  rewrite arr_rounds_cons in Hf. destruct f as [|f]; [lia|]. cbn [array_body].
  rewrite <- app_assoc. destruct Hl as [|y u l ts Hy Hl].
  - rewrite (array_item_step _ _ _ _ _ _ Hx) by (lia || (by eexists _, _)).
    cbn [app]. by rewrite skip_here.
  - rewrite (array_item_step _ _ _ _ _ _ Hx) by (lia || (by eexists _, _)).
    cbn [app]. rewrite skip_here, bind_ret_l by lia. cbn [peek]. rewrite bind_ret_l.
    cbn [Z.eqb Pos.eqb]. change (adv 1 (44 :: ?v)) with v. rewrite array_items_ws by lia.
    rewrite IH, bind_ret_l; [done|done|lia].
Qed.

Lemma array_rounds_le spins d l ts : Forall2 (fun x t => reads_back spins x d t) l ts -> l <> [] ->
  (arr_rounds l <= 2 * length (array_body ts true) + 1)%nat.
Proof.
  induction 1 as [|x t l ts Hx Hl IH]; intros Hne; [done|].
  rewrite arr_rounds_cons. cbn [array_body]. pose proof (rb_size _ _ _ _ Hx).
  rewrite length_app. destruct Hl as [|y u l ts Hy Hl]; [cbn; lia|].
  rewrite length_app. specialize (IH ltac:(done)). cbn [length] in *. lia.
Qed.

Lemma arr_reads_back spins d l ts : Forall2 (fun x t => reads_back spins x (d + 1) t) l ts ->
  mapR (fun child => print_value fmt_0f fmt_e fmt_f spins child (d + 1) true) (map to_item l) = Ok ts ->
  exists t, reads_back spins (JArr l) d t.
Proof.
  intros Hl Hm. destruct (decide (l = [])) as [->|Hne].
  { exists [91; 93]. inversion Hl; subst. split; [done|by eexists _, _|cbn; lia|].
    intros [|f] rest Hf Hs; [cbn in Hf; lia|]. done. }
  exists (91 :: array_body ts true ++ [93]). split.
  - cbn [to_item with_children print_value]. rewrite Hm, bind_ret_l.
    unfold print_array. destruct Hl as [|x t l ts Hx Hl]; [done|].
    pose proof (array_body_fits (t :: ts) true 5). cbv zeta.
    rewrite (proj2 (Z.leb_le _ _)); [done|]. rewrite length_cons, length_app. cbn [length]. lia.
  - by eexists _, _.
  - pose proof (array_rounds_le _ _ _ _ Hl Hne) as Hs. unfold arr_rounds in Hs. cbn [jsize].
    rewrite length_cons, length_app. cbn [length]. lia.
  - intros [|f] rest Hf Hs; [cbn in Hf; lia|]. cbn [app]. rewrite <- app_assoc. cbn [app].
    rewrite parse_value_head by lia. cbn [Z.eqb Pos.eqb orb is_digit].
    change (is_digit 91) with false. cbv iota.
    assert (exists c v, array_body ts true ++ 93 :: rest = c :: v /\ 32 < c /\ c <> 93) as (c & v & E & Hc & Hc93).
    { destruct Hl as [|x t l ts Hx Hl]; [done|].
      destruct (rb_head _ _ _ _ Hx) as (c & t' & -> & Hc). by eexists _, _. }
    rewrite E, skip_here, bind_ret_l by lia. cbn [peek]. rewrite bind_ret_l.
    rewrite (proj2 (Z.eqb_neq c 93)) by done. rewrite <- E.
    rewrite (array_items_ok _ _ _ _ Hl Hne), bind_ret_l; [done|]. cbn [jsize] in Hf.
    unfold arr_rounds. lia.
Qed.

(** *** Objects *)
Definition obj_rounds (l : list (list Z * json)) : nat :=
  list_sum (map (fun '(_, x) => S (jsize x)) l).
Lemma obj_rounds_cons n x l : obj_rounds ((n, x) :: l) = (S (jsize x) + obj_rounds l)%nat.
Proof. done. Qed.

Definition member (p : list Z * json) : cJSON := set_name (fst p) (to_item (snd p)).
(** A member and its two texts. *)
Definition member_text (spins : nat) (d : Z) (p : list Z * json) (e : list Z * list Z) : Prop :=
  plain (fst p) /\ fst e = 34 :: fst p ++ [34] /\ reads_back spins (snd p) d (snd e).

Lemma object_lines_fit es d a : 0 <= d -> a + Z.of_nat (length (object_lines es d true))
  <= foldl (fun l '(name, e) => l + Z.of_nat (length e) + Z.of_nat (length name) + 2 + (2 + d)) a es.
Proof.
  intros Hd. revert a. induction es as [|[n e] es IH]; intros a; cbn [object_lines foldl]; [cbn; lia|].
  etransitivity; [|apply IH]. rewrite !length_app. unfold tabs. rewrite length_replicate.
  destruct es; cbn [length]; lia.
Qed.

Lemma object_items_ws f c v : 1 <= c <= 32 -> object_items pow f (c :: v) = object_items pow f v.
Proof. intros H. destruct f; [done|]. cbn [object_items]. by rewrite skip_ws. Qed.
Lemma object_items_tabs f n v : object_items pow f (tabs n ++ v) = object_items pow f v.
Proof. destruct f; [done|]. cbn [object_items]. by rewrite skip_tabs. Qed.

(** One member, up to what follows its value. *)
Lemma object_item_step spins d p e f v : member_text spins d p e -> (jsize (snd p) <= f)%nat -> stop v ->
  object_items pow (S f) (fst e ++ [58] ++ [9] ++ snd e ++ v)
  = (value ← skip v;
     c ← peek value;
     if c =? 44 then
       r ← object_items pow f (adv 1 value);
       Ok match r with Some (l, v) => Some (member p :: l, v) | None => None end
     else if c =? 125 then Ok (Some ([member p], adv 1 value))
     else Ok None).
Proof.
  intros (Hp & En & Hr) Hf Hv. rewrite En. cbn [object_items app].
  rewrite <- app_assoc. cbn [app]. rewrite skip_here, bind_ret_l by lia.
  rewrite parse_plain, bind_ret_l by done. rewrite skip_here, bind_ret_l by lia.
  cbn [peek]. rewrite bind_ret_l. cbn [Z.eqb Pos.eqb negb]. change (adv 1 (58 :: ?v)) with v.
  rewrite skip_ws, (rb_skip _ _ _ _ _ Hr), bind_ret_l by lia.
  by rewrite (rb_parse _ _ _ _ Hr), bind_ret_l.
Qed.

Lemma object_items_ok spins d l es : Forall2 (member_text spins d) l es -> l <> [] ->
  forall f rest, (obj_rounds l <= f)%nat ->
  object_items pow f (object_lines es d true ++ tabs (d - 1) ++ 125 :: rest)
  = Ok (Some (map member l, rest)).
Proof.
  induction 1 as [|[n x] [tn e] l es Hx Hl IH]; intros Hne f rest Hf; [done|].
  rewrite obj_rounds_cons in Hf. destruct f as [|f]; [lia|]. cbn [object_lines].
  rewrite <- !app_assoc, object_items_tabs.
  pose proof (fun v => object_item_step spins d (n, x) (tn, e) f v Hx ltac:(cbn; lia)) as Hstep.
  cbn [fst snd] in Hstep.
  destruct Hl as [|y u l es Hy Hl].
  - rewrite Hstep by (by eexists _, _). cbn [app object_lines].
    rewrite skip_ws, skip_tabs, skip_here by lia. done.
  - rewrite Hstep by (by eexists _, _). cbn [app].
    rewrite skip_here, bind_ret_l by lia. cbn [peek]. rewrite bind_ret_l. cbn [Z.eqb Pos.eqb].
    change (adv 1 (44 :: ?v)) with v. rewrite object_items_ws by lia.
    rewrite IH, bind_ret_l; [done|done|lia].
Qed.

Lemma object_rounds_le spins d l es : Forall2 (member_text spins d) l es ->
  (obj_rounds l <= 2 * length (object_lines es d true))%nat.
Proof.
  induction 1 as [|[n x] [tn e] l es (_ & _ & Hx) Hl IH]; [cbn; lia|].
  rewrite obj_rounds_cons. cbn [object_lines]. pose proof (rb_size _ _ _ _ Hx).
  rewrite !length_app. cbn [length snd] in *. lia.
Qed.

Lemma object_lines_head spins d l es v : Forall2 (member_text spins d) l es -> l <> [] ->
  exists v', skip (object_lines es d true ++ v) = Ok (34 :: v').
Proof.
  intros Hl Hne. destruct Hl as [|[n x] [tn e] l es (_ & En & _) Hl]; [done|]. cbn [object_lines].
  rewrite <- !app_assoc, skip_tabs. cbn [fst] in En. rewrite En. cbn [app].
  rewrite skip_here by lia. by eexists.
Qed.

Lemma obj_reads_back spins d l es : 0 <= d -> Forall2 (member_text spins (d + 1)) l es ->
  mapR (fun child => n ← print_string_ptr spins (j_string child);
                     e ← print_value fmt_0f fmt_e fmt_f spins child (d + 1) true;
                     Ok (n, e)) (map member l) = Ok es ->
  exists t, reads_back spins (JObj l) d t.
Proof.
  intros Hd Hl Hm.
  assert (map (fun '(n, x) => set_name n (to_item x)) l = map member l) as Em
    by (apply map_ext; by intros [n x]).
  destruct (decide (l = [])) as [->|Hne].
  { exists ([123; 10] ++ tabs (d - 1) ++ [125]). inversion Hl; subst. split.
    - cbn [to_item with_children print_value map mapR]. rewrite bind_ret_l. unfold print_object.
      cbv zeta. rewrite (proj2 (Z.leb_le _ _)); [done|].
      rewrite !length_app. unfold tabs. cbn [length]. rewrite length_replicate. lia.
    - by eexists _, _.
    - cbn; lia.
    - intros [|f] rest Hf Hs; [cbn in Hf; lia|]. cbn [app]. rewrite <- app_assoc.
      rewrite parse_value_head by lia. change (is_digit 123) with false. cbn [Z.eqb Pos.eqb orb].
      cbn [app]. by rewrite skip_ws, skip_tabs, skip_here by lia. }
  exists ([123; 10] ++ object_lines es (d + 1) true ++ tabs d ++ [125]). split.
  - cbn [to_item with_children print_value]. rewrite Em, Hm, bind_ret_l. unfold print_object.
    pose proof (object_lines_fit es (d + 1) (7 + (d + 1)) ltac:(lia)) as Hfit.
    destruct Hl as [|x t l es Hx Hl]; [done|]. cbv zeta. cbv iota.
    replace (d + 1 - 1) with d by lia.
    rewrite (proj2 (Z.leb_le _ _)); [done|]. rewrite !length_app. unfold tabs.
    rewrite length_replicate. cbn [length]. lia.
  - by eexists _, _.
  - pose proof (object_rounds_le _ _ _ _ Hl) as Hs. unfold obj_rounds in Hs. cbn [jsize].
    rewrite !length_app. cbn [length]. lia.
  - intros [|f] rest Hf Hs; [cbn in Hf; lia|]. cbn [app]. rewrite <- !app_assoc.
    rewrite parse_value_head by lia. change (is_digit 123) with false. cbn [Z.eqb Pos.eqb orb].
    rewrite skip_ws by lia.
    destruct (object_lines_head _ _ _ _ (tabs d ++ [125] ++ rest) Hl Hne) as [v' Ev].
    rewrite Ev, bind_ret_l. cbn [peek]. rewrite bind_ret_l. cbn [Z.eqb Pos.eqb].
    assert (object_items pow f (34 :: v')
      = object_items pow f (object_lines es (d + 1) true ++ tabs d ++ [125] ++ rest)) as ->.
    { destruct f; [done|]. cbn [object_items]. by rewrite Ev, skip_here by lia. }
    pose proof (object_items_ok _ _ _ _ Hl Hne f rest) as Hok.
    replace (d + 1 - 1) with d in Hok by lia. cbn [app]. rewrite Hok, bind_ret_l.
    + cbn [to_item]. by rewrite Em.
    + cbn [jsize] in Hf. unfold obj_rounds. lia.
Qed.

(** Every good tree has a text that is read back. *)
Lemma good_reads_back spins j : good j -> forall d, 0 <= d -> exists t, reads_back spins j d t.
Proof.
  induction j as [| | | |l IH|l IH] using json_rect'; intros Hg d Hd; inversion Hg as [| | | |? Hl|? Hl]; subst.
  - eexists. apply null_reads_back.
  - eexists. apply bool_reads_back.
  - eexists. by apply num_reads_back.
  - eexists. by apply str_reads_back.
  - destruct (mapR_Forall2 (fun child => print_value fmt_0f fmt_e fmt_f spins child (d + 1) true)
      to_item (fun x t => reads_back spins x (d + 1) t) l) as (ts & Hm & H2);
      [|by apply (arr_reads_back _ _ _ ts)].
    apply list.Forall_forall. intros x Hx. rewrite list.Forall_forall in IH, Hl.
    destruct (IH x Hx (Hl x Hx) (d + 1) ltac:(lia)) as [t Ht]. exists t. by split; [apply Ht|].
  - destruct (mapR_Forall2 (fun child => n ← print_string_ptr spins (j_string child);
        e ← print_value fmt_0f fmt_e fmt_f spins child (d + 1) true; Ok (n, e))
      member (member_text spins (d + 1)) l) as (es & Hm & H2); [|by apply (obj_reads_back _ _ _ es)].
    apply list.Forall_forall. intros [n x] Hx. rewrite list.Forall_forall in IH, Hl.
    destruct (Hl _ Hx) as [Hn Hgx]. destruct (IH _ Hx Hgx (d + 1) ltac:(lia)) as [t Ht].
    exists (34 :: n ++ [34], t). split; [|done].
    assert (j_string (member (n, x)) = Some n) as -> by (unfold member; cbn; by destruct (to_item x)).
    rewrite print_plain, bind_ret_l by done.
    assert (forall c, print_value fmt_0f fmt_e fmt_f spins (set_name n c) (d + 1) true
      = print_value fmt_0f fmt_e fmt_f spins c (d + 1) true) as Hset by (by intros []).
    unfold member. cbn [fst snd]. rewrite Hset. cbn [snd] in Ht. by rewrite (rb_print _ _ _ _ Ht).
Qed.

Lemma roundtrip_lemma spins j : good j ->
  exists t, cJSON_Print fmt_0f fmt_e fmt_f spins (to_item j) = Ok t
  /\ forall rest, stop rest -> cJSON_Parse pow (t ++ rest) = Ok (Some (to_item j)).
Proof.
  intros Hg. destruct (good_reads_back spins j Hg 0 ltac:(lia)) as [t Ht]. exists t.
  split; [apply Ht|]. intros rest Hs. unfold cJSON_Parse.
  rewrite (rb_skip _ _ _ _ _ Ht), bind_ret_l, (rb_parse _ _ _ _ Ht); [done| |done].
  rewrite length_app. pose proof (rb_size _ _ _ _ Ht). lia.
Qed.
End roundtrip.

(** ** Escapes *)

Lemma int_res_over z : 2147483647 < z -> int_res z = Fault SignedOverflow.
Proof. intros H. unfold int_res. by rewrite (proj2 (Z.leb_gt z 2147483647)), andb_false_r by lia. Qed.

(** The length loop does not move on from a character it need not encode as
    [\u]: it counts by one or two in each round until the counter overflows. *)
Lemma escaped_len_stuck fuel c v len : c <> 0 -> 32 <= c \/ in_specials c = true -> 0 <= len <= 2147483647 ->
  exists f, escaped_len fuel c (c :: v) len = Fault f /\ (f = Hang \/ f = SignedOverflow)
  /\ (len + 2 * Z.of_nat fuel <= 2147483647 -> f = Hang)
  /\ (2147483647 < len + Z.of_nat fuel -> f = SignedOverflow).
Proof.
  intros H0 Hc. revert len. induction fuel as [|fuel IH]; intros len Hl.
  { exists Hang. split; [done|]. split; [by left|]. split; [done|lia]. }
  cbn [escaped_len]. rewrite (proj2 (Z.eqb_neq c 0)) by done.
  destruct (Z.le_gt_cases (len + 1) 2147483647) as [H1|H1].
  2: { rewrite int_res_over by lia. exists SignedOverflow. split; [done|]. split; [by right|]. split; [lia|done]. }
  rewrite int_res_ok, bind_ret_l, (proj2 (Z.eqb_neq (len + 1) 0)) by lia. cbn [peek]. rewrite bind_ret_l.
  destruct (in_specials c) eqn:E.
  - destruct (Z.le_gt_cases (len + 2) 2147483647) as [H2|H2].
    2: { rewrite int_res_over by lia. exists SignedOverflow. split; [done|]. split; [by right|]. split; [lia|done]. }
    rewrite int_res_ok, bind_ret_l by lia. destruct (IH (len + 1 + 1)) as (f & Hf & Ho & Hh & Hs); [lia|].
    exists f. split; [done|]. split; [done|]. split; intros; [apply Hh|apply Hs]; lia.
  - destruct Hc as [Hc|]; [|done]. rewrite (proj2 (Z.ltb_ge c 32)) by lia.
    destruct (IH (len + 1)) as (f & Hf & Ho & Hh & Hs); [lia|].
    exists f. split; [done|]. split; [done|]. split; intros; [apply Hh|apply Hs]; lia.
Qed.

(** C30: Within a class of trees, printing and parsing are inverse.  For every
    tree of objects, arrays, constants, non-negative [int] numbers and strings
    (names included) without characters that need an escape, the printer returns a text, in buffers
    that are large enough, and parsing this text, ended by a zero, gives the tree
    back.  Outside the class this is not claimed: a string that needs an escape
    is not printed (the next theorem), and reals lose digits. *)
Theorem print_parse_roundtrip pow fmt_0f fmt_e fmt_f spins j rest :
  (forall x, pow x (S754_zero false) = F64.of_Z 1) -> good j ->
  exists t, cJSON_Print fmt_0f fmt_e fmt_f spins (to_item j) = Ok t
  /\ cJSON_Parse pow (t ++ 0 :: rest) = Ok (Some (to_item j)).
Proof.
  intros Hpow Hg. destruct (roundtrip_lemma pow Hpow fmt_0f fmt_e fmt_f spins j Hg) as (t & Hp & Hr).
  exists t. split; [done|]. apply Hr. by eexists _, _.
Qed.

(** C39: A string with a character that needs an escape is never printed when its
    first character is 32 or above or has a short escape: the loop that computes
    the length of the text stays on that character.  For the first 2^30 - 1 rounds
    it is still running, and within 2^31 rounds its [int] counter overflows,
    which is undefined; it never returns.  (Strings that begin with another
    control character are measured correctly up to such a character.) *)
Theorem print_escape_hangs fuel c s : c <> 0 -> 32 <= c \/ in_specials c = true ->
  existsb needs_escape (c :: s) = true ->
  (print_string_ptr fuel (Some (c :: s)) = Fault Hang \/ print_string_ptr fuel (Some (c :: s)) = Fault SignedOverflow)
  /\ (Z.of_nat fuel < 2 ^ 30 -> print_string_ptr fuel (Some (c :: s)) = Fault Hang)
  /\ (2 ^ 31 <= Z.of_nat fuel -> print_string_ptr fuel (Some (c :: s)) = Fault SignedOverflow).
Proof.
  intros H0 Hc He. unfold print_string_ptr. rewrite He. cbn [negb app peek]. rewrite bind_ret_l.
  destruct (escaped_len_stuck fuel c (s ++ [0]) 0 H0 Hc) as (f & -> & Ho & Hh & Hs); [lia|]. cbn.
  split; [by destruct Ho as [->| ->]; [left|right]|]. split; intros H; [rewrite Hh by lia|rewrite Hs by lia]; done.
Qed.

(** A [pow] good enough for integers. *)
Definition pow_int (x y : spec_float) : spec_float :=
  match y with S754_zero _ => F64.of_Z 1 | _ => S754_nan end.

Definition example_json : json :=
  JObj [(text "name", JStr (text "Modbus")); (text "values", JArr [JNum 0; JNum 115200; JNull])].

Lemma print_parse_roundtrip_witness :
  exists t, cJSON_Print (fun _ => []) (fun _ => []) (fun _ => []) 0 (to_item example_json) = Ok t
  /\ cJSON_Parse pow_int (t ++ [0]) = Ok (Some (to_item example_json)).
Proof.
  apply print_parse_roundtrip; [done|].
  repeat match goal with
  | |- plain _ => by apply plain_check
  | |- _ /\ _ => split
  | _ => constructor
  end; lia.
Defined.

Lemma print_escape_hangs_witness : print_string_ptr 1000 (Some (text "a" ++ [34])) = Fault Hang.
Proof.
  apply (proj1 (proj2 (print_escape_hangs 1000 97 [34] ltac:(done) ltac:(left; done) ltac:(done)))). reflexivity.
Defined.

(** A control character without a short escape is passed. *)
Theorem control_character_printed :
  print_string_ptr 10 (Some [1]) = Ok (34 :: text "\u0001" ++ [34]).
Proof. vm_compute. reflexivity. Qed.
