(* ===== verification/CJsonSafe.v ===== *)
(** * The JSON parser on arbitrary text

    For every text in which each backslash begins a complete escape, the parser
    of Task/Struct2Json/cJSON.c never leaves the text or its string buffer and
    does not run on: it returns, or it stops at a number whose conversion to
    [int], or whose exponent, overflows.  If the numbers of the text are integers
    of at most nine digits it returns.  A text with an incomplete escape makes it
    write behind its buffer. *)
From S2P Require Import Prelude Floats FloatExact CJson CJsonRoundtrip.

(** ** Outcomes *)

(** The faults a number that is out of range can cause. *)
Definition number_fault (f : fault) : Prop := f = FloatConv \/ f = SignedOverflow.
(** [strict]: not even those. *)
Definition outcome {A} (strict : bool) (P : A -> Prop) (r : res A) : Prop :=
  match r with Ok a => P a | Fault f => strict = false /\ number_fault f end.

Lemma safe_bind {A B} strict (P : A -> Prop) (Q : B -> Prop) (r : res A) (f : A -> res B) :
  outcome strict P r -> (forall a, P a -> outcome strict Q (f a)) -> outcome strict Q (r ≫= f).
Proof. destruct r as [a|e]; cbn; auto. Qed.
Lemma safe_mono {A} strict (P Q : A -> Prop) (r : res A) :
  outcome strict P r -> (forall a, P a -> Q a) -> outcome strict Q r.
Proof. destruct r as [a|e]; cbn; auto. Qed.

(** ** Text *)

Definition is_hex (c : Z) : bool := match hex_digit c with Some _ => true | None => false end.

(** Up to the terminating zero every backslash is followed by a character, and
    [\u] by four hexadecimal digits. *)
Fixpoint well_escaped (v : list Z) : bool :=
  match v with
  | [] => false
  | c :: v' =>
      if c =? 0 then true
      else if c =? 92 then
        match v' with
        | [] => false
        | e :: v'' =>
            if e =? 0 then false
            else if e =? 117 then
              match v'' with
              | h1 :: h2 :: h3 :: h4 :: r => is_hex h1 && is_hex h2 && is_hex h3 && is_hex h4 && well_escaped r
              | _ => false
              end
            else well_escaped v''
        end
      else well_escaped v'
  end.

(** Every run of digits has at most nine of them, and neither a run nor a minus
    sign is followed by a point or an exponent.  [run]: the digits of the run
    so far. *)
Fixpoint small_numbers (run : option nat) (v : list Z) : bool :=
  match v with
  | [] => true
  | c :: v' =>
      if is_digit c then let d := match run with Some d => d | None => 0%nat end in (d <? 9)%nat && small_numbers (Some (S d)) v'
      else if (c =? 46) || (c =? 101) || (c =? 69) then
        match run with None => small_numbers None v' | Some _ => false end
      else small_numbers (if c =? 45 then Some 0%nat else None) v'
  end.

(** A run that begins later is shorter. *)
Lemma small_later d v : small_numbers (Some d) v = true ->
  small_numbers None v = true /\ forall d', (d' <= d)%nat -> small_numbers (Some d') v = true.
Proof.
  revert d. induction v as [|c v IH]; intros d; [done|]. cbn [small_numbers]. destruct (is_digit c).
  - rewrite andb_true_iff, Nat.ltb_lt. intros [Hd Hv]. destruct (IH _ Hv) as [_ Hl]. split.
    + cbn. apply Hl. lia.
    + intros d' Hd'. rewrite andb_true_iff, Nat.ltb_lt. split; [lia|]. apply Hl. lia.
  - destruct (_ || _ || _); [done|]. by intros ->.
Qed.

Lemma small_tail run c v : small_numbers run (c :: v) = true -> small_numbers None v = true.
Proof.
  cbn [small_numbers]. destruct (is_digit c); [intros [_ H]%andb_true_iff; by apply small_later in H as [? _]|].
  destruct (_ || _ || _); [by destruct run|]. destruct (c =? 45); [|done]. intros H. by apply small_later in H as [? _].
Qed.

(** ** The text ahead *)

Section text.
Context (strict : bool).
Abbreviation safe := (outcome strict).
Abbreviation nsafe := (outcome false).

(** A position of a text whose escapes are complete and whose numbers are, if
    [strict], small. *)
Definition we (v : list Z) : Prop :=
  well_escaped v = true /\ (strict = true -> small_numbers None v = true).

Lemma is_hex_range c : is_hex c = true -> exists d, hex_digit c = Some d /\ 0 <= d < 16 /\ c <> 0 /\ c <> 92 /\ c <> 34.
Proof.
  unfold is_hex, hex_digit.
  destruct (Z.leb_spec 48 c), (Z.leb_spec c 57), (Z.leb_spec 65 c), (Z.leb_spec c 70), (Z.leb_spec 97 c), (Z.leb_spec c 102);
    cbn [andb]; intros H'; try done; eexists; (split; [done|lia]).
Qed.

(** A character that is neither the end nor a backslash can be passed. *)
Lemma we_tail c v : we (c :: v) -> c <> 0 -> c <> 92 -> we v.
Proof.
  intros [Hw Hs] H0 H1. split; [|intros Ht; by eapply small_tail, Hs]. cbn [well_escaped] in Hw.
  by destruct (Z.eqb_spec c 0), (Z.eqb_spec c 92).
Qed.
Lemma well_escaped_hex h v : is_hex h = true -> well_escaped v = true -> well_escaped (h :: v) = true.
Proof.
  intros Hh Hv. destruct (is_hex_range h Hh) as (_ & _ & _ & H0 & H1 & _). cbn [well_escaped].
  by destruct (Z.eqb_spec h 0), (Z.eqb_spec h 92).
Qed.
Lemma we_escape v : we (92 :: v) -> exists e w, v = e :: w /\ e <> 0 /\ we w
  /\ (e = 117 -> exists h1 h2 h3 h4 r, w = h1 :: h2 :: h3 :: h4 :: r
      /\ is_hex h1 = true /\ is_hex h2 = true /\ is_hex h3 = true /\ is_hex h4 = true /\ we r).
Proof.
  intros [Hw Hs]. cbn [well_escaped Z.eqb Pos.eqb] in Hw. destruct v as [|e w]; [done|].
  assert (strict = true -> small_numbers None w = true) as Hsw.
  { intros Ht. by eapply small_tail, small_tail, Hs. }
  destruct (Z.eqb_spec e 0); [done|]. destruct (Z.eqb_spec e 117) as [->|Hne].
  - destruct w as [|h1 [|h2 [|h3 [|h4 r]]]]; try done. rewrite !andb_true_iff in Hw.
    destruct Hw as ((((H1 & H2) & H3) & H4) & Hr).
    exists 117, (h1 :: h2 :: h3 :: h4 :: r). split; [done|]. split; [done|].
    split; [split; [by repeat apply well_escaped_hex|done]|].
    intros _. exists h1, h2, h3, h4, r. repeat split; try done. intros Ht.
    by eapply small_tail, small_tail, small_tail, small_tail, Hsw.
  - exists e, w. by repeat split.
Qed.
Lemma we_peek v : we v -> exists c v', v = c :: v' /\ peek v = Ok c.
Proof. destruct v as [|c v]; [by intros [? _]|]. intros _. by exists c, v. Qed.

(** ** Positions *)

(** A later position of a text, and one that is strictly later. *)
Definition upto (v v' : list Z) : Prop := we v' /\ (length v' <= length v)%nat.
Definition past (v v' : list Z) : Prop := we v' /\ (length v' < length v)%nat.

Lemma skip_safe v : we v -> safe (upto v) (skip v).
Proof.
  induction v as [|c v IH]; intros H; [by destruct H|]. cbn [skip].
  destruct (negb (c =? 0) && (c <=? 32)) eqn:E; [|by split].
  apply andb_true_iff in E as [E1 E2]. apply negb_true_iff, Z.eqb_neq in E1. apply Z.leb_le in E2.
  eapply safe_mono; [apply IH; apply (we_tail c); [done|lia|lia]|]. intros w [H1 H2]. split; [done|]. cbn. lia.
Qed.

Lemma starts_with_safe lit v : we v -> Forall (fun x => x <> 0 /\ x <> 92) lit ->
  exists b, starts_with lit v = Ok b /\ (b = true -> we (adv (length lit) v) /\ (length lit <= length v)%nat).
Proof.
  intros H Hl. revert v H. induction Hl as [|x lit [H0 H92] _ IH]; intros v H; [by exists true; split; [|split; [|cbn; lia]]|].
  destruct v as [|c v]; [by destruct H|]. cbn [starts_with]. destruct (Z.eqb_spec c x) as [->|Hne].
  - destruct (IH v) as (b & E & Hb); [by eapply we_tail|]. exists b. split; [done|]. intros Ht.
    destruct (Hb Ht). split; [done|cbn; lia].
  - by exists false.
Qed.

Lemma is_digit_range c : is_digit c = true <-> 48 <= c <= 57.
Proof. unfold is_digit. lia. Qed.

Lemma int_digits_safe n v : we v -> nsafe (fun '(_, v') => upto v v') (int_digits n v).
Proof.
  revert n. induction v as [|c v IH]; intros n H; [by destruct H|]. cbn [int_digits].
  destruct (is_digit c) eqn:E; [|by split]. apply is_digit_range in E.
  eapply safe_mono; [apply IH; apply (we_tail c); [done|lia|lia]|]. intros [? w] [H1 H2]. split; [done|]. cbn. lia.
Qed.
Lemma frac_digits_safe n s v : we v -> nsafe (fun '(_, _, v') => upto v v') (frac_digits n s v).
Proof.
  revert n s. induction v as [|c v IH]; intros n s H; [by destruct H|]. cbn [frac_digits].
  destruct (is_digit c) eqn:E; [|by split]. apply is_digit_range in E.
  eapply safe_mono; [apply IH; apply (we_tail c); [done|lia|lia]|]. intros [[? ?] w] [H1 H2]. split; [done|]. cbn. lia.
Qed.
Lemma exp_digits_safe s v : we v -> nsafe (fun '(_, v') => upto v v') (exp_digits s v).
Proof.
  revert s. induction v as [|c v IH]; intros s H; [by destruct H|]. cbn [exp_digits].
  destruct (is_digit c) eqn:E; [|by split]. destruct (_ <=? _); [|split; [done|by right]]. apply is_digit_range in E.
  eapply safe_mono; [apply IH; apply (we_tail c); [done|lia|lia]|]. intros [? w] [H1 H2]. split; [done|]. cbn. lia.
Qed.
Lemma cast_s32_safe x : nsafe (fun _ => True) (cast_s32 x).
Proof.
  unfold cast_s32, cast. destruct (trunc x); [|split; [done|by left]]. destruct (_ && _); [done|split; [done|by left]].
Qed.

(** ** Numbers *)

(** One optional character: the text is at it or behind it. *)
Lemma adv_upto c v v0 : we (c :: v) -> c <> 0 -> c <> 92 -> (length (c :: v) <= length v0)%nat -> past v0 (adv 1 (c :: v)).
Proof. intros H H0 H1 HL. split; [by apply (we_tail c)|]. change (adv 1 (c :: v)) with v. cbn in HL. lia. Qed.

(** The exponent, if there is one. *)
Lemma exponent_safe v : we v ->
  nsafe (fun '(_, v') => upto v v')
    (c ← peek v;
     if (c =? 101) || (c =? 69) then
       let num := adv 1 v in
       c ← peek num;
       let '(signsubscale, num) :=
         if c =? 43 then (1, adv 1 num) else if c =? 45 then (-1, adv 1 num) else (1, num) in
       '(s, num) ← exp_digits 0 num; Ok (s * signsubscale, num)
     else Ok (0, v)).
Proof.
  intros H. destruct (we_peek v H) as (c & w & -> & ->). rewrite bind_ret_l.
  destruct ((c =? 101) || (c =? 69)) eqn:E; [|by split].
  assert (we w) as Hw by (apply (we_tail c); [done|lia|lia]). cbv zeta. change (adv 1 (c :: w)) with w.
  destruct (we_peek w Hw) as (d & x & -> & ->). rewrite bind_ret_l.
  assert (forall k y, upto (d :: x) y -> nsafe (fun '(_, v') => upto (c :: d :: x) v')
    ('(s, num) ← exp_digits 0 y; Ok (s * k, num))) as Hgo.
  { intros k y [Hy1 Hy2]. eapply safe_bind; [by apply exp_digits_safe|]. intros [s num] [? ?]. split; [done|cbn in *; lia]. }
  destruct (Z.eqb_spec d 43) as [->|]; [apply Hgo|destruct (Z.eqb_spec d 45) as [->|]; apply Hgo];
    change (adv 1 (?c :: ?v)) with v; (split; [first [done|by apply (we_tail _ _ Hw)]|cbn; lia]).
Qed.

(** The fraction, if there is one. *)
Lemma fraction_safe n v : we v ->
  nsafe (fun '(_, _, v') => upto v v')
    (c ← peek v;
     frac ← (if c =? 46 then c1 ← peek (adv 1 v); Ok (is_digit c1) else Ok false);
     if frac : bool then frac_digits n (S754_zero false) (adv 1 v) else Ok (n, S754_zero false, v)).
Proof.
  intros H. destruct (we_peek v H) as (c & w & -> & ->). rewrite bind_ret_l.
  destruct (Z.eqb_spec c 46) as [->|]; [|rewrite bind_ret_l; by split].
  assert (we w) as Hw by (by apply (we_tail _ _ H)). change (adv 1 (46 :: w)) with w.
  destruct (we_peek w Hw) as (d & x & -> & ->). rewrite !bind_ret_l.
  destruct (is_digit d); [|by split].
  eapply safe_mono; [by apply frac_digits_safe|]. intros [[? ?] y] [? ?]. split; [done|cbn in *; lia].
Qed.

(** ** Strings *)

Lemma hex_loop_ok k h str : Forall (fun c => is_hex c = true) (take k str) -> (k <= length str)%nat -> 0 <= h < 16 ^ (4 - Z.of_nat k) ->
  (k <= 4)%nat -> exists z, hex_loop k h str = Ok z /\ 0 <= z < 65536.
Proof.
  revert h str. induction k as [|k IH]; intros h str Hx HL Hh Hk; [by exists h|].
  destruct str as [|c str]; [cbn in HL; lia|]. cbn [hex_loop peek]. rewrite bind_ret_l.
  cbn [take] in Hx. apply list.Forall_cons in Hx as [Hc Hx]. destruct (is_hex_range c Hc) as (d & -> & Hd & _).
  change (adv 1 (c :: str)) with str.
  assert (16 ^ (4 - Z.of_nat k) = 16 * 16 ^ (4 - Z.of_nat (S k))) as Ep.
  { rewrite <- Z.pow_succ_r by lia. f_equal. lia. }
  assert (16 ^ (4 - Z.of_nat (S k)) <= 16 ^ 3) by (apply Z.pow_le_mono_r; lia).
  apply IH; [done|cbn in HL; lia| |lia]. rewrite Z.shiftl_mul_pow2 by lia. unfold u32. lia.
Qed.
Lemma parse_hex4_ok h1 h2 h3 h4 r : is_hex h1 = true -> is_hex h2 = true -> is_hex h3 = true -> is_hex h4 = true ->
  exists z, parse_hex4 (h1 :: h2 :: h3 :: h4 :: r) = Ok z /\ 0 <= z < 65536.
Proof. intros H1 H2 H3 H4. apply hex_loop_ok; [by repeat (apply list.Forall_cons; split)|cbn; lia|cbn; lia|lia]. Qed.

Lemma utf8_length uc : (length (utf8 uc) <= 4)%nat /\ (uc < 0x10000 -> (length (utf8 uc) <= 3)%nat).
Proof.
  unfold utf8. destruct (Z.ltb_spec uc 0x80), (Z.ltb_spec uc 0x800), (Z.ltb_spec uc 0x10000); cbn; lia.
Qed.

(** The characters the first pass counts from here. *)
Definition counts (v : list Z) (n : nat) : Prop := string_len v = Ok (Z.of_nat n).

Lemma counts_char c v n : c <> 34 -> c <> 0 -> c <> 92 -> counts v n -> counts (c :: v) (S n).
Proof.
  unfold counts. intros H1 H2 H3 H. cbn [string_len].
  rewrite (proj2 (Z.eqb_neq c 34)), (proj2 (Z.eqb_neq c 0)), (proj2 (Z.eqb_neq c 92)) by done. cbn [orb].
  rewrite H, bind_ret_l. f_equal. lia.
Qed.
Lemma counts_escape e v n : counts v n -> counts (92 :: e :: v) (S n).
Proof. unfold counts. intros H. cbn. rewrite H, bind_ret_l. f_equal. lia. Qed.
Lemma counts_hex h1 h2 h3 h4 r n : is_hex h1 = true -> is_hex h2 = true -> is_hex h3 = true -> is_hex h4 = true -> counts r n ->
  counts (h1 :: h2 :: h3 :: h4 :: r) (4 + n).
Proof.
  intros H1 H2 H3 H4 H.
  repeat match goal with H : is_hex ?h = true |- _ => apply is_hex_range in H as (? & _ & _ & ? & ? & ?) end.
  by do 4 (apply counts_char; [done..|]).
Qed.

(** The first pass ends inside the text. *)
Lemma string_len_ok v : we v -> exists n, counts v n.
Proof.
  remember (length v) as k eqn:Ek. revert v Ek. induction (lt_wf k) as [k _ IH]. intros v -> H.
  destruct v as [|c v]; [by destruct H|]. destruct (Z.eq_dec c 34) as [->|H1]; [by exists O|].
  destruct (Z.eq_dec c 0) as [->|H2]; [by exists O|]. destruct (Z.eq_dec c 92) as [->|H3].
  - destruct (we_escape v H) as (e & w & -> & _ & Hw & _).
    destruct (IH (length w)) with (v := w) as [n Hn]; [cbn; lia|done|done|]. exists (S n). by apply counts_escape.
  - destruct (IH (length v)) with (v := v) as [n Hn]; [cbn; lia|done|by apply (we_tail c)|]. exists (S n). by apply counts_char.
Qed.

(** An escape [\u] of four digits: what it writes was counted, and the text goes on behind it. *)
Lemma unescape_u_ok h1 h2 h3 h4 r : is_hex h1 = true -> is_hex h2 = true -> is_hex h3 = true -> is_hex h4 = true -> we r ->
  exists bs ptr, unescape_u (117 :: h1 :: h2 :: h3 :: h4 :: r) = Ok (bs, ptr)
  /\ upto r (adv 1 ptr) /\ forall n, counts (adv 1 ptr) n -> exists m, counts r m /\ (n + length bs <= m + 4)%nat.
Proof.
  intros H1 H2 H3 H4 Hr. unfold unescape_u. change (adv 1 (117 :: ?v)) with v.
  destruct (parse_hex4_ok h1 h2 h3 h4 r H1 H2 H3 H4) as (uc & -> & Huc). rewrite bind_ret_l. cbv zeta.
  change (adv 4 (117 :: h1 :: h2 :: h3 :: h4 :: r)) with (h4 :: r). change (adv 1 (h4 :: r)) with r.
  assert (forall bs : list Z, (length bs <= 4)%nat -> exists bs' ptr, Ok (bs, h4 :: r) = Ok (bs', ptr) /\ upto r (adv 1 ptr)
    /\ forall n, counts (adv 1 ptr) n -> exists m, counts r m /\ (n + length bs' <= m + 4)%nat) as Hhere.
  { intros bs Hbs. exists bs, (h4 :: r). split; [done|]. change (adv 1 (h4 :: r)) with r. split; [by split|].
    intros n Hn. exists n. split; [done|lia]. }
  destruct (_ || _); [by apply Hhere; cbn; lia|]. destruct (_ && _).
  2: { apply Hhere. destruct (utf8_length uc). lia. }
  destruct (we_peek r Hr) as (c1 & r1 & -> & ->). rewrite bind_ret_l.
  destruct (Z.eqb_spec c1 92) as [->|]; cbn [negb]; [|by apply Hhere; cbn; lia].
  destruct (we_escape r1 Hr) as (e & w & -> & _ & _ & Hu). change (adv 2 (h4 :: 92 :: e :: w)) with (e :: w). cbn [peek].
  rewrite bind_ret_l. destruct (Z.eqb_spec e 117) as [->|]; cbn [negb]; [|by apply Hhere; cbn; lia].
  destruct (Hu eq_refl) as (g1 & g2 & g3 & g4 & r2 & -> & G1 & G2 & G3 & G4 & Hr2).
  change (adv 3 (h4 :: 92 :: 117 :: ?v)) with v. destruct (parse_hex4_ok g1 g2 g3 g4 r2 G1 G2 G3 G4) as (uc2 & -> & _).
  rewrite bind_ret_l. change (adv 6 (h4 :: 92 :: 117 :: g1 :: g2 :: g3 :: g4 :: r2)) with (g4 :: r2).
  assert (forall bs : list Z, (length bs <= 4)%nat -> exists bs' ptr, Ok (bs, g4 :: r2) = Ok (bs', ptr)
    /\ upto (92 :: 117 :: g1 :: g2 :: g3 :: g4 :: r2) (adv 1 ptr)
    /\ forall n, counts (adv 1 ptr) n -> exists m, counts (92 :: 117 :: g1 :: g2 :: g3 :: g4 :: r2) m /\ (n + length bs' <= m + 4)%nat) as Hpair.
  { intros bs Hbs. exists bs, (g4 :: r2). split; [done|]. change (adv 1 (g4 :: r2)) with r2. split; [split; [done|cbn; lia]|].
    intros n Hn. exists (S (4 + n)). split; [by apply counts_escape, counts_hex|lia]. }
  destruct (_ || _); [by apply Hpair; cbn; lia|]. apply Hpair. apply utf8_length.
Qed.

(** The second pass stays in the buffer the first one asked for. *)
Lemma unescape_ok fuel cap out v n : we v -> (length v < fuel)%nat -> counts v n ->
  Z.of_nat (length out + n) <= cap ->
  exists out' v', unescape fuel cap out v = Ok (out', v') /\ upto v v' /\ (length out' <= length out + n)%nat.
Proof.
  revert out v n. induction fuel as [|fuel IH]; intros out v n H Hf Hn Hcap; [lia|].
  destruct (we_peek v H) as (c & w & -> & Ep). cbn [unescape]. rewrite Ep, bind_ret_l.
  destruct ((c =? 34) || (c =? 0)) eqn:Estop; [exists out, (c :: w); split; [done|split; [by split|lia]]|].
  apply orb_false_iff in Estop as [E34%Z.eqb_neq E0%Z.eqb_neq]. cbn [length] in Hf.
  destruct (Z.eqb_spec c 92) as [->|Hc]; cbn [negb].
  - destruct (we_escape w H) as (e & x & -> & _ & Hx & Hu). change (adv 1 (92 :: e :: x)) with (e :: x). cbn [peek].
    rewrite bind_ret_l. destruct (string_len_ok x Hx) as [k Hk]. pose proof (counts_escape e x k Hk) as Hk1.
    assert (n = S k) as -> by (unfold counts in *; rewrite Hk1 in Hn; injection Hn; lia).
    assert (forall b, exists out' v', (out1 ← emit cap out [b]; unescape fuel cap out1 (adv 1 (e :: x))) = Ok (out', v')
      /\ upto (92 :: e :: x) v' /\ (length out' <= length out + S k)%nat) as Hone.
    { intros b. unfold emit. rewrite (proj2 (Z.leb_le _ _)) by (cbn [length]; lia). rewrite bind_ret_l.
      change (adv 1 (e :: x)) with x.
      destruct (IH (out ++ [b]) x k Hx) as (o & y & -> & [? ?] & Ho); [cbn in Hf; lia|done|rewrite length_app; cbn; lia|].
      exists o, y. split; [done|]. rewrite length_app in Ho. cbn in Ho. split; [split; [done|cbn; lia]|lia]. }
    destruct (e =? 98); [exact (Hone _)|]. destruct (e =? 102); [exact (Hone _)|]. destruct (e =? 110); [exact (Hone _)|].
    destruct (e =? 114); [exact (Hone _)|]. destruct (e =? 116); [exact (Hone _)|].
    destruct (Z.eqb_spec e 117) as [->|]; [|exact (Hone _)].
    destruct (Hu eq_refl) as (h1 & h2 & h3 & h4 & r & -> & H1 & H2 & H3 & H4 & Hr).
    destruct (unescape_u_ok h1 h2 h3 h4 r H1 H2 H3 H4 Hr) as (bs & ptr & -> & [Hp HLp] & Hcount). rewrite bind_ret_l.
    destruct (string_len_ok _ Hp) as [m Hm]. destruct (Hcount m Hm) as (m' & Hm' & Hle).
    pose proof (counts_hex h1 h2 h3 h4 r m' H1 H2 H3 H4 Hm') as Hk'.
    assert (k = (4 + m')%nat) as -> by (unfold counts in *; rewrite Hk' in Hk; injection Hk; lia).
    unfold emit. rewrite (proj2 (Z.leb_le _ _)) by lia. rewrite bind_ret_l.
    destruct (IH (out ++ bs) (adv 1 ptr) m Hp) as (o & y & -> & [? ?] & Ho); [cbn in Hf; lia|done|rewrite length_app; lia|].
    exists o, y. split; [done|]. rewrite length_app in Ho. cbn in Ho. split; [split; [done|cbn; lia]|lia].
  - destruct (string_len_ok w (we_tail c w H E0 Hc)) as [k Hk]. pose proof (counts_char c w k E34 E0 Hc Hk) as Hk1.
    assert (n = S k) as -> by (unfold counts in *; rewrite Hk1 in Hn; injection Hn; lia).
    unfold emit. rewrite (proj2 (Z.leb_le _ _)) by (cbn [length]; lia). rewrite bind_ret_l. change (adv 1 (c :: w)) with w.
    destruct (IH (out ++ [c]) w k (we_tail c w H E0 Hc)) as (o & y & -> & [? ?] & Ho); [lia|done|rewrite length_app; cbn; lia|].
    exists o, y. split; [done|]. rewrite length_app in Ho. cbn in Ho. split; [split; [done|cbn; lia]|lia].
Qed.

Lemma parse_string_ok v : we v -> exists r, parse_string v = Ok r
  /\ match r with Some (_, v') => past v v' | None => True end.
Proof.
  intros H. destruct (we_peek v H) as (c & w & -> & Ep). unfold parse_string. rewrite Ep, bind_ret_l.
  destruct (Z.eqb_spec c 34) as [->|]; cbn [negb]; [|by exists None].
  assert (we w) as Hw by (by apply (we_tail 34)). change (adv 1 (34 :: w)) with w.
  destruct (string_len_ok w Hw) as [n Hn]. pose proof Hn as En. unfold counts in En. rewrite En, bind_ret_l.
  destruct (unescape_ok (S (length (34 :: w))) (Z.of_nat n + 1) [] w n Hw) as (out & x & E & [Hx HLx] & Ho); [cbn; lia|done|cbn; lia|].
  rewrite E, bind_ret_l. cbn [length] in Ho. unfold emit. rewrite (proj2 (Z.leb_le _ _)) by (cbn [length]; lia). rewrite bind_ret_l.
  destruct (we_peek x Hx) as (d & y & -> & ->). rewrite bind_ret_l. eexists. split; [done|]. cbn beta iota.
  destruct (Z.eqb_spec d 34) as [->|].
  - change (adv 1 (34 :: y)) with y. split; [by apply (we_tail 34)|cbn in *; lia].
  - split; [done|cbn in *; lia].
Qed.

Section values.
Context (pow : spec_float -> spec_float -> spec_float).

(** What is left after a sign or a leading zero. *)
Lemma parse_number_nsafe c v : we (c :: v) -> c = 45 \/ is_digit c = true ->
  nsafe (fun r => match r with Some (_, v') => past (c :: v) v' | None => True end) (parse_number pow (c :: v)).
Proof.
  intros H Hc. unfold parse_number. cbn [peek]. rewrite bind_ret_l.
  set (signed := if c =? 45 then _ else _).
  assert (exists s w, signed = (s, w) /\ upto (c :: v) w /\ (w = c :: v /\ is_digit c = true \/ past (c :: v) w)) as (s & w & -> & Hw & Hor).
  { unfold signed. destruct (Z.eqb_spec c 45) as [->|]; eexists _, _; (split; [done|]).
    - destruct (adv_upto 45 v (45 :: v) H) as [? ?]; [done|done|done|]. split; [split; [done|lia]|]. right. by split.
    - destruct Hc as [|Hc]; [done|]. split; [by split|]. by left. }
  destruct Hw as [Hw HLw]. destruct (we_peek w Hw) as (d & x & -> & ->). rewrite bind_ret_l.
  set (zeroed := if d =? 48 then _ else _).
  assert (we zeroed /\ (length zeroed <= length (d :: x))%nat
    /\ (past (c :: v) zeroed \/ zeroed = c :: v /\ is_digit c = true /\ c <> 48)) as (Hz & HLz & Hz').
  { unfold zeroed. destruct (Z.eqb_spec d 48) as [->|Hne].
    - destruct (adv_upto 48 x (48 :: x) Hw) as [? ?]; [done|done|done|]. split; [done|]. split; [lia|].
      left. split; [done|]. cbn in *. lia.
    - split; [done|]. split; [done|]. destruct Hor as [[[= -> ->] Hd]|[? ?]]; [by right|by left]. }
  clearbody zeroed. destruct (we_peek zeroed Hz) as (e & y & -> & ->). rewrite bind_ret_l.
  eapply safe_bind with (P := fun '(_, v') => past (c :: v) v').
  { destruct ((49 <=? e) && (e <=? 57)) eqn:E.
    - cbn [int_digits]. rewrite (proj2 (is_digit_range e)) by lia.
      eapply safe_mono; [apply int_digits_safe; apply (we_tail e); [done|lia|lia]|].
      intros [? z] [? ?]. split; [done|]. cbn in *. lia.
    - destruct Hz' as [[? ?]|([= -> ->] & Hd & Hn)]; [by split|]. apply is_digit_range in Hd. lia. }
  intros [n num] [Hn HLn].
  pose proof (fraction_safe n num Hn) as HF. destruct (we_peek num Hn) as (f & num' & Enum & Ep). rewrite Ep in HF |- *. rewrite bind_ret_l. rewrite bind_ret_l in HF.
  rewrite <- bind_assoc. eapply safe_bind; [exact HF|]. intros [[n' scale] num2] [Hn2 HLn2].
  pose proof (exponent_safe num2 Hn2) as HE. destruct (we_peek num2 Hn2) as (g & num2' & Enum2 & Ep2).
  rewrite Ep2 in HE |- *. rewrite bind_ret_l. rewrite bind_ret_l in HE. eapply safe_bind; [exact HE|]. intros [sub num3] [Hn3 HLn3]. cbv zeta.
  eapply safe_bind; [apply cast_s32_safe|]. intros i _. split; [done|lia].
Qed.

(** *** Small numbers *)

(** A run of digits, and what follows it. *)
Lemma small_run d v : well_escaped v = true -> small_numbers (Some d) v = true ->
  exists ds rest, v = ds ++ rest /\ Forall digit ds /\ (length ds + d <= Nat.max 9 d)%nat /\ stop rest.
Proof.
  revert d. induction v as [|c v IH]; intros d Hw; [done|]. cbn [small_numbers]. destruct (is_digit c) eqn:Ec.
  - rewrite andb_true_iff, Nat.ltb_lt. intros [Hd Hs].
    assert (well_escaped v = true) as Hv.
    { apply is_digit_range in Ec. cbn [well_escaped] in Hw. destruct (Z.eqb_spec c 0), (Z.eqb_spec c 92); [lia..|done]. }
    destruct (IH _ Hv Hs) as (ds & rest & -> & Hds & Hl & Hr). exists (c :: ds), rest. split; [done|].
    split; [constructor; [by apply is_digit_range in Ec|done]|]. split; [cbn; lia|done].
  - destruct (_ || _ || _) eqn:E; [done|]. intros _. exists [], (c :: v). split; [done|]. split; [constructor|].
    split; [cbn; lia|]. exists c, v. split; [done|]. split; [done|]. lia.
Qed.

Lemma str_val_bound ds a : Forall digit ds -> 0 <= a -> str_val a ds < (a + 1) * 10 ^ Z.of_nat (length ds).
Proof.
  intros H. revert a. induction H as [|c ds Hc H IH]; intros a Ha; [cbn; lia|].
  change (str_val a (c :: ds)) with (str_val (10 * a + (c - 48)) ds). unfold digit in Hc.
  pose proof (IH (10 * a + (c - 48)) ltac:(lia)). cbn [length]. rewrite Nat2Z.inj_succ, Z.pow_succ_r by lia.
  pose proof (Z.pow_pos_nonneg 10 (Z.of_nat (length ds)) ltac:(lia) ltac:(lia)). nia.
Qed.

(** A signed small number fits an [int]. *)
Lemma cast_small (neg : bool) k : 0 <= k < 10 ^ 9 ->
  exists i, cast_s32 (F64.mul (F64.mul (F64.of_Z (if neg then -1 else 1)) (F64.of_Z k)) (F64.of_Z 1)) = Ok i.
Proof.
  intros Hk. destruct neg.
  - destruct k as [|k|k]; [by eexists| |lia]. assert (digits k <= 53) as Hd by (apply digits_le; lia).
    destruct (of_Z_fl k Hd) as [-> Hn], (of_Z_fl 1 ltac:(done)) as [-> ->].
    rewrite !fl_mul by (rewrite ?Pos.mul_1_r, ?Pos.mul_1_l; done). rewrite Pos.mul_1_r, Pos.mul_1_l. cbn [xorb].
    rewrite <- Hn. unfold cast_s32, cast. rewrite trunc_of_Z by (unfold exact; lia).
    rewrite (proj2 (Z.leb_le _ (Z.neg k))), (proj2 (Z.leb_le (Z.neg k) _)) by lia. by eexists.
  - rewrite !mul_exact by (unfold exact; lia). rewrite cast_exact by lia. by eexists.
Qed.

Lemma parse_number_returns c v : (forall x, pow x (S754_zero false) = F64.of_Z 1) ->
  well_escaped (c :: v) = true -> small_numbers None (c :: v) = true -> c = 45 \/ is_digit c = true ->
  exists r, parse_number pow (c :: v) = Ok r.
Proof.
  intros Hpow Hw Hs Hc. unfold parse_number. cbn [peek]. rewrite bind_ret_l.
  assert (exists w, (if c =? 45 then (F64.of_Z (-1), adv 1 (c :: v)) else (F64.of_Z 1, c :: v))
      = (F64.of_Z (if c =? 45 then -1 else 1), w)
    /\ well_escaped w = true /\ small_numbers (Some 0%nat) w = true) as (w & -> & Hw' & Hs').
  { destruct (Z.eqb_spec c 45) as [->|Hn]; [by exists v|]. destruct Hc as [|Hc]; [done|]. exists (c :: v). split; [done|].
    split; [done|]. cbn [small_numbers] in Hs |- *. by rewrite Hc in *. }
  generalize (c =? 45) as neg. intros neg. clear Hc Hs Hw c v.
  destruct (small_run 0 w Hw' Hs') as (ds & rest & -> & Hds & Hl & Hr).
  (* the digits that are taken *)
  assert (exists k c r, 0 <= k < 10 ^ 9 /\ c <> 46 /\ c <> 101 /\ c <> 69 /\
    (c0 ← peek (ds ++ rest); let num := if c0 =? 48 then adv 1 (ds ++ rest) else ds ++ rest in
     c0 ← peek num;
     if (49 <=? c0) && (c0 <=? 57) then int_digits (S754_zero false) num else Ok (S754_zero false, num))
    = Ok (F64.of_Z k, c :: r)) as (k & c & r & Hk & Hc1 & Hc2 & Hc3 & E).
  { assert (forall l, Forall digit l -> (length l <= 9)%nat -> exists k c r, 0 <= k < 10 ^ 9 /\ c <> 46 /\ c <> 101 /\ c <> 69 /\
      (c0 ← peek (l ++ rest); if (49 <=? c0) && (c0 <=? 57) then int_digits (S754_zero false) (l ++ rest)
       else Ok (S754_zero false, l ++ rest)) = Ok (F64.of_Z k, c :: r)) as Hgo.
    { intros l Hd Hl9. pose proof Hr as (c & r & Er & Hcd & H1 & H2 & H3).
      destruct l as [|d l]; cbn [app].
      - rewrite Er. cbn [peek]. rewrite bind_ret_l. exists 0, c, r. split; [lia|]. split_and!; try done.
        unfold is_digit in Hcd. destruct ((49 <=? c) && (c <=? 57)) eqn:E9; [lia|done].
      - cbn [peek]. rewrite bind_ret_l. destruct ((49 <=? d) && (d <=? 57)) eqn:E9.
        + pose proof (str_val_bound (d :: l) 0 Hd ltac:(lia)) as Hb.
          assert (10 ^ Z.of_nat (length (d :: l)) <= 10 ^ 9) as Hp by (apply Z.pow_le_mono_r; lia).
          change (d :: l ++ rest) with ((d :: l) ++ rest). rewrite <- of_Z_0, int_digits_ok by (done || lia).
          pose proof (str_val_mono (d :: l) 0 Hd ltac:(lia)). rewrite Er. exists (str_val 0 (d :: l)), c, r.
          split_and!; done || lia.
        + exists 0, d, (l ++ rest). assert (digit d) by (by inversion Hd). unfold digit in *. split_and!; done || lia. }
    destruct ds as [|d ds].
    - destruct Hr as (c & r & -> & Hcd & H1 & H2 & H3). cbn [app peek]. rewrite bind_ret_l. cbv zeta.
      unfold is_digit in Hcd. rewrite (proj2 (Z.eqb_neq c 48)) by lia. cbn [peek]. rewrite bind_ret_l.
      exists 0, c, r. split; [lia|]. split_and!; try done. destruct ((49 <=? c) && (c <=? 57)) eqn:E9; [lia|done].
    - cbn [app peek]. rewrite bind_ret_l. cbv zeta. destruct (Z.eqb_spec d 48) as [->|].
      + change (adv 1 (48 :: ?v)) with v. apply Hgo; [by inversion Hds|cbn in Hl; lia].
      + apply (Hgo (d :: ds)); [done|cbn in *; lia]. }
  destruct (peek (ds ++ rest)) as [c0|]; [|done]. rewrite bind_ret_l. cbn [mbind res_bind] in E. cbv zeta in E |- *.
  destruct (peek (if c0 =? 48 then adv 1 (ds ++ rest) else ds ++ rest)) as [c1|]; [|done]. rewrite bind_ret_l. cbn [mbind res_bind] in E.
  rewrite E, bind_ret_l. cbn [peek]. rewrite bind_ret_l.
  rewrite (proj2 (Z.eqb_neq c 46)), bind_ret_l by done. cbv beta iota. rewrite !bind_ret_l. cbn [peek]. rewrite bind_ret_l.
  rewrite (proj2 (Z.eqb_neq c 101)), (proj2 (Z.eqb_neq c 69)) by done. cbn [orb]. rewrite !bind_ret_l.
  change (F64.add (S754_zero false) (F64.of_Z 0)) with (S754_zero false). rewrite Hpow.
  destruct (cast_small neg k Hk) as [i ->]. by eexists.
Qed.

Context (Hpow : strict = true -> forall x, pow x (S754_zero false) = F64.of_Z 1).

Lemma parse_number_safe c v : we (c :: v) -> c = 45 \/ is_digit c = true ->
  safe (fun r => match r with Some (_, v') => past (c :: v) v' | None => True end) (parse_number pow (c :: v)).
Proof.
  intros H Hc. pose proof (parse_number_nsafe c v H Hc) as Hn. destruct (Bool.bool_dec strict true) as [Ht|Hf%not_true_is_false].
  - destruct (parse_number_returns c v (Hpow Ht) (proj1 H) (proj2 H Ht) Hc) as [r E]. rewrite E in Hn |- *. exact Hn.
  - by rewrite Hf in *.
Qed.

(** ** Values *)

(** A result that ends behind the start. *)
Definition moved {A} (v : list Z) (r : option (A * list Z)) : Prop :=
  match r with Some (_, v') => past v v' | None => True end.

Lemma literal lit v : we v -> Forall (fun x => x <> 0 /\ x <> 92) lit -> (0 < length lit)%nat ->
  exists b, starts_with lit v = Ok b /\ (b = true -> past v (adv (length lit) v)).
Proof.
  intros H Hl Hp. destruct (starts_with_safe lit v H Hl) as (b & E & Hb). exists b. split; [done|]. intros Ht.
  destruct (Hb Ht). split; [done|]. unfold adv. rewrite length_drop. lia.
Qed.

(** The rest of an element or member: the separator, the closing character or neither. *)
Lemma after_child {A} (close : Z) (v v0 : list Z) (more : list Z -> res (option (A * list Z))) (last : A) (f : A -> A) :
  past v0 v -> close <> 0 -> close <> 92 -> (forall w, past v w -> safe (moved w) (more w)) ->
  safe (moved v0)
    (value ← skip v; c ← peek value;
     if c =? 44 then r ← more (adv 1 value); Ok match r with Some (l, v) => Some (f l, v) | None => None end
     else if c =? close then Ok (Some (last, adv 1 value)) else Ok None).
Proof.
  intros [Hv HL] H0 H92 Hmore. eapply safe_bind; [by apply skip_safe|]. intros w [Hw HLw].
  destruct (we_peek w Hw) as (c & x & -> & ->). rewrite bind_ret_l. change (adv 1 (c :: x)) with x. cbn [length] in HLw.
  destruct (Z.eqb_spec c 44) as [->|].
  - eapply safe_bind; [apply (Hmore x); split; [by apply (we_tail 44)|lia]|]. intros [[l y]|] Hy; [|done].
    destruct Hy. split; [done|lia].
  - destruct (Z.eqb_spec c close) as [->|]; [|done]. split; [by apply (we_tail close)|lia].
Qed.

Lemma parse_safe fuel :
  (forall v, we v -> (2 * length v <= fuel)%nat -> safe (moved v) (parse_value pow fuel v))
  /\ (forall v, we v -> (2 * length v + 1 <= fuel)%nat -> safe (moved v) (array_items pow fuel v))
  /\ (forall v, we v -> (2 * length v + 1 <= fuel)%nat -> safe (moved v) (object_items pow fuel v)).
Proof.
  induction fuel as [|fuel (IHv & IHa & IHo)]; [split; [|split]; intros [|c v] H Hf; try (by destruct H); cbn in Hf; lia|].
  split; [|split]; intros v H Hf.
  - cbn [parse_value].
    destruct (literal (text "null") v H) as (b1 & -> & H1); [by repeat (apply list.Forall_cons; split)|cbn; lia|].
    rewrite bind_ret_l. destruct b1; [by apply H1|].
    destruct (literal (text "false") v H) as (b2 & -> & H2); [by repeat (apply list.Forall_cons; split)|cbn; lia|].
    rewrite bind_ret_l. destruct b2; [by apply H2|].
    destruct (literal (text "true") v H) as (b3 & -> & H3); [by repeat (apply list.Forall_cons; split)|cbn; lia|].
    rewrite bind_ret_l. destruct b3; [by apply H3|]. clear H1 H2 H3.
    destruct (we_peek v H) as (c & w & -> & Ep). rewrite Ep, bind_ret_l. cbn [length] in Hf.
    destruct (Z.eqb_spec c 34) as [->|]; [|destruct ((c =? 45) || is_digit c) eqn:En].
    + destruct (parse_string_ok (34 :: w) H) as (r & -> & Hr). rewrite bind_ret_l. by destruct r as [[? ?]|].
    + apply parse_number_safe; [done|]. apply orb_true_iff in En as [->%Z.eqb_eq|]; auto.
    + assert (forall (items : nat -> list Z -> res (option (list cJSON * list Z))) t close, close <> 0 -> close <> 92 -> we w ->
        (forall x, we x -> (2 * length x + 1 <= fuel)%nat -> safe (moved x) (items fuel x)) ->
        safe (moved (c :: w)) (value ← skip w; c ← peek value;
          if c =? close then Ok (Some (with_children t [], adv 1 value))
          else r ← items fuel value; Ok match r with Some (l, v) => Some (with_children t l, v) | None => None end)) as Hnest.
      { intros items t close Hc0 Hc92 Hw Hitems. eapply safe_bind; [by apply skip_safe|]. intros x [Hx HLx].
        destruct (we_peek x Hx) as (d & y & -> & ->). rewrite bind_ret_l. destruct (Z.eqb_spec d close) as [->|].
        - change (adv 1 (close :: y)) with y. split; [by apply (we_tail close)|cbn in *; lia].
        - eapply safe_bind; [apply Hitems; [done|cbn in *; lia]|]. intros [[l z]|] Hz; [|done].
          destruct Hz. split; [done|cbn in *; lia]. }
      change (adv 1 (c :: w)) with w.
      destruct (Z.eqb_spec c 91) as [->|]; [by apply (Hnest (array_items pow)); [..|apply (we_tail 91)|]|].
      destruct (Z.eqb_spec c 123) as [->|]; [by apply (Hnest (object_items pow)); [..|apply (we_tail 123)|]|done].
  - cbn [array_items]. eapply safe_bind; [by apply skip_safe|]. intros w [Hw HLw].
    eapply safe_bind; [apply IHv; [done|lia]|]. intros [[child x]|] Hx; [|done]. destruct Hx as [Hx HLx].
    apply (after_child 93 x v (array_items pow fuel) [child] (cons child)); [split; [done|lia]|done|done|].
    intros y [Hy HLy]. apply IHa; [done|lia].
  - cbn [object_items]. eapply safe_bind; [by apply skip_safe|]. intros w [Hw HLw].
    destruct (parse_string_ok w Hw) as (r & -> & Hr). rewrite bind_ret_l. destruct r as [[name x]|]; [|done]. destruct Hr as [Hx HLx].
    eapply safe_bind; [by apply skip_safe|]. intros y [Hy HLy]. destruct (we_peek y Hy) as (c & z & -> & ->). rewrite bind_ret_l.
    destruct (Z.eqb_spec c 58) as [->|]; cbn [negb]; [|done]. change (adv 1 (58 :: z)) with z. cbn [length] in HLy.
    eapply safe_bind; [by apply skip_safe, (we_tail 58)|]. intros u [Hu HLu].
    eapply safe_bind; [apply IHv; [done|lia]|]. intros [[child t]|] Ht; [|done]. destruct Ht as [Ht HLt].
    apply (after_child 125 t v (object_items pow fuel) [set_name name child] (cons (set_name name child)));
      [split; [done|lia]|done|done|].
    intros s [Hs HLs]. apply IHo; [done|lia].
Qed.

End values.
End text.

Lemma parse_outcome strict pow v : (strict = true -> forall x, pow x (S754_zero false) = F64.of_Z 1) ->
  well_escaped v = true -> (strict = true -> small_numbers None v = true) ->
  outcome strict (fun _ => True) (cJSON_Parse pow v).
Proof.
  intros Hpow Hv Hs. unfold cJSON_Parse. assert (we strict v) as H by done.
  eapply safe_bind; [by apply skip_safe|]. intros w [Hw _].
  eapply safe_bind; [apply (parse_safe strict pow Hpow (2 * length w + 2)); [done|lia]|]. by intros [[c x]|] _.
Qed.

(** ** Every text *)


(** A text with every kind of value, a surrogate pair, and an error at its end. *)
Definition mixed_text : list Z := text "{'a':[1,-25,null],'b':'\n\u00a9\ud83d\ude00'," ++ [0].
Definition quoted (l : list Z) : list Z := map (fun c => if c =? 39 then 34 else c) l.

(** Plain characters do not fit into what is left of the buffer. *)
Lemma unescape_overflow s fuel cap out : plain s -> (length s < fuel)%nat -> Z.of_nat (length out) <= cap ->
  cap < Z.of_nat (length out + length s) -> unescape fuel cap out (s ++ [0]) = Fault OutOfBounds.
Proof.
  intros H. revert fuel out. induction H as [|c s (Hc & H1 & H2) H IH]; intros fuel out Hf Hout Hcap;
    (destruct fuel as [|fuel]; cbn [length] in *; [lia|]); [lia|]. cbn [unescape app peek]. rewrite bind_ret_l.
  destruct (Z.eqb_spec c 34), (Z.eqb_spec c 0), (Z.eqb_spec c 92); try lia. cbn [orb negb].
  unfold emit. destruct (Z.leb_spec (Z.of_nat (length out + length [c])) cap); [|done]. rewrite bind_ret_l.
  change (adv 1 (c :: ?v)) with v. apply IH; rewrite ?length_app; cbn [length] in *; lia.
Qed.

(** An escape [\u] whose digits are missing makes [parse_string] write
    behind the buffer it allocated: the first pass takes the quote after it for
    the end of the string, the second one skips the quote and copies on.  The
    number of bytes written is in the hands of whoever wrote the text. *)
Theorem parse_string_overflow (s : list Z) (Hs : plain s) (Hlen : (6 <= length s)%nat) :
  string_len (92 :: 117 :: 34 :: s ++ [0]) = Ok 1
  /\ parse_string (34 :: 92 :: 117 :: 34 :: s ++ [0]) = Fault OutOfBounds.
Proof.
  split; [done|]. unfold parse_string. cbn [peek]. rewrite bind_ret_l. cbn [negb Z.eqb Pos.eqb].
  change (adv 1 (34 :: ?v)) with v. change (string_len (92 :: 117 :: 34 :: s ++ [0])) with (Ok 1 : res Z). rewrite bind_ret_l.
  destruct s as [|a [|b [|c t]]]; cbn [length] in Hlen; try lia. unfold plain in Hs. rewrite !list.Forall_cons in Hs.
  destruct Hs as (_ & _ & _ & Ht). cbn [app].
  assert (unescape_u (117 :: 34 :: a :: b :: c :: t ++ [0]) = Ok ([], c :: t ++ [0])) as Eu by reflexivity.
  assert (forall fuel, (length t < fuel)%nat -> unescape (S fuel) (1 + 1) [] (92 :: 117 :: 34 :: a :: b :: c :: t ++ [0]) = Fault OutOfBounds) as E.
  { intros fuel Hf. cbn [unescape peek]. rewrite bind_ret_l. cbn [orb negb Z.eqb Pos.eqb]. change (adv 1 (92 :: ?v)) with v.
    cbn [peek]. rewrite bind_ret_l. cbn [Z.eqb Pos.eqb]. rewrite Eu, bind_ret_l.
    change (emit (1 + 1) [] []) with (Ok [] : res (list Z)). rewrite bind_ret_l. change (adv 1 (c :: ?v)) with v.
    apply unescape_overflow; [done|done|cbn; lia|cbn in *; lia]. }
  rewrite E; [done|]. cbn [length]. rewrite length_app. lia.
Qed.
Lemma parse_string_overflow_witness :
  parse_string ([34; 92; 117; 34] ++ text "abcdefgh" ++ [0]) = Fault OutOfBounds.
Proof.
  apply (parse_string_overflow (text "abcdefgh")); [apply plain_check; reflexivity|cbn; lia].
Defined.

(** A backslash before the terminating zero leads past it, and a number that is too large for an [int] is converted all the same. *)
Theorem parse_string_past_end : parse_string ([34; 97; 92] ++ [0]) = Fault OutOfBounds.
Proof. reflexivity. Qed.
Theorem parse_large_number : cJSON_Parse (fun _ _ => F64.of_Z 1) (text "3000000000" ++ [0]) = Fault FloatConv.
Proof. vm_compute. reflexivity. Qed.
