(* ===== verification/CJsonBuffered.v ===== *)
(** * JSON printing into a growing buffer (Task/Struct2Json/cJSON.c)

    The branches of the printing functions that are taken with a
    [printbuffer]: the text is composed in one block, which [ensure] replaces
    by a larger one when it is full.  Blocks come from [cJSON_malloc], an
    argument: the answer to the [k]-th call for [n] bytes is a block with
    arbitrary contents or none.  A pointer into the block is its index.  The
    text is the one of the unbuffered printer, whatever the blocks contained
    before; when a block cannot be had the result is null and nothing is
    left allocated. *)
From Stdlib Require Import ZifyBool.
From S2P Require Import Prelude Floats CJson CJsonRoundtrip.

(** ** The buffer *)

Definition pow2gt (x : Z) : res Z :=
  x ← int_res (x - 1);
  let x := Z.lor x (Z.shiftr x 1) in
  let x := Z.lor x (Z.shiftr x 2) in
  let x := Z.lor x (Z.shiftr x 4) in
  let x := Z.lor x (Z.shiftr x 8) in
  let x := Z.lor x (Z.shiftr x 16) in
  int_res (x + 1).

(** [p_calls] counts the calls of [cJSON_malloc], [p_live] the blocks that
    are allocated and not freed. *)
Record printbuffer : Type := mkPrintbuffer {
  p_buffer : option (list Z); p_length : Z; p_offset : Z; p_calls : nat; p_live : Z }.

Definition set_offset (n : Z) (p : printbuffer) : printbuffer :=
  mkPrintbuffer (p_buffer p) (p_length p) n (p_calls p) (p_live p).
Definition advance (n : Z) (p : printbuffer) : printbuffer := set_offset (p_offset p + n) p.

(** Bytes stored one after the other from a pointer into the block on. *)
Definition put (i : Z) (bs : list Z) (p : printbuffer) : res printbuffer :=
  match p_buffer p with
  | None => Fault NullDeref
  | Some b =>
      if (0 <=? i) && (i + Z.of_nat (length bs) <=? Z.of_nat (length b))
      then Ok (mkPrintbuffer (Some (take (Z.to_nat i) b ++ bs ++ drop (Z.to_nat i + length bs) b))
                 (p_length p) (p_offset p) (p_calls p) (p_live p))
      else Fault OutOfBounds
  end.

Fixpoint strlen (s : list Z) : res Z :=
  match s with
  | [] => Fault OutOfBounds
  | c :: s' => if c =? 0 then Ok 0 else n ← strlen s'; Ok (n + 1)
  end.

Definition update (p : printbuffer) : res Z :=
  match p_buffer p with
  | None => Ok 0
  | Some b =>
      if (0 <=? p_offset p) && (p_offset p <=? Z.of_nat (length b))
      then n ← strlen (drop (Z.to_nat (p_offset p)) b); Ok (s32 (u32 (p_offset p + n)))
      else Fault OutOfBounds
  end.

Section buffered.
Context (cJSON_malloc : nat -> Z -> option (list Z)).

Definition ensure (needed : Z) (p : printbuffer) : res (option Z * printbuffer) :=
  match p_buffer p with
  | None => Ok (None, p)
  | Some b =>
      needed ← int_res (needed + p_offset p);
      if needed <=? p_length p then Ok (Some (p_offset p), p)
      else
        newsize ← pow2gt needed;
        match cJSON_malloc (p_calls p) (u32 newsize) with
        | None => Ok (None, mkPrintbuffer None 0 (p_offset p) (S (p_calls p)) (p_live p - 1))
        | Some newbuffer =>
            if (0 <=? p_length p) && (p_length p <=? Z.of_nat (length b))
               && (p_length p <=? Z.of_nat (length newbuffer))
            then
              let n := Z.to_nat (p_length p) in
              Ok (Some (p_offset p),
                  mkPrintbuffer (Some (take n b ++ drop n newbuffer)) newsize (p_offset p)
                    (S (p_calls p)) (p_live p))
            else Fault OutOfBounds
        end
  end.

(** [ptr=ensure(p,needed)], and the bytes stored there when it is not null. *)
Definition ensure_put (needed : Z) (bs : list Z) (p : printbuffer) : res (option Z * printbuffer) :=
  '(o, p) ← ensure needed p;
  match o with
  | None => Ok (None, p)
  | Some i => p ← put i bs p; Ok (Some i, p)
  end.

(** ** Values *)
Context (fmt_0f fmt_e fmt_f : spec_float -> list Z).

(** The room asked for on each branch of [print_number]. *)
Definition number_room (valueint : Z) (d : spec_float) : Z :=
  if SFeqb d (S754_zero false) then 2
  else if SFleb (SFabs (F64.sub (F64.of_Z valueint) d)) DBL_EPSILON
          && SFleb d (F64.of_Z 2147483647) && SFleb (F64.of_Z (-2147483648)) d
  then 21 else 64.
Definition print_number_p (valueint : Z) (d : spec_float) (p : printbuffer) :=
  ensure_put (number_room valueint d) (print_number fmt_0f fmt_e fmt_f valueint d ++ [0]) p.

Definition print_string_ptr_p (fuel : nat) (str : option (list Z)) (p : printbuffer)
    : res (option Z * printbuffer) :=
  match str with
  | None => Fault NullDeref
  | Some s =>
      if negb (existsb needs_escape s)
      then ensure_put (Z.of_nat (length s) + 3) (34 :: s ++ [34; 0]) p
      else
        token ← peek (s ++ [0]);
        len ← escaped_len fuel token (s ++ [0]) 0;
        ensure_put (len + 3) (34 :: concat (map escape s) ++ [34; 0]) p
  end.

(** The loop over the elements; [false]: the function returned null. *)
Definition array_loop_p (fmt : bool)
    (print_child : cJSON -> printbuffer -> res (option Z * printbuffer)) :=
  fix go (children : list cJSON) (p : printbuffer) : res (bool * printbuffer) :=
    match children with
    | [] => Ok (true, p)
    | child :: next =>
        '(_, p) ← print_child child p;
        n ← update p;
        let p := set_offset n p in
        match next with
        | [] => go next p
        | _ =>
            let len := if fmt then 2 else 1 in
            '(ptr, p) ← ensure_put (len + 1) ((if fmt then [44; 32] else [44]) ++ [0]) p;
            match ptr with
            | None => Ok (false, p)
            | Some _ => go next (advance len p)
            end
        end
    end.

Definition print_array_p (children : list cJSON) (fmt : bool)
    (print_child : cJSON -> printbuffer -> res (option Z * printbuffer)) (p : printbuffer)
    : res (option Z * printbuffer) :=
  match children with
  | [] => ensure_put 3 [91; 93; 0] p
  | _ =>
      let i := p_offset p in
      '(ptr, p) ← ensure_put 1 [91] p;
      match ptr with
      | None => Ok (None, p)
      | Some _ =>
          '(ok, p) ← array_loop_p fmt print_child children (advance 1 p);
          if negb ok then Ok (None, p)
          else
            '(ptr, p) ← ensure_put 2 [93; 0] p;
            match ptr with None => Ok (None, p) | Some _ => Ok (Some i, p) end
      end
  end.

(** The loop over the members; [depth] is already that of the members. *)
Definition object_loop_p (fuel : nat) (depth : Z) (fmt : bool)
    (print_child : cJSON -> printbuffer -> res (option Z * printbuffer)) :=
  fix go (children : list cJSON) (p : printbuffer) : res (bool * printbuffer) :=
    match children with
    | [] => Ok (true, p)
    | child :: next =>
        '(indented, p) ←
          (if fmt then
             '(ptr, p) ← ensure_put depth (tabs depth) p;
             match ptr with None => Ok (false, p) | Some _ => Ok (true, advance depth p) end
           else Ok (true, p));
        if negb indented then Ok (false, p)
        else
          '(_, p) ← print_string_ptr_p fuel (j_string child) p;
          n ← update p;
          let p := set_offset n p in
          let len := if fmt then 2 else 1 in
          '(ptr, p) ← ensure_put len ([58] ++ (if fmt then [9] else [])) p;
          match ptr with
          | None => Ok (false, p)
          | Some _ =>
              let p := advance len p in
              '(_, p) ← print_child child p;
              n ← update p;
              let p := set_offset n p in
              let len := (if fmt then 1 else 0) + (match next with [] => 0 | _ => 1 end) in
              '(ptr, p) ← ensure_put (len + 1)
                            ((match next with [] => [] | _ => [44] end)
                             ++ (if fmt then [10] else []) ++ [0]) p;
              match ptr with
              | None => Ok (false, p)
              | Some _ => go next (advance len p)
              end
          end
    end.

(** The closing loop of a formatted object counts in [i], which held the
    place where the object begins. *)
Definition print_object_p (fuel : nat) (children : list cJSON) (depth : Z) (fmt : bool)
    (print_child : cJSON -> printbuffer -> res (option Z * printbuffer)) (p : printbuffer)
    : res (option Z * printbuffer) :=
  match children with
  | [] =>
      ensure_put (if fmt then depth + 4 else 3)
        ([123] ++ (if fmt then 10 :: tabs (depth - 1) else []) ++ [125; 0]) p
  | _ =>
      let i := p_offset p in
      let len := if fmt then 2 else 1 in
      '(ptr, p) ← ensure_put (len + 1) ([123] ++ (if fmt then [10] else []) ++ [0]) p;
      match ptr with
      | None => Ok (None, p)
      | Some _ =>
          let depth := depth + 1 in
          '(ok, p) ← object_loop_p fuel depth fmt print_child children (advance len p);
          if negb ok then Ok (None, p)
          else
            '(ptr, p) ← ensure_put (if fmt then depth + 1 else 2)
                          ((if fmt then tabs (depth - 1) else []) ++ [125; 0]) p;
            match ptr with
            | None => Ok (None, p)
            | Some _ => Ok (Some (if fmt then Z.max 0 (depth - 1) else i), p)
            end
      end
  end.

Fixpoint print_value_p (fuel : nat) (c : cJSON) (depth : Z) (fmt : bool) (p : printbuffer)
    {struct c} : res (option Z * printbuffer) :=
  match c with
  | mkItem t vs vi vd _ children =>
      match t with
      | cJSON_NULL => ensure_put 5 (text "null" ++ [0]) p
      | cJSON_False => ensure_put 6 (text "false" ++ [0]) p
      | cJSON_True => ensure_put 5 (text "true" ++ [0]) p
      | cJSON_Number => print_number_p vi vd p
      | cJSON_String => print_string_ptr_p fuel vs p
      | cJSON_Array =>
          print_array_p children fmt (fun child p => print_value_p fuel child (depth + 1) fmt p) p
      | cJSON_Object =>
          print_object_p fuel children depth fmt
            (fun child p => print_value_p fuel child (depth + 1) fmt p) p
      end
  end.

Definition cJSON_PrintBuffered (fuel : nat) (c : cJSON) (prebuffer : Z) (fmt : bool)
    : res (option Z * printbuffer) :=
  let b := cJSON_malloc 0 (u32 prebuffer) in
  print_value_p fuel c 0 fmt
    (mkPrintbuffer b prebuffer 0 1 (match b with None => 0 | Some _ => 1 end)).
End buffered.

(** ** The smallest power of two above *)

(** One step of the smearing: a bit is set when it or one of the [k] above
    it was set. *)
Definition smeared (k : Z) (x y : Z) : Prop :=
  forall i, 0 <= i -> Z.testbit y i = true <-> exists j, 0 <= j < k /\ Z.testbit x (i + j) = true.

Lemma smear_step k x y : 0 < k -> smeared k x y -> smeared (2 * k) x (Z.lor y (Z.shiftr y k)).
Proof.
  intros Hk H i Hi. rewrite Z.lor_spec, Z.shiftr_spec, orb_true_iff, (H i), (H (i + k)) by lia. split.
  - intros [(j & Hj & Hb)|(j & Hj & Hb)]; [exists j|exists (k + j)]; (split; [lia|]); [done|].
    by replace (i + (k + j)) with (i + k + j) by lia.
  - intros (j & Hj & Hb). destruct (decide (j < k)); [left; exists j; split; [lia|done]|].
    right. exists (j - k). split; [lia|]. by replace (i + k + (j - k)) with (i + j) by lia.
Qed.

Lemma smeared_ones x y : 0 < x < 2 ^ 32 -> smeared 32 x y -> y = Z.ones (Z.log2 x + 1).
Proof.
  intros Hx H. pose proof (Z.log2_nonneg x). assert (Z.log2 x < 32) by (apply Z.log2_lt_pow2; lia).
  apply Z.bits_inj'. intros i Hi. rewrite Z.testbit_ones_nonneg by lia.
  destruct (Z.ltb_spec i (Z.log2 x + 1)) as [Hlt|Hge].
  - apply H; [done|]. exists (Z.log2 x - i). split; [lia|].
    replace (i + (Z.log2 x - i)) with (Z.log2 x) by lia. apply Z.bit_log2. lia.
  - apply not_true_iff_false. intros (j & Hj & Hb)%H; [|done].
    rewrite Z.bits_above_log2 in Hb; [done|lia|lia].
Qed.

Lemma pow2gt_correct x : 1 <= x <= 2 ^ 30 -> pow2gt x = Ok (2 ^ Z.log2_up x).
Proof.
  intros Hx. assert (0 <= Z.log2_up x <= 30) by (split; [apply Z.log2_up_nonneg|apply Z.log2_up_le_pow2; lia]).
  assert (2 ^ Z.log2_up x <= 2 ^ 30) by (apply Z.pow_le_mono_r; lia).
  pose proof (Z.pow_nonneg 2 (Z.log2_up x)).
  unfold pow2gt. rewrite int_res_ok by lia. cbn [mbind res_bind].
  assert (Hv : forall y, y + 1 = 2 ^ Z.log2_up x -> int_res (y + 1) = Ok (2 ^ Z.log2_up x)).
  { intros y ->. apply int_res_ok. lia. }
  apply Hv. destruct (decide (x = 1)) as [->|]; [done|].
  assert (Hs : smeared 1 (x - 1) (x - 1)).
  { intros i Hi. split; [intros Hb; exists 0; split; [lia|by rewrite Z.add_0_r]|].
    intros (j & Hj & Hb). by replace (i + j) with i in Hb by lia. }
  apply (smear_step 1), (smear_step 2), (smear_step 4), (smear_step 8), (smear_step 16) in Hs; [|lia..].
  assert (Hx1 : 0 < x - 1 < 2 ^ 32) by lia.
  rewrite (smeared_ones _ _ Hx1 Hs), Z.ones_equiv.
  rewrite Z.log2_up_eqn by lia. rewrite <- Z.sub_1_r, <- Z.add_1_r.
  rewrite <- (Z.sub_1_r x). lia.
Qed.

(** ** Items whose strings are C strings *)

Definition c_string (s : list Z) : bool := forallb (fun c => (0 <? c) && (c <? 256)) s.
Definition c_string_opt (s : option (list Z)) : bool := match s with None => true | Some s => c_string s end.
Fixpoint c_strings (c : cJSON) : bool :=
  let 'mkItem _ vs _ _ s l := c in c_string_opt vs && c_string_opt s && forallb c_strings l.

Definition cJSON_ind' (P : cJSON -> Prop)
    (H : forall t vs vi vd s l, Forall P l -> P (mkItem t vs vi vd s l)) : forall c, P c :=
  fix go c := match c with
  | mkItem t vs vi vd s l =>
      H t vs vi vd s l ((fix gos l : Forall P l :=
        match l with [] => Forall_nil_2 P | c :: l' => Forall_cons_2 P c l' (go c) (gos l') end) l)
  end.

Definition nz (s : list Z) : Prop := Forall (fun c => c <> 0) s.

Create HintDb nz.
Lemma nz_nil : nz []. Proof. constructor. Qed.
Lemma nz_cons c s : c <> 0 -> nz s -> nz (c :: s). Proof. by constructor. Qed.
Lemma nz_app s s' : nz s -> nz s' -> nz (s ++ s'). Proof. intros. by apply Forall_app. Qed.
Lemma nz_if (b : bool) s s' : nz s -> nz s' -> nz (if b then s else s'). Proof. by destruct b. Qed.
Lemma nz_tabs n : nz (tabs n). Proof. by apply Forall_replicate. Qed.
#[export] Hint Resolve nz_nil nz_cons nz_app nz_if nz_tabs : nz.
#[export] Hint Extern 1 (_ <> 0) => discriminate : nz.

Lemma c_string_nz s : c_string s = true -> nz s.
Proof.
  induction s as [|c s IH]; [constructor|]. cbn. intros [Hc Hs]%andb_true_iff.
  constructor; [lia|by apply IH].
Qed.

Lemma escape_nz c : 0 < c < 256 -> nz (escape c).
Proof.
  intros Hc. unfold escape, hex_char, nz. assert (0 <= c / 16 /\ 0 <= c mod 16) by lia.
  repeat (destruct (_ : bool); cbn [andb negb]); repeat constructor; lia.
Qed.

Lemma escapes_nz s : c_string s = true -> nz (concat (map escape s)).
Proof.
  induction s as [|c s IH]; [constructor|]. cbn. intros [Hc Hs]%andb_true_iff.
  apply Forall_app. split; [apply escape_nz; lia|by apply IH].
Qed.

(** The length loop, when it ends, has counted the escaped text and two more. *)
Lemma escaped_len_ok fuel s token len n : c_string s = true -> token <> 0 -> 0 <= len ->
  escaped_len fuel token (s ++ [0]) len = Ok n ->
  n = len + Z.of_nat (length (concat (map escape s))) + 2.
Proof.
  revert s token len. induction fuel as [|fuel IH]; [done|]. intros s token len Hs Ht Hl.
  cbn [escaped_len]. rewrite (proj2 (Z.eqb_neq _ _) Ht).
  destruct (int_res (len + 1)) as [len1|] eqn:El; [|done]. apply int_res_inv in El as [-> ?].
  rewrite bind_ret_l, (proj2 (Z.eqb_neq (len + 1) 0)) by lia.
  destruct s as [|c s]; cbn [app peek mbind res_bind].
  - change (in_specials 0) with true. cbn match.
    destruct (int_res (len + 1 + 1)) as [len2|] eqn:El2; [|done]. apply int_res_inv in El2 as [-> ?]. rewrite bind_ret_l.
    destruct fuel; [done|]. cbn. intros [= <-]. lia.
  - cbn in Hs. apply andb_true_iff in Hs as [Hc Hs]. assert (Hr : 0 < c < 256) by lia.
    pose proof (IH (c :: s) c) as IHs. cbn [app c_string forallb] in IHs. rewrite Hc in IHs.
    assert (Hstuck : forall f k m, (in_specials c || (32 <=? c)) = true -> 0 <= k <= 2147483647 ->
              escaped_len f c ((c :: s) ++ [0]) k = Ok m -> False).
    { intros f k m Hsp Hk. destruct (escaped_len_stuck f c (s ++ [0]) k) as (e & E & _); [lia| |done|].
      - destruct (in_specials c); [by right|left]. cbn in Hsp. lia.
      - cbn [app]. by rewrite E. }
    destruct (in_specials c) eqn:Ei.
    { destruct (int_res (len + 1 + 1)) as [len2|] eqn:El2; [|done]. apply int_res_inv in El2 as [-> ?]. rewrite bind_ret_l.
      intros Hx. exfalso. eapply Hstuck; [done| |exact Hx]. lia. }
    destruct (Z.ltb_spec c 32) as [Hlt|Hge].
    2: { intros Hx. exfalso. eapply Hstuck; [| |exact Hx]; [rewrite orb_true_iff; right; lia|lia]. }
    destruct (int_res (len + 1 + 5)) as [len2|] eqn:El2; [|done]. apply int_res_inv in El2 as [-> ?]. rewrite bind_ret_l.
    intros Hn%IH; [|done|lia|lia]. rewrite Hn. cbn [map concat]. rewrite length_app.
    assert (length (escape c) = 6%nat) as ->; [|lia].
    unfold escape.
    rewrite (proj2 (Z.ltb_ge 31 c)) by lia. cbn.
    repeat match goal with |- context [c =? ?k] =>
      destruct (Z.eqb_spec c k) as [->|]; [vm_compute in Ei; discriminate|] end. done.
Qed.

Lemma dec_digits_nz fuel n acc : nz acc -> nz (dec_digits fuel n acc).
Proof.
  revert n acc. induction fuel as [|fuel IH]; intros n acc H; [done|]. cbn.
  assert (nz (n mod 10 + 48 :: acc)) by (constructor; [lia|done]).
  destruct (_ =? 0); [done|by apply IH].
Qed.

Lemma sprintf_d_nz z : nz (sprintf_d z).
Proof.
  unfold sprintf_d. destruct (z <? 0); [constructor; [done|]|]; apply dec_digits_nz; constructor.
Qed.

Lemma array_text_nz ts fmt t : print_array ts fmt = Ok t -> Forall nz ts -> nz t.
Proof.
  intros Ht H. assert (Hb : nz (array_body ts fmt)).
  { clear Ht. induction H as [|e ts He H IH]; [auto with nz|]. cbn. destruct ts; auto 6 with nz. }
  unfold print_array in Ht. destruct ts; [|destruct (_ <=? _); [|done]]; injection Ht as <-; auto with nz.
Qed.

Lemma object_text_nz es depth fmt t : print_object es depth fmt = Ok t ->
  Forall (fun e => nz (fst e) /\ nz (snd e)) es -> nz t.
Proof.
  intros Ht H. assert (Hb : nz (object_lines es (depth + 1) fmt)).
  { clear Ht. induction H as [|[n e] es [Hn He] H IH]; [auto with nz|]. cbn in *. destruct es; auto 12 with nz. }
  unfold print_object in Ht. destruct es, (_ <=? _); try done; injection Ht as <-; auto 12 with nz.
Qed.

(** ** What the buffer holds *)
Section correctness.
Context (cJSON_malloc : nat -> Z -> option (list Z)).
Context (Hmalloc : forall k n b, cJSON_malloc k n = Some b -> Z.of_nat (length b) = n).

(** The text so far is [pre], up to the offset, and [bs] is stored behind it. *)
Definition holds (pre bs : list Z) (p : printbuffer) : Prop :=
  p_live p = 1 /\ p_offset p = Z.of_nat (length pre) /\
  exists tl, p_buffer p = Some (pre ++ bs ++ tl) /\ p_length p = Z.of_nat (length (pre ++ bs ++ tl)).

(** A block could not be had. *)
Definition dead (p : printbuffer) : Prop :=
  p_buffer p = None /\ p_live p = 0 /\ exists k n, (k < p_calls p)%nat /\ cJSON_malloc k n = None.

Definition at_text (pre : list Z) (p : printbuffer) : Prop := holds pre [] p \/ dead p.

(** [bs] has been written, or a block could not be had; a value at the very
    beginning is returned as the start of the block. *)
Definition outcome (pre bs : list Z) (depth : Z) (o : option Z) (p : printbuffer) : Prop :=
  o = None /\ dead p
  \/ (exists i, o = Some i /\ (pre = [] -> depth = 0 -> i = 0)) /\ holds pre bs p.

(** The text [t] has been printed, the offset being somewhere in it. *)
Definition printed (pre t : list Z) (depth : Z) (o : option Z) (p : printbuffer) : Prop :=
  o = None /\ dead p
  \/ (exists i, o = Some i /\ (pre = [] -> depth = 0 -> i = 0))
     /\ exists a b, t = a ++ b /\ holds (pre ++ a) (b ++ [0]) p.

Definition LIMIT : Z := 2 ^ 30.

Lemma holds_weaken pre bs bs' p : holds pre (bs ++ bs') p -> holds pre bs p.
Proof. intros (Hl & Ho & tl & Hb & Hn). rewrite <- !app_assoc in *. repeat split; eauto. Qed.

Lemma at_holds pre bs p : holds pre bs p -> at_text pre p.
Proof. intros H. left. by apply (holds_weaken pre [] bs). Qed.

Lemma at_advance pre a b p n : holds pre (a ++ b) p -> n = Z.of_nat (length a) ->
  at_text (pre ++ a) (advance n p).
Proof.
  intros (Hl & Ho & tl & Hb & Hn) ->. left. repeat split; cbn; [done|rewrite length_app; lia|].
  exists (b ++ tl). rewrite <- !app_assoc in *. done.
Qed.

Lemma ensure_ok pre n p : at_text pre p -> 1 <= n -> Z.of_nat (length pre) + n <= LIMIT ->
  exists o p', ensure cJSON_malloc n p = Ok (o, p') /\
  (o = None /\ dead p' \/
   o = Some (Z.of_nat (length pre)) /\ holds pre [] p' /\ Z.of_nat (length pre) + n <= p_length p').
Proof.
  unfold LIMIT. intros [H|Hd] Hn Hb; unfold ensure.
  2:{ pose proof Hd as (-> & _). eexists _, _. split; [done|]. by left. }
  pose proof H as (Hl & Ho & tl & Hbuf & Hlen). cbn [app] in *. rewrite Hbuf.
  rewrite Ho, int_res_ok by lia. cbn [mbind res_bind].
  destruct (Z.leb_spec (n + Z.of_nat (length pre)) (p_length p)) as [Hle|Hgt].
  { eexists _, _. split; [done|]. right. split; [done|]. split; [done|lia]. }
  rewrite pow2gt_correct by lia. cbn [mbind res_bind].
  set (needed := n + Z.of_nat (length pre)) in *.
  assert (Hup : needed <= 2 ^ Z.log2_up needed) by (apply Z.log2_up_le_pow2; lia).
  assert (Hub : 2 ^ Z.log2_up needed <= 2 ^ 30)
    by (apply Z.pow_le_mono_r; [lia|]; apply Z.log2_up_le_pow2; lia).
  rewrite u32_id by (unfold is_u32; lia).
  destruct (cJSON_malloc (p_calls p) _) as [nb|] eqn:Em.
  - pose proof (Hmalloc _ _ _ Em) as Hnb.
    replace (_ && _ && _) with true by lia.
    eexists _, _. split; [done|]. right. split; [done|]. cbn [p_length].
    split; [|lia]. split; [done|]. split; [done|]. cbn [app p_buffer p_length].
    exists (tl ++ drop (Z.to_nat (p_length p)) nb).
    rewrite Hlen, Nat2Z.id, take_ge by lia. rewrite <- app_assoc. split; [done|].
    rewrite !length_app in *. rewrite length_drop. lia.
  - eexists _, _. split; [done|]. left. split; [done|]. split; [done|]. cbn. split; [lia|].
    exists (p_calls p), (2 ^ Z.log2_up needed). split; [lia|done].
Qed.

Lemma ensure_put_ok pre n bs p depth : at_text pre p -> 1 <= n -> Z.of_nat (length bs) <= n ->
  Z.of_nat (length pre) + n <= LIMIT ->
  exists o p', ensure_put cJSON_malloc n bs p = Ok (o, p') /\ outcome pre bs depth o p'.
Proof.
  intros Hp Hn Hbs Hb. destruct (ensure_ok pre n p Hp Hn Hb) as (o & p' & He & Ho).
  unfold ensure_put. rewrite He. cbn [mbind res_bind].
  destruct Ho as [(-> & Hd)|(-> & (Hl & Ho & tl & Hbuf & Hlen) & Hroom)].
  { eexists _, _. split; [done|by left]. }
  cbn [app] in *. unfold put. rewrite Hbuf.
  replace (_ && _) with true by lia. cbn [mbind res_bind].
  eexists _, _. split; [done|]. right. split.
  { eexists. split; [done|]. by intros ->. }
  split; [done|]. split; [done|]. cbn. exists (drop (length bs) tl).
  rewrite Nat2Z.id, take_app_length, <- drop_drop, drop_app_length. split; [done|].
  rewrite !length_app in *. rewrite length_drop. lia.
Qed.

Lemma ensure_put_dead n bs p : dead p -> ensure_put cJSON_malloc n bs p = Ok (None, p).
Proof. intros (Hb & _). unfold ensure_put, ensure. by rewrite Hb. Qed.

Lemma strlen_ok t tl : nz t -> strlen (t ++ 0 :: tl) = Ok (Z.of_nat (length t)).
Proof.
  induction 1 as [|c t Hc Ht IH]; [done|]. cbn [app strlen length].
  rewrite (proj2 (Z.eqb_neq _ _) Hc), IH. cbn. f_equal. lia.
Qed.

(** After a value the offset is moved behind it. *)
Lemma update_ok pre t depth o p : printed pre t depth o p -> nz t ->
  Z.of_nat (length pre) + Z.of_nat (length t) <= LIMIT ->
  exists n, update p = Ok n /\ at_text (pre ++ t) (set_offset n p).
Proof.
  unfold LIMIT. intros [(_ & Hd)|(_ & a & b & -> & Hl & Ho & tl & Hbuf & Hlen)] Ht Hb; unfold update.
  { pose proof Hd as (-> & _). eexists. split; [done|]. by right. }
  apply Forall_app in Ht as [_ Ht]. rewrite length_app in Hb.
  rewrite Hbuf. rewrite <- (app_assoc b) in *. cbn [app] in *.
  assert (Z.of_nat (length (pre ++ a)) <= Z.of_nat (length ((pre ++ a) ++ b ++ 0 :: tl)))
    by (rewrite (length_app (pre ++ a)); lia).
  replace (_ && _) with true by lia.
  rewrite Ho, Nat2Z.id, drop_app_length, (strlen_ok _ _ Ht). cbn [mbind res_bind].
  eexists. split; [done|]. left. split; [done|]. cbn. split.
  { rewrite !length_app. unfold s32, u32. lia. }
  exists (0 :: tl). rewrite <- !app_assoc in *. done.
Qed.

(** ** The printing functions *)
Context (fmt_0f fmt_e fmt_f : spec_float -> list Z).
Context (Hfmt_0f : forall d, SFltb (SFabs d) (F64.of_Z (10 ^ 60)) = true ->
           nz (fmt_0f d) /\ (length (fmt_0f d) <= 63)%nat).
Context (Hfmt_e : forall d, nz (fmt_e d) /\ (length (fmt_e d) <= 63)%nat).
Context (Hfmt_f : forall d, SFltb (F64.of_Z 1000000000) (SFabs d) = false -> is_normal d = true ->
           nz (fmt_f d) /\ (length (fmt_f d) <= 63)%nat).

(** [run] writes the text [t], which may begin anywhere in the buffer. *)
Definition prints (depth : Z) (run : printbuffer -> res (option Z * printbuffer)) (t : list Z) : Prop :=
  nz t /\ forall pre p, at_text pre p -> Z.of_nat (length pre) + Z.of_nat (length t) + 64 <= LIMIT ->
  exists o p', run p = Ok (o, p') /\ printed pre t depth o p'.

Lemma prints_ext depth run run' t : (forall p, run p = run' p) -> prints depth run' t -> prints depth run t.
Proof. intros He [Ht H]. split; [done|]. intros pre p. rewrite He. apply H. Qed.

Lemma ensure_put_prints depth n bs t : nz t -> bs = t ++ [0] ->
  Z.of_nat (length t) + 1 <= n <= Z.of_nat (length t) + 64 ->
  prints depth (ensure_put cJSON_malloc n bs) t.
Proof.
  intros Ht -> Hn. split; [done|]. intros pre p Hp Hb.
  destruct (ensure_put_ok pre n (t ++ [0]) p depth Hp) as (o & p' & He & Ho);
    [lia|rewrite length_app; cbn; lia|lia|].
  eexists _, _. split; [exact He|]. destruct Ho as [Ho|(Ho & Hh)]; [by left|]. right. split; [done|].
  exists [], t. by rewrite app_nil_r.
Qed.

Lemma number_text vi d :
  let t := print_number fmt_0f fmt_e fmt_f vi d in
  nz t /\ Z.of_nat (length t) + 1 <= number_room vi d <= Z.of_nat (length t) + 64.
Proof.
  intros t. unfold t, print_number, number_room. pose proof (sprintf_d_length vi).
  repeat (destruct (_ && _ && _) || destruct (SFeqb _ _));
    try (split; [by repeat constructor|]; cbn; lia);
    try (split; [apply sprintf_d_nz|]; lia).
  destruct (is_normal d) eqn:En; cbn [negb]; [|split; [by repeat constructor|]; cbn; lia].
  destruct (_ && SFltb (SFabs d) _) eqn:E1.
  { apply andb_true_iff in E1 as [_ E1]. destruct (Hfmt_0f d E1). split; [done|lia]. }
  destruct (_ || _) eqn:E2; [destruct (Hfmt_e d); split; [done|lia]|].
  apply orb_false_iff in E2 as [_ E2]. destruct (Hfmt_f d E2 En). split; [done|lia].
Qed.

Lemma string_prints fuel str t depth : c_string_opt str = true -> print_string_ptr fuel str = Ok t ->
  prints depth (print_string_ptr_p cJSON_malloc fuel str) t.
Proof.
  destruct str as [s|]; [|done]. cbn [c_string_opt]. intros Hs. unfold print_string_ptr, print_string_ptr_p.
  destruct (existsb needs_escape s) eqn:Ex; cbn [negb].
  - destruct s as [|c s']; [done|]. set (s := c :: s') in *. cbn [app peek s]. fold s.
    change (c :: s' ++ [0]) with (s ++ [0]). rewrite !bind_ret_l. intros H. bind_inv H.
    assert (Hc : c <> 0) by (cbn in Hs; lia).
    pose proof (escaped_len_ok _ _ _ _ _ Hs Hc (Z.le_refl 0) Ha) as ->.
    destruct (_ <=? _); [|done]. injection H as <-. pose proof (escapes_nz s Hs).
    eapply prints_ext; [intros p; cbn beta; by rewrite bind_ret_l, Ha|].
    change (escape c ++ concat (map escape s')) with (concat (map escape s)). clearbody s. apply ensure_put_prints.
    + auto with nz.
    + cbn. by rewrite <- app_assoc.
    + cbn. rewrite length_app. cbn. lia.
  - intros [= <-]. apply ensure_put_prints.
    + pose proof (c_string_nz s Hs). auto with nz.
    + cbn. by rewrite <- app_assoc.
    + cbn. rewrite length_app. cbn. lia.
Qed.

(** Runs one [ensure_put] of the goal and splits on its outcome. *)
Ltac step_put pre Hp :=
  match goal with |- context [ensure_put cJSON_malloc ?n ?bs ?p] =>
    let o := fresh "o" in let q := fresh "q" in let He := fresh "He" in let Ho := fresh "Ho" in
    destruct (ensure_put_ok pre n bs p 0 Hp) as (o & q & He & Ho);
    [try (rewrite ?length_app; first [lia|cbn; lia])..|rewrite He; cbn [mbind res_bind]] end.
(** Runs one value of the goal and moves the offset behind it. *)
Ltac step_print H pre Hp :=
  let Ht := fresh "Ht" in let Hr := fresh "Hr" in destruct H as [Ht Hr];
  match type of Hp with at_text _ ?p =>
    let o := fresh "o" in let q := fresh "q" in let He := fresh "He" in let Ho := fresh "Ho" in
    let n := fresh "n" in let Hu := fresh "Hu" in let Hq := fresh "Hq" in
    destruct (Hr pre p Hp) as (o & q & He & Ho); [rewrite ?length_app; lia|];
    rewrite He; cbn [mbind res_bind];
    destruct (update_ok _ _ _ _ _ Ho Ht) as (n & Hu & Hq); [rewrite ?length_app; lia|];
    rewrite Hu; cbn [mbind res_bind] end.

Definition loop_outcome (pre t : list Z) (ok : bool) (p : printbuffer) : Prop :=
  (ok = false -> dead p) /\ at_text (pre ++ t) p.

Lemma loop_dead pre t p : dead p -> loop_outcome pre t false p.
Proof. intros H. split; [done|by right]. Qed.

Lemma array_loop_ok depth fmt pc children ts :
  Forall2 (fun c t => prints depth (pc c) t) children ts -> forall pre p, at_text pre p ->
  Z.of_nat (length pre) + Z.of_nat (length (array_body ts fmt)) + 64 <= LIMIT ->
  exists ok p', array_loop_p cJSON_malloc fmt pc children p = Ok (ok, p')
  /\ loop_outcome pre (array_body ts fmt) ok p'.
Proof.
  induction 1 as [|c t children ts Hc Hcs IH]; intros pre p Hp Hb.
  { eexists _, _. split; [done|]. split; [done|]. by rewrite app_nil_r. }
  cbn [array_body] in *. rewrite length_app in Hb.
  cbn [array_loop_p].
  step_print Hc pre Hp. destruct Hcs as [|c' t' children ts].
  { destruct (IH _ _ Hq) as (ok & p' & Hl & Hok & Hat); [rewrite length_app; cbn in *; lia|].
    eexists _, _. split; [exact Hl|]. split; [done|]. by rewrite !app_nil_r in *. }
  rewrite length_app in Hb.
  assert (length (if fmt then [44; 32] else [44]) = if fmt then 2%nat else 1%nat) as Hs by by destruct fmt.
  rewrite Hs in Hb.
  step_put (pre ++ t) Hq; [by destruct fmt|by destruct fmt|rewrite length_app; destruct fmt; lia|].
  destruct Ho0 as [(-> & Hd)|((i & -> & _) & Hh)].
  { eexists _, _. split; [done|]. by apply loop_dead. }
  eapply (at_advance _ _ _ _ (if fmt then 2 else 1)) in Hh; [|rewrite Hs; by destruct fmt].
  destruct (IH _ _ Hh) as (ok & p' & Hl & Hok & Hat); [rewrite !length_app, Hs; destruct fmt; lia|].
  eexists _, _. split; [exact Hl|]. split; [done|]. by rewrite <- !app_assoc in *.
Qed.

Lemma prints_nz {A} depth (run : A -> printbuffer -> res (option Z * printbuffer)) l ts :
  Forall2 (fun x t => prints depth (run x) t) l ts -> Forall nz ts.
Proof. induction 1 as [|x t l ts [Ht _] H IH]; by constructor. Qed.

Lemma array_prints depth d fmt pc children ts t :
  Forall2 (fun c t => prints d (pc c) t) children ts -> print_array ts fmt = Ok t ->
  prints depth (print_array_p cJSON_malloc children fmt pc) t.
Proof.
  intros H Ht. pose proof (array_text_nz _ fmt _ Ht (prints_nz _ _ _ _ H)) as Hnz.
  pose proof (array_loop_ok _ fmt _ _ _ H) as Hloop.
  destruct H as [|c t' children ts Hc Hcs].
  { injection Ht as <-. by apply ensure_put_prints; [..|cbn; lia]. }
  unfold print_array in Ht. set (body := array_body _ _) in *. destruct (_ <=? _); [|done]. injection Ht as <-.
  split; [done|]. intros pre p Hp Hb. cbn [length] in Hb. rewrite length_app in Hb. cbn in Hb.
  unfold print_array_p.
  destruct Hp as [Hp|Hd]; [|rewrite ensure_put_dead by done; eexists _, _; split; [done|by left]].
  pose proof Hp as (_ & Hoff & _). apply (or_introl (B := dead p)) in Hp.
  step_put pre Hp. destruct Ho as [(-> & Hd)|((i & -> & _) & Hh)].
  { eexists _, _. split; [done|by left]. }
  apply (at_advance _ [91] []) with (n := 1) in Hh; [|done].
  destruct (Hloop _ _ Hh) as (ok & p' & -> & Hok & Hat); [rewrite length_app; cbn; lia|]. cbn [mbind res_bind].
  destruct ok; cbn [negb]; [|eexists _, _; split; [done|]; left; split; [done|by apply Hok]].
  step_put ((pre ++ [91]) ++ body) Hat.
  destruct Ho as [(-> & Hd)|((j & -> & _) & Hh')].
  { eexists _, _. split; [done|by left]. }
  eexists _, _. split; [done|]. right. split.
  { eexists. split; [done|]. intros -> _. by rewrite Hoff. }
  exists (91 :: body), [93]. split; [done|]. by rewrite <- app_assoc in Hh'.
Qed.

Lemma tabs_length n : 0 <= n -> Z.of_nat (length (tabs n)) = n.
Proof. intros Hn. unfold tabs. rewrite length_replicate. lia. Qed.

(** The name and the value of a member. *)
Definition member_prints (fuel : nat) (depth : Z)
    (pc : cJSON -> printbuffer -> res (option Z * printbuffer)) (c : cJSON) (e : list Z * list Z) : Prop :=
  prints depth (print_string_ptr_p cJSON_malloc fuel (j_string c)) (fst e) /\ prints depth (pc c) (snd e).

Lemma indent_ok fmt depth pre p : 1 <= depth -> at_text pre p ->
  (fmt = true -> Z.of_nat (length pre) + depth <= LIMIT) ->
  exists ok p',
    (if fmt then
       '(ptr, p) ← ensure_put cJSON_malloc depth (tabs depth) p;
       match ptr with None => Ok (false, p) | Some _ => Ok (true, advance depth p) end
     else Ok (true, p)) = Ok (ok, p')
  /\ loop_outcome pre (if fmt then tabs depth else []) ok p'.
Proof.
  intros Hd Hp Hb. destruct fmt; [|eexists _, _; split; [done|]; split; [done|by rewrite app_nil_r]].
  specialize (Hb eq_refl). assert (Z.of_nat (length (tabs depth)) = depth) by (apply tabs_length; lia).
  step_put pre Hp.
  destruct Ho as [(-> & Hdead)|((i & -> & _) & Hh)].
  { eexists _, _. split; [done|]. by apply loop_dead. }
  eexists _, _. split; [done|]. split; [done|].
  rewrite <- (app_nil_r (tabs depth)) in Hh. eapply at_advance; [done|lia].
Qed.

Lemma object_loop_ok fuel depth fmt pc children es : 1 <= depth ->
  Forall2 (member_prints fuel depth pc) children es -> forall pre p, at_text pre p ->
  Z.of_nat (length pre) + Z.of_nat (length (object_lines es depth fmt)) + 64 <= LIMIT ->
  exists ok p', object_loop_p cJSON_malloc fuel depth fmt pc children p = Ok (ok, p')
  /\ loop_outcome pre (object_lines es depth fmt) ok p'.
Proof.
  intros Hdepth. induction 1 as [|c [name e] children es [Hn Hc] Hcs IH]; intros pre p Hp Hb.
  { eexists _, _. split; [done|]. split; [done|]. by rewrite app_nil_r. }
  cbn [object_lines] in *. cbn [fst snd] in Hn, Hc.
  set (ind := if fmt then tabs depth else []) in *.
  assert (Hsep : length ([58] ++ (if fmt then [9] else [])) = if fmt then 2%nat else 1%nat) by by destruct fmt.
  rewrite (app_assoc [58]) in *. set (sep := [58] ++ (if fmt then [9] else [])) in *.
  assert (Hmatch : match es with [] => [] | _ => [44] end = match children with [] => [] | _ => [44] end)
    by by destruct Hcs.
  rewrite Hmatch, (app_assoc (match children with [] => [] | _ => [44] end)) in *. clear Hmatch.
  set (len := (if fmt then 1 else 0) + match children with [] => 0 | _ => 1 end).
  assert (Hfin : Z.of_nat (length (match children with [] => [] | _ => [44] end ++ (if fmt then [10] else []))) = len)
    by by destruct fmt, children.
  cbn [object_loop_p]. fold sep. rewrite (app_assoc (match children with [] => [] | _ => [44] end)). fold len.
  set (fin := match children with [] => [] | _ => [44] end ++ (if fmt then [10] else [])) in *.
  rewrite !length_app in Hb.
  assert (Hind : fmt = true -> Z.of_nat (length ind) = depth) by (intros ->; apply tabs_length; lia).
  destruct (indent_ok fmt depth pre p Hdepth Hp) as (ok & q & -> & Hok & Hq); [intros ->; rewrite <- Hind; [lia|done]|].
  cbn [mbind res_bind]. fold ind in Hq.
  destruct ok; cbn [negb]; [|eexists _, _; split; [done|]; by apply loop_dead, Hok].
  step_print Hn (pre ++ ind) Hq.
  step_put ((pre ++ ind) ++ name) Hq0; [by destruct fmt|rewrite Hsep; by destruct fmt|rewrite !length_app, Hsep in *; destruct fmt; lia|].
  destruct Ho0 as [(-> & Hd)|((i & -> & _) & Hh)]; [eexists _, _; split; [done|]; by apply loop_dead|].
  rewrite <- (app_nil_r sep) in Hh. apply (at_advance _ sep) with (n := if fmt then 2 else 1) in Hh; [|rewrite Hsep; by destruct fmt].
  step_print Hc (((pre ++ ind) ++ name) ++ sep) Hh.
  assert (Hlen : 0 <= len) by lia. clearbody len fin sep ind.
  step_put ((((pre ++ ind) ++ name) ++ sep) ++ e) Hq1.
  destruct Ho1 as [(-> & Hd)|((j & -> & _) & Hh')]; [eexists _, _; split; [done|]; by apply loop_dead|].
  apply (at_advance _ fin [0]) with (n := len) in Hh'; [|done].
  destruct (IH _ _ Hh') as (ok & p' & Hl & Hok' & Hat); [rewrite !length_app; lia|].
  eexists _, _. split; [exact Hl|]. split; [done|]. by rewrite <- !app_assoc in *.
Qed.

Lemma object_prints fuel depth fmt pc children es t : 0 <= depth ->
  Forall2 (member_prints fuel (depth + 1) pc) children es -> print_object es depth fmt = Ok t ->
  prints depth (print_object_p cJSON_malloc fuel children depth fmt pc) t.
Proof.
  intros Hdepth H Ht.
  pose proof (object_loop_ok fuel (depth + 1) fmt pc children es ltac:(lia) H) as Hloop.
  assert (Hnz : nz t).
  { apply (object_text_nz _ _ _ _ Ht). clear Ht Hloop. induction H as [|c e children es [[] []] H IH]; by constructor. }
  destruct H as [|c t' children es Hc Hcs].
  { unfold print_object in Ht. destruct (_ <=? _) eqn:El; [|done]. injection Ht as <-.
    apply ensure_put_prints; [done|cbn; by rewrite <- app_assoc|].
    apply Z.leb_le in El. split; [done|]. destruct fmt; cbn; [|lia].
    rewrite length_app. unfold tabs. rewrite length_replicate. cbn. lia. }
  unfold print_object in Ht. set (body := object_lines _ _ _) in *. destruct (_ <=? _); [|done]. injection Ht as <-.
  split; [done|]. intros pre p Hp Hb. unfold print_object_p.
  assert (Ho1 : Z.of_nat (length (if fmt then [10] else [])) = if fmt then 1 else 0) by by destruct fmt.
  assert (Hcl : Z.of_nat (length (if fmt then tabs (depth + 1 - 1) else [])) = if fmt then depth else 0)
    by (destruct fmt; [rewrite tabs_length|]; lia).
  set (lf := if fmt then [10] else []) in *. set (cl := if fmt then tabs (depth + 1 - 1) else []) in *.
  set (len := if fmt then 2 else 1). assert (Hlen : len = 1 + Z.of_nat (length lf)) by (unfold len; by destruct fmt).
  clearbody body lf cl len. cbn [length] in Hb. rewrite !length_app in Hb. cbn [length] in Hb.
  destruct Hp as [Hp|Hd]; [|rewrite ensure_put_dead by done; eexists _, _; split; [done|by left]].
  pose proof Hp as (_ & Hoff & _). apply (or_introl (B := dead p)) in Hp.
  step_put pre Hp.
  destruct Ho as [(-> & Hd)|((i & -> & _) & Hh)]; [eexists _, _; split; [done|by left]|].
  apply (at_advance _ ([123] ++ lf) [0]) with (n := len) in Hh; [|cbn; lia].
  destruct (Hloop _ _ Hh) as (ok & p' & -> & Hok & Hat); [rewrite !length_app; cbn; lia|]. cbn [mbind res_bind].
  destruct ok; cbn [negb]; [|eexists _, _; split; [done|]; left; split; [done|by apply Hok]].
  assert (Hroom : (if fmt then depth + 1 + 1 else 2) = Z.of_nat (length cl) + 2) by (destruct fmt; lia).
  rewrite Hroom. step_put ((pre ++ [123] ++ lf) ++ body) Hat.
  destruct Ho as [(-> & Hd)|((j & -> & _) & Hh')]; [eexists _, _; split; [done|by left]|].
  eexists _, _. split; [done|]. right. split.
  { eexists. split; [done|]. intros -> ->. rewrite Hoff. by destruct fmt. }
  exists (123 :: lf ++ body), (cl ++ [125]). split; [cbn; by rewrite <- app_assoc|].
  replace (pre ++ 123 :: lf ++ body) with ((pre ++ [123] ++ lf) ++ body) by (by rewrite <- !app_assoc).
  by rewrite <- (app_assoc cl).
Qed.

Lemma mapR_Forall2' {A B} (f : A -> res B) (P : A -> B -> Prop) l bs : mapR f l = Ok bs ->
  Forall (fun a => forall b, f a = Ok b -> P a b) l -> Forall2 P l bs.
Proof.
  intros H Hl. revert bs H. induction Hl as [|a l Ha Hl IH]; intros bs H; [by injection H as <-|].
  change (mapR f (a :: l)) with (b ← f a; bs ← mapR f l; Ok (b :: bs)) in H.
  bind_inv H. injection H as <-. constructor; eauto.
Qed.

(** Every value is printed as without a buffer. *)
Lemma value_prints fuel c : c_strings c = true -> forall depth fmt t, 0 <= depth ->
  print_value fmt_0f fmt_e fmt_f fuel c depth fmt = Ok t ->
  prints depth (print_value_p cJSON_malloc fmt_0f fmt_e fmt_f fuel c depth fmt) t.
Proof.
  induction c as [ty vs vi vd s l IH] using cJSON_ind'. cbn [c_strings]. intros [[Hvs _]%andb_true_iff Hl]%andb_true_iff.
  pose proof (proj1 (forallb_forall c_strings l) Hl) as Hlx.
  intros depth fmt t Hd. cbn [print_value print_value_p].
  assert (Hlit : forall t', nz t' -> forall n, n = Z.of_nat (length t') + 1 ->
            prints depth (ensure_put cJSON_malloc n (t' ++ [0])) t').
  { intros t' Ht' n ->. apply ensure_put_prints; [done..|lia]. }
  destruct ty.
  1-3: intros [= <-]; apply Hlit; [repeat constructor; done|done].
  - intros [= <-]. destruct (number_text vi vd) as [Hn Hr]. by apply ensure_put_prints.
  - by apply string_prints.
  - intros H. bind_inv H. eapply (array_prints depth (depth + 1)); [|done]. eapply mapR_Forall2'; [exact Ha|].
    rewrite Forall_forall in IH |- *. intros x Hx tx. apply (IH x Hx (Hlx x Hx)). lia.
  - intros H. bind_inv H. eapply object_prints; [done| |done]. eapply mapR_Forall2'; [exact Ha|].
    rewrite Forall_forall in IH |- *. intros x Hx [n e] Hx'. bind_inv Hx'. injection Hx' as <- <-.
    pose proof (Hlx x Hx) as Hcs.
    split; [apply string_prints; [|done]|apply (IH x Hx Hcs); [lia|done]].
    destruct x as [? ? ? ? sx ?]. by apply andb_true_iff in Hcs as [[_ Hsx]%andb_true_iff _].
Qed.
End correctness.

(** Printing into a buffer and printing without one give the same text. *)

(** C33: [cJSON_PrintBuffered], with any first buffer and any contents of the
    blocks it is given, returns: either the start of its block, which begins
    with exactly the text of the unbuffered printer and a zero, and that block
    is the only one left allocated; or null, because a block was refused, and
    nothing is left allocated.  No store leaves a block.  The texts of the
    [printf] formats are taken to fit the 64 bytes reserved for them. *)
Theorem buffered_print_correct (cJSON_malloc : nat -> Z -> option (list Z))
    (fmt_0f fmt_e fmt_f : spec_float -> list Z) (fuel : nat) (c : cJSON) (prebuffer : Z) (fmt : bool)
    (t : list Z)
    (Hmalloc : forall k n b, cJSON_malloc k n = Some b -> Z.of_nat (length b) = n)
    (Hfmt_0f : forall d, SFltb (SFabs d) (F64.of_Z (10 ^ 60)) = true ->
       nz (fmt_0f d) /\ (length (fmt_0f d) <= 63)%nat)
    (Hfmt_e : forall d, nz (fmt_e d) /\ (length (fmt_e d) <= 63)%nat)
    (Hfmt_f : forall d, SFltb (F64.of_Z 1000000000) (SFabs d) = false -> is_normal d = true ->
       nz (fmt_f d) /\ (length (fmt_f d) <= 63)%nat)
    (Hc : c_strings c = true) (Hpre : 0 <= prebuffer < 2147483648)
    (Ht : print_value fmt_0f fmt_e fmt_f fuel c 0 fmt = Ok t)
    (Hsize : Z.of_nat (length t) + 64 <= 2 ^ 30) :
  exists o p, cJSON_PrintBuffered cJSON_malloc fmt_0f fmt_e fmt_f fuel c prebuffer fmt = Ok (o, p)
  /\ (o = None /\ p_live p = 0 /\ (exists k n, (k < p_calls p)%nat /\ cJSON_malloc k n = None)
      \/ o = Some 0 /\ p_live p = 1 /\ exists tl, p_buffer p = Some (t ++ 0 :: tl)).
Proof.
  destruct (value_prints cJSON_malloc Hmalloc _ _ _ Hfmt_0f Hfmt_e Hfmt_f fuel c Hc 0 fmt t) as [_ H]; [lia|done|].
  unfold cJSON_PrintBuffered. rewrite u32_id by mlia.
  set (p := mkPrintbuffer _ _ _ _ _).
  assert (Hp : at_text cJSON_malloc [] p).
  { unfold p. destruct (cJSON_malloc 0%nat prebuffer) as [b|] eqn:Em.
    - left. split; [done|]. split; [done|]. exists b. cbn. by rewrite (Hmalloc _ _ _ Em).
    - right. split; [done|]. split; [done|]. exists 0%nat, prebuffer. split; [cbn; lia|done]. }
  destruct (H [] p Hp) as (o & p' & -> & Ho); [cbn; unfold LIMIT; lia|].
  eexists _, _. split; [done|]. destruct Ho as [(-> & _ & Hl & Hk)|((i & -> & Hi) & a & b & -> & Hl & _ & tl & Hb & _)].
  - by left.
  - right. rewrite Hi by done. split; [done|]. split; [done|]. exists tl.
    rewrite Hb. cbn [app]. by rewrite <- !app_assoc.
Qed.

(** A heap that fills its blocks with 170. *)
Definition filled_malloc (k : nat) (n : Z) : option (list Z) :=
  if 0 <=? n then Some (replicate (Z.to_nat n) 170) else None.
Definition some_text (d : spec_float) : list Z := text "1.5".
Definition example_text : list Z :=
  match print_value some_text some_text some_text 0 (to_item example_json) 0 true with
  | Ok t => t | Fault _ => [] end.

Lemma buffered_print_correct_witness :
  exists o p, cJSON_PrintBuffered filled_malloc some_text some_text some_text 0 (to_item example_json) 4 true
              = Ok (o, p)
  /\ (o = None /\ p_live p = 0 /\ (exists k n, (k < p_calls p)%nat /\ filled_malloc k n = None)
      \/ o = Some 0 /\ p_live p = 1 /\ exists tl, p_buffer p = Some (example_text ++ 0 :: tl)).
Proof.
  assert (Hs : nz (text "1.5") /\ (length (text "1.5") <= 63)%nat)
    by (split; [repeat constructor; discriminate|cbn; lia]).
  apply buffered_print_correct; try done.
  - unfold filled_malloc. intros k n b. destruct (Z.leb_spec 0 n); [|done]. intros [= <-].
    rewrite length_replicate. lia.
Defined.

(** A buffer of 8 bytes grows three times; with a heap that refuses the
    second block the result is null. *)
Example buffered_grows :
  (fun r => match r with Ok (o, p) => Some (o, p_length p, p_calls p) | Fault _ => None end)
    (cJSON_PrintBuffered filled_malloc some_text some_text some_text 0 (to_item example_json) 8 true)
  = Some (Some 0, 64, 4%nat).
Proof. vm_compute. reflexivity. Qed.

Example buffered_refused :
  cJSON_PrintBuffered (fun k n => if (k =? 1)%nat then None else filled_malloc k n)
    some_text some_text some_text 0 (to_item example_json) 8 true
  = Ok (None, mkPrintbuffer None 0 0 2 0).
Proof. vm_compute. reflexivity. Qed.
