(* ===== verification/CJsonMinify.v ===== *)
(** * Removing the layout of a JSON text in place (Task/Struct2Json/cJSON.c)

    [cJSON_Minify] reads a text through [json] and stores what it keeps
    through [into], in the same buffer; both are indices here, and reading or
    storing outside the buffer is a fault.  On the text of the formatted
    printer it gives the text of the unformatted one. *)
From Stdlib Require Import ZifyBool.
From S2P Require Import Prelude Floats CJson CJsonRoundtrip CJsonBuffered.

Definition cJSON_PrintUnformatted (fmt_0f fmt_e fmt_f : spec_float -> list Z) (fuel : nat) (c : cJSON)
    : res (list Z) := print_value fmt_0f fmt_e fmt_f fuel c 0 false.

(** ** The two pointers *)
Record cursor : Type := mkCursor { m_text : list Z; m_into : nat; m_json : nat }.

Definition rd (s : cursor) (k : nat) : res Z :=
  match m_text s !! (m_json s + k)%nat with Some c => Ok c | None => Fault OutOfBounds end.
Definition skip_chars (n : nat) (s : cursor) : cursor := mkCursor (m_text s) (m_into s) (m_json s + n).
(** [c] stored through [into]. *)
Definition wr (c : Z) (s : cursor) : res cursor :=
  if (m_into s <? length (m_text s))%nat
  then Ok (mkCursor (<[m_into s := c]> (m_text s)) (m_into s) (m_json s))
  else Fault OutOfBounds.
(** A character copied, both pointers moved. *)
Definition copy (s : cursor) : res cursor :=
  c ← rd s 0; s ← wr c s; Ok (mkCursor (m_text s) (S (m_into s)) (S (m_json s))).

(** ** The loops; each round moves [json] on, so the length of the text bounds
    the rounds. *)

(** To the end of the line or of the text. *)
Fixpoint skip_line (fuel : nat) (s : cursor) : res cursor :=
  match fuel with
  | O => Fault Hang
  | S fuel' =>
      c ← rd s 0;
      if negb (c =? 0) && negb (c =? 10) then skip_line fuel' (skip_chars 1 s) else Ok s
  end.

(** To the star and slash that close a comment, or to the end of the text. *)
Fixpoint skip_block (fuel : nat) (s : cursor) : res cursor :=
  match fuel with
  | O => Fault Hang
  | S fuel' =>
      c ← rd s 0;
      if c =? 0 then Ok s
      else
        closed ← (if c =? 42 then (c1 ← rd s 1; Ok (c1 =? 47)) else Ok false);
        if closed : bool then Ok s else skip_block fuel' (skip_chars 1 s)
  end.

(** The body of a string literal. *)
Fixpoint copy_string (fuel : nat) (s : cursor) : res cursor :=
  match fuel with
  | O => Fault Hang
  | S fuel' =>
      c ← rd s 0;
      if negb (c =? 0) && negb (c =? 34)
      then s ← (if c =? 92 then copy s else Ok s); s ← copy s; copy_string fuel' s
      else Ok s
  end.

Fixpoint minify_loop (fuel : nat) (s : cursor) : res cursor :=
  match fuel with
  | O => Fault Hang
  | S fuel' =>
      c ← rd s 0;
      if c =? 0 then wr 0 s
      else if (c =? 32) || (c =? 9) || (c =? 13) || (c =? 10) then minify_loop fuel' (skip_chars 1 s)
      else
        c1 ← (if c =? 47 then rd s 1 else Ok 0);
        s ← (if (c =? 47) && (c1 =? 47) then skip_line (S (length (m_text s))) s
             else if (c =? 47) && (c1 =? 42)
             then s ← skip_block (S (length (m_text s))) s; Ok (skip_chars 2 s)
             else if c =? 34
             then s ← copy s; s ← copy_string (S (length (m_text s))) s; copy s
             else copy s);
        minify_loop fuel' s
  end.

Definition cJSON_Minify (json : list Z) : res (list Z) :=
  s ← minify_loop (S (length json)) (mkCursor json 0 0); Ok (m_text s).

(** ** Segments of the text *)

(** The buffer holds the kept text, stale bytes and the text still to read. *)
Definition state (out gap rest : list Z) : cursor :=
  mkCursor (out ++ gap ++ rest) (length out) (length out + length gap).

(** Reading [a] adds [a'] to the kept text, in at most as many rounds as [a]
    has characters. *)
Definition seg (a a' : list Z) : Prop :=
  exists k, (k <= length a)%nat /\ forall f out gap rest,
  exists gap', minify_loop (k + f) (state out gap (a ++ rest)) = minify_loop f (state (out ++ a') gap' rest)
  /\ (length gap' + length a' = length gap + length a)%nat.

Lemma seg_nil : seg [] [].
Proof. exists 0%nat. split; [done|]. intros. exists gap. by rewrite app_nil_r. Qed.

Lemma seg_app a a' b b' : seg a a' -> seg b b' -> seg (a ++ b) (a' ++ b').
Proof.
  intros (k & Hk & Ha) (m & Hm & Hb). exists (k + m)%nat. rewrite !length_app. split; [lia|].
  intros f out gap rest. rewrite <- app_assoc, <- Nat.add_assoc.
  destruct (Ha (m + f)%nat out gap (b ++ rest)) as (gap1 & -> & H1).
  destruct (Hb f (out ++ a') gap1 rest) as (gap2 & -> & H2).
  exists gap2. rewrite <- app_assoc. split; [done|lia].
Qed.

Lemma rd_state out gap c rest : rd (state out gap (c :: rest)) 0 = Ok c.
Proof.
  unfold rd, state. cbn. rewrite Nat.add_0_r, app_assoc, <- length_app, list_lookup_middle by done. done.
Qed.

Lemma rd_end out : rd (state out [] []) 0 = Fault OutOfBounds.
Proof.
  unfold rd, state. cbn [m_text m_json app]. rewrite lookup_ge_None_2; [done|]. rewrite length_app. cbn. lia.
Qed.

Lemma skip_state out gap c rest : skip_chars 1 (state out gap (c :: rest)) = state out (gap ++ [c]) rest.
Proof. unfold skip_chars, state. cbn. rewrite length_app. cbn. by rewrite <- app_assoc, Nat.add_assoc. Qed.

Lemma wr_state out gap c rest x : wr x (state out gap (c :: rest)) =
  Ok (mkCursor (out ++ match gap with [] => x :: rest | _ :: g => x :: g ++ c :: rest end) (length out)
        (length out + length gap)).
Proof.
  unfold wr, state. cbn [m_text m_into m_json]. rewrite (proj2 (Nat.ltb_lt _ _)) by (rewrite !length_app; cbn; lia).
  rewrite insert_app_r_alt, Nat.sub_diag by lia. by destruct gap.
Qed.

(** Copying one character shifts the stale bytes. *)
Lemma copy_state out gap c rest : exists gap', length gap' = length gap /\
  copy (state out gap (c :: rest)) = Ok (state (out ++ [c]) gap' rest).
Proof.
  unfold copy. rewrite rd_state. cbn [mbind res_bind]. rewrite wr_state. cbn [mbind res_bind m_text m_into m_json].
  exists (match gap with [] => [] | _ :: g => g ++ [c] end).
  destruct gap as [|x g].
  - split; [done|]. unfold state. rewrite <- app_assoc, length_app. cbn. do 2 f_equal; lia.
  - split; [rewrite length_app; cbn; lia|]. unfold state. rewrite <- !app_assoc, !length_app. cbn. do 2 f_equal; lia.
Qed.

Definition is_ws (c : Z) : bool := (c =? 32) || (c =? 9) || (c =? 13) || (c =? 10).
(** Characters copied one at a time. *)
Definition is_kept (c : Z) : bool := negb (is_ws c) && negb (c =? 0) && negb (c =? 47) && negb (c =? 34).

Lemma seg_ws c : is_ws c = true -> seg [c] [].
Proof.
  intros Hc. exists 1%nat. split; [done|]. intros f out gap rest. exists (gap ++ [c]).
  cbn [Nat.add minify_loop app]. rewrite rd_state. cbn [mbind res_bind].
  rewrite (proj2 (Z.eqb_neq c 0)) by (intros ->; done). fold (is_ws c). rewrite Hc, skip_state, app_nil_r.
  split; [done|]. rewrite length_app. cbn. lia.
Qed.

Lemma seg_kept c : is_kept c = true -> seg [c] [c].
Proof.
  intros Hc. exists 1%nat. split; [done|]. intros f out gap rest.
  destruct (copy_state out gap c rest) as (gap' & Hg & Hcopy). exists gap'. split; [|cbn; lia].
  cbn [Nat.add minify_loop app]. rewrite rd_state. cbn [mbind res_bind]. unfold is_kept, is_ws in Hc.
  rewrite !andb_true_iff, !negb_true_iff in Hc. destruct Hc as (((Hw & ->) & ->) & ->).
  rewrite Hw. cbn [andb mbind res_bind]. by rewrite Hcopy.
Qed.

Lemma seg_map {A} (f g : A -> list Z) l : (forall x, In x l -> seg (f x) (g x)) ->
  seg (concat (map f l)) (concat (map g l)).
Proof.
  induction l as [|x l IH]; intros H; [apply seg_nil|]. cbn. apply seg_app; [apply H; by left|].
  apply IH. intros y Hy. apply H. by right.
Qed.

Lemma seg_kept_all t : forallb is_kept t = true -> seg t t.
Proof.
  induction t as [|c t IH]; [intros; apply seg_nil|]. cbn. intros [Hc Ht]%andb_true_iff.
  apply (seg_app [c] [c]); [by apply seg_kept|by apply IH].
Qed.

Lemma seg_tabs n : seg (tabs n) [].
Proof.
  unfold tabs. induction (Z.to_nat n) as [|k IH]; [apply seg_nil|]. cbn.
  apply (seg_app [9] []); [by apply seg_ws|done].
Qed.

(** *** String literals *)

(** What a round of [copy_string] copies: a character, or a backslash and the
    character behind it. *)
Inductive str_unit : list Z -> Prop :=
| unit_char c : c <> 0 -> c <> 34 -> c <> 92 -> str_unit [c]
| unit_escape c : str_unit [92; c].

Lemma copy_units us : Forall str_unit us -> forall f out gap rest, (length us < f)%nat ->
  exists gap', length gap' = length gap /\
  copy_string f (state out gap (concat us ++ 34 :: rest)) = Ok (state (out ++ concat us) gap' (34 :: rest)).
Proof.
  induction 1 as [|u us Hu Hus IH]; intros f out gap rest Hf; (destruct f as [|f]; [lia|]).
  { exists gap. split; [done|]. cbn [copy_string concat app]. rewrite rd_state. by rewrite app_nil_r. }
  cbn [copy_string concat length] in *. rewrite <- app_assoc.
  destruct Hu as [c H0 H34 H92|c]; cbn [app]; rewrite rd_state; cbn [mbind res_bind].
  - rewrite (proj2 (Z.eqb_neq c 0)), (proj2 (Z.eqb_neq c 34)), (proj2 (Z.eqb_neq c 92)) by done.
    cbn [negb andb mbind res_bind].
    destruct (copy_state out gap c (concat us ++ 34 :: rest)) as (g1 & Hg1 & ->). cbn [mbind res_bind].
    destruct (IH f (out ++ [c]) g1 rest) as (g2 & Hg2 & ->); [lia|].
    exists g2. rewrite <- app_assoc. split; [lia|done].
  - cbn [Z.eqb Pos.eqb negb andb].
    destruct (copy_state out gap 92 (c :: concat us ++ 34 :: rest)) as (g0 & Hg0 & ->). cbn [mbind res_bind].
    destruct (copy_state (out ++ [92]) g0 c (concat us ++ 34 :: rest)) as (g1 & Hg1 & ->). cbn [mbind res_bind].
    destruct (IH f ((out ++ [92]) ++ [c]) g1 rest) as (g2 & Hg2 & ->); [lia|].
    exists g2. rewrite <- !app_assoc. split; [lia|done].
Qed.

Lemma units_length us : Forall str_unit us -> (length us <= length (concat us))%nat.
Proof. induction 1 as [|u us [] H IH]; cbn; lia. Qed.

Lemma seg_string us : Forall str_unit us -> seg (34 :: concat us ++ [34]) (34 :: concat us ++ [34]).
Proof.
  intros Hus. exists 1%nat. split; [cbn; lia|]. intros f out gap rest.
  cbn [Nat.add minify_loop app]. rewrite rd_state. cbn [mbind res_bind Z.eqb Pos.eqb orb andb].
  rewrite <- app_assoc. cbn [app].
  destruct (copy_state out gap 34 (concat us ++ 34 :: rest)) as (g1 & Hg1 & ->). cbn [mbind res_bind].
  destruct (copy_units us Hus (S (length (m_text (state (out ++ [34]) g1 (concat us ++ 34 :: rest)))))
              (out ++ [34]) g1 rest) as (g2 & Hg2 & ->).
  { pose proof (units_length us Hus). unfold state. cbn [m_text]. rewrite !length_app. lia. }
  cbn [mbind res_bind]. destruct (copy_state ((out ++ [34]) ++ concat us) g2 34 rest) as (g3 & Hg3 & ->).
  exists g3. cbn [mbind res_bind length]. rewrite length_app. rewrite <- !app_assoc. split; [done|lia].
Qed.

(** ** The printed text *)

Lemma escape_units c : 0 < c < 256 -> exists us, Forall str_unit us /\ escape c = concat us.
Proof.
  intros Hc. unfold escape. destruct ((31 <? c) && negb (c =? 34) && negb (c =? 92)) eqn:E.
  { exists [[c]]. split; [|done]. apply Forall_singleton, unit_char; lia. }
  assert (Hu : forall x, exists us, Forall str_unit us /\ [92; x] = concat us)
    by (intros x; exists [[92; x]]; split; [constructor; [apply unit_escape|done]|done]).
  repeat match goal with |- context [c =? ?k] => destruct (c =? k); [exact (Hu _)|] end.
  exists [[92; 117]; [48]; [48]; [hex_char (c / 16)]; [hex_char (c mod 16)]]. split; [|done].
  assert (0 <= c / 16 < 16 /\ 0 <= c mod 16 < 16) by lia. unfold hex_char.
  constructor; [apply unit_escape|]. repeat (constructor; [apply unit_char; try done; destruct (_ <? 10) eqn:?; lia|]). constructor.
Qed.

Lemma escapes_units s : c_string s = true -> exists us, Forall str_unit us /\ concat (map escape s) = concat us.
Proof.
  induction s as [|c s IH]; [by exists []|]. cbn. intros [Hc Hs]%andb_true_iff.
  destruct (escape_units c) as (us & Hus & ->); [lia|]. destruct (IH Hs) as (us' & Hus' & ->).
  exists (us ++ us'). rewrite concat_app. split; [by apply Forall_app|done].
Qed.

Lemma plain_units s : c_string s = true -> existsb needs_escape s = false ->
  Forall str_unit (map (fun c => [c]) s) /\ concat (map (fun c => [c]) s) = s.
Proof.
  induction s as [|c s IH]; [done|]. cbn. intros [Hc Hs]%andb_true_iff [He Hes]%orb_false_iff.
  destruct (IH Hs Hes) as [Hu ->]. split; [|done]. constructor; [|done].
  unfold needs_escape in He. apply unit_char; lia.
Qed.

Lemma string_seg fuel str t : c_string_opt str = true -> print_string_ptr fuel str = Ok t -> seg t t.
Proof.
  destruct str as [s|]; [|done]. cbn [c_string_opt]. intros Hs. unfold print_string_ptr.
  destruct (existsb needs_escape s) eqn:E; cbn [negb].
  - intros H. bind_inv H. destruct (_ <=? _); [|done]. injection H as <-.
    destruct (escapes_units s Hs) as (us & Hus & ->). by apply seg_string.
  - intros [= <-]. destruct (plain_units s Hs E) as [Hus Hcat]. rewrite <- Hcat. by apply seg_string.
Qed.

Lemma array_body_seg ts ts' : Forall2 seg ts ts' -> seg (array_body ts true) (array_body ts' false).
Proof.
  induction 1 as [|t t' ts ts' Ht Hts IH]; [apply seg_nil|]. cbn [array_body]. apply seg_app; [done|].
  destruct Hts as [|u u' ts ts']; [apply seg_nil|]. apply seg_app; [|done].
  apply (seg_app [44] [44] [32] []); [by apply seg_kept|by apply seg_ws].
Qed.

Lemma array_seg ts ts' t : Forall2 seg ts ts' -> print_array ts true = Ok t ->
  exists t', print_array ts' false = Ok t' /\ seg t t'.
Proof.
  intros H Ht. pose proof (array_body_seg ts ts' H) as Hb. unfold print_array in *.
  destruct H as [|u u' ts ts' Hu H]; [injection Ht as <-; eexists; split; [done|]; by apply seg_kept_all|].
  destruct (_ <=? _) in Ht; [|done]. injection Ht as <-.
  pose proof (array_body_fits (u' :: ts') false 5) as Hfit.
  eexists. split.
  - rewrite (proj2 (Z.leb_le _ _)); [done|]. cbn [length]. rewrite length_app. cbn [length]. lia.
  - apply (seg_app [91] [91]); [by apply seg_kept|]. apply seg_app; [done|by apply seg_kept].
Qed.

Lemma object_lines_seg d d' es es' :
  Forall2 (fun e e' => seg (fst e) (fst e') /\ seg (snd e) (snd e')) es es' ->
  seg (object_lines es d true) (object_lines es' d' false).
Proof.
  induction 1 as [|[n e] [n' e'] es es' [Hn He] Hes IH]; [apply seg_nil|]. cbn [object_lines fst snd] in *.
  apply (seg_app _ []); [apply seg_tabs|]. apply seg_app; [done|].
  apply seg_app; [by apply seg_kept|]. apply (seg_app _ []); [by apply seg_ws|]. apply seg_app; [done|].
  apply seg_app; [destruct Hes; [apply seg_nil|by apply seg_kept]|].
  apply (seg_app _ []); [by apply seg_ws|done].
Qed.

Lemma object_lines_fit_plain es d a : a + Z.of_nat (length (object_lines es d false))
  <= foldl (fun l '(name, e) => l + Z.of_nat (length e) + Z.of_nat (length name) + 2 + 0) a es.
Proof.
  revert a. induction es as [|[n e] es IH]; intros a; cbn [object_lines foldl]; [cbn; lia|].
  etransitivity; [|apply IH]. rewrite !length_app. destruct es; cbn [length]; lia.
Qed.

Lemma object_seg d d' es es' t :
  Forall2 (fun e e' => seg (fst e) (fst e') /\ seg (snd e) (snd e')) es es' ->
  print_object es d true = Ok t -> exists t', print_object es' d' false = Ok t' /\ seg t t'.
Proof.
  intros H Ht. pose proof (object_lines_seg (d + 1) (d' + 1) es es' H) as Hb. unfold print_object in *.
  destruct H as [|[n e] [n' e'] es es' Hu H].
  - destruct (_ <=? _) in Ht; [|done]. injection Ht as <-. eexists. split; [done|].
    apply (seg_app [123] [123]); [by apply seg_kept|]. apply (seg_app [10] []); [by apply seg_ws|].
    apply (seg_app _ []); [apply seg_tabs|by apply seg_kept].
  - destruct (_ <=? _) in Ht; [|done]. injection Ht as <-.
    pose proof (object_lines_fit_plain ((n', e') :: es') (d' + 1) (7 + 0)) as Hfit.
    eexists. split.
    + rewrite (proj2 (Z.leb_le _ _)); [done|]. cbn [length app] in *. rewrite length_app. cbn [length] in *. lia.
    + apply (seg_app [123] [123]); [by apply seg_kept|]. apply (seg_app [10] []); [by apply seg_ws|].
      apply seg_app; [done|]. apply (seg_app _ []); [apply seg_tabs|by apply seg_kept].
Qed.

(** The characters of a number that [printf] writes. *)
Definition number_char (c : Z) : bool :=
  is_digit c || (c =? 43) || (c =? 45) || (c =? 46) || (c =? 101).

Lemma number_chars_kept t : forallb number_char t = true -> seg t t.
Proof.
  intros H. apply seg_kept_all. rewrite forallb_forall in *. intros c Hc. apply H in Hc.
  unfold number_char, is_digit in Hc. unfold is_kept, is_ws. lia.
Qed.

Lemma dec_digits_chars fuel n acc : forallb number_char acc = true ->
  forallb number_char (dec_digits fuel n acc) = true.
Proof.
  revert n acc. induction fuel as [|fuel IH]; intros n acc H; [done|]. cbn [dec_digits].
  assert (forallb number_char (n mod 10 + 48 :: acc) = true).
  { cbn. rewrite H. unfold number_char, is_digit. lia. }
  destruct (_ =? 0); [done|by apply IH].
Qed.

Lemma mapR_two {A B C} (f : A -> res B) (g : A -> res C) (P : B -> C -> Prop) l bs : mapR f l = Ok bs ->
  (forall a b, In a l -> f a = Ok b -> exists c, g a = Ok c /\ P b c) ->
  exists cs, mapR g l = Ok cs /\ Forall2 P bs cs.
Proof.
  revert bs. induction l as [|a l IH]; intros bs H Hl; [injection H as <-; by exists []|].
  change (mapR f (a :: l)) with (b ← f a; bs ← mapR f l; Ok (b :: bs)) in H. bind_inv H. injection H as <-.
  destruct (Hl a _ (or_introl eq_refl) Ha) as (c & Hc & HP).
  destruct (IH _ Ha0) as (cs & Hcs & HPs); [intros x b Hx; apply Hl; by right|].
  exists (c :: cs). split; [|by constructor].
  change (mapR g (a :: l)) with (b ← g a; bs ← mapR g l; Ok (b :: bs)). by rewrite Hc, bind_ret_l, Hcs.
Qed.

Section values.
Context (fmt_0f fmt_e fmt_f : spec_float -> list Z).
Context (Hfmt : forall d, is_normal d = true -> forallb number_char (fmt_0f d) = true
           /\ forallb number_char (fmt_e d) = true /\ forallb number_char (fmt_f d) = true).

Lemma number_seg vi d : let t := print_number fmt_0f fmt_e fmt_f vi d in seg t t.
Proof.
  intros t. unfold t, print_number. destruct (SFeqb _ _); [by apply seg_kept_all|].
  destruct (_ && _ && _).
  { apply number_chars_kept. unfold sprintf_d. destruct (_ <? 0); [cbn [forallb]|]; by apply dec_digits_chars. }
  destruct (is_normal d) eqn:En; cbn [negb]; [|by apply seg_kept_all].
  destruct (Hfmt d En) as (H0 & He & Hf). destruct (_ && _); [by apply number_chars_kept|].
  destruct (_ || _); by apply number_chars_kept.
Qed.

Lemma value_seg fuel c : c_strings c = true -> forall d d' t,
  print_value fmt_0f fmt_e fmt_f fuel c d true = Ok t ->
  exists t', print_value fmt_0f fmt_e fmt_f fuel c d' false = Ok t' /\ seg t t'.
Proof.
  induction c as [ty vs vi vd s l IH] using cJSON_ind'. cbn [c_strings].
  intros [[Hvs _]%andb_true_iff Hl]%andb_true_iff d d' t. cbn [print_value].
  pose proof (proj1 (forallb_forall c_strings l) Hl) as Hlx. rewrite List.Forall_forall in IH.
  destruct ty.
  1-3: intros [= <-]; eexists; split; [done|by apply seg_kept_all].
  - intros [= <-]. eexists. split; [done|]. apply number_seg.
  - intros Ht. exists t. split; [done|by eapply string_seg].
  - intros H. bind_inv H.
    destruct (mapR_two _ (fun child => print_value fmt_0f fmt_e fmt_f fuel child (d' + 1) false) seg _ _ Ha)
      as (ts & -> & Hts); [intros x b Hx; by apply IH, Hlx|]. cbn [mbind res_bind]. by eapply array_seg.
  - intros H. bind_inv H.
    destruct (mapR_two _ (fun child => n ← print_string_ptr fuel (j_string child);
                             e ← print_value fmt_0f fmt_e fmt_f fuel child (d' + 1) false; Ok (n, e))
                (fun e e' => seg (fst e) (fst e') /\ seg (snd e) (snd e')) _ _ Ha) as (ts & -> & Hts).
    2:{ cbn [mbind res_bind]. by eapply object_seg. }
    intros x [n e] Hx Hb. bind_inv Hb. injection Hb as <- <-.
    destruct (IH x Hx (Hlx x Hx) (d + 1) (d' + 1) _ Ha1) as (e' & -> & He). rewrite Ha0.
    eexists. split; [done|]. split; [|done]. eapply string_seg; [|exact Ha0].
    pose proof (Hlx x Hx) as Hcs. destruct x. by apply andb_true_iff in Hcs as [[_ Hsx]%andb_true_iff _].
Qed.
End values.

(** A text read to its end. *)
Lemma minify_seg t t' rest : seg t t' ->
  exists tl, cJSON_Minify (t ++ 0 :: rest) = Ok (t' ++ 0 :: tl).
Proof.
  intros (k & Hk & H). unfold cJSON_Minify.
  assert (Hn : (k <= length (t ++ 0%Z :: rest))%nat) by (rewrite length_app; lia).
  set (n := length (t ++ 0 :: rest)) in *. replace (S n) with (k + S (n - k))%nat by lia.
  destruct (H (S (n - k)) [] [] (0 :: rest)) as (gap & Hl & _).
  change (mkCursor (t ++ 0 :: rest) 0 0) with (state [] [] (t ++ 0 :: rest)). rewrite Hl.
  cbn [minify_loop app]. rewrite rd_state. cbn [mbind res_bind Z.eqb]. rewrite wr_state. cbn [mbind res_bind m_text].
  destruct gap as [|x gap]; eexists; reflexivity.
Qed.

(** minifying the text that [cJSON_Print] gives leaves, in the same buffer,
    the text that [cJSON_PrintUnformatted] gives, zero-terminated: exactly the
    layout is removed, blanks and quotes inside strings are kept, and nothing
    outside the buffer is read or written.  The [printf] formats are taken to
    write digits, signs, points and exponents only. *)
Theorem minify_print (fmt_0f fmt_e fmt_f : spec_float -> list Z) (fuel : nat) (c : cJSON) (t rest : list Z)
    (Hfmt : forall d, is_normal d = true -> forallb number_char (fmt_0f d) = true
       /\ forallb number_char (fmt_e d) = true /\ forallb number_char (fmt_f d) = true)
    (Hc : c_strings c = true) (Ht : cJSON_Print fmt_0f fmt_e fmt_f fuel c = Ok t) :
  exists t' tl, cJSON_PrintUnformatted fmt_0f fmt_e fmt_f fuel c = Ok t'
  /\ cJSON_Minify (t ++ 0 :: rest) = Ok (t' ++ 0 :: tl).
Proof.
  destruct (value_seg fmt_0f fmt_e fmt_f Hfmt fuel c Hc 0 0 t Ht) as (t' & Ht' & Hseg).
  destruct (minify_seg t t' rest Hseg) as (tl & Htl). by exists t', tl.
Qed.

Lemma minify_print_witness :
  exists t' tl, cJSON_PrintUnformatted some_text some_text some_text 0 (to_item example_json) = Ok t'
  /\ cJSON_Minify (example_text ++ [0]) = Ok (t' ++ 0 :: tl).
Proof.
  apply minify_print; [intros d _; split; [|split]; reflexivity|reflexivity|vm_compute; reflexivity].
Defined.

(** *** Texts that are not closed *)

Lemma copy_string_end s f out rest : plain s -> (length s < f)%nat ->
  copy_string f (state out [] (s ++ 0 :: rest)) = Ok (state (out ++ s) [] (0 :: rest)).
Proof.
  intros Hs. revert f out. induction Hs as [|c s Hc Hs IH]; intros f out Hf; (destruct f as [|f]; [cbn in Hf; lia|]);
    cbn [copy_string app]; rewrite rd_state; cbn [mbind res_bind].
  { by rewrite app_nil_r. }
  unfold plain_char in Hc. cbn [length] in Hf.
  rewrite (proj2 (Z.eqb_neq c 0)), (proj2 (Z.eqb_neq c 34)), (proj2 (Z.eqb_neq c 92)) by lia.
  cbn [negb andb mbind res_bind].
  destruct (copy_state out [] c (s ++ 0 :: rest)) as (g & Hg & ->). destruct g; [|done]. cbn [mbind res_bind].
  rewrite IH by lia. by rewrite <- app_assoc.
Qed.

(** Behind a string without its closing quote the terminating zero is copied as
    if it were the quote, and the loop goes on behind the text. *)
Theorem minify_past_end (s : list Z) (Hs : plain s) : cJSON_Minify (34 :: s ++ [0]) = Fault OutOfBounds.
Proof.
  unfold cJSON_Minify. change (mkCursor (34 :: s ++ [0]) 0 0) with (state [] [] (34 :: s ++ [0])).
  cbn [minify_loop length]. rewrite rd_state. cbn [mbind res_bind Z.eqb Pos.eqb orb andb].
  destruct (copy_state [] [] 34 (s ++ [0])) as (g & Hg & ->). destruct g; [|done]. cbn [mbind res_bind].
  rewrite copy_string_end; [|done|unfold state; cbn [m_text]; rewrite !length_app; cbn; lia]. cbn [mbind res_bind].
  destruct (copy_state (([] ++ [34]) ++ s) [] 0 []) as (g & Hg' & ->). destruct g; [|done]. cbn [mbind res_bind].
  rewrite length_app, Nat.add_comm. cbn [Nat.add minify_loop].
  by rewrite rd_end.
Qed.

(** A comment without its end is left two characters behind the terminating
    zero. *)
Theorem minify_open_comment : cJSON_Minify [47; 42; 97; 0] = Fault OutOfBounds.
Proof. vm_compute. reflexivity. Qed.

(** Blanks and comments go, the blank in a string stays. *)
Example minify_example :
  let quoted := map (fun c => if c =? 39 then 34 else c) in
  (fun r => match r with Ok b => take 12 b | Fault _ => [] end)
    (cJSON_Minify (quoted (text "{ 'a b' : // x" ++ [10] ++ text " [1, 2] /* y */ }") ++ [0]))
  = quoted (text "{'a b':[1,2]").
Proof. vm_compute. reflexivity. Qed.
