(* ===== verification/CJsonHeap.v ===== *)
(** * JSON items in memory (Task/Struct2Json/cJSON.c)

    The operations that link, unlink and free items, on a memory of cells: an
    item with its pointers, or a string.  Using a cell that is not an item is a
    fault, and so is freeing what is not allocated.  Allocation succeeds and
    never gives an address twice, so that a stale pointer is found out.
    Editing the children of an item is shown to be editing a list of trees,
    each owning its cells, and deleting a chain of items frees exactly what
    it owns. *)
From stdpp Require Import gmap.
From S2P Require Import Prelude Floats CJson.

(** ** Memory *)
Notation loc := positive.

(** The name of an item is its own copy or a string it does not own. *)
Inductive sptr : Type := SHeap (l : loc) | SConst (s : list Z).

Record node : Type := mkNode {
  n_next : option loc; n_prev : option loc; n_child : option loc;
  n_type : cJSON_type; IsReference : bool; StringIsConst : bool;
  n_valuestring : option loc; n_valueint : Z; n_valuedouble : spec_float;
  n_string : option sptr }.
Inductive cell : Type := Item (n : node) | Str (s : list Z).
Record mem : Type := mkMem { cells : gmap loc cell; unused : loc }.

Definition set_next (x : option loc) (n : node) : node :=
  mkNode x (n_prev n) (n_child n) (n_type n) (IsReference n) (StringIsConst n)
    (n_valuestring n) (n_valueint n) (n_valuedouble n) (n_string n).
Definition set_prev (x : option loc) (n : node) : node :=
  mkNode (n_next n) x (n_child n) (n_type n) (IsReference n) (StringIsConst n)
    (n_valuestring n) (n_valueint n) (n_valuedouble n) (n_string n).
Definition set_child (x : option loc) (n : node) : node :=
  mkNode (n_next n) (n_prev n) x (n_type n) (IsReference n) (StringIsConst n)
    (n_valuestring n) (n_valueint n) (n_valuedouble n) (n_string n).
Definition set_string (x : option sptr) (n : node) : node :=
  mkNode (n_next n) (n_prev n) (n_child n) (n_type n) (IsReference n) (StringIsConst n)
    (n_valuestring n) (n_valueint n) (n_valuedouble n) x.
Definition set_const (n : node) : node :=
  mkNode (n_next n) (n_prev n) (n_child n) (n_type n) (IsReference n) true
    (n_valuestring n) (n_valueint n) (n_valuedouble n) (n_string n).

Definition get_item (m : mem) (l : loc) : res node :=
  match cells m !! l with Some (Item n) => Ok n | _ => Fault OutOfBounds end.
Definition upd (l : loc) (f : node -> node) (m : mem) : res mem :=
  n ← get_item m l; Ok (mkMem (<[l := Item (f n)]> (cells m)) (unused m)).
Definition alloc (c : cell) (m : mem) : loc * mem :=
  (unused m, mkMem (<[unused m := c]> (cells m)) (Pos.succ (unused m))).
Definition cJSON_free (l : loc) (m : mem) : res mem :=
  match cells m !! l with
  | Some _ => Ok (mkMem (delete l (cells m)) (unused m))
  | None => Fault AssertFail
  end.
Definition free_string (s : sptr) (m : mem) : res mem :=
  match s with SHeap l => cJSON_free l m | SConst _ => Fault AssertFail end.

(** A loop along a chain visits every item once at most. *)
Definition rounds (m : mem) : nat := S (size (cells m)).

(** ** Operations *)
Definition cJSON_New_Item (m : mem) : loc * mem :=
  alloc (Item (mkNode None None None cJSON_False false false None 0 (S754_zero false) None)) m.

(** Frees an item, what it owns and the items behind it. *)
Fixpoint delete_loop (fuel : nat) (c : option loc) (m : mem) : res mem :=
  match fuel with
  | O => Fault Hang
  | S fuel' =>
      match c with
      | None => Ok m
      | Some l =>
          n ← get_item m l;
          m ← (if negb (IsReference n) then
                 match n_child n with Some _ => delete_loop fuel' (n_child n) m | None => Ok m end
               else Ok m);
          m ← (if negb (IsReference n) then
                 match n_valuestring n with Some v => cJSON_free v m | None => Ok m end
               else Ok m);
          m ← (if negb (StringIsConst n) then
                 match n_string n with Some s => free_string s m | None => Ok m end
               else Ok m);
          m ← cJSON_free l m;
          delete_loop fuel' (n_next n) m
      end
  end.
Definition cJSON_Delete (c : option loc) (m : mem) : res mem := delete_loop (rounds m) c m.

Definition suffix_object (prev item : loc) (m : mem) : res mem :=
  m ← upd prev (set_next (Some item)) m; upd item (set_prev (Some prev)) m.

Definition create_reference (item : loc) (m : mem) : res (loc * mem) :=
  n ← get_item m item;
  Ok (alloc (Item (mkNode None None (n_child n) (n_type n) true (StringIsConst n)
                     (n_valuestring n) (n_valueint n) (n_valuedouble n) None)) m).

(** The last item of a chain. *)
Fixpoint last_item (fuel : nat) (c : loc) (m : mem) : res loc :=
  match fuel with
  | O => Fault Hang
  | S fuel' =>
      n ← get_item m c;
      match n_next n with None => Ok c | Some c' => last_item fuel' c' m end
  end.

Definition cJSON_AddItemToArray (array : loc) (item : option loc) (m : mem) : res mem :=
  a ← get_item m array;
  match item with
  | None => Ok m
  | Some item =>
      match n_child a with
      | None => upd array (set_child (Some item)) m
      | Some c => c ← last_item (rounds m) c m; suffix_object c item m
      end
  end.

Definition cJSON_AddItemToObject (object : loc) (string : list Z) (item : option loc) (m : mem) : res mem :=
  match item with
  | None => Ok m
  | Some i =>
      n ← get_item m i;
      m ← (match n_string n with Some s => free_string s m | None => Ok m end);
      let '(s, m) := alloc (Str string) m in
      m ← upd i (set_string (Some (SHeap s))) m;
      cJSON_AddItemToArray object item m
  end.

Definition cJSON_AddItemToObjectCS (object : loc) (string : list Z) (item : option loc) (m : mem) : res mem :=
  match item with
  | None => Ok m
  | Some i =>
      n ← get_item m i;
      m ← (if negb (StringIsConst n) then
             match n_string n with Some s => free_string s m | None => Ok m end
           else Ok m);
      m ← upd i (fun n => set_const (set_string (Some (SConst string)) n)) m;
      cJSON_AddItemToArray object item m
  end.

Definition cJSON_AddItemReferenceToArray (array item : loc) (m : mem) : res mem :=
  '(r, m) ← create_reference item m; cJSON_AddItemToArray array (Some r) m.
Definition cJSON_AddItemReferenceToObject (object : loc) (string : list Z) (item : loc) (m : mem) : res mem :=
  '(r, m) ← create_reference item m; cJSON_AddItemToObject object string (Some r) m.

(** [while (c && which>0) c=c->next,which--] *)
Fixpoint walk (which : nat) (c : option loc) (m : mem) : res (option loc) :=
  match which, c with
  | S which', Some l => n ← get_item m l; walk which' (n_next n) m
  | _, _ => Ok c
  end.

Definition cJSON_DetachItemFromArray (array : loc) (which : Z) (m : mem) : res (option loc * mem) :=
  a ← get_item m array;
  c ← walk (Z.to_nat which) (n_child a) m;
  match c with
  | None => Ok (None, m)
  | Some c =>
      n ← get_item m c;
      m ← (match n_prev n with Some p => upd p (set_next (n_next n)) m | None => Ok m end);
      n ← get_item m c;
      m ← (match n_next n with Some q => upd q (set_prev (n_prev n)) m | None => Ok m end);
      a ← get_item m array;
      n ← get_item m c;
      m ← (if bool_decide (Some c = n_child a) then upd array (set_child (n_next n)) m else Ok m);
      m ← upd c (fun n => set_prev None (set_next None n)) m;
      Ok (Some c, m)
  end.

Definition cJSON_DeleteItemFromArray (array : loc) (which : Z) (m : mem) : res mem :=
  '(c, m) ← cJSON_DetachItemFromArray array which m; cJSON_Delete c m.

Definition cJSON_InsertItemInArray (array : loc) (which : Z) (newitem : loc) (m : mem) : res mem :=
  a ← get_item m array;
  c ← walk (Z.to_nat which) (n_child a) m;
  match c with
  | None => cJSON_AddItemToArray array (Some newitem) m
  | Some c =>
      m ← upd newitem (set_next (Some c)) m;
      n ← get_item m c;
      m ← upd newitem (set_prev (n_prev n)) m;
      m ← upd c (set_prev (Some newitem)) m;
      a ← get_item m array;
      if bool_decide (Some c = n_child a) then upd array (set_child (Some newitem)) m
      else
        x ← get_item m newitem;
        match n_prev x with
        | Some p => upd p (set_next (Some newitem)) m
        | None => Fault NullDeref
        end
  end.

Definition cJSON_ReplaceItemInArray (array : loc) (which : Z) (newitem : loc) (m : mem) : res mem :=
  a ← get_item m array;
  c ← walk (Z.to_nat which) (n_child a) m;
  match c with
  | None => Ok m
  | Some c =>
      n ← get_item m c;
      m ← upd newitem (set_next (n_next n)) m;
      n ← get_item m c;
      m ← upd newitem (set_prev (n_prev n)) m;
      x ← get_item m newitem;
      m ← (match n_next x with Some q => upd q (set_prev (Some newitem)) m | None => Ok m end);
      a ← get_item m array;
      m ← (if bool_decide (Some c = n_child a) then upd array (set_child (Some newitem)) m
           else
             x ← get_item m newitem;
             match n_prev x with
             | Some p => upd p (set_next (Some newitem)) m
             | None => Fault NullDeref
             end);
      m ← upd c (fun n => set_prev None (set_next None n)) m;
      cJSON_Delete (Some c) m
  end.

(** The place of the first child with the name. *)
Fixpoint find_name (fuel : nat) (name : list Z) (i : Z) (c : option loc) (m : mem) : res (option Z) :=
  match fuel with
  | O => Fault Hang
  | S fuel' =>
      match c with
      | None => Ok None
      | Some l =>
          n ← get_item m l;
          s ← (match n_string n with
               | None => Ok None
               | Some (SConst s) => Ok (Some s)
               | Some (SHeap l) =>
                   match cells m !! l with Some (Str s) => Ok (Some s) | _ => Fault OutOfBounds end
               end);
          if cJSON_strcasecmp_eq s name then Ok (Some i) else find_name fuel' name (i + 1) (n_next n) m
      end
  end.

Definition cJSON_DetachItemFromObject (object : loc) (string : list Z) (m : mem) : res (option loc * mem) :=
  o ← get_item m object;
  i ← find_name (rounds m) string 0 (n_child o) m;
  match i with
  | None => Ok (None, m)
  | Some i => cJSON_DetachItemFromArray object i m
  end.
Definition cJSON_DeleteItemFromObject (object : loc) (string : list Z) (m : mem) : res mem :=
  '(c, m) ← cJSON_DetachItemFromObject object string m; cJSON_Delete c m.

Definition cJSON_ReplaceItemInObject (object : loc) (string : list Z) (newitem : loc) (m : mem) : res mem :=
  o ← get_item m object;
  i ← find_name (rounds m) string 0 (n_child o) m;
  match i with
  | None => Ok m
  | Some i =>
      let '(s, m) := alloc (Str string) m in
      m ← upd newitem (set_string (Some (SHeap s))) m;
      cJSON_ReplaceItemInArray object i newitem m
  end.

(** ** Trees of cells *)

(** An item, the strings it owns and its children. *)
Inductive tree : Type := Tree (l : loc) (strs : list loc) (kids : list tree).
Definition root (t : tree) : loc := let 'Tree l _ _ := t in l.
Fixpoint owned (t : tree) : list loc :=
  let 'Tree l strs kids := t in l :: strs ++ concat (map owned kids).
Definition owneds (ts : list tree) : list loc := concat (map owned ts).
Definition first (ts : list tree) (next : option loc) : option loc :=
  match ts with [] => next | t :: _ => Some (root t) end.

Definition own_strings (n : node) : list loc :=
  (if IsReference n then [] else match n_valuestring n with Some v => [v] | None => [] end)
  ++ (if StringIsConst n then [] else match n_string n with Some (SHeap s) => [s] | _ => [] end).
(** A name that is not owned is marked. *)
Definition name_marked (n : node) : bool :=
  StringIsConst n || match n_string n with Some (SConst _) => false | _ => true end.

(** Trees linked one after the other, from [prev] to [next]. *)
Definition chain_of (R : tree -> option loc -> option loc -> Prop) :=
  fix go (prev : option loc) (ts : list tree) (next : option loc) : Prop :=
    match ts with
    | [] => True
    | t :: ts' => R t prev (first ts' next) /\ go (Some (root t)) ts' next
    end.

Definition is_str (m : mem) (l : loc) : Prop := exists s, cells m !! l = Some (Str s).

Fixpoint rep (m : mem) (t : tree) (prev next : option loc) {struct t} : Prop :=
  let 'Tree l strs kids := t in
  exists n, cells m !! l = Some (Item n) /\ n_prev n = prev /\ n_next n = next
  /\ own_strings n = strs /\ name_marked n = true /\ Forall (is_str m) strs
  /\ (if IsReference n then kids = []
      else n_child n = first kids None /\ chain_of (fun t p x => rep m t p x) None kids None).
Definition chain (m : mem) : option loc -> list tree -> option loc -> Prop := chain_of (fun t p x => rep m t p x).

Lemma tree_ind' (P : tree -> Prop) (H : forall l strs kids, Forall P kids -> P (Tree l strs kids)) :
  forall t, P t.
Proof.
  fix IH 1. intros [l strs kids]. apply H. induction kids as [|t kids IHk]; constructor; [apply IH|exact IHk].
Qed.

Lemma owneds_cons t ts : owneds (t :: ts) = owned t ++ owneds ts.
Proof. done. Qed.
Lemma owneds_app ts ts' : owneds (ts ++ ts') = owneds ts ++ owneds ts'.
Proof. unfold owneds. by rewrite map_app, concat_app. Qed.
Lemma root_owned t : root t ∈ owned t.
Proof. destruct t. apply list_elem_of_here. Qed.

Lemma chain_cons m p t ts x : chain m p (t :: ts) x <-> rep m t p (first ts x) /\ chain m (Some (root t)) ts x.
Proof. done. Qed.

Fixpoint last_root (p : option loc) (ts : list tree) : option loc :=
  match ts with [] => p | t :: ts' => last_root (Some (root t)) ts' end.

Lemma first_app ts ts' x : first (ts ++ ts') x = first ts (first ts' x).
Proof. by destruct ts. Qed.

Lemma last_root_snoc p ts t : last_root p (ts ++ [t]) = Some (root t).
Proof. revert p. induction ts as [|t' ts IH]; intros p; [done|apply IH]. Qed.

Lemma last_root_None ts : last_root None ts = None -> ts = [].
Proof. destruct (decide (ts = [])) as [->|(ts' & t & ->)%exists_last]; [done|]. by rewrite last_root_snoc. Qed.

Lemma items_app m p ts ts' x :
  chain m p (ts ++ ts') x <-> chain m p ts (first ts' x) /\ chain m (last_root p ts) ts' x.
Proof.
  revert p. induction ts as [|t ts IH]; intros p; cbn [app]; [split; [by split|by intros []]|].
  rewrite !chain_cons, IH, first_app. cbn [last_root]. tauto.
Qed.

(** Only the cells a tree owns matter to it. *)
Definition agree (ls : list loc) (m m' : mem) : Prop := forall l, l ∈ ls -> cells m' !! l = cells m !! l.

Lemma agree_sub ls ls' m m' : agree ls' m m' -> (forall l, l ∈ ls -> l ∈ ls') -> agree ls m m'.
Proof. intros H Hs l Hl. by apply H, Hs. Qed.

Lemma rep_frame m m' t : forall p x, agree (owned t) m m' -> rep m t p x -> rep m' t p x.
Proof.
  induction t as [l strs kids IH] using tree_ind'. intros p x Ha.
  cbn [rep owned] in *. intros (n & Hl & Hp & Hx & Hs & Hm & Hstr & Hk). exists n.
  rewrite (Ha l) by apply list_elem_of_here. do 5 (split; [done|]). split.
  { apply Forall_forall. intros s Hin. rewrite Forall_forall in Hstr. destruct (Hstr s Hin) as [v Hv].
    exists v. rewrite Ha; [done|]. apply list_elem_of_further, elem_of_app. left. by apply list_elem_of_In. }
  destruct (IsReference n); [done|]. destruct Hk as [Hc Hk]. split; [done|].
  assert (Hag : agree (owneds kids) m m').
  { eapply agree_sub; [exact Ha|]. intros k Hin. apply list_elem_of_further, elem_of_app. by right. }
  clear -IH Hk Hag. revert Hk. generalize (None : option loc) at 1 3 as q.
  induction IH as [|t kids Ht IH IHk]; intros q; [done|]. cbn. rewrite owneds_cons in Hag. intros [H1 H2]. split.
  - apply Ht; [|done]. eapply agree_sub; [exact Hag|]. intros k Hin. apply elem_of_app. by left.
  - apply IHk; [|done]. eapply agree_sub; [exact Hag|]. intros k Hin. apply elem_of_app. by right.
Qed.

Lemma items_frame m m' ts : forall p x, agree (owneds ts) m m' -> chain m p ts x -> chain m' p ts x.
Proof.
  induction ts as [|t ts IH]; intros p x Ha; [done|]. rewrite owneds_cons in Ha. rewrite !chain_cons. intros [H1 H2].
  split; [eapply rep_frame; [|exact H1]|eapply IH; [|exact H2]];
    (eapply agree_sub; [exact Ha|]; intros k Hk; apply elem_of_app; tauto).
Qed.

(** ** Deleting *)
Definition removes (ls : list loc) (m m' : mem) : Prop :=
  (forall l, l ∈ ls -> cells m' !! l = None) /\ (forall l, l ∉ ls -> cells m' !! l = cells m !! l).

Lemma removes_nil m : removes [] m m.
Proof. split; [|done]. by intros l ?%list.not_elem_of_nil. Qed.

Lemma removes_app ls ls' m m1 m2 : removes ls m m1 -> removes ls' m1 m2 -> removes (ls ++ ls') m m2.
Proof.
  intros [D1 K1] [D2 K2]. split; intros l Hl.
  - destruct (decide (l ∈ ls')) as [Hin|Hin]; [by apply D2|]. rewrite K2 by done. apply D1.
    apply elem_of_app in Hl. tauto.
  - rewrite elem_of_app in Hl. rewrite K2, K1 by tauto. done.
Qed.

Lemma removes_perm ls ls' m m' : ls ≡ₚ ls' -> removes ls m m' -> removes ls' m m'.
Proof. intros Hp [D K]. split; intros l Hl; [apply D|apply K]; by rewrite Hp. Qed.

Lemma removes_agree ls ls' m m' : removes ls m m' -> (forall l, l ∈ ls' -> l ∉ ls) -> agree ls' m m'.
Proof. intros [_ K] Hd l Hl. by apply K, Hd. Qed.

Lemma get_item_ok m l n : cells m !! l = Some (Item n) -> get_item m l = Ok n.
Proof. intros H. unfold get_item. by rewrite H. Qed.

Lemma free_ok l c m : cells m !! l = Some c -> exists m', cJSON_free l m = Ok m' /\ removes [l] m m'.
Proof.
  intros H. unfold cJSON_free. rewrite H. eexists. split; [done|]. split; intros k Hk; cbn.
  - apply list_elem_of_singleton in Hk as ->. apply lookup_delete_eq.
  - rewrite list_elem_of_singleton in Hk. by apply lookup_delete_ne.
Qed.

(** The strings of an item. *)
Lemma free_strings_ok m n : name_marked n = true -> Forall (is_str m) (own_strings n) -> NoDup (own_strings n) ->
  exists m1 m2,
    (if negb (IsReference n) then
       match n_valuestring n with Some v => cJSON_free v m | None => Ok m end else Ok m) = Ok m1
  /\ (if negb (StringIsConst n) then
       match n_string n with Some s => free_string s m1 | None => Ok m1 end else Ok m1) = Ok m2
  /\ removes (own_strings n) m m2.
Proof.
  unfold own_strings, name_marked. intros Hm Hs Hd.
  set (vs := if IsReference n then [] else _) in *. set (ns := if StringIsConst n then [] else _) in *.
  apply Forall_app in Hs as [Hv Hn]. apply list.NoDup_app in Hd as (_ & Hd & _).
  assert (exists m1, (if negb (IsReference n) then
       match n_valuestring n with Some v => cJSON_free v m | None => Ok m end else Ok m) = Ok m1 /\ removes vs m m1)
    as (m1 & -> & H1).
  { unfold vs in *. destruct (IsReference n); cbn [negb]; [eexists; split; [done|apply removes_nil]|].
    destruct (n_valuestring n) as [v|]; [|eexists; split; [done|apply removes_nil]].
    apply Forall_singleton in Hv as [s Hv]. by eapply free_ok. }
  exists m1.
  assert (exists m2, (if negb (StringIsConst n) then
       match n_string n with Some s => free_string s m1 | None => Ok m1 end else Ok m1) = Ok m2 /\ removes ns m1 m2)
    as (m2 & H2e & H2).
  { unfold ns in *. destruct (StringIsConst n); cbn [negb orb] in *; [eexists; split; [done|apply removes_nil]|].
    destruct (n_string n) as [[l|]|]; [|done|eexists; split; [done|apply removes_nil]].
    apply Forall_singleton in Hn as [s Hn]. eapply free_ok. rewrite (proj2 H1); [exact Hn|].
    intros Hin. apply (Hd l Hin), list_elem_of_here. }
  exists m2. split; [done|]. split; [done|]. by eapply removes_app.
Qed.

Lemma delete_ok fuel : forall ts m p, chain m p ts None -> NoDup (owneds ts) ->
  (length (owneds ts) < fuel)%nat ->
  exists m', delete_loop fuel (first ts None) m = Ok m' /\ removes (owneds ts) m m'.
Proof.
  induction fuel as [|fuel IH]; intros ts m p Hc Hd Hf; [lia|].
  destruct ts as [|[l strs kids] ts]; [eexists; split; [done|apply removes_nil]|].
  rewrite owneds_cons in *. cbn [owned] in *. fold (owneds kids) in *. cbn [delete_loop first root].
  apply chain_cons in Hc as [(n & Hl & _ & Hx & Hs & Hm & Hstr & Hk) Hc].
  rewrite (get_item_ok _ _ _ Hl). cbn [mbind res_bind].
  cbn [app length] in Hf. rewrite !length_app in Hf.
  cbn [app] in Hd. rewrite <- app_assoc in Hd. apply list.NoDup_cons in Hd as [Hl' Hd].
  apply list.NoDup_app in Hd as (Hds & Hd1 & Hd). apply list.NoDup_app in Hd as (Hdk & Hd2 & Hdt).
  assert (exists m1, (if negb (IsReference n) then
       match n_child n with Some _ => delete_loop fuel (n_child n) m | None => Ok m end else Ok m) = Ok m1
       /\ removes (owneds kids) m m1) as (m1 & -> & H1).
  { destruct (IsReference n); cbn [negb]; [subst kids; eexists; split; [done|apply removes_nil]|].
    destruct Hk as [-> Hk]. destruct (IH kids m None Hk Hdk) as (m1 & He & H1); [lia|].
    destruct kids; [eexists; split; [done|apply removes_nil]|]. cbn [first] in *. eauto. }
  cbn [mbind res_bind].
  assert (Hsep : forall k, k ∈ strs -> k ∉ owneds kids).
  { intros k Hk1 Hk2. apply (Hd1 k Hk1), elem_of_app. by left. }
  subst strs.
  destruct (free_strings_ok m1 n Hm) as (m2 & m3 & -> & He3 & H3); [|done|].
  { apply List.Forall_forall. intros k Hk1. rewrite List.Forall_forall in Hstr. destruct (Hstr k Hk1) as [s Hks].
    exists s. rewrite (proj2 H1); [done|]. by apply Hsep, list_elem_of_In. }
  cbn [mbind res_bind]. rewrite He3. cbn [mbind res_bind].
  pose proof (removes_app _ _ _ _ _ H1 H3) as H13.
  rewrite !elem_of_app in Hl'.
  destruct (free_ok l (Item n) m3) as (m4 & -> & H4).
  { rewrite (proj2 H13); [done|]. rewrite elem_of_app. tauto. }
  cbn [mbind res_bind]. rewrite Hx. pose proof (removes_app _ _ _ _ _ H13 H4) as H14.
  destruct (IH ts m4 (Some l)) as (m5 & He5 & H5); [|done|lia|].
  { eapply items_frame; [|exact Hc]. eapply removes_agree; [exact H14|]. intros k Hk1.
    rewrite !elem_of_app, list_elem_of_singleton. intros [[Hk2|Hk2]| ->]; [by apply (Hd2 k)| |tauto].
    apply (Hd1 k Hk2), elem_of_app. by right. }
  exists m5. split; [done|]. eapply removes_perm; [|by eapply removes_app].
  rewrite (Permutation_app_comm (owneds kids)), (Permutation_app_comm (_ ++ _) [l]). by rewrite <- app_assoc.
Qed.

Lemma rep_alloc m t : forall p x, rep m t p x -> forall l, l ∈ owned t -> is_Some (cells m !! l).
Proof.
  induction t as [l strs kids IH] using tree_ind'. intros p x (n & Hl & _ & _ & _ & _ & Hstr & Hk) k.
  cbn [owned]. rewrite list.elem_of_cons, elem_of_app. intros [->|[Hin|Hin]]; [by eexists| |].
  - rewrite List.Forall_forall in Hstr. apply list_elem_of_In in Hin. destruct (Hstr k Hin) as [s Hs]. by eexists.
  - destruct (IsReference n); [subst kids; by apply list.not_elem_of_nil in Hin|]. destruct Hk as [_ Hk]. revert Hk Hin.
    generalize (None : option loc) at 1 as q. induction IH as [|t kids Ht IH IHk]; intros q; [by intros _ ?%list.not_elem_of_nil|].
    cbn. intros [H1 H2]. rewrite elem_of_app. intros [Hin|Hin]; [by eapply Ht|by eapply IHk].
Qed.

Lemma chain_alloc m ts : forall p x, chain m p ts x -> forall l, l ∈ owneds ts -> is_Some (cells m !! l).
Proof.
  induction ts as [|t ts IH]; intros p x; [by intros _ l ?%list.not_elem_of_nil|].
  rewrite chain_cons, owneds_cons. intros [H1 H2] l. rewrite elem_of_app.
  intros [Hin|Hin]; [by eapply rep_alloc|by eapply IH].
Qed.

Lemma rounds_enough m ls : NoDup ls -> (forall l, l ∈ ls -> is_Some (cells m !! l)) -> (length ls < rounds m)%nat.
Proof.
  intros Hd Hin. unfold rounds. rewrite <- (size_dom (D := gset loc)), <- (size_list_to_set (C := gset loc)) by done.
  apply Nat.lt_succ_r, subseteq_size. intros l Hl. apply elem_of_list_to_set in Hl. by apply elem_of_dom, Hin.
Qed.

Lemma cJSON_Delete_ok ts m p : chain m p ts None -> NoDup (owneds ts) ->
  exists m', cJSON_Delete (first ts None) m = Ok m' /\ removes (owneds ts) m m'.
Proof.
  intros Hc Hd. apply (delete_ok _ _ _ p); [done..|]. apply rounds_enough; [done|]. by eapply chain_alloc.
Qed.

(** ** Relinking *)

(** Only the cells of [ls] have changed. *)
Definition only (ls : list loc) (m m' : mem) : Prop := forall l, l ∉ ls -> cells m' !! l = cells m !! l.

Lemma only_refl ls m : only ls m m.
Proof. done. Qed.
Lemma only_trans ls m m1 m2 : only ls m m1 -> only ls m1 m2 -> only ls m m2.
Proof. intros H1 H2 l Hl. by rewrite H2, H1. Qed.
Lemma only_sub ls ls' m m' : only ls m m' -> (forall l, l ∈ ls -> l ∈ ls') -> only ls' m m'.
Proof. intros H Hs l Hl. apply H. intros Hin. by apply Hl, Hs. Qed.
Lemma only_agree ls ls' m m' : only ls m m' -> (forall l, l ∈ ls' -> l ∉ ls) -> agree ls' m m'.
Proof. intros H Hd l Hl. by apply H, Hd. Qed.

Lemma upd_ok l f m n : cells m !! l = Some (Item n) ->
  exists m', upd l f m = Ok m' /\ cells m' !! l = Some (Item (f n)) /\ only [l] m m'.
Proof.
  intros H. unfold upd. rewrite (get_item_ok _ _ _ H). eexists. split; [done|]. cbn. split; [apply lookup_insert_eq|].
  intros k Hk. rewrite list_elem_of_singleton in Hk. by apply lookup_insert_ne.
Qed.

(** A change of the links alone. *)
Definition links_only (f : node -> node) : Prop := forall n,
  n_child (f n) = n_child n /\ IsReference (f n) = IsReference n /\ StringIsConst (f n) = StringIsConst n
  /\ n_valuestring (f n) = n_valuestring n /\ n_string (f n) = n_string n.

Lemma rep_get m t p x : rep m t p x -> exists n, cells m !! root t = Some (Item n)
  /\ get_item m (root t) = Ok n /\ n_prev n = p /\ n_next n = x.
Proof.
  destruct t. intros (n & Hl & Hp & Hx & _). exists n. repeat split; [done| |done..]. by apply get_item_ok.
Qed.

Lemma rep_relink f m t p x : links_only f -> rep m t p x -> NoDup (owned t) ->
  exists m' n, upd (root t) f m = Ok m' /\ n_prev n = p /\ n_next n = x
  /\ rep m' t (n_prev (f n)) (n_next (f n)) /\ only (owned t) m m'.
Proof.
  intros Hf Hr Hd. destruct t as [l strs kids]. pose proof Hr as (n & Hl & Hp & Hx & Hs & Hm & Hstr & Hk).
  destruct (upd_ok l f m n Hl) as (m' & He & Hl' & Ho). exists m', n. split; [done|]. do 2 (split; [done|]).
  cbn [owned] in *. apply list.NoDup_cons in Hd as [Hni Hd]. rewrite elem_of_app in Hni.
  split; [|eapply only_sub; [exact Ho|]; intros k ->%list_elem_of_singleton; apply list_elem_of_here].
  destruct (Hf n) as (F1 & F2 & F3 & F4 & F5).
  exists (f n). split; [done|]. do 2 (split; [done|]). split; [|split; [|split]].
  - unfold own_strings in *. by rewrite F2, F3, F4, F5.
  - unfold name_marked in *. by rewrite F3, F5.
  - apply List.Forall_forall. intros k Hin. rewrite List.Forall_forall in Hstr. destruct (Hstr k Hin) as [s Hks].
    exists s. rewrite Ho; [done|]. rewrite list_elem_of_singleton. intros ->. apply Hni. left. by apply list_elem_of_In.
  - rewrite F1, F2. destruct (IsReference n); [done|]. destruct Hk as [Hc Hk]. split; [done|].
    eapply (items_frame m m' kids); [|exact Hk]. eapply only_agree; [exact Ho|].
    intros k Hin ->%list_elem_of_singleton. apply Hni. by right.
Qed.

Lemma links_next x : links_only (set_next x). Proof. by intros n. Qed.
Lemma links_prev x : links_only (set_prev x). Proof. by intros n. Qed.
Lemma links_clear : links_only (fun n => set_prev None (set_next None n)). Proof. by intros n. Qed.

(** The [prev] pointer of the first of the trees. *)
Lemma link_prev_ok m p p' ts x : chain m p ts x -> NoDup (owneds ts) ->
  exists m', match first ts None with Some q => upd q (set_prev p') m | None => Ok m end = Ok m'
  /\ chain m' p' ts x /\ only (owneds ts) m m'.
Proof.
  destruct ts as [|t ts]; [eexists; split; [done|]; by split|]. rewrite owneds_cons. intros [Hr Hc] Hd.
  apply list.NoDup_app in Hd as (Hd & Hsep & _). cbn [first].
  destruct (rep_relink (set_prev p') m t p _ (links_prev p') Hr Hd) as (m' & n & -> & Hp & Hx & Hr' & Ho).
  exists m'. split; [done|]. cbn in Hr'. rewrite Hx in Hr'. split; [split; [done|]|].
  - eapply (items_frame m m' ts); [|exact Hc]. eapply only_agree; [exact Ho|]. intros k H1 H2. by apply (Hsep k).
  - eapply only_sub; [exact Ho|]. intros k Hk. apply elem_of_app. by left.
Qed.

(** The array with its first trees, the last of which links to [x]. *)
Definition prefix (m : mem) (a : loc) (ts : list tree) (x : option loc) : Prop :=
  (exists n, cells m !! a = Some (Item n) /\ n_child n = first ts x) /\ chain m None ts x.

Lemma prefix_get m a ts x : prefix m a ts x -> exists n, get_item m a = Ok n /\ n_child n = first ts x.
Proof. intros ((n & Hn & Hc) & _). exists n. split; [by apply get_item_ok|done]. Qed.

Lemma prefix_frame m m' a ts x : agree (a :: owneds ts) m m' -> prefix m a ts x -> prefix m' a ts x.
Proof.
  intros Ha ((n & Hn & Hc) & Hch). split; [exists n; split; [|done]; rewrite Ha; [done|apply list_elem_of_here]|].
  eapply items_frame; [|exact Hch]. eapply agree_sub; [exact Ha|]. intros l. apply list_elem_of_further.
Qed.

(** What follows the first trees: the child of the array, or the [next] pointer
    of the last of them. *)
Lemma link_next_ok m a ts x x' : prefix m a ts x -> NoDup (a :: owneds ts) ->
  exists m', match last_root None ts with
             | Some p => upd p (set_next x') m
             | None => upd a (set_child x') m
             end = Ok m'
  /\ prefix m' a ts x' /\ only (a :: owneds ts) m m'.
Proof.
  intros ((n & Hn & Hc) & Hch) Hd. destruct (decide (ts = [])) as [->|Hne].
  { destruct (upd_ok a (set_child x') m n Hn) as (m' & He & Ha & Ho). exists m'. split; [done|].
    split; [|done]. split; [|done]. by eexists. }
  destruct (exists_last Hne) as (ts' & t & ->). clear Hne. rewrite last_root_snoc.
  rewrite owneds_app, owneds_cons, app_nil_r in *. apply list.NoDup_cons in Hd as [Hni Hd].
  apply list.NoDup_app in Hd as (_ & Hsep & Hd). apply items_app in Hch as [Hch [Hr _]].
  destruct (rep_relink (set_next x') m t _ _ (links_next x') Hr Hd) as (m' & nt & -> & Hp & Hx & Hr' & Ho).
  exists m'. split; [done|]. cbn in Hr'. rewrite Hp in Hr'. rewrite elem_of_app in Hni. split.
  - split.
    + exists n. split; [rewrite Ho by tauto; done|]. rewrite Hc, !first_app. by destruct ts'.
    + apply items_app. split; [|by split]. eapply (items_frame m m' ts'); [|exact Hch].
      eapply only_agree; [exact Ho|]. intros k H1 H2. by apply (Hsep k).
  - eapply only_sub; [exact Ho|]. intros k Hk. apply list_elem_of_further, elem_of_app. by right.
Qed.

Lemma walk_ok m ts : forall k p, chain m p ts None -> walk k (first ts None) m = Ok (root <$> ts !! k).
Proof.
  induction ts as [|t ts IH]; intros k p Hc; [by destruct k|]. destruct k as [|k]; [done|].
  apply chain_cons in Hc as [Hr Hc]. destruct (rep_get _ _ _ _ Hr) as (n & _ & Hg & _ & Hx).
  cbn [walk first]. rewrite Hg. cbn [mbind res_bind]. rewrite Hx. by eapply IH.
Qed.

Lemma last_item_ok m ts t : forall fuel p, chain m p (ts ++ [t]) None -> (length ts < fuel)%nat ->
  exists c, first (ts ++ [t]) None = Some c /\ last_item fuel c m = Ok (root t).
Proof.
  induction ts as [|u ts IH]; intros fuel p Hc Hf; (destruct fuel as [|fuel]; [lia|]); cbn [app] in *;
    apply chain_cons in Hc as [Hr Hc]; destruct (rep_get _ _ _ _ Hr) as (n & _ & Hg & _ & Hx);
    eexists; (split; [done|]); cbn [last_item]; rewrite Hg; cbn [mbind res_bind]; rewrite Hx.
  - done.
  - destruct (IH fuel _ Hc) as (c & -> & Hl); [cbn in Hf; lia|]. done.
Qed.

(** *** An item between the trees before and behind it *)
Section parts.
Context (a : loc) (ts1 : list tree) (t : tree) (ts2 : list tree).
Definition cells_of : list loc := a :: owneds ts1 ++ owned t ++ owneds ts2.
Context (D : NoDup cells_of).

Definition parts (m : mem) (x1 p x q : option loc) : Prop :=
  prefix m a ts1 x1 /\ rep m t p x /\ chain m q ts2 None.

Lemma parts_sep :
  (NoDup (a :: owneds ts1) /\ NoDup (owned t) /\ NoDup (owneds ts2))
  /\ (forall l, l ∈ a :: owneds ts1 -> l ∉ owned t) /\ (forall l, l ∈ a :: owneds ts1 -> l ∉ owneds ts2)
  /\ (forall l, l ∈ owned t -> l ∉ owneds ts2).
Proof.
  unfold cells_of in D. change (a :: ?l ++ ?r) with ((a :: l) ++ r) in D.
  apply list.NoDup_app in D as (D1 & S1 & D'). apply list.NoDup_app in D' as (D2 & S2 & D3).
  split; [done|]. split; [|split; [|done]]; intros l Hl Hin; apply (S1 l Hl), elem_of_app; tauto.
Qed.

Lemma parts_next m x1 p x q x1' : parts m x1 p x q ->
  exists m', match last_root None ts1 with
             | Some p => upd p (set_next x1') m
             | None => upd a (set_child x1') m
             end = Ok m' /\ parts m' x1' p x q /\ only cells_of m m'.
Proof.
  intros (Hp & Hr & Hc). destruct parts_sep as ((D1 & D2 & D3) & S1 & S2 & S3).
  destruct (link_next_ok m a ts1 x1 x1' Hp D1) as (m' & -> & Hp' & Ho). exists m'. split; [done|]. split.
  - split; [done|]. split.
    + eapply rep_frame; [|exact Hr]. eapply only_agree; [exact Ho|]. intros l H1 H2. by apply (S1 l).
    + eapply items_frame; [|exact Hc]. eapply only_agree; [exact Ho|]. intros l H1 H2. by apply (S2 l).
  - eapply only_sub; [exact Ho|]. intros l. unfold cells_of. rewrite !list.elem_of_cons, elem_of_app. tauto.
Qed.

Lemma parts_prev m x1 p x q q' : parts m x1 p x q ->
  exists m', match first ts2 None with Some c => upd c (set_prev q') m | None => Ok m end = Ok m'
  /\ parts m' x1 p x q' /\ only cells_of m m'.
Proof.
  intros (Hp & Hr & Hc). destruct parts_sep as ((D1 & D2 & D3) & S1 & S2 & S3).
  destruct (link_prev_ok m q q' ts2 None Hc D3) as (m' & -> & Hc' & Ho). exists m'. split; [done|]. split.
  - split; [|split; [|done]].
    + eapply prefix_frame; [|exact Hp]. by eapply only_agree.
    + eapply rep_frame; [|exact Hr]. by eapply only_agree.
  - eapply only_sub; [exact Ho|]. intros l Hl. unfold cells_of. rewrite list.elem_of_cons, !elem_of_app. tauto.
Qed.

Lemma parts_item f m x1 p x q : links_only f -> parts m x1 p x q ->
  exists m' n, upd (root t) f m = Ok m' /\ n_prev n = p /\ n_next n = x
  /\ parts m' x1 (n_prev (f n)) (n_next (f n)) q /\ only cells_of m m'.
Proof.
  intros Hf (Hp & Hr & Hc). destruct parts_sep as ((D1 & D2 & D3) & S1 & S2 & S3).
  destruct (rep_relink f m t p x Hf Hr D2) as (m' & n & -> & Hnp & Hnx & Hr' & Ho).
  exists m', n. split; [done|]. do 2 (split; [done|]). split.
  - split; [|split; [done|]].
    + eapply prefix_frame; [|exact Hp]. by eapply only_agree.
    + eapply items_frame; [|exact Hc]. eapply only_agree; [exact Ho|]. intros l H1 H2. by apply (S3 l).
  - eapply only_sub; [exact Ho|]. intros l Hl. unfold cells_of. rewrite list.elem_of_cons, !elem_of_app. tauto.
Qed.

(** Whether the trees before are none, as the code finds out. *)
Lemma parts_head m c x1 p x q : parts m x1 p x q -> (ts1 = [] -> x1 = Some c) -> c ∉ owneds ts1 ->
  exists n, get_item m a = Ok n /\
  bool_decide (Some c = n_child n) = match last_root None ts1 with Some _ => false | None => true end.
Proof.
  intros (Hp & _) Hx Hc. destruct (prefix_get _ _ _ _ Hp) as (n & Hg & Hcn). exists n. split; [done|].
  rewrite Hcn. destruct ts1 as [|u ts] eqn:E; [apply bool_decide_eq_true; cbn; by rewrite Hx|]. cbn [first last_root].
  rewrite bool_decide_eq_false_2.
  - clear. revert u. induction ts as [|v ts IH]; intros u; [done|apply IH].
  - intros [= ->]. apply Hc. rewrite owneds_cons. apply elem_of_app. left. apply root_owned.
Qed.
End parts.

Lemma owneds_split ts1 t ts2 : owneds (ts1 ++ t :: ts2) = owneds ts1 ++ owned t ++ owneds ts2.
Proof. by rewrite owneds_app, owneds_cons. Qed.

(** Joining the parts again. *)
Lemma prefix_app m a ts ts' x : prefix m a (ts ++ ts') x <-> prefix m a ts (first ts' x) /\ chain m (last_root None ts) ts' x.
Proof.
  unfold prefix. rewrite items_app. split.
  - intros ((n & Hn & Hc) & H1 & H2). split; [split; [|done]|done]. exists n. by rewrite first_app in Hc.
  - intros (((n & Hn & Hc) & H1) & H2). split; [|done]. exists n. by rewrite first_app.
Qed.

Lemma prefix_first m a ts n : prefix m a ts None -> get_item m a = Ok n -> n_child n = first ts None.
Proof. intros (n' & Hg & Hc)%prefix_get Hg'. rewrite Hg in Hg'. by injection Hg' as <-. Qed.

Lemma detach_item_ok a ts1 t ts2 m : NoDup (cells_of a ts1 t ts2) -> prefix m a (ts1 ++ t :: ts2) None ->
  exists m', cJSON_DetachItemFromArray a (Z.of_nat (length ts1)) m = Ok (Some (root t), m')
  /\ prefix m' a (ts1 ++ ts2) None /\ rep m' t None None /\ only (cells_of a ts1 t ts2) m m'.
Proof.
  intros D Hp. unfold cJSON_DetachItemFromArray. destruct (prefix_get _ _ _ _ Hp) as (na & -> & Hch).
  cbn [mbind res_bind]. rewrite Hch, (walk_ok m _ _ None) by apply Hp.
  rewrite Nat2Z.id, list_lookup_middle by done. cbn [mbind res_bind fmap option_fmap option_map].
  apply prefix_app in Hp as [Hp [Hr Hc]]. cbn [first] in Hp.
  assert (P : parts a ts1 t ts2 m (Some (root t)) (last_root None ts1) (first ts2 None) (Some (root t))) by done.
  clear Hp Hr Hc Hch.
  assert (Hni : root t ∉ owneds ts1).
  { intros Hin. destruct (parts_sep a ts1 t ts2 D) as (_ & S1 & _). apply (S1 (root t)); [|apply root_owned].
    by apply list_elem_of_further. }
  destruct (rep_get _ _ _ _ (proj1 (proj2 P))) as (n & _ & -> & Hnp & Hnx). cbn [mbind res_bind]. rewrite Hnp, Hnx.
  assert (exists m1, match last_root None ts1 with Some p => upd p (set_next (first ts2 None)) m | None => Ok m end = Ok m1
            /\ only (cells_of a ts1 t ts2) m m1
            /\ parts a ts1 t ts2 m1 (match last_root None ts1 with Some _ => first ts2 None | None => Some (root t) end)
                 (last_root None ts1) (first ts2 None) (Some (root t))) as (m1 & -> & O1 & P1).
  { destruct (parts_next _ _ _ _ D _ _ _ _ _ (first ts2 None) P) as (m1 & He & P1 & O1).
    destruct (last_root None ts1); [by exists m1|]. by exists m. }
  cbn [mbind res_bind]. clear P n Hnp Hnx.
  destruct (rep_get _ _ _ _ (proj1 (proj2 P1))) as (n & _ & -> & Hnp & Hnx). cbn [mbind res_bind]. rewrite Hnp, Hnx.
  destruct (parts_prev _ _ _ _ D _ _ _ _ _ (last_root None ts1) P1) as (m2 & -> & P2 & O2). cbn [mbind res_bind].
  destruct (parts_head _ _ _ _ m2 (root t) _ _ _ _ P2) as (na2 & -> & Hhd); [by intros ->|done|]. cbn [mbind res_bind].
  destruct (rep_get _ _ _ _ (proj1 (proj2 P2))) as (n2 & _ & -> & Hnp2 & Hnx2). cbn [mbind res_bind]. rewrite Hhd, Hnx2.
  assert (exists m3, (if match last_root None ts1 with Some _ => false | None => true end
                      then upd a (set_child (first ts2 None)) m2 else Ok m2) = Ok m3
            /\ only (cells_of a ts1 t ts2) m2 m3
            /\ parts a ts1 t ts2 m3 (first ts2 None) (last_root None ts1) (first ts2 None) (last_root None ts1))
    as (m3 & -> & O3 & P3).
  { destruct (parts_next _ _ _ _ D _ _ _ _ _ (first ts2 None) P2) as (m3 & He & P3 & O3).
    destruct (last_root None ts1); [by exists m2|]. by exists m3. }
  cbn [mbind res_bind].
  destruct (parts_item _ _ _ _ D _ _ _ _ _ _ links_clear P3) as (m4 & n4 & -> & _ & _ & (Hp & Hr & Hc) & O4).
  cbn [mbind res_bind]. exists m4. split; [done|]. split; [by apply prefix_app|]. split; [done|].
  eauto using only_trans.
Qed.

(** No item at the place. *)
Lemma walk_none a ts m which : prefix m a ts None -> ts !! Z.to_nat which = None ->
  exists n, get_item m a = Ok n /\ walk (Z.to_nat which) (n_child n) m = Ok None.
Proof.
  intros Hp Hl. destruct (prefix_get _ _ _ _ Hp) as (n & Hg & Hc). exists n. split; [done|].
  rewrite Hc, (walk_ok m _ _ None), Hl by apply Hp. done.
Qed.

Lemma length_owneds ts : (length ts <= length (owneds ts))%nat.
Proof.
  induction ts as [|[l strs kids] ts IH]; [done|]. rewrite owneds_cons, length_app. cbn. lia.
Qed.

(** Hanging a tree behind the last of the children. *)
Lemma link_last_ok a ts t m : NoDup (cells_of a ts t []) -> prefix m a ts None -> rep m t None None ->
  exists m', match last_root None ts with
             | Some p => suffix_object p (root t) m
             | None => upd a (set_child (Some (root t))) m
             end = Ok m'
  /\ prefix m' a (ts ++ [t]) None /\ only (cells_of a ts t []) m m'.
Proof.
  intros D Hp Hr. assert (P : parts a ts t [] m None None None (last_root None ts)) by done.
  destruct (parts_next _ _ _ _ D _ _ _ _ _ (Some (root t)) P) as (m1 & He & P1 & O1).
  destruct (decide (ts = [])) as [->|(ts' & u & ->)%exists_last].
  - cbn [first last_root] in *. exists m1. split; [done|]. split; [|done].
    destruct P1 as (Hp1 & Hr1 & _). apply prefix_app. split; [done|]. by split.
  - rewrite last_root_snoc in *. unfold suffix_object. rewrite He. cbn [mbind res_bind].
    destruct (parts_item _ _ _ _ D _ _ _ _ _ _ (links_prev (Some (root u))) P1)
      as (m2 & n & -> & Hnp & Hnx & (Hp2 & Hr2 & _) & O2).
    exists m2. split; [done|]. split; [|by eapply only_trans]. cbn in Hr2. rewrite Hnx in Hr2.
    apply prefix_app. split; [done|]. rewrite last_root_snoc. by split.
Qed.

Lemma add_ok a ts t m : NoDup (cells_of a ts t []) -> prefix m a ts None -> rep m t None None ->
  exists m', cJSON_AddItemToArray a (Some (root t)) m = Ok m'
  /\ prefix m' a (ts ++ [t]) None /\ only (cells_of a ts t []) m m'.
Proof.
  intros D Hp Hr. destruct (link_last_ok a ts t m D Hp Hr) as (m' & He & H). exists m'. split; [|done].
  unfold cJSON_AddItemToArray. destruct (prefix_get _ _ _ _ Hp) as (na & -> & Hch). cbn [mbind res_bind]. rewrite Hch.
  destruct (decide (ts = [])) as [->|(ts' & u & ->)%exists_last]; [done|]. rewrite last_root_snoc in He.
  destruct (last_item_ok m ts' u (rounds m) None (proj2 Hp)) as (c & -> & Hl).
  { etransitivity; [|apply (rounds_enough m (owneds (ts' ++ [u])))].
    - pose proof (length_owneds (ts' ++ [u])). rewrite length_app in *. cbn in *. lia.
    - destruct (parts_sep _ _ _ _ D) as ((D1 & _) & _). by apply list.NoDup_cons in D1 as [_ D1].
    - eapply chain_alloc, Hp. }
  by rewrite Hl.
Qed.

Lemma parts_links a ts1 t ts2 m x1 q p x : NoDup (cells_of a ts1 t ts2) ->
  parts a ts1 t ts2 m x1 None None q ->
  exists m1 m2, upd (root t) (set_next x) m = Ok m1 /\ parts a ts1 t ts2 m1 x1 None x q
  /\ upd (root t) (set_prev p) m1 = Ok m2 /\ parts a ts1 t ts2 m2 x1 p x q
  /\ only (cells_of a ts1 t ts2) m m1 /\ only (cells_of a ts1 t ts2) m m2.
Proof.
  intros D P. destruct (parts_item _ _ _ _ D _ _ _ _ _ _ (links_next x) P) as (m1 & n & -> & Hnp & _ & P1 & O1).
  cbn in P1. rewrite Hnp in P1.
  destruct (parts_item _ _ _ _ D _ _ _ _ _ _ (links_prev p) P1) as (m2 & n2 & He2 & _ & Hnx & P2 & O2).
  cbn in P2. rewrite Hnx in P2. exists m1, m2. do 4 (split; [done|]). split; [done|]. by eapply only_trans.
Qed.

Lemma insert_ok a ts1 t u ts2 m : NoDup (cells_of a ts1 t (u :: ts2)) -> prefix m a (ts1 ++ u :: ts2) None ->
  rep m t None None ->
  exists m', cJSON_InsertItemInArray a (Z.of_nat (length ts1)) (root t) m = Ok m'
  /\ prefix m' a (ts1 ++ t :: u :: ts2) None /\ only (cells_of a ts1 t (u :: ts2)) m m'.
Proof.
  intros D Hp Hr. unfold cJSON_InsertItemInArray. destruct (prefix_get _ _ _ _ Hp) as (na & -> & Hch).
  cbn [mbind res_bind]. rewrite Hch, (walk_ok m _ _ None) by apply Hp.
  rewrite Nat2Z.id, list_lookup_middle by done. cbn [mbind res_bind fmap option_fmap option_map].
  apply prefix_app in Hp as [Hp Hc].
  assert (P : parts a ts1 t (u :: ts2) m (Some (root u)) None None (last_root None ts1)) by done. clear Hp Hr Hc Hch.
  assert (Hni : root u ∉ owneds ts1).
  { intros Hin. destruct (parts_sep _ _ _ _ D) as (_ & _ & S2 & _). apply (S2 (root u)); [by apply list_elem_of_further|].
    rewrite owneds_cons. apply elem_of_app. left. apply root_owned. }
  destruct (parts_links _ _ _ _ _ _ _ (last_root None ts1) (Some (root u)) D P) as (m1 & m2 & -> & P1 & He2 & P2 & O1 & O2).
  cbn [mbind res_bind].
  destruct (rep_get _ _ _ _ (proj1 (proj2 (proj2 P1)))) as (nu & _ & -> & Hup & _). cbn [mbind res_bind]. rewrite Hup, He2.
  cbn [mbind res_bind].
  destruct (parts_prev _ _ _ _ D _ _ _ _ _ (Some (root t)) P2) as (m3 & He3 & P3 & O3). cbn [first] in He3. rewrite He3.
  cbn [mbind res_bind].
  destruct (parts_head _ _ _ _ m3 (root u) _ _ _ _ P3) as (na3 & -> & Hhd); [done|done|]. cbn [mbind res_bind]. rewrite Hhd.
  destruct (rep_get _ _ _ _ (proj1 (proj2 P3))) as (nt & _ & Hgt & Htp & _).
  destruct (parts_next _ _ _ _ D _ _ _ _ _ (Some (root t)) P3) as (m4 & He4 & (Hp4 & Hr4 & Hc4) & O4).
  exists m4. split.
  - rewrite Hgt. cbn [mbind res_bind]. rewrite Htp. by destruct (last_root None ts1).
  - split; [|eauto using only_trans]. apply prefix_app. split; [done|]. by split.
Qed.

Lemma replace_ok a ts1 old t ts2 m : NoDup (cells_of a ts1 t ts2) -> NoDup (owned old) ->
  (forall l, l ∈ owned old -> l ∉ cells_of a ts1 t ts2) ->
  prefix m a (ts1 ++ old :: ts2) None -> rep m t None None ->
  exists m', cJSON_ReplaceItemInArray a (Z.of_nat (length ts1)) (root t) m = Ok m'
  /\ prefix m' a (ts1 ++ t :: ts2) None
  /\ (forall l, l ∈ owned old -> cells m' !! l = None)
  /\ only (owned old ++ cells_of a ts1 t ts2) m m'.
Proof.
  intros D Dold Sold Hp Hr. unfold cJSON_ReplaceItemInArray. destruct (prefix_get _ _ _ _ Hp) as (na & -> & Hch).
  cbn [mbind res_bind]. rewrite Hch, (walk_ok m _ _ None) by apply Hp.
  rewrite Nat2Z.id, list_lookup_middle by done. cbn [mbind res_bind fmap option_fmap option_map].
  apply prefix_app in Hp as [Hp [Ho Hc]]. cbn [first] in Hp.
  assert (P : parts a ts1 t ts2 m (Some (root old)) None None (Some (root old))) by done. clear Hp Hr Hc Hch.
  assert (Hni : root old ∉ owneds ts1).
  { intros Hin. apply (Sold _ (root_owned old)). unfold cells_of. rewrite list.elem_of_cons, elem_of_app. tauto. }
  assert (Hkeep : forall m', only (cells_of a ts1 t ts2) m m' -> rep m' old (last_root None ts1) (first ts2 None)).
  { intros m' H'. eapply rep_frame; [|exact Ho]. by eapply only_agree. }
  destruct (rep_get _ _ _ _ Ho) as (no & _ & -> & Hop & Hox). cbn [mbind res_bind]. rewrite Hox.
  destruct (parts_links _ _ _ _ _ _ _ (last_root None ts1) (first ts2 None) D P) as (m1 & m2 & -> & P1 & He2 & P2 & O1 & O2).
  cbn [mbind res_bind].
  destruct (rep_get _ _ _ _ (Hkeep m1 O1)) as (no1 & _ & -> & Hop1 & _). cbn [mbind res_bind]. rewrite Hop1, He2.
  cbn [mbind res_bind].
  destruct (rep_get _ _ _ _ (proj1 (proj2 P2))) as (nt & _ & -> & _ & Htx). cbn [mbind res_bind]. rewrite Htx.
  destruct (parts_prev _ _ _ _ D _ _ _ _ _ (Some (root t)) P2) as (m3 & -> & P3 & O3). cbn [mbind res_bind].
  destruct (parts_head _ _ _ _ m3 (root old) _ _ _ _ P3) as (na3 & -> & Hhd); [done|done|]. cbn [mbind res_bind]. rewrite Hhd.
  destruct (rep_get _ _ _ _ (proj1 (proj2 P3))) as (nt3 & _ & Hgt & Htp & _).
  destruct (parts_next _ _ _ _ D _ _ _ _ _ (Some (root t)) P3) as (m4 & He4 & P4 & O4).
  rewrite Hgt. cbn [mbind res_bind]. rewrite Htp.
  replace (if match last_root None ts1 with Some _ => false | None => true end
           then upd a (set_child (Some (root t))) m3
           else match last_root None ts1 with Some p => upd p (set_next (Some (root t))) m3 | None => Fault NullDeref end)
    with (Ok m4) by (rewrite <- He4; by destruct (last_root None ts1)).
  cbn [mbind res_bind].
  assert (O : only (cells_of a ts1 t ts2) m m4) by eauto using only_trans.
  destruct (rep_relink _ m4 old _ _ links_clear (Hkeep m4 O) Dold) as (m5 & n5 & -> & _ & _ & Ho5 & O5).
  cbn [mbind res_bind]. cbn in Ho5.
  destruct (cJSON_Delete_ok [old] m5 None) as (m6 & He6 & Hrem); [by split|by rewrite owneds_cons, app_nil_r|].
  rewrite owneds_cons, app_nil_r in Hrem. exists m6. split; [done|].
  assert (O46 : only (owned old) m4 m6) by (intros l Hl; rewrite (proj2 Hrem), O5 by done; done).
  assert (Ag : agree (cells_of a ts1 t ts2) m4 m6).
  { eapply only_agree; [exact O46|]. intros l H1 H2. by apply (Sold l). }
  split; [|split; [by apply Hrem|]].
  - apply (prefix_frame m4).
    + eapply agree_sub; [exact Ag|]. intros l. unfold cells_of. by rewrite owneds_split.
    + destruct P4 as (Hp4 & Hr4 & Hc4). apply prefix_app. split; [done|]. by split.
  - eapply only_trans; [eapply only_sub; [exact O|]|eapply only_sub; [exact O46|]]; intros l; rewrite elem_of_app; tauto.
Qed.

(** ** Sessions of edits *)

(** The children of an array and the items outside it. *)
Record view : Type := mkView { kids : list tree; loose : list tree }.

Inductive edit : Type :=
| EAdd (item : loc) | EInsert (which : Z) (item : loc) | EReplace (which : Z) (item : loc)
| EDetach (which : Z) | EDelete (which : Z).

Definition run_edit (a : loc) (e : edit) (m : mem) : res (option loc * mem) :=
  match e with
  | EAdd item => m ← cJSON_AddItemToArray a (Some item) m; Ok (None, m)
  | EInsert which item => m ← cJSON_InsertItemInArray a which item m; Ok (None, m)
  | EReplace which item => m ← cJSON_ReplaceItemInArray a which item m; Ok (None, m)
  | EDetach which => cJSON_DetachItemFromArray a which m
  | EDelete which => m ← cJSON_DeleteItemFromArray a which m; Ok (None, m)
  end.

Fixpoint run_edits (a : loc) (es : list edit) (m : mem) : res (list (option loc) * mem) :=
  match es with
  | [] => Ok ([], m)
  | e :: es' => '(r, m) ← run_edit a e m; '(rs, m) ← run_edits a es' m; Ok (r :: rs, m)
  end.

(** What an edit means for the list: items that are added come from outside, a
    negative place is the first, a place behind the end appends, replaces or
    removes nothing. *)
Inductive edits : view -> edit -> option loc -> view -> Prop :=
| edits_add ks l1 t l2 : edits (mkView ks (l1 ++ t :: l2)) (EAdd (root t)) None (mkView (ks ++ [t]) (l1 ++ l2))
| edits_insert ks l1 t l2 w :
    edits (mkView ks (l1 ++ t :: l2)) (EInsert w (root t)) None
      (mkView (take (Z.to_nat w) ks ++ t :: drop (Z.to_nat w) ks) (l1 ++ l2))
| edits_replace ks1 old ks2 l1 t l2 w : Z.to_nat w = length ks1 ->
    edits (mkView (ks1 ++ old :: ks2) (l1 ++ t :: l2)) (EReplace w (root t)) None
      (mkView (ks1 ++ t :: ks2) (l1 ++ l2))
| edits_replace_none ks ls w i : (length ks <= Z.to_nat w)%nat ->
    edits (mkView ks ls) (EReplace w i) None (mkView ks ls)
| edits_detach ks1 t ks2 ls w : Z.to_nat w = length ks1 ->
    edits (mkView (ks1 ++ t :: ks2) ls) (EDetach w) (Some (root t)) (mkView (ks1 ++ ks2) (t :: ls))
| edits_detach_none ks ls w : (length ks <= Z.to_nat w)%nat ->
    edits (mkView ks ls) (EDetach w) None (mkView ks ls)
| edits_delete ks1 t ks2 ls w : Z.to_nat w = length ks1 ->
    edits (mkView (ks1 ++ t :: ks2) ls) (EDelete w) None (mkView (ks1 ++ ks2) ls)
| edits_delete_none ks ls w : (length ks <= Z.to_nat w)%nat ->
    edits (mkView ks ls) (EDelete w) None (mkView ks ls).

Inductive session : view -> list edit -> list (option loc) -> view -> Prop :=
| session_nil v : session v [] [] v
| session_cons v e r v1 es rs v2 : edits v e r v1 -> session v1 es rs v2 -> session v (e :: es) (r :: rs) v2.

Definition footprint (a : loc) (v : view) : list loc := a :: owneds (kids v) ++ owneds (loose v).

(** The memory holds the view and, apart from its cells, [others]. *)
Record holds_view (m : mem) (a : loc) (others : gmap loc cell) (v : view) : Prop := {
  hv_kids : prefix m a (kids v) None;
  hv_loose : Forall (fun t => rep m t None None) (loose v);
  hv_nodup : NoDup (footprint a v);
  hv_apart : forall l, l ∈ footprint a v -> others !! l = None;
  hv_others : forall l, l ∉ footprint a v -> cells m !! l = others !! l }.

Lemma hv_step m m' a others v v' freed : holds_view m a others v ->
  footprint a v ≡ₚ freed ++ footprint a v' ->
  prefix m' a (kids v') None -> Forall (fun t => rep m' t None None) (loose v') ->
  (forall l, l ∈ freed -> cells m' !! l = None) -> only (footprint a v) m m' -> holds_view m' a others v'.
Proof.
  intros [_ _ Hd Ha Ho] Hp Hk Hl Hf Honly. constructor; [done|done| | |].
  - rewrite Hp in Hd. by apply list.NoDup_app in Hd as (_ & _ & Hd).
  - intros l Hin. apply Ha. rewrite Hp. apply elem_of_app. by right.
  - intros l Hni. destruct (decide (l ∈ freed)) as [Hin|Hin].
    + rewrite Hf, Ha; [done| |done]. rewrite Hp. apply elem_of_app. by left.
    + rewrite Honly, Ho; [done| |]; rewrite Hp, elem_of_app; tauto.
Qed.

Lemma loose_frame ls X m m' : Forall (fun t => rep m t None None) ls -> only X m m' ->
  (forall l, l ∈ owneds ls -> l ∉ X) -> Forall (fun t => rep m' t None None) ls.
Proof.
  intros H Ho. induction H as [|t ls Ht H IH]; intros Hs; [constructor|]. rewrite owneds_cons in Hs. constructor.
  - eapply rep_frame; [|exact Ht]. eapply only_agree; [exact Ho|]. intros l Hl. apply Hs, elem_of_app. by left.
  - apply IH. intros l Hl. apply Hs, elem_of_app. by right.
Qed.

(** The cells an edit touches, and those of the items outside. *)
Lemma footprint_split a v X Y : NoDup (footprint a v) -> footprint a v ≡ₚ X ++ Y ->
  NoDup X /\ (forall l, l ∈ Y -> l ∉ X) /\ (forall l, l ∈ X -> l ∈ footprint a v).
Proof.
  intros Hd Hp. rewrite Hp in Hd. apply list.NoDup_app in Hd as (HX & Hsep & HY). split; [done|].
  split; [intros l HlY HlX; by apply (Hsep l)|]. intros l Hl. rewrite Hp. apply elem_of_app. by left.
Qed.

Ltac perm := unfold footprint, cells_of; cbn [kids loose];
  rewrite ?owneds_app, ?owneds_cons; unfold owneds; cbn [map concat]; solve_Permutation.

Lemma Forall_mid {A} (P : A -> Prop) l1 x l2 : Forall P (l1 ++ x :: l2) -> P x /\ Forall P (l1 ++ l2).
Proof. intros [H1 [Hx H2]%Forall_cons_1]%Forall_app. split; [done|]. by apply Forall_app. Qed.

Lemma add_view m a others ks l1 t l2 : holds_view m a others (mkView ks (l1 ++ t :: l2)) ->
  exists m', cJSON_AddItemToArray a (Some (root t)) m = Ok m'
  /\ holds_view m' a others (mkView (ks ++ [t]) (l1 ++ l2)).
Proof.
  intros H. pose proof H as [Hk Hl Hd _ _]. cbn [kids loose] in *. apply Forall_mid in Hl as [Ht Hl].
  destruct (footprint_split _ _ (cells_of a ks t []) (owneds (l1 ++ l2)) Hd) as (D & S & I); [perm|].
  destruct (add_ok a ks t m D Hk Ht) as (m' & He & Hk' & Ho). exists m'. split; [done|].
  eapply (hv_step m m' a others _ _ []); [done|perm|done| | |by eapply only_sub].
  - by eapply loose_frame.
  - by intros l ?%list.not_elem_of_nil.
Qed.

(** A place that counts from the first item. *)
Lemma which_place {A} (f : Z -> A) (which : Z) : (forall w, f w = f (Z.of_nat (Z.to_nat w))) ->
  forall n, Z.to_nat which = n -> f which = f (Z.of_nat n).
Proof. by intros H n <-. Qed.

Lemma insert_view m a others ks l1 t l2 w : holds_view m a others (mkView ks (l1 ++ t :: l2)) ->
  exists m', cJSON_InsertItemInArray a w (root t) m = Ok m'
  /\ holds_view m' a others (mkView (take (Z.to_nat w) ks ++ t :: drop (Z.to_nat w) ks) (l1 ++ l2)).
Proof.
  intros H. destruct (decide (length ks <= Z.to_nat w)%nat) as [Hle|Hlt].
  { rewrite take_ge, drop_ge by lia. destruct (add_view _ _ _ _ _ _ _ H) as (m' & He & H').
    exists m'. split; [|done]. unfold cJSON_InsertItemInArray.
    destruct (walk_none a ks m w (hv_kids _ _ _ _ H)) as (n & -> & Hw); [by apply lookup_ge_None_2|].
    cbn [mbind res_bind]. by rewrite Hw. }
  destruct (lookup_lt_is_Some_2 ks (Z.to_nat w)) as [u Hu]; [lia|]. apply list_elem_of_split_length in Hu as (ts1 & ts2 & -> & Hlen).
  rewrite Hlen, take_app_length, drop_app_length.
  rewrite (which_place (fun w => cJSON_InsertItemInArray a w (root t) m) w) with (n := length ts1);
    [|intros w'; unfold cJSON_InsertItemInArray; by rewrite Nat2Z.id|done].
  pose proof H as [Hk Hl Hd _ _]. cbn [kids loose] in *. apply Forall_mid in Hl as [Ht Hl].
  destruct (footprint_split _ _ (cells_of a ts1 t (u :: ts2)) (owneds (l1 ++ l2)) Hd) as (D & S & I); [perm|].
  destruct (insert_ok a ts1 t u ts2 m D Hk Ht) as (m' & He & Hk' & Ho). exists m'. split; [done|].
  eapply (hv_step m m' a others _ _ []); [done|perm|done| | |by eapply only_sub].
  - by eapply loose_frame.
  - by intros l ?%list.not_elem_of_nil.
Qed.

Lemma replace_view m a others ks1 old ks2 l1 t l2 w : Z.to_nat w = length ks1 ->
  holds_view m a others (mkView (ks1 ++ old :: ks2) (l1 ++ t :: l2)) ->
  exists m', cJSON_ReplaceItemInArray a w (root t) m = Ok m'
  /\ holds_view m' a others (mkView (ks1 ++ t :: ks2) (l1 ++ l2)).
Proof.
  intros Hw H. rewrite (which_place (fun w => cJSON_ReplaceItemInArray a w (root t) m) w) with (n := length ks1);
    [|intros w'; unfold cJSON_ReplaceItemInArray; by rewrite Nat2Z.id|done].
  pose proof H as [Hk Hl Hd _ _]. cbn [kids loose] in *. apply Forall_mid in Hl as [Ht Hl].
  destruct (footprint_split _ _ (owned old ++ cells_of a ks1 t ks2) (owneds (l1 ++ l2)) Hd) as (D & S & I); [perm|].
  pose proof D as (Dold & Sold & Dc)%list.NoDup_app.
  destruct (replace_ok a ks1 old t ks2 m Dc Dold Sold Hk Ht) as (m' & He & Hk' & Hf & Ho). exists m'. split; [done|].
  eapply (hv_step m m' a others _ _ (owned old)); [done|perm|done| |done|by eapply only_sub].
  by eapply loose_frame.
Qed.

Lemma detach_view m a others ks1 t ks2 ls w : Z.to_nat w = length ks1 ->
  holds_view m a others (mkView (ks1 ++ t :: ks2) ls) ->
  exists m', cJSON_DetachItemFromArray a w m = Ok (Some (root t), m')
  /\ holds_view m' a others (mkView (ks1 ++ ks2) (t :: ls)).
Proof.
  intros Hw H. rewrite (which_place (fun w => cJSON_DetachItemFromArray a w m) w) with (n := length ks1);
    [|intros w'; unfold cJSON_DetachItemFromArray; by rewrite Nat2Z.id|done].
  pose proof H as [Hk Hl Hd _ _]. cbn [kids loose] in *.
  destruct (footprint_split _ _ (cells_of a ks1 t ks2) (owneds ls) Hd) as (D & S & I); [perm|].
  destruct (detach_item_ok a ks1 t ks2 m D Hk) as (m' & He & Hk' & Ht & Ho). exists m'. split; [done|].
  eapply (hv_step m m' a others _ _ []); [done|perm|done| | |by eapply only_sub].
  - constructor; [done|]. by eapply loose_frame.
  - by intros l ?%list.not_elem_of_nil.
Qed.

(** An item outside the array can be deleted. *)
Lemma delete_view m a others ks t ls : holds_view m a others (mkView ks (t :: ls)) ->
  exists m', cJSON_Delete (Some (root t)) m = Ok m' /\ holds_view m' a others (mkView ks ls).
Proof.
  intros H. pose proof H as [Hk Hl Hd _ _]. cbn [kids loose] in *. apply Forall_cons_1 in Hl as [Ht Hl].
  destruct (footprint_split _ _ (owned t) (a :: owneds ks ++ owneds ls) Hd) as (D & S & I); [perm|].
  destruct (cJSON_Delete_ok [t] m None) as (m' & He & Hr); [by split|by rewrite owneds_cons, app_nil_r|].
  rewrite owneds_cons, app_nil_r in Hr. exists m'. split; [done|].
  eapply (hv_step m m' a others _ _ (owned t)); [done|perm| | |apply Hr|].
  - eapply prefix_frame; [|exact Hk]. eapply removes_agree; [exact Hr|]. intros l Hin. apply S.
    rewrite list.elem_of_cons, elem_of_app. apply list.elem_of_cons in Hin. tauto.
  - eapply loose_frame; [exact Hl|intros l; apply Hr|]. intros l Hin. apply S.
    rewrite list.elem_of_cons, elem_of_app. tauto.
  - intros l Hl'. apply Hr. intros Hin. by apply Hl', I.
Qed.

Lemma edit_view m a others v e r v' : holds_view m a others v -> edits v e r v' ->
  exists m', run_edit a e m = Ok (r, m') /\ holds_view m' a others v'.
Proof.
  intros H E. destruct E as [ks l1 t l2|ks l1 t l2 w|ks1 old ks2 l1 t l2 w Hw|ks ls w i Hw|ks1 t ks2 ls w Hw
                            |ks ls w Hw|ks1 t ks2 ls w Hw|ks ls w Hw]; cbn [run_edit].
  - destruct (add_view _ _ _ _ _ _ _ H) as (m' & -> & H'). by exists m'.
  - destruct (insert_view _ _ _ _ _ _ _ w H) as (m' & -> & H'). by exists m'.
  - destruct (replace_view _ _ _ _ _ _ _ _ _ _ Hw H) as (m' & -> & H'). by exists m'.
  - exists m. split; [|done]. unfold cJSON_ReplaceItemInArray.
    destruct (walk_none a ks m w (hv_kids _ _ _ _ H)) as (n & -> & Hw'); [by apply lookup_ge_None_2|].
    cbn [mbind res_bind]. by rewrite Hw'.
  - by eapply detach_view.
  - exists m. split; [|done]. unfold cJSON_DetachItemFromArray.
    destruct (walk_none a ks m w (hv_kids _ _ _ _ H)) as (n & -> & Hw'); [by apply lookup_ge_None_2|].
    cbn [mbind res_bind]. by rewrite Hw'.
  - unfold cJSON_DeleteItemFromArray. destruct (detach_view _ _ _ _ _ _ _ _ Hw H) as (m1 & -> & H1). cbn [mbind res_bind].
    destruct (delete_view _ _ _ _ _ _ H1) as (m' & -> & H'). by exists m'.
  - exists m. split; [|done]. unfold cJSON_DeleteItemFromArray, cJSON_DetachItemFromArray.
    destruct (walk_none a ks m w (hv_kids _ _ _ _ H)) as (n & -> & Hw'); [by apply lookup_ge_None_2|].
    cbn [mbind res_bind]. by rewrite Hw'.
Qed.

(** Deleting a chain of items frees exactly the cells the items own, each once,
    whatever they own: strings, names and children at any depth, but neither
    what a reference points to nor a name that is marked as constant. *)
Theorem delete_frees_exactly (m : mem) (p : option loc) (ts : list tree)
    (Hc : chain m p ts None) (Hd : NoDup (owneds ts)) :
  exists m', cJSON_Delete (first ts None) m = Ok m'
  /\ (forall l, l ∈ owneds ts -> cells m' !! l = None)
  /\ (forall l, l ∉ owneds ts -> cells m' !! l = cells m !! l).
Proof. by eapply cJSON_Delete_ok. Qed.

(** C32: any sequence of additions, insertions, replacements, removals and
    deletions of children, carried out on the pointers, is the same sequence of
    edits of a list of trees: every call returns, the doubly linked list keeps
    its shape, a detached item is whole and linked to nothing, the cells of a
    deleted or replaced item and no others are freed, and the rest of the
    memory is untouched.  Places are those of the code: a negative one is the
    first, one behind the end appends, or removes nothing. *)
Theorem child_edits_refine (m : mem) (a : loc) (others : gmap loc cell) (v v' : view) (es : list edit)
    (rs : list (option loc)) (Hv : holds_view m a others v) (Hs : session v es rs v') :
  exists m', run_edits a es m = Ok (rs, m') /\ holds_view m' a others v'.
Proof.
  revert m Hv. induction Hs as [v|v e r v1 es rs v2 He Hs IH]; intros m Hv; [by exists m|].
  destruct (edit_view _ _ _ _ _ _ _ Hv He) as (m1 & Hr & H1). destruct (IH m1 H1) as (m2 & Hrs & H2).
  exists m2. split; [|done]. cbn [run_edits]. rewrite Hr. cbn [mbind res_bind]. by rewrite Hrs.
Qed.

(** An array with a string and a number, and a number outside. *)
Definition plain_node (next prev child vs : option loc) : node :=
  mkNode next prev child cJSON_Number false false vs 0 (S754_zero false) None.
Definition example_mem : mem :=
  mkMem (<[1%positive := Item (plain_node None None (Some 2%positive) None)]>
        (<[2%positive := Item (plain_node (Some 4%positive) None None (Some 3%positive))]>
        (<[3%positive := Str (text "abc")]>
        (<[4%positive := Item (plain_node None (Some 2%positive) None None)]>
        (<[5%positive := Item (plain_node None None None None)]> ∅))))) 6%positive.
Definition example_view : view :=
  mkView [Tree 2 [3%positive] []; Tree 4 [] []] [Tree 5 [] []].

Lemma example_holds : holds_view example_mem 1 ∅ example_view.
Proof.
  constructor.
  - split; [by eexists|]. repeat split; (eexists; split; [done|]); repeat split; [|constructor].
    apply Forall_singleton. by eexists.
  - apply Forall_singleton. eexists. split; [done|]. repeat split. constructor.
  - apply (bool_decide_unpack _). by vm_compute.
  - intros l _. apply lookup_empty.
  - intros l Hl. assert (Hl' : l ∉ [1; 2; 3; 4; 5]%positive) by exact Hl. rewrite !list.not_elem_of_cons in Hl'.
    unfold example_mem. cbn [cells]. rewrite !lookup_insert_ne by naive_solver. done.
Qed.

Lemma child_edits_refine_witness :
  exists m', run_edits 1 [EInsert 1 5; EDetach 0; EDelete 7; EReplace 0 2] example_mem
             = Ok ([None; Some 2%positive; None; None], m')
  /\ holds_view m' 1 ∅ (mkView [Tree 2 [3%positive] []; Tree 4 [] []] []).
Proof.
  apply (child_edits_refine example_mem 1 ∅ example_view); [exact example_holds|].
  eapply session_cons; [apply (edits_insert _ [])|]. eapply session_cons; [by apply (edits_detach [])|].
  eapply session_cons; [apply edits_delete_none; apply Nat.leb_le; reflexivity|].
  eapply session_cons; [by apply (edits_replace [] _ _ [])|]. constructor.
Defined.

(** *** Names that are not owned *)

(** [cJSON_AddItemToObject] frees the old name of an item even when it is marked
    as constant. *)
Theorem add_frees_constant_name (m : mem) (object i : loc) (name : list Z) (n : node) (s : list Z)
    (Hi : cells m !! i = Some (Item n)) (Hs : n_string n = Some (SConst s)) :
  cJSON_AddItemToObject object name (Some i) m = Fault AssertFail.
Proof. unfold cJSON_AddItemToObject. rewrite (get_item_ok _ _ _ Hi). cbn. by rewrite Hs. Qed.

(** An item added under a constant name, taken out and added again. *)
Example constant_name_readded :
  (m ← cJSON_AddItemToObjectCS 1 (text "id") (Some 5%positive) example_mem;
   '(c, m) ← cJSON_DetachItemFromObject 1 (text "ID") m;
   cJSON_AddItemToObject 1 (text "id") c m) = Fault AssertFail.
Proof. vm_compute. reflexivity. Qed.

(** An object with the member x, and an item outside that has a name. *)
Definition named_node (next prev child : option loc) (name : loc) : node :=
  mkNode next prev child cJSON_Number false false None 0 (S754_zero false) (Some (SHeap name)).
Definition named_mem : mem :=
  mkMem (<[1%positive := Item (plain_node None None (Some 2%positive) None)]>
        (<[2%positive := Item (named_node None None None 3)]> (<[3%positive := Str (text "x")]>
        (<[4%positive := Item (named_node None None None 5)]> (<[5%positive := Str (text "old")]> ∅)))))
    6%positive.

(** The name an item brings to [cJSON_ReplaceItemInObject] is neither kept nor
    freed: its cell is left after the object has been deleted. *)
Theorem replace_leaks_name :
  (m ← cJSON_ReplaceItemInObject 1 (text "X") 4 named_mem;
   m ← cJSON_Delete (Some 1%positive) m; Ok (map_to_list (cells m)))
  = Ok [(5%positive, Str (text "old"))].
Proof. vm_compute. reflexivity. Qed.
