(* ===== verification/CJsonDup.v ===== *)
(** * Copies of JSON items (Task/Struct2Json/cJSON.c)

    [cJSON_Duplicate] and the functions that make an array from a C array, on
    the memory of [CJsonHeap] and with allocations that can be refused.  What an
    item says is a finite tree of its data, found by following the pointers; the
    copy says the same on cells of its own, and a copy that cannot be completed
    is taken back. *)
From stdpp Require Import gmap.
From S2P Require Import Prelude Floats CJson CJsonHeap.

(** ** Operations *)

Definition get_str (m : mem) (l : loc) : res (list Z) :=
  match cells m !! l with Some (Str s) => Ok s | _ => Fault OutOfBounds end.
Definition read_text (m : mem) (v : option loc) : res (option (list Z)) :=
  match v with None => Ok None | Some l => s ← get_str m l; Ok (Some s) end.
Definition read_name (m : mem) (s : option sptr) : res (option (list Z)) :=
  match s with
  | None => Ok None
  | Some (SConst s) => Ok (Some s)
  | Some (SHeap l) => s ← get_str m l; Ok (Some s)
  end.

Definition set_valuestring (v : option loc) (n : node) : node :=
  mkNode (n_next n) (n_prev n) (n_child n) (n_type n) (IsReference n) (StringIsConst n)
    v (n_valueint n) (n_valuedouble n) (n_string n).
(** The type without the reference bit, and the numbers. *)
Definition copy_vars (n x : node) : node :=
  mkNode (n_next x) (n_prev x) (n_child x) (n_type n) false (StringIsConst n)
    (n_valuestring x) (n_valueint n) (n_valuedouble n) (n_string x).

Section Allocator.
(** Whether the allocator has room for a cell. *)
Context (room : cell -> mem -> bool).

Definition try_alloc (c : cell) (m : mem) : option loc * mem :=
  if room c m then let '(l, m) := alloc c m in (Some l, m) else (None, m).
Definition blank : node := mkNode None None None cJSON_False false false None 0 (S754_zero false) None.
Definition new_item (m : mem) : option loc * mem := try_alloc (Item blank) m.

(** One string of the copy; when there is no room for it the copy is deleted. *)
Definition copy_text (newitem : loc) (s : option (list Z)) (set : loc -> node -> node) (m : mem) : res (bool * mem) :=
  match s with
  | None => Ok (true, m)
  | Some s =>
      match try_alloc (Str s) m with
      | (Some l, m) => m ← upd newitem (set l) m; Ok (true, m)
      | (None, m) => m ← cJSON_Delete (Some newitem) m; Ok (false, m)
      end
  end.

(** [cJSON_Duplicate] up to the test of [recurse]: the item without its children. *)
Definition copy_item (item : loc) (m : mem) : res (option loc * mem) :=
  match new_item m with
  | (None, m) => Ok (None, m)
  | (Some newitem, m) =>
      n ← get_item m item;
      m ← upd newitem (copy_vars n) m;
      s ← read_text m (n_valuestring n);
      '(ok, m) ← copy_text newitem s (fun l => set_valuestring (Some l)) m;
      if negb ok then Ok (None, m) else
      s ← read_name m (n_string n);
      '(ok, m) ← copy_text newitem s (fun l => set_string (Some (SHeap l))) m;
      if negb ok then Ok (None, m) else Ok (Some newitem, m)
  end.

Fixpoint duplicate (fuel : nat) (item : option loc) (recurse : bool) (m : mem) : res (option loc * mem) :=
  match fuel with
  | O => Fault Hang
  | S fuel' =>
      match item with
      | None => Ok (None, m)
      | Some item =>
          '(newitem, m) ← copy_item item m;
          match newitem with
          | None => Ok (None, m)
          | Some newitem =>
              if negb recurse then Ok (Some newitem, m) else
              n ← get_item m item;
              duplicate_kids fuel' newitem None (n_child n) m
          end
      end
  end
(** [while (cptr)]: copies the children from [cptr] on; [nptr] is the last copy. *)
with duplicate_kids (fuel : nat) (newitem : loc) (nptr cptr : option loc) (m : mem) : res (option loc * mem) :=
  match fuel with
  | O => Fault Hang
  | S fuel' =>
      match cptr with
      | None => Ok (Some newitem, m)
      | Some c =>
          '(newchild, m) ← duplicate fuel' cptr true m;
          match newchild with
          | None => m ← cJSON_Delete (Some newitem) m; Ok (None, m)
          | Some nc =>
              m ← (match nptr with
                   | Some np => suffix_object np nc m
                   | None => upd newitem (set_child (Some nc)) m
                   end);
              n ← get_item m c;
              duplicate_kids fuel' newitem (Some nc) (n_next n) m
          end
      end
  end.

(** No path along the pointers is longer than there are cells, and an item on it
    takes two rounds. *)
Definition cJSON_Duplicate (item : option loc) (recurse : bool) (m : mem) : res (option loc * mem) :=
  duplicate (2 * rounds m) item recurse m.

(** *** Creating items *)
Definition set_type (t : cJSON_type) (x : node) : node :=
  mkNode (n_next x) (n_prev x) (n_child x) t (IsReference x) (StringIsConst x)
    (n_valuestring x) (n_valueint x) (n_valuedouble x) (n_string x).
Definition set_number (num : spec_float) (i : Z) (x : node) : node :=
  mkNode (n_next x) (n_prev x) (n_child x) cJSON_Number (IsReference x) (StringIsConst x)
    (n_valuestring x) i num (n_string x).

Definition create_kind (t : cJSON_type) (m : mem) : res (option loc * mem) :=
  match new_item m with
  | (None, m) => Ok (None, m)
  | (Some item, m) => m ← upd item (set_type t) m; Ok (Some item, m)
  end.
Definition cJSON_CreateNull : mem -> res (option loc * mem) := create_kind cJSON_NULL.
Definition cJSON_CreateTrue : mem -> res (option loc * mem) := create_kind cJSON_True.
Definition cJSON_CreateFalse : mem -> res (option loc * mem) := create_kind cJSON_False.
Definition cJSON_CreateBool (b : Z) : mem -> res (option loc * mem) :=
  create_kind (if b =? 0 then cJSON_False else cJSON_True).
Definition cJSON_CreateArray : mem -> res (option loc * mem) := create_kind cJSON_Array.
Definition create_object : mem -> res (option loc * mem) := create_kind cJSON_Object.
Definition create_number (num : spec_float) (m : mem) : res (option loc * mem) :=
  match new_item m with
  | (None, m) => Ok (None, m)
  | (Some item, m) => i ← cast_s32 num; m ← upd item (set_number num i) m; Ok (Some item, m)
  end.
(** The copy of the string is not tested. *)
Definition create_string (string : option (list Z)) (m : mem) : res (option loc * mem) :=
  match new_item m with
  | (None, m) => Ok (None, m)
  | (Some item, m) =>
      m ← upd item (set_type cJSON_String) m;
      s ← cJSON_strdup string;
      let '(v, m) := try_alloc (Str s) m in
      m ← upd item (set_valuestring v) m;
      Ok (Some item, m)
  end.

(** *** Arrays from C arrays *)
Section Elements.
Context {A : Type} (create : A -> mem -> res (option loc * mem)) (elements : list A).

(** [suffix_object(p,n)] writes through both pointers. *)
Definition suffix_ptr (p n : option loc) (m : mem) : res mem :=
  match p, n with Some p, Some n => suffix_object p n m | _, _ => Fault NullDeref end.

(** [for(i=0;a && i<count;i++)], with [left] rounds to go. *)
Fixpoint elements_loop (left : nat) (a : loc) (i : nat) (p : option loc) (m : mem) : res mem :=
  match left with
  | O => Ok m
  | S left' =>
      match elements !! i with
      | None => Fault OutOfBounds
      | Some x =>
          '(n, m) ← create x m;
          m ← (if (i =? 0)%nat then upd a (set_child n) m else suffix_ptr p n m);
          elements_loop left' a (S i) n m
      end
  end.
Definition create_array (count : Z) (m : mem) : res (option loc * mem) :=
  '(a, m) ← cJSON_CreateArray m;
  match a with
  | None => Ok (None, m)
  | Some a => m ← elements_loop (Z.to_nat count) a 0 None m; Ok (Some a, m)
  end.
End Elements.

Definition cJSON_CreateIntArray (numbers : list Z) : Z -> mem -> res (option loc * mem) :=
  create_array (fun k => create_number (F64.of_Z k)) numbers.
Definition cJSON_CreateFloatArray (numbers : list spec_float) : Z -> mem -> res (option loc * mem) :=
  create_array (fun x => create_number (double_of_float x)) numbers.
Definition cJSON_CreateDoubleArray (numbers : list spec_float) : Z -> mem -> res (option loc * mem) :=
  create_array create_number numbers.
Definition cJSON_CreateStringArray (strings : list (option (list Z))) : Z -> mem -> res (option loc * mem) :=
  create_array create_string strings.
End Allocator.

(** ** What an item says *)
Record data : Type := mkData {
  d_type : cJSON_type; d_ref : bool; d_const : bool; d_text : option (list Z);
  d_int : Z; d_double : spec_float; d_name : option (list Z) }.
Inductive content : Type := Content (d : data) (kids : list content).

Definition data_of (m : mem) (n : node) : res data :=
  v ← read_text m (n_valuestring n); s ← read_name m (n_string n);
  Ok (mkData (n_type n) (IsReference n) (StringIsConst n) v (n_valueint n) (n_valuedouble n) s).

(** Items one after the other from a pointer on. *)
Definition shows_of (m : mem) (R : content -> loc -> Prop) :=
  fix go (cs : list content) (o : option loc) : Prop :=
    match cs with
    | [] => o = None
    | c :: cs' => exists l n, o = Some l /\ R c l /\ cells m !! l = Some (Item n) /\ go cs' (n_next n)
    end.
(** The item at a location and, below it, its children: also those of a
    reference, which it shares with another item. *)
Fixpoint shows (m : mem) (c : content) (l : loc) {struct c} : Prop :=
  let 'Content d kids := c in
  exists n, cells m !! l = Some (Item n) /\ data_of m n = Ok d
  /\ shows_of m (fun c l => shows m c l) kids (n_child n).
Definition shows_list (m : mem) : list content -> option loc -> Prop := shows_of m (fun c l => shows m c l).

(** The copy owns its value, whatever the item does. *)
Definition own (d : data) : data :=
  mkData (d_type d) false (d_const d) (d_text d) (d_int d) (d_double d) (d_name d).
Fixpoint copied (c : content) : content := let 'Content d kids := c in Content (own d) (map copied kids).
Definition copied_top (recurse : bool) (c : content) : content :=
  let 'Content d kids := c in Content (own d) (if recurse then map copied kids else []).
(** No item is marked as having a constant name. *)
Fixpoint no_const (c : content) : bool :=
  let 'Content d kids := c in negb (d_const d) && forallb no_const kids.

(** Addresses from [unused] on have not been given out. *)
Definition fresh (m : mem) : Prop := forall l, (unused m <= l)%positive -> cells m !! l = None.

(** ** The depth of a content *)

(** The longest path along first children and next items. *)
Definition longest_of (f : content -> nat) :=
  fix go (cs : list content) : nat := match cs with [] => 0%nat | c :: cs' => S (max (f c) (go cs')) end.
Fixpoint below (c : content) : nat := let 'Content _ kids := c in longest_of (fun c => below c) kids.
Definition longest : list content -> nat := longest_of (fun c => below c).

Lemma longest_cons d kids cs : longest (Content d kids :: cs) = S (max (longest kids) (longest cs)).
Proof. done. Qed.

Lemma shows_list_cons m d kids cs o : shows_list m (Content d kids :: cs) o <->
  exists l n, o = Some l /\ cells m !! l = Some (Item n) /\ data_of m n = Ok d
  /\ shows_list m kids (n_child n) /\ shows_list m cs (n_next n).
Proof.
  split.
  - intros (l & n & -> & (n' & Hn' & Hd & Hk) & Hn & Hs). rewrite Hn in Hn'. injection Hn' as <-. by exists l, n.
  - intros (l & n & -> & Hn & Hd & Hk & Hs). exists l, n. split; [done|]. split; [by exists n|done].
Qed.

(** Induction on contents by depth. *)
Lemma content_list_ind (P : list content -> Prop) : P [] ->
  (forall d kids cs, P kids -> P cs -> P (Content d kids :: cs)) -> forall cs, P cs.
Proof.
  intros H0 Hc cs. remember (longest cs) as k eqn:E. revert cs E.
  induction k as [k IH] using lt_wf_ind. intros [|[d kids] cs] ->; [done|].
  rewrite longest_cons in IH. apply Hc; eapply IH; try reflexivity; lia.
Qed.

Lemma shows_unique m cs : forall cs' o, shows_list m cs o -> shows_list m cs' o -> cs = cs'.
Proof.
  induction cs as [|d kids cs IHk IH] using content_list_ind.
  - intros [|[d' k'] cs'] o; [done|]. intros -> (l & n & ? & _)%shows_list_cons. done.
  - intros [|[d' k'] cs'] o (l & n & -> & Hn & Hd & Hk & Hs)%shows_list_cons; [done|].
    intros (l' & n' & [= <-] & Hn' & Hd' & Hk' & Hs')%shows_list_cons. rewrite Hn in Hn'. injection Hn' as <-.
    rewrite Hd in Hd'. injection Hd' as <-. by rewrite (IHk _ _ Hk Hk'), (IH _ _ Hs Hs').
Qed.

(** The cells of a longest path are all different. *)
Lemma path_cells m cs : forall o, shows_list m cs o ->
  exists ls, length ls = longest cs /\ NoDup ls
  /\ forall l, l ∈ ls -> is_Some (cells m !! l) /\ exists cs', shows_list m cs' (Some l) /\ (longest cs' <= longest cs)%nat.
Proof.
  induction cs as [|d kids cs IHk IH] using content_list_ind; intros o H.
  { exists []. split; [done|]. split; [constructor|]. by intros l ?%list.not_elem_of_nil. }
  pose proof H as (l & n & -> & Hn & Hd & Hk & Hs)%shows_list_cons. rewrite longest_cons.
  assert (exists ls, length ls = max (longest kids) (longest cs) /\ NoDup ls /\ forall l, l ∈ ls ->
    is_Some (cells m !! l) /\ exists cs', shows_list m cs' (Some l) /\ (longest cs' <= max (longest kids) (longest cs))%nat)
    as (ls & Hlen & Hd' & Hls).
  { destruct (le_ge_dec (longest cs) (longest kids)).
    - destruct (IHk _ Hk) as (ls & Hl & Hnd & Hls). exists ls. by rewrite Nat.max_l.
    - destruct (IH _ Hs) as (ls & Hl & Hnd & Hls). exists ls. by rewrite Nat.max_r. }
  exists (l :: ls). split; [cbn; lia|]. split.
  - constructor; [|done]. intros (_ & cs' & Hcs' & Hle)%Hls. rewrite <- (shows_unique _ _ _ _ H Hcs') in Hle.
    rewrite longest_cons in Hle. lia.
  - intros k [->|Hin]%list.elem_of_cons.
    + split; [by eexists|]. eexists. split; [exact H|]. by rewrite longest_cons.
    + destruct (Hls k Hin) as (Hk' & cs' & Hcs' & Hle). split; [done|]. exists cs'. split; [done|lia].
Qed.

Lemma depth_rounds m cs o : shows_list m cs o -> (longest cs < rounds m)%nat.
Proof.
  intros (ls & <- & Hd & Hls)%path_cells. apply rounds_enough; [done|]. intros l Hl. by apply Hls.
Qed.

(** ** Memories that keep what they hold *)
Definition unlinked (n : node) : node := set_next None (set_prev None (set_child None n)).

(** Items keep their data, strings their characters. *)
Definition keeps (m m' : mem) : Prop := forall l,
  match cells m !! l with
  | Some (Item n) => exists n', cells m' !! l = Some (Item n') /\ unlinked n' = unlinked n
  | Some (Str s) => cells m' !! l = Some (Str s)
  | None => True
  end.

Lemma keeps_sub m m' : cells m ⊆ cells m' -> keeps m m'.
Proof.
  intros H l. destruct (cells m !! l) as [[n|s]|] eqn:E; [|by eapply lookup_weaken|done].
  exists n. split; [by eapply lookup_weaken|done].
Qed.

Lemma keeps_refl m : keeps m m.
Proof. by apply keeps_sub. Qed.

Lemma keeps_trans m m1 m2 : keeps m m1 -> keeps m1 m2 -> keeps m m2.
Proof.
  intros H1 H2 l. specialize (H1 l). specialize (H2 l). destruct (cells m !! l) as [[n|s]|]; [|by rewrite H1 in H2|done].
  destruct H1 as (n1 & H1 & E1). rewrite H1 in H2. destruct H2 as (n2 & H2 & E2). exists n2. split; [done|congruence].
Qed.

Lemma upd_inv l f m m' : upd l f m = Ok m' ->
  exists n, cells m !! l = Some (Item n) /\ m' = mkMem (<[l := Item (f n)]> (cells m)) (unused m).
Proof.
  unfold upd, get_item. destruct (cells m !! l) as [[n|]|]; cbn [mbind res_bind]; try done. intros [= <-]. by exists n.
Qed.

Lemma upd_keeps l f m m' : (forall n, unlinked (f n) = unlinked n) -> upd l f m = Ok m' -> keeps m m'.
Proof.
  intros Hf (n & Hn & ->)%upd_inv k. cbn [cells]. destruct (decide (k = l)) as [->|Hne].
  - rewrite Hn, lookup_insert_eq. by eexists.
  - rewrite lookup_insert_ne by done. destruct (cells m !! k) as [[n'|]|]; [by eexists|done..].
Qed.

Lemma read_text_keeps m m' v s : keeps m m' -> read_text m v = Ok s -> read_text m' v = Ok s.
Proof.
  intros Hk. unfold read_text, get_str. destruct v as [l|]; [|done]. specialize (Hk l).
  destruct (cells m !! l) as [[|t]|]; cbn [mbind res_bind]; [done| |done]. by rewrite Hk.
Qed.
Lemma read_name_keeps m m' v s : keeps m m' -> read_name m v = Ok s -> read_name m' v = Ok s.
Proof.
  intros Hk. destruct v as [[l|t]|]; [|done..]. by apply (read_text_keeps m m' (Some l)).
Qed.
Lemma data_keeps m m' n d : keeps m m' -> data_of m n = Ok d -> data_of m' n = Ok d.
Proof.
  intros Hk. unfold data_of.
  destruct (read_text m (n_valuestring n)) as [v|] eqn:Ev; cbn [mbind res_bind]; [|done].
  destruct (read_name m (n_string n)) as [s|] eqn:Es; cbn [mbind res_bind]; [|done].
  by rewrite (read_text_keeps _ _ _ _ Hk Ev), (read_name_keeps _ _ _ _ Hk Es).
Qed.
Lemma data_unlinked m n n' : unlinked n = unlinked n' -> data_of m n = data_of m n'.
Proof. intros H. change (data_of m (unlinked n) = data_of m (unlinked n')). by rewrite H. Qed.

Lemma shows_list_sub m m' cs : cells m ⊆ cells m' -> forall o, shows_list m cs o -> shows_list m' cs o.
Proof.
  intros Hs. induction cs as [|d kids cs IHk IH] using content_list_ind; intros o; [done|].
  rewrite !shows_list_cons. intros (l & n & -> & Hn & Hd & Hk & Hx). exists l, n. split; [done|].
  split; [by eapply lookup_weaken|]. split; [by eapply data_keeps, Hd; apply keeps_sub|]. eauto.
Qed.

(** ** Trees and what they say *)
Inductive carries (m : mem) : tree -> content -> Prop :=
| carries_item l strs ts n d cs : cells m !! l = Some (Item n) -> data_of m n = Ok d ->
    Forall2 (carries m) ts cs -> carries m (Tree l strs ts) (Content d cs).

Lemma carries_keeps m m' t : keeps m m' -> forall c, carries m t c -> carries m' t c.
Proof.
  intros Hk. induction t as [l strs ts IH] using tree_ind'. intros c H. inversion H as [? ? ? n d cs Hn Hd Hf]; subst.
  pose proof (Hk l) as Hl. rewrite Hn in Hl. destruct Hl as (n' & Hn' & He). econstructor; [exact Hn'| |].
  - rewrite (data_unlinked _ _ _ He). by eapply data_keeps.
  - clear -IH Hf. revert cs Hf. induction IH as [|t ts Ht IH IHts]; intros cs Hf; inversion Hf; subst; constructor; auto.
Qed.

(** Items that own their children. *)
Fixpoint owning (c : content) : bool := let 'Content d kids := c in negb (d_ref d) && forallb owning kids.

Lemma data_ref m n d : data_of m n = Ok d -> IsReference n = d_ref d.
Proof.
  unfold data_of. destruct (read_text _ _); [|done]. destruct (read_name _ _); [|done]. by intros [= <-].
Qed.

(** A tree of cells shows what its cells carry. *)
Lemma carries_shows m t : forall c p x, rep m t p x -> carries m t c -> owning c = true -> shows m c (root t).
Proof.
  induction t as [l strs ts IH] using tree_ind'. intros c p x (n & Hn & _ & _ & _ & _ & _ & Hk) H Ho.
  inversion H as [? ? ? n' d cs Hn' Hd Hf]; subst. rewrite Hn in Hn'. injection Hn' as <-.
  cbn [owning] in Ho. apply andb_true_iff in Ho as [Hr Ho].
  rewrite (data_ref _ _ _ Hd) in Hk. destruct (d_ref d); [done|]. destruct Hk as [Hc Hk].
  exists n. split; [done|]. split; [done|]. rewrite Hc. clear -IH Hf Hk Ho. revert cs Hf Ho Hk.
  generalize (None : option loc) at 1 as q. induction IH as [|t ts Ht IH IHts]; intros q cs Hf Ho Hk; inversion Hf; subst; [done|].
  cbn in Hk, Ho. destruct Hk as [Hr Hk]. apply andb_true_iff in Ho as [Ho1 Ho2].
  destruct (rep_get _ _ _ _ Hr) as (n & Hn & _ & _ & Hx).
  exists (root t), n. split; [done|]. split; [by eapply Ht|]. split; [done|]. rewrite Hx. by eapply IHts.
Qed.

(** ** Copies in the making *)
Section Copies.
Context (room : cell -> mem -> bool).

(** Some cell was refused. *)
Definition refused : Prop := exists c m, room c m = false.

(** The memory of before and a tree on new cells; it says [c]. *)
Record new_tree (m0 m : mem) (t : tree) : Prop := {
  b_fresh : fresh m;
  b_rep : rep m t None None;
  b_nodup : NoDup (owned t);
  b_new : forall l, l ∈ owned t -> cells m0 !! l = None;
  b_only : only (owned t) m0 m }.
Definition building (m0 m : mem) (t : tree) (c : content) : Prop := new_tree m0 m t /\ carries m t c.

(** The memory of before. *)
Definition undone (m0 m : mem) : Prop := cells m = cells m0 /\ fresh m /\ refused.

Definition outcome (m0 : mem) (c : content) (r : option loc) (m : mem) : Prop :=
  match r with
  | None => undone m0 m
  | Some p => exists t, root t = p /\ building m0 m t c
  end.

Lemma new_tree_sub m0 m t : new_tree m0 m t -> cells m0 ⊆ cells m.
Proof.
  intros H. apply map_subseteq_spec. intros l x Hx. rewrite (b_only _ _ _ H); [done|].
  intros Hin. by rewrite (b_new _ _ _ H l Hin) in Hx.
Qed.

(** Deleting gives no address out. *)
Lemma free_unused l m m' : cJSON_free l m = Ok m' -> unused m' = unused m.
Proof. unfold cJSON_free. destruct (cells m !! l); [|done]. by intros [= <-]. Qed.
Lemma free_string_unused s m m' : free_string s m = Ok m' -> unused m' = unused m.
Proof. destruct s; [apply free_unused|done]. Qed.
Lemma delete_unused fuel : forall o m m', delete_loop fuel o m = Ok m' -> unused m' = unused m.
Proof.
  induction fuel as [|fuel IH]; intros [l|] m m'; cbn [delete_loop]; try done; [|by intros [= <-]].
  destruct (get_item m l) as [n|]; cbn [mbind res_bind]; [|done].
  destruct (if negb (IsReference n) then _ else _) as [m1|] eqn:E1; cbn [mbind res_bind]; [|done].
  destruct (if negb (IsReference n) then _ else Ok m1) as [m2|] eqn:E2; cbn [mbind res_bind]; [|done].
  destruct (if negb (StringIsConst n) then _ else _) as [m3|] eqn:E3; cbn [mbind res_bind]; [|done].
  destruct (cJSON_free l m3) as [m4|] eqn:E4; cbn [mbind res_bind]; [|done]. intros ->%IH.
  apply free_unused in E4 as ->. transitivity (unused m2).
  { destruct (StringIsConst n); cbn in E3; [by injection E3 as <-|].
    destruct (n_string n); [by eapply free_string_unused|by injection E3 as <-]. }
  transitivity (unused m1).
  { destruct (IsReference n); cbn in E2; [by injection E2 as <-|].
    destruct (n_valuestring n); [by eapply free_unused|by injection E2 as <-]. }
  destruct (IsReference n); cbn in E1; [by injection E1 as <-|].
  destruct (n_child n); [by eapply IH|by injection E1 as <-].
Qed.

(** A copy that cannot be completed is deleted. *)
Lemma take_back m0 m m1 t : new_tree m0 m t -> undone m m1 ->
  exists m', cJSON_Delete (Some (root t)) m1 = Ok m' /\ undone m0 m'.
Proof.
  intros [_ Hr Hd Hn Ho] (He & Hf & Hx). destruct (cJSON_Delete_ok [t] m1 None) as (m' & Hm & [Hrem Hkeep]).
  { split; [|done]. eapply rep_frame; [|exact Hr]. intros l _. by rewrite He. }
  { by rewrite owneds_cons, app_nil_r. }
  rewrite owneds_cons, app_nil_r in *. exists m'. split; [done|]. split; [|split; [|done]].
  - apply map_eq. intros l. destruct (decide (l ∈ owned t)) as [Hin|Hin].
    + by rewrite Hrem, Hn.
    + by rewrite Hkeep, He, Ho.
  - intros l Hl. rewrite (delete_unused _ _ _ _ Hm) in Hl. destruct (decide (l ∈ owned t)) as [Hin|Hin]; [by apply Hrem|].
    rewrite Hkeep by done. by apply Hf.
Qed.

Lemma try_alloc_cases c m : fresh m ->
  (try_alloc room c m = (None, m) /\ undone m m)
  \/ exists l m', try_alloc room c m = (Some l, m') /\ cells m !! l = None
     /\ cells m' = <[l := c]> (cells m) /\ fresh m'.
Proof.
  intros Hf. unfold try_alloc. destruct (room c m) eqn:E; [right|left].
  - eexists _, _. split; [done|]. split; [apply Hf; lia|]. split; [done|]. intros k Hk. cbn in *.
    rewrite lookup_insert_ne by lia. apply Hf. lia.
  - split; [done|]. split; [done|]. split; [done|]. by exists c, m.
Qed.

Lemma fresh_upd l f m m' : fresh m -> upd l f m = Ok m' -> fresh m'.
Proof.
  intros Hf (n & Hn & ->)%upd_inv k Hk. cbn in *. rewrite lookup_insert_ne; [by apply Hf|].
  intros ->. by rewrite Hf in Hn.
Qed.

(** A new item before anything hangs on it, its fields set by [f]. *)
Lemma fresh_item_ok f m : fresh m ->
  n_next (f blank) = None -> n_prev (f blank) = None -> n_child (f blank) = None -> IsReference (f blank) = false ->
  own_strings (f blank) = [] -> name_marked (f blank) = true ->
  (new_item room m = (None, m) /\ undone m m)
  \/ exists l m1 m2, new_item room m = (Some l, m1) /\ cells m ⊆ cells m1
     /\ upd l f m1 = Ok m2 /\ new_tree m m2 (Tree l [] []) /\ cells m2 !! l = Some (Item (f blank)).
Proof.
  intros Hf F1 F2 F3 F4 F5 F6. destruct (try_alloc_cases (Item blank) m Hf) as [H|(l & m1 & He & Hl & Hm & Hf1)]; [by left|right].
  destruct (upd_ok l f m1 blank) as (m2 & Hu & Hc & Ho); [rewrite Hm; apply lookup_insert_eq|].
  exists l, m1, m2. split; [done|]. split; [rewrite Hm; by apply insert_subseteq|]. split; [done|].
  split; [|done]. constructor.
  - by eapply fresh_upd.
  - exists (f blank). rewrite F4. do 5 (split; [done|]). by split; [constructor|].
  - apply NoDup_singleton.
  - by intros k ->%list_elem_of_singleton.
  - intros k Hk. rewrite (Ho k Hk), Hm, lookup_insert_ne; [done|]. intros ->. apply Hk, list_elem_of_here.
Qed.

Definition strings_kept (m m' : mem) : Prop := forall l s, cells m !! l = Some (Str s) -> cells m' !! l = Some (Str s).

(** One string of the new item. *)
Lemma copy_text_ok m0 m l strs n s set : new_tree m0 m (Tree l strs []) -> cells m !! l = Some (Item n) ->
  (forall v, n_next (set v n) = n_next n /\ n_prev (set v n) = n_prev n /\ n_child (set v n) = n_child n
     /\ IsReference (set v n) = IsReference n /\ own_strings (set v n) = own_strings n ++ [v] /\ name_marked (set v n) = true) ->
  exists ok m', copy_text room l s set m = Ok (ok, m')
  /\ if ok then exists strs' n', new_tree m0 m' (Tree l strs' []) /\ cells m' !! l = Some (Item n') /\ strings_kept m m'
            /\ match s with None => n' = n | Some s => exists v, n' = set v n /\ cells m' !! v = Some (Str s) end
     else undone m0 m'.
Proof.
  intros H Hl Hset. destruct s as [s|]; [|exists true, m; split; [done|]; exists strs, n; do 2 (split; [done|]); split; [by intros k t|done]].
  unfold copy_text. destruct (try_alloc_cases (Str s) m) as [[-> Hu]|(v & m1 & -> & Hv & Hm & Hf1)]; [apply H| |].
  { destruct (take_back _ _ _ _ H Hu) as (m' & He & Hu'). cbn [root] in He. rewrite He. by exists false, m'. }
  assert (Hlv : v <> l) by (intros ->; by rewrite Hv in Hl).
  destruct (upd_ok l (set v) m1 n) as (m2 & Hu & Hc & Ho); [by rewrite Hm, lookup_insert_ne|]. rewrite Hu.
  exists true, m2. split; [done|]. exists (strs ++ [v]), (set v n).
  assert (Hat : forall k, k <> l -> k <> v -> cells m2 !! k = cells m !! k).
  { intros k H1 H2. rewrite Ho, Hm, lookup_insert_ne; [done..|]. by rewrite list_elem_of_singleton. }
  assert (H2v : cells m2 !! v = Some (Str s)).
  { rewrite Ho, Hm; [apply lookup_insert_eq|]. by rewrite list_elem_of_singleton. }
  assert (Hsk : strings_kept m m2).
  { intros k t Ht. rewrite Hat; [done| |]; intros ->; congruence. }
  split; [|split; [done|split; [done|by exists v]]].
  destruct H as [Hf (n0 & Hn0 & Hp & Hx & Hs & Hk & Hstr & Hkids) Hd Hn Hon]. rewrite Hl in Hn0. injection Hn0 as <-.
  destruct (Hset v) as (S1 & S2 & S3 & S4 & S5 & S6). cbn [owned] in *. change (concat (map owned [])) with (@nil loc) in *.
  rewrite app_nil_r in *.
  assert (Hvn : v ∉ l :: strs).
  { intros [->|Hin]%list.elem_of_cons; [done|]. rewrite List.Forall_forall in Hstr. apply list_elem_of_In in Hin.
    destruct (Hstr v Hin) as [t Ht]. congruence. }
  constructor; cbn [owned]; change (concat (map owned [])) with (@nil loc); rewrite ?app_nil_r.
  - by eapply fresh_upd.
  - exists (set v n). split; [done|]. split; [congruence|]. split; [congruence|]. split; [congruence|]. split; [done|].
    split; [|by rewrite S4, S3]. apply Forall_app. split; [|by apply Forall_singleton; exists s].
    eapply List.Forall_impl; [|exact Hstr]. intros k [t Ht]. exists t. by apply Hsk.
  - change (l :: strs ++ [v]) with ((l :: strs) ++ [v]). apply list.NoDup_app. split; [done|]. split; [|apply NoDup_singleton].
    intros k Hk1 ->%list_elem_of_singleton. done.
  - change (l :: strs ++ [v]) with ((l :: strs) ++ [v]). intros k [Hin| ->%list_elem_of_singleton]%elem_of_app; [by apply Hn|].
    by rewrite <- Hon.
  - intros k Hk1. change (l :: strs ++ [v]) with ((l :: strs) ++ [v]) in Hk1. rewrite elem_of_app, list_elem_of_singleton in Hk1.
    rewrite Hat, Hon; [done|tauto| |tauto]. intros ->. apply Hk1. left. apply list_elem_of_here.
Qed.

(** Hanging the copy of a child behind the others. *)
Definition hang (l : loc) (nptr : option loc) (nc : loc) (m : mem) : res mem :=
  match nptr with Some np => suffix_object np nc m | None => upd l (set_child (Some nc)) m end.

Lemma hang_keeps l nptr nc m m' : fresh m -> hang l nptr nc m = Ok m' -> keeps m m' /\ fresh m'.
Proof.
  intros Hf. destruct nptr as [np|]; cbn [hang].
  - unfold suffix_object. destruct (upd np _ m) as [m1|] eqn:E; cbn [mbind res_bind]; [|done]. intros E'.
    assert (Hf1 : fresh m1) by by eapply fresh_upd.
    split; [|by eapply fresh_upd]. eapply keeps_trans; (eapply upd_keeps; [|eassumption]; done).
  - intros E. split; [|by eapply fresh_upd]. by eapply upd_keeps, E.
Qed.

(** The parent is touched for its first child only, and then only its child. *)
Lemma hang_parent l nptr nc m m' n : hang l nptr nc m = Ok m' -> cells m !! l = Some (Item n) ->
  (forall np, nptr = Some np -> np <> l) -> nc <> l ->
  exists n', cells m' !! l = Some (Item n') /\ n_next n' = n_next n /\ n_prev n' = n_prev n.
Proof.
  intros E Hl Hnp Hnc. destruct nptr as [np|]; cbn [hang] in E.
  - unfold suffix_object in E. destruct (upd np _ m) as [m1|] eqn:E1; cbn [mbind res_bind] in E; [|done].
    apply upd_inv in E1 as (n1 & _ & ->). apply upd_inv in E as (n2 & _ & ->). cbn [cells].
    rewrite !lookup_insert_ne by (try done; by apply Hnp). by exists n.
  - apply upd_inv in E as (n1 & Hn1 & ->). rewrite Hl in Hn1. injection Hn1 as <-. cbn [cells].
    rewrite lookup_insert_eq. by eexists.
Qed.

Lemma last_root_in ts p : last_root None ts = Some p -> p ∈ owneds ts.
Proof.
  destruct (decide (ts = [])) as [->|(ts' & u & ->)%exists_last]; [done|]. rewrite last_root_snoc. intros [= <-].
  rewrite owneds_app, owneds_cons, !elem_of_app. right. left. apply root_owned.
Qed.

Lemma rep_prefix m l strs ts n : rep m (Tree l strs ts) None None -> cells m !! l = Some (Item n) ->
  IsReference n = false -> prefix m l ts None.
Proof.
  intros (n' & Hn' & _ & _ & _ & _ & _ & Hk) Hn Hr. rewrite Hn in Hn'. injection Hn' as <-. rewrite Hr in Hk.
  destruct Hk as [Hc Hk]. split; [by exists n|done].
Qed.

Lemma own_strings_unlinked n n' : unlinked n' = unlinked n ->
  own_strings n' = own_strings n /\ name_marked n' = name_marked n /\ IsReference n' = IsReference n.
Proof.
  intros H. change (own_strings (unlinked n') = own_strings (unlinked n) /\ name_marked (unlinked n') = name_marked (unlinked n)
    /\ IsReference (unlinked n') = IsReference (unlinked n)). by rewrite H.
Qed.

Lemma is_str_keeps m m' strs : keeps m m' -> Forall (is_str m) strs -> Forall (is_str m') strs.
Proof.
  intros Hk. apply List.Forall_impl. intros l [s Hs]. exists s. specialize (Hk l). by rewrite Hs in Hk.
Qed.

Lemma owned_snoc l strs ts t : owned (Tree l strs (ts ++ [t])) ≡ₚ owned (Tree l strs ts) ++ owned t.
Proof.
  cbn [owned]. fold (owneds (ts ++ [t])) (owneds ts). rewrite owneds_app, owneds_cons. change (owneds []) with (@nil loc).
  rewrite app_nil_r. cbn [app]. by rewrite <- app_assoc.
Qed.

Lemma hang_cells l strs ts t : NoDup (owned (Tree l strs ts)) -> NoDup (owned t) ->
  (forall k, k ∈ owned (Tree l strs ts) -> k ∉ owned t) -> NoDup (cells_of l ts t []).
Proof.
  cbn [owned]. fold (owneds ts). intros D D1 Hsep.
  unfold cells_of. change (owneds []) with (@nil loc). rewrite app_nil_r.
  apply list.NoDup_cons in D as [Dl D]. apply list.NoDup_app in D as (_ & _ & D). constructor.
  - rewrite elem_of_app. intros [H|H]; [apply Dl, elem_of_app; by right|]. by apply (Hsep l (list_elem_of_here _ _)).
  - apply list.NoDup_app. split; [done|]. split; [|done]. intros k Hk. apply Hsep.
    apply list_elem_of_further, elem_of_app. by right.
Qed.

Lemma hang_child m0 m m1 l strs ts d cs t c : building m0 m (Tree l strs ts) (Content d cs) -> d_ref d = false ->
  building m m1 t c ->
  exists m2, hang l (last_root None ts) (root t) m1 = Ok m2
  /\ building m0 m2 (Tree l strs (ts ++ [t])) (Content d (cs ++ [c])).
Proof.
  intros [[F R D N O] C] Hd [[F1 R1 D1 N1 O1] C1].
  assert (Hsep : forall k, k ∈ owned (Tree l strs ts) -> k ∉ owned t).
  { intros k Hk Hin. destruct (rep_alloc _ _ _ _ R k Hk) as [x Hx]. by rewrite N1 in Hx. }
  assert (K1 : keeps m m1) by (apply keeps_sub; eapply new_tree_sub; by constructor).
  assert (R' : rep m1 (Tree l strs ts) None None) by (eapply rep_frame; [by eapply only_agree|done]).
  pose proof (carries_keeps _ _ _ K1 _ C) as C'. inversion C' as [? ? ? n ? ? Hn Hdn Hf]; subst.
  pose proof (data_ref _ _ _ Hdn) as Href. rewrite Hd in Href.
  pose proof (hang_cells _ _ _ _ D D1 Hsep) as Dc.
  destruct (link_last_ok l ts t m1 Dc (rep_prefix _ _ _ _ _ R' Hn Href) R1) as (m2 & E & P & Ho). exists m2. split; [done|].
  destruct (hang_keeps _ _ _ _ _ F1 E) as [K F2].
  pose proof (owned_snoc l strs ts t) as Hown.
  pose proof (carries_keeps _ _ _ K _ C') as C2. inversion C2 as [? ? ? n2 ? ? Hn2 Hdn2 Hf2]; subst.
  split; [|econstructor; [done..|]; apply Forall2_app; [done|]; constructor; [by eapply carries_keeps|done]].
  constructor; [done| |rewrite Hown|intros k; rewrite Hown|].
  - destruct R' as (n' & Hn' & Hp & Hx & Hs & Hm & Hstr & _). rewrite Hn in Hn'. injection Hn' as <-.
    destruct (hang_parent _ _ _ _ _ n E Hn) as (n' & Hn2' & Ex & Ep).
    { intros np Hnp ->. apply last_root_in in Hnp. apply list.NoDup_cons in D as [D _]. apply D, elem_of_app. by right. }
    { intros He. apply (Hsep l (list_elem_of_here _ _)). rewrite <- He. apply root_owned. }
    rewrite Hn2 in Hn2'. injection Hn2' as <-. pose proof (K l) as Kl. rewrite Hn, Hn2 in Kl.
    destruct Kl as (? & [= <-] & (U1 & U2 & U3)%own_strings_unlinked).
    exists n2. split; [done|]. split; [congruence|]. split; [congruence|]. split; [congruence|]. split; [congruence|].
    split; [by eapply is_str_keeps|]. rewrite U3, Href. destruct P as ((n3 & Hn3 & Hc3) & P). rewrite Hn2 in Hn3.
    by injection Hn3 as <-.
  - apply list.NoDup_app. by split.
  - rewrite elem_of_app. intros [Hin|Hin]; [by apply N|]. destruct (decide (k ∈ owned (Tree l strs ts))) as [H|H]; [by apply N|].
    by rewrite <- O, N1.
  - intros k Hk. rewrite Hown, elem_of_app in Hk. rewrite Ho, O1, O; [done|tauto..|].
    unfold cells_of. change (owneds []) with (@nil loc). rewrite app_nil_r, list.elem_of_cons, elem_of_app.
    cbn [owned] in Hk. rewrite list.elem_of_cons, elem_of_app in Hk. fold (owneds ts) in Hk. tauto.
Qed.

Lemma data_texts m n d : data_of m n = Ok d ->
  read_text m (n_valuestring n) = Ok (d_text d) /\ read_name m (n_string n) = Ok (d_name d)
  /\ own d = mkData (n_type n) false (StringIsConst n) (d_text d) (n_valueint n) (n_valuedouble n) (d_name d).
Proof.
  unfold data_of. destruct (read_text _ _); [|done]. destruct (read_name _ _); [|done]. by intros [= <-].
Qed.

Lemma read_text_kept m m' v s : strings_kept m m' -> read_text m v = Ok s -> read_text m' v = Ok s.
Proof.
  intros Hk. unfold read_text, get_str. destruct v as [l|]; [|done]. specialize (Hk l).
  destruct (cells m !! l) as [[|t]|]; cbn [mbind res_bind]; [done| |done]. by rewrite (Hk t).
Qed.

(** The item without its children, complete or taken back. *)
Lemma copy_item_ok m i n d : fresh m -> cells m !! i = Some (Item n) -> data_of m n = Ok d -> d_const d = false ->
  exists r m', copy_item room i m = Ok (r, m')
  /\ match r with
     | None => undone m m'
     | Some l => exists strs, building m m' (Tree l strs []) (Content (own d) [])
     end.
Proof.
  intros Hf Hi Hd Hc. unfold copy_item.
  destruct (data_texts _ _ _ Hd) as (Ht & Hs & Ho).
  assert (Hsc : StringIsConst n = false) by (rewrite <- Hc; by injection Ho).
  destruct (fresh_item_ok (copy_vars n) m Hf) as [[-> Hu]|(l & m1 & m2 & -> & Hm1 & Hu & T2 & H2)];
    [done..|unfold own_strings; cbn; by rewrite Hsc|unfold name_marked; by apply orb_true_r|by exists None, m|].
  rewrite (get_item_ok m1 i n) by by eapply lookup_weaken. cbn [mbind res_bind]. rewrite Hu. cbn [mbind res_bind].
  assert (K2 : keeps m m2) by (apply keeps_sub; by eapply new_tree_sub).
  rewrite (read_text_keeps _ _ _ _ K2 Ht). cbn [mbind res_bind].
  destruct (copy_text_ok _ _ _ _ _ (d_text d) (fun l => set_valuestring (Some l)) T2 H2) as (ok & m3 & -> & H3).
  { intros v. unfold own_strings, name_marked. cbn. by rewrite Hsc. }
  cbn [mbind res_bind]. destruct ok; cbn [negb]; [|by exists None, m3]. destruct H3 as (strs3 & n3 & T3 & H3 & S3 & V3).
  assert (K3 : keeps m m3) by (apply keeps_sub; by eapply new_tree_sub).
  rewrite (read_name_keeps _ _ _ _ K3 Hs). cbn [mbind res_bind].
  destruct (copy_text_ok _ _ _ _ _ (d_name d) (fun l => set_string (Some (SHeap l))) T3 H3) as (ok & m4 & -> & H4).
  { intros v. unfold own_strings, name_marked.
    destruct (d_text d) as [s|]; [destruct V3 as (v3 & -> & _)|subst n3]; cbn; by rewrite Hsc. }
  cbn [mbind res_bind]. destruct ok; cbn [negb]; [|by exists None, m4]. destruct H4 as (strs4 & n4 & T4 & H4 & S4 & V4).
  exists (Some l), m4. split; [done|]. exists strs4. split; [done|]. econstructor; [exact H4| |constructor].
  unfold data_of.
  assert (Ev : read_text m4 (n_valuestring n4) = Ok (d_text d)).
  { replace (n_valuestring n4) with (n_valuestring n3) by (destruct (d_name d); [by destruct V4 as (? & -> & _)|by subst]).
    apply (read_text_kept m3); [done|]. destruct (d_text d) as [s|]; [|by subst n3].
    destruct V3 as (v & -> & Hv). cbn. unfold get_str. by rewrite Hv. }
  assert (Es : read_name m4 (n_string n4) = Ok (d_name d)).
  { destruct (d_name d) as [s|]; [destruct V4 as (v & -> & Hv); cbn; unfold get_str; by rewrite Hv|]. subst n4.
    destruct (d_text d); [by destruct V3 as (? & -> & _)|by subst]. }
  rewrite Ev, Es, Ho. cbn [mbind res_bind].
  by destruct (d_name d), (d_text d); repeat match goal with H : exists _, _ |- _ => destruct H as (? & -> & _) end; subst; cbn.
Qed.

Lemma building_sub m0 m t c cs o : building m0 m t c -> shows_list m0 cs o -> shows_list m cs o.
Proof. intros [H _]. apply shows_list_sub. by eapply new_tree_sub. Qed.

(** What a call and the loop do with enough fuel. *)
Definition call_spec (fuel : nat) : Prop := forall d kids recurse l m,
  fresh m -> shows m (Content d kids) l -> no_const (Content d kids) = true -> (2 * longest kids + 2 <= fuel)%nat ->
  exists r m', duplicate room fuel (Some l) recurse m = Ok (r, m') /\ outcome m (copied_top recurse (Content d kids)) r m'.
Definition loop_spec (fuel : nat) : Prop := forall m0 cs l strs ts d ds o m,
  building m0 m (Tree l strs ts) (Content d ds) -> d_ref d = false ->
  shows_list m0 cs o -> forallb no_const cs = true -> (2 * longest cs + 1 <= fuel)%nat ->
  exists r m', duplicate_kids room fuel l (last_root None ts) o m = Ok (r, m')
  /\ outcome m0 (Content d (ds ++ map copied cs)) r m'.

Lemma loop_step fuel : call_spec fuel -> loop_spec fuel -> loop_spec (S fuel).
Proof.
  intros IHd IHk m0 [|[d' kids] cs] l strs ts d ds o m B Hd Hs Hc Hfuel.
  { cbn in Hs. subst o. cbn [duplicate_kids map]. rewrite app_nil_r. exists (Some l), m. split; [done|].
    by exists (Tree l strs ts). }
  pose proof (building_sub _ _ _ _ _ _ B Hs) as Hs1. pose proof Hs as (i & n & -> & Hn & _ & _ & Hx)%shows_list_cons.
  cbn [forallb] in Hc. apply andb_true_iff in Hc as [Hc1 Hc2]. rewrite longest_cons in Hfuel. cbn [duplicate_kids].
  destruct Hs1 as (? & ? & [= <-] & Hs1 & _).
  destruct (IHd d' kids true i m) as (r & m1 & -> & Hr); [apply B|done..|lia|]. cbn [mbind res_bind].
  destruct r as [nc|]; cbn [outcome] in Hr.
  - destruct Hr as (t & <- & B1). destruct (hang_child _ _ _ _ _ _ _ _ _ _ B Hd B1) as (m2 & E & B2).
    change (match last_root None ts with Some np => suffix_object np (root t) m1 | None => upd l (set_child (Some (root t))) m1 end)
      with (hang l (last_root None ts) (root t) m1). rewrite E. cbn [mbind res_bind].
    rewrite (get_item_ok _ i n); [|eapply lookup_weaken; [exact Hn|]; eapply new_tree_sub, B2]. cbn [mbind res_bind].
    destruct (IHk m0 cs l strs (ts ++ [t]) d (ds ++ [copied (Content d' kids)]) (n_next n) m2) as (r & m3 & E3 & Hr);
      [done..|lia|]. rewrite last_root_snoc in E3. exists r, m3. split; [done|]. by rewrite <- app_assoc in Hr.
  - destruct B as [B _]. destruct (take_back _ _ _ _ B Hr) as (m2 & E & Hu). cbn [root] in E. rewrite E. by exists None, m2.
Qed.

Lemma call_step fuel : loop_spec fuel -> call_spec (S fuel).
Proof.
  intros IH d kids recurse l m Hf Hs Hc Hfuel. pose proof Hs as (n & Hn & Hd & Hk).
  cbn [no_const] in Hc. apply andb_true_iff in Hc as [Hc1 Hc2].
  cbn [duplicate]. destruct (copy_item_ok m l n d) as (r & m1 & -> & Hr); [done..|by destruct (d_const d)|]. cbn [mbind res_bind].
  destruct r as [l'|]; [|by exists None, m1]. destruct Hr as (strs & B). cbn [copied_top].
  destruct recurse; cbn [negb]; [|exists (Some l'), m1; split; [done|]; by exists (Tree l' strs [])].
  rewrite (get_item_ok _ l n); [|eapply lookup_weaken; [exact Hn|]; eapply new_tree_sub, B]. cbn [mbind res_bind].
  apply (IH m kids l' strs [] (own d) [] (n_child n) m1); [done..|lia].
Qed.

Lemma duplicate_ok fuel : call_spec fuel /\ loop_spec fuel.
Proof.
  induction fuel as [|fuel [IHd IHk]].
  - split; unfold call_spec, loop_spec; intros; lia.
  - split; [by apply call_step|by apply loop_step].
Qed.
End Copies.

Lemma owning_copied c : owning (copied c) = true.
Proof.
  assert (H : forall cs, forallb owning (map copied cs) = true).
  { intros cs. induction cs as [|d kids cs IHk IH] using content_list_ind; [done|]. cbn. by rewrite IHk, IH. }
  destruct c as [d kids]. apply H.
Qed.

(** Copying an item, alone or with everything below it, gives a whole item on
    its own that says the same (a reference becomes an item with children of its
    own) and whose cells, names and strings included, are all new; the copied item
    and the rest of the memory are untouched, so that changing or deleting one
    does not affect the other.  At whatever allocation the memory runs out, the
    call returns null and the memory is what it was before; with room for every
    cell it does return a copy.  No item copied may be marked as having a constant
    name. *)
Theorem duplicate_copies (room : cell -> mem -> bool) (m : mem) (item : loc) (c : content) (recurse : bool)
    (Hf : fresh m) (Hs : shows m c item) (Hc : no_const c = true) :
  exists r m', cJSON_Duplicate room (Some item) recurse m = Ok (r, m') /\ fresh m'
  /\ match r with
     | Some copy => exists t, root t = copy /\ rep m' t None None /\ NoDup (owned t)
         /\ (forall l, l ∈ owned t -> cells m !! l = None) /\ only (owned t) m m'
         /\ shows m' (copied_top recurse c) copy
     | None => cells m' = cells m /\ exists x m1, room x m1 = false
     end.
Proof.
  destruct c as [d kids]. pose proof Hs as (n & _ & _ & Hk).
  destruct (proj1 (duplicate_ok room (2 * rounds m)) d kids recurse item m) as (r & m' & E & Hr); [done..| |].
  { pose proof (depth_rounds _ _ _ Hk). lia. }
  exists r, m'. split; [done|]. destruct r as [p|]; cbn [outcome] in Hr; [|by destruct Hr as (? & ? & ?)].
  destruct Hr as (t & <- & [[F R D N O] C]). split; [done|]. exists t. do 5 (split; [done|]).
  eapply carries_shows; [done..|]. destruct recurse; [apply (owning_copied (Content d kids))|done].
Qed.

(** ** Arrays from C arrays *)
Section Arrays.
Context (room : cell -> mem -> bool) (Hroom : forall c m, room c m = true).

Lemma not_undone m m' : undone room m m' -> False.
Proof. intros (_ & _ & c & m1 & H). by rewrite Hroom in H. Qed.

Lemma room_new_item m : new_item room m = (Some (unused m), snd (alloc (Item blank) m)).
Proof. unfold new_item, try_alloc. by rewrite Hroom. Qed.

Definition leaf (d : data) : content := Content d [].
(** An element becomes an item with the data [d]. *)
Definition makes {A} (create : A -> mem -> res (option loc * mem)) (x : A) (d : data) : Prop :=
  forall m, fresh m -> exists l strs m', create x m = Ok (Some l, m') /\ building m m' (Tree l strs []) (leaf d).

Definition number_data (num : spec_float) (i : Z) : data := mkData cJSON_Number false false None i num None.
Definition string_data (s : list Z) : data := mkData cJSON_String false false (Some s) 0 (S754_zero false) None.
Definition kind_data (t : cJSON_type) : data := mkData t false false None 0 (S754_zero false) None.

Lemma create_kind_makes t : makes (fun _ : unit => create_kind room t) () (kind_data t).
Proof.
  intros m Hf. unfold create_kind.
  destruct (fresh_item_ok room (set_type t) m Hf) as [[_ []%not_undone]|(l & m1 & m2 & -> & _ & Hu & T & H)]; [done..|].
  rewrite Hu. exists l, [], m2. split; [done|]. split; [done|]. by econstructor.
Qed.

Lemma create_number_makes num i : cast_s32 num = Ok i -> makes (create_number room) num (number_data num i).
Proof.
  intros Hi m Hf. unfold create_number.
  destruct (fresh_item_ok room (set_number num i) m Hf) as [[_ []%not_undone]|(l & m1 & m2 & -> & _ & Hu & T & H)]; [done..|].
  rewrite Hi. cbn [mbind res_bind]. rewrite Hu. exists l, [], m2. split; [done|]. split; [done|]. by econstructor.
Qed.

Lemma create_string_makes s : makes (create_string room) (Some s) (string_data s).
Proof.
  intros m Hf. unfold create_string.
  destruct (fresh_item_ok room (set_type cJSON_String) m Hf) as [[_ []%not_undone]|(l & m1 & m2 & -> & _ & Hu & T & H)]; [done..|].
  rewrite Hu. cbn [mbind res_bind cJSON_strdup].
  destruct (copy_text_ok room _ _ _ _ _ (Some s) (fun v => set_valuestring (Some v)) T H) as (ok & m3 & E & H3); [by intros v|].
  unfold copy_text in E. destruct (try_alloc_cases room (Str s) m2) as [[_ []%not_undone]|(v & m4 & Ea & _)]; [apply T|].
  rewrite Ea in E |- *. cbn [mbind res_bind] in E |- *.
  destruct (upd l (set_valuestring (Some v)) m4) as [m5|]; cbn [mbind res_bind] in E |- *; [|done]. injection E as <- <-.
  destruct H3 as (strs & n & T3 & H3 & _ & v' & -> & Hv). exists l, strs, m5. split; [done|]. split; [done|].
  econstructor; [exact H3| |constructor]. unfold data_of. cbn. unfold get_str. by rewrite Hv.
Qed.

Context {A : Type} (create : A -> mem -> res (option loc * mem)) (elements : list A).

Lemma elements_loop_ok xs ds : Forall2 (makes create) xs ds ->
  forall m0 m a own_strs d ts cs, building m0 m (Tree a own_strs ts) (Content d cs) -> d_ref d = false ->
  drop (length ts) elements = xs ++ drop (length ts + length xs) elements ->
  exists m' t, elements_loop create elements (length xs) a (length ts) (last_root None ts) m = Ok m'
  /\ root t = a /\ building m0 m' t (Content d (cs ++ map leaf ds)).
Proof.
  induction 1 as [|x d xs ds Hx Hf IH]; intros m0 m a own_strs da ts cs B Hd Hxs.
  { exists m, (Tree a own_strs ts). cbn. by rewrite app_nil_r. }
  cbn [length elements_loop].
  assert (Hlk : elements !! length ts = Some x).
  { pose proof (lookup_drop elements (length ts) 0) as Hl. rewrite Hxs, Nat.add_0_r in Hl. by rewrite <- Hl. }
  rewrite Hlk. destruct (Hx m (b_fresh _ _ _ (proj1 B))) as (l & strs & m1 & -> & B1). cbn [mbind res_bind].
  destruct (hang_child _ _ _ _ _ _ _ _ _ _ B Hd B1) as (m2 & E & B2). cbn [root] in E.
  assert (E' : (if (length ts =? 0)%nat then upd a (set_child (Some l)) m1 else suffix_ptr (last_root None ts) (Some l) m1) = Ok m2).
  { rewrite <- E. destruct (decide (ts = [])) as [->|(ts' & u & ->)%exists_last]; [done|].
    rewrite last_root_snoc, length_app, Nat.add_comm. done. }
  rewrite E'. cbn [mbind res_bind].
  destruct (IH m0 m2 a own_strs da (ts ++ [Tree l strs []]) (cs ++ [leaf d]) B2 Hd) as (m' & t & He & Ht & B').
  { rewrite length_app. cbn [length]. rewrite <- drop_drop, Hxs. cbn. rewrite drop_0. f_equal. f_equal. cbn. lia. }
  rewrite last_root_snoc, length_app, Nat.add_comm in He. cbn [length Nat.add root] in He.
  exists m', t. split; [done|]. split; [done|]. by rewrite <- app_assoc in B'.
Qed.

Lemma create_array_ok ds count m : fresh m -> 0 <= count <= Z.of_nat (length elements) ->
  Forall2 (makes create) (take (Z.to_nat count) elements) ds ->
  exists t m', create_array room create elements count m = Ok (Some (root t), m')
  /\ building m m' t (Content (kind_data cJSON_Array) (map leaf ds)).
Proof.
  intros Hf Hc Hds. unfold create_array. destruct (create_kind_makes cJSON_Array m Hf) as (a & strs & m1 & E & B).
  unfold cJSON_CreateArray. rewrite E. cbn [mbind res_bind].
  destruct (elements_loop_ok _ _ Hds m m1 a strs (kind_data cJSON_Array) [] []) as (m' & t & El & <- & B');
    [done..| |].
  { rewrite length_take, Nat.min_l by lia. cbn [length Nat.add]. by rewrite drop_0, take_drop. }
  rewrite length_take, Nat.min_l in El by lia. exists t, m'. cbn [length last_root] in El. by rewrite El.
Qed.
End Arrays.

(** What is built is shown. *)
Lemma building_shows m0 m t c : building m0 m t c -> owning c = true -> shows m c (root t).
Proof. intros [[_ R _ _ _] C]. by eapply carries_shows. Qed.

Lemma owning_leaves d ds : d_ref d = false -> Forall (fun d => d_ref d = false) ds ->
  owning (Content d (map leaf ds)) = true.
Proof. intros Hd H. cbn. rewrite Hd. cbn. induction H as [|x ds Hx H IH]; [done|]. cbn. by rewrite Hx, IH. Qed.

(** With room for every cell an array of numbers or strings says the first
    [count] elements in their order, on new cells, and nothing else changes.  A
    number outside the range of [int] is excluded: its conversion is undefined. *)
Theorem arrays_created (room : cell -> mem -> bool) (m : mem) (count : Z)
    (numbers : list spec_float) (ints : list Z) (strings : list (list Z))
    (Hroom : forall c m, room c m = true) (Hf : fresh m)
    (Hn : Forall2 (fun x i => cast_s32 x = Ok i) (take (Z.to_nat count) numbers) ints)
    (Hc : 0 <= count <= Z.of_nat (length numbers) /\ count <= Z.of_nat (length strings)) :
  (exists t m', cJSON_CreateDoubleArray room numbers count m = Ok (Some (root t), m')
     /\ new_tree m m' t
     /\ shows m' (Content (kind_data cJSON_Array)
          (map leaf (zip_with number_data (take (Z.to_nat count) numbers) ints))) (root t))
  /\ exists t m', cJSON_CreateStringArray room (map Some strings) count m = Ok (Some (root t), m')
     /\ new_tree m m' t
     /\ shows m' (Content (kind_data cJSON_Array) (map leaf (map string_data (take (Z.to_nat count) strings)))) (root t).
Proof.
  split.
  - destruct (create_array_ok room Hroom (create_number room) numbers
      (zip_with number_data (take (Z.to_nat count) numbers) ints) count m) as (t & m' & E & B); [done|lia| |].
    { clear -Hn Hroom. induction Hn as [|x i xs js Hx H IH]; constructor; [by apply create_number_makes|done]. }
    exists t, m'. split; [done|]. split; [apply B|]. eapply building_shows; [exact B|].
    apply owning_leaves; [done|]. clear. revert ints. induction (take _ numbers) as [|x xs IH]; intros [|i js]; constructor; auto.
  - destruct (create_array_ok room Hroom (create_string room) (map Some strings)
      (map string_data (take (Z.to_nat count) strings)) count m) as (t & m' & E & B); [done|rewrite length_map; lia| |].
    { rewrite firstn_map. clear -Hroom. induction (take (Z.to_nat count) strings) as [|s ss IH]; constructor; [by apply create_string_makes|done]. }
    exists t, m'. split; [done|]. split; [apply B|]. eapply building_shows; [exact B|].
    apply owning_leaves; [done|]. apply List.Forall_map, List.Forall_forall. done.
Qed.

(** ** Concrete copies *)
Module CopyDemo.
(** An object with the member x and, without a name, a reference to an array with
    a number. *)
Definition demo_mem : mem :=
  mkMem (<[1%positive := Item (mkNode None None (Some 2%positive) cJSON_Object false false None 0 (S754_zero false) None)]>
        (<[2%positive := Item (mkNode (Some 5%positive) None None cJSON_String false false (Some 4%positive) 0
                                 (S754_zero false) (Some (SHeap 3%positive)))]>
        (<[3%positive := Str (text "x")]> (<[4%positive := Str (text "abc")]>
        (<[5%positive := Item (mkNode None (Some 2%positive) (Some 6%positive) cJSON_Array true false None 0 (S754_zero false) None)]>
        (<[6%positive := Item (mkNode None None None cJSON_Number false false None 7 (F64.of_Z 7) None)]> ∅))))))
    7%positive.
Definition demo_content (reference : bool) : content :=
  Content (kind_data cJSON_Object)
    [Content (mkData cJSON_String false false (Some (text "abc")) 0 (S754_zero false) (Some (text "x"))) [];
     Content (mkData cJSON_Array reference false None 0 (S754_zero false) None) [leaf (number_data (F64.of_Z 7) 7)]].
(** Room for so many cells. *)
Definition up_to (last : loc) (_ : cell) (m : mem) : bool := (unused m <=? last)%positive.

Lemma demo_fresh : fresh demo_mem.
Proof. intros l Hl. cbn in *. rewrite !lookup_insert_ne by lia. done. Qed.

Lemma demo_shows : shows demo_mem (demo_content true) 1.
Proof.
  eexists. do 2 (split; [reflexivity|]). eexists _, _. split; [done|].
  split; [eexists; do 2 (split; [reflexivity|]); reflexivity|]. split; [done|]. eexists _, _. split; [done|]. split.
  - eexists. do 2 (split; [reflexivity|]). eexists _, _. split; [done|].
    split; [eexists; do 2 (split; [reflexivity|]); reflexivity|]. by split.
  - by split.
Qed.

Lemma duplicate_copies_witness :
  exists r m', cJSON_Duplicate (up_to 20) (Some 1%positive) true demo_mem = Ok (r, m') /\ fresh m'
  /\ match r with
     | Some copy => exists t, root t = copy /\ rep m' t None None /\ NoDup (owned t)
         /\ (forall l, l ∈ owned t -> cells demo_mem !! l = None) /\ only (owned t) demo_mem m'
         /\ shows m' (demo_content false) copy
     | None => cells m' = cells demo_mem /\ exists x m1, up_to 20 x m1 = false
     end.
Proof.
  apply (duplicate_copies (up_to 20) demo_mem 1 (demo_content true) true);
    [exact demo_fresh|exact demo_shows|vm_compute; reflexivity].
Defined.

(** Six cells are needed; with five the call gives null and everything back. *)
Example six_cells :
  match cJSON_Duplicate (up_to 12) (Some 1%positive) true demo_mem with Ok (r, _) => r = Some 7%positive | _ => False end.
Proof. vm_compute. reflexivity. Qed.
Example five_cells :
  match cJSON_Duplicate (up_to 11) (Some 1%positive) true demo_mem with
  | Ok (r, m) => r = None /\ cells m = cells demo_mem
  | _ => False
  end.
Proof. vm_compute. split; reflexivity. Qed.

(** The copy of an item with a constant name keeps the mark and gets a name of its
    own, which is not freed with it. *)
Theorem copied_constant_name_leaks :
  (m ← cJSON_AddItemToObjectCS 1 (text "id") (Some 5%positive) example_mem;
   '(c, m) ← cJSON_Duplicate (fun _ _ => true) (Some 5%positive) true m;
   m ← cJSON_Delete c m; m ← cJSON_Delete (Some 1%positive) m; Ok (map_to_list (cells m)))
  = Ok [(7%positive, Str (text "id"))].
Proof. vm_compute. reflexivity. Qed.

(** When there is no room for an element of an array the null pointer is written
    through: at once when it is not the first, else at the second element. *)
Theorem refused_element_faults :
  (forall last, last ∈ [1; 2]%positive ->
     cJSON_CreateIntArray (up_to last) [10; 20; 30] 3 (mkMem ∅ 1) = Fault NullDeref)
  /\ match cJSON_CreateIntArray (up_to 1) [10; 20; 30] 1 (mkMem ∅ 1) with
     | Ok (Some a, m) => a = 1%positive /\ n_child <$> match get_item m 1 with Ok n => Some n | _ => None end = Some None
     | _ => False
     end.
Proof.
  split; [|vm_compute; by split]. intros last Hin. rewrite !list.elem_of_cons in Hin.
  destruct Hin as [-> |[-> |Hin%list.not_elem_of_nil]]; [vm_compute; reflexivity..|done].
Qed.
End CopyDemo.
