(* ===== verification/ConfigJson.v ===== *)
(** * The configuration file
    (Task/Struct2Json/Interface_S2J.c, JsonFileOperation.c)

    Writing the parameter table to ConfigFile.json and reading it back, over
    the JSON library.  Allocation succeeds, except that a request for 0 bytes
    yields no buffer.  [Get_JsonFile] passes a null pointer for the byte count
    that [f_read] stores.  [null_write] says what that store does: it is
    ignored, as a write to the flash memory at address 0 without programming
    mode may be, or it faults; the C standard leaves it undefined.  Both cases are
    stated where a theorem depends on it. *)
From S2P Require Import Prelude Floats FloatExact Registers CommConfig CJson CJsonRoundtrip.

Section config.
Context (pow : spec_float -> spec_float -> spec_float).
Context (fmt_0f fmt_e fmt_f : spec_float -> list Z).
(** Rounds allowed to the length loop of the string printer. *)
Context (spins : nat).

(** ** Structs and items *)
Definition ConfigFile_StructToJson (c : ConfigFile) : res cJSON :=
  let json_obj := cJSON_CreateObject in
  s ← cJSON_CreateString (cf_name c);
  let json_obj := cJSON_AddItemToObject json_obj (text "name") s in
  p ← cJSON_CreateNumber (F64.of_Z (parameter c));
  let json_obj := cJSON_AddItemToObject json_obj (text "parameter") p in
  n ← cJSON_CreateNumber (F64.of_Z (number c));
  Ok (cJSON_AddItemToObject json_obj (text "number") n).

(** The struct is cleared first; the name is not read back. *)
Definition int_element (json_obj : cJSON) (element : list Z) : Z :=
  match cJSON_GetObjectItem json_obj element with
  | Some json_temp => j_valueint json_temp
  | None => 0
  end.
Definition ConfigFile_JsonToStruct (json_obj : cJSON) : ConfigFile :=
  mkConfig None (int_element json_obj (text "parameter")) (int_element json_obj (text "number")).

Definition vPort_Get_cJSON (value : list Z) : res (option cJSON) := cJSON_Parse pow value.
Definition vPort_Print_cJSON (c : cJSON) : res (list Z) := cJSON_Print fmt_0f fmt_e fmt_f spins c.

(** ** Writing *)
Definition f_write (s : list Z) (f : file) : file := (fun l => l ++ s) <$> f.

(** One element and what separates it from the next. *)
Definition write_item (c : ConfigFile) (sep : list Z) (f : file) : res file :=
  struct_json ← ConfigFile_StructToJson c;
  string ← vPort_Print_cJSON struct_json;
  Ok (f_write sep (f_write string f)).

(** [{"ConfigFile":[  ] and a newline *)
Definition json_header : list Z := [123; 34] ++ text "ConfigFile" ++ [34; 58; 91; 32; 32; 10].

(** [opens]: whether the file can be created; if so it starts empty. *)
Definition Create_JsonFile (opens : bool) (t : config_table) : res file :=
  let f := f_write json_header (if opens then Some [] else None) in
  f ← write_item (cfg0 t) [44; 10] f;
  f ← write_item (cfg1 t) [44; 10] f;
  f ← write_item (cfg2 t) [10] f;
  Ok (f_write [125; 10] (f_write [93; 10] f)).

(** ** Reading *)

(** [g_ConfigFile[j] = c] *)
Definition set_config (t : config_table) (j : Z) (c : ConfigFile) : res config_table :=
  match j with
  | 0 => Ok (mkTable c (cfg1 t) (cfg2 t))
  | 1 => Ok (mkTable (cfg0 t) c (cfg2 t))
  | 2 => Ok (mkTable (cfg0 t) (cfg1 t) c)
  | _ => Fault OutOfBounds
  end.

Definition load_element (array : cJSON) (j : Z) (t : config_table) : res config_table :=
  match cJSON_GetArrayItem array j with
  | None => Fault NullDeref
  | Some _item =>
      if decide (j_type _item = cJSON_Object) then set_config t j (ConfigFile_JsonToStruct _item)
      else Ok t
  end.
Definition load_member (readJson : cJSON) (i : Z) (t : config_table) : res config_table :=
  match cJSON_GetArrayItem readJson i with
  | None => Fault NullDeref
  | Some c =>
      if decide (j_type c = cJSON_Object) then Ok t
      else for_loop (Z.to_nat (cJSON_GetArraySize c)) 0 (load_element c) t
  end.

Definition FR_OK : Z := 0.
Definition FR_NO_FILE : Z := 4.

(** The result code and the table.  A file that does not parse leaves the
    result of the read, [FR_OK].  The read stores its byte count through a null
    pointer (see the head of this file). *)
Definition Get_JsonFile (null_write : bool) (contents : file) (t : config_table)
    : res (Z * config_table) :=
  match contents with
  | None => Ok (FR_NO_FILE, t)
  | Some data =>
      let fileSize := u16 (Z.of_nat (length data)) in
      if null_write then
        readJson ← (if fileSize =? 0 then Ok None
                    else vPort_Get_cJSON (take (Z.to_nat fileSize) data));
        match readJson with
        | None => Ok (FR_OK, t)
        | Some c => t ← for_loop (Z.to_nat (cJSON_GetArraySize c)) 0 (load_member c) t; Ok (FR_OK, t)
        end
      else Fault NullDeref
  end.

(** ** What is written *)

(** The tree of a table entry. *)
Definition config_json (name : list Z) (p n : Z) : json :=
  JObj [(text "name", JStr name); (text "parameter", JNum p); (text "number", JNum n)].

(** Entries whose text can be read back. *)
Definition config_ok (name : list Z) (c : ConfigFile) : Prop :=
  cf_name c = Some name /\ plain name /\ (length name <= 1000)%nat
  /\ 0 <= parameter c <= 2147483647 /\ 0 <= number c <= 2147483647.

Lemma config_good name c : config_ok name c -> good (config_json name (parameter c) (number c)).
Proof.
  intros (_ & Hn & _ & Hp & Hm). constructor.
  repeat (constructor; [split; [by apply plain_check|by constructor]|]). constructor.
Qed.

Lemma struct_to_json name c : config_ok name c ->
  ConfigFile_StructToJson c = Ok (to_item (config_json name (parameter c) (number c))).
Proof.
  intros (Hc & _ & _ & Hp & Hm). unfold ConfigFile_StructToJson, cJSON_CreateString, cJSON_CreateNumber.
  rewrite Hc. cbn [cJSON_strdup]. rewrite !bind_ret_l, !cast_exact by done. done.
Qed.

Lemma json_to_struct name p n :
  ConfigFile_JsonToStruct (to_item (config_json name p n)) = mkConfig None p n.
Proof. reflexivity. Qed.

Context (Hpow : forall x, pow x (S754_zero false) = F64.of_Z 1).
Abbreviation rb := (reads_back pow fmt_0f fmt_e fmt_f spins).

Lemma config_text name c : config_ok name c ->
  exists t, rb (config_json name (parameter c) (number c)) 0 t /\ (length t <= 1200)%nat
  /\ forall sep l, write_item c sep (Some l) = Ok (Some (l ++ t ++ sep)).
Proof.
  intros Hc. pose proof (config_good _ _ Hc) as Hg.
  destruct (good_reads_back pow Hpow fmt_0f fmt_e fmt_f spins _ Hg 0 ltac:(lia)) as [t Ht].
  exists t. split; [done|]. pose proof (rb_print _ _ _ _ _ _ _ _ Ht) as Hp. split.
  - destruct Hc as (_ & Hn & Hlen & Hpar & Hnum).
    unfold config_json in Hp. cbn [to_item with_children print_value map set_name item string_item] in Hp.
    unfold mapR in Hp. cbn [print_value j_string] in Hp.
    rewrite (print_plain spins name Hn), !print_dec in Hp by done.
    rewrite !print_plain in Hp by (by apply plain_check). rewrite !bind_ret_l in Hp.
    unfold print_object in Hp. cbv zeta in Hp.
    match type of Hp with (if (Z.of_nat (length ?o) + 1 <=? ?b) then _ else _) = _ =>
      destruct (Z.leb_spec (Z.of_nat (length o) + 1) b) as [Hle|];
        [set (out := o) in *; clearbody out|done] end.
    injection Hp as <-. cbn [foldl] in Hle.
    pose proof (sprintf_d_length (parameter c)). pose proof (sprintf_d_length (number c)).
    rewrite !length_cons, !length_app in Hle. change (length (text "name")) with 4%nat in Hle.
    change (length (text "parameter")) with 9%nat in Hle.
    change (length (text "number")) with 6%nat in Hle. cbn [length] in Hle. lia.
  - intros sep l. unfold write_item. rewrite (struct_to_json name c Hc), bind_ret_l.
    unfold vPort_Print_cJSON, cJSON_Print. rewrite Hp, bind_ret_l. cbn. by rewrite app_assoc.
Qed.

(** ** What is read back *)

(** The root of the file. *)
Definition config_root (x0 x1 x2 : cJSON) : cJSON :=
  with_children cJSON_Object
    [set_name (text "ConfigFile") (with_children cJSON_Array [x0; x1; x2])].

(** The three elements and the closing bracket. *)
Lemma parse_elements j0 j1 j2 t0 t1 t2 f v : rb j0 0 t0 -> rb j1 0 t1 -> rb j2 0 t2 ->
  (jsize j0 + jsize j1 + jsize j2 <= f)%nat ->
  array_items pow (S (S (S f)))
    (t0 ++ 44 :: 10 :: t1 ++ 44 :: 10 :: t2 ++ 10 :: 93 :: v)
  = Ok (Some ([to_item j0; to_item j1; to_item j2], v)).
Proof.
  intros H0 H1 H2 Hf.
  rewrite (array_item_step _ _ _ _ _ _ _ _ _ _ H0) by (lia || (by eexists _, _)).
  rewrite skip_here, bind_ret_l by lia. cbn [peek]. rewrite bind_ret_l. cbn [Z.eqb Pos.eqb].
  change (adv 1 (44 :: ?v)) with v. rewrite array_items_ws by lia.
  rewrite (array_item_step _ _ _ _ _ _ _ _ _ _ H1) by (lia || (by eexists _, _)).
  rewrite skip_here, bind_ret_l by lia. cbn [peek]. rewrite bind_ret_l. cbn [Z.eqb Pos.eqb].
  change (adv 1 (44 :: ?v)) with v. rewrite array_items_ws by lia.
  rewrite (array_item_step _ _ _ _ _ _ _ _ _ _ H2) by (lia || (by eexists _, _)).
  by rewrite skip_ws, skip_here by lia.
Qed.

Lemma parse_config j0 j1 j2 t0 t1 t2 : rb j0 0 t0 -> rb j1 0 t1 -> rb j2 0 t2 ->
  cJSON_Parse pow (json_header ++ t0 ++ 44 :: 10 :: t1 ++ 44 :: 10 :: t2 ++ 10 :: 93 :: 10 :: 125 :: [10])
  = Ok (Some (config_root (to_item j0) (to_item j1) (to_item j2))).
Proof.
  intros H0 H1 H2. unfold cJSON_Parse.
  set (body := t0 ++ _). pose proof (rb_size _ _ _ _ _ _ _ _ H0).
  pose proof (rb_size _ _ _ _ _ _ _ _ H1). pose proof (rb_size _ _ _ _ _ _ _ _ H2).
  change (json_header ++ body) with
    (123 :: 34 :: text "ConfigFile" ++ 34 :: 58 :: 91 :: 32 :: 32 :: 10 :: body).
  rewrite skip_here, bind_ret_l by lia.
  set (v := 123 :: _). assert (exists f, (2 * length v + 2 = S (S (S (S (S (S f))))))%nat
    /\ (jsize j0 + jsize j1 + jsize j2 <= f)%nat) as (f & -> & Hf).
  { exists (2 * length v - 4)%nat. unfold v, body.
    repeat (rewrite length_cons || rewrite length_app). cbn [length]. lia. }
  unfold v. rewrite parse_value_head by lia. change (is_digit 123) with false. cbn [Z.eqb Pos.eqb orb].
  rewrite skip_here, bind_ret_l by lia. cbn [peek]. rewrite bind_ret_l. cbn [Z.eqb Pos.eqb].
  cbn [object_items]. rewrite skip_here, bind_ret_l by lia.
  rewrite parse_plain, bind_ret_l by (by apply plain_check).
  rewrite skip_here, bind_ret_l by lia. cbn [peek]. rewrite bind_ret_l. cbn [Z.eqb Pos.eqb negb].
  change (adv 1 (58 :: ?v)) with v. rewrite skip_here, bind_ret_l by lia.
  rewrite parse_value_head by lia. change (is_digit 91) with false. cbn [Z.eqb Pos.eqb orb].
  rewrite !skip_ws by lia. unfold body. rewrite (rb_skip _ _ _ _ _ _ _ _ _ H0), bind_ret_l.
  assert (exists c w, t0 = c :: w /\ c <> 93) as (c & w & E & Hc)
    by (destruct (rb_head _ _ _ _ _ _ _ _ H0) as (c & w & -> & _ & Hc); by eexists _, _).
  rewrite E at 1. cbn [app peek]. rewrite bind_ret_l, (proj2 (Z.eqb_neq c 93)) by done.
  rewrite (parse_elements j0 j1 j2 t0 t1 t2 f) by done.
  rewrite !bind_ret_l, skip_ws, skip_here, bind_ret_l by lia. done.
Qed.

(** A table of which every entry can be read back, and the same without names. *)
Definition table_ok (t : config_table) : Prop :=
  exists n0 n1 n2, config_ok n0 (cfg0 t) /\ config_ok n1 (cfg1 t) /\ config_ok n2 (cfg2 t).
Definition unnamed (c : ConfigFile) : ConfigFile := mkConfig None (parameter c) (number c).
Definition unnamed_table (t : config_table) : config_table :=
  mkTable (unnamed (cfg0 t)) (unnamed (cfg1 t)) (unnamed (cfg2 t)).

(** The text is written to whatever file there is. *)
Lemma write_item_any c sep f y : write_item c sep (Some []) = Ok y -> exists f', write_item c sep f = Ok f'.
Proof.
  unfold write_item. destruct (ConfigFile_StructToJson c) as [j|]; [|done]. rewrite !bind_ret_l.
  destruct (vPort_Print_cJSON j); [|done]. rewrite !bind_ret_l. by eexists.
Qed.

Lemma create_ok opens t : table_ok t -> exists f, Create_JsonFile opens t = Ok f.
Proof.
  intros (n0 & n1 & n2 & H0 & H1 & H2).
  destruct (config_text n0 _ H0) as (x0 & _ & _ & W0).
  destruct (config_text n1 _ H1) as (x1 & _ & _ & W1).
  destruct (config_text n2 _ H2) as (x2 & _ & _ & W2).
  unfold Create_JsonFile. cbv zeta.
  destruct (write_item_any _ _ (f_write json_header (if opens then Some [] else None)) _ (W0 [44; 10] [])) as [f0 ->].
  rewrite bind_ret_l. destruct (write_item_any _ _ f0 _ (W1 [44; 10] [])) as [f1 ->].
  rewrite bind_ret_l. destruct (write_item_any _ _ f1 _ (W2 [10] [])) as [f2 ->]. by eexists.
Qed.

Lemma create_get t t0 : table_ok t ->
  exists data, Create_JsonFile true t = Ok (Some data)
  /\ Get_JsonFile true (Some data) t0 = Ok (FR_OK, unnamed_table t).
Proof.
  intros (n0 & n1 & n2 & H0 & H1 & H2).
  destruct (config_text n0 _ H0) as (x0 & R0 & L0 & W0).
  destruct (config_text n1 _ H1) as (x1 & R1 & L1 & W1).
  destruct (config_text n2 _ H2) as (x2 & R2 & L2 & W2).
  unfold Create_JsonFile. cbn [f_write fmap option_fmap option_map]. rewrite app_nil_l.
  rewrite W0, bind_ret_l, W1, bind_ret_l, W2, bind_ret_l. cbn [f_write fmap option_fmap option_map].
  rewrite <- !app_assoc. cbn [app]. eexists. split; [done|].
  set (data := json_header ++ _).
  assert (length data < 5000)%nat as Hlen.
  { unfold data. repeat (rewrite length_cons || rewrite length_app).
    change (length json_header) with 18%nat. cbn [length]. lia. }
  assert (0 < length data)%nat by (unfold data; rewrite length_app; cbn; lia).
  unfold Get_JsonFile. rewrite u16_id by mlia.
  rewrite (proj2 (Z.eqb_neq _ 0)) by lia. rewrite Nat2Z.id, take_ge by done.
  unfold vPort_Get_cJSON, data.
  rewrite (parse_config _ _ _ _ _ _ R0 R1 R2), bind_ret_l. reflexivity.
Qed.
End config.

(** the configuration file keeps the parameters: what [Create_JsonFile]
    writes for a table of named entries with non-negative parameters is read
    back by [Get_JsonFile] as the same parameters and numbers (where stores
    through a null pointer are ignored); the names come back as null
    pointers. *)
Theorem config_file_roundtrip pow fmt_0f fmt_e fmt_f spins t t0 :
  (forall x, pow x (S754_zero false) = F64.of_Z 1) -> table_ok t ->
  exists data, Create_JsonFile fmt_0f fmt_e fmt_f spins true t = Ok (Some data)
  /\ Get_JsonFile pow true (Some data) t0 = Ok (FR_OK, unnamed_table t).
Proof. intros Hpow Ht. by apply create_get. Qed.

(** C38: after the configuration has been read from its file (which presupposes
    that the read's store through a null pointer was ignored), the next attempt to
    save it takes the length of a null name and faults: a relay that has
    restarted with a saved configuration cannot save a new one. *)
Theorem save_after_reload_faults pow fmt_0f fmt_e fmt_f spins t t0 opens :
  (forall x, pow x (S754_zero false) = F64.of_Z 1) -> table_ok t ->
  exists data t1, Create_JsonFile fmt_0f fmt_e fmt_f spins true t = Ok (Some data)
  /\ Get_JsonFile pow true (Some data) t0 = Ok (FR_OK, t1)
  /\ Create_JsonFile fmt_0f fmt_e fmt_f spins opens t1 = Fault NullDeref.
Proof.
  intros Hpow Ht. destruct (create_get pow fmt_0f fmt_e fmt_f spins Hpow t t0 Ht) as (data & H1 & H2).
  exists data, (unnamed_table t). split; [done|]. by split.
Qed.

Lemma g_ConfigFile_ok : table_ok g_ConfigFile.
Proof.
  eexists _, _, _. split; [|split]; (split; [reflexivity|]);
    (split; [by apply plain_check|]); (split; [apply Nat.leb_le; reflexivity|]);
    repeat split; by apply Z.leb_le.
Qed.

Lemma config_file_roundtrip_witness : exists data,
  Create_JsonFile (fun _ => []) (fun _ => []) (fun _ => []) 0 true g_ConfigFile = Ok (Some data)
  /\ Get_JsonFile pow_int true (Some data) g_ConfigFile
     = Ok (FR_OK, mkTable (mkConfig None 115200 0) (mkConfig None 1 1) (mkConfig None 1 2)).
Proof. apply (config_file_roundtrip pow_int); [done|exact g_ConfigFile_ok]. Defined.

Lemma save_after_reload_faults_witness : exists data t1,
  Create_JsonFile (fun _ => []) (fun _ => []) (fun _ => []) 0 true g_ConfigFile = Ok (Some data)
  /\ Get_JsonFile pow_int true (Some data) g_ConfigFile = Ok (FR_OK, t1)
  /\ Create_JsonFile (fun _ => []) (fun _ => []) (fun _ => []) 0 true t1 = Fault NullDeref.
Proof. apply (save_after_reload_faults pow_int); [done|exact g_ConfigFile_ok]. Defined.
