(* ===== verification/TaskModbus.v ===== *)
(** * The configuration task (Task/TaskModbus.c)

    One round of the save-configuration thread: the commands a master leaves
    in the flag register are carried out and acknowledged.  The files that are
    written and the processor reset appear as the actions of the round. *)
From S2P Require Import Prelude Floats Registers MbData CommConfig CJson CJsonRoundtrip ConfigJson.

Inductive action : Type :=
| SaveIds (f : file)               (* DeviceId.csv rewritten *)
| SaveJson (f : file)              (* ConfigFile.json rewritten *)
| DoSystemReset.

(** [usSRegHoldBuf[CONFIG_FLAG_ADDRESS] & (1 << b)] *)
Definition flag (b : Z) (regs : list Z) : res bool :=
  r ← get regs CONFIG_FLAG_ADDRESS; Ok (negb (Z.land r (Z.shiftl 1 b) =? 0)).
(** [usSRegHoldBuf[CONFIG_FLAG_ADDRESS] &= ~(1 << b)] *)
Definition clear_flag (b : Z) (regs : list Z) : res (list Z) :=
  r ← get regs CONFIG_FLAG_ADDRESS;
  set regs CONFIG_FLAG_ADDRESS (u16 (Z.land r (Z.lnot (Z.shiftl 1 b)))).

(** Before its loop the thread reads both files.  [json], [csv]: the files;
    [mem]: whether the allocator has the memory for the id file. *)
Definition SaveConfig_start (pow : spec_float -> spec_float -> spec_float) (null_write mem : bool)
    (json csv : file) (regs : list Z) (t : config_table) : res (list Z * config_table) :=
  '(_, t) ← Get_JsonFile pow null_write json t;
  regs ← ConfigModbusHoldRegister t regs;
  regs ← ReadDeviceIdFile mem csv regs;
  Ok (regs, t).

(** One round of the loop.  [opens], [json_opens]: whether the id file and
    the configuration file can be created; [fmt_0f], [fmt_e], [fmt_f] and
    [spins]: as for the JSON printer. *)
Section round.
Context (fmt_0f fmt_e fmt_f : spec_float -> list Z) (spins : nat).

Definition SaveConfig_round (opens json_opens : bool) (regs : list Z) (t : config_table)
  : res (list Z * config_table * list action) :=
  modbus ← flag 0 regs;
  '(regs, t) ← (if modbus : bool then
                  t ← HostSetModbusParameter regs t;
                  regs ← clear_flag 0 regs;
                  Ok (regs, t)
                else Ok (regs, t));
  overtime ← flag 1 regs;
  '(regs, t) ← (if overtime : bool then
                  r1 ← get regs 1;
                  regs ← clear_flag 1 regs;
                  Ok (regs, mkTable (cfg0 t) (cfg1 t) (set_parameter (cfg2 t) (Z.land r1 0x00FF)))
                else Ok (regs, t));
  ids ← flag 3 regs;
  '(regs, a1) ← (if ids : bool then
                   f ← SaveDeviceIdFile opens regs;
                   regs ← clear_flag 3 regs;
                   Ok (regs, [SaveIds f])
                 else Ok (regs, []));
  a2 ← (if modbus || overtime then
          f ← Create_JsonFile fmt_0f fmt_e fmt_f spins json_opens t; Ok [SaveJson f]
        else Ok []);
  reset ← flag 15 regs;
  '(regs, a3) ← (if reset : bool then
                   regs ← clear_flag 15 regs; Ok (regs, [DoSystemReset])
                 else Ok (regs, []));
  Ok (regs, t, a1 ++ a2 ++ a3).
End round.

(** ** Lemmas *)
Lemma land_bit r b : 0 <= b -> negb (Z.land r (Z.shiftl 1 b) =? 0) = Z.testbit r b.
Proof.
  intros Hb. rewrite Z.shiftl_1_l. destruct (Z.testbit r b) eqn:E.
  - apply negb_true_iff, Z.eqb_neq. intros H. apply (f_equal (fun z => Z.testbit z b)) in H.
    by rewrite Z.land_spec, E, Z.pow2_bits_true, Z.bits_0 in H by lia.
  - apply negb_false_iff, Z.eqb_eq, Z.bits_inj'. intros j Hj.
    rewrite Z.land_spec, Z.bits_0. destruct (decide (j = b)) as [->|]; [by rewrite E|].
    by rewrite Z.pow2_bits_false, andb_false_r by lia.
Qed.

(** The flag register without the flags of [bs]. *)
Definition without (bs : list Z) (r r' : Z) : Prop :=
  is_u16 r' /\ forall j, 0 <= j < 16 -> Z.testbit r' j = Z.testbit r j && negb (bool_decide (j ∈ bs)).

Lemma flag_ok b regs : regs_wf regs -> 0 <= b ->
  flag b regs = Ok (Z.testbit (rd regs CONFIG_FLAG_ADDRESS) b).
Proof.
  intros Hr Hb. unfold flag. rewrite regs_get by (done || reg_unfold; lia).
  by rewrite bind_ret_l, land_bit.
Qed.

Definition cleared (bs : list Z) (regs regs' : list Z) : Prop :=
  regs_wf regs' /\ without bs (rd regs CONFIG_FLAG_ADDRESS) (rd regs' CONFIG_FLAG_ADDRESS)
  /\ forall a, 0 <= a -> a <> CONFIG_FLAG_ADDRESS -> rd regs' a = rd regs a.

Lemma clear_flag_ok b regs : regs_wf regs -> 0 <= b < 16 ->
  exists regs', clear_flag b regs = Ok regs' /\ cleared [b] regs regs'.
Proof.
  intros Hr Hb. unfold clear_flag. rewrite regs_get, bind_ret_l by (done || reg_unfold; lia).
  set (r := rd _ _). edestruct (regs_set regs CONFIG_FLAG_ADDRESS) as [-> Hr'];
    [done|apply u16_range|reg_unfold; lia|].
  eexists. split; [done|]. split; [done|]. split.
  - rewrite rd_upd_eq by (apply in_range_regs; [done|reg_unfold; lia]).
    split; [apply u16_range|]. intros j Hj. fold r.
    rewrite testbit_u16, Z.land_spec, Z.lnot_spec, Z.shiftl_1_l by lia. do 2 f_equal.
    destruct (decide (j = b)) as [->|Hne].
    + rewrite Z.pow2_bits_true, bool_decide_true by (done || lia || apply list_elem_of_here). done.
    + rewrite Z.pow2_bits_false, bool_decide_false; [done| |lia].
      rewrite elem_of_cons, elem_of_nil. lia.
  - intros a Ha Hne. apply rd_upd_ne; [reg_unfold; lia|done|done].
Qed.

Lemma cleared_nil regs : regs_wf regs -> cleared [] regs regs.
Proof.
  intros Hr. split; [done|]. split; [|done]. split; [apply regs_rd; [done|reg_unfold; lia]|].
  intros j _. rewrite bool_decide_false, andb_true_r; [done|]. intros []%elem_of_nil.
Qed.
Lemma cleared_app bs cs regs regs1 regs2 :
  cleared bs regs regs1 -> cleared cs regs1 regs2 -> cleared (bs ++ cs) regs regs2.
Proof.
  intros (W1 & [U1 B1] & O1) (W2 & [U2 B2] & O2). split; [done|]. split.
  - split; [done|]. intros j Hj. rewrite B2, B1 by done.
    rewrite <- andb_assoc, <- negb_orb, <- bool_decide_or. do 2 f_equal.
    apply bool_decide_ext. by rewrite elem_of_app.
  - intros a Ha Hne. by rewrite O2, O1.
Qed.

(** A flag's branch: taken and acknowledged, or skipped. *)
Definition acked (b : Z) (on : bool) : list Z := if on then [b] else [].

(** The four baud rates, by their code in bits 8 and 9 of register 0. *)
Definition baud_rates : list Z := [2400; 4800; 9600; 115200].

(** What register 0 asks for. *)
Record modbus_set (r : Z) (t t' : config_table) : Prop := {
  ms_address : cfg1 t' = set_parameter (cfg1 t) (r mod 256);
  ms_baud : exists b, baud_rates !! Z.to_nat (r / 256 mod 4) = Some b /\ cfg0 t' = set_parameter (cfg0 t) b;
  ms_other : cfg2 t' = cfg2 t }.

Lemma host_set_ok regs t : regs_wf regs ->
  exists t', HostSetModbusParameter regs t = Ok t' /\ modbus_set (rd regs 0) t t'.
Proof.
  intros Hr. unfold HostSetModbusParameter. rewrite regs_get, bind_ret_l by (done || reg_unfold; lia).
  set (r := rd regs 0). change 0x00FF with 255. rewrite land_ff.
  assert (Z.shiftr (Z.land r 0x0300) 8 = (r / 256) mod 4) as ->.
  { change 0x0300 with (Z.shiftl 3 8). rewrite shiftr_land_hi by lia.
    change 3 with (Z.ones 2). rewrite Z.land_ones, shiftr_8 by lia. done. }
  assert ((r / 256) mod 4 = 0 \/ (r / 256) mod 4 = 1 \/ (r / 256) mod 4 = 2
    \/ (r / 256) mod 4 = 3) as Hc by lia.
  destruct Hc as [Hc|[Hc|[Hc|Hc]]]; rewrite Hc; (eexists; split; [reflexivity|]);
    split; try done; rewrite Hc; by eexists.
Qed.

Lemma modbus_branch regs t (on : bool) : regs_wf regs ->
  exists regs' t', (if on then
      t ← HostSetModbusParameter regs t; regs ← clear_flag 0 regs; Ok (regs, t)
    else Ok (regs, t)) = Ok (regs', t') /\ cleared (acked 0 on) regs regs'
  /\ (if on then modbus_set (rd regs 0) t t' else t' = t).
Proof.
  intros Hr. destruct on.
  - destruct (host_set_ok regs t Hr) as (t' & -> & H).
    destruct (clear_flag_ok 0 regs Hr) as (regs' & E & Hc); [lia|].
    rewrite bind_ret_l, E, bind_ret_l. by exists regs', t'.
  - exists regs, t. split; [done|]. split; [by apply cleared_nil|done].
Qed.

Lemma overtime_branch regs t (on : bool) : regs_wf regs ->
  exists regs' t', (if on then
      r1 ← get regs 1;
      regs ← clear_flag 1 regs;
      Ok (regs, mkTable (cfg0 t) (cfg1 t) (set_parameter (cfg2 t) (Z.land r1 0x00FF)))
    else Ok (regs, t)) = Ok (regs', t') /\ cleared (acked 1 on) regs regs'
  /\ cfg0 t' = cfg0 t /\ cfg1 t' = cfg1 t
  /\ cfg2 t' = (if on then set_parameter (cfg2 t) (rd regs 1 mod 256) else cfg2 t).
Proof.
  intros Hr. destruct on.
  - rewrite regs_get, bind_ret_l by (done || reg_unfold; lia).
    destruct (clear_flag_ok 1 regs Hr) as (regs' & E & Hc); [lia|]. cbv zeta.
    rewrite E, bind_ret_l. eexists regs', _. split; [done|]. split; [done|].
    split; [done|]. split; [done|]. cbn [cfg2]. by rewrite land_ff.
  - exists regs, t. split; [done|]. split; [by apply cleared_nil|done].
Qed.

Lemma ids_branch regs (on : bool) : regs_wf regs ->
  exists regs' lines, (if on then
      f ← SaveDeviceIdFile true regs; regs ← clear_flag 3 regs; Ok (regs, [SaveIds f])
    else Ok (regs, [])) = Ok (regs', if on then [SaveIds (Some (concat lines))] else [])
  /\ cleared (acked 3 on) regs regs' /\ (on = true -> length lines = 256%nat /\ id_file regs lines).
Proof.
  intros Hr. destruct on.
  - destruct (save_file_ok regs Hr) as (lines & -> & Hl & Hf).
    destruct (clear_flag_ok 3 regs Hr) as (regs' & E & Hc); [lia|].
    rewrite bind_ret_l, E, bind_ret_l. by exists regs', lines.
  - exists regs, []. split; [done|]. split; [by apply cleared_nil|done].
Qed.

Lemma reset_branch regs (on : bool) : regs_wf regs ->
  exists regs', (if on then regs ← clear_flag 15 regs; Ok (regs, [DoSystemReset])
    else Ok (regs, [])) = Ok (regs', if on then [DoSystemReset] else [])
  /\ cleared (acked 15 on) regs regs'.
Proof.
  intros Hr. destruct on.
  - destruct (clear_flag_ok 15 regs Hr) as (regs' & E & Hc); [lia|].
    rewrite E, bind_ret_l. by exists regs'.
  - exists regs. split; [done|]. by apply cleared_nil.
Qed.

Lemma cleared_flag b bs regs regs' : cleared bs regs regs' -> b ∉ bs -> 0 <= b < 16 ->
  Z.testbit (rd regs' CONFIG_FLAG_ADDRESS) b = Z.testbit (rd regs CONFIG_FLAG_ADDRESS) b.
Proof.
  intros (_ & [_ B] & _) Hb Hr. by rewrite B, bool_decide_false, andb_true_r.
Qed.
Lemma acked_notin b c on : b <> c -> b ∉ acked c on.
Proof. intros H. destruct on; cbn; rewrite ?elem_of_cons, elem_of_nil; tauto. Qed.

Lemma id_file_cleared bs regs regs' lines :
  cleared bs regs regs' -> id_file regs' lines -> id_file regs lines.
Proof.
  intros (_ & _ & O) Hf k line Hk. specialize (Hf k line Hk).
  unfold pair_at in *. rewrite !O in Hf by (reg_unfold; lia). done.
Qed.

(** Clearing the flags that were set leaves none of the four. *)
Lemma without_all r r' :
  without (acked 0 (Z.testbit r 0) ++ acked 1 (Z.testbit r 1)
    ++ acked 3 (Z.testbit r 3) ++ acked 15 (Z.testbit r 15)) r r' ->
  without [0; 1; 3; 15] r r'.
Proof.
  intros [U B]. split; [done|]. intros j Hj. rewrite B by done.
  destruct (Z.testbit r j) eqn:E; [|done]. cbn [andb]. f_equal. apply bool_decide_ext.
  assert (forall b, j ∈ acked b (Z.testbit r b) <-> j = b) as Ha.
  { intros b. destruct (Z.testbit r b) eqn:Eb; cbn; rewrite ?elem_of_cons, elem_of_nil;
      split; try tauto; intros ->; congruence. }
  rewrite !elem_of_app, !Ha, !elem_of_cons, elem_of_nil. tauto.
Qed.

(** A table stays one that can be saved. *)
Lemma config_ok_set name c p : config_ok name c -> 0 <= p <= 2147483647 -> config_ok name (set_parameter c p).
Proof. by intros (H1 & H2 & H3 & _ & H5) Hp. Qed.

Lemma baud_rates_range k b : baud_rates !! k = Some b -> 0 <= b <= 2147483647.
Proof.
  intros H%list_elem_of_lookup_2. unfold baud_rates in H.
  rewrite !elem_of_cons, elem_of_nil in H. lia.
Qed.

Lemma modbus_set_ok r t t' : table_ok t -> modbus_set r t t' -> table_ok t'.
Proof.
  intros (n0 & n1 & n2 & H0 & H1 & H2) [E1 (b & Hb & E0) E2]. exists n0, n1, n2. rewrite E1, E2.
  split; [|split; [|done]].
  - rewrite E0. apply config_ok_set; [done|by eapply baud_rates_range].
  - apply config_ok_set; [done|]. lia.
Qed.

(** ** Properties *)

(** C34: One round of the configuration thread, on a table whose entries have
    names and files that can be created, carries out exactly the flagged
    commands, in order: the id file with all 256 ids, then the configuration
    file as [Create_JsonFile] writes it from the new table, then the reset.
    Register 0 sets the slave address (bits 0 to 7) and the baud rate (bits 8
    and 9, by the table of rates), register 1 the overtime (bits 0 to 7); names,
    numbers and what is not flagged stay.  The commands are acknowledged by
    clearing their flags, and every other flag and register is left alone.
    Without names the round faults when it has to save the configuration
    ([round_after_restart_faults]). *)
Theorem save_config_round_correct fmt_0f fmt_e fmt_f spins regs t :
  regs_wf regs -> table_ok t ->
  let r := rd regs CONFIG_FLAG_ADDRESS in
  exists regs' t' lines json,
    SaveConfig_round fmt_0f fmt_e fmt_f spins true true regs t
    = Ok (regs', t',
          (if Z.testbit r 3 then [SaveIds (Some (concat lines))] else [])
          ++ (if Z.testbit r 0 || Z.testbit r 1 then [SaveJson json] else [])
          ++ (if Z.testbit r 15 then [DoSystemReset] else []))
    /\ cleared [0; 1; 3; 15] regs regs'
    /\ (Z.testbit r 3 = true -> length lines = 256%nat /\ id_file regs lines)
    /\ Create_JsonFile fmt_0f fmt_e fmt_f spins true t' = Ok json
    /\ cfg1 t' = (if Z.testbit r 0 then set_parameter (cfg1 t) (rd regs 0 mod 256) else cfg1 t)
    /\ (if Z.testbit r 0
        then exists b, baud_rates !! Z.to_nat (rd regs 0 / 256 mod 4) = Some b /\ cfg0 t' = set_parameter (cfg0 t) b
        else cfg0 t' = cfg0 t)
    /\ cfg2 t' = (if Z.testbit r 1 then set_parameter (cfg2 t) (rd regs 1 mod 256) else cfg2 t).
Proof.
  intros Hr Ht r. unfold SaveConfig_round. rewrite flag_ok, bind_ret_l by (done || lia). fold r.
  destruct (modbus_branch regs t (Z.testbit r 0) Hr) as (g1 & t1 & -> & C1 & P1).
  pose proof (proj1 C1) as W1. rewrite bind_ret_l, flag_ok, bind_ret_l by (done || lia).
  rewrite (cleared_flag 1 _ _ _ C1) by (apply acked_notin || lia; lia). fold r.
  destruct (overtime_branch g1 t1 (Z.testbit r 1) W1) as (g2 & t2 & -> & C2 & Q0 & Q1 & P2).
  pose proof (proj1 C2) as W2. rewrite bind_ret_l, flag_ok, bind_ret_l by (done || lia).
  pose proof (cleared_app _ _ _ _ _ C1 C2) as C12.
  rewrite (cleared_flag 3 _ _ _ C12)
    by (rewrite ?elem_of_app; try lia; intros [H|H]; by apply acked_notin in H). fold r.
  destruct (ids_branch g2 (Z.testbit r 3) W2) as (g3 & lines & -> & C3 & P3).
  assert (table_ok t2) as Ht2.
  { assert (table_ok t1) as (n0 & n1 & n2 & H0 & H1 & H2)
      by (destruct (Z.testbit r 0); [by eapply modbus_set_ok|by subst]).
    exists n0, n1, n2. rewrite Q0, Q1, P2. split; [done|]. split; [done|].
    destruct (Z.testbit r 1); [apply config_ok_set; [done|lia]|done]. }
  destruct (create_ok pow_int fmt_0f fmt_e fmt_f spins (fun _ => eq_refl) true t2 Ht2) as [json Hj].
  pose proof (proj1 C3) as W3. rewrite bind_ret_l, Hj.
  assert ((if Z.testbit r 0 || Z.testbit r 1 then f ← Ok json; Ok [SaveJson f] else Ok [])
          = Ok (if Z.testbit r 0 || Z.testbit r 1 then [SaveJson json] else [])) as -> by (by destruct (_ || _)).
  rewrite bind_ret_l, flag_ok, bind_ret_l by (done || lia).
  pose proof (cleared_app _ _ _ _ _ C12 C3) as C123.
  rewrite (cleared_flag 15 _ _ _ C123)
    by (rewrite ?elem_of_app; try lia; intros [[H|H]|H]; by apply acked_notin in H). fold r.
  destruct (reset_branch g3 (Z.testbit r 15) W3) as (g4 & -> & C4).
  pose proof (cleared_app _ _ _ _ _ C123 C4) as Call. rewrite bind_ret_l.
  assert (rd g1 1 = rd regs 1) as E1 by (apply C1; [lia|reg_unfold; lia]).
  exists g4, t2, lines, json. split; [done|]. split; [|split; [|split; [done|]]].
  - destruct Call as (W & B & O). split; [done|]. split; [|done].
    apply without_all. rewrite <- !app_assoc in B. exact B.
  - intros H. destruct (P3 H) as [Hl Hf]. split; [done|]. by apply (id_file_cleared _ _ _ _ C12).
  - rewrite Q0, Q1, P2, E1. destruct (Z.testbit r 0); [|by subst]. destruct P1 as [A1 A2 A3].
    split; [done|]. split; [done|]. by rewrite A3.
Qed.

(** Flags 0 and 15: slave address 7 at 4800 baud, and a reset. *)
Definition round_regs : list Z := upd (upd regs_init 7 0x8001) 0 0x107.

Lemma save_config_round_correct_witness : exists regs' t' json,
  SaveConfig_round (fun _ => []) (fun _ => []) (fun _ => []) 0 true true round_regs g_ConfigFile
    = Ok (regs', t', [SaveJson json; DoSystemReset])
  /\ cleared [0; 1; 3; 15] round_regs regs' /\ parameter (cfg0 t') = 4800 /\ parameter (cfg1 t') = 7.
Proof.
  assert (regs_wf round_regs) as H by (apply regs_upd; [apply regs_upd; [apply regs_init_wf|mlia]|mlia]).
  destruct (save_config_round_correct (fun _ => []) (fun _ => []) (fun _ => []) 0 round_regs g_ConfigFile H g_ConfigFile_ok)
    as (r & t & l & json & E & C & _ & _ & E1 & (b & Hb & E0) & _).
  exists r, t, json. split; [exact E|]. split; [exact C|]. rewrite E0, E1. split; [|reflexivity].
  revert Hb. vm_compute. congruence.
Defined.

(** After a restart from a saved configuration the names are null, and a round
    that has to save the configuration faults. *)
Theorem round_after_restart_faults fmt_0f fmt_e fmt_f spins json_opens regs t :
  regs_wf regs -> let r := rd regs CONFIG_FLAG_ADDRESS in Z.testbit r 0 || Z.testbit r 1 = true ->
  SaveConfig_round fmt_0f fmt_e fmt_f spins true json_opens regs (unnamed_table t) = Fault NullDeref.
Proof.
  intros Hr r Hf. unfold SaveConfig_round. rewrite flag_ok, bind_ret_l by (done || lia). fold r.
  destruct (modbus_branch regs (unnamed_table t) (Z.testbit r 0) Hr) as (g1 & t1 & -> & C1 & P1).
  pose proof (proj1 C1) as W1. rewrite bind_ret_l, flag_ok, bind_ret_l by (done || lia).
  rewrite (cleared_flag 1 _ _ _ C1) by (apply acked_notin || lia; lia). fold r.
  destruct (overtime_branch g1 t1 (Z.testbit r 1) W1) as (g2 & t2 & -> & C2 & Q0 & _).
  pose proof (proj1 C2) as W2. rewrite bind_ret_l, flag_ok, bind_ret_l by (done || lia).
  destruct (ids_branch g2 (Z.testbit (rd g2 CONFIG_FLAG_ADDRESS) 3) W2) as (g3 & lines & -> & _).
  rewrite bind_ret_l, Hf. unfold Create_JsonFile. rewrite Q0.
  destruct (Z.testbit r 0); [destruct P1 as [_ (b & _ & ->) _]|subst t1]; done.
Qed.

(** C29: A restart restores what was saved, on a board that ignores a store
    through a null pointer.  With the two files the thread wrote (the
    configuration of table [t] and the ids in [regs]), the start of the thread
    brings the parameters back into the table and shows them in the configuration
    registers, and brings every transmitter id back into its registers.  The
    reading of the configuration file stores its byte count through a null
    pointer; where that store is not ignored, the start faults there, whatever
    was saved. *)
Theorem restart_restores pow fmt_0f fmt_e fmt_f spins t regs regs0 c :
  (forall x, pow x (S754_zero false) = F64.of_Z 1) -> table_ok t ->
  0 <= parameter (cfg1 t) < 256 -> baud_code (parameter (cfg0 t)) = Some c ->
  regs_wf regs -> regs_wf regs0 ->
  exists json csv regs',
  Create_JsonFile fmt_0f fmt_e fmt_f spins true t = Ok (Some json)
  /\ SaveDeviceIdFile true regs = Ok (Some csv)
  /\ SaveConfig_start pow true true (Some json) (Some csv) regs0 g_ConfigFile
     = Ok (regs', unnamed_table t)
  /\ SaveConfig_start pow false true (Some json) (Some csv) regs0 g_ConfigFile = Fault NullDeref
  /\ rd regs' 0 = reg0 (parameter (cfg1 t)) c /\ rd regs' 1 = u16 (parameter (cfg2 t))
  /\ forall n, is_u8 n -> pair_at regs' (NODE_DEVICE_ID_FIRST_ADDRESS + 2 * n)
                          = pair_at regs (NODE_DEVICE_ID_FIRST_ADDRESS + 2 * n).
Proof.
  intros Hpow Ht Ha Hb Hr Hr0.
  destruct (create_get pow fmt_0f fmt_e fmt_f spins Hpow t g_ConfigFile Ht) as (json & Hj & Hg).
  destruct (config_registers_ok (unnamed_table t) regs0 c Hr0 Ha Hb) as [Hc Hc4].
  set (regs1 := upd (upd _ _ _) _ _) in Hc. destruct (reg0_fields _ c Ha Hc4) as (_ & _ & U & _).
  assert (regs_wf (upd regs0 0 (reg0 (parameter (cfg1 t)) c))) as W0 by (by apply regs_upd).
  assert (regs_wf regs1) as W1 by (apply regs_upd; [done|apply u16_range]).
  destruct (id_file_lemma regs regs1 Hr W1) as (csv & regs' & Hs & Hread & _ & Hids & Hoth).
  exists json, csv, regs'. split; [done|]. split; [done|]. split.
  { unfold SaveConfig_start. rewrite Hg, bind_ret_l, Hc, bind_ret_l, Hread. done. }
  split; [done|].
  assert (forall a n, 0 <= a < 2 -> is_u8 n -> a ∉ id_regs n) as Hlow.
  { intros a n Ha2 Hn. unfold id_regs. rewrite !elem_of_cons, elem_of_nil.
    unfold NODE_DEVICE_ID_FIRST_ADDRESS. mlia. }
  split; [|split; [|done]]; (rewrite Hoth; [|reg_unfold; lia|intros n Hn; apply Hlow; [lia|done]]).
  - unfold regs1. rewrite rd_upd_ne by lia. apply rd_upd_eq, in_range_regs; [done|reg_unfold; lia].
  - unfold regs1. apply rd_upd_eq, in_range_regs; [done|reg_unfold; lia].
Qed.

Lemma restart_restores_witness : exists json csv regs',
  Create_JsonFile (fun _ => []) (fun _ => []) (fun _ => []) 0 true g_ConfigFile = Ok (Some json)
  /\ SaveDeviceIdFile true regs_init = Ok (Some csv)
  /\ SaveConfig_start pow_int true true (Some json) (Some csv) regs_init g_ConfigFile
     = Ok (regs', unnamed_table g_ConfigFile)
  /\ rd regs' 0 = reg0 1 3 /\ rd regs' 1 = 1.
Proof.
  destruct (restart_restores pow_int (fun _ => []) (fun _ => []) (fun _ => []) 0 g_ConfigFile
    regs_init regs_init 3) as (json & csv & regs' & H1 & H2 & H3 & _ & H4 & H5 & _);
    [done|exact g_ConfigFile_ok|cbn; lia|reflexivity|apply regs_init_wf|apply regs_init_wf|].
  exists json, csv, regs'. exact (conj H1 (conj H2 (conj H3 (conj H4 H5)))).
Defined.
