(* ===== verification/KernelTimer.v ===== *)
(** * Kernel timers (src/timer.c)

    The hard timers of the kernel in the configuration of the relay: one
    skip-list level and no timer thread.  Timers are named by numbers; the
    list [rt_timer_list] holds the names of the running ones. *)
From stdpp Require Import gmap sorting.
From S2P Require Import Prelude.

Definition RT_TICK_MAX : Z := 0xFFFFFFFF.

Record rt_timer := mkTimer {
  activated : bool;              (* RT_TIMER_FLAG_ACTIVATED *)
  periodic : bool;               (* RT_TIMER_FLAG_PERIODIC *)
  init_tick : Z;
  timeout_tick : Z }.

Record tstate := mkT {
  timers : gmap Z rt_timer;
  rt_timer_list : list Z;        (* first element first *)
  rt_tick : Z }.

Definition set_activated (b : bool) (t : rt_timer) : rt_timer :=
  mkTimer b (periodic t) (init_tick t) (timeout_tick t).
Definition put_timer (id : Z) (t : rt_timer) (s : tstate) : tstate :=
  mkT (<[id := t]> (timers s)) (rt_timer_list s) (rt_tick s).
Definition with_list (l : list Z) (s : tstate) : tstate := mkT (timers s) l (rt_tick s).

(** Unlinking a node; unlinking one that is in no list changes nothing. *)
Definition _rt_timer_remove (id : Z) (s : tstate) : tstate :=
  with_list (filter (fun x => x <> id) (rt_timer_list s)) s.

Definition rt_system_timer_init (s : tstate) : tstate := with_list [] s.

(** [_rt_timer_init]: the timer is not active; its list node stands alone. *)
Definition _rt_timer_init (id time : Z) (per : bool) (s : tstate) : tstate :=
  put_timer id (mkTimer false per time 0) s.

Definition rt_timer_list_next_timeout (s : tstate) : Z :=
  match rt_timer_list s with
  | [] => RT_TICK_MAX
  | id :: _ => match timers s !! id with Some t => timeout_tick t | None => 0 end
  end.

(** The position the insertion loop stops at: after all timers that do not
    expire later than [tick], in the cyclic order of ticks. *)
Fixpoint insert_timer (m : gmap Z rt_timer) (id tick : Z) (l : list Z) : list Z :=
  match l with
  | [] => [id]
  | x :: l' =>
      let d := u32 (match m !! x with Some t => timeout_tick t | None => 0 end - tick) in
      if d =? 0 then x :: insert_timer m id tick l'
      else if d <? RT_TICK_MAX / 2 then id :: l
      else x :: insert_timer m id tick l'
  end.

Definition rt_timer_start (id : Z) (s : tstate) : res tstate :=
  match timers s !! id with
  | None => Fault NullDeref
  | Some t =>
      let s := put_timer id (set_activated false t) (_rt_timer_remove id s) in
      if init_tick t <? RT_TICK_MAX / 2 then
        let t' := mkTimer true (periodic t) (init_tick t) (u32 (rt_tick s + init_tick t)) in
        let s := put_timer id t' s in
        Ok (with_list (insert_timer (timers s) id (timeout_tick t') (rt_timer_list s)) s)
      else Fault AssertFail
  end.

(** [false]: the timer was not active ([-RT_ERROR]). *)
Definition rt_timer_stop (id : Z) (s : tstate) : res (bool * tstate) :=
  match timers s !! id with
  | None => Fault NullDeref
  | Some t =>
      if activated t
      then Ok (true, put_timer id (set_activated false t) (_rt_timer_remove id s))
      else Ok (false, s)
  end.

Definition rt_timer_detach (id : Z) (s : tstate) : tstate :=
  let s := _rt_timer_remove id s in
  mkT (delete id (timers s)) (rt_timer_list s) (rt_tick s).

Inductive timer_cmd : Type :=
| RT_TIMER_CTRL_GET_TIME | RT_TIMER_CTRL_SET_TIME (time : Z)
| RT_TIMER_CTRL_SET_ONESHOT | RT_TIMER_CTRL_SET_PERIODIC.

(** With the value stored through [arg] by [RT_TIMER_CTRL_GET_TIME]. *)
Definition rt_timer_control (id : Z) (cmd : timer_cmd) (s : tstate) : res (option Z * tstate) :=
  match timers s !! id with
  | None => Fault NullDeref
  | Some t =>
      Ok match cmd with
         | RT_TIMER_CTRL_GET_TIME => (Some (init_tick t), s)
         | RT_TIMER_CTRL_SET_TIME time =>
             (None, put_timer id (mkTimer (activated t) (periodic t) time (timeout_tick t)) s)
         | RT_TIMER_CTRL_SET_ONESHOT =>
             (None, put_timer id (mkTimer (activated t) false (init_tick t) (timeout_tick t)) s)
         | RT_TIMER_CTRL_SET_PERIODIC =>
             (None, put_timer id (mkTimer (activated t) true (init_tick t) (timeout_tick t)) s)
         end
  end.

(** ** The tick counter (src/clock.c) *)
Definition rt_tick_get (s : tstate) : Z := rt_tick s.
Definition rt_tick_set (t : Z) (s : tstate) : tstate := mkT (timers s) (rt_timer_list s) t.

Definition rt_timer_next_timeout_tick (s : tstate) : Z := rt_timer_list_next_timeout s.

Definition RT_TICK_PER_SECOND : Z := 1000.
Definition RT_WAITING_FOREVER : Z := -1.
(** [ms] is signed; the sums are unsigned, the products signed. *)
Definition rt_tick_from_millisecond (ms : Z) : Z :=
  if ms <? 0 then u32 RT_WAITING_FOREVER
  else u32 (RT_TICK_PER_SECOND * Z.quot ms 1000
            + Z.quot (RT_TICK_PER_SECOND * Z.rem ms 1000 + 999) 1000).

(** The time slice of a thread: what is left of it, and its full length. *)
Record time_slice := mkSlice { remaining_tick : Z; slice_tick : Z }.

(** ** Expiry

    [cb id]: the timeout function of timer [id], which may use the timer
    operations.  The calls made are returned in order.  [fuel] bounds the
    rounds of the loop. *)
Section check.
Context (cb : Z -> tstate -> res tstate).

Fixpoint timer_check_loop (fuel : nat) (current_tick : Z) (s : tstate) : res (list Z * tstate) :=
  match fuel with
  | O => Fault Hang
  | S fuel' =>
      match rt_timer_list s with
      | [] => Ok ([], s)
      | id :: _ =>
          match timers s !! id with
          | None => Fault NullDeref
          | Some t =>
              if u32 (current_tick - timeout_tick t) <? RT_TICK_MAX / 2 then
                let s := _rt_timer_remove id s in
                s ← cb id s;
                let current_tick := rt_tick s in
                match timers s !! id with
                | None => Fault NullDeref
                | Some t =>
                    s ← (if periodic t && activated t
                         then rt_timer_start id (put_timer id (set_activated false t) s)
                         else Ok (put_timer id (set_activated false t) s));
                    '(fired, s) ← timer_check_loop fuel' current_tick s;
                    Ok (id :: fired, s)
                end
              else Ok ([], s)
          end
      end
  end.

Definition rt_timer_check (fuel : nat) (s : tstate) : res (list Z * tstate) :=
  timer_check_loop fuel (rt_tick s) s.

(** The timers' part of the tick interrupt. *)
Definition tick (fuel : nat) (s : tstate) : res (list Z * tstate) :=
  rt_timer_check fuel (rt_tick_set (u32 (rt_tick_get s + 1)) s).

(** The tick interrupt.  The flag reports a call of [rt_thread_yield] on the
    current thread, whose time slice is [th]. *)
Definition rt_tick_increase (fuel : nat) (th : time_slice) (s : tstate)
    : res (bool * time_slice * list Z * tstate) :=
  let remaining := u32 (remaining_tick th - 1) in
  let '(yields, th) := if remaining =? 0 then (true, mkSlice (slice_tick th) (slice_tick th))
                       else (false, mkSlice remaining (slice_tick th)) in
  '(fired, s) ← tick fuel s;
  Ok (yields, th, fired, s).
End check.

(** ** Order of expiry *)

Definition HALF : Z := RT_TICK_MAX / 2.
Ltac tick_unfold :=
  unfold HALF, RT_TICK_MAX in *; change (4294967295 / 2) with 2147483647 in *.
Ltac tick_lia := tick_unfold; mlia.

Definition deadline (m : gmap Z rt_timer) (id : Z) : Z :=
  match m !! id with Some t => timeout_tick t | None => 0 end.
(** Ticks from [base] to the expiry of [id]. *)
Definition ticks_left (base : Z) (m : gmap Z rt_timer) (id : Z) : Z := u32 (deadline m id - base).

Lemma left_ext base m m' id : m' !! id = m !! id -> ticks_left base m' id = ticks_left base m id.
Proof. unfold ticks_left, deadline. by intros ->. Qed.

(** A list in the order of expiry, all within [lo, hi] of [base]. *)
Record ordered (base lo hi : Z) (m : gmap Z rt_timer) (l : list Z) : Prop := {
  ord_nodup : NoDup l;
  ord_active : forall id, id ∈ l -> exists t, m !! id = Some t /\ activated t = true;
  ord_range : forall id, id ∈ l -> lo <= ticks_left base m id <= hi;
  ord_sorted : StronglySorted (fun x y => ticks_left base m x <= ticks_left base m y) l }.

Lemma ordered_tail base lo hi m id l : ordered base lo hi m (id :: l) -> ordered base lo hi m l.
Proof.
  intros [N A R S]. apply list.NoDup_cons in N as [_ N]. inversion S; subst.
  split; [done| | |done].
  - intros x Hx. apply A. by right.
  - intros x Hx. apply R. by right.
Qed.

(** Changing timers that are not in the list. *)
Lemma ordered_ext base lo hi m m' l : (forall id, id ∈ l -> m' !! id = m !! id) ->
  ordered base lo hi m l -> ordered base lo hi m' l.
Proof.
  intros He [N A R S]. split; [done| | |].
  - intros id Hid. rewrite He by done. by apply A.
  - intros id Hid. rewrite (left_ext _ _ _ _ (He id Hid)). by apply R.
  - clear N A R. induction S as [|x l S IH Hall]; [constructor|]. constructor.
    + apply IH. intros id Hid. apply He. by right.
    + apply list.Forall_forall. intros y Hy. rewrite list.Forall_forall in Hall.
      rewrite !(left_ext base m m') by (apply He; (by left) || by right). by apply Hall.
Qed.

(** The insertion loop keeps the order and puts [id] after its equals. *)
Lemma insert_timer_perm m id tick l : insert_timer m id tick l ≡ₚ id :: l.
Proof.
  induction l as [|x l IH]; [done|]. cbn. destruct (_ =? 0); [|destruct (_ <? _)]; try done;
    rewrite IH; apply perm_swap.
Qed.

Lemma tick_diff base lo hi m id x : 0 <= lo -> hi - ticks_left base m id < HALF -> hi <= HALF ->
  lo <= ticks_left base m id <= hi -> lo <= ticks_left base m x <= hi ->
  let d := u32 (deadline m x - deadline m id) in
  (d = 0 <-> ticks_left base m x = ticks_left base m id)
  /\ (d <> 0 -> (d <? RT_TICK_MAX / 2) = bool_decide (ticks_left base m id < ticks_left base m x)).
Proof.
  intros Hlo Hhi Hh Hid Hx d. unfold ticks_left in *. tick_unfold.
  assert (d = u32 (u32 (deadline m x - base) - u32 (deadline m id - base))) as Hd
    by (unfold d; mlia).
  set (a := u32 (deadline m x - base)) in *. set (b := u32 (deadline m id - base)) in *.
  clearbody d a b. split; [mlia|]. intros Hne.
  destruct (Z.ltb_spec d 2147483647); case_bool_decide; try done; mlia.
Qed.

Lemma insert_timer_ordered base lo hi m id l :
  0 <= lo -> hi - ticks_left base m id < HALF -> hi <= HALF ->
  id ∉ l -> (exists t, m !! id = Some t /\ activated t = true) -> lo <= ticks_left base m id <= hi ->
  ordered base lo hi m l -> ordered base lo hi m (insert_timer m id (deadline m id) l).
Proof.
  intros Hlo Hhi Hh Hni Hact Hr [N A R S].
  pose proof (insert_timer_perm m id (deadline m id) l) as P.
  split.
  - rewrite P. by apply list.NoDup_cons.
  - intros x Hx. rewrite P in Hx. apply elem_of_cons in Hx as [->|Hx]; auto.
  - intros x Hx. rewrite P in Hx. apply elem_of_cons in Hx as [->|Hx]; auto.
  - clear P N A. induction S as [|x l S IH Hall]; [by repeat constructor|].
    apply not_elem_of_cons in Hni as [Hne Hni]. cbn [insert_timer].
    change (match m !! x with Some t => timeout_tick t | None => 0 end) with (deadline m x).
    destruct (tick_diff base lo hi m id x) as [D0 D1]; try done; [apply R; by left|].
    assert (StronglySorted (fun x y => ticks_left base m x <= ticks_left base m y)
      (insert_timer m id (deadline m id) l)) as IH'
      by (apply IH; [done|intros y Hy; apply R; by right]).
    assert (ticks_left base m x <= ticks_left base m id -> StronglySorted
      (fun x y => ticks_left base m x <= ticks_left base m y) (x :: insert_timer m id (deadline m id) l))
      as Hcons.
    { intros Hle. constructor; [done|]. apply list.Forall_forall. intros y Hy.
      rewrite (insert_timer_perm m id (deadline m id) l) in Hy.
      apply elem_of_cons in Hy as [->|Hy]; [done|]. rewrite list.Forall_forall in Hall. by apply Hall. }
    destruct (Z.eqb_spec (u32 (deadline m x - deadline m id)) 0) as [E|E].
    + apply Hcons. apply D0 in E. lia.
    + rewrite D1 by done. case_bool_decide as Hlt; [|apply Hcons; lia].
      constructor; [by constructor|]. apply list.Forall_forall. intros y Hy.
      apply elem_of_cons in Hy as [->|Hy]; [lia|].
      rewrite list.Forall_forall in Hall. specialize (Hall y Hy). lia.
Qed.

(** Where it puts [id]: behind all that do not expire later. *)
Lemma insert_timer_split base lo hi m id l :
  0 <= lo -> hi - ticks_left base m id < HALF -> hi <= HALF -> lo <= ticks_left base m id <= hi ->
  ordered base lo hi m l ->
  exists l1 l2, l = l1 ++ l2 /\ insert_timer m id (deadline m id) l = l1 ++ id :: l2
  /\ (forall x, x ∈ l1 -> ticks_left base m x <= ticks_left base m id)
  /\ (forall x, x ∈ l2 -> ticks_left base m id < ticks_left base m x).
Proof.
  intros Hlo Hhi Hh Hr. induction l as [|x l IH]; intros Ho.
  { exists [], []. split; [done|]. split; [done|]. set_solver. }
  destruct (tick_diff base lo hi m id x) as [D0 D1]; try done;
    [apply (ord_range _ _ _ _ _ Ho); by left|].
  destruct (IH (ordered_tail _ _ _ _ _ _ Ho)) as (l1 & l2 & E & Ei & H1 & H2).
  assert (ticks_left base m x <= ticks_left base m id -> exists l1 l2, x :: l = l1 ++ l2
    /\ x :: insert_timer m id (deadline m id) l = l1 ++ id :: l2
    /\ (forall y, y ∈ l1 -> ticks_left base m y <= ticks_left base m id)
    /\ (forall y, y ∈ l2 -> ticks_left base m id < ticks_left base m y)) as Hskip.
  { intros Hle. exists (x :: l1), l2. rewrite Ei. subst l. split; [done|]. split; [done|].
    split; [|done]. intros y [->|Hy]%elem_of_cons; auto. }
  cbn [insert_timer].
  change (match m !! x with Some t => timeout_tick t | None => 0 end) with (deadline m x).
  destruct (Z.eqb_spec (u32 (deadline m x - deadline m id)) 0) as [E0|E0].
  { apply Hskip. apply D0 in E0. lia. }
  rewrite D1 by done. case_bool_decide as Hlt; [|apply Hskip; lia].
  exists [], (x :: l). split; [done|]. split; [done|]. split; [set_solver|].
  pose proof (ord_sorted _ _ _ _ _ Ho) as S. inversion S as [|? ? _ Hall]; subst.
  rewrite list.Forall_forall in Hall. intros y [->|Hy]%elem_of_cons; [done|].
  specialize (Hall y Hy). lia.
Qed.

Lemma filter_all_in (P : Z -> Prop) `{forall x, Decision (P x)} (l : list Z) :
  (forall x, x ∈ l -> P x) -> filter P l = l.
Proof.
  induction l as [|x l IH]; intros Hl; [done|]. rewrite filter_cons_True by (apply Hl; by left).
  f_equal. apply IH. intros y Hy. apply Hl. by right.
Qed.

Lemma filter_none_in (P : Z -> Prop) `{forall x, Decision (P x)} (l : list Z) :
  (forall x, x ∈ l -> ~ P x) -> filter P l = [].
Proof.
  induction l as [|x l IH]; intros Hl; [done|]. rewrite filter_cons_False by (apply Hl; by left).
  apply IH. intros y Hy. apply Hl. by right.
Qed.

Lemma filter_ext_in (P Q : Z -> bool) (l : list Z) : (forall x, x ∈ l -> P x = Q x) ->
  filter (fun x => P x = true) l = filter (fun x => Q x = true) l.
Proof.
  induction l as [|x l IH]; intros H; [done|]. rewrite !filter_cons, (H x) by (by left).
  rewrite IH by (intros y Hy; apply H; by right). done.
Qed.

Lemma filter_notin (id : Z) (l : list Z) : id ∉ l -> filter (fun x => x <> id) l = l.
Proof. intros H. apply filter_all_in. intros x Hx ->. done. Qed.

Lemma remove_head (id : Z) (l : list Z) : id ∉ l -> filter (fun x => x <> id) (id :: l) = l.
Proof. intros Hni. rewrite filter_cons_False by tauto. by apply filter_notin. Qed.

Lemma ordered_remove base lo hi m l id : ordered base lo hi m l ->
  ordered base lo hi m (filter (fun x => x <> id) l).
Proof.
  intros [N A R S]. split.
  - by apply list.NoDup_filter.
  - intros x Hx. apply list_elem_of_filter in Hx as [_ Hx]. by apply A.
  - intros x Hx. apply list_elem_of_filter in Hx as [_ Hx]. by apply R.
  - clear N A R. induction S as [|x l S IH Hall]; [constructor|].
    rewrite filter_cons. case_decide; [|done]. constructor; [done|].
    apply list.Forall_forall. intros y Hy. apply list_elem_of_filter in Hy as [_ Hy].
    rewrite list.Forall_forall in Hall. by apply Hall.
Qed.

(** ** Starting and stopping *)

(** What holds between two ticks: the list is in order of expiry, within half
    the tick range from now. *)
Definition timers_inv (s : tstate) : Prop :=
  is_u32 (rt_tick s) /\ ordered (rt_tick s) 0 (HALF - 1) (timers s) (rt_timer_list s).

(** Starting timer [id] in a list in order from [base]. *)
Lemma timer_start_from base lo hi id t s :
  0 <= lo -> hi - u32 (rt_tick s + init_tick t - base) < HALF -> hi <= HALF -> is_u32 base ->
  timers s !! id = Some t -> 0 <= init_tick t < HALF ->
  lo <= u32 (rt_tick s + init_tick t - base) <= hi ->
  ordered base lo hi (timers s) (filter (fun x => x <> id) (rt_timer_list s)) ->
  exists s', rt_timer_start id s = Ok s' /\ rt_tick s' = rt_tick s
  /\ ordered base lo hi (timers s') (rt_timer_list s')
  /\ timers s' = <[id := mkTimer true (periodic t) (init_tick t)
                          (u32 (rt_tick s + init_tick t))]> (timers s)
  /\ rt_timer_list s' = insert_timer (timers s') id (deadline (timers s') id)
                          (filter (fun x => x <> id) (rt_timer_list s))
  /\ ticks_left base (timers s') id = u32 (rt_tick s + init_tick t - base).
Proof.
  intros Hlo Hhi Hh Hb Ht Hi Hr Ho. unfold rt_timer_start. rewrite Ht.
  rewrite (proj2 (Z.ltb_lt _ _)) by (tick_unfold; lia). cbv zeta.
  set (t' := mkTimer true _ _ _). unfold put_timer, with_list, _rt_timer_remove, with_list.
  cbn [timers rt_timer_list rt_tick].
  set (m' := <[id := t']> _).
  assert (m' = <[id := t']> (timers s)) as Em by (unfold m'; apply insert_insert_eq).
  set (l := filter _ _) in *.
  assert (id ∉ l) as Hni by (unfold l; rewrite list_elem_of_filter; tauto).
  assert (m' !! id = Some t') as Eid by (rewrite Em; apply lookup_insert_eq).
  assert (ticks_left base m' id = u32 (rt_tick s + init_tick t - base)) as El.
  { unfold ticks_left, deadline. rewrite Eid. unfold t', u32. apply Zminus_mod_idemp_l. }
  replace (timeout_tick t') with (deadline m' id) by (unfold deadline; by rewrite Eid).
  eexists. split; [done|]. cbn [timers rt_timer_list rt_tick].
  split; [done|]. split; [|split; [done|split; done]].
  apply insert_timer_ordered; try done.
  - by rewrite El.
  - by exists t'.
  - by rewrite El.
  - eapply ordered_ext; [|exact Ho]. intros x Hx. rewrite Em. apply lookup_insert_ne.
    intros ->. done.
Qed.

Lemma timer_stop_ok id t s : timers_inv s -> timers s !! id = Some t ->
  exists s', rt_timer_stop id s = Ok (activated t, s') /\ timers_inv s'
  /\ (activated t = true -> id ∉ rt_timer_list s').
Proof.
  intros [Hu Ho] Ht. unfold rt_timer_stop. rewrite Ht. destruct (activated t) eqn:Ea.
  - eexists. split; [done|]. split.
    + split; [done|]. cbn. eapply ordered_ext; [|by apply ordered_remove].
      intros x Hx. apply list_elem_of_filter in Hx as [Hne _]. by apply lookup_insert_ne.
    + intros _. cbn. rewrite list_elem_of_filter. tauto.
  - eexists. split; [done|]. done.
Qed.

(** ** The check loop *)

(** A timeout function that leaves the timers alone, or stops its own timer. *)
Definition simple_cb (stops : Z -> bool) (cb : Z -> tstate -> res tstate) : Prop :=
  forall id s, cb id s = if stops id then '(_, s') ← rt_timer_stop id s; Ok s' else Ok s.

Section loop.
Context (cb : Z -> tstate -> res tstate) (stops : Z -> bool) (Hcb : simple_cb stops cb).

(** Whether an expired timer is started again. *)
Definition rearmed (m : gmap Z rt_timer) (id : Z) : bool :=
  match m !! id with Some t => periodic t && negb (stops id) | None => false end.
(** A timer after its expiry at tick [now]. *)
Definition after_expiry (now id : Z) (t : rt_timer) : rt_timer :=
  if periodic t && negb (stops id)
  then mkTimer true (periodic t) (init_tick t) (u32 (now + init_tick t))
  else set_activated false t.

Lemma cb_ok id t s : timers s !! id = Some t -> activated t = true ->
  id ∉ rt_timer_list s ->
  cb id s = Ok (if stops id then put_timer id (set_activated false t) s else s).
Proof.
  intros Ht Ha Hni. rewrite Hcb. destruct (stops id); [|done]. unfold rt_timer_stop.
  rewrite Ht, Ha, bind_ret_l. f_equal. unfold put_timer, _rt_timer_remove, with_list. cbn.
  by rewrite filter_notin.
Qed.

(** Re-armed timers go behind the expired ones. *)
Lemma insert_timer_app base m id pre rest : is_u32 (deadline m id) ->
  2 <= ticks_left base m id <= HALF -> (forall x, x ∈ pre -> ticks_left base m x <= 1) ->
  insert_timer m id (deadline m id) (pre ++ rest)
  = pre ++ insert_timer m id (deadline m id) rest.
Proof.
  intros Hu Hid. induction pre as [|x pre IH]; intros Hp; [done|].
  cbn [insert_timer app]. change (match m !! x with Some t => timeout_tick t | None => 0 end)
    with (deadline m x).
  rewrite IH by (intros y Hy; apply Hp; by right).
  destruct (tick_diff base 0 HALF m id x) as [D0 D1]; try lia.
  { specialize (Hp x ltac:(by left)). unfold ticks_left in *. tick_lia. }
  destruct (Z.eqb_spec (u32 (deadline m x - deadline m id)) 0) as [E|E]; [done|].
  rewrite D1 by done. case_bool_decide; [|done].
  specialize (Hp x ltac:(by left)). lia.
Qed.

Lemma expired_iff base m id : is_u32 base -> 0 <= ticks_left base m id <= HALF ->
  (u32 (u32 (base + 1) - deadline m id) <? RT_TICK_MAX / 2) = bool_decide (ticks_left base m id <= 1).
Proof.
  intros Hb Hr. unfold ticks_left in *. tick_unfold.
  assert (u32 (u32 (base + 1) - deadline m id) = u32 (1 - u32 (deadline m id - base))) as ->
    by mlia.
  set (e := u32 (deadline m id - base)) in *. clearbody e.
  case_bool_decide; [apply Z.ltb_lt|apply Z.ltb_ge]; mlia.
Qed.

(** The tick bounds under which a timer can run: [rt_timer_start] asserts
    the upper one; a periodic timer of length 0 would expire forever. *)
Definition wf_timer (t : rt_timer) : Prop :=
  0 <= init_tick t < HALF /\ (periodic t = true -> 1 <= init_tick t).

(** Inside the check loop of the tick after [base]: [pre] have expired,
    [rest] have not. *)
Record checking (base : Z) (pre rest : list Z) (s : tstate) : Prop := {
  ck_base : is_u32 base;
  ck_tick : rt_tick s = u32 (base + 1);
  ck_wf : forall x t, timers s !! x = Some t -> wf_timer t;
  ck_list : rt_timer_list s = pre ++ rest;
  ck_ord : ordered base 0 HALF (timers s) (pre ++ rest);
  ck_pre : forall x, x ∈ pre -> ticks_left base (timers s) x <= 1;
  ck_rest : forall x, x ∈ rest -> 2 <= ticks_left base (timers s) x }.

Lemma left_alter base f (m : gmap Z rt_timer) id x : x <> id -> ticks_left base (alter f id m) x = ticks_left base m x.
Proof. intros H. apply left_ext. by apply lookup_alter_ne. Qed.

(** The expired timer is not started again. *)
Lemma checking_drop base id pre rest s : checking base (id :: pre) rest s ->
  checking base pre rest (mkT (alter (set_activated false) id (timers s)) (pre ++ rest) (rt_tick s)).
Proof.
  intros [Hb Ht Hwf Hl Ho Hp Hr]. pose proof (ord_nodup _ _ _ _ _ Ho) as N.
  cbn [app] in N. apply list.NoDup_cons in N as [Hni N].
  assert (forall x, x ∈ pre ++ rest -> x <> id) as Hne by (intros x Hx ->; done).
  split; try done; cbn.
  - intros x t. destruct (decide (x = id)) as [->|Hn].
    + rewrite lookup_alter_eq. intros (t0 & E & ->)%fmap_Some. exact (Hwf _ _ E).
    + rewrite lookup_alter_ne by done. apply Hwf.
  - eapply ordered_ext; [|exact (ordered_tail _ _ _ _ _ _ Ho)].
    intros x Hx. apply lookup_alter_ne. intros ->. by apply (Hne x).
  - intros x Hx. rewrite left_alter; [apply Hp; by right|]. apply Hne, elem_of_app. by left.
  - intros x Hx. rewrite left_alter; [by apply Hr|]. apply Hne, elem_of_app. by right.
Qed.

(** The expired timer is started again. *)
Lemma checking_rearm base id t pre rest s : checking base (id :: pre) rest s ->
  timers s !! id = Some t -> periodic t = true ->
  exists rest' s1, rt_timer_start id (mkT (alter (set_activated false) id (timers s)) (pre ++ rest)
      (rt_tick s)) = Ok s1
  /\ checking base pre rest' s1 /\ rest' ≡ₚ id :: rest
  /\ timers s1 = <[id := mkTimer true true (init_tick t) (u32 (rt_tick s + init_tick t))]>
      (timers s).
Proof.
  intros Hck Et Hper. pose proof (checking_drop _ _ _ _ _ Hck) as [Hb Ht Hwf Hl Ho Hp Hr].
  destruct Hck as [_ _ Hwf0 _ Ho0 _ _].
  destruct (Hwf0 _ _ Et) as [Hi Hi1]. specialize (Hi1 Hper).
  pose proof (ord_nodup _ _ _ _ _ Ho0) as N. cbn [app] in N. apply list.NoDup_cons in N as [Hni _].
  cbn in *. set (s0 := mkT _ _ _).
  assert (timers s0 !! id = Some (set_activated false t)) as E0
    by (cbn; by rewrite lookup_alter_eq, Et).
  assert (u32 (rt_tick s0 + init_tick t - base) = 1 + init_tick t) as El.
  { cbn. rewrite Ht. tick_lia. }
  assert (filter (fun x => x <> id) (rt_timer_list s0) = pre ++ rest) as Ef
    by (by apply filter_notin).
  destruct (timer_start_from base 0 HALF id (set_activated false t) s0)
    as (s1 & Hs & Etk & Ho1 & Em & Ell & Eleft); try done; cbn [init_tick set_activated];
    try (rewrite El); try lia; [by rewrite Ef|].
  rewrite Ef in Ell. cbn [set_activated init_tick] in Eleft. rewrite El in Eleft.
  rewrite (insert_timer_app base) in Ell; [| |lia|].
  2: { unfold deadline. rewrite Em, lookup_insert_eq. cbn. apply u32_range. }
  2: { intros x Hx. erewrite left_ext; [by apply Hp|]. rewrite Em. apply lookup_insert_ne.
       intros <-. apply Hni, elem_of_app. by left. }
  set (rest' := insert_timer _ _ _ rest) in Ell.
  assert (rest' ≡ₚ id :: rest) as Pr by apply insert_timer_perm.
  exists rest', s1. split; [done|]. split; [|split; [done|]].
  - split; try done; cbn in *.
    + by rewrite Etk.
    + intros x t'. rewrite Em. cbn. destruct (decide (x = id)) as [->|Hn].
      * rewrite lookup_insert_eq. intros [= <-]. done.
      * rewrite lookup_insert_ne by done. apply Hwf.
    + by rewrite <- Ell.
    + intros x Hx. erewrite left_ext; [by apply Hp|]. rewrite Em. apply lookup_insert_ne.
      intros <-. apply Hni, elem_of_app. by left.
    + intros x Hx. rewrite Pr in Hx. apply elem_of_cons in Hx as [->|Hx]; [lia|].
      erewrite left_ext; [by apply Hr|]. rewrite Em. apply lookup_insert_ne.
      intros <-. apply Hni, elem_of_app. by right.
  - rewrite Em. cbn. rewrite Hper. apply map_eq. intros x. destruct (decide (x = id)) as [->|Hn].
    + by rewrite !lookup_insert_eq.
    + by rewrite !lookup_insert_ne, lookup_alter_ne by done.
Qed.

Lemma insert_as_alter (f : rt_timer -> rt_timer) (m : gmap Z rt_timer) id t :
  m !! id = Some t -> <[id := f t]> m = alter f id m.
Proof.
  intros E. apply map_eq. intros x. destruct (decide (x = id)) as [->|Hn].
  - by rewrite lookup_insert_eq, lookup_alter_eq, E.
  - by rewrite lookup_insert_ne, lookup_alter_ne by done.
Qed.

(** One round of the loop. *)
Lemma check_round base id pre rest s : checking base (id :: pre) rest s ->
  exists rest' s1,
  (forall fuel, timer_check_loop cb (S fuel) (rt_tick s) s
     = ('(fired, s2) ← timer_check_loop cb fuel (rt_tick s1) s1; Ok (id :: fired, s2)))
  /\ checking base pre rest' s1
  /\ rest' ≡ₚ (if rearmed (timers s) id then [id] else []) ++ rest
  /\ timers s1 = alter (after_expiry (rt_tick s) id) id (timers s).
Proof.
  intros Hck. pose proof Hck as [Hb Htk Hwf Hl Ho Hp _].
  destruct (ord_active _ _ _ _ _ Ho id ltac:(by left)) as (t & Et & Ha).
  pose proof (ord_nodup _ _ _ _ _ Ho) as N. cbn [app] in N, Hl.
  apply list.NoDup_cons in N as [Hni _].
  pose proof (ord_range _ _ _ _ _ Ho id ltac:(by left)) as Hrg.
  pose proof (expired_iff base (timers s) id Hb Hrg) as Hex.
  rewrite bool_decide_eq_true_2 in Hex by (apply Hp; by left).
  unfold deadline in Hex. rewrite Et in Hex.
  set (s0 := mkT (timers s) (pre ++ rest) (rt_tick s)).
  assert (_rt_timer_remove id s = s0) as E0
    by (unfold _rt_timer_remove, with_list; by rewrite Hl, remove_head).
  pose proof (cb_ok id t s0 Et Ha Hni) as Ecb.
  set (sd := mkT (alter (set_activated false) id (timers s)) (pre ++ rest) (rt_tick s)).
  assert (put_timer id (set_activated false t) s0 = sd) as Ed
    by (unfold put_timer; cbn; by rewrite insert_as_alter).
  unfold rearmed. rewrite Et. destruct (periodic t && negb (stops id)) eqn:Er.
  - apply andb_true_iff in Er as [Hper Hst%negb_true_iff].
    destruct (checking_rearm _ _ _ _ _ _ Hck Et Hper) as (rest' & s1 & Hs & Hck1 & Hpm & Em).
    exists rest', s1. split; [|split; [done|split; [done|]]].
    + intros fuel. cbn [timer_check_loop]. rewrite Hl, Et, Htk, Hex, E0, Ecb, Hst.
      rewrite bind_ret_l. cbn [timers rt_tick s0]. rewrite Et, Hper, Ha. cbn [andb].
      fold s0. rewrite Ed. fold sd in Hs. rewrite Hs, bind_ret_l.
      by rewrite (ck_tick _ _ _ _ Hck1), <- Htk.
    + rewrite Em. unfold after_expiry. rewrite <- (insert_as_alter _ _ id t Et).
      by rewrite Hper, Hst.
  - exists rest, sd. split; [|split; [by apply checking_drop|split; [done|]]].
    + intros fuel. cbn [timer_check_loop]. rewrite Hl, Et, Htk, Hex, E0, Ecb, bind_ret_l.
      destruct (stops id) eqn:Hst.
      * rewrite Ed. cbn [timers sd]. rewrite lookup_alter_eq, Et. cbn [fmap option_fmap option_map].
        cbn [activated set_activated]. rewrite andb_false_r, bind_ret_l.
        replace (put_timer id _ sd) with sd; [done|].
        unfold put_timer, sd. cbn. f_equal.
        rewrite <- !(insert_as_alter _ (timers s) id t Et). by rewrite insert_insert_eq.
      * cbn [timers s0]. rewrite Et. cbn [negb] in Er.
        rewrite andb_true_r in Er. rewrite Er. cbn [andb]. rewrite bind_ret_l. fold s0.
        by rewrite Ed.
    + unfold sd. cbn [timers]. rewrite <- !(insert_as_alter _ _ id t Et).
      unfold after_expiry. by rewrite Er.
Qed.

Lemma after_loop base rest s : checking base [] rest s ->
  ordered (rt_tick s) 1 (HALF - 1) (timers s) rest.
Proof.
  intros [Hb Ht _ _ Ho _ Hr]. cbn [app] in Ho.
  assert (forall x, x ∈ rest -> ticks_left (rt_tick s) (timers s) x = ticks_left base (timers s) x - 1) as E.
  { intros x Hx. specialize (Hr x Hx). pose proof (ord_range _ _ _ _ _ Ho x Hx) as Hg.
    unfold ticks_left in *. rewrite Ht. tick_lia. }
  destruct Ho as [N A R S]. split; [done|done| |].
  - intros x Hx. rewrite E by done. specialize (Hr x Hx). specialize (R x Hx). lia.
  - clear N A R Hr. induction S as [|x l S IH Hall]; [constructor|].
    constructor; [apply IH; intros y Hy; apply E; by right|].
    rewrite list.Forall_forall in Hall |- *. intros y Hy.
    rewrite !E by ((by left) || by right). specialize (Hall y Hy). lia.
Qed.

Lemma check_loop base pre rest s fuel : checking base pre rest s -> (length pre < fuel)%nat ->
  exists rest' s', timer_check_loop cb fuel (rt_tick s) s = Ok (pre, s')
  /\ checking base [] rest' s'
  /\ (forall x, timers s' !! x = if decide (x ∈ pre)
        then after_expiry (rt_tick s) x <$> timers s !! x else timers s !! x)
  /\ rest' ≡ₚ filter (fun x => rearmed (timers s) x = true) pre ++ rest.
Proof.
  revert rest s fuel. induction pre as [|id pre IH]; intros rest s fuel Hck Hf;
    destruct fuel as [|fuel]; cbn [length] in Hf; try lia.
  - exists rest, s. split; [|done]. pose proof Hck as [Hb Ht _ Hl Ho _ Hr].
    cbn [timer_check_loop]. rewrite Hl. destruct rest as [|x rest]; [done|]. cbn [app] in *.
    destruct (ord_active _ _ _ _ _ Ho x ltac:(by left)) as (t & Et & _).
    pose proof (ord_range _ _ _ _ _ Ho x ltac:(by left)) as Hg.
    pose proof (expired_iff base (timers s) x Hb Hg) as Hex.
    specialize (Hr x ltac:(by left)). rewrite bool_decide_eq_false_2 in Hex by lia.
    unfold deadline in Hex. rewrite Et in *. by rewrite Ht, Hex.
  - destruct (check_round _ _ _ _ _ Hck) as (rest1 & s1 & Hs & Hck1 & Hp1 & Em).
    destruct (IH rest1 s1 fuel Hck1 ltac:(lia)) as (rest' & s' & Hl & Hck' & Hm & Hp).
    pose proof (ord_nodup _ _ _ _ _ (ck_ord _ _ _ _ Hck)) as N. cbn [app] in N.
    apply list.NoDup_cons in N as [Hni _].
    assert (rt_tick s1 = rt_tick s) as Etk
      by (by rewrite (ck_tick _ _ _ _ Hck1), (ck_tick _ _ _ _ Hck)).
    assert (forall x, x ∈ pre -> x <> id) as Hne
      by (intros x Hx ->; apply Hni, elem_of_app; by left).
    exists rest', s'. split; [|split; [done|split]].
    + by rewrite Hs, Hl, bind_ret_l.
    + intros x. rewrite Hm, Em, Etk. destruct (decide (x = id)) as [->|Hn].
      * rewrite decide_False by (intros Hx; by apply (Hne id)).
        rewrite lookup_alter_eq. by rewrite decide_True by (by left).
      * rewrite lookup_alter_ne by done.
        apply decide_ext. rewrite elem_of_cons. naive_solver.
    + rewrite Hp, Hp1. rewrite filter_cons.
      assert (filter (fun x => rearmed (timers s1) x = true) pre
        = filter (fun x => rearmed (timers s) x = true) pre) as ->.
      { apply filter_ext_in. intros x Hx. unfold rearmed.
        by rewrite Em, lookup_alter_ne by (intros <-; by apply (Hne id)). }
      destruct (rearmed (timers s) id) eqn:Er; case_decide; try done.
      cbn [app]. by rewrite Permutation_middle.
Qed.
End loop.

(** ** What a tick does *)

(** The timers due at the tick after the one of [s], in list order. *)
Definition due (s : tstate) : list Z :=
  filter (fun id => ticks_left (rt_tick s) (timers s) id <= 1) (rt_timer_list s).
Definition not_due (s : tstate) : list Z :=
  filter (fun id => ~ ticks_left (rt_tick s) (timers s) id <= 1) (rt_timer_list s).
Definition wf_timers (s : tstate) : Prop := forall id t, timers s !! id = Some t -> wf_timer t.

Lemma due_split s : timers_inv s -> rt_timer_list s = due s ++ not_due s.
Proof.
  intros [_ [_ _ _ S]]. unfold due, not_due. induction S as [|x l S IH Hall]; [done|].
  rewrite !filter_cons. case_decide as Hx.
  - rewrite decide_False by tauto. cbn [app]. by f_equal.
  - rewrite decide_True by done. rewrite list.Forall_forall in Hall.
    rewrite (filter_none_in (fun id => ticks_left _ _ id <= 1)).
    + cbn [app]. f_equal. symmetry. apply filter_all_in. intros y Hy.
      specialize (Hall y Hy). lia.
    + intros y Hy. specialize (Hall y Hy). lia.
Qed.

Lemma due_checking s : timers_inv s -> wf_timers s ->
  checking (rt_tick s) (due s) (not_due s)
    (mkT (timers s) (rt_timer_list s) (u32 (rt_tick s + 1))).
Proof.
  intros Hi Hw. pose proof (due_split s Hi) as E. destruct Hi as [Hu Ho].
  split; cbn; try done.
  - rewrite <- E. destruct Ho as [N A R S]. split; try done.
    intros x Hx. specialize (R x Hx). lia.
  - intros x Hx. by apply list_elem_of_filter in Hx as [? _].
  - intros x Hx. apply list_elem_of_filter in Hx as [? _]. lia.
Qed.

Lemma tick_lemma cb stops fuel s : simple_cb stops cb -> timers_inv s -> wf_timers s ->
  (length (rt_timer_list s) < fuel)%nat ->
  exists s', tick cb fuel s = Ok (due s, s') /\ rt_tick s' = u32 (rt_tick s + 1)
  /\ timers_inv s' /\ wf_timers s'
  /\ (forall id, timers s' !! id = if decide (id ∈ due s)
        then after_expiry stops (rt_tick s') id <$> timers s !! id else timers s !! id)
  /\ rt_timer_list s' ≡ₚ filter (fun id => rearmed stops (timers s) id = true) (due s) ++ not_due s.
Proof.
  intros Hcb Hi Hw Hf.
  destruct (check_loop cb stops Hcb _ _ _ _ fuel (due_checking s Hi Hw)) as
    (rest' & s' & El & Hck & Hm & Hp).
  { rewrite (due_split s Hi), length_app in Hf. lia. }
  cbn [rt_tick timers] in *. pose proof (ck_tick _ _ _ _ Hck) as Et.
  exists s'. split; [done|]. split; [done|]. split.
  { split; [rewrite Et; apply u32_range|].
    destruct (after_loop _ _ _ Hck) as [N A R S]. rewrite (ck_list _ _ _ _ Hck). cbn [app].
    split; try done. intros x Hx. specialize (R x Hx). lia. }
  split; [exact (ck_wf _ _ _ _ Hck)|]. rewrite Et. split; [done|].
  by rewrite (ck_list _ _ _ _ Hck).
Qed.

(** Enough rounds for every tick: one more than there are timers. *)
Lemma list_fits s : timers_inv s -> (length (rt_timer_list s) <= size (timers s))%nat.
Proof.
  intros [_ [N A _ _]]. rewrite <- (size_list_to_set (C := gset Z)) by done.
  rewrite <- size_dom. apply subseteq_size. intros x Hx.
  apply elem_of_list_to_set in Hx. apply elem_of_dom. destruct (A x Hx) as (t & -> & _). done.
Qed.

(** A tick adds and removes no timer. *)
Lemma timers_size_same (l : list Z) (f : Z -> rt_timer -> rt_timer) (m m' : gmap Z rt_timer) :
  (forall id, m' !! id = if decide (id ∈ l) then f id <$> m !! id else m !! id) ->
  size m' = size m.
Proof.
  intros Hm. rewrite <- !size_dom. f_equal. apply set_eq. intros x.
  rewrite !elem_of_dom, Hm. case_decide; [|done]. by rewrite fmap_is_Some.
Qed.

(** [n] ticks in a row, with what each fires. *)
Fixpoint run_ticks (cb : Z -> tstate -> res tstate) (fuel n : nat) (s : tstate)
    : res (list (list Z) * tstate) :=
  match n with
  | O => Ok ([], s)
  | S n' =>
      '(fired, s) ← tick cb fuel s;
      '(fs, s) ← run_ticks cb fuel n' s;
      Ok (fired :: fs, s)
  end.

(** A running timer with [S n] ticks left fires at the last of [S n] ticks
    and at none before. *)
Lemma run_ticks_left cb stops fuel n id s : simple_cb stops cb -> timers_inv s -> wf_timers s ->
  (size (timers s) < fuel)%nat -> id ∈ rt_timer_list s ->
  Z.max 1 (ticks_left (rt_tick s) (timers s) id) = Z.of_nat (S n) ->
  exists before last s', run_ticks cb fuel (S n) s = Ok (before ++ [last], s')
  /\ length before = n /\ id ∈ last /\ (forall fired, fired ∈ before -> id ∉ fired).
Proof.
  intros Hcb. revert s. induction n as [|n IH]; intros s Hi Hw Hf Hid Hl;
    pose proof (list_fits s Hi) as Hfit;
    destruct (tick_lemma cb stops fuel s Hcb Hi Hw ltac:(lia)) as (s1 & Et & Etk & Hi1 & Hw1 & Hm & Hp);
    cbn [run_ticks]; rewrite Et, bind_ret_l.
  - exists [], (due s), s1. split; [done|]. split; [done|]. split; [|set_solver].
    apply list_elem_of_filter. split; [lia|done].
  - assert (id ∉ due s) as Hnd by (intros [? _]%list_elem_of_filter; lia).
    assert (ticks_left (rt_tick s1) (timers s1) id = ticks_left (rt_tick s) (timers s) id - 1) as El.
    { pose proof (ord_range _ _ _ _ _ (proj2 Hi) id Hid) as Hg.
      unfold ticks_left, deadline in *. rewrite Hm, decide_False by done. rewrite Etk.
      tick_lia. }
    destruct (IH s1 Hi1 Hw1) as (before & last & s' & Er & Hlen & Hin & Hb).
    + by rewrite (timers_size_same _ _ _ _ Hm).
    + rewrite Hp. apply elem_of_app. right. apply list_elem_of_filter. split; [lia|done].
    + lia.
    + exists (due s :: before), last, s'. cbn [run_ticks] in Er. rewrite Er. split; [done|].
      split; [cbn; lia|]. split; [done|]. set_solver.
Qed.

(** How often [id] fired. *)
Definition expiries (id : Z) (fs : list (list Z)) : Z :=
  Z.of_nat (length (filter (fun fired => id ∈ fired) fs)).

(** A periodic timer that is not stopped: expiries in [n] ticks. *)
Lemma run_ticks_periodic cb stops fuel n id t s : simple_cb stops cb -> stops id = false ->
  timers_inv s -> wf_timers s -> (size (timers s) < fuel)%nat ->
  id ∈ rt_timer_list s -> timers s !! id = Some t -> periodic t = true ->
  1 <= ticks_left (rt_tick s) (timers s) id <= init_tick t ->
  exists fs s', run_ticks cb fuel n s = Ok (fs, s') /\ length fs = n
  /\ expiries id fs
     = (Z.of_nat n + init_tick t - ticks_left (rt_tick s) (timers s) id) / init_tick t.
Proof.
  intros Hcb Hst. revert s t. induction n as [|n IH]; intros s t Hi Hw Hf Hid Ht Hper Hl.
  { exists [], s. split; [done|]. split; [done|]. by rewrite Z.div_small by lia. }
  pose proof (list_fits s Hi) as Hfit.
  destruct (tick_lemma cb stops fuel s Hcb Hi Hw ltac:(lia)) as (s1 & Et & Etk & Hi1 & Hw1 & Hm & Hp).
  cbn [run_ticks]. rewrite Et, bind_ret_l.
  assert (size (timers s1) < fuel)%nat as Hf1
    by (by rewrite (timers_size_same _ _ _ _ Hm)).
  pose proof (Hm id) as Hmid. rewrite Ht in Hmid. cbn [fmap option_fmap option_map] in Hmid.
  unfold expiries. destruct (Hw _ _ Ht) as [Hb _].
  destruct (decide (id ∈ due s)) as [Hd|Hd].
  - unfold after_expiry in Hmid. rewrite Hper, Hst in Hmid. cbn [andb negb] in Hmid.
    assert (ticks_left (rt_tick s1) (timers s1) id = init_tick t) as El.
    { unfold ticks_left, deadline. rewrite Hmid. cbn. tick_lia. }
    assert (ticks_left (rt_tick s) (timers s) id = 1) as E1
      by (apply list_elem_of_filter in Hd as [Hd _]; lia).
    set (t1 := mkTimer true _ _ _) in Hmid.
    destruct (IH s1 t1 Hi1 Hw1 Hf1) as (fs & s' & Er & Hlen & Hc); [|done|done|cbn; lia|].
    { rewrite Hp. apply elem_of_app. left. apply list_elem_of_filter. split; [|done].
      unfold rearmed. by rewrite Ht, Hper, Hst. }
    exists (due s :: fs), s'. rewrite Er. split; [done|]. split; [cbn; lia|].
    rewrite filter_cons_True by done. cbn [length]. unfold expiries in Hc. cbn [init_tick t1] in Hc.
    rewrite Nat2Z.inj_succ, Hc, El, E1.
    replace (Z.of_nat (S n) + init_tick t - 1) with (Z.of_nat n + init_tick t - init_tick t + 1 * init_tick t) by lia.
    rewrite Z.div_add by lia. lia.
  - assert (ticks_left (rt_tick s1) (timers s1) id = ticks_left (rt_tick s) (timers s) id - 1) as El.
    { pose proof (ord_range _ _ _ _ _ (proj2 Hi) id Hid) as Hg.
      unfold ticks_left, deadline in *. rewrite Hmid, Ht in *. rewrite Etk.
      tick_lia. }
    assert (~ ticks_left (rt_tick s) (timers s) id <= 1) as Hgt
      by (intros H; apply Hd, list_elem_of_filter; done).
    destruct (IH s1 t Hi1 Hw1 Hf1) as (fs & s' & Er & Hlen & Hc); [|done|done|lia|].
    { rewrite Hp. apply elem_of_app. right. by apply list_elem_of_filter. }
    exists (due s :: fs), s'. rewrite Er. split; [done|]. split; [cbn; lia|].
    rewrite filter_cons_False by done. unfold expiries in Hc. rewrite Hc, El. f_equal. lia.
Qed.

(** Starting a timer between two ticks. *)
Lemma timer_start_lemma id t s : timers_inv s -> wf_timers s -> timers s !! id = Some t ->
  exists s', rt_timer_start id s = Ok s' /\ timers_inv s' /\ wf_timers s'
  /\ timers s' = <[id := mkTimer true (periodic t) (init_tick t)
                          (u32 (rt_tick s + init_tick t))]> (timers s)
  /\ rt_tick s' = rt_tick s /\ id ∈ rt_timer_list s'
  /\ ticks_left (rt_tick s') (timers s') id = init_tick t
  /\ exists l1 l2, filter (fun x => x <> id) (rt_timer_list s) = l1 ++ l2
     /\ rt_timer_list s' = l1 ++ id :: l2
     /\ (forall x, x ∈ l1 -> ticks_left (rt_tick s') (timers s') x <= init_tick t)
     /\ (forall x, x ∈ l2 -> init_tick t < ticks_left (rt_tick s') (timers s') x).
Proof.
  intros [Hu Ho] Hw Et. destruct (Hw _ _ Et) as [Hi Hper].
  assert (u32 (rt_tick s + init_tick t - rt_tick s) = init_tick t) as El.
  { tick_lia. }
  destruct (timer_start_from (rt_tick s) 0 (HALF - 1) id t s)
    as (s' & Hs & Etk & Ho' & Em & Elist & Eleft); try done; try (rewrite El); try lia.
  { by apply ordered_remove. }
  rewrite El in Eleft. exists s'. split; [done|]. rewrite <- Etk in Eleft, Ho'.
  split; [split; [by rewrite Etk|done]|]. split.
  - intros x tx. rewrite Em. destruct (decide (x = id)) as [->|Hn].
    + rewrite lookup_insert_eq. by intros [= <-].
    + rewrite lookup_insert_ne by done. apply Hw.
  - split; [done|]. split; [done|]. split; [rewrite Elist, insert_timer_perm; by left|].
    split; [done|]. rewrite Elist. rewrite <- Eleft.
    apply (insert_timer_split _ 0 (HALF - 1)); try lia.
    rewrite Etk. eapply ordered_ext; [|apply ordered_remove, Ho].
    intros x [Hx _]%list_elem_of_filter. rewrite Em. by apply lookup_insert_ne.
Qed.

(** between two ticks [rt_timer_start] always succeeds on an initialised
    timer, running or not: it takes its place in the list behind
    exactly the timers that do not expire later (timers of the same tick fire in
    the order they were started), which keeps the list in order, sets the
    deadline [init_tick] ticks ahead and activates the timer, and changes
    no other timer; a [rt_timer_stop] after it takes the timer out of the
    list again, and a second stop reports [-RT_ERROR] and changes nothing. *)
Theorem timer_start_stop id t s : timers_inv s -> wf_timers s -> timers s !! id = Some t ->
  exists s1 s2, rt_timer_start id s = Ok s1 /\ timers_inv s1
  /\ timers s1 = <[id := mkTimer true (periodic t) (init_tick t)
                           (u32 (rt_tick s + init_tick t))]> (timers s)
  /\ ticks_left (rt_tick s1) (timers s1) id = init_tick t
  /\ (exists l1 l2, filter (fun x => x <> id) (rt_timer_list s) = l1 ++ l2
      /\ rt_timer_list s1 = l1 ++ id :: l2
      /\ (forall x, x ∈ l1 -> ticks_left (rt_tick s1) (timers s1) x <= init_tick t)
      /\ (forall x, x ∈ l2 -> init_tick t < ticks_left (rt_tick s1) (timers s1) x))
  /\ rt_timer_stop id s1 = Ok (true, s2) /\ timers_inv s2
  /\ rt_timer_list s2 = filter (fun x => x <> id) (rt_timer_list s1)
  /\ rt_timer_stop id s2 = Ok (false, s2).
Proof.
  intros Hi Hw Et.
  destruct (timer_start_lemma id t s Hi Hw Et) as (s1 & Hs & Hi1 & _ & Em & _ & _ & El & Hpos).
  set (t1 := mkTimer true _ _ _) in Em.
  assert (timers s1 !! id = Some t1) as E1 by (rewrite Em; apply lookup_insert_eq).
  destruct (timer_stop_ok id t1 s1 Hi1 E1) as (s2 & Hs2 & Hi2 & _). cbn [activated t1] in Hs2.
  exists s1, s2. repeat (split; [done|]).
  unfold rt_timer_stop in Hs2. rewrite E1 in Hs2. cbn in Hs2. injection Hs2 as <-.
  split; [done|]. unfold rt_timer_stop. cbn. by rewrite lookup_insert_eq.
Qed.

(** C17: the tick interrupt runs exactly the timers due at the new tick, each
    once and in order of expiry, and comes back: it needs no more rounds than
    there are running timers.  A one-shot timer, or one its own timeout
    function stops, is then inactive; a periodic one is running again for its
    full length from this tick; no other timer changes.  The invariant is kept
    across the wrap-around of the tick counter.  The current thread gives up
    the processor at the last tick of its slice. *)
Theorem tick_fires_due cb stops fuel th s : simple_cb stops cb -> timers_inv s -> wf_timers s ->
  (length (rt_timer_list s) < fuel)%nat -> 1 <= remaining_tick th < 4294967296 ->
  exists th' s',
  rt_tick_increase cb fuel th s = Ok (remaining_tick th =? 1, th', due s, s')
  /\ remaining_tick th' = (if remaining_tick th =? 1 then slice_tick th else remaining_tick th - 1)
  /\ rt_tick s' = u32 (rt_tick s + 1) /\ timers_inv s' /\ wf_timers s'
  /\ (forall id, timers s' !! id = if decide (id ∈ due s)
        then after_expiry stops (rt_tick s') id <$> timers s !! id else timers s !! id)
  /\ rt_timer_list s' ≡ₚ filter (fun id => rearmed stops (timers s) id = true) (due s) ++ not_due s.
Proof.
  intros Hcb Hi Hw Hf Hr. destruct (tick_lemma cb stops fuel s Hcb Hi Hw Hf) as (s' & Et & H).
  unfold rt_tick_increase. rewrite Et, u32_id by mlia.
  destruct (Z.eqb_spec (remaining_tick th - 1) 0), (Z.eqb_spec (remaining_tick th) 1);
    try lia; eexists _, s'; done.
Qed.

(** a timer started between two ticks with [init_tick] = n fires at the
    n-th tick after that (at the first one for n = 0) and at none before,
    whatever other timers run. *)
Theorem timer_fires_on_time cb stops fuel id t s : simple_cb stops cb ->
  timers_inv s -> wf_timers s -> timers s !! id = Some t -> (size (timers s) < fuel)%nat ->
  exists s1 before last s2, rt_timer_start id s = Ok s1
  /\ run_ticks cb fuel (Z.to_nat (Z.max 1 (init_tick t))) s1 = Ok (before ++ [last], s2)
  /\ Z.of_nat (length before) = Z.max 1 (init_tick t) - 1
  /\ id ∈ last /\ (forall fired, fired ∈ before -> id ∉ fired).
Proof.
  intros Hcb Hi Hw Et Hf.
  destruct (timer_start_lemma id t s Hi Hw Et) as (s1 & Hs & Hi1 & Hw1 & Em & Etk & Hin & El & _).
  destruct (Z.to_nat (Z.max 1 (init_tick t))) as [|n] eqn:En; [lia|].
  destruct (run_ticks_left cb stops fuel n id s1 Hcb Hi1 Hw1) as (before & last & s2 & Hr & Hl & H); try done.
  - rewrite Em. by rewrite map_size_insert_Some by (by eexists).
  - rewrite El. lia.
  - exists s1, before, last, s2. split; [done|]. split; [done|]. split; [lia|done].
Qed.

(** A periodic timer 1 (3 ticks) due at the wrap-around and a stopped one-shot
    timer 2. *)
Definition example_timers : tstate :=
  mkT {[1 := mkTimer true true 3 0; 2 := mkTimer false false 5 0]} [1] 4294967295.

Lemma example_timers_ok : timers_inv example_timers /\ wf_timers example_timers.
Proof.
  split.
  - split; [done|]. split.
    + apply list.NoDup_singleton.
    + intros id ->%list_elem_of_singleton. by eexists.
    + intros id ->%list_elem_of_singleton. done.
    + repeat constructor.
  - intros id t H. unfold example_timers in H. cbn [timers] in H.
    apply lookup_insert_Some in H as [[_ <-]|[_ H]]; [done|].
    apply lookup_singleton_Some in H as [_ <-]. done.
Qed.

Definition quiet_cb (id : Z) (s : tstate) : res tstate := Ok s.

Lemma timer_start_stop_witness : exists s1 s2, rt_timer_start 2 example_timers = Ok s1
  /\ rt_timer_stop 2 s1 = Ok (true, s2) /\ rt_timer_list s2 = [1].
Proof.
  destruct (timer_start_stop 2 (mkTimer false false 5 0) example_timers)
    as (s1 & s2 & H1 & _ & _ & _ & _ & H2 & _ & H3 & _);
    [apply example_timers_ok|apply example_timers_ok|done|].
  exists s1, s2. rewrite H3. split; [done|]. split; [done|].
  injection H1 as <-. reflexivity.
Defined.

Lemma tick_fires_due_witness : exists th' s',
  rt_tick_increase quiet_cb 2 (mkSlice 1 5) example_timers = Ok (true, th', [1], s')
  /\ remaining_tick th' = 5 /\ timers s' !! 1 = Some (mkTimer true true 3 3).
Proof.
  destruct (tick_fires_due quiet_cb (fun _ => false) 2 (mkSlice 1 5) example_timers)
    as (th' & s' & H & Hr & E & _ & _ & Hm & _);
    [done|apply example_timers_ok|apply example_timers_ok|cbn; lia|cbn; lia|].
  exists th', s'. split; [exact H|]. split; [exact Hr|]. rewrite Hm, E. reflexivity.
Defined.

Lemma timer_fires_on_time_witness : exists s1 before last s2,
  rt_timer_start 2 example_timers = Ok s1 /\ run_ticks quiet_cb 3 5 s1 = Ok (before ++ [last], s2)
  /\ length before = 4%nat /\ 2 ∈ last.
Proof.
  destruct (timer_fires_on_time quiet_cb (fun _ => false) 3 2 (mkTimer false false 5 0)
    example_timers) as (s1 & before & last & s2 & H1 & H2 & H3 & H4 & _);
    [done|apply example_timers_ok|apply example_timers_ok|done|vm_compute; lia|].
  exists s1, before, last, s2. split; [done|]. split; [exact H2|]. split; [|done].
  cbn in H3. lia.
Defined.
