(* ===== verification/KernelSched.v ===== *)
(** * The kernel scheduler (src/scheduler.c)

    The scheduler on one processor with 32 priorities: the ready queues, the
    bit group that says which of them hold a thread, the current thread and
    the scheduler lock.  A thread is named by a number, which also names its
    built-in timer.  A list node ([tlist]) is the name of its thread in the
    list that holds it; linking a node that is already in a list is the fault
    [ListCorrupt]. *)
From stdpp Require Import gmap sorting.
From S2P Require Import Prelude KernelTimer.

(** ** Data *)

Inductive thread_stat : Set :=
| RT_THREAD_INIT | RT_THREAD_READY | RT_THREAD_SUSPEND | RT_THREAD_RUNNING | RT_THREAD_CLOSE.
#[global] Instance thread_stat_eq_dec : EqDecision thread_stat.
Proof. solve_decision. Defined.

Definition RT_THREAD_PRIORITY_MAX : Z := 32.

Record rt_thread := mkThread {
  name : list Z;
  stat : thread_stat;
  current_priority : Z;
  init_priority : Z;
  number_mask : Z;
  slice : time_slice;            (* init_tick and remaining_tick *)
  error : Z;
  event_set : Z;
  event_info : Z;
  is_system : bool;              (* a static object *)
  cleanup : bool                 (* a cleanup function is set *) }.

(** The lists of waiting threads, by the object that owns them. *)
Inductive wait_list : Set :=
| suspend_thread (obj : Z) | suspend_sender_thread (obj : Z).
#[global] Instance wait_list_eq_dec : EqDecision wait_list.
Proof. solve_decision. Defined.
#[global] Instance wait_list_countable : Countable wait_list.
Proof.
  refine (inj_countable' (fun k => match k with suspend_thread o => inl o
                                   | suspend_sender_thread o => inr o end)
            (fun k => match k with inl o => suspend_thread o | inr o => suspend_sender_thread o end) _).
  by intros [].
Defined.

Record kstate := mkK {
  threads : gmap Z rt_thread;
  thread_objects : list Z;       (* the container of thread objects *)
  rt_thread_priority_table : list (list Z);
  rt_thread_ready_priority_group : Z;
  wait_lists : gmap wait_list (list Z);
  rt_thread_defunct : list Z;
  rt_current_thread : option Z;
  rt_current_priority : Z;
  rt_scheduler_lock_nest : Z;
  rt_interrupt_nest : Z;
  ktimers : tstate }.

Definition with_threads m s := mkK m (thread_objects s) (rt_thread_priority_table s)
  (rt_thread_ready_priority_group s) (wait_lists s) (rt_thread_defunct s) (rt_current_thread s)
  (rt_current_priority s) (rt_scheduler_lock_nest s) (rt_interrupt_nest s) (ktimers s).
Definition with_objects l s := mkK (threads s) l (rt_thread_priority_table s)
  (rt_thread_ready_priority_group s) (wait_lists s) (rt_thread_defunct s) (rt_current_thread s)
  (rt_current_priority s) (rt_scheduler_lock_nest s) (rt_interrupt_nest s) (ktimers s).
Definition with_ready t g s := mkK (threads s) (thread_objects s) t g (wait_lists s)
  (rt_thread_defunct s) (rt_current_thread s) (rt_current_priority s) (rt_scheduler_lock_nest s)
  (rt_interrupt_nest s) (ktimers s).
Definition with_waits w s := mkK (threads s) (thread_objects s) (rt_thread_priority_table s)
  (rt_thread_ready_priority_group s) w (rt_thread_defunct s) (rt_current_thread s)
  (rt_current_priority s) (rt_scheduler_lock_nest s) (rt_interrupt_nest s) (ktimers s).
Definition with_defunct d s := mkK (threads s) (thread_objects s) (rt_thread_priority_table s)
  (rt_thread_ready_priority_group s) (wait_lists s) d (rt_current_thread s)
  (rt_current_priority s) (rt_scheduler_lock_nest s) (rt_interrupt_nest s) (ktimers s).
Definition with_current c p s := mkK (threads s) (thread_objects s) (rt_thread_priority_table s)
  (rt_thread_ready_priority_group s) (wait_lists s) (rt_thread_defunct s) c p
  (rt_scheduler_lock_nest s) (rt_interrupt_nest s) (ktimers s).
Definition with_nest l i s := mkK (threads s) (thread_objects s) (rt_thread_priority_table s)
  (rt_thread_ready_priority_group s) (wait_lists s) (rt_thread_defunct s) (rt_current_thread s)
  (rt_current_priority s) l i (ktimers s).
Definition with_ktimers t s := mkK (threads s) (thread_objects s) (rt_thread_priority_table s)
  (rt_thread_ready_priority_group s) (wait_lists s) (rt_thread_defunct s) (rt_current_thread s)
  (rt_current_priority s) (rt_scheduler_lock_nest s) (rt_interrupt_nest s) t.

Definition with_stat x th := mkThread (name th) x (current_priority th) (init_priority th)
  (number_mask th) (slice th) (error th) (event_set th) (event_info th) (is_system th) (cleanup th).
Definition with_priority p mask th := mkThread (name th) (stat th) p (init_priority th)
  mask (slice th) (error th) (event_set th) (event_info th) (is_system th) (cleanup th).
Definition with_slice sl th := mkThread (name th) (stat th) (current_priority th)
  (init_priority th) (number_mask th) sl (error th) (event_set th) (event_info th) (is_system th)
  (cleanup th).
Definition with_error e th := mkThread (name th) (stat th) (current_priority th)
  (init_priority th) (number_mask th) (slice th) e (event_set th) (event_info th) (is_system th)
  (cleanup th).
Definition with_event es ei th := mkThread (name th) (stat th) (current_priority th)
  (init_priority th) (number_mask th) (slice th) (error th) es ei (is_system th) (cleanup th).

Definition get_thread (t : Z) (s : kstate) : res rt_thread :=
  match threads s !! t with Some th => Ok th | None => Fault NullDeref end.
Definition upd_thread (f : rt_thread -> rt_thread) (t : Z) (s : kstate) : kstate :=
  with_threads (alter f t (threads s)) s.
Definition set_stat (x : thread_stat) (t : Z) (s : kstate) : kstate :=
  upd_thread (with_stat x) t s.

(** ** Lists (include/rtservice.h) *)

Definition wlist (k : wait_list) (s : kstate) : list Z := default [] (wait_lists s !! k).

(** A node in a list. *)
Definition linked (t : Z) (s : kstate) : bool :=
  existsb (fun l => bool_decide (t ∈ l)) (rt_thread_priority_table s)
  || existsb (fun kl : wait_list * list Z => bool_decide (t ∈ kl.2)) (map_to_list (wait_lists s))
  || bool_decide (t ∈ rt_thread_defunct s).

Definition unlink (t : Z) (l : list Z) : list Z := filter (fun x => x <> t) l.

(** [rt_list_remove]: out of the list that holds the node, if one does. *)
Definition rt_list_remove (t : Z) (s : kstate) : kstate :=
  with_ready (unlink t <$> rt_thread_priority_table s) (rt_thread_ready_priority_group s)
    (with_waits (unlink t <$> wait_lists s)
       (with_defunct (unlink t (rt_thread_defunct s)) s)).

(** ** Finding the first bit

    The instructions of libcpu/arm/cortex-m4/cpuport.c: [RBIT] reverses the
    bits of a word, [CLZ] counts the zeros above its highest one. *)
Definition RBIT (v : Z) : Z :=
  foldl (fun acc i => Z.lor acc (if Z.testbit v i then 2 ^ (31 - i) else 0)) 0 (seqZ 0 32).
Definition CLZ (v : Z) : Z := if v =? 0 then 32 else 31 - Z.log2 v.

Definition __rt_ffs (value : Z) : Z :=
  if value =? 0 then value else CLZ (RBIT value) + 1.

(** The portable version of src/kservice.c. *)
Definition __lowest_bit_bitmap : list Z :=
  [0; 0; 1; 0; 2; 0; 1; 0; 3; 0; 1; 0; 2; 0; 1; 0;
   4; 0; 1; 0; 2; 0; 1; 0; 3; 0; 1; 0; 2; 0; 1; 0;
   5; 0; 1; 0; 2; 0; 1; 0; 3; 0; 1; 0; 2; 0; 1; 0;
   4; 0; 1; 0; 2; 0; 1; 0; 3; 0; 1; 0; 2; 0; 1; 0;
   6; 0; 1; 0; 2; 0; 1; 0; 3; 0; 1; 0; 2; 0; 1; 0;
   4; 0; 1; 0; 2; 0; 1; 0; 3; 0; 1; 0; 2; 0; 1; 0;
   5; 0; 1; 0; 2; 0; 1; 0; 3; 0; 1; 0; 2; 0; 1; 0;
   4; 0; 1; 0; 2; 0; 1; 0; 3; 0; 1; 0; 2; 0; 1; 0;
   7; 0; 1; 0; 2; 0; 1; 0; 3; 0; 1; 0; 2; 0; 1; 0;
   4; 0; 1; 0; 2; 0; 1; 0; 3; 0; 1; 0; 2; 0; 1; 0;
   5; 0; 1; 0; 2; 0; 1; 0; 3; 0; 1; 0; 2; 0; 1; 0;
   4; 0; 1; 0; 2; 0; 1; 0; 3; 0; 1; 0; 2; 0; 1; 0;
   6; 0; 1; 0; 2; 0; 1; 0; 3; 0; 1; 0; 2; 0; 1; 0;
   4; 0; 1; 0; 2; 0; 1; 0; 3; 0; 1; 0; 2; 0; 1; 0;
   5; 0; 1; 0; 2; 0; 1; 0; 3; 0; 1; 0; 2; 0; 1; 0;
   4; 0; 1; 0; 2; 0; 1; 0; 3; 0; 1; 0; 2; 0; 1; 0].

Definition rt_ffs_table (value : Z) : res Z :=
  if value =? 0 then Ok 0
  else if negb (Z.land value 0xff =? 0) then
    v ← get __lowest_bit_bitmap (Z.land value 0xff); Ok (v + 1)
  else if negb (Z.land value 0xff00 =? 0) then
    v ← get __lowest_bit_bitmap (Z.shiftr (Z.land value 0xff00) 8); Ok (v + 9)
  else if negb (Z.land value 0xff0000 =? 0) then
    v ← get __lowest_bit_bitmap (Z.shiftr (Z.land value 0xff0000) 16); Ok (v + 17)
  else
    v ← get __lowest_bit_bitmap (Z.shiftr (Z.land value 0xff000000) 24); Ok (v + 25).

(** ** The ready queues *)

(** The head of the queue of the lowest set bit, with its priority.  With no
    bit set the index wraps around; the [next] of an empty queue is no thread. *)
Definition _get_highest_priority_thread (s : kstate) : res (Z * Z) :=
  let highest_ready_priority := u32 (__rt_ffs (rt_thread_ready_priority_group s) - 1) in
  match rt_thread_priority_table s !! Z.to_nat highest_ready_priority with
  | Some (t :: _) => Ok (t, highest_ready_priority)
  | _ => Fault OutOfBounds
  end.

Definition rt_schedule_insert_thread (t : Z) (s : kstate) : res kstate :=
  th ← get_thread t s;
  if bool_decide (rt_current_thread s = Some t) then Ok (set_stat RT_THREAD_RUNNING t s)
  else
    let p := Z.to_nat (current_priority th) in
    match rt_thread_priority_table s !! p with
    | None => Fault OutOfBounds
    | Some l =>
        if linked t s then Fault ListCorrupt
        else Ok (set_stat RT_THREAD_READY t
               (with_ready (<[p := l ++ [t]]> (rt_thread_priority_table s))
                  (Z.lor (rt_thread_ready_priority_group s) (number_mask th)) s))
    end.

Definition rt_schedule_remove_thread (t : Z) (s : kstate) : res kstate :=
  th ← get_thread t s;
  let s := rt_list_remove t s in
  match rt_thread_priority_table s !! Z.to_nat (current_priority th) with
  | None => Fault OutOfBounds
  | Some [] => Ok (with_ready (rt_thread_priority_table s)
                 (Z.ldiff (rt_thread_ready_priority_group s) (number_mask th)) s)
  | Some _ => Ok s
  end.

Definition rt_system_scheduler_init (s : kstate) : kstate :=
  with_nest 0 (rt_interrupt_nest s)
    (with_ready (replicate (Z.to_nat RT_THREAD_PRIORITY_MAX) []) 0 (with_defunct [] s)).

Definition rt_system_scheduler_start (s : kstate) : res kstate :=
  '(to_thread, _) ← _get_highest_priority_thread s;
  let s := with_current (Some to_thread) (rt_current_priority s) s in
  s ← rt_schedule_remove_thread to_thread s;
  Ok (set_stat RT_THREAD_RUNNING to_thread s).

(** The thread switched to, and whether the one left stays ready. *)
Definition choose (cur : Z) (th : rt_thread) (to highest : Z) : Z * bool :=
  if bool_decide (stat th = RT_THREAD_RUNNING) then
    if current_priority th <? highest then (cur, false) else (to, true)
  else (to, false).

Definition rt_schedule (s : kstate) : res kstate :=
  if negb (rt_scheduler_lock_nest s =? 0) then Ok s
  else if rt_thread_ready_priority_group s =? 0 then Ok s
  else
    '(to_thread, highest_ready_priority) ← _get_highest_priority_thread s;
    match rt_current_thread s with
    | None => Fault NullDeref
    | Some cur =>
        th ← get_thread cur s;
        let '(to_thread, need_insert_from_thread) := choose cur th to_thread highest_ready_priority in
        if negb (to_thread =? cur) then
          let s := with_current (Some to_thread) (u8 highest_ready_priority) s in
          s ← (if need_insert_from_thread : bool then rt_schedule_insert_thread cur s else Ok s);
          s ← rt_schedule_remove_thread to_thread s;
          Ok (set_stat RT_THREAD_RUNNING to_thread s)
        else
          s ← rt_schedule_remove_thread cur s;
          Ok (set_stat RT_THREAD_RUNNING cur s)
    end.

(** The lock is a signed 16-bit counter. *)
Definition rt_enter_critical (s : kstate) : kstate :=
  with_nest (s16 (rt_scheduler_lock_nest s + 1)) (rt_interrupt_nest s) s.

Definition rt_exit_critical (s : kstate) : res kstate :=
  let n := s16 (rt_scheduler_lock_nest s - 1) in
  if n <=? 0 then
    let s := with_nest 0 (rt_interrupt_nest s) s in
    match rt_current_thread s with Some _ => rt_schedule s | None => Ok s end
  else Ok (with_nest n (rt_interrupt_nest s) s).

Definition rt_critical_level (s : kstate) : Z := u16 (rt_scheduler_lock_nest s).

(** ** Interrupt nesting (src/irq.c) *)
Definition rt_interrupt_enter (s : kstate) : kstate :=
  with_nest (rt_scheduler_lock_nest s) (u8 (rt_interrupt_nest s + 1)) s.
Definition rt_interrupt_leave (s : kstate) : kstate :=
  with_nest (rt_scheduler_lock_nest s) (u8 (rt_interrupt_nest s - 1)) s.
Definition rt_interrupt_get_nest (s : kstate) : Z := rt_interrupt_nest s.

(** ** The first set bit *)

Definition lowest_bit (v k : Z) : Prop :=
  0 <= k /\ Z.testbit v k = true /\ forall i, 0 <= i < k -> Z.testbit v i = false.

Lemma lowest_bit_unique v k k' : lowest_bit v k -> lowest_bit v k' -> k = k'.
Proof.
  intros (H0 & H1 & H2) (H0' & H1' & H2'). destruct (Z.lt_trichotomy k k') as [H|[H|H]]; [|done|].
  - rewrite H2' in H1 by lia. done.
  - rewrite H2 in H1' by lia. done.
Qed.

Lemma testbit_foldl_lor (f : Z -> Z) l a j :
  Z.testbit (foldl (fun acc i => Z.lor acc (f i)) a l) j
  = Z.testbit a j || existsb (fun i => Z.testbit (f i) j) l.
Proof.
  revert a. induction l as [|i l IH]; intros a; cbn; [by rewrite orb_false_r|].
  by rewrite IH, Z.lor_spec, orb_assoc.
Qed.

Lemma RBIT_spec v j : 0 <= j -> Z.testbit (RBIT v) j = (j <? 32) && Z.testbit v (31 - j).
Proof.
  intros Hj. unfold RBIT.
  rewrite (testbit_foldl_lor (fun i => if Z.testbit v i then 2 ^ (31 - i) else 0)).
  rewrite Z.bits_0. cbn [orb]. apply eq_true_iff_eq. rewrite existsb_exists, andb_true_iff. split.
  - intros (i & Hi%list_elem_of_In%elem_of_seqZ & Ht).
    destruct (Z.testbit v i) eqn:E; [|by rewrite Z.bits_0 in Ht].
    rewrite Z.pow2_bits_eqb in Ht by lia. apply Z.eqb_eq in Ht as <-.
    replace (31 - (31 - i)) with i by lia. split; [apply Z.ltb_lt; lia|done].
  - intros [Hlt%Z.ltb_lt Ht]. exists (31 - j). split; [apply list_elem_of_In, elem_of_seqZ; lia|].
    rewrite Ht, Z.pow2_bits_eqb by lia. apply Z.eqb_eq. lia.
Qed.

Lemma u32_bits_high v i : is_u32 v -> 32 <= i -> Z.testbit v i = false.
Proof.
  intros Hv Hi. rewrite <- (Z.mod_small v (2 ^ 32)) by exact Hv. by apply Z.mod_pow2_bits_high.
Qed.

Lemma RBIT_pos v : is_u32 v -> v <> 0 -> 0 < RBIT v.
Proof.
  intros Hv Hn. assert (0 <= RBIT v) as H0.
  { apply Z.bits_iff_nonneg_ex. exists 31. intros m Hm. rewrite RBIT_spec by lia.
    by rewrite (proj2 (Z.ltb_ge m 32)) by lia. }
  destruct (Z.eq_dec (RBIT v) 0) as [E|]; [|lia]. exfalso. apply Hn.
  apply Z.bits_inj'. intros i Hi. rewrite Z.bits_0.
  destruct (Z.lt_ge_cases i 32); [|by apply u32_bits_high].
  assert (Z.testbit (RBIT v) (31 - i) = false) as Ht by (rewrite E; apply Z.bits_0).
  rewrite RBIT_spec in Ht by lia. rewrite (proj2 (Z.ltb_lt _ 32)) in Ht by lia.
  by replace (31 - (31 - i)) with i in Ht by lia.
Qed.

Lemma rt_ffs_lowest v : is_u32 v -> v <> 0 -> lowest_bit v (__rt_ffs v - 1).
Proof.
  intros Hv Hn. pose proof (RBIT_pos v Hv Hn) as Hp. unfold __rt_ffs, CLZ.
  rewrite (proj2 (Z.eqb_neq v 0)), (proj2 (Z.eqb_neq (RBIT v) 0)) by lia.
  pose proof (Z.bit_log2 _ Hp) as Ht. pose proof (Z.log2_nonneg (RBIT v)) as Hl.
  pose proof (fun n => Z.bits_above_log2 (RBIT v) n (Z.lt_le_incl _ _ Hp)) as Hab.
  set (j := Z.log2 (RBIT v)) in *. clearbody j.
  rewrite RBIT_spec in Ht by lia. apply andb_true_iff in Ht as [Hj%Z.ltb_lt Ht].
  replace (31 - j + 1 - 1) with (31 - j) by lia. split; [lia|]. split; [done|].
  intros i Hi. specialize (Hab (31 - i) ltac:(lia)). rewrite RBIT_spec in Hab by lia.
  rewrite (proj2 (Z.ltb_lt _ 32)) in Hab by lia. by replace (31 - (31 - i)) with i in Hab by lia.
Qed.

Lemma lowest_bit_below v k : is_u32 v -> lowest_bit v k -> k < 32.
Proof.
  intros Hv (H0 & H1 & _). destruct (Z.lt_ge_cases k 32); [done|].
  by rewrite u32_bits_high in H1.
Qed.

(** A byte of the table. *)
Lemma bitmap_byte b : 0 < b < 256 ->
  lowest_bit b (rd __lowest_bit_bitmap b) /\ rd __lowest_bit_bitmap b < 8.
Proof.
  intros Hb. assert (((b =? 0) || (Z.testbit b (rd __lowest_bit_bitmap b)
    && (0 <=? rd __lowest_bit_bitmap b) && (rd __lowest_bit_bitmap b <? 8)
    && forallb (fun i => negb (Z.testbit b i)) (seqZ 0 (rd __lowest_bit_bitmap b)))) = true) as H
    by by_enumeration 256%nat b.
  rewrite (proj2 (Z.eqb_neq b 0)) in H by lia. cbn [orb] in H.
  apply andb_true_iff in H as [[[H1 H2%Z.leb_le]%andb_true_iff H3%Z.ltb_lt]%andb_true_iff H4].
  split; [|done]. split; [done|]. split; [done|]. intros i Hi.
  rewrite forallb_forall in H4. apply negb_true_iff, H4.
  apply list_elem_of_In, elem_of_seqZ. lia.
Qed.

(** The lowest bit of a word whose bits below [n] are clear is in its next
    byte, when that byte is not zero. *)
Lemma table_step v n : 0 <= n -> (forall i, 0 <= i < n -> Z.testbit v i = false) ->
  Z.land (Z.shiftr v n) 0xff <> 0 ->
  get __lowest_bit_bitmap (Z.land (Z.shiftr v n) 0xff)
  = Ok (rd __lowest_bit_bitmap (Z.land (Z.shiftr v n) 0xff))
  /\ lowest_bit v (rd __lowest_bit_bitmap (Z.land (Z.shiftr v n) 0xff) + n).
Proof.
  intros Hn Hlow Hb. set (b := Z.land _ _) in *.
  assert (0 < b < 256) as Hr by (unfold b in *; rewrite land_ff in *; lia).
  assert (forall i, 0 <= i < 8 -> Z.testbit b i = Z.testbit v (i + n)) as Hbit.
  { intros i Hi. unfold b. rewrite Z.land_spec, Z.shiftr_spec by lia.
    change 0xff with (Z.ones 8). rewrite Z.ones_spec_low by lia. apply andb_true_r. }
  destruct (bitmap_byte b Hr) as [(H0 & H1 & H2) H3]. split.
  { apply get_in. unfold in_range. cbn. lia. }
  split; [lia|]. split; [by rewrite <- Hbit by lia|].
  intros i Hi. destruct (Z.lt_ge_cases i n); [apply Hlow; lia|].
  replace i with (i - n + n) by lia. rewrite <- Hbit by lia. apply H2. lia.
Qed.

Lemma byte_zero v n : 0 <= n -> Z.land (Z.shiftr v n) 0xff = 0 ->
  (forall i, 0 <= i < n -> Z.testbit v i = false) ->
  forall i, 0 <= i < n + 8 -> Z.testbit v i = false.
Proof.
  intros Hn H Hlow i Hi. destruct (Z.lt_ge_cases i n); [apply Hlow; lia|].
  assert (Z.testbit (Z.land (Z.shiftr v n) 0xff) (i - n) = false) as Ht by (rewrite H; apply Z.bits_0).
  rewrite Z.land_spec, Z.shiftr_spec in Ht by lia. change 0xff with (Z.ones 8) in Ht.
  rewrite Z.ones_spec_low, andb_true_r in Ht by lia. by replace (i - n + n) with i in Ht by lia.
Qed.

Lemma shiftr_land_zero v m n : 0 <= n ->
  (Z.land v (Z.shiftl m n) =? 0) = (Z.land (Z.shiftr v n) m =? 0).
Proof.
  intros Hn. rewrite <- shiftr_land_hi by done. apply eq_true_iff_eq. rewrite !Z.eqb_eq.
  split; [intros ->; apply Z.shiftr_0_l|]. intros E. apply Z.bits_inj'. intros i Hi. rewrite Z.bits_0.
  destruct (Z.lt_ge_cases i n).
  - rewrite Z.land_spec, Z.shiftl_spec_low by lia. apply andb_false_r.
  - assert (Z.testbit (Z.shiftr (Z.land v (Z.shiftl m n)) n) (i - n) = false) as Ht
      by (rewrite E; apply Z.bits_0).
    rewrite Z.shiftr_spec in Ht by lia. by replace (i - n + n) with i in Ht by lia.
Qed.

Lemma rt_ffs_table_eq v : is_u32 v -> rt_ffs_table v = Ok (__rt_ffs v).
Proof.
  intros Hv. unfold rt_ffs_table. destruct (Z.eqb_spec v 0) as [->|Hn]; [done|].
  pose proof (rt_ffs_lowest v Hv Hn) as Hs.
  assert (forall k j, lowest_bit v k -> j = k + 1 -> Ok j = Ok (__rt_ffs v)) as Hfin.
  { intros k j Hk ->. f_equal. pose proof (lowest_bit_unique _ _ _ Hs Hk). lia. }
  change 0xff00 with (Z.shiftl 0xff 8). change 0xff0000 with (Z.shiftl 0xff 16).
  change 0xff000000 with (Z.shiftl 0xff 24).
  rewrite !shiftr_land_zero, !shiftr_land_hi by lia.
  replace (Z.land v 0xff) with (Z.land (Z.shiftr v 0) 0xff) by (by rewrite Z.shiftr_0_r).
  pose proof (fun H => table_step v 0 ltac:(lia) ltac:(lia) H) as T0.
  pose proof (fun H => byte_zero v 0 ltac:(lia) H ltac:(lia)) as B0.
  destruct (Z.eqb_spec (Z.land (Z.shiftr v 0) 0xff) 0) as [E0|E0]; cbn [negb].
  2: { destruct (T0 E0) as [-> T]. rewrite bind_ret_l. apply (Hfin _ _ T). lia. }
  specialize (B0 E0). change (0 + 8) with 8 in B0.
  pose proof (fun H => table_step v 8 ltac:(lia) B0 H) as T1.
  destruct (Z.eqb_spec (Z.land (Z.shiftr v 8) 0xff) 0) as [E1|E1]; cbn [negb].
  2: { destruct (T1 E1) as [-> T]. rewrite bind_ret_l. apply (Hfin _ _ T). lia. }
  pose proof (byte_zero v 8 ltac:(lia) E1 B0) as B1. change (8 + 8) with 16 in B1.
  destruct (Z.eqb_spec (Z.land (Z.shiftr v 16) 0xff) 0) as [E2|E2]; cbn [negb].
  2: { destruct (table_step v 16 ltac:(lia) B1 E2) as [-> T].
       rewrite bind_ret_l. apply (Hfin _ _ T). lia. }
  pose proof (byte_zero v 16 ltac:(lia) E2 B1) as B2. change (16 + 8) with 24 in B2.
  destruct (table_step v 24 ltac:(lia) B2) as [-> T].
  { intros E3. pose proof (byte_zero v 24 ltac:(lia) E3 B2) as B3. apply Hn.
    apply Z.bits_inj'. intros i Hi. rewrite Z.bits_0.
    destruct (Z.lt_ge_cases i 32); [apply B3; lia|by apply u32_bits_high]. }
  rewrite bind_ret_l. apply (Hfin _ _ T). lia.
Qed.

(** ** The group as a function of the queues *)

Definition group_of (tab : list (list Z)) : Z :=
  foldr (fun q acc => 2 * acc + (match q with [] => 0 | _ => 1 end)) 0 tab.

Lemma group_of_nonneg tab : 0 <= group_of tab.
Proof.
  induction tab as [|q tab IH]; [done|]. cbn [group_of foldr]. fold (group_of tab).
  destruct q; lia.
Qed.

Lemma group_of_bit tab i : 0 <= i ->
  Z.testbit (group_of tab) i = match tab !! Z.to_nat i with Some (_ :: _) => true | _ => false end.
Proof.
  revert i. induction tab as [|q tab IH]; intros i Hi; [apply Z.bits_0|].
  cbn [group_of foldr]. fold (group_of tab).
  assert (2 * group_of tab + match q with [] => 0 | _ => 1 end
    = 2 * group_of tab + Z.b2z (match q with [] => false | _ => true end)) as -> by (by destruct q).
  destruct (Z.eq_dec i 0) as [->|Hn].
  - rewrite Z.testbit_0_r. by destruct q.
  - replace i with (Z.succ (i - 1)) at 1 by lia. rewrite Z.testbit_succ_r, IH by lia.
    replace (Z.to_nat i) with (S (Z.to_nat (i - 1))) by lia. done.
Qed.

Lemma group_of_bound tab : group_of tab < 2 ^ Z.of_nat (length tab).
Proof.
  induction tab as [|q tab IH]; [done|]. cbn [group_of foldr length]. fold (group_of tab).
  rewrite Nat2Z.inj_succ, Z.pow_succ_r by lia. destruct q; lia.
Qed.

Lemma bits_group tab g : 0 <= g ->
  (forall i, 0 <= i -> Z.testbit g i
     = match tab !! Z.to_nat i with Some (_ :: _) => true | _ => false end) -> g = group_of tab.
Proof. intros Hg H. apply Z.bits_inj'. intros i Hi. by rewrite H, group_of_bit. Qed.

(** Clearing the bit of an empty queue, setting the bit of a queue that gets a
    thread. *)
Lemma group_clear tab tab' p : tab' !! p = Some [] ->
  (forall i, i <> p -> match tab' !! i with Some (_ :: _) => true | _ => false end
                    = match tab !! i with Some (_ :: _) => true | _ => false end) ->
  Z.ldiff (group_of tab) (2 ^ Z.of_nat p) = group_of tab'.
Proof.
  intros Hp Hi. apply bits_group.
  { apply Z.ldiff_nonneg. left. apply group_of_nonneg. }
  intros i Hpos. rewrite Z.ldiff_spec, group_of_bit, Z.pow2_bits_eqb by lia.
  destruct (Z.eqb_spec (Z.of_nat p) i) as [<-|Hn].
  - rewrite Nat2Z.id, Hp. apply andb_false_r.
  - rewrite Hi by lia. apply andb_true_r.
Qed.

Lemma group_set tab p l t : tab !! p = Some l ->
  Z.lor (group_of tab) (2 ^ Z.of_nat p) = group_of (<[p := l ++ [t]]> tab).
Proof.
  intros Hp. apply bits_group.
  { apply Z.lor_nonneg. split; [apply group_of_nonneg|lia]. }
  intros i Hpos. rewrite Z.lor_spec, group_of_bit, Z.pow2_bits_eqb by lia.
  destruct (Z.eqb_spec (Z.of_nat p) i) as [<-|Hn].
  - rewrite Nat2Z.id, list_lookup_insert_eq by (by eapply lookup_lt_Some).
    rewrite orb_true_r. by destruct l.
  - rewrite list_lookup_insert_ne by lia. apply orb_false_r.
Qed.

(** The first queue that holds a thread, and its head. *)
Fixpoint top_ready (tab : list (list Z)) : option (nat * Z) :=
  match tab with
  | [] => None
  | (t :: _) :: _ => Some (O, t)
  | [] :: tab' => '(p, t) ← top_ready tab'; Some (S p, t)
  end.

Lemma top_ready_Some tab p t : top_ready tab = Some (p, t) <->
  (exists l, tab !! p = Some (t :: l)) /\ forall i, (i < p)%nat -> tab !! i = Some [].
Proof.
  revert p. induction tab as [|[|x q] tab IH]; intros p; cbn [top_ready].
  - split; [done|]. intros [[l H] _]. done.
  - destruct (top_ready tab) as [[p' t']|] eqn:E; cbn.
    + split.
      * intros [= <- <-]. destruct (proj1 (IH p')) as [[l Hl] Hi]; [done|].
        split; [by exists l|]. intros [|i] Hlt; [done|]. cbn. apply Hi. lia.
      * intros [[l Hl] Hi]. destruct p as [|p]; [done|].
        assert (Some (p', t') = Some (p, t)) as [= -> ->]; [|done].
        apply IH. split; [by exists l|]. intros i Hlt. apply (Hi (S i)). lia.
    + split; [done|]. intros [[l Hl] Hi]. destruct p as [|p]; [done|].
      assert (None = Some (p, t)) as [=]. apply IH. split; [by exists l|].
      intros i Hlt. apply (Hi (S i)). lia.
  - split.
    + intros [= <- <-]. split; [by exists q|]. lia.
    + intros [[l Hl] Hi]. destruct p as [|p]; [by injection Hl as -> ->|].
      specialize (Hi O ltac:(lia)). done.
Qed.

Lemma top_ready_None tab : top_ready tab = None <-> group_of tab = 0.
Proof.
  induction tab as [|[|x q] tab IH]; cbn [top_ready group_of foldr].
  - done.
  - fold (group_of tab). destruct (top_ready tab) as [[p t]|]; cbn.
    + split; [done|]. intros H. assert (group_of tab = 0) as H0 by lia. apply IH in H0. done.
    + split; [|done]. intros _. assert (group_of tab = 0) by (by apply IH). lia.
  - fold (group_of tab). pose proof (group_of_nonneg tab). split; [done|lia].
Qed.

(** The bit search finds that queue. *)
Lemma get_highest s : length (rt_thread_priority_table s) = 32%nat ->
  rt_thread_ready_priority_group s = group_of (rt_thread_priority_table s) ->
  _get_highest_priority_thread s =
    match top_ready (rt_thread_priority_table s) with
    | Some (p, t) => Ok (t, Z.of_nat p)
    | None => Fault OutOfBounds
    end.
Proof.
  intros Hlen Hg. unfold _get_highest_priority_thread. rewrite Hg.
  set (tab := rt_thread_priority_table s) in *.
  destruct (top_ready tab) as [[p t]|] eqn:E.
  - pose proof (proj1 (top_ready_Some tab p t) E) as [[l Hl] Hi].
    pose proof (group_of_bound tab) as Hb. rewrite Hlen in Hb. pose proof (group_of_nonneg tab).
    assert (group_of tab <> 0) as Hnz by (intros H0%top_ready_None; congruence).
    assert (lowest_bit (group_of tab) (Z.of_nat p)) as Hlow.
    { split; [lia|]. rewrite group_of_bit, Nat2Z.id, Hl by lia. split; [done|].
      intros i Hlt. rewrite group_of_bit by lia. by rewrite Hi by lia. }
    pose proof (rt_ffs_lowest (group_of tab) ltac:(unfold is_u32; lia) Hnz) as Hffs.
    rewrite (lowest_bit_unique _ _ _ Hffs Hlow).
    pose proof (lookup_lt_Some _ _ _ Hl). rewrite u32_id by mlia.
    by rewrite Nat2Z.id, Hl.
  - apply top_ready_None in E. rewrite E. change (u32 (__rt_ffs 0 - 1)) with 4294967295.
    rewrite lookup_ge_None_2; [done|]. rewrite Hlen. lia.
Qed.

(** ** The invariant of the lists

    [ex] is a thread taken out of all lists whose status is about to change;
    [None] between operations. *)
Definition prio_ok (th : rt_thread) : Prop :=
  0 <= current_priority th < RT_THREAD_PRIORITY_MAX
  /\ 0 <= init_priority th < RT_THREAD_PRIORITY_MAX
  /\ (number_mask th = 2 ^ current_priority th
      \/ number_mask th = 0 /\ (stat th = RT_THREAD_INIT \/ stat th = RT_THREAD_CLOSE)).

(** [t] is a thread with status [x]. *)
Definition has_stat (s : kstate) (t : Z) (x : thread_stat) : Prop :=
  exists th, threads s !! t = Some th /\ stat th = x.

Record lists_ok (ex : option Z) (s : kstate) : Prop := {
  lo_len : length (rt_thread_priority_table s) = 32%nat;
  lo_group : rt_thread_ready_priority_group s = group_of (rt_thread_priority_table s);
  lo_nodup : forall p l, rt_thread_priority_table s !! p = Some l -> NoDup l;
  lo_ready : forall p l t, rt_thread_priority_table s !! p = Some l -> t ∈ l ->
    ex <> Some t /\ exists th, threads s !! t = Some th /\ stat th = RT_THREAD_READY
                           /\ current_priority th = Z.of_nat p;
  lo_queued : forall t th, threads s !! t = Some th -> stat th = RT_THREAD_READY -> ex <> Some t ->
    exists l, rt_thread_priority_table s !! Z.to_nat (current_priority th) = Some l /\ t ∈ l;
  lo_wait : forall k l, wait_lists s !! k = Some l -> NoDup l
    /\ forall t, t ∈ l -> ex <> Some t /\ has_stat s t RT_THREAD_SUSPEND;
  lo_wait_one : forall k k' l l' t, wait_lists s !! k = Some l -> wait_lists s !! k' = Some l' ->
    t ∈ l -> t ∈ l' -> k = k';
  lo_defunct : NoDup (rt_thread_defunct s)
    /\ forall t, t ∈ rt_thread_defunct s -> ex <> Some t /\ has_stat s t RT_THREAD_CLOSE;
  lo_prio : forall t th, threads s !! t = Some th -> prio_ok th }.

(** The current thread is not queued and is the only running one. *)
Definition cur_ok (s : kstate) : Prop :=
  match rt_current_thread s with
  | None => forall t, ~ has_stat s t RT_THREAD_RUNNING
  | Some c => (exists th, threads s !! c = Some th /\ stat th <> RT_THREAD_READY
                       /\ stat th <> RT_THREAD_INIT)
              /\ forall t, has_stat s t RT_THREAD_RUNNING -> t = c
  end.

Record sched_ok (s : kstate) : Prop := {
  so_lists : lists_ok None s;
  so_cur : cur_ok s;
  so_lock : 0 <= rt_scheduler_lock_nest s }.

(** [t] is in no list. *)
Definition unlinked (t : Z) (s : kstate) : Prop :=
  (forall p l, rt_thread_priority_table s !! p = Some l -> t ∉ l)
  /\ (forall k l, wait_lists s !! k = Some l -> t ∉ l) /\ t ∉ rt_thread_defunct s.

Lemma linked_false t s : linked t s = false <-> unlinked t s.
Proof.
  unfold linked, unlinked. rewrite !orb_false_iff, bool_decide_eq_false.
  assert (existsb (fun l => bool_decide (t ∈ l)) (rt_thread_priority_table s) = false
    <-> forall p l, rt_thread_priority_table s !! p = Some l -> t ∉ l) as ->.
  { rewrite <- not_true_iff_false, existsb_exists. split.
    - intros H p l Hl Ht. apply H. exists l. split; [|by apply bool_decide_eq_true].
      apply list_elem_of_In. by eapply list_elem_of_lookup_2.
    - intros H (l & Hl%list_elem_of_In & Ht%bool_decide_eq_true).
      apply list_elem_of_lookup_1 in Hl as [p Hp]. by eapply H. }
  assert (existsb (fun kl : wait_list * list Z => bool_decide (t ∈ kl.2))
      (map_to_list (wait_lists s)) = false
    <-> forall k l, wait_lists s !! k = Some l -> t ∉ l) as ->; [|tauto].
  rewrite <- not_true_iff_false, existsb_exists. split.
  - intros H k l Hl Ht. apply H. exists (k, l). split; [|by apply bool_decide_eq_true].
    by apply list_elem_of_In, elem_of_map_to_list.
  - intros H ([k l] & Hl%list_elem_of_In%elem_of_map_to_list & Ht%bool_decide_eq_true).
    by eapply H.
Qed.

Lemma elem_of_unlink t x l : x ∈ unlink t l <-> x <> t /\ x ∈ l.
Proof. unfold unlink. by rewrite list_elem_of_filter. Qed.
Lemma unlink_notin t l : t ∉ l -> unlink t l = l.
Proof. apply filter_notin. Qed.
Lemma NoDup_unlink t l : NoDup l -> NoDup (unlink t l).
Proof. apply list.NoDup_filter. Qed.

Lemma lists_ok_unlinked t s : lists_ok (Some t) s -> unlinked t s.
Proof.
  intros H. split; [|split].
  - intros p l Hl Ht. by destruct (lo_ready _ _ H p l t Hl Ht) as [? _].
  - intros k l Hl Ht. by destruct (proj2 (lo_wait _ _ H k l Hl) t Ht) as [? _].
  - intros Ht. by destruct (proj2 (lo_defunct _ _ H) t Ht) as [? _].
Qed.

(** A thread of another status than the lists hold is in none of them. *)
Lemma stat_unlinked t s x : lists_ok None s -> has_stat s t x ->
  x = RT_THREAD_RUNNING \/ x = RT_THREAD_INIT -> unlinked t s.
Proof.
  intros H (th & Ht & Hx) Hor. split; [|split].
  - intros p l Hl Hin. destruct (lo_ready _ _ H p l t Hl Hin) as (_ & th' & E & ? & _).
    destruct Hor; congruence.
  - intros k l Hl Hin. destruct (proj2 (lo_wait _ _ H k l Hl) t Hin) as (_ & th' & E & ?).
    destruct Hor; congruence.
  - intros Hin. destruct (proj2 (lo_defunct _ _ H) t Hin) as (_ & th' & E & ?).
    destruct Hor; congruence.
Qed.

Lemma open_hole t s : lists_ok None s -> unlinked t s -> lists_ok (Some t) s.
Proof.
  intros [L G N R Q W W1 D P] (U1 & U2 & U3). split; try done.
  - intros p l t' Hl Ht. split; [intros [= <-]; by eapply U1|]. by eapply R.
  - intros t' th E Es _. by eapply Q.
  - intros k l Hl. split; [by eapply W|]. intros t' Ht. split; [intros [= <-]; by eapply U2|].
    by eapply W.
  - split; [apply D|]. intros t' Ht. split; [by intros [= <-]|]. by apply D.
Qed.

Lemma close_hole t s : lists_ok (Some t) s -> ~ has_stat s t RT_THREAD_READY -> lists_ok None s.
Proof.
  intros [L G N R Q W W1 D P] Hs. split; try done.
  - intros p l t' Hl Ht. split; [done|]. by eapply R.
  - intros t' th E Es _. eapply Q; try done. intros [= <-]. apply Hs. by exists th.
  - intros k l Hl. split; [by eapply W|]. intros t' Ht. split; [done|]. by eapply W.
  - split; [apply D|]. intros t' Ht. split; [done|]. by apply D.
Qed.

(** Changing, adding or dropping the thread taken out. *)
Lemma hole_threads m t s : lists_ok (Some t) s ->
  (forall t', t' <> t -> m !! t' = threads s !! t') ->
  (forall th, m !! t = Some th -> prio_ok th) -> lists_ok (Some t) (with_threads m s).
Proof.
  intros [L G N R Q W W1 D P] Hm Hp.
  assert (forall t', Some t <> Some t' -> m !! t' = threads s !! t') as He
    by (intros t' Hn; apply Hm; congruence).
  assert (forall t' x, Some t <> Some t' -> has_stat s t' x -> has_stat (with_threads m s) t' x) as Hh
    by (intros t' x Hn (th & E & Ex); exists th; cbn; by rewrite He).
  split; try done.
  - intros p l t' Hl Ht. destruct (R p l t' Hl Ht) as [Hn Hx]. split; [done|]. cbn. by rewrite He.
  - intros t' th E Es Hn. cbn in E. rewrite He in E by done. by eapply Q.
  - intros k l Hl. destruct (W k l Hl) as [Hnd Hw]. split; [done|].
    intros t' Ht. destruct (Hw t' Ht) as [Hn Hx]. split; [done|]. by apply Hh.
  - split; [apply D|]. intros t' Ht. destruct (proj2 D t' Ht) as [Hn Hx]. split; [done|]. by apply Hh.
  - intros t' th E. cbn in E. destruct (decide (t' = t)) as [->|Hn]; [by apply Hp|].
    rewrite Hm in E by done. by eapply P.
Qed.

Lemma hole_upd f t s : lists_ok (Some t) s ->
  (forall th, threads s !! t = Some th -> prio_ok th -> prio_ok (f th)) ->
  lists_ok (Some t) (upd_thread f t s).
Proof.
  intros H Hf. apply hole_threads; [done|intros t' Hn; by apply lookup_alter_ne|].
  intros th. rewrite lookup_alter_eq. intros (th0 & E & ->)%fmap_Some. eapply Hf; [done|].
  by apply (lo_prio _ _ H t).
Qed.

(** Changing what the lists do not depend on. *)
Lemma lists_frame ex f t s : lists_ok ex s ->
  (forall th, stat (f th) = stat th /\ current_priority (f th) = current_priority th
     /\ init_priority (f th) = init_priority th /\ number_mask (f th) = number_mask th) ->
  lists_ok ex (upd_thread f t s).
Proof.
  intros [L G N R Q W W1 D P] Hf.
  assert (forall t', exists g, threads (upd_thread f t s) !! t' = g <$> threads s !! t'
    /\ forall th, stat (g th) = stat th /\ current_priority (g th) = current_priority th
       /\ init_priority (g th) = init_priority th /\ number_mask (g th) = number_mask th) as He.
  { intros t'. cbn. destruct (decide (t' = t)) as [->|Hn].
    - exists f. by rewrite lookup_alter_eq.
    - exists id. rewrite lookup_alter_ne by done. by rewrite option_fmap_id. }
  assert (forall t' x, has_stat s t' x -> has_stat (upd_thread f t s) t' x) as Hh.
  { intros t' x (th & E & Ex). destruct (He t') as (g & Eg & Hg). exists (g th).
    rewrite Eg, E. split; [done|]. by rewrite (proj1 (Hg th)). }
  split; try done.
  - intros p l t' Hl Ht. destruct (R p l t' Hl Ht) as (Hn & th & E & Es & Ep). split; [done|].
    destruct (He t') as (g & Eg & Hg). exists (g th). rewrite Eg, E.
    destruct (Hg th) as (E1 & E2 & _). split; [done|]. split; congruence.
  - intros t' th E Es Hn. destruct (He t') as (g & Eg & Hg). rewrite Eg in E.
    apply fmap_Some in E as (th0 & E & ->). destruct (Hg th0) as (E1 & E2 & _). rewrite E2.
    eapply Q; try done. congruence.
  - intros k l Hl. destruct (W k l Hl) as [Hnd Hw]. split; [done|].
    intros t' Ht. destruct (Hw t' Ht) as [Hn Hx]. split; [done|]. by apply Hh.
  - split; [apply D|]. intros t' Ht. destruct (proj2 D t' Ht) as [Hn Hx]. split; [done|]. by apply Hh.
  - intros t' th E. destruct (He t') as (g & Eg & Hg). rewrite Eg in E.
    apply fmap_Some in E as (th0 & E & ->). destruct (Hg th0) as (E1 & E2 & E3 & E4).
    unfold prio_ok. rewrite E1, E2, E3, E4. by eapply P.
Qed.

(** *** Taking a thread out, putting one in *)

Definition removed (t : Z) (s : kstate) : kstate :=
  let tab := unlink t <$> rt_thread_priority_table s in
  with_ready tab (group_of tab) (rt_list_remove t s).

(** Another queue than the thread's own does not hold it. *)
Lemma other_queue ex t th s i l : lists_ok ex s -> threads s !! t = Some th ->
  rt_thread_priority_table s !! i = Some l -> i <> Z.to_nat (current_priority th) -> t ∉ l.
Proof.
  intros H Ht Hl Hi Hin. destruct (lo_ready _ _ H i l t Hl Hin) as (_ & th' & E & _ & Ep).
  rewrite Ht in E. injection E as <-. lia.
Qed.

Lemma unlink_same_shape ex t th s : lists_ok ex s -> threads s !! t = Some th ->
  forall i, i <> Z.to_nat (current_priority th) ->
  (unlink t <$> rt_thread_priority_table s) !! i = rt_thread_priority_table s !! i.
Proof.
  intros H Ht i Hi. rewrite list_lookup_fmap.
  destruct (rt_thread_priority_table s !! i) as [l|] eqn:E; [|done]. cbn. f_equal.
  apply unlink_notin. by eapply other_queue.
Qed.

Lemma removed_ok ex t s : lists_ok ex s -> ex = None \/ ex = Some t -> lists_ok (Some t) (removed t s).
Proof.
  intros [L G N R Q W W1 D P] Hex. split; cbn.
  - by rewrite length_fmap.
  - done.
  - intros p l. rewrite list_lookup_fmap. intros (l0 & E & ->)%fmap_Some.
    eapply NoDup_unlink, N, E.
  - intros p l t'. rewrite list_lookup_fmap. intros (l0 & E & ->)%fmap_Some.
    rewrite elem_of_unlink. intros [Hn Hin]. split; [congruence|]. by eapply R.
  - intros t' th E Es Hn. destruct (Q t' th E Es) as (l & El & Hin); [naive_solver|].
    exists (unlink t l). rewrite list_lookup_fmap, El. split; [done|].
    apply elem_of_unlink. split; [congruence|done].
  - intros k l. rewrite lookup_fmap. intros (l0 & E & ->)%fmap_Some.
    destruct (W k l0 E) as [Hnd Hw]. split; [by apply NoDup_unlink|].
    intros t'. rewrite elem_of_unlink. intros [Hn Hin]. split; [congruence|]. by apply Hw.
  - intros k k' l l' t'. rewrite !lookup_fmap. intros (l0 & E & ->)%fmap_Some
      (l0' & E' & ->)%fmap_Some. rewrite !elem_of_unlink. intros [_ ?] [_ ?]. by eapply W1.
  - split; [apply NoDup_unlink, D|]. intros t'. rewrite elem_of_unlink. intros [Hn Hin].
    split; [congruence|]. by apply D.
  - done.
Qed.

(** The mask of a started thread is the bit of its priority. *)
Lemma started_mask th : prio_ok th -> stat th <> RT_THREAD_INIT -> stat th <> RT_THREAD_CLOSE ->
  number_mask th = 2 ^ current_priority th.
Proof. intros (_ & _ & [?|[_ [?|?]]]); done. Qed.

(** Without a mask the thread is in no queue. *)
Lemma no_mask_tab ex t th s : lists_ok ex s -> threads s !! t = Some th ->
  stat th = RT_THREAD_INIT \/ stat th = RT_THREAD_CLOSE ->
  unlink t <$> rt_thread_priority_table s = rt_thread_priority_table s.
Proof.
  intros H Ht Hs. apply list_eq. intros i. rewrite list_lookup_fmap.
  destruct (rt_thread_priority_table s !! i) as [l|] eqn:E; [|done]. cbn. f_equal.
  apply unlink_notin. intros Hin. destruct (lo_ready _ _ H i l t E Hin) as (_ & th' & E' & ? & _).
  destruct Hs; congruence.
Qed.

Lemma remove_ok ex t th s : lists_ok ex s -> ex = None \/ ex = Some t ->
  threads s !! t = Some th -> rt_schedule_remove_thread t s = Ok (removed t s).
Proof.
  intros H Hex Ht. pose proof (unlink_same_shape _ _ _ _ H Ht) as Hsh.
  unfold rt_schedule_remove_thread, get_thread. rewrite Ht, bind_ret_l.
  destruct (lo_prio _ _ H t th Ht) as (Hp & _ & Hm).
  unfold RT_THREAD_PRIORITY_MAX in Hp. set (p := Z.to_nat (current_priority th)) in *.
  replace (current_priority th) with (Z.of_nat p) in Hm by lia. cbn [rt_list_remove with_ready with_waits
    with_defunct rt_thread_priority_table rt_thread_ready_priority_group]. rewrite (lo_group _ _ H).
  destruct (lookup_lt_is_Some_2 (unlink t <$> rt_thread_priority_table s) p) as [l El].
  { rewrite length_fmap, (lo_len _ _ H). lia. }
  rewrite El. unfold removed. destruct l as [|x l].
  - do 2 f_equal. destruct Hm as [->|[-> Hs]].
    + apply group_clear; [done|]. intros i Hi. by rewrite Hsh.
    + by rewrite Z.ldiff_0_r, (no_mask_tab _ _ _ _ H Ht Hs).
  - f_equal. unfold rt_list_remove, with_ready. cbn. f_equal. rewrite (lo_group _ _ H).
    apply bits_group; [apply group_of_nonneg|]. intros i Hi.
    rewrite group_of_bit by done. destruct (decide (Z.to_nat i = p)) as [->|Hn]; [|by rewrite Hsh].
    rewrite El. pose proof El as El'. rewrite list_lookup_fmap in El'.
    apply fmap_Some in El' as ([|y l0] & -> & E); [|done]. done.
Qed.

Definition inserted (t : Z) (p : nat) (s : kstate) : kstate :=
  let tab := alter (fun l => l ++ [t]) p (rt_thread_priority_table s) in
  set_stat RT_THREAD_READY t (with_ready tab (group_of tab) s).

(** The queue an inserted thread goes to. *)
Lemma alter_snoc (tab : list (list Z)) p l t : tab !! p = Some l ->
  alter (fun l => l ++ [t]) p tab = <[p := l ++ [t]]> tab.
Proof.
  intros El. apply list_eq. intros i. destruct (decide (i = p)) as [->|Hn].
  - rewrite list_lookup_alter_eq, list_lookup_insert_eq, El; [done|by eapply lookup_lt_Some].
  - by rewrite list_lookup_alter_ne, list_lookup_insert_ne by done.
Qed.

Lemma elem_of_snoc_tab (tab : list (list Z)) p l t i x : tab !! p = Some l ->
  (exists l', <[p := l ++ [t]]> tab !! i = Some l' /\ x ∈ l')
  <-> (x = t /\ i = p) \/ exists l', tab !! i = Some l' /\ x ∈ l'.
Proof.
  intros El. destruct (decide (i = p)) as [->|Hn].
  - rewrite list_lookup_insert_eq, El by (by eapply lookup_lt_Some). split.
    + intros (l' & [= <-] & [Hin| ->%list_elem_of_singleton]%elem_of_app); [right; by exists l|by left].
    + intros [[-> _]|(l' & [= <-] & Hin)]; exists (l ++ [t]); split; try done;
        apply elem_of_app; [right; by apply list_elem_of_singleton|by left].
  - rewrite list_lookup_insert_ne by done. split; [by right|]. intros [[_ ->]|H]; done.
Qed.

Lemma own_queue ex t th s : lists_ok ex s -> threads s !! t = Some th ->
  exists l, rt_thread_priority_table s !! Z.to_nat (current_priority th) = Some l.
Proof.
  intros H Ht. destruct (lo_prio _ _ H t th Ht) as (Hp & _). unfold RT_THREAD_PRIORITY_MAX in Hp.
  apply lookup_lt_is_Some_2. rewrite (lo_len _ _ H). lia.
Qed.

Lemma insert_eq t th s : lists_ok (Some t) s -> threads s !! t = Some th ->
  number_mask th = 2 ^ current_priority th -> rt_current_thread s <> Some t ->
  rt_schedule_insert_thread t s = Ok (inserted t (Z.to_nat (current_priority th)) s).
Proof.
  intros H Ht Hm Hc. destruct (own_queue _ _ _ _ H Ht) as [l El].
  destruct (lo_prio _ _ H t th Ht) as (Hp & _).
  unfold rt_schedule_insert_thread, get_thread. rewrite Ht, bind_ret_l.
  rewrite bool_decide_eq_false_2, El by done.
  rewrite (proj2 (linked_false t s) (lists_ok_unlinked _ _ H)). unfold inserted.
  rewrite (alter_snoc _ _ _ _ El). do 3 f_equal. rewrite (lo_group _ _ H), Hm.
  rewrite <- (Z2Nat.id (current_priority th)) at 1 by lia. by apply group_set.
Qed.

Lemma inserted_ok t th s : lists_ok (Some t) s -> threads s !! t = Some th ->
  number_mask th = 2 ^ current_priority th ->
  lists_ok None (inserted t (Z.to_nat (current_priority th)) s).
Proof.
  intros H Ht Hm. destruct (own_queue _ _ _ _ H Ht) as [l El].
  destruct (lo_prio _ _ H t th Ht) as (Hp & Hi & _).
  pose proof (lists_ok_unlinked _ _ H) as (Hu & _). set (p := Z.to_nat (current_priority th)) in *.
  pose proof (hole_upd (with_stat RT_THREAD_READY) t s H) as [L _ _ R Q W _ D P].
  { intros th' E' Hp'. rewrite Ht in E'. injection E' as <-. split; [done|]. split; [done|].
    by left. }
  unfold inserted. rewrite (alter_snoc _ _ _ _ El).
  pose proof (elem_of_snoc_tab (rt_thread_priority_table s) p l t) as Hel.
  split; cbn in *; try done.
  - by rewrite length_insert.
  - intros i l' Hl'. destruct (decide (i = p)) as [->|Hn].
    + rewrite list_lookup_insert_eq in Hl' by (by eapply lookup_lt_Some). injection Hl' as <-.
      apply list.NoDup_app. split; [by eapply lo_nodup|]. split; [|apply list.NoDup_singleton].
      intros x Hx ->%list_elem_of_singleton. by eapply Hu.
    + rewrite list_lookup_insert_ne in Hl' by done. by eapply lo_nodup.
  - intros i l' t' Hl' Hin. split; [done|].
    destruct (proj1 (Hel i t' El)) as [[-> ->]|(l0 & E & Hin')]; [by exists l'| |by eapply R].
    rewrite lookup_alter_eq, Ht. exists (with_stat RT_THREAD_READY th). cbn. split; [done|].
    split; [done|lia].
  - intros t' th' E Es _. apply (Hel _ t' El). destruct (decide (t' = t)) as [->|Hn].
    + left. rewrite lookup_alter_eq, Ht in E. by injection E as <-.
    + right. apply Q; [done|done|congruence].
  - intros k l' Hl'. destruct (W k l' Hl') as [Hnd Hw]. split; [done|]. intros t' Hin.
    split; [done|]. by apply Hw.
  - by eapply lo_wait_one.
  - split; [apply D|]. intros t' Hin. split; [done|]. by apply D.
Qed.

(** *** A round of the scheduler against a reference without bit groups *)

Definition runs (s : kstate) (t : Z) : option Z :=
  match threads s !! t with
  | Some th => if bool_decide (stat th = RT_THREAD_RUNNING) then Some (current_priority th) else None
  | None => None
  end.

(** The current thread goes to the end of its queue if it can still run, and
    the head of the first queue is taken; the current thread stays if it can
    run and all queues up to its priority are empty. *)
Definition schedule_ref (s : kstate) : kstate :=
  match rt_current_thread s, top_ready (rt_thread_priority_table s) with
  | Some cur, Some (p, to) =>
      if negb (rt_scheduler_lock_nest s =? 0) then s
      else match runs s cur with
           | Some prio =>
               if prio <? Z.of_nat p then s
               else
                 let tab := alter tail p (alter (fun l => l ++ [cur]) (Z.to_nat prio)
                              (rt_thread_priority_table s)) in
                 with_current (Some to) (Z.of_nat p) (with_ready tab (group_of tab)
                   (set_stat RT_THREAD_RUNNING to (set_stat RT_THREAD_READY cur s)))
           | None =>
               let tab := alter tail p (rt_thread_priority_table s) in
               with_current (Some to) (Z.of_nat p) (with_ready tab (group_of tab)
                 (set_stat RT_THREAD_RUNNING to s))
           end
  | _, _ => s
  end.

Lemma kstate_eta s : mkK (threads s) (thread_objects s) (rt_thread_priority_table s)
  (rt_thread_ready_priority_group s) (wait_lists s) (rt_thread_defunct s) (rt_current_thread s)
  (rt_current_priority s) (rt_scheduler_lock_nest s) (rt_interrupt_nest s) (ktimers s) = s.
Proof. by destruct s. Qed.

Lemma unlink_all_waits t s : (forall k l, wait_lists s !! k = Some l -> t ∉ l) ->
  unlink t <$> wait_lists s = wait_lists s.
Proof.
  intros H. apply map_eq. intros k. rewrite lookup_fmap.
  destruct (wait_lists s !! k) as [l|] eqn:E; [|done]. cbn. f_equal. apply unlink_notin. by eapply H.
Qed.

Lemma unlink_all_tab t (tab : list (list Z)) : (forall p l, tab !! p = Some l -> t ∉ l) ->
  unlink t <$> tab = tab.
Proof.
  intros H. apply list_eq. intros k. rewrite list_lookup_fmap.
  destruct (tab !! k) as [l|] eqn:E; [|done]. cbn. f_equal. apply unlink_notin. by eapply H.
Qed.

Lemma removed_id ex t s : lists_ok ex s -> unlinked t s -> removed t s = s.
Proof.
  intros H (U1 & U2 & U3). unfold removed, rt_list_remove, with_ready, with_waits, with_defunct. cbn.
  rewrite unlink_all_tab, unlink_all_waits, unlink_notin, <- (lo_group _ _ H) by done.
  apply kstate_eta.
Qed.

(** Taking the head of a queue. *)
Lemma removed_head ex p to l s : lists_ok ex s ->
  rt_thread_priority_table s !! p = Some (to :: l) ->
  removed to s = with_ready (alter tail p (rt_thread_priority_table s))
                   (group_of (alter tail p (rt_thread_priority_table s))) s.
Proof.
  intros H Hl. destruct (lo_ready _ _ H p _ to Hl ltac:(by left)) as (_ & th & Ht & Hs & Hp).
  assert (unlink to <$> rt_thread_priority_table s = alter tail p (rt_thread_priority_table s)) as E.
  { apply list_eq. intros i. destruct (decide (i = p)) as [->|Hn].
    - rewrite list_lookup_alter_eq, list_lookup_fmap, Hl. cbn. f_equal. apply remove_head.
      pose proof (lo_nodup _ _ H p _ Hl) as N. by apply list.NoDup_cons in N as [? _].
    - rewrite list_lookup_alter_ne by done. eapply unlink_same_shape; [done|done|lia]. }
  unfold removed. rewrite E. unfold rt_list_remove, with_ready, with_waits, with_defunct. cbn.
  rewrite unlink_all_waits, unlink_notin; [done| |].
  - intros Hin. destruct (proj2 (lo_defunct _ _ H) to Hin) as (_ & th' & E' & ?). congruence.
  - intros k l' Hl' Hin. destruct (proj2 (lo_wait _ _ H k l' Hl') to Hin) as (_ & th' & E' & ?).
    congruence.
Qed.

Lemma set_stat_id t th s : threads s !! t = Some th -> set_stat (stat th) t s = s.
Proof.
  intros Ht. unfold set_stat, upd_thread, with_threads.
  assert (alter (with_stat (stat th)) t (threads s) = threads s) as ->; [|apply kstate_eta].
  apply map_eq. intros x. destruct (decide (x = t)) as [->|Hn].
  - rewrite lookup_alter_eq, Ht. by destruct th.
  - by rewrite lookup_alter_ne.
Qed.

(** What the lists depend on. *)
Lemma lists_ext ex s s' : threads s' = threads s ->
  rt_thread_priority_table s' = rt_thread_priority_table s ->
  rt_thread_ready_priority_group s' = rt_thread_ready_priority_group s ->
  wait_lists s' = wait_lists s -> rt_thread_defunct s' = rt_thread_defunct s ->
  lists_ok ex s -> lists_ok ex s'.
Proof.
  intros E1 E2 E3 E4 E5 [L G N R Q W W1 D P].
  split; unfold has_stat in *; rewrite ?E1, ?E2, ?E3, ?E4, ?E5; done.
Qed.

Lemma lists_current ex c p s : lists_ok ex s -> lists_ok ex (with_current c p s).
Proof. by apply lists_ext. Qed.

(** Switching to the head of a queue from a state whose lists are in order. *)
Lemma switch_to p to l c s : lists_ok None s -> rt_thread_priority_table s !! p = Some (to :: l) ->
  rt_current_thread s = c ->
  exists s', rt_schedule_remove_thread to s = Ok s'
  /\ set_stat RT_THREAD_RUNNING to s'
     = with_ready (alter tail p (rt_thread_priority_table s))
         (group_of (alter tail p (rt_thread_priority_table s))) (set_stat RT_THREAD_RUNNING to s)
  /\ lists_ok None (set_stat RT_THREAD_RUNNING to s').
Proof.
  intros H Hl Hc. destruct (lo_ready _ _ H p _ to Hl ltac:(by left)) as (_ & th & Ht & Hs & Hp).
  exists (removed to s). split; [eapply remove_ok; try done; by left|].
  split; [by rewrite (removed_head _ _ _ _ _ H Hl)|].
  eapply (close_hole to).
  - apply hole_upd; [by eapply removed_ok; [|left]|]. intros th' E' (P1 & P2 & P3).
    cbn in E'. rewrite Ht in E'. injection E' as <-. split; [done|]. split; [done|]. left.
    destruct P3 as [?|[_ [?|?]]]; [done|congruence|congruence].
  - intros (th' & E' & Es). cbn in E'. rewrite lookup_alter_eq, Ht in E'. injection E' as <-. done.
Qed.

Lemma top_not_current s cur p to : sched_ok s -> rt_current_thread s = Some cur ->
  top_ready (rt_thread_priority_table s) = Some (p, to) ->
  exists l, rt_thread_priority_table s !! p = Some (to :: l) /\ to <> cur /\ Z.of_nat p < 256.
Proof.
  intros [H C _] Hc Ht. apply top_ready_Some in Ht as [[l Hl] _]. exists l. split; [done|].
  destruct (lo_ready _ _ H p _ to Hl ltac:(by left)) as (_ & th & E & Es & Hp). split.
  - intros ->. unfold cur_ok in C. rewrite Hc in C. destruct C as [(th' & E' & ? & _) _]. congruence.
  - apply lookup_lt_Some in Hl. rewrite (lo_len _ _ H) in Hl. lia.
Qed.

(** The current thread stays. *)
Lemma schedule_stays s cur th p to : sched_ok s -> rt_current_thread s = Some cur ->
  threads s !! cur = Some th -> stat th = RT_THREAD_RUNNING ->
  top_ready (rt_thread_priority_table s) = Some (p, to) -> rt_scheduler_lock_nest s = 0 ->
  current_priority th < Z.of_nat p -> rt_schedule s = Ok s.
Proof.
  intros [H C _] Hc Ht Hs Htop Hl Hlt. unfold rt_schedule. rewrite Hl. cbn [Z.eqb negb].
  rewrite (lo_group _ _ H), (get_highest s (lo_len _ _ H) (lo_group _ _ H)), Htop.
  assert (group_of (rt_thread_priority_table s) <> 0) as Hnz
    by (intros E%top_ready_None; congruence).
  rewrite (proj2 (Z.eqb_neq _ _) Hnz), bind_ret_l, Hc. unfold get_thread. rewrite Ht, bind_ret_l.
  unfold choose. rewrite bool_decide_eq_true_2, (proj2 (Z.ltb_lt _ _) Hlt), Z.eqb_refl by done. cbn [negb].
  rewrite (remove_ok None cur th); [|done|by left|done]. rewrite bind_ret_l.
  rewrite (removed_id None); [|done|eapply stat_unlinked; [done|by exists th|by left]].
  f_equal. rewrite <- Hs. by apply set_stat_id.
Qed.

(** It is switched away from. *)
Lemma schedule_switches s cur th p to : sched_ok s -> rt_current_thread s = Some cur ->
  threads s !! cur = Some th -> top_ready (rt_thread_priority_table s) = Some (p, to) ->
  rt_scheduler_lock_nest s = 0 ->
  ~ (stat th = RT_THREAD_RUNNING /\ current_priority th < Z.of_nat p) ->
  rt_schedule s = Ok (schedule_ref s) /\ lists_ok None (schedule_ref s).
Proof.
  intros Hok Hc Ht Htop Hl Hge. destruct (top_not_current _ _ _ _ Hok Hc Htop) as (l & Hq & Hne & Hp).
  destruct Hok as [H C _].
  pose proof (started_mask th (lo_prio _ _ H cur th Ht)) as Hmask.
  unfold rt_schedule, schedule_ref, runs. rewrite Hl, Hc, Htop, Ht. cbn [Z.eqb negb].
  rewrite (lo_group _ _ H), (get_highest s (lo_len _ _ H) (lo_group _ _ H)), Htop.
  assert (group_of (rt_thread_priority_table s) <> 0) as Hnz
    by (intros E%top_ready_None; congruence).
  rewrite (proj2 (Z.eqb_neq _ _) Hnz), bind_ret_l. unfold get_thread. rewrite Ht, bind_ret_l.
  unfold choose. rewrite u8_id by mlia.
  set (s1 := with_current (Some to) (Z.of_nat p) s).
  assert (lists_ok None s1) as H1 by (by apply lists_current).
  case_bool_decide as Hr.
  - rewrite (proj2 (Z.ltb_ge (current_priority th) (Z.of_nat p)))
      by (apply Z.nlt_ge; intros ?; by apply Hge).
    rewrite (proj2 (Z.eqb_neq _ _) Hne). cbn [negb].
    assert (lists_ok (Some cur) s1) as H2.
    { apply open_hole; [done|]. eapply stat_unlinked; [done|by exists th|by left]. }
    fold s1. rewrite (insert_eq cur th s1 H2 Ht) by (cbn; congruence || (apply Hmask; congruence)).
    rewrite bind_ret_l. set (q := Z.to_nat (current_priority th)).
    pose proof (inserted_ok cur th s1 H2 Ht ltac:(apply Hmask; congruence)) as H3. fold q in H3.
    set (s2 := inserted cur q s1) in *.
    assert (exists l', rt_thread_priority_table s2 !! p = Some (to :: l')) as [l' Hq'].
    { cbn. destruct (decide (p = q)) as [->|Hn].
      - rewrite list_lookup_alter_eq, Hq. cbn. by eexists.
      - rewrite list_lookup_alter_ne by done. by exists l. }
    destruct (switch_to p to l' (Some to) s2 H3 Hq' eq_refl) as (s' & -> & E & Hok').
    rewrite bind_ret_l, E in *. done.
  - rewrite (proj2 (Z.eqb_neq _ _) Hne). cbn [negb]. rewrite bind_ret_l. fold s1.
    destruct (switch_to p to l (Some to) s1 H1 Hq eq_refl) as (s' & -> & E & Hok').
    rewrite bind_ret_l, E in *. done.
Qed.

Lemma has_stat_set x t s t' y : has_stat (set_stat x t s) t' y ->
  t' = t /\ y = x \/ t' <> t /\ has_stat s t' y.
Proof.
  intros (th & E & Ey). cbn in E. destruct (decide (t' = t)) as [->|Hn].
  - rewrite lookup_alter_eq in E. apply fmap_Some in E as (th0 & E & ->). by left.
  - rewrite lookup_alter_ne in E by done. right. split; [done|]. by exists th.
Qed.

Lemma schedule_ref_cur s : sched_ok s -> cur_ok (schedule_ref s).
Proof.
  intros [H C Hl]. unfold schedule_ref. destruct (rt_current_thread s) as [cur|] eqn:Hc; [|done].
  destruct (top_ready (rt_thread_priority_table s)) as [[p to]|] eqn:Htop; [|done].
  destruct (top_not_current s cur p to) as (l & Hq & Hne & _); [by split|done|done|].
  destruct (negb _); [done|]. pose proof C as C'. unfold cur_ok in C'. rewrite Hc in C'.
  destruct C' as [(th & Ht & Hnr & Hni) Honly]. unfold runs. rewrite Ht.
  destruct (lo_ready _ _ H p _ to Hq ltac:(by left)) as (_ & th' & E & Es & _).
  case_bool_decide as Hr; [destruct (_ <? _); [done|]|]; unfold cur_ok;
    cbn [with_current rt_current_thread]; (split;
    [eexists; cbn; rewrite lookup_alter_eq, ?lookup_alter_ne, E by done; split; [done|done]|]);
    intros t Hst.
  - change (has_stat (set_stat RT_THREAD_RUNNING to (set_stat RT_THREAD_READY cur s)) t RT_THREAD_RUNNING) in Hst.
    apply has_stat_set in Hst as [[-> _]|[Hn Hst]]; [done|].
    apply has_stat_set in Hst as [[_ [=]]|[Hn' Hst]]. by apply Honly in Hst.
  - change (has_stat (set_stat RT_THREAD_RUNNING to s) t RT_THREAD_RUNNING) in Hst.
    apply has_stat_set in Hst as [[-> _]|[Hn Hst]]; [done|].
    destruct (Honly t Hst). destruct Hst as (th0 & E0 & Es0). congruence.
Qed.

Lemma schedule_ref_lock s : rt_scheduler_lock_nest (schedule_ref s) = rt_scheduler_lock_nest s.
Proof.
  unfold schedule_ref. destruct (rt_current_thread s); [|done].
  destruct (top_ready _) as [[p to]|]; [|done]. destruct (negb _); [done|].
  destruct (runs s z) as [prio|]; [|done]. by destruct (prio <? _).
Qed.

Lemma rt_schedule_ok s c : sched_ok s -> rt_current_thread s = Some c ->
  rt_schedule s = Ok (schedule_ref s) /\ sched_ok (schedule_ref s).
Proof.
  intros Hok Hc. pose proof (schedule_ref_cur s Hok) as Hcur. pose proof (schedule_ref_lock s) as Hlk.
  pose proof (so_cur _ Hok) as C. unfold cur_ok in C. rewrite Hc in C.
  destruct C as [(th & Ht & Hnr & Hni) _].
  destruct (Z.eq_dec (rt_scheduler_lock_nest s) 0) as [Hl|Hl].
  2: { unfold rt_schedule, schedule_ref. rewrite Hc, (proj2 (Z.eqb_neq _ 0) Hl). cbn [negb].
       by destruct (top_ready _) as [[p to]|]. }
  destruct (top_ready (rt_thread_priority_table s)) as [[p to]|] eqn:Htop.
  2: { unfold rt_schedule, schedule_ref. rewrite Hc, Htop, Hl. cbn [Z.eqb negb].
       rewrite (lo_group _ _ (so_lists _ Hok)), (proj1 (top_ready_None _) Htop). done. }
  assert (rt_schedule s = Ok (schedule_ref s) /\ lists_ok None (schedule_ref s)) as [E L].
  { destruct (decide (stat th = RT_THREAD_RUNNING /\ current_priority th < Z.of_nat p)) as [[Hr Hlt]|Hge];
      [|by eapply schedule_switches].
    rewrite (schedule_stays s c th p to) by done. unfold schedule_ref, runs. rewrite Hc, Htop, Ht, Hl.
    rewrite bool_decide_eq_true_2, (proj2 (Z.ltb_lt _ _) Hlt) by done. split; [done|].
    apply Hok. }
  split; [done|]. split; [done|done|]. rewrite Hlk. apply Hok.
Qed.

(** *** Moving threads between the lists *)

Lemma sched_ext s s' : threads s' = threads s ->
  rt_thread_priority_table s' = rt_thread_priority_table s ->
  rt_thread_ready_priority_group s' = rt_thread_ready_priority_group s ->
  wait_lists s' = wait_lists s -> rt_thread_defunct s' = rt_thread_defunct s ->
  rt_current_thread s' = rt_current_thread s -> 0 <= rt_scheduler_lock_nest s' ->
  sched_ok s -> sched_ok s'.
Proof.
  intros E1 E2 E3 E4 E5 E6 Hl [L C _]. split; [by eapply lists_ext| |done].
  unfold cur_ok, has_stat in *. by rewrite E1, E6.
Qed.

(** Only thread [t] changes, and not to a status the current thread, or another
    one, may not have. *)
Lemma cur_change s s' t : cur_ok s ->
  (forall t', t' <> t -> threads s' !! t' = threads s !! t') ->
  rt_current_thread s' = rt_current_thread s ->
  (if bool_decide (rt_current_thread s = Some t)
   then exists th, threads s' !! t = Some th /\ stat th <> RT_THREAD_READY /\ stat th <> RT_THREAD_INIT
   else forall th, threads s' !! t = Some th -> stat th <> RT_THREAD_RUNNING) ->
  cur_ok s'.
Proof.
  intros C Ho Ec Hx. unfold cur_ok in *. rewrite Ec.
  assert (forall t' y, t' <> t -> has_stat s' t' y -> has_stat s t' y) as Hh
    by (intros t' y Hn (th' & E & Ey); rewrite Ho in E by done; by exists th').
  case_bool_decide as Hb.
  - rewrite Hb in *. split; [done|]. intros t' Hst.
    destruct (decide (t' = t)) as [->|Hn]; [done|]. by apply C, Hh.
  - destruct (rt_current_thread s) as [c|].
    + destruct C as [(thc & Hc & H1 & H2) H3]. assert (c <> t) as Hn by congruence.
      split; [exists thc; by rewrite Ho|]. intros t' Hst.
      destruct (decide (t' = t)) as [->|Hn']; [|by apply H3, Hh].
      destruct Hst as (th & E & Es). by destruct (Hx th E).
    + intros t' Hst. destruct (decide (t' = t)) as [->|Hn]; [|by eapply C, Hh].
      destruct Hst as (th & E & Es). by destruct (Hx th E).
Qed.

(** [rt_schedule_insert_thread] in full. *)
Definition made_ready (t : Z) (s : kstate) : kstate :=
  if bool_decide (rt_current_thread s = Some t) then set_stat RT_THREAD_RUNNING t s
  else match threads s !! t with
       | Some th => inserted t (Z.to_nat (current_priority th)) s
       | None => s
       end.
Definition ready_stat (t : Z) (s : kstate) : thread_stat :=
  if bool_decide (rt_current_thread s = Some t) then RT_THREAD_RUNNING else RT_THREAD_READY.

Record same_but_lists (s s' : kstate) : Prop := {
  sb_objects : thread_objects s' = thread_objects s;
  sb_defunct : rt_thread_defunct s' = rt_thread_defunct s;
  sb_waits : wait_lists s' = wait_lists s;
  sb_current : rt_current_thread s' = rt_current_thread s;
  sb_lock : rt_scheduler_lock_nest s' = rt_scheduler_lock_nest s;
  sb_nest : rt_interrupt_nest s' = rt_interrupt_nest s;
  sb_timers : ktimers s' = ktimers s }.

Lemma made_ready_frame t s : same_but_lists s (made_ready t s).
Proof. unfold made_ready. case_bool_decide; [done|]. by destruct (threads s !! t). Qed.

Lemma made_ready_threads t th s : threads s !! t = Some th ->
  threads (made_ready t s) = alter (with_stat (ready_stat t s)) t (threads s).
Proof. intros Ht. unfold made_ready, ready_stat. case_bool_decide; [done|]. by rewrite Ht. Qed.

Lemma make_ready_ok t th s : lists_ok (Some t) s -> cur_ok s -> 0 <= rt_scheduler_lock_nest s ->
  threads s !! t = Some th -> number_mask th = 2 ^ current_priority th ->
  rt_schedule_insert_thread t s = Ok (made_ready t s) /\ sched_ok (made_ready t s).
Proof.
  intros H C Hl Ht Hm. pose proof (made_ready_threads t th s Ht) as Em.
  destruct (made_ready_frame t s) as [_ _ _ Ec El _ _]. split.
  - unfold made_ready. case_bool_decide as Hb.
    + unfold rt_schedule_insert_thread, get_thread. by rewrite Ht, bind_ret_l, bool_decide_eq_true_2.
    + rewrite Ht. by apply insert_eq.
  - split; [| |by rewrite El].
    + unfold made_ready. case_bool_decide as Hb; [|rewrite Ht; by apply inserted_ok].
      eapply (close_hole t); [apply hole_upd; [done|]|].
      * intros th' E' (P1 & P2 & P3). rewrite Ht in E'. injection E' as <-.
        split; [done|]. split; [done|by left].
      * intros (th' & E' & Es). cbn in E'. rewrite lookup_alter_eq, Ht in E'. by injection E' as <-.
    + apply (cur_change s _ t); try done.
      * intros t' Hn. by rewrite Em, lookup_alter_ne.
      * rewrite Em, lookup_alter_eq, Ht. unfold ready_stat. case_bool_decide; [by eexists|].
        by intros th' [= <-].
Qed.

(** Taking a thread out to suspend or close it. *)
Lemma take_out_ok x t th s : sched_ok s -> threads s !! t = Some th ->
  x = RT_THREAD_SUSPEND /\ number_mask th = 2 ^ current_priority th \/ x = RT_THREAD_CLOSE ->
  rt_schedule_remove_thread t s = Ok (removed t s) /\ sched_ok (set_stat x t (removed t s))
  /\ unlinked t (removed t s).
Proof.
  intros [H C Hl] Ht Hx. pose proof (removed_ok None t s H ltac:(by left)) as Hr.
  split; [eapply remove_ok; [done|by left|done]|]. split; [|by apply lists_ok_unlinked].
  split; [| |done].
  - eapply (close_hole t); [apply hole_upd; [done|]|].
    + intros th' E' (P1 & P2 & P3). cbn in E'. rewrite Ht in E'. injection E' as <-.
      split; [done|]. split; [done|]. cbn. destruct Hx as [[-> ?]| ->]; [by left|].
      destruct P3 as [?|[? _]]; [by left|right; split; [done|by right]].
    + intros (th' & E' & Es). cbn in E'. rewrite lookup_alter_eq, Ht in E'. injection E' as <-.
      cbn in Es. destruct Hx as [[-> _]| ->]; done.
  - apply (cur_change s _ t); try done.
    + intros t' Hn. cbn. by rewrite lookup_alter_ne.
    + cbn. rewrite lookup_alter_eq, Ht.
      case_bool_decide; [eexists; split; [done|]|intros th' [= <-]];
        destruct Hx as [[-> _]| ->]; done.
Qed.

(** A thread that is not ready is in no queue: unlinking it is all there is to
    do. *)
Lemma list_remove_eq t th s : lists_ok None s -> threads s !! t = Some th ->
  stat th <> RT_THREAD_READY -> rt_list_remove t s = removed t s.
Proof.
  intros H Ht Hs. unfold removed.
  assert (unlink t <$> rt_thread_priority_table s = rt_thread_priority_table s) as E.
  { apply unlink_all_tab. intros p l Hl Hin.
    destruct (lo_ready _ _ H p l t Hl Hin) as (_ & th' & E' & ? & _). congruence. }
  unfold rt_list_remove. rewrite E, (lo_group _ _ H). done.
Qed.

(** *** What a round of the scheduler leaves alone *)

Definition runnable (x : thread_stat) : Prop := x = RT_THREAD_READY \/ x = RT_THREAD_RUNNING.

Record sched_frame (s s' : kstate) : Prop := {
  sf_objects : thread_objects s' = thread_objects s;
  sf_defunct : rt_thread_defunct s' = rt_thread_defunct s;
  sf_waits : wait_lists s' = wait_lists s;
  sf_lock : rt_scheduler_lock_nest s' = rt_scheduler_lock_nest s;
  sf_nest : rt_interrupt_nest s' = rt_interrupt_nest s;
  sf_timers : ktimers s' = ktimers s;
  sf_threads : forall t, exists x, threads s' !! t = with_stat x <$> threads s !! t
    /\ forall th, threads s !! t = Some th -> x = stat th \/ runnable x /\ runnable (stat th) }.

Lemma with_stat_same th : with_stat (stat th) th = th.
Proof. by destruct th. Qed.

Lemma frame_refl s : sched_frame s s.
Proof.
  split; try done. intros t. destruct (threads s !! t) as [th|] eqn:E.
  - exists (stat th). cbn. rewrite with_stat_same. split; [done|]. intros th' [= <-]. by left.
  - by exists RT_THREAD_INIT.
Qed.

Lemma sched_frame_set x t th s s' : sched_frame s s' -> threads s !! t = Some th -> runnable (stat th) ->
  runnable x -> sched_frame s (set_stat x t s').
Proof.
  intros [E1 E2 E3 E4 E5 E6 Ht] Eth Hr Hx. split; try done. intros t'. cbn.
  destruct (Ht t') as (y & Ey & Hy). destruct (decide (t' = t)) as [->|Hn].
  - exists x. rewrite lookup_alter_eq, Ey, Eth. cbn. split; [done|]. intros th' [= <-]. by right.
  - exists y. by rewrite lookup_alter_ne.
Qed.

Lemma schedule_ref_frame s : sched_ok s -> sched_frame s (schedule_ref s).
Proof.
  intros Hok. unfold schedule_ref. destruct (rt_current_thread s) as [c|] eqn:Hc; [|apply frame_refl].
  destruct (top_ready _) as [[p to]|] eqn:Htop; [|apply frame_refl].
  destruct (negb _); [apply frame_refl|].
  destruct (top_not_current s c p to Hok Hc Htop) as (l & Hq & Hne & _).
  destruct (lo_ready _ _ (so_lists _ Hok) p _ to Hq ltac:(by left)) as (_ & th & E & Es & _).
  assert (forall s', sched_frame s s' -> sched_frame s (with_current (Some to) (Z.of_nat p) s')) as Hw
    by (by intros s' []).
  assert (forall tab g s', sched_frame s s' -> sched_frame s (with_ready tab g s')) as Hw'
    by (by intros tab g s' []).
  assert (runnable (stat th)) as Hrt by (by left).
  unfold runs. destruct (threads s !! c) as [thc|] eqn:Ec.
  2: { apply Hw, Hw'. eapply sched_frame_set; [apply frame_refl|done|done|by right]. }
  case_bool_decide as Hr.
  - destruct (_ <? _); [apply frame_refl|]. apply Hw, Hw'.
    eapply (sched_frame_set _ to th); [|done|done|by right].
    eapply (sched_frame_set _ c thc); [apply frame_refl|done|by right|by left].
  - apply Hw, Hw'. eapply sched_frame_set; [apply frame_refl|done|done|by right].
Qed.

Lemma frame_stat s s' t x : sched_frame s s' -> ~ runnable x -> has_stat s t x <-> has_stat s' t x.
Proof.
  intros F Hx. destruct (sf_threads _ _ F t) as (y & Ey & Hy). unfold has_stat. rewrite Ey. split.
  - intros (th & E & <-). rewrite E. exists (with_stat y th). split; [done|]. cbn.
    destruct (Hy th E) as [?|[_ ?]]; done.
  - intros (th & E & Es). apply fmap_Some in E as (th0 & E0 & ->). exists th0. split; [done|].
    destruct (Hy th0 E0) as [->|[? _]]; cbn in Es; congruence.
Qed.

(** A closed thread put on the list of dead threads. *)
Lemma defunct_cons t s : lists_ok None s -> unlinked t s -> has_stat s t RT_THREAD_CLOSE ->
  lists_ok None (with_defunct (t :: rt_thread_defunct s) s).
Proof.
  intros [L G N R Q W W1 [D1 D2] P] (_ & _ & U) Hs. split; try done. cbn. split.
  - by apply list.NoDup_cons.
  - intros x [->|Hx]%elem_of_cons; [done|]. by apply D2.
Qed.

(** The scheduler keeps the current thread or makes a running one current. *)
Definition cur_kept (s s' : kstate) : Prop :=
  rt_current_thread s' = rt_current_thread s
  \/ exists c, rt_current_thread s' = Some c /\ has_stat s' c RT_THREAD_RUNNING.

Lemma schedule_ref_kept s : sched_ok s -> cur_kept s (schedule_ref s).
Proof.
  intros Hok. unfold cur_kept, schedule_ref.
  destruct (rt_current_thread s) as [c|] eqn:Hc; [|rewrite Hc; by left].
  destruct (top_ready _) as [[p to]|] eqn:Htop; [|rewrite Hc; by left].
  destruct (negb _); [rewrite Hc; by left|].
  destruct (top_not_current s c p to Hok Hc Htop) as (l & Hq & Hne & _).
  destruct (lo_ready _ _ (so_lists _ Hok) p _ to Hq ltac:(by left)) as (_ & th & E & Es & _).
  destruct (runs s c) as [prio|]; [destruct (_ <? _); [rewrite Hc; by left|]|];
    right; exists to; (split; [done|]); eexists; cbn;
    rewrite lookup_alter_eq, ?lookup_alter_ne, E by done; done.
Qed.

(** ** The theorems of the scheduler *)

(** The two implementations of [__rt_ffs], the one of the processor port
    (bit reversal and leading zeros) and the portable one (a table of bytes),
    agree on every word and return the number of the lowest set bit, counted
    from 1, or 0 if there is none. *)
Theorem rt_ffs_correct v : is_u32 v ->
  rt_ffs_table v = Ok (__rt_ffs v) /\ (v = 0 -> __rt_ffs v = 0)
  /\ (v <> 0 -> lowest_bit v (__rt_ffs v - 1) /\ 1 <= __rt_ffs v <= 32).
Proof.
  intros Hv. split; [by apply rt_ffs_table_eq|]. split; [by intros ->|]. intros Hn.
  pose proof (rt_ffs_lowest v Hv Hn) as Hl. split; [done|].
  pose proof (lowest_bit_below v _ Hv Hl). destruct Hl as [? _]. lia.
Qed.

Lemma rt_ffs_correct_witness : is_u32 0x80400 /\ rt_ffs_table 0x80400 = Ok (__rt_ffs 0x80400).
Proof. split; [by vm_compute|]. apply (rt_ffs_correct 0x80400). by vm_compute. Defined.

(** No thread is ready in a queue before the first one that holds a thread. *)
Lemma ready_after_top s p to t th : sched_ok s -> top_ready (rt_thread_priority_table s) = Some (p, to) ->
  threads s !! t = Some th -> stat th = RT_THREAD_READY -> Z.of_nat p <= current_priority th.
Proof.
  intros [H _ _] [_ Hi]%top_ready_Some Ht Hs.
  destruct (lo_queued _ _ H t th Ht Hs ltac:(done)) as (l & Hl & Hin).
  destruct (lo_prio _ _ H t th Ht) as (Hp & _).
  destruct (Z.lt_ge_cases (current_priority th) (Z.of_nat p)) as [Hlt|]; [|done].
  rewrite Hi in Hl by lia. injection Hl as <-. set_solver.
Qed.

Lemma no_top_no_ready s t th : sched_ok s -> top_ready (rt_thread_priority_table s) = None ->
  threads s !! t = Some th -> stat th <> RT_THREAD_READY.
Proof.
  intros [H _ _] E%top_ready_None Ht Hs.
  destruct (lo_queued _ _ H t th Ht Hs ltac:(done)) as (l & Hl & Hin).
  destruct (lo_prio _ _ H t th Ht) as (Hp & _).
  assert (Z.testbit (group_of (rt_thread_priority_table s)) (current_priority th) = true) as Hb.
  { rewrite group_of_bit by lia. rewrite Hl. destruct l; [set_solver|done]. }
  by rewrite E, Z.bits_0 in Hb.
Qed.

(** The current thread runs with a priority no ready thread beats. *)
Definition top_runs (s : kstate) (t : Z) : Prop :=
  exists c thc th, rt_current_thread s = Some c /\ threads s !! c = Some thc
    /\ stat thc = RT_THREAD_RUNNING /\ threads s !! t = Some th
    /\ current_priority thc <= current_priority th.

Lemma schedule_ref_top s c t th : sched_ok s -> rt_current_thread s = Some c ->
  rt_scheduler_lock_nest s = 0 ->
  threads (schedule_ref s) !! t = Some th -> stat th = RT_THREAD_READY -> top_runs (schedule_ref s) t.
Proof.
  intros Hok Hc Hl Ht Hs. unfold schedule_ref, runs in *. rewrite Hc, Hl in *. cbn [Z.eqb negb] in *.
  destruct (top_ready (rt_thread_priority_table s)) as [[p to]|] eqn:Htop.
  2: { by destruct (no_top_no_ready s t th). }
  destruct (top_not_current s c p to Hok Hc Htop) as (l & Hq & Hne & _).
  destruct (lo_ready _ _ (so_lists _ Hok) p _ to Hq ltac:(by left)) as (_ & tht & Eto & _ & Ep).
  pose proof (so_cur _ Hok) as C. unfold cur_ok in C. rewrite Hc in C.
  destruct C as [(thc & Ec & Hnr & _) _]. rewrite Ec in *.
  case_bool_decide as Hr; [destruct (Z.ltb_spec (current_priority thc) (Z.of_nat p)) as [Hlt|Hge]|].
  - exists c, thc, th. split_and!; try done. pose proof (ready_after_top s p to t th Hok Htop Ht Hs). lia.
  - exists to, (with_stat RT_THREAD_RUNNING tht), th. cbn [with_current rt_current_thread threads
      with_ready set_stat upd_thread with_threads] in *.
    rewrite lookup_alter_eq, lookup_alter_ne, Eto by done. split_and!; try done. cbn. rewrite Ep.
    destruct (decide (t = to)) as [->|Hn].
    { rewrite lookup_alter_eq, lookup_alter_ne, Eto in Ht by done. by injection Ht as <-. }
    rewrite lookup_alter_ne in Ht by done. destruct (decide (t = c)) as [->|Hn'].
    { rewrite lookup_alter_eq, Ec in Ht. injection Ht as <-. done. }
    rewrite lookup_alter_ne in Ht by done. by apply (ready_after_top s p to t th).
  - exists to, (with_stat RT_THREAD_RUNNING tht), th. cbn [with_current rt_current_thread threads
      with_ready set_stat upd_thread with_threads] in *.
    rewrite lookup_alter_eq, Eto. split_and!; try done. cbn. rewrite Ep.
    destruct (decide (t = to)) as [->|Hn].
    { rewrite lookup_alter_eq, Eto in Ht. by injection Ht as <-. }
    rewrite lookup_alter_ne in Ht by done. by apply (ready_after_top s p to t th).
Qed.

(** C13: [rt_schedule], with its bit group, agrees on every consistent state
    with the reference that looks through the queues: it keeps the state if the
    scheduler is locked, if no thread is ready or if the current thread runs at
    a higher priority than all ready ones; otherwise it takes the head of the
    first queue and puts the current thread, if it can still run, at the end of
    its own (round robin among equals).  The state stays consistent, and with
    the scheduler unlocked no ready thread is left with a higher priority than
    the one that runs. *)
Theorem rt_schedule_correct s c : sched_ok s -> rt_current_thread s = Some c ->
  rt_schedule s = Ok (schedule_ref s) /\ sched_ok (schedule_ref s)
  /\ (rt_scheduler_lock_nest s = 0 ->
      forall t, has_stat (schedule_ref s) t RT_THREAD_READY -> top_runs (schedule_ref s) t).
Proof.
  intros Hok Hc. destruct (rt_schedule_ok s c Hok Hc) as [E Hs]. split; [done|]. split; [done|].
  intros Hl t (th & Ht & Hst). by eapply schedule_ref_top.
Qed.
