(* ===== verification/KernelThread.v ===== *)
(** * Threads (src/thread.c, src/idle.c, src/clock.c)

    The operations on threads over the scheduler of [KernelSched] and the
    timers of [KernelTimer]: creation and start, suspension and resumption,
    sleeping, priorities, termination, the clean-up of dead threads by the idle
    thread, and the tick interrupt with the timeouts it runs.  The built-in
    timer of a thread has the thread's name.  Code of an operation that follows
    a call of [rt_schedule] without reading scheduler state is run at once. *)
From stdpp Require Import gmap sorting.
From S2P Require Import Prelude KernelTimer KernelSched.

Definition RT_EOK : Z := 0.
Definition RT_ERROR : Z := 1.
Definition RT_ETIMEOUT : Z := 2.
Definition RT_EFULL : Z := 3.
Definition RT_EEMPTY : Z := 4.
Definition RT_EBUSY : Z := 7.
Definition RT_EINVAL : Z := 10.
Definition RT_EINTR : Z := 9.
Definition RT_NAME_MAX : Z := 8.

(** [RT_ASSERT] *)
Definition rt_assert (b : bool) (s : kstate) : res kstate := if b then Ok s else Fault AssertFail.
(** The object of [t] is registered as a thread. *)
Definition is_thread (t : Z) (s : kstate) : bool := bool_decide (t ∈ thread_objects s).

(** ** Thread objects (the part of src/object.c that concerns them) *)

(** The search for the object runs with the scheduler locked; unlocking it
    calls the scheduler. *)
Definition rt_object_init (t : Z) (s : kstate) : res kstate :=
  let s := rt_enter_critical s in
  s ← rt_assert (negb (is_thread t s)) s;
  s ← rt_exit_critical s;
  Ok (with_objects (t :: thread_objects s) s).

Definition rt_object_detach (t : Z) (s : kstate) : kstate :=
  with_objects (unlink t (thread_objects s)) s.

(** [memory]: what the heap returns. *)
Definition rt_object_allocate (memory : option Z) (s : kstate) : res (option Z * kstate) :=
  if negb (rt_interrupt_nest s =? 0) then Fault AssertFail
  else match memory with
       | None => Ok (None, s)
       | Some t => Ok (Some t, with_objects (t :: thread_objects s) s)
       end.

Definition rt_object_delete (t : Z) (s : kstate) : res kstate :=
  th ← get_thread t s;
  s ← rt_assert (negb (is_system th)) s;
  let s := with_objects (unlink t (thread_objects s)) s in
  Ok (with_threads (delete t (threads s)) s).

(** ** Life of a thread *)

Definition rt_thread_self (s : kstate) : option Z := rt_current_thread s.

(** [rt_timer_init] registers the timer object like [rt_object_init]; the
    event fields keep what the memory holds. *)
Definition _rt_thread_init (t : Z) (nm : list Z) (system : bool) (priority tick : Z) (s : kstate)
    : res kstate :=
  if RT_THREAD_PRIORITY_MAX <=? priority then Fault AssertFail
  else
    let old := threads s !! t in
    let th := mkThread (take (Z.to_nat RT_NAME_MAX) nm) RT_THREAD_INIT priority priority 0
                (mkSlice tick tick) RT_EOK (default 0 (event_set <$> old))
                (default 0 (event_info <$> old)) system false in
    let s := with_threads (<[t := th]> (threads s)) s in
    s ← rt_exit_critical (rt_enter_critical s);
    Ok (with_ktimers (_rt_timer_init t 0 false (ktimers s)) s).

Definition rt_thread_init (t : Z) (nm : list Z) (priority tick : Z) (s : kstate)
    : res (Z * kstate) :=
  s ← rt_object_init t s;
  s ← _rt_thread_init t nm true priority tick s;
  Ok (RT_EOK, s).

(** [memory], [stack]: the results of the two allocations. *)
Definition rt_thread_create (memory : option Z) (stack : bool) (nm : list Z) (priority tick : Z)
    (s : kstate) : res (option Z * kstate) :=
  '(obj, s) ← rt_object_allocate memory s;
  match obj with
  | None => Ok (None, s)
  | Some t =>
      let s := with_threads (delete t (threads s)) s in    (* the memory is zeroed *)
      if negb stack then Ok (None, with_objects (unlink t (thread_objects s)) s)
      else s ← _rt_thread_init t nm false priority tick s; Ok (Some t, s)
  end.

Definition rt_thread_resume (t : Z) (s : kstate) : res (Z * kstate) :=
  th ← get_thread t s;
  s ← rt_assert (is_thread t s) s;
  if negb (bool_decide (stat th = RT_THREAD_SUSPEND)) then Ok (- RT_ERROR, s)
  else
    let s := rt_list_remove t s in
    '(_, ts) ← rt_timer_stop t (ktimers s);
    s ← rt_schedule_insert_thread t (with_ktimers ts s);
    Ok (RT_EOK, s).

Definition rt_thread_suspend (t : Z) (s : kstate) : res (Z * kstate) :=
  th ← get_thread t s;
  s ← rt_assert (is_thread t s) s;
  if negb (bool_decide (stat th = RT_THREAD_READY) || bool_decide (stat th = RT_THREAD_RUNNING))
  then Ok (- RT_ERROR, s)
  else
    s ← rt_assert (negb (bool_decide (stat th = RT_THREAD_RUNNING))
                   || bool_decide (rt_current_thread s = Some t)) s;
    s ← rt_schedule_remove_thread t s;
    let s := set_stat RT_THREAD_SUSPEND t s in
    '(_, ts) ← rt_timer_stop t (ktimers s);
    Ok (RT_EOK, with_ktimers ts s).

Definition rt_thread_startup (t : Z) (s : kstate) : res (Z * kstate) :=
  th ← get_thread t s;
  s ← rt_assert (bool_decide (stat th = RT_THREAD_INIT)) s;
  s ← rt_assert (is_thread t s) s;
  let s := upd_thread (fun th => with_priority (init_priority th)
                         (u32 (Z.shiftl 1 (init_priority th))) th) t s in
  let s := set_stat RT_THREAD_SUSPEND t s in
  '(_, s) ← rt_thread_resume t s;
  s ← match rt_thread_self s with Some _ => rt_schedule s | None => Ok s end;
  Ok (RT_EOK, s).

(** The end of [rt_thread_detach], [rt_thread_delete] and [rt_thread_exit]. *)
Definition to_defunct (t : Z) (s : kstate) : res kstate :=
  if linked t s then Fault ListCorrupt else Ok (with_defunct (t :: rt_thread_defunct s) s).

Definition drop_thread (th : rt_thread) (t : Z) (s : kstate) : res kstate :=
  if is_system th && negb (cleanup th) then Ok (rt_object_detach t s) else to_defunct t s.

Definition rt_thread_detach (t : Z) (s : kstate) : res (Z * kstate) :=
  th ← get_thread t s;
  s ← rt_assert (is_thread t s && is_system th) s;
  s ← (if bool_decide (stat th = RT_THREAD_INIT) then Ok s else rt_schedule_remove_thread t s);
  let s := with_ktimers (rt_timer_detach t (ktimers s)) s in
  let s := set_stat RT_THREAD_CLOSE t s in
  s ← drop_thread th t s;
  Ok (RT_EOK, s).

Definition rt_thread_delete (t : Z) (s : kstate) : res (Z * kstate) :=
  th ← get_thread t s;
  s ← rt_assert (is_thread t s && negb (is_system th)) s;
  s ← (if bool_decide (stat th = RT_THREAD_INIT) then Ok s else rt_schedule_remove_thread t s);
  let s := with_ktimers (rt_timer_detach t (ktimers s)) s in
  let s := set_stat RT_THREAD_CLOSE t s in
  s ← to_defunct t s;
  Ok (RT_EOK, s).

Definition rt_thread_exit (s : kstate) : res kstate :=
  match rt_thread_self s with
  | None => Fault NullDeref
  | Some t =>
      th ← get_thread t s;
      s ← rt_schedule_remove_thread t s;
      let s := set_stat RT_THREAD_CLOSE t s in
      let s := with_ktimers (rt_timer_detach t (ktimers s)) s in
      s ← drop_thread th t s;
      rt_schedule s
  end.

Definition rt_thread_yield (s : kstate) : res (Z * kstate) :=
  s ← rt_schedule s; Ok (RT_EOK, s).

(** Setting the time of a thread's timer and starting it. *)
Definition start_thread_timer (t tick : Z) (s : kstate) : res kstate :=
  '(_, ts) ← rt_timer_control t (RT_TIMER_CTRL_SET_TIME tick) (ktimers s);
  ts ← rt_timer_start t ts;
  Ok (with_ktimers ts s).

(** Up to the call of the scheduler ... *)
Definition rt_thread_sleep (tick : Z) (s : kstate) : res kstate :=
  match rt_thread_self s with
  | None => Fault AssertFail
  | Some t =>
      s ← rt_assert (is_thread t s) s;
      '(_, s) ← rt_thread_suspend t s;
      s ← start_thread_timer t tick s;
      rt_schedule s
  end.
(** ... and when thread [t] runs again. *)
Definition rt_thread_sleep_end (t : Z) (s : kstate) : res (Z * kstate) :=
  th ← get_thread t s;
  Ok (RT_EOK, if error th =? - RT_ETIMEOUT then upd_thread (with_error RT_EOK) t s else s).

Definition rt_thread_delay (tick : Z) (s : kstate) : res kstate := rt_thread_sleep tick s.
Definition rt_thread_mdelay (ms : Z) (s : kstate) : res kstate :=
  rt_thread_sleep (rt_tick_from_millisecond ms) s.

Inductive thread_cmd : Type :=
| RT_THREAD_CTRL_CHANGE_PRIORITY (p : Z) | RT_THREAD_CTRL_STARTUP | RT_THREAD_CTRL_CLOSE
| RT_THREAD_CTRL_INFO.

(** A shift by 32 or more is undefined. *)
Definition set_priority (p t : Z) (s : kstate) : res kstate :=
  if p <? 32 then Ok (upd_thread (with_priority p (u32 (Z.shiftl 1 p))) t s) else Fault SignedOverflow.

Definition rt_thread_control (t : Z) (cmd : thread_cmd) (s : kstate) : res (Z * kstate) :=
  th ← get_thread t s;
  s ← rt_assert (is_thread t s) s;
  match cmd with
  | RT_THREAD_CTRL_CHANGE_PRIORITY p =>
      if bool_decide (stat th = RT_THREAD_READY) then
        s ← rt_schedule_remove_thread t s;
        s ← set_priority p t s;
        s ← rt_schedule_insert_thread t s;
        Ok (RT_EOK, s)
      else s ← set_priority p t s; Ok (RT_EOK, s)
  | RT_THREAD_CTRL_STARTUP => rt_thread_startup t s
  | RT_THREAD_CTRL_CLOSE => rt_thread_delete t s
  | RT_THREAD_CTRL_INFO => Ok (RT_EOK, s)
  end.

Definition rt_thread_timeout (t : Z) (s : kstate) : res kstate :=
  th ← get_thread t s;
  s ← rt_assert (bool_decide (stat th = RT_THREAD_SUSPEND)) s;
  s ← rt_assert (is_thread t s) s;
  let s := upd_thread (with_error (- RT_ETIMEOUT)) t s in
  let s := rt_list_remove t s in
  s ← rt_schedule_insert_thread t s;
  rt_schedule s.

(** The names are compared as C strings, [RT_NAME_MAX] characters at most. *)
Definition name_matches (nm : list Z) (th : rt_thread) : bool :=
  bool_decide (take (Z.to_nat RT_NAME_MAX) nm = name th).

Definition rt_thread_find (nm : list Z) (s : kstate) : res (option Z * kstate) :=
  let enter s := match rt_thread_self s with Some _ => rt_enter_critical s | None => s end in
  let leave s := match rt_thread_self s with Some _ => rt_exit_critical s | None => Ok s end in
  let s := enter s in
  let found := List.find (fun t => match threads s !! t with
                                   | Some th => name_matches nm th | None => false end)
                 (thread_objects s) in
  s ← leave s;
  Ok (found, s).

(** ** The idle thread *)

Section idle.
(** The clean-up functions of threads. *)
Context (cleanup_fn : Z -> kstate -> res kstate).

(** One call; [fuel] bounds the threads cleaned up. *)
Fixpoint rt_thread_idle_excute (fuel : nat) (s : kstate) : res kstate :=
  match fuel with
  | O => Fault Hang
  | S fuel' =>
      match rt_thread_defunct s with
      | [] => Ok s
      | t :: _ =>
          s ← rt_assert (rt_interrupt_nest s =? 0) s;
          th ← get_thread t s;
          let s := rt_enter_critical (rt_list_remove t s) in
          s ← (if cleanup th then cleanup_fn t s else Ok s);
          if is_system th then rt_exit_critical (rt_object_detach t s)
          else
            s ← rt_exit_critical s;
            s ← rt_object_delete t s;
            rt_thread_idle_excute fuel' s
      end
  end.
End idle.

(** The hooks of the idle thread; [None] is a null pointer. *)
Definition RT_IDEL_HOOK_LIST_SIZE : Z := 4.
Fixpoint idle_hook_replace (old new : option Z) (l : list (option Z)) : option (list (option Z)) :=
  match l with
  | [] => None
  | h :: l' =>
      if bool_decide (h = old) then Some (new :: l')
      else l'' ← idle_hook_replace old new l'; Some (h :: l'')
  end.
Definition rt_thread_idle_sethook (hook : option Z) (l : list (option Z)) : Z * list (option Z) :=
  match idle_hook_replace None hook l with
  | Some l' => (RT_EOK, l') | None => (- RT_EFULL, l) end.
Definition RT_ENOSYS : Z := 6.
Definition rt_thread_idle_delhook (hook : option Z) (l : list (option Z)) : Z * list (option Z) :=
  match idle_hook_replace hook None l with
  | Some l' => (RT_EOK, l') | None => (- RT_ENOSYS, l) end.

(** ** The tick interrupt

    [cb]: the timeout functions of the timers that belong to no thread. *)
Section tick.
Context (cb : Z -> tstate -> res tstate).

Definition run_timeout (id : Z) (s : kstate) : res kstate :=
  match threads s !! id with
  | Some _ => rt_thread_timeout id s
  | None => ts ← cb id (ktimers s); Ok (with_ktimers ts s)
  end.

Fixpoint kernel_timer_check (fuel : nat) (current_tick : Z) (s : kstate) : res (list Z * kstate) :=
  match fuel with
  | O => Fault Hang
  | S fuel' =>
      match rt_timer_list (ktimers s) with
      | [] => Ok ([], s)
      | id :: _ =>
          match timers (ktimers s) !! id with
          | None => Fault NullDeref
          | Some t =>
              if u32 (current_tick - timeout_tick t) <? RT_TICK_MAX / 2 then
                let s := with_ktimers (_rt_timer_remove id (ktimers s)) s in
                s ← run_timeout id s;
                let ts := ktimers s in
                let current_tick := rt_tick ts in
                match timers ts !! id with
                | None => Fault NullDeref
                | Some t =>
                    ts ← (if periodic t && activated t
                          then rt_timer_start id (put_timer id (set_activated false t) ts)
                          else Ok (put_timer id (set_activated false t) ts));
                    '(fired, s) ← kernel_timer_check fuel' current_tick (with_ktimers ts s);
                    Ok (id :: fired, s)
                end
              else Ok ([], s)
          end
      end
  end.

(** [rt_tick_increase] on the whole kernel. *)
Definition kernel_tick (fuel : nat) (s : kstate) : res (list Z * kstate) :=
  let s := with_ktimers (rt_tick_set (u32 (rt_tick_get (ktimers s) + 1)) (ktimers s)) s in
  match rt_thread_self s with
  | None => Fault NullDeref
  | Some t =>
      th ← get_thread t s;
      let remaining := u32 (remaining_tick (slice th) - 1) in
      s ← (if remaining =? 0 then
             '(_, s) ← rt_thread_yield
                (upd_thread (with_slice (mkSlice (slice_tick (slice th)) (slice_tick (slice th)))) t s);
             Ok s
           else Ok (upd_thread (with_slice (mkSlice remaining (slice_tick (slice th)))) t s));
      kernel_timer_check fuel (rt_tick (ktimers s)) s
  end.

(** The handler of the tick interrupt. *)
Definition SysTick_Handler (fuel : nat) (s : kstate) : res (list Z * kstate) :=
  '(fired, s) ← kernel_tick fuel (rt_interrupt_enter s);
  Ok (fired, rt_interrupt_leave s).
End tick.

(** ** The timer of a thread *)

Definition tinv (ts : tstate) : Prop := timers_inv ts /\ wf_timers ts.

Lemma timers_insert_id (m : gmap Z rt_timer) t tm : m !! t = Some tm -> <[t := tm]> m = m.
Proof. apply insert_id. Qed.

Lemma tinv_put ts t tm tm' l : tinv ts -> timers ts !! t = Some tm ->
  wf_timer tm' -> l = unlink t (rt_timer_list ts) ->
  tinv (mkT (<[t := tm']> (timers ts)) l (rt_tick ts)).
Proof.
  intros [[Hu Ho] Hw] Ht Hwf ->. split; [split; [done|]|].
  - cbn. eapply ordered_ext; [|by apply ordered_remove].
    intros x Hx. apply elem_of_unlink in Hx as [Hne _]. by apply lookup_insert_ne.
  - intros x t'. cbn. destruct (decide (x = t)) as [->|Hn].
    + rewrite lookup_insert_eq. by intros [= <-].
    + rewrite lookup_insert_ne by done. apply Hw.
Qed.

Lemma in_list_active ts t : tinv ts -> t ∈ rt_timer_list ts ->
  exists tm, timers ts !! t = Some tm /\ activated tm = true.
Proof. intros [[_ Ho] _] Hin. by apply (ord_active _ _ _ _ _ Ho). Qed.

Lemma stop_ok ts t tm : tinv ts -> timers ts !! t = Some tm ->
  exists b, rt_timer_stop t ts = Ok (b, mkT (<[t := set_activated false tm]> (timers ts))
                                    (unlink t (rt_timer_list ts)) (rt_tick ts))
  /\ tinv (mkT (<[t := set_activated false tm]> (timers ts)) (unlink t (rt_timer_list ts)) (rt_tick ts)).
Proof.
  intros Hi Ht. exists (activated tm). split.
  2: { eapply tinv_put; [done|done| |done]. exact (proj2 Hi t tm Ht). }
  unfold rt_timer_stop. rewrite Ht. destruct (activated tm) eqn:Ea; [done|].
  do 2 f_equal. rewrite unlink_notin.
  - replace (set_activated false tm) with tm by (destruct tm; cbn in *; by subst).
    rewrite timers_insert_id by done. by destruct ts.
  - intros Hin. destruct (in_list_active ts t Hi Hin) as (tm' & E & Ea'). congruence.
Qed.

Lemma detach_ok ts t : tinv ts -> tinv (rt_timer_detach t ts).
Proof.
  intros [[Hu Ho] Hw]. split; [split; [done|]|].
  - cbn. eapply ordered_ext; [|by apply ordered_remove].
    intros x Hx. apply list_elem_of_filter in Hx as [Hne _]. by apply lookup_delete_ne.
  - intros x t'. cbn. rewrite lookup_delete_Some. intros [_ E]. by eapply Hw.
Qed.

Lemma init_timer_ok ts t : tinv ts -> t ∉ rt_timer_list ts -> tinv (_rt_timer_init t 0 false ts).
Proof.
  intros [[Hu Ho] Hw] Hni. split; [split; [done|]|].
  - cbn. eapply ordered_ext; [|done]. intros x Hx. apply lookup_insert_ne. by intros ->.
  - intros x t'. cbn. destruct (decide (x = t)) as [->|Hn].
    + rewrite lookup_insert_eq. intros [= <-]. split; [cbn; tick_lia|done].
    + rewrite lookup_insert_ne by done. apply Hw.
Qed.

(** Starting the timer of [t], one-shot, for [tick] ticks. *)
Lemma start_ok s t tm tick : tinv (ktimers s) -> timers (ktimers s) !! t = Some tm ->
  periodic tm = false -> 0 <= tick < HALF ->
  exists ts, start_thread_timer t tick s = Ok (with_ktimers ts s) /\ tinv ts
  /\ rt_tick ts = rt_tick (ktimers s)
  /\ timers ts = <[t := mkTimer true false tick (u32 (rt_tick (ktimers s) + tick))]> (timers (ktimers s))
  /\ rt_timer_list ts ≡ₚ t :: unlink t (rt_timer_list (ktimers s))
  /\ ticks_left (rt_tick ts) (timers ts) t = tick.
Proof.
  intros [[Hu Ho] Hw] Ht Hper Hk. unfold start_thread_timer, rt_timer_control.
  rewrite Ht, bind_ret_l, Hper.
  set (tm' := mkTimer _ _ _ _). set (ts0 := put_timer t tm' (ktimers s)).
  assert (ordered (rt_tick (ktimers s)) 0 (HALF - 1) (timers ts0) (unlink t (rt_timer_list ts0))) as Ho0.
  { cbn. eapply ordered_ext; [|by apply ordered_remove].
    intros x Hx. apply elem_of_unlink in Hx as [Hne _]. by apply lookup_insert_ne. }
  assert (u32 (rt_tick ts0 + init_tick tm' - rt_tick (ktimers s)) = tick) as El by (cbn; tick_lia).
  destruct (timer_start_from (rt_tick (ktimers s)) 0 (HALF - 1) t tm' ts0)
    as (ts & Hs & Etk & Ho' & Em & Ell & Eleft); try rewrite El; try done; try lia.
  { cbn. apply lookup_insert_eq. }
  change (rt_tick ts0) with (rt_tick (ktimers s)) in Etk. rewrite El in Eleft.
  rewrite Hs, bind_ret_l. exists ts. split; [done|].
  assert (timers ts = <[t := mkTimer true false tick (u32 (rt_tick (ktimers s) + tick))]>
    (timers (ktimers s))) as Em' by (rewrite Em; cbn; by rewrite insert_insert_eq).
  split; [|split; [done|split; [done|split]]].
  - split; [split|].
    + rewrite Etk. done.
    + rewrite Etk. done.
    + intros x t'. rewrite Em'. destruct (decide (x = t)) as [->|Hn].
      * rewrite lookup_insert_eq. by intros [= <-].
      * rewrite lookup_insert_ne by done. apply Hw.
  - rewrite Ell. apply insert_timer_perm.
  - by rewrite Etk, Eleft.
Qed.

(** ** The invariant of the kernel *)

(** The timer of a thread of status [x] that is named [t]. *)
Definition timer_ok (ts : tstate) (t : Z) (x : thread_stat) : Prop :=
  match x with
  | RT_THREAD_CLOSE => timers ts !! t = None
  | _ => exists tm, timers ts !! t = Some tm /\ periodic tm = false
           /\ (x <> RT_THREAD_SUSPEND -> t ∉ rt_timer_list ts)
  end.

Record objs_ok (s : kstate) : Prop := {
  ob_nodup : NoDup (thread_objects s);
  ob_live : forall t th, threads s !! t = Some th -> stat th <> RT_THREAD_CLOSE ->
    t ∈ thread_objects s;
  ob_threads : forall t, t ∈ thread_objects s -> is_Some (threads s !! t);
  ob_defunct : forall t, t ∈ rt_thread_defunct s -> t ∈ thread_objects s }.

Record kernel_ok (s : kstate) : Prop := {
  ko_sched : sched_ok s;
  ko_time : tinv (ktimers s);
  ko_timer : forall t th, threads s !! t = Some th -> timer_ok (ktimers s) t (stat th);
  ko_objs : objs_ok s }.

Lemma timer_ok_runnable ts t x y : runnable x -> runnable y -> timer_ok ts t x -> timer_ok ts t y.
Proof.
  unfold timer_ok. intros [->| ->] [->| ->]; intros (tm & E & Hp & Hl); exists tm;
    split_and!; try done; intros _; by apply Hl.
Qed.

(** The scheduler keeps it. *)
Lemma frame_lookup s s' t th' : sched_frame s s' -> threads s' !! t = Some th' ->
  exists th, threads s !! t = Some th
  /\ (stat th' = stat th \/ runnable (stat th') /\ runnable (stat th)).
Proof.
  intros F E. destruct (sf_threads _ _ F t) as (x & Ex & Hx). rewrite Ex in E.
  apply fmap_Some in E as (th & E & ->). exists th. split; [done|]. by apply Hx.
Qed.

Lemma objs_frame s s' : objs_ok s -> sched_frame s s' -> objs_ok s'.
Proof.
  intros [O1 O2 O3 O4] F. pose proof F as [E1 E2 _ _ _ _ Ft]. split; rewrite ?E1, ?E2; try done.
  - intros t th' E' Hs. destruct (frame_lookup _ _ _ _ F E') as (th & E & Hx). apply (O2 t th E).
    destruct Hx as [<-|[_ [Hr|Hr]]]; [done|congruence|congruence].
  - intros t Ht. destruct (Ft t) as (x & -> & _). apply fmap_is_Some. by apply O3.
Qed.

Lemma timers_frame s s' : (forall t th, threads s !! t = Some th -> timer_ok (ktimers s) t (stat th)) ->
  sched_frame s s' -> forall t th, threads s' !! t = Some th -> timer_ok (ktimers s') t (stat th).
Proof.
  intros TT F t th' E'. rewrite (sf_timers _ _ F).
  destruct (frame_lookup _ _ _ _ F E') as (th & E & Hx). specialize (TT t th E).
  destruct Hx as [->|[? ?]]; [done|]. by eapply timer_ok_runnable.
Qed.

Lemma kernel_frame s s' : kernel_ok s -> sched_ok s' -> sched_frame s s' -> kernel_ok s'.
Proof.
  intros [_ T TT O] Hs' F. split; [done| | |by eapply objs_frame].
  - by rewrite (sf_timers _ _ F).
  - by eapply timers_frame.
Qed.

Lemma kernel_schedule s c : kernel_ok s -> rt_current_thread s = Some c ->
  exists s', rt_schedule s = Ok s' /\ kernel_ok s' /\ sched_frame s s'
  /\ is_Some (rt_current_thread s').
Proof.
  intros Hk Hc. destruct (rt_schedule_ok s c (ko_sched _ Hk) Hc) as [E Hs].
  exists (schedule_ref s). pose proof (schedule_ref_frame s (ko_sched _ Hk)) as F.
  split; [done|]. split; [by eapply kernel_frame|]. split; [done|].
  unfold schedule_ref. rewrite Hc. destruct (top_ready _) as [[p to]|]; [|by rewrite Hc].
  destruct (negb _); [by rewrite Hc|]. destruct (runs s c) as [prio|]; [|done].
  destruct (_ <? _); [by rewrite Hc|done].
Qed.

(** A change of thread [t] and its timer alone. *)
Lemma kernel_local t s s' : kernel_ok s -> sched_ok s' -> tinv (ktimers s') ->
  (forall x, x <> t -> threads s' !! x = threads s !! x) ->
  (forall x, x <> t -> timers (ktimers s') !! x = timers (ktimers s) !! x) ->
  (forall x, x <> t -> x ∈ rt_timer_list (ktimers s') -> x ∈ rt_timer_list (ktimers s)) ->
  (forall th, threads s' !! t = Some th -> timer_ok (ktimers s') t (stat th)) ->
  objs_ok s' -> kernel_ok s'.
Proof.
  intros [_ _ TT _] Hs Ht Eth Etm El Hown Ho. split; try done.
  intros x th E. destruct (decide (x = t)) as [->|Hn]; [by apply Hown|].
  rewrite Eth in E by done. specialize (TT x th E). unfold timer_ok in *.
  destruct (stat th); rewrite Etm by done; try done;
    (destruct TT as (tm & E' & Hp & Hl); exists tm; split_and!; try done; intros Hx Hin;
     by apply (Hl Hx), El).
Qed.

(** The objects stay, and [t] is one of them. *)
Lemma objs_local t s s' : objs_ok s -> thread_objects s' = thread_objects s ->
  (forall x, x <> t -> threads s' !! x = threads s !! x) -> is_Some (threads s' !! t) ->
  t ∈ thread_objects s -> (forall x, x ∈ rt_thread_defunct s' -> x ∈ rt_thread_defunct s \/ x = t) ->
  objs_ok s'.
Proof.
  intros [O1 O2 O3 O4] Eo Eth Ht Hin Hd. split; rewrite ?Eo; try done.
  - intros x th E Hx. destruct (decide (x = t)) as [->|Hn]; [done|].
    rewrite Eth in E by done. by eapply O2.
  - intros x Hx. destruct (decide (x = t)) as [->|Hn]; [done|]. rewrite Eth by done. by apply O3.
  - intros x Hx. destruct (Hd x Hx) as [?| ->]; [by apply O4|done].
Qed.

Definition stopped (t : Z) (ts : tstate) : tstate :=
  mkT (alter (set_activated false) t (timers ts)) (unlink t (rt_timer_list ts)) (rt_tick ts).

Lemma stopped_ok ts t tm : tinv ts -> timers ts !! t = Some tm ->
  exists b, rt_timer_stop t ts = Ok (b, stopped t ts) /\ tinv (stopped t ts).
Proof.
  intros Hi Ht. unfold stopped. rewrite <- (insert_as_alter _ _ t tm Ht). by apply stop_ok.
Qed.

Lemma stopped_timer_ok ts t tm x : timers ts !! t = Some tm -> periodic tm = false ->
  x <> RT_THREAD_CLOSE -> timer_ok (stopped t ts) t x.
Proof.
  intros Ht Hp Hx. unfold timer_ok.
  assert (exists tm0, timers (stopped t ts) !! t = Some tm0 /\ periodic tm0 = false
    /\ (x <> RT_THREAD_SUSPEND -> t ∉ rt_timer_list (stopped t ts))) as H; [|by destruct x].
  exists (set_activated false tm). cbn. rewrite lookup_alter_eq, Ht. split_and!; try done.
  intros _ Hin. apply elem_of_unlink in Hin as [? _]. done.
Qed.

(** *** Resuming and suspending *)

Definition resumed (t : Z) (s : kstate) : kstate :=
  made_ready t (with_ktimers (stopped t (ktimers s)) (removed t s)).

Lemma live_timer s t th : kernel_ok s -> threads s !! t = Some th -> stat th <> RT_THREAD_CLOSE ->
  exists tm, timers (ktimers s) !! t = Some tm /\ periodic tm = false.
Proof.
  intros Hk Ht Hs. pose proof (ko_timer _ Hk t th Ht) as H. unfold timer_ok in H.
  destruct (stat th); try done; destruct H as (tm & ? & ? & _); by exists tm.
Qed.

Lemma live_object s t th : kernel_ok s -> threads s !! t = Some th -> stat th <> RT_THREAD_CLOSE ->
  is_thread t s = true.
Proof.
  intros Hk Ht Hs. apply bool_decide_eq_true. by eapply (ob_live _ (ko_objs _ Hk)).
Qed.

Lemma defunct_unlink t s x : x ∈ unlink t (rt_thread_defunct s) -> x ∈ rt_thread_defunct s \/ x = t.
Proof. intros [_ ?]%elem_of_unlink. by left. Qed.

(** A suspended thread made ready, by [rt_thread_resume] or by its timeout. *)
Lemma wake_sched t th ts s : sched_ok s -> threads s !! t = Some th ->
  stat th = RT_THREAD_SUSPEND ->
  rt_list_remove t s = removed t s
  /\ rt_schedule_insert_thread t (with_ktimers ts (removed t s))
     = Ok (made_ready t (with_ktimers ts (removed t s)))
  /\ sched_ok (made_ready t (with_ktimers ts (removed t s))).
Proof.
  intros [H C Hl] Ht Hs. split; [apply (list_remove_eq t th); [done|done|congruence]|].
  set (s1 := with_ktimers ts (removed t s)).
  assert (lists_ok (Some t) s1) as H1
    by (eapply lists_ext, (removed_ok None t s H); (reflexivity || by left)).
  apply (make_ready_ok t th); try done. apply started_mask; [|congruence|congruence].
  by apply (lo_prio _ _ H t).
Qed.

Lemma made_ready_lookup t th s x : threads s !! t = Some th -> x <> t ->
  threads (made_ready t s) !! x = threads s !! x.
Proof. intros Ht Hn. rewrite (made_ready_threads t th s Ht). by apply lookup_alter_ne. Qed.

Lemma resume_ok t th s : kernel_ok s -> threads s !! t = Some th -> stat th = RT_THREAD_SUSPEND ->
  rt_thread_resume t s = Ok (RT_EOK, resumed t s) /\ kernel_ok (resumed t s).
Proof.
  intros Hk Ht Hs. destruct (live_timer s t th Hk Ht ltac:(congruence)) as (tm & Etm & Hper).
  destruct (stopped_ok _ t tm (ko_time _ Hk) Etm) as (b & Estop & Ht').
  destruct (wake_sched t th (stopped t (ktimers s)) s (ko_sched _ Hk) Ht Hs) as (E1 & E2 & Hs').
  pose proof (made_ready_frame t (with_ktimers (stopped t (ktimers s)) (removed t s)))
    as [F1 F2 F3 F4 F5 F6 F7]. cbn in F1, F2, F3, F4, F5, F6, F7.
  assert (threads (with_ktimers (stopped t (ktimers s)) (removed t s)) !! t = Some th) as Ht1 by done.
  split.
  - unfold rt_thread_resume, get_thread, rt_assert. rewrite Ht, bind_ret_l.
    rewrite (live_object s t th) by (done || congruence). rewrite bind_ret_l.
    rewrite bool_decide_eq_true_2 by done. cbn [negb]. rewrite E1. cbn [ktimers removed with_ready].
    change (ktimers (rt_list_remove t s)) with (ktimers s). rewrite Estop, bind_ret_l, E2. done.
  - apply (kernel_local t s); try done; unfold resumed.
    + by rewrite F7.
    + intros x Hn. by rewrite (made_ready_lookup t th).
    + intros x Hn. rewrite F7. cbn. by rewrite lookup_alter_ne.
    + intros x Hn. rewrite F7. cbn. rewrite elem_of_unlink. tauto.
    + intros th' E'. rewrite F7. apply (stopped_timer_ok _ _ tm); try done.
      rewrite (made_ready_threads t th _ Ht1), lookup_alter_eq, Ht1 in E'. injection E' as <-.
      cbn. unfold ready_stat. by case_bool_decide.
    + apply (objs_local t s); [apply Hk|done| | | |].
      * intros x Hn. by rewrite (made_ready_lookup t th).
      * by rewrite (made_ready_threads t th _ Ht1), lookup_alter_eq, Ht1.
      * eapply (ob_live _ (ko_objs _ Hk)); [done|congruence].
      * rewrite F2. apply defunct_unlink.
Qed.

Definition suspended (t : Z) (s : kstate) : kstate :=
  with_ktimers (stopped t (ktimers s)) (set_stat RT_THREAD_SUSPEND t (removed t s)).

Lemma suspend_ok t th s : kernel_ok s -> threads s !! t = Some th -> runnable (stat th) ->
  rt_thread_suspend t s = Ok (RT_EOK, suspended t s) /\ kernel_ok (suspended t s).
Proof.
  intros Hk Ht Hs. pose proof (ko_sched _ Hk) as Hso.
  assert (stat th <> RT_THREAD_CLOSE /\ stat th <> RT_THREAD_INIT) as [Hnc Hni]
    by (destruct Hs as [-> | ->]; done).
  destruct (live_timer s t th Hk Ht Hnc) as (tm & Etm & Hper).
  destruct (stopped_ok _ t tm (ko_time _ Hk) Etm) as (b & Estop & Ht').
  destruct (take_out_ok RT_THREAD_SUSPEND t th s Hso Ht) as (E1 & Hs' & Hu).
  { left. split; [done|]. apply started_mask; try done. by apply (lo_prio _ _ (so_lists _ Hso) t). }
  split.
  - unfold rt_thread_suspend, get_thread, rt_assert. rewrite Ht, bind_ret_l.
    rewrite (live_object s t th), bind_ret_l by done.
    assert (bool_decide (stat th = RT_THREAD_READY) || bool_decide (stat th = RT_THREAD_RUNNING)
            = true) as ->
      by (destruct Hs as [-> | ->]; by rewrite ?bool_decide_eq_true_2, ?orb_true_r by done).
    cbn [negb].
    assert (negb (bool_decide (stat th = RT_THREAD_RUNNING))
      || bool_decide (rt_current_thread s = Some t) = true) as ->.
    { destruct Hs as [Hs|Hs]; [by rewrite Hs|]. apply orb_true_iff. right.
      apply bool_decide_eq_true. pose proof (so_cur _ Hso) as C. unfold cur_ok in C.
      destruct (rt_current_thread s) as [c|].
      - f_equal. symmetry. apply C. by exists th.
      - exfalso. apply (C t). by exists th. }
    rewrite bind_ret_l, E1, bind_ret_l. cbn [ktimers set_stat upd_thread with_threads removed with_ready].
    change (ktimers (rt_list_remove t s)) with (ktimers s). by rewrite Estop.
  - apply (kernel_local t s); try done; unfold suspended.
    + eapply sched_ext, Hs'; try done. apply Hso.
    + intros x Hn. cbn. by rewrite lookup_alter_ne.
    + intros x Hn. cbn. by rewrite lookup_alter_ne.
    + intros x Hn. cbn. rewrite elem_of_unlink. tauto.
    + intros th' E'. apply (stopped_timer_ok _ _ tm); try done.
      cbn in E'. rewrite lookup_alter_eq, Ht in E'. by injection E' as <-.
    + apply (objs_local t s); [apply Hk|done| | | |].
      * intros x Hn. cbn. by rewrite lookup_alter_ne.
      * cbn. by rewrite lookup_alter_eq, Ht.
      * by eapply (ob_live _ (ko_objs _ Hk)).
      * apply defunct_unlink.
Qed.

(** *** Sleeping *)

Lemma timer_listed_ok ts t tm : timers ts !! t = Some tm -> periodic tm = false ->
  timer_ok ts t RT_THREAD_SUSPEND.
Proof. intros E Hp. exists tm. split_and!; try done. Qed.

(** The timer of a suspended thread is started: it stays suspended. *)
Lemma start_timer_ok t th tick s : kernel_ok s -> threads s !! t = Some th ->
  stat th = RT_THREAD_SUSPEND -> 0 <= tick < HALF ->
  exists ts, start_thread_timer t tick s = Ok (with_ktimers ts s) /\ kernel_ok (with_ktimers ts s)
  /\ rt_tick ts = rt_tick (ktimers s) /\ t ∈ rt_timer_list ts
  /\ ticks_left (rt_tick ts) (timers ts) t = tick /\ size (timers ts) = size (timers (ktimers s)).
Proof.
  intros Hk Ht Hs Htk. destruct (live_timer s t th Hk Ht ltac:(congruence)) as (tm & Etm & Hper).
  destruct (start_ok s t tm tick (ko_time _ Hk) Etm Hper Htk) as (ts & E & Hi & Et & Em & El & Hleft).
  exists ts. split; [done|]. split.
  - apply (kernel_local t s); try done.
    + eapply sched_ext, Hk; try done. apply Hk.
    + intros x Hn. cbn. by rewrite Em, lookup_insert_ne.
    + intros x Hn. cbn. rewrite El. intros [?|Hx]%elem_of_cons; [done|]. by apply elem_of_unlink in Hx as [].
    + intros th' E'. cbn in E'. rewrite Ht in E'. injection E' as <-. rewrite Hs. cbn.
      eapply timer_listed_ok; [rewrite Em; apply lookup_insert_eq|done].
    + apply (objs_local t s); try done; [apply Hk| |].
      * eapply (ob_live _ (ko_objs _ Hk)); [done|congruence].
      * intros x Hx. by left.
  - split_and!; try done; [rewrite El; apply elem_of_cons; by left|].
    rewrite Em, map_size_insert, Etm. done.
Qed.

Lemma current_lookup s c : sched_ok s -> rt_current_thread s = Some c ->
  exists th, threads s !! c = Some th /\ stat th <> RT_THREAD_READY /\ stat th <> RT_THREAD_INIT.
Proof. intros [_ C _] Hc. unfold cur_ok in C. rewrite Hc in C. apply C. Qed.

Lemma sleep_ok tick s c : kernel_ok s -> rt_current_thread s = Some c ->
  has_stat s c RT_THREAD_RUNNING -> 0 <= tick < HALF ->
  exists ts s', rt_thread_sleep tick s = Ok s' /\ kernel_ok s'
  /\ kernel_ok (with_ktimers ts (suspended c s))
  /\ rt_schedule (with_ktimers ts (suspended c s)) = Ok s'
  /\ sched_frame (with_ktimers ts (suspended c s)) s'
  /\ rt_tick ts = rt_tick (ktimers s) /\ c ∈ rt_timer_list ts
  /\ ticks_left (rt_tick ts) (timers ts) c = tick
  /\ size (timers ts) = size (timers (ktimers s)) /\ is_Some (rt_current_thread s').
Proof.
  intros Hk Hc (th & Ht & Hs) Htk.
  destruct (suspend_ok c th s Hk Ht ltac:(by right)) as [E1 Hk1].
  destruct (start_timer_ok c (with_stat RT_THREAD_SUSPEND th) tick (suspended c s) Hk1)
    as (ts & E2 & Hk2 & Et & Hin & Hleft & Hsz); [cbn; by rewrite lookup_alter_eq, Ht|done|done|].
  destruct (kernel_schedule _ c Hk2 Hc) as (s' & E3 & Hk3 & F & Hc').
  assert (size (timers ts) = size (timers (ktimers s))) as Hsz'
    by (rewrite Hsz, <- !size_dom; cbn; by rewrite dom_alter_L).
  exists ts, s'. unfold rt_thread_sleep, rt_thread_self, rt_assert. rewrite Hc.
  rewrite (live_object s c th), bind_ret_l, E1, bind_ret_l, E2, bind_ret_l by (done || congruence).
  done.
Qed.

(** *** Starting *)

Lemma mask_pow p : 0 <= p < 32 -> u32 (Z.shiftl 1 p) = 2 ^ p.
Proof.
  intros Hp. rewrite Z.shiftl_1_l. apply u32_id. split; [lia|].
  change 4294967296 with (2 ^ 32). apply Z.pow_lt_mono_r; lia.
Qed.

Definition started (t : Z) (s : kstate) : kstate :=
  set_stat RT_THREAD_SUSPEND t (upd_thread (fun th => with_priority (init_priority th)
    (u32 (Z.shiftl 1 (init_priority th))) th) t s).

Lemma started_ok t th s : kernel_ok s -> threads s !! t = Some th -> stat th = RT_THREAD_INIT ->
  kernel_ok (started t s) /\ has_stat (started t s) t RT_THREAD_SUSPEND.
Proof.
  intros Hk Ht Hs. pose proof (ko_sched _ Hk) as [H C Hl].
  assert (unlinked t s) as Hu by (eapply stat_unlinked; [done|by exists th|by right]).
  assert (threads (started t s) !! t = Some (with_stat RT_THREAD_SUSPEND (with_priority
    (init_priority th) (u32 (Z.shiftl 1 (init_priority th))) th))) as E
    by (cbn; by rewrite lookup_alter_eq, lookup_alter_eq, Ht).
  assert (forall x, x <> t -> threads (started t s) !! x = threads s !! x) as Eo
    by (intros x Hn; cbn; by rewrite !lookup_alter_ne).
  split; [|by eexists]. apply (kernel_local t s); try done.
  - split; [|apply (cur_change s _ t); try done|done].
    + apply (close_hole t).
      * apply hole_upd; [apply hole_upd; [by apply open_hole|]|].
        -- intros th0 E0 (P1 & P2 & P3). split; [done|]. split; [done|].
           left. apply mask_pow. exact P2.
        -- intros th0 E0 (P1 & P2 & P3). cbn in E0. rewrite lookup_alter_eq, Ht in E0.
           injection E0 as <-. split; [done|]. split; [done|]. left. apply mask_pow. exact P2.
      * intros (th0 & E0 & Es). rewrite E in E0. by injection E0 as <-.
    + rewrite E. case_bool_decide; [by eexists|]. by intros th' [= <-].
  - apply Hk.
  - intros th' E'. rewrite E in E'. injection E' as <-. cbn.
    destruct (live_timer s t th Hk Ht ltac:(congruence)) as (tm & Etm & Hper).
    by eapply timer_listed_ok.
  - apply (objs_local t s); try done; [apply Hk| |].
    + eapply (ob_live _ (ko_objs _ Hk)); [done|congruence].
    + intros x Hx. by left.
Qed.

Lemma startup_ok t th s : kernel_ok s -> threads s !! t = Some th -> stat th = RT_THREAD_INIT ->
  exists s', rt_thread_startup t s = Ok (RT_EOK, s') /\ kernel_ok s'
  /\ sched_frame (resumed t (started t s)) s'.
Proof.
  intros Hk Ht Hs. destruct (started_ok t th s Hk Ht Hs) as [Hk1 (th1 & Ht1 & Hs1)].
  destruct (resume_ok t th1 _ Hk1 Ht1 Hs1) as [E2 Hk2].
  assert (exists s', match rt_thread_self (resumed t (started t s)) with
    | Some _ => rt_schedule (resumed t (started t s)) | None => Ok (resumed t (started t s)) end = Ok s'
    /\ kernel_ok s' /\ sched_frame (resumed t (started t s)) s') as (s' & E3 & Hk3 & F).
  { unfold rt_thread_self. destruct (rt_current_thread _) as [c|] eqn:Hc.
    - destruct (kernel_schedule _ c Hk2 Hc) as (s' & E3 & Hk3 & F & _). by exists s'.
    - eexists. split; [done|]. split; [done|apply frame_refl]. }
  exists s'. unfold rt_thread_startup, get_thread, rt_assert. rewrite Ht, bind_ret_l.
  rewrite bool_decide_eq_true_2, bind_ret_l, (live_object s t th), bind_ret_l by (done || congruence).
  cbv zeta. fold (started t s). rewrite E2, bind_ret_l, E3. done.
Qed.

(** *** Ending *)

Definition closed (t : Z) (s : kstate) : kstate :=
  with_ktimers (rt_timer_detach t (ktimers s)) (set_stat RT_THREAD_CLOSE t (removed t s)).

Lemma closed_ok t th s : kernel_ok s -> threads s !! t = Some th ->
  (if bool_decide (stat th = RT_THREAD_INIT) then Ok s else rt_schedule_remove_thread t s)
    = Ok (removed t s)
  /\ rt_schedule_remove_thread t s = Ok (removed t s)
  /\ sched_ok (closed t s) /\ unlinked t (closed t s) /\ has_stat (closed t s) t RT_THREAD_CLOSE.
Proof.
  intros Hk Ht. pose proof (ko_sched _ Hk) as Hso.
  destruct (take_out_ok RT_THREAD_CLOSE t th s Hso Ht ltac:(by right)) as (E1 & Hs1 & Hu).
  split; [|split; [done|split; [|split; [done|]]]].
  - case_bool_decide as Hi; [|done]. f_equal. symmetry.
    apply (removed_id None); [apply Hso|]. eapply stat_unlinked; [apply Hso|by exists th|by right].
  - eapply sched_ext, Hs1; try done. apply Hso.
  - eexists. cbn. rewrite lookup_alter_eq, Ht. done.
Qed.

(** The kernel once the closed thread is off the objects or among the dead. *)
Lemma closed_local t th s s' : kernel_ok s -> threads s !! t = Some th ->
  sched_ok s' -> threads s' = threads (closed t s) -> ktimers s' = ktimers (closed t s) ->
  objs_ok s' -> kernel_ok s'.
Proof.
  intros Hk Ht Hs Eth Etm Ho. apply (kernel_local t s); try done; rewrite ?Eth, ?Etm; cbn.
  - apply detach_ok, Hk.
  - intros x Hn. by rewrite lookup_alter_ne.
  - intros x Hn. by rewrite lookup_delete_ne.
  - intros x Hn. rewrite list_elem_of_filter. tauto.
  - intros th'. rewrite lookup_alter_eq, Ht. intros [= <-]. cbn. apply lookup_delete_eq.
Qed.

Lemma closed_defunct t th s : kernel_ok s -> threads s !! t = Some th -> t ∈ thread_objects s ->
  exists s', to_defunct t (closed t s) = Ok s' /\ kernel_ok s'
  /\ s' = with_defunct (t :: unlink t (rt_thread_defunct s)) (closed t s).
Proof.
  intros Hk Ht Hin. destruct (closed_ok t th s Hk Ht) as (_ & _ & Hs & Hu & Hc).
  unfold to_defunct. rewrite (proj2 (linked_false t _) Hu). eexists. split; [done|]. split; [|done].
  apply (closed_local t th s); try done.
  - destruct Hs as [L C Hl]. split; [by apply defunct_cons|done|done].
  - apply (objs_local t s); try done; [apply Hk| | |].
    + intros x Hn. cbn. by rewrite lookup_alter_ne.
    + cbn. by rewrite lookup_alter_eq, Ht.
    + intros x. cbn. rewrite elem_of_cons. intros [->|Hx]; [by right|by apply defunct_unlink in Hx].
Qed.

Lemma closed_detached t th s : kernel_ok s -> threads s !! t = Some th ->
  kernel_ok (rt_object_detach t (closed t s)).
Proof.
  intros Hk Ht. destruct (closed_ok t th s Hk Ht) as (_ & _ & Hs & _ & Hc).
  apply (closed_local t th s); try done.
  - eapply sched_ext, Hs; try done. apply Hs.
  - destruct (ko_objs _ Hk) as [O1 O2 O3 O4]. split; cbn.
    + by apply NoDup_unlink.
    + intros x th' E Hx. destruct (decide (x = t)) as [->|Hn].
      * rewrite lookup_alter_eq, Ht in E. by injection E as <-.
      * rewrite lookup_alter_ne in E by done. apply elem_of_unlink. split; [done|]. by eapply O2.
    + intros x [Hn Hx]%elem_of_unlink. rewrite lookup_alter_ne by done. by apply O3.
    + intros x [Hn Hx]%elem_of_unlink. apply elem_of_unlink. split; [done|]. by apply O4.
Qed.

Lemma drop_ok t th s : kernel_ok s -> threads s !! t = Some th -> t ∈ thread_objects s ->
  exists s', drop_thread th t (closed t s) = Ok s' /\ kernel_ok s'
  /\ rt_current_thread s' = rt_current_thread s /\ has_stat s' t RT_THREAD_CLOSE.
Proof.
  intros Hk Ht Hin. destruct (closed_ok t th s Hk Ht) as (_ & _ & _ & _ & Hc).
  unfold drop_thread. destruct (is_system th && _).
  - eexists. split; [done|]. split; [by eapply closed_detached|]. done.
  - destruct (closed_defunct t th s Hk Ht Hin) as (s' & E & Hk' & ->). eexists. done.
Qed.

Lemma detach_thread_ok t th s : kernel_ok s -> threads s !! t = Some th -> t ∈ thread_objects s ->
  is_system th = true ->
  exists s', rt_thread_detach t s = Ok (RT_EOK, s') /\ kernel_ok s' /\ has_stat s' t RT_THREAD_CLOSE.
Proof.
  intros Hk Ht Hin Hsys. destruct (closed_ok t th s Hk Ht) as (E1 & _).
  destruct (drop_ok t th s Hk Ht Hin) as (s' & E2 & Hk' & _ & Hc). exists s'.
  unfold rt_thread_detach, get_thread, rt_assert, is_thread. rewrite Ht, bind_ret_l.
  rewrite (bool_decide_eq_true_2 (t ∈ thread_objects s)), Hsys by done. cbn [andb negb].
  rewrite bind_ret_l, E1, bind_ret_l. cbv zeta.
  change (set_stat RT_THREAD_CLOSE t _) with (closed t s). by rewrite E2.
Qed.

Lemma delete_thread_ok t th s : kernel_ok s -> threads s !! t = Some th -> t ∈ thread_objects s ->
  is_system th = false ->
  exists s', rt_thread_delete t s = Ok (RT_EOK, s') /\ kernel_ok s' /\ has_stat s' t RT_THREAD_CLOSE
  /\ t ∈ rt_thread_defunct s'.
Proof.
  intros Hk Ht Hin Hsys. destruct (closed_ok t th s Hk Ht) as (E1 & _ & _ & _ & Hc).
  destruct (closed_defunct t th s Hk Ht Hin) as (s' & E2 & Hk' & ->). eexists.
  unfold rt_thread_delete, get_thread, rt_assert, is_thread. rewrite Ht, bind_ret_l.
  rewrite (bool_decide_eq_true_2 (t ∈ thread_objects s)), Hsys by done. cbn [andb negb].
  rewrite bind_ret_l, E1, bind_ret_l. cbv zeta.
  change (set_stat RT_THREAD_CLOSE t _) with (closed t s). rewrite E2.
  split; [done|]. split; [done|]. split; [done|]. cbn. by left.
Qed.

Lemma exit_ok s c : kernel_ok s -> rt_current_thread s = Some c -> has_stat s c RT_THREAD_RUNNING ->
  exists s', rt_thread_exit s = Ok s' /\ kernel_ok s' /\ has_stat s' c RT_THREAD_CLOSE.
Proof.
  intros Hk Hc (th & Ht & Hs). destruct (closed_ok c th s Hk Ht) as (_ & E1 & _).
  assert (c ∈ thread_objects s) as Hin by (eapply (ob_live _ (ko_objs _ Hk)); [done|congruence]).
  destruct (drop_ok c th s Hk Ht Hin) as (s1 & E2 & Hk1 & Ec & Hcl). rewrite Hc in Ec.
  destruct (kernel_schedule s1 c Hk1 Ec) as (s' & E3 & Hk' & F & _). exists s'.
  unfold rt_thread_exit, rt_thread_self, get_thread. rewrite Hc, Ht, bind_ret_l, E1, bind_ret_l.
  cbv zeta. change (with_ktimers _ (set_stat RT_THREAD_CLOSE c (removed c s))) with (closed c s).
  rewrite E2, bind_ret_l. split; [done|]. split; [done|].
  apply (frame_stat s1 s'); [done|by intros [|]|done].
Qed.

(** *** The scheduler lock *)

Definition lock_room (s : kstate) : Prop := 0 <= rt_scheduler_lock_nest s < 32767.

Lemma frame_nest l i s s' : sched_frame (with_nest l i s) s' ->
  rt_scheduler_lock_nest s = l -> rt_interrupt_nest s = i -> sched_frame s s'.
Proof. intros [? ? ? ? ? ? ?] <- <-. by split. Qed.

Lemma schedule_if s : sched_ok s ->
  exists s', match rt_current_thread s with Some _ => rt_schedule s | None => Ok s end = Ok s'
  /\ sched_ok s' /\ sched_frame s s' /\ cur_kept s s'.
Proof.
  intros Hs. destruct (rt_current_thread s) as [c|] eqn:Hc.
  - destruct (rt_schedule_ok s c Hs Hc) as [E Hs']. exists (schedule_ref s). split; [done|].
    split; [done|]. split; [by apply schedule_ref_frame|by apply schedule_ref_kept].
  - exists s. split; [done|]. split; [done|]. split; [apply frame_refl|by left].
Qed.

Lemma critical_sched s : sched_ok s -> lock_room s ->
  exists s', rt_exit_critical (rt_enter_critical s) = Ok s' /\ sched_ok s' /\ sched_frame s s'
  /\ cur_kept s s'.
Proof.
  intros Hs Hr. unfold lock_room in Hr.
  unfold rt_exit_critical, rt_enter_critical. cbn [rt_scheduler_lock_nest with_nest rt_interrupt_nest].
  rewrite (s16_id (_ + 1)) by lia. replace (rt_scheduler_lock_nest s + 1 - 1) with
    (rt_scheduler_lock_nest s) by lia. rewrite s16_id by lia.
  destruct (Z.leb_spec (rt_scheduler_lock_nest s) 0) as [Hl|Hl].
  - set (s1 := with_nest 0 _ _).
    assert (sched_ok s1) as Hs1 by (by eapply sched_ext, Hs).
    destruct (schedule_if s1 Hs1) as (s' & E & Hs' & F & Hc). exists s'. split; [done|]. split; [done|].
    split; [|done]. apply (frame_nest 0 (rt_interrupt_nest s)); [by destruct F|lia|done].
  - set (s1 := with_nest _ _ _).
    assert (sched_ok s1) as Hs1 by (eapply sched_ext, Hs; try done; cbn; lia).
    exists s1. split; [done|]. split; [done|]. split; [|by left].
    eapply frame_nest; [apply (frame_refl s1)|done|done].
Qed.

Lemma critical_ok s : kernel_ok s -> lock_room s ->
  exists s', rt_exit_critical (rt_enter_critical s) = Ok s' /\ kernel_ok s' /\ sched_frame s s'
  /\ cur_kept s s'.
Proof.
  intros Hk Hr. destruct (critical_sched s (ko_sched _ Hk) Hr) as (s' & E & Hs' & F & Hc).
  exists s'. split; [done|]. split; [by eapply kernel_frame|done].
Qed.

Lemma kernel_nest l i s : kernel_ok s -> 0 <= l -> kernel_ok (with_nest l i s).
Proof.
  intros [S T TT [O1 O2 O3 O4]] Hl. split; try done. by eapply sched_ext, S.
Qed.

Lemma enter_critical_ok s : kernel_ok s -> lock_room s -> kernel_ok (rt_enter_critical s).
Proof. intros Hk Hr. unfold lock_room in Hr. apply kernel_nest; [done|]. rewrite s16_id by lia. lia. Qed.

Lemma exit_critical_ok s : kernel_ok s -> rt_scheduler_lock_nest s < 32768 ->
  exists s', rt_exit_critical s = Ok s' /\ kernel_ok s'.
Proof.
  intros Hk Hr. pose proof (so_lock _ (ko_sched _ Hk)) as Hl. unfold rt_exit_critical.
  rewrite s16_id by lia. destruct (Z.leb_spec (rt_scheduler_lock_nest s - 1) 0).
  - pose proof (kernel_nest 0 (rt_interrupt_nest s) s Hk ltac:(lia)) as Hk1.
    destruct (schedule_if _ (ko_sched _ Hk1)) as (s' & E & Hs' & F & _). exists s'. split; [done|].
    by eapply kernel_frame.
  - eexists. split; [done|]. apply kernel_nest; [done|lia].
Qed.

(** *** Creating *)

(** Nothing refers to [t]. *)
Definition fresh_thread (t : Z) (s : kstate) : Prop :=
  t ∉ thread_objects s /\ timers (ktimers s) !! t = None /\ rt_current_thread s <> Some t.

Lemma fresh_unlinked t s : kernel_ok s -> t ∉ thread_objects s -> unlinked t s.
Proof.
  intros Hk Hf. pose proof (so_lists _ (ko_sched _ Hk)) as H. destruct (ko_objs _ Hk) as [O1 O2 O3 O4].
  split_and!.
  - intros p l Hl Hin. destruct (lo_ready _ _ H p l t Hl Hin) as (_ & th & E & Es & _).
    apply Hf. eapply O2; [done|congruence].
  - intros k l Hl Hin. destruct (proj2 (lo_wait _ _ H k l Hl) t Hin) as (_ & th & E & Es).
    apply Hf. eapply O2; [done|congruence].
  - intros Hin. by apply Hf, O4.
Qed.

(** The state after [_rt_thread_init] has filled in thread [t]. *)
Lemma init_thread_sched m t th s : sched_ok s -> unlinked t s -> rt_current_thread s <> Some t ->
  stat th = RT_THREAD_INIT -> prio_ok th -> m = <[t := th]> (threads s) ->
  sched_ok (with_threads m s).
Proof.
  intros [H C Hl] Hu Hc Hs Hp ->.
  assert (forall t', t' <> t -> <[t := th]> (threads s) !! t' = threads s !! t') as Ho
    by (intros t' Hn; by apply lookup_insert_ne).
  split; [|apply (cur_change s _ t); try done|done].
  - apply (close_hole t).
    + apply hole_threads; [by apply open_hole|done|]. rewrite lookup_insert_eq. by intros th' [= <-].
    + intros (th' & E & Es). cbn in E. rewrite lookup_insert_eq in E. injection E as <-. congruence.
  - rewrite bool_decide_eq_false_2 by done. cbn. rewrite lookup_insert_eq. intros th' [= <-].
    congruence.
Qed.

Lemma thread_init_ok t nm sys prio tick s : kernel_ok s -> fresh_thread t s ->
  0 <= prio < 32 -> lock_room s ->
  exists s', _rt_thread_init t nm sys prio tick (with_objects (t :: thread_objects s) s) = Ok s'
  /\ kernel_ok s' /\ has_stat s' t RT_THREAD_INIT /\ t ∈ thread_objects s'.
Proof.
  intros Hk (Hf1 & Hf2 & Hf3) Hp Hr. pose proof (fresh_unlinked t s Hk Hf1) as Hu.
  unfold _rt_thread_init. rewrite (proj2 (Z.leb_gt _ _)) by (unfold RT_THREAD_PRIORITY_MAX; lia).
  cbv zeta. set (th := mkThread _ _ _ _ _ _ _ _ _ _ _). set (s1 := with_threads _ _).
  assert (sched_ok s1) as Hs1.
  { eapply (init_thread_sched _ t th (with_objects (t :: thread_objects s) s)); try done.
    - eapply sched_ext, Hk; try done. apply Hk.
    - split; [done|]. split; [done|]. right. split; [done|by left]. }
  destruct (critical_sched s1 Hs1 Hr) as (s2 & E & Hs2 & F & _). rewrite E, bind_ret_l.
  pose proof F as [F1 F2 F3 F4 F5 F6 F7]. cbn in F1, F2, F3, F4, F5, F6.
  assert (t ∉ rt_timer_list (ktimers s)) as Hnl
    by (intros Hin; destruct (in_list_active _ _ (ko_time _ Hk) Hin) as (tm & E' & _); congruence).
  assert (forall x th', x <> t -> threads s2 !! x = Some th' -> exists th0,
    threads s !! x = Some th0 /\ (stat th' = stat th0 \/ runnable (stat th') /\ runnable (stat th0))) as Hx.
  { intros x th' Hn E'. destruct (frame_lookup _ _ _ _ F E') as (th0 & E0 & Hor).
    cbn in E0. rewrite lookup_insert_ne in E0 by done. by exists th0. }
  assert (has_stat s2 t RT_THREAD_INIT) as Hst.
  { apply (frame_stat s1 s2 t); [done|by intros [|]|]. exists th. split; [cbn; apply lookup_insert_eq|done]. }
  eexists. split; [done|]. split; [|split; [done|cbn; rewrite F1; by left]].
  destruct Hk as [Sk Tk TTk [O1 O2 O3 O4]]. split; cbn.
  - eapply sched_ext, Hs2; try done. apply Hs2.
  - rewrite F6. by apply init_timer_ok.
  - rewrite F6. intros x th' E'. destruct (decide (x = t)) as [->|Hn].
    + destruct Hst as (th'' & E'' & Es). rewrite E' in E''. injection E'' as <-. rewrite Es.
      unfold timer_ok. eexists. cbn. rewrite lookup_insert_eq. done.
    + destruct (Hx x th' Hn E') as (th0 & E0 & Hor). specialize (TTk x th0 E0).
      assert (timer_ok (ktimers s) x (stat th')) as Hto
        by (destruct Hor as [->|[? ?]]; [done|by eapply timer_ok_runnable]).
      unfold timer_ok in *. cbn. destruct (stat th'); by rewrite lookup_insert_ne by done.
  - split; cbn; rewrite ?F1, ?F2.
    + by apply list.NoDup_cons.
    + intros x th' E' Hsx. destruct (decide (x = t)) as [->|Hn]; [by left|]. right.
      destruct (Hx x th' Hn E') as (th0 & E0 & Hor). apply (O2 x th0 E0).
      destruct Hor as [<-|[_ [H|H]]]; [done|congruence|congruence].
    + intros x Hin. destruct (F7 x) as (y & -> & _). apply fmap_is_Some. cbn.
      destruct (decide (x = t)) as [->|Hn]; [by rewrite lookup_insert_eq|].
      rewrite lookup_insert_ne by done. apply O3. by apply elem_of_cons in Hin as [?|?].
    + intros x Hin. right. by apply O4.
Qed.

Lemma rt_thread_init_ok t nm prio tick s : kernel_ok s -> fresh_thread t s ->
  0 <= prio < 32 -> lock_room s ->
  exists s', rt_thread_init t nm prio tick s = Ok (RT_EOK, s')
  /\ kernel_ok s' /\ has_stat s' t RT_THREAD_INIT /\ t ∈ thread_objects s'.
Proof.
  intros Hk (Hf1 & Hf2 & Hf3) Hp Hr. destruct (critical_ok s Hk Hr) as (s1 & E & Hk1 & F & Hc).
  pose proof F as [F1 F2 F3 F4 F5 F6 F7].
  destruct (thread_init_ok t nm true prio tick s1 Hk1) as (s' & E' & Hk' & Hs' & Hin); try done.
  - split; [by rewrite F1|]. split; [by rewrite F6|].
    destruct Hc as [->|(c & -> & th & Eth & Es)]; [done|]. intros [= ->]. apply Hf1.
    rewrite <- F1. eapply (ob_live _ (ko_objs _ Hk1)); [done|congruence].
  - unfold lock_room. by rewrite F4.
  - exists s'. unfold rt_thread_init, rt_object_init, rt_assert, is_thread.
    change (thread_objects (rt_enter_critical s)) with (thread_objects s).
    rewrite bool_decide_eq_false_2 by done. cbn [negb]. rewrite !bind_ret_l, E, bind_ret_l, bind_ret_l.
    by rewrite E'.
Qed.

(** Creation fails without memory and leaves no trace, whichever of the two
    allocations fails. *)
Lemma rt_thread_create_ok mem stack nm prio tick s : kernel_ok s -> rt_interrupt_nest s = 0 ->
  (forall t, mem = Some t -> fresh_thread t s /\ threads s !! t = None) ->
  0 <= prio < 32 -> lock_room s ->
  exists r s', rt_thread_create mem stack nm prio tick s = Ok (r, s') /\ kernel_ok s'
  /\ match r with
     | None => s' = s /\ (mem = None \/ stack = false)
     | Some t => mem = Some t /\ stack = true /\ has_stat s' t RT_THREAD_INIT
     end.
Proof.
  intros Hk Hn Hm Hp Hr. unfold rt_thread_create, rt_object_allocate. rewrite Hn. cbn [Z.eqb negb].
  destruct mem as [t|]; [|exists None, s; split; [done|]; by auto].
  destruct (Hm t eq_refl) as [Hf Hnone]. rewrite bind_ret_l.
  assert (with_threads (delete t (threads s)) (with_objects (t :: thread_objects s) s)
    = with_objects (t :: thread_objects s) s) as E.
  { unfold with_threads, with_objects. cbn. by rewrite delete_id. }
  cbv zeta. cbn [threads with_objects]. rewrite E. destruct stack; cbn [negb].
  - destruct (thread_init_ok t nm false prio tick s Hk Hf Hp Hr) as (s' & E' & Hk' & Hs' & Hin).
    rewrite E', bind_ret_l. by exists (Some t), s'.
  - exists None, s. split; [|by auto]. do 2 f_equal.
    assert (unlink t (t :: thread_objects s) = thread_objects s) as Eu
      by (apply remove_head, Hf).
    change (thread_objects (with_objects (t :: thread_objects s) s)) with (t :: thread_objects s).
    rewrite Eu. by destruct s.
Qed.

(** *** Priorities *)

Lemma set_priority_eq p t s : 0 <= p < 32 ->
  set_priority p t s = Ok (upd_thread (with_priority p (2 ^ p)) t s).
Proof.
  intros Hp. unfold set_priority. by rewrite (proj2 (Z.ltb_lt _ _)), mask_pow by lia.
Qed.

Lemma upd_prio_timer s t f th th' : kernel_ok s -> threads s !! t = Some th ->
  threads (upd_thread f t s) !! t = Some th' -> stat (f th) = stat th ->
  timer_ok (ktimers s) t (stat th').
Proof.
  intros Hk Ht E Es. cbn in E. rewrite lookup_alter_eq, Ht in E. injection E as <-. rewrite Es.
  by apply Hk.
Qed.

(** A thread that is not queued. *)
Lemma change_priority_idle p t th s : kernel_ok s -> threads s !! t = Some th -> t ∈ thread_objects s ->
  stat th <> RT_THREAD_READY -> 0 <= p < 32 ->
  kernel_ok (upd_thread (with_priority p (2 ^ p)) t s).
Proof.
  intros Hk Ht Hin Hs Hp. pose proof (ko_sched _ Hk) as [H C Hl].
  set (f := with_priority p (2 ^ p)).
  assert (forall x, x <> t -> threads (upd_thread f t s) !! x = threads s !! x) as Eo
    by (intros x Hn; cbn; by rewrite lookup_alter_ne).
  assert (threads (upd_thread f t s) !! t = Some (f th)) as Et by (cbn; by rewrite lookup_alter_eq, Ht).
  assert (forall x y, has_stat s x y <-> has_stat (upd_thread f t s) x y) as Hh.
  { intros x y. unfold has_stat. destruct (decide (x = t)) as [->|Hn]; [|by rewrite Eo].
    rewrite Et, Ht. split; intros (th0 & [= <-] & <-); by eexists. }
  apply (kernel_local t s); try done.
  - split; [|apply (cur_change s _ t); try done|done].
    + destruct H as [L G N R Q W W1 D P]. split; try done.
      * intros q l x Hl' Hx. destruct (R q l x Hl' Hx) as (_ & th0 & E0 & Es0 & Ep0).
        split; [done|]. rewrite Eo by congruence. by exists th0.
      * intros x th0 E0 Es0 _. rewrite Eo in E0; [by eapply Q|]. intros ->.
        rewrite Et in E0. injection E0 as <-. done.
      * intros k l Hl'. split; [by eapply W|]. intros x Hx. split; [done|]. apply Hh. by eapply W.
      * split; [apply D|]. intros x Hx. split; [done|]. apply Hh. by apply D.
      * intros x th0 E0. destruct (decide (x = t)) as [->|Hn]; [|rewrite Eo in E0 by done; by eapply P].
        rewrite Et in E0. injection E0 as <-. destruct (P t th Ht) as (_ & ? & _).
        split; [done|]. split; [done|by left].
    + rewrite Et. case_bool_decide as Hb.
      * destruct (current_lookup s t (ko_sched _ Hk) Hb) as (th0 & E0 & ? & ?). exists (f th).
        split; [done|]. cbn. by simplify_eq.
      * intros th' [= <-] Hr. apply Hb. cbn in Hr. unfold cur_ok in C.
        destruct (rt_current_thread s) as [c|]; [f_equal; symmetry; apply C; by exists th|].
        exfalso. apply (C t). by exists th.
  - apply Hk.
  - intros th' E'. by eapply (upd_prio_timer s t f th).
  - apply (objs_local t s); try done; [apply Hk|]. intros x Hx. by left.
Qed.

Lemma change_priority_ready p t th s : kernel_ok s -> threads s !! t = Some th ->
  stat th = RT_THREAD_READY -> 0 <= p < 32 ->
  exists s', kernel_ok s' /\ rt_schedule_remove_thread t s = Ok (removed t s)
  /\ rt_schedule_insert_thread t (upd_thread (with_priority p (2 ^ p)) t (removed t s)) = Ok s'
  /\ s' = made_ready t (upd_thread (with_priority p (2 ^ p)) t (removed t s)).
Proof.
  intros Hk Ht Hs Hp. pose proof (ko_sched _ Hk) as [H C Hl].
  set (s1 := upd_thread (with_priority p (2 ^ p)) t (removed t s)).
  set (th1 := with_priority p (2 ^ p) th).
  assert (threads s1 !! t = Some th1) as Et by (cbn; by rewrite lookup_alter_eq, Ht).
  assert (forall x, x <> t -> threads s1 !! x = threads s !! x) as Eo
    by (intros x Hn; cbn; by rewrite lookup_alter_ne).
  assert (lists_ok (Some t) s1) as H1.
  { apply hole_upd; [eapply removed_ok; [done|by left]|]. intros th0 E0 (P1 & P2 & P3).
    split; [done|]. split; [done|by left]. }
  assert (cur_ok s1) as C1.
  { apply (cur_change s _ t); try done. rewrite Et. case_bool_decide as Hb.
    - destruct (current_lookup s t (ko_sched _ Hk) Hb) as (th0 & E0 & ? & ?). by simplify_eq.
    - intros th' [= <-]. cbn. congruence. }
  destruct (make_ready_ok t th1 s1 H1 C1 Hl Et eq_refl) as [E2 Hs2].
  destruct (made_ready_frame t s1) as [F1 F2 F3 F4 F5 F6 F7].
  pose proof (made_ready_threads t th1 s1 Et) as Em.
  exists (made_ready t s1). split; [|split; [eapply remove_ok; [done|by left|done]|done]].
  assert (forall x, x <> t -> threads (made_ready t s1) !! x = threads s !! x) as Eo2
    by (intros x Hn; rewrite Em, lookup_alter_ne by done; by apply Eo).
  apply (kernel_local t s); try done; rewrite ?F7; try done.
  - apply Hk.
  - intros th'. rewrite Em, lookup_alter_eq, Et. intros [= <-]. cbn.
    eapply timer_ok_runnable, (ko_timer _ Hk t th Ht); [left; congruence|].
    unfold ready_stat. case_bool_decide; [by right|by left].
  - apply (objs_local t s); try done; [apply Hk| | |].
    + by rewrite Em, lookup_alter_eq, Et.
    + eapply (ob_live _ (ko_objs _ Hk)); [done|congruence].
    + rewrite F2. apply defunct_unlink.
Qed.

Lemma change_priority_ok p t th s : kernel_ok s -> threads s !! t = Some th -> t ∈ thread_objects s ->
  0 <= p < 32 ->
  exists s', rt_thread_control t (RT_THREAD_CTRL_CHANGE_PRIORITY p) s = Ok (RT_EOK, s') /\ kernel_ok s'
  /\ s' = if bool_decide (stat th = RT_THREAD_READY)
          then made_ready t (upd_thread (with_priority p (2 ^ p)) t (removed t s))
          else upd_thread (with_priority p (2 ^ p)) t s.
Proof.
  intros Hk Ht Hin Hp. unfold rt_thread_control, get_thread, rt_assert, is_thread.
  rewrite Ht, bind_ret_l, (bool_decide_eq_true_2 (t ∈ thread_objects s)), bind_ret_l by done.
  case_bool_decide as Hs.
  - destruct (change_priority_ready p t th s Hk Ht Hs Hp) as (s' & Hk' & E1 & E2 & ->).
    rewrite E1, bind_ret_l, set_priority_eq, bind_ret_l, E2 by done. by eexists.
  - rewrite set_priority_eq, bind_ret_l by done. eexists. split; [done|]. split; [|done].
    by eapply change_priority_idle.
Qed.

(** *** Timeouts *)

(** The current thread can run: it is not among the dead. *)
Definition cur_runs (s : kstate) : Prop :=
  exists c, rt_current_thread s = Some c /\ has_stat s c RT_THREAD_RUNNING.

Lemma cur_runs_frame s s' : sched_ok s' -> cur_runs s -> sched_frame s s' -> cur_kept s s' -> cur_runs s'.
Proof.
  intros Hs (c & Hc & th & E & Es) F [Hk|Hk]; [|done]. exists c. rewrite Hk. split; [done|].
  destruct (sf_threads _ _ F c) as (x & Ex & Hx). rewrite E in Ex. exists (with_stat x th).
  split; [done|]. cbn. destruct (Hx th E) as [->|[[->| ->] _]]; [done| |done].
  destruct (current_lookup s' c Hs) as (th' & E' & Hn & _); [by rewrite Hk|].
  rewrite Ex in E'. by injection E' as <-.
Qed.

(** What else a run of the loop changes: the waiting lists lose those that
    expire; the running thread, if there is one, may lose the processor. *)
Record tick_rest (fired : list Z) (s s' : kstate) : Prop := {
  tr_waits : forall k, wlist k s' = filter (fun x => x ∉ fired) (wlist k s);
  tr_lock : rt_scheduler_lock_nest s' = rt_scheduler_lock_nest s;
  tr_nest : rt_interrupt_nest s' = rt_interrupt_nest s;
  tr_objects : thread_objects s' = thread_objects s;
  tr_runs : cur_runs s -> cur_runs s' }.

Lemma filter_all {A} (P : A -> Prop) `{!forall x, Decision (P x)} (l : list A) :
  (forall x, x ∈ l -> P x) -> filter P l = l.
Proof.
  induction l as [|y l IH]; intros Hl; [done|]. rewrite filter_cons_True by (apply Hl; by left).
  f_equal. apply IH. intros x Hx. apply Hl. by right.
Qed.
Lemma filter_notin_nil (l : list Z) : filter (fun x => x ∉ []) l = l.
Proof. apply filter_all. set_solver. Qed.

Lemma rest_frame s s' : sched_ok s' -> sched_frame s s' -> cur_kept s s' -> tick_rest [] s s'.
Proof.
  intros Hs F Hc. pose proof F as [F1 _ F3 F4 F5 _ _]. split; try done.
  - intros k. rewrite filter_notin_nil. unfold wlist. by rewrite F3.
  - intros Hr. by eapply cur_runs_frame.
Qed.

Lemma rest_trans l1 l2 s1 s2 s3 : tick_rest l1 s1 s2 -> tick_rest l2 s2 s3 -> tick_rest (l1 ++ l2) s1 s3.
Proof.
  intros [W1 L1 N1 O1 R1] [W2 L2 N2 O2 R2]. split; try congruence; [|auto].
  intros k. rewrite W2, W1, list_filter_filter. apply list_filter_iff. intros x.
  rewrite elem_of_app. tauto.
Qed.

Lemma sched_error e t s : sched_ok s -> sched_ok (upd_thread (with_error e) t s).
Proof.
  intros [H C Hl]. split; [by apply lists_frame| |done].
  apply (cur_change s _ t); try done; [intros x Hn; cbn; by rewrite lookup_alter_ne|].
  unfold cur_ok in C. cbn. rewrite lookup_alter_eq. case_bool_decide as Hb.
  - rewrite Hb in C. destruct C as [(th & -> & ? & ?) _]. by eexists.
  - intros th (th0 & E & ->)%fmap_Some Hr. destruct (rt_current_thread s) as [c|].
    + apply Hb. f_equal. symmetry. apply C. by exists th0.
    + apply (C t). by exists th0.
Qed.

Definition timed_out (t : Z) (s : kstate) : kstate :=
  made_ready t (removed t (upd_thread (with_error (- RT_ETIMEOUT)) t s)).

Lemma timed_out_lookup t th s x : threads s !! t = Some th ->
  threads (timed_out t s) !! x = if decide (x = t)
    then Some (with_stat (ready_stat t s) (with_error (- RT_ETIMEOUT) th)) else threads s !! x.
Proof.
  intros Ht. unfold timed_out.
  rewrite (made_ready_threads t (with_error (- RT_ETIMEOUT) th)) by (cbn; by rewrite lookup_alter_eq, Ht).
  case_decide as Hx; [subst x; rewrite lookup_alter_eq|rewrite lookup_alter_ne by done]; cbn.
  - by rewrite lookup_alter_eq, Ht.
  - by rewrite lookup_alter_ne.
Qed.

Lemma ready_stat_runnable t s : runnable (ready_stat t s).
Proof. unfold ready_stat. case_bool_decide; [by right|by left]. Qed.

Lemma rest_timeout t th s : threads s !! t = Some th -> stat th = RT_THREAD_SUSPEND ->
  tick_rest [t] s (timed_out t s).
Proof.
  intros Ht Hs. destruct (made_ready_frame t (removed t (upd_thread (with_error (- RT_ETIMEOUT)) t s)))
    as [F1 F2 F3 F4 F5 F6 F7]. split; try done.
  - intros k. unfold wlist, timed_out. rewrite F3. cbn. rewrite lookup_fmap.
    destruct (wait_lists s !! k) as [l|]; [|done]. cbn. apply list_filter_iff. intros x.
    by rewrite list_elem_of_singleton.
  - intros (c & Hc & thc & Ec & Es). exists c. split; [unfold timed_out; by rewrite F4|].
    unfold has_stat. rewrite (timed_out_lookup t th s c Ht). case_decide as Hn; [|by exists thc].
    subst c. congruence.
Qed.

Lemma timeout_ok t th s c : sched_ok s -> objs_ok s -> rt_current_thread s = Some c ->
  threads s !! t = Some th -> stat th = RT_THREAD_SUSPEND ->
  exists s', rt_thread_timeout t s = Ok s' /\ sched_ok s' /\ objs_ok s'
  /\ sched_frame (timed_out t s) s' /\ is_Some (rt_current_thread s') /\ tick_rest [t] s s'.
Proof.
  intros Hso Ho Hc Ht Hs. set (s1 := upd_thread (with_error (- RT_ETIMEOUT)) t s).
  set (th1 := with_error (- RT_ETIMEOUT) th).
  assert (threads s1 !! t = Some th1) as Et by (cbn; by rewrite lookup_alter_eq, Ht).
  destruct (wake_sched t th1 (ktimers s1) s1 (sched_error _ _ _ Hso) Et Hs) as (E1 & E2 & Hs2).
  change (with_ktimers (ktimers s1) (removed t s1)) with (removed t s1) in *.
  destruct (made_ready_frame t (removed t s1)) as [F1 F2 F3 F4 F5 F6 F7].
  destruct (rt_schedule_ok _ c Hs2) as [E3 Hs3]; [by rewrite F4|].
  pose proof (schedule_ref_frame _ Hs2) as F. exists (schedule_ref (made_ready t (removed t s1))).
  assert (t ∈ thread_objects s) as Hin by (eapply (ob_live _ Ho); [done|congruence]).
  split; [|split; [done|split; [|split; [done|split]]]].
  - unfold rt_thread_timeout, get_thread, rt_assert. rewrite Ht, bind_ret_l.
    rewrite bool_decide_eq_true_2, bind_ret_l by done. unfold is_thread.
    rewrite bool_decide_eq_true_2, bind_ret_l by done. cbv zeta. fold s1. rewrite E1, E2, bind_ret_l.
    done.
  - assert (objs_ok (timed_out t s)) as Ho'.
    { apply (objs_local t s); try done.
      - intros x Hn. by rewrite (timed_out_lookup t th), decide_False.
      - by rewrite (timed_out_lookup t th), decide_True.
      - unfold timed_out. fold s1. rewrite F2. exact (defunct_unlink t s). }
    by eapply objs_frame.
  - destruct (schedule_ref_kept _ Hs2) as [->|(c' & -> & _)]; [rewrite F4; cbn; by rewrite Hc|done].
  - change [t] with ([t] ++ []). eapply rest_trans; [by eapply rest_timeout|].
    by apply rest_frame; [| |apply schedule_ref_kept].
Qed.

(** *** The tick *)

(** Only timer [id] changes, apart from the list. *)
Definition tlocal (id : Z) (ts ts' : tstate) : Prop :=
  forall x, x <> id -> timers ts' !! x = timers ts !! x
    /\ (x ∈ rt_timer_list ts' -> x ∈ rt_timer_list ts).

Lemma tlocal_trans id ts1 ts2 ts3 : tlocal id ts1 ts2 -> tlocal id ts2 ts3 -> tlocal id ts1 ts3.
Proof.
  intros H1 H2 x Hx. destruct (H1 x Hx) as [E1 L1], (H2 x Hx) as [E2 L2].
  split; [congruence|auto].
Qed.
Lemma tlocal_put id tm ts : tlocal id ts (put_timer id tm ts).
Proof. intros x Hx. split; [by apply lookup_insert_ne|done]. Qed.
Lemma tlocal_remove id ts : tlocal id ts (_rt_timer_remove id ts).
Proof. intros x Hx. split; [done|]. cbn. rewrite list_elem_of_filter. tauto. Qed.
Lemma tlocal_start id ts ts' : rt_timer_start id ts = Ok ts' -> tlocal id ts ts'.
Proof.
  unfold rt_timer_start. destruct (timers ts !! id) as [tm|]; [|done].
  destruct (_ <? _); [|done]. intros [= <-] x Hx. cbn.
  rewrite !lookup_insert_ne by done. split; [done|].
  rewrite insert_timer_perm, elem_of_cons, list_elem_of_filter. naive_solver.
Qed.
Lemma tlocal_stop id ts b ts' : rt_timer_stop id ts = Ok (b, ts') -> tlocal id ts ts'.
Proof.
  unfold rt_timer_stop. destruct (timers ts !! id) as [tm|]; [|done].
  destruct (activated tm); intros [= <- <-]; [|by intros x Hx].
  eapply tlocal_trans; [apply tlocal_remove|apply tlocal_put].
Qed.
Lemma tlocal_cb cb stops id ts ts' : simple_cb stops cb -> cb id ts = Ok ts' -> tlocal id ts ts'.
Proof.
  intros Hcb. rewrite Hcb. destruct (stops id); [|by intros [= <-] x Hx].
  intros H. bind_inv H. destruct a as [b ts1]. injection H as <-. by eapply tlocal_stop.
Qed.

(** What holds at the head of the check loop. *)
Record loop_ok (s : kstate) : Prop := {
  lk_sched : sched_ok s;
  lk_objs : objs_ok s;
  lk_timer : forall t th, threads s !! t = Some th -> timer_ok (ktimers s) t (stat th);
  lk_cur : is_Some (rt_current_thread s) }.

Lemma timer_ok_local id ts ts' t x : tlocal id ts ts' -> t <> id -> timer_ok ts t x -> timer_ok ts' t x.
Proof.
  intros H Hn. destruct (H t Hn) as [E L]. unfold timer_ok. rewrite E.
  destruct x; try done; intros (tm & E' & Hp & Hl); exists tm;
    (split; [done|]); (split; [done|]); intros Hx Hin; by apply (Hl Hx), L.
Qed.

Lemma loop_timers id ts s : loop_ok s -> tlocal id (ktimers s) ts ->
  (forall th, threads s !! id = Some th -> timer_ok ts id (stat th)) -> loop_ok (with_ktimers ts s).
Proof.
  intros [S [O1 O2 O3 O4] T C] Hl Hid. split; try done.
  - eapply sched_ext, S; try done. apply S.
  - intros t th E. cbn. destruct (decide (t = id)) as [->|Hn]; [by apply Hid|].
    eapply timer_ok_local; [done|done|]. by apply T.
Qed.

(** How a thread may change in a run of the loop in which [fired] expire. *)
Definition tick_effect (fired : list Z) (t : Z) (th th' : rt_thread) : Prop :=
  if decide (t ∈ fired)
  then runnable (stat th') /\ th' = with_stat (stat th') (with_error (- RT_ETIMEOUT) th)
  else th' = with_stat (stat th') th /\ (stat th' = stat th \/ runnable (stat th') /\ runnable (stat th)).

Definition tick_effects (fired : list Z) (s s' : kstate) : Prop :=
  forall t, match threads s !! t, threads s' !! t with
            | Some th, Some th' => tick_effect fired t th th'
            | None, None => True | _, _ => False
            end.

Lemma frame_effects s s' : sched_frame s s' -> tick_effects [] s s'.
Proof.
  intros F t. destruct (sf_threads _ _ F t) as (x & -> & Hx).
  destruct (threads s !! t) as [th|]; cbn; [|done]. unfold tick_effect.
  rewrite decide_False by set_solver. split; [done|]. cbn. by apply Hx.
Qed.

Lemma effects_trans l1 l2 s1 s2 s3 : tick_effects l1 s1 s2 -> tick_effects l2 s2 s3 ->
  tick_effects (l1 ++ l2) s1 s3.
Proof.
  intros H1 H2 t. specialize (H1 t). specialize (H2 t).
  destruct (threads s1 !! t) as [a|], (threads s2 !! t) as [b|], (threads s3 !! t) as [c|]; try done.
  unfold tick_effect in *. rewrite (decide_ext _ (t ∈ l1 \/ t ∈ l2)) by apply elem_of_app.
  destruct (decide (t ∈ l1)) as [Hl1|Hl1], (decide (t ∈ l2)) as [Hl2|Hl2].
  - rewrite decide_True by (by left). destruct H1 as [R1 E1], H2 as [R2 E2].
    split; [done|]. rewrite E2, E1. done.
  - rewrite decide_True by (by left). destruct H1 as [R1 E1], H2 as [E2 R2].
    split; [destruct R2 as [->|[? _]]; done|]. rewrite E2, E1. done.
  - rewrite decide_True by (by right). destruct H1 as [E1 R1], H2 as [R2 E2].
    split; [done|]. rewrite E2, E1. done.
  - rewrite decide_False by tauto. destruct H1 as [E1 R1], H2 as [E2 R2]. split; [by rewrite E2, E1|].
    destruct R1 as [R1|[R1 R1']], R2 as [R2|[R2 R2']]; rewrite ?R2, ?R1; rewrite ?R1 in *; auto.
Qed.

Lemma timeout_effects t th s s' : threads s !! t = Some th -> sched_frame (timed_out t s) s' ->
  tick_effects [t] s s'.
Proof.
  intros Ht F. change [t] with ([t] ++ []). eapply effects_trans; [|by apply frame_effects].
  intros x. rewrite (timed_out_lookup t th s x Ht). unfold tick_effect.
  case_decide as Hx; [subst x; rewrite Ht, decide_True by (by apply list_elem_of_singleton)|].
  - split; [apply ready_stat_runnable|done].
  - destruct (threads s !! x) as [th0|]; [|done].
    rewrite decide_False by (by rewrite list_elem_of_singleton). rewrite with_stat_same. by auto.
Qed.

Lemma effects_ktimers l ts s s' : tick_effects l s s' -> tick_effects l s (with_ktimers ts s').
Proof. done. Qed.

Section check_loop.
Context (cb : Z -> tstate -> res tstate) (stops : Z -> bool) (Hcb : simple_cb stops cb).
Context (D : gset Z).

(** What the timeouts do to the timers. *)
Definition thread_cb (id : Z) (ts : tstate) : res tstate := if decide (id ∈ D) then Ok ts else cb id ts.

Lemma thread_cb_simple : simple_cb (fun id => if decide (id ∈ D) then false else stops id) thread_cb.
Proof. intros id ts. unfold thread_cb. case_decide; [done|]. by rewrite Hcb. Qed.

(** Running the timeout of the timer [id] at the head of the list. *)
Lemma run_timeout_ok id l tm s ts2 : loop_ok s -> dom (threads s) = D ->
  rt_timer_list (ktimers s) = id :: l -> timers (ktimers s) !! id = Some tm ->
  thread_cb id (_rt_timer_remove id (ktimers s)) = Ok ts2 ->
  exists s2, run_timeout cb id (with_ktimers (_rt_timer_remove id (ktimers s)) s) = Ok s2
  /\ ktimers s2 = ts2 /\ sched_ok s2 /\ objs_ok s2 /\ is_Some (rt_current_thread s2)
  /\ tick_effects [id] s s2 /\ tick_rest [id] s s2.
Proof.
  intros [S O T [c Hc]] HD Hl Htm Hcb2. set (s1 := with_ktimers _ s).
  assert (sched_ok s1) as S1 by (eapply sched_ext, S; try done; apply S).
  assert (objs_ok s1) as O1 by (by destruct O).
  unfold run_timeout, thread_cb in *. change (threads s1) with (threads s).
  assert (id ∈ D <-> is_Some (threads s !! id)) as Hd by (by rewrite <- HD, elem_of_dom).
  destruct (threads s !! id) as [th|] eqn:Eid.
  - rewrite decide_True in Hcb2 by (by apply Hd). injection Hcb2 as <-.
    assert (stat th = RT_THREAD_SUSPEND) as Hs.
    { pose proof (T id th Eid) as Ht. unfold timer_ok in Ht.
      destruct (stat th); try done; try congruence;
        (destruct Ht as (? & _ & _ & Hn); exfalso; apply Hn; [done|]; rewrite Hl; by left). }
    destruct (timeout_ok id th s1 c S1 O1 Hc Eid Hs) as (s2 & E & S2 & O2 & F & C2 & R2).
    exists s2. split_and!; try done; [| |by destruct R2].
    + rewrite (sf_timers _ _ F). unfold timed_out.
      by rewrite (sb_timers _ _ (made_ready_frame id (removed id _))).
    + by apply (timeout_effects id th s1).
  - rewrite decide_False in Hcb2 by (rewrite Hd; by intros [? [=]]).
    change (ktimers s1) with (_rt_timer_remove id (ktimers s)). rewrite Hcb2, bind_ret_l.
    eexists. split; [done|]. split; [done|]. split; [eapply sched_ext, S; try done; apply S|].
    split; [by destruct O|]. split; [by exists c|].
    split.
    + intros t. cbn. destruct (threads s !! t) as [th|] eqn:E; [|done]. unfold tick_effect.
      rewrite decide_False by (rewrite list_elem_of_singleton; congruence). rewrite with_stat_same. by auto.
    + split; try done. intros k. symmetry. apply filter_all. intros x Hx ->%list_elem_of_singleton.
      unfold wlist in Hx. cbn in Hx. destruct (wait_lists s !! k) as [lk|] eqn:Ek; [|set_solver].
      destruct (proj2 (lo_wait _ _ (so_lists _ S) k lk Ek) id Hx) as (_ & th & E & _). congruence.
Qed.

Lemma effects_dom l s s' : tick_effects l s s' -> dom (threads s') = dom (threads s).
Proof.
  intros H. apply set_eq. intros t. rewrite !elem_of_dom. specialize (H t).
  destruct (threads s !! t), (threads s' !! t); try done; split; intros [? [=]].
Qed.

(** What is left to do for timer [id] after its timeout. *)
Definition rearm (id : Z) (tm : rt_timer) (ts : tstate) : res tstate :=
  if periodic tm && activated tm then rt_timer_start id (put_timer id (set_activated false tm) ts)
  else Ok (put_timer id (set_activated false tm) ts).

(** The timer of a thread is not started again. *)
Lemma thread_rearm id tm ts2 tm2 ts3 s th : loop_ok s -> dom (threads s) = D ->
  threads s !! id = Some th -> timers (ktimers s) !! id = Some tm ->
  thread_cb id (_rt_timer_remove id (ktimers s)) = Ok ts2 -> timers ts2 !! id = Some tm2 ->
  rearm id tm2 ts2 = Ok ts3 -> forall x, runnable x -> timer_ok ts3 id x.
Proof.
  intros Hk HD Eth Etm Hcb2 Etm2 Hre x Hr. unfold thread_cb in Hcb2.
  rewrite decide_True in Hcb2 by (rewrite <- HD; by eapply elem_of_dom_2).
  injection Hcb2 as <-. cbn in Etm2. rewrite Etm in Etm2. injection Etm2 as <-.
  assert (periodic tm = false) as Hp.
  { pose proof (lk_timer _ Hk id th Eth) as Ht. unfold timer_ok in Ht.
    destruct (stat th); try congruence; destruct Ht as (tm' & E' & ? & _); congruence. }
  unfold rearm in Hre. rewrite Hp in Hre. injection Hre as <-.
  assert (id ∉ rt_timer_list (put_timer id (set_activated false tm) (_rt_timer_remove id (ktimers s))))
    as Hni by (cbn; rewrite list_elem_of_filter; tauto).
  unfold timer_ok. destruct Hr as [-> | ->]; exists (set_activated false tm);
    (split; [cbn; by rewrite lookup_insert_eq|done]).
Qed.

Lemma rearm_local id tm tm2 s ts2 ts3 : timers (ktimers s) !! id = Some tm ->
  thread_cb id (_rt_timer_remove id (ktimers s)) = Ok ts2 -> rearm id tm2 ts2 = Ok ts3 ->
  tlocal id (ktimers s) ts3.
Proof.
  intros Etm Hcb2 Hre. eapply tlocal_trans; [apply tlocal_remove|].
  eapply tlocal_trans; [by eapply tlocal_cb; [apply thread_cb_simple|]|].
  eapply tlocal_trans; [apply (tlocal_put id (set_activated false tm2))|].
  unfold rearm in Hre. destruct (_ && _); [by eapply tlocal_start|]. injection Hre as <-. by intros x Hx.
Qed.

(** The state before the next round. *)
Lemma round_ok id tm ts2 tm2 ts3 s s2 : loop_ok s -> dom (threads s) = D ->
  timers (ktimers s) !! id = Some tm ->
  thread_cb id (_rt_timer_remove id (ktimers s)) = Ok ts2 -> timers ts2 !! id = Some tm2 ->
  rearm id tm2 ts2 = Ok ts3 -> sched_ok s2 -> objs_ok s2 -> is_Some (rt_current_thread s2) ->
  tick_effects [id] s s2 -> loop_ok (with_ktimers ts3 s2).
Proof.
  intros Hk HD Etm Hcb2 Etm2 Hre S2 O2 C2 He2.
  split; [eapply sched_ext, S2; try done; apply S2|by destruct O2| |done].
  intros t th2 Eth2. cbn. pose proof (He2 t) as Het. cbn in Eth2. rewrite Eth2 in Het.
  destruct (threads s !! t) as [th|] eqn:Eth; [|done]. unfold tick_effect in Het.
  destruct (decide (t = id)) as [->|Hn].
  - rewrite decide_True in Het by (by apply list_elem_of_singleton).
    eapply (thread_rearm id tm ts2 tm2 ts3 s th); try done. apply Het.
  - pose proof (lk_timer _ Hk t th Eth) as Ht.
    eapply timer_ok_local; [by eapply rearm_local|done|].
    rewrite decide_False in Het by (by rewrite list_elem_of_singleton).
    destruct Het as [_ [->|[? ?]]]; [done|]. by eapply timer_ok_runnable.
Qed.

(** The loop on the kernel does what it does on the timers alone, and the
    timeouts of the threads that expire. *)
Lemma check_loop_sim fuel ct s fired ts' : loop_ok s -> dom (threads s) = D ->
  timer_check_loop thread_cb fuel ct (ktimers s) = Ok (fired, ts') ->
  exists s', kernel_timer_check cb fuel ct s = Ok (fired, s') /\ ktimers s' = ts' /\ loop_ok s'
  /\ tick_effects fired s s' /\ tick_rest fired s s'.
Proof.
  revert ct s fired ts'. induction fuel as [|fuel IH]; intros ct s fired ts' Hk HD H; [done|].
  cbn [timer_check_loop kernel_timer_check] in *.
  assert (forall l ts, Ok (l, ts) = Ok (fired, ts') -> l = [] -> ts = ktimers s -> exists s',
    Ok (l, s) = Ok (fired, s') /\ ktimers s' = ts' /\ loop_ok s' /\ tick_effects fired s s'
    /\ tick_rest fired s s') as Hstop.
  { intros l ts [= -> ->] -> ->. exists s. split_and!; try done; [apply frame_effects, frame_refl|].
    apply rest_frame; [apply Hk|apply frame_refl|by left]. }
  destruct (rt_timer_list (ktimers s)) as [|id l] eqn:El; [by eapply Hstop|].
  destruct (timers (ktimers s) !! id) as [tm|] eqn:Etm; [|done].
  destruct (_ <? _); [|by eapply Hstop].
  bind_inv H. rename a into ts2, Ha into Hcb2.
  destruct (run_timeout_ok id l tm s ts2 Hk HD El Etm Hcb2) as (s2 & E2 & Ets2 & S2 & O2 & C2 & He2 & Hr2).
  rewrite E2, bind_ret_l, Ets2. destruct (timers ts2 !! id) as [tm2|] eqn:Etm2; [|done].
  bind_inv H. rename a into ts3, Ha into Hre. rewrite Hre, bind_ret_l.
  destruct a0 as [fired' ts4]. injection H as <- <-.
  pose proof (round_ok id tm ts2 tm2 ts3 s s2 Hk HD Etm Hcb2 Etm2 Hre S2 O2 C2 He2) as Hk3.
  destruct (IH (rt_tick ts2) (with_ktimers ts3 s2) fired' ts4 Hk3) as (s' & E' & Et' & Hk' & He' & Hr').
  { cbn. by rewrite (effects_dom _ _ _ He2). }
  { done. }
  exists s'. rewrite E', bind_ret_l. change (id :: fired') with ([id] ++ fired').
  split_and!; try done; [by eapply effects_trans|]. eapply rest_trans; [exact Hr2|]. by destruct Hr'.
Qed.
End check_loop.

(** A change of a thread that no list, timer or object depends on. *)
Lemma kernel_upd f t s : kernel_ok s ->
  (forall th, stat (f th) = stat th /\ current_priority (f th) = current_priority th
     /\ init_priority (f th) = init_priority th /\ number_mask (f th) = number_mask th) ->
  kernel_ok (upd_thread f t s).
Proof.
  intros [[H C Hl] T TT [O1 O2 O3 O4]] Hf.
  assert (forall x th', threads (upd_thread f t s) !! x = Some th' -> exists th,
    threads s !! x = Some th /\ stat th' = stat th) as Hx.
  { intros x th' E. cbn in E. destruct (decide (x = t)) as [->|Hn].
    - rewrite lookup_alter_eq in E. apply fmap_Some in E as (th & E & ->). exists th.
      split; [done|apply Hf].
    - rewrite lookup_alter_ne in E by done. by exists th'. }
  split; [split; [by apply lists_frame| |done]|done| |split; try done].
  - unfold cur_ok in *. cbn. destruct (rt_current_thread s) as [c|].
    + destruct C as [(thc & Ec & H1 & H2) H3]. split.
      * destruct (decide (c = t)) as [->|Hn].
        -- exists (f thc). rewrite lookup_alter_eq, Ec. destruct (Hf thc) as [-> _]. done.
        -- exists thc. by rewrite lookup_alter_ne.
      * intros x (th' & E & Es). destruct (Hx x th' E) as (th & E0 & Es0). apply H3.
        exists th. split; [done|congruence].
    + intros x (th' & E & Es). destruct (Hx x th' E) as (th & E0 & Es0). apply (C x).
      exists th. split; [done|congruence].
  - intros x th' E. destruct (Hx x th' E) as (th & E0 & ->). by apply TT.
  - intros x th' E Hs. destruct (Hx x th' E) as (th & E0 & Es0). eapply O2; [done|congruence].
  - intros x Hx'. cbn. destruct (decide (x = t)) as [->|Hn].
    + rewrite lookup_alter_eq. by apply fmap_is_Some, O3.
    + rewrite lookup_alter_ne by done. by apply O3.
Qed.

Lemma slice_sched sl t s : kernel_ok s -> kernel_ok (upd_thread (with_slice sl) t s).
Proof. intros Hk. by apply kernel_upd. Qed.

(** The part before the timers: the time slice, and the yield at its end. *)
Lemma slice_ok s c th (ts := rt_tick_set (u32 (rt_tick_get (ktimers s) + 1)) (ktimers s)) :
  kernel_ok s -> rt_current_thread s = Some c -> threads s !! c = Some th ->
  exists sl s2,
  (let remaining := u32 (remaining_tick (slice th) - 1) in
   if remaining =? 0 then
     '(_, s) ← rt_thread_yield (upd_thread (with_slice (mkSlice (slice_tick (slice th))
                                  (slice_tick (slice th)))) c (with_ktimers ts s));
     Ok s
   else Ok (upd_thread (with_slice (mkSlice remaining (slice_tick (slice th)))) c (with_ktimers ts s)))
  = Ok s2 /\ loop_ok s2 /\ ktimers s2 = ts /\ tick_effects [] (upd_thread (with_slice sl) c s) s2
  /\ tick_rest [] s s2.
Proof.
  intros Hk Hc Ht. cbv zeta.
  assert (forall sl, sched_ok (upd_thread (with_slice sl) c (with_ktimers ts s))) as Hs1.
  { intros sl. eapply sched_ext, (ko_sched _ (slice_sched sl c s Hk)); try done. apply Hk. }
  assert (forall sl, loop_ok (upd_thread (with_slice sl) c (with_ktimers ts s))) as Hl1.
  { intros sl. split; [done|destruct (ko_objs _ (slice_sched sl c s Hk)) as [O1 O2 O3 O4]; by split| |by exists c].
    intros x th' E. exact (ko_timer _ (slice_sched sl c s Hk) x th' E). }
  assert (forall sl, tick_rest [] s (upd_thread (with_slice sl) c (with_ktimers ts s))) as Hr1.
  { intros sl. split; try done; [intros k; by rewrite filter_notin_nil|].
    intros (c' & Hc' & thc & Ec & Es). exists c'. split; [done|]. exists (if decide (c' = c) then with_slice sl thc else thc).
    cbn. case_decide as Hn; [subst c'; by rewrite lookup_alter_eq, Ec|by rewrite lookup_alter_ne]. }
  destruct (_ =? 0).
  - set (sl := mkSlice _ _). exists sl.
    destruct (rt_schedule_ok _ c (Hs1 sl) Hc) as [E Hs2].
    pose proof (schedule_ref_frame _ (Hs1 sl)) as F. set (s1 := upd_thread _ c _) in *.
    exists (schedule_ref s1). unfold rt_thread_yield. rewrite E. split; [done|]. split.
    + destruct (Hl1 sl) as [_ O T _]. split; [done|by eapply objs_frame|by eapply timers_frame|].
      destruct (schedule_ref_kept s1 (Hs1 sl)) as [->|(c' & -> & _)]; [by exists c|done].
    + split; [by rewrite (sf_timers _ _ F)|]. split; [exact (frame_effects _ _ F)|].
      apply (rest_trans [] [] s s1); [exact (Hr1 sl)|]. by apply rest_frame; [| |apply schedule_ref_kept, Hs1].
  - set (sl := mkSlice _ _). exists sl. eexists. split; [done|]. split; [apply Hl1|].
    split; [done|]. split; [exact (frame_effects (upd_thread (with_slice sl) c s) _ (frame_refl _))|].
    apply Hr1.
Qed.

Section tick_theorems.
Context (cb : Z -> tstate -> res tstate) (stops : Z -> bool) (Hcb : simple_cb stops cb).

(** The timers that stop themselves when they expire: none of a thread. *)
Definition user_stops (s : kstate) (id : Z) : bool :=
  if decide (id ∈ dom (threads s)) then false else stops id.

Lemma kernel_tick_ok fuel s c : kernel_ok s -> rt_current_thread s = Some c ->
  (length (rt_timer_list (ktimers s)) < fuel)%nat ->
  exists sl s', kernel_tick cb fuel s = Ok (due (ktimers s), s') /\ kernel_ok s'
  /\ is_Some (rt_current_thread s')
  /\ tick_effects (due (ktimers s)) (upd_thread (with_slice sl) c s) s'
  /\ rt_tick (ktimers s') = u32 (rt_tick (ktimers s) + 1)
  /\ (forall id, timers (ktimers s') !! id = if decide (id ∈ due (ktimers s))
        then after_expiry (user_stops s) (rt_tick (ktimers s')) id <$> timers (ktimers s) !! id
        else timers (ktimers s) !! id)
  /\ rt_timer_list (ktimers s') ≡ₚ
       filter (fun id => rearmed (user_stops s) (timers (ktimers s)) id = true) (due (ktimers s))
       ++ not_due (ktimers s)
  /\ tick_rest (due (ktimers s)) s s'.
Proof.
  intros Hk Hc Hf. destruct (current_lookup s c (ko_sched _ Hk) Hc) as (th & Ht & _).
  destruct (slice_ok s c th Hk Hc Ht) as (sl & s2 & E & Hl & Ets & He & Hr).
  destruct (tick_lemma _ _ fuel (ktimers s) (thread_cb_simple cb stops Hcb (dom (threads s)))
    (proj1 (ko_time _ Hk)) (proj2 (ko_time _ Hk)) Hf) as (ts' & Et & Etk & Hi & Hw & Hm & Hp).
  destruct (check_loop_sim cb stops Hcb (dom (threads s)) fuel (rt_tick (ktimers s2)) s2
    (due (ktimers s)) ts' Hl) as (s' & E' & Ets' & Hl' & He' & Hr').
  { rewrite (effects_dom _ _ _ He). cbn. apply dom_alter_L. }
  { rewrite Ets. exact Et. }
  exists sl, s'. split.
  - unfold kernel_tick, rt_thread_self, get_thread. cbn [with_ktimers rt_current_thread threads].
    rewrite Hc, Ht, bind_ret_l. cbv zeta in *. rewrite E, bind_ret_l. done.
  - rewrite Ets'. split.
    { destruct Hl' as [S O T _]. split; [done|by rewrite Ets'|done|done]. }
    split; [apply Hl'|]. split; [exact (effects_trans [] _ _ _ _ He He')|].
    split_and!; try done. exact (rest_trans [] _ _ _ _ Hr Hr').
Qed.
End tick_theorems.

(** *** Waking up *)

Section wake.
Context (cb : Z -> tstate -> res tstate) (stops : Z -> bool) (Hcb : simple_cb stops cb).

(** [n] tick interrupts in a row. *)
Fixpoint tick_interrupts (fuel n : nat) (s : kstate) : res kstate :=
  match n with
  | O => Ok s
  | S n' => '(_, s) ← SysTick_Handler cb fuel s; tick_interrupts fuel n' s
  end.

(** What the interrupt does to a thread that waits with its timer running. *)
Record waits (t : Z) (left : Z) (s : kstate) : Prop := {
  wt_kernel : kernel_ok s;
  wt_cur : is_Some (rt_current_thread s);
  wt_stat : has_stat s t RT_THREAD_SUSPEND;
  wt_list : t ∈ rt_timer_list (ktimers s);
  wt_left : ticks_left (rt_tick (ktimers s)) (timers (ktimers s)) t = left }.

Lemma interrupt_ok fuel s : kernel_ok s -> is_Some (rt_current_thread s) ->
  (size (timers (ktimers s)) < fuel)%nat ->
  exists sl c s', SysTick_Handler cb fuel s = Ok (due (ktimers s), s') /\ kernel_ok s'
  /\ is_Some (rt_current_thread s')
  /\ tick_effects (due (ktimers s)) (upd_thread (with_slice sl) c s) s'
  /\ rt_tick (ktimers s') = u32 (rt_tick (ktimers s) + 1)
  /\ size (timers (ktimers s')) = size (timers (ktimers s))
  /\ (forall id, id ∉ due (ktimers s) -> timers (ktimers s') !! id = timers (ktimers s) !! id)
  /\ (forall id, id ∈ not_due (ktimers s) -> id ∈ rt_timer_list (ktimers s'))
  /\ (0 <= rt_interrupt_nest s < 255 -> tick_rest (due (ktimers s)) s s').
Proof.
  intros Hk [c Hc] Hf.
  assert (kernel_ok (rt_interrupt_enter s)) as Hk1 by (apply kernel_nest; [done|apply Hk]).
  destruct (kernel_tick_ok cb stops Hcb fuel (rt_interrupt_enter s) c Hk1 Hc)
    as (sl & s1 & E & Hk2 & Hc2 & He & Etk & Hm & Hp & Hr).
  { pose proof (list_fits (ktimers s) (proj1 (ko_time _ Hk))). cbn. lia. }
  exists sl, c, (rt_interrupt_leave s1). unfold SysTick_Handler. rewrite E, bind_ret_l.
  split; [done|]. split; [apply kernel_nest; [done|apply Hk2]|]. split; [done|]. split; [done|].
  split; [done|]. split; [|split; [|split]].
  - exact (timers_size_same _ _ _ _ Hm).
  - intros id Hid. cbn. rewrite Hm. cbn. by rewrite decide_False.
  - intros id Hid. cbn. rewrite Hp. apply elem_of_app. by right.
  - intros Hn. destruct Hr as [W L N O R]. split; try done. cbn. cbn in N. rewrite N, !u8_id by mlia. lia.
Qed.

Lemma stat_slice sl c s t x : has_stat s t x <-> has_stat (upd_thread (with_slice sl) c s) t x.
Proof.
  unfold has_stat. cbn. destruct (decide (t = c)) as [->|Hn]; [|by rewrite lookup_alter_ne].
  rewrite lookup_alter_eq. destruct (threads s !! c) as [th|]; cbn.
  - split; intros (th' & [= <-] & <-); by eexists.
  - split; intros (? & [=] & _).
Qed.

Lemma interrupt_waits fuel t left s : waits t left s -> 2 <= left ->
  (size (timers (ktimers s)) < fuel)%nat ->
  exists fired s', SysTick_Handler cb fuel s = Ok (fired, s') /\ waits t (left - 1) s'
  /\ size (timers (ktimers s')) = size (timers (ktimers s)).
Proof.
  intros [Hk Hc Hs Hl Hleft] H2 Hf.
  destruct (interrupt_ok fuel s Hk Hc Hf) as (sl & c & s' & E & Hk' & Hc' & He & Etk & Hsz & Hm & Hp).
  assert (t ∉ due (ktimers s)) as Hnd by (intros [? _]%list_elem_of_filter; lia).
  exists (due (ktimers s)), s'. split; [done|]. split; [|done]. split; try done.
  - apply (stat_slice sl c) in Hs as (th & Eth & Es). specialize (He t). rewrite Eth in He.
    destruct (threads s' !! t) as [th'|] eqn:Eth'; [|done]. unfold tick_effect in He.
    rewrite decide_False in He by done. exists th'. split; [done|].
    destruct He as [_ [->|[_ [?|?]]]]; congruence.
  - apply Hp. apply list_elem_of_filter. split; [lia|done].
  - pose proof (ord_range _ _ _ _ _ (proj2 (proj1 (ko_time _ Hk))) t Hl) as Hg.
    unfold ticks_left, deadline in *. rewrite Hm by done. rewrite Etk. tick_lia.
Qed.

Lemma interrupt_wakes fuel t left s th : waits t left s -> left <= 1 -> threads s !! t = Some th ->
  (size (timers (ktimers s)) < fuel)%nat ->
  exists fired s' th', SysTick_Handler cb fuel s = Ok (fired, s') /\ kernel_ok s'
  /\ threads s' !! t = Some th' /\ runnable (stat th') /\ error th' = - RT_ETIMEOUT.
Proof.
  intros [Hk Hc Hs Hl Hleft] H2 Eth Hf.
  destruct (interrupt_ok fuel s Hk Hc Hf) as (sl & c & s' & E & Hk' & Hc' & He & _).
  assert (t ∈ due (ktimers s)) as Hd by (apply list_elem_of_filter; split; [lia|done]).
  exists (due (ktimers s)), s'. destruct Hs as (th0 & Eth0 & Es).
  assert (exists th1, threads (upd_thread (with_slice sl) c s) !! t = Some th1) as [th1 Eth1].
  { cbn. destruct (decide (t = c)) as [->|Hn].
    - rewrite lookup_alter_eq, Eth. by eexists.
    - rewrite lookup_alter_ne by done. by eexists. }
  specialize (He t). rewrite Eth1 in He. destruct (threads s' !! t) as [th'|]; [|done].
  exists th'. unfold tick_effect in He. rewrite decide_True in He by done. destruct He as [Hr ->].
  split_and!; done.
Qed.

Lemma interrupts_wait fuel t k left s : waits t left s ->
  (size (timers (ktimers s)) < fuel)%nat -> Z.of_nat k < Z.max 1 left ->
  exists s', tick_interrupts fuel k s = Ok s' /\ waits t (left - Z.of_nat k) s'
  /\ size (timers (ktimers s')) = size (timers (ktimers s)).
Proof.
  revert left s. induction k as [|k IH]; intros left s Hw Hf Hk.
  { exists s. replace (left - Z.of_nat 0) with left by lia. done. }
  destruct (interrupt_waits fuel t left s Hw ltac:(lia) Hf) as (fired & s1 & E & Hw1 & Hsz).
  destruct (IH (left - 1) s1 Hw1 ltac:(lia) ltac:(lia)) as (s' & E' & Hw' & Hsz').
  exists s'. cbn [tick_interrupts]. rewrite E, bind_ret_l, E'. split; [done|].
  replace (left - Z.of_nat (S k)) with (left - 1 - Z.of_nat k) by lia. split; [done|congruence].
Qed.

Lemma tick_interrupts_app fuel m n s : tick_interrupts fuel (m + n) s
  = (s ← tick_interrupts fuel m s; tick_interrupts fuel n s).
Proof.
  revert s. induction m as [|m IH]; intros s; [done|]. cbn [Nat.add tick_interrupts].
  destruct (SysTick_Handler cb fuel s) as [[f s1]|]; [|done]. rewrite !bind_ret_l. apply IH.
Qed.

(** C21: A running thread that calls [rt_thread_sleep] for [n] ticks waits for
    exactly [max 1 n] tick interrupts, whatever the other threads and timers do
    in them: after fewer it is suspended, after that many it is ready or running
    again, [rt_thread_sleep] clears its timeout error and returns [RT_EOK]; the
    kernel invariant holds throughout. *)
Theorem sleep_wakes_on_time n fuel s c : kernel_ok s -> rt_current_thread s = Some c ->
  has_stat s c RT_THREAD_RUNNING -> 0 <= n < HALF -> (size (timers (ktimers s)) < fuel)%nat ->
  exists s1, rt_thread_sleep n s = Ok s1
  /\ (forall k, Z.of_nat k < Z.max 1 n ->
        exists s2, tick_interrupts fuel k s1 = Ok s2 /\ kernel_ok s2 /\ has_stat s2 c RT_THREAD_SUSPEND)
  /\ exists s3 s4 th, tick_interrupts fuel (Z.to_nat (Z.max 1 n)) s1 = Ok s3 /\ kernel_ok s3
       /\ rt_thread_sleep_end c s3 = Ok (RT_EOK, s4)
       /\ threads s4 !! c = Some th /\ runnable (stat th) /\ error th = RT_EOK.
Proof.
  intros Hk Hc Hs Hn Hf.
  destruct (sleep_ok n s c Hk Hc Hs Hn) as (ts & s1 & E & Hk1 & _ & _ & F & Etk & Hin & Hleft & Hsz & Hc1).
  exists s1. split; [done|]. pose proof (sf_timers _ _ F) as Et. cbn in Et.
  assert (waits c n s1) as Hw.
  { split; [done|done| |by rewrite Et|by rewrite Et].
    destruct Hs as (th & Eth & _). apply (frame_stat _ _ _ _ F); [by intros [|]|].
    eexists. cbn. rewrite lookup_alter_eq, Eth. done. }
  assert (size (timers (ktimers s1)) < fuel)%nat as Hf1 by (rewrite Et; lia).
  split.
  - intros k Hk'. destruct (interrupts_wait fuel c k n s1 Hw Hf1 Hk') as (s2 & E2 & Hw2 & _).
    exists s2. split; [done|]. split; apply Hw2.
  - set (k := Z.to_nat (Z.max 1 n - 1)). destruct (interrupts_wait fuel c k n s1 Hw Hf1 ltac:(lia))
      as (s2 & E2 & Hw2 & Hsz2).
    destruct (wt_stat _ _ _ Hw2) as (th2 & Eth2 & _).
    destruct (interrupt_wakes fuel c _ s2 th2 Hw2 ltac:(lia) Eth2 ltac:(lia))
      as (fired & s3 & th3 & E3 & Hk3 & Eth3 & Hr & Herr).
    exists s3, (upd_thread (with_error RT_EOK) c s3), (with_error RT_EOK th3).
    split; [|split; [done|split; [|split; [|done]]]].
    + replace (Z.to_nat (Z.max 1 n)) with (k + 1)%nat by lia.
      rewrite tick_interrupts_app, E2, bind_ret_l. cbn [tick_interrupts]. by rewrite E3.
    + unfold rt_thread_sleep_end, get_thread. rewrite Eth3, bind_ret_l, Herr. done.
    + cbn. by rewrite lookup_alter_eq, Eth3.
Qed.
End wake.

(** *** Starting the system *)

Definition kernel_empty : kstate :=
  rt_system_scheduler_init (mkK ∅ [] [] 0 ∅ [] None 0 0 0 (mkT ∅ [] 0)).

Lemma kernel_empty_ok : kernel_ok kernel_empty.
Proof.
  assert (forall p l, replicate 32 ([] : list Z) !! p = Some l -> l = []) as Hnil
    by (by intros p l [-> _]%lookup_replicate).
  split.
  - split; [split; cbn -[replicate]; try done| |done].
    + intros p l ->%Hnil. constructor.
    + intros p l t ->%Hnil Hin. set_solver.
    + split; [constructor|set_solver].
    + intros t (th & E & _). done.
  - split; [split; [done|split; set_solver || constructor]|]. by intros id t.
  - done.
  - split; cbn; [constructor|done|set_solver|set_solver].
Qed.

Lemma scheduler_start_ok p to s : kernel_ok s -> rt_current_thread s = None ->
  top_ready (rt_thread_priority_table s) = Some (p, to) ->
  exists s', rt_system_scheduler_start s = Ok s' /\ kernel_ok s' /\ rt_current_thread s' = Some to
  /\ has_stat s' to RT_THREAD_RUNNING.
Proof.
  intros Hk Hc Htop. pose proof (ko_sched _ Hk) as [H C Hl].
  pose proof Htop as [[l Hq] _]%top_ready_Some.
  destruct (lo_ready _ _ H p _ to Hq ltac:(by left)) as (_ & th & Eth & Es & _).
  set (s1 := with_current (Some to) (rt_current_priority s) s).
  destruct (switch_to p to l (Some to) s1) as (s2 & E2 & Eq & Hl2); [by apply lists_current|done|done|].
  assert (threads (set_stat RT_THREAD_RUNNING to s2) !! to = Some (with_stat RT_THREAD_RUNNING th)) as Eto
    by (rewrite Eq; cbn; by rewrite lookup_alter_eq, Eth).
  assert (forall x, x <> to -> threads (set_stat RT_THREAD_RUNNING to s2) !! x = threads s !! x) as Eo
    by (intros x Hn; rewrite Eq; cbn; by rewrite lookup_alter_ne).
  exists (set_stat RT_THREAD_RUNNING to s2). split.
  { unfold rt_system_scheduler_start. rewrite get_highest, Htop, bind_ret_l by apply H.
    fold s1. by rewrite E2. }
  split; [|split; [by rewrite Eq|by eexists]].
  assert (ktimers (set_stat RT_THREAD_RUNNING to s2) = ktimers s) as Et by (by rewrite Eq).
  apply (kernel_local to s); try done; rewrite ?Et; try done.
  - split; [done| |by rewrite Eq]. unfold cur_ok.
    replace (rt_current_thread (set_stat RT_THREAD_RUNNING to s2)) with (Some to) by (by rewrite Eq).
    split; [by eexists|]. intros x (thx & Ex & Esx). destruct (decide (x = to)) as [->|Hn]; [done|].
    rewrite Eo in Ex by done. unfold cur_ok in C. rewrite Hc in C. exfalso. apply (C x). by exists thx.
  - apply Hk.
  - intros th' E'. rewrite Eto in E'. injection E' as <-.
    eapply timer_ok_runnable, (ko_timer _ Hk to th Eth); [by left|by right].
  - apply (objs_local to s); try done; [apply Hk|by rewrite Eq| |].
    + eapply (ob_live _ (ko_objs _ Hk)); [done|congruence].
    + rewrite Eq. intros x Hx. by left.
Qed.

(** *** Cleaning up dead threads *)

(** The list of dead threads after one call: those up to the first static one
    are gone. *)
Fixpoint after_cleanup (s : kstate) (l : list Z) : list Z :=
  match l with
  | [] => []
  | t :: l' => match threads s !! t with
               | Some th => if is_system th then l' else after_cleanup s l'
               | None => l'
               end
  end.

Section idle_ok.
Context (cleanup_fn : Z -> kstate -> res kstate).
(** The clean-up function of a thread leaves the kernel as it is. *)
Context (Hclean : forall t s, cleanup_fn t s = Ok s).

Lemma unlink_defunct_ok t l s : kernel_ok s -> rt_thread_defunct s = t :: l ->
  kernel_ok (rt_list_remove t s) /\ rt_thread_defunct (rt_list_remove t s) = l
  /\ unlinked t (rt_list_remove t s).
Proof.
  intros Hk Hd. pose proof (ko_sched _ Hk) as [H C Hl].
  destruct (proj2 (lo_defunct _ _ H) t ltac:(rewrite Hd; by left)) as (_ & th & Eth & Es).
  rewrite (list_remove_eq t th) by (done || congruence).
  pose proof (removed_ok None t s H ltac:(by left)) as Hr.
  assert (rt_thread_defunct (removed t s) = l) as Ed.
  { cbn. rewrite Hd. apply remove_head. pose proof (proj1 (lo_defunct _ _ H)) as N.
    rewrite Hd in N. by apply list.NoDup_cons in N as [? _]. }
  split; [|split; [done|by apply lists_ok_unlinked]].
  destruct (ko_objs _ Hk) as [O1 O2 O3 O4].
  split; [split; [eapply close_hole; [done|]|done|done]|apply Hk|apply Hk|split; try done].
  - intros (th' & E' & Es'). cbn in E'. congruence.
  - intros x Hx. cbn in Hx. apply O4. apply elem_of_unlink in Hx. tauto.
Qed.

(** Dropping a closed thread that is in no list. *)
Lemma object_delete_ok t th s : kernel_ok s -> threads s !! t = Some th ->
  stat th = RT_THREAD_CLOSE -> is_system th = false -> unlinked t s -> rt_current_thread s <> Some t ->
  exists s', rt_object_delete t s = Ok s' /\ kernel_ok s'
  /\ s' = with_threads (delete t (threads s)) (with_objects (unlink t (thread_objects s)) s).
Proof.
  intros Hk Ht Hs Hsys Hu Hc. unfold rt_object_delete, get_thread, rt_assert.
  rewrite Ht, bind_ret_l, Hsys. cbn [negb]. rewrite bind_ret_l. eexists. split; [done|]. split; [|done].
  pose proof (ko_sched _ Hk) as [H C Hl]. destruct (ko_objs _ Hk) as [O1 O2 O3 O4].
  assert (forall x, x <> t -> delete t (threads s) !! x = threads s !! x) as Eo
    by (intros x Hn; by apply lookup_delete_ne).
  apply (kernel_local t s); try done.
  - split; [|apply (cur_change s _ t); try done|done].
    + apply (close_hole t).
      * apply (hole_threads (delete t (threads s)) t (with_objects (unlink t (thread_objects s)) s)); [|done|].
        -- eapply lists_ext, (open_hole t s H Hu); done.
        -- by rewrite lookup_delete_eq.
      * intros (th' & E' & _). cbn in E'. by rewrite lookup_delete_eq in E'.
    + rewrite bool_decide_eq_false_2 by done. cbn. by rewrite lookup_delete_eq.
  - apply Hk.
  - cbn. rewrite lookup_delete_eq. by intros.
  - split; cbn.
    + by apply NoDup_unlink.
    + intros x th' E Hx. apply lookup_delete_Some in E as [Hn E]. apply elem_of_unlink.
      split; [done|]. by eapply O2.
    + intros x [Hn Hx]%elem_of_unlink. rewrite Eo by done. by apply O3.
    + intros x Hx. apply elem_of_unlink. split; [|by apply O4]. intros ->. by apply Hu.
Qed.

Lemma closed_unlinked t s : lists_ok None s -> has_stat s t RT_THREAD_CLOSE ->
  t ∉ rt_thread_defunct s -> unlinked t s.
Proof.
  intros H (th & E & Es) Hd. split_and!; [| |done].
  - intros p l Hl Hin. destruct (lo_ready _ _ H p l t Hl Hin) as (_ & th' & E' & ? & _). congruence.
  - intros k l Hl Hin. destruct (proj2 (lo_wait _ _ H k l Hl) t Hin) as (_ & th' & E' & ?). congruence.
Qed.

Lemma object_detach_ok t s : kernel_ok s -> has_stat s t RT_THREAD_CLOSE -> t ∉ rt_thread_defunct s ->
  kernel_ok (rt_object_detach t s).
Proof.
  intros [S T TT [O1 O2 O3 O4]] (th & E & Es) Hd. split; try done.
  - eapply sched_ext, S; try done. apply S.
  - split; cbn.
    + by apply NoDup_unlink.
    + intros x th' E' Hx. apply elem_of_unlink. split; [congruence|]. by eapply O2.
    + intros x [Hn Hx]%elem_of_unlink. by apply O3.
    + intros x Hx. apply elem_of_unlink. split; [congruence|]. by apply O4.
Qed.

Lemma after_cleanup_ext s s' l :
  (forall x, x ∈ l -> is_system <$> threads s' !! x = is_system <$> threads s !! x) ->
  after_cleanup s' l = after_cleanup s l.
Proof.
  induction l as [|t l IH]; intros Hx; [done|]. cbn. pose proof (Hx t ltac:(by left)) as Et.
  destruct (threads s' !! t) as [a|], (threads s !! t) as [b|]; try done. cbn in Et.
  injection Et as ->. destruct (is_system b); [done|]. apply IH. intros x Hin. apply Hx. by right.
Qed.

(** A dynamic thread is dropped and the loop goes on. *)
Lemma drop_dead t th l s : kernel_ok s -> lock_room s -> rt_interrupt_nest s = 0 -> cur_runs s ->
  rt_thread_defunct s = t :: l -> threads s !! t = Some th -> stat th = RT_THREAD_CLOSE ->
  is_system th = false ->
  exists s3 s4, rt_exit_critical (rt_enter_critical (rt_list_remove t s)) = Ok s3
  /\ rt_object_delete t s3 = Ok s4 /\ kernel_ok s4 /\ lock_room s4 /\ rt_interrupt_nest s4 = 0
  /\ cur_runs s4 /\ rt_thread_defunct s4 = l /\ after_cleanup s4 l = after_cleanup s l.
Proof.
  intros Hk Hr Hn Hc Hd Ht Hs Hsys. destruct (unlink_defunct_ok t l s Hk Hd) as (Hk1 & Hd1 & Hu).
  destruct (critical_ok (rt_list_remove t s) Hk1 Hr) as (s3 & E3 & Hk3 & F & Hcur).
  pose proof F as [F1 F2 F3 F4 F5 F6 F7].
  assert (cur_runs s3) as Hc3 by (eapply (cur_runs_frame (rt_list_remove t s)); [apply Hk3|done..]).
  destruct (F7 t) as (x & Ex & Hx). change (threads (rt_list_remove t s)) with (threads s) in *.
  rewrite Ht in Ex. assert (x = RT_THREAD_CLOSE) as ->.
  { destruct (Hx th Ht) as [->|[_ [?|?]]]; congruence. }
  assert (t ∉ rt_thread_defunct s3) as Hnd by (rewrite F2; apply Hu).
  assert (forall c, rt_current_thread s3 = Some c -> c <> t) as Hct.
  { intros c Ec ->. destruct Hc3 as (c' & Ec' & th' & E' & Es').
    rewrite Ec in Ec'. injection Ec' as <-. rewrite Ex in E'. by injection E' as <-. }
  destruct (object_delete_ok t _ s3 Hk3 Ex eq_refl Hsys) as (s4 & E4 & Hk4 & ->).
  { apply closed_unlinked; [apply Hk3|by eexists|done]. }
  { intros Ec. by apply (Hct t). }
  exists s3. eexists. split; [done|]. split; [done|]. split; [done|].
  split; [unfold lock_room; cbn; by rewrite F4|]. split; [cbn; by rewrite F5|]. split; [|split].
  - destruct Hc3 as (c & Ec & th' & E' & Es'). exists c. split; [done|]. exists th'. cbn.
    by rewrite lookup_delete_ne by (intros ->; by apply (Hct c)).
  - cbn. by rewrite F2.
  - apply after_cleanup_ext. intros y Hy. cbn.
    rewrite lookup_delete_ne by (intros ->; rewrite F2, Hd1 in Hnd; done).
    destruct (F7 y) as (z & -> & _). cbn. by destruct (threads s !! y).
Qed.

Lemma idle_excute_ok fuel s : kernel_ok s -> lock_room s -> rt_interrupt_nest s = 0 -> cur_runs s ->
  (length (rt_thread_defunct s) < fuel)%nat ->
  exists s', rt_thread_idle_excute cleanup_fn fuel s = Ok s' /\ kernel_ok s'
  /\ rt_thread_defunct s' = after_cleanup s (rt_thread_defunct s).
Proof.
  revert s. induction fuel as [|fuel IH]; intros s Hk Hr Hn Hc Hf; [lia|].
  cbn [rt_thread_idle_excute]. destruct (rt_thread_defunct s) as [|t l] eqn:Hd; [by exists s|].
  destruct (proj2 (lo_defunct _ _ (so_lists _ (ko_sched _ Hk))) t ltac:(rewrite Hd; by left))
    as (_ & th & Ht & Hs).
  unfold rt_assert, get_thread. rewrite Hn. cbn [Z.eqb]. rewrite bind_ret_l, Ht, bind_ret_l. cbv zeta.
  assert ((if cleanup th then cleanup_fn t (rt_enter_critical (rt_list_remove t s))
    else Ok (rt_enter_critical (rt_list_remove t s))) = Ok (rt_enter_critical (rt_list_remove t s))) as ->
    by (destruct (cleanup th); [apply Hclean|done]).
  rewrite bind_ret_l. cbn [after_cleanup]. rewrite Ht. destruct (is_system th) eqn:Hsys.
  - destruct (unlink_defunct_ok t l s Hk Hd) as (Hk1 & Hd1 & Hu).
    assert (kernel_ok (rt_object_detach t (rt_list_remove t s))) as Hk2.
    { apply object_detach_ok; [done|by exists th|apply Hu]. }
    destruct (critical_ok _ Hk2 Hr) as (s' & E' & Hk' & F & _).
    exists s'. split; [exact E'|]. split; [done|]. by rewrite (sf_defunct _ _ F).
  - destruct (drop_dead t th l s Hk Hr Hn Hc Hd Ht Hs Hsys)
      as (s3 & s4 & E3 & E4 & Hk4 & Hr4 & Hn4 & Hc4 & Hd4 & Ea).
    rewrite E3, bind_ret_l, E4, bind_ret_l.
    destruct (IH s4 Hk4 Hr4 Hn4 Hc4) as (s' & E' & Hk' & Hd'); [rewrite Hd4; cbn in Hf; lia|].
    exists s'. split; [done|]. split; [done|]. by rewrite Hd', Hd4.
Qed.
End idle_ok.

(** ** All operations together *)

Inductive thread_op : Type :=
| OpInit (t : Z) (nm : list Z) (prio tick : Z)
| OpCreate (mem : option Z) (stack : bool) (nm : list Z) (prio tick : Z)
| OpStartup (t : Z) | OpResume (t : Z) | OpSuspend (t : Z) | OpPriority (t p : Z)
| OpDetach (t : Z) | OpDelete (t : Z) | OpExit
| OpYield | OpSleep (tick : Z) | OpSleepEnd (t : Z) | OpFind (nm : list Z)
| OpEnterCritical | OpExitCritical | OpStart | OpTick | OpIdle.

Section ops.
Context (cb : Z -> tstate -> res tstate) (stops : Z -> bool) (Hcb : simple_cb stops cb).
Context (cleanup_fn : Z -> kstate -> res kstate) (Hclean : forall t s, cleanup_fn t s = Ok s).

Definition run_op (op : thread_op) (s : kstate) : res kstate :=
  match op with
  | OpInit t nm prio tick => '(_, s) ← rt_thread_init t nm prio tick s; Ok s
  | OpCreate mem stack nm prio tick => '(_, s) ← rt_thread_create mem stack nm prio tick s; Ok s
  | OpStartup t => '(_, s) ← rt_thread_startup t s; Ok s
  | OpResume t => '(_, s) ← rt_thread_resume t s; Ok s
  | OpSuspend t => '(_, s) ← rt_thread_suspend t s; Ok s
  | OpPriority t p => '(_, s) ← rt_thread_control t (RT_THREAD_CTRL_CHANGE_PRIORITY p) s; Ok s
  | OpDetach t => '(_, s) ← rt_thread_detach t s; Ok s
  | OpDelete t => '(_, s) ← rt_thread_delete t s; Ok s
  | OpExit => rt_thread_exit s
  | OpYield => '(_, s) ← rt_thread_yield s; Ok s
  | OpSleep tick => rt_thread_sleep tick s
  | OpSleepEnd t => '(_, s) ← rt_thread_sleep_end t s; Ok s
  | OpFind nm => '(_, s) ← rt_thread_find nm s; Ok s
  | OpEnterCritical => Ok (rt_enter_critical s)
  | OpExitCritical => rt_exit_critical s
  | OpStart => rt_system_scheduler_start s
  | OpTick => '(_, s) ← SysTick_Handler cb (S (size (timers (ktimers s)))) s; Ok s
  | OpIdle => rt_thread_idle_excute cleanup_fn (S (length (rt_thread_defunct s))) s
  end.

(** What a caller has to see to. *)
Definition allowed (op : thread_op) (s : kstate) : Prop :=
  match op with
  | OpInit t _ prio _ => fresh_thread t s /\ 0 <= prio < 32 /\ lock_room s
  | OpCreate mem _ _ prio _ => rt_interrupt_nest s = 0 /\ 0 <= prio < 32 /\ lock_room s
      /\ forall t, mem = Some t -> fresh_thread t s /\ threads s !! t = None
  | OpStartup t => has_stat s t RT_THREAD_INIT
  | OpResume t | OpSuspend t => t ∈ thread_objects s
  | OpPriority t p => t ∈ thread_objects s /\ 0 <= p < 32
  | OpDetach t => t ∈ thread_objects s /\ exists th, threads s !! t = Some th /\ is_system th = true
  | OpDelete t => t ∈ thread_objects s /\ exists th, threads s !! t = Some th /\ is_system th = false
  | OpExit => cur_runs s
  | OpYield | OpTick => is_Some (rt_current_thread s)
  | OpSleep tick => cur_runs s /\ 0 <= tick < HALF
  | OpSleepEnd t => is_Some (threads s !! t)
  | OpFind _ | OpEnterCritical => lock_room s
  | OpExitCritical => rt_scheduler_lock_nest s < 32768
  | OpStart => rt_current_thread s = None /\ exists t, has_stat s t RT_THREAD_READY
  | OpIdle => lock_room s /\ rt_interrupt_nest s = 0 /\ cur_runs s
  end.

Lemma bind_fst {A} (m : res (A * kstate)) a s : m = Ok (a, s) -> ('(_, s) ← m; Ok s) = Ok s.
Proof. by intros ->. Qed.

Lemma resume_any t s : kernel_ok s -> t ∈ thread_objects s ->
  exists e s', rt_thread_resume t s = Ok (e, s') /\ kernel_ok s'.
Proof.
  intros Hk Hin. destruct (ob_threads _ (ko_objs _ Hk) t Hin) as [th Ht].
  destruct (decide (stat th = RT_THREAD_SUSPEND)) as [Hs|Hs].
  - destruct (resume_ok t th s Hk Ht Hs) as [E Hk']. by eexists _, _.
  - exists (- RT_ERROR), s. unfold rt_thread_resume, get_thread, rt_assert, is_thread.
    by rewrite Ht, bind_ret_l, (bool_decide_eq_true_2 (t ∈ _)), bind_ret_l, bool_decide_eq_false_2 by done.
Qed.

Lemma suspend_any t s : kernel_ok s -> t ∈ thread_objects s ->
  exists e s', rt_thread_suspend t s = Ok (e, s') /\ kernel_ok s'.
Proof.
  intros Hk Hin. destruct (ob_threads _ (ko_objs _ Hk) t Hin) as [th Ht].
  destruct (decide (stat th = RT_THREAD_READY)) as [Hs|Hs];
    [|destruct (decide (stat th = RT_THREAD_RUNNING)) as [Hs'|Hs']].
  - destruct (suspend_ok t th s Hk Ht) as [E Hk']; [by left|]. by eexists _, _.
  - destruct (suspend_ok t th s Hk Ht) as [E Hk']; [by right|]. by eexists _, _.
  - exists (- RT_ERROR), s. unfold rt_thread_suspend, get_thread, rt_assert, is_thread.
    by rewrite Ht, bind_ret_l, (bool_decide_eq_true_2 (t ∈ _)), bind_ret_l,
      !bool_decide_eq_false_2 by done.
Qed.

Lemma find_ok nm s : kernel_ok s -> lock_room s ->
  exists r s', rt_thread_find nm s = Ok (r, s') /\ kernel_ok s'.
Proof.
  intros Hk Hr. unfold rt_thread_find, rt_thread_self. destruct (rt_current_thread s) as [c|] eqn:Hc.
  - change (rt_current_thread (rt_enter_critical s)) with (rt_current_thread s). rewrite Hc.
    destruct (critical_ok s Hk Hr) as (s' & E & Hk' & _).
    rewrite E, bind_ret_l. by eexists _, s'.
  - rewrite Hc, bind_ret_l. by eexists _, s.
Qed.

Lemma start_any s : kernel_ok s -> rt_current_thread s = None -> (exists t, has_stat s t RT_THREAD_READY) ->
  exists s', rt_system_scheduler_start s = Ok s' /\ kernel_ok s'.
Proof.
  intros Hk Hc (t & th & Ht & Hs). destruct (top_ready (rt_thread_priority_table s)) as [[p to]|] eqn:E.
  - destruct (scheduler_start_ok p to s Hk Hc E) as (s' & E' & Hk' & _). by exists s'.
  - exfalso. apply top_ready_None in E.
    destruct (lo_queued _ _ (so_lists _ (ko_sched _ Hk)) t th Ht Hs ltac:(done)) as (l & Hl & Hin).
    destruct (lo_prio _ _ (so_lists _ (ko_sched _ Hk)) t th Ht) as (Hp & _).
    assert (Z.testbit (group_of (rt_thread_priority_table s)) (current_priority th) = true) as Hb.
    { rewrite group_of_bit by lia. rewrite Hl. destruct l; [set_solver|done]. }
    by rewrite E, Z.bits_0 in Hb.
Qed.

Lemma op_ok op s : kernel_ok s -> allowed op s -> exists s', run_op op s = Ok s' /\ kernel_ok s'.
Proof.
  intros Hk Ha. destruct op; cbn [allowed run_op] in *.
  - destruct Ha as (Hf & Hp & Hr).
    destruct (rt_thread_init_ok t nm prio tick s Hk Hf Hp Hr) as (s' & E & Hk' & _).
    exists s'. by rewrite E.
  - destruct Ha as (Hn & Hp & Hr & Hm).
    destruct (rt_thread_create_ok mem stack nm prio tick s Hk Hn Hm Hp Hr) as (r & s' & E & Hk' & _).
    exists s'. by rewrite E.
  - destruct Ha as (th & Ht & Hs). destruct (startup_ok t th s Hk Ht Hs) as (s' & E & Hk' & _).
    exists s'. by rewrite E.
  - destruct (resume_any t s Hk Ha) as (e & s' & E & Hk'). exists s'. by rewrite E.
  - destruct (suspend_any t s Hk Ha) as (e & s' & E & Hk'). exists s'. by rewrite E.
  - destruct Ha as [Hin Hp]. destruct (ob_threads _ (ko_objs _ Hk) t Hin) as [th Ht].
    destruct (change_priority_ok p t th s Hk Ht Hin Hp) as (s' & E & Hk' & _). exists s'. by rewrite E.
  - destruct Ha as (Hin & th & Ht & Hsys).
    destruct (detach_thread_ok t th s Hk Ht Hin Hsys) as (s' & E & Hk' & _). exists s'. by rewrite E.
  - destruct Ha as (Hin & th & Ht & Hsys).
    destruct (delete_thread_ok t th s Hk Ht Hin Hsys) as (s' & E & Hk' & _). exists s'. by rewrite E.
  - destruct Ha as (c & Hc & Hs). destruct (exit_ok s c Hk Hc Hs) as (s' & E & Hk' & _). by exists s'.
  - destruct Ha as [c Hc]. destruct (kernel_schedule s c Hk Hc) as (s' & E & Hk' & _). exists s'.
    unfold rt_thread_yield. by rewrite E.
  - destruct Ha as ((c & Hc & Hs) & Ht).
    destruct (sleep_ok tick s c Hk Hc Hs Ht) as (ts & s' & E & Hk' & _). by exists s'.
  - destruct Ha as [th Ht]. unfold rt_thread_sleep_end, get_thread. rewrite Ht, !bind_ret_l.
    eexists. split; [done|]. destruct (_ =? _); [|done]. by apply kernel_upd.
  - destruct (find_ok nm s Hk Ha) as (r & s' & E & Hk'). exists s'. by rewrite E.
  - eexists. split; [done|]. by apply enter_critical_ok.
  - by apply exit_critical_ok.
  - destruct Ha as [Hc Hr]. by apply start_any.
  - destruct (interrupt_ok cb stops Hcb (S (size (timers (ktimers s)))) s Hk Ha ltac:(lia))
      as (sl & c & s' & E & Hk' & _). exists s'. by rewrite E.
  - destruct Ha as (Hr & Hn & Hc).
    destruct (idle_excute_ok cleanup_fn Hclean (S (length (rt_thread_defunct s))) s Hk Hr Hn Hc ltac:(lia))
      as (s' & E & Hk' & _). by exists s'.
Qed.

(** The states the kernel can reach from its initial one. *)
Inductive reachable : kstate -> Prop :=
| reach_init : reachable kernel_empty
| reach_op op s s' : reachable s -> allowed op s -> run_op op s = Ok s' -> reachable s'.

(** C6: In every state the kernel reaches from its initialisation by thread
    operations, scheduler calls, tick interrupts and idle rounds, in any order
    that meets the callers' obligations ([allowed]), the invariant holds - a
    thread is ready exactly if it is in the ready queue of its priority, a bit
    of the group is set exactly if that queue holds a thread, waiting, ready
    and dead lists are disjoint, the current thread is in none of them and the
    only running one, a thread timer runs only while its thread is suspended -
    and every further allowed operation returns: no assertion fails, no list
    node is linked twice and no table is left. *)
Theorem kernel_reachable_ok s : reachable s ->
  kernel_ok s /\ forall op, allowed op s -> exists s', run_op op s = Ok s'.
Proof.
  intros Hr. assert (kernel_ok s) as Hk.
  { induction Hr as [|op s s' Hr IH Ha E]; [apply kernel_empty_ok|].
    destruct (op_ok op s IH Ha) as (s1 & E1 & Hk1). congruence. }
  split; [done|]. intros op Ha. destruct (op_ok op s Hk Ha) as (s' & E & _). by exists s'.
Qed.
End ops.

(** ** A started system: the idle thread and one of priority 10 *)

Definition no_cb (id : Z) (ts : tstate) : res tstate := Ok ts.
Definition no_cleanup (t : Z) (s : kstate) : res kstate := Ok s.
Lemma no_cb_simple : simple_cb (fun _ => false) no_cb.
Proof. done. Qed.

Definition do_op (op : thread_op) (s : kstate) : kstate :=
  match run_op no_cb no_cleanup op s with Ok s' => s' | Fault _ => s end.

Lemma do_op_reachable op s : reachable no_cb no_cleanup s -> allowed op s ->
  is_Ok (run_op no_cb no_cleanup op s) = true -> reachable no_cb no_cleanup (do_op op s).
Proof.
  intros Hr Ha Hok. unfold do_op. destruct (run_op no_cb no_cleanup op s) as [s'|] eqn:E; [|done].
  by eapply reach_op.
Qed.

Definition boot1 : kstate := do_op (OpInit 1 (text "tidle") 31 32) kernel_empty.
Definition boot2 : kstate := do_op (OpStartup 1) boot1.
Definition boot3 : kstate := do_op (OpInit 2 (text "main") 10 20) boot2.
Definition boot4 : kstate := do_op (OpStartup 2) boot3.
Definition boot : kstate := do_op OpStart boot4.

(** Facts about a concrete state, by evaluation. *)
Definition stat_is (s : kstate) (t : Z) (x : thread_stat) : bool :=
  match threads s !! t with Some th => bool_decide (stat th = x) | None => false end.
Lemma stat_is_true s t x : stat_is s t x = true -> has_stat s t x.
Proof.
  unfold stat_is, has_stat. destruct (threads s !! t) as [th|]; [|done].
  intros H%bool_decide_eq_true. by exists th.
Qed.
#[global] Instance timer_eq_dec : EqDecision rt_timer.
Proof. solve_decision. Defined.

Definition fresh_is (s : kstate) (t : Z) : bool :=
  bool_decide (t ∉ thread_objects s) && bool_decide (timers (ktimers s) !! t = None)
  && bool_decide (rt_current_thread s <> Some t).
Lemma fresh_is_true s t : fresh_is s t = true -> fresh_thread t s.
Proof. unfold fresh_is. rewrite !andb_true_iff, !bool_decide_eq_true. by intros [[? ?] ?]. Qed.
Definition room_is (s : kstate) : bool :=
  (0 <=? rt_scheduler_lock_nest s) && (rt_scheduler_lock_nest s <? 32767).
Lemma room_is_true s : room_is s = true -> lock_room s.
Proof. unfold room_is, lock_room. rewrite andb_true_iff, Z.leb_le, Z.ltb_lt. done. Qed.

Lemma boot_reachable : reachable no_cb no_cleanup boot.
Proof.
  apply do_op_reachable; [|split; [by vm_compute|exists 2; apply stat_is_true; by vm_compute]|by vm_compute].
  apply do_op_reachable; [|apply stat_is_true; by vm_compute|by vm_compute].
  apply do_op_reachable; [|split; [apply fresh_is_true; by vm_compute|split; [lia|apply room_is_true; by vm_compute]]|by vm_compute].
  apply do_op_reachable; [|apply stat_is_true; by vm_compute|by vm_compute].
  apply do_op_reachable; [apply reach_init| |by vm_compute].
  split; [apply fresh_is_true; by vm_compute|split; [lia|apply room_is_true; by vm_compute]].
Qed.

Lemma reachable_kernel_ok s : reachable no_cb no_cleanup s -> kernel_ok s.
Proof.
  intros H. induction H as [|op s s' Hr IH Ha E]; [apply kernel_empty_ok|].
  destruct (op_ok no_cb _ no_cb_simple no_cleanup (fun _ _ => eq_refl) op s IH Ha) as (s1 & E1 & Hk1).
  congruence.
Qed.
Lemma boot_ok : kernel_ok boot.
Proof. exact (reachable_kernel_ok boot boot_reachable). Qed.

Lemma rt_schedule_correct_witness : sched_ok boot /\ rt_current_thread boot = Some 2
  /\ rt_schedule boot = Ok (schedule_ref boot).
Proof.
  assert (rt_current_thread boot = Some 2) as Hc by (by vm_compute).
  split; [exact (ko_sched _ boot_ok)|]. split; [exact Hc|].
  exact (proj1 (rt_schedule_correct boot 2 (ko_sched _ boot_ok) Hc)).
Defined.

Lemma kernel_reachable_ok_witness : reachable no_cb no_cleanup boot /\ kernel_ok boot.
Proof.
  split; [exact boot_reachable|].
  exact (proj1 (kernel_reachable_ok no_cb _ no_cb_simple no_cleanup (fun _ _ => eq_refl) boot boot_reachable)).
Defined.

Lemma sleep_wakes_on_time_witness : exists s1, rt_thread_sleep 3 boot = Ok s1
  /\ exists s3 s4 th, tick_interrupts no_cb 3 3 s1 = Ok s3 /\ kernel_ok s3
     /\ rt_thread_sleep_end 2 s3 = Ok (RT_EOK, s4)
     /\ threads s4 !! 2 = Some th /\ runnable (stat th) /\ error th = RT_EOK.
Proof.
  destruct (sleep_wakes_on_time no_cb _ no_cb_simple 3 3 boot 2 boot_ok) as (s1 & E & _ & H).
  - by vm_compute.
  - apply stat_is_true. by vm_compute.
  - by vm_compute.
  - by apply Nat.ltb_lt; vm_compute.
  - exists s1. split; [exact E|exact H].
Defined.
