(* ===== verification/KernelIpc.v ===== *)
(** * Semaphores, mutexes and events (src/ipc.c)

    The IPC objects over the threads of [KernelThread].  An object is named by
    a number (its address); the list of threads that wait for it is
    [suspend_thread] of that number.  A blocking call is split where it calls
    the scheduler: it returns [Blocked] with what remains to be done, and
    [resume_call] is that rest, run when the thread is current again.  If the
    scheduler does not switch (it is locked), that is at once. *)
From stdpp Require Import gmap sorting.
From S2P Require Import Prelude KernelTimer KernelSched KernelThread.

Definition RT_IPC_FLAG_FIFO : Z := 0.
Definition RT_IPC_FLAG_PRIO : Z := 1.

Record rt_semaphore := mkSem { sem_value : Z; sem_flag : Z }.
Record rt_mutex := mkMutex {
  mtx_value : Z; original_priority : Z; hold : Z; owner : option Z; mtx_flag : Z }.
Record rt_event := mkEvent { ev_set : Z; ev_flag : Z }.
Record rt_mailbox := mkMb {
  msg_pool : list Z; mb_size : Z; mb_entry : Z; in_offset : Z; out_offset : Z; mb_flag : Z }.
(** Messages are the slots of a pool, linked through [mq_next]. *)
Record rt_messagequeue := mkMq {
  msg_size : Z; max_msgs : Z; mq_entry : Z;
  msg_queue_head : option Z; msg_queue_tail : option Z; msg_queue_free : option Z;
  mq_next : list (option Z); mq_data : list (list Z); mq_flag : Z }.

Inductive ipc_object : Type :=
| Semaphore (x : rt_semaphore) | Mutex (x : rt_mutex) | Event (x : rt_event)
| MailBox (x : rt_mailbox) | MessageQueue (x : rt_messagequeue).

(** [statics]: the objects that are static memory. *)
Record istate := mkI { kern : kstate; objects : gmap Z ipc_object; statics : gset Z }.
Definition with_kern (k : kstate) (s : istate) : istate := mkI k (objects s) (statics s).
Definition put_object (o : Z) (x : ipc_object) (s : istate) : istate :=
  mkI (kern s) (<[o := x]> (objects s)) (statics s).

(** A kernel operation. *)
Definition lift (f : kstate -> res kstate) (s : istate) : res istate :=
  k ← f (kern s); Ok (with_kern k s).
Definition lift_pure (f : kstate -> kstate) (s : istate) : istate := with_kern (f (kern s)) s.

(** The type check of the object. *)
Definition get_sem (o : Z) (s : istate) : res rt_semaphore :=
  match objects s !! o with Some (Semaphore x) => Ok x | _ => Fault AssertFail end.
Definition get_mutex (o : Z) (s : istate) : res rt_mutex :=
  match objects s !! o with Some (Mutex x) => Ok x | _ => Fault AssertFail end.
Definition get_event (o : Z) (s : istate) : res rt_event :=
  match objects s !! o with Some (Event x) => Ok x | _ => Fault AssertFail end.

(** What a call returns: its code, and what it stores through its pointer. *)
Inductive pending : Type :=
| PSemTake (o : Z)
| PMutexTake (o time : Z)
| PEventRecv
| PMbSend (o value timeout tick_delta : Z)
| PMbRecv (o timeout tick_delta : Z)
| PMqRecv (o size timeout tick_delta : Z).
Inductive outcome : Type :=
| Done (code : Z) (stored : list Z)
| Blocked (rest : pending).

(** [RT_DEBUG_IN_THREAD_CONTEXT]; returns the current thread. *)
Definition in_thread_context (s : istate) : res Z :=
  match rt_current_thread (kern s) with
  | Some t => if rt_interrupt_nest (kern s) =? 0 then Ok t else Fault AssertFail
  | None => Fault AssertFail
  end.

(** ** Waiting lists *)

(** [rt_ipc_object_init] *)
Definition rt_ipc_object_init (k : wait_list) (s : kstate) : kstate :=
  with_waits (<[k := []]> (wait_lists s)) s.

Definition prio_of (s : kstate) (t : Z) : Z :=
  match threads s !! t with Some th => current_priority th | None => 0 end.

(** Before the first thread of a lower priority. *)
Fixpoint insert_prio (s : kstate) (t : Z) (l : list Z) : list Z :=
  match l with
  | [] => [t]
  | x :: l' => if prio_of s t <? prio_of s x then t :: l else x :: insert_prio s t l'
  end.

Definition rt_ipc_list_suspend (k : wait_list) (t flag : Z) (s : kstate) : res kstate :=
  '(_, s) ← rt_thread_suspend t s;
  if (flag =? RT_IPC_FLAG_FIFO) || (flag =? RT_IPC_FLAG_PRIO) then
    if linked t s then Fault ListCorrupt
    else Ok (with_waits (<[k := if flag =? RT_IPC_FLAG_FIFO then wlist k s ++ [t]
                                else insert_prio s t (wlist k s)]> (wait_lists s)) s)
  else Ok s.

(** The thread the list's [next] points to; an empty list has none. *)
Definition rt_ipc_list_resume (k : wait_list) (s : kstate) : res kstate :=
  match wlist k s with
  | [] => Fault OutOfBounds
  | t :: _ => '(_, s) ← rt_thread_resume t s; Ok s
  end.

(** [fuel] bounds the rounds of the loop. *)
Fixpoint resume_all_loop (fuel : nat) (k : wait_list) (s : kstate) : res kstate :=
  match wlist k s with
  | [] => Ok s
  | t :: _ =>
      match fuel with
      | O => Fault Hang
      | S fuel' =>
          '(_, s) ← rt_thread_resume t (upd_thread (with_error (- RT_ERROR)) t s);
          resume_all_loop fuel' k s
      end
  end.
Definition rt_ipc_list_resume_all (k : wait_list) (s : kstate) : res kstate :=
  resume_all_loop (length (wlist k s)) k s.

(** The timer of a waiting thread; a negative time waits forever. *)
Definition start_waiting (t time : Z) (s : kstate) : res kstate :=
  if 0 <? time then start_thread_timer t time s else Ok s.

(** Suspend, start the timer, call the scheduler. *)
Definition block (k : wait_list) (t flag time : Z) (s : istate) : res istate :=
  s ← lift (rt_ipc_list_suspend k t flag) s;
  s ← lift (start_waiting t time) s;
  lift rt_schedule s.

(** Registration of a static object; the search for it ends in a scheduler
    call. *)
Definition ipc_init_lists (o : Z) (x : ipc_object) (s : kstate) : kstate :=
  let s := rt_ipc_object_init (suspend_thread o) s in
  match x with MailBox _ => rt_ipc_object_init (suspend_sender_thread o) s | _ => s end.
Definition ipc_object_init (o : Z) (x : ipc_object) (s : istate) : res istate :=
  match objects s !! o with
  | Some _ => Fault AssertFail
  | None =>
      s ← lift (fun k => rt_exit_critical (rt_enter_critical k)) s;
      let s := put_object o x (lift_pure (ipc_init_lists o x) s) in
      Ok (mkI (kern s) (objects s) ({[o]} ∪ statics s))
  end.
(** A dynamic object; [mem] is what the heap returns. *)
Definition ipc_object_create (mem : option Z) (x : ipc_object) (s : istate)
    : res (option Z * istate) :=
  if negb (rt_interrupt_nest (kern s) =? 0) then Fault AssertFail
  else match mem with
       | None => Ok (None, s)
       | Some o =>
           let s := put_object o x (lift_pure (ipc_init_lists o x) s) in
           Ok (Some o, mkI (kern s) (objects s) (statics s ∖ {[o]}))
       end.

(** The end of an object: the waiting threads are woken with an error. *)
Definition wake_waiting (o : Z) (x : ipc_object) (s : istate) : res istate :=
  s ← lift (rt_ipc_list_resume_all (suspend_thread o)) s;
  match x with
  | MailBox _ => lift (rt_ipc_list_resume_all (suspend_sender_thread o)) s
  | _ => Ok s
  end.
Definition ipc_object_detach (o : Z) (x : ipc_object) (s : istate) : res (Z * istate) :=
  if negb (bool_decide (o ∈ statics s)) then Fault AssertFail
  else s ← wake_waiting o x s; Ok (RT_EOK, mkI (kern s) (delete o (objects s)) (statics s)).
Definition ipc_object_delete (o : Z) (x : ipc_object) (s : istate) : res (Z * istate) :=
  if negb (rt_interrupt_nest (kern s) =? 0) || bool_decide (o ∈ statics s) then Fault AssertFail
  else s ← wake_waiting o x s; Ok (RT_EOK, mkI (kern s) (delete o (objects s)) (statics s)).

(** ** Semaphores *)

Definition rt_sem_init (o value flag : Z) (s : istate) : res (Z * istate) :=
  if negb (value <? 0x10000) then Fault AssertFail
  else s ← ipc_object_init o (Semaphore (mkSem (u16 value) flag)) s; Ok (RT_EOK, s).

Definition rt_sem_create (mem : option Z) (value flag : Z) (s : istate) : res (option Z * istate) :=
  if negb (value <? 0x10000) then Fault AssertFail
  else ipc_object_create mem (Semaphore (mkSem (u16 value) flag)) s.

Definition rt_sem_detach (o : Z) (s : istate) : res (Z * istate) :=
  x ← get_sem o s; ipc_object_detach o (Semaphore x) s.
Definition rt_sem_delete (o : Z) (s : istate) : res (Z * istate) :=
  x ← get_sem o s; ipc_object_delete o (Semaphore x) s.

Definition rt_sem_take (o time : Z) (s : istate) : res (outcome * istate) :=
  sem ← get_sem o s;
  if 0 <? sem_value sem then
    Ok (Done RT_EOK [], put_object o (Semaphore (mkSem (u16 (sem_value sem - 1)) (sem_flag sem))) s)
  else if time =? 0 then Ok (Done (- RT_ETIMEOUT) [], s)
  else
    t ← in_thread_context s;
    let s := lift_pure (upd_thread (with_error RT_EOK) t) s in
    s ← block (suspend_thread o) t (sem_flag sem) time s;
    Ok (Blocked (PSemTake o), s).

Definition rt_sem_trytake (o : Z) (s : istate) : res (outcome * istate) := rt_sem_take o 0 s.

Definition rt_sem_release (o : Z) (s : istate) : res (Z * istate) :=
  sem ← get_sem o s;
  match wlist (suspend_thread o) (kern s) with
  | _ :: _ =>
      s ← lift (rt_ipc_list_resume (suspend_thread o)) s;
      s ← lift rt_schedule s;
      Ok (RT_EOK, s)
  | [] => Ok (RT_EOK, put_object o (Semaphore (mkSem (u16 (sem_value sem + 1)) (sem_flag sem))) s)
  end.

(** [RT_IPC_CMD_RESET], or another command. *)
Definition rt_sem_control (o : Z) (reset : option Z) (s : istate) : res (Z * istate) :=
  sem ← get_sem o s;
  match reset with
  | None => Ok (- RT_ERROR, s)
  | Some value =>
      s ← lift (rt_ipc_list_resume_all (suspend_thread o)) s;
      let s := put_object o (Semaphore (mkSem (u16 value) (sem_flag sem))) s in
      s ← lift rt_schedule s;
      Ok (RT_EOK, s)
  end.

(** ** Mutexes *)

Definition rt_mutex_init (o flag : Z) (s : istate) : res (Z * istate) :=
  s ← ipc_object_init o (Mutex (mkMutex 1 0xFF 0 None flag)) s; Ok (RT_EOK, s).

Definition rt_mutex_create (mem : option Z) (flag : Z) (s : istate) : res (option Z * istate) :=
  ipc_object_create mem (Mutex (mkMutex 1 0xFF 0 None flag)) s.

Definition rt_mutex_detach (o : Z) (s : istate) : res (Z * istate) :=
  x ← get_mutex o s; ipc_object_detach o (Mutex x) s.
Definition rt_mutex_delete (o : Z) (s : istate) : res (Z * istate) :=
  x ← get_mutex o s; ipc_object_delete o (Mutex x) s.

Definition change_priority (t p : Z) (s : kstate) : res kstate :=
  '(_, s) ← rt_thread_control t (RT_THREAD_CTRL_CHANGE_PRIORITY p) s; Ok s.

(** From the label [__again] on. *)
Definition mutex_try (o t time : Z) (s : istate) : res (outcome * istate) :=
  m ← get_mutex o s;
  th ← get_thread t (kern s);
  if 0 <? mtx_value m then
    Ok (Done RT_EOK [],
        put_object o (Mutex (mkMutex (u16 (mtx_value m - 1)) (current_priority th)
                               (u8 (hold m + 1)) (Some t) (mtx_flag m))) s)
  else if time =? 0 then
    Ok (Done (- RT_ETIMEOUT) [], lift_pure (upd_thread (with_error (- RT_ETIMEOUT)) t) s)
  else
    match owner m with
    | None => Fault NullDeref
    | Some ow =>
        tho ← get_thread ow (kern s);
        s ← (if current_priority th <? current_priority tho
             then lift (change_priority ow (current_priority th)) s else Ok s);
        s ← block (suspend_thread o) t (mtx_flag m) time s;
        Ok (Blocked (PMutexTake o time), s)
    end.

Definition rt_mutex_take (o time : Z) (s : istate) : res (outcome * istate) :=
  t ← in_thread_context s;
  m ← get_mutex o s;
  let s := lift_pure (upd_thread (with_error RT_EOK) t) s in
  if bool_decide (owner m = Some t) then
    Ok (Done RT_EOK [], put_object o (Mutex (mkMutex (mtx_value m) (original_priority m)
                                               (u8 (hold m + 1)) (owner m) (mtx_flag m))) s)
  else mutex_try o t time s.

Definition rt_mutex_release (o : Z) (s : istate) : res (Z * istate) :=
  m ← get_mutex o s;
  t ← in_thread_context s;
  if negb (bool_decide (owner m = Some t)) then
    Ok (- RT_ERROR, lift_pure (upd_thread (with_error (- RT_ERROR)) t) s)
  else
    let h := u8 (hold m - 1) in
    if negb (h =? 0) then
      Ok (RT_EOK, put_object o (Mutex (mkMutex (mtx_value m) (original_priority m) h (owner m)
                                         (mtx_flag m))) s)
    else
      th ← get_thread t (kern s);
      s ← (if negb (original_priority m =? current_priority th)
           then lift (change_priority t (original_priority m)) s else Ok s);
      match wlist (suspend_thread o) (kern s) with
      | w :: _ =>
          thw ← get_thread w (kern s);
          let s := put_object o (Mutex (mkMutex (mtx_value m) (current_priority thw) (u8 (h + 1))
                                          (Some w) (mtx_flag m))) s in
          s ← lift (rt_ipc_list_resume (suspend_thread o)) s;
          s ← lift rt_schedule s;
          Ok (RT_EOK, s)
      | [] =>
          Ok (RT_EOK, put_object o (Mutex (mkMutex (u16 (mtx_value m + 1)) 0xff h None (mtx_flag m))) s)
      end.

Definition rt_mutex_control (o : Z) (s : istate) : res (Z * istate) :=
  _ ← get_mutex o s; Ok (- RT_ERROR, s).

(** ** Events *)

Definition RT_EVENT_FLAG_AND : Z := 0x01.
Definition RT_EVENT_FLAG_OR : Z := 0x02.
Definition RT_EVENT_FLAG_CLEAR : Z := 0x04.
Definition has_flag (x f : Z) : bool := negb (Z.land x f =? 0).

Definition rt_event_init (o flag : Z) (s : istate) : res (Z * istate) :=
  s ← ipc_object_init o (Event (mkEvent 0 flag)) s; Ok (RT_EOK, s).

Definition rt_event_create (mem : option Z) (flag : Z) (s : istate) : res (option Z * istate) :=
  ipc_object_create mem (Event (mkEvent 0 flag)) s.

Definition rt_event_detach (o : Z) (s : istate) : res (Z * istate) :=
  x ← get_event o s; ipc_object_detach o (Event x) s.
Definition rt_event_delete (o : Z) (s : istate) : res (Z * istate) :=
  x ← get_event o s; ipc_object_delete o (Event x) s.

(** One waiting thread in the loop of [rt_event_send]: what it has received,
    if it is woken. *)
Definition event_match (set : Z) (th : rt_thread) : option Z :=
  if has_flag (event_info th) RT_EVENT_FLAG_AND then
    if Z.land (event_set th) set =? event_set th then Some (event_set th) else None
  else if has_flag (event_info th) RT_EVENT_FLAG_OR then
    if negb (Z.land (event_set th) set =? 0) then Some (Z.land (event_set th) set) else None
  else None.

(** The loop over the list as it was at the start: a thread is taken off it
    only when it is its turn.  With the set left and whether one was woken. *)
Fixpoint event_wake (l : list Z) (set : Z) (woken : bool) (s : kstate) : res (Z * bool * kstate) :=
  match l with
  | [] => Ok (set, woken, s)
  | t :: l' =>
      th ← get_thread t s;
      match event_match set th with
      | Some got =>
          let s := upd_thread (with_event got (event_info th)) t s in
          let set := if has_flag (event_info th) RT_EVENT_FLAG_CLEAR then Z.ldiff set got else set in
          '(_, s) ← rt_thread_resume t s;
          event_wake l' set true s
      | None => event_wake l' set woken s
      end
  end.

Definition rt_event_send (o set : Z) (s : istate) : res (Z * istate) :=
  e ← get_event o s;
  if set =? 0 then Ok (- RT_ERROR, s)
  else
    '(set', woken, k) ← event_wake (wlist (suspend_thread o) (kern s)) (Z.lor (ev_set e) set) false (kern s);
    let s := put_object o (Event (mkEvent set' (ev_flag e))) (with_kern k s) in
    s ← (if woken : bool then lift rt_schedule s else Ok s);
    Ok (RT_EOK, s).

Definition rt_event_recv (o set option timeout : Z) (s : istate) : res (outcome * istate) :=
  t ← in_thread_context s;
  e ← get_event o s;
  if set =? 0 then Ok (Done (- RT_ERROR) [], s)
  else
    let s := lift_pure (upd_thread (with_error RT_EOK) t) s in
    received ← (if has_flag option RT_EVENT_FLAG_AND then Ok (Z.land (ev_set e) set =? set)
                else if has_flag option RT_EVENT_FLAG_OR then Ok (negb (Z.land (ev_set e) set =? 0))
                else Fault AssertFail);
    if received : bool then
      let s := put_object o (Event (mkEvent
                 (if has_flag option RT_EVENT_FLAG_CLEAR then Z.ldiff (ev_set e) set else ev_set e)
                 (ev_flag e))) s in
      Ok (Done RT_EOK [Z.land (ev_set e) set], s)
    else if timeout =? 0 then
      Ok (Done (- RT_ETIMEOUT) [], lift_pure (upd_thread (with_error (- RT_ETIMEOUT)) t) s)
    else
      let s := lift_pure (upd_thread (with_event set option) t) s in
      s ← block (suspend_thread o) t (ev_flag e) timeout s;
      Ok (Blocked PEventRecv, s).

Definition rt_event_control (o : Z) (reset : bool) (s : istate) : res (Z * istate) :=
  e ← get_event o s;
  if reset then
    s ← lift (rt_ipc_list_resume_all (suspend_thread o)) s;
    let s := put_object o (Event (mkEvent 0 (ev_flag e))) s in
    s ← lift rt_schedule s;
    Ok (RT_EOK, s)
  else Ok (- RT_ERROR, s).

(** ** The waiting lists keep the kernel consistent *)

Lemma wlist_lookup k s l t : wait_lists s !! k = Some l -> t ∈ l -> t ∈ wlist k s.
Proof. unfold wlist. by intros ->. Qed.

Lemma wlist_elem k s t : t ∈ wlist k s -> exists l, wait_lists s !! k = Some l /\ t ∈ l /\ wlist k s = l.
Proof.
  unfold wlist. destruct (wait_lists s !! k) as [l|]; cbn; [|set_solver]. intros H. by exists l.
Qed.

Lemma waiting_stat k s t : lists_ok None s -> t ∈ wlist k s -> has_stat s t RT_THREAD_SUSPEND.
Proof.
  intros H (l & E & Hin & _)%wlist_elem. by apply (lo_wait _ _ H k l E).
Qed.

Lemma wlist_nodup k s : lists_ok None s -> NoDup (wlist k s).
Proof.
  intros H. unfold wlist. destruct (wait_lists s !! k) as [l|] eqn:E; [|constructor].
  by apply (lo_wait _ _ H k l E).
Qed.

Lemma wlist_disjoint k k' s t : lists_ok None s -> t ∈ wlist k s -> t ∈ wlist k' s -> k = k'.
Proof.
  intros H (l & E & Hin & _)%wlist_elem (l' & E' & Hin' & _)%wlist_elem. by eapply lo_wait_one.
Qed.

Lemma wlist_removed k t s : wlist k (removed t s) = unlink t (wlist k s).
Proof. unfold wlist. cbn. rewrite lookup_fmap. by destruct (wait_lists s !! k). Qed.

Lemma wlist_insert k l s : wlist k (with_waits (<[k := l]> (wait_lists s)) s) = l.
Proof. unfold wlist. cbn. by rewrite lookup_insert_eq. Qed.
Lemma wlist_insert_ne k k' l s : k' <> k ->
  wlist k' (with_waits (<[k := l]> (wait_lists s)) s) = wlist k' s.
Proof. intros Hn. unfold wlist. cbn. by rewrite lookup_insert_ne. Qed.

Lemma wlist_frame s s' k : sched_frame s s' -> wlist k s' = wlist k s.
Proof. intros F. unfold wlist. by rewrite (sf_waits _ _ F). Qed.

(** A suspended thread linked into a waiting list. *)
Lemma wait_lists_ok k t l s : lists_ok None s -> has_stat s t RT_THREAD_SUSPEND -> unlinked t s ->
  l ≡ₚ t :: wlist k s -> lists_ok None (with_waits (<[k := l]> (wait_lists s)) s).
Proof.
  intros H Hs (_ & Hu & _) Hp. pose proof (wlist_nodup k s H) as Hnd.
  assert (t ∉ wlist k s) as Hni by (intros (l' & E & Hin & _)%wlist_elem; by eapply Hu).
  assert (forall k' l' x, <[k := l]> (wait_lists s) !! k' = Some l' -> x ∈ l' ->
    x = t /\ k' = k \/ x <> t /\ x ∈ wlist k' s) as Hel.
  { intros k' l' x E Hin. destruct (decide (k' = k)) as [->|Hn].
    - rewrite lookup_insert_eq in E. injection E as <-. rewrite Hp in Hin.
      apply elem_of_cons in Hin as [->|Hin]; [by left|right]. split; [|done]. by intros ->.
    - rewrite lookup_insert_ne in E by done. right. split; [|by eapply wlist_lookup].
      intros ->. by eapply Hu. }
  pose proof H as [L G N R Q W W1 D P]. split; try done; cbn.
  - intros k' l' E. split.
    + destruct (decide (k' = k)) as [->|Hn].
      * rewrite lookup_insert_eq in E. injection E as <-. rewrite Hp. by apply list.NoDup_cons.
      * rewrite lookup_insert_ne in E by done. by eapply W.
    + intros x Hin. split; [done|]. destruct (Hel k' l' x E Hin) as [[-> _]|[_ Hx]]; [done|].
      exact (waiting_stat k' s x H Hx).
  - intros k1 k2 l1 l2 x E1 E2 H1 H2.
    destruct (Hel k1 l1 x E1 H1) as [[Ex1 Ek1]|[Hn1 Hx1]], (Hel k2 l2 x E2 H2) as [[Ex2 Ek2]|[Hn2 Hx2]];
      try congruence. exact (wlist_disjoint k1 k2 s x H Hx1 Hx2).
Qed.

Lemma kernel_waits w s : kernel_ok s -> lists_ok None (with_waits w s) -> kernel_ok (with_waits w s).
Proof. intros [[_ C Hl] T TT [O1 O2 O3 O4]] H. by split. Qed.

Lemma insert_prio_perm s t l : insert_prio s t l ≡ₚ t :: l.
Proof.
  induction l as [|x l IH]; [done|]. cbn. destruct (_ <? _); [done|]. rewrite IH. apply perm_swap.
Qed.

(** The list with thread [t] added. *)
Definition queued (flag : Z) (s : kstate) (t : Z) (l : list Z) : list Z :=
  if flag =? RT_IPC_FLAG_FIFO then l ++ [t] else insert_prio s t l.
Definition flag_ok (flag : Z) : Prop := flag = RT_IPC_FLAG_FIFO \/ flag = RT_IPC_FLAG_PRIO.

Lemma queued_perm flag s t l : queued flag s t l ≡ₚ t :: l.
Proof.
  unfold queued. destruct (_ =? _); [|apply insert_prio_perm]. by rewrite Permutation_app_comm.
Qed.

Lemma runnable_unlinked_waits t th s k : lists_ok None s -> threads s !! t = Some th ->
  runnable (stat th) -> t ∉ wlist k s.
Proof.
  intros H Ht Hr Hin. destruct (waiting_stat k s t H Hin) as (th' & E & Es).
  destruct Hr; congruence.
Qed.

Definition prio_same (s s' : kstate) : Prop := forall x, prio_of s' x = prio_of s x.
Lemma insert_prio_ext s s' t l : prio_same s s' -> insert_prio s' t l = insert_prio s t l.
Proof. intros H. induction l as [|x l IH]; [done|]. cbn. by rewrite !H, IH. Qed.

Lemma suspended_prio t s : prio_same s (suspended t s).
Proof.
  intros x. unfold prio_of. cbn. destruct (decide (x = t)) as [->|Hn].
  - rewrite lookup_alter_eq. by destruct (threads s !! t).
  - by rewrite lookup_alter_ne.
Qed.

Definition waiting (k : wait_list) (flag t : Z) (s : kstate) : kstate :=
  with_waits (<[k := queued flag s t (wlist k s)]> (wait_lists s)) (suspended t s).

Lemma suspended_waits t th s : kernel_ok s -> threads s !! t = Some th -> runnable (stat th) ->
  wait_lists (suspended t s) = wait_lists s.
Proof.
  intros Hk Ht Hr. cbn. apply unlink_all_waits. intros k l El Hin.
  eapply (runnable_unlinked_waits t th s k); [apply Hk|done|done|]. by eapply wlist_lookup.
Qed.

Lemma list_suspend_ok k flag t th s : kernel_ok s -> threads s !! t = Some th -> runnable (stat th) ->
  flag_ok flag ->
  rt_ipc_list_suspend k t flag s = Ok (waiting k flag t s) /\ kernel_ok (waiting k flag t s)
  /\ has_stat (waiting k flag t s) t RT_THREAD_SUSPEND.
Proof.
  intros Hk Ht Hr Hf. destruct (suspend_ok t th s Hk Ht Hr) as [E Hk1].
  pose proof (suspended_waits t th s Hk Ht Hr) as Ew.
  assert (forall k, wlist k (suspended t s) = wlist k s) as Ewl by (intros k'; unfold wlist; by rewrite Ew).
  assert (unlinked t (suspended t s)) as Hu
    by (apply (lists_ok_unlinked t (removed t s)), (removed_ok None); [apply Hk|by left]).
  assert (has_stat (suspended t s) t RT_THREAD_SUSPEND) as Hst
    by (eexists; cbn; by rewrite lookup_alter_eq, Ht).
  assert ((flag =? RT_IPC_FLAG_FIFO) || (flag =? RT_IPC_FLAG_PRIO) = true) as Hfl
    by (by destruct Hf as [-> | ->]).
  split; [|split; [|done]].
  - unfold rt_ipc_list_suspend. rewrite E, bind_ret_l, Hfl, (proj2 (linked_false _ _) Hu), Ewl, Ew.
    unfold waiting, queued. by rewrite (insert_prio_ext s _ t _ (suspended_prio t s)).
  - unfold waiting. rewrite <- Ew. apply kernel_waits; [done|].
    apply (wait_lists_ok k t); [apply Hk1|done|done|]. rewrite Ewl. apply queued_perm.
Qed.

Lemma start_waiting_ok t th time s : kernel_ok s -> threads s !! t = Some th ->
  stat th = RT_THREAD_SUSPEND -> time < HALF ->
  exists ts, start_waiting t time s = Ok (with_ktimers ts s) /\ kernel_ok (with_ktimers ts s)
  /\ rt_tick ts = rt_tick (ktimers s) /\ size (timers ts) = size (timers (ktimers s))
  /\ (0 < time -> t ∈ rt_timer_list ts /\ ticks_left (rt_tick ts) (timers ts) t = time).
Proof.
  intros Hk Ht Hs Htm. unfold start_waiting. destruct (Z.ltb_spec 0 time).
  - destruct (start_timer_ok t th time s Hk Ht Hs ltac:(lia)) as (ts & E & Hk' & Et & Hin & Hl & Hsz).
    by exists ts.
  - exists (ktimers s). assert (with_ktimers (ktimers s) s = s) as -> by (by destruct s).
    split_and!; try done. lia.
Qed.

(** A blocking call of the running thread. *)
Lemma block_ok k flag time s t : kernel_ok (kern s) -> rt_current_thread (kern s) = Some t ->
  has_stat (kern s) t RT_THREAD_RUNNING -> flag_ok flag -> time < HALF ->
  exists ts s', block k t flag time s = Ok s' /\ kernel_ok (kern s')
  /\ kernel_ok (with_ktimers ts (waiting k flag t (kern s)))
  /\ rt_schedule (with_ktimers ts (waiting k flag t (kern s))) = Ok (kern s')
  /\ sched_frame (with_ktimers ts (waiting k flag t (kern s))) (kern s')
  /\ objects s' = objects s /\ statics s' = statics s
  /\ rt_tick ts = rt_tick (ktimers (kern s)) /\ is_Some (rt_current_thread (kern s'))
  /\ size (timers ts) = size (timers (ktimers (kern s)))
  /\ (0 < time -> t ∈ rt_timer_list ts /\ ticks_left (rt_tick ts) (timers ts) t = time).
Proof.
  intros Hk Hc (th & Ht & Hs) Hf Htm.
  destruct (list_suspend_ok k flag t th (kern s) Hk Ht ltac:(by right) Hf) as (E1 & Hk1 & th1 & Ht1 & Hs1).
  destruct (start_waiting_ok t th1 time _ Hk1 Ht1 Hs1 Htm) as (ts & E2 & Hk2 & Et & Hsz & Htl).
  destruct (kernel_schedule _ t Hk2 Hc) as (k3 & E3 & Hk3 & F & Hc3).
  exists ts, (with_kern k3 s). unfold block, lift. rewrite E1, bind_ret_l, bind_ret_l.
  cbn [kern with_kern]. rewrite E2, !bind_ret_l. cbn [kern with_kern]. rewrite E3, bind_ret_l.
  split_and!; try done. rewrite Hsz. cbn. rewrite <- !size_dom. by rewrite dom_alter_L.
Qed.

(** Where the lists are after it. *)
Lemma waiting_wlist k k' flag t ts s s' : sched_frame (with_ktimers ts (waiting k flag t s)) s' ->
  wlist k' s' = if decide (k' = k) then queued flag s t (wlist k s) else wlist k' s.
Proof.
  intros F. rewrite (wlist_frame _ _ _ F). unfold wlist, waiting. cbn.
  case_decide as Hk; [subst k'; by rewrite lookup_insert_eq|by rewrite lookup_insert_ne].
Qed.

(** *** Waking *)

Lemma resumed_wlist k t s : wlist k (resumed t s) = unlink t (wlist k s).
Proof.
  unfold resumed. unfold wlist at 1. rewrite (sb_waits _ _ (made_ready_frame t _)). apply wlist_removed.
Qed.

Lemma list_resume_ok k t l s : kernel_ok s -> wlist k s = t :: l ->
  rt_ipc_list_resume k s = Ok (resumed t s) /\ kernel_ok (resumed t s) /\ wlist k (resumed t s) = l
  /\ (forall k', k' <> k -> wlist k' (resumed t s) = wlist k' s).
Proof.
  intros Hk Hl. pose proof (so_lists _ (ko_sched _ Hk)) as H.
  assert (t ∈ wlist k s) as Hin by (rewrite Hl; by left).
  destruct (waiting_stat k s t H Hin) as (th & Ht & Hs).
  destruct (resume_ok t th s Hk Ht Hs) as [E Hk'].
  split; [unfold rt_ipc_list_resume; by rewrite Hl, E|]. split; [done|].
  pose proof (wlist_nodup k s H) as Hnd. rewrite Hl in Hnd. apply list.NoDup_cons in Hnd as [Hni _].
  split.
  - rewrite resumed_wlist, Hl. by apply remove_head.
  - intros k' Hn. rewrite resumed_wlist. apply unlink_notin. intros Hin'.
    apply Hn. by eapply (wlist_disjoint k' k s t H).
Qed.

Lemma resumed_threads t th s : threads s !! t = Some th ->
  threads (resumed t s) = alter (with_stat (ready_stat t s)) t (threads s).
Proof. intros Ht. unfold resumed. by rewrite (made_ready_threads t th). Qed.

(** Threads of [l] woken with an error, all others as before. *)
Definition woken_with (e : Z) (l : list Z) (s s' : kstate) : Prop :=
  forall t, match threads s !! t, threads s' !! t with
            | Some th, Some th' => if decide (t ∈ l)
                then runnable (stat th') /\ th' = with_stat (stat th') (with_error e th) else th' = th
            | None, None => True | _, _ => False
            end.

Lemma resume_all_ok k l s : kernel_ok s -> wlist k s = l ->
  exists s', resume_all_loop (length l) k s = Ok s' /\ kernel_ok s' /\ wlist k s' = []
  /\ (forall k', k' <> k -> wlist k' s' = wlist k' s) /\ woken_with (- RT_ERROR) l s s'
  /\ rt_current_thread s' = rt_current_thread s /\ rt_interrupt_nest s' = rt_interrupt_nest s
  /\ rt_scheduler_lock_nest s' = rt_scheduler_lock_nest s.
Proof.
  revert s. induction l as [|t l IH]; intros s Hk Hl.
  { exists s. cbn [length resume_all_loop]. rewrite Hl. split_and!; try done. intros t.
    destruct (threads s !! t); [|done]. by rewrite decide_False by set_solver. }
  cbn [length resume_all_loop]. rewrite Hl. set (s1 := upd_thread (with_error (- RT_ERROR)) t s).
  assert (kernel_ok s1) as Hk1 by (by apply kernel_upd).
  destruct (list_resume_ok k t l s1 Hk1 Hl) as (E & Hk2 & Hl2 & Ho2).
  unfold rt_ipc_list_resume in E. change (wlist k s1) with (wlist k s) in E. rewrite Hl in E.
  bind_inv E. destruct a as [e s2]. injection E as ->. rewrite Ha, bind_ret_l.
  destruct (IH _ Hk2 Hl2) as (s' & E' & Hk' & Hn' & Ho' & Hw' & Hc' & Hi' & Hlk').
  destruct (made_ready_frame t (with_ktimers (stopped t (ktimers s1)) (removed t s1)))
    as [_ _ _ F4 F5 F6 _].
  exists s'. split_and!; try done.
  - intros k' Hn. rewrite Ho', Ho2 by done. done.
  - destruct (waiting_stat k s t (so_lists _ (ko_sched _ Hk)) ltac:(rewrite Hl; by left)) as (th & Ht & Hs).
    pose proof (wlist_nodup k s (so_lists _ (ko_sched _ Hk))) as Hnd. rewrite Hl in Hnd.
    apply list.NoDup_cons in Hnd as [Hni _].
    assert (threads s1 !! t = Some (with_error (- RT_ERROR) th)) as Ht1 by (cbn; by rewrite lookup_alter_eq, Ht).
    intros x. specialize (Hw' x). rewrite (resumed_threads t _ s1 Ht1) in Hw'. cbn in Hw'.
    destruct (decide (x = t)) as [->|Hn].
    + rewrite lookup_alter_eq, lookup_alter_eq, Ht in Hw'. cbn in Hw'. rewrite Ht.
      destruct (threads s' !! t) as [th'|]; [|done]. rewrite decide_False in Hw' by done.
      rewrite decide_True by (by left). subst th'. split; [apply ready_stat_runnable|done].
    + rewrite !lookup_alter_ne in Hw' by done. destruct (threads s !! x), (threads s' !! x); try done.
      destruct (decide (x ∈ l)) as [Hx|Hx].
      * by rewrite decide_True by (by right).
      * by rewrite decide_False by (rewrite elem_of_cons; tauto).
  - rewrite Hc'. exact F4.
  - rewrite Hi'. exact F6.
  - rewrite Hlk'. exact F5.
Qed.
