(* ===== verification/KernelQueue.v ===== *)
(** * Mailboxes and message queues (src/ipc.c)

    A mailbox is a ring buffer of words, a message queue a pool of slots on two
    linked lists.  [resume_call] collects the rests of all blocking calls. *)
From stdpp Require Import gmap sorting.
From S2P Require Import Prelude KernelTimer KernelSched KernelThread KernelIpc.

Definition get_mb (o : Z) (s : istate) : res rt_mailbox :=
  match objects s !! o with Some (MailBox x) => Ok x | _ => Fault AssertFail end.
Definition get_mq (o : Z) (s : istate) : res rt_messagequeue :=
  match objects s !! o with Some (MessageQueue x) => Ok x | _ => Fault AssertFail end.

(** The time left of a wait that began at tick [tick_delta]. *)
Definition time_left (timeout tick_delta : Z) (s : istate) : Z :=
  if 0 <? timeout then
    let timeout := s32 (timeout - u32 (rt_tick_get (ktimers (kern s)) - tick_delta)) in
    if timeout <? 0 then 0 else timeout
  else timeout.

(** ** Mailboxes *)

(** [msg_pool]: the words the caller's pool holds. *)
Definition rt_mb_init (o : Z) (msgpool : list Z) (size flag : Z) (s : istate) : res (Z * istate) :=
  s ← ipc_object_init o (MailBox (mkMb msgpool (u16 size) 0 0 0 flag)) s; Ok (RT_EOK, s).

(** Two allocations: the object and its pool. *)
Definition rt_mb_create (mem : option Z) (pool : option (list Z)) (size flag : Z) (s : istate)
    : res (option Z * istate) :=
  match mem, pool with
  | Some _, Some p => ipc_object_create mem (MailBox (mkMb p (u16 size) 0 0 0 flag)) s
  | _, _ => ipc_object_create None (MailBox (mkMb [] (u16 size) 0 0 0 flag)) s
  end.

Definition rt_mb_detach (o : Z) (s : istate) : res (Z * istate) :=
  x ← get_mb o s; ipc_object_detach o (MailBox x) s.
Definition rt_mb_delete (o : Z) (s : istate) : res (Z * istate) :=
  x ← get_mb o s; ipc_object_delete o (MailBox x) s.

(** The ring buffer: storing at [in_offset], taking from [out_offset]. *)
Definition mb_put (value : Z) (mb : rt_mailbox) : res rt_mailbox :=
  pool ← set (msg_pool mb) (in_offset mb) value;
  let i := u16 (in_offset mb + 1) in
  let i := if mb_size mb <=? i then 0 else i in
  Ok (mkMb pool (mb_size mb) (u16 (mb_entry mb + 1)) i (out_offset mb) (mb_flag mb)).
Definition mb_get (mb : rt_mailbox) : res (Z * rt_mailbox) :=
  v ← get (msg_pool mb) (out_offset mb);
  let i := u16 (out_offset mb + 1) in
  let i := if mb_size mb <=? i then 0 else i in
  Ok (v, mkMb (msg_pool mb) (mb_size mb) (u16 (mb_entry mb - 1)) (in_offset mb) i (mb_flag mb)).

(** After a change of the ring: wake the first of a waiting list. *)
Definition wake_one (k : wait_list) (s : istate) : res istate :=
  match wlist k (kern s) with
  | _ :: _ => s ← lift (rt_ipc_list_resume k) s; lift rt_schedule s
  | [] => Ok s
  end.

Definition current (s : istate) : res Z :=
  match rt_current_thread (kern s) with Some t => Ok t | None => Fault NullDeref end.

(** The loop [while (mb->entry == mb->size)] up to its call of the scheduler,
    and what follows it. *)
Definition mb_send_loop (o value timeout : Z) (s : istate) : res (outcome * istate) :=
  mb ← get_mb o s;
  if mb_entry mb =? mb_size mb then
    t ← current s;
    let s := lift_pure (upd_thread (with_error RT_EOK) t) s in
    if timeout =? 0 then Ok (Done (- RT_EFULL) [], s)
    else
      t ← in_thread_context s;
      let tick := rt_tick_get (ktimers (kern s)) in
      s ← block (suspend_sender_thread o) t (mb_flag mb) timeout s;
      Ok (Blocked (PMbSend o value timeout tick), s)
  else
    mb ← mb_put value mb;
    s ← wake_one (suspend_thread o) (put_object o (MailBox mb) s);
    Ok (Done RT_EOK [], s).

Definition rt_mb_send_wait (o value timeout : Z) (s : istate) : res (outcome * istate) :=
  mb ← get_mb o s;
  if (mb_entry mb =? mb_size mb) && (timeout =? 0) then Ok (Done (- RT_EFULL) [], s)
  else mb_send_loop o value timeout s.

Definition rt_mb_send (o value : Z) (s : istate) : res (outcome * istate) :=
  rt_mb_send_wait o value 0 s.

Definition mb_recv_loop (o timeout : Z) (s : istate) : res (outcome * istate) :=
  mb ← get_mb o s;
  if mb_entry mb =? 0 then
    t ← current s;
    let s := lift_pure (upd_thread (with_error RT_EOK) t) s in
    if timeout =? 0 then
      Ok (Done (- RT_ETIMEOUT) [], lift_pure (upd_thread (with_error (- RT_ETIMEOUT)) t) s)
    else
      t ← in_thread_context s;
      let tick := rt_tick_get (ktimers (kern s)) in
      s ← block (suspend_thread o) t (mb_flag mb) timeout s;
      Ok (Blocked (PMbRecv o timeout tick), s)
  else
    '(v, mb) ← mb_get mb;
    s ← wake_one (suspend_sender_thread o) (put_object o (MailBox mb) s);
    Ok (Done RT_EOK [v], s).

Definition rt_mb_recv (o timeout : Z) (s : istate) : res (outcome * istate) :=
  mb ← get_mb o s;
  if (mb_entry mb =? 0) && (timeout =? 0) then Ok (Done (- RT_ETIMEOUT) [], s)
  else mb_recv_loop o timeout s.

Definition rt_mb_control (o : Z) (reset : bool) (s : istate) : res (Z * istate) :=
  mb ← get_mb o s;
  if reset then
    s ← wake_waiting o (MailBox mb) s;
    let s := put_object o (MailBox (mkMb (msg_pool mb) (mb_size mb) 0 0 0 (mb_flag mb))) s in
    s ← lift rt_schedule s;
    Ok (RT_EOK, s)
  else Ok (- RT_ERROR, s).

(** ** Message queues *)

Definition with_queue (hd tl fr : option Z) (entry : Z) (nx : list (option Z)) (mq : rt_messagequeue)
    : rt_messagequeue :=
  mkMq (msg_size mq) (max_msgs mq) entry hd tl fr nx (mq_data mq) (mq_flag mq).

Definition set_next (i : Z) (x : option Z) (nx : list (option Z)) : res (list (option Z)) :=
  if decide (0 <= i < Z.of_nat (length nx)) then Ok (<[Z.to_nat i := x]> nx) else Fault OutOfBounds.
Definition get_next (i : Z) (nx : list (option Z)) : res (option Z) :=
  match nx !! Z.to_nat i with
  | Some x => if 0 <=? i then Ok x else Fault OutOfBounds
  | None => Fault OutOfBounds
  end.

(** The loop that links every slot into the free list. *)
Definition link_free (n : nat) (nx : list (option Z)) : res (option Z * list (option Z)) :=
  for_loop n 0 (fun i '(fr, nx) => nx ← set_next i fr nx; Ok (Some i, nx)) (None, nx).

Definition RT_ALIGN4 (n : Z) : Z := Z.land (n + 3) (Z.lnot 3).

(** The object with [n] slots of [size] bytes; [mem] is what the pool holds. *)
Definition mq_object (size n flag : Z) (mem : list (list Z)) : res rt_messagequeue :=
  '(fr, nx) ← link_free (Z.to_nat n) (replicate (length mem) None);
  Ok (mkMq size n 0 None None fr nx mem flag).

(** [sizeof(struct rt_mq_message)] is 4. *)
Definition rt_mq_init (o : Z) (mem : list (list Z)) (msg_size pool_size flag : Z) (s : istate)
    : res (Z * istate) :=
  let size := u16 (RT_ALIGN4 msg_size) in
  mq ← mq_object size (u16 (pool_size / (size + 4))) flag mem;
  s ← ipc_object_init o (MessageQueue mq) s;
  Ok (RT_EOK, s).

Definition rt_mq_create (mem : option Z) (pool : option (list (list Z))) (msg_size max_msgs flag : Z)
    (s : istate) : res (option Z * istate) :=
  match mem, pool with
  | Some _, Some p =>
      mq ← mq_object (u16 (RT_ALIGN4 msg_size)) (u16 max_msgs) flag p;
      ipc_object_create mem (MessageQueue mq) s
  | _, _ => ipc_object_create None (MessageQueue (mkMq 0 0 0 None None None [] [] flag)) s
  end.

Definition rt_mq_detach (o : Z) (s : istate) : res (Z * istate) :=
  x ← get_mq o s; ipc_object_detach o (MessageQueue x) s.
Definition rt_mq_delete (o : Z) (s : istate) : res (Z * istate) :=
  x ← get_mq o s; ipc_object_delete o (MessageQueue x) s.

(** Taking a slot off the free list: [None] if the queue is full. *)
Definition mq_alloc (mq : rt_messagequeue) : res (option (Z * rt_messagequeue)) :=
  match msg_queue_free mq with
  | None => Ok None
  | Some msg =>
      fr ← get_next msg (mq_next mq);
      Ok (Some (msg, with_queue (msg_queue_head mq) (msg_queue_tail mq) fr (mq_entry mq)
                       (mq_next mq) mq))
  end.

(** [rt_memcpy(msg + 1, buffer, size)] *)
Definition mq_fill (msg : Z) (buffer : list Z) (mq : rt_messagequeue) : res rt_messagequeue :=
  match mq_data mq !! Z.to_nat msg with
  | None => Fault OutOfBounds
  | Some d =>
      if Z.of_nat (length buffer) <=? Z.of_nat (length d)
      then Ok (mkMq (msg_size mq) (max_msgs mq) (mq_entry mq) (msg_queue_head mq) (msg_queue_tail mq)
                 (msg_queue_free mq) (mq_next mq)
                 (<[Z.to_nat msg := buffer ++ drop (length buffer) d]> (mq_data mq)) (mq_flag mq))
      else Fault OutOfBounds
  end.

Definition mq_append (msg : Z) (mq : rt_messagequeue) : res rt_messagequeue :=
  nx ← match msg_queue_tail mq with
       | Some tl => set_next tl (Some msg) (mq_next mq)
       | None => Ok (mq_next mq)
       end;
  let hd := match msg_queue_head mq with None => Some msg | h => h end in
  Ok (with_queue hd (Some msg) (msg_queue_free mq) (u16 (mq_entry mq + 1)) nx mq).

Definition mq_prepend (msg : Z) (mq : rt_messagequeue) : res rt_messagequeue :=
  nx ← set_next msg (msg_queue_head mq) (mq_next mq);
  let tl := match msg_queue_tail mq with None => Some msg | t => t end in
  Ok (with_queue (Some msg) tl (msg_queue_free mq) (u16 (mq_entry mq + 1)) nx mq).

(** Storing a message at the end ([rt_mq_send]) or at the front
    ([rt_mq_urgent]); [None] if there is no free slot. *)
Definition mq_store (urgent : bool) (buffer : list Z) (mq : rt_messagequeue)
    : res (option rt_messagequeue) :=
  a ← mq_alloc mq;
  match a with
  | None => Ok None
  | Some (msg, mq) =>
      mq ← (if urgent then mq ← mq_fill msg buffer mq; mq_prepend msg mq
            else
              nx ← set_next msg None (mq_next mq);
              mq ← mq_fill msg buffer (with_queue (msg_queue_head mq) (msg_queue_tail mq)
                                         (msg_queue_free mq) (mq_entry mq) nx mq);
              mq_append msg mq);
      Ok (Some mq)
  end.

Definition mq_send (urgent : bool) (o : Z) (buffer : list Z) (s : istate) : res (Z * istate) :=
  mq ← get_mq o s;
  if (Z.of_nat (length buffer) =? 0) then Fault AssertFail
  else if msg_size mq <? Z.of_nat (length buffer) then Ok (- RT_ERROR, s)
  else
    r ← mq_store urgent buffer mq;
    match r with
    | None => Ok (- RT_EFULL, s)
    | Some mq =>
        s ← wake_one (suspend_thread o) (put_object o (MessageQueue mq) s);
        Ok (RT_EOK, s)
    end.
Definition rt_mq_send (o : Z) (buffer : list Z) (s : istate) : res (Z * istate) :=
  mq_send false o buffer s.
Definition rt_mq_urgent (o : Z) (buffer : list Z) (s : istate) : res (Z * istate) :=
  mq_send true o buffer s.

(** Unlinking the first message. *)
Definition mq_pop (mq : rt_messagequeue) : res (Z * rt_messagequeue) :=
  match msg_queue_head mq with
  | None => Fault NullDeref
  | Some msg =>
      nx ← get_next msg (mq_next mq);
      let tl := if bool_decide (msg_queue_tail mq = Some msg) then None else msg_queue_tail mq in
      Ok (msg, with_queue nx tl (msg_queue_free mq) (mq_entry mq) (mq_next mq) mq)
  end.
Definition mq_free (msg : Z) (mq : rt_messagequeue) : res rt_messagequeue :=
  nx ← set_next msg (msg_queue_free mq) (mq_next mq);
  Ok (with_queue (msg_queue_head mq) (msg_queue_tail mq) (Some msg) (mq_entry mq) nx mq).

(** Taking a message of at most [size] bytes. *)
Definition mq_take (size : Z) (mq : rt_messagequeue) : res (list Z * rt_messagequeue) :=
  '(msg, mq) ← mq_pop mq;
  let mq := with_queue (msg_queue_head mq) (msg_queue_tail mq) (msg_queue_free mq)
              (u16 (mq_entry mq - 1)) (mq_next mq) mq in
  match mq_data mq !! Z.to_nat msg with
  | None => Fault OutOfBounds
  | Some d =>
      let n := if msg_size mq <? size then msg_size mq else size in
      if n <=? Z.of_nat (length d) then
        mq ← mq_free msg mq; Ok (take (Z.to_nat n) d, mq)
      else Fault OutOfBounds
  end.

Definition mq_recv_loop (o size timeout : Z) (s : istate) : res (outcome * istate) :=
  mq ← get_mq o s;
  if mq_entry mq =? 0 then
    t ← in_thread_context s;
    let s := lift_pure (upd_thread (with_error RT_EOK) t) s in
    if timeout =? 0 then
      Ok (Done (- RT_ETIMEOUT) [], lift_pure (upd_thread (with_error (- RT_ETIMEOUT)) t) s)
    else
      let tick := rt_tick_get (ktimers (kern s)) in
      s ← block (suspend_thread o) t (mq_flag mq) timeout s;
      Ok (Blocked (PMqRecv o size timeout tick), s)
  else
    '(buf, mq) ← mq_take size mq;
    Ok (Done RT_EOK buf, put_object o (MessageQueue mq) s).

Definition rt_mq_recv (o size timeout : Z) (s : istate) : res (outcome * istate) :=
  mq ← get_mq o s;
  if size =? 0 then Fault AssertFail
  else if (mq_entry mq =? 0) && (timeout =? 0) then Ok (Done (- RT_ETIMEOUT) [], s)
  else mq_recv_loop o size timeout s.

(** The loop that releases all messages; [fuel] bounds its rounds. *)
Fixpoint mq_release_all (fuel : nat) (mq : rt_messagequeue) : res rt_messagequeue :=
  match msg_queue_head mq with
  | None => Ok mq
  | Some _ =>
      match fuel with
      | O => Fault Hang
      | S fuel' => '(msg, mq) ← mq_pop mq; mq ← mq_free msg mq; mq_release_all fuel' mq
      end
  end.

Definition rt_mq_control (o : Z) (reset : bool) (s : istate) : res (Z * istate) :=
  mq ← get_mq o s;
  if reset then
    s ← wake_waiting o (MessageQueue mq) s;
    mq ← mq_release_all (length (mq_next mq)) mq;
    let mq := with_queue (msg_queue_head mq) (msg_queue_tail mq) (msg_queue_free mq) 0 (mq_next mq) mq in
    s ← lift rt_schedule (put_object o (MessageQueue mq) s);
    Ok (RT_EOK, s)
  else Ok (- RT_ERROR, s).

(** ** The rest of a blocked call, when thread [t] runs again *)
Definition resume_call (t : Z) (p : pending) (s : istate) : res (outcome * istate) :=
  th ← get_thread t (kern s);
  if negb (error th =? RT_EOK) then
    match p with
    | PMutexTake o time =>
        if error th =? - RT_EINTR then mutex_try o t time s else Ok (Done (error th) [], s)
    | _ => Ok (Done (error th) [], s)
    end
  else
    match p with
    | PSemTake _ | PMutexTake _ _ => Ok (Done RT_EOK [], s)
    | PEventRecv => Ok (Done (error th) [event_set th], s)
    | PMbSend o value timeout tick => mb_send_loop o value (time_left timeout tick s) s
    | PMbRecv o timeout tick => mb_recv_loop o (time_left timeout tick s) s
    | PMqRecv o size timeout tick => mq_recv_loop o size (time_left timeout tick s) s
    end.

(** ** The ring buffer as a bounded queue *)

Record mb_ok (mb : rt_mailbox) : Prop := {
  mk_size : 1 <= mb_size mb < 65536;
  mk_pool : mb_size mb <= Z.of_nat (length (msg_pool mb));
  mk_out : 0 <= out_offset mb < mb_size mb;
  mk_entry : 0 <= mb_entry mb <= mb_size mb;
  mk_in : in_offset mb = (out_offset mb + mb_entry mb) mod mb_size mb }.

(** The messages, the oldest first. *)
Definition contents (mb : rt_mailbox) : list Z :=
  map (fun i => rd (msg_pool mb) ((out_offset mb + i) mod mb_size mb)) (seqZ 0 (mb_entry mb)).

Lemma contents_length mb : mb_ok mb -> Z.of_nat (length (contents mb)) = mb_entry mb.
Proof. intros H. unfold contents. rewrite length_map, length_seqZ. destruct (mk_entry _ H). lia. Qed.

(** The next position. *)
Lemma next_offset size i : 1 <= size < 65536 -> 0 <= i < size ->
  (if size <=? u16 (i + 1) then 0 else u16 (i + 1)) = (i + 1) mod size.
Proof.
  intros Hs Hi. assert (u16 (i + 1) = (i + 1) mod 65536) as E by done.
  destruct (Z.eq_dec (i + 1) size) as [->|Hn].
  - rewrite Z.mod_same, u16_id by mlia. by rewrite Z.leb_refl.
  - rewrite (Z.mod_small (i + 1) size) by lia. rewrite u16_id by mlia.
    destruct (Z.leb_spec size (i + 1)); lia.
Qed.

Lemma add_mod_ne a b c size : 0 < size -> 0 <= b < size -> 0 <= c < size -> b <> c ->
  (a + b) mod size <> (a + c) mod size.
Proof.
  intros Hs Hb Hc Hn E. apply Hn.
  assert ((b - c) mod size = 0) as E0.
  { replace (b - c) with ((a + b) - (a + c)) by lia. rewrite Zminus_mod, E, Z.sub_diag. apply Z.mod_0_l. lia. }
  apply Z.mod_divide in E0; [|lia]. destruct E0 as [q Hq]. clear E Hn.
  assert (q = 0) as -> by nia. lia.
Qed.

Lemma mb_put_ok v mb : mb_ok mb -> mb_entry mb < mb_size mb ->
  exists mb', mb_put v mb = Ok mb' /\ mb_ok mb' /\ contents mb' = contents mb ++ [v]
  /\ mb_size mb' = mb_size mb /\ mb_flag mb' = mb_flag mb.
Proof.
  intros H Hlt. destruct H as [Hs Hp Ho He Hi].
  assert (0 <= in_offset mb < mb_size mb) as Hin by (rewrite Hi; apply Z.mod_pos_bound; lia).
  unfold mb_put. rewrite set_in by (unfold in_range; lia). rewrite bind_ret_l.
  eexists. split; [done|]. cbn [mb_size mb_flag]. rewrite next_offset by lia.
  rewrite (u16_id (mb_entry mb + 1)) by mlia. split; [|split; [|done]].
  - split; cbn; try lia; [by rewrite length_upd|].
    rewrite Hi, Z.add_mod_idemp_l by lia. f_equal. lia.
  - unfold contents. cbn. rewrite seqZ_app, map_app by lia. f_equal.
    + apply map_ext_in. intros i Hin'%list_elem_of_In%elem_of_seqZ. apply rd_upd_ne; [lia| |].
      * apply Z.mod_pos_bound. lia.
      * rewrite Hi. apply not_eq_sym, add_mod_ne; lia.
    + rewrite Z.add_0_l, (seqZ_cons _ 1) by lia. cbn [map]. f_equal.
      rewrite <- Hi. apply rd_upd_eq. unfold in_range. lia.
Qed.

Lemma mb_get_ok mb : mb_ok mb -> 0 < mb_entry mb ->
  exists v mb', mb_get mb = Ok (v, mb') /\ mb_ok mb' /\ contents mb = v :: contents mb'
  /\ mb_size mb' = mb_size mb /\ mb_flag mb' = mb_flag mb.
Proof.
  intros H Hlt. destruct H as [Hs Hp Ho He Hi].
  unfold mb_get. rewrite get_in by (unfold in_range; lia). rewrite bind_ret_l.
  eexists _, _. split; [done|]. cbn [mb_size mb_flag]. rewrite next_offset by lia.
  rewrite (u16_id (mb_entry mb - 1)) by mlia. split; [|split; [|done]].
  - split; cbn; try lia. rewrite Hi, Z.add_mod_idemp_l by lia. f_equal. lia.
  - unfold contents. cbn. rewrite seqZ_cons by lia. cbn [map]. f_equal.
    + by rewrite Z.add_0_r, Z.mod_small by lia.
    + replace (seqZ (Z.succ 0) (Z.pred (mb_entry mb))) with (map (fun i => i + 1) (seqZ 0 (mb_entry mb - 1))).
      * rewrite map_map. apply map_ext_in. intros i Hin%list_elem_of_In%elem_of_seqZ.
        rewrite Z.add_mod_idemp_l by lia. do 2 f_equal. lia.
      * replace (Z.succ 0) with (1 + 0) by lia. rewrite <- (fmap_add_seqZ 1 0).
        apply map_ext. intros i. lia.
Qed.

(** *** The calls that do not wait *)

(** The kernel consistent, a thread running. *)
Definition kern_ready (s : istate) : Prop := kernel_ok (kern s) /\ is_Some (rt_current_thread (kern s)).

Lemma schedule_ready s : kern_ready s ->
  exists s', lift rt_schedule s = Ok s' /\ kern_ready s' /\ objects s' = objects s
  /\ statics s' = statics s /\ sched_frame (kern s) (kern s').
Proof.
  intros [Hk [c Hc]]. destruct (kernel_schedule _ c Hk Hc) as (k & E & Hk' & F & Hc').
  exists (with_kern k s). unfold lift. by rewrite E.
Qed.

Lemma resumed_current t s : rt_current_thread (resumed t s) = rt_current_thread s.
Proof.
  unfold resumed.
  by destruct (made_ready_frame t (with_ktimers (stopped t (ktimers s)) (removed t s))) as [_ _ _ F4 _ _ _].
Qed.

Lemma wake_one_ok k s : kern_ready s ->
  exists s', wake_one k s = Ok s' /\ kern_ready s' /\ objects s' = objects s /\ statics s' = statics s
  /\ wlist k (kern s') = tail (wlist k (kern s)).
Proof.
  intros [Hk Hc]. unfold wake_one. destruct (wlist k (kern s)) as [|t l] eqn:El.
  - exists s. split_and!; try done; by rewrite El.
  - destruct (list_resume_ok k t l _ Hk El) as (E & Hk1 & Hl1 & _).
    destruct (schedule_ready (with_kern (resumed t (kern s)) s)) as (s' & E' & Hs' & Ho & Hst & F).
    { split; [done|]. cbn. by rewrite resumed_current. }
    exists s'. assert (lift (rt_ipc_list_resume k) s = Ok (with_kern (resumed t (kern s)) s)) as ->
      by (unfold lift; by rewrite E). rewrite bind_ret_l. split_and!; try done.
    by rewrite (wlist_frame _ _ _ F).
Qed.

(** Calls on a mailbox, and on a list of at most [size] elements. *)
Inductive mb_call : Set := MbSend (v : Z) | MbRecv.
Definition run_mb (o : Z) (c : mb_call) (s : istate) : res (outcome * istate) :=
  match c with MbSend v => rt_mb_send o v s | MbRecv => rt_mb_recv o 0 s end.
Definition fifo_call (size : Z) (c : mb_call) (q : list Z) : outcome * list Z :=
  match c with
  | MbSend v => if Z.of_nat (length q) <? size then (Done RT_EOK [], q ++ [v]) else (Done (- RT_EFULL) [], q)
  | MbRecv => match q with [] => (Done (- RT_ETIMEOUT) [], []) | v :: q' => (Done RT_EOK [v], q') end
  end.

Fixpoint run_mbs (o : Z) (cs : list mb_call) (s : istate) : res (list outcome * istate) :=
  match cs with
  | [] => Ok ([], s)
  | c :: cs => '(r, s) ← run_mb o c s; '(rs, s) ← run_mbs o cs s; Ok (r :: rs, s)
  end.
Fixpoint fifo_calls (size : Z) (cs : list mb_call) (q : list Z) : list outcome * list Z :=
  match cs with
  | [] => ([], q)
  | c :: cs => let '(r, q) := fifo_call size c q in
               let '(rs, q) := fifo_calls size cs q in (r :: rs, q)
  end.

Definition mb_holds (o size : Z) (q : list Z) (s : istate) : Prop :=
  kern_ready s /\ exists mb, objects s !! o = Some (MailBox mb) /\ mb_ok mb /\ mb_size mb = size
  /\ contents mb = q.

Lemma get_mb_eq o mb s : objects s !! o = Some (MailBox mb) -> get_mb o s = Ok mb.
Proof. unfold get_mb. by intros ->. Qed.

(** The ring with a new content, and a thread woken. *)
Lemma mb_woken o k mb s : kern_ready s -> mb_ok mb ->
  exists s', wake_one k (put_object o (MailBox mb) s) = Ok s' /\ mb_holds o (mb_size mb) (contents mb) s'.
Proof.
  intros Hs Hm. destruct (wake_one_ok k (put_object o (MailBox mb) s) Hs) as (s' & E & Hs' & Ho & _).
  exists s'. split; [done|]. split; [done|]. exists mb. rewrite Ho. cbn. by rewrite lookup_insert_eq.
Qed.

Lemma mb_call_ok o size q c s : mb_holds o size q s ->
  exists r s' q', run_mb o c s = Ok (r, s') /\ fifo_call size c q = (r, q') /\ mb_holds o size q' s'.
Proof.
  intros [Hs (mb & Eo & H & <- & <-)]. pose proof (contents_length mb H) as Hlen.
  destruct (mk_entry _ H). destruct c as [v|]; cbn [run_mb fifo_call].
  - unfold rt_mb_send, rt_mb_send_wait, mb_send_loop. rewrite (get_mb_eq _ _ _ Eo), !bind_ret_l, Z.eqb_refl, andb_true_r.
    destruct (Z.eqb_spec (mb_entry mb) (mb_size mb)) as [E|E], (Z.ltb_spec (Z.of_nat (length (contents mb))) (mb_size mb)); try lia.
    + eexists _, s, _. split_and!; try done. by split; [|exists mb].
    + destruct (mb_put_ok v mb H ltac:(lia)) as (mb' & E' & H' & Hc & Hz & _). rewrite E', bind_ret_l.
      destruct (mb_woken o (suspend_thread o) mb' s Hs H') as (s' & E2 & Hs'). rewrite E2, bind_ret_l.
      eexists _, s', _. rewrite <- Hc, <- Hz. done.
  - unfold rt_mb_recv, mb_recv_loop. rewrite (get_mb_eq _ _ _ Eo), !bind_ret_l, Z.eqb_refl, andb_true_r.
    destruct (Z.eqb_spec (mb_entry mb) 0) as [E|E].
    + eexists _, s, _. split; [done|]. destruct (contents mb) eqn:Ec; [|cbn in Hlen; lia]. split; [done|].
      by split; [|exists mb].
    + destruct (mb_get_ok mb H ltac:(lia)) as (v & mb' & E' & H' & Hc & Hz & _). rewrite E', bind_ret_l.
      destruct (mb_woken o (suspend_sender_thread o) mb' s Hs H') as (s' & E2 & Hs'). rewrite E2, bind_ret_l.
      rewrite Hc. eexists _, s', _. rewrite <- Hz. done.
Qed.

(** A mailbox is a bounded first-in first-out queue: any sequence of
    [rt_mb_send] and non-waiting [rt_mb_recv] calls returns the codes and values
    that a list of at most [size] elements gives, no access leaves the pool, the
    ring's offsets and count stay in their bounds, and the ring holds that list
    at the end, whichever threads the calls wake. *)
Theorem mailbox_refines_fifo o size cs q s : mb_holds o size q s ->
  exists rs s' q', run_mbs o cs s = Ok (rs, s') /\ fifo_calls size cs q = (rs, q')
  /\ mb_holds o size q' s' /\ Z.of_nat (length q') <= size.
Proof.
  revert q s. induction cs as [|c cs IH]; intros q s H.
  - exists [], s, q. split_and!; try done. destruct H as [_ (mb & _ & H & <- & <-)].
    rewrite contents_length by done. apply H.
  - destruct (mb_call_ok o size q c s H) as (r & s1 & q1 & E & Ef & H1).
    destruct (IH q1 s1 H1) as (rs & s' & q' & E' & Ef' & H' & Hl). exists (r :: rs), s', q'.
    cbn [run_mbs fifo_calls]. by rewrite E, bind_ret_l, E', bind_ret_l, Ef, Ef'.
Qed.

Definition mb_example : istate := mkI boot {[5 := MailBox (mkMb [7; 8; 9] 3 2 1 2 0)]} {[5]}.
Lemma kern_ready_boot m st : kern_ready (mkI boot m st).
Proof. split; [exact boot_ok|]. exists 2. by vm_compute. Qed.
Lemma mb_example_ok : mb_holds 5 3 [9; 7] mb_example.
Proof. split; [apply kern_ready_boot|]. eexists. split; [apply lookup_singleton_eq|]. by split. Qed.
Lemma mailbox_refines_fifo_witness : mb_holds 5 3 [9; 7] mb_example
  /\ exists rs s', run_mbs 5 [MbSend 1; MbSend 2; MbRecv; MbRecv; MbRecv; MbRecv] mb_example = Ok (rs, s').
Proof.
  split; [exact mb_example_ok|].
  destruct (mailbox_refines_fifo 5 3 [MbSend 1; MbSend 2; MbRecv; MbRecv; MbRecv; MbRecv] [9; 7] mb_example mb_example_ok)
    as (rs & s' & _ & E & _).
  exists rs, s'. exact E.
Defined.

(** ** The linked lists of a message queue *)

(** [p] leads through [l] to a null pointer. *)
Fixpoint chain (nx : list (option Z)) (p : option Z) (l : list Z) : Prop :=
  match l with
  | [] => p = None
  | x :: l' => p = Some x /\ 0 <= x /\ exists n, nx !! Z.to_nat x = Some n /\ chain nx n l'
  end.

(** [q]: the slots with messages, in order; [f]: the free ones. *)
Record mq_rep (mq : rt_messagequeue) (q f : list Z) : Prop := {
  rq_head : chain (mq_next mq) (msg_queue_head mq) q;
  rq_tail : msg_queue_tail mq = list.last q;
  rq_free : chain (mq_next mq) (msg_queue_free mq) f;
  rq_nodup : NoDup (q ++ f);
  rq_entry : mq_entry mq = Z.of_nat (length q);
  rq_max : Z.of_nat (length (q ++ f)) = max_msgs mq;
  rq_bound : max_msgs mq < 65536;
  rq_size : 0 <= msg_size mq;
  rq_data : forall x, x ∈ q ++ f -> exists d, mq_data mq !! Z.to_nat x = Some d
    /\ msg_size mq <= Z.of_nat (length d) }.

Lemma chain_pos nx p l x : chain nx p l -> x ∈ l -> 0 <= x < Z.of_nat (length nx).
Proof.
  revert p. induction l as [|y l IH]; intros p; [set_solver|]. cbn.
  intros (_ & Hy & n & En & Hc) [->|Hx]%elem_of_cons; [|by eapply IH].
  apply lookup_lt_Some in En. lia.
Qed.

Lemma chain_insert nx p l x y : 0 <= x -> x ∉ l -> chain nx p l -> chain (<[Z.to_nat x := y]> nx) p l.
Proof.
  intros Hx. revert p. induction l as [|z l IH]; intros p Hni; [done|]. cbn.
  intros (-> & Hz & n & En & Hc). split; [done|]. split; [done|]. exists n.
  apply not_elem_of_cons in Hni as [Hne Hni]. rewrite list_lookup_insert_ne by lia.
  split; [done|]. by apply IH.
Qed.

(** Linking [x], which ends a chain of its own, behind the last element. *)
Lemma chain_snoc nx p l t x : chain nx p (l ++ [t]) -> NoDup (l ++ [t; x]) -> 0 <= x ->
  nx !! Z.to_nat x = Some None -> chain (<[Z.to_nat t := Some x]> nx) p (l ++ [t; x]).
Proof.
  intros Hc Hnd Hx Ex. revert p Hc. induction l as [|y l IH]; intros p; cbn in *.
  - intros (-> & Ht & n & En & _). split; [done|]. split; [done|]. exists (Some x).
    apply list.NoDup_cons in Hnd as [Hni _].
    rewrite list_lookup_insert_eq by (by eapply lookup_lt_Some). split; [done|]. split; [done|].
    split; [done|]. exists None. rewrite list_lookup_insert_ne; [done|].
    intros E. apply Hni, list_elem_of_singleton. lia.
  - intros (-> & Hy & n & En & Hc). split; [done|]. split; [done|]. exists n.
    apply list.NoDup_cons in Hnd as [Hni Hnd]. rewrite list_lookup_insert_ne.
    + split; [done|]. by apply IH.
    + intros E. apply Hni, elem_of_app. right.
      assert (t ∈ l ++ [t]) as Hin by (apply elem_of_app; right; by apply list_elem_of_singleton).
      pose proof (chain_pos _ _ _ _ Hc Hin). apply elem_of_cons. left. lia.
Qed.

Lemma set_next_ok x y nx : 0 <= x < Z.of_nat (length nx) -> set_next x y nx = Ok (<[Z.to_nat x := y]> nx).
Proof. intros H. unfold set_next. by rewrite decide_True. Qed.
Lemma get_next_ok x y nx : 0 <= x -> nx !! Z.to_nat x = Some y -> get_next x nx = Ok y.
Proof. intros H E. unfold get_next. by rewrite E, (proj2 (Z.leb_le _ _) H). Qed.

Definition slot (mq : rt_messagequeue) (x : Z) : list Z := default [] (mq_data mq !! Z.to_nat x).

Lemma rep_free_pos mq q m f : mq_rep mq q (m :: f) -> 0 <= m < Z.of_nat (length (mq_next mq)).
Proof. intros H. eapply chain_pos; [apply (rq_free _ _ _ H)|by left]. Qed.

Lemma mq_fill_ok mq m buffer d : mq_data mq !! Z.to_nat m = Some d ->
  Z.of_nat (length buffer) <= msg_size mq <= Z.of_nat (length d) ->
  exists mq', mq_fill m buffer mq = Ok mq' /\ mq_next mq' = mq_next mq
  /\ msg_queue_head mq' = msg_queue_head mq /\ msg_queue_tail mq' = msg_queue_tail mq
  /\ msg_queue_free mq' = msg_queue_free mq /\ mq_entry mq' = mq_entry mq
  /\ msg_size mq' = msg_size mq /\ max_msgs mq' = max_msgs mq
  /\ mq_data mq' = <[Z.to_nat m := buffer ++ drop (length buffer) d]> (mq_data mq).
Proof.
  intros Ed Hl. unfold mq_fill. rewrite Ed, (proj2 (Z.leb_le _ _)) by lia. by eexists.
Qed.

(** The slots after one of them is filled. *)
Lemma fill_data mq mq' q f m buffer d : mq_rep mq q f -> mq_data mq !! Z.to_nat m = Some d ->
  Z.of_nat (length buffer) <= msg_size mq <= Z.of_nat (length d) -> 0 <= m ->
  mq_data mq' = <[Z.to_nat m := buffer ++ drop (length buffer) d]> (mq_data mq) ->
  msg_size mq' = msg_size mq ->
  (forall x, x ∈ q ++ f -> exists d, mq_data mq' !! Z.to_nat x = Some d
     /\ msg_size mq' <= Z.of_nat (length d))
  /\ slot mq' m = buffer ++ drop (length buffer) d
  /\ (forall x, 0 <= x -> x <> m -> slot mq' x = slot mq x).
Proof.
  intros H Ed Hl Hm Em Es. pose proof (lookup_lt_Some _ _ _ Ed) as Hlt. unfold slot. rewrite Em, Es.
  split_and!.
  - intros x Hx. destruct (decide (Z.to_nat x = Z.to_nat m)) as [->|Hn].
    + rewrite list_lookup_insert_eq by done. eexists. split; [done|].
      rewrite length_app, length_drop. lia.
    + rewrite list_lookup_insert_ne by done. by apply (rq_data _ _ _ H).
  - by rewrite list_lookup_insert_eq.
  - intros x Hx Hn. by rewrite list_lookup_insert_ne by lia.
Qed.

(** Taking the first free slot. *)
Lemma mq_alloc_ok mq q m f : mq_rep mq q (m :: f) ->
  exists fr, mq_alloc mq = Ok (Some (m, with_queue (msg_queue_head mq) (msg_queue_tail mq) fr
                                          (mq_entry mq) (mq_next mq) mq))
  /\ chain (mq_next mq) fr f.
Proof.
  intros H. destruct (rq_free _ _ _ H) as (Ef & Hm & fr & En & Hc). exists fr. split; [|done].
  unfold mq_alloc. by rewrite Ef, (get_next_ok m fr).
Qed.

(** A message stored at the end of the queue. *)
Lemma mq_append_rep mq q m f fr nx mqd : mq_rep mq q (m :: f) -> chain (mq_next mq) fr f ->
  nx = <[Z.to_nat m := None]> (mq_next mq) ->
  mq_next mqd = nx -> msg_queue_head mqd = msg_queue_head mq -> msg_queue_tail mqd = msg_queue_tail mq ->
  msg_queue_free mqd = fr -> mq_entry mqd = mq_entry mq -> msg_size mqd = msg_size mq ->
  max_msgs mqd = max_msgs mq ->
  (forall x, x ∈ q ++ m :: f -> exists d, mq_data mqd !! Z.to_nat x = Some d
     /\ msg_size mqd <= Z.of_nat (length d)) ->
  exists mq', mq_append m mqd = Ok mq' /\ mq_rep mq' (q ++ [m]) f /\ mq_data mq' = mq_data mqd
  /\ msg_size mq' = msg_size mq.
Proof.
  intros H Hcf -> En Eh Et Ef Ee Es Ex Hd. pose proof (rep_free_pos _ _ _ _ H) as Hm.
  pose proof (rq_nodup _ _ _ H) as Hnd.
  assert (q ++ m :: f ≡ₚ (q ++ [m]) ++ f) as Hp by (by rewrite <- (assoc_L (++))).
  assert (NoDup ((q ++ [m]) ++ f)) as Hnd' by (by rewrite <- Hp).
  assert (m ∉ q /\ m ∉ f) as [Hmq Hmf].
  { rewrite <- Permutation_middle in Hnd. apply list.NoDup_cons in Hnd as [Hni _].
    rewrite elem_of_app in Hni. tauto. }
  unfold mq_append. rewrite Et, (rq_tail _ _ _ H), En, Eh.
  set (nx := <[Z.to_nat m := None]> (mq_next mq)).
  assert (nx !! Z.to_nat m = Some None) as Em by (apply list_lookup_insert_eq; lia).
  assert (chain nx (msg_queue_head mq) q) as Hq by (apply chain_insert; [lia|done|apply H]).
  assert (chain nx fr f) as Hf by (apply chain_insert; [lia|done|done]).
  assert (exists nx', match list.last q with Some tl => set_next tl (Some m) nx | None => Ok nx end = Ok nx'
    /\ chain nx' (match msg_queue_head mq with None => Some m | h => h end) (q ++ [m])
    /\ chain nx' fr f) as (nx' & E' & Hq' & Hf').
  { destruct q as [|tl q' _] using rev_ind.
    - exists nx. cbn. split; [done|]. cbn in Hq. rewrite Hq. split; [|done].
      split; [done|]. split; [lia|]. by exists None.
    - rewrite last_snoc. assert (tl ∈ q' ++ [tl]) as Htl
        by (apply elem_of_app; right; by apply list_elem_of_singleton).
      pose proof (chain_pos _ _ _ _ Hq Htl) as Hpos.
      exists (<[Z.to_nat tl := Some m]> nx). split; [by apply set_next_ok|]. split.
      + rewrite <- (assoc_L (++)). cbn [app].
        destruct (msg_queue_head mq) as [h|] eqn:Ehd; [|destruct q'; by destruct Hq].
        apply chain_snoc; [done| |lia|done].
        apply list.NoDup_app in Hnd' as [Hnd' _]. by rewrite <- (assoc_L (++)) in Hnd'.
      + apply chain_insert; [lia| |done]. intros Hin. apply list.NoDup_app in Hnd as (_ & Hdis & _).
        eapply Hdis; [exact Htl|by right]. }
  rewrite E', bind_ret_l. eexists. split; [done|]. split; [|done].
  pose proof (rq_max _ _ _ H) as Hmax. rewrite Hp in Hmax.
  split; cbn; try done; rewrite ?Ef, ?Es, ?Ex; try apply H; try done.
  - by rewrite last_snoc.
  - rewrite Ee, (rq_entry _ _ _ H), length_app. cbn. rewrite u16_id; [lia|].
    pose proof (rq_bound _ _ _ H). rewrite length_app, length_app in Hmax. cbn in Hmax. mlia.
  - rewrite <- Es. intros x Hx. rewrite <- Hp in Hx. by apply Hd.
Qed.

(** A message stored at the front. *)
Lemma mq_prepend_rep mq q m f fr mqd : mq_rep mq q (m :: f) -> chain (mq_next mq) fr f ->
  mq_next mqd = mq_next mq -> msg_queue_head mqd = msg_queue_head mq ->
  msg_queue_tail mqd = msg_queue_tail mq ->
  msg_queue_free mqd = fr -> mq_entry mqd = mq_entry mq -> msg_size mqd = msg_size mq ->
  max_msgs mqd = max_msgs mq ->
  (forall x, x ∈ q ++ m :: f -> exists d, mq_data mqd !! Z.to_nat x = Some d
     /\ msg_size mqd <= Z.of_nat (length d)) ->
  exists mq', mq_prepend m mqd = Ok mq' /\ mq_rep mq' (m :: q) f /\ mq_data mq' = mq_data mqd
  /\ msg_size mq' = msg_size mq.
Proof.
  intros H Hcf En Eh Et Ef Ee Es Ex Hd. pose proof (rep_free_pos _ _ _ _ H) as Hm.
  pose proof (rq_nodup _ _ _ H) as Hnd.
  assert (q ++ m :: f ≡ₚ (m :: q) ++ f) as Hp by (by rewrite <- Permutation_middle).
  rewrite Hp in Hnd. pose proof Hnd as [Hni _]%list.NoDup_cons. rewrite elem_of_app in Hni.
  unfold mq_prepend. rewrite En, set_next_ok, bind_ret_l by done.
  eexists. split; [done|]. split; [|done].
  pose proof (rq_max _ _ _ H) as Hmax. rewrite Hp in Hmax.
  split; cbn; try done; rewrite ?Ef, ?Es, ?Ex; try apply H; try done.
  - split; [done|]. split; [lia|]. exists (msg_queue_head mq). rewrite Eh.
    rewrite list_lookup_insert_eq by lia. split; [done|]. apply chain_insert; [lia|tauto|apply H].
  - rewrite Et, (rq_tail _ _ _ H), last_cons. by destruct (list.last q).
  - apply chain_insert; [lia|tauto|done].
  - rewrite Ee, (rq_entry _ _ _ H). rewrite u16_id; [lia|].
    pose proof (rq_bound _ _ _ H). cbn in Hmax. rewrite length_app in Hmax. mlia.
  - rewrite <- Es. intros x Hx. rewrite <- Hp in Hx. by apply Hd.
Qed.

(** The front and the back of the queue. *)
Definition placed (urgent : bool) (m : Z) (q : list Z) : list Z := if urgent then m :: q else q ++ [m].

Lemma mq_store_ok urgent buffer mq q m f : mq_rep mq q (m :: f) ->
  Z.of_nat (length buffer) <= msg_size mq ->
  exists mq', mq_store urgent buffer mq = Ok (Some mq') /\ mq_rep mq' (placed urgent m q) f
  /\ buffer `prefix_of` slot mq' m /\ (forall x, 0 <= x -> x <> m -> slot mq' x = slot mq x)
  /\ msg_size mq' = msg_size mq.
Proof.
  intros H Hl. destruct (mq_alloc_ok mq q m f H) as (fr & Ea & Hcf).
  pose proof (rep_free_pos _ _ _ _ H) as Hm.
  destruct (rq_data _ _ _ H m) as (d & Ed & Hd); [apply elem_of_app; right; by left|].
  unfold mq_store. rewrite Ea, bind_ret_l. cbv beta iota zeta.
  destruct urgent.
  - set (mq1 := with_queue _ _ _ _ _ _).
    destruct (mq_fill_ok mq1 m buffer d Ed ltac:(by split)) as (mq2 & E2 & N2 & H2 & T2 & F2 & C2 & S2 & X2 & D2).
    destruct (fill_data mq mq2 q (m :: f) m buffer d H Ed ltac:(lia) ltac:(lia) D2 S2) as (Hd2 & Hs2 & Ho2).
    destruct (mq_prepend_rep mq q m f fr mq2) as (mq3 & E3 & H3 & D3 & S3); try done.
    rewrite E2, bind_ret_l, E3, bind_ret_l. exists mq3. split; [done|]. split; [done|].
    unfold slot in *. rewrite D3. split; [|done]. rewrite Hs2. by apply prefix_app_r.
  - rewrite set_next_ok, bind_ret_l by done. set (mq1 := with_queue _ _ _ _ _ _).
    destruct (mq_fill_ok mq1 m buffer d Ed ltac:(by split)) as (mq2 & E2 & N2 & H2 & T2 & F2 & C2 & S2 & X2 & D2).
    destruct (fill_data mq mq2 q (m :: f) m buffer d H Ed ltac:(lia) ltac:(lia) D2 S2) as (Hd2 & Hs2 & Ho2).
    destruct (mq_append_rep mq q m f fr (<[Z.to_nat m:=None]> (mq_next mq)) mq2) as (mq3 & E3 & H3 & D3 & S3); try done.
    rewrite E2, bind_ret_l, E3, bind_ret_l. exists mq3. split; [done|]. split; [done|].
    unfold slot in *. rewrite D3. split; [|done]. rewrite Hs2. by apply prefix_app_r.
Qed.

(** *** Taking messages *)

Definition with_entry (e : Z) (mq : rt_messagequeue) : rt_messagequeue :=
  with_queue (msg_queue_head mq) (msg_queue_tail mq) (msg_queue_free mq) e (mq_next mq) mq.

Lemma mq_free_entry m e mq : mq_free m (with_entry e mq) = (mq ← mq_free m mq; Ok (with_entry e mq)).
Proof. unfold mq_free. cbn. by destruct (set_next _ _ _). Qed.

Lemma rep_entry mq q f : mq_rep mq q f -> with_entry (Z.of_nat (length q)) mq = mq.
Proof. intros H. rewrite <- (rq_entry _ _ _ H). by destruct mq. Qed.

(** The first message unlinked and its slot put on the free list, whatever the
    count says. *)
Lemma mq_unlink_ok mq m q f : mq_rep (with_entry (Z.of_nat (length (m :: q))) mq) (m :: q) f ->
  exists mq1 mq2, mq_pop mq = Ok (m, mq1) /\ mq_free m mq1 = Ok mq2
  /\ mq_rep (with_entry (Z.of_nat (length q)) mq2) q (m :: f)
  /\ mq_entry mq1 = mq_entry mq /\ mq_data mq1 = mq_data mq /\ msg_size mq1 = msg_size mq
  /\ mq_data mq2 = mq_data mq /\ msg_size mq2 = msg_size mq /\ length (mq_next mq2) = length (mq_next mq).
Proof.
  intros H. pose proof (rq_head _ _ _ H) as (Eh & Hm & n & En & Hc). cbn in Eh, En.
  pose proof (lookup_lt_Some _ _ _ En) as Hlt.
  pose proof (rq_nodup _ _ _ H) as Hnd. cbn in Hnd. pose proof Hnd as [Hni Hnd']%list.NoDup_cons.
  rewrite elem_of_app in Hni.
  unfold mq_pop. rewrite Eh, (get_next_ok m n), bind_ret_l by done.
  eexists _, _. split; [done|]. unfold mq_free. cbn [mq_next with_queue].
  rewrite set_next_ok, bind_ret_l by lia. split; [done|].
  assert ((m :: q) ++ f ≡ₚ q ++ m :: f) as Hp by (by rewrite <- Permutation_middle).
  split_and!; try done; cbn; [|by rewrite length_insert].
  split; cbn; try apply H.
  - apply chain_insert; [lia|tauto|done].
  - pose proof (rq_tail _ _ _ H) as Et. cbn in Et. rewrite Et.
    destruct q as [|q0 q1 _] using rev_ind; cbn; [by rewrite bool_decide_true|].
    change (m :: q1 ++ [q0]) with ((m :: q1) ++ [q0]). rewrite !last_snoc. rewrite bool_decide_false; [done|].
    intros [= ->]. apply Hni. left. apply elem_of_app. right. by apply list_elem_of_singleton.
  - split; [done|]. split; [lia|]. exists (msg_queue_free mq).
    rewrite list_lookup_insert_eq by lia. split; [done|]. apply chain_insert; [lia|tauto|apply H].
  - by rewrite <- Hp.
  - done.
  - rewrite <- Hp. apply H.
  - intros x Hx. apply (rq_data _ _ _ H). by rewrite Hp.
Qed.

Lemma mq_take_ok size mq m q f : mq_rep mq (m :: q) f -> 0 <= size ->
  exists mq', mq_take size mq = Ok (take (Z.to_nat (Z.min (msg_size mq) size)) (slot mq m), mq')
  /\ mq_rep mq' q (m :: f) /\ (forall x, slot mq' x = slot mq x) /\ msg_size mq' = msg_size mq.
Proof.
  intros H Hs. pose proof H as H0. rewrite <- (rep_entry _ _ _ H) in H0.
  destruct (mq_unlink_ok mq m q f H0) as (mq1 & mq2 & E1 & E2 & H2 & C1 & D1 & S1 & D2 & S2 & _).
  destruct (rq_data _ _ _ H m) as (d & Ed & Hd); [by left|].
  unfold mq_take. rewrite E1, bind_ret_l. fold (with_entry (u16 (mq_entry mq1 - 1)) mq1).
  cbn [mq_data with_entry with_queue msg_size]. rewrite D1, Ed, S1.
  assert ((if msg_size mq <? size then msg_size mq else size) = Z.min (msg_size mq) size) as ->
    by (destruct (Z.ltb_spec (msg_size mq) size); lia).
  rewrite (proj2 (Z.leb_le _ _)) by lia. rewrite mq_free_entry, E2, !bind_ret_l.
  assert (u16 (mq_entry mq1 - 1) = Z.of_nat (length q)) as ->.
  { rewrite C1, (rq_entry _ _ _ H). cbn. pose proof (rq_max _ _ _ H) as Hx. pose proof (rq_bound _ _ _ H).
    cbn in Hx. rewrite length_app in Hx. rewrite u16_id by mlia. lia. }
  eexists. split; [unfold slot; by rewrite Ed|]. split; [done|]. split; [|done].
  intros x. unfold slot. cbn. by rewrite D2.
Qed.

Lemma mq_release_all_ok fuel mq q f : (length q <= fuel)%nat ->
  mq_rep (with_entry (Z.of_nat (length q)) mq) q f ->
  exists mq', mq_release_all fuel mq = Ok mq' /\ mq_rep (with_entry 0 mq') [] (rev q ++ f)
  /\ msg_size mq' = msg_size mq.
Proof.
  revert fuel mq f. induction q as [|m q IH]; intros fuel mq f Hf H.
  - exists mq. assert (msg_queue_head mq = None) as E by apply (rq_head _ _ _ H).
    destruct fuel; cbn [mq_release_all]; by rewrite E.
  - destruct fuel as [|fuel]; [cbn in Hf; lia|]. cbn in Hf.
    destruct (mq_unlink_ok mq m q f H) as (mq1 & mq2 & E1 & E2 & H2 & _ & _ & _ & _ & S2 & _).
    destruct (IH fuel mq2 (m :: f) ltac:(lia) H2) as (mq' & E' & H' & S').
    assert (msg_queue_head mq = Some m) as Eh by apply (rq_head _ _ _ H).
    exists mq'. cbn [mq_release_all]. rewrite Eh, E1, bind_ret_l, E2, bind_ret_l. split; [done|].
    cbn [rev]. rewrite <- (assoc_L (++)). split; [done|congruence].
Qed.

(** The pool of a new queue: every slot is free. *)
Lemma link_free_ok n nx : (n <= length nx)%nat ->
  exists fr nx', link_free n nx = Ok (fr, nx') /\ chain nx' fr (rev (seqZ 0 (Z.of_nat n))).
Proof.
  intros Hn. unfold link_free.
  destruct (for_loop_inv (fun i '(fr, nx') => length nx' = length nx /\ chain nx' fr (rev (seqZ 0 i)))
    (fun i '(fr, nx) => nx ← set_next i fr nx; Ok (Some i, nx)) n 0 (None, nx)) as ([fr nx'] & E & _ & Hc).
  - done.
  - intros i [fr nx'] Hi [Hl Hc]. rewrite set_next_ok, bind_ret_l by lia. eexists. split; [done|].
    cbv beta iota. rewrite length_insert. split; [done|]. rewrite seqZ_app, rev_app_distr by lia.
    rewrite Z.add_0_l, (seqZ_cons i 1) by lia. cbn. split; [done|]. split; [lia|]. exists fr.
    rewrite list_lookup_insert_eq by lia. split; [done|]. apply chain_insert; [lia| |done].
    cbn [app]; rewrite list_elem_of_In, <- in_rev, <- list_elem_of_In, elem_of_seqZ. lia.
  - exists fr, nx'. by rewrite Z.add_0_l in Hc.
Qed.

Lemma mq_object_ok size n flag mem : 0 <= n < 65536 -> n <= Z.of_nat (length mem) -> 0 <= size ->
  Forall (fun d => size <= Z.of_nat (length d)) mem ->
  exists mq, mq_object size n flag mem = Ok mq /\ mq_rep mq [] (rev (seqZ 0 n))
  /\ msg_size mq = size /\ max_msgs mq = n.
Proof.
  intros Hn Hl Hs Hd. unfold mq_object.
  destruct (link_free_ok (Z.to_nat n) (replicate (length mem) None)) as (fr & nx & E & Hc);
    [rewrite length_replicate; lia|]. rewrite Z2Nat.id in Hc by lia.
  rewrite E, bind_ret_l. eexists. split; [done|]. split; [|done].
  assert (forall x, x ∈ rev (seqZ 0 n) <-> 0 <= x < n) as Hin
    by (intros x; cbn [app]; rewrite list_elem_of_In, <- in_rev, <- list_elem_of_In, elem_of_seqZ; lia).
  split; try done; cbn; try lia.
  - rewrite <- Permutation_rev. apply NoDup_seqZ.
  - rewrite length_rev, length_seqZ. lia.
  - intros x Hx%Hin. destruct (lookup_lt_is_Some_2 mem (Z.to_nat x)) as [d Ed]; [lia|].
    exists d. split; [done|]. by eapply (list.Forall_lookup_1 _ _ _ _ Hd).
Qed.

(** *** The calls that do not wait *)

Inductive mq_call : Type := MqSend (buffer : list Z) | MqUrgent (buffer : list Z) | MqRecv (size : Z) | MqReset.
Definition run_mq (o : Z) (c : mq_call) (s : istate) : res (outcome * istate) :=
  match c with
  | MqSend b => '(e, s) ← rt_mq_send o b s; Ok (Done e [], s)
  | MqUrgent b => '(e, s) ← rt_mq_urgent o b s; Ok (Done e [], s)
  | MqRecv size => rt_mq_recv o size 0 s
  | MqReset => '(e, s) ← rt_mq_control o true s; Ok (Done e [], s)
  end.
(** The arguments the code asserts. *)
Definition mq_valid (c : mq_call) : Prop :=
  match c with MqSend b | MqUrgent b => b <> [] | MqRecv size => 0 < size | MqReset => True end.

(** The queue as a list of at most [mx] messages of at most [sz] bytes: what is
    returned and what is received. *)
Definition deque_put (sz mx : Z) (urgent : bool) (b : list Z) (q : list (list Z)) : Z * list (list Z) :=
  if sz <? Z.of_nat (length b) then (- RT_ERROR, q)
  else if Z.of_nat (length q) <? mx then (RT_EOK, if urgent then b :: q else q ++ [b])
  else (- RT_EFULL, q).
Definition deque_call (sz mx : Z) (c : mq_call) (q : list (list Z)) : Z * list Z * list (list Z) :=
  match c with
  | MqSend b => let '(e, q) := deque_put sz mx false b q in (e, [], q)
  | MqUrgent b => let '(e, q) := deque_put sz mx true b q in (e, [], q)
  | MqRecv size => match q with
                   | [] => (- RT_ETIMEOUT, [], [])
                   | b :: q' => (RT_EOK, take (Z.to_nat size) b, q')
                   end
  | MqReset => (RT_EOK, [], [])
  end.
(** The code, and in the buffer the message, up to the size asked for. *)
Definition answers (r : outcome) (a : Z * list Z) : Prop :=
  match r with Done e stored => e = a.1 /\ a.2 `prefix_of` stored | Blocked _ => False end.

Fixpoint run_mqs (o : Z) (cs : list mq_call) (s : istate) : res (list outcome * istate) :=
  match cs with
  | [] => Ok ([], s)
  | c :: cs => '(r, s) ← run_mq o c s; '(rs, s) ← run_mqs o cs s; Ok (r :: rs, s)
  end.
Fixpoint deque_calls (sz mx : Z) (cs : list mq_call) (q : list (list Z)) : list (Z * list Z) * list (list Z) :=
  match cs with
  | [] => ([], q)
  | c :: cs => let '(e, b, q) := deque_call sz mx c q in
               let '(rs, q) := deque_calls sz mx cs q in ((e, b) :: rs, q)
  end.

Definition mq_holds (o sz mx : Z) (msgs : list (list Z)) (s : istate) : Prop :=
  kern_ready s /\ exists mq q f, objects s !! o = Some (MessageQueue mq) /\ mq_rep mq q f
  /\ msg_size mq = sz /\ max_msgs mq = mx
  /\ Forall2 (fun m b => b `prefix_of` slot mq m /\ Z.of_nat (length b) <= sz) q msgs.

Lemma Forall2_impl_l {A B} (P Q : A -> B -> Prop) l k : Forall2 P l k ->
  (forall x y, x ∈ l -> P x y -> Q x y) -> Forall2 Q l k.
Proof. induction 1 as [|x y l k Hp HF IH]; intros H; constructor; [apply H; [by left|done]|].
  apply IH. intros x' y' Hx. apply H. by right. Qed.

Lemma get_mq_eq o mq s : objects s !! o = Some (MessageQueue mq) -> get_mq o s = Ok mq.
Proof. unfold get_mq. by intros ->. Qed.

Lemma rep_max mq mq' q f q' f' : mq_rep mq q f -> mq_rep mq' q' f' -> q' ++ f' ≡ₚ q ++ f ->
  max_msgs mq' = max_msgs mq.
Proof. intros H H' Hp. by rewrite <- (rq_max _ _ _ H), <- (rq_max _ _ _ H'), Hp. Qed.

Lemma placed_perm urgent m q f : placed urgent m q ++ f ≡ₚ q ++ m :: f.
Proof.
  destruct urgent; cbn; [by rewrite Permutation_middle|]. by rewrite <- (assoc_L (++)).
Qed.

Lemma mq_send_call urgent o sz mx b msgs s : mq_holds o sz mx msgs s -> b <> [] ->
  exists e s' msgs', mq_send urgent o b s = Ok (e, s') /\ deque_put sz mx urgent b msgs = (e, msgs')
  /\ mq_holds o sz mx msgs' s'.
Proof.
  intros Hh Hb. pose proof Hh as [Hs (mq & q & f & Eo & H & <- & <- & HF)].
  assert (Z.of_nat (length b) =? 0 = false) as Hz by (apply Z.eqb_neq; destruct b; [done|cbn [length]; lia]).
  unfold mq_send, deque_put. rewrite (get_mq_eq _ _ _ Eo), bind_ret_l, Hz.
  destruct (Z.ltb_spec (msg_size mq) (Z.of_nat (length b))) as [Hlt|Hle]; [by eexists _, s, _|].
  pose proof (rq_max _ _ _ H) as Hmax. rewrite length_app, (Forall2_length HF) in Hmax.
  destruct f as [|m f].
  - assert (msg_queue_free mq = None) as Ef by apply (rq_free _ _ _ H).
    unfold mq_store, mq_alloc. rewrite Ef, !bind_ret_l. cbn in Hmax.
    destruct (Z.ltb_spec (Z.of_nat (length msgs)) (max_msgs mq)); [lia|]. by eexists _, s, _.
  - destruct (mq_store_ok urgent b mq q m f H Hle) as (mq' & E & H' & Hpre & Ho & Es).
    rewrite E, bind_ret_l. cbn [length] in Hmax.
    destruct (Z.ltb_spec (Z.of_nat (length msgs)) (max_msgs mq)); [|lia].
    destruct (wake_one_ok (suspend_thread o) (put_object o (MessageQueue mq') s) Hs) as (s' & E' & Hs' & Hob & _).
    rewrite E', bind_ret_l. eexists _, s', _. split; [done|]. split; [done|]. split; [done|].
    exists mq', (placed urgent m q), f. rewrite Hob. split; [apply lookup_insert_eq|].
    split; [done|]. split; [done|]. split; [by eapply rep_max, placed_perm|].
    assert (Forall2 (fun x c => c `prefix_of` slot mq' x /\ Z.of_nat (length c) <= msg_size mq) q msgs) as HF'.
    { apply (Forall2_impl_l _ _ _ _ HF). intros x c Hx [Hc Hl]. split; [|done].
      pose proof (rq_nodup _ _ _ H) as (_ & Hdis & _)%list.NoDup_app.
      rewrite Ho; [done| |intros ->; eapply Hdis; [exact Hx|by left]].
      by apply (chain_pos _ _ _ _ (rq_head _ _ _ H) Hx). }
    destruct urgent; [by constructor|]. apply Forall2_app; [done|]. by repeat constructor.
Qed.

Lemma mq_recv_call o sz mx size msgs s : mq_holds o sz mx msgs s -> 0 < size ->
  exists r s' a msgs', rt_mq_recv o size 0 s = Ok (r, s') /\ deque_call sz mx (MqRecv size) msgs = (a, msgs')
  /\ answers r a /\ mq_holds o sz mx msgs' s'.
Proof.
  intros Hh Hz. pose proof Hh as [Hs (mq & q & f & Eo & H & <- & <- & HF)].
  unfold rt_mq_recv, mq_recv_loop. rewrite (get_mq_eq _ _ _ Eo), !bind_ret_l, (rq_entry _ _ _ H).
  rewrite (proj2 (Z.eqb_neq size 0)) by lia. rewrite Z.eqb_refl, andb_true_r. cbn [deque_call].
  destruct HF as [|m b q msgs [Hpre Hl] HF]; [by eexists (Done _ _), s, _, _|].
  rewrite (proj2 (Z.eqb_neq _ 0)) by (cbn [length]; lia).
  destruct (mq_take_ok size mq m q f H ltac:(lia)) as (mq' & E & H' & Hsl & Es).
  rewrite E, bind_ret_l. eexists (Done _ _), _, _, _. split; [done|]. split; [done|].
  split; [split; [done|]|].
  - destruct Hpre as [rest ->]. cbn [snd]. rewrite take_app.
    replace (take (Z.to_nat (Z.min (msg_size mq) size)) b) with (take (Z.to_nat size) b); [by apply prefix_app_r|].
    destruct (Z.le_gt_cases size (msg_size mq)) as [Hle|Hgt]; [by rewrite Z.min_r by lia|].
    rewrite Z.min_l, !take_ge by lia. done.
  - split; [done|]. exists mq', q, (m :: f). split; [apply lookup_insert_eq|]. split; [done|].
    split; [done|]. split; [eapply rep_max; [exact H|exact H'|by rewrite <- Permutation_middle]|].
    apply (Forall2_impl_l _ _ _ _ HF). intros x c _ [Hc Hcl]. by rewrite Hsl.
Qed.

Lemma mq_reset_call o sz mx msgs s : mq_holds o sz mx msgs s ->
  exists s', rt_mq_control o true s = Ok (RT_EOK, s') /\ mq_holds o sz mx [] s'.
Proof.
  intros [[Hk Hc] (mq & q & f & Eo & H & <- & <- & HF)].
  destruct (resume_all_ok (suspend_thread o) _ (kern s) Hk eq_refl)
    as (k & E & Hk' & _ & _ & _ & Hc' & _ & _).
  unfold rt_mq_control. rewrite (get_mq_eq _ _ _ Eo), bind_ret_l. 
  assert (wake_waiting o (MessageQueue mq) s = Ok (with_kern k s)) as ->
    by (unfold wake_waiting, lift, rt_ipc_list_resume_all; by rewrite E). rewrite bind_ret_l.
  pose proof H as H0. rewrite <- (rep_entry _ _ _ H) in H0.
  assert (length q <= length (mq_next mq))%nat as Hlen.
  { pose proof (rq_nodup _ _ _ H) as [Hnd _]%list.NoDup_app. pose proof (rq_head _ _ _ H) as Hch.
    assert (q ⊆+ seqZ 0 (Z.of_nat (length (mq_next mq)))) as Hsub%submseteq_length.
    { apply NoDup_submseteq; [done|]. intros x Hx. apply elem_of_seqZ.
      pose proof (chain_pos _ _ _ _ Hch Hx). lia. }
    by rewrite length_seqZ, Nat2Z.id in Hsub. }
  destruct (mq_release_all_ok _ mq q f Hlen H0) as (mq' & E' & H' & Es').
  rewrite E', bind_ret_l. fold (with_entry 0 mq').
  destruct (schedule_ready (put_object o (MessageQueue (with_entry 0 mq')) (with_kern k s)))
    as (s' & E2 & Hs2 & Ho & _).
  { split; [done|]. cbn. by rewrite Hc'. }
  rewrite E2, bind_ret_l. exists s'. split; [done|]. split; [done|].
  exists (with_entry 0 mq'), [], (rev q ++ f). rewrite Ho. split; [apply lookup_insert_eq|].
  split; [done|]. split; [done|]. split; [|constructor].
  eapply rep_max; [exact H|exact H'|]. cbn. by rewrite <- Permutation_rev.
Qed.

Lemma mq_call_ok o sz mx msgs c s : mq_holds o sz mx msgs s -> mq_valid c ->
  exists r s' a msgs', run_mq o c s = Ok (r, s') /\ deque_call sz mx c msgs = (a, msgs')
  /\ answers r a /\ mq_holds o sz mx msgs' s'.
Proof.
  intros H Hv. destruct c as [b|b|size|]; cbn [run_mq deque_call].
  - destruct (mq_send_call false o sz mx b msgs s H Hv) as (e & s' & msgs' & E & -> & H').
    unfold rt_mq_send. rewrite E, bind_ret_l. by eexists (Done e []), s', _, msgs'.
  - destruct (mq_send_call true o sz mx b msgs s H Hv) as (e & s' & msgs' & E & -> & H').
    unfold rt_mq_urgent. rewrite E, bind_ret_l. by eexists (Done e []), s', _, msgs'.
  - exact (mq_recv_call o sz mx size msgs s H Hv).
  - destruct (mq_reset_call o sz mx msgs s H) as (s' & E & H'). rewrite E, bind_ret_l.
    by eexists (Done RT_EOK []), s', _, [].
Qed.

(** C14: A message queue is a bounded queue of messages: any sequence of
    [rt_mq_send], [rt_mq_urgent], non-waiting [rt_mq_recv] and reset calls
    returns the codes of a list of at most [max_msgs] messages of at most
    [msg_size] bytes, [rt_mq_urgent] storing in front; a receive delivers the
    message, up to the size asked for; and the slots stay divided between the
    two linked lists, whichever threads the calls wake. *)
Theorem message_queue_refines o sz mx cs msgs s : mq_holds o sz mx msgs s -> Forall mq_valid cs ->
  exists rs s' ans msgs', run_mqs o cs s = Ok (rs, s') /\ deque_calls sz mx cs msgs = (ans, msgs')
  /\ Forall2 answers rs ans /\ mq_holds o sz mx msgs' s'.
Proof.
  intros H Hv. revert msgs s H. induction Hv as [|c cs Hc Hv IH]; intros msgs s H.
  - by exists [], s, [], msgs.
  - destruct (mq_call_ok o sz mx msgs c s H Hc) as (r & s1 & a & msgs1 & E & Ed & Ha & H1).
    destruct (IH msgs1 s1 H1) as (rs & s' & ans & msgs' & E' & Ed' & HF & H').
    exists (r :: rs), s', (a :: ans), msgs'. cbn [run_mqs deque_calls].
    rewrite E, bind_ret_l, E', bind_ret_l, Ed. destruct a as [e b]. rewrite Ed'. split_and!; try done.
    by constructor.
Qed.

Definition mq_example : istate :=
  mkI boot {[5 := match mq_object 4 2 0 [[0; 0; 0; 0]; [0; 0; 0; 0]] with
                  | Ok mq => MessageQueue mq | Fault _ => Event (mkEvent 0 0) end]} {[5]}.
Lemma mq_example_ok : mq_holds 5 4 2 [] mq_example.
Proof.
  split; [apply kern_ready_boot|].
  destruct (mq_object_ok 4 2 0 [[0; 0; 0; 0]; [0; 0; 0; 0]]) as (mq & E & H & Hs & Hx); try done.
  { by repeat constructor. }
  exists mq, [], (rev (seqZ 0 2)). split; [|by split_and!].
  unfold mq_example. rewrite E. apply lookup_singleton_eq.
Qed.
Lemma message_queue_refines_witness : mq_holds 5 4 2 [] mq_example
  /\ exists rs s', run_mqs 5 [MqSend [1; 2]; MqUrgent [3]; MqSend [4]; MqRecv 4; MqRecv 1; MqReset] mq_example
       = Ok (rs, s').
Proof.
  split; [exact mq_example_ok|].
  destruct (message_queue_refines 5 4 2 [MqSend [1; 2]; MqUrgent [3]; MqSend [4]; MqRecv 4; MqRecv 1; MqReset]
    [] mq_example mq_example_ok) as (rs & s' & _ & _ & E & _).
  - repeat constructor; discriminate.
  - exists rs, s'. exact E.
Defined.
