(* ===== verification/KernelSync.v ===== *)
(** * Semaphores and mutexes under scheduling

    A machine of threads that take and release semaphores and mutexes, sleep,
    yield and are interrupted by the tick: the calls of [KernelIpc] composed
    with the scheduler and with the rests of blocked calls. *)
From stdpp Require Import gmap sorting.
From S2P Require Import Prelude KernelTimer KernelSched KernelThread KernelIpc KernelQueue.

(** ** What a call can see of a thread *)

(** Able to run, suspended, or neither. *)
Inductive vclass : Set := VRun | VWait | VNone.
Definition klass (x : thread_stat) : vclass :=
  match x with
  | RT_THREAD_READY | RT_THREAD_RUNNING => VRun
  | RT_THREAD_SUSPEND => VWait
  | RT_THREAD_INIT | RT_THREAD_CLOSE => VNone
  end.
(** ... with its error code. *)
Definition view (s : kstate) (x : Z) : option (vclass * Z) :=
  (fun th => (klass (stat th), error th)) <$> threads s !! x.

Lemma klass_run x : klass x = VRun <-> runnable x.
Proof. destruct x; split; try done; try (by left); try (by right); by intros []. Qed.

Lemma view_stat s x c e : view s x = Some (c, e) <->
  exists th, threads s !! x = Some th /\ klass (stat th) = c /\ error th = e.
Proof.
  unfold view. rewrite fmap_Some. split.
  - intros (th & E & [= -> ->]). by exists th.
  - intros (th & E & <- & <-). by exists th.
Qed.

Lemma frame_view s s' x : sched_frame s s' -> view s' x = view s x.
Proof.
  intros F. unfold view. destruct (sf_threads _ _ F x) as (y & -> & Hy).
  destruct (threads s !! x) as [th|]; [|done]. cbn. do 2 f_equal.
  destruct (Hy th eq_refl) as [->|[H1 H2]]; [done|]. apply klass_run in H1, H2. congruence.
Qed.

Lemma frame_prio s s' : sched_frame s s' -> prio_same s s'.
Proof.
  intros F x. unfold prio_of. destruct (sf_threads _ _ F x) as (y & -> & _). by destruct (threads s !! x).
Qed.

(** A change of thread [t] alone. *)
Lemma view_alter f t s x : view (upd_thread f t s) x
  = if decide (x = t) then (fun th => (klass (stat (f th)), error (f th))) <$> threads s !! t else view s x.
Proof.
  unfold view. cbn. case_decide as Hx; [subst x; rewrite lookup_alter_eq|by rewrite lookup_alter_ne].
  by destruct (threads s !! t).
Qed.

Lemma view_error e t s x : view (upd_thread (with_error e) t s) x
  = if decide (x = t) then (fun v => (v.1, e)) <$> view s x else view s x.
Proof.
  rewrite view_alter. case_decide as Hx; [subst x|done]. unfold view. by destruct (threads s !! t).
Qed.

(** ** The kernel between two calls *)

Section machine.
(** The thread that never waits. *)
Context (idle : Z).

Record pre_base (s : kstate) : Prop := {
  pb_kernel : kernel_ok s;
  pb_cur : is_Some (rt_current_thread s);
  pb_lock : rt_scheduler_lock_nest s = 0;
  pb_nest : rt_interrupt_nest s = 0;
  pb_idle : exists e, view s idle = Some (VRun, e) }.
Record base (s : kstate) : Prop := { bs_pre : pre_base s; bs_runs : cur_runs s }.

Lemma pre_frame s s' : pre_base s -> kernel_ok s' -> is_Some (rt_current_thread s') -> sched_frame s s' ->
  pre_base s'.
Proof.
  intros [Hk Hc Hl Hn [e He]] Hk' Hc' F. split; try done.
  - by rewrite (sf_lock _ _ F).
  - by rewrite (sf_nest _ _ F).
  - exists e. by rewrite (frame_view _ _ _ F).
Qed.

(** After a call of the scheduler the current thread is one that runs. *)
Lemma schedule_base s : pre_base s -> exists s', rt_schedule s = Ok s' /\ base s' /\ sched_frame s s'.
Proof.
  intros H. pose proof H as [Hk [c Hc] Hl Hn [e (th & Ei & Eik & _)%view_stat]].
  destruct (kernel_schedule s c Hk Hc) as (s' & E & Hk' & F & Hc').
  exists s'. split; [done|]. split; [|done]. split; [by eapply pre_frame|].
  destruct (rt_schedule_ok s c (ko_sched _ Hk) Hc) as [E' Hs']. rewrite E in E'. injection E' as ->.
  pose proof (schedule_ref_kept s (ko_sched _ Hk)) as Hkept.
  destruct (runs s c) as [prio|] eqn:Hr.
  - eapply cur_runs_frame; [done| |done|done]. exists c. split; [done|]. unfold runs in Hr.
    destruct (threads s !! c) as [thc|] eqn:Ec; [|done]. case_bool_decide; [|done]. by exists thc.
  - destruct Hkept as [Hsame|Hruns]; [|done]. exfalso.
    assert (stat th = RT_THREAD_READY) as Hready.
    { apply klass_run in Eik as [?|Es]; [done|]. pose proof (so_cur _ (ko_sched _ Hk)) as C.
      unfold cur_ok in C. rewrite Hc in C. assert (idle = c) as -> by (apply C; by exists th).
      unfold runs in Hr. rewrite Ei, bool_decide_true in Hr by done. done. }
    destruct (top_ready (rt_thread_priority_table s)) as [[p to]|] eqn:Htop;
      [|by eapply no_top_no_ready; [apply Hk|..]].
    destruct (top_not_current s c p to (ko_sched _ Hk) Hc Htop) as (l & _ & Hne & _).
    unfold schedule_ref in Hsame. rewrite Hc, Htop, Hl, Hr in Hsame. cbn in Hsame. congruence.
Qed.

(** A wait list, with the threads of [f] seen differently. *)
Definition sees (s s' : kstate) (f : Z -> option (vclass * Z) -> option (vclass * Z))
    (g : wait_list -> list Z -> list Z) : Prop :=
  (forall x, view s' x = f x (view s x)) /\ (forall k, wlist k s' = g k (wlist k s)).
Definition at_thread (t : Z) (c : vclass) (x : Z) (v : option (vclass * Z)) : option (vclass * Z) :=
  if decide (x = t) then (fun v => (c, v.2)) <$> v else v.
Definition at_list (k : wait_list) (f : list Z -> list Z) (k' : wait_list) (l : list Z) : list Z :=
  if decide (k' = k) then f l else l.

Lemma running_view s t : base s -> rt_current_thread s = Some t -> exists th, threads s !! t = Some th
  /\ stat th = RT_THREAD_RUNNING /\ view s t = Some (VRun, error th).
Proof.
  intros [_ (c & Hc & th & E & Es)] Ht. rewrite Hc in Ht. injection Ht as ->. exists th.
  split; [done|]. split; [done|]. unfold view. rewrite E. cbn. by rewrite Es.
Qed.

Lemma suspended_view t s x : view (suspended t s) x = at_thread t VWait x (view s x).
Proof.
  unfold at_thread, suspended. change (view (with_ktimers ?ts ?s) x) with (view s x).
  change (set_stat RT_THREAD_SUSPEND t ?s) with (upd_thread (with_stat RT_THREAD_SUSPEND) t s).
  rewrite view_alter. case_decide as Hx; [|done]. subst x. unfold view. cbn. by destruct (threads s !! t).
Qed.

Lemma pre_changed s s' t : pre_base s -> kernel_ok s' -> t <> idle ->
  rt_current_thread s' = rt_current_thread s -> rt_scheduler_lock_nest s' = rt_scheduler_lock_nest s ->
  rt_interrupt_nest s' = rt_interrupt_nest s -> (forall x, x <> t -> view s' x = view s x) ->
  pre_base s'.
Proof.
  intros [Hk Hc Hl Hn [e He]] Hk' Hti Ec El En Hv. split; rewrite ?Ec, ?El, ?En; try done.
  exists e. rewrite Hv; [done|]. by apply not_eq_sym.
Qed.

Lemma schedule_sees s s' s2 f g : sees s s' f g -> sched_frame s' s2 -> sees s s2 f g.
Proof.
  intros [Hv Hw] F. split; intros x.
  - by rewrite (frame_view _ _ _ F).
  - by rewrite (wlist_frame _ _ _ F).
Qed.

(** The running thread [t] waits. *)
Lemma block_base k flag time s t : base (kern s) -> rt_current_thread (kern s) = Some t -> t <> idle ->
  flag_ok flag -> time < HALF ->
  exists s', block k t flag time s = Ok s' /\ base (kern s') /\ objects s' = objects s
  /\ statics s' = statics s
  /\ sees (kern s) (kern s') (at_thread t VWait) (at_list k (queued flag (kern s) t))
  /\ prio_same (kern s) (kern s').
Proof.
  intros Hb Ht Hti Hf Htm. destruct (running_view _ t Hb Ht) as (th & Eth & Est & _).
  destruct (block_ok k flag time s t) as (ts & s' & E & Hk' & Hkw & Es & F & Ho & Hst & _); try done.
  { apply Hb. } { by exists th. }
  set (kw := with_ktimers ts (waiting k flag t (kern s))) in *.
  assert (sees (kern s) kw (at_thread t VWait) (at_list k (queued flag (kern s) t))) as Hsees.
  { split.
    - intros x. exact (suspended_view t (kern s) x).
    - intros k'. rewrite (waiting_wlist k k' flag t ts (kern s) kw (frame_refl kw)).
      unfold at_list. case_decide as Hk; [by subst k'|done]. }
  assert (pre_base kw) as Hpre.
  { eapply (pre_changed (kern s) kw t); try done; [apply Hb|]. intros x Hx. rewrite (proj1 Hsees).
    unfold at_thread. by rewrite decide_False. }
  destruct (schedule_base kw Hpre) as (k2 & E2 & Hb2 & F2). rewrite Es in E2. injection E2 as <-.
  exists s'. split_and!; try done; [by eapply schedule_sees|].
  intros x. rewrite (frame_prio _ _ F). exact (suspended_prio t (kern s) x).
Qed.

(** The first of a waiting list is woken. *)
Lemma wake_base k w l s : pre_base s -> wlist k s = w :: l ->
  rt_ipc_list_resume k s = Ok (resumed w s) /\ pre_base (resumed w s)
  /\ sees s (resumed w s) (at_thread w VRun) (at_list k tail).
Proof.
  intros Hb Hl. destruct (list_resume_ok k w l s (pb_kernel _ Hb) Hl) as (E & Hk & Hl' & Ho).
  destruct (waiting_stat k s w (so_lists _ (ko_sched _ (pb_kernel _ Hb))) ltac:(rewrite Hl; by left))
    as (th & Eth & Est).
  assert (forall x, view (resumed w s) x = at_thread w VRun x (view s x)) as Hv.
  { intros x. unfold view. rewrite (resumed_threads w th s Eth). unfold at_thread. case_decide as Hx.
    - subst x. rewrite lookup_alter_eq, Eth. cbn. by rewrite (proj2 (klass_run _) (ready_stat_runnable w s)).
    - by rewrite lookup_alter_ne. }
  split; [done|]. split.
  - destruct Hb as [_ Hc Hlk Hn [e He]].
    destruct (made_ready_frame w (with_ktimers (stopped w (ktimers s)) (removed w s))) as [_ _ _ F4 F5 F6 _].
    split; unfold resumed; rewrite ?F4, ?F5, ?F6; try done. fold (resumed w s).
    exists e. rewrite Hv. unfold at_thread. by rewrite He; case_decide.
  - split; [done|]. intros k'. unfold at_list. case_decide as Hk'; [subst k'; by rewrite Hl, Hl'|].
    by apply Ho.
Qed.
Definition kept_view (x : Z) (v : option (vclass * Z)) : option (vclass * Z) := v.
Definition kept_list (k : wait_list) (l : list Z) : list Z := l.

(** A change of priority is not seen. *)
Lemma priority_base p t th s : base s -> threads s !! t = Some th -> stat th <> RT_THREAD_CLOSE ->
  0 <= p < 32 ->
  exists s', change_priority t p s = Ok s' /\ base s' /\ rt_current_thread s' = rt_current_thread s
  /\ sees s s' kept_view kept_list
  /\ (forall x, prio_of s' x = if decide (x = t) then p else prio_of s x).
Proof.
  intros Hb Ht Hs Hp. pose proof (pb_kernel _ (bs_pre _ Hb)) as Hk.
  destruct (change_priority_ok p t th s Hk Ht) as (s' & E & Hk' & Es'); [|done|].
  { by eapply (ob_live _ (ko_objs _ Hk)). }
  exists s'. split; [unfold change_priority; by rewrite E|].
  set (th' := with_priority p (2 ^ p) th).
  set (f := with_priority p (2 ^ p)) in *.
  assert (exists y, threads s' = alter (fun x => with_stat y (f x)) t (threads s)
    /\ klass y = klass (stat th) /\ (stat th = RT_THREAD_RUNNING -> y = RT_THREAD_RUNNING)
    /\ rt_current_thread s' = rt_current_thread s
    /\ rt_scheduler_lock_nest s' = rt_scheduler_lock_nest s /\ rt_interrupt_nest s' = rt_interrupt_nest s
    /\ forall k, wlist k s' = wlist k s) as (y & Ey & Hy & Hyr & Ec & El & En & Ew).
  { rewrite Es'. case_bool_decide as Hr.
    - destruct (made_ready_frame t (upd_thread f t (removed t s))) as [_ _ F3 F4 F5 F6 _].
      exists (ready_stat t (upd_thread f t (removed t s))). split_and!; try done.
      + rewrite (made_ready_threads t (f th)) by (cbn; by rewrite lookup_alter_eq, Ht).
        cbn. apply map_eq. intros x. destruct (decide (x = t)) as [->|Hx]; [|by rewrite !lookup_alter_ne].
        rewrite !lookup_alter_eq. by destruct (threads s !! t).
      + rewrite Hr. apply klass_run, ready_stat_runnable.
      + congruence.
      + intros k. unfold wlist at 1. rewrite F3. fold (wlist k (upd_thread f t (removed t s))).
        change (wlist k (upd_thread f t (removed t s))) with (wlist k (removed t s)).
        rewrite wlist_removed. apply unlink_notin.
        eapply runnable_unlinked_waits; [apply Hk|done|by left].
    - exists (stat th). split_and!; try done. cbn. apply map_eq. intros x.
      destruct (decide (x = t)) as [->|Hx]; [|by rewrite !lookup_alter_ne].
      rewrite !lookup_alter_eq, Ht. cbn. by destruct th. }
  assert (forall x, view s' x = view s x) as Hv.
  { intros x. unfold view. rewrite Ey. destruct (decide (x = t)) as [->|Hx]; [|by rewrite lookup_alter_ne].
    rewrite lookup_alter_eq, Ht. cbn. by rewrite Hy. }
  split; [|split; [done|split; [by split|]]].
  - destruct Hb as [[_ Hc Hl Hn [e He]] (c & Hcc & thc & Ecc & Esc)].
    split; [split; rewrite ?Ec, ?El, ?En; try done; exists e; by rewrite Hv|].
    exists c. split; [by rewrite Ec|]. unfold has_stat. rewrite Ey.
    destruct (decide (c = t)) as [->|Hx]; [|rewrite lookup_alter_ne by done; by exists thc].
    rewrite lookup_alter_eq, Ht. eexists. split; [done|]. cbn. apply Hyr. congruence.
  - intros x. unfold prio_of. rewrite Ey. destruct (decide (x = t)) as [->|Hx]; [|by rewrite lookup_alter_ne].
    by rewrite lookup_alter_eq, Ht.
Qed.

Lemma error_base e t s : base s -> base (upd_thread (with_error e) t s).
Proof.
  intros [[Hk Hc Hl Hn [ei He]] (c & Hcc & th & Ec & Es)]. split; [split; try done|].
  - by apply kernel_upd.
  - rewrite view_error. exists (if decide (idle = t) then e else ei). by rewrite He; case_decide.
  - exists c. split; [done|]. unfold has_stat. cbn. destruct (decide (c = t)) as [->|Hx].
    + rewrite lookup_alter_eq, Ec. by eexists.
    + rewrite lookup_alter_ne by done. by exists th.
Qed.

Lemma sleep_base tick s t : base s -> rt_current_thread s = Some t -> t <> idle -> 0 <= tick < HALF ->
  exists s', rt_thread_sleep tick s = Ok s' /\ base s' /\ sees s s' (at_thread t VWait) kept_list.
Proof.
  intros Hb Ht Hti Htk. destruct (running_view _ t Hb Ht) as (th & Eth & Est & _).
  pose proof (pb_kernel _ (bs_pre _ Hb)) as Hk.
  destruct (sleep_ok tick s t Hk Ht) as (ts & s' & E & Hk' & Hkw & Es & F & _); [by exists th|done|].
  set (kw := with_ktimers ts (suspended t s)) in *.
  assert (sees s kw (at_thread t VWait) kept_list) as Hsees.
  { split; [exact (suspended_view t s)|]. intros k. unfold wlist, kept_list. cbn.
    pose proof (suspended_waits t th s Hk Eth ltac:(by right)) as Ew. cbn in Ew. by rewrite Ew. }
  assert (pre_base kw) as Hpre.
  { eapply (pre_changed s kw t); try done; [apply Hb|]. intros x Hx. rewrite (proj1 Hsees).
    unfold at_thread. by rewrite decide_False. }
  destruct (schedule_base kw Hpre) as (k2 & E2 & Hb2 & F2). rewrite Es in E2. injection E2 as <-.
  exists s'. split_and!; try done; by eapply schedule_sees.
Qed.

(** A tick: the threads whose timers expire were waiting. *)
Lemma tick_base cb stops s : simple_cb stops cb -> base s ->
  exists fired s', SysTick_Handler cb (S (size (timers (ktimers s)))) s = Ok (fired, s') /\ base s'
  /\ sees s s' (fun x v => if decide (x ∈ fired) then (fun _ => (VRun, - RT_ETIMEOUT)) <$> v else v)
       (fun _ l => filter (fun x => x ∉ fired) l)
  /\ (forall x e, x ∈ fired -> view s x <> Some (VRun, e)).
Proof.
  intros Hcb Hb. pose proof Hb as [[Hk Hc Hl Hn [e He]] Hr].
  destruct (interrupt_ok cb stops Hcb (S (size (timers (ktimers s)))) s Hk Hc ltac:(lia))
    as (sl & c & s' & E & Hk' & Hc' & Hf & _ & _ & _ & _ & Hrest).
  destruct Hrest as [W L N O R]; [lia|].
  assert (forall x, view s' x = if decide (x ∈ due (ktimers s))
    then (fun _ => (VRun, - RT_ETIMEOUT)) <$> view s x else view s x) as Hv.
  { intros x. specialize (Hf x).
    assert (forall th', (fun th => (klass (stat th), error th)) <$> Some th' = Some (klass (stat th'), error th')) as Hfm by done.
    assert (view (upd_thread (with_slice sl) c s) x = view s x) as <-.
    { rewrite view_alter. case_decide as Hx; [subst x|done]. unfold view. by destruct (threads s !! c). }
    unfold view. destruct (threads (upd_thread _ c s) !! x) as [th|], (threads s' !! x) as [th'|]; try done;
      [|by case_decide]. unfold tick_effect in Hf. cbn [fmap option_fmap option_map].
    case_decide as Hx.
    - destruct Hf as [Hrun Eth]. apply klass_run in Hrun. rewrite Eth in Hrun |- *. cbn in Hrun |- *. by rewrite Hrun.
    - destruct Hf as [Eth Hs]. rewrite Eth. cbn.
      destruct Hs as [->|[H1 H2]]; [done|]. apply klass_run in H1, H2. by rewrite H1, H2. }
  assert (forall x e, x ∈ due (ktimers s) -> view s x <> Some (VRun, e)) as Hno.
  { intros x e' Hx (th & Eth & Eth' & _)%view_stat. pose proof (ko_timer _ Hk x th Eth) as Ht.
    apply list_elem_of_filter in Hx as [_ Hx]. unfold timer_ok in Ht. apply klass_run in Eth'.
    destruct Eth' as [Es|Es]; rewrite Es in Ht; destruct Ht as (_ & _ & _ & Hni); by apply Hni. }
  exists (due (ktimers s)), s'. split; [done|]. split; [|split; [by split|done]].
  split; [split; rewrite ?L, ?N; try done|by apply R].
  exists e. rewrite Hv, decide_False; [done|]. intros Hx. by eapply Hno.
Qed.
End machine.

(** ** The machine *)

(** What a thread has left to do before its next call. *)
Inductive frame : Type := FCall (p : pending) | FSleep.
(** What the calls returned: [Took t o code] is a take of object [o] by thread
    [t], [Gave] a release. *)
Inductive event : Type := Took (t o code : Z) | Gave (t o code : Z).
Record sys := mkSys { ist : istate; pend : gmap Z frame; log : list event }.

Inductive label : Type :=
| LSemTake (o time : Z) | LSemRelease (o : Z) | LMutexTake (o time : Z) | LMutexRelease (o : Z)
| LSleep (tick : Z) | LYield | LReturn | LTick.

(** A take that returns, or waits. *)
Definition settle (t o : Z) (r : outcome) (i : istate) (s : sys) : sys :=
  match r with
  | Done c _ => mkSys i (delete t (pend s)) (Took t o c :: log s)
  | Blocked p => mkSys i (<[t := FCall p]> (pend s)) (log s)
  end.
Definition object_of (p : pending) : Z :=
  match p with
  | PSemTake o | PMutexTake o _ => o
  | PEventRecv => 0
  | PMbSend o _ _ _ | PMbRecv o _ _ | PMqRecv o _ _ _ => o
  end.

Section run.
Context (cb : Z -> tstate -> res tstate).

Definition run_label (l : label) (s : sys) : res sys :=
  t ← current (ist s);
  match l with
  | LSemTake o time => '(r, i) ← rt_sem_take o time (ist s); Ok (settle t o r i s)
  | LMutexTake o time => '(r, i) ← rt_mutex_take o time (ist s); Ok (settle t o r i s)
  | LSemRelease o => '(c, i) ← rt_sem_release o (ist s); Ok (mkSys i (pend s) (Gave t o c :: log s))
  | LMutexRelease o => '(c, i) ← rt_mutex_release o (ist s); Ok (mkSys i (pend s) (Gave t o c :: log s))
  | LSleep tick => i ← lift (rt_thread_sleep tick) (ist s); Ok (mkSys i (<[t := FSleep]> (pend s)) (log s))
  | LYield => i ← lift rt_schedule (ist s); Ok (mkSys i (pend s) (log s))
  | LReturn =>
      match pend s !! t with
      | None => Fault AssertFail
      | Some (FCall p) => '(r, i) ← resume_call t p (ist s); Ok (settle t (object_of p) r i s)
      | Some FSleep =>
          '(_, k) ← rt_thread_sleep_end t (kern (ist s));
          Ok (mkSys (with_kern k (ist s)) (delete t (pend s)) (log s))
      end
  | LTick =>
      '(_, k) ← SysTick_Handler cb (S (size (timers (ktimers (kern (ist s)))))) (kern (ist s));
      Ok (mkSys (with_kern k (ist s)) (pend s) (log s))
  end.

Fixpoint run_labels (ls : list label) (s : sys) : res sys :=
  match ls with [] => Ok s | l :: ls => s ← run_label l s; run_labels ls s end.
End run.

(** ** What the log says *)

Definition ok (c : Z) : Z := if c =? RT_EOK then 1 else 0.
(** How often thread [t] holds [o]. *)
Fixpoint held (t o : Z) (l : list event) : Z :=
  match l with
  | [] => 0
  | Took t' o' c :: l => held t o l + (if decide (t' = t /\ o' = o) then ok c else 0)
  | Gave t' o' c :: l => held t o l - (if decide (t' = t /\ o' = o) then ok c else 0)
  end.
(** How often a token of [o] was taken, and given. *)
Fixpoint taken (o : Z) (l : list event) : Z :=
  match l with
  | [] => 0
  | Took _ o' c :: l => taken o l + (if decide (o' = o) then ok c else 0)
  | Gave _ _ _ :: l => taken o l
  end.
Fixpoint given (o : Z) (l : list event) : Z :=
  match l with
  | [] => 0
  | Took _ _ _ :: l => given o l
  | Gave _ o' c :: l => given o l + (if decide (o' = o) then ok c else 0)
  end.

(** ** The invariant *)

#[global] Instance vclass_eq_dec : EqDecision vclass.
Proof. solve_decision. Defined.
#[global] Instance pending_eq_dec : EqDecision pending.
Proof. solve_decision. Defined.
#[global] Instance frame_eq_dec : EqDecision frame.
Proof. solve_decision. Defined.

Definition waits_for (f : frame) : option Z :=
  match f with FCall (PSemTake o) | FCall (PMutexTake o _) => Some o | _ => None end.
Definition taking (p : gmap Z frame) (t o : Z) : bool :=
  match p !! t with Some (FCall (PMutexTake o' _)) => bool_decide (o' = o) | _ => false end.

(** The threads that have been given a token of [o] and have not returned. *)
Definition grantee (vw : Z -> option (vclass * Z)) (o : Z) (tf : Z * frame) : Prop :=
  tf.2 = FCall (PSemTake o) /\ vw tf.1 = Some (VRun, RT_EOK).
#[global] Instance grantee_dec vw o tf : Decision (grantee vw o tf).
Proof. unfold grantee. apply _. Defined.
Definition granted (vw : Z -> option (vclass * Z)) (p : gmap Z frame) (o : Z) : gset Z :=
  dom (filter (grantee vw o) p).

Lemma elem_of_granted vw p o t :
  t ∈ granted vw p o <-> p !! t = Some (FCall (PSemTake o)) /\ vw t = Some (VRun, RT_EOK).
Proof.
  unfold granted. rewrite elem_of_dom. unfold is_Some. setoid_rewrite map_lookup_filter_Some.
  unfold grantee. cbn. split; [intros (f & E & -> & Hv)|intros [E Hv]; exists (FCall (PSemTake o))]; done.
Qed.

Section invariant.
(** The values the semaphores started with. *)
Context (init : Z -> Z).

(** The state as the calls see it. *)
Record astate := mkA {
  vw : Z -> option (vclass * Z); wl : wait_list -> list Z;
  objs : gmap Z ipc_object; frames : gmap Z frame; events : list event }.
Definition abs (s : sys) : astate :=
  mkA (view (kern (ist s))) (fun k => wlist k (kern (ist s))) (objects (ist s)) (pend s) (log s).

Definition alive (a : astate) (t : Z) : Prop := exists c e, vw a t = Some (c, e) /\ c <> VNone.

(** A blocked call: it waits; or it has what it waited for; or its time is
    over. *)
Definition frame_ok (a : astate) (t : Z) (f : frame) : Prop :=
  match f with
  | FSleep => alive a t
  | FCall (PSemTake o) =>
      (exists x, objs a !! o = Some (Semaphore x))
      /\ (vw a t = Some (VWait, RT_EOK) /\ t ∈ wl a (suspend_thread o)
          \/ vw a t = Some (VRun, RT_EOK) \/ vw a t = Some (VRun, - RT_ETIMEOUT))
  | FCall (PMutexTake o _) =>
      exists m, objs a !! o = Some (Mutex m)
      /\ (vw a t = Some (VWait, RT_EOK) /\ t ∈ wl a (suspend_thread o) /\ owner m <> Some t
          \/ vw a t = Some (VRun, RT_EOK) /\ owner m = Some t /\ hold m = 1
          \/ vw a t = Some (VRun, - RT_ETIMEOUT) /\ owner m <> Some t)
  | FCall _ => False
  end.

Definition mutex_ok (a : astate) (o : Z) (m : rt_mutex) : Prop :=
  flag_ok (mtx_flag m)
  /\ match owner m with
     | None => mtx_value m = 1 /\ hold m = 0 /\ wl a (suspend_thread o) = []
     | Some t => mtx_value m = 0 /\ 1 <= hold m <= 255 /\ 0 <= original_priority m < 32 /\ alive a t
     end
  /\ forall t, held t o (events a)
       = if decide (owner m = Some t /\ taking (frames a) t o = false) then hold m else 0.

Definition sem_ok (a : astate) (o : Z) (x : rt_semaphore) : Prop :=
  flag_ok (sem_flag x) /\ 0 <= sem_value x <= 65535
  /\ (0 < sem_value x -> wl a (suspend_thread o) = [])
  /\ sem_value x + Z.of_nat (size (granted (vw a) (frames a) o)) + taken o (events a)
     = init o + given o (events a).

Definition object_ok (a : astate) (o : Z) (x : ipc_object) : Prop :=
  match x with Mutex m => mutex_ok a o m | Semaphore x => sem_ok a o x | _ => True end.

Record sync_ok (a : astate) : Prop := {
  sy_frame : forall t f, frames a !! t = Some f -> frame_ok a t f;
  sy_wait : forall k t, t ∈ wl a k -> exists o f,
    k = suspend_thread o /\ frames a !! t = Some f /\ waits_for f = Some o;
  sy_object : forall o x, objs a !! o = Some x -> object_ok a o x }.

(** A step that concerns one thread and one object. *)
Record local_step (a a' : astate) (t o : Z) : Prop := {
  ls_view : forall x, x <> t -> vw a' x = vw a x /\ frames a' !! x = frames a !! x;
  ls_list : forall k x, x <> t -> x ∈ wl a' k <-> x ∈ wl a k;
  ls_other : forall k, k <> suspend_thread o -> wl a' k = wl a k;
  ls_objs : forall o', o' <> o -> objs a' !! o' = objs a !! o';
  ls_log : forall o', o' <> o -> given o' (events a') = given o' (events a)
    /\ taken o' (events a') = taken o' (events a) /\ forall x, held x o' (events a') = held x o' (events a);
  ls_alive : alive a t -> alive a' t;
  ls_frame : forall f o', frames a !! t = Some f \/ frames a' !! t = Some f -> waits_for f = Some o' -> o' = o }.

Lemma local_alive a a' t o x : local_step a a' t o -> alive a x -> alive a' x.
Proof.
  intros L H. destruct (decide (x = t)) as [->|Hx]; [by apply (ls_alive _ _ _ _ L)|].
  unfold alive in *. by rewrite (proj1 (ls_view _ _ _ _ L x Hx)).
Qed.

Lemma local_granted a a' t o o' : local_step a a' t o -> o' <> o ->
  granted (vw a') (frames a') o' = granted (vw a) (frames a) o'.
Proof.
  intros L Ho. apply set_eq. intros x. rewrite !elem_of_granted.
  destruct (decide (x = t)) as [->|Hx].
  - split; intros [E _]; exfalso; apply Ho; (eapply (ls_frame _ _ _ _ L); [eauto|done]).
  - by destruct (ls_view _ _ _ _ L x Hx) as [-> ->].
Qed.

Lemma local_taking a a' t o o' x : local_step a a' t o -> o' <> o ->
  taking (frames a') x o' = taking (frames a) x o'.
Proof.
  intros L Ho. destruct (decide (x = t)) as [->|Hx].
  - assert (forall p : gmap Z frame, (forall f, p !! t = Some f -> forall o', waits_for f = Some o' -> o' = o)
      -> taking p t o' = false) as H.
    { intros p Hp. unfold taking. destruct (p !! t) as [[[]|]|] eqn:E; try done.
      apply bool_decide_false. intros ->. apply Ho. by eapply Hp. }
    rewrite !H; [done|intros f E o1; eapply (ls_frame _ _ _ _ L); eauto..].
  - unfold taking. by rewrite (proj2 (ls_view _ _ _ _ L x Hx)).
Qed.

Lemma local_object a a' t o o' x : local_step a a' t o -> o' <> o -> object_ok a o' x -> object_ok a' o' x.
Proof.
  intros L Ho. destruct (ls_log _ _ _ _ L o' Ho) as (Eg & Et & Eh).
  assert (wl a' (suspend_thread o') = wl a (suspend_thread o')) as Ew by (apply (ls_other _ _ _ _ L); congruence).
  destruct x as [x|m| | |]; cbn; try done.
  - unfold sem_ok. by rewrite Eg, Et, Ew, (local_granted a a' t o).
  - intros (Hf & Hm & Hh). split; [done|]. rewrite Ew. split.
    + destruct (owner m); [|done]. destruct Hm as (? & ? & ? & Ha). split_and!; try done; try lia.
      by eapply local_alive.
    + intros y. by rewrite Eh, Hh, (local_taking a a' t o).
Qed.

Lemma local_frame a a' t o x f : local_step a a' t o -> x <> t -> waits_for f <> Some o ->
  frame_ok a x f -> frame_ok a' x f.
Proof.
  intros L Hx Hf. destruct (ls_view _ _ _ _ L x Hx) as [Ev _]. unfold frame_ok, alive. rewrite Ev.
  destruct f as [[o'|o' time| | | |]|]; try done; cbn in Hf;
    rewrite (ls_objs _ _ _ _ L), (ls_other _ _ _ _ L) by congruence; done.
Qed.

Lemma sync_local a a' t o : sync_ok a -> local_step a a' t o ->
  (forall f, frames a' !! t = Some f -> frame_ok a' t f) ->
  (forall k, t ∈ wl a' k -> exists f, k = suspend_thread o /\ frames a' !! t = Some f /\ waits_for f = Some o) ->
  (forall x f, x <> t -> frames a !! x = Some f -> waits_for f = Some o -> frame_ok a x f -> frame_ok a' x f) ->
  (forall x, objs a' !! o = Some x -> object_ok a' o x) ->
  sync_ok a'.
Proof.
  intros [F W O] L Hft Hwt Hfo Hoo. split.
  - intros x f E. destruct (decide (x = t)) as [->|Hx]; [by apply Hft|].
    rewrite (proj2 (ls_view _ _ _ _ L x Hx)) in E.
    destruct (decide (waits_for f = Some o)) as [Hf|Hf]; [by apply Hfo; auto|].
    eapply local_frame; eauto.
  - intros k x Hx. destruct (decide (x = t)) as [->|Hn].
    + destruct (Hwt k Hx) as (f & ? & ? & ?). by exists o, f.
    + apply (ls_list _ _ _ _ L) in Hx; [|done]. rewrite (proj2 (ls_view _ _ _ _ L x Hn)). by apply W.
  - intros o' x E. destruct (decide (o' = o)) as [->|Hn]; [by apply Hoo|].
    rewrite (ls_objs _ _ _ _ L) in E by done. eapply local_object; eauto.
Qed.

Lemma log_other o o' l e : o' <> o -> (exists t c, e = Took t o c \/ e = Gave t o c) ->
  given o' (e :: l) = given o' l /\ taken o' (e :: l) = taken o' l /\ forall x, held x o' (e :: l) = held x o' l.
Proof.
  intros Hn (t & c & [-> | ->]); cbn; split_and!; rewrite ?decide_False by congruence; try lia;
    intros x; rewrite decide_False by naive_solver; lia.
Qed.

(** Neither views nor lists nor frames change: the call returns at once. *)
Lemma local_return a o x e t : (exists t c, e = Took t o c \/ e = Gave t o c) -> frames a !! t = None ->
  local_step a (mkA (vw a) (wl a) (<[o := x]> (objs a)) (frames a) (e :: events a)) t o.
Proof.
  intros He Hf. split; cbn; try done.
  - intros o' Ho. by apply lookup_insert_ne.
  - intros o' Ho. by apply (log_other o).
  - intros f o' [E|E]; congruence.
Qed.

(** [sync_local] for such a call. *)
Lemma sync_return a o x x' e t : sync_ok a -> (exists t c, e = Took t o c \/ e = Gave t o c) ->
  frames a !! t = None -> objs a !! o = Some x' ->
  (let a' := mkA (vw a) (wl a) (<[o := x]> (objs a)) (frames a) (e :: events a) in
   (forall y f, y <> t -> frames a !! y = Some f -> waits_for f = Some o -> frame_ok a y f -> frame_ok a' y f)
   /\ (object_ok a o x' -> object_ok a' o x)) ->
  sync_ok (mkA (vw a) (wl a) (<[o := x]> (objs a)) (frames a) (e :: events a)).
Proof.
  intros Hs He Hf Ho [H1 H2]. eapply sync_local; [exact Hs|by apply local_return| | |exact H1|].
  - intros f E. cbn in E. congruence.
  - intros k (o' & f & -> & E & _)%(sy_wait _ Hs). congruence.
  - cbn. rewrite lookup_insert_eq. intros y [= <-]. apply H2. by eapply (sy_object _ Hs).
Qed.

(** Changing a semaphore leaves the calls that wait for it. *)
Lemma sem_frames a o x x' e y f : objs a !! o = Some (Semaphore x) -> waits_for f = Some o ->
  frame_ok a y f ->
  frame_ok (mkA (vw a) (wl a) (<[o := Semaphore x']> (objs a)) (frames a) (e :: events a)) y f.
Proof.
  intros Ho Hf. destruct f as [[o'|o' tm| | | |]|]; try done; cbn in *; injection Hf as ->.
  - intros [_ H]. rewrite lookup_insert_eq. split; [by eexists|done].
  - intros (m & E & _). congruence.
Qed.

Lemma sem_took a t o x : sync_ok a -> frames a !! t = None -> objs a !! o = Some (Semaphore x) ->
  0 < sem_value x ->
  sync_ok (mkA (vw a) (wl a) (<[o := Semaphore (mkSem (u16 (sem_value x - 1)) (sem_flag x))]> (objs a))
             (frames a) (Took t o RT_EOK :: events a)).
Proof.
  intros Hs Hf Ho Hv. eapply sync_return; [done|by exists t, RT_EOK; left|exact Hf|done|]. cbv zeta. split.
  - intros y f _ _ Hw. by apply (sem_frames a o x).
  - intros (Hfl & Hr & Hw & Hc). cbn. split; [done|]. cbn. rewrite u16_id by mlia. split; [lia|].
    split; [intros _; by apply Hw|]. rewrite decide_True by done. cbn [ok]. unfold ok. cbn. lia.
Qed.

Lemma sem_gave a t o x y : sync_ok a -> frames a !! y = None -> objs a !! o = Some (Semaphore x) ->
  sem_value x < 65535 -> wl a (suspend_thread o) = [] ->
  sync_ok (mkA (vw a) (wl a) (<[o := Semaphore (mkSem (u16 (sem_value x + 1)) (sem_flag x))]> (objs a))
             (frames a) (Gave t o RT_EOK :: events a)).
Proof.
  intros Hs Hf Ho Hv Hl. eapply sync_return; [done|by exists t, RT_EOK; right|exact Hf|done|]. cbv zeta. split.
  - intros z f _ _ Hw. by apply (sem_frames a o x).
  - intros (Hfl & Hr & Hw & Hc). cbn. split; [done|]. cbn. rewrite u16_id by mlia. split; [lia|].
    split; [done|]. rewrite decide_True by done. unfold ok. cbn. lia.
Qed.

(** States that look the same. *)
Record same_abs (a a' : astate) : Prop := {
  sa_view : forall x, vw a' x = vw a x;
  sa_list : forall k, wl a' k = wl a k;
  sa_objs : objs a' = objs a;
  sa_frames : frames a' = frames a;
  sa_log : forall o, given o (events a') = given o (events a) /\ taken o (events a') = taken o (events a)
    /\ forall x, held x o (events a') = held x o (events a) }.

Lemma sync_ext a a' : same_abs a a' -> sync_ok a -> sync_ok a'.
Proof.
  intros [Ev El Eo Ef Eg] [F W O].
  assert (forall x, alive a x <-> alive a' x) as Ha by (intros x; unfold alive; by rewrite Ev).
  split.
  - rewrite Ef. intros t f E. specialize (F t f E). unfold frame_ok in *. rewrite Ev, Eo.
    destruct f as [[]|]; rewrite ?El; try done. by apply Ha.
  - intros k t. rewrite El, Ef. apply W.
  - rewrite Eo. intros o x E. specialize (O o x E). destruct (Eg o) as (E1 & E2 & E3).
    destruct x as [x|m| | |]; cbn in *; try done.
    + unfold sem_ok in *. rewrite El, E1, E2, Ef.
      replace (granted (vw a') (frames a) o) with (granted (vw a) (frames a) o); [done|].
      apply set_eq. intros y. by rewrite !elem_of_granted, Ev.
    + destruct O as (Hf & Hm & Hh). split; [done|]. rewrite El, Ef. split.
      * destruct (owner m); [|done]. by rewrite <- Ha.
      * intros t. by rewrite E3.
Qed.

(** A call that fails. *)
Lemma sync_failed a e : (exists t o c, (e = Took t o c \/ e = Gave t o c) /\ c <> RT_EOK) -> sync_ok a ->
  sync_ok (mkA (vw a) (wl a) (objs a) (frames a) (e :: events a)).
Proof.
  intros (t & o & c & He & Hc). apply sync_ext. assert (ok c = 0) as Ec.
  { unfold ok. destruct (Z.eqb_spec c RT_EOK); [done|lia]. }
  split; try done. intros o'. destruct He as [-> | ->]; cbn; rewrite Ec; split_and!; try (case_decide; lia);
    try lia; intros x; case_decide; lia.
Qed.

Definition vset (t : Z) (v : vclass * Z) (f : Z -> option (vclass * Z)) (x : Z) : option (vclass * Z) :=
  if decide (x = t) then Some v else f x.
Definition lset (k : wait_list) (l : list Z) (f : wait_list -> list Z) (k' : wait_list) : list Z :=
  if decide (k' = k) then l else f k'.

Lemma vset_eq t v f : vset t v f t = Some v.
Proof. unfold vset. by rewrite decide_True. Qed.
Lemma vset_ne t v f x : x <> t -> vset t v f x = f x.
Proof. intros H. unfold vset. by rewrite decide_False. Qed.
Lemma lset_eq k l f : lset k l f k = l.
Proof. unfold lset. by rewrite decide_True. Qed.
Lemma lset_ne k l f k' : k' <> k -> lset k l f k' = f k'.
Proof. intros H. unfold lset. by rewrite decide_False. Qed.

(** The error code of a thread between two calls does not matter. *)
Lemma sync_error a t c e e' : sync_ok a -> frames a !! t = None -> vw a t = Some (c, e) ->
  sync_ok (mkA (vset t (c, e') (vw a)) (wl a) (objs a) (frames a) (events a)).
Proof.
  intros Hs Hf Hv. set (a' := mkA _ _ _ _ _).
  assert (forall x, alive a x -> alive a' x) as Ha.
  { intros x (c' & e1 & E & Hc). destruct (decide (x = t)) as [->|Hx].
    - exists c, e'. split; [apply vset_eq|congruence].
    - exists c', e1. by rewrite <- E; split; [apply vset_ne|]. }
  pose proof Hs as [F W O]. split.
  - cbn. intros x f E. assert (x <> t) as Hx by congruence. specialize (F x f E).
    unfold frame_ok in *. cbn. rewrite vset_ne by done. destruct f as [[]|]; try done. by apply Ha.
  - apply W.
  - intros o x E. specialize (O o x E). destruct x as [x|m| | |]; cbn in *; try done.
    + unfold sem_ok in *. cbn. replace (granted (vset t (c, e') (vw a)) (frames a) o)
        with (granted (vw a) (frames a) o); [done|].
      apply set_eq. intros y. rewrite !elem_of_granted. destruct (decide (y = t)) as [->|Hy].
      * split; intros [? _]; congruence.
      * by rewrite vset_ne.
    + destruct O as (Hfl & Hm & Hh). split; [done|]. split; [|done].
      destruct (owner m); [|done]. destruct Hm as (? & ? & ? & ?). split_and!; try lia; by apply Ha.
Qed.

(** *** Waiting and waking *)

(** The object thread [t] starts to wait for is not free. *)
Definition must_wait (a : astate) (t : Z) (f : frame) : Prop :=
  match f with
  | FCall (PSemTake o) => exists x, objs a !! o = Some (Semaphore x) /\ sem_value x = 0
  | FCall (PMutexTake o _) => exists m ow, objs a !! o = Some (Mutex m) /\ owner m = Some ow /\ ow <> t
  | _ => False
  end.

Definition blocked (a : astate) (t o : Z) (f : frame) (l : list Z) : astate :=
  mkA (vset t (VWait, RT_EOK) (vw a)) (lset (suspend_thread o) l (wl a)) (objs a)
    (<[t := f]> (frames a)) (events a).

Lemma blocked_local a t o f l : frames a !! t = None -> waits_for f = Some o ->
  l ≡ₚ t :: wl a (suspend_thread o) -> local_step a (blocked a t o f l) t o.
Proof.
  intros Hf Hw Hl. split; cbn; try done.
  - intros x Hx. by rewrite vset_ne, lookup_insert_ne by done.
  - intros k x Hx. unfold lset. case_decide as Hk; [subst k|done]. rewrite Hl, elem_of_cons. naive_solver.
  - intros k Hk. by rewrite lset_ne.
  - intros _. exists VWait, RT_EOK. cbn. by rewrite vset_eq.
  - intros f' o'. rewrite lookup_insert_eq. intros [E|E] Hw'; congruence.
Qed.

Lemma sync_blocked a t o f l : sync_ok a -> frames a !! t = None -> waits_for f = Some o ->
  l ≡ₚ t :: wl a (suspend_thread o) -> must_wait a t f -> sync_ok (blocked a t o f l).
Proof.
  intros Hs Hf Hw Hl Hm. pose proof (blocked_local a t o f l Hf Hw Hl) as L.
  assert (t ∈ l) as Hin by (rewrite Hl; by left).
  eapply sync_local; [exact Hs|exact L|..]; cbn.
  - rewrite lookup_insert_eq. intros f' [= <-].
    destruct f as [[o'|o' tm| | | |]|]; try done; cbn in *; injection Hw as ->; rewrite vset_eq, lset_eq.
    + destruct Hm as (x & E & _). split; [by exists x|]. by left.
    + destruct Hm as (m & ow & E & Eo & Hn). exists m. split; [done|]. left. split_and!; try done. congruence.
  - intros k. unfold lset. case_decide as Hk; [subst k; intros _; exists f; by rewrite lookup_insert_eq|].
    intros (o' & f' & _ & E & _)%(sy_wait _ Hs). congruence.
  - intros x f' Hx Ex Hw'. assert (x ∈ wl a (suspend_thread o) -> x ∈ l) as Hel
      by (rewrite Hl, elem_of_cons; tauto).
    destruct f' as [[o'|o' tm| | | |]|]; try done; cbn in *; injection Hw' as ->;
      rewrite vset_ne, lset_eq by done; naive_solver.
  - intros x E. pose proof (sy_object _ Hs o x E) as Ho. destruct x as [x|m| | |]; cbn in *; try done.
    + assert (sem_value x = 0) as Hv.
      { destruct f as [[o'|o' tm| | | |]|]; try done; cbn in *; injection Hw as ->; [|naive_solver].
        destruct Hm as (x' & E' & Hv). congruence. }
      destruct Ho as (Hfl & Hr & _ & Hc). split_and!; try lia; [done|]. cbn.
      replace (granted _ _ o) with (granted (vw a) (frames a) o); [done|].
      apply set_eq. intros y. rewrite !elem_of_granted. destruct (decide (y = t)) as [->|Hy].
      * rewrite vset_eq. naive_solver.
      * by rewrite vset_ne, lookup_insert_ne.
    + assert (exists ow, owner m = Some ow /\ ow <> t) as (ow & Eow & Hn).
      { destruct f as [[o'|o' tm| | | |]|]; try done; cbn in *; injection Hw as ->; naive_solver. }
      destruct Ho as (Hfl & Hmm & Hh). split; [done|]. rewrite Eow in *. split.
      * destruct Hmm as (? & ? & ? & Ha). split_and!; try lia. by eapply local_alive.
      * intros y. cbn. rewrite Hh. destruct (decide (y = t)) as [->|Hy].
        -- rewrite !decide_False by naive_solver. done.
        -- unfold taking. by rewrite lookup_insert_ne.
Qed.

(** Thread [w], the first that waits for [o], is woken by a release. *)
Definition woken (a : astate) (w o : Z) (l : list Z) (ob : gmap Z ipc_object) (e : event) : astate :=
  mkA (vset w (VRun, RT_EOK) (vw a)) (lset (suspend_thread o) l (wl a)) ob (frames a) (e :: events a).

Lemma woken_local a w o l ob e : sync_ok a -> wl a (suspend_thread o) = w :: l ->
  (exists t c, e = Took t o c \/ e = Gave t o c) ->
  (forall o', o' <> o -> ob !! o' = objs a !! o') -> local_step a (woken a w o l ob e) w o.
Proof.
  intros Hs Hl He Hob. split; cbn; try done.
  - intros x Hx. by rewrite vset_ne.
  - intros k x Hx. unfold lset. case_decide as Hk; [subst k|done]. rewrite Hl, elem_of_cons. naive_solver.
  - intros k Hk. by rewrite lset_ne.
  - intros o' Ho'. by apply (log_other o).
  - intros _. exists VRun, RT_EOK. cbn. by rewrite vset_eq.
  - destruct (sy_wait _ Hs (suspend_thread o) w) as (o1 & f1 & [= <-] & E1 & W1); [rewrite Hl; by left|].
    intros f o' [E|E] Hw; congruence.
Qed.

(** It is in no list afterwards. *)
Lemma woken_unlisted a w o l ob e k : sync_ok a -> wl a (suspend_thread o) = w :: l -> w ∉ l ->
  w ∉ wl (woken a w o l ob e) k.
Proof.
  intros Hs Hl Hni. cbn. unfold lset. case_decide as Hk; [done|].
  destruct (sy_wait _ Hs (suspend_thread o) w) as (o1 & f1 & [= <-] & E1 & W1); [rewrite Hl; by left|].
  intros (o2 & f2 & -> & E2 & W2)%(sy_wait _ Hs). congruence.
Qed.

Lemma sync_sem_woken a w l o x t : sync_ok a -> wl a (suspend_thread o) = w :: l -> w ∉ l ->
  (exists e, vw a w = Some (VWait, e)) -> objs a !! o = Some (Semaphore x) ->
  sync_ok (woken a w o l (objs a) (Gave t o RT_EOK)).
Proof.
  intros Hs Hl Hni [e He] Ho.
  destruct (sy_wait _ Hs (suspend_thread o) w) as (o1 & f & [= <-] & Ef & Wf); [rewrite Hl; by left|].
  assert (f = FCall (PSemTake o)) as ->.
  { pose proof (sy_frame _ Hs w f Ef) as H. destruct f as [[o'|o' tm| | | |]|]; try done; cbn in *;
      injection Wf as ->; [done|]. destruct H as (m & E & _). congruence. }
  eapply sync_local; [exact Hs|apply woken_local; try done; by exists t, RT_EOK; right|..].
  - cbn. intros f E. rewrite Ef in E. injection E as <-. cbn. rewrite vset_eq. split; [by exists x|].
    right. by left.
  - intros k Hk. by apply woken_unlisted in Hk.
  - intros y f Hy Ey Hw. assert (y ∈ wl a (suspend_thread o) -> y ∈ l) as Hel
      by (rewrite Hl, elem_of_cons; naive_solver).
    destruct f as [[o'|o' tm| | | |]|]; try done; cbn in *; injection Hw as ->;
      rewrite vset_ne, lset_eq by done; naive_solver.
  - cbn. intros x' E. rewrite Ho in E. injection E as <-.
    destruct (sy_object _ Hs o _ Ho) as (Hfl & Hr & Hv & Hc). rewrite Hl in Hv.
    assert (sem_value x = 0) as Hv0 by (destruct (Z.eq_dec (sem_value x) 0); [done|discriminate Hv; lia]).
    split_and!; try lia; [done|]. cbn [events woken taken given frames vw]. rewrite decide_True by done.
    replace (granted (vset w (VRun, RT_EOK) (vw a)) (frames a) o) with ({[w]} ∪ granted (vw a) (frames a) o).
    + rewrite size_union, size_singleton; [unfold ok; cbn; lia|].
      apply disjoint_singleton_l. rewrite elem_of_granted, He. naive_solver.
    + apply set_eq. intros y. rewrite elem_of_union, elem_of_singleton, !elem_of_granted.
      destruct (decide (y = w)) as [->|Hy]; [rewrite vset_eq|rewrite vset_ne by done]; naive_solver.
Qed.

(** *** Mutexes *)

(** A call of thread [t] on a mutex that no other thread owns. *)
Lemma sync_mutex a t o m m' e : sync_ok a -> frames a !! t = None -> objs a !! o = Some (Mutex m) ->
  (exists t c, e = Took t o c \/ e = Gave t o c) ->
  (owner m = None \/ owner m = Some t) -> (owner m' = None \/ owner m' = Some t) ->
  (mutex_ok a o m -> mutex_ok (mkA (vw a) (wl a) (<[o := Mutex m']> (objs a)) (frames a) (e :: events a)) o m') ->
  sync_ok (mkA (vw a) (wl a) (<[o := Mutex m']> (objs a)) (frames a) (e :: events a)).
Proof.
  intros Hs Hf Ho He Hm Hm' Hok. eapply sync_return; [done|done|exact Hf|done|]. cbv zeta. split; [|done].
  intros y f Hy Ey Hw. destruct f as [[o'|o' tm| | | |]|]; try done; cbn in *; injection Hw as ->.
  - intros [[x E] _]. congruence.
  - intros (m0 & E & H). rewrite Ho in E. injection E as <-. rewrite lookup_insert_eq. exists m'. split; [done|].
    assert (owner m' <> Some y) as Hn by (destruct Hm' as [-> | ->]; congruence).
    destruct H as [(? & ? & _)|[(_ & Eo & _)|[? _]]]; [by left|destruct Hm as [Hm|Hm]; congruence|].
    right. by right.
Qed.

(** The count of a thread after a call of [t] on [o]. *)
Lemma held_took t o y l : held y o (Took t o RT_EOK :: l) = held y o l + if decide (y = t) then 1 else 0.
Proof. cbn. unfold ok. cbn. f_equal. destruct (decide (y = t)) as [->|Hy]; case_decide; naive_solver. Qed.
Lemma held_gave t o y l : held y o (Gave t o RT_EOK :: l) = held y o l - if decide (y = t) then 1 else 0.
Proof. cbn. unfold ok. cbn. f_equal. destruct (decide (y = t)) as [->|Hy]; case_decide; naive_solver. Qed.

Lemma not_taking p t o : p !! t = None -> taking p t o = false.
Proof. unfold taking. by intros ->. Qed.

Lemma sync_mutex_took a t o m p : sync_ok a -> frames a !! t = None -> objs a !! o = Some (Mutex m) ->
  owner m = None -> 0 <= p < 32 -> alive a t ->
  sync_ok (mkA (vw a) (wl a)
    (<[o := Mutex (mkMutex (u16 (mtx_value m - 1)) p (u8 (hold m + 1)) (Some t) (mtx_flag m))]> (objs a))
    (frames a) (Took t o RT_EOK :: events a)).
Proof.
  intros Hs Hf Ho Em Hp Ha. eapply sync_mutex; [done|exact Hf|done|by exists t, RT_EOK; left|by left|by right|].
  intros (Hfl & Hm & Hh). rewrite Em in *. destruct Hm as (-> & -> & _). split; [done|]. cbn [owner hold].
  change (u8 (0 + 1)) with 1. change (u16 (1 - 1)) with 0. cbn [mtx_value original_priority].
  split; [split_and!; done || lia|]. intros y. cbn [events frames]. rewrite held_took, Hh, decide_False by naive_solver.
  destruct (decide (y = t)) as [->|Hy]; [|by rewrite decide_False by naive_solver].
  rewrite decide_True by (by rewrite not_taking). done.
Qed.

Lemma sync_mutex_count a t o m h e : sync_ok a -> frames a !! t = None -> objs a !! o = Some (Mutex m) ->
  owner m = Some t -> 1 <= h <= 255 ->
  (e = Took t o RT_EOK /\ h = hold m + 1 \/ e = Gave t o RT_EOK /\ h = hold m - 1) ->
  sync_ok (mkA (vw a) (wl a)
    (<[o := Mutex (mkMutex (mtx_value m) (original_priority m) h (owner m) (mtx_flag m))]> (objs a))
    (frames a) (e :: events a)).
Proof.
  intros Hs Hf Ho Em Hh He. eapply sync_mutex; [done|exact Hf|done| |by right|by right|].
  { exists t, RT_EOK. destruct He as [[-> _]|[-> _]]; auto. }
  intros (Hfl & Hm & Hc). rewrite Em in *. split; [done|]. cbn [owner hold mtx_value original_priority].
  split; [destruct Hm as (? & ? & ? & ?); split_and!; try done; lia|]. intros y. cbn [events frames].
  assert (taking (frames a) t o = false) as Hnt by (by apply not_taking).
  assert (held y o (e :: events a) = held y o (events a) + if decide (y = t) then h - hold m else 0) as ->.
  { destruct He as [[-> ->]|[-> ->]]; rewrite ?held_took, ?held_gave; case_decide; lia. }
  rewrite Hc. destruct (decide (y = t)) as [->|Hy].
  - rewrite !decide_True by done. lia.
  - rewrite !decide_False by naive_solver. done.
Qed.

Lemma sync_mutex_freed a t o m : sync_ok a -> frames a !! t = None -> objs a !! o = Some (Mutex m) ->
  owner m = Some t -> hold m = 1 -> wl a (suspend_thread o) = [] ->
  sync_ok (mkA (vw a) (wl a) (<[o := Mutex (mkMutex (u16 (mtx_value m + 1)) 0xff 0 None (mtx_flag m))]> (objs a))
    (frames a) (Gave t o RT_EOK :: events a)).
Proof.
  intros Hs Hf Ho Em Hh Hl. eapply sync_mutex; [done|exact Hf|done|by exists t, RT_EOK; right|by right|by left|].
  intros (Hfl & Hm & Hc). rewrite Em in *. split; [done|]. cbn [owner hold mtx_value]. destruct Hm as (-> & _).
  split; [by split_and!|]. intros y. cbn [events frames]. rewrite held_gave, Hc.
  assert (taking (frames a) t o = false) as Hnt by (by apply not_taking).
  rewrite (decide_False (P := None = Some y /\ _)) by naive_solver. destruct (decide (y = t)) as [->|Hy].
  - rewrite decide_True by done. lia.
  - rewrite decide_False by naive_solver. done.
Qed.

(** The mutex goes to the first that waits. *)
Lemma sync_mutex_passed a t w l o m p : sync_ok a -> frames a !! t = None -> objs a !! o = Some (Mutex m) ->
  owner m = Some t -> hold m = 1 -> wl a (suspend_thread o) = w :: l -> w ∉ l ->
  0 <= p < 32 ->
  sync_ok (woken a w o l (<[o := Mutex (mkMutex (mtx_value m) p 1 (Some w) (mtx_flag m))]> (objs a))
             (Gave t o RT_EOK)).
Proof.
  intros Hs Hf Ho Em Hh Hl Hni Hp.
  destruct (sy_wait _ Hs (suspend_thread o) w) as (o1 & f & [= <-] & Ef & Wf); [rewrite Hl; by left|].
  assert (exists tm, f = FCall (PMutexTake o tm)) as [tm ->].
  { pose proof (sy_frame _ Hs w f Ef) as H. destruct f as [[o'|o' tm| | | |]|]; try done; cbn in *;
      injection Wf as ->; [|by exists tm]. destruct H as [[x E] _]. congruence. }
  assert (w <> t) as Hwt by congruence.
  eapply sync_local; [exact Hs|apply woken_local; try done; [by exists t, RT_EOK; right|]|..].
  - intros o' Ho'. by apply lookup_insert_ne.
  - cbn. intros f E. rewrite Ef in E. injection E as <-. cbn. rewrite vset_eq, lookup_insert_eq.
    eexists. split; [done|]. right. by left.
  - intros k Hk. by apply woken_unlisted in Hk.
  - intros y f Hy Ey Hw. assert (y ∈ wl a (suspend_thread o) -> y ∈ l) as Hel
      by (rewrite Hl, elem_of_cons; naive_solver).
    destruct f as [[o'|o' tm'| | | |]|]; try done; cbn in *; injection Hw as ->;
      rewrite vset_ne, lset_eq, lookup_insert_eq by done; [naive_solver|].
    intros (m0 & E & H). rewrite Ho in E. injection E as <-. eexists. split; [done|]. cbn [owner hold].
    destruct H as [(? & ? & _)|[(_ & Eo & _)|[? _]]]; [left; split_and!; auto; congruence| |right; right; split; [done|congruence]].
    assert (y = t) as -> by congruence. congruence.
  - cbn [objs woken]. rewrite lookup_insert_eq. intros x [= <-].
    destruct (sy_object _ Hs o _ Ho) as (Hfl & Hm & Hc). rewrite Em in Hm, Hc. split; [done|].
    cbn [owner hold mtx_value original_priority]. destruct Hm as (-> & _). split.
    + split_and!; try lia. exists VRun, RT_EOK. cbn. by rewrite vset_eq.
    + intros y. cbn [events frames woken]. rewrite held_gave, Hc, Hh.
      assert (taking (frames a) t o = false) as Hnt by (by apply not_taking).
      assert (taking (frames a) w o = true) as Hwk by (unfold taking; rewrite Ef; by apply bool_decide_true).
      rewrite (decide_False (P := Some w = Some y /\ _)) by (intros [[= <-] ?]; congruence). destruct (decide (y = t)) as [->|Hy].
      * rewrite decide_True by done. lia.
      * rewrite decide_False by naive_solver. done.
Qed.

(** *** Sleeping, returning, the tick *)

(** A thread that is in no list, and frames that wait for nothing. *)
Lemma sync_thread a t v fr : sync_ok a -> (forall k, t ∉ wl a k) -> v.1 <> VNone ->
  (forall f o, frames a !! t = Some f -> waits_for f <> Some o) ->
  (forall f, fr !! t = Some f -> f = FSleep) -> (forall x, x <> t -> fr !! x = frames a !! x) ->
  sync_ok (mkA (vset t v (vw a)) (wl a) (objs a) fr (events a)).
Proof.
  intros Hs Hnl Hv Hf Hfr Hfx. set (a' := mkA _ _ _ _ _).
  assert (alive a' t) as Hat by (destruct v as [c e]; exists c, e; cbn; by rewrite vset_eq).
  set (o := fresh (dom (objs a))). assert (objs a !! o = None) as Ho
    by (apply not_elem_of_dom, is_fresh).
  eapply (sync_local a a' t o); [exact Hs|split; cbn; try done|..]; cbn.
  - intros x Hx. by rewrite vset_ne, Hfx.
  - intros f o' [E|E] Hw; [by destruct (Hf f o' E)|]. by rewrite (Hfr f E) in Hw.
  - intros f E. by rewrite (Hfr f E).
  - intros k Hk. by destruct (Hnl k).
  - intros x f _ _ Hw Hok. exfalso. destruct f as [[o'|o' tm| | | |]|]; try done; cbn in *;
      injection Hw as ->; destruct Hok as (? & ?); [naive_solver|destruct H; congruence].
  - intros x. congruence.
Qed.

(** A blocked take returns. *)
Definition returned (a : astate) (t o c : Z) : astate :=
  mkA (vw a) (wl a) (objs a) (delete t (frames a)) (Took t o c :: events a).

Lemma returned_local a t o c f : frames a !! t = Some f -> waits_for f = Some o ->
  local_step a (returned a t o c) t o.
Proof.
  intros Hf Hw. split; cbn; try done.
  - intros x Hx. by rewrite lookup_delete_ne.
  - intros o' Ho. apply (log_other o o' (events a) (Took t o c)); [done|]. exists t, c. by left.
  - intros f' o' [E|E]; [congruence|]. by rewrite lookup_delete_eq in E.
Qed.

Lemma sync_returned_sem a t o c x : sync_ok a -> frames a !! t = Some (FCall (PSemTake o)) ->
  objs a !! o = Some (Semaphore x) -> vw a t = Some (VRun, c) -> sem_ok (returned a t o c) o x.
Proof.
  intros Hs Hf Ho Hv. destruct (sy_object _ Hs o _ Ho) as (Hfl & Hr & Hw & Hc).
  split_and!; try done; try lia. cbn [events returned taken given frames vw]. rewrite decide_True by done.
  destruct (decide (c = RT_EOK)) as [->|Hn].
  - replace (granted (vw a) (delete t (frames a)) o) with (granted (vw a) (frames a) o ∖ {[t]}).
    + rewrite size_difference by (apply singleton_subseteq_l, elem_of_granted; done).
      rewrite size_singleton. assert (size (granted (vw a) (frames a) o) <> 0%nat) as Hz.
      { assert (t ∈ granted (vw a) (frames a) o) as Hin by (by apply elem_of_granted).
        intros H0%size_empty_inv. by apply (H0 t) in Hin as []%not_elem_of_empty. }
      unfold ok. cbn. lia.
    + apply set_eq. intros y. rewrite elem_of_difference, elem_of_singleton, !elem_of_granted.
      destruct (decide (y = t)) as [->|Hy]; [rewrite lookup_delete_eq|rewrite lookup_delete_ne by done]; naive_solver.
  - replace (granted (vw a) (delete t (frames a)) o) with (granted (vw a) (frames a) o).
    + unfold ok. destruct (Z.eqb_spec c RT_EOK); [done|lia].
    + apply set_eq. intros y. rewrite !elem_of_granted.
      destruct (decide (y = t)) as [->|Hy]; [rewrite lookup_delete_eq; naive_solver|by rewrite lookup_delete_ne].
Qed.

Lemma sync_returned_mutex a t o tm c m : sync_ok a -> frames a !! t = Some (FCall (PMutexTake o tm)) ->
  objs a !! o = Some (Mutex m) -> vw a t = Some (VRun, c) -> mutex_ok (returned a t o c) o m.
Proof.
  intros Hs Hf Ho Hv. destruct (sy_object _ Hs o _ Ho) as (Hfl & Hm & Hc). split; [done|]. split; [done|].
  destruct (sy_frame _ Hs t _ Hf) as (m' & E & H). rewrite Ho in E. injection E as <-.
  intros y. cbn [events returned frames]. destruct (decide (y = t)) as [->|Hy].
  - assert (taking (frames a) t o = true) as Htk by (unfold taking; rewrite Hf; by apply bool_decide_true).
    rewrite (not_taking (delete t (frames a))) by apply lookup_delete_eq.
    cbn. rewrite Hc, decide_False by (intros [_ ?]; congruence). rewrite decide_True by done.
    destruct H as [(Ev & _)|[(Ev & Eo & Eh)|(Ev & Eo)]]; [congruence| |].
    + rewrite Hv in Ev. injection Ev as ->. rewrite decide_True by done. by rewrite Eh.
    + rewrite Hv in Ev. injection Ev as ->. rewrite decide_False by naive_solver. done.
  - cbn. rewrite Hc, (decide_False (P := t = y /\ _)) by naive_solver. unfold taking.
    rewrite lookup_delete_ne by done. lia.
Qed.

Lemma sync_returned a t f o c : sync_ok a -> frames a !! t = Some f -> waits_for f = Some o ->
  vw a t = Some (VRun, c) -> (forall k, t ∉ wl a k) -> sync_ok (returned a t o c).
Proof.
  intros Hs Hf Hw Hv Hnl. eapply sync_local; [exact Hs|by eapply returned_local|..]; cbn.
  - intros f'. by rewrite lookup_delete_eq.
  - intros k Hk. by destruct (Hnl k).
  - intros y f' Hy Ey Hw' Hok. unfold frame_ok in *. by destruct f' as [[]|].
  - intros x E. pose proof (sy_frame _ Hs t f Hf) as Hok.
    destruct f as [[o'|o' tm| | | |]|]; try done; cbn in Hw; injection Hw as ->.
    + destruct Hok as [[x' E'] _]. rewrite E in E'. injection E' as ->. by apply sync_returned_sem.
    + destruct Hok as (m & E' & _). rewrite E in E'. injection E' as ->. by eapply sync_returned_mutex.
Qed.

Definition expired (a : astate) (fired : list Z) : astate :=
  mkA (fun x => if decide (x ∈ fired) then (fun _ => (VRun, - RT_ETIMEOUT)) <$> vw a x else vw a x)
    (fun k => filter (fun x => x ∉ fired) (wl a k)) (objs a) (frames a) (events a).

Lemma sync_expired a fired : sync_ok a -> (forall x e, x ∈ fired -> vw a x <> Some (VRun, e)) ->
  sync_ok (expired a fired).
Proof.
  intros [F W O] Hn.
  assert (forall x, alive a x -> alive (expired a fired) x) as Ha.
  { intros x (c & e & E & Hc). unfold alive. cbn. rewrite E. case_decide; cbn; eauto. }
  split.
  - cbn. intros t f E. specialize (F t f E).
    destruct (decide (t ∈ fired)) as [Ht|Ht].
    + destruct f as [[o|o tm| | | |]|]; try done; cbn in *; rewrite ?(decide_True (P := t ∈ fired)) by done.
      * destruct F as [Hx [[Hv _]|[Hv|Hv]]]; [|by destruct (Hn t RT_EOK)|by destruct (Hn t (- RT_ETIMEOUT))].
        split; [done|]. rewrite Hv. by auto.
      * destruct F as (m & Em & [(Hv & _ & Ho)|[(Hv & _)|[Hv _]]]);
          [|by destruct (Hn t RT_EOK)|by destruct (Hn t (- RT_ETIMEOUT))].
        exists m. split; [done|]. rewrite Hv. by auto.
      * by apply Ha.
    + assert (forall k, t ∈ wl a k -> t ∈ filter (fun x => x ∉ fired) (wl a k)) as Hl
        by (intros k Hk; by apply list_elem_of_filter).
      destruct f as [[o|o tm| | | |]|]; try done; cbn in *; rewrite ?(decide_False (P := t ∈ fired)) by done;
        [naive_solver|naive_solver|by apply Ha].
  - cbn. intros k t [_ Ht]%list_elem_of_filter. by apply W.
  - cbn. intros o x E. specialize (O o x E). destruct x as [x|m| | |]; cbn in *; try done.
    + destruct O as (Hfl & Hr & Hw & Hc). split_and!; try done; try lia; cbn.
      * intros Hv. by rewrite Hw.
      * replace (granted _ (frames a) o) with (granted (vw a) (frames a) o); [done|].
        apply set_eq. intros y. rewrite !elem_of_granted. case_decide as Hy; [|done].
        split; intros [_ Hv]; [by destruct (Hn y RT_EOK)|]. by destruct (vw a y).
    + destruct O as (Hfl & Hm & Hc). split; [done|]. split; [|done]. cbn. destruct (owner m).
      * destruct Hm as (? & ? & ? & ?). split_and!; try done; try lia. by apply Ha.
      * destruct Hm as (? & ? & ->). done.
Qed.
End invariant.

(** ** The steps keep the invariant *)

Section steps.
Context (idle : Z) (init : Z -> Z).

Definition sys_ok (s : sys) : Prop := base idle (kern (ist s)) /\ sync_ok init (abs s).
Definition runs_thread (s : sys) (t : Z) : Prop := rt_current_thread (kern (ist s)) = Some t.

Lemma current_eq s t : runs_thread s t -> current (ist s) = Ok t.
Proof. unfold runs_thread, current. by intros ->. Qed.
Lemma context_eq s t : sys_ok s -> runs_thread s t -> in_thread_context (ist s) = Ok t.
Proof.
  intros [Hb _] Ht. unfold runs_thread, in_thread_context in *. rewrite Ht.
  by rewrite (pb_nest _ _ (bs_pre _ _ Hb)).
Qed.

Lemma running_unlisted s t k : sys_ok s -> runs_thread s t -> t ∉ wlist k (kern (ist s)).
Proof.
  intros [Hb _] Ht. destruct (running_view _ _ t Hb Ht) as (th & E & Es & _).
  eapply runnable_unlinked_waits; [apply Hb|done|by right].
Qed.

(** Setting the error code of a thread between two calls. *)
Definition set_error (e t : Z) (s : sys) : sys :=
  mkSys (lift_pure (upd_thread (with_error e) t) (ist s)) (pend s) (log s).
Lemma error_step e t s : sys_ok s -> runs_thread s t -> pend s !! t = None ->
  sys_ok (set_error e t s) /\ runs_thread (set_error e t s) t
  /\ view (kern (ist (set_error e t s))) t = Some (VRun, e).
Proof.
  intros [Hb Hs] Ht Hp. destruct (running_view _ _ t Hb Ht) as (th & E & Es & Ev).
  assert (forall x, view (kern (ist (set_error e t s))) x = vset t (VRun, e) (view (kern (ist s))) x) as Hv.
  { intros x. cbn. rewrite view_error. unfold vset. case_decide as Hx; [subst x; by rewrite Ev|done]. }
  split; [split; [by apply error_base|]|split; [done|by rewrite Hv, vset_eq]].
  eapply sync_ext; [|eapply (sync_error init (abs s) t VRun _ e); [exact Hs|exact Hp|exact Ev]].
  by split.
Qed.

Lemma block_step o flag time f s t : sys_ok s -> runs_thread s t -> t <> idle -> pend s !! t = None ->
  view (kern (ist s)) t = Some (VRun, RT_EOK) -> flag_ok flag -> time < HALF -> waits_for f = Some o ->
  must_wait (abs s) t f ->
  exists i, block (suspend_thread o) t flag time (ist s) = Ok i
  /\ sys_ok (mkSys i (<[t := f]> (pend s)) (log s))
  /\ prio_same (kern (ist s)) (kern i) /\ objects i = objects (ist s)
  /\ t ∈ wlist (suspend_thread o) (kern i).
Proof.
  intros [Hb Hs] Ht Hti Hp Hv Hf Htm Hw Hm.
  destruct (block_base idle (suspend_thread o) flag time (ist s) t Hb Ht Hti Hf Htm)
    as (i & E & Hb' & Ho & _ & [Hsv Hsw] & Hpr).
  exists i. split; [done|]. split; [|split; [done|split; [done|]]].
  2: { rewrite Hsw. unfold at_list. rewrite decide_True, queued_perm by done. by left. }
  split; [done|].
  eapply sync_ext; [|eapply (sync_blocked init (abs s) t o f (queued flag (kern (ist s)) t
    (wlist (suspend_thread o) (kern (ist s))))); [exact Hs|exact Hp|exact Hw|apply queued_perm|exact Hm]].
  split; cbn; try done.
  - intros x. rewrite Hsv. unfold at_thread, vset. case_decide as Hx; [subst x; by rewrite Hv|done].
  - intros k. rewrite Hsw. unfold at_list, lset. case_decide as Hk; [by subst k|done].
Qed.

Lemma get_sem_eq o x s : objects s !! o = Some (Semaphore x) -> get_sem o s = Ok x.
Proof. unfold get_sem. by intros ->. Qed.
Lemma get_mutex_eq o x s : objects s !! o = Some (Mutex x) -> get_mutex o s = Ok x.
Proof. unfold get_mutex. by intros ->. Qed.

Lemma sem_take_step o time x s t : sys_ok s -> runs_thread s t -> pend s !! t = None ->
  objects (ist s) !! o = Some (Semaphore x) -> time < HALF -> (t <> idle \/ time = 0) ->
  exists r i, rt_sem_take o time (ist s) = Ok (r, i) /\ sys_ok (settle t o r i s).
Proof.
  intros H Ht Hp Ho Htm Hti. pose proof H as [Hb Hs].
  pose proof (sy_object _ _ Hs o _ Ho) as (Hfl & Hr & _).
  unfold rt_sem_take. rewrite (get_sem_eq o x), bind_ret_l by done.
  destruct (Z.ltb_spec 0 (sem_value x)) as [Hv|Hv].
  - eexists _, _. split; [done|]. split; [done|]. eapply sync_ext; [|by eapply (sem_took init (abs s) t o x)].
    split; cbn; try done. by rewrite delete_id.
  - destruct (Z.eqb_spec time 0) as [->|Hz].
    + eexists _, _. split; [done|]. split; [done|].
      eapply sync_ext; [|apply (sync_failed init (abs s) (Took t o (- RT_ETIMEOUT))); [|exact Hs]].
      * split; cbn; try done. by rewrite delete_id.
      * exists t, o, (- RT_ETIMEOUT). split; [by left|done].
    + rewrite (context_eq s t), bind_ret_l by done.
      destruct (error_step RT_EOK t s H Ht Hp) as (H1 & Ht1 & Hv1).
      destruct (block_step o (sem_flag x) time (FCall (PSemTake o)) (set_error RT_EOK t s) t) as (i & E & H2 & _);
        try done; [by destruct Hti|by exists x; split; [|lia]|].
      cbv zeta. change (lift_pure _ (ist s)) with (ist (set_error RT_EOK t s)).
      rewrite E, bind_ret_l. eexists _, _. split; [done|]. exact H2.
Qed.

(** The scheduler after a change that is not seen otherwise. *)
Lemma schedule_step s : pre_base idle (kern (ist s)) -> sync_ok init (abs s) ->
  exists i, lift rt_schedule (ist s) = Ok i /\ sys_ok (mkSys i (pend s) (log s)).
Proof.
  intros Hb Hs. destruct (schedule_base idle _ Hb) as (k & E & Hb' & F).
  exists (with_kern k (ist s)). split; [unfold lift; by rewrite E|]. split; [done|].
  eapply sync_ext; [|exact Hs]. split; cbn; try done; intros x;
    [by rewrite (frame_view _ _ _ F)|by rewrite (wlist_frame _ _ _ F)].
Qed.

(** Waking the first waiting thread, with the object and the log changed. *)
Lemma wake_step o w l ob e s : base idle (kern (ist s)) -> wlist (suspend_thread o) (kern (ist s)) = w :: l ->
  view (kern (ist s)) w = Some (VWait, RT_EOK) -> sync_ok init (woken (abs s) w o l ob e) ->
  exists i i', lift (rt_ipc_list_resume (suspend_thread o)) (mkI (kern (ist s)) ob (statics (ist s))) = Ok i
  /\ lift rt_schedule i = Ok i' /\ sys_ok (mkSys i' (pend s) (e :: log s)).
Proof.
  intros Hb Hl Hv Hs.
  destruct (wake_base idle (suspend_thread o) w l _ (bs_pre _ _ Hb) Hl) as (E & Hb1 & Hsv & Hsw).
  set (i := mkI (resumed w (kern (ist s))) ob (statics (ist s))).
  destruct (schedule_step (mkSys i (pend s) (e :: log s))) as (i' & E' & H').
  - exact Hb1.
  - eapply sync_ext; [|exact Hs]. split; cbn; try done.
    + intros x. rewrite Hsv. unfold at_thread, vset. case_decide as Hx; [subst x; by rewrite Hv|done].
    + intros k. rewrite Hsw. unfold at_list, lset. case_decide as Hk; [subst k; by rewrite Hl|done].
  - exists i, i'. split; [unfold lift; cbn; by rewrite E|]. done.
Qed.

(** What is known of a thread that waits. *)
Lemma waiting_view s o w l : sys_ok s -> wlist (suspend_thread o) (kern (ist s)) = w :: l ->
  view (kern (ist s)) w = Some (VWait, RT_EOK) /\ w ∉ l
  /\ exists th, threads (kern (ist s)) !! w = Some th /\ 0 <= current_priority th < 32.
Proof.
  intros [Hb Hs] Hl. pose proof (so_lists _ (ko_sched _ (pb_kernel _ _ (bs_pre _ _ Hb)))) as HL.
  assert (w ∈ wlist (suspend_thread o) (kern (ist s))) as Hin by (rewrite Hl; by left).
  destruct (waiting_stat _ _ w HL Hin) as (th & E & Est).
  assert (view (kern (ist s)) w = Some (VWait, error th)) as Ev by (unfold view; rewrite E; cbn; by rewrite Est).
  pose proof (wlist_nodup (suspend_thread o) _ HL) as Hnd. rewrite Hl in Hnd.
  apply list.NoDup_cons in Hnd as [Hni _]. split; [|split; [done|exists th; split; [done|by apply (lo_prio _ _ HL w th)]]].
  destruct (sy_wait _ _ Hs (suspend_thread o) w Hin) as (o' & f & _ & Ef & Wf).
  pose proof (sy_frame _ _ Hs w f Ef) as Hok. cbn in Ef.
  destruct f as [[o1|o1 tm| | | |]|]; try done; cbn in Hok.
  - destruct Hok as [_ [[H _]|[H|H]]]; congruence.
  - destruct Hok as (m & _ & [[H _]|[[H _]|[H _]]]); congruence.
Qed.

Lemma sem_release_step o x s t : sys_ok s -> runs_thread s t ->
  objects (ist s) !! o = Some (Semaphore x) -> sem_value x < 65535 ->
  exists c i, rt_sem_release o (ist s) = Ok (c, i) /\ sys_ok (mkSys i (pend s) (Gave t o c :: log s)).
Proof.
  intros H Ht Ho Hv. pose proof H as [Hb Hs]. unfold rt_sem_release. rewrite (get_sem_eq o x), bind_ret_l by done.
  destruct (wlist (suspend_thread o) (kern (ist s))) as [|w l] eqn:Hl.
  - eexists _, _. split; [done|]. split; [done|].
    eapply sync_ext; [|eapply (sem_gave init (abs s) t o x (fresh (dom (pend s)))); try done].
    + done.
    + apply not_elem_of_dom, is_fresh.
  - destruct (waiting_view s o w l H Hl) as (Hvw & Hni & _).
    destruct (wake_step o w l (objects (ist s)) (Gave t o RT_EOK) s) as (i & i' & E & E' & H'); try done.
    { eapply sync_sem_woken; try done. by exists RT_EOK. }
    destruct (ist s) as [k ob st] eqn:Ei. cbn [kern objects statics] in *. rewrite E, bind_ret_l, E', bind_ret_l.
    eexists _, _. by split.
Qed.

Lemma get_thread_eq t th s : threads s !! t = Some th -> get_thread t s = Ok th.
Proof. unfold get_thread. by intros ->. Qed.

Lemma alive_thread s t : alive (abs s) t -> exists th, threads (kern (ist s)) !! t = Some th
  /\ stat th <> RT_THREAD_CLOSE.
Proof.
  intros (c & e & (th & E & Ec & _)%view_stat & Hc). exists th. split; [done|]. intros Es. rewrite Es in Ec. by subst c.
Qed.

(** A change of priority on the way. *)
Lemma priority_step (b : bool) x p s t : sys_ok s -> runs_thread s t -> alive (abs s) x -> 0 <= p < 32 ->
  exists i, (if b then lift (change_priority x p) (ist s) else Ok (ist s)) = Ok i
  /\ sys_ok (mkSys i (pend s) (log s)) /\ runs_thread (mkSys i (pend s) (log s)) t
  /\ objects i = objects (ist s) /\ statics i = statics (ist s)
  /\ sees (kern (ist s)) (kern i) kept_view kept_list
  /\ (forall y, prio_of (kern i) y = if b && bool_decide (y = x) then p else prio_of (kern (ist s)) y).
Proof.
  intros H Ht Ha Hp. pose proof H as [Hb Hs]. destruct (alive_thread s x Ha) as (th & Eo & Hso). destruct b.
  - destruct (priority_base idle p x th _ Hb Eo Hso Hp) as (k & E & Hb' & Ec & [Hv Hw] & Hpr).
    exists (with_kern k (ist s)). split; [unfold lift; by rewrite E|].
    split; [split; [done|]|split; [unfold runs_thread; cbn; by rewrite Ec|split_and!; try done]].
    + eapply sync_ext; [|exact Hs]. by split.
    + intros y. cbn. rewrite Hpr. by case_decide; case_bool_decide.
  - exists (ist s). destruct s as [i pe lg]. by split_and!.
Qed.

(** A pending take of a mutex whose owner is another thread. *)
Lemma mutex_try_step o time m s t : sys_ok s -> runs_thread s t -> pend s !! t = None ->
  objects (ist s) !! o = Some (Mutex m) -> owner m <> Some t -> time < HALF -> (t <> idle \/ time = 0) ->
  view (kern (ist s)) t = Some (VRun, RT_EOK) ->
  exists r i, mutex_try o t time (ist s) = Ok (r, i) /\ sys_ok (settle t o r i s)
  /\ forall ow, owner m = Some ow -> time <> 0 -> r = Blocked (PMutexTake o time)
     /\ objects i !! o = Some (Mutex m) /\ t ∈ wlist (suspend_thread o) (kern i)
     /\ prio_of (kern i) ow <= prio_of (kern i) t.
Proof.
  intros H Ht Hp Ho How Htm Hti Hv. pose proof H as [Hb Hs].
  destruct (sy_object _ _ Hs o _ Ho) as (Hfl & Hm & _).
  destruct (running_view _ _ t Hb Ht) as (th & Eth & Est & _).
  pose proof (lo_prio _ _ (so_lists _ (ko_sched _ (pb_kernel _ _ (bs_pre _ _ Hb)))) t th Eth) as [Hpr _].
  unfold mutex_try. rewrite (get_mutex_eq o m), bind_ret_l, (get_thread_eq t th), bind_ret_l by done.
  destruct (owner m) as [ow|] eqn:Eow.
  - destruct Hm as (Hval & Hh & Hop & Ha). rewrite Hval. cbn [Z.ltb Z.compare].
    destruct (Z.eqb_spec time 0) as [->|Hz].
    + eexists _, _. split; [done|]. destruct (error_step (- RT_ETIMEOUT) t s H Ht Hp) as ([Hb1 Hs1] & _ & _).
      split; [|done]. split; [done|].
      eapply sync_ext; [|apply (sync_failed init (abs (set_error (- RT_ETIMEOUT) t s)) (Took t o (- RT_ETIMEOUT))); [|exact Hs1]].
      * split; cbn; try done. by rewrite delete_id.
      * exists t, o, (- RT_ETIMEOUT). split; [by left|done].
    + destruct (alive_thread s ow Ha) as (tho & Etho & _). rewrite (get_thread_eq ow tho), bind_ret_l by done.
      destruct (priority_step (current_priority th <? current_priority tho) ow (current_priority th) s t H Ht Ha Hpr)
        as (i & E2 & H2 & Ht2 & Ho2 & _ & [Hv2 _] & Hpi). rewrite E2, bind_ret_l.
      destruct (block_step o (mtx_flag m) time (FCall (PMutexTake o time)) (mkSys i (pend s) (log s)) t)
        as (i' & E' & H' & Hpr' & Ho' & Hin'); try done; [by destruct Hti|by cbn; rewrite Hv2| |].
      { exists m, ow. cbn. rewrite Ho2. split_and!; try done. congruence. }
      cbn [ist] in E', Hpr', Ho'. rewrite E', bind_ret_l. eexists _, _. split; [done|]. split; [exact H'|].
      intros ow' [= <-] _. split; [done|]. split; [by rewrite Ho', Ho2|]. split; [done|]. rewrite !Hpr'.
      rewrite !Hpi, (bool_decide_true (ow = ow)), (bool_decide_false (t = ow)), andb_true_r, andb_false_r by congruence.
      unfold prio_of. rewrite Eth, Etho. destruct (Z.ltb_spec (current_priority th) (current_priority tho)); lia.
  - destruct Hm as (Hval & Hh & Hl). rewrite Hval. cbn [Z.ltb Z.compare].
    eexists _, _. split; [done|]. split; [|by intros ow]. split; [done|].
    eapply sync_ext; [|eapply (sync_mutex_took init (abs s) t o m (current_priority th)); try done].
    + split; cbn; try done; [by rewrite Hval|by rewrite delete_id].
    + exists VRun, RT_EOK. split; [exact Hv|done].
Qed.

Lemma mutex_take_step o time m s t : sys_ok s -> runs_thread s t -> pend s !! t = None ->
  objects (ist s) !! o = Some (Mutex m) -> (owner m = Some t -> hold m < 255) -> time < HALF ->
  (t <> idle \/ time = 0) ->
  exists r i, rt_mutex_take o time (ist s) = Ok (r, i) /\ sys_ok (settle t o r i s)
  /\ forall ow, owner m = Some ow -> ow <> t -> time <> 0 -> r = Blocked (PMutexTake o time)
     /\ objects i !! o = Some (Mutex m) /\ t ∈ wlist (suspend_thread o) (kern i)
     /\ prio_of (kern i) ow <= prio_of (kern i) t.
Proof.
  intros H Ht Hp Ho Hh Htm Hti. unfold rt_mutex_take.
  rewrite (context_eq s t), bind_ret_l, (get_mutex_eq o m), bind_ret_l by done.
  destruct (error_step RT_EOK t s H Ht Hp) as (H1 & Ht1 & Hv1). cbv zeta.
  change (lift_pure _ (ist s)) with (ist (set_error RT_EOK t s)). case_bool_decide as Hown.
  - pose proof H as [_ Hs]. destruct (sy_object _ _ Hs o _ Ho) as (_ & Hm & _). rewrite Hown in Hm.
    eexists _, _. split; [done|]. destruct H1 as [Hb1 Hs1]. split; [|congruence]. split; [done|].
    eapply sync_ext; [|eapply (sync_mutex_count init (abs (set_error RT_EOK t s)) t o m (hold m + 1)
      (Took t o RT_EOK)); try done; [lia|by left]].
    split; cbn; try done; [|by rewrite delete_id]. rewrite u8_id by (specialize (Hh Hown); mlia). by rewrite Hown.
  - destruct (mutex_try_step o time m (set_error RT_EOK t s) t) as (r & i & E & H2); try done.
    rewrite E. eexists _, _. split; [done|]. destruct H2 as [H2 H3]. split; [by destruct r|auto].
Qed.

(** The last release of a mutex: it is free, or goes to the next. *)
Lemma mutex_last_step o m s t : sys_ok s -> runs_thread s t -> pend s !! t = None ->
  objects (ist s) !! o = Some (Mutex m) -> owner m = Some t -> hold m = 1 ->
  exists i, match wlist (suspend_thread o) (kern (ist s)) with
    | w :: _ =>
        thw ← get_thread w (kern (ist s));
        let s := put_object o (Mutex (mkMutex (mtx_value m) (current_priority thw) (u8 (0 + 1))
                                        (Some w) (mtx_flag m))) (ist s) in
        s ← lift (rt_ipc_list_resume (suspend_thread o)) s;
        s ← lift rt_schedule s;
        Ok (RT_EOK, s)
    | [] => Ok (RT_EOK, put_object o (Mutex (mkMutex (u16 (mtx_value m + 1)) 0xff 0 None (mtx_flag m))) (ist s))
    end = Ok (RT_EOK, i)
  /\ sys_ok (mkSys i (pend s) (Gave t o RT_EOK :: log s)).
Proof.
  intros H Ht Hp Ho How Hh. pose proof H as [Hb Hs].
  destruct (wlist (suspend_thread o) (kern (ist s))) as [|w l] eqn:Hl.
  - eexists. split; [done|]. split; [done|]. by eapply (sync_mutex_freed init (abs s) t o m).
  - destruct (waiting_view s o w l H Hl) as (Hvw & Hni & thw & Ew & Hpw).
    rewrite (get_thread_eq w thw), bind_ret_l by done. cbv zeta. change (u8 (0 + 1)) with 1.
    destruct (wake_step o w l (<[o := Mutex (mkMutex (mtx_value m) (current_priority thw) 1 (Some w) (mtx_flag m))]>
      (objects (ist s))) (Gave t o RT_EOK) s) as (i & i' & E & E' & H'); try done.
    { by eapply sync_mutex_passed. }
    unfold put_object. rewrite E, bind_ret_l, E', bind_ret_l. by eexists.
Qed.

Lemma mutex_release_step o m s t : sys_ok s -> runs_thread s t -> pend s !! t = None ->
  objects (ist s) !! o = Some (Mutex m) ->
  exists c i, rt_mutex_release o (ist s) = Ok (c, i) /\ sys_ok (mkSys i (pend s) (Gave t o c :: log s)).
Proof.
  intros H Ht Hp Ho. pose proof H as [Hb Hs]. destruct (sy_object _ _ Hs o _ Ho) as (Hfl & Hm & Hc).
  unfold rt_mutex_release. rewrite (get_mutex_eq o m), bind_ret_l, (context_eq s t), bind_ret_l by done.
  case_bool_decide as How; cbn [negb].
  - rewrite How in Hm. destruct Hm as (Hval & Hh & Hop & Ha). cbv zeta. rewrite (u8_id (hold m - 1)) by mlia.
    destruct (Z.eqb_spec (hold m - 1) 0) as [Hz|Hz]; cbn [negb].
    + destruct (running_view _ _ t Hb Ht) as (th & Eth & _ & _).
      rewrite (get_thread_eq t th), bind_ret_l by done.
      destruct (priority_step (negb (original_priority m =? current_priority th)) t (original_priority m) s t
        H Ht Ha Hop) as (i & E & H1 & Ht1 & Ho1 & _).
      rewrite E, bind_ret_l.
      destruct (mutex_last_step o m (mkSys i (pend s) (log s)) t) as (i' & E' & H'); try done;
        [by cbn; rewrite Ho1|lia|].
      cbn [ist] in E'. rewrite Hz, E'. by eexists _, _.
    + eexists _, _. split; [done|]. split; [done|].
      eapply (sync_mutex_count init (abs s) t o m (hold m - 1) (Gave t o RT_EOK)); try done; [lia|by right].
  - eexists _, _. split; [done|]. destruct (error_step (- RT_ERROR) t s H Ht Hp) as ([Hb1 Hs1] & _ & _).
    split; [done|]. apply (sync_failed init (abs (set_error (- RT_ERROR) t s)) (Gave t o (- RT_ERROR))); [|exact Hs1].
    exists t, o, (- RT_ERROR). split; [by right|done].
Qed.

Lemma sleep_step tick s t : sys_ok s -> runs_thread s t -> t <> idle -> pend s !! t = None ->
  0 <= tick < HALF ->
  exists i, lift (rt_thread_sleep tick) (ist s) = Ok i /\ sys_ok (mkSys i (<[t := FSleep]> (pend s)) (log s)).
Proof.
  intros H Ht Hti Hp Htk. pose proof H as [Hb Hs].
  destruct (sleep_base idle tick _ t Hb Ht Hti Htk) as (k & E & Hb' & Hv & Hw).
  exists (with_kern k (ist s)). split; [unfold lift; by rewrite E|]. split; [done|].
  destruct (running_view _ _ t Hb Ht) as (th & Eth & _ & Ev).
  eapply sync_ext; [|eapply (sync_thread init (abs s) t (VWait, error th) (<[t := FSleep]> (pend s)))]; try done.
  - split; try done. intros x. cbn. rewrite Hv. unfold at_thread, vset. case_decide as Hx; [subst x; by rewrite Ev|done].
  - intros k'. by apply running_unlisted.
  - intros f o. cbn. congruence.
  - intros f. rewrite lookup_insert_eq. congruence.
  - intros x Hx. cbn. by rewrite lookup_insert_ne.
Qed.

Lemma wake_up_step s t : sys_ok s -> runs_thread s t -> pend s !! t = Some FSleep ->
  exists e k, rt_thread_sleep_end t (kern (ist s)) = Ok (e, k)
  /\ sys_ok (mkSys (with_kern k (ist s)) (delete t (pend s)) (log s)).
Proof.
  intros H Ht Hp. pose proof H as [Hb Hs]. destruct (running_view _ _ t Hb Ht) as (th & Eth & _ & Ev).
  unfold rt_thread_sleep_end. rewrite (get_thread_eq t th), bind_ret_l by done.
  eexists _, _. split; [done|]. split.
  - cbn. destruct (_ =? _); [by apply error_base|done].
  - eapply sync_ext; [|eapply (sync_thread init (abs s) t
      (VRun, if error th =? - RT_ETIMEOUT then RT_EOK else error th) (delete t (pend s)))]; try done.
    + split; try done; cbn; intros x; destruct (_ =? _); try done.
      * rewrite view_error. unfold vset. case_decide as Hx; [subst x; by rewrite Ev|done].
      * unfold vset. case_decide as Hx; [by subst x|done].
    + intros k'. by apply running_unlisted.
    + intros f o. cbn. rewrite Hp. by intros [= <-].
    + intros f. by rewrite lookup_delete_eq.
    + intros x Hx. cbn. by rewrite lookup_delete_ne.
Qed.

Lemma return_step s t p : sys_ok s -> runs_thread s t -> pend s !! t = Some (FCall p) ->
  exists r i, resume_call t p (ist s) = Ok (r, i) /\ sys_ok (settle t (object_of p) r i s).
Proof.
  intros H Ht Hp. pose proof H as [Hb Hs]. destruct (running_view _ _ t Hb Ht) as (th & Eth & _ & Ev).
  pose proof (sy_frame _ _ Hs t _ Hp) as Hok. unfold resume_call. rewrite (get_thread_eq t th), bind_ret_l by done.
  assert (exists o, waits_for (FCall p) = Some o /\ object_of p = o /\
    (error th = RT_EOK \/ error th = - RT_ETIMEOUT)) as (o & Hw & Eo & He).
  { destruct p as [o|o tm| | | |]; try done; exists o; cbn in Hok; split_and!; try done.
    - destruct Hok as [_ [[Hv _]|[Hv|Hv]]]; rewrite Ev in Hv; [done|injection Hv as ->; auto..].
    - destruct Hok as (m & _ & [[Hv _]|[[Hv _]|[Hv _]]]); rewrite Ev in Hv; [done|injection Hv as ->; auto..]. }
  assert (sys_ok (settle t (object_of p) (Done (error th) []) (ist s) s)) as H'.
  { split; [done|]. rewrite Eo. eapply sync_ext; [|eapply (sync_returned init (abs s) t (FCall p) o (error th)); try done].
    - done.
    - intros k. by apply running_unlisted. }
  exists (Done (error th) []), (ist s). split; [|done].
  destruct He as [He|He]; rewrite He; cbn [negb Z.eqb]; destruct p as [o'|o' tm| | | |]; try done.
Qed.

Lemma tick_step cb stops s : simple_cb stops cb -> sys_ok s ->
  exists fired k, SysTick_Handler cb (S (size (timers (ktimers (kern (ist s)))))) (kern (ist s)) = Ok (fired, k)
  /\ sys_ok (mkSys (with_kern k (ist s)) (pend s) (log s)).
Proof.
  intros Hcb [Hb Hs]. destruct (tick_base idle cb stops _ Hcb Hb) as (fired & k & E & Hb' & [Hv Hw] & Hn).
  exists fired, k. split; [done|]. split; [done|].
  eapply sync_ext; [|eapply (sync_expired init (abs s) fired); [exact Hs|exact Hn]]. by split.
Qed.

(** *** Any sequence of steps *)

(** What the threads have to see to: they use existing objects, do not take a
    mutex more often than its count can hold nor release a semaphore beyond its
    range, and the idle thread does not wait. *)
Definition may (l : label) (s : sys) : Prop :=
  exists t, runs_thread s t /\
  match l with
  | LSemTake o time => pend s !! t = None /\ time < HALF /\ (t <> idle \/ time = 0)
      /\ exists x, objects (ist s) !! o = Some (Semaphore x)
  | LMutexTake o time => pend s !! t = None /\ time < HALF /\ (t <> idle \/ time = 0)
      /\ exists m, objects (ist s) !! o = Some (Mutex m) /\ (owner m = Some t -> hold m < 255)
  | LSemRelease o => exists x, objects (ist s) !! o = Some (Semaphore x) /\ sem_value x < 65535
  | LMutexRelease o => pend s !! t = None /\ exists m, objects (ist s) !! o = Some (Mutex m)
  | LSleep tick => pend s !! t = None /\ t <> idle /\ 0 <= tick < HALF
  | LYield => pend s !! t = None
  | LReturn => pend s !! t <> None
  | LTick => True
  end.

Context (cb : Z -> tstate -> res tstate) (stops : Z -> bool) (Hcb : simple_cb stops cb).

Lemma label_step l s : sys_ok s -> may l s -> exists s', run_label cb l s = Ok s' /\ sys_ok s'.
Proof.
  intros H (t & Ht & Hl). unfold run_label. rewrite (current_eq s t), bind_ret_l by done.
  destruct l as [o time|o|o time|o|tick| | |].
  - destruct Hl as (Hp & Htm & Hti & x & Ho).
    destruct (sem_take_step o time x s t) as (r & i & E & H'); try done. rewrite E. by eexists.
  - destruct Hl as (x & Ho & Hv). destruct (sem_release_step o x s t) as (c & i & E & H'); try done.
    rewrite E. by eexists.
  - destruct Hl as (Hp & Htm & Hti & m & Ho & Hh).
    destruct (mutex_take_step o time m s t) as (r & i & E & H' & _); try done. rewrite E. by eexists.
  - destruct Hl as (Hp & m & Ho). destruct (mutex_release_step o m s t) as (c & i & E & H'); try done.
    rewrite E. by eexists.
  - destruct Hl as (Hp & Hti & Htk). destruct (sleep_step tick s t) as (i & E & H'); try done.
    rewrite E. by eexists.
  - destruct (schedule_step s (bs_pre _ _ (proj1 H)) (proj2 H)) as (i & E & H'). rewrite E. by eexists.
  - destruct (pend s !! t) as [[p|]|] eqn:Hp; [| |done].
    + destruct (return_step s t p H Ht Hp) as (r & i & E & H'). rewrite E. by eexists.
    + destruct (wake_up_step s t H Ht Hp) as (e & k & E & H'). rewrite E. by eexists.
  - destruct (tick_step cb stops s Hcb H) as (fired & k & E & H'). rewrite E. by eexists.
Qed.

(** The states of the machine. *)
Inductive sys_reachable (s0 : sys) : sys -> Prop :=
| sys_start : sys_reachable s0 s0
| sys_next s l s' : sys_reachable s0 s -> may l s -> run_label cb l s = Ok s' -> sys_reachable s0 s'.

Lemma sys_reachable_ok s0 s : sys_ok s0 -> sys_reachable s0 s -> sys_ok s.
Proof.
  intros H0. induction 1 as [|s l s' Hr IH Hm E]; [done|].
  destruct (label_step l s IH Hm) as (s1 & E1 & H1). congruence.
Qed.
End steps.

(** ** Starting *)

Definition init_value (s0 : sys) (o : Z) : Z :=
  match objects (ist s0) !! o with Some (Semaphore x) => sem_value x | _ => 0 end.

(** New objects, no call under way. *)
Definition fresh_object (x : ipc_object) : Prop :=
  match x with
  | Semaphore x => flag_ok (sem_flag x) /\ 0 <= sem_value x <= 65535
  | Mutex m => flag_ok (mtx_flag m) /\ owner m = None /\ mtx_value m = 1 /\ hold m = 0
  | _ => True
  end.
Record new_system (idle : Z) (s0 : sys) : Prop := {
  st_base : base idle (kern (ist s0));
  st_pend : pend s0 = ∅;
  st_log : log s0 = [];
  st_lists : forall k, wlist k (kern (ist s0)) = [];
  st_objects : forall o x, objects (ist s0) !! o = Some x -> fresh_object x }.

Lemma new_system_ok idle s0 : new_system idle s0 -> sys_ok idle (init_value s0) s0.
Proof.
  intros [Hb Hp Hl Hw Ho]. split; [done|]. split; cbn.
  - intros t f. by rewrite Hp, lookup_empty.
  - intros k t. rewrite Hw. by intros ?%not_elem_of_nil.
  - intros o x E. specialize (Ho o x E). destruct x as [x|m| | |]; try done; cbn in Ho.
    + destruct Ho as [Hf Hv]. split; [done|]. split; [done|]. cbn. rewrite Hw, Hp, Hl. split; [done|].
      unfold init_value. rewrite E. unfold granted. rewrite map_filter_empty, dom_empty_L, size_empty. cbn. lia.
    + destruct Ho as (Hf & Hown & Hv & Hh). split; [done|]. rewrite Hown. cbn. rewrite Hw. split; [done|].
      intros t. rewrite Hl, decide_False by naive_solver. done.
Qed.

(** ** Mutual exclusion and the tokens of semaphores *)

Section theorems.
Context (idle : Z) (cb : Z -> tstate -> res tstate) (stops : Z -> bool) (Hcb : simple_cb stops cb).

(** C4: In every state that threads reach by taking and releasing mutexes and
    semaphores, sleeping, yielding and being interrupted by the tick, at most
    one thread holds a mutex: a thread whose takes have returned [RT_EOK] more
    often than its releases is the mutex's owner, with exactly that count, also
    when other threads wait, time out or are handed the mutex; and no step
    faults. *)
Theorem mutual_exclusion s0 s : new_system idle s0 -> sys_reachable idle cb s0 s ->
  (forall l, may idle l s -> exists s', run_label cb l s = Ok s')
  /\ forall o m, objects (ist s) !! o = Some (Mutex m) ->
     forall t, 0 < held t o (log s) -> owner m = Some t /\ hold m = held t o (log s)
     /\ forall t', 0 < held t' o (log s) -> t' = t.
Proof.
  intros H0 Hr. pose proof (sys_reachable_ok _ _ cb stops Hcb s0 s (new_system_ok _ _ H0) Hr) as H. split.
  - intros l Hm. destruct (label_step _ _ cb stops Hcb l s H Hm) as (s' & E & _). by exists s'.
  - intros o m Ho t Ht. destruct (sy_object _ _ (proj2 H) o _ Ho) as (_ & _ & Hc). cbn in Hc.
    assert (forall x, 0 < held x o (log s) -> owner m = Some x /\ hold m = held x o (log s)) as Hx.
    { intros x Hx. rewrite Hc in Hx |- *. case_decide as Hd; [naive_solver|lia]. }
    destruct (Hx t Ht) as [Ho1 Hh1]. split; [done|]. split; [done|]. intros t' Ht'.
    destruct (Hx t' Ht') as [Ho2 _]. congruence.
Qed.

(** Priority inheritance: when a thread has to wait for a mutex, then in the
    state after the call the owner runs at no lower priority (no greater number)
    than the thread that waits, and still owns the mutex. *)
Theorem priority_inheritance s0 s o time m t ow s' : new_system idle s0 -> sys_reachable idle cb s0 s ->
  may idle (LMutexTake o time) s -> runs_thread s t -> objects (ist s) !! o = Some (Mutex m) ->
  owner m = Some ow -> ow <> t -> time <> 0 -> run_label cb (LMutexTake o time) s = Ok s' ->
  pend s' !! t = Some (FCall (PMutexTake o time)) /\ objects (ist s') !! o = Some (Mutex m)
  /\ t ∈ wlist (suspend_thread o) (kern (ist s'))
  /\ prio_of (kern (ist s')) ow <= prio_of (kern (ist s')) t.
Proof.
  intros H0 Hr (t' & Ht' & Hp & Htm & Hti & m' & Ho' & Hh) Ht Ho Hw Hne Hz E.
  assert (t' = t) as -> by (unfold runs_thread in *; congruence).
  pose proof (sys_reachable_ok _ _ cb stops Hcb s0 s (new_system_ok _ _ H0) Hr) as H.
  destruct (mutex_take_step idle (init_value s0) o time m s t) as (r & i & E1 & [Hb1 Hs1] & H2); try done; [congruence|].
  destruct (H2 ow Hw Hne Hz) as (-> & Ho2 & Hin & Hpr).
  unfold run_label in E. rewrite (current_eq s t), bind_ret_l, E1, bind_ret_l in E by done. injection E as <-.
  split_and!; try done. cbn. by rewrite lookup_insert_eq.
Qed.

(** C22: Semaphores count: in every reachable state the tokens taken and those
    that a release has passed to a waiting thread, with the value, are those the
    semaphore started with and those given, so never more are taken than were
    there; and no token lies idle while a thread waits for it. *)
Theorem semaphore_tokens s0 s o x : new_system idle s0 -> sys_reachable idle cb s0 s ->
  objects (ist s) !! o = Some (Semaphore x) ->
  taken o (log s) + Z.of_nat (size (granted (view (kern (ist s))) (pend s) o)) + sem_value x
    = init_value s0 o + given o (log s)
  /\ taken o (log s) <= init_value s0 o + given o (log s)
  /\ 0 <= sem_value x <= 65535
  /\ (0 < sem_value x -> forall t th, pend s !! t = Some (FCall (PSemTake o)) ->
      threads (kern (ist s)) !! t = Some th -> runnable (stat th)).
Proof.
  intros H0 Hr Ho. pose proof (sys_reachable_ok _ _ cb stops Hcb s0 s (new_system_ok _ _ H0) Hr) as [Hb Hs].
  destruct (sy_object _ _ Hs o _ Ho) as (_ & Hv & Hw & Hc). cbn in Hw, Hc. split; [lia|]. split; [lia|].
  split; [done|]. intros Hpos t th Hp Ht. destruct (sy_frame _ _ Hs t _ Hp) as [_ Hf]. cbn in Hf.
  rewrite (Hw Hpos) in Hf. apply klass_run.
  assert (view (kern (ist s)) t = Some (klass (stat th), error th)) as Ev by (unfold view; by rewrite Ht).
  rewrite Ev in Hf. destruct Hf as [[_ []%not_elem_of_nil]|[[= -> _]|[= -> _]]]; done.
Qed.
End theorems.
