(* ===== verification/KernelRuns.v ===== *)
(** * Runs of the kernel

    Concrete runs of the machine of [KernelSync]: three threads beside the idle
    thread, two mutexes and a semaphore.  They show that the hypotheses of its
    theorems hold of a started system, and two runs in which the priorities of
    the threads do not come out as priority inheritance means them to. *)
From stdpp Require Import gmap sorting.
From S2P Require Import Prelude KernelTimer KernelSched KernelThread KernelIpc KernelQueue KernelSync.

(** ** Running with the conditions of the callers checked *)

Definition is_sem (s : sys) (o : Z) (p : rt_semaphore -> bool) : bool :=
  match objects (ist s) !! o with Some (Semaphore x) => p x | _ => false end.
Definition is_mutex (s : sys) (o : Z) (p : rt_mutex -> bool) : bool :=
  match objects (ist s) !! o with Some (Mutex m) => p m | _ => false end.
Definition may_wait (idle t time : Z) : bool := (time <? HALF) && (negb (t =? idle) || (time =? 0)).

Definition may_b (idle : Z) (l : label) (s : sys) : bool :=
  match rt_current_thread (kern (ist s)) with
  | None => false
  | Some t =>
      let free := bool_decide (pend s !! t = None) in
      match l with
      | LSemTake o time => free && may_wait idle t time && is_sem s o (fun _ => true)
      | LMutexTake o time => free && may_wait idle t time
          && is_mutex s o (fun m => negb (bool_decide (owner m = Some t)) || (hold m <? 255))
      | LSemRelease o => is_sem s o (fun x => sem_value x <? 65535)
      | LMutexRelease o => free && is_mutex s o (fun _ => true)
      | LSleep tick => free && negb (t =? idle) && (0 <=? tick) && (tick <? HALF)
      | LYield => free
      | LReturn => negb free
      | LTick => true
      end
  end.

Lemma is_sem_true s o p : is_sem s o p = true -> exists x, objects (ist s) !! o = Some (Semaphore x) /\ p x = true.
Proof. unfold is_sem. destruct (objects (ist s) !! o) as [[]|]; try done. by eexists. Qed.
Lemma is_mutex_true s o p : is_mutex s o p = true -> exists m, objects (ist s) !! o = Some (Mutex m) /\ p m = true.
Proof. unfold is_mutex. destruct (objects (ist s) !! o) as [[]|]; try done. by eexists. Qed.
Lemma may_wait_true idle t time : may_wait idle t time = true -> time < HALF /\ (t <> idle \/ time = 0).
Proof. unfold may_wait. rewrite andb_true_iff, orb_true_iff, negb_true_iff, Z.ltb_lt, Z.eqb_eq, Z.eqb_neq. done. Qed.

Lemma may_b_true idle l s : may_b idle l s = true -> may idle l s.
Proof.
  unfold may_b, may, runs_thread. destruct (rt_current_thread (kern (ist s))) as [t|]; [|done].
  intros H. exists t. split; [done|].
  destruct l as [o time|o|o time|o|tick| | |]; rewrite ?andb_true_iff in H;
    rewrite ?negb_true_iff, ?bool_decide_eq_true, ?bool_decide_eq_false in H; try done.
  - destruct H as [[Hf [Ht Hi]%may_wait_true] (x & Ex & _)%is_sem_true]. eauto.
  - apply is_sem_true in H as (x & Ex & Hx). apply Z.ltb_lt in Hx. eauto.
  - destruct H as [[Hf [Ht Hi]%may_wait_true] (m & Em & Hm)%is_mutex_true]. split_and!; try done.
    exists m. split; [done|]. intros Eo. rewrite bool_decide_true in Hm by done. by apply Z.ltb_lt.
  - destruct H as [Hf (m & Em & _)%is_mutex_true]. eauto.
  - rewrite Z.eqb_neq, Z.leb_le, Z.ltb_lt in H. naive_solver.
Qed.

(** [None]: a condition does not hold, or a fault. *)
Fixpoint drive (idle : Z) (ls : list label) (s : sys) : option sys :=
  match ls with
  | [] => Some s
  | l :: ls =>
      if may_b idle l s then
        match run_label no_cb l s with Ok s' => drive idle ls s' | Fault _ => None end
      else None
  end.
Definition driven (idle : Z) (ls : list label) (s : sys) : sys :=
  match drive idle ls s with Some s' => s' | None => s end.

Lemma drive_reachable idle ls s0 s s' : sys_reachable idle no_cb s0 s -> drive idle ls s = Some s' ->
  sys_reachable idle no_cb s0 s'.
Proof.
  revert s. induction ls as [|l ls IH]; intros s Hr E; cbn in E; [by injection E as <-|].
  destruct (may_b idle l s) eqn:Hm; [|done]. destruct (run_label no_cb l s) as [s1|] eqn:E1; [|done].
  apply (IH s1); [|done]. eapply sys_next; [done|by apply may_b_true|done].
Qed.
Lemma driven_reachable idle ls s0 : sys_reachable idle no_cb s0 (driven idle ls s0).
Proof.
  unfold driven. destruct (drive idle ls s0) as [s|] eqn:E; [|apply sys_start].
  eapply drive_reachable; [apply sys_start|done].
Qed.

(** ** A started system *)

(** Thread 1 is the idle thread, 2 the main thread at priority 10, 3 one at
    priority 12, 4 one at priority 5, which runs first. *)
Definition demo1 : kstate := do_op (OpInit 3 (text "low") 12 10) boot.
Definition demo2 : kstate := do_op (OpStartup 3) demo1.
Definition demo3 : kstate := do_op (OpInit 4 (text "high") 5 10) demo2.
Definition demo4 : kstate := do_op (OpStartup 4) demo3.

Lemma demo_reachable : reachable no_cb no_cleanup demo4.
Proof.
  apply do_op_reachable; [|apply stat_is_true; by vm_compute|by vm_compute].
  apply do_op_reachable; [|split; [apply fresh_is_true; by vm_compute|split; [lia|apply room_is_true; by vm_compute]]|by vm_compute].
  apply do_op_reachable; [|apply stat_is_true; by vm_compute|by vm_compute].
  apply do_op_reachable; [exact boot_reachable| |by vm_compute].
  split; [apply fresh_is_true; by vm_compute|split; [lia|apply room_is_true; by vm_compute]].
Qed.

(** Mutexes 7 and 8, in order of arrival and of priority; semaphore 9. *)
Definition demo0 : sys :=
  mkSys (mkI demo4 (<[7 := Mutex (mkMutex 1 0xFF 0 None RT_IPC_FLAG_FIFO)]>
                   (<[8 := Mutex (mkMutex 1 0xFF 0 None RT_IPC_FLAG_PRIO)]>
                   {[9 := Semaphore (mkSem 1 RT_IPC_FLAG_FIFO)]})) ∅) ∅ [].

Lemma no_waits k s : wait_lists s = ∅ -> wlist k s = [].
Proof. intros H. unfold wlist. by rewrite H, lookup_empty. Qed.

Lemma demo_started : new_system 1 demo0.
Proof.
  assert (kernel_ok demo4) as Hk by (exact (reachable_kernel_ok demo4 demo_reachable)).
  assert (rt_current_thread demo4 = Some 4) as Hc by (by vm_compute).
  split; [|reflexivity|reflexivity| |].
  - split; [split|].
    + exact Hk.
    + exists 4. exact Hc.
    + by vm_compute.
    + by vm_compute.
    + exists 0. by vm_compute.
    + exists 4. split; [exact Hc|]. apply stat_is_true. by vm_compute.
  - assert (wait_lists demo4 = ∅) as Hw by (vm_compute; reflexivity).
    intros k. exact (no_waits k demo4 Hw).
  - clear Hk Hc. intros o x. unfold demo0. cbn. rewrite !lookup_insert_Some, lookup_singleton_Some.
    intros [[<- <-]|[_ [[<- <-]|[_ [<- <-]]]]]; cbn; (split; [|done]); [by left|by right|by left].
Qed.

(** ** Taking turns *)

(** The main thread takes the mutex and sleeps; thread 3 waits for it and gets
    it when the main thread releases it, while thread 4 sleeps. *)
Definition turns : list label :=
  [LSleep 100; LMutexTake 7 (-1); LMutexTake 7 (-1); LSemTake 9 5; LSleep 2;
   LMutexTake 7 (-1); LTick; LTick; LReturn; LMutexRelease 7; LMutexRelease 7; LSemRelease 9; LSleep 5; LReturn].
Definition turns_end : sys := driven 1 turns demo0.

Lemma mutual_exclusion_witness : held 3 7 (log turns_end) = 1
  /\ exists m, objects (ist turns_end) !! 7 = Some (Mutex m) /\ owner m = Some 3 /\ hold m = 1.
Proof.
  assert (held 3 7 (log turns_end) = 1) as Hh by (by vm_compute).
  assert (is_mutex turns_end 7 (fun _ => true) = true) as Hm by (by vm_compute).
  destruct (is_mutex_true _ _ _ Hm) as (m & Em & _). split; [exact Hh|]. exists m. split; [exact Em|].
  destruct (proj2 (mutual_exclusion 1 no_cb _ no_cb_simple demo0 turns_end demo_started
    (driven_reachable 1 turns demo0)) 7 m Em 3) as (Ho & Hc & _).
  - rewrite Hh. reflexivity.
  - split; [exact Ho|]. rewrite Hc. exact Hh.
Defined.

Lemma semaphore_tokens_witness : taken 9 (log turns_end) = 1
  /\ exists x, objects (ist turns_end) !! 9 = Some (Semaphore x)
     /\ taken 9 (log turns_end) <= init_value demo0 9 + given 9 (log turns_end).
Proof.
  assert (is_sem turns_end 9 (fun _ => true) = true) as Hm by (by vm_compute).
  destruct (is_sem_true _ _ _ Hm) as (x & Ex & _). split; [by vm_compute|]. exists x. split; [exact Ex|].
  exact (proj1 (proj2 (semaphore_tokens 1 no_cb _ no_cb_simple demo0 turns_end 9 x demo_started
    (driven_reachable 1 turns demo0) Ex))).
Defined.

(** ** Priorities *)

(** Thread 4 comes back while the main thread holds mutex 7, and waits: the main
    thread runs on at priority 5. *)
Definition before_boost : sys := driven 1 [LSleep 2; LMutexTake 7 (-1); LTick; LTick; LReturn] demo0.
Definition boosted : sys := driven 1 [LMutexTake 7 (-1)] before_boost.

Lemma priority_inheritance_witness : prio_of (kern (ist before_boost)) 2 = 10
  /\ prio_of (kern (ist boosted)) 2 <= prio_of (kern (ist boosted)) 4.
Proof.
  split; [by vm_compute|].
  assert (is_mutex before_boost 7 (fun m => bool_decide (owner m = Some 2)) = true) as Hm by (by vm_compute).
  destruct (is_mutex_true _ _ _ Hm) as (m & Em & Ho%bool_decide_eq_true).
  assert (may_b 1 (LMutexTake 7 (-1)) before_boost = true) as Hmay by (by vm_compute).
  assert (run_label no_cb (LMutexTake 7 (-1)) before_boost = Ok boosted) as E.
  { unfold boosted, driven. cbn [drive]. rewrite Hmay.
    assert (is_Ok (run_label no_cb (LMutexTake 7 (-1)) before_boost) = true) as Hok by (by vm_compute).
    destruct (run_label no_cb (LMutexTake 7 (-1)) before_boost) as [s'|]; [reflexivity|discriminate Hok]. }
  assert (rt_current_thread (kern (ist before_boost)) = Some 4) as Hc by (by vm_compute).
  exact (proj2 (proj2 (proj2 (priority_inheritance 1 no_cb _ no_cb_simple demo0 before_boost 7 (-1) m 4 2 boosted
    demo_started (driven_reachable 1 _ demo0) (may_b_true _ _ _ Hmay) Hc Em Ho ltac:(discriminate)
    ltac:(discriminate) E)))).
Defined.

(** A mutex that is released before one taken later: the main thread takes 7, is
    boosted by thread 4, takes 8 (which notes priority 5), releases 7 and then
    8. *)
Definition crossed : list label :=
  [LSleep 2; LMutexTake 7 (-1); LTick; LTick; LReturn; LMutexTake 7 (-1);
   LMutexTake 8 (-1); LMutexRelease 7; LReturn; LMutexRelease 7; LSleep 50; LMutexRelease 8].

(** Priority inheritance does not undo itself when two mutexes are released
    in another order than the reverse of their taking: there is a reachable
    state in which the main thread, started at priority 10, holds no mutex and
    nobody waits for one, and it runs at priority 5. *)
Theorem priority_left_boosted : exists s, sys_reachable 1 no_cb demo0 s
  /\ (forall t o, t ∈ [2; 3; 4] -> o ∈ [7; 8] -> held t o (log s) = 0)
  /\ wlist (suspend_thread 7) (kern (ist s)) = [] /\ wlist (suspend_thread 8) (kern (ist s)) = []
  /\ rt_current_thread (kern (ist s)) = Some 2
  /\ init_priority <$> threads (kern (ist s)) !! 2 = Some 10 /\ prio_of (kern (ist s)) 2 = 5.
Proof.
  exists (driven 1 crossed demo0). split; [apply driven_reachable|]. split.
  - assert (forallb (fun t => forallb (fun o => held t o (log (driven 1 crossed demo0)) =? 0) [7; 8]) [2; 3; 4] = true)
      as H by (by vm_compute).
    intros t o Ht Ho. rewrite forallb_forall in H. apply list_elem_of_In in Ht, Ho.
    specialize (H t Ht). rewrite forallb_forall in H. by apply Z.eqb_eq, H.
  - by vm_compute.
Qed.

(** A mutex served in order of arrival hands priority inversion on: there is
    a reachable state in which thread 3 owns a mutex at priority 12 while thread
    4, of priority 5, waits for it. *)
Theorem handed_over_unboosted : exists s m, sys_reachable 1 no_cb demo0 s
  /\ objects (ist s) !! 7 = Some (Mutex m) /\ owner m = Some 3
  /\ wlist (suspend_thread 7) (kern (ist s)) = [4]
  /\ prio_of (kern (ist s)) 3 = 12 /\ prio_of (kern (ist s)) 4 = 5.
Proof.
  set (s := driven 1 [LSleep 4; LMutexTake 7 (-1); LSleep 2; LMutexTake 7 (-1); LTick; LTick; LReturn; LTick; LTick;
    LReturn; LMutexTake 7 (-1); LMutexRelease 7] demo0).
  assert (is_mutex s 7 (fun m => bool_decide (owner m = Some 3)) = true) as Hm by (by vm_compute).
  destruct (is_mutex_true _ _ _ Hm) as (m & Em & Ho%bool_decide_eq_true).
  exists s, m. split; [apply driven_reachable|]. split; [exact Em|]. split; [exact Ho|]. clear Hm Em Ho. vm_compute. repeat split.
Qed.

(** ** At the edges *)

(** The value of a semaphore is a 16-bit number, and a release does not look at
    its limit: all its tokens are lost. *)
Lemma sem_release_wraps s o flag : objects s !! o = Some (Semaphore (mkSem 65535 flag)) ->
  wlist (suspend_thread o) (kern s) = [] ->
  rt_sem_release o s = Ok (RT_EOK, put_object o (Semaphore (mkSem 0 flag)) s).
Proof. intros Ho Hl. unfold rt_sem_release, get_sem. by rewrite Ho, bind_ret_l, Hl. Qed.

(** With the scheduler locked a take of an empty semaphore does not switch away:
    the call goes on at once and reports success, with no token and the running
    thread marked as suspended. *)
Definition locked : istate :=
  mkI (rt_enter_critical boot) {[5 := Semaphore (mkSem 0 RT_IPC_FLAG_FIFO)]} ∅.
Definition locked_take : res (outcome * istate) :=
  '(r, s) ← rt_sem_take 5 (-1) locked;
  match r with Blocked p => resume_call 2 p s | Done _ _ => Ok (r, s) end.
Lemma locked_take_without_token : exists s, locked_take = Ok (Done RT_EOK [], s)
  /\ objects s !! 5 = Some (Semaphore (mkSem 0 RT_IPC_FLAG_FIFO))
  /\ rt_current_thread (kern s) = Some 2 /\ stat_is (kern s) 2 RT_THREAD_SUSPEND = true.
Proof. eexists. vm_compute. repeat split. Qed.
