(* ===== verification/KernelEvent.v ===== *)
(** * Events: what a send wakes (src/ipc.c)

    [rt_event_send] goes through the waiting threads once, clearing bits as
    threads take them; the theorem says what it leaves. *)
From stdpp Require Import gmap sorting.
From S2P Require Import Prelude KernelTimer KernelSched KernelThread KernelIpc KernelQueue.

(** The bits of [a] are among those of [b]. *)
Definition bits_in (a b : Z) : Prop := forall i, 0 <= i -> Z.testbit a i = true -> Z.testbit b i = true.

Lemma bits_in_refl a : bits_in a a.
Proof. by intros i. Qed.
Lemma bits_in_trans a b c : bits_in a b -> bits_in b c -> bits_in a c.
Proof. intros H1 H2 i Hi Ha. auto. Qed.
#[global] Instance bits_in_preorder : PreOrder bits_in.
Proof. split; [exact bits_in_refl|exact bits_in_trans]. Qed.
Lemma bits_in_ldiff a b : bits_in (Z.ldiff a b) a.
Proof. intros i Hi. rewrite Z.ldiff_spec. by intros [? _]%andb_true_iff. Qed.
Lemma land_bits_in a b : Z.land a b = a <-> bits_in a b.
Proof.
  split.
  - intros E i Hi Ha. rewrite <- E, Z.land_spec in Ha. by apply andb_true_iff in Ha as [_ ?].
  - intros H. apply Z.bits_inj'. intros i Hi. rewrite Z.land_spec. destruct (Z.testbit a i) eqn:Ea; [|done].
    by rewrite (H i Hi Ea).
Qed.
Lemma land_zero_in a b c : bits_in b c -> Z.land a c = 0 -> Z.land a b = 0.
Proof.
  intros H E. apply Z.bits_inj'. intros i Hi. rewrite Z.land_spec, Z.bits_0.
  assert (Z.testbit (Z.land a c) i = false) as Ec by (rewrite E; apply Z.bits_0). rewrite Z.land_spec in Ec.
  destruct (Z.testbit a i); [|done]. cbn in Ec |- *. destruct (Z.testbit b i) eqn:Eb; [|done].
  by rewrite (H i Hi Eb) in Ec.
Qed.

(** Fewer bits match fewer threads. *)
Lemma event_match_less set set' th : bits_in set' set -> event_match set th = None -> event_match set' th = None.
Proof.
  intros Hs. unfold event_match. destruct (has_flag _ _).
  - destruct (Z.eqb_spec (Z.land (event_set th) set) (event_set th)) as [E|E]; [done|].
    destruct (Z.eqb_spec (Z.land (event_set th) set') (event_set th)) as [E'|E']; [|done].
    destruct E. apply land_bits_in. apply land_bits_in in E'. by etrans.
  - destruct (has_flag _ _); [|done]. destruct (Z.eqb_spec (Z.land (event_set th) set) 0) as [E|E]; [|done].
    intros _. by rewrite (land_zero_in _ _ _ Hs E).
Qed.

(** ** The specification

    A waiting thread asks for some bits with an option: all of them (AND) or any
    of them (OR), and whether what it receives is cleared (CLEAR).  The bits
    pending are offered to the threads in the order of the list: one whose
    request they meet receives those it asked for, and takes them away if it
    asked to clear them, before the next one is considered. *)
Record request : Set := Request { asker : Z; wants : Z; req_option : Z }.

Definition meets (pending : Z) (r : request) : bool :=
  if has_flag (req_option r) RT_EVENT_FLAG_AND then bool_decide (Z.ldiff (wants r) pending = 0)
  else has_flag (req_option r) RT_EVENT_FLAG_OR && bool_decide (Z.land (wants r) pending <> 0).

(** Who is woken with which bits, and the bits left. *)
Fixpoint deliver (rs : list request) (pending : Z) : list (Z * Z) * Z :=
  match rs with
  | [] => ([], pending)
  | r :: rs' =>
      if meets pending r then
        let got := Z.land (wants r) pending in
        let '(woken, rest) :=
          deliver rs' (if has_flag (req_option r) RT_EVENT_FLAG_CLEAR then Z.ldiff pending got else pending) in
        ((asker r, got) :: woken, rest)
      else deliver rs' pending
  end.

(** The requests of the threads of a waiting list. *)
Definition requests (l : list Z) (s : kstate) : list request :=
  omap (fun t => th ← threads s !! t; Some (Request t (event_set th) (event_info th))) l.

Lemma ldiff_zero a b : Z.ldiff a b = 0 <-> Z.land a b = a.
Proof.
  rewrite land_bits_in. split.
  - intros E i Hi Ha. assert (Z.testbit (Z.ldiff a b) i = false) as Ei by (by rewrite E, Z.bits_0).
    rewrite Z.ldiff_spec, Ha in Ei. by apply negb_false_iff in Ei.
  - intros H. apply Z.bits_inj'. intros i Hi. rewrite Z.ldiff_spec, Z.bits_0.
    destruct (Z.testbit a i) eqn:Ea; [|done]. by rewrite (H i Hi Ea).
Qed.

Lemma event_match_meets b t th :
  event_match b th = (if meets b (Request t (event_set th) (event_info th)) then Some (Z.land (event_set th) b) else None).
Proof.
  unfold event_match, meets. cbn. destruct (has_flag _ RT_EVENT_FLAG_AND).
  - destruct (Z.eqb_spec (Z.land (event_set th) b) (event_set th)) as [E|E].
    + rewrite bool_decide_true by (by apply ldiff_zero). by rewrite E.
    + by rewrite bool_decide_false by (by rewrite ldiff_zero).
  - destruct (has_flag _ RT_EVENT_FLAG_OR); [|done]. cbn. destruct (Z.eqb_spec (Z.land (event_set th) b) 0) as [E|E].
    + by rewrite bool_decide_false by (intros H; by apply H).
    + by rewrite bool_decide_true.
Qed.

Lemma requests_cons t l th s : threads s !! t = Some th ->
  requests (t :: l) s = Request t (event_set th) (event_info th) :: requests l s.
Proof. unfold requests. cbn. by intros ->. Qed.

Lemma requests_ext l s s' : (forall t, t ∈ l -> threads s !! t = threads s' !! t) -> requests l s = requests l s'.
Proof.
  unfold requests. induction l as [|t l IH]; intros H; [done|]. cbn. rewrite H by (by left).
  rewrite IH by (intros x Hx; apply H; by right). done.
Qed.

Lemma requests_askers l s r : r ∈ requests l s -> asker r ∈ l.
Proof.
  unfold requests. rewrite list_elem_of_omap. intros (t & Ht & E).
  destruct (threads s !! t); [|done]. by injection E as <-.
Qed.

Lemma deliver_askers rs b t : t ∈ map fst (fst (deliver rs b)) -> exists r, r ∈ rs /\ asker r = t.
Proof.
  revert b. induction rs as [|r rs IH]; intros b; cbn; [by intros ?%elem_of_nil|].
  case_match.
  - destruct (deliver rs _) as [ws rest] eqn:E. cbn. intros [->|Hin]%elem_of_cons; [exists r; split; [by left|done]|].
    destruct (IH (if has_flag (req_option r) RT_EVENT_FLAG_CLEAR then Z.ldiff b (Z.land (wants r) b) else b)) as (r' & ? & ?);
      [by rewrite E|]. exists r'. split; [by right|done].
  - intros Hin. destruct (IH b Hin) as (r' & ? & ?). exists r'. split; [by right|done].
Qed.

(** One thread woken with what it received. *)
Definition given_event (t got : Z) (th : rt_thread) (s : kstate) : kstate :=
  resumed t (upd_thread (with_event got (event_info th)) t s).

Lemma given_event_ok k t th got s : kernel_ok s -> t ∈ wlist k s -> threads s !! t = Some th ->
  rt_thread_resume t (upd_thread (with_event got (event_info th)) t s) = Ok (RT_EOK, given_event t got th s)
  /\ kernel_ok (given_event t got th s)
  /\ rt_current_thread (given_event t got th s) = rt_current_thread s
  /\ (forall k', wlist k' (given_event t got th s) = unlink t (wlist k' s))
  /\ (forall x, x <> t -> threads (given_event t got th s) !! x = threads s !! x)
  /\ exists th', threads (given_event t got th s) !! t = Some th' /\ runnable (stat th')
     /\ event_set th' = got /\ error th' = error th.
Proof.
  intros Hk Hin Ht. set (s1 := upd_thread (with_event got (event_info th)) t s).
  assert (kernel_ok s1) as Hk1 by (by apply kernel_upd).
  destruct (waiting_stat k s t (so_lists _ (ko_sched _ Hk)) Hin) as (th0 & E0 & Est).
  rewrite Ht in E0. injection E0 as <-.
  assert (threads s1 !! t = Some (with_event got (event_info th) th)) as Ht1 by (cbn; by rewrite lookup_alter_eq, Ht).
  destruct (resume_ok t _ s1 Hk1 Ht1 Est) as [E Hk2]. split; [done|]. split; [done|].
  split; [unfold given_event; by rewrite resumed_current|]. split; [intros k'; exact (resumed_wlist k' t s1)|].
  unfold given_event. fold s1. rewrite (resumed_threads t _ s1 Ht1). split.
  - intros x Hx. cbn. by rewrite !lookup_alter_ne.
  - rewrite lookup_alter_eq, Ht1. eexists. split; [done|]. split; [apply ready_stat_runnable|done].
Qed.

Lemma filter_iff_in (P Q : Z -> Prop) `{!forall x, Decision (P x), !forall x, Decision (Q x)} (l : list Z) :
  (forall x, x ∈ l -> P x <-> Q x) -> filter P l = filter Q l.
Proof.
  induction l as [|y l IH]; intros Hl; [done|]. rewrite !filter_cons.
  destruct (decide (P y)) as [Hy|Hy], (decide (Q y)) as [Hy'|Hy']; rewrite (Hl y) in Hy by (by left); try done;
    rewrite IH by (intros x Hx; apply Hl; by right); done.
Qed.

(** What the loop does to a list of waiting threads from set [b] on. *)
Record wake_result (o : Z) (pre l : list Z) (b b' : Z) (ws : list (Z * Z)) (s s' : kstate) : Prop := {
  wr_kernel : kernel_ok s';
  wr_current : rt_current_thread s' = rt_current_thread s;
  wr_spec : deliver (requests l s) b = (ws, b');
  wr_list : wlist (suspend_thread o) s' = pre ++ filter (fun x => x ∉ map fst ws) l;
  wr_woken : forall t got, (t, got) ∈ ws -> exists th th', threads s !! t = Some th
    /\ threads s' !! t = Some th' /\ runnable (stat th') /\ event_set th' = got /\ error th' = error th;
  wr_same : forall t, t ∉ map fst ws -> threads s' !! t = threads s !! t;
  wr_bits : bits_in b' b;
  wr_left : forall t th, t ∈ l -> t ∉ map fst ws -> threads s !! t = Some th -> event_match b' th = None }.

Lemma wake_result_in o pre l b b' ws s s' t : wake_result o pre l b b' ws s s' -> t ∈ map fst ws -> t ∈ l.
Proof.
  intros R Hin. pose proof (wr_spec _ _ _ _ _ _ _ _ R) as E.
  destruct (deliver_askers (requests l s) b t) as (r & Hr & <-); [by rewrite E|]. by eapply requests_askers.
Qed.

Lemma event_wake_ok o l pre b woken s : kernel_ok s -> wlist (suspend_thread o) s = pre ++ l ->
  exists b' woken' ws s', event_wake l b woken s = Ok (b', woken', s')
  /\ woken' = woken || negb (bool_decide (ws = [])) /\ wake_result o pre l b b' ws s s'.
Proof.
  revert pre b woken s. induction l as [|t l IH]; intros pre b woken s Hk Hl.
  { exists b, woken, [], s. split; [done|]. split; [by rewrite orb_false_r|].
    split; try done; set_solver. }
  assert (t ∈ wlist (suspend_thread o) s) as Hin by (rewrite Hl; apply elem_of_app; right; by left).
  pose proof (wlist_nodup (suspend_thread o) s (so_lists _ (ko_sched _ Hk))) as Hnd. rewrite Hl in Hnd.
  assert (t ∉ pre /\ t ∉ l) as [Htp Htl].
  { rewrite <- Permutation_middle in Hnd. apply list.NoDup_cons in Hnd as [Hni _].
    rewrite elem_of_app in Hni. tauto. }
  destruct (waiting_stat _ s t (so_lists _ (ko_sched _ Hk)) Hin) as (th & Ht & _).
  cbn [event_wake]. unfold get_thread at 1. rewrite Ht, bind_ret_l.
  destruct (event_match b th) as [got|] eqn:Em.
  - destruct (given_event_ok _ t th got s Hk Hin Ht) as (E & Hk1 & Hc1 & Hw1 & Ho1 & th' & Ht1 & Hr1 & Hs1 & He1).
    rewrite E, bind_ret_l. set (b1 := if has_flag _ _ then _ else b).
    assert (bits_in b1 b) as Hb1 by (unfold b1; destruct (has_flag _ _); [apply bits_in_ldiff|done]).
    destruct (IH pre b1 true (given_event t got th s) Hk1) as (b' & woken' & ws & s' & E' & Ew & R).
    { rewrite Hw1, Hl. unfold unlink. rewrite list.filter_app, filter_cons_False by (intros H; by apply H).
      f_equal; apply filter_all; intros x Hx ->; [by apply Htp|by apply Htl]. }
    assert (t ∉ map fst ws) as Htw by (intros Hw; by apply (wake_result_in _ _ _ _ _ _ _ _ _ R) in Hw).
    exists b', woken', ((t, got) :: ws), s'. split; [done|].
    split; [rewrite Ew; cbn; by rewrite orb_true_r|]. destruct R as [R1 R2 R0 R3 R4 R5 R6 R7].
    split; try done.
    + by rewrite R2.
    + rewrite (requests_cons _ _ _ _ Ht). cbn [deliver]. rewrite (event_match_meets b t) in Em.
      destruct (meets _ _); [|done]. injection Em as Eg. cbn [wants req_option asker]. rewrite Eg.
      rewrite (requests_ext l s (given_event t got th s)) by (intros x Hx; rewrite Ho1; [done|by intros ->]).
      fold b1. by rewrite R0.
    + cbn [map fst]. rewrite R3, (filter_cons_False _ t) by (intros H; apply H; by left). f_equal.
      apply filter_iff_in. intros x Hx. rewrite not_elem_of_cons. split; [|tauto]. intros Hw. split; [|done].
      by intros ->.
    + intros x g [[= -> ->]|Hx]%elem_of_cons.
      * exists th, th'. split_and!; try done. by rewrite R5.
      * destruct (R4 x g Hx) as (thx & th2 & E2 & E3 & Hr & Hs & He).
        assert (x <> t) by (intros ->; apply Htw; apply (list_elem_of_fmap_2 fst _ _ Hx)).
        rewrite Ho1 in E2 by done. exists thx, th2. by split_and!.
    + cbn [map fst]. intros x Hx. rewrite R5 by set_solver. apply Ho1. set_solver.
    + by etrans.
    + cbn [map fst]. intros x thx Hx Hxw Ex. apply (R7 x); [set_solver|set_solver|]. rewrite Ho1; [done|set_solver].
  - destruct (IH (pre ++ [t]) b woken s Hk) as (b' & woken' & ws & s' & E' & Ew & R).
    { by rewrite <- (assoc_L (++)). }
    exists b', woken', ws, s'. split; [done|]. split; [done|].
    assert (t ∉ map fst ws) as Htw by (intros Hw; by apply (wake_result_in _ _ _ _ _ _ _ _ _ R) in Hw).
    destruct R as [R1 R2 R0 R3 R4 R5 R6 R7]. split; try done.
    + rewrite (requests_cons _ _ _ _ Ht). cbn [deliver]. rewrite (event_match_meets b t) in Em.
      by destruct (meets _ _).
    + rewrite R3, (filter_cons_True _ t) by done. by rewrite <- (assoc_L (++)).
    + intros x thx [->|Hx]%elem_of_cons Hxw Ex; [|by eapply R7].
      rewrite Ht in Ex. injection Ex as <-. by eapply event_match_less.
Qed.

Lemma get_event_eq o e s : objects s !! o = Some (Event e) -> get_event o s = Ok e.
Proof. unfold get_event. by intros ->. Qed.

(** C23: [rt_event_send] of a non-empty set on an event returns success and does
    exactly what [deliver] says, offering the event's old and new bits to the
    waiting threads in the order of their list.  The bits that are left are the
    event's new set; the threads woken are off the list, able to run, and each
    finds in its [event_set] exactly the bits it received; the others wait on in
    their order, untouched, and none of them is met by the bits that are left,
    so no wake-up is lost. *)
Theorem event_send_correct o e set s woken rest : kern_ready s -> objects s !! o = Some (Event e) -> set <> 0 ->
  deliver (requests (wlist (suspend_thread o) (kern s)) (kern s)) (Z.lor (ev_set e) set) = (woken, rest) ->
  exists s', rt_event_send o set s = Ok (RT_EOK, s') /\ kern_ready s'
  /\ objects s' = <[o := Event (mkEvent rest (ev_flag e))]> (objects s)
  /\ wlist (suspend_thread o) (kern s') = filter (fun x => x ∉ map fst woken) (wlist (suspend_thread o) (kern s))
  /\ (forall t got, (t, got) ∈ woken -> exists th th', threads (kern s) !! t = Some th
       /\ threads (kern s') !! t = Some th' /\ runnable (stat th') /\ event_set th' = got /\ error th' = error th)
  /\ (forall t, t ∈ wlist (suspend_thread o) (kern s') -> exists th y, threads (kern s) !! t = Some th
       /\ threads (kern s') !! t = Some (with_stat y th)
       /\ meets rest (Request t (event_set th) (event_info th)) = false).
Proof.
  intros [Hk Hc] Ho Hset Hspec. unfold rt_event_send. rewrite (get_event_eq o e), bind_ret_l by done.
  rewrite (proj2 (Z.eqb_neq set 0)) by done.
  destruct (event_wake_ok o (wlist (suspend_thread o) (kern s)) [] (Z.lor (ev_set e) set) false (kern s) Hk eq_refl)
    as (b' & any & ws & k & E & _ & [R1 R2 R0 R3 R4 R5 R6 R7]).
  rewrite Hspec in R0. injection R0 as <- <-.
  rewrite E, bind_ret_l. cbv beta iota zeta.
  set (s1 := put_object o (Event (mkEvent rest (ev_flag e))) (with_kern k s)).
  assert (kern_ready s1) as Hr1 by (split; [done|]; cbn; by rewrite R2).
  assert (exists s', (if any then lift rt_schedule s1 else Ok s1) = Ok s' /\ kern_ready s'
    /\ objects s' = objects s1 /\ sched_frame k (kern s')) as (s' & E' & Hr' & Hob & F).
  { destruct any.
    - destruct (schedule_ready s1 Hr1) as (s' & E' & Hr' & Hob & _ & F). by exists s'.
    - exists s1. split_and!; try done. apply frame_refl. }
  rewrite E', bind_ret_l. exists s'. split; [done|]. split; [done|]. split; [done|].
  assert (wlist (suspend_thread o) (kern s') = filter (fun x => x ∉ map fst woken) (wlist (suspend_thread o) (kern s))) as Hl
    by (by rewrite (wlist_frame _ _ _ F), R3).
  split; [done|].
  assert (forall t th1, threads k !! t = Some th1 -> exists y, threads (kern s') !! t = Some (with_stat y th1)
    /\ (runnable (stat th1) -> runnable y)) as Hfr.
  { intros t th1 E1. destruct (sf_threads _ _ F t) as (y & Ey & Hy). exists y. rewrite Ey, E1. split; [done|].
    destruct (Hy th1 E1) as [->|[? _]]; done. }
  split.
  - intros t got Ht. destruct (R4 t got Ht) as (th & th1 & E0 & E1 & Hrun & Hs & He).
    destruct (Hfr t th1 E1) as (y & E2 & Hy).
    exists th, (with_stat y th1). split_and!; try done. by apply Hy.
  - intros t Hin. rewrite Hl in Hin. apply list_elem_of_filter in Hin as [Hw Hin].
    destruct (waiting_stat _ _ t (so_lists _ (ko_sched _ Hk)) Hin) as (th & E0 & _).
    pose proof (R5 t Hw) as E1. rewrite E0 in E1. destruct (Hfr t th E1) as (y & E2 & _).
    exists th, y. split_and!; try done. pose proof (R7 t th Hin Hw E0) as Em. rewrite (event_match_meets _ t) in Em.
    by destruct (meets _ _).
Qed.

(** A receive: the event is there, or it is not and there is no time, or the
    thread waits with what it asked for noted. *)
Lemma event_recv_ok o e set opt timeout s t : kern_ready s -> rt_current_thread (kern s) = Some t ->
  has_stat (kern s) t RT_THREAD_RUNNING -> rt_interrupt_nest (kern s) = 0 ->
  objects s !! o = Some (Event e) -> flag_ok (ev_flag e) -> set <> 0 ->
  has_flag opt RT_EVENT_FLAG_AND || has_flag opt RT_EVENT_FLAG_OR = true -> timeout < HALF ->
  exists r s', rt_event_recv o set opt timeout s = Ok (r, s') /\ kern_ready s'
  /\ (if if has_flag opt RT_EVENT_FLAG_AND then Z.land (ev_set e) set =? set
         else negb (Z.land (ev_set e) set =? 0)
      then r = Done RT_EOK [Z.land (ev_set e) set]
      else if timeout =? 0 then r = Done (- RT_ETIMEOUT) []
      else r = Blocked PEventRecv /\ objects s' = objects s /\ t ∈ wlist (suspend_thread o) (kern s')).
Proof.
  intros [Hk Hc0] Hc Hr Hn Ho Hf Hset Hopt Htm. unfold rt_event_recv, in_thread_context. rewrite Hc, Hn, Z.eqb_refl, bind_ret_l.
  rewrite (get_event_eq o e), bind_ret_l by done. rewrite (proj2 (Z.eqb_neq set 0)) by done. cbv zeta.
  assert (forall f, (forall th, stat (f th) = stat th /\ current_priority (f th) = current_priority th
     /\ init_priority (f th) = init_priority th /\ number_mask (f th) = number_mask th) ->
     forall i, kern_ready i -> kern_ready (lift_pure (upd_thread f t) i)) as Hup
    by (intros f Hff i [Hki Hci]; split; [by apply kernel_upd|done]).
  assert ((if has_flag opt RT_EVENT_FLAG_AND then Ok (Z.land (ev_set e) set =? set)
     else if has_flag opt RT_EVENT_FLAG_OR then Ok (negb (Z.land (ev_set e) set =? 0)) else Fault AssertFail)
     = Ok (if has_flag opt RT_EVENT_FLAG_AND then Z.land (ev_set e) set =? set
         else negb (Z.land (ev_set e) set =? 0))) as ->
    by (destruct (has_flag opt RT_EVENT_FLAG_AND); [done|]; cbn in Hopt; by rewrite Hopt).
  rewrite bind_ret_l. set (got := if has_flag opt RT_EVENT_FLAG_AND then _ else _). destruct got.
  - eexists _, _. split; [done|]. split; [|done]. exact (Hup (with_error RT_EOK) ltac:(done) s (conj Hk Hc0)).
  - destruct (Z.eqb_spec timeout 0) as [->|Hz].
    + eexists _, _. split; [done|]. split; [|done]. by apply Hup; [|apply Hup].
    + set (s1 := lift_pure (upd_thread (with_event set opt) t) _).
      assert (kern_ready s1) as [Hk1 _] by (by apply Hup; [|apply Hup]).
      destruct (block_ok (suspend_thread o) (ev_flag e) timeout s1 t) as (ts & s' & E & Hk' & _ & _ & F & Ho' & _ & _ & Hc' & _); try done.
      { destruct Hr as (th & Et & Es). unfold has_stat, s1. cbn. rewrite !lookup_alter_eq, Et. by eexists. }
      rewrite E, bind_ret_l. eexists _, _. split; [done|]. split; [done|]. split; [done|]. split; [done|].
      rewrite (waiting_wlist _ _ _ _ _ _ _ F), decide_True, queued_perm by done. by left.
Qed.

(** Thread 2 waits for bits 0 and 1 together. *)
Definition event_start : istate := mkI boot {[5 := Event (mkEvent 1 0)]} {[5]}.
Definition event_waiting : istate :=
  match rt_event_recv 5 3 5 (-1) event_start with Ok (_, s) => s | Fault _ => event_start end.

Lemma event_waiting_ok : kern_ready event_waiting /\ objects event_waiting !! 5 = Some (Event (mkEvent 1 0))
  /\ 2 ∈ wlist (suspend_thread 5) (kern event_waiting).
Proof.
  assert (rt_current_thread boot = Some 2) as Hc by (vm_compute; reflexivity).
  assert (stat_is boot 2 RT_THREAD_RUNNING = true) as Hs by (vm_compute; reflexivity).
  assert (rt_interrupt_nest boot = 0) as Hn by (vm_compute; reflexivity).
  destruct (event_recv_ok 5 (mkEvent 1 0) 3 5 (-1) event_start 2 (kern_ready_boot _ _) Hc (stat_is_true _ _ _ Hs) Hn)
    as (r & s' & E & Hr & -> & Ho & Hin).
  - apply lookup_singleton_eq.
  - by left.
  - discriminate.
  - reflexivity.
  - reflexivity.
  - unfold event_waiting. rewrite E. split; [exact Hr|]. split; [|exact Hin]. rewrite Ho. apply lookup_singleton_eq.
Qed.

Lemma event_send_correct_witness : kern_ready event_waiting
  /\ exists s', rt_event_send 5 6 event_waiting = Ok (RT_EOK, s') /\ kern_ready s'
     /\ objects s' !! 5 = Some (Event (mkEvent 4 0))
     /\ exists th', threads (kern s') !! 2 = Some th' /\ runnable (stat th') /\ event_set th' = 3.
Proof.
  destruct event_waiting_ok as (Hr & Ho & _). split; [exact Hr|].
  destruct (event_send_correct 5 (mkEvent 1 0) 6 event_waiting [(2, 3)] 4 Hr Ho ltac:(discriminate))
    as (s' & E & Hr' & Hob & _ & Hw & _); [vm_compute; reflexivity|].
  exists s'. split; [exact E|]. split; [exact Hr'|]. split; [rewrite Hob; apply lookup_insert_eq|].
  destruct (Hw 2 3) as (th & th' & _ & E' & Hrun & Hset & _); [by left|]. exists th'. split; [exact E'|split; [exact Hrun|exact Hset]].
Defined.
