(* ===== verification/KernelService.v ===== *)
(** * Memory and string functions of the kernel (src/kservice.c)

    Memory is a list of bytes that starts at a word-aligned address; a pointer
    is an offset into it.  [char] is unsigned, as on the board.  Loops have a
    number of rounds as fuel, which is proved to be enough. *)
From stdpp Require Import gmap.
From S2P Require Import Prelude.

(** ** Words *)

Definition ld16 (m : list Z) (a : Z) : res Z :=
  b0 ← get m a; b1 ← get m (a + 1); Ok (b0 + 256 * b1).
Definition ld32 (m : list Z) (a : Z) : res Z :=
  b0 ← get m a; b1 ← get m (a + 1); b2 ← get m (a + 2); b3 ← get m (a + 3);
  Ok (b0 + 256 * b1 + 65536 * b2 + 16777216 * b3).
Definition st16 (m : list Z) (a v : Z) : res (list Z) :=
  m ← set m a (v mod 256); set m (a + 1) (v / 256 mod 256).
Definition st32 (m : list Z) (a v : Z) : res (list Z) :=
  m ← set m a (v mod 256); m ← set m (a + 1) (v / 256 mod 256);
  m ← set m (a + 2) (v / 65536 mod 256); set m (a + 3) (v / 16777216 mod 256).

(** ** [rt_memset] *)

Fixpoint set_bytes (n : nat) (a d : Z) (m : list Z) : res (list Z) :=
  match n with O => Ok m | S n' => m ← set m a d; set_bytes n' (a + 1) d m end.

(** [while (count >= LBLOCKSIZE * k)] with [k] stores a round. *)
Fixpoint set_words (fuel k : nat) (buffer a count : Z) (m : list Z) : res (Z * Z * list Z) :=
  match fuel with
  | O => Fault Hang
  | S fuel' =>
      if 4 * Z.of_nat k <=? count then
        m ← for_loop k 0 (fun i m => st32 m (a + 4 * i) buffer) m;
        set_words fuel' k buffer (a + 4 * Z.of_nat k) (count - 4 * Z.of_nat k) m
      else Ok (a, count, m)
  end.

Definition rt_memset (s c count : Z) (m : list Z) : res (list Z) :=
  let d := Z.land c 0xff in
  '(a, count, m) ←
    (if negb (count <? 4) && (Z.land s 3 =? 0) then
       let buffer := Z.lor (Z.shiftl d 8) d in
       let buffer := Z.lor buffer (Z.shiftl buffer 16) in
       '(a, count, m) ← set_words (S (Z.to_nat count)) 4 buffer s count m;
       set_words (S (Z.to_nat count)) 1 buffer a count m
     else Ok (s, count, m));
  set_bytes (Z.to_nat count) a d m.

(** ** [rt_memcpy] and [rt_memmove] *)

Fixpoint copy_bytes (n : nat) (d s : Z) (m : list Z) : res (list Z) :=
  match n with
  | O => Ok m
  | S n' => v ← get m s; m ← set m d v; copy_bytes n' (d + 1) (s + 1) m
  end.
Definition copy_word (d s : Z) (m : list Z) : res (list Z) := v ← ld32 m s; st32 m d v.

(** [len] is an [int]; the block sizes are unsigned, and so are the comparison
    and the subtraction. *)
Fixpoint copy_words (fuel k : nat) (d s len : Z) (m : list Z) : res (Z * Z * Z * list Z) :=
  match fuel with
  | O => Fault Hang
  | S fuel' =>
      if 4 * Z.of_nat k <=? u32 len then
        m ← for_loop k 0 (fun i m => copy_word (d + 4 * i) (s + 4 * i) m) m;
        copy_words fuel' k (d + 4 * Z.of_nat k) (s + 4 * Z.of_nat k) (s32 (u32 len - 4 * Z.of_nat k)) m
      else Ok (d, s, len, m)
  end.

(** [while (len--)]: from a negative [len] it counts down to the least [int]
    and overflows there. *)
Definition copy_rest (d s len : Z) (m : list Z) : res (list Z) :=
  if len <? 0 then _ ← copy_bytes (Z.to_nat (len + 2 ^ 31)) d s m; Fault SignedOverflow
  else copy_bytes (Z.to_nat len) d s m.

Definition rt_memcpy (dst src count : Z) (m : list Z) : res (list Z) :=
  let len := s32 count in
  '(d, s, len, m) ←
    (if negb (u32 len <? 16) && (Z.lor (Z.land src 3) (Z.land dst 3) =? 0) then
       '(d, s, len, m) ← copy_words (S (Z.to_nat (u32 len))) 4 dst src len m;
       copy_words (S (Z.to_nat (u32 len))) 1 d s len m
     else Ok (dst, src, len, m));
  copy_rest d s len m.

(** Downwards from the ends [d] and [s]. *)
Fixpoint copy_back (n : nat) (d s : Z) (m : list Z) : res (list Z) :=
  match n with
  | O => Ok m
  | S n' => v ← get m (s - 1); m ← set m (d - 1) v; copy_back n' (d - 1) (s - 1) m
  end.
Definition rt_memmove (dest src n : Z) (m : list Z) : res (list Z) :=
  if (src <? dest) && (dest <? src + n) then copy_back (Z.to_nat n) (dest + n) (src + n) m
  else copy_bytes (Z.to_nat n) dest src m.

(** ** Comparing *)

Fixpoint memcmp_loop (n : nat) (cs ct : Z) (m : list Z) : res Z :=
  match n with
  | O => Ok 0
  | S n' =>
      a ← get m cs; b ← get m ct;
      if negb (a - b =? 0) then Ok (a - b) else memcmp_loop n' (cs + 1) (ct + 1) m
  end.
Definition rt_memcmp (cs ct count : Z) (m : list Z) : res Z := memcmp_loop (Z.to_nat count) cs ct m.

Fixpoint strlen_loop (fuel : nat) (sc : Z) (m : list Z) : res Z :=
  match fuel with
  | O => Fault Hang
  | S fuel' => b ← get m sc; if negb (b =? 0) then strlen_loop fuel' (sc + 1) m else Ok sc
  end.
Definition rt_strlen (s : Z) (m : list Z) : res Z :=
  sc ← strlen_loop (S (length m)) s m; Ok (sc - s).

Fixpoint strnlen_loop (fuel : nat) (s sc maxlen : Z) (m : list Z) : res Z :=
  match fuel with
  | O => Fault Hang
  | S fuel' =>
      b ← get m sc;
      if negb (b =? 0) && (sc - s <? maxlen) then strnlen_loop fuel' s (sc + 1) maxlen m else Ok sc
  end.
Definition rt_strnlen (s maxlen : Z) (m : list Z) : res Z :=
  sc ← strnlen_loop (S (length m)) s s maxlen m; Ok (sc - s).

(** The difference is kept in a [signed char]. *)
Fixpoint strncmp_loop (n : nat) (cs ct : Z) (m : list Z) : res Z :=
  match n with
  | O => Ok 0
  | S n' =>
      a ← get m cs; b ← get m ct;
      let r := s8 (a - b) in
      if negb (r =? 0) || (a =? 0) then Ok r else
        r' ← strncmp_loop n' (cs + 1) (ct + 1) m; Ok r'
  end.
Definition rt_strncmp (cs ct count : Z) (m : list Z) : res Z := strncmp_loop (Z.to_nat count) cs ct m.

Fixpoint strcmp_loop (fuel : nat) (cs ct : Z) (m : list Z) : res Z :=
  match fuel with
  | O => Fault Hang
  | S fuel' =>
      a ← get m cs;
      if negb (a =? 0) then
        b ← get m ct;
        if a =? b then strcmp_loop fuel' (cs + 1) (ct + 1) m else Ok (a - b)
      else b ← get m ct; Ok (a - b)
  end.
Definition rt_strcmp (cs ct : Z) (m : list Z) : res Z := strcmp_loop (S (length m)) cs ct m.

(** [RT_NULL] is [None]. *)
Fixpoint strstr_loop (fuel : nat) (s1 s2 l1 l2 : Z) (m : list Z) : res (option Z) :=
  match fuel with
  | O => Fault Hang
  | S fuel' =>
      if l2 <=? l1 then
        r ← rt_memcmp s1 s2 l2 m;
        if r =? 0 then Ok (Some s1) else strstr_loop fuel' (s1 + 1) s2 (l1 - 1) l2 m
      else Ok None
  end.
Definition rt_strstr (s1 s2 : Z) (m : list Z) : res (option Z) :=
  l2 ← rt_strlen s2 m;
  if l2 =? 0 then Ok (Some s1)
  else l1 ← rt_strlen s1 m; strstr_loop (S (Z.to_nat l1)) s1 s2 l1 l2 m.

Definition lower (c : Z) : Z := if (65 <=? c) && (c <=? 90) then c + 32 else c.
Fixpoint strcasecmp_loop (fuel : nat) (a b : Z) (m : list Z) : res Z :=
  match fuel with
  | O => Fault Hang
  | S fuel' =>
      ca ← get m a; cb ← get m b;
      let ca := lower (Z.land ca 0xff) in let cb := lower (Z.land cb 0xff) in
      if (ca =? cb) && negb (ca =? 0) then strcasecmp_loop fuel' (a + 1) (b + 1) m else Ok (u32 (ca - cb))
  end.
Definition rt_strcasecmp (a b : Z) (m : list Z) : res Z := strcasecmp_loop (S (length m)) a b m.

(** ** [rt_strncpy] *)
Fixpoint strncpy_loop (n : nat) (d s : Z) (m : list Z) : res (list Z) :=
  match n with
  | O => Ok m
  | S n' =>
      v ← get m s; m ← set m d v;
      if v =? 0 then set_bytes n' (d + 1) 0 m else strncpy_loop n' (d + 1) (s + 1) m
  end.
Definition rt_strncpy (dst src n : Z) (m : list Z) : res (list Z) := strncpy_loop (Z.to_nat n) dst src m.

(** ** Words and bytes *)

Definition bytes_ok (m : list Z) : Prop := Forall is_u8 m.
Definition room (m : list Z) (a n : Z) : Prop := 0 <= a /\ a + n <= Z.of_nat (length m).
Definition byte (k v : Z) : Z := v / 256 ^ k mod 256.
Definition half (m : list Z) (a : Z) : Z := rd m a + 256 * rd m (a + 1).
Definition word (m : list Z) (a : Z) : Z :=
  rd m a + 256 * rd m (a + 1) + 65536 * rd m (a + 2) + 16777216 * rd m (a + 3).

(** [n] bytes at [a] are replaced by [f]. *)
Definition written (m m' : list Z) (a n : Z) (f : Z -> Z) : Prop :=
  length m' = length m
  /\ forall i, 0 <= i -> rd m' i = if decide (a <= i < a + n) then f (i - a) else rd m i.

Lemma written_zero m a f : written m m a 0 f.
Proof. split; [done|]. intros i Hi. by rewrite decide_False by lia. Qed.

Lemma set_written m a v : room m a 1 -> exists m', set m a v = Ok m' /\ written m m' a 1 (fun _ => v).
Proof.
  intros [H0 H1]. exists (upd m a v). rewrite set_in by (unfold in_range; lia). split; [done|].
  split; [apply length_upd|]. intros i Hi. destruct (Z.eq_dec i a) as [->|Hn].
  - rewrite decide_True by lia. apply rd_upd_eq. unfold in_range. lia.
  - rewrite decide_False by lia. by apply rd_upd_ne; lia.
Qed.

(** Two writes, one behind the other. *)
Lemma written_app m1 m2 m3 a n k f g : written m1 m2 a n f -> written m2 m3 (a + n) k g -> 0 <= n -> 0 <= k ->
  written m1 m3 a (n + k) (fun i => if decide (i < n) then f i else g (i - n)).
Proof.
  intros [L1 W1] [L2 W2] Hn Hk. split; [congruence|]. intros i Hi. rewrite W2, W1 by done.
  destruct (decide (a <= i < a + n)).
  - rewrite decide_False, decide_True, decide_True by lia. done.
  - destruct (decide (a + n <= i < a + n + k)).
    + rewrite decide_True, decide_False by lia. f_equal. lia.
    + by rewrite decide_False by lia.
Qed.

Lemma written_ext m m' a n f g : written m m' a n f -> (forall i, 0 <= i < n -> f i = g i) -> written m m' a n g.
Proof.
  intros [L W] H. split; [done|]. intros i Hi. rewrite W by done. case_decide; [|done]. apply H. lia.
Qed.

Lemma written_room m m' a n f b k : written m m' a n f -> room m b k -> room m' b k.
Proof. intros [L _] H. unfold room. by rewrite L. Qed.

Lemma room_weak m a n b k : room m a n -> a <= b -> b + k <= a + n -> 0 <= k -> room m b k.
Proof. unfold room. lia. Qed.

Lemma st16_ok m a v : room m a 2 -> exists m', st16 m a v = Ok m' /\ written m m' a 2 (fun k => byte k v).
Proof.
  intros H. unfold st16.
  destruct (set_written m a (v mod 256)) as (m1 & E1 & W1); [eapply room_weak; [done|lia..]|].
  destruct (set_written m1 (a + 1) (v / 256 mod 256)) as (m2 & E2 & W2);
    [eapply written_room; [done|]; eapply room_weak; [done|lia..]|].
  rewrite E1, bind_ret_l, E2. exists m2. split; [done|].
  eapply written_ext; [exact (written_app _ _ _ a 1 1 _ _ W1 W2 ltac:(lia) ltac:(lia))|].
  intros i Hi. unfold byte. assert (i = 0 \/ i = 1) as [-> | ->] by lia; cbn; [by rewrite Z.div_1_r|done].
Qed.

Lemma st32_ok m a v : room m a 4 -> exists m', st32 m a v = Ok m' /\ written m m' a 4 (fun k => byte k v).
Proof.
  intros H. unfold st32.
  destruct (set_written m a (v mod 256)) as (m1 & E1 & W1); [eapply room_weak; [done|lia..]|].
  destruct (set_written m1 (a + 1) (v / 256 mod 256)) as (m2 & E2 & W2);
    [eapply written_room; [done|]; eapply room_weak; [done|lia..]|].
  pose proof (written_app _ _ _ a 1 1 _ _ W1 W2 ltac:(lia) ltac:(lia)) as W12.
  destruct (set_written m2 (a + 2) (v / 65536 mod 256)) as (m3 & E3 & W3);
    [eapply written_room; [done|]; eapply room_weak; [done|lia..]|].
  pose proof (written_app _ _ _ a 2 1 _ _ W12 W3 ltac:(lia) ltac:(lia)) as W13.
  destruct (set_written m3 (a + 3) (v / 16777216 mod 256)) as (m4 & E4 & W4);
    [eapply written_room; [done|]; eapply room_weak; [done|lia..]|].
  rewrite E1, bind_ret_l, E2, bind_ret_l, E3, bind_ret_l, E4. exists m4. split; [done|].
  eapply written_ext; [exact (written_app _ _ _ a 3 1 _ _ W13 W4 ltac:(lia) ltac:(lia))|].
  intros i Hi. unfold byte. assert (i = 0 \/ i = 1 \/ i = 2 \/ i = 3) as [-> |[-> |[-> | ->]]] by lia;
    cbn; [by rewrite Z.div_1_r|done..].
Qed.

Lemma ld16_ok m a : room m a 2 -> ld16 m a = Ok (half m a).
Proof.
  intros [H0 H1]. unfold ld16, half. rewrite !get_in by (unfold in_range; lia). by rewrite !bind_ret_l.
Qed.
Lemma ld32_ok m a : room m a 4 -> ld32 m a = Ok (word m a).
Proof.
  intros [H0 H1]. unfold ld32, word. rewrite !get_in by (unfold in_range; lia). by rewrite !bind_ret_l.
Qed.

Lemma rd_u8 m i : bytes_ok m -> 0 <= rd m i < 256.
Proof.
  intros H. unfold rd. destruct (m !! Z.to_nat i) as [v|] eqn:E; [|done]. exact (list.Forall_lookup_1 _ _ _ _ H E).
Qed.

Lemma byte_word m a k : bytes_ok m -> 0 <= k < 4 -> byte k (word m a) = rd m (a + k).
Proof.
  intros H Hk. unfold byte, word.
  pose proof (rd_u8 m a H). pose proof (rd_u8 m (a + 1) H). pose proof (rd_u8 m (a + 2) H).
  pose proof (rd_u8 m (a + 3) H).
  assert (k = 0 \/ k = 1 \/ k = 2 \/ k = 3) as [-> |[-> |[-> | ->]]] by lia; rewrite ?Z.add_0_r;
    [change (256 ^ 0) with 1|change (256 ^ 1) with 256|change (256 ^ 2) with 65536|change (256 ^ 3) with 16777216]; lia.
Qed.

Lemma word_range m a : bytes_ok m -> is_u32 (word m a).
Proof.
  intros H. unfold word, is_u32. pose proof (rd_u8 m a H). pose proof (rd_u8 m (a + 1) H).
  pose proof (rd_u8 m (a + 2) H). pose proof (rd_u8 m (a + 3) H). lia.
Qed.

(** What a written word reads as. *)
Lemma word_written m m' a v : written m m' a 4 (fun k => byte k v) -> is_u32 v -> 0 <= a -> word m' a = v.
Proof.
  intros [_ W] Hv Ha. unfold word. rewrite !W by lia. rewrite !decide_True by lia.
  replace (a - a) with 0 by lia. replace (a + 1 - a) with 1 by lia. replace (a + 2 - a) with 2 by lia.
  replace (a + 3 - a) with 3 by lia. unfold byte. change (256 ^ 0) with 1. change (256 ^ 1) with 256.
  change (256 ^ 2) with 65536. change (256 ^ 3) with 16777216. unfold is_u32 in Hv. lia.
Qed.
Lemma half_written m m' a v : written m m' a 2 (fun k => byte k v) -> is_u16 v -> 0 <= a -> half m' a = v.
Proof.
  intros [_ W] Hv Ha. unfold half. rewrite !W by lia. rewrite !decide_True by lia.
  replace (a - a) with 0 by lia. replace (a + 1 - a) with 1 by lia. unfold byte. change (256 ^ 0) with 1.
  change (256 ^ 1) with 256. unfold is_u16 in Hv. lia.
Qed.
Lemma word_other m m' a n f b : written m m' a n f -> 0 <= b -> b + 4 <= a \/ a + n <= b -> word m' b = word m b.
Proof. intros [_ W] Hb Hd. unfold word. rewrite !W by lia. by rewrite !decide_False by lia. Qed.
Lemma half_other m m' a n f b : written m m' a n f -> 0 <= b -> b + 2 <= a \/ a + n <= b -> half m' b = half m b.
Proof. intros [_ W] Hb Hd. unfold half. rewrite !W by lia. by rewrite !decide_False by lia. Qed.

Lemma written_bytes m m' a n f : written m m' a n f -> bytes_ok m -> (forall i, 0 <= i < n -> is_u8 (f i)) -> bytes_ok m'.
Proof.
  intros [L W] Hm Hf. apply list.Forall_lookup_2. intros i v E.
  assert (v = rd m' (Z.of_nat i)) as -> by (unfold rd; by rewrite Nat2Z.id, E). rewrite W by lia.
  case_decide; [apply Hf; lia|]. exact (rd_u8 m (Z.of_nat i) Hm).
Qed.
Lemma byte_u8 k v : is_u8 (byte k v).
Proof. unfold byte, is_u8. apply Z.mod_pos_bound. lia. Qed.

(** ** Filling *)

Lemma set_bytes_ok n a d m : room m a (Z.of_nat n) ->
  exists m', set_bytes n a d m = Ok m' /\ written m m' a (Z.of_nat n) (fun _ => d).
Proof.
  revert a m. induction n as [|n IH]; intros a m H; [exists m; split; [done|apply written_zero]|].
  destruct (set_written m a d) as (m1 & E1 & W1); [eapply room_weak; [done|lia..]|].
  destruct (IH (a + 1) m1) as (m2 & E2 & W2); [eapply written_room; [done|]; eapply room_weak; [done|lia..]|].
  exists m2. cbn [set_bytes]. rewrite E1, bind_ret_l, E2. split; [done|].
  replace (Z.of_nat (S n)) with (1 + Z.of_nat n) by lia.
  eapply written_ext; [exact (written_app _ _ _ a 1 _ _ _ W1 W2 ltac:(lia) ltac:(lia))|].
  intros i Hi. cbv beta. by case_decide.
Qed.

Definition all_bytes (d v : Z) : Prop := forall k, 0 <= k < 4 -> byte k v = d.

Lemma set_words_ok fuel k d buffer a count m : (0 < k)%nat -> all_bytes d buffer -> 0 <= count ->
  (Z.to_nat count < fuel)%nat -> room m a count ->
  exists c m', set_words fuel k buffer a count m = Ok (a + (count - c), c, m') /\ 0 <= c <= count
  /\ written m m' a (count - c) (fun _ => d).
Proof.
  intros Hk Hd. revert a count m. induction fuel as [|fuel IH]; intros a count m Hc Hf Hr; [lia|].
  cbn [set_words]. destruct (Z.leb_spec (4 * Z.of_nat k) count) as [Hle|Hgt].
  - destruct (for_loop_inv (fun i m1 => written m m1 a (4 * i) (fun _ => d))
      (fun i m => st32 m (a + 4 * i) buffer) k 0 m) as (m1 & E1 & W1).
    { apply written_zero. }
    { intros i m1 Hi W. destruct (st32_ok m1 (a + 4 * i) buffer) as (m2 & E2 & W2);
        [eapply written_room; [done|]; eapply room_weak; [done|lia..]|].
      exists m2. split; [done|]. replace (4 * (i + 1)) with (4 * i + 4) by lia.
      eapply written_ext; [exact (written_app _ _ _ a (4 * i) 4 _ _ W W2 ltac:(lia) ltac:(lia))|].
      intros j Hj. cbv beta. case_decide; [done|]. apply Hd. lia. }
    rewrite Z.add_0_l in W1. rewrite E1, bind_ret_l.
    destruct (IH (a + 4 * Z.of_nat k) (count - 4 * Z.of_nat k) m1) as (c & m' & E2 & Hc2 & W2);
      [lia|lia|eapply written_room; [done|]; eapply room_weak; [done|lia..]|].
    exists c, m'. rewrite E2. split; [do 3 f_equal; lia|]. split; [lia|].
    replace (count - c) with (4 * Z.of_nat k + (count - 4 * Z.of_nat k - c)) by lia.
    eapply written_ext; [exact (written_app _ _ _ a _ _ _ _ W1 W2 ltac:(lia) ltac:(lia))|].
    intros i Hi. cbv beta. by case_decide.
  - exists count, m. rewrite Z.sub_diag, Z.add_0_r. split; [done|]. split; [lia|]. apply written_zero.
Qed.

Lemma buffer_bytes d : 0 <= d < 256 ->
  all_bytes d (let b := Z.lor (Z.shiftl d 8) d in Z.lor b (Z.shiftl b 16)).
Proof.
  intros Hd k Hk. cbv zeta. rewrite shiftl_8, shiftl_16.
  pose proof (lor_disjoint d d 8 ltac:(lia) Hd) as E1. change (2 ^ 8) with 256 in E1. rewrite E1.
  set (b := d * 256 + d). pose proof (lor_disjoint b b 16 ltac:(lia) ltac:(unfold b; lia)) as E2.
  change (2 ^ 16) with 65536 in E2. rewrite Z.lor_comm, E2. unfold byte, b.
  assert (k = 0 \/ k = 1 \/ k = 2 \/ k = 3) as [-> |[-> |[-> | ->]]] by lia;
    [change (256 ^ 0) with 1|change (256 ^ 1) with 256|change (256 ^ 2) with 65536|change (256 ^ 3) with 16777216]; lia.
Qed.

Lemma rt_memset_ok s c count m : 0 <= count -> room m s count ->
  exists m', rt_memset s c count m = Ok m' /\ written m m' s count (fun _ => c mod 256).
Proof.
  intros Hc Hr. unfold rt_memset. cbv zeta. rewrite land_ff. set (d := c mod 256).
  assert (0 <= d < 256) as Hd by (apply Z.mod_pos_bound; lia).
  assert (forall k m1, 0 <= k <= count -> written m m1 s (count - k) (fun _ => d) ->
    exists m', set_bytes (Z.to_nat k) (s + (count - k)) d m1 = Ok m' /\ written m m' s count (fun _ => d)) as Htail.
  { intros k m1 Hk W. destruct (set_bytes_ok (Z.to_nat k) (s + (count - k)) d m1) as (m' & E & W');
      [eapply written_room; [done|]; eapply room_weak; [done|lia..]|].
    exists m'. split; [done|]. replace count with (count - k + k) at 1 by lia.
    rewrite Z2Nat.id in W' by lia.
    eapply written_ext; [exact (written_app _ _ _ s _ _ _ _ W W' ltac:(lia) ltac:(lia))|].
    intros i Hi. cbv beta. by case_decide. }
  destruct (negb (count <? 4) && (Z.land s 3 =? 0)).
  - set (buffer := Z.lor _ _). assert (all_bytes d buffer) as Hb by exact (buffer_bytes d Hd).
    destruct (set_words_ok (S (Z.to_nat count)) 4 d buffer s count m) as (c1 & m1 & E1 & Hc1 & W1); [lia|done|lia|lia|done|].
    rewrite E1, bind_ret_l.
    destruct (set_words_ok (S (Z.to_nat c1)) 1 d buffer (s + (count - c1)) c1 m1) as (c2 & m2 & E2 & Hc2 & W2);
      [lia|done|lia|lia|eapply written_room; [done|]; eapply room_weak; [done|lia..]|].
    rewrite E2, bind_ret_l.
    destruct (Htail c2 m2) as (m' & E' & W'); [lia| |].
    { replace (count - c2) with (count - c1 + (c1 - c2)) by lia.
      eapply written_ext; [exact (written_app _ _ _ s _ _ _ _ W1 W2 ltac:(lia) ltac:(lia))|].
      intros i Hi. cbv beta. by case_decide. }
    exists m'. split; [|done]. rewrite <- E'. f_equal. lia.
  - rewrite bind_ret_l. destruct (Htail count m) as (m' & E' & W'); [lia| |].
    { rewrite Z.sub_diag. apply written_zero. }
    exists m'. split; [|done]. rewrite <- E'. f_equal. lia.
Qed.

(** ** Copying *)

(** Reading the rest of the source is not disturbed by what has been written. *)
Definition ahead (d s n : Z) : Prop := d <= s \/ s + n <= d.
Definition copied (m m' : list Z) (d s n : Z) : Prop := written m m' d n (fun i => rd m (s + i)).

Lemma copied_read m m' d s n k i : copied m m' d s k -> ahead d s n -> 0 <= k <= i -> i < n -> 0 <= s ->
  rd m' (s + i) = rd m (s + i).
Proof. intros [_ W] Ha Hk Hi Hs. rewrite W by lia. rewrite decide_False; [done|]. destruct Ha; lia. Qed.

Lemma copied_step m m1 m2 d s k j n : copied m m1 d s k -> ahead d s n -> 0 <= k -> 0 <= j -> k + j <= n -> 0 <= s ->
  written m1 m2 (d + k) j (fun i => rd m1 (s + k + i)) -> copied m m2 d s (k + j).
Proof.
  intros W1 Ha Hk Hj Hn Hs W2. unfold copied.
  eapply written_ext; [exact (written_app _ _ _ d k j _ _ W1 W2 Hk Hj)|].
  intros i Hi. cbv beta. case_decide; [done|].
  replace (s + k + (i - k)) with (s + i) by lia. eapply copied_read; [done|done|lia..].
Qed.

Lemma copy_bytes_ok k0 n d s m m0 : copied m0 m d s k0 -> 0 <= k0 -> ahead d s (k0 + Z.of_nat n) ->
  room m d (k0 + Z.of_nat n) -> room m s (k0 + Z.of_nat n) ->
  exists m', copy_bytes n (d + k0) (s + k0) m = Ok m' /\ copied m0 m' d s (k0 + Z.of_nat n).
Proof.
  revert k0 m. induction n as [|n IH]; intros k0 m W Hk Ha Hd Hs.
  { exists m. rewrite Z.add_0_r. by split. }
  cbn [copy_bytes]. rewrite get_in, bind_ret_l by (unfold in_range, room in *; lia).
  destruct (set_written m (d + k0) (rd m (s + k0))) as (m1 & E1 & W1); [eapply room_weak; [exact Hd|lia..]|].
  rewrite E1, bind_ret_l. assert (copied m0 m1 d s (k0 + 1)) as W'.
  { eapply (copied_step _ m); [done|done|lia|lia|lia|unfold room in Hs; lia|].
    eapply written_ext; [exact W1|]. intros i Hi. cbv beta. f_equal. lia. }
  destruct (IH (k0 + 1) m1) as (m' & E' & W2); [done|lia| | | |].
  { by replace (k0 + 1 + Z.of_nat n) with (k0 + Z.of_nat (S n)) by lia. }
  { eapply written_room; [exact W1|]. by replace (k0 + 1 + Z.of_nat n) with (k0 + Z.of_nat (S n)) by lia. }
  { eapply written_room; [exact W1|]. by replace (k0 + 1 + Z.of_nat n) with (k0 + Z.of_nat (S n)) by lia. }
  exists m'. rewrite <- !Z.add_assoc, E'. split; [done|].
  by replace (k0 + Z.of_nat (S n)) with (k0 + 1 + Z.of_nat n) by lia.
Qed.

Lemma copy_words_ok fuel k n k0 d s len m m0 : (0 < k)%nat -> bytes_ok m0 -> copied m0 m d s k0 -> 0 <= k0 -> 0 <= len ->
  len < 2 ^ 31 -> n = k0 + len -> ahead d s n -> room m d n -> room m s n -> (Z.to_nat len < fuel)%nat ->
  exists c m', copy_words fuel k (d + k0) (s + k0) len m = Ok (d + (n - c), s + (n - c), c, m')
  /\ 0 <= c <= len /\ copied m0 m' d s (n - c).
Proof.
  intros Hk Hm0. revert k0 len m. induction fuel as [|fuel IH]; intros k0 len m W Hk0 Hl Hl31 -> Ha Hd Hs Hf; [lia|].
  cbn [copy_words]. replace (u32 len) with len by mlia. destruct (Z.leb_spec (4 * Z.of_nat k) len) as [Hle|Hgt].
  - destruct (for_loop_inv (fun i m1 => copied m0 m1 d s (k0 + 4 * i))
      (fun i m => copy_word (d + k0 + 4 * i) (s + k0 + 4 * i) m) k 0 m) as (m1 & E1 & W1).
    { by replace (k0 + 4 * 0) with k0 by lia. }
    { intros i m1 Hi Wi. unfold copy_word.
      assert (bytes_ok m1) as Hm1 by (eapply written_bytes; [exact Wi|done|]; intros; by apply rd_u8).
      assert (forall b, room m b (k0 + len) -> room m1 b (k0 + len)) as Hroom.
      { intros b. unfold room. destruct W as [-> _], Wi as [-> _]. done. }
      rewrite ld32_ok, bind_ret_l by (eapply room_weak; [by apply (Hroom s)|lia..]).
      destruct (st32_ok m1 (d + k0 + 4 * i) (word m1 (s + k0 + 4 * i))) as (m2 & E2 & W2);
        [eapply room_weak; [by apply (Hroom d)|lia..]|].
      exists m2. split; [done|]. replace (k0 + 4 * (i + 1)) with (k0 + 4 * i + 4) by lia.
      eapply (copied_step _ m1); [done|done|lia|lia|lia|unfold room in Hs; lia|].
      rewrite Z.add_assoc. eapply written_ext; [exact W2|]. intros j Hj. cbv beta. rewrite byte_word by done. f_equal. lia. }
    rewrite Z.add_0_l in W1. rewrite E1, bind_ret_l.
    replace (s32 (len - 4 * Z.of_nat k)) with (len - 4 * Z.of_nat k) by mlia.
    destruct (IH (k0 + 4 * Z.of_nat k) (len - 4 * Z.of_nat k) m1) as (c & m' & E2 & Hc2 & W2);
      [done|lia|lia|lia|lia|done| | |lia|].
    { unfold room. destruct W as [Lw _], W1 as [L1 _]. by rewrite L1, <- Lw. }
    { unfold room. destruct W as [Lw _], W1 as [L1 _]. by rewrite L1, <- Lw. }
    exists c, m'. rewrite <- !Z.add_assoc, E2. split; [done|]. split; [lia|done].
  - exists len, m. replace (k0 + len - len) with k0 by lia. split; [done|]. split; [lia|done].
Qed.

Lemma rt_memcpy_ok dst src count m : 0 <= count < 2 ^ 31 -> bytes_ok m -> ahead dst src count ->
  room m dst count -> room m src count ->
  exists m', rt_memcpy dst src count m = Ok m' /\ copied m m' dst src count.
Proof.
  intros Hc Hm Ha Hd Hs. unfold rt_memcpy. cbv zeta. replace (s32 count) with count by mlia.
  replace (u32 count) with count by mlia.
  assert (forall k m1, 0 <= k <= count -> copied m m1 dst src (count - k) ->
    exists m', copy_rest (dst + (count - k)) (src + (count - k)) k m1 = Ok m'
    /\ copied m m' dst src count) as Htail.
  { intros k m1 Hk W. unfold copy_rest. rewrite (proj2 (Z.ltb_ge k 0)) by lia. assert (count - k + Z.of_nat (Z.to_nat k) = count) as E by lia.
    destruct (copy_bytes_ok (count - k) (Z.to_nat k) dst src m1 m) as (m' & E' & W');
      [done|lia|by rewrite E|rewrite E; by eapply written_room|rewrite E; by eapply written_room|].
    exists m'. rewrite E in W'. by split. }
  assert (copied m m dst src 0) as W0 by apply written_zero.
  destruct (negb (count <? 16) && _).
  - destruct (copy_words_ok (S (Z.to_nat count)) 4 count 0 dst src count m m) as (c1 & m1 & E1 & Hc1 & W1);
      [lia|done|done|lia|lia|lia|lia|done|done|done|lia|].
    rewrite !Z.add_0_r in E1. rewrite E1, bind_ret_l. replace (u32 c1) with c1 by mlia.
    destruct (copy_words_ok (S (Z.to_nat c1)) 1 count (count - c1) dst src c1 m1 m) as (c2 & m2 & E2 & Hc2 & W2);
      [lia|done|done|lia|lia|lia|lia|done|by eapply written_room|by eapply written_room|lia|].
    rewrite E2, bind_ret_l. by apply Htail; [lia|].
  - rewrite bind_ret_l. destruct (Htail count m) as (m' & E' & W'); [lia|by rewrite Z.sub_diag|].
    exists m'. split; [|done]. rewrite <- E'. f_equal; lia.
Qed.

(** Downwards: the bytes above [d + k] are done. *)
Lemma copy_back_ok k n d s m0 m : length m = length m0 -> d >= s -> 0 <= s -> Z.of_nat k <= n ->
  d + n <= Z.of_nat (length m0) ->
  (forall i, 0 <= i -> rd m i = if decide (d + Z.of_nat k <= i < d + n) then rd m0 (s + (i - d)) else rd m0 i) ->
  exists m', copy_back k (d + Z.of_nat k) (s + Z.of_nat k) m = Ok m' /\ copied m0 m' d s n.
Proof.
  revert m. induction k as [|k IH]; intros m L Hds Hs Hk Hd W.
  { exists m. split; [done|]. split; [done|]. intros i Hi. rewrite W by done. by rewrite Z.add_0_r. }
  cbn [copy_back]. replace (d + Z.of_nat (S k) - 1) with (d + Z.of_nat k) by lia.
  replace (s + Z.of_nat (S k) - 1) with (s + Z.of_nat k) by lia.
  rewrite get_in, bind_ret_l, set_in, bind_ret_l by (unfold in_range; lia).
  apply IH; [by rewrite length_upd|lia..|]. intros i Hi.
  destruct (Z.eq_dec i (d + Z.of_nat k)) as [->|Hn].
  - rewrite decide_True by lia. rewrite rd_upd_eq by (unfold in_range; lia). rewrite W by lia.
    rewrite decide_False by lia. f_equal. lia.
  - rewrite rd_upd_ne, W by lia. destruct (decide (d + Z.of_nat k <= i < d + n)).
    + by rewrite decide_True by lia.
    + by rewrite decide_False by lia.
Qed.

Lemma rt_memmove_ok dest src n m : 0 <= n -> room m dest n -> room m src n ->
  exists m', rt_memmove dest src n m = Ok m' /\ copied m m' dest src n.
Proof.
  intros Hn [Hd Hd1] [Hs Hs1]. unfold rt_memmove. assert (Z.of_nat (Z.to_nat n) = n) as En by lia.
  destruct (Z.ltb_spec src dest); [destruct (Z.ltb_spec dest (src + n))|]; cbn [andb].
  1: { destruct (copy_back_ok (Z.to_nat n) n dest src m m) as (m' & E & W); [done|lia..| |].
       { intros i Hi. by rewrite decide_False by lia. }
       rewrite En in E. by exists m'. }
  all: destruct (copy_bytes_ok 0 (Z.to_nat n) dest src m m) as (m' & E & W);
    [apply written_zero|lia|unfold ahead; lia|unfold room; lia|unfold room; lia|];
    rewrite !Z.add_0_r, !Z.add_0_l, En in *; by exists m'.
Qed.

(** ** Comparing memory and strings *)

(** The bytes at [a] and [b] agree on the first [n]. *)
Definition agree (m : list Z) (a b n : Z) : Prop := forall i, 0 <= i < n -> rd m (a + i) = rd m (b + i).

(** [agree] grows by one byte at either end. *)
Lemma agree_cons m a b n : 0 <= n -> rd m a = rd m b -> agree m (a + 1) (b + 1) n -> agree m a b (n + 1).
Proof.
  intros Hn E H i Hi. destruct (Z.eq_dec i 0) as [->|Hi0]; [by rewrite !Z.add_0_r|].
  specialize (H (i - 1) ltac:(lia)). replace (a + 1 + (i - 1)) with (a + i) in H by lia.
  by replace (b + 1 + (i - 1)) with (b + i) in H by lia.
Qed.

(** The first difference of two areas, as a comparison reports it. *)
Inductive difference (m : list Z) (a b n : Z) : Z -> Prop :=
| no_difference : agree m a b n -> difference m a b n 0
| first_difference k : 0 <= k < n -> agree m a b k -> rd m (a + k) <> rd m (b + k) ->
    difference m a b n (rd m (a + k) - rd m (b + k)).

Lemma difference_cons m a b n r : 0 <= n -> rd m a = rd m b -> difference m (a + 1) (b + 1) n r ->
  difference m a b (n + 1) r.
Proof.
  intros Hn E H. destruct H as [H|k Hk H Hd]; [by apply no_difference, agree_cons|].
  replace (a + 1 + k) with (a + (k + 1)) in * by lia. replace (b + 1 + k) with (b + (k + 1)) in * by lia.
  apply first_difference; [lia|apply agree_cons; [lia|done..]|done].
Qed.
Lemma difference_here m a b n : 0 < n -> rd m a <> rd m b -> difference m a b n (rd m a - rd m b).
Proof.
  intros Hn H. pose proof (first_difference m a b n 0) as D. rewrite !Z.add_0_r in D.
  apply D; [lia| |done]. intros i Hi. lia.
Qed.

Lemma memcmp_loop_ok n a b m : room m a (Z.of_nat n) -> room m b (Z.of_nat n) ->
  exists r, memcmp_loop n a b m = Ok r /\ difference m a b (Z.of_nat n) r.
Proof.
  revert a b. induction n as [|n IH]; intros a b Ha Hb.
  { exists 0. split; [done|]. apply no_difference. intros i Hi. lia. }
  cbn [memcmp_loop]. rewrite !get_in, !bind_ret_l by (unfold in_range, room in *; lia).
  destruct (Z.eqb_spec (rd m a - rd m b) 0) as [E|E]; cbn [negb].
  - destruct (IH (a + 1) (b + 1)) as (r & Er & Hr); [unfold room in *; lia..|].
    exists r. split; [done|]. replace (Z.of_nat (S n)) with (Z.of_nat n + 1) by lia.
    apply difference_cons; [lia..|done].
  - eexists. split; [done|]. apply difference_here; lia.
Qed.

Lemma rt_memcmp_ok a b n m : 0 <= n -> room m a n -> room m b n ->
  exists r, rt_memcmp a b n m = Ok r /\ difference m a b n r.
Proof. intros Hn Ha Hb. rewrite <- (Z2Nat.id n) in * by done. unfold rt_memcmp. rewrite Nat2Z.id. by apply memcmp_loop_ok. Qed.

Lemma difference_zero m a b n : difference m a b n 0 -> agree m a b n.
Proof. inversion 1; [done|lia]. Qed.
Lemma difference_nonzero m a b n r : difference m a b n r -> r <> 0 -> ~ agree m a b n.
Proof. intros H Hr. inversion H as [|k Hk _ Hd]; subst; [done|]. intros Ha. by apply Hd, Ha. Qed.

(** A string of [n] characters at [s], with its terminating zero. *)
Definition cstring (m : list Z) (s n : Z) : Prop :=
  0 <= n /\ room m s (n + 1) /\ rd m (s + n) = 0 /\ forall i, 0 <= i < n -> rd m (s + i) <> 0.

Lemma cstring_tail m s n : cstring m s n -> 0 < n -> rd m s <> 0 /\ cstring m (s + 1) (n - 1).
Proof.
  intros (Hn & Hr & H0 & H) Hpos. split; [rewrite <- (Z.add_0_r s); apply H; lia|].
  split; [lia|]. split; [unfold room in *; lia|]. split; [by replace (s + 1 + (n - 1)) with (s + n) by lia|].
  intros i Hi. rewrite <- Z.add_assoc. apply H. lia.
Qed.
Lemma cstring_empty m s : cstring m s 0 -> rd m s = 0.
Proof. intros (_ & _ & H & _). by rewrite Z.add_0_r in H. Qed.
Lemma cstring_in m s n : cstring m s n -> in_range m s.
Proof. intros (Hn & [H1 H2] & _). unfold in_range. lia. Qed.

Lemma strlen_loop_ok fuel s n m : cstring m s n -> (Z.to_nat n < fuel)%nat -> strlen_loop fuel s m = Ok (s + n).
Proof.
  revert s n. induction fuel as [|fuel IH]; intros s n H Hf; [lia|].
  cbn [strlen_loop]. rewrite get_in, bind_ret_l by (by eapply cstring_in).
  assert (0 <= n) as Hn by apply H. destruct (Z.eq_dec n 0) as [->|Hn0].
  - rewrite (cstring_empty _ _ H), Z.add_0_r. done.
  - destruct (cstring_tail _ _ _ H ltac:(lia)) as [Hc Ht]. rewrite (proj2 (Z.eqb_neq _ _) Hc). cbn [negb].
    rewrite (IH _ _ Ht) by lia. f_equal. lia.
Qed.
Lemma rt_strlen_ok s n m : cstring m s n -> rt_strlen s m = Ok n.
Proof.
  intros H. unfold rt_strlen. rewrite (strlen_loop_ok _ _ n); [|done|destruct H as (? & [? ?] & _); lia].
  rewrite bind_ret_l. f_equal. lia.
Qed.

(** [rt_strcmp] compares the terminating zeros too, so a proper prefix is smaller. *)
Lemma rt_strcmp_ok a b n k m : cstring m a n -> cstring m b k ->
  exists r, rt_strcmp a b m = Ok r /\ difference m a b (Z.min n k + 1) r.
Proof.
  intros Ha Hb. unfold rt_strcmp. set (fuel := S (length m)).
  assert (Z.to_nat (Z.min n k) < fuel)%nat as Hf by (destruct Ha as (? & [? ?] & _); unfold fuel; lia).
  clearbody fuel. revert a b n k Ha Hb Hf. induction fuel as [|fuel IH]; intros a b n k Ha Hb Hf; [lia|].
  cbn [strcmp_loop]. assert (0 <= n /\ 0 <= k) as [Hn Hk] by (split; [apply Ha|apply Hb]).
  rewrite !get_in, !bind_ret_l by (by eapply cstring_in).
  destruct (Z.eqb_spec (rd m a) 0) as [Ea|Ea]; cbn [negb]; rewrite ?get_in, ?bind_ret_l by (by eapply cstring_in).
  - eexists. split; [done|]. destruct (Z.eq_dec (rd m a) (rd m b)) as [E|E].
    + rewrite E, Z.sub_diag. assert (k = 0) as ->.
      { destruct (Z.eq_dec k 0) as [|Hk0]; [done|]. destruct (cstring_tail _ _ _ Hb ltac:(lia)) as [H _]. congruence. }
      apply no_difference. intros i Hi. replace i with 0 by lia. by rewrite !Z.add_0_r.
    + apply difference_here; [lia|done].
  - assert (n <> 0) as Hn0 by (intros ->; by apply Ea, cstring_empty).
    destruct (Z.eqb_spec (rd m a) (rd m b)) as [E|E].
    + assert (k <> 0) as Hk0 by (intros ->; rewrite E in Ea; by apply Ea, cstring_empty).
      destruct (cstring_tail _ _ _ Ha ltac:(lia)) as [_ Ta]. destruct (cstring_tail _ _ _ Hb ltac:(lia)) as [_ Tb].
      destruct (IH _ _ _ _ Ta Tb ltac:(lia)) as (r & Er & Hr). exists r. split; [done|].
      apply difference_cons; [lia|done|]. by replace (Z.min n k) with (Z.min (n - 1) (k - 1) + 1) by lia.
    + eexists. split; [done|]. apply difference_here; [lia|done].
Qed.

(** An occurrence of the [l2] bytes at [s2] at distance [k] from [s1]. *)
Definition occurs (m : list Z) (s1 s2 l2 k : Z) : Prop := agree m (s1 + k) s2 l2.

Lemma strstr_loop_ok fuel s1 s2 l1 l2 k m : room m s1 l1 -> room m s2 l2 -> 0 <= l1 -> 0 < l2 -> 0 <= k ->
  k <= l1 -> (Z.to_nat (l1 - k) < fuel)%nat -> (forall j, 0 <= j < k -> ~ occurs m s1 s2 l2 j) ->
  match strstr_loop fuel (s1 + k) s2 (l1 - k) l2 m with
  | Ok (Some p) => exists j, p = s1 + j /\ 0 <= j /\ j + l2 <= l1 /\ occurs m s1 s2 l2 j
                             /\ forall i, 0 <= i < j -> ~ occurs m s1 s2 l2 i
  | Ok None => forall j, 0 <= j -> j + l2 <= l1 -> ~ occurs m s1 s2 l2 j
  | Fault _ => False
  end.
Proof.
  intros H1 H2 Hl1 Hl2. revert k. induction fuel as [|fuel IH]; intros k Hk Hkl Hf Hno; [lia|].
  cbn [strstr_loop]. destruct (Z.leb_spec l2 (l1 - k)) as [Hle|Hgt].
  - destruct (rt_memcmp_ok (s1 + k) s2 l2 m) as (r & E & Hr); [lia|unfold room in *; lia|done|].
    rewrite E, bind_ret_l. destruct (Z.eqb_spec r 0) as [->|Hr0].
    + exists k. split; [done|]. split; [done|]. split; [lia|]. split; [by apply difference_zero|done].
    + replace (s1 + k + 1) with (s1 + (k + 1)) by lia. replace (l1 - k - 1) with (l1 - (k + 1)) by lia.
      apply IH; [lia..|]. intros j Hj. destruct (Z.eq_dec j k) as [->|Hj']; [|apply Hno; lia].
      by eapply difference_nonzero.
  - intros j Hj Hj2. apply Hno. lia.
Qed.

(** ** Areas as lists *)

(** The [n] bytes at [a], and memory with the bytes [l] put at [a]. *)
Definition slice (m : list Z) (a n : Z) : list Z := take (Z.to_nat n) (drop (Z.to_nat a) m).
Definition splice (m : list Z) (a : Z) (l : list Z) : list Z :=
  take (Z.to_nat a) m ++ l ++ drop (Z.to_nat a + length l) m.

Lemma length_slice m a n : room m a n -> 0 <= n -> Z.of_nat (length (slice m a n)) = n.
Proof. intros [H1 H2] Hn. unfold slice. rewrite length_take, length_drop. lia. Qed.
Lemma rd_slice m a n i : 0 <= a -> 0 <= i < n -> rd (slice m a n) i = rd m (a + i).
Proof.
  intros Ha Hi. unfold slice, rd. rewrite lookup_take_lt by lia. rewrite lookup_drop. do 3 f_equal. lia.
Qed.
Lemma slice_ext m m' a n : 0 <= n -> room m a n -> room m' a n -> (forall i, a <= i < a + n -> rd m' i = rd m i) ->
  slice m' a n = slice m a n.
Proof.
  intros Hn R R' H. pose proof (length_slice _ _ _ R Hn). pose proof (length_slice _ _ _ R' Hn).
  apply rd_ext; [lia|]. intros i Hi. unfold in_range in Hi. rewrite !rd_slice by (unfold room in *; lia). apply H. lia.
Qed.
(** A byte stored into a range. *)
Lemma slice_store m m' a n i v : written m m' (a + i) 1 (fun _ => v) -> room m a n -> 0 <= i < n ->
  slice m' a n = upd (slice m a n) i v.
Proof.
  intros W HR Hi. pose proof (written_room _ _ _ _ _ a n W HR) as HR'. pose proof (proj1 HR).
  pose proof (length_slice _ _ _ HR' ltac:(lia)) as HL'. pose proof (length_slice _ _ _ HR ltac:(lia)) as HL.
  apply rd_ext; [rewrite length_upd; lia|].
  intros j Hj. unfold in_range in Hj. rewrite rd_slice by lia. destruct W as [_ W]. rewrite W by lia.
  rewrite upd_same_rd by (unfold in_range; lia). destruct (decide (i = j)) as [->|Hij].
  - by rewrite decide_True by lia.
  - rewrite decide_False by lia. by rewrite rd_slice by lia.
Qed.
(** A range beside a write. *)
Lemma slice_other m m' a n f b k : written m m' a n f -> room m b k -> 0 <= k -> b + k <= a \/ a + n <= b ->
  slice m' b k = slice m b k.
Proof.
  intros W HR Hk Hd. apply slice_ext; [done|done|by eapply written_room|]. intros i Hi. destruct W as [_ W], HR.
  by rewrite W, decide_False by lia.
Qed.

Lemma rd_splice_at m a l i : room m a (Z.of_nat (length l)) -> 0 <= i ->
  rd (splice m a l) i = if decide (a <= i < a + Z.of_nat (length l)) then rd l (i - a) else rd m i.
Proof.
  intros [H1 H2] Hi. unfold splice, rd. assert (length (take (Z.to_nat a) m) = Z.to_nat a) as La
    by (rewrite length_take; lia). case_decide as Hd.
  - rewrite lookup_app_r, La by lia. rewrite lookup_app_l by lia. do 3 f_equal. lia.
  - destruct (decide (i < a)).
    + rewrite lookup_app_l by lia. by rewrite lookup_take_lt by lia.
    + rewrite lookup_app_r, La by lia. rewrite lookup_app_r by lia. rewrite lookup_drop. do 3 f_equal. lia.
Qed.
Lemma length_splice m a l : room m a (Z.of_nat (length l)) -> length (splice m a l) = length m.
Proof. intros [H1 H2]. unfold splice. rewrite !length_app, length_take, length_drop. lia. Qed.

(** Two areas put one behind the other. *)
Lemma splice_app m a l1 l2 : room m a (Z.of_nat (length (l1 ++ l2))) ->
  splice (splice m a l1) (a + Z.of_nat (length l1)) l2 = splice m a (l1 ++ l2).
Proof.
  intros Hr. pose proof Hr as Hr0. rewrite length_app in Hr0. unfold room in Hr0.
  assert (room m a (Z.of_nat (length l1))) as H1 by (unfold room; lia).
  assert (room (splice m a l1) (a + Z.of_nat (length l1)) (Z.of_nat (length l2))) as H2
    by (unfold room; rewrite length_splice by done; lia).
  apply rd_ext; [by rewrite !length_splice|]. intros i Hi. assert (0 <= i) by (unfold in_range in Hi; lia).
  rewrite !rd_splice_at by done. rewrite length_app. unfold rd. repeat case_decide; try lia; try done.
  - rewrite lookup_app_r by lia. do 3 f_equal. lia.
  - rewrite lookup_app_l by lia. done.
Qed.

(** A write is determined by what it leaves. *)
Lemma written_splice m m' a l f : written m m' a (Z.of_nat (length l)) f -> room m a (Z.of_nat (length l)) ->
  (forall i, 0 <= i < Z.of_nat (length l) -> f i = rd l i) -> m' = splice m a l.
Proof.
  intros [L W] Hr Hf. apply rd_ext; [by rewrite length_splice|]. intros i Hi.
  assert (0 <= i) by (unfold in_range in Hi; lia). rewrite W, rd_splice_at by done.
  case_decide; [apply Hf; lia|done].
Qed.

Lemma copied_splice m m' d s n : copied m m' d s n -> room m d n -> room m s n -> 0 <= n ->
  m' = splice m d (slice m s n).
Proof.
  intros W Hd Hs Hn. pose proof (length_slice m s n Hs Hn) as L.
  eapply written_splice; [by rewrite L| by rewrite L|]. intros i Hi. cbv beta.
  rewrite rd_slice; [done|apply Hs|lia].
Qed.

Lemma agree_slice m a b n : 0 <= n -> room m a n -> room m b n -> agree m a b n <-> slice m a n = slice m b n.
Proof.
  intros Hn Ha Hb. pose proof (length_slice m a n Ha Hn). pose proof (length_slice m b n Hb Hn).
  split; intros H'.
  - apply rd_ext; [lia|]. intros i Hi. unfold in_range in Hi. rewrite !rd_slice by (unfold room in *; lia).
    apply H'. lia.
  - intros i Hi. rewrite <- (rd_slice m a n), <- (rd_slice m b n) by (unfold room in *; lia). by rewrite H'.
Qed.

(** Two strings agree up to the end of the shorter one exactly when they are equal. *)
Lemma cstring_equal m a b n k : cstring m a n -> cstring m b k ->
  agree m a b (Z.min n k + 1) <-> slice m a n = slice m b k.
Proof.
  intros Ha Hb. assert (0 <= n /\ 0 <= k) as [Hn Hk] by (split; [apply Ha|apply Hb]).
  assert (room m a n /\ room m b k) as [Ra Rb].
  { destruct Ha as (_ & [? ?] & _), Hb as (_ & [? ?] & _). unfold room. lia. }
  split; intros H.
  - assert (n = k) as ->; [|apply agree_slice; [done..|]; intros i Hi; apply H; lia].
    pose proof (H (Z.min n k) ltac:(lia)) as E. destruct Ha as (_ & _ & Za & Na), Hb as (_ & _ & Zb & Nb).
    destruct (Z.lt_trichotomy n k) as [Hlt|[?|Hgt]]; [|done|].
    + rewrite Z.min_l in E by lia. rewrite Za in E. symmetry in E. by apply Nb in E; lia.
    + rewrite Z.min_r in E by lia. rewrite Zb in E. by apply Na in E; lia.
  - assert (n = k) as ->.
    { rewrite <- (length_slice m a n Ra Hn), <- (length_slice m b k Rb Hk). by rewrite H. }
    rewrite Z.min_id. apply (agree_slice _ _ _ _ Hn Ra Rb) in H. intros i Hi.
    destruct (Z.eq_dec i k) as [->|Hik]; [|apply H; lia].
    destruct Ha as (_ & _ & -> & _), Hb as (_ & _ & -> & _). done.
Qed.

(** ** Correctness *)

(** C26: The block functions do, for every alignment and memory content, what
    their byte-wise description says: [rt_memset] puts [count] copies of the low
    byte of [c] at [s], [rt_memmove] puts the old contents of the source at the
    destination, however the two overlap, for every length; and [rt_memcpy],
    whose length is an [int], does the same for lengths below 2^31 when the
    destination is not above a source it overlaps.  Nothing outside the
    destination changes and no access leaves the areas.
    [rt_memcpy_long] shows a longer copy. *)
Theorem block_functions_correct (m : list Z) (d s c n : Z)
  (Hn : 0 <= n) (Hm : Forall is_u8 m) (Hd : 0 <= d /\ d + n <= Z.of_nat (length m))
  (Hs : 0 <= s /\ s + n <= Z.of_nat (length m)) :
  rt_memset d c n m = Ok (splice m d (replicate (Z.to_nat n) (c mod 256)))
  /\ rt_memmove d s n m = Ok (splice m d (slice m s n))
  /\ (n < 2 ^ 31 -> d <= s \/ s + n <= d -> rt_memcpy d s n m = Ok (splice m d (slice m s n))).
Proof.
  split; [|split].
  - destruct (rt_memset_ok d c n m Hn Hd) as (m' & -> & W). f_equal.
    assert (Z.of_nat (length (replicate (Z.to_nat n) (c mod 256))) = n) as L by (rewrite length_replicate; lia).
    eapply written_splice; [by rewrite L|by rewrite L|]. intros i Hi. rewrite L in Hi. unfold rd.
    by rewrite lookup_replicate_2 by lia.
  - destruct (rt_memmove_ok d s n m Hn Hd Hs) as (m' & -> & W). f_equal. by apply copied_splice.
  - intros Hlt Ha. destruct (rt_memcpy_ok d s n m (conj Hn Hlt) Hm Ha Hd Hs) as (m' & -> & W). f_equal. by apply copied_splice.
Qed.

Definition demo_memory : list Z := text "relay node 17 ok" ++ replicate 24 0.

(** Overlapping moves both ways and a word-wise fill. *)
Lemma block_functions_correct_witness :
  rt_memset 8 0x141 23 demo_memory = Ok (text "relay no" ++ replicate 23 65 ++ replicate 9 0)
  /\ rt_memmove 3 0 16 demo_memory = Ok (text "relrelay node 17 ok" ++ replicate 21 0)
  /\ rt_memcpy 20 0 16 demo_memory = Ok (text "relay node 17 ok" ++ replicate 4 0 ++ text "relay node 17 ok" ++ replicate 4 0).
Proof.
  assert (Forall is_u8 demo_memory) as Hm 
    by (repeat (apply List.Forall_cons; [by split|]); apply List.Forall_nil).
  split; [|split].
  - rewrite (proj1 (block_functions_correct demo_memory 8 0 0x141 23 ltac:(lia) Hm ltac:(cbn; lia) ltac:(cbn; lia))).
    reflexivity.
  - rewrite (proj1 (proj2 (block_functions_correct demo_memory 3 0 0 16 ltac:(lia) Hm ltac:(cbn; lia) ltac:(cbn; lia)))).
    reflexivity.
  - rewrite (proj2 (proj2 (block_functions_correct demo_memory 20 0 0 16 ltac:(lia) Hm ltac:(cbn; lia) ltac:(cbn; lia)))).
    + reflexivity.
    + lia.
    + lia.
Defined.

(** A copy of 2^31 bytes or more between addresses that are not both aligned
    never returns: its length is negative, and counting down overflows. *)
Theorem rt_memcpy_long dst src count m : 2 ^ 31 <= count < 2 ^ 32 ->
  Z.lor (Z.land src 3) (Z.land dst 3) <> 0 -> exists f, rt_memcpy dst src count m = Fault f.
Proof.
  intros Hc Ha. unfold rt_memcpy, copy_rest. rewrite (proj2 (Z.eqb_neq _ 0) Ha), andb_false_r, bind_ret_l.
  rewrite (proj2 (Z.ltb_lt (s32 count) 0)) by mlia. destruct (copy_bytes _ _ _ _) as [m'|f]; [by exists SignedOverflow|by exists f].
Qed.

(** The string functions: [rt_strlen] is the distance to the terminating
    zero; [rt_strcmp] is zero exactly for equal strings and otherwise the
    difference of the first characters that differ; [rt_strstr] gives the first
    occurrence of the second string in the first, or [RT_NULL] when there is
    none. *)
Theorem string_functions_correct (m : list Z) (a b n k : Z) (Ha : cstring m a n) (Hb : cstring m b k) :
  rt_strlen a m = Ok n
  /\ (exists r, rt_strcmp a b m = Ok r /\ difference m a b (Z.min n k + 1) r
                /\ (r = 0 <-> slice m a n = slice m b k))
  /\ match rt_strstr a b m with
     | Ok (Some p) => exists j, p = a + j /\ 0 <= j /\ j + k <= n /\ slice m (a + j) k = slice m b k
                                /\ forall i, 0 <= i < j -> slice m (a + i) k <> slice m b k
     | Ok None => forall j, 0 <= j -> j + k <= n -> slice m (a + j) k <> slice m b k
     | Fault _ => False
     end.
Proof.
  assert (0 <= n /\ 0 <= k) as [Hn Hk] by (split; [apply Ha|apply Hb]).
  assert (room m a n /\ room m b k) as [Ra Rb].
  { destruct Ha as (_ & [? ?] & _), Hb as (_ & [? ?] & _). unfold room. lia. }
  split; [by apply rt_strlen_ok|]. split.
  - destruct (rt_strcmp_ok a b n k m Ha Hb) as (r & Er & Hr). exists r. split; [done|]. split; [done|].
    rewrite <- (cstring_equal m a b n k Ha Hb). split; [intros ->; by apply difference_zero|].
    intros H. destruct (Z.eq_dec r 0) as [|Hr0]; [done|]. by apply (difference_nonzero _ _ _ _ _ Hr) in H.
  - assert (forall j, 0 <= j -> j + k <= n -> occurs m a b k j <-> slice m (a + j) k = slice m b k) as Hocc.
    { intros j Hj Hjk. apply agree_slice; [done|unfold room in *; lia|done]. }
    unfold rt_strstr. rewrite (rt_strlen_ok b k m Hb), bind_ret_l. destruct (Z.eqb_spec k 0) as [->|Hk0].
    { exists 0. split; [lia|]. split; [done|]. split; [lia|]. split; [done|]. lia. }
    rewrite (rt_strlen_ok a n m Ha), bind_ret_l.
    pose proof (strstr_loop_ok (S (Z.to_nat n)) a b n k 0 m Ra Rb Hn) as H.
    rewrite Z.add_0_r, Z.sub_0_r in H. specialize (H ltac:(lia) ltac:(lia) ltac:(lia) ltac:(lia) ltac:(lia)).
    destruct (strstr_loop _ _ _ _ _ _) as [[p|]|]; [| |by apply H].
    + destruct H as (j & -> & Hj & Hjn & Ho & Hfirst). exists j.
      rewrite <- (Hocc j) by done. repeat split; try done. intros i Hi. rewrite <- (Hocc i) by lia. by apply Hfirst.
    + intros j Hj Hjn. rewrite <- (Hocc j) by done. by apply H.
Qed.

Definition demo_strings : list Z := text "abcabd" ++ [0] ++ text "abd" ++ [0].
Lemma string_functions_correct_witness :
  rt_strlen 0 demo_strings = Ok 6 /\ rt_strcmp 0 7 demo_strings = Ok (-1) /\ rt_strstr 0 7 demo_strings = Ok (Some 3)
  /\ slice demo_strings (0 + 1) 3 <> slice demo_strings 7 3.
Proof.
  assert (cstring demo_strings 0 6) as Ha.
  { split; [lia|]. split; [unfold room; cbn; lia|]. split; [reflexivity|]. intros i Hi.
    assert (i = 0 \/ i = 1 \/ i = 2 \/ i = 3 \/ i = 4 \/ i = 5) as Hcase by lia.
    repeat (destruct Hcase as [-> |Hcase]; [by vm_compute|]). subst i. by vm_compute. }
  assert (cstring demo_strings 7 3) as Hb.
  { split; [lia|]. split; [unfold room; cbn; lia|]. split; [reflexivity|]. intros i Hi.
    assert (i = 0 \/ i = 1 \/ i = 2) as Hcase by lia.
    repeat (destruct Hcase as [-> |Hcase]; [by vm_compute|]). subst i. by vm_compute. }
  destruct (string_functions_correct demo_strings 0 7 6 3 Ha Hb) as (Hlen & _ & Hstr).
  split; [exact Hlen|]. split; [reflexivity|]. split; [reflexivity|].
  change (rt_strstr 0 7 demo_strings) with (Ok (Some 3)) in Hstr. cbv iota in Hstr.
  destruct Hstr as (j & Ej & _ & _ & _ & H). apply H. lia.
Defined.

(** The character behind the limit is read although it cannot change the result. *)
Theorem strnlen_reads_beyond :
  rt_strnlen 0 4 (text "abcd") = Fault OutOfBounds /\ rt_strnlen 0 4 (text "abcd" ++ [255]) = Ok 4.
Proof. split; reflexivity. Qed.

(** A difference of 128 or more changes sign in [rt_strncmp]; [rt_strcmp] orders the same strings the other way. *)
Theorem strncmp_wrong_sign : let m := [200; 0; 10; 0] in
  rt_strcmp 0 2 m = Ok 190 /\ rt_strncmp 0 2 1 m = Ok (-66).
Proof. split; reflexivity. Qed.

(** [rt_strncpy] copies the string and pads with zeros; a string of [n] or more characters is left without a zero. *)
Lemma strncpy_loop_ok n d s k m : cstring m s k -> room m d (Z.of_nat n) -> d + Z.of_nat n <= s \/ s + k < d ->
  exists m', strncpy_loop n d s m = Ok m'
  /\ written m m' d (Z.of_nat n) (fun i => if decide (i < k) then rd m (s + i) else 0).
Proof.
  revert d s k m. induction n as [|n IH]; intros d s k m Hc Hr Hd; [exists m; split; [done|apply written_zero]|].
  cbn [strncpy_loop]. rewrite get_in, bind_ret_l by (by eapply cstring_in).
  destruct (set_written m d (rd m s)) as (m1 & E1 & W1); [eapply room_weak; [exact Hr|lia..]|].
  rewrite E1, bind_ret_l. assert (0 <= k /\ 0 <= s) as [Hk Hs0] by (split; [apply Hc|apply Hc]).
  replace (Z.of_nat (S n)) with (1 + Z.of_nat n) in * by lia.
  assert (room m1 (d + 1) (Z.of_nat n)) as Hr1 by (eapply written_room; [exact W1|]; unfold room in *; lia).
  destruct (Z.eqb_spec (rd m s) 0) as [E0|E0].
  - assert (k = 0) as ->.
    { destruct (Z.eq_dec k 0) as [|Hk0]; [done|]. by destruct (cstring_tail _ _ _ Hc ltac:(lia)). }
    destruct (set_bytes_ok n (d + 1) 0 m1 Hr1) as (m2 & E2 & W2). exists m2. split; [done|].
    eapply written_ext; [exact (written_app _ _ _ d 1 _ _ _ W1 W2 ltac:(lia) ltac:(lia))|].
    intros i Hi. cbv beta. rewrite (decide_False (P := i < 0)) by lia. by case_decide.
  - assert (k <> 0) as Hk0 by (intros ->; by apply E0, cstring_empty).
    destruct (cstring_tail _ _ _ Hc ltac:(lia)) as [_ Ht].
    assert (forall i, 0 <= i < k -> rd m1 (s + 1 + i) = rd m (s + 1 + i)) as Hsame.
    { intros i Hi. destruct W1 as [_ W1]. rewrite W1 by lia. by rewrite decide_False by lia. }
    assert (cstring m1 (s + 1) (k - 1)) as Ht1.
    { destruct Ht as (T1 & T2 & T3 & T4). split; [done|]. split; [by eapply written_room|].
      split; [by rewrite Hsame by lia|]. intros i Hi. rewrite Hsame by lia. by apply T4. }
    destruct (IH (d + 1) (s + 1) (k - 1) m1 Ht1 Hr1) as (m2 & E2 & W2); [lia|]. exists m2. split; [done|].
    eapply written_ext; [exact (written_app _ _ _ d 1 _ _ _ W1 W2 ltac:(lia) ltac:(lia))|].
    intros i Hi. cbv beta. destruct (decide (i < 1)).
    + replace i with 0 by lia. rewrite decide_True by lia. by rewrite Z.add_0_r.
    + destruct (decide (i < k)); [|by rewrite decide_False by lia]. rewrite decide_True by lia.
      rewrite Hsame by lia. f_equal. lia.
Qed.

Theorem rt_strncpy_pads dst src n k m : 0 <= n -> cstring m src k -> room m dst n -> dst + n <= src \/ src + k < dst ->
  exists m', rt_strncpy dst src n m = Ok m'
  /\ written m m' dst n (fun i => if decide (i < k) then rd m (src + i) else 0).
Proof.
  intros Hn Hc Hr Hd. unfold rt_strncpy. rewrite <- (Z2Nat.id n) in Hr, Hd |- * by done. rewrite Nat2Z.id.
  by apply strncpy_loop_ok.
Qed.
