(* ===== verification/KernelMem.v ===== *)
(** * The system heap (src/mem.c, small-memory allocator)

    The heap's bytes are a list that starts at [heap_ptr]; a block header
    ([struct heap_mem], 12 bytes) lives in those bytes, so a write by the
    application can reach it as it can on the board.  A [struct heap_mem *] is
    an offset from [heap_ptr]; the pointers of the interface are addresses, 0
    being [RT_NULL].  [RT_ASSERT] is on (RT_DEBUG); RT_USING_MEMTRACE is off.
    Every operation runs between a take and a release of [heap_sem]; its count
    is kept, and taking it at 0 is [Hang], since nobody else would release it. *)
From stdpp Require Import gmap.
From S2P Require Import Prelude KernelService.

Definition RT_ALIGN (size : Z) : Z := Z.land (u32 (size + 3)) 0xFFFFFFFC.
Definition RT_ALIGN_DOWN (size : Z) : Z := Z.land size 0xFFFFFFFC.
Definition HEAP_MAGIC : Z := 0x1ea0.
Definition SIZEOF_STRUCT_MEM : Z := 12.
Definition MIN_SIZE_ALIGNED : Z := 12.

(** ** [struct heap_mem] *)

Definition get_mem_magic (m : list Z) (mem : Z) : res Z := ld16 m mem.
Definition get_mem_used (m : list Z) (mem : Z) : res Z := ld16 m (mem + 2).
Definition get_mem_next (m : list Z) (mem : Z) : res Z := ld32 m (mem + 4).
Definition get_mem_prev (m : list Z) (mem : Z) : res Z := ld32 m (mem + 8).
Definition set_mem_magic (m : list Z) (mem v : Z) : res (list Z) := st16 m mem v.
Definition set_mem_used (m : list Z) (mem v : Z) : res (list Z) := st16 m (mem + 2) v.
Definition set_mem_next (m : list Z) (mem v : Z) : res (list Z) := st32 m (mem + 4) v.
Definition set_mem_prev (m : list Z) (mem v : Z) : res (list Z) := st32 m (mem + 8) v.

(** The module's static variables. *)
Record heap : Type := Heap {
  heap_ptr : Z; memory : list Z; heap_end : Z; lfree : Z; heap_sem : Z;
  mem_size_aligned : Z; used_mem : Z; max_mem : Z }.

Definition with_memory (m : list Z) (h : heap) : heap :=
  Heap (heap_ptr h) m (heap_end h) (lfree h) (heap_sem h) (mem_size_aligned h) (used_mem h) (max_mem h).
Definition with_lfree (l : Z) (h : heap) : heap :=
  Heap (heap_ptr h) (memory h) (heap_end h) l (heap_sem h) (mem_size_aligned h) (used_mem h) (max_mem h).
Definition with_sem (v : Z) (h : heap) : heap :=
  Heap (heap_ptr h) (memory h) (heap_end h) (lfree h) v (mem_size_aligned h) (used_mem h) (max_mem h).
Definition with_used (u x : Z) (h : heap) : heap :=
  Heap (heap_ptr h) (memory h) (heap_end h) (lfree h) (heap_sem h) (mem_size_aligned h) u x.

Definition take_heap_sem (h : heap) : res heap :=
  if 0 <? heap_sem h then Ok (with_sem (heap_sem h - 1) h) else Fault Hang.
Definition release_heap_sem (h : heap) : heap := with_sem (heap_sem h + 1) h.

Definition heap_assert (b : bool) : res unit := if b then Ok tt else Fault AssertFail.

(** ** [plug_holes] *)

(** The links that make [x] and its successor [y] one block. *)
Definition join (x y : Z) (m : list Z) : res (list Z) :=
  nn ← get_mem_next m y; m ← set_mem_next m x nn; nn ← get_mem_next m y; set_mem_prev m nn x.

Definition plug_forward (mem : Z) (h : heap) : res heap :=
  nmem ← get_mem_next (memory h) mem;
  if mem =? nmem then Ok h else
  used ← get_mem_used (memory h) nmem;
  if (used =? 0) && negb (nmem =? heap_end h) then
    let h := if lfree h =? nmem then with_lfree mem h else h in
    m ← join mem nmem (memory h); Ok (with_memory m h)
  else Ok h.

Definition plug_backward (mem : Z) (h : heap) : res heap :=
  pmem ← get_mem_prev (memory h) mem;
  if pmem =? mem then Ok h else
  used ← get_mem_used (memory h) pmem;
  if used =? 0 then
    let h := if lfree h =? mem then with_lfree pmem h else h in
    m ← join pmem mem (memory h); Ok (with_memory m h)
  else Ok h.

Definition plug_holes (mem : Z) (h : heap) : res heap :=
  _ ← heap_assert (0 <=? mem); _ ← heap_assert (mem <? heap_end h);
  used ← get_mem_used (memory h) mem; _ ← heap_assert (used =? 0);
  h ← plug_forward mem h; plug_backward mem h.

(** ** [rt_system_heap_init] *)

(** The first header and the end marker. *)
Definition write_first (mem next prev used : Z) (m : list Z) : res (list Z) :=
  m ← set_mem_magic m mem HEAP_MAGIC; m ← set_mem_next m mem next; m ← set_mem_prev m mem prev; set_mem_used m mem used.
Definition write_end (mem next prev used : Z) (m : list Z) : res (list Z) :=
  m ← set_mem_magic m mem HEAP_MAGIC; m ← set_mem_used m mem used; m ← set_mem_next m mem next; set_mem_prev m mem prev.

(** [bytes] is the memory from the aligned begin address on. *)
Definition rt_system_heap_init (begin_addr end_addr : Z) (bytes : list Z) (h : heap) : res heap :=
  let begin_align := RT_ALIGN begin_addr in
  let end_align := RT_ALIGN_DOWN end_addr in
  if (2 * SIZEOF_STRUCT_MEM <? end_align) && (begin_align <=? end_align - 2 * SIZEOF_STRUCT_MEM) then
    let size := end_align - begin_align - 2 * SIZEOF_STRUCT_MEM in
    let last := size + SIZEOF_STRUCT_MEM in
    m ← write_first 0 last 0 0 bytes; m ← write_end last last last 1 m;
    Ok (Heap begin_align m last 0 1 size (used_mem h) (max_mem h))
  else Ok h.

(** ** [rt_malloc] *)

(** The [for] loop up to the first block that fits. *)
Fixpoint malloc_search (fuel : nat) (size ptr : Z) (h : heap) : res (option Z) :=
  match fuel with
  | O => Fault Hang
  | S fuel' =>
      if ptr <? u32 (mem_size_aligned h - size) then
        used ← get_mem_used (memory h) ptr;
        fits ← (if used =? 0 then
                  next ← get_mem_next (memory h) ptr; Ok (size <=? u32 (next - (ptr + SIZEOF_STRUCT_MEM)))
                else Ok false);
        if (fits : bool) then Ok (Some ptr)
        else next ← get_mem_next (memory h) ptr; malloc_search fuel' size next h
      else Ok None
  end.

Definition account (n : Z) (h : heap) : heap :=
  let used := u32 (used_mem h + n) in
  with_used used (if max_mem h <? used then used else max_mem h) h.

(** A free block [ptr2] is cut off the block [ptr]; its successor is told about it. *)
Definition carve (ptr ptr2 : Z) (m : list Z) : res (list Z) :=
  m ← set_mem_magic m ptr2 HEAP_MAGIC; m ← set_mem_used m ptr2 0;
  next ← get_mem_next m ptr; m ← set_mem_next m ptr2 next; m ← set_mem_prev m ptr2 ptr;
  set_mem_next m ptr ptr2.
Definition relink (ptr2 last : Z) (m : list Z) : res (list Z) :=
  next2 ← get_mem_next m ptr2; if negb (next2 =? last) then set_mem_prev m next2 ptr2 else Ok m.

(** Split the block, or take it as it is. *)
Definition malloc_split (size ptr : Z) (h : heap) : res heap :=
  next ← get_mem_next (memory h) ptr;
  if u32 (size + SIZEOF_STRUCT_MEM + MIN_SIZE_ALIGNED) <=? u32 (next - (ptr + SIZEOF_STRUCT_MEM)) then
    let ptr2 := ptr + SIZEOF_STRUCT_MEM + size in
    m ← carve ptr ptr2 (memory h); m ← set_mem_used m ptr 1;
    m ← relink ptr2 (mem_size_aligned h + SIZEOF_STRUCT_MEM) m;
    Ok (account (size + SIZEOF_STRUCT_MEM) (with_memory m h))
  else
    m ← set_mem_used (memory h) ptr 1;
    next ← get_mem_next m ptr; Ok (account (next - ptr) (with_memory m h)).

(** [while (lfree->used && lfree != heap_end)] *)
Fixpoint next_free (fuel : nat) (l : Z) (h : heap) : res Z :=
  match fuel with
  | O => Fault Hang
  | S fuel' =>
      used ← get_mem_used (memory h) l;
      if negb (used =? 0) && negb (l =? heap_end h) then
        next ← get_mem_next (memory h) l; next_free fuel' next h
      else Ok l
  end.

Definition update_lfree (mem : Z) (h : heap) : res heap :=
  if mem =? lfree h then
    l ← next_free (S (length (memory h))) (lfree h) h;
    used ← get_mem_used (memory h) l;
    _ ← heap_assert ((l =? heap_end h) || (used =? 0)); Ok (with_lfree l h)
  else Ok h.

Definition malloc_found (size mem : Z) (h : heap) : res (Z * heap) :=
  h ← malloc_split size mem h;
  m ← set_mem_magic (memory h) mem HEAP_MAGIC;
  h ← update_lfree mem (with_memory m h);
  let h := release_heap_sem h in
  _ ← heap_assert (mem + SIZEOF_STRUCT_MEM + size <=? heap_end h);
  _ ← heap_assert ((heap_ptr h + mem + SIZEOF_STRUCT_MEM) mod 4 =? 0);
  _ ← heap_assert (Z.land (heap_ptr h + mem) 3 =? 0);
  Ok (heap_ptr h + mem + SIZEOF_STRUCT_MEM, h).

Definition rt_malloc (size : Z) (h : heap) : res (Z * heap) :=
  if size =? 0 then Ok (0, h) else
  let size := RT_ALIGN size in
  if mem_size_aligned h <? size then Ok (0, h) else
  let size := if size <? MIN_SIZE_ALIGNED then MIN_SIZE_ALIGNED else size in
  h ← take_heap_sem h;
  found ← malloc_search (S (length (memory h))) size (lfree h) h;
  match found with
  | Some mem => malloc_found size mem h
  | None => Ok (0, release_heap_sem h)
  end.

(** ** [rt_free] *)

Definition outside (rmem : Z) (h : heap) : bool :=
  (rmem <? heap_ptr h) || (heap_ptr h + heap_end h <=? rmem).

Definition rt_free (rmem : Z) (h : heap) : res heap :=
  if rmem =? 0 then Ok h else
  _ ← heap_assert (Z.land rmem 3 =? 0);
  _ ← heap_assert (negb (outside rmem h));
  let mem := rmem - heap_ptr h - SIZEOF_STRUCT_MEM in
  h ← take_heap_sem h;
  used ← get_mem_used (memory h) mem; magic ← get_mem_magic (memory h) mem;
  _ ← heap_assert (negb (used =? 0)); _ ← heap_assert (magic =? HEAP_MAGIC);
  m ← set_mem_used (memory h) mem 0; m ← set_mem_magic m mem HEAP_MAGIC;
  let h := with_memory m h in
  let h := if mem <? lfree h then with_lfree mem h else h in
  next ← get_mem_next (memory h) mem;
  let h := with_used (u32 (used_mem h - (next - mem))) (max_mem h) h in
  h ← plug_holes mem h; Ok (release_heap_sem h).

(** ** [rt_realloc] *)

Definition realloc_shrink (mem size newsize : Z) (h : heap) : res heap :=
  let h := with_used (u32 (used_mem h - (size - newsize))) (max_mem h) h in
  let ptr2 := mem + SIZEOF_STRUCT_MEM + newsize in
  m ← carve mem ptr2 (memory h);
  m ← relink ptr2 (mem_size_aligned h + SIZEOF_STRUCT_MEM) m;
  plug_holes ptr2 (with_memory m h).

Definition realloc_move (rmem size newsize : Z) (h : heap) : res (Z * heap) :=
  '(nmem, h) ← rt_malloc newsize h;
  if nmem =? 0 then Ok (0, h) else
  m ← rt_memcpy (nmem - heap_ptr h) (rmem - heap_ptr h) (if size <? newsize then size else newsize) (memory h);
  h ← rt_free rmem (with_memory m h); Ok (nmem, h).

Definition rt_realloc (rmem newsize : Z) (h : heap) : res (Z * heap) :=
  let newsize := RT_ALIGN newsize in
  if mem_size_aligned h <? newsize then Ok (0, h) else
  if newsize =? 0 then h ← rt_free rmem h; Ok (0, h) else
  if rmem =? 0 then rt_malloc newsize h else
  h ← take_heap_sem h;
  if outside rmem h then Ok (rmem, release_heap_sem h) else
  let mem := rmem - heap_ptr h - SIZEOF_STRUCT_MEM in
  next ← get_mem_next (memory h) mem;
  let size := u32 (next - mem - SIZEOF_STRUCT_MEM) in
  if size =? newsize then Ok (rmem, release_heap_sem h) else
  if u32 (newsize + SIZEOF_STRUCT_MEM + MIN_SIZE_ALIGNED) <? size then
    h ← realloc_shrink mem size newsize h; Ok (rmem, release_heap_sem h)
  else realloc_move rmem size newsize (release_heap_sem h).

(** ** [rt_calloc], [rt_strdup], [rt_memory_info] *)

Definition rt_calloc (count size : Z) (h : heap) : res (Z * heap) :=
  '(p, h) ← rt_malloc (u32 (count * size)) h;
  if p =? 0 then Ok (0, h) else
  m ← rt_memset (p - heap_ptr h) 0 (u32 (count * size)) (memory h); Ok (p, with_memory m h).

(** Of a string inside the heap. *)
Definition rt_strdup (s : Z) (h : heap) : res (Z * heap) :=
  n ← rt_strlen (s - heap_ptr h) (memory h);
  '(tmp, h) ← rt_malloc (n + 1) h;
  if tmp =? 0 then Ok (0, h) else
  m ← rt_memcpy (tmp - heap_ptr h) (s - heap_ptr h) (n + 1) (memory h); Ok (tmp, with_memory m h).

(** total, used and maximum *)
Definition rt_memory_info (h : heap) : Z * Z * Z := (mem_size_aligned h, used_mem h, max_mem h).

(** ** Headers in memory *)

Record hdr : Type := Hdr { h_magic : Z; h_used : Z; h_next : Z; h_prev : Z }.
Definition hdr_at (m : list Z) (a : Z) : hdr := Hdr (half m a) (half m (a + 2)) (word m (a + 4)) (word m (a + 8)).

(** Only the header at [a] changes; it becomes [x]. *)
Definition hupd (m m' : list Z) (a : Z) (x : hdr) : Prop :=
  length m' = length m /\ bytes_ok m' /\ hdr_at m' a = x
  /\ forall i, 0 <= i -> ~ a <= i < a + 12 -> rd m' i = rd m i.

Lemma hupd_trans m1 m2 m3 a x y : hupd m1 m2 a x -> hupd m2 m3 a y -> hupd m1 m3 a y.
Proof.
  intros (L1 & _ & _ & R1) (L2 & B2 & H2 & R2). split; [congruence|]. do 2 (split; [done|]).
  intros i Hi Hn. by rewrite R2, R1.
Qed.
Lemma hdr_at_ext m m' b : 0 <= b -> (forall i, b <= i < b + 12 -> rd m' i = rd m i) -> hdr_at m' b = hdr_at m b.
Proof. intros Hb H. unfold hdr_at, half, word. by rewrite !H by lia. Qed.
Lemma hupd_other m m' a x b : hupd m m' a x -> 0 <= b -> b + 12 <= a \/ a + 12 <= b -> hdr_at m' b = hdr_at m b.
Proof. intros (_ & _ & _ & R) Hb Hd. apply hdr_at_ext; [done|]. intros i Hi. apply R; lia. Qed.
Lemma hupd_room m m' a x b n : hupd m m' a x -> room m b n -> room m' b n.
Proof. intros (L & _) H. unfold room. by rewrite L. Qed.
Lemma hupd_bytes m m' a x : hupd m m' a x -> bytes_ok m'.
Proof. by intros (_ & B & _). Qed.
Lemma hupd_at m m' a x : hupd m m' a x -> hdr_at m' a = x.
Proof. by intros (_ & _ & H & _). Qed.

(** A field is written: two or four bytes inside the header. *)
Lemma written_hupd m m' a k n v : written m m' (a + k) n (fun i => byte i v) -> bytes_ok m -> 0 <= k -> k + n <= 12 ->
  hupd m m' a (hdr_at m' a).
Proof.
  intros W Hm Hk Hn. pose proof W as [L R]. split; [done|]. split; [|split; [done|]].
  - eapply written_bytes; [exact W|done|]. intros. apply byte_u8.
  - intros i Hi Hout. rewrite R by done. by rewrite decide_False by lia.
Qed.

Section fields.
Context (m : list Z) (a : Z) (Hm : bytes_ok m) (Hroom : room m a 12).

Lemma get_mem_magic_ok : get_mem_magic m a = Ok (h_magic (hdr_at m a)).
Proof using Hroom. unfold get_mem_magic. rewrite ld16_ok; [done|]. eapply room_weak; [exact Hroom|lia..]. Qed.
Lemma get_mem_used_ok : get_mem_used m a = Ok (h_used (hdr_at m a)).
Proof using Hroom. unfold get_mem_used. rewrite ld16_ok; [done|]. eapply room_weak; [exact Hroom|lia..]. Qed.
Lemma get_mem_next_ok : get_mem_next m a = Ok (h_next (hdr_at m a)).
Proof using Hroom. unfold get_mem_next. rewrite ld32_ok; [done|]. eapply room_weak; [exact Hroom|lia..]. Qed.
Lemma get_mem_prev_ok : get_mem_prev m a = Ok (h_prev (hdr_at m a)).
Proof using Hroom. unfold get_mem_prev. rewrite ld32_ok; [done|]. eapply room_weak; [exact Hroom|lia..]. Qed.

Lemma set_mem_magic_ok v : is_u16 v -> exists m', set_mem_magic m a v = Ok m'
  /\ hupd m m' a (Hdr v (h_used (hdr_at m a)) (h_next (hdr_at m a)) (h_prev (hdr_at m a))).
Proof using Hm Hroom.
  intros Hv. destruct (st16_ok m a v) as (m' & E & W); [eapply room_weak; [exact Hroom|lia..]|].
  exists m'. split; [done|]. destruct Hroom as [Ha _].
  replace (Hdr _ _ _ _) with (hdr_at m' a).
  { apply (written_hupd m m' a 0 2 v); [by rewrite Z.add_0_r|done|lia..]. }
  unfold hdr_at. cbn. f_equal; [by apply (half_written m)|eapply half_other|eapply word_other..]; try done; lia.
Qed.
Lemma set_mem_used_ok v : is_u16 v -> exists m', set_mem_used m a v = Ok m'
  /\ hupd m m' a (Hdr (h_magic (hdr_at m a)) v (h_next (hdr_at m a)) (h_prev (hdr_at m a))).
Proof using Hm Hroom.
  intros Hv. destruct (st16_ok m (a + 2) v) as (m' & E & W); [eapply room_weak; [exact Hroom|lia..]|].
  exists m'. split; [done|]. destruct Hroom as [Ha _].
  replace (Hdr _ _ _ _) with (hdr_at m' a); [by eapply written_hupd; [exact W|done|lia..]|].
  unfold hdr_at. cbn. f_equal; [eapply half_other|apply (half_written m)|eapply word_other..]; try done; lia.
Qed.
Lemma set_mem_next_ok v : is_u32 v -> exists m', set_mem_next m a v = Ok m'
  /\ hupd m m' a (Hdr (h_magic (hdr_at m a)) (h_used (hdr_at m a)) v (h_prev (hdr_at m a))).
Proof using Hm Hroom.
  intros Hv. destruct (st32_ok m (a + 4) v) as (m' & E & W); [eapply room_weak; [exact Hroom|lia..]|].
  exists m'. split; [done|]. destruct Hroom as [Ha _].
  replace (Hdr _ _ _ _) with (hdr_at m' a); [by eapply written_hupd; [exact W|done|lia..]|].
  unfold hdr_at. cbn. f_equal; [eapply half_other|eapply half_other|apply (word_written m)|eapply word_other]; try done; lia.
Qed.
Lemma set_mem_prev_ok v : is_u32 v -> exists m', set_mem_prev m a v = Ok m'
  /\ hupd m m' a (Hdr (h_magic (hdr_at m a)) (h_used (hdr_at m a)) (h_next (hdr_at m a)) v).
Proof using Hm Hroom.
  intros Hv. destruct (st32_ok m (a + 8) v) as (m' & E & W); [eapply room_weak; [exact Hroom|lia..]|].
  exists m'. split; [done|]. destruct Hroom as [Ha _].
  replace (Hdr _ _ _ _) with (hdr_at m' a); [by eapply written_hupd; [exact W|done|lia..]|].
  unfold hdr_at. cbn. f_equal; [eapply half_other|eapply half_other|eapply word_other|apply (word_written m)]; try done; lia.
Qed.
End fields.

(** ** The chain of blocks *)

Record blk : Type := Blk { off : Z; sz : Z; usd : bool }.
#[global] Instance blk_eq_dec : EqDecision blk.
Proof. solve_decision. Defined.

(** The blocks [l] fill the area from [a] to [e]; the block before has offset [pv]. *)
Fixpoint blocks (m : list Z) (pv a : Z) (l : list blk) (e : Z) : Prop :=
  match l with
  | [] => a = e
  | b :: l' => off b = a /\ 16 <= sz b /\ sz b mod 4 = 0
               /\ hdr_at m a = Hdr HEAP_MAGIC (Z.b2z (usd b)) (a + sz b) pv /\ blocks m a (a + sz b) l' e
  end.
Definition last_off (pv : Z) (l : list blk) : Z := match list.last l with Some b => off b | None => pv end.

Lemma last_off_cons pv b l : last_off pv (b :: l) = last_off (off b) l.
Proof. unfold last_off. rewrite last_cons. by destruct (list.last l). Qed.
Lemma last_off_snoc pv l b : last_off pv (l ++ [b]) = off b.
Proof. unfold last_off. by rewrite list.last_snoc. Qed.

Lemma chain_app m pv a l1 l2 e : blocks m pv a (l1 ++ l2) e <->
  exists x, blocks m pv a l1 x /\ blocks m (last_off pv l1) x l2 e.
Proof.
  revert pv a. induction l1 as [|b l1 IH]; intros pv a; cbn [app blocks].
  - split; [intros H; by exists a|]. by intros (x & -> & H).
  - rewrite IH. rewrite last_off_cons. split.
    + intros (<- & ? & ? & ? & x & Hl1 & Hl2). exists x. by repeat split.
    + intros (x & (<- & ? & ? & ? & Hl1) & Hl2). repeat split; try done. by exists x.
Qed.

Lemma chain_le m pv a l e : blocks m pv a l e -> a <= e.
Proof. revert pv a. induction l as [|b l IH]; intros pv a; cbn [blocks]; [lia|]. intros (? & ? & ? & ? & H). apply IH in H. lia. Qed.

Lemma chain_in m pv a l e b : blocks m pv a l e -> b ∈ l ->
  a <= off b /\ off b + sz b <= e /\ 16 <= sz b /\ sz b mod 4 = 0 /\ (a mod 4 = 0 -> off b mod 4 = 0).
Proof.
  revert pv a. induction l as [|c l IH]; intros pv a; cbn [blocks]; [intros _ Hb; inversion Hb|].
  intros (E & H1 & H2 & _ & H) [->|Hb]%list.elem_of_cons.
  - apply chain_le in H. rewrite E. lia.
  - destruct (IH _ _ H Hb) as (? & ? & ? & ? & Hal). repeat split; lia.
Qed.

(** The chain only depends on its headers. *)
Lemma chain_frame m m' pv a l e : blocks m pv a l e -> (forall b, b ∈ l -> hdr_at m' (off b) = hdr_at m (off b)) ->
  blocks m' pv a l e.
Proof.
  revert pv a. induction l as [|b l IH]; intros pv a; cbn [blocks]; [done|].
  intros (E & H1 & H2 & H3 & H) Hf. repeat split; try done.
  - rewrite <- H3, <- E. apply Hf. by left.
  - apply IH; [done|]. intros c Hc. apply Hf. by right.
Qed.
Lemma chain_keep m m' pv a l e x h : blocks m pv a l e -> hupd m m' x h -> 0 <= a -> x + 12 <= a \/ e <= x ->
  blocks m' pv a l e.
Proof.
  intros H Hu Ha Hx. eapply chain_frame; [done|]. intros b Hb.
  destruct (chain_in _ _ _ _ _ _ H Hb) as (? & ? & ? & _). eapply hupd_other; [done|lia|lia].
Qed.

(** The rest of the chain with the end marker, which is never free. *)
Definition rest (m : list Z) (pv a : Z) (l : list blk) (e : Z) : Prop :=
  blocks m pv a l e /\ h_used (hdr_at m e) = 1.

Lemma rest_keep m m' pv a l e x h : rest m pv a l e -> hupd m m' x h -> 0 <= a -> x + 12 <= a -> rest m' pv a l e.
Proof.
  intros [H E] Hu Ha Hx. pose proof (chain_le _ _ _ _ _ H). split; [by eapply chain_keep; [..|left]|].
  rewrite <- E. f_equal. eapply hupd_other; [done|lia..].
Qed.

(** The first block of the rest gets another predecessor. *)
Lemma rest_prev m m' pv a l e pv' : rest m pv a l e -> 0 <= a ->
  hupd m m' a (Hdr (h_magic (hdr_at m a)) (h_used (hdr_at m a)) (h_next (hdr_at m a)) pv') -> rest m' pv' a l e.
Proof.
  intros [H E] Ha Hu. destruct l as [|b l]; cbn [blocks] in H.
  - subst e. split; [done|]. by rewrite (hupd_at _ _ _ _ Hu).
  - destruct H as (H0 & H1 & H2 & H3 & H). pose proof (chain_le _ _ _ _ _ H). split.
    + cbn [blocks]. do 3 (split; [done|]). split; [rewrite (hupd_at _ _ _ _ Hu); by rewrite H3|].
      eapply chain_keep; [done|done|lia|lia].
    + rewrite <- E. f_equal. eapply hupd_other; [done|lia..].
Qed.
Lemma rest_end m pv pv' a l e : rest m pv a l e -> a = e -> rest m pv' a l e.
Proof.
  intros [H E] ->. split; [|done]. destruct l as [|b l]; [done|]. cbn [blocks] in H.
  destruct H as (_ & ? & _ & _ & H%chain_le). lia.
Qed.

(** The whole heap area: [e] is the offset of the end marker. *)
Record layout (m : list Z) (e : Z) (bl : list blk) : Prop := {
  lay_bytes : bytes_ok m;
  lay_len : Z.of_nat (length m) = e + 12;
  lay_small : 0 < e < 4294967296 - 24;
  lay_rest : rest m 0 0 bl e }.

(** A block in its place. *)
Record block_at (m : list Z) (e : Z) (l1 : list blk) (b : blk) (l2 : list blk) : Prop := {
  pl_before : blocks m 0 0 l1 (off b);
  pl_pos : 0 <= off b;
  pl_size : 16 <= sz b;
  pl_aligned : sz b mod 4 = 0;
  pl_hdr : hdr_at m (off b) = Hdr HEAP_MAGIC (Z.b2z (usd b)) (off b + sz b) (last_off 0 l1);
  pl_end : off b + sz b <= e;
  pl_after : rest m (off b) (off b + sz b) l2 e }.

Lemma layout_placed m e l1 b l2 : layout m e (l1 ++ b :: l2) -> block_at m e l1 b l2.
Proof.
  intros [_ _ _ [H E]]. apply chain_app in H as (x & H1 & H2). pose proof (chain_le _ _ _ _ _ H1).
  cbn [blocks] in H2. destruct H2 as (<- & ? & ? & ? & H2). pose proof (chain_le _ _ _ _ _ H2). by split.
Qed.
Lemma placed_layout m e l1 b l2 : bytes_ok m -> Z.of_nat (length m) = e + 12 -> 0 < e < 4294967296 - 24 ->
  block_at m e l1 b l2 -> layout m e (l1 ++ b :: l2).
Proof.
  intros Hb Hl He []. split; [done..|]. destruct pl_after0 as [? ?]. split; [|done].
  apply chain_app. exists (off b). split; [done|]. cbn [blocks]. by repeat split.
Qed.

Lemma layout_room m e bl a : layout m e bl -> 0 <= a <= e -> room m a 12.
Proof. intros [_ L _ _] Ha. unfold room. lia. Qed.

Lemma layout_aligned m e l1 b l2 : layout m e (l1 ++ b :: l2) -> off b mod 4 = 0.
Proof.
  intros [_ _ _ [Hc _]]. apply (chain_in _ _ _ _ _ b) in Hc as (_ & _ & _ & _ & Hc); [by apply Hc|set_solver].
Qed.
Lemma land_3 z : Z.land z 3 = z mod 4.
Proof. exact (Z.land_ones z 2 ltac:(lia)). Qed.

(** The header of a block is replaced by one with the same links. *)
Lemma layout_mark m m' e l1 x n u u' l2 : layout m e (l1 ++ Blk x n u :: l2) ->
  hupd m m' x (Hdr HEAP_MAGIC (Z.b2z u') (x + n) (last_off 0 l1)) -> layout m' e (l1 ++ Blk x n u' :: l2).
Proof.
  intros HL Hu. pose proof (layout_placed _ _ _ _ _ HL) as [P1 P2 P3 P4 P5 P6 P7]. cbn [off sz usd] in *.
  destruct HL as [_ L S _]. apply placed_layout; [by eapply hupd_bytes|destruct Hu; lia|done|].
  split; cbn [off sz usd]; try done.
  - eapply chain_keep; [done|done|lia|lia].
  - by eapply hupd_at.
  - eapply rest_keep; [done|done|lia|lia].
Qed.

Lemma set_used_layout m e l1 x n u u' l2 : layout m e (l1 ++ Blk x n u :: l2) ->
  exists m', set_mem_used m x (Z.b2z u') = Ok m' /\ layout m' e (l1 ++ Blk x n u' :: l2)
  /\ hupd m m' x (Hdr HEAP_MAGIC (Z.b2z u') (x + n) (last_off 0 l1)).
Proof.
  intros HL. pose proof (layout_placed _ _ _ _ _ HL) as P. pose proof (pl_hdr _ _ _ _ _ P) as Hh.
  pose proof (pl_pos _ _ _ _ _ P). pose proof (pl_end _ _ _ _ _ P). pose proof (pl_size _ _ _ _ _ P). cbn [off sz usd] in *.
  destruct (set_mem_used_ok m x (lay_bytes _ _ _ HL) (layout_room _ _ _ x HL ltac:(lia)) (Z.b2z u')) as (m' & E & Hu);
    [by destruct u'|].
  rewrite Hh in Hu. cbn in Hu. exists m'. split; [done|]. split; [by eapply layout_mark|done].
Qed.
Lemma set_magic_layout m e l1 x n u l2 : layout m e (l1 ++ Blk x n u :: l2) ->
  exists m', set_mem_magic m x HEAP_MAGIC = Ok m' /\ layout m' e (l1 ++ Blk x n u :: l2)
  /\ hupd m m' x (Hdr HEAP_MAGIC (Z.b2z u) (x + n) (last_off 0 l1)).
Proof.
  intros HL. pose proof (layout_placed _ _ _ _ _ HL) as P. pose proof (pl_hdr _ _ _ _ _ P) as Hh.
  pose proof (pl_pos _ _ _ _ _ P). pose proof (pl_end _ _ _ _ _ P). pose proof (pl_size _ _ _ _ _ P). cbn [off sz usd] in *.
  destruct (set_mem_magic_ok m x (lay_bytes _ _ _ HL) (layout_room _ _ _ x HL ltac:(lia)) HEAP_MAGIC) as (m' & E & Hu);
    [done|].
  rewrite Hh in Hu. cbn in Hu. exists m'. split; [done|]. split; [by eapply layout_mark|done].
Qed.

(** Reading the header of a block. *)
Lemma layout_get m e l1 x n u l2 : layout m e (l1 ++ Blk x n u :: l2) ->
  get_mem_magic m x = Ok HEAP_MAGIC /\ get_mem_used m x = Ok (Z.b2z u) /\ get_mem_next m x = Ok (x + n)
  /\ get_mem_prev m x = Ok (last_off 0 l1).
Proof.
  intros HL. pose proof (layout_placed _ _ _ _ _ HL) as [P1 P2 P3 P4 P5 P6 P7]. cbn [off sz usd] in *.
  pose proof (layout_room _ _ _ x HL ltac:(lia)) as R.
  rewrite get_mem_magic_ok, get_mem_used_ok, get_mem_next_ok, get_mem_prev_ok by done. by rewrite P5.
Qed.

(** ** Cutting and joining blocks *)

(** The data of these blocks is the same. *)
Definition dsame (K : list blk) (m m' : list Z) : Prop :=
  forall b, b ∈ K -> forall i, off b + 12 <= i < off b + sz b -> rd m' i = rd m i.

Lemma dsame_trans K m1 m2 m3 : dsame K m1 m2 -> dsame K m2 m3 -> dsame K m1 m3.
Proof. intros H1 H2 b Hb i Hi. rewrite (H2 b) by done. by apply (H1 b). Qed.
Lemma dsame_mono K K' m m' : dsame K m m' -> (forall b, b ∈ K' -> b ∈ K) -> dsame K' m m'.
Proof. intros H Hs b Hb. by apply H, Hs. Qed.

(** A header that starts outside every kept block, or at its start. *)
Lemma hupd_dsame K m m' z x : hupd m m' z x -> (forall b, b ∈ K -> 0 <= off b /\ (z <= off b \/ off b + sz b <= z)) ->
  dsame K m m'.
Proof. intros (_ & _ & _ & R) H b Hb i Hi. destruct (H b Hb) as [H0 Hz]. apply R; lia. Qed.

Lemma placed_around m e l1 b l2 c : block_at m e l1 b l2 -> c ∈ l1 ++ l2 ->
  0 <= off c /\ 16 <= sz c /\ (off c + sz c <= off b \/ off b + sz b <= off c) /\ off c + sz c <= e.
Proof.
  intros [P1 P2 P3 P4 P5 P6 [P7 _]] [Hc|Hc]%list.elem_of_app.
  - destruct (chain_in _ _ _ _ _ _ P1 Hc) as (? & ? & ? & _). lia.
  - destruct (chain_in _ _ _ _ _ _ P7 Hc) as (? & ? & ? & _). lia.
Qed.

Lemma join_ok m e l1 x n u y k w l2 : layout m e (l1 ++ Blk x n u :: Blk y k w :: l2) ->
  exists m', join x y m = Ok m' /\ layout m' e (l1 ++ Blk x (n + k) u :: l2) /\ dsame (l1 ++ l2) m m'
  /\ forall i, y <= i < y + k -> rd m' i = rd m i.
Proof.
  intros HL. pose proof (layout_placed _ _ _ _ _ HL) as PX.
  pose proof (layout_placed m e (l1 ++ [Blk x n u]) (Blk y k w) l2) as PY. rewrite <- app_assoc in PY.
  specialize (PY HL).
  destruct (layout_get m e (l1 ++ [Blk x n u]) y k w l2) as (_ & _ & En & _); [by rewrite <- app_assoc|].
  pose proof HL as [Hb Hlen Hsmall _]. pose proof PX as [X1 X2 X3 X4 X5 X6 X7]. pose proof PY as [Y1 Y2 Y3 Y4 Y5 Y6 Y7].
  cbn [off sz usd] in *. assert (y = x + n) as ->.
  { apply chain_app in Y1 as (? & _ & Y1). cbn in Y1. naive_solver. }
  unfold join. rewrite En, bind_ret_l.
  destruct (set_mem_next_ok m x Hb (layout_room _ _ _ x HL ltac:(lia)) (x + n + k)) as (m1 & E1 & U1); [unfold is_u32; lia|].
  rewrite E1, bind_ret_l, X5 in *. cbn [h_magic h_used h_next h_prev] in U1.
  pose proof (hupd_other _ _ _ _ (x + n) U1 ltac:(lia) ltac:(lia)) as Hy.
  rewrite get_mem_next_ok by (eapply hupd_room; [exact U1|]; eapply layout_room; [done|lia]).
  rewrite Hy, Y5, bind_ret_l. cbn [h_next].
  destruct (set_mem_prev_ok m1 (x + n + k) (hupd_bytes _ _ _ _ U1)) with (v := x) as (m2 & E2 & U2);
    [eapply hupd_room; [exact U1|]; eapply layout_room; [done|lia]|unfold is_u32; lia|].
  exists m2. split; [done|]. split; [|split].
  - apply placed_layout; [by eapply hupd_bytes|destruct U1, U2; lia|done|]. split; cbn [off sz usd]; try lia.
    + eapply chain_keep; [eapply chain_keep; [exact X1|exact U1|lia|lia]|exact U2|lia|lia].
    + rewrite (hupd_other _ _ _ _ x U2) by lia. rewrite (hupd_at _ _ _ _ U1). f_equal. lia.
    + rewrite Z.add_assoc. eapply rest_prev; [|lia|exact U2]. eapply rest_keep; [exact Y7|exact U1|lia|lia].
  - assert (forall c, c ∈ l1 ++ l2 -> 0 <= off c /\ 16 <= sz c /\ (off c + sz c <= x \/ x + n + k <= off c)) as Hc.
    { intros c [Hc|Hc]%list.elem_of_app.
      - destruct (placed_around _ _ _ _ _ c PX) as (? & ? & ? & _); [set_solver|].
        destruct (chain_in _ _ _ _ _ _ X1 Hc) as (? & ? & _). lia.
      - destruct (chain_in _ _ _ _ _ _ (proj1 Y7) Hc) as (? & ? & ? & _). lia. }
    eapply dsame_trans; [eapply hupd_dsame; [exact U1|]|eapply hupd_dsame; [exact U2|]];
      intros c (? & ? & ?)%Hc; lia.
  - intros i Hi. destruct U1 as (_ & _ & _ & R1), U2 as (_ & _ & _ & R2). rewrite R2, R1 by lia. done.
Qed.

(** Between [carve] and [relink]: the new block exists but its successor still points behind it. *)
Record carved (m : list Z) (e : Z) (l1 : list blk) (x n k : Z) (u : bool) (l2 : list blk) : Prop := {
  cv_bytes : bytes_ok m;
  cv_len : Z.of_nat (length m) = e + 12;
  cv_small : 0 < e < 4294967296 - 24;
  cv_place : 0 <= x /\ 16 <= k /\ k mod 4 = 0 /\ 16 <= n - k /\ n mod 4 = 0 /\ x + n <= e;
  cv_before : blocks m 0 0 l1 x;
  cv_hdr : hdr_at m x = Hdr HEAP_MAGIC (Z.b2z u) (x + k) (last_off 0 l1);
  cv_new : hdr_at m (x + k) = Hdr HEAP_MAGIC 0 (x + n) x;
  cv_after : rest m x (x + n) l2 e }.

Lemma carve_ok m e l1 x n k u l2 : layout m e (l1 ++ Blk x n u :: l2) -> 16 <= k -> k mod 4 = 0 -> 16 <= n - k ->
  exists m', carve x (x + k) m = Ok m' /\ carved m' e l1 x n k u l2 /\ dsame (l1 ++ Blk x k u :: l2) m m'.
Proof.
  intros HL Hk Hk4 Hnk. pose proof (layout_placed _ _ _ _ _ HL) as P. pose proof P as [X1 X2 X3 X4 X5 X6 X7].
  pose proof HL as [Hb Hlen Hsmall _]. cbn [off sz usd] in *. set (y := x + k).
  assert (room m y 12) as Ry by (unfold room, y; lia). assert (room m x 12) as Rx by (unfold room; lia).
  unfold carve.
  destruct (set_mem_magic_ok m y Hb Ry HEAP_MAGIC) as (m1 & E1 & U1); [done|]. rewrite E1, bind_ret_l.
  destruct (set_mem_used_ok m1 y (hupd_bytes _ _ _ _ U1) ltac:(by eapply hupd_room) 0) as (m2 & E2 & U2); [done|].
  rewrite E2, bind_ret_l. pose proof (hupd_trans _ _ _ _ _ _ U1 U2) as U12. rewrite (hupd_at _ _ _ _ U1) in U12.
  pose proof (hupd_other _ _ _ _ x U12 ltac:(lia) ltac:(unfold y; lia)) as Hx2.
  rewrite get_mem_next_ok, Hx2, X5, bind_ret_l by (by eapply hupd_room). cbn [h_magic h_used h_next h_prev] in *.
  destruct (set_mem_next_ok m2 y (hupd_bytes _ _ _ _ U2) ltac:(by eapply hupd_room) (x + n)) as (m3 & E3 & U3);
    [unfold is_u32; lia|].
  rewrite E3, bind_ret_l. pose proof (hupd_trans _ _ _ _ _ _ U12 U3) as U13. rewrite (hupd_at _ _ _ _ U12) in U13.
  destruct (set_mem_prev_ok m3 y (hupd_bytes _ _ _ _ U3) ltac:(by eapply hupd_room) x) as (m4 & E4 & U4);
    [unfold is_u32; lia|].
  rewrite E4, bind_ret_l. pose proof (hupd_trans _ _ _ _ _ _ U13 U4) as U14. rewrite (hupd_at _ _ _ _ U13) in U14.
  cbn [h_magic h_used h_next h_prev] in U14. clear E1 E2 E3 E4 U1 U2 U3 U4 U12 U13 Hx2.
  destruct (set_mem_next_ok m4 x (hupd_bytes _ _ _ _ U14) ltac:(by eapply hupd_room) y) as (m5 & E5 & U5);
    [unfold is_u32, y; lia|].
  rewrite (hupd_other _ _ _ _ x U14), X5 in U5 by (unfold y; lia). cbn [h_magic h_used h_next h_prev] in U5.
  exists m5. split; [done|]. split.
  - split; try done; [by eapply hupd_bytes|destruct U14, U5; lia| | | |].
    + eapply chain_keep; [eapply chain_keep; [exact X1|exact U14|lia|unfold y; lia]|exact U5|lia|lia].
    + by eapply hupd_at.
    + fold y. rewrite (hupd_other _ _ _ _ y U5) by (unfold y; lia). by eapply hupd_at.
    + eapply rest_keep; [eapply rest_keep; [exact X7|exact U14|lia|unfold y; lia]|exact U5|lia|lia].
  - assert (forall c, c ∈ l1 ++ Blk x k u :: l2 -> 0 <= off c /\ (y <= off c \/ off c + sz c <= y) /\ (x <= off c \/ off c + sz c <= x)) as Hc.
    { intros c Hc. destruct (decide (c = Blk x k u)) as [->|Hne]; [cbn; unfold y; lia|].
      destruct (placed_around _ _ _ _ _ c P) as (? & ? & ? & _); [set_solver|]. cbn [off sz] in *. unfold y. lia. }
    eapply dsame_trans; [eapply hupd_dsame; [exact U14|]|eapply hupd_dsame; [exact U5|]];
      intros c (? & ? & ?)%Hc; lia.
Qed.

Lemma carved_used m e l1 x n k u u' l2 : carved m e l1 x n k u l2 ->
  exists m', set_mem_used m x (Z.b2z u') = Ok m' /\ carved m' e l1 x n k u' l2 /\ dsame (l1 ++ Blk x k u :: l2) m m'.
Proof.
  intros [Hb Hlen Hsmall Hp X1 X5 Y5 X7].
  destruct (set_mem_used_ok m x Hb ltac:(unfold room; lia) (Z.b2z u')) as (m' & E & U); [by destruct u'|].
  rewrite X5 in U. cbn [h_magic h_used h_next h_prev] in U. exists m'. split; [done|]. split.
  - split; try done; [by eapply hupd_bytes|destruct U; lia| | | |].
    + eapply chain_keep; [exact X1|exact U|lia|lia].
    + by eapply hupd_at.
    + by rewrite (hupd_other _ _ _ _ (x + k) U) by lia.
    + eapply rest_keep; [exact X7|exact U|lia|lia].
  - eapply hupd_dsame; [exact U|]. intros c [Hc|[->|Hc]%list.elem_of_cons]%list.elem_of_app; [| cbn; lia|].
    + destruct (chain_in _ _ _ _ _ _ X1 Hc) as (? & ? & _). lia.
    + destruct (chain_in _ _ _ _ _ _ (proj1 X7) Hc) as (? & ? & _). lia.
Qed.

Lemma relink_ok m e l1 x n k u l2 : carved m e l1 x n k u l2 ->
  exists m', relink (x + k) e m = Ok m' /\ layout m' e (l1 ++ Blk x k u :: Blk (x + k) (n - k) false :: l2)
  /\ dsame (l1 ++ Blk x k u :: l2) m m'.
Proof.
  intros [Hb Hlen Hsmall Hp X1 X5 Y5 X7]. unfold relink.
  rewrite get_mem_next_ok, Y5, bind_ret_l by (unfold room; lia). cbn [h_next].
  assert (forall m', bytes_ok m' -> length m' = length m -> blocks m' 0 0 l1 x ->
    hdr_at m' x = hdr_at m x -> hdr_at m' (x + k) = hdr_at m (x + k) -> rest m' (x + k) (x + n) l2 e ->
    layout m' e (l1 ++ Blk x k u :: Blk (x + k) (n - k) false :: l2)) as Hlay.
  { intros m' B L C Hx Hy R. apply placed_layout; [done|lia|done|]. split; cbn [off sz usd]; try lia; [done|congruence|].
    destruct R as [R1 R2]. split; [|done]. cbn [blocks off sz usd]. split; [done|]. split; [lia|]. split; [lia|].
    replace (x + k + (n - k)) with (x + n) by lia. split; [by rewrite Hy, Y5|done]. }
  destruct (Z.eqb_spec (x + n) e) as [Ee|Hne]; cbn [negb].
  - exists m. split; [done|]. split; [apply Hlay; [done..|by eapply rest_end]|]. by intros b Hb' i Hi.
  - destruct (set_mem_prev_ok m (x + n) Hb ltac:(unfold room; lia) (x + k)) as (m' & E & U); [unfold is_u32; lia|].
    exists m'. split; [done|]. split.
    + apply Hlay; [by eapply hupd_bytes|by destruct U| | | |].
      * eapply chain_keep; [exact X1|exact U|lia|lia].
      * rewrite (hupd_other _ _ _ _ x U) by lia. done.
      * rewrite (hupd_other _ _ _ _ (x + k) U) by lia. done.
      * eapply rest_prev; [exact X7|lia|exact U].
    + eapply hupd_dsame; [exact U|]. intros c [Hc|[->|Hc]%list.elem_of_cons]%list.elem_of_app; [| cbn; lia|].
      * destruct (chain_in _ _ _ _ _ _ X1 Hc) as (? & ? & _). lia.
      * destruct (chain_in _ _ _ _ _ _ (proj1 X7) Hc) as (? & ? & _). lia.
Qed.

(** ** The heap *)

Fixpoint used_total (l : list blk) : Z :=
  match l with [] => 0 | b :: l' => (if usd b then sz b else 0) + used_total l' end.
Lemma used_total_app l1 l2 : used_total (l1 ++ l2) = used_total l1 + used_total l2.
Proof. induction l1; cbn; lia. Qed.

(** No two neighbours are free. *)
Fixpoint solid (l : list blk) : Prop :=
  match l with
  | b :: ((c :: _) as r) => usd b || usd c = true /\ solid r
  | _ => True
  end.
Definition begins_used (l : list blk) : bool := match l with b :: _ => usd b | [] => true end.
Definition ends_used (l : list blk) : bool := match list.last l with Some b => usd b | None => true end.

Lemma solid_cons b l : solid (b :: l) <-> usd b || begins_used l = true /\ solid l.
Proof. destruct l as [|c l]; cbn; [|done]. rewrite orb_true_r. naive_solver. Qed.
Lemma ends_used_cons b c l : ends_used (b :: c :: l) = ends_used (c :: l).
Proof. unfold ends_used. rewrite (last_cons b). by destruct (list.last (c :: l)) eqn:E; [|apply list.last_None in E]. Qed.
Lemma solid_app l1 l2 : solid (l1 ++ l2) <-> solid l1 /\ solid l2 /\ ends_used l1 || begins_used l2 = true.
Proof.
  induction l1 as [|b l1 IH]; cbn [app]; [cbn; naive_solver|].
  destruct l1 as [|c l1]; cbn [app] in *.
  - rewrite solid_cons. cbn. naive_solver.
  - rewrite !(solid_cons b), IH, ends_used_cons. cbn [begins_used]. naive_solver.
Qed.
Lemma solid_used l1 x n l2 : solid l1 -> solid l2 -> solid (l1 ++ Blk x n true :: l2).
Proof. intros H1 H2. rewrite solid_app, solid_cons. cbn. by rewrite orb_true_r. Qed.
Lemma solid_parts l1 b l2 : solid (l1 ++ b :: l2) -> solid l1 /\ solid l2.
Proof. rewrite solid_app, solid_cons. naive_solver. Qed.
Lemma solid_free l1 x n l2 : solid (l1 ++ Blk x n false :: l2) <->
  solid l1 /\ solid l2 /\ ends_used l1 = true /\ begins_used l2 = true.
Proof. rewrite solid_app, solid_cons. cbn. rewrite orb_false_r. naive_solver. Qed.

Record heap_wf (h : heap) (bl : list blk) : Prop := {
  wf_layout : layout (memory h) (heap_end h) bl;
  wf_end : heap_end h = mem_size_aligned h + 12;
  wf_size : 12 <= mem_size_aligned h /\ mem_size_aligned h mod 4 = 0;
  wf_ptr : 0 < heap_ptr h /\ heap_ptr h mod 4 = 0 /\ heap_ptr h + heap_end h + 12 <= 4294967296;
  wf_used : used_mem h = used_total bl }.
(** [lfree] is a free block, or the end marker, which it only is while something is allocated. *)
Definition lfree_ok (h : heap) (bl : list blk) : Prop :=
  lfree h = heap_end h /\ (exists b, b ∈ bl /\ usd b = true) \/ exists b, b ∈ bl /\ usd b = false /\ off b = lfree h.
Record heap_ok (h : heap) (bl : list blk) : Prop := {
  ok_wf : heap_wf h bl; ok_lfree : lfree_ok h bl; ok_solid : solid bl; ok_sem : heap_sem h = 1 }.

(** What no operation changes, and the semaphore's count. *)
Definition in_place (h h' : heap) : Prop :=
  heap_ptr h' = heap_ptr h /\ heap_end h' = heap_end h /\ mem_size_aligned h' = mem_size_aligned h
  /\ heap_sem h' = heap_sem h.
Lemma in_place_trans h1 h2 h3 : in_place h1 h2 -> in_place h2 h3 -> in_place h1 h3.
Proof. unfold in_place. intuition congruence. Qed.

Lemma wf_with h h' bl bl' : heap_wf h bl -> in_place h h' -> layout (memory h') (heap_end h') bl' ->
  used_mem h' = used_total bl' -> heap_wf h' bl'.
Proof. intros [] (E1 & E2 & E3 & _) HL HU. split; try done; congruence. Qed.

Lemma wf_sem h bl v : heap_wf h bl -> heap_wf (with_sem v h) bl.
Proof. by intros []. Qed.

(** ** [plug_holes] on the chain *)

Lemma get_used_end m e l1 b l2 : layout m e (l1 ++ b :: l2) -> get_mem_used m e = Ok 1.
Proof.
  intros HL. rewrite get_mem_used_ok; [|eapply layout_room; [done|destruct HL; lia]]. by destruct HL as [_ _ _ [_ ->]].
Qed.

Lemma memory_move (c : bool) l h : memory (if c then with_lfree l h else h) = memory h.
Proof. by destruct c. Qed.
Lemma lfree_join_next h l1 x n y k l2 m : lfree_ok h (l1 ++ Blk x n false :: Blk y k false :: l2) ->
  lfree_ok (with_memory m (if lfree h =? y then with_lfree x h else h)) (l1 ++ Blk x (n + k) false :: l2).
Proof.
  intros H. destruct (Z.eqb_spec (lfree h) y) as [E|E].
  - right. exists (Blk x (n + k) false). split; [set_solver|done].
  - destruct H as [(H & b & Hb & Hu)|(b & Hb & Hf & Ho)].
    { left. split; [done|]. exists b. split; [|done].
      apply list.elem_of_app in Hb as [Hb|[->|[->|Hb]%list.elem_of_cons]%list.elem_of_cons]; [set_solver|done|done|set_solver]. }
    right.
    apply list.elem_of_app in Hb as [Hb|[->|[->|Hb]%list.elem_of_cons]%list.elem_of_cons].
    + exists b. split; [set_solver|done].
    + exists (Blk x (n + k) false). split; [set_solver|done].
    + done.
    + exists b. split; [set_solver|done].
Qed.

Lemma plug_forward_ok h l1 x n l2 : heap_wf h (l1 ++ Blk x n false :: l2) -> lfree_ok h (l1 ++ Blk x n false :: l2) ->
  solid l2 -> exists h' n' l2', plug_forward x h = Ok h' /\ in_place h h' /\ heap_wf h' (l1 ++ Blk x n' false :: l2')
  /\ lfree_ok h' (l1 ++ Blk x n' false :: l2') /\ solid l2' /\ begins_used l2' = true
  /\ (forall c, usd c = true -> c ∈ l2' <-> c ∈ l2) /\ dsame (l1 ++ l2') (memory h) (memory h').
Proof.
  intros W LF Hs. pose proof (wf_layout _ _ W) as HL. pose proof (layout_placed _ _ _ _ _ HL) as P.
  pose proof P as [X1 X2 X3 X4 X5 X6 X7]. destruct (layout_get _ _ _ _ _ _ _ HL) as (_ & _ & En & _).
  cbn [off sz usd] in *. unfold plug_forward. rewrite En, bind_ret_l, (proj2 (Z.eqb_neq x (x + n))) by lia.
  destruct l2 as [|[y k w] l2].
  - destruct X7 as [X7 _]. cbn [blocks] in X7. rewrite X7, (get_used_end _ _ _ _ _ HL), bind_ret_l. cbn.
    exists h, n, []. split; [done|]. repeat split; try done; try apply W; by intros b Hb i Hi.
  - assert (y = x + n) as -> by (destruct X7 as [X7 _]; cbn in X7; naive_solver).
    destruct (layout_get (memory h) (heap_end h) (l1 ++ [Blk x n false]) (x + n) k w l2) as (_ & Eu & _ & _); [by rewrite <- app_assoc|].
    rewrite Eu, bind_ret_l. destruct w; cbn [Z.b2z Z.eqb andb].
    + exists h, n, (Blk (x + n) k true :: l2). split; [done|]. repeat split; try done; try apply W; by intros b Hb i Hi.
    + destruct X7 as [X7 _]. cbn [blocks off sz usd] in X7. destruct X7 as (_ & ? & ? & _ & X7).
      pose proof (chain_le _ _ _ _ _ X7). rewrite (proj2 (Z.eqb_neq (x + n) (heap_end h))) by lia. cbn [negb].
      destruct (join_ok _ _ _ _ _ _ _ _ _ _ HL) as (m' & Ej & HL' & Hd & Hy).
      rewrite memory_move, Ej, bind_ret_l. eexists _, (n + k), l2. split; [done|].
      apply solid_cons in Hs as [Hb Hs]. cbn [usd] in Hb.
      assert (in_place h (with_memory m' (if lfree h =? x + n then with_lfree x h else h))) as Hip by (by case_match).
      split; [done|]. split; [eapply wf_with; [exact W|done| |]|].
      * by rewrite (proj1 (proj2 Hip)).
      * pose proof (wf_used _ _ W) as HU. rewrite used_total_app in *. cbn in *. by case_match.
      * split; [by apply lfree_join_next|]. do 2 (split; [done|]). split; [|done].
        intros c Hc. rewrite list.elem_of_cons. split; [by right|]. by intros [->|?].
Qed.

Lemma lfree_join_prev h l1 x n y k l2 m : lfree_ok h (l1 ++ Blk y k false :: Blk x n false :: l2) ->
  lfree_ok (with_memory m (if lfree h =? x then with_lfree y h else h)) (l1 ++ Blk y (k + n) false :: l2).
Proof. apply lfree_join_next. Qed.

Lemma plug_backward_ok h l1 x n l2 : heap_wf h (l1 ++ Blk x n false :: l2) -> lfree_ok h (l1 ++ Blk x n false :: l2) ->
  solid l1 -> exists h' l1' x' n', plug_backward x h = Ok h' /\ in_place h h' /\ heap_wf h' (l1' ++ Blk x' n' false :: l2)
  /\ lfree_ok h' (l1' ++ Blk x' n' false :: l2) /\ solid l1' /\ ends_used l1' = true
  /\ (forall c, usd c = true -> c ∈ l1' <-> c ∈ l1) /\ h_used (hdr_at (memory h') x) = 0
  /\ dsame (l1' ++ l2) (memory h) (memory h').
Proof.
  intros W LF Hs. pose proof (wf_layout _ _ W) as HL. pose proof (layout_placed _ _ _ _ _ HL) as P.
  pose proof P as [X1 X2 X3 X4 X5 X6 X7]. destruct (layout_get _ _ _ _ _ _ _ HL) as (_ & _ & _ & Ep).
  cbn [off sz usd] in *. unfold plug_backward. rewrite Ep, bind_ret_l.
  destruct l1 as [|[y k w] l1 _] using rev_ind.
  - cbn in X1. subst x. cbn. exists h, [], 0, n. repeat split; try done; try apply W; exact (f_equal h_used X5).
  - rewrite last_off_snoc. cbn [off]. apply chain_app in X1 as (? & X0 & X1). cbn in X1.
    destruct X1 as (<- & Hk & _ & _ & Hyx). rewrite (proj2 (Z.eqb_neq y x)) by lia.
    rewrite <- app_assoc in HL. cbn in HL. destruct (layout_get _ _ _ _ _ _ _ HL) as (_ & Eu & _ & _).
    rewrite Eu, bind_ret_l. destruct w; cbn [Z.b2z Z.eqb andb].
    + exists h, (l1 ++ [Blk y k true]), x, n. repeat split; try done; try apply W; try (by rewrite X5).
      unfold ends_used. by rewrite list.last_snoc.
    + destruct (join_ok _ _ _ _ _ _ _ _ _ _ HL) as (m' & Ej & HL' & Hd & Hy).
      rewrite memory_move, Ej, bind_ret_l. eexists _, l1, y, (k + n). split; [done|].
      apply solid_app in Hs as (Hs & _ & He). cbn in He. rewrite orb_false_r in He.
      assert (in_place h (with_memory m' (if lfree h =? x then with_lfree y h else h))) as Hip by (by case_match).
      split; [done|]. split; [eapply wf_with; [exact W|done| |]|].
      * by rewrite (proj1 (proj2 Hip)).
      * pose proof (wf_used _ _ W) as HU. rewrite !used_total_app in *. cbn in *. case_match; cbn; lia.
      * split; [apply lfree_join_prev; by rewrite <- app_assoc in LF|]. do 2 (split; [done|]).
        split; [intros c Hc; rewrite list.elem_of_app, list.list_elem_of_singleton; split; [by left|]; by intros [?| ->]|].
        split; [|done]. change (memory (with_memory m' _)) with m'. rewrite (hdr_at_ext (memory h)); [by rewrite X5|done|]. intros i Hi. apply Hy. lia.
Qed.

(** A block that has become free is merged with its free neighbours. *)
Lemma plug_holes_ok h l1 x n l2 : heap_wf h (l1 ++ Blk x n false :: l2) -> lfree_ok h (l1 ++ Blk x n false :: l2) ->
  solid l1 -> solid l2 -> exists h' bl', plug_holes x h = Ok h' /\ in_place h h' /\ heap_wf h' bl' /\ lfree_ok h' bl'
  /\ solid bl' /\ h_used (hdr_at (memory h') x) = 0 /\ (forall c, usd c = true -> c ∈ bl' <-> c ∈ l1 ++ l2)
  /\ dsame (filter (fun c => usd c = true) (l1 ++ l2)) (memory h) (memory h').
Proof.
  intros W LF Hs1 Hs2. pose proof (layout_placed _ _ _ _ _ (wf_layout _ _ W)) as P.
  pose proof (pl_pos _ _ _ _ _ P). pose proof (pl_size _ _ _ _ _ P). pose proof (pl_end _ _ _ _ _ P).
  destruct (layout_get _ _ _ _ _ _ _ (wf_layout _ _ W)) as (_ & Eu & _). cbn [off sz usd] in *.
  unfold plug_holes. rewrite (proj2 (Z.leb_le 0 x)), (proj2 (Z.ltb_lt x (heap_end h))) by lia.
  cbn [heap_assert]. rewrite !bind_ret_l, Eu, bind_ret_l. cbn [Z.b2z Z.eqb heap_assert]. rewrite bind_ret_l.
  destruct (plug_forward_ok h l1 x n l2 W LF Hs2) as (h1 & n1 & l2' & E1 & I1 & W1 & LF1 & S1 & B1 & M1 & D1).
  rewrite E1, bind_ret_l.
  destruct (plug_backward_ok h1 l1 x n1 l2' W1 LF1 Hs1) as (h2 & l1' & x' & n' & E2 & I2 & W2 & LF2 & S2 & B2 & M2 & U2 & D2).
  exists h2, (l1' ++ Blk x' n' false :: l2'). split; [done|]. split; [by eapply in_place_trans|]. do 2 (split; [done|]).
  split; [by apply solid_free|]. split; [done|]. split.
  - intros c Hc. rewrite !list.elem_of_app, list.elem_of_cons, M1, M2 by done.
    split; [|naive_solver]. intros [?|[->|?]]; [by left|done|by right].
  - eapply dsame_trans; (eapply dsame_mono; [eassumption|]); intros c [Hc Hin]%list_elem_of_filter;
      apply list.elem_of_app in Hin; apply list.elem_of_app; rewrite ?M1, ?M2 by done; naive_solver.
Qed.

(** ** [rt_malloc] on the chain *)

Lemma chain_head m pv x n u l e : blocks m pv x (Blk x n u :: l) e -> 0 <= x -> Z.of_nat (length m) = e + 12 ->
  get_mem_used m x = Ok (Z.b2z u) /\ get_mem_next m x = Ok (x + n) /\ 16 <= n /\ x + n <= e /\ blocks m x (x + n) l e.
Proof.
  cbn [blocks off sz usd]. intros (_ & H1 & _ & Hh & H) Hx HL. pose proof (chain_le _ _ _ _ _ H).
  rewrite get_mem_used_ok, get_mem_next_ok, Hh by (unfold room; lia). done.
Qed.

Lemma malloc_search_ok fuel size h pv ptr l : blocks (memory h) pv ptr l (heap_end h) -> 0 <= ptr ->
  Z.of_nat (length (memory h)) = heap_end h + 12 -> heap_end h = mem_size_aligned h + 12 -> heap_end h < 4294967296 - 24 ->
  0 <= size <= mem_size_aligned h -> (Z.to_nat (heap_end h - ptr) < fuel)%nat ->
  match malloc_search fuel size ptr h with
  | Ok (Some x) => exists la n lb, l = la ++ Blk x n false :: lb /\ size <= n - 12
  | Ok None => forall b, b ∈ l -> usd b = false -> size <= sz b - 12 -> mem_size_aligned h - size <= off b
  | Fault _ => False
  end.
Proof.
  intros Hc Hp HL He Hs Hsz. revert pv ptr l Hc Hp. induction fuel as [|fuel IH]; intros pv ptr l Hc Hp Hf; [lia|].
  cbn [malloc_search]. rewrite u32_id by (unfold is_u32; lia). pose proof (chain_le _ _ _ _ _ Hc).
  destruct (Z.ltb_spec ptr (mem_size_aligned h - size)) as [Hlt|Hge].
  - destruct l as [|[x n u] l]; [cbn in Hc; lia|].
    assert (x = ptr) as -> by (cbn in Hc; naive_solver).
    destruct (chain_head _ _ _ _ _ _ _ Hc Hp HL) as (Eu & En & Hn & Hn2 & Hc'). rewrite Eu, bind_ret_l.
    destruct u; cbn [Z.b2z Z.eqb].
    + rewrite bind_ret_l, En, bind_ret_l. specialize (IH _ _ _ Hc' ltac:(lia) ltac:(lia)).
      destruct (malloc_search fuel size (ptr + n) h) as [[y|]|]; [| |done].
      * destruct IH as (la & k & lb & -> & ?). by exists (Blk ptr n true :: la), k, lb.
      * intros b [->|Hb]%list.elem_of_cons; [done|by apply IH].
    + rewrite En, !bind_ret_l. unfold SIZEOF_STRUCT_MEM. rewrite u32_id by (unfold is_u32; lia).
      destruct (Z.leb_spec size (ptr + n - (ptr + 12))).
      * exists [], n, l. split; [done|lia].
      * specialize (IH _ _ _ Hc' ltac:(lia) ltac:(lia)).
        destruct (malloc_search fuel size (ptr + n) h) as [[y|]|]; [| |done].
        { destruct IH as (la & k & lb & -> & ?). by exists (Blk ptr n false :: la), k, lb. }
        { intros b [->|Hb]%list.elem_of_cons; [cbn [sz off]; lia|by apply IH]. }
  - intros b Hb _ _. destruct (chain_in _ _ _ _ _ _ Hc Hb) as (? & _). lia.
Qed.

Lemma next_free_ok fuel h pv ptr l : blocks (memory h) pv ptr l (heap_end h) -> 0 <= ptr ->
  Z.of_nat (length (memory h)) = heap_end h + 12 -> h_used (hdr_at (memory h) (heap_end h)) = 1 ->
  (Z.to_nat (heap_end h - ptr) < fuel)%nat ->
  exists x, next_free fuel ptr h = Ok x /\ ((x = heap_end h /\ get_mem_used (memory h) x = Ok 1)
    \/ exists n, Blk x n false ∈ l /\ get_mem_used (memory h) x = Ok 0).
Proof.
  intros Hc Hp HL He. revert pv ptr l Hc Hp. induction fuel as [|fuel IH]; intros pv ptr l Hc Hp Hf; [lia|].
  cbn [next_free]. destruct l as [|[x n u] l].
  - cbn in Hc. subst ptr. assert (get_mem_used (memory h) (heap_end h) = Ok 1) as Eu
      by (rewrite get_mem_used_ok, He by (unfold room; lia); done).
    rewrite Eu, bind_ret_l, Z.eqb_refl. exists (heap_end h). split; [done|by left].
  - assert (x = ptr) as -> by (cbn in Hc; naive_solver).
    destruct (chain_head _ _ _ _ _ _ _ Hc Hp HL) as (Eu & En & Hn & Hn2 & Hc'). rewrite Eu, bind_ret_l.
    destruct u; cbn [Z.b2z Z.eqb negb andb].
    + rewrite (proj2 (Z.eqb_neq ptr (heap_end h))) by lia. cbn [negb]. rewrite En, bind_ret_l.
      destruct (IH _ _ _ Hc' ltac:(lia) ltac:(lia)) as (y & Ey & Hy). exists y. split; [done|].
      destruct Hy as [?|(k & Hk & ?)]; [by left|]. right. exists k. split; [by right|done].
    + exists ptr. split; [done|]. right. exists n. split; [by left|done].
Qed.

(** A block that fits is found in the part of the chain that starts at [lfree]. *)
Lemma from_lfree h bl : heap_wf h bl -> lfree_ok h bl -> exists l1 l2, bl = l1 ++ l2 /\ 0 <= lfree h
  /\ blocks (memory h) (last_off 0 l1) (lfree h) l2 (heap_end h).
Proof.
  intros W [[E _]|(b & (l1 & l2 & ->)%list_elem_of_split & _ & <-)].
  - exists bl, []. rewrite app_nil_r, E. split; [done|]. pose proof (wf_layout _ _ W) as [_ _ ? _]. split; [lia|done].
  - exists l1, (b :: l2). split; [done|]. pose proof (layout_placed _ _ _ _ _ (wf_layout _ _ W)) as P.
    split; [apply P|]. pose proof (lay_rest _ _ _ (wf_layout _ _ W)) as [Hc _].
    apply chain_app in Hc as (x & _ & Hc). pose proof Hc as (-> & _). done.
Qed.

Lemma update_lfree_ok h l1 x n l2 : heap_wf h (l1 ++ Blk x n true :: l2) ->
  lfree h = x \/ lfree_ok h (l1 ++ Blk x n true :: l2) ->
  exists l, update_lfree x h = Ok (with_lfree l h) /\ lfree_ok (with_lfree l h) (l1 ++ Blk x n true :: l2).
Proof.
  intros W HF. pose proof (wf_layout _ _ W) as HL. pose proof (layout_placed _ _ _ _ _ HL) as P.
  unfold update_lfree. destruct (Z.eqb_spec x (lfree h)) as [E|Hne].
  - pose proof HL as [_ Hlen _ [Hc Hlast]]. apply chain_app in Hc as (y & _ & Hc).
    assert (y = x) as -> by (cbn in Hc; naive_solver). pose proof (pl_pos _ _ _ _ _ P). cbn [off] in *.
    destruct (next_free_ok (S (length (memory h))) h _ x _ Hc) as (l & El & Hl); [done|done|done|lia|].
    rewrite <- E, El, bind_ret_l. exists l. destruct Hl as [[-> Eu]|(k & Hk & Eu)]; rewrite Eu, bind_ret_l.
    + rewrite Z.eqb_refl. cbn. split; [done|]. left. split; [done|]. exists (Blk x n true). split; [set_solver|done].
    + rewrite orb_true_r. cbn. split; [done|]. right. exists (Blk l k false). split; [apply list.elem_of_app; by right|done].
  - destruct HF as [HF|HF]; [lia|]. exists (lfree h). by destruct h.
Qed.

Lemma used_bound m pv a l e : blocks m pv a l e -> 0 <= used_total l <= e - a.
Proof.
  revert pv a. induction l as [|b l IH]; intros pv a; cbn [blocks used_total]; [lia|].
  intros (_ & ? & _ & _ & H). apply IH in H. destruct (usd b); lia.
Qed.

(** What is left of a free block of [n] bytes at [x] when [k] are taken. *)
Definition remains (x n k : Z) (tail : list blk) : Prop := k = n /\ tail = [] \/ tail = [Blk (x + k) (n - k) false].

Lemma account_wf h bl bl' n m : heap_wf h bl -> layout m (heap_end h) bl' -> used_total bl' = used_total bl + n ->
  heap_wf (account n (with_memory m h)) bl'.
Proof.
  intros W HL HU. eapply wf_with; [exact W|done|done|]. cbn. rewrite (wf_used _ _ W), <- HU. apply u32_id.
  destruct HL as [_ _ ? [Hc _]]. apply used_bound in Hc. unfold is_u32. lia.
Qed.

Lemma malloc_split_ok h l1 x n l2 size : heap_wf h (l1 ++ Blk x n false :: l2) -> 12 <= size -> size mod 4 = 0 -> size <= n - 12 ->
  exists h' k tail, malloc_split size x h = Ok h' /\ in_place h h' /\ lfree h' = lfree h /\ remains x n k tail /\ size <= k - 12
  /\ heap_wf h' (l1 ++ Blk x k true :: tail ++ l2) /\ dsame (l1 ++ l2) (memory h) (memory h').
Proof.
  intros W Hs Hs4 Hn. pose proof (wf_layout _ _ W) as HL. pose proof (layout_placed _ _ _ _ _ HL) as P.
  pose proof P as [X1 X2 X3 X4 X5 X6 X7]. destruct (layout_get _ _ _ _ _ _ _ HL) as (_ & _ & En & _).
  pose proof HL as [_ _ Hsm _]. cbn [off sz usd] in *. unfold malloc_split. rewrite En, bind_ret_l.
  unfold SIZEOF_STRUCT_MEM, MIN_SIZE_ALIGNED. rewrite !u32_id by (unfold is_u32; lia).
  destruct (Z.leb_spec (size + 12 + 12) (x + n - (x + 12))) as [Hsplit|Hwhole].
  - destruct (carve_ok _ _ _ _ _ (size + 12) _ _ HL) as (m1 & E1 & C1 & D1); [lia..|].
    replace (x + 12 + size) with (x + (size + 12)) by lia. rewrite E1, bind_ret_l.
    destruct (carved_used _ _ _ _ _ _ _ true _ C1) as (m2 & E2 & C2 & D2). cbn in E2. rewrite E2, bind_ret_l.
    destruct (relink_ok _ _ _ _ _ _ _ _ C2) as (m3 & E3 & L3 & D3). rewrite <- (wf_end _ _ W), E3, bind_ret_l.
    eexists _, (size + 12), [Blk (x + (size + 12)) (n - (size + 12)) false]. split; [done|]. do 2 (split; [done|]).
    split; [by right|]. split; [lia|]. split.
    + eapply account_wf; [exact W|done|]. cbn [app]. rewrite !used_total_app. cbn. lia.
    + cbn. eapply dsame_trans; [eapply dsame_trans|]; (eapply dsame_mono; [eassumption|]); set_solver.
  - destruct (set_used_layout _ _ _ _ _ _ true _ HL) as (m1 & E1 & L1 & U1). cbn in E1. rewrite E1, bind_ret_l.
    destruct (layout_get _ _ _ _ _ _ _ L1) as (_ & _ & En1 & _). rewrite En1, bind_ret_l.
    eexists _, n, []. split; [done|]. do 2 (split; [done|]). split; [by left|]. split; [lia|]. split.
    + eapply account_wf; [exact W|done|]. cbn [app]. rewrite !used_total_app. cbn. lia.
    + cbn. eapply hupd_dsame; [exact U1|]. intros c Hc. destruct (placed_around _ _ _ _ _ c P Hc) as (? & ? & ? & _).
      cbn [off sz] in *. lia.
Qed.

Lemma lfree_taken h l1 x n k tail l2 h' : lfree_ok h (l1 ++ Blk x n false :: l2) -> in_place h h' -> lfree h' = lfree h ->
  lfree h' = x \/ lfree_ok h' (l1 ++ Blk x k true :: tail ++ l2).
Proof.
  intros [[E _]|(b & Hb & Hf & Ho)] (_ & Ee & _) El.
  { right. left. split; [congruence|]. exists (Blk x k true). split; [set_solver|done]. }
  apply list.elem_of_app in Hb as [Hb|[->|Hb]%list.elem_of_cons]; [|left; cbn in Ho; congruence|];
    right; right; exists b; (split; [set_solver|split; [done|congruence]]).
Qed.

Lemma solid_taken l1 x n k tail l2 : solid (l1 ++ Blk x n false :: l2) -> remains x n k tail ->
  solid (l1 ++ Blk x k true :: tail ++ l2).
Proof.
  intros (H1 & H2 & He & Hb)%solid_free [[_ ->]| ->]; [by apply solid_used|].
  apply solid_used; [done|]. cbn [app]. apply solid_cons. by rewrite Hb.
Qed.

Lemma malloc_found_ok h l1 x n l2 size : heap_wf h (l1 ++ Blk x n false :: l2) -> lfree_ok h (l1 ++ Blk x n false :: l2) ->
  solid (l1 ++ Blk x n false :: l2) -> heap_sem h = 0 -> 12 <= size -> size mod 4 = 0 -> size <= n - 12 ->
  exists h' k tail, malloc_found size x h = Ok (heap_ptr h + x + 12, h') /\ heap_ptr h' = heap_ptr h
  /\ mem_size_aligned h' = mem_size_aligned h
  /\ remains x n k tail /\ size <= k - 12 /\ heap_ok h' (l1 ++ Blk x k true :: tail ++ l2)
  /\ dsame (l1 ++ l2) (memory h) (memory h').
Proof.
  intros W LF HS Hsem Hs Hs4 Hn. unfold malloc_found.
  destruct (malloc_split_ok h l1 x n l2 size W Hs Hs4 Hn) as (h1 & k & tail & E1 & I1 & F1 & R1 & K1 & W1 & D1).
  rewrite E1, bind_ret_l. pose proof (wf_layout _ _ W1) as HL1.
  destruct (set_magic_layout _ _ _ _ _ _ _ HL1) as (m2 & E2 & L2 & U2). rewrite E2, bind_ret_l.
  assert (heap_wf (with_memory m2 h1) (l1 ++ Blk x k true :: tail ++ l2)) as W2
    by (eapply wf_with; [exact W1|done|done|apply (wf_used _ _ W1)]).
  destruct (update_lfree_ok (with_memory m2 h1) l1 x k (tail ++ l2) W2) as (l & E3 & LF3);
    [by eapply lfree_taken|].
  rewrite E3, bind_ret_l. destruct I1 as (Ip & Ie & Im & Is). cbn.
  pose proof (layout_placed _ _ _ _ _ L2) as P. pose proof P as [X1 X2 X3 X4 X5 X6 X7]. cbn [off sz usd] in *.
  unfold SIZEOF_STRUCT_MEM. rewrite (proj2 (Z.leb_le (x + 12 + size) (heap_end h1))) by lia.
  pose proof (layout_aligned _ _ _ _ _ L2) as Hx. cbn [off] in Hx.
  destruct (wf_ptr _ _ W) as (Hp & Hp4 & _).
  rewrite Ip, (proj2 (Z.eqb_eq ((heap_ptr h + x + 12) mod 4) 0)) by lia.
  rewrite land_3, (proj2 (Z.eqb_eq ((heap_ptr h + x) mod 4) 0)) by lia. cbn [heap_assert]. rewrite !bind_ret_l.
  eexists _, k, tail. split; [done|]. cbn. do 4 (split; [done|]). split.
  - split; [|exact LF3|by eapply solid_taken|cbn; lia]. apply (wf_sem (with_lfree l (with_memory m2 h1))).
    eapply wf_with; [exact W1|done..|apply (wf_used _ _ W1)].
  - eapply dsame_trans; [exact D1|]. eapply hupd_dsame; [exact U2|]. intros c Hc.
    destruct (placed_around _ _ _ _ _ c P) as (? & ? & ? & _); [set_solver|]. cbn [off sz] in *. lia.
Qed.

(** ** The interface on the chain *)

Lemma land_align x : is_u32 x -> Z.land x 0xFFFFFFFC = x / 4 * 4.
Proof.
  intros Hx. change 0xFFFFFFFC with (Z.shiftl (Z.ones 30) 2). unfold is_u32 in Hx.
  assert (Z.land x (Z.shiftl (Z.ones 30) 2) = Z.shiftl (Z.land (Z.shiftr x 2) (Z.ones 30)) 2) as ->.
  { apply Z.bits_inj'. intros n Hn. rewrite Z.land_spec, !Z.shiftl_spec by done.
    destruct (decide (n < 2)); [rewrite !(Z.testbit_neg_r _ (n - 2)) by lia; apply andb_false_r|].
    rewrite Z.land_spec, Z.shiftr_spec by lia. by replace (n - 2 + 2) with n by lia. }
  rewrite Z.land_ones, Z.shiftr_div_pow2, Z.shiftl_mul_pow2 by lia. change (2 ^ 2) with 4. change (2 ^ 30) with 1073741824.
  rewrite Z.mod_small by lia. done.
Qed.
Lemma RT_ALIGN_ok s : is_u32 s -> RT_ALIGN s mod 4 = 0 /\ 0 <= RT_ALIGN s
  /\ (s <= 0xFFFFFFFC -> s <= RT_ALIGN s < s + 4) /\ (0xFFFFFFFC < s -> RT_ALIGN s = 0).
Proof.
  intros Hs. unfold RT_ALIGN. rewrite land_align by apply u32_range. unfold u32, is_u32 in *. lia.
Qed.
Lemma RT_ALIGN_id s : is_u32 s -> s mod 4 = 0 -> RT_ALIGN s = s.
Proof. intros Hs H4. unfold RT_ALIGN. rewrite land_align by apply u32_range. unfold u32, is_u32 in *. lia. Qed.

Definition request (size : Z) : Z := Z.max 12 (RT_ALIGN size).

Lemma with_sem_id h v : heap_sem h = v -> with_sem v h = h.
Proof. intros <-. by destruct h. Qed.

Lemma rt_malloc_ok h bl size : heap_ok h bl -> is_u32 size ->
  (rt_malloc size h = Ok (0, h)
   /\ (size = 0 \/ mem_size_aligned h < RT_ALIGN size \/
       forall b, b ∈ bl -> usd b = false -> lfree h <= off b -> request size <= sz b - 12 ->
         mem_size_aligned h - request size <= off b))
  \/ exists h' l1 x n l2 k tail, rt_malloc size h = Ok (heap_ptr h + x + 12, h') /\ heap_ptr h' = heap_ptr h
     /\ mem_size_aligned h' = mem_size_aligned h /\ bl = l1 ++ Blk x n false :: l2 /\ remains x n k tail
     /\ request size <= k - 12 /\ size <> 0 /\ heap_ok h' (l1 ++ Blk x k true :: tail ++ l2)
     /\ dsame (l1 ++ l2) (memory h) (memory h').
Proof.
  intros [W LF HS Hsem] Hsz. destruct (RT_ALIGN_ok size Hsz) as (A4 & A0 & _). unfold rt_malloc.
  destruct (Z.eqb_spec size 0) as [|Hnz]; [left; auto|].
  destruct (Z.ltb_spec (mem_size_aligned h) (RT_ALIGN size)) as [|Hfit]; [left; auto|].
  replace (if RT_ALIGN size <? MIN_SIZE_ALIGNED then MIN_SIZE_ALIGNED else RT_ALIGN size) with (request size)
    by (unfold request, MIN_SIZE_ALIGNED; destruct (Z.ltb_spec (RT_ALIGN size) 12); lia).
  unfold take_heap_sem. rewrite Hsem. cbn [Z.ltb Z.compare]. rewrite bind_ret_l.
  change (1 - 1) with 0. set (h0 := with_sem 0 h). pose proof (wf_size _ _ W) as [Hm _].
  destruct (from_lfree h bl W LF) as (l1 & l2 & -> & Hl0 & Hc). pose proof (wf_layout _ _ W) as [_ Hlen Hsm _].
  pose proof (malloc_search_ok (S (length (memory h0))) (request size) h0 _ (lfree h) l2 Hc Hl0 Hlen
    (wf_end _ _ W) ltac:(cbn; lia) ltac:(unfold request; cbn; lia) ltac:(cbn in *; lia)) as Hsearch.
  change (lfree h0) with (lfree h).
  destruct (malloc_search _ _ _ _) as [[x|]|]; [right|left|done]; rewrite bind_ret_l.
  - destruct Hsearch as (la & n & lb & -> & Hn). rewrite app_assoc in W, LF, HS.
    destruct (malloc_found_ok h0 (l1 ++ la) x n lb (request size)) as (h' & k & tail & E & Ep & Em & R & K & O & D);
      [by apply wf_sem|done|done|done|unfold request; lia|unfold request; lia|done|].
    exists h', (l1 ++ la), x, n, lb, k, tail. split; [exact E|]. do 2 (split; [done|]).
    split; [by rewrite app_assoc|]. done.
  - split; [change (release_heap_sem h0) with (with_sem 1 h); by rewrite with_sem_id|]. right. right.
    intros b Hb Hf Hle Hr. apply Hsearch; [|done|done].
    apply list.elem_of_app in Hb as [Hb|Hb]; [|done].
    pose proof (lay_rest _ _ _ (wf_layout _ _ W)) as [Hall _]. apply chain_app in Hall as (y & H1 & H2).
    destruct (chain_in _ _ _ _ _ _ H1 Hb) as (? & ? & ? & _).
    assert (lfree h = y) as Ey; [|lia]. clear -Hc H2 H1. destruct l2 as [|c l2]; cbn in *; naive_solver.
Qed.

Lemma rt_free_ok h l1 x n l2 : heap_ok h (l1 ++ Blk x n true :: l2) ->
  exists h' bl', rt_free (heap_ptr h + x + 12) h = Ok h' /\ heap_ptr h' = heap_ptr h
  /\ mem_size_aligned h' = mem_size_aligned h /\ heap_ok h' bl' /\ h_used (hdr_at (memory h') x) = 0
  /\ (forall c, usd c = true -> c ∈ bl' <-> c ∈ l1 ++ l2)
  /\ dsame (filter (fun c => usd c = true) (l1 ++ l2)) (memory h) (memory h').
Proof.
  intros [W LF HS Hsem]. pose proof (wf_layout _ _ W) as HL. pose proof (layout_placed _ _ _ _ _ HL) as P.
  pose proof (layout_aligned _ _ _ _ _ HL) as Hx4. pose proof P as [X1 X2 X3 X4 X5 X6 X7].
  destruct (wf_ptr _ _ W) as (Hp & Hp4 & Hp32). pose proof HL as [_ Hlen Hsm _].
  destruct (layout_get _ _ _ _ _ _ _ HL) as (Em & Eu & _). cbn [off sz usd] in *.
  unfold rt_free. rewrite (proj2 (Z.eqb_neq (heap_ptr h + x + 12) 0)), land_3 by lia.
  rewrite (proj2 (Z.eqb_eq ((heap_ptr h + x + 12) mod 4) 0)) by lia. unfold outside.
  rewrite (proj2 (Z.ltb_ge (heap_ptr h + x + 12) (heap_ptr h))), (proj2 (Z.leb_gt (heap_ptr h + heap_end h) (heap_ptr h + x + 12))) by lia.
  cbn [orb negb heap_assert]. rewrite !bind_ret_l. unfold take_heap_sem. rewrite Hsem. cbn [Z.ltb Z.compare].
  rewrite bind_ret_l. replace (heap_ptr h + x + 12 - heap_ptr h - SIZEOF_STRUCT_MEM) with x by (unfold SIZEOF_STRUCT_MEM; lia).
  cbn [memory with_sem]. rewrite Eu, bind_ret_l, Em, bind_ret_l. rewrite Z.eqb_refl. cbn [Z.b2z Z.eqb negb heap_assert]. rewrite !bind_ret_l.
  destruct (set_used_layout _ _ _ _ _ _ false _ HL) as (m1 & E1 & L1 & U1). cbn in E1. rewrite E1, bind_ret_l.
  destruct (set_magic_layout _ _ _ _ _ _ _ L1) as (m2 & E2 & L2 & U2). rewrite E2, bind_ret_l.
  pose proof (hupd_trans _ _ _ _ _ _ U1 U2) as U. cbn zeta. set (h1 := if _ <? _ then _ else _).
  assert (in_place (with_sem (1 - 1) h) h1 /\ memory h1 = m2 /\ used_mem h1 = used_mem h) as (I1 & M1 & Hus).
  { unfold h1. by destruct (x <? _). }
  rewrite M1. destruct (layout_get _ _ _ _ _ _ _ L2) as (_ & _ & En & _). rewrite En, bind_ret_l.
  set (h2 := with_used _ _ h1). assert (in_place (with_sem (1 - 1) h) h2) as I2 by exact I1.
  assert (heap_wf h2 (l1 ++ Blk x n false :: l2)) as W2.
  { eapply wf_with; [apply wf_sem, W|exact I2| |].
    - cbn. rewrite M1. destruct I1 as (_ & -> & _). exact L2.
    - cbn. rewrite Hus, (wf_used _ _ W), !used_total_app. cbn. rewrite u32_id; [lia|].
      pose proof (lay_rest _ _ _ HL) as [Hc _]. apply used_bound in Hc. rewrite used_total_app in Hc. cbn in Hc.
      destruct (used_bound _ _ _ _ _ X1), (used_bound _ _ _ _ _ (proj1 X7)). unfold is_u32. lia. }
  assert (lfree_ok h2 (l1 ++ Blk x n false :: l2)) as LF2.
  { unfold lfree_ok. destruct I2 as (_ & -> & _). cbn. unfold h1. cbn. destruct (Z.ltb_spec x (lfree h)); cbn.
    - right. exists (Blk x n false). split; [set_solver|done].
    - destruct LF as [[? _]|(b & Hb & Hf & Ho)]; [lia|]. right. exists b. split; [|done].
      apply list.elem_of_app in Hb as [Hb|[->|Hb]%list.elem_of_cons]; [set_solver|done|set_solver]. }
  destruct (solid_parts _ _ _ HS) as [HS1 HS2].
  destruct (plug_holes_ok h2 l1 x n l2 W2 LF2 HS1 HS2) as (h3 & bl' & E3 & I3 & W3 & LF3 & S3 & U3 & C3 & D3).
  rewrite E3, bind_ret_l. exists (release_heap_sem h3), bl'. split; [done|].
  pose proof (in_place_trans _ _ _ I2 I3) as (Ip & Ie & Iz & Is). cbn in Ip, Ie, Iz, Is.
  split; [done|]. split; [done|]. split; [split; [by apply wf_sem|done|done|cbn; lia]|]. split; [done|]. split; [done|].
  eapply dsame_trans; [|exact D3]. cbn. rewrite M1. eapply hupd_dsame; [exact U|].
  intros c [_ Hc]%list_elem_of_filter. destruct (placed_around _ _ _ _ _ c P Hc) as (? & ? & ? & _). cbn [off sz] in *. lia.
Qed.
