(* ===== verification/KernelHeap.v ===== *)
(** * The heap as a store of disjoint areas

    What an application sees of src/mem.c: a finite map from the addresses it
    was given to the bytes it keeps there.  The allocator's chain of blocks
    represents such a map, and every operation of the interface moves from one
    map to the next as its description says. *)
From stdpp Require Import gmap.
From S2P Require Import Prelude KernelService KernelMem.

(** ** Blocks and areas *)

(** The used blocks are exactly the areas of [live], which hold their bytes. *)
Record backed (h : heap) (K : list blk) (live : gmap Z (list Z)) : Prop := {
  bk_live : forall p l, live !! p = Some l -> exists x n, Blk x n true ∈ K /\ p = heap_ptr h + x + 12
    /\ Z.of_nat (length l) <= n - 12 /\ slice (memory h) (x + 12) (Z.of_nat (length l)) = l;
  bk_used : forall x n, Blk x n true ∈ K -> is_Some (live !! (heap_ptr h + x + 12)) }.

Definition represents (h : heap) (live : gmap Z (list Z)) : Prop := exists bl, heap_ok h bl /\ backed h bl live.

(** No used block of [K] starts at [x]. *)
Definition vacant (K : list blk) (x : Z) : Prop := forall n, Blk x n true ∉ K.

Lemma layout_vacant m e l1 b l2 : layout m e (l1 ++ b :: l2) -> vacant (l1 ++ l2) (off b).
Proof.
  intros HL n Hc. pose proof (layout_placed _ _ _ _ _ HL) as P. pose proof (pl_size _ _ _ _ _ P).
  destruct (placed_around _ _ _ _ _ _ P Hc) as (? & ? & ? & _). cbn [off sz] in *. lia.
Qed.

Lemma heap_room h bl b : heap_wf h bl -> b ∈ bl -> 0 <= off b /\ 16 <= sz b /\ off b + sz b <= heap_end h
  /\ off b mod 4 = 0 /\ room (memory h) (off b + 12) (sz b - 12).
Proof.
  intros W (l1 & l2 & ->)%list_elem_of_split. pose proof (wf_layout _ _ W) as HL.
  pose proof (layout_placed _ _ _ _ _ HL) as P. pose proof (layout_aligned _ _ _ _ _ HL).
  pose proof (pl_pos _ _ _ _ _ P). pose proof (pl_size _ _ _ _ _ P). pose proof (pl_end _ _ _ _ _ P).
  destruct HL as [_ ? _ _]. unfold room. lia.
Qed.

Lemma backed_remove h l1 x n l2 live : backed h (l1 ++ Blk x n true :: l2) live -> vacant (l1 ++ l2) x ->
  backed h (l1 ++ l2) (delete (heap_ptr h + x + 12) live).
Proof.
  intros [B1 B2] V. split.
  - intros p l [Hp Hl]%lookup_delete_Some. destruct (B1 p l Hl) as (y & k & Hy & -> & ? & ?).
    exists y, k. repeat split; try done. apply list.elem_of_app in Hy as [?|[?|?]%list.elem_of_cons]; [set_solver| |set_solver].
    simplify_eq.
  - intros y k Hy. rewrite lookup_delete_ne; [apply (B2 y k); set_solver|]. intros E. assert (y = x) as -> by lia.
    by apply (V k).
Qed.

Lemma backed_move h K live h' K' : backed h K live -> heap_ptr h' = heap_ptr h ->
  (forall c, usd c = true -> c ∈ K' <-> c ∈ K) -> dsame (filter (fun c => usd c = true) K) (memory h) (memory h') ->
  (forall c, c ∈ K -> 0 <= off c /\ room (memory h) (off c + 12) (sz c - 12)) -> length (memory h') = length (memory h) ->
  backed h' K' live.
Proof.
  intros [B1 B2] Ep HK HD HR HL. split.
  - intros p l Hl. destruct (B1 p l Hl) as (x & n & Hx & -> & Hn & Hs). exists x, n. split; [by apply HK|].
    rewrite Ep. do 2 (split; [done|]). rewrite <- Hs at 2. destruct (HR _ Hx) as [? R]. cbn [off sz] in *.
    apply slice_ext; [lia|unfold room in *; lia|unfold room in *; lia|]. intros i Hi.
    apply (HD (Blk x n true)); [by apply list_elem_of_filter|cbn; lia].
  - intros x n Hx. rewrite Ep. apply (B2 x n). by apply HK in Hx.
Qed.

Lemma backed_add h K live K' x k n : backed h K live -> (forall c, usd c = true -> c ∈ K' <-> c ∈ K \/ c = Blk x k true) ->
  vacant K x -> 0 <= n <= k - 12 -> room (memory h) (x + 12) n ->
  backed h K' (<[heap_ptr h + x + 12 := slice (memory h) (x + 12) n]> live)
  /\ live !! (heap_ptr h + x + 12) = None.
Proof.
  intros [B1 B2] HK V Hn HR. split; [split|].
  - intros p l [[<- <-]|[Hp Hl]]%lookup_insert_Some.
    + exists x, k. rewrite length_slice by (done || lia). split; [apply HK; auto|]. split; [done|]. split; [lia|done].
    + destruct (B1 p l Hl) as (y & j & Hy & -> & ? & ?). exists y, j. split; [apply HK; auto|]. by repeat split.
  - intros y j [Hy|Hy]%HK; [| |done].
    + apply lookup_insert_is_Some. destruct (decide (heap_ptr h + x + 12 = heap_ptr h + y + 12)); [by left|].
      right. split; [done|]. by apply (B2 y j).
    + simplify_eq. rewrite lookup_insert_eq. by eexists.
  - destruct (live !! (heap_ptr h + x + 12)) as [l|] eqn:E; [|done]. exfalso.
    destruct (B1 _ _ E) as (y & j & Hy & Ey & _). assert (y = x) as -> by lia. by apply (V j).
Qed.

(** ** The operations on the map *)

Lemma heap_length h h' bl bl' : heap_ok h bl -> heap_ok h' bl' -> mem_size_aligned h' = mem_size_aligned h ->
  length (memory h') = length (memory h).
Proof.
  intros O O' Em. pose proof (wf_layout _ _ (ok_wf _ _ O)) as [_ ? _ _]. pose proof (wf_layout _ _ (ok_wf _ _ O')) as [_ ? _ _].
  pose proof (wf_end _ _ (ok_wf _ _ O)). pose proof (wf_end _ _ (ok_wf _ _ O')). lia.
Qed.

Lemma request_ge size : is_u32 size -> size <= 0xFFFFFFFC -> size <= request size.
Proof. intros Hs Hle. destruct (RT_ALIGN_ok size Hs) as (_ & _ & H & _). specialize (H Hle). unfold request. lia. Qed.

(** The new area was not live, and the old blocks stay. *)
Lemma malloc_backed h bl live size : heap_ok h bl -> backed h bl live -> 0 <= size <= 0xFFFFFFFC ->
  rt_malloc size h = Ok (0, h) \/ exists p h', rt_malloc size h = Ok (p, h') /\ 0 < p /\ heap_ptr h' = heap_ptr h
    /\ mem_size_aligned h' = mem_size_aligned h /\ live !! p = None
    /\ Z.of_nat (length (slice (memory h') (p - heap_ptr h') size)) = size
    /\ exists bl', heap_ok h' bl' /\ backed h' bl' (<[p := slice (memory h') (p - heap_ptr h') size]> live)
       /\ forall c, usd c = true -> c ∈ bl -> c ∈ bl'.
Proof.
  intros O B Hs. assert (is_u32 size) as Hu by (unfold is_u32; lia).
  destruct (rt_malloc_ok h bl size O Hu) as [[E _]|(h' & l1 & x & n & l2 & k & tail & E & Ep & Em & -> & R & K & _ & O' & D)];
    [by left|right].
  pose proof (request_ge size Hu ltac:(lia)) as Hreq. pose proof (heap_length _ _ _ _ O O' Em) as HL.
  exists (heap_ptr h + x + 12), h'. split; [done|]. destruct (wf_ptr _ _ (ok_wf _ _ O)) as (Hp & _).
  destruct (heap_room h' _ (Blk x k true) (ok_wf _ _ O')) as (? & ? & ? & ? & HR); [set_solver|]. cbn [off sz] in *.
  split; [lia|]. do 2 (split; [done|]).
  assert (backed h' (l1 ++ l2) live) as B'.
  { eapply backed_move; [exact B|done| | | |done].
    - intros c Hc. rewrite !list.elem_of_app, list.elem_of_cons. split; [naive_solver|]. intros [?|[->|?]]; [by left|done|by right].
    - intros c [Hc Hin]%list_elem_of_filter. apply D. apply list.elem_of_app in Hin as [?|[->|?]%list.elem_of_cons]; [set_solver|done|set_solver].
    - intros c Hc. destruct (heap_room h _ c (ok_wf _ _ O) Hc) as (? & _ & _ & _ & ?). done. }
  destruct (backed_add h' (l1 ++ l2) live (l1 ++ Blk x k true :: tail ++ l2) x k size B') as [B2 V].
  - intros c Hc. rewrite !list.elem_of_app, list.elem_of_cons, list.elem_of_app. split; [|naive_solver].
    intros [?|[?|[Ht|?]]]; [by left; left|by right| |by left; right]. destruct R as [[_ ->]| ->]; [by apply list.not_elem_of_nil in Ht|].
    by apply list_elem_of_singleton in Ht as ->.
  - exact (layout_vacant _ _ _ _ _ (wf_layout _ _ (ok_wf _ _ O))).
  - lia.
  - unfold room in *. lia.
  - rewrite Ep in B2, V. split; [done|].
    split; [apply length_slice; [|lia]; rewrite Ep; unfold room in *; lia|]. exists (l1 ++ Blk x k true :: tail ++ l2). split; [done|].
    rewrite Ep. replace (heap_ptr h + x + 12 - heap_ptr h) with (x + 12) by lia. split; [done|].
    intros c Hc [?|[->|?]%list.elem_of_cons]%list.elem_of_app; [set_solver|done|set_solver].
Qed.

Lemma free_represents h live p : represents h live -> is_Some (live !! p) ->
  exists h', rt_free p h = Ok h' /\ heap_ptr h' = heap_ptr h /\ mem_size_aligned h' = mem_size_aligned h
  /\ represents h' (delete p live).
Proof.
  intros (bl & O & B) [l Hl]. destruct (bk_live _ _ _ B _ _ Hl) as (x & n & (l1 & l2 & ->)%list_elem_of_split & -> & _).
  destruct (rt_free_ok h l1 x n l2 O) as (h' & bl' & E & Ep & Em & O' & _ & HK & D).
  exists h'. do 3 (split; [done|]). exists bl'. split; [done|].
  eapply backed_move; [apply (backed_remove h l1 x n l2); [exact B|]|exact Ep|exact HK|exact D| |by eapply heap_length].
  - exact (layout_vacant _ _ _ _ _ (wf_layout _ _ (ok_wf _ _ O))).
  - intros c Hc. destruct (heap_room h _ c (ok_wf _ _ O)) as (? & _ & _ & _ & ?); [set_solver|done].
Qed.

(** An area keeps its place: new bytes, a new length or a smaller block. *)
Lemma backed_replace h l1 x n l2 live h' bl' k j : heap_ok h (l1 ++ Blk x n true :: l2) ->
  backed h (l1 ++ Blk x n true :: l2) live -> heap_ok h' bl' -> heap_ptr h' = heap_ptr h ->
  mem_size_aligned h' = mem_size_aligned h -> (forall c, usd c = true -> c ∈ bl' <-> c ∈ l1 ++ l2 \/ c = Blk x k true) ->
  dsame (filter (fun c => usd c = true) (l1 ++ l2)) (memory h) (memory h') -> 0 <= j <= k - 12 ->
  represents h' (<[heap_ptr h + x + 12 := slice (memory h') (x + 12) j]> live).
Proof.
  intros O B O' Ep Em HK HD Hj.
  pose proof (layout_vacant _ _ _ _ _ (wf_layout _ _ (ok_wf _ _ O))) as V. cbn [off] in V.
  assert (backed h' (l1 ++ l2) (delete (heap_ptr h + x + 12) live)) as B'.
  { eapply backed_move; [by apply (backed_remove h l1 x n l2)|done|done|done| |by eapply heap_length].
    intros c Hc. destruct (heap_room h _ c (ok_wf _ _ O)) as (? & _ & _ & _ & ?); [set_solver|done]. }
  destruct (heap_room h' bl' (Blk x k true) (ok_wf _ _ O')) as (? & ? & ? & ? & HR); [apply HK; auto|]. cbn [off sz] in *.
  destruct (backed_add h' _ _ bl' x k j B' HK V Hj) as [B2 _]; [unfold room in *; lia|].
  rewrite Ep, insert_delete_eq in B2. by exists bl'.
Qed.

(** Bytes written inside a block leave the chain alone. *)
Lemma layout_write m e l1 b l2 m' a n f : layout m e (l1 ++ b :: l2) -> written m m' a n f ->
  off b + 12 <= a -> 0 <= n -> a + n <= off b + sz b -> (forall i, 0 <= i < n -> is_u8 (f i)) ->
  layout m' e (l1 ++ b :: l2) /\ dsame (l1 ++ l2) m m'.
Proof.
  intros HL W Ha Hn Hb Hf. pose proof (layout_placed _ _ _ _ _ HL) as P. pose proof HL as [Bm Lm Sm [Hc Hu]].
  pose proof (pl_pos _ _ _ _ _ P). pose proof (pl_end _ _ _ _ _ P). pose proof W as [L R].
  assert (forall z, 0 <= z -> z + 12 <= a \/ a + n <= z -> hdr_at m' z = hdr_at m z) as Hh.
  { intros z Hz Hd. apply hdr_at_ext; [done|]. intros i Hi. rewrite R by lia. by rewrite decide_False by lia. }
  split.
  - split; [by eapply written_bytes|lia|done|]. split; [|by rewrite Hh by lia]. eapply chain_frame; [done|].
    intros c Hin. destruct (decide (c = b)) as [->|Hne]; [apply Hh; lia|].
    destruct (placed_around _ _ _ _ _ c P) as (? & ? & ? & _); [set_solver|]. apply Hh; lia.
  - intros c Hin i Hi. destruct (placed_around _ _ _ _ _ c P Hin) as (? & ? & ? & _). rewrite R by lia.
    by rewrite decide_False by lia.
Qed.
Lemma dsame_used K m m' : dsame K m m' -> dsame (filter (fun c => usd c = true) K) m m'.
Proof. intros H. eapply dsame_mono; [exact H|]. intros b Hb. by apply list_elem_of_filter in Hb as [_ ?]. Qed.
Lemma dsame_refl K m : dsame K m m.
Proof. by intros b Hb i Hi. Qed.

Lemma write_represents h live p l m' a n f : represents h live -> live !! p = Some l ->
  written (memory h) m' (p - heap_ptr h + a) n f -> 0 <= a -> 0 <= n -> a + n <= Z.of_nat (length l) ->
  (forall i, 0 <= i < n -> is_u8 (f i)) ->
  represents (with_memory m' h) (<[p := slice m' (p - heap_ptr h) (Z.of_nat (length l))]> live).
Proof.
  intros (bl & O & B) Hl W Ha Hn Hlen Hf.
  destruct (bk_live _ _ _ B _ _ Hl) as (x & k & (l1 & l2 & ->)%list_elem_of_split & -> & Hk & _).
  replace (heap_ptr h + x + 12 - heap_ptr h) with (x + 12) in * by lia. pose proof O as [OW OF OS OM].
  destruct (layout_write _ _ _ _ _ _ _ _ _ (wf_layout _ _ OW) W) as [L' D']; [cbn; lia..|done|].
  assert (heap_ok (with_memory m' h) (l1 ++ Blk x k true :: l2)) as O'.
  { split; [|done..]. eapply wf_with; [exact OW|done|done|apply (wf_used _ _ OW)]. }
  apply (backed_replace h l1 x k l2 live (with_memory m' h) (l1 ++ Blk x k true :: l2) k); [done|done|exact O'|done|done| |by apply dsame_used|lia].
  intros c Hc. rewrite list.elem_of_app, list.elem_of_cons, list.elem_of_app. naive_solver.
Qed.

(** ** [rt_realloc] *)

Lemma realloc_shrink_ok h l1 x n l2 newsize : heap_wf h (l1 ++ Blk x n true :: l2) -> lfree_ok h (l1 ++ Blk x n true :: l2) ->
  solid (l1 ++ Blk x n true :: l2) -> 4 <= newsize -> newsize mod 4 = 0 -> newsize + 24 < n - 12 ->
  exists h' bl', realloc_shrink x (n - 12) newsize h = Ok h' /\ in_place h h' /\ heap_wf h' bl' /\ lfree_ok h' bl' /\ solid bl'
  /\ (forall c, usd c = true -> c ∈ bl' <-> c ∈ l1 ++ l2 \/ c = Blk x (newsize + 12) true)
  /\ dsame (Blk x (newsize + 12) true :: filter (fun c => usd c = true) (l1 ++ l2)) (memory h) (memory h').
Proof.
  intros W LF HS Hns Hns4 Hfit. pose proof (wf_layout _ _ W) as HL. pose proof (layout_placed _ _ _ _ _ HL) as P.
  set (k := newsize + 12). unfold realloc_shrink. cbv zeta.
  replace (x + SIZEOF_STRUCT_MEM + newsize) with (x + k) by (unfold SIZEOF_STRUCT_MEM, k; lia).
  set (h0 := with_used _ _ h). change (memory h0) with (memory h). change (mem_size_aligned h0) with (mem_size_aligned h).
  destruct (carve_ok _ _ _ _ _ k _ _ HL) as (m1 & E1 & C1 & D1); [unfold k; lia..|]. rewrite E1, bind_ret_l.
  destruct (relink_ok _ _ _ _ _ _ _ _ C1) as (m2 & E2 & L2 & D2).
  unfold SIZEOF_STRUCT_MEM. rewrite <- (wf_end _ _ W), E2, bind_ret_l.
  set (bl := l1 ++ Blk x k true :: Blk (x + k) (n - k) false :: l2) in *.
  assert (heap_wf (with_memory m2 h0) bl) as W2.
  { eapply wf_with; [exact W|done|done|]. cbn. rewrite (wf_used _ _ W). unfold bl. rewrite !used_total_app. cbn.
    rewrite u32_id; [unfold k; lia|]. pose proof (lay_rest _ _ _ L2) as [Hc _]. apply used_bound in Hc.
    unfold bl in Hc. rewrite used_total_app in Hc. cbn in Hc. pose proof (lay_small _ _ _ L2). unfold is_u32, k in *. lia. }
  assert (lfree_ok (with_memory m2 h0) bl) as LF2.
  { destruct LF as [[? _]|(b & Hb & Hf & Ho)].
    { left. split; [done|]. exists (Blk x k true). unfold bl. split; [set_solver|done]. }
    right. exists b. split; [|done]. unfold bl.
    apply list.elem_of_app in Hb as [Hb|[->|Hb]%list.elem_of_cons]; [set_solver|done|set_solver]. }
  destruct (solid_parts _ _ _ HS) as [HS1 HS2]. unfold bl in W2, LF2.
  rewrite (app_assoc l1 [Blk x k true] _ : l1 ++ Blk x k true :: _ = _) in W2, LF2.
  destruct (plug_holes_ok _ _ _ _ _ W2 LF2) as (h' & bl' & E3 & I3 & W3 & LF3 & S3 & _ & C3 & D3);
    [by apply solid_used|done|].
  exists h', bl'. split; [done|]. do 4 (split; [done|]). split.
  - intros c Hc. rewrite C3 by done. rewrite !list.elem_of_app, list_elem_of_singleton. naive_solver.
  - assert (forall c, c ∈ Blk x k true :: filter (fun c => usd c = true) (l1 ++ l2) ->
      c ∈ l1 ++ Blk x k true :: l2 /\ c ∈ filter (fun c => usd c = true) ((l1 ++ [Blk x k true]) ++ l2)) as Hsub.
    { intros c [->|[Hc Hin]%list_elem_of_filter]%list.elem_of_cons; rewrite list_elem_of_filter; set_solver. }
    eapply dsame_trans; [eapply dsame_trans|]; (eapply dsame_mono; [eassumption|]); intros c Hc; by apply Hsub.
Qed.

Lemma blocks_apart h bl b c : heap_wf h bl -> b ∈ bl -> c ∈ bl -> b <> c ->
  off b + sz b <= off c \/ off c + sz c <= off b.
Proof.
  intros W (l1 & l2 & ->)%list_elem_of_split Hc Hne.
  destruct (placed_around _ _ _ _ _ c (layout_placed _ _ _ _ _ (wf_layout _ _ W))) as (_ & _ & ? & _); [set_solver|lia].
Qed.

Lemma block_unique h bl x n n' : heap_wf h bl -> Blk x n true ∈ bl -> Blk x n' true ∈ bl -> n = n'.
Proof.
  intros W H H'. destruct (decide (Blk x n true = Blk x n' true)) as [[=]|Hne]; [done|].
  pose proof (blocks_apart _ _ _ _ W H H' Hne). destruct (heap_room _ _ _ W H), (heap_room _ _ _ W H'). cbn in *. lia.
Qed.
Lemma slice_room m a n : 0 <= a -> 0 < n -> Z.of_nat (length (slice m a n)) = n -> room m a n.
Proof. intros Ha Hn H. unfold slice in H. rewrite length_take, length_drop in H. unfold room. lia. Qed.

(** Another number of bytes of a block is looked at. *)
Lemma resize_represents h bl live x n j : heap_ok h bl -> backed h bl live -> Blk x n true ∈ bl -> 0 <= j <= n - 12 ->
  represents h (<[heap_ptr h + x + 12 := slice (memory h) (x + 12) j]> live).
Proof.
  intros O B (l1 & l2 & ->)%list_elem_of_split Hj.
  apply (backed_replace h l1 x n l2 live h (l1 ++ Blk x n true :: l2) n); try done.
  intros c Hc. rewrite list.elem_of_app, list.elem_of_cons, list.elem_of_app. naive_solver.
Qed.
Lemma trim_represents h live p l j : represents h live -> live !! p = Some l -> 0 <= j <= Z.of_nat (length l) ->
  represents h (<[p := slice (memory h) (p - heap_ptr h) j]> live).
Proof.
  intros (bl & O & B) Hl Hj. destruct (bk_live _ _ _ B _ _ Hl) as (x & n & Hx & -> & Hn & _).
  replace (heap_ptr h + x + 12 - heap_ptr h) with (x + 12) by lia. eapply resize_represents; [done..|lia].
Qed.
Lemma area_contents h live p l : represents h live -> live !! p = Some l ->
  slice (memory h) (p - heap_ptr h) (Z.of_nat (length l)) = l /\ 0 <= p - heap_ptr h.
Proof.
  intros (bl & O & B) Hl. destruct (bk_live _ _ _ B _ _ Hl) as (x & n & Hx & -> & Hn & Hs).
  replace (heap_ptr h + x + 12 - heap_ptr h) with (x + 12) by lia.
  destruct (heap_room h bl _ (ok_wf _ _ O) Hx) as (? & _). cbn [off] in *. split; [done|lia].
Qed.

(** The bytes of the old area that fit into the new one. *)
Definition carried (l l' : list Z) : Prop :=
  forall i, 0 <= i < Z.min (Z.of_nat (length l)) (Z.of_nat (length l')) -> rd l' i = rd l i.

Lemma carried_slice m a j l : 0 <= a -> room m a j -> 0 <= j -> slice m a (Z.of_nat (length l)) = l -> carried l (slice m a j).
Proof.
  intros Ha HR Hj Hl i Hi. rewrite length_slice in Hi by done. rewrite <- Hl, !rd_slice by lia. done.
Qed.

Lemma realloc_move_ok h bl live x n l A newsize : heap_ok h bl -> backed h bl live -> Blk x n true ∈ bl ->
  live !! (heap_ptr h + x + 12) = Some l -> 0 < newsize <= A -> A <= 0xFFFFFFFC -> A mod 4 = 0 ->
  let p := heap_ptr h + x + 12 in
  realloc_move p (n - 12) A h = Ok (0, h)
  \/ exists q h' l', realloc_move p (n - 12) A h = Ok (q, h') /\ 0 < q /\ live !! q = None
     /\ heap_ptr h' = heap_ptr h /\ mem_size_aligned h' = mem_size_aligned h
     /\ Z.of_nat (length l') = newsize /\ carried l l' /\ represents h' (<[q := l']> (delete p live)).
Proof.
  intros O B Hx Hl Hns HA HA4 p. unfold realloc_move.
  destruct (malloc_backed h bl live A O B ltac:(lia)) as [E|(q & h1 & E & Hq & Ep & Em & Vq & Hlqn & bl1 & O1 & B1 & Hold)];
    rewrite E, bind_ret_l; [by left|right].
  rewrite (proj2 (Z.eqb_neq q 0)) by lia. set (cnt := if _ <? _ then _ else _).
  assert (cnt = Z.min (n - 12) A) as Hcnt by (unfold cnt; destruct (Z.ltb_spec (n - 12) A); lia).
  set (lq := slice (memory h1) (q - heap_ptr h1) A) in *.
  destruct (bk_live _ _ _ B1 q lq (lookup_insert_eq _ _ _)) as (y & k & Hy & Ey & Hk & Hlq).
  pose proof (Hold (Blk x n true) eq_refl Hx) as Hx1. assert (p <> q) as Hpq by (intros <-; unfold p in Vq; congruence).
  destruct (heap_room _ _ _ (ok_wf _ _ O1) Hx1) as (X0 & X1 & X2 & _ & XR).
  destruct (heap_room _ _ _ (ok_wf _ _ O1) Hy) as (Y0 & Y1 & Y2 & _ & YR). cbn [off sz] in *.
  pose proof (wf_layout _ _ (ok_wf _ _ O1)) as [Hbytes Hlen _ _].
  assert (Blk x n true <> Blk y k true) as Hxy by (intros [= <- _]; unfold p in Hpq; lia).
  pose proof (blocks_apart _ _ _ _ (ok_wf _ _ O1) Hx1 Hy Hxy) as Hapart. cbn [off sz] in Hapart.
  replace (p - heap_ptr h1) with (x + 12) by (unfold p; lia). replace (q - heap_ptr h1) with (y + 12) in * by lia.
  destruct (rt_memcpy_ok (y + 12) (x + 12) cnt (memory h1)) as (m2 & E2 & C2);
    [pose proof (wf_ptr _ _ (ok_wf _ _ O1)); unfold room in *; lia|done|unfold ahead; lia|unfold room in *; lia|unfold room in *; lia|].
  rewrite E2, bind_ret_l. set (live1 := <[q := lq]> live) in *.
  assert (live1 !! q = Some lq) as Hq1 by apply lookup_insert_eq.
  pose proof (write_represents h1 live1 q lq m2 0 cnt (fun i => rd (memory h1) (x + 12 + i)) (ex_intro _ bl1 (conj O1 B1)) Hq1) as R2.
  replace (q - heap_ptr h1 + 0) with (y + 12) in R2 by lia. replace (q - heap_ptr h1) with (y + 12) in R2 by lia.
  specialize (R2 C2 ltac:(lia) ltac:(lia) ltac:(lia) (fun i _ => rd_u8 _ _ Hbytes)). rewrite Hlqn in R2.
  set (l2 := slice m2 (y + 12) A) in *. unfold live1 in R2. rewrite insert_insert_eq in R2.
  destruct (free_represents _ _ p R2) as (h3 & E3 & Ep3 & Em3 & R3).
  { rewrite lookup_insert_ne by done. by exists l. }
  rewrite E3, bind_ret_l, delete_insert_ne in * by done. cbn in Ep3, Em3.
  assert (Z.of_nat (length l2) = A) as Hl2.
  { apply length_slice; [|lia]. destruct C2 as [L2 _]. unfold room in *. rewrite L2. lia. }
  destruct (area_contents _ _ q l2 R3 (lookup_insert_eq _ _ _)) as [Hc3 Hq3]. rewrite Hl2 in Hc3.
  exists q, h3, (slice (memory h3) (q - heap_ptr h3) newsize).
  pose proof (trim_represents _ _ q l2 newsize R3 (lookup_insert_eq _ _ _) ltac:(lia)) as R4. rewrite insert_insert_eq in R4.
  assert (room (memory h3) (q - heap_ptr h3) A) as HR3 by (apply slice_room; [done|lia|by rewrite Hc3]).
  split; [done|]. do 2 (split; [done|]). split; [congruence|]. split; [congruence|].
  split; [apply length_slice; [unfold room in *; lia|lia]|]. split; [|done].
  intros i Hi. rewrite length_slice in Hi by (unfold room in *; lia). rewrite rd_slice by lia.
  rewrite <- (rd_slice (memory h3) (q - heap_ptr h3) A) by lia. rewrite Hc3. unfold l2. rewrite rd_slice by lia.
  destruct (area_contents h1 live1 p l) as [Hlc _]; [by exists bl1|unfold live1; by rewrite lookup_insert_ne by done|].
  replace (p - heap_ptr h1) with (x + 12) in Hlc by (unfold p; lia). destruct C2 as [_ W2]. rewrite W2 by lia.
  destruct (bk_live _ _ _ B _ _ Hl) as (x' & n' & Hx' & Ex' & Hn' & _). assert (x' = x) as -> by lia.
  assert (n' = n) as -> by exact (block_unique _ _ _ _ _ (ok_wf _ _ O) Hx' Hx).
  rewrite decide_True by lia. rewrite <- Hlc at 1. rewrite rd_slice by lia. f_equal. lia.
Qed.

(** What [rt_realloc] does with the area [p] of contents [l]. *)
Definition reallocated (live : gmap Z (list Z)) (p : Z) (l : list Z) (newsize : Z) (h h' : heap) (q : Z) : Prop :=
  q = 0 /\ 0 < newsize /\ h' = h
  \/ q = 0 /\ newsize = 0 /\ represents h' (delete p live)
  \/ 0 < q /\ (q = p \/ live !! q = None) /\ 0 < newsize
     /\ exists l', Z.of_nat (length l') = newsize /\ carried l l' /\ represents h' (<[q := l']> (delete p live)).

(** The bytes of the area when it stays where it is. *)
Lemma stays_carried h l x n j : room (memory h) (x + 12) (n - 12) -> 0 <= x -> 0 <= j <= n - 12 ->
  slice (memory h) (x + 12) (Z.of_nat (length l)) = l ->
  Z.of_nat (length (slice (memory h) (x + 12) j)) = j /\ carried l (slice (memory h) (x + 12) j).
Proof.
  intros R Hx Hj Hl. assert (room (memory h) (x + 12) j) by (unfold room in *; lia).
  split; [by apply length_slice; [|lia]|]. apply carried_slice; [lia|done|lia|done].
Qed.

Lemma realloc_represents h live p l newsize : represents h live -> live !! p = Some l -> 0 <= newsize <= 0xFFFFFFFC ->
  exists q h', rt_realloc p newsize h = Ok (q, h') /\ heap_ptr h' = heap_ptr h
  /\ mem_size_aligned h' = mem_size_aligned h /\ reallocated live p l newsize h h' q.
Proof.
  intros Rep Hl Hns. destruct Rep as (bl & O & B). destruct (bk_live _ _ _ B _ _ Hl) as (x & n & Hx & -> & Hn & Hsl).
  destruct (RT_ALIGN_ok newsize ltac:(unfold is_u32; lia)) as (A4 & A0 & A1 & _). specialize (A1 ltac:(lia)).
  set (p := heap_ptr h + x + 12) in *. unfold rt_realloc. set (A := RT_ALIGN newsize) in *.
  destruct (wf_ptr _ _ (ok_wf _ _ O)) as (Hp & _ & Hp32). pose proof (wf_end _ _ (ok_wf _ _ O)) as He.
  destruct (heap_room _ _ _ (ok_wf _ _ O) Hx) as (X0 & X1 & X2 & X4 & XR). cbn [off sz] in *.
  destruct (Z.ltb_spec (mem_size_aligned h) A); [exists 0, h; do 3 (split; [done|]); left; repeat split; lia|].
  destruct (Z.eqb_spec A 0) as [EA|HA].
  { destruct (free_represents h live p) as (h' & E & ? & ? & R); [by exists bl|by exists l|].
    rewrite E, bind_ret_l. exists 0, h'. do 3 (split; [done|]). right. left. split; [done|]. split; [lia|done]. }
  rewrite (proj2 (Z.eqb_neq p 0)) by (unfold p; lia). unfold take_heap_sem. rewrite (ok_sem _ _ O). cbn [Z.ltb Z.compare].
  rewrite bind_ret_l. change (1 - 1) with 0. change (outside p (with_sem 0 h)) with (outside p h). unfold outside.
  rewrite (proj2 (Z.ltb_ge p (heap_ptr h))), (proj2 (Z.leb_gt (heap_ptr h + heap_end h) p)) by (unfold p; lia). cbn [orb].
  cbn [memory heap_ptr with_sem]. replace (p - heap_ptr h - SIZEOF_STRUCT_MEM) with x by (unfold p, SIZEOF_STRUCT_MEM; lia).
  pose proof Hx as (l1 & l2 & Ebl)%list_elem_of_split. subst bl.
  destruct (layout_get _ _ _ _ _ _ _ (wf_layout _ _ (ok_wf _ _ O))) as (_ & _ & En & _). rewrite En, bind_ret_l.
  pose proof (wf_layout _ _ (ok_wf _ _ O)) as [_ _ Hsm _]. unfold SIZEOF_STRUCT_MEM, MIN_SIZE_ALIGNED.
  replace (x + n - x - 12) with (n - 12) by lia. rewrite !u32_id by (unfold is_u32; lia).
  change (release_heap_sem (with_sem 0 h)) with (with_sem 1 h). rewrite with_sem_id by apply (ok_sem _ _ O).
  destruct (Z.eqb_spec (n - 12) A) as [Esame|Hdiff].
  { exists p, h. do 3 (split; [done|]). right. right. split; [unfold p; lia|]. split; [by left|]. split; [lia|].
    eexists. destruct (stays_carried h l x n newsize XR) as [? ?]; [lia|lia|done|]. do 2 (split; [done|]).
    rewrite insert_delete_eq. eapply resize_represents; [done..|lia]. }
  destruct (Z.ltb_spec (A + 12 + 12) (n - 12)) as [Hshrink|Hmove].
  - destruct (realloc_shrink_ok (with_sem 0 h) l1 x n l2 A) as (h' & bl' & E & I & W' & LF' & S' & C' & D');
      [apply wf_sem, O|apply O|apply O|lia|done|lia|].
    rewrite E, bind_ret_l. destruct I as (Ip & Ie & Im & Is). cbn in Ip, Ie, Im, Is, D'.
    assert (heap_ok (release_heap_sem h') bl') as O' by (split; [by apply wf_sem|done|done|cbn; lia]).
    exists p, (release_heap_sem h'). do 3 (split; [done|]). right. right. split; [unfold p; lia|]. split; [by left|].
    split; [lia|]. eexists. destruct (heap_room _ _ (Blk x (A + 12) true) (ok_wf _ _ O')) as (_ & _ & _ & _ & XR');
      [apply C'; auto|]. cbn [off sz] in XR'.
    split; [|split; [|rewrite insert_delete_eq; eapply (backed_replace h l1 x n l2 live _ bl' (A + 12) newsize);
      [done..| |lia]; eapply dsame_mono; [exact D'|]; intros; by right]].
    + apply length_slice; [unfold room in *; cbn in *; lia|lia].
    + intros i Hi. rewrite length_slice in Hi by (unfold room in *; cbn in *; lia). rewrite <- Hsl, !rd_slice by lia.
      apply (D' (Blk x (A + 12) true)); [by left|cbn; lia].
  - destruct (realloc_move_ok h _ live x n l A newsize O B Hx Hl) as [E|(q & h' & l' & E & Hq & V & Ep & Em & Hl' & Hc & R)];
      [lia|lia|done| |].
    + exists 0, h. split; [done|]. do 2 (split; [done|]). left. repeat split; lia.
    + exists q, h'. split; [done|]. do 2 (split; [done|]). right. right. split; [done|]. split; [by right|].
      split; [lia|]. by exists l'.
Qed.

(** ** [rt_calloc] and [rt_system_heap_init] *)

Lemma calloc_represents h live count size : represents h live -> 0 <= count -> 0 <= size -> count * size <= 0xFFFFFFFC ->
  rt_calloc count size h = Ok (0, h) \/ exists p h', rt_calloc count size h = Ok (p, h') /\ 0 < p
    /\ live !! p = None /\ represents h' (<[p := replicate (Z.to_nat (count * size)) 0]> live).
Proof.
  intros (bl & O & B) Hc Hs Hle. set (n := count * size) in *. assert (0 <= n) by (unfold n; lia). unfold rt_calloc. fold n.
  rewrite u32_id by (unfold is_u32; lia).
  destruct (malloc_backed h bl live n O B ltac:(lia)) as [E|(p & h1 & E & Hp & _ & _ & V & Hlen & bl1 & O1 & B1 & _)];
    rewrite E, bind_ret_l; [by left|right].
  rewrite (proj2 (Z.eqb_neq p 0)) by lia. set (l1 := slice _ _ _) in *.
  destruct (area_contents h1 _ p l1 (ex_intro _ bl1 (conj O1 B1)) (lookup_insert_eq _ _ _)) as [Hc1 Hp1].
  assert (room (memory h1) (p - heap_ptr h1) n) as HR.
  { destruct (bk_live _ _ _ B1 p l1 (lookup_insert_eq _ _ _)) as (x & k & Hx & -> & Hk & _).
    destruct (heap_room _ _ _ (ok_wf _ _ O1) Hx) as (? & ? & ? & ? & R). cbn [off sz] in *. unfold room in *. lia. }
  destruct (rt_memset_ok (p - heap_ptr h1) 0 n (memory h1)) as (m' & Em & W); [done|done|]. rewrite Em, bind_ret_l.
  exists p, (with_memory m' h1). do 3 (split; [done|]).
  pose proof (write_represents h1 _ p l1 m' 0 n (fun _ => 0 mod 256) (ex_intro _ bl1 (conj O1 B1)) (lookup_insert_eq _ _ _)) as R.
  rewrite Z.add_0_r, Hlen, insert_insert_eq in R. specialize (R W ltac:(lia) ltac:(lia) ltac:(lia) (fun i _ => ltac:(done))).
  replace (replicate (Z.to_nat n) 0) with (slice m' (p - heap_ptr h1) n); [done|].
  assert (room m' (p - heap_ptr h1) n) as HR' by (by eapply written_room).
  pose proof (length_slice _ _ _ HR' ltac:(lia)). apply rd_ext; [rewrite length_replicate; lia|].
  intros i Hi. unfold in_range in Hi. destruct W as [_ W]. rewrite rd_slice, W, decide_True by lia.
  unfold rd. by rewrite lookup_replicate_2 by lia.
Qed.

(** A header written in the two orders the initialisation uses. *)
Lemma first_header m a nx pv u : bytes_ok m -> room m a 12 -> is_u32 nx -> is_u32 pv -> is_u16 u ->
  exists m', write_first a nx pv u m = Ok m' /\ hupd m m' a (Hdr HEAP_MAGIC u nx pv).
Proof.
  intros Hm R Hnx Hpv Hu. unfold write_first.
  destruct (set_mem_magic_ok m a Hm R HEAP_MAGIC) as (m1 & E1 & U1); [done|]. rewrite E1, bind_ret_l.
  apply (hupd_room _ _ _ _ a 12 U1) in R. clear E1.
  destruct (set_mem_next_ok m1 a (hupd_bytes _ _ _ _ U1) R nx Hnx) as (m2 & E2 & U2). rewrite E2, bind_ret_l.
  apply (hupd_room _ _ _ _ a 12 U2) in R. clear E2.
  destruct (set_mem_prev_ok m2 a (hupd_bytes _ _ _ _ U2) R pv Hpv) as (m3 & E3 & U3). rewrite E3, bind_ret_l.
  apply (hupd_room _ _ _ _ a 12 U3) in R. clear E3.
  destruct (set_mem_used_ok m3 a (hupd_bytes _ _ _ _ U3) R u Hu) as (m4 & E4 & U4). exists m4. split; [done|].
  rewrite (hupd_at _ _ _ _ U3), (hupd_at _ _ _ _ U2), (hupd_at _ _ _ _ U1) in *.
  exact (hupd_trans _ _ _ _ _ _ (hupd_trans _ _ _ _ _ _ (hupd_trans _ _ _ _ _ _ U1 U2) U3) U4).
Qed.
Lemma end_header m a nx pv u : bytes_ok m -> room m a 12 -> is_u32 nx -> is_u32 pv -> is_u16 u ->
  exists m', write_end a nx pv u m = Ok m' /\ hupd m m' a (Hdr HEAP_MAGIC u nx pv).
Proof.
  intros Hm R Hnx Hpv Hu. unfold write_end.
  destruct (set_mem_magic_ok m a Hm R HEAP_MAGIC) as (m1 & E1 & U1); [done|]. rewrite E1, bind_ret_l.
  apply (hupd_room _ _ _ _ a 12 U1) in R. clear E1.
  destruct (set_mem_used_ok m1 a (hupd_bytes _ _ _ _ U1) R u Hu) as (m2 & E2 & U2). rewrite E2, bind_ret_l.
  apply (hupd_room _ _ _ _ a 12 U2) in R. clear E2.
  destruct (set_mem_next_ok m2 a (hupd_bytes _ _ _ _ U2) R nx Hnx) as (m3 & E3 & U3). rewrite E3, bind_ret_l.
  apply (hupd_room _ _ _ _ a 12 U3) in R. clear E3.
  destruct (set_mem_prev_ok m3 a (hupd_bytes _ _ _ _ U3) R pv Hpv) as (m4 & E4 & U4). exists m4. split; [done|].
  rewrite (hupd_at _ _ _ _ U3), (hupd_at _ _ _ _ U2), (hupd_at _ _ _ _ U1) in *.
  exact (hupd_trans _ _ _ _ _ _ (hupd_trans _ _ _ _ _ _ (hupd_trans _ _ _ _ _ _ U1 U2) U3) U4).
Qed.

(** The memory between the two addresses is large enough for a heap that works (and not at the very bottom). *)
Definition heap_area (begin_addr end_addr : Z) (bytes : list Z) : Prop :=
  16 <= begin_addr <= 0xFFFFFFFC /\ is_u32 end_addr /\ RT_ALIGN begin_addr + 36 <= RT_ALIGN_DOWN end_addr
  /\ Z.of_nat (length bytes) = RT_ALIGN_DOWN end_addr - RT_ALIGN begin_addr /\ bytes_ok bytes.

Lemma heap_init_represents b e bytes h : heap_area b e bytes -> used_mem h = 0 ->
  exists h', rt_system_heap_init b e bytes h = Ok h' /\ represents h' ∅ /\ heap_ptr h' = RT_ALIGN b
  /\ mem_size_aligned h' = RT_ALIGN_DOWN e - RT_ALIGN b - 24.
Proof.
  intros (Hb & He & Hroom & Hlen & Hbytes) Hused.
  destruct (RT_ALIGN_ok b ltac:(unfold is_u32; lia)) as (A4 & A0 & A1 & _). specialize (A1 ltac:(lia)).
  assert (RT_ALIGN_DOWN e = e / 4 * 4) as HD by (by apply land_align). unfold rt_system_heap_init.
  set (ba := RT_ALIGN b) in *. set (ea := RT_ALIGN_DOWN e) in *. unfold SIZEOF_STRUCT_MEM. unfold is_u32 in He.
  rewrite (proj2 (Z.ltb_lt (2 * 12) ea)), (proj2 (Z.leb_le ba (ea - 2 * 12))) by lia. cbn [andb].
  set (size := ea - ba - 2 * 12) in *. set (last := size + 12) in *.
  assert (room bytes 0 12 /\ room bytes last 12) as [R0 Re] by (unfold room, last, size; split; lia).
  destruct (first_header bytes 0 last 0 0 Hbytes R0) as (m1 & E1 & U); [unfold is_u32, is_u16, last, size; lia..|].
  rewrite E1, bind_ret_l.
  destruct (end_header m1 last last last 1 (hupd_bytes _ _ _ _ U) ltac:(by eapply hupd_room)) as (m2 & E2 & V);
    [unfold is_u32, is_u16, last, size; lia..|].
  rewrite E2, bind_ret_l.
  eexists. split; [done|]. split; [|split; [done|cbn; unfold size; lia]].
  exists [Blk 0 last false]. split; [|split; [by intros p l|intros x n Hx; by apply list_elem_of_singleton in Hx]].
  split; [|right; exists (Blk 0 last false); split; [by left|done]|done|done].
  split; cbn; [|done|unfold size; lia|unfold last, size; lia|done].
  split; [by eapply hupd_bytes|destruct U, V; unfold last, size in *; lia|unfold last, size; lia|].
  split; [|by rewrite (hupd_at _ _ _ _ V)]. cbn [blocks off sz usd]. split; [done|]. split; [unfold last, size; lia|].
  split; [unfold last, size; lia|]. split; [|lia].
  rewrite (hupd_other _ _ _ _ 0 V), (hupd_at _ _ _ _ U) by (unfold last, size; lia). done.
Qed.

(** ** Sessions *)

(** What an application does: the calls of the interface, and a store into an area it was given. *)
Inductive heap_action : Type :=
| Malloc (n : Z) | Calloc (count size : Z) | Free (p : Z) | Realloc (p n : Z) | Store (p i v : Z).

Definition perform (o : heap_action) (h : heap) : res (Z * heap) :=
  match o with
  | Malloc n => rt_malloc n h
  | Calloc count size => rt_calloc count size h
  | Free p => h ← rt_free p h; Ok (0, h)
  | Realloc p n => rt_realloc p n h
  | Store p i v => m ← set (memory h) (p - heap_ptr h + i) v; Ok (0, with_memory m h)
  end.

(** The contract of the caller. *)
Definition permitted (live : gmap Z (list Z)) (o : heap_action) : Prop :=
  match o with
  | Malloc n => 0 <= n <= 0xFFFFFFFC
  | Calloc count size => 0 <= count /\ 0 <= size /\ count * size <= 0xFFFFFFFC
  | Free p => p = 0 \/ is_Some (live !! p)
  | Realloc p n => (p = 0 \/ is_Some (live !! p)) /\ 0 <= n <= 0xFFFFFFFC
  | Store p i v => is_u8 v /\ exists l, live !! p = Some l /\ in_range l i
  end.

(** The contract of the heap: the pointer it returns and the areas afterwards. *)
Inductive serves (live : gmap Z (list Z)) : heap_action -> Z -> gmap Z (list Z) -> Prop :=
| malloc_refused n : serves live (Malloc n) 0 live
| malloc_served n p l : 0 < p -> live !! p = None -> Z.of_nat (length l) = n -> serves live (Malloc n) p (<[p := l]> live)
| calloc_refused c s : serves live (Calloc c s) 0 live
| calloc_served c s p : 0 < p -> live !! p = None ->
    serves live (Calloc c s) p (<[p := replicate (Z.to_nat (c * s)) 0]> live)
| free_null : serves live (Free 0) 0 live
| free_served p l : live !! p = Some l -> serves live (Free p) 0 (delete p live)
| realloc_null_refused n : serves live (Realloc 0 n) 0 live
| realloc_null_served n p l : 0 < p -> live !! p = None -> Z.of_nat (length l) = n ->
    serves live (Realloc 0 n) p (<[p := l]> live)
| realloc_refused p l n : live !! p = Some l -> 0 < n -> serves live (Realloc p n) 0 live
| realloc_freed p l : live !! p = Some l -> serves live (Realloc p 0) 0 (delete p live)
| realloc_served p l n q l' : live !! p = Some l -> 0 < q -> q = p \/ live !! q = None -> Z.of_nat (length l') = n ->
    carried l l' -> serves live (Realloc p n) q (<[q := l']> (delete p live))
| stored p i v l : live !! p = Some l -> serves live (Store p i v) 0 (<[p := upd l i v]> live).

(** The areas hold their bytes. *)
Definition holds (h : heap) (live : gmap Z (list Z)) : Prop :=
  forall p l, live !! p = Some l -> slice (memory h) (p - heap_ptr h) (Z.of_nat (length l)) = l.

(** From the initialisation on, only permitted actions. *)
Inductive session : heap -> gmap Z (list Z) -> Prop :=
| session_start b e bytes h0 h : heap_area b e bytes -> used_mem h0 = 0 ->
    rt_system_heap_init b e bytes h0 = Ok h -> session h ∅
| session_next h live o r h' live' : session h live -> permitted live o -> perform o h = Ok (r, h') ->
    serves live o r live' -> holds h' live' -> session h' live'.

Lemma represents_holds h live : represents h live -> holds h live.
Proof. intros R p l Hl. by destruct (area_contents _ _ _ _ R Hl). Qed.
Lemma represents_not_null h live : represents h live -> live !! 0 = None.
Proof.
  intros (bl & O & B). destruct (live !! 0) as [l|] eqn:E; [|done]. exfalso.
  destruct (bk_live _ _ _ B _ _ E) as (x & n & Hx & E0 & _). destruct (wf_ptr _ _ (ok_wf _ _ O)) as (? & _).
  destruct (heap_room _ _ _ (ok_wf _ _ O) Hx) as (? & _). cbn [off] in *. lia.
Qed.

(** Served in the same way, the bytes decide. *)
Lemma holds_same h live p l l' : holds h (<[p := l]> live) -> holds h (<[p := l']> live) -> length l = length l' -> l = l'.
Proof.
  intros H H' E. rewrite <- (H p l (lookup_insert_eq _ _ _)), <- (H' p l' (lookup_insert_eq _ _ _)). by rewrite E.
Qed.
Lemma serves_holds live o r a b h : live !! 0 = None -> serves live o r a -> serves live o r b -> holds h a -> holds h b -> a = b.
Proof.
  intros H0 Sa Sb Ha Hb. destruct Sa; inversion Sb; subst; try done; try lia; try congruence; simplify_eq;
    try (f_equal; eapply holds_same; [eassumption..|lia]).
Qed.

Lemma malloc_serves h live n : represents h live -> 0 <= n <= 0xFFFFFFFC ->
  rt_malloc n h = Ok (0, h) \/ exists p h' l, rt_malloc n h = Ok (p, h') /\ 0 < p /\ live !! p = None
  /\ Z.of_nat (length l) = n /\ represents h' (<[p := l]> live).
Proof.
  intros (bl & O & B) Hn. destruct (malloc_backed h bl live n O B Hn) as [E|(p & h' & E & Hp & _ & _ & V & Hl & bl' & O' & B' & _)];
    [by left|right]. eexists p, h', _. split; [done|]. do 3 (split; [done|]). by exists bl'.
Qed.

(** [rt_realloc] of [RT_NULL] is [rt_malloc] of the rounded size. *)
Lemma realloc_null_serves h live n : represents h live -> 0 <= n <= 0xFFFFFFFC ->
  rt_realloc 0 n h = Ok (0, h) \/ exists p h' l, rt_realloc 0 n h = Ok (p, h') /\ 0 < p /\ live !! p = None
  /\ Z.of_nat (length l) = n /\ represents h' (<[p := l]> live).
Proof.
  intros R Hn. destruct (RT_ALIGN_ok n ltac:(unfold is_u32; lia)) as (A4 & A0 & A1 & _). specialize (A1 ltac:(lia)).
  unfold rt_realloc. destruct (mem_size_aligned h <? RT_ALIGN n); [by left|]. destruct (RT_ALIGN n =? 0); [by left|].
  cbn [Z.eqb]. destruct (malloc_serves h live (RT_ALIGN n) R) as [E|(p & h' & l & E & Hp & V & Hl & R')]; [lia|by left|right].
  exists p, h', (slice (memory h') (p - heap_ptr h') n). do 3 (split; [done|]).
  destruct (area_contents _ _ p l R' (lookup_insert_eq _ _ _)) as [Hc Hp'].
  pose proof (trim_represents _ _ p l n R' (lookup_insert_eq _ _ _) ltac:(lia)) as R2. rewrite insert_insert_eq in R2.
  split; [|done]. rewrite Hl in Hc. destruct (Z.eq_dec n 0) as [->|Hn0]; [done|].
  apply length_slice; [|lia]. pose proof (slice_room (memory h') (p - heap_ptr h') (RT_ALIGN n) Hp' ltac:(lia)) as HR.
  rewrite Hc in HR. specialize (HR Hl). unfold room in *. lia.
Qed.

Lemma store_serves h live p i v l : represents h live -> live !! p = Some l -> in_range l i -> is_u8 v ->
  exists h', perform (Store p i v) h = Ok (0, h') /\ represents h' (<[p := upd l i v]> live).
Proof.
  intros R Hl Hi Hv. destruct (area_contents _ _ _ _ R Hl) as [Hc Hp]. unfold in_range in Hi.
  assert (room (memory h) (p - heap_ptr h) (Z.of_nat (length l))) as HR by (apply slice_room; [done|lia|by rewrite Hc]).
  destruct (set_written (memory h) (p - heap_ptr h + i) v) as (m' & E & W); [unfold room in *; lia|].
  exists (with_memory m' h). cbn [perform]. rewrite E, bind_ret_l. split; [done|].
  pose proof (write_represents h live p l m' i 1 (fun _ => v) R Hl W ltac:(lia) ltac:(lia) ltac:(lia) (fun _ _ => Hv)) as R'.
  by rewrite (slice_store (memory h) m' (p - heap_ptr h) (Z.of_nat (length l)) i v W HR ltac:(lia)), Hc in R'.
Qed.

Lemma perform_serves h live o : represents h live -> permitted live o ->
  exists r h' live', perform o h = Ok (r, h') /\ serves live o r live' /\ represents h' live'.
Proof.
  intros R P. destruct o as [n|c s|p|p n|p i v]; cbn [permitted perform] in *.
  - destruct (malloc_serves h live n R P) as [E|(p & h' & l & E & ? & ? & ? & R')].
    + exists 0, h, live. split; [done|]. split; [constructor|done].
    + exists p, h', (<[p := l]> live). split; [done|]. split; [by constructor|done].
  - destruct P as (? & ? & ?). destruct (calloc_represents h live c s R) as [E|(p & h' & E & ? & ? & R')]; [done..| |].
    + exists 0, h, live. split; [done|]. split; [constructor|done].
    + eexists p, h', _. split; [done|]. split; [by constructor|done].
  - destruct P as [->|[l Hl]].
    + exists 0, h, live. split; [done|]. split; [constructor|done].
    + destruct (free_represents h live p R) as (h' & E & _ & _ & R'); [by exists l|]. rewrite E, bind_ret_l.
      exists 0, h', (delete p live). split; [done|]. split; [by econstructor|done].
  - destruct P as [[->|[l Hl]] Hn].
    + destruct (realloc_null_serves h live n R Hn) as [E|(p & h' & l & E & ? & ? & ? & R')].
      * exists 0, h, live. split; [done|]. split; [constructor|done].
      * exists p, h', (<[p := l]> live). split; [done|]. split; [by constructor|done].
    + destruct (realloc_represents h live p l n R Hl Hn) as (q & h' & E & _ & _ & [(-> & ? & ->)|[(-> & -> & R')|(? & ? & ? & l' & ? & ? & R')]]).
      * exists 0, h, live. split; [done|]. split; [by econstructor|done].
      * exists 0, h', (delete p live). split; [done|]. split; [by econstructor|done].
      * eexists q, h', _. split; [done|]. split; [by econstructor|done].
  - destruct P as (Hv & l & Hl & Hi). destruct (store_serves h live p i v l R Hl Hi Hv) as (h' & E & R').
    exists 0, h', (<[p := upd l i v]> live). split; [done|]. split; [by constructor|done].
Qed.

Lemma session_represents h live : session h live -> represents h live.
Proof.
  induction 1 as [b e bytes h0 h HA Hu E|h live o r h' live' _ IH P E Sv Hh].
  - destruct (heap_init_represents b e bytes h0 HA Hu) as (h' & E' & R & _). congruence.
  - destruct (perform_serves h live o IH P) as (r2 & h2 & live2 & E2 & S2 & R2). rewrite E in E2. injection E2 as <- <-.
    by rewrite (serves_holds live o r live' live2 h' (represents_not_null _ _ IH) Sv S2 Hh (represents_holds _ _ R2)).
Qed.

(** ** What an application can rely on *)

(** C5: The heap is a store of disjoint areas.  In any session of allocations,
    callocs, reallocations, frees and stores into areas that are live, every
    live area is word aligned, lies inside the heap, overlaps no other one and
    holds the bytes last put there; and whatever permitted call comes next,
    the code completes without a fault or a failing assertion, its semaphore
    free again, and serves the call as specified: a new area where nothing was
    live and at least as long as asked for (zeroed by [rt_calloc], with the old
    contents kept by [rt_realloc]), or [RT_NULL] and no change. *)
Theorem heap_refines_store (h : heap) (live : gmap Z (list Z)) (Hs : session h live) :
  (forall p l, live !! p = Some l -> p mod 4 = 0 /\ heap_ptr h + 12 <= p
     /\ p + Z.of_nat (length l) <= heap_ptr h + heap_end h /\ slice (memory h) (p - heap_ptr h) (Z.of_nat (length l)) = l)
  /\ (forall p q l k, live !! p = Some l -> live !! q = Some k -> p < q -> p + Z.of_nat (length l) <= q - 12)
  /\ heap_sem h = 1
  /\ forall o, permitted live o ->
       exists r h' live', perform o h = Ok (r, h') /\ serves live o r live' /\ session h' live'.
Proof.
  pose proof (session_represents _ _ Hs) as R. split; [|split; [|split]].
  - intros p l Hl. destruct (area_contents _ _ _ _ R Hl) as [Hc _]. destruct R as (bl & O & B).
    destruct (bk_live _ _ _ B _ _ Hl) as (x & n & Hx & -> & Hn & _). destruct (wf_ptr _ _ (ok_wf _ _ O)) as (? & ? & _).
    destruct (heap_room _ _ _ (ok_wf _ _ O) Hx) as (? & ? & ? & ? & _). cbn [off sz] in *. repeat split; [lia..|done].
  - intros p q l k Hl Hk Hlt. destruct R as (bl & O & B).
    destruct (bk_live _ _ _ B _ _ Hl) as (x & n & Hx & -> & Hn & _). destruct (bk_live _ _ _ B _ _ Hk) as (y & j & Hy & -> & Hj & _).
    destruct (blocks_apart _ _ _ _ (ok_wf _ _ O) Hx Hy) as [?|?]; [intros [= <- _]; lia|cbn in *; lia|].
    destruct (heap_room _ _ _ (ok_wf _ _ O) Hy) as (_ & ? & _). cbn in *. lia.
  - by destruct R as (bl & O & _), O.
  - intros o P. destruct (perform_serves h live o R P) as (r & h' & live' & E & Sv & R'). exists r, h', live'.
    split; [done|]. split; [done|]. eapply session_next; [done..|by apply represents_holds].
Qed.

(** A chain of free blocks without free neighbours is one block. *)
Lemma all_free m e bl : layout m e bl -> solid bl -> (forall b, b ∈ bl -> usd b = false) -> bl = [Blk 0 e false].
Proof.
  intros [_ _ He [Hc _]] HS Hf. destruct bl as [|[x n u] bl]; [cbn in Hc; lia|].
  pose proof (Hf _ (list_elem_of_here _ _)) as Hu. cbn in Hu. subst u. destruct bl as [|c bl].
  - cbn in Hc. destruct Hc as (-> & _ & _ & _ & Hc). do 2 f_equal. lia.
  - apply solid_cons in HS as [HS _]. cbn in HS. rewrite (Hf c) in HS; [done|by right; left].
Qed.

(** C28: Nothing is lost to fragmentation once everything has been given back:
    whatever the session did before, when no area is live the heap is one free
    block again, the accounting is back to zero, and every request that is
    smaller than the heap after rounding succeeds at the first address. *)
Theorem heap_recovers (h : heap) (Hs : session h ∅) :
  get_mem_next (memory h) 0 = Ok (heap_end h) /\ get_mem_used (memory h) 0 = Ok 0 /\ lfree h = 0
  /\ rt_memory_info h = (mem_size_aligned h, 0, max_mem h)
  /\ forall n, 0 < n <= 0xFFFFFFFC -> Z.max 12 (RT_ALIGN n) < mem_size_aligned h ->
       exists h', rt_malloc n h = Ok (heap_ptr h + 12, h').
Proof.
  destruct (session_represents _ _ Hs) as (bl & O & B). pose proof O as [W LF HS _].
  assert (bl = [Blk 0 (heap_end h) false]) as ->.
  { eapply all_free; [apply W|done|]. intros [x n u] Hb. destruct u; [|done]. exfalso.
    destruct (bk_used _ _ _ B x n Hb) as [l Hl]. done. }
  destruct (layout_get _ _ [] _ _ _ _ (wf_layout _ _ W)) as (_ & Eu & En & _).
  assert (lfree h = 0) as El.
  { destruct LF as [(_ & b & Hb & Hu)|(b & Hb & _ & Hl)]; apply list_elem_of_singleton in Hb; subst b; [done|].
    by rewrite <- Hl. }
  split; [done|]. do 2 (split; [done|]).
  split; [unfold rt_memory_info; by rewrite (wf_used _ _ W)|]. intros n Hn Hlt.
  destruct (rt_malloc_ok h _ n O ltac:(unfold is_u32; lia)) as [[_ [?|[?|Hno]]]|(h' & l1 & x & k & l2 & _ & _ & E & _ & _ & Ebl & _)];
    [lia|lia| |].
  - specialize (Hno (Blk 0 (heap_end h) false) (list_elem_of_here _ _) eq_refl). cbn [off sz] in Hno.
    pose proof (wf_end _ _ W). unfold request in Hno. lia.
  - exists h'. rewrite E. destruct l1 as [|c l1]; [|by destruct l1]. injection Ebl as <- _ _. do 2 f_equal. lia.
Qed.

(** Wrong frees stop at an assertion instead of damaging the heap: a
    pointer that is not word aligned or not inside the heap, and an area that
    has just been freed, whatever it was merged with. *)
Theorem bad_free_stops (h : heap) (live : gmap Z (list Z)) (p : Z) (Hs : session h live) :
  (p <> 0 -> p mod 4 <> 0 \/ p < heap_ptr h \/ heap_ptr h + heap_end h <= p -> rt_free p h = Fault AssertFail)
  /\ (is_Some (live !! p) -> exists h', rt_free p h = Ok h' /\ rt_free p h' = Fault AssertFail).
Proof.
  pose proof (session_represents _ _ Hs) as R. split.
  - intros Hp Hbad. unfold rt_free. rewrite (proj2 (Z.eqb_neq p 0)), land_3 by done.
    destruct (Z.eqb_spec (p mod 4) 0) as [E|E]; cbn [heap_assert]; [|done]. rewrite bind_ret_l. unfold outside.
    destruct (Z.ltb_spec p (heap_ptr h)); [done|]. destruct (Z.leb_spec (heap_ptr h + heap_end h) p); [done|lia].
  - intros [l Hl]. destruct R as (bl & O & B).
    destruct (bk_live _ _ _ B _ _ Hl) as (x & n & Hx & -> & _). pose proof Hx as (l1 & l2 & ->)%list_elem_of_split.
    destruct (heap_room _ _ _ (ok_wf _ _ O) Hx) as (X0 & X1 & X2 & X4 & _). cbn [off sz] in *.
    destruct (rt_free_ok h l1 x n l2 O) as (h' & bl' & E & Ep & Em & O' & Hu & _). exists h'. split; [done|].
    pose proof (wf_end _ _ (ok_wf _ _ O)). pose proof (wf_end _ _ (ok_wf _ _ O')) as He'.
    pose proof (wf_ptr _ _ (ok_wf _ _ O)) as (Hp & Hp4 & _). pose proof (wf_layout _ _ (ok_wf _ _ O')) as [_ Hlen' _ _].
    unfold rt_free, outside, take_heap_sem. rewrite (proj2 (Z.eqb_neq (heap_ptr h + x + 12) 0)), land_3 by lia.
    rewrite (proj2 (Z.eqb_eq ((heap_ptr h + x + 12) mod 4) 0)) by lia.
    rewrite (proj2 (Z.ltb_ge (heap_ptr h + x + 12) (heap_ptr h'))) by lia.
    rewrite (proj2 (Z.leb_gt (heap_ptr h' + heap_end h') (heap_ptr h + x + 12))) by lia. cbn [orb negb heap_assert]. rewrite !bind_ret_l.
    rewrite (ok_sem _ _ O'). cbn [Z.ltb Z.compare]. rewrite bind_ret_l. cbn [memory with_sem].
    replace (heap_ptr h + x + 12 - heap_ptr h' - SIZEOF_STRUCT_MEM) with x by (unfold SIZEOF_STRUCT_MEM; lia).
    rewrite get_mem_used_ok, get_mem_magic_ok, !bind_ret_l, Hu by (unfold room; lia). done.
Qed.

(** ** A small heap at work *)

Definition no_heap : heap := Heap 0 [] 0 0 0 0 0 0.
Definition heap_of {A} (r : res (A * heap)) : heap := match r with Ok (_, h) => h | Fault _ => no_heap end.
Definition demo_bytes : list Z := replicate 156 170.
Definition demo_heap : heap :=
  match rt_system_heap_init 0x20000001 0x200000A3 demo_bytes no_heap with Ok h => h | Fault _ => no_heap end.
Definition demo_area : Z := 0x20000010.
Definition demo_taken : heap := heap_of (perform (Malloc 20) demo_heap).
Definition demo_stored : heap := heap_of (perform (Store demo_area 19 65) demo_taken).
Definition demo_freed : heap := heap_of (perform (Free demo_area) demo_stored).

Lemma demo_start : session demo_heap ∅.
Proof.
  apply (session_start 0x20000001 0x200000A3 demo_bytes no_heap); [|reflexivity|vm_compute; reflexivity].
  split; [lia|]. split; [unfold is_u32; lia|]. split; [by vm_compute|]. split; [by vm_compute|].
  apply list.Forall_replicate. by split.
Qed.
Lemma holds_one h p l : slice (memory h) (p - heap_ptr h) (Z.of_nat (length l)) = l -> holds h (<[p := l]> ∅).
Proof. intros H q k [[<- <-]|[_ ?]]%lookup_insert_Some; [done|]. done. Qed.

Lemma demo_running : session demo_stored (<[demo_area := replicate 19 170 ++ [65]]> ∅).
Proof.
  assert (session demo_taken (<[demo_area := replicate 20 170]> ∅)) as S1.
  { eapply (session_next demo_heap ∅ (Malloc 20) demo_area); [exact demo_start|cbn; lia|vm_compute; reflexivity| |].
    - by constructor.
    - apply holds_one. vm_compute. reflexivity. }
  eapply (session_next _ _ (Store demo_area 19 65) 0); [exact S1| |vm_compute; reflexivity| |].
  - split; [by split|]. exists (replicate 20 170). rewrite lookup_insert_eq. split; [done|]. unfold in_range. cbn. lia.
  - replace (<[demo_area := replicate 19 170 ++ [65]]> ∅)
      with (<[demo_area := upd (replicate 20 170) 19 65]> (<[demo_area := replicate 20 170]> ∅) : gmap Z (list Z))
      by (rewrite insert_insert_eq; reflexivity).
    constructor. apply lookup_insert_eq.
  - apply holds_one. vm_compute. reflexivity.
Qed.
Lemma demo_over : session demo_freed ∅.
Proof.
  eapply (session_next _ _ (Free demo_area) 0); [exact demo_running| |vm_compute; reflexivity| |by intros p l].
  - right. rewrite lookup_insert_eq. by eexists.
  - rewrite <- (delete_insert_id ∅ demo_area (replicate 19 170 ++ [65])) at 2 by done. by econstructor; rewrite lookup_insert_eq.
Qed.

(** A reallocation of the area in the running session. *)
Lemma heap_refines_store_witness :
  (demo_area mod 4 = 0 /\ slice (memory demo_stored) 12 20 = replicate 19 170 ++ [65])
  /\ exists r h' live', perform (Realloc demo_area 40) demo_stored = Ok (r, h') /\ r = 0x20000010 + 32
     /\ session h' live'.
Proof.
  destruct (heap_refines_store _ _ demo_running) as (H1 & _ & _ & H2). split.
  - destruct (H1 demo_area _ (lookup_insert_eq _ _ _)) as (Ha & _ & _ & Hc). split; [exact Ha|exact Hc].
  - destruct (H2 (Realloc demo_area 40)) as (r & h' & live' & E & _ & S').
    { cbn. split; [|lia]. right. rewrite lookup_insert_eq. by eexists. }
    exists r, h', live'. split; [exact E|]. split; [|exact S']. clear -E. vm_compute in E. by injection E as <- _.
Defined.

Lemma heap_recovers_witness : lfree demo_freed = 0 /\ exists h', rt_malloc 128 demo_freed = Ok (0x20000010, h').
Proof.
  destruct (heap_recovers _ demo_over) as (_ & _ & Hl & _ & H). split; [exact Hl|].
  destruct (H 128 ltac:(lia) ltac:(vm_compute; reflexivity)) as [h' E]. exists h'. exact E.
Defined.

Lemma bad_free_stops_witness : rt_free 0x20000011 demo_stored = Fault AssertFail
  /\ exists h', rt_free demo_area demo_stored = Ok h' /\ rt_free demo_area h' = Fault AssertFail.
Proof.
  split.
  - apply (bad_free_stops _ _ 0x20000011 demo_running); [done|]. left. done.
  - apply (bad_free_stops _ _ demo_area demo_running). rewrite lookup_insert_eq. by eexists.
Defined.

(** ** Where the code falls short *)

(** The sizes that round up to 0 are served with the smallest block, and [rt_realloc] frees for them. *)
Theorem huge_request_gets_12_bytes :
  (exists h', rt_malloc 0xFFFFFFFF demo_heap = Ok (0x20000010, h') /\ get_mem_next (memory h') 0 = Ok 24)
  /\ exists h', rt_realloc demo_area 0xFFFFFFFF demo_stored = Ok (0, h') /\ get_mem_used (memory h') 0 = Ok 0.
Proof. split; (eexists; split; [vm_compute; reflexivity|vm_compute; reflexivity]). Qed.

(** The product wraps: 2^30 + 1 words are granted as one word. *)
Theorem calloc_wraps : exists h', rt_calloc 0x40000001 4 demo_heap = Ok (0x20000010, h') /\ get_mem_next (memory h') 0 = Ok 24.
Proof. eexists; split; [vm_compute; reflexivity|vm_compute; reflexivity]. Qed.

(** The whole free block is not given out although it fits. *)
Theorem exact_fit_refused : mem_size_aligned demo_heap = 132 /\ get_mem_next (memory demo_heap) 0 = Ok (12 + 132)
  /\ rt_malloc 132 demo_heap = Ok (0, demo_heap).
Proof. split; [|split]; vm_compute; reflexivity. Qed.

(** A shrunk block of a full heap leaves free memory that no allocation finds;
    a slightly smaller size needs a second block and fails. *)
Definition demo_full : heap := heap_of (rt_malloc 128 demo_heap).
Definition demo_shrunk : heap := heap_of (rt_realloc demo_area 4 demo_full).
Theorem shrunk_memory_lost :
  rt_memory_info demo_shrunk = (132, 16, 144) /\ get_mem_used (memory demo_shrunk) 16 = Ok 0
  /\ get_mem_next (memory demo_shrunk) 16 = Ok (16 + 128) /\ rt_malloc 12 demo_shrunk = Ok (0, demo_shrunk).
Proof. repeat split; vm_compute; reflexivity. Qed.
Theorem shrinking_fails : rt_realloc demo_area 124 demo_full = Ok (0, demo_full).
Proof. vm_compute. reflexivity. Qed.

(** In a heap of less than 12 bytes the search never ends. *)
Definition tiny_heap : heap :=
  match rt_system_heap_init 0x20000000 0x20000020 (replicate 32 0) no_heap with Ok h => h | Fault _ => no_heap end.
Theorem tiny_heap_hangs fuel : mem_size_aligned tiny_heap = 8 /\ malloc_search fuel 12 (lfree tiny_heap) tiny_heap = Fault Hang.
Proof.
  split; [reflexivity|]. assert (forall n, malloc_search n 12 20 tiny_heap = Fault Hang) as H by
    (induction n as [|n IH]; [done|]; cbn [malloc_search]; exact IH).
  destruct fuel as [|fuel]; [done|]. cbn [malloc_search]. exact (H fuel).
Qed.
