(* ===== verification/KernelPrintf.v ===== *)
(** * Formatted output (src/kservice.c: rt_vsnprintf, rt_snprintf, rt_sprintf,
    rt_kputs, rt_kprintf)

    The formatter writes through a pointer that runs on past the end of the
    buffer and stores only below it.  It is shown equal to a formatter without
    buffers, [render], followed by truncation; [render] composes the fields
    described by [char_field], [string_field] and [number_field].  Configured
    as in the source: RT_PRINTF_PRECISION, no RT_PRINTF_SPECIAL and no
    RT_PRINTF_LONGLONG, 32-bit [long].  Widths, precisions and lengths are 32-bit
    [int]s whose overflow is a fault; the pointer is a 32-bit address, which
    wraps around. *)
From Stdlib Require Import ZifyBool.
From S2P Require Import Prelude Device.

Definition ZEROPAD : Z := 1.
Definition SIGN : Z := 2.
Definition PLUS : Z := 4.
Definition SPACE : Z := 8.
Definition LEFT : Z := 16.
Definition SPECIAL : Z := 32.
Definition LARGE : Z := 64.
Definition INT_MAX : Z := 2147483647.

Definition isdigit (c : Z) : bool := (48 <=? c) && (c <=? 57).

(** ** Output: [if (str < end) *str = c; ++ str;] *)

(** The memory from [buf] on, and [str - buf]. *)
Record out : Type := Out { mem : list Z; str : Z }.

Section sink.
Context (buf end_ : Z).

(** The next address, modulo 2^32: a pointer that has wrapped is below [buf],
    and what is stored there is outside the buffer. *)
Definition next_str (o : out) : Z := u32 (buf + str o + 1) - buf.
Definition put (c : Z) (o : out) : res out :=
  if str o <? end_ then m ← set (mem o) (str o) c; Ok (Out m (next_str o))
  else Ok (Out (mem o) (next_str o)).
Fixpoint puts (l : list Z) (o : out) : res out :=
  match l with [] => Ok o | c :: l' => o ← put c o; puts l' o end.

(** [while (size-- > 0)], with the value of [size] afterwards. *)
Definition pad (c size : Z) (o : out) : res (Z * out) :=
  o ← puts (replicate (Z.to_nat size) c) o;
  size ← int_res (Z.min size 0 - 1);
  Ok (size, o).

(** ** Numbers *)

(** The least significant digit and the rest; every base but 10 is 16. *)
Definition divide (n base : Z) : Z * Z :=
  if base =? 10 then (u32 n mod 10, s32 (u32 n / 10)) else (u32 n mod 16, s32 (u32 n / 16)).

Definition digit_char (large : bool) (d : Z) : Z :=
  if d <? 10 then 48 + d else (if large then 55 else 87) + d.

(** [tmp], least significant digit first; [fuel] is the room left in it. *)
Fixpoint tmp_digits (fuel : nat) (large : bool) (base num : Z) : res (list Z) :=
  if num =? 0 then Ok [] else
  match fuel with
  | O => Fault OutOfBounds
  | S fuel' =>
      let '(d, num) := divide num base in
      tmp ← tmp_digits fuel' large base num; Ok (digit_char large d :: tmp)
  end.

(** The sign character (0 for none) and the number to print. *)
Definition get_sign (num type : Z) : res (Z * Z) :=
  if has type SIGN then
    if num <? 0 then (if num =? - INT_MAX - 1 then Fault SignedOverflow else Ok (45, - num))
    else if has type PLUS then Ok (43, num)
    else if has type SPACE then Ok (32, num)
    else Ok (0, num)
  else Ok (0, num).

Definition print_number (num base s precision type : Z) (o : out) : res out :=
  let type := if has type LEFT then Z.land type (Z.lnot ZEROPAD) else type in
  let c := if has type ZEROPAD then 48 else 32 in
  '(sign, num) ← get_sign num type;
  tmp ← (if num =? 0 then Ok [48] else tmp_digits 16 (has type LARGE) base num);
  let i := Z.of_nat (length tmp) in
  let precision_bak := precision in
  let precision := if precision <? i then i else precision in
  size ← int_res (s - precision);
  '(size, o) ← (if negb (has type (Z.lor ZEROPAD LEFT)) then
                  pad 32 (if negb (sign =? 0) && (0 <? size) then size - 1 else size) o
                else Ok (size, o));
  '(size, o) ← (if negb (sign =? 0) then o ← put sign o; size ← int_res (size - 1); Ok (size, o) else Ok (size, o));
  '(size, o) ← (if negb (has type LEFT) then pad c size o else Ok (size, o));
  o ← puts (replicate (Z.to_nat (precision - i)) 48) o;
  o ← (if negb (precision_bak =? 0) then puts (rev tmp) o else Ok o);
  '(_, o) ← pad 32 size o;
  Ok o.

(** ** Directives *)

(** What [va_arg] delivers: an integer or address, or a string (up to its zero),
    [None] for the null pointer.  An argument of the other kind, or none, is
    undefined. *)
Inductive arg : Type := Int (z : Z) | Str (s : option (list Z)).
Definition va_int (args : list arg) : res (Z * list arg) :=
  match args with Int z :: l => Ok (z, l) | _ => Fault Uninit end.
Definition va_str (args : list arg) : res (option (list Z) * list arg) :=
  match args with Str s :: l => Ok (s, l) | _ => Fault Uninit end.

Definition peek (fmt : list Z) : res Z := match fmt with c :: _ => Ok c | [] => Fault OutOfBounds end.

Fixpoint skip_atoi (s : list Z) (i : Z) : res (Z * list Z) :=
  match s with
  | [] => Fault OutOfBounds
  | c :: s' =>
      if isdigit c then
        if INT_MAX <? i * 10 + c then Fault SignedOverflow else skip_atoi s' (i * 10 + c - 48)
      else Ok (i, s)
  end.

Fixpoint get_flags (fmt : list Z) (flags : Z) : res (Z * list Z) :=
  match fmt with
  | [] => Fault OutOfBounds
  | c :: fmt' =>
      if c =? 45 then get_flags fmt' (Z.lor flags LEFT)
      else if c =? 43 then get_flags fmt' (Z.lor flags PLUS)
      else if c =? 32 then get_flags fmt' (Z.lor flags SPACE)
      else if c =? 35 then get_flags fmt' (Z.lor flags SPECIAL)
      else if c =? 48 then get_flags fmt' (Z.lor flags ZEROPAD)
      else Ok (flags, fmt)
  end.

Definition get_width (fmt : list Z) (args : list arg) (flags : Z) : res (Z * Z * list Z * list arg) :=
  c ← peek fmt;
  if isdigit c then '(w, fmt) ← skip_atoi fmt 0; Ok (w, flags, fmt, args)
  else if c =? 42 then
    '(z, args) ← va_int args;
    let field_width := s32 z in
    if field_width <? 0 then
      if field_width =? - INT_MAX - 1 then Fault SignedOverflow
      else Ok (- field_width, Z.lor flags LEFT, tail fmt, args)
    else Ok (field_width, flags, tail fmt, args)
  else Ok (-1, flags, fmt, args).

Definition get_precision (fmt : list Z) (args : list arg) : res (Z * list Z * list arg) :=
  c ← peek fmt;
  if negb (c =? 46) then Ok (-1, fmt, args) else
  let fmt := tail fmt in
  c ← peek fmt;
  '(precision, fmt, args) ←
    (if isdigit c then '(p, fmt) ← skip_atoi fmt 0; Ok (p, fmt, args)
     else if c =? 42 then '(z, args) ← va_int args; Ok (s32 z, tail fmt, args)
     else Ok (-1, fmt, args));
  Ok (if precision <? 0 then 0 else precision, fmt, args).

Definition get_qualifier (fmt : list Z) : res (Z * list Z) :=
  c ← peek fmt;
  if (c =? 104) || (c =? 108) then Ok (c, tail fmt) else Ok (0, fmt).

(** The argument of an integer conversion, as the [long] handed to [print_number]. *)
Definition int_arg (qualifier flags z : Z) : Z :=
  if qualifier =? 104 then s32 (u32 (if has flags SIGN then s16 (u16 z) else u16 z)) else s32 (u32 z).

(** A directive after its '%': flags, width, precision, qualifier. *)
Record directive : Type := Directive { d_flags : Z; d_width : Z; d_precision : Z; d_qualifier : Z }.
Definition get_directive (fmt : list Z) (args : list arg) : res (directive * list Z * list arg) :=
  '(flags, fmt) ← get_flags fmt 0;
  '(w, flags, fmt, args) ← get_width fmt args flags;
  '(p, fmt, args) ← get_precision fmt args;
  '(q, fmt) ← get_qualifier fmt;
  Ok (Directive flags w p q, fmt, args).

(** ** The conversions *)

(** [while (--field_width > 0)], and the value of [field_width] afterwards. *)
Definition pad_before (width : Z) (o : out) : res (Z * out) :=
  width ← int_res (width - 1);
  o ← puts (replicate (Z.to_nat width) 32) o;
  Ok (Z.min width 0, o).

Definition put_char (flags width c : Z) (o : out) : res out :=
  '(width, o) ← (if negb (has flags LEFT) then pad_before width o else Ok (width, o));
  o ← put c o;
  '(_, o) ← pad_before width o;
  Ok o.

(** [while (len < field_width--)], and the value of [field_width] afterwards. *)
Definition pad_to (len width : Z) (o : out) : res (Z * out) :=
  o ← puts (replicate (Z.to_nat (width - len)) 32) o;
  width ← int_res (Z.min width len - 1);
  Ok (width, o).

Definition put_string (flags width precision : Z) (s : list Z) (o : out) : res out :=
  let len := s32 (Z.of_nat (length s)) in
  let len := if (0 <? precision) && (precision <? len) then precision else len in
  '(width, o) ← (if negb (has flags LEFT) then pad_to len width o else Ok (width, o));
  o ← puts (take (Z.to_nat len) s) o;
  '(_, o) ← pad_to len width o;
  Ok o.

Definition convert (d : directive) (c : Z) (args : list arg) (o : out) : res (list arg * out) :=
  let '(Directive flags width precision qualifier) := d in
  if c =? 99 then
    '(z, args) ← va_int args; o ← put_char flags width (u8 z) o; Ok (args, o)
  else if c =? 115 then
    '(s, args) ← va_str args;
    o ← put_string flags width precision (default (text "(NULL)") s) o; Ok (args, o)
  else if c =? 112 then
    '(z, args) ← va_int args;
    o ← (if width =? -1 then print_number (s32 z) 16 8 precision (Z.lor flags ZEROPAD) o
         else print_number (s32 z) 16 width precision flags o);
    Ok (args, o)
  else if c =? 37 then o ← put 37 o; Ok (args, o)
  else if existsb (Z.eqb c) [111; 88; 120; 100; 105; 117] then
    let base := if c =? 111 then 8 else if (c =? 88) || (c =? 120) then 16 else 10 in
    let flags := if c =? 88 then Z.lor flags LARGE
                 else if (c =? 100) || (c =? 105) then Z.lor flags SIGN else flags in
    '(z, args) ← va_int args;
    o ← print_number (int_arg qualifier flags z) base width precision flags o;
    Ok (args, o)
  else
    o ← put 37 o;
    o ← (if negb (c =? 0) then put c o else Ok o);
    Ok (args, o).

Fixpoint vsnprintf_loop (fuel : nat) (fmt : list Z) (args : list arg) (o : out) : res out :=
  match fuel with
  | O => Fault Hang
  | S fuel' =>
      c ← peek fmt;
      if c =? 0 then Ok o
      else if negb (c =? 37) then o ← put c o; vsnprintf_loop fuel' (tail fmt) args o
      else
        '(d, fmt, args) ← get_directive (tail fmt) args;
        c ← peek fmt;
        '(args, o) ← convert d c args o;
        vsnprintf_loop fuel' (if c =? 0 then fmt else tail fmt) args o
  end.
End sink.

(** [buf] is the address of the buffer, [m] the memory from there on. *)
Definition rt_vsnprintf (buf size : Z) (fmt : list Z) (args : list arg) (m : list Z) : res (Z * list Z) :=
  let size := if 2 ^ 32 <=? buf + size then 2 ^ 32 - 1 - buf else size in
  o ← vsnprintf_loop buf size (S (length fmt)) fmt args (Out m 0);
  m ← (if 0 <? size then
         if str o <? size then set (mem o) (str o) 0 else set (mem o) (size - 1) 0
       else Ok (mem o));
  Ok (s32 (str o), m).
Definition rt_snprintf (buf size : Z) (fmt : list Z) (args : list arg) (m : list Z) : res (Z * list Z) :=
  rt_vsnprintf buf size fmt args m.
Definition rt_vsprintf (buf : Z) (fmt : list Z) (args : list arg) (m : list Z) : res (Z * list Z) :=
  rt_vsnprintf buf (2 ^ 32 - 1) fmt args m.
Definition rt_sprintf (buf : Z) (fmt : list Z) (args : list arg) (m : list Z) : res (Z * list Z) :=
  rt_vsprintf buf fmt args m.

(** ** The text, without a buffer *)

Definition spaces (n : Z) : list Z := replicate (Z.to_nat n) 32.
Definition zeros (n : Z) : list Z := replicate (Z.to_nat n) 48.
Definition justify (left : bool) (width : Z) (t : list Z) : list Z :=
  let fill := spaces (width - Z.of_nat (length t)) in if left then t ++ fill else fill ++ t.

Definition char_field (flags width c : Z) : list Z := justify (has flags LEFT) width [c].
Definition string_field (flags width precision : Z) (s : list Z) : list Z :=
  justify (has flags LEFT) width (if 0 <? precision then take (Z.to_nat precision) s else s).

(** Sign, magnitude and padding: on the left of the sign with blanks, after it
    with zeros, or at the end.  The digits count for the width even when a
    precision of 0 hides them. *)
Definition number_field (num base width precision flags : Z) : res (list Z) :=
  '(sign, num) ← get_sign num flags;
  tmp ← (if num =? 0 then Ok [48] else tmp_digits 16 (has flags LARGE) base num);
  let sign := if sign =? 0 then [] else [sign] in
  let n := Z.max precision (Z.of_nat (length tmp)) in
  let fill := width - n - Z.of_nat (length sign) in
  let body := zeros (precision - Z.of_nat (length tmp)) ++ (if precision =? 0 then [] else rev tmp) in
  Ok (if has flags LEFT then sign ++ body ++ spaces fill
      else if has flags ZEROPAD then sign ++ zeros fill ++ body
      else spaces fill ++ sign ++ body).

Definition field (d : directive) (c : Z) (args : list arg) : res (list arg * list Z) :=
  let '(Directive flags width precision qualifier) := d in
  if c =? 99 then '(z, args) ← va_int args; Ok (args, char_field flags width (u8 z))
  else if c =? 115 then
    '(s, args) ← va_str args; Ok (args, string_field flags width precision (default (text "(NULL)") s))
  else if c =? 112 then
    '(z, args) ← va_int args;
    t ← (if width =? -1 then number_field (s32 z) 16 8 precision (Z.lor flags ZEROPAD)
         else number_field (s32 z) 16 width precision flags);
    Ok (args, t)
  else if c =? 37 then Ok (args, [37])
  else if existsb (Z.eqb c) [111; 88; 120; 100; 105; 117] then
    let base := if c =? 111 then 8 else if (c =? 88) || (c =? 120) then 16 else 10 in
    let flags := if c =? 88 then Z.lor flags LARGE
                 else if (c =? 100) || (c =? 105) then Z.lor flags SIGN else flags in
    '(z, args) ← va_int args;
    t ← number_field (int_arg qualifier flags z) base width precision flags;
    Ok (args, t)
  else Ok (args, if c =? 0 then [37] else [37; c]).

Fixpoint render (fuel : nat) (fmt : list Z) (args : list arg) : res (list Z) :=
  match fuel with
  | O => Fault Hang
  | S fuel' =>
      c ← peek fmt;
      if c =? 0 then Ok []
      else if negb (c =? 37) then t ← render fuel' (tail fmt) args; Ok (c :: t)
      else
        '(d, fmt, args) ← get_directive (tail fmt) args;
        c ← peek fmt;
        '(args, t) ← field d c args;
        t' ← render fuel' (if c =? 0 then fmt else tail fmt) args; Ok (t ++ t')
  end.

Lemma rep_nonpos n c : n <= 0 -> replicate (Z.to_nat n) c = [] :> list Z.
Proof. intros. by replace (Z.to_nat n) with 0%nat by lia. Qed.

Lemma rep_sub_sign k c :
  replicate (Z.to_nat (if 0 <? k then k - 1 else k)) c = replicate (Z.to_nat (k - 1)) c :> list Z.
Proof. f_equal. case_match; lia. Qed.

(** ** What the formatter can compute

    The text with room for the counters: four below 2^31.  Strings are shorter
    than 2^31, and widths and precisions are [int]s from -1 on. *)
Definition TEXT_MAX : Z := 2 ^ 31 - 3.
Definition arg_ok (a : arg) : Prop :=
  match a with Str (Some s) => Z.of_nat (length s) < 2 ^ 31 | _ => True end.
Definition directive_ok (d : directive) : Prop :=
  -1 <= d_width d <= INT_MAX /\ -1 <= d_precision d <= INT_MAX.

Lemma va_int_args args z args' : va_int args = Ok (z, args') -> Forall arg_ok args -> Forall arg_ok args'.
Proof. destruct args as [|[] ?]; cbn; try done. intros [= <- <-]. intros Hf. by inversion Hf. Qed.
Lemma va_str_args args s args' : va_str args = Ok (s, args') -> Forall arg_ok args ->
  Forall arg_ok args' /\ Z.of_nat (length (default (text "(NULL)") s)) < 2 ^ 31.
Proof.
  destruct args as [|[] ?]; cbn; try done. intros [= <- <-]. intros Hf. inversion Hf as [|? ? Hs]. split; [done|].
  destruct s0; cbn; [done|lia].
Qed.

Lemma skip_atoi_range s i w s' : 0 <= i <= INT_MAX -> skip_atoi s i = Ok (w, s') -> 0 <= w <= INT_MAX.
Proof.
  revert i. induction s as [|c s IH]; intros i Hi; cbn; [done|]. unfold isdigit. case_match; [|by intros [= <- <-]].
  case_match; [done|]. apply IH. lia.
Qed.

Lemma get_width_ok fmt args flags w fl fmt' args' : get_width fmt args flags = Ok (w, fl, fmt', args') ->
  Forall arg_ok args -> -1 <= w <= INT_MAX /\ Forall arg_ok args'.
Proof.
  unfold get_width. destruct (peek fmt) as [c|]; [|done]. rewrite bind_ret_l. intros E Ha. destruct (isdigit c).
  - destruct (skip_atoi fmt 0) as [[w' s']|] eqn:Es; [|done]. cbn in E. simplify_eq.
    apply skip_atoi_range in Es; [|unfold INT_MAX; lia]. split; [lia|done].
  - destruct (c =? 42); [|simplify_eq; split; [unfold INT_MAX; lia|done]].
    destruct (va_int args) as [[z a]|] eqn:Ev; [|done]. rewrite bind_ret_l in E. pose proof (va_int_args _ _ _ Ev Ha) as Ha'.
    assert (- INT_MAX - 1 <= s32 z <= INT_MAX) by (unfold INT_MAX; mlia).
    repeat case_match; simplify_eq; (split; [lia|done]).
Qed.

Lemma get_precision_ok fmt args p fmt' args' : get_precision fmt args = Ok (p, fmt', args') ->
  Forall arg_ok args -> -1 <= p <= INT_MAX /\ Forall arg_ok args'.
Proof.
  unfold get_precision. destruct (peek fmt) as [c|]; [|done]. rewrite bind_ret_l. intros E Ha.
  destruct (negb (c =? 46)); [simplify_eq; split; [unfold INT_MAX; lia|done]|].
  destruct (peek (tail fmt)) as [c'|]; [|done]. rewrite bind_ret_l in E. destruct (isdigit c').
  - destruct (skip_atoi (tail fmt) 0) as [[w' s']|] eqn:Es; [|done]. cbn in E.
    apply skip_atoi_range in Es; [|unfold INT_MAX; lia]. simplify_eq. split; [case_match; lia|done].
  - destruct (c' =? 42); [|cbn in E; simplify_eq; split; [unfold INT_MAX; lia|done]].
    destruct (va_int args) as [[z a]|] eqn:Ev; [|done]. cbn in E. pose proof (va_int_args _ _ _ Ev Ha) as Ha'.
    assert (s32 z <= INT_MAX) by (unfold INT_MAX; mlia). simplify_eq. split; [|done].
    case_match; unfold INT_MAX in *; lia.
Qed.

Lemma get_directive_ok fmt args d fmt' args' : get_directive fmt args = Ok (d, fmt', args') ->
  Forall arg_ok args -> directive_ok d /\ Forall arg_ok args'.
Proof.
  unfold get_directive. intros E Ha. destruct (get_flags fmt 0) as [[fl f1]|]; [|done]. rewrite bind_ret_l in E.
  destruct (get_width f1 args fl) as [[[[w fl2] f2] a2]|] eqn:Ew; [|done]. rewrite bind_ret_l in E.
  destruct (get_width_ok _ _ _ _ _ _ _ Ew Ha) as [Hw Ha2].
  destruct (get_precision f2 a2) as [[[p f3] a3]|] eqn:Ep; [|done]. rewrite bind_ret_l in E.
  destruct (get_precision_ok _ _ _ _ _ Ep Ha2) as [Hp Ha3].
  destruct (get_qualifier f3) as [[q f4]|]; [|done]. cbn in E. by simplify_eq.
Qed.

Lemma tmp_digits_length fuel large base n tmp : tmp_digits fuel large base n = Ok tmp -> (length tmp <= fuel)%nat.
Proof.
  revert n tmp. induction fuel as [|fuel IH]; intros n tmp; cbn [tmp_digits].
  { case_match; [|done]. intros [= <-]. cbn. lia. }
  case_match; [intros [= <-]; cbn; lia|]. destruct (divide n base) as [d n'].
  destruct (tmp_digits fuel large base n') as [l|] eqn:E; [|done]. intros [= <-]. apply IH in E. cbn. lia.
Qed.

(** ** The buffer shows the text written so far, up to its end *)

Section shown.
Context (buf end_ : Z) (m0 : list Z).
Hypothesis room : end_ <= Z.of_nat (length m0).
Hypothesis buf_pos : 0 <= buf.

Definition shown (l : list Z) : list Z :=
  let t := take (Z.to_nat end_) l in t ++ drop (length t) m0.
Definition st (l : list Z) : out := Out (shown l) (Z.of_nat (length l)).
(** The pointer has not wrapped. *)
Definition fits (l : list Z) : Prop := buf + Z.of_nat (length l) < 2 ^ 32.

Lemma fits_app_l l t : fits (l ++ t) -> fits l.
Proof. unfold fits. rewrite length_app. lia. Qed.

Lemma length_shown l : length (shown l) = length m0.
Proof. unfold shown. cbn. rewrite length_app, length_drop, length_take. lia. Qed.

Lemma put_st c l : fits (l ++ [c]) -> put buf end_ c (st l) = Ok (st (l ++ [c])).
Proof.
  unfold fits, put, next_str, st. cbn [str mem]. rewrite length_app. cbn [length]. intros Hfit.
  replace (u32 (buf + Z.of_nat (length l) + 1) - buf) with (Z.of_nat (length l + 1)) by (rewrite u32_id; mlia).
  destruct (Z.ltb_spec (Z.of_nat (length l)) end_) as [H|H].
  - rewrite set_in, bind_ret_l by (unfold in_range; rewrite length_shown; lia). do 2 f_equal.
    unfold upd, shown. rewrite Nat2Z.id. cbn.
    rewrite !take_ge by (rewrite ?length_app; cbn; lia).
    rewrite insert_app_r_alt, Nat.sub_diag by done. rewrite length_app, <- app_assoc. cbn. f_equal.
    destruct (lookup_lt_is_Some_2 m0 (length l)) as [x Hx]; [lia|].
    rewrite (drop_S _ x) by done. cbn. f_equal. f_equal. lia.
  - do 2 f_equal. unfold shown. cbn. rewrite take_app_le by lia. done.
Qed.

Lemma puts_st t l : fits (l ++ t) -> puts buf end_ t (st l) = Ok (st (l ++ t)).
Proof.
  revert l. induction t as [|c t IH]; intros l Hf; cbn [puts]; [by rewrite app_nil_r|].
  replace (l ++ c :: t) with ((l ++ [c]) ++ t) in Hf |- * by (by rewrite <- app_assoc).
  rewrite put_st, bind_ret_l by (by eapply fits_app_l). by apply IH.
Qed.

Lemma pad_st c n l : fits (l ++ replicate (Z.to_nat n) c) -> -2147483648 < n ->
  pad buf end_ c n (st l) = Ok (Z.min n 0 - 1, st (l ++ replicate (Z.to_nat n) c)).
Proof. intros Hf Hn. unfold pad. by rewrite puts_st, bind_ret_l, int_res_ok by (done || lia). Qed.

Lemma pad_before_st w l : -2147483648 < w <= INT_MAX -> fits (l ++ spaces (w - 1)) ->
  pad_before buf end_ w (st l) = Ok (Z.min (w - 1) 0, st (l ++ spaces (w - 1))).
Proof.
  intros Hw Hf. unfold pad_before, INT_MAX in *. rewrite int_res_ok, bind_ret_l by lia.
  unfold spaces in *. by rewrite puts_st.
Qed.

Lemma put_char_st flags w c l : -1 <= w <= INT_MAX -> fits (l ++ char_field flags w c) ->
  put_char buf end_ flags w c (st l) = Ok (st (l ++ char_field flags w c)).
Proof.
  intros Hw. unfold put_char, char_field, justify. cbn [length]. change (Z.of_nat 1) with 1.
  destruct (has flags LEFT); cbn [negb]; rewrite app_assoc; intros Hf.
  - rewrite bind_ret_l, put_st, bind_ret_l by (by eapply fits_app_l). rewrite pad_before_st by (done || lia). done.
  - rewrite pad_before_st, bind_ret_l by (try (by eapply fits_app_l); lia). rewrite put_st, bind_ret_l by done.
    assert (Hs : spaces (Z.min (w - 1) 0 - 1) = []) by (unfold spaces; apply rep_nonpos; lia).
    rewrite pad_before_st, Hs, app_nil_r by (rewrite ?Hs, ?app_nil_r; done || lia). done.
Qed.

Lemma pad_to_st len w l : -2147483648 < w -> -2147483648 < len <= INT_MAX -> fits (l ++ spaces (w - len)) ->
  pad_to buf end_ len w (st l) = Ok (Z.min w len - 1, st (l ++ spaces (w - len))).
Proof.
  intros Hw Hl Hf. unfold pad_to, INT_MAX, spaces in *. by rewrite puts_st, bind_ret_l, int_res_ok by (done || lia).
Qed.

Lemma put_string_st flags w p s l : -1 <= w <= INT_MAX -> Z.of_nat (length s) < 2 ^ 31 ->
  fits (l ++ string_field flags w p s) ->
  put_string buf end_ flags w p s (st l) = Ok (st (l ++ string_field flags w p s)).
Proof.
  intros Hw Hs. unfold put_string, string_field, justify.
  replace (s32 (Z.of_nat (length s))) with (Z.of_nat (length s)) by mlia.
  set (len := if (0 <? p) && _ then p else _).
  assert (Ht : take (Z.to_nat len) s = if 0 <? p then take (Z.to_nat p) s else s).
  { unfold len. destruct (0 <? p); cbn [andb]; [|by rewrite take_ge by lia].
    destruct (Z.ltb_spec p (Z.of_nat (length s))); [done|]. by rewrite !take_ge by lia. }
  assert (Hl : Z.of_nat (length (take (Z.to_nat len) s)) = len).
  { rewrite length_take. unfold len. repeat case_match; lia. }
  assert (Hr : 0 <= len <= INT_MAX) by (unfold INT_MAX; rewrite <- Hl, length_take; lia).
  rewrite <- Ht, Hl. clearbody len. destruct (has flags LEFT); cbn [negb]; rewrite app_assoc; intros Hf.
  - rewrite bind_ret_l, puts_st, bind_ret_l by (by eapply fits_app_l). rewrite pad_to_st by (done || lia). done.
  - rewrite pad_to_st, bind_ret_l by (try (by eapply fits_app_l); lia). rewrite puts_st, bind_ret_l by done.
    assert (Hz : spaces (Z.min w len - 1 - len) = []) by (unfold spaces; apply rep_nonpos; lia).
    rewrite pad_to_st, Hz, app_nil_r by (rewrite ?Hz, ?app_nil_r; done || lia). done.
Qed.

(** *** Numbers *)

Lemma has_lor_r a b c : has a (Z.lor b c) = has a b || has a c.
Proof.
  unfold has. rewrite <- negb_andb, Z.land_lor_distr_r. f_equal.
  destruct (Z.eqb_spec (Z.land a b) 0) as [->|Ha], (Z.eqb_spec (Z.land a c) 0) as [->|Hb]; cbn; try done;
  apply Z.eqb_neq; rewrite Z.lor_eq_0_iff; tauto.
Qed.

(** Clearing ZEROPAD for a left-justified number changes no other flag. *)
Definition left_type (type : Z) : Z := if has type LEFT then Z.land type (Z.lnot ZEROPAD) else type.
Lemma has_left_type type bit : Z.land (Z.lnot ZEROPAD) bit = bit -> has (left_type type) bit = has type bit.
Proof. intros H. unfold left_type. case_match; [by rewrite has_land, H|done]. Qed.
Lemma get_sign_left_type num type : get_sign num (left_type type) = get_sign num type.
Proof. unfold get_sign. by rewrite !has_left_type by done. Qed.
Lemma has_left_zeropad type : has (left_type type) ZEROPAD = has type ZEROPAD && negb (has type LEFT).
Proof.
  unfold left_type. destruct (has type LEFT) eqn:E; [|by rewrite andb_true_r].
  rewrite has_land. cbn. by rewrite has_0_r, andb_false_r.
Qed.

(** The last part of a number: its zeros and digits, and blanks. *)
Lemma number_tail p tmp n size o : let body := zeros (p - n) ++ (if p =? 0 then [] else rev tmp) in
  fits (o ++ body ++ spaces size) -> -2147483648 < size ->
  (o ← puts buf end_ (zeros (p - n)) (st o);
   o ← (if negb (p =? 0) then puts buf end_ (rev tmp) o else Ok o);
   '(_, o) ← pad buf end_ 32 size o; Ok o) = Ok (st (o ++ body ++ spaces size)).
Proof.
  cbn zeta. unfold spaces. rewrite <- app_assoc, !app_assoc. intros Hf Hs.
  rewrite puts_st, bind_ret_l by (rewrite <- !app_assoc in Hf; rewrite app_assoc in Hf; by eapply fits_app_l).
  destruct (p =? 0); cbn [negb]; [rewrite app_nil_r in Hf |- *|]; rewrite ?puts_st, bind_ret_l, pad_st by (done || by eapply fits_app_l); done.
Qed.

(** The counters of a number that fits do not overflow. *)
Lemma number_room num base w p type t sign n tmp : number_field num base w p type = Ok t ->
  get_sign num type = Ok (sign, n) -> (if n =? 0 then Ok [48] else tmp_digits 16 (has type LARGE) base n) = Ok tmp ->
  -1 <= w <= INT_MAX -> -1 <= p <= INT_MAX -> Z.of_nat (length t) < TEXT_MAX ->
  -2147483648 + 3 + (if sign =? 0 then 0 else 1) <= w - Z.max p (Z.of_nat (length tmp)) <= INT_MAX.
Proof.
  unfold number_field, TEXT_MAX, INT_MAX. intros Hn Hs Ht Hw Hp Hl. rewrite Hs, bind_ret_l, Ht, bind_ret_l in Hn.
  assert (Hi : (length tmp <= 16)%nat).
  { destruct (n =? 0); [injection Ht as <-; cbn; lia|]. by eapply tmp_digits_length. }
  injection Hn as <-. revert Hl. unfold zeros, spaces. destruct (Z.eqb_spec p 0);
  destruct (has type LEFT), (has type ZEROPAD), (sign =? 0);
    rewrite ?length_app, ?length_replicate, ?length_rev; cbn [length]; lia.
Qed.

Lemma print_number_st num base w p type l t : number_field num base w p type = Ok t ->
  -1 <= w <= INT_MAX -> -1 <= p <= INT_MAX -> Z.of_nat (length t) < TEXT_MAX -> fits (l ++ t) ->
  print_number buf end_ num base w p type (st l) = Ok (st (l ++ t)).
Proof.
  intros Hn Hw Hp Hl Hf. destruct (get_sign num type) as [[sign n]|e] eqn:Es; [|unfold number_field in Hn; by rewrite Es in Hn].
  destruct (if n =? 0 then Ok [48] else tmp_digits 16 (has type LARGE) base n) as [tmp|e] eqn:Et.
  2: { unfold number_field in Hn. by rewrite Es, bind_ret_l, Et in Hn. }
  pose proof (number_room _ _ _ _ _ _ _ _ _ Hn Es Et Hw Hp Hl) as Hroom.
  unfold number_field in Hn. rewrite Es, bind_ret_l, Et, bind_ret_l in Hn. unfold print_number.
  change (if has type LEFT then Z.land type (Z.lnot ZEROPAD) else type) with (left_type type).
  rewrite get_sign_left_type, has_lor_r, has_left_zeropad, Es, bind_ret_l.
  rewrite (has_left_type type LARGE), (has_left_type type LEFT), Et, bind_ret_l by reflexivity.
  clear Hw. injection Hn as <-.
  set (i := Z.of_nat (length tmp)) in *. set (p' := if p <? i then i else p).
  assert (Hp' : p' = Z.max p i) by (unfold p'; destruct (Z.ltb_spec p i); lia).
  assert (Hz : replicate (Z.to_nat (p' - i)) 48 = zeros (p - i)) by (unfold zeros; f_equal; lia).
  rewrite Hz. clear Hz. clearbody p'. subst p'. rewrite int_res_ok, bind_ret_l by (unfold INT_MAX in *; destruct (sign =? 0); lia).
  set (k := w - Z.max p i) in *. clearbody k.
  pose proof (fun size o => number_tail p tmp i size o) as Hbody. cbn zeta in Hbody.
  set (body := zeros (p - i) ++ _) in *. clearbody body.
  unfold spaces, zeros, fits, INT_MAX in *.
  destruct (has type LEFT), (has type ZEROPAD), (sign =? 0); cbn [negb andb orb length] in *;
    rewrite ?length_app, ?length_replicate in Hf; cbn [length] in Hf;
    repeat first [rewrite bind_ret_l | rewrite int_res_ok by (try destruct (Z.ltb_spec 0 k); lia)
      | rewrite pad_st by (unfold fits; rewrite ?length_app, ?length_replicate; cbn [length]; try destruct (Z.ltb_spec 0 k); lia)
      | rewrite put_st by (unfold fits; rewrite ?length_app, ?length_replicate; cbn [length]; try destruct (Z.ltb_spec 0 k); lia)];
    rewrite Hbody by (rewrite ?length_app, ?length_replicate; cbn [length]; try destruct (Z.ltb_spec 0 k); lia);
    rewrite ?app_nil_r, <- ?app_assoc;
    rewrite ?(rep_nonpos (Z.min _ _ - 1)), ?(rep_nonpos (Z.min _ _ - 1 - 1)), ?app_nil_r by lia; cbn [app];
    rewrite ?rep_sub_sign; repeat f_equal; lia.
Qed.

Lemma convert_st d c args l args' t : directive_ok d -> Forall arg_ok args -> field d c args = Ok (args', t) ->
  Z.of_nat (length t) < TEXT_MAX -> fits (l ++ t) ->
  convert buf end_ d c args (st l) = Ok (args', st (l ++ t)) /\ Forall arg_ok args'.
Proof.
  destruct d as [flags w p q]. intros [Hw Hp] Ha. cbn [d_width d_precision] in *. unfold convert, field.
  destruct (c =? 99).
  { destruct (va_int args) as [[z a]|] eqn:Ev; [|done]. rewrite !bind_ret_l. intros [= <- <-] Hl Hf.
    rewrite put_char_st by done. split; [done|by eapply va_int_args]. }
  destruct (c =? 115).
  { destruct (va_str args) as [[z a]|] eqn:Ev; [|done]. rewrite !bind_ret_l. intros [= <- <-] Hl Hf.
    destruct (va_str_args _ _ _ Ev Ha). by rewrite put_string_st by done. }
  destruct (c =? 112).
  { destruct (va_int args) as [[z a]|] eqn:Ev; [|done]. rewrite !bind_ret_l. destruct (w =? -1);
    (destruct (number_field _ _ _ _ _) as [t'|] eqn:En; [|done]); rewrite bind_ret_l; intros [= <- <-] Hl Hf;
    rewrite (print_number_st _ _ _ _ _ _ _ En) by (done || unfold INT_MAX; lia); (split; [done|by eapply va_int_args]). }
  destruct (c =? 37); [intros [= <- <-] Hl Hf; by rewrite put_st|].
  destruct (existsb _ _).
  { destruct (va_int args) as [[z a]|] eqn:Ev; [|done]. rewrite !bind_ret_l.
    destruct (number_field _ _ _ _ _) as [t'|] eqn:En; [|done]. rewrite bind_ret_l. intros [= <- <-] Hl Hf.
    rewrite (print_number_st _ _ _ _ _ _ _ En) by done. split; [done|by eapply va_int_args]. }
  intros [= <- <-] Hl Hf. split; [|done]. destruct (c =? 0); cbn [negb]; [by rewrite put_st|].
  change [37; c] with ([37] ++ [c]) in Hf |- *. rewrite app_assoc in Hf |- *.
  by rewrite put_st, bind_ret_l, put_st by (done || by eapply fits_app_l).
Qed.

Lemma vsnprintf_loop_st fuel fmt args l t : Forall arg_ok args -> render fuel fmt args = Ok t ->
  Z.of_nat (length t) < TEXT_MAX -> fits (l ++ t) ->
  vsnprintf_loop buf end_ fuel fmt args (st l) = Ok (st (l ++ t)).
Proof.
  revert fmt args l t. induction fuel as [|fuel IH]; intros fmt args l t Ha; cbn [vsnprintf_loop render]; [done|].
  destruct (peek fmt) as [c|]; [|done]. rewrite !bind_ret_l.
  destruct (c =? 0); [intros [= <-]; by rewrite app_nil_r|]. destruct (negb (c =? 37)).
  - destruct (render _ _ _) as [t'|] eqn:Er; [|done]. cbn. intros [= <-] Hl Hf. cbn [length] in Hl.
    change (c :: t') with ([c] ++ t') in Hf |- *. rewrite app_assoc in Hf |- *.
    rewrite put_st, bind_ret_l by (by eapply fits_app_l). apply (IH _ args); [done|done|lia|done].
  - destruct (get_directive (tail fmt) args) as [[[d fmt'] args']|] eqn:Ed; [|done]. rewrite !bind_ret_l.
    destruct (get_directive_ok _ _ _ _ _ Ed Ha) as [Hd Ha'].
    destruct (peek fmt') as [c'|]; [|done]. rewrite !bind_ret_l.
    destruct (field d c' args') as [[args'' t1]|] eqn:Ef; [|done]. rewrite !bind_ret_l.
    destruct (render _ _ _) as [t'|] eqn:Er; [|done]. cbn. intros [= <-] Hl Hf.
    rewrite length_app in Hl. rewrite app_assoc in Hf |- *.
    destruct (convert_st d c' args' l args'' t1 Hd Ha' Ef) as [-> Ha'']; [lia|by eapply fits_app_l|].
    rewrite bind_ret_l. apply (IH _ args''); [done|done|lia|done].
Qed.
End shown.

(** ** Every format is processed to its end *)

(** Results that are not [Fault Hang] and whose rest of the format is no longer. *)
Definition shrinks {A} (n : nat) (rest : A -> list Z) (m : res A) : Prop :=
  match m with Ok a => (length (rest a) <= n)%nat | Fault e => e <> Hang end.

Lemma shrinks_bind {A B} n (f : A -> list Z) (g : B -> list Z) (m : res A) (k : A -> res B) :
  shrinks n f m -> (forall a, (length (f a) <= n)%nat -> shrinks n g (k a)) -> shrinks n g (m ≫= k).
Proof. destruct m; cbn; auto. Qed.

Lemma shrinks_weaken {A} n n' (f : A -> list Z) m : (n <= n')%nat -> shrinks n f m -> shrinks n' f m.
Proof. destruct m; cbn; [lia|done]. Qed.

Lemma skip_atoi_shrinks s i : shrinks (length s) snd (skip_atoi s i).
Proof.
  revert i. induction s as [|c s IH]; intros i; cbn [skip_atoi]; [done|].
  case_match; [|by cbn]. case_match; [done|]. eapply shrinks_weaken, IH. cbn. lia.
Qed.

Lemma get_flags_shrinks fmt flags : shrinks (length fmt) snd (get_flags fmt flags).
Proof.
  revert flags. induction fmt as [|c fmt IH]; intros flags; cbn [get_flags]; [done|].
  repeat (case_match; [eapply shrinks_weaken, IH; cbn; lia|]). cbn. lia.
Qed.

Lemma length_tail (l : list Z) : (length (tail l) <= length l)%nat.
Proof. destruct l; cbn; lia. Qed.

Lemma get_width_shrinks fmt args flags :
  shrinks (length fmt) (fun x => snd (fst x)) (get_width fmt args flags).
Proof.
  unfold get_width. destruct fmt as [|c fmt]; cbn [peek mbind res_bind]; [done|]. case_match.
  - eapply shrinks_bind; [apply skip_atoi_shrinks|]. intros [w fmt'] Hf. exact Hf.
  - case_match; [|cbn; lia]. destruct args as [|[z|] args]; try done. cbn. repeat case_match; cbn; done || lia.
Qed.

Lemma get_precision_shrinks fmt args :
  shrinks (length fmt) (fun x => snd (fst x)) (get_precision fmt args).
Proof.
  unfold get_precision. destruct fmt as [|c fmt]; cbn [peek mbind res_bind]; [done|]. case_match; [cbn; lia|].
  cbn [tail]. destruct fmt as [|c' fmt]; cbn [peek mbind res_bind]; [done|].
  eapply (shrinks_bind _ (fun x : Z * list Z * list arg => snd (fst x))).
  - case_match.
    + eapply shrinks_bind; [eapply shrinks_weaken, skip_atoi_shrinks; cbn; lia|]. intros [w fmt'] Hf. exact Hf.
    + case_match; [|cbn; lia]. destruct args as [|[z|] args]; try done. cbn. lia.
  - intros [[p' fmt'] args'] Hf. exact Hf.
Qed.

Lemma get_directive_shrinks fmt args :
  shrinks (length fmt) (fun x => snd (fst x)) (get_directive fmt args).
Proof.
  unfold get_directive. eapply shrinks_bind; [apply get_flags_shrinks|]. intros [flags fmt1] H1. cbn in H1.
  eapply shrinks_bind; [eapply shrinks_weaken, get_width_shrinks; done|]. intros [[[w fl] fmt2] args2] H2. cbn in H2.
  eapply shrinks_bind; [eapply shrinks_weaken, get_precision_shrinks; done|]. intros [[p fmt3] args3] H3. cbn in H3.
  eapply (shrinks_bind _ snd); [|intros [q fmt4] H4; exact H4].
  unfold get_qualifier. destruct fmt3 as [|c fmt3]; cbn; [done|]. cbn in H3. case_match; cbn; lia.
Qed.

Lemma tmp_digits_no_hang fuel large base num : tmp_digits fuel large base num <> Fault Hang.
Proof.
  revert num. induction fuel as [|fuel IH]; intros num; cbn [tmp_digits]; case_match; try done.
  destruct (divide num base) as [d num']. specialize (IH num'). destruct (tmp_digits _ _ _ _); cbn; congruence.
Qed.

Lemma number_field_no_hang num base w p flags : number_field num base w p flags <> Fault Hang.
Proof.
  unfold number_field. destruct (get_sign num flags) as [[sign n]|e] eqn:E.
  - rewrite bind_ret_l. pose proof (tmp_digits_no_hang 16 (has flags LARGE) base n).
    destruct (n =? 0); [done|]. destruct (tmp_digits _ _ _ _); cbn; congruence.
  - unfold get_sign in E. cbn. repeat case_match; congruence.
Qed.

Lemma field_no_hang d c args : field d c args <> Fault Hang.
Proof.
  destruct d as [flags w p q]. unfold field.
  assert (Hn : forall (args : list arg) num base w p flags,
    (t ← number_field num base w p flags; Ok (args, t)) <> Fault Hang).
  { intros args' num base w' p' fl. pose proof (number_field_no_hang num base w' p' fl).
    destruct (number_field _ _ _ _ _); cbn; congruence. }
  repeat (case_match; try done); destruct args as [|[z|] args]; cbn [va_int va_str mbind res_bind]; try done;
  repeat case_match; apply Hn.
Qed.
(** The loop ends within one round per character. *)
Theorem render_ends fuel fmt args : (length fmt < fuel)%nat -> render fuel fmt args <> Fault Hang.
Proof.
  revert fmt args. induction fuel as [|fuel IH]; intros fmt args Hf; [lia|]. cbn [render].
  destruct fmt as [|c fmt]; cbn [peek mbind res_bind]; [done|]. cbn [length] in Hf.
  destruct (c =? 0); [done|]. cbn [tail]. destruct (negb (c =? 37)).
  - pose proof (IH fmt args ltac:(lia)). destruct (render _ _ _); cbn; congruence.
  - pose proof (get_directive_shrinks fmt args) as Hd. destruct (get_directive fmt args) as [[[d fmt'] args']|e];
      cbn in Hd |- *; [|congruence].
    destruct fmt' as [|c' fmt']; cbn [peek mbind res_bind]; [done|].
    pose proof (field_no_hang d c' args') as Hn. destruct (field d c' args') as [[args'' t]|e]; cbn [mbind res_bind]; [|congruence].
    pose proof (IH (if c' =? 0 then c' :: fmt' else tail (c' :: fmt')) args'') as Hr.
    destruct (render _ _ _); cbn; [done|]. apply Hr. cbn in Hd. destruct (c' =? 0); cbn; lia.
Qed.

(** What is left in a buffer of [size] bytes: the text cut to [size - 1] bytes
    and its zero; the bytes behind are untouched. *)
Definition stored (size : Z) (t m : list Z) : list Z :=
  let k := Nat.min (length t) (Z.to_nat (size - 1)) in
  if 0 <? size then take k t ++ 0 :: drop (S k) m else m.

Lemma stored_spec size t m : size <= Z.of_nat (length m) ->
  (if 0 <? size then
     if Z.of_nat (length t) <? size then set (shown size m t) (Z.of_nat (length t)) 0 else set (shown size m t) (size - 1) 0
   else Ok (shown size m t)) = Ok (stored size t m).
Proof.
  intros Hm. unfold stored. destruct (Z.ltb_spec 0 size) as [H|H].
  2: { unfold shown. replace (Z.to_nat size) with 0%nat by lia. done. }
  set (k := Nat.min (length t) (Z.to_nat (size - 1))).
  assert (Hset : set (shown size m t) (Z.of_nat k) 0 = Ok (take k t ++ 0 :: drop (S k) m)).
  { rewrite set_in by (unfold in_range; rewrite length_shown by lia; lia).
    unfold upd. rewrite Nat2Z.id, insert_take_drop by (rewrite length_shown by lia; lia).
    unfold shown. cbn zeta. set (t' := take (Z.to_nat size) t).
    assert (Ht' : length t' = Nat.min (Z.to_nat size) (length t)) by apply length_take.
    rewrite take_app_le by lia. unfold t' at 1. rewrite take_take, Nat.min_l by lia.
    rewrite drop_app_ge, drop_drop by lia. do 4 f_equal. lia. }
  rewrite <- Hset. case_match; f_equal; lia.
Qed.

Lemma vsnprintf_stores (buf size : Z) (fmt : list Z) (args : list arg) (m t : list Z) :
  0 <= buf -> buf + size < 2 ^ 32 -> size <= Z.of_nat (length m) -> Forall arg_ok args ->
  render (S (length fmt)) fmt args = Ok t -> Z.of_nat (length t) < TEXT_MAX -> buf + Z.of_nat (length t) < 2 ^ 32 ->
  rt_vsnprintf buf size fmt args m = Ok (Z.of_nat (length t), stored size t m).
Proof.
  intros H0 Hb Hm Ha Ht Hl Hf. unfold rt_vsnprintf. rewrite (proj2 (Z.leb_gt _ _) Hb).
  assert (H1 : Out m 0 = st size m []) by (unfold st, shown; rewrite take_nil; done).
  rewrite H1, (vsnprintf_loop_st buf size m Hm H0 _ _ _ _ t) by done.
  rewrite !bind_ret_l. cbn [app]. unfold st. cbn [str mem]. rewrite stored_spec by done.
  rewrite bind_ret_l. do 2 f_equal. unfold TEXT_MAX in Hl. mlia.
Qed.

(** C25: Formatted output is the text of the format followed by truncation.  For
    every buffer and size, every format and arguments that have a text (the
    conversions find arguments of their kind, no width overflows and no number is
    the least one), whose strings are shorter than 2^31 bytes and whose text has
    at most 2^31 - 4 bytes and ends below the end of the address space,
    [rt_vsnprintf] returns the length of the full text, leaves in the buffer the text cut to [size - 1]
    bytes with a zero behind it, and changes no byte at or behind [size], nor any
    byte behind the zero.  No counter overflows and the output pointer does not
    wrap on the way.  [precision_overflow] and [pointer_wraps] show what happens
    beyond. *)
Theorem rt_vsnprintf_correct (buf size : Z) (fmt : list Z) (args : list arg) (m t : list Z) :
  0 <= buf -> buf + size < 2 ^ 32 -> size <= Z.of_nat (length m) -> Forall arg_ok args ->
  render (S (length fmt)) fmt args = Ok t -> Z.of_nat (length t) < TEXT_MAX -> buf + Z.of_nat (length t) < 2 ^ 32 ->
  rt_vsnprintf buf size fmt args m = Ok (Z.of_nat (length t), stored size t m).
Proof. apply vsnprintf_stores. Qed.

Lemma rt_vsnprintf_correct_witness :
  rt_vsnprintf 0x20000000 8 (text "uart%d" ++ [0]) [Int 5] (replicate 10 7) = Ok (5, text "uart5" ++ [0; 7; 7; 7; 7]).
Proof.
  apply (rt_vsnprintf_correct 0x20000000 8 (text "uart%d" ++ [0]) [Int 5] (replicate 10 7) (text "uart5"));
    [lia|reflexivity|cbn; lia|repeat constructor|vm_compute; reflexivity|reflexivity|reflexivity].
Defined.

(** Beyond it: a precision of INT_MAX makes [size] INT_MIN, and [size--]
    overflows. *)
Theorem precision_overflow :
  rt_vsnprintf 0x20000000 8 (text "%.*d" ++ [0]) [Int INT_MAX; Int 5] (replicate 10 7) = Fault SignedOverflow.
Proof. vm_compute. reflexivity. Qed.

(** A pointer that has reached the end of the address space goes on at 0, where
    it is below [end] again, and the next character is stored outside the
    buffer. *)
Theorem pointer_wraps c c' m buf : 0 < buf < 2 ^ 32 - 8 ->
  puts buf 8 [c; c'] (Out m (2 ^ 32 - 1 - buf)) = Fault OutOfBounds.
Proof.
  intros Hb. cbn [puts]. unfold put. cbn [str mem]. rewrite (proj2 (Z.ltb_ge _ _)) by lia.
  rewrite bind_ret_l. unfold next_str. cbn [str mem].
  replace (buf + (2 ^ 32 - 1 - buf) + 1) with (2 ^ 32) by lia. change (u32 (2 ^ 32)) with 0.
  rewrite (proj2 (Z.ltb_lt _ _)) by lia. by rewrite set_out by (unfold in_range; lia).
Qed.

(** ** The digits denote the number *)

Lemma s32_u32 z : s32 (u32 z) = s32 z.
Proof. mlia. Qed.

Definition radix (base : Z) : Z := if base =? 10 then 10 else 16.
Definition digit_val (c : Z) : Z := if c <? 58 then c - 48 else if c <? 71 then c - 55 else c - 87.
(** The value of a numeral, most significant digit first. *)
Definition numeral_val (r : Z) (l : list Z) : Z := foldl (fun a c => r * a + digit_val c) 0 l.

Lemma digit_val_char large d : 0 <= d < 16 -> digit_val (digit_char large d) = d.
Proof. intros. unfold digit_char, digit_val. destruct large; repeat case_match; lia. Qed.

Lemma numeral_val_rev r c tmp : numeral_val r (rev (c :: tmp)) = digit_val c + r * numeral_val r (rev tmp).
Proof. unfold numeral_val. cbn [rev]. rewrite foldl_app. cbn. lia. Qed.

Lemma divide_spec n base : -2147483648 <= n < 2147483648 ->
  let '(d, n') := divide n base in
  0 <= d < radix base /\ u32 n = radix base * u32 n' + d /\ -2147483648 <= n' < 2147483648.
Proof.
  intros Hn. unfold divide, radix. destruct (base =? 10).
  - replace (s32 (u32 n / 10)) with (u32 n / 10) by mlia. mlia.
  - replace (s32 (u32 n / 16)) with (u32 n / 16) by mlia. mlia.
Qed.

(** The digits of a number below [radix ^ fuel] fit into [fuel] places. *)
Lemma tmp_digits_value fuel large base n : -2147483648 <= n < 2147483648 -> u32 n < radix base ^ Z.of_nat fuel ->
  exists tmp, tmp_digits fuel large base n = Ok tmp /\ numeral_val (radix base) (rev tmp) = u32 n /\
    Forall (fun c => exists d, 0 <= d < radix base /\ c = digit_char large d) tmp /\
    (if n =? 0 then tmp = [] else exists tmp' c, tmp = tmp' ++ [c] /\ digit_val c <> 0).
Proof.
  assert (Hr : 10 <= radix base <= 16) by (unfold radix; case_match; lia).
  revert n. induction fuel as [|fuel IH]; intros n Hn Hlt; cbn [tmp_digits].
  - change (radix base ^ Z.of_nat 0) with 1 in Hlt. replace n with 0 by mlia. by exists [].
  - destruct (Z.eqb_spec n 0) as [->|H0]; [by exists []|]. pose proof (divide_spec n base Hn) as Hd.
    destruct (divide n base) as [d n']. destruct Hd as (Hd & Hu & Hn').
    rewrite Nat2Z.inj_succ, Z.pow_succ_r in Hlt by lia.
    destruct (IH n' Hn') as (tmp & -> & Hv & Hf & Hl); [nia|]. rewrite bind_ret_l. eexists. split; [done|].
    rewrite numeral_val_rev, Hv, digit_val_char by lia. split; [lia|]. split; [constructor; [by exists d|done]|].
    destruct (Z.eqb_spec n' 0) as [->|H'].
    + subst tmp. exists [], (digit_char large d). split; [done|]. rewrite digit_val_char by lia.
      assert (u32 n <> 0) by mlia. change (u32 0) with 0 in Hu. lia.
    + destruct Hl as (tmp' & c & -> & Hc). by exists (digit_char large d :: tmp'), c.
Qed.

(** [l] is the numeral of [n], without leading zeros. *)
Definition numeral (large : bool) (base n : Z) (l : list Z) : Prop :=
  numeral_val base l = n /\
  Forall (fun c => exists d, 0 <= d < base /\ c = digit_char large d) l /\
  (l = [48] \/ exists c l', l = c :: l' /\ digit_val c <> 0).

Lemma digits_numeral large base n : -2147483648 <= n < 2147483648 ->
  exists tmp, (if n =? 0 then Ok [48] else tmp_digits 16 large base n) = Ok tmp /\
    numeral large (radix base) (u32 n) (rev tmp).
Proof.
  intros Hn. destruct (tmp_digits_value 16 large base n Hn) as (tmp & Ht & Hv & Hf & Hl).
  { unfold radix. case_match; mlia. }
  destruct (n =? 0) eqn:E0.
  - exists [48]. split; [done|]. split; [apply Z.eqb_eq in E0 as ->; change (radix base * 0 + 0 = 0); lia|].
    split; [|by left]. constructor; [|constructor]. exists 0. split; [unfold radix; case_match; lia|done].
  - exists tmp. split; [done|]. split; [done|]. split; [by apply Forall_rev|right].
    destruct Hl as (tmp' & c & -> & Hc). exists c, (rev tmp'). by rewrite rev_app_distr.
Qed.

(** A number without width and precision. *)
Lemma plain_number n base flags sign n' : get_sign n flags = Ok (sign, n') -> -2147483648 <= n' < 2147483648 ->
  has flags LEFT = false -> has flags ZEROPAD = false ->
  exists l, number_field n base (-1) (-1) flags = Ok ((if sign =? 0 then [] else [sign]) ++ l) /\
    numeral (has flags LARGE) (radix base) (u32 n') l.
Proof.
  intros Hs Hn HL HZ. destruct (digits_numeral (has flags LARGE) base n' Hn) as (tmp & Ht & Hden).
  exists (rev tmp). split; [|done]. unfold number_field. rewrite Hs, bind_ret_l, Ht, bind_ret_l, HL, HZ.
  change (-1 =? 0) with false. unfold spaces, zeros. by rewrite !rep_nonpos by (destruct (sign =? 0); cbn; lia).
Qed.

(** A format of one plain integer conversion. *)
Lemma render_plain z c : c ∈ [100; 117; 120; 88] ->
  render 4 [37; c; 0] [Int z] =
  number_field (s32 z) (if (c =? 88) || (c =? 120) then 16 else 10) (-1) (-1)
    (if c =? 88 then LARGE else if c =? 100 then SIGN else 0).
Proof.
  intros Hc. rewrite <- (s32_u32 z).
  repeat (apply list.elem_of_cons in Hc as [->|Hc];
    [cbn -[number_field s32 u32]; destruct (number_field _ _ _ _ _); cbn; by rewrite ?app_nil_r|]).
  by apply list.not_elem_of_nil in Hc.
Qed.

(** Integer conversions print the number.  For every argument [z], %d prints
    a minus sign for a negative 32-bit value and then the decimal numeral of its
    magnitude (for the least value the negation overflows); %u prints the decimal
    numeral of the unsigned value, %x and %X its hexadecimal numeral in small
    and large letters, all without leading zeros. *)
Theorem integer_conversions_correct (z : Z) :
  let plain c := render 4 [37; c; 0] [Int z] in
  (if s32 z =? - INT_MAX - 1 then plain 100 = Fault SignedOverflow
   else exists l, plain 100 = Ok ((if s32 z <? 0 then [45] else []) ++ l) /\ numeral false 10 (Z.abs (s32 z)) l) /\
  (exists l, plain 117 = Ok l /\ numeral false 10 (u32 z) l) /\
  (exists l, plain 120 = Ok l /\ numeral false 16 (u32 z) l) /\
  (exists l, plain 88 = Ok l /\ numeral true 16 (u32 z) l).
Proof.
  cbn zeta. assert (Hs : -2147483648 <= s32 z < 2147483648 /\ u32 (s32 z) = u32 z) by mlia.
  destruct Hs as [Hs Hu]. rewrite !render_plain by (by repeat constructor).
  split; [|repeat split].
  - cbn -[number_field s32 INT_MAX]. destruct (Z.eqb_spec (s32 z) (- INT_MAX - 1)) as [E|E].
    + unfold number_field, get_sign. rewrite E. done.
    + destruct (plain_number (s32 z) 10 SIGN (if s32 z <? 0 then 45 else 0) (Z.abs (s32 z))) as (l & Hl & Hn).
      * unfold get_sign. change (has SIGN SIGN) with true. change (has SIGN PLUS) with false. change (has SIGN SPACE) with false.
        destruct (Z.ltb_spec (s32 z) 0); [|f_equal; f_equal; lia].
        rewrite (proj2 (Z.eqb_neq _ _) E). f_equal. f_equal. lia.
      * unfold INT_MAX in E. lia.
      * done.
      * done.
      * exists l. rewrite Hl. split; [by destruct (s32 z <? 0)|].
        rewrite u32_id in Hn by (unfold INT_MAX in E; mlia). exact Hn.
  - destruct (plain_number (s32 z) 10 0 0 (s32 z)) as (l & Hl & Hn); [done..|]. exists l. rewrite Hu in Hn. done.
  - destruct (plain_number (s32 z) 16 0 0 (s32 z)) as (l & Hl & Hn); [done..|]. exists l. rewrite Hu in Hn. done.
  - destruct (plain_number (s32 z) 16 LARGE 0 (s32 z)) as (l & Hl & Hn); [done..|]. exists l. rewrite Hu in Hn. done.
Qed.

(** *** Where the text differs from the C standard's *)

(** %o prints in base 16: [divide] knows only 10 and 16. *)
Theorem octal_prints_hex : render 4 (text "%o" ++ [0]) [Int 8] = Ok (text "8")
  /\ render 4 (text "%o" ++ [0]) [Int 255] = Ok (text "ff").
Proof. split; vm_compute; reflexivity. Qed.

(** A precision of 0 hides every number, not only zero, and does not cut a string. *)
Theorem precision_zero : render 6 (text "%.0d" ++ [0]) [Int 42] = Ok []
  /\ render 6 (text "%.0s" ++ [0]) [Str (Some (text "abc"))] = Ok (text "abc").
Proof. split; vm_compute; reflexivity. Qed.

(** ** The console *)

Definition RT_CONSOLEBUF_SIZE : Z := 128.

Section console.
Context {D : Type} `{!DeviceOps D}.

(** Writing in stream mode; the open flags are restored. *)
Definition console_write (data : list Z) (d : D) : res D :=
  let old_flag := open_flag (dev d) in
  let d := on_dev (with_open_flag (Z.lor old_flag RT_DEVICE_FLAG_STREAM)) d in
  '(_, d) ← rt_device_write data d;
  Ok (on_dev (with_open_flag old_flag) d).

(** [s]: the string up to its zero, [None] for a null pointer. *)
Definition rt_kputs (s : option (list Z)) (d : D) : res D :=
  match s with None => Ok d | Some s => console_write s d end.

(** [rt_log_buf] at address [buf]. *)
Definition rt_kprintf (buf : Z) (fmt : list Z) (args : list arg) (x : list Z * D) : res (list Z * D) :=
  let '(rt_log_buf, d) := x in
  '(n, rt_log_buf) ← rt_vsnprintf buf (RT_CONSOLEBUF_SIZE - 1) fmt args rt_log_buf;
  let length := u32 n in
  let length := if RT_CONSOLEBUF_SIZE - 1 <? length then RT_CONSOLEBUF_SIZE - 1 else length in
  d ← console_write (take (Z.to_nat length) rt_log_buf) d;
  Ok (rt_log_buf, d).

(** What the console device is asked to write. *)
Definition console_text (t : list Z) : list Z :=
  if Z.of_nat (length t) <? 127 then t else take 126 t ++ [0].

Lemma rt_kprintf_spec buf fmt args log d t : buf + 128 <= 2 ^ 32 -> Z.of_nat (length log) = RT_CONSOLEBUF_SIZE ->
  0 <= buf -> Forall arg_ok args -> render (S (length fmt)) fmt args = Ok t ->
  Z.of_nat (length t) < TEXT_MAX -> buf + Z.of_nat (length t) < 2 ^ 32 ->
  rt_kprintf buf fmt args (log, d) =
  (d' ← console_write (console_text t) d; Ok (stored 127 t log, d')).
Proof.
  intros Hb Hl H0 Ha Ht Hlen Hend. unfold rt_kprintf, RT_CONSOLEBUF_SIZE in *.
  rewrite (vsnprintf_stores buf (128 - 1) fmt args log t), bind_ret_l by (done || lia).
  replace (u32 (Z.of_nat (length t))) with (Z.of_nat (length t)) by (unfold TEXT_MAX in *; mlia).
  assert (Htake : take (Z.to_nat (if 128 - 1 <? Z.of_nat (length t) then 128 - 1 else Z.of_nat (length t)))
                    (stored (128 - 1) t log) = console_text t); [|by rewrite Htake].
  unfold stored, console_text. change (0 <? 128 - 1) with true. cbn match.
  change (Z.to_nat (128 - 1 - 1)) with 126%nat.
  destruct (Z.ltb_spec (Z.of_nat (length t)) 127) as [H|H].
  - destruct (Z.ltb_spec (128 - 1) (Z.of_nat (length t))); [lia|].
    rewrite Nat.min_l by lia. rewrite (take_ge t) by done. rewrite Nat2Z.id. by rewrite take_app_length.
  - rewrite Nat.min_r by lia.
    replace (Z.to_nat (if 128 - 1 <? Z.of_nat (length t) then 128 - 1 else Z.of_nat (length t))) with 127%nat
      by (case_match; lia).
    rewrite take_app_ge by (rewrite length_take; lia). rewrite length_take, Nat.min_l by lia. done.
Qed.
End console.
