(* ===== verification/Console.v ===== *)
(** * The console on a serial port (src/kservice.c over serial.c)

    [rt_kprintf] formats into its log buffer and writes it to the console
    device in stream mode, where the serial driver puts a carriage return
    before every line feed. *)
From S2P Require Import Prelude Device SerialFifo Serial KernelPrintf.

Section set_device.
Context {D : Type} `{!DeviceOps D}.
(** [found]: the device of the given name, another than the present one. *)
Definition rt_console_set_device (found console : option D) : res (option D * option D) :=
  match found with
  | None => Ok (console, console)
  | Some new =>
      old ← match console with
            | Some d => '(_, d) ← rt_device_close d; Ok (Some d)
            | None => Ok None
            end;
      '(_, new) ← rt_device_open (Z.lor RT_DEVICE_OFLAG_RDWR RT_DEVICE_FLAG_STREAM) new;
      Ok (old, Some new)
  end.
End set_device.

Definition crlf (l : list Z) : list Z := concat (map (fun c => if c =? 10 then [13; 10] else [c]) l).

Lemma crlf_cons c l : crlf (c :: l) = (if c =? 10 then [13; 10] else [c]) ++ crlf l.
Proof. done. Qed.

Definition add_sent (l : list Z) (s : serial stm32_uart) : serial stm32_uart :=
  with_uart (Stm32 (rx_held (uart s)) (sent (uart s) ++ l) (rxne_irq (uart s))) s.

Lemma add_sent_app l l' s : add_sent l' (add_sent l s) = add_sent (l ++ l') s.
Proof. unfold add_sent. cbn. by rewrite <- app_assoc. Qed.

(** What a polled port sends. *)
Lemma poll_tx_sent data s :
  _serial_poll_tx data s =
  add_sent (if has (open_flag (parent s)) RT_DEVICE_FLAG_STREAM then crlf data else data) s.
Proof.
  revert s. induction data as [|c data IH]; intros s; cbn [_serial_poll_tx].
  - destruct s as [p b rx tx [held snt irq]]. unfold add_sent. cbn. case_match; by rewrite app_nil_r.
  - set (s1 := if (c =? 10) && _ then _ else s).
    assert (Hs1 : s1 = add_sent (if (c =? 10) && has (open_flag (parent s)) RT_DEVICE_FLAG_STREAM then [13] else []) s).
    { unfold s1. case_match; [done|]. destruct s as [p b rx tx [held snt irq]]. unfold add_sent. cbn. by rewrite app_nil_r. }
    change (with_uart (snd (uart_putc c (uart s1))) s1) with (add_sent [c] s1).
    rewrite IH. change (parent (add_sent [c] s1)) with (parent s1). rewrite Hs1.
    change (parent (add_sent ?l s)) with (parent s). rewrite !add_sent_app. clear Hs1 s1.
    destruct (has (open_flag (parent s)) RT_DEVICE_FLAG_STREAM); rewrite ?crlf_cons;
      destruct (Z.eqb_spec c 10) as [->|]; done.
Qed.

(** What [rt_kprintf] puts on the line.  On an open serial console without
    the transmit interrupt, a format whose text [t] has fewer than 127 bytes
    puts exactly [t] on the line with every line feed preceded by a carriage
    return; of a longer text the first 126 bytes and a zero byte.  The flags of
    the port are as before, and nothing else of it changes. *)
Theorem kprintf_reaches_line (fuel : nat) (buf : Z) (fmt : list Z) (args : list arg) (log t : list Z)
    (s : serial stm32_uart) :
  buf + 128 <= 2 ^ 32 -> Z.of_nat (length log) = RT_CONSOLEBUF_SIZE ->
  0 <= buf -> Forall arg_ok args -> render (S (length fmt)) fmt args = Ok t ->
  Z.of_nat (length t) < TEXT_MAX -> buf + Z.of_nat (length t) < 2 ^ 32 ->
  ref_count (parent s) <> 0 -> has (open_flag (parent s)) RT_DEVICE_FLAG_INT_TX = false ->
  rt_kprintf (DeviceOps0 := serial_device true fuel) buf fmt args (log, s) =
  Ok (stored 127 t log, add_sent (crlf (console_text t)) s).
Proof.
  intros Hb Hl H0 Ha Ht Hlen Hend Hr Hi. rewrite (rt_kprintf_spec buf fmt args log s t) by done.
  unfold console_write, rt_device_write, on_dev. cbn. rewrite (proj2 (Z.eqb_neq _ _) Hr).
  unfold rt_serial_write. cbn. rewrite has_lor, Hi. change (has RT_DEVICE_FLAG_STREAM RT_DEVICE_FLAG_INT_TX) with false. cbn.
  destruct (Z.eqb_spec (Z.of_nat (length (console_text t))) 0) as [E|E].
  - destruct (console_text t) as [|? ?]; [|cbn in E; lia].
    destruct s as [[? ? ? ?] b rx tx [held snt irq]]. unfold add_sent. cbn. by rewrite app_nil_r.
  - rewrite poll_tx_sent. cbn. rewrite has_lor. change (has RT_DEVICE_FLAG_STREAM RT_DEVICE_FLAG_STREAM) with true.
    rewrite orb_true_r. by destruct s as [[? ? ? ?] b rx tx [held snt irq]].
Qed.

Lemma kprintf_reaches_line_witness :
  rt_kprintf (DeviceOps0 := serial_device true 1) 0x20000000 (text "id %d" ++ [10; 0]) [Int 7]
    (replicate 128 0, Serial (Device 0x513 0x008 1 false) 64 None false (Stm32 [] [] false)) =
  Ok (stored 127 (text "id 7" ++ [10]) (replicate 128 0),
      Serial (Device 0x513 0x008 1 false) 64 None false (Stm32 [] (text "id 7" ++ [13; 10]) false)).
Proof.
  apply (kprintf_reaches_line 1 0x20000000 (text "id %d" ++ [10; 0]) [Int 7] (replicate 128 0) (text "id 7" ++ [10])
    (Serial (Device 0x513 0x008 1 false) 64 None false (Stm32 [] [] false)));
    first [discriminate|reflexivity|repeat constructor].
Defined.
