(* ===== verification/KernelObject.v ===== *)
(** * Kernel objects by name (src/object.c) and the device registry (src/device.c)

    Every object has a type and a name of eight bytes and is linked into the
    list of its type; lists are searched from the newest entry.  The device
    registry is shown to be a finite map from names to devices.  Names are
    copied and compared by the string functions of [KernelService].  The
    scheduler lock around the searches and the hooks are left out. *)
From stdpp Require Import gmap.
From S2P Require Import Prelude KernelService.

Definition RT_NAME_MAX : Z := 8.
Definition RT_Object_Class_Device : Z := 9.
Definition RT_Object_Class_Unknown : Z := 12.
Definition RT_Object_Class_Static : Z := 0x80.

(** The types with a container: all but modules. *)
Definition rt_object_container : list Z := [1; 2; 3; 4; 5; 6; 7; 8; 9; 10].

Record object : Type := Object { o_type : Z; o_name : list Z }.
Record registry : Type := Registry { objects : gmap Z object; object_lists : gmap Z (list Z) }.

Definition rt_object_get_information (type : Z) : bool := bool_decide (type ∈ rt_object_container).
Definition object_list (type : Z) (r : registry) : list Z := default [] (object_lists r !! type).
(** Whether the object's node is in some list. *)
Definition object_linked (obj : Z) (r : registry) : bool := existsb (fun t => bool_decide (obj ∈ object_list t r)) rt_object_container.

(** The name field after the copy, from a string with its zero. *)
Definition copy_name (name : list Z) : res (list Z) :=
  m ← rt_strncpy 0 RT_NAME_MAX RT_NAME_MAX (replicate 8 0 ++ name); Ok (take 8 m).
Definition same_name (oname name : list Z) : res bool :=
  r ← rt_strncmp 0 RT_NAME_MAX RT_NAME_MAX (oname ++ name); Ok (r =? 0).

Definition link (obj type : Z) (o : object) (r : registry) : registry :=
  Registry (<[obj := o]> (objects r)) (<[type := obj :: object_list type r]> (object_lists r)).
Definition unlink_obj (obj : Z) (r : registry) : registry :=
  Registry (objects r) ((fun l => filter (.≠ obj) l) <$> object_lists r).

Definition rt_object_init (obj type : Z) (name : list Z) (r : registry) : res registry :=
  if negb (rt_object_get_information type) then Fault AssertFail else
  if bool_decide (obj ∈ object_list type r) then Fault AssertFail else
  if object_linked obj r then Fault ListCorrupt else
  n ← copy_name name;
  Ok (link obj type (Object (Z.lor type RT_Object_Class_Static) n) r).

Definition get_object (obj : Z) (r : registry) : res object :=
  match objects r !! obj with Some o => Ok o | None => Fault NullDeref end.

Definition rt_object_detach (obj : Z) (r : registry) : res registry :=
  o ← get_object obj r;
  Ok (unlink_obj obj (Registry (<[obj := Object 0 (o_name o)]> (objects r)) (object_lists r))).

(** [memory]: what the heap returns. *)
Definition rt_object_allocate (memory : option Z) (type : Z) (name : list Z) (r : registry) : res (option Z * registry) :=
  if negb (rt_object_get_information type) then Fault AssertFail else
  match memory with
  | None => Ok (None, r)
  | Some obj => n ← copy_name name; Ok (Some obj, link obj type (Object type n) r)
  end.

Definition rt_object_is_systemobject (obj : Z) (r : registry) : res bool :=
  o ← get_object obj r; Ok (negb (Z.land (o_type o) RT_Object_Class_Static =? 0)).
Definition rt_object_get_type (obj : Z) (r : registry) : res Z :=
  o ← get_object obj r; Ok (u8 (Z.land (o_type o) (Z.lnot RT_Object_Class_Static))).

Definition rt_object_delete (obj : Z) (r : registry) : res registry :=
  system ← rt_object_is_systemobject obj r;
  if system : bool then Fault AssertFail else
  let r := unlink_obj obj r in
  Ok (Registry (delete obj (objects r)) (object_lists r)).

Fixpoint find_object (l : list Z) (name : list Z) (r : registry) : res (option Z) :=
  match l with
  | [] => Ok None
  | obj :: l' =>
      o ← get_object obj r;
      found ← same_name (o_name o) name;
      if found : bool then Ok (Some obj) else find_object l' name r
  end.

(** [None]: the null pointer. *)
Definition rt_object_find (name : option (list Z)) (type : Z) (r : registry) : res (option Z) :=
  match name with
  | None => Ok None
  | Some name =>
      if RT_Object_Class_Unknown <? type then Ok None else
      if negb (rt_object_get_information type) then Fault AssertFail else
      find_object (object_list type r) name r
  end.

(** ** Devices *)

Definition rt_device_find (name : list Z) (r : registry) : res (option Z) :=
  find_object (object_list RT_Object_Class_Device r) name r.

(** The flags set besides the name are those of [Device.registered]. *)
Definition rt_device_register (dev : option Z) (name : list Z) (r : registry) : res (Z * registry) :=
  match dev with
  | None => Ok (-1, r)
  | Some dev =>
      found ← rt_device_find name r;
      match found with
      | Some _ => Ok (-1, r)
      | None => r ← rt_object_init dev RT_Object_Class_Device name r; Ok (0, r)
      end
  end.

Definition rt_device_unregister (dev : Z) (r : registry) : res (Z * registry) :=
  type ← rt_object_get_type dev r;
  if negb (type =? RT_Object_Class_Device) then Fault AssertFail else
  system ← rt_object_is_systemobject dev r;
  if negb system then Fault AssertFail else
  r ← rt_object_detach dev r; Ok (0, r).

(** The memory of a new device is zeroed; it is not yet an object of any list. *)
Definition rt_device_create (memory : option Z) (r : registry) : option Z * registry :=
  match memory with
  | None => (None, r)
  | Some dev => (Some dev, Registry (<[dev := Object 0 (replicate 8 0)]> (objects r)) (object_lists r))
  end.

Definition rt_device_destroy (dev : Z) (r : registry) : res registry :=
  type ← rt_object_get_type dev r;
  if negb (type =? RT_Object_Class_Device) then Fault AssertFail else
  system ← rt_object_is_systemobject dev r;
  if system : bool then Fault AssertFail else
  r ← rt_object_detach dev r;
  Ok (Registry (delete dev (objects r)) (object_lists r)).

(** ** Names *)

(** The name field of the string [s]. *)
Definition key (s : list Z) : list Z := take 8 (s ++ replicate 8 0).
(** A string without its zero. *)
Definition is_str (s : list Z) : Prop := Forall (fun c => 0 < c < 256) s.

Lemma length_key s : length (key s) = 8%nat.
Proof. unfold key. rewrite length_take, length_app, length_replicate. lia. Qed.

Lemma rd_key s i : 0 <= i < 8 -> rd (key s) i = if decide (i < Z.of_nat (length s)) then rd s i else 0.
Proof.
  intros Hi. unfold rd, key. rewrite lookup_take_lt by lia. case_decide.
  - by rewrite lookup_app_l by lia.
  - rewrite lookup_app_r by lia. by rewrite lookup_replicate_2 by lia.
Qed.

Lemma rd_app_r (l l' : list Z) n i : Z.of_nat (length l) = n -> 0 <= i -> rd (l ++ l') (n + i) = rd l' i.
Proof. intros Hn Hi. unfold rd. rewrite lookup_app_r by lia. do 2 f_equal. lia. Qed.
Lemma rd_app_l (l l' : list Z) i : in_range l i -> rd (l ++ l') i = rd l i.
Proof. unfold in_range, rd. intros. by rewrite lookup_app_l by lia. Qed.

Lemma cstring_name (l s : list Z) : length l = 8%nat -> is_str s ->
  cstring (l ++ s ++ [0]) 8 (Z.of_nat (length s)).
Proof.
  intros Hl Hs. split; [lia|]. split; [unfold room; rewrite !length_app; cbn; lia|]. split.
  - rewrite rd_app_r by lia. replace (Z.of_nat (length s)) with (Z.of_nat (length s) + 0) by lia. by rewrite rd_app_r by lia.
  - intros i Hi. rewrite rd_app_r, rd_app_l by (unfold in_range; lia).
    pose proof (rd_Forall _ s i Hs ltac:(unfold in_range; lia)) as H. cbn in H. lia.
Qed.

Lemma copy_name_key s : is_str s -> copy_name (s ++ [0]) = Ok (key s).
Proof.
  intros Hs. unfold copy_name, RT_NAME_MAX.
  destruct (rt_strncpy_pads 0 8 8 (Z.of_nat (length s)) (replicate 8 0 ++ s ++ [0])) as (m' & -> & Hlen & Hm);
    [lia|by apply cstring_name|unfold room; rewrite !length_app, length_replicate; lia|lia|].
  rewrite bind_ret_l. f_equal. rewrite !length_app, length_replicate in Hlen. apply rd_ext.
  - rewrite length_key, length_take. cbn in Hlen. lia.
  - intros i Hi. unfold in_range in Hi. rewrite length_take in Hi. rewrite rd_key by lia.
    transitivity (rd m' i); [unfold rd; by rewrite lookup_take_lt by lia|]. rewrite Hm by lia. rewrite decide_True by lia.
    rewrite Z.sub_0_r. case_decide; [|done]. by rewrite rd_app_r, rd_app_l by (rewrite ?length_replicate; unfold in_range; lia).
Qed.

(** [rt_strncmp] against a field padded with zeros. *)
Lemma strncmp_field n cs ct k m : bytes_ok m -> room m cs (Z.of_nat n) -> cstring m ct k ->
  (forall i j, 0 <= i < j -> j < Z.of_nat n -> rd m (cs + i) = 0 -> rd m (cs + j) = 0) ->
  exists d, strncmp_loop n cs ct m = Ok d /\
    (d = 0 <-> forall i, 0 <= i < Z.of_nat n -> rd m (cs + i) = if decide (i < k) then rd m (ct + i) else 0).
Proof.
  intros Hb. revert cs ct k. induction n as [|n IH]; intros cs ct k Hr Hc Hpad.
  { exists 0. split; [done|]. split; [lia|done]. }
  cbn [strncmp_loop]. rewrite (get_in m cs), bind_ret_l by (unfold room, in_range in *; lia).
  rewrite (get_in m ct), bind_ret_l by (by eapply cstring_in). assert (Hk : 0 <= k) by apply Hc.
  assert (Hb0 : (if decide (0 < k) then rd m (ct + 0) else 0) = rd m ct).
  { rewrite Z.add_0_r. case_decide; [done|]. assert (k = 0) as -> by lia. by rewrite (cstring_empty _ _ Hc). }
  assert (Ha : is_u8 (rd m cs)) by (apply rd_Forall; [done|unfold room, in_range in *; lia]).
  assert (Hb' : is_u8 (rd m ct)) by (apply rd_Forall; [done|by eapply cstring_in]).
  destruct (Z.eqb_spec (s8 (rd m cs - rd m ct)) 0) as [E|E]; cbn [negb orb].
  2: { eexists. split; [done|]. split; [done|]. intros Hall. specialize (Hall 0 ltac:(lia)). rewrite Hb0, Z.add_0_r in Hall.
       rewrite Hall in E. exfalso. apply E. mlia. }
  assert (Eab : rd m cs = rd m ct) by mlia.
  destruct (Z.eqb_spec (rd m cs) 0) as [E0|E0].
  - eexists. split; [done|]. split; [|done]. intros _ i Hi.
    assert (k = 0) as ->.
    { destruct (Z.eq_dec k 0) as [|Hk0]; [done|]. destruct (cstring_tail _ _ _ Hc ltac:(lia)). congruence. }
    rewrite decide_False by lia. destruct (Z.eq_dec i 0) as [->|]; [by rewrite Z.add_0_r|].
    apply (Hpad 0 i); [lia|lia|by rewrite Z.add_0_r].
  - assert (k <> 0) by (intros ->; rewrite Eab in E0; by apply E0, cstring_empty).
    destruct (cstring_tail _ _ _ Hc ltac:(lia)) as [_ Ht].
    destruct (IH (cs + 1) (ct + 1) (k - 1)) as (d & -> & Hd); [unfold room in *; lia|done| |].
    { intros i j Hi Hj H0. rewrite <- Z.add_assoc. apply (Hpad (1 + i) (1 + j)); [lia|lia|]. by rewrite Z.add_assoc. }
    rewrite bind_ret_l. exists d. split; [done|]. rewrite Hd. split; intros Hall i Hi.
    + destruct (Z.eq_dec i 0) as [->|]; [by rewrite Hb0, Z.add_0_r|].
      specialize (Hall (i - 1) ltac:(lia)). replace (cs + 1 + (i - 1)) with (cs + i) in Hall by lia. rewrite Hall.
      replace (ct + 1 + (i - 1)) with (ct + i) by lia. by destruct (decide (i - 1 < k - 1)), (decide (i < k)); lia || done.
    + specialize (Hall (i + 1) ltac:(lia)). replace (cs + (i + 1)) with (cs + 1 + i) in Hall by lia. rewrite Hall.
      replace (ct + (i + 1)) with (ct + 1 + i) by lia. by destruct (decide (i + 1 < k)), (decide (i < k - 1)); lia || done.
Qed.

Lemma is_str_bytes s : is_str s -> Forall is_u8 s.
Proof. apply Forall_impl. unfold is_u8. lia. Qed.
Lemma key_bytes s : is_str s -> Forall is_u8 (key s).
Proof.
  intros Hs. apply Forall_take, Forall_app. split; [by apply is_str_bytes|]. apply Forall_replicate. mlia.
Qed.
Lemma key_padded s i j : is_str s -> 0 <= i < j -> j < 8 -> rd (key s) i = 0 -> rd (key s) j = 0.
Proof.
  intros Hs Hi Hj. rewrite !rd_key by lia. case_decide as Hd.
  - intros H0. pose proof (rd_Forall _ s i Hs ltac:(unfold in_range; lia)) as H. cbn in H. lia.
  - intros _. by rewrite decide_False by lia.
Qed.

Lemma same_name_key s t : is_str s -> is_str t ->
  same_name (key s) (t ++ [0]) = Ok (bool_decide (key s = key t)).
Proof.
  intros Hs Ht. unfold same_name, rt_strncmp, RT_NAME_MAX. change (Z.to_nat 8) with 8%nat.
  assert (Hin : forall i, 0 <= i < 8 -> rd (key s ++ t ++ [0]) (0 + i) = rd (key s) i).
  { intros i Hi. apply rd_app_l. unfold in_range. rewrite length_key. lia. }
  destruct (strncmp_field 8 0 8 (Z.of_nat (length t)) (key s ++ t ++ [0])) as (d & -> & Hd).
  - apply Forall_app. split; [by apply key_bytes|]. apply Forall_app. split; [by apply is_str_bytes|]. constructor; [mlia|done].
  - unfold room. rewrite !length_app, length_key. lia.
  - apply cstring_name; [apply length_key|done].
  - intros i j Hi Hj. rewrite !Hin by lia. by apply key_padded.
  - rewrite bind_ret_l. f_equal.
    assert (Hk : (forall i, 0 <= i < Z.of_nat 8 -> rd (key s ++ t ++ [0]) (0 + i) =
       if decide (i < Z.of_nat (length t)) then rd (key s ++ t ++ [0]) (8 + i) else 0) <-> key s = key t).
    { split.
      - intros Hall. apply rd_ext; [by rewrite !length_key|]. intros i Hi. unfold in_range in Hi. rewrite length_key in Hi.
        rewrite <- Hin, Hall, rd_key by lia. case_decide; [|done].
        by rewrite rd_app_r, rd_app_l by (rewrite ?length_key; unfold in_range; lia).
      - intros E i Hi. rewrite Hin, E, rd_key by lia. case_decide; [|done].
        by rewrite rd_app_r, rd_app_l by (rewrite ?length_key; unfold in_range; lia). }
    rewrite Hk in Hd. case_bool_decide as E; [by apply Z.eqb_eq, Hd|]. apply Z.eqb_neq. by rewrite Hd.
Qed.

(** ** The device registry is a map *)

Definition devices (r : registry) : list Z := object_list RT_Object_Class_Device r.
Definition device_type : Z := Z.lor RT_Object_Class_Device RT_Object_Class_Static.

Section registry.
(** The addresses that are devices. *)
Context (D : gset Z).

Record reg_ok (m : gmap (list Z) Z) (r : registry) : Prop := {
  ro_obj : forall d, d ∈ devices r -> d ∈ D /\ exists s, is_str s /\ objects r !! d = Some (Object device_type (key s));
  ro_map : forall k d, m !! k = Some d <-> d ∈ devices r /\ exists o, objects r !! d = Some o /\ o_name o = k;
  ro_other : forall t d, t <> RT_Object_Class_Device -> d ∈ D -> d ∉ object_list t r }.

Lemma find_object_map m r l t : reg_ok m r -> is_str t -> (forall d, d ∈ l -> d ∈ devices r) ->
  exists x, find_object l (t ++ [0]) r = Ok x /\
    match x with Some d => d ∈ l /\ m !! key t = Some d | None => forall d, d ∈ l -> m !! key t <> Some d end.
Proof.
  intros Hr Ht. induction l as [|d l IH]; intros Hl; cbn [find_object].
  { exists None. split; [done|]. intros d Hd. by apply list.not_elem_of_nil in Hd. }
  destruct (ro_obj m r Hr d (Hl d ltac:(by left))) as (_ & s & Hs & Ho).
  unfold get_object. rewrite Ho, bind_ret_l. cbn [o_name]. rewrite same_name_key, bind_ret_l by done.
  case_bool_decide as E.
  - exists (Some d). split; [done|]. split; [by left|]. apply (ro_map m r Hr). split; [apply Hl; by left|]. by eexists.
  - destruct IH as (x & Hx & Hres); [intros d' Hd'; apply Hl; by right|]. exists x. split; [done|].
    destruct x as [d'|]; [destruct Hres; split; [by right|done]|].
    intros d' [->|Hd']%list.elem_of_cons Hm; [|by eapply Hres].
    apply (ro_map m r Hr) in Hm as (_ & o & Ho' & Hk). rewrite Ho in Ho'. by injection Ho' as <-.
Qed.

Lemma rt_device_find_map m r t : reg_ok m r -> is_str t -> rt_device_find (t ++ [0]) r = Ok (m !! key t).
Proof.
  intros Hr Ht. destruct (find_object_map m r (devices r) t Hr Ht) as (x & Hx & Hres); [done|].
  unfold rt_device_find. fold (devices r). rewrite Hx. f_equal. destruct x as [d|]; [by destruct Hres as [_ ->]|].
  destruct (m !! key t) as [d|] eqn:E; [|done]. exfalso. apply (Hres d); [|done]. by apply (ro_map m r Hr) in E as [? _].
Qed.

Lemma object_list_link t obj type o r :
  object_list t (link obj type o r) = if decide (t = type) then obj :: object_list type r else object_list t r.
Proof.
  unfold object_list, link. cbn. case_decide as E; [subst; by rewrite lookup_insert_eq|by rewrite lookup_insert_ne].
Qed.
Lemma object_list_unlink t obj r : object_list t (unlink_obj obj r) = filter (.≠ obj) (object_list t r).
Proof. unfold object_list, unlink_obj. cbn. rewrite lookup_fmap. by destruct (object_lists r !! t). Qed.

Lemma not_object_linked m r d : reg_ok m r -> d ∈ D -> d ∉ devices r -> object_linked d r = false.
Proof.
  intros Hr Hd Hn. unfold object_linked. apply not_true_iff_false. rewrite existsb_exists. intros (t & _ & Ht).
  apply bool_decide_eq_true in Ht. destruct (Z.eq_dec t RT_Object_Class_Device) as [->|E]; [done|].
  by apply (ro_other m r Hr t d E Hd).
Qed.

Lemma register_ok m r d s : reg_ok m r -> is_str s -> d ∈ D -> d ∉ devices r -> m !! key s = None ->
  exists r', rt_object_init d RT_Object_Class_Device (s ++ [0]) r = Ok r' /\ reg_ok (<[key s := d]> m) r'.
Proof.
  intros Hr Hs Hd Hn Hk. unfold rt_object_init. change (negb (rt_object_get_information RT_Object_Class_Device)) with false.
  cbn match. rewrite bool_decide_eq_false_2 by done. rewrite (not_object_linked m r d) by done. rewrite copy_name_key, bind_ret_l by done.
  eexists. split; [done|]. fold device_type.
  assert (Hdev : devices (link d RT_Object_Class_Device (Object device_type (key s)) r) = d :: devices r)
    by (unfold devices; by rewrite object_list_link, decide_True).
  constructor.
  - intros d'. rewrite Hdev. intros [->|Hd']%list.elem_of_cons.
    + split; [done|]. exists s. split; [done|]. cbn. by rewrite lookup_insert_eq.
    + destruct (ro_obj m r Hr d' Hd') as (? & s' & ? & ?). split; [done|]. exists s'. split; [done|].
      cbn. rewrite lookup_insert_ne; [done|]. by intros ->.
  - intros k d'. rewrite Hdev, list.elem_of_cons. cbn. destruct (decide (key s = k)) as [<-|E].
    + rewrite lookup_insert_eq. split.
      * intros [= <-]. split; [by left|]. rewrite lookup_insert_eq. by eexists.
      * intros ([->|Hd'] & o & Ho & Hko); [done|]. rewrite lookup_insert_ne in Ho by (by intros ->).
        assert (m !! key s = Some d') by (apply (ro_map m r Hr); eauto). congruence.
    + rewrite lookup_insert_ne by done. rewrite (ro_map m r Hr). split.
      * intros (Hd' & o & Ho & Hko). split; [by right|]. rewrite lookup_insert_ne by (by intros ->). eauto.
      * intros ([->|Hd'] & o & Ho & Hko); [rewrite lookup_insert_eq in Ho; injection Ho as <-; done|].
        rewrite lookup_insert_ne in Ho by (by intros ->). eauto.
  - intros t d' Ht Hd'. rewrite object_list_link, decide_False by done. by apply (ro_other m r Hr).
Qed.

Lemma unregister_ok m r d : reg_ok m r -> d ∈ devices r ->
  exists r', rt_device_unregister d r = Ok (0, r') /\ reg_ok (filter (fun x => x.2 <> d) m) r'.
Proof.
  intros Hr Hd. destruct (ro_obj m r Hr d Hd) as (HD & s & Hs & Ho).
  unfold rt_device_unregister, rt_object_get_type, rt_object_is_systemobject, rt_object_detach, get_object.
  rewrite Ho, !bind_ret_l. cbn [o_type o_name]. change (negb (u8 _ =? _)) with false. change (negb (Z.land _ _ =? 0)) with true.
  cbn [negb]. eexists. split; [done|].
  set (r' := unlink_obj d _).
  assert (Hdev : forall x, x ∈ devices r' <-> x <> d /\ x ∈ devices r).
  { intros x. unfold r', devices. rewrite object_list_unlink, list_elem_of_filter. done. }
  assert (Hobj : forall x, x <> d -> objects r' !! x = objects r !! x) by (intros x Hx; cbn; by rewrite lookup_insert_ne).
  constructor.
  - intros x [Hx Hxd]%Hdev. rewrite Hobj by done. by apply (ro_obj m r Hr).
  - intros k x. rewrite map_lookup_filter_Some, (ro_map m r Hr), Hdev. cbn. split.
    + intros [(Hx & o & Hxo & Hko) Hne]. split; [done|]. exists o. by rewrite lookup_insert_ne.
    + intros ([Hne Hx] & o & Hxo & Hko). rewrite lookup_insert_ne in Hxo by done. eauto.
  - intros t x Ht Hx. unfold r'. rewrite object_list_unlink, list_elem_of_filter. intros [_ Hin].
    by apply (ro_other m r Hr t x).
Qed.
End registry.

(** *** Sessions *)

Inductive dev_op : Type := Register (d : Z) (s : list Z) | Unregister (d : Z) | Find (s : list Z).
Inductive dev_result : Type := Code (c : Z) | Device_ (d : option Z).

Definition dev_step (o : dev_op) (r : registry) : res (dev_result * registry) :=
  match o with
  | Register d s => '(c, r) ← rt_device_register (Some d) (s ++ [0]) r; Ok (Code c, r)
  | Unregister d => '(c, r) ← rt_device_unregister d r; Ok (Code c, r)
  | Find s => x ← rt_device_find (s ++ [0]) r; Ok (Device_ x, r)
  end.
Fixpoint dev_run (ops : list dev_op) (r : registry) : res (list dev_result * registry) :=
  match ops with
  | [] => Ok ([], r)
  | o :: ops' => '(x, r) ← dev_step o r; '(l, r) ← dev_run ops' r; Ok (x :: l, r)
  end.

(** The specification: a map from names, cut to eight characters, to devices. *)
Definition map_step (o : dev_op) (m : gmap (list Z) Z) : dev_result * gmap (list Z) Z :=
  match o with
  | Register d s => match m !! key s with Some _ => (Code (-1), m) | None => (Code 0, <[key s := d]> m) end
  | Unregister d => (Code 0, filter (fun x => x.2 <> d) m)
  | Find s => (Device_ (m !! key s), m)
  end.
(** Names are strings; a device is registered while it is not, and unregistered while it is. *)
Definition dev_allowed (D : gset Z) (o : dev_op) (m : gmap (list Z) Z) : Prop :=
  match o with
  | Register d s => is_str s /\ d ∈ D /\ forall k, m !! k <> Some d
  | Unregister d => exists k, m !! k = Some d
  | Find s => is_str s
  end.
Fixpoint map_run (D : gset Z) (ops : list dev_op) (m : gmap (list Z) Z) (l : list dev_result) : Prop :=
  match ops, l with
  | [], [] => True
  | o :: ops', x :: l' => x = fst (map_step o m) /\ map_run D ops' (snd (map_step o m)) l'
  | _, _ => False
  end.
Fixpoint all_dev_allowed (D : gset Z) (ops : list dev_op) (m : gmap (list Z) Z) : Prop :=
  match ops with [] => True | o :: ops' => dev_allowed D o m /\ all_dev_allowed D ops' (snd (map_step o m)) end.

Lemma dev_step_ok D o m r : reg_ok D m r -> dev_allowed D o m ->
  exists r', dev_step o r = Ok (fst (map_step o m), r') /\ reg_ok D (snd (map_step o m)) r'.
Proof.
  intros Hr Ha. destruct o as [d s|d|s]; cbn [dev_step map_step dev_allowed] in *.
  - destruct Ha as (Hs & Hd & Hn). unfold rt_device_register. rewrite (rt_device_find_map D m r s Hr Hs), bind_ret_l.
    destruct (m !! key s) as [d'|] eqn:E; [by exists r|].
    destruct (register_ok D m r d s Hr Hs Hd) as (r' & -> & Hr'); [|done|by exists r'].
    intros Hin. destruct (ro_obj D m r Hr d Hin) as (_ & s' & _ & Ho). apply (Hn (key s')). apply (ro_map D m r Hr). eauto.
  - destruct Ha as (k & Hk). apply (ro_map D m r Hr) in Hk as [Hin _].
    destruct (unregister_ok D m r d Hr Hin) as (r' & -> & Hr'). by exists r'.
  - rewrite (rt_device_find_map D m r s Hr Ha). by exists r.
Qed.

(** C27: The device registry refines a map from names to devices.  Starting from
    a registry without devices, whatever other objects it holds, any sequence
    of permitted calls returns; registering a device under a name that is in use
    (in its first eight characters) is refused, otherwise it is added; unregistering
    removes it; and a search finds exactly the device registered under the name. *)
Theorem device_registry_refines_map (D : gset Z) (ops : list dev_op) (r : registry) :
  object_list RT_Object_Class_Device r = [] ->
  (forall t d, t <> RT_Object_Class_Device -> d ∈ D -> d ∉ object_list t r) ->
  all_dev_allowed D ops ∅ ->
  exists l r', dev_run ops r = Ok (l, r') /\ map_run D ops ∅ l.
Proof.
  intros He Ho. assert (Hr : reg_ok D ∅ r).
  { constructor; [unfold devices; rewrite He; intros d []%list.not_elem_of_nil| |done].
    intros k d. rewrite lookup_empty. unfold devices. rewrite He. split; [done|]. by intros [[]%list.not_elem_of_nil _]. }
  clear He Ho. revert r Hr. generalize (∅ : gmap (list Z) Z) as m.
  induction ops as [|o ops IH]; intros m r Hr Ha; cbn [dev_run map_run all_dev_allowed] in *; [by exists [], r|].
  destruct Ha as [Ha Hrest]. destruct (dev_step_ok D o m r Hr Ha) as (r1 & -> & Hr1). rewrite bind_ret_l.
  destruct (IH _ r1 Hr1 Hrest) as (l & r2 & -> & Hl). rewrite bind_ret_l. by eexists (_ :: l), r2.
Qed.

Lemma device_registry_refines_map_witness : exists l r',
  dev_run [Register 1 (text "uart1"); Register 2 (text "uart1"); Find (text "uart1"); Unregister 1; Find (text "uart1")]
    (Registry ∅ ∅) = Ok (l, r') /\
  map_run {[1; 2]} [Register 1 (text "uart1"); Register 2 (text "uart1"); Find (text "uart1"); Unregister 1; Find (text "uart1")]
    ∅ l.
Proof.
  apply device_registry_refines_map.
  - reflexivity.
  - intros t d _ _. apply list.not_elem_of_nil.
  - assert (Hs : is_str (text "uart1")) by (repeat constructor).
    split; [split; [exact Hs|split; [set_solver|intros k; by rewrite lookup_empty]]|].
    split; [split; [exact Hs|split; [set_solver|]]|].
    { intros k. change (snd (map_step (Register 1 (text "uart1")) ∅)) with (<[key (text "uart1") := 1]> (∅ : gmap (list Z) Z)).
      destruct (decide (key (text "uart1") = k)) as [<-|E]; [by rewrite lookup_insert_eq|].
      by rewrite lookup_insert_ne, lookup_empty. }
    split; [exact Hs|]. split; [|split; [exact Hs|exact I]].
    exists (key (text "uart1")). vm_compute. reflexivity.
Defined.

(** *** What the assertions make impossible *)

(** A device is destroyed only when it has the device type and is not static, but
    registering makes it static and unregistering clears its type: after any
    sequence of creating, registering and unregistering it, [rt_device_destroy]
    stops at an assertion. *)
Theorem device_never_destroyed r d o : objects r !! d = Some o ->
  o_type o = 0 \/ o_type o = device_type -> rt_device_destroy d r = Fault AssertFail.
Proof.
  intros Ho Ht. unfold rt_device_destroy, rt_object_get_type, rt_object_is_systemobject, get_object. rewrite Ho.
  by destruct Ht as [Ht|Ht]; cbn; rewrite Ht.
Qed.

(** The search of a type without container (a module, or [RT_Object_Class_Unknown])
    stops at an assertion instead of returning the null pointer. *)
Theorem find_unknown_type r name : rt_object_find (Some name) RT_Object_Class_Unknown r = Fault AssertFail.
Proof. done. Qed.
