(* ===== verification/PortDevice.v ===== *)
(** * Which UART the slave uses (port/portserial.c, drv_usart.c)

    The port number given to [eMBInit] becomes a device name by
    [rt_snprintf], and the name a device by a search of the registry that the
    UART driver has filled. *)
From stdpp Require Import gmap.
From S2P Require Import Prelude KernelService KernelObject KernelPrintf.

(** The UARTs that are configured, with their names. *)
Definition uart_config : list (Z * list Z) :=
  [(1, text "uart1"); (2, text "uart2"); (4, text "uart4"); (5, text "uart5")].

(** Registers every UART and asserts success. *)
Definition rt_hw_usart_init (r : registry) : res registry :=
  foldl (fun acc '(dev, name) =>
           r ← acc;
           '(result, r) ← rt_device_register (Some dev) (name ++ [0]) r;
           if negb (result =? 0) then Fault AssertFail else Ok r) (Ok r) uart_config.

(** [char uart_name[20]] at address [buf]; the device, or none. *)
Definition port_device (buf ucPORT : Z) (uart_name : list Z) (r : registry) : res (option Z) :=
  '(_, uart_name) ← rt_snprintf buf 20 (text "uart%d" ++ [0]) [Int ucPORT] uart_name;
  rt_device_find uart_name r.

Definition check_port (p : Z) : bool :=
  match r ← rt_hw_usart_init (Registry ∅ ∅); port_device 0x20001000 p (replicate 20 0xA5) r with
  | Ok x => bool_decide (x = if bool_decide (p ∈ [1; 2; 4; 5]) then Some p else None)
  | Fault _ => false
  end.

(** For every port number (8 bits), after the UART
    driver's start-up, the port finds exactly the UART of that number if the board
    has it (1, 2, 4 and 5) and none otherwise; the relay asks for number 4. *)
Theorem port_finds_uart (ucPORT : Z) : is_u8 ucPORT ->
  (r ← rt_hw_usart_init (Registry ∅ ∅); port_device 0x20001000 ucPORT (replicate 20 0xA5) r) =
  Ok (if bool_decide (ucPORT ∈ [1; 2; 4; 5]) then Some ucPORT else None).
Proof.
  intros Hp. assert (H : check_port ucPORT = true) by (by_enumeration 256%nat ucPORT).
  unfold check_port in H. destruct (_ ≫= _) as [x|]; [|done]. apply bool_decide_eq_true in H. by rewrite H.
Qed.

Lemma port_finds_uart_witness :
  (r ← rt_hw_usart_init (Registry ∅ ∅); port_device 0x20001000 4 (replicate 20 0xA5) r) = Ok (Some 4).
Proof. apply (port_finds_uart 4). unfold is_u8. lia. Defined.
