(* ===== verification/NodeClock.v ===== *)
(** * The node clock on the kernel timer (Task/Timer.c, src/timer.c)

    [TimerInit] puts the counter of [NodeTimer] on a periodic kernel timer of
    [KernelTimer]; here the two are run together. *)
From stdpp Require Import gmap.
From S2P Require Import Prelude NodeTimer KernelTimer.

(** [checkOvertime]: the timer object [rt_timer_create] allocates, if any. *)
Definition TimerInit (checkOvertime : option Z) (s : tstate) : res tstate :=
  match checkOvertime with
  | None => Ok s
  | Some id => rt_timer_start id (_rt_timer_init id RT_TICK_PER_SECOND true s)
  end.

(** The counter after the ticks that fired [fs]: [NodeOvertimeTiming] is the
    timeout function of timer [id]. *)
Definition node_clock (id : Z) (c : Z) (fs : list (list Z)) : Z :=
  foldl (fun c fired => if decide (id ∈ fired) then NodeOvertimeTiming c else c) c fs.

Lemma node_clock_expiries id c fs : is_u32 c -> node_clock id c fs = u32 (c + expiries id fs).
Proof.
  unfold node_clock, expiries. revert c. induction fs as [|fired fs IH]; intros c Hc; cbn [foldl].
  - rewrite filter_nil. cbn. rewrite Z.add_0_r. symmetry. by apply u32_id.
  - rewrite filter_cons. case_decide.
    + rewrite IH by (unfold NodeOvertimeTiming; apply u32_range). cbn [length].
      unfold NodeOvertimeTiming. mlia.
    + by rewrite IH.
Qed.

(** A new timer changes no running one. *)
Lemma timer_init_inv id time per s : timers_inv s -> wf_timers s -> timers s !! id = None ->
  wf_timer (mkTimer false per time 0) ->
  timers_inv (_rt_timer_init id time per s) /\ wf_timers (_rt_timer_init id time per s).
Proof.
  intros [Hu Ho] Hw Hn Ht. split.
  - split; [done|]. eapply ordered_ext; [|exact Ho]. intros x Hx. cbn.
    apply lookup_insert_ne. intros <-. destruct (ord_active _ _ _ _ _ Ho id Hx) as (? & ? & _).
    congruence.
  - intros x t. cbn. destruct (decide (x = id)) as [->|Hne].
    + rewrite lookup_insert_eq. by intros [= <-].
    + rewrite lookup_insert_ne by done. apply Hw.
Qed.

(** C35: after [TimerInit] the node clock counts seconds: [n] ticks later,
    whatever other timers the kernel runs, the counter has advanced by
    [n / RT_TICK_PER_SECOND], modulo 2^32, and a node heard at the start is
    reported as timed out exactly from [overtime] full seconds on. *)
Theorem node_clock_counts_seconds cb stops fuel n id c overtime s :
  simple_cb stops cb -> stops id = false -> timers_inv s -> wf_timers s ->
  timers s !! id = None -> (S (size (timers s)) < fuel)%nat -> is_u32 c ->
  Z.of_nat n < 1000 * 4294967296 -> 0 <= overtime ->
  exists s1 fs s2, TimerInit (Some id) s = Ok s1 /\ run_ticks cb fuel n s1 = Ok (fs, s2)
  /\ node_clock id c fs = u32 (c + Z.of_nat n / RT_TICK_PER_SECOND)
  /\ CheckOvertime (node_clock id c fs) c overtime
     = if overtime * RT_TICK_PER_SECOND <=? Z.of_nat n then 1 else 0.
Proof.
  intros Hcb Hst Hi Hw Hn Hf Hc Hmax Ho. unfold TimerInit.
  destruct (timer_init_inv id RT_TICK_PER_SECOND true s Hi Hw Hn) as [Hi0 Hw0].
  { split; [done|]. unfold RT_TICK_PER_SECOND. cbn. lia. }
  set (s0 := _rt_timer_init _ _ _ _) in *.
  assert (timers s0 !! id = Some (mkTimer false true RT_TICK_PER_SECOND 0)) as E0
    by (cbn; apply lookup_insert_eq).
  destruct (timer_start_lemma id _ s0 Hi0 Hw0 E0) as (s1 & Hs & Hi1 & Hw1 & Em & Et & Hin & El & _).
  cbn [periodic init_tick] in *. set (t1 := mkTimer true _ _ _) in Em.
  assert (timers s1 !! id = Some t1) as E1 by (rewrite Em; apply lookup_insert_eq).
  destruct (run_ticks_periodic cb stops fuel n id t1 s1 Hcb Hst Hi1 Hw1) as (fs & s2 & Hr & _ & Hx);
    try done.
  { rewrite Em, map_size_insert_Some by (by eexists). cbn. by rewrite map_size_insert_None. }
  { rewrite El. done. }
  rewrite El in Hx. cbn [init_tick t1] in Hx.
  assert (node_clock id c fs = u32 (c + Z.of_nat n / RT_TICK_PER_SECOND)) as Ec.
  { rewrite node_clock_expiries, Hx by done. do 3 f_equal. lia. }
  exists s1, fs, s2. split; [done|]. split; [done|]. split; [done|].
  rewrite Ec. unfold CheckOvertime, GetNodeOvertime, RT_TICK_PER_SECOND.
  replace (u32 (u32 (c + Z.of_nat n / 1000) - c)) with (Z.of_nat n / 1000) by mlia.
  destruct (Z.leb_spec overtime (Z.of_nat n / 1000)),
    (Z.leb_spec (overtime * 1000) (Z.of_nat n)); lia || done.
Qed.

Lemma node_clock_counts_seconds_witness : exists s1 fs s2,
  TimerInit (Some 7) example_timers = Ok s1 /\ run_ticks quiet_cb 10 2500 s1 = Ok (fs, s2)
  /\ node_clock 7 4294967295 fs = 1 /\ CheckOvertime (node_clock 7 4294967295 fs) 4294967295 2 = 1.
Proof.
  destruct (node_clock_counts_seconds quiet_cb (fun _ => false) 10 2500 7 4294967295 2 example_timers)
    as (s1 & fs & s2 & H1 & H2 & H3 & H4); [done|done|apply example_timers_ok|
    apply example_timers_ok|done|vm_compute; lia|mlia|lia|lia|].
  exists s1, fs, s2. split; [done|]. split; [done|]. split; [exact H3|exact H4].
Defined.
