(* ===== verification/KernelPool.v ===== *)
(** * Memory pools (src/mempool.c)

    A pool is an area of memory cut into blocks of one size, each behind a
    pointer: of a free block to the next free one, of a block in use to its pool.
    A thread that finds no free block waits in the pool's list, where a free finds
    it.  Memory is a list of bytes and an address an index into it; address 0 is
    [RT_NULL].  A waiting call is cut at its call of the scheduler as in
    [KernelIpc]. *)
From stdpp Require Import gmap sorting.
From S2P Require Import Prelude KernelTimer KernelSched KernelThread KernelIpc KernelQueue KernelService KernelMem.

(** ** Data *)

Record rt_mempool := mkPool {
  start_address : Z; pool_size : Z; block_list : Z; block_size : Z;
  block_total_count : Z; block_free_count : Z; suspend_thread_count : Z }.

(** The kernel, memory, the pools that are registered, those in static memory
    and the error number of code outside threads. *)
Record pstate := mkP {
  p_kern : kstate; p_mem : list Z; p_pools : gmap Z rt_mempool; p_static : gset Z; p_errno : Z }.
Definition put_kern (k : kstate) (s : pstate) : pstate := mkP k (p_mem s) (p_pools s) (p_static s) (p_errno s).
Definition put_pool (mp : Z) (p : rt_mempool) (s : pstate) : pstate :=
  mkP (p_kern s) (p_mem s) (<[mp := p]> (p_pools s)) (p_static s) (p_errno s).
Definition put_mem (m : list Z) (s : pstate) : pstate := mkP (p_kern s) m (p_pools s) (p_static s) (p_errno s).
Definition with_blocks (l n : Z) (p : rt_mempool) : rt_mempool :=
  mkPool (start_address p) (pool_size p) l (block_size p) (block_total_count p) n (suspend_thread_count p).
Definition with_suspended (n : Z) (p : rt_mempool) : rt_mempool :=
  mkPool (start_address p) (pool_size p) (block_list p) (block_size p) (block_total_count p) (block_free_count p) n.

(** [sizeof(rt_uint8_t * )] *)
Definition SIZEOF_PTR : Z := 4.
Definition stride (p : rt_mempool) : Z := u32 (block_size p + SIZEOF_PTR).

(** ** Setting up *)

Fixpoint link_blocks (n : nat) (offset start step : Z) (m : list Z) : res (list Z) :=
  match n with
  | O => Ok m
  | S n' =>
      m ← st32 m (u32 (start + offset * step)) (u32 (start + (offset + 1) * step));
      link_blocks n' (offset + 1) start step m
  end.
(** The chain of all blocks; the last one's pointer is cleared again, at the
    index [offset - 1], which is the greatest [rt_size_t] if there is none. *)
Definition init_blocks (start total step : Z) (m : list Z) : res (list Z) :=
  m ← link_blocks (Z.to_nat total) 0 start step m;
  st32 m (u32 (start + u32 (total - 1) * step)) 0.

Definition init_waiting (mp : Z) (k : kstate) : kstate := rt_ipc_object_init (suspend_thread mp) k.

(** Registering the object searches it with the scheduler locked. *)
Definition rt_mp_init (mp start size bsize : Z) (s : pstate) : res (Z * pstate) :=
  match p_pools s !! mp with
  | Some _ => Fault AssertFail
  | None =>
      k ← rt_exit_critical (rt_enter_critical (p_kern s));
      let size := RT_ALIGN_DOWN size in
      let bsize := RT_ALIGN bsize in
      let step := u32 (bsize + SIZEOF_PTR) in
      if step =? 0 then Fault DivZero else
      let total := size / step in
      m ← init_blocks start total step (p_mem s);
      Ok (RT_EOK, mkP (init_waiting mp k) m (<[mp := mkPool start size start bsize total total 0]> (p_pools s))
                    ({[mp]} ∪ p_static s) (p_errno s))
  end.

(** [obj], [memory]: what the two allocations return. *)
Definition rt_mp_create (obj memory : option Z) (block_count bsize : Z) (s : pstate) : res (option Z * pstate) :=
  if negb (rt_interrupt_nest (p_kern s) =? 0) then Fault AssertFail else
  match obj with
  | None => Ok (None, s)
  | Some mp =>
      let bsize := RT_ALIGN bsize in
      let step := u32 (bsize + SIZEOF_PTR) in
      match memory with
      | None => Ok (None, s)
      | Some start =>
          m ← init_blocks start block_count step (p_mem s);
          Ok (Some mp, mkP (init_waiting mp (p_kern s)) m
                         (<[mp := mkPool start (u32 (step * block_count)) start bsize block_count block_count 0]> (p_pools s))
                         (p_static s ∖ {[mp]}) (p_errno s))
      end
  end.

(** The type check of the object. *)
Definition get_pool (mp : Z) (s : pstate) : res rt_mempool :=
  match p_pools s !! mp with Some p => Ok p | None => Fault AssertFail end.

(** All waiting threads are woken with an error. *)
Definition close_pool (mp : Z) (s : pstate) : res pstate :=
  k ← rt_ipc_list_resume_all (suspend_thread mp) (p_kern s);
  Ok (mkP k (p_mem s) (delete mp (p_pools s)) (p_static s) (p_errno s)).
Definition rt_mp_detach (mp : Z) (s : pstate) : res (Z * pstate) :=
  _ ← get_pool mp s;
  if negb (bool_decide (mp ∈ p_static s)) then Fault AssertFail else
  s ← close_pool mp s; Ok (RT_EOK, s).
(** The second result is the area handed to [rt_free]. *)
Definition rt_mp_delete (mp : Z) (s : pstate) : res (Z * Z * pstate) :=
  if negb (rt_interrupt_nest (p_kern s) =? 0) then Fault AssertFail else
  p ← get_pool mp s;
  if bool_decide (mp ∈ p_static s) then Fault AssertFail else
  s ← close_pool mp s; Ok (RT_EOK, start_address p, s).

(** ** Taking a block *)

(** A call returns an address, or waits with the rest of it to do. *)
Inductive mp_outcome : Type :=
| Got (block : Z)
| Waits (t mp time before_sleep : Z).

Definition rt_set_errno (e : Z) (s : pstate) : pstate :=
  match rt_thread_self (p_kern s) with
  | Some t => if rt_interrupt_nest (p_kern s) =? 0 then put_kern (upd_thread (with_error e) t (p_kern s)) s
              else mkP (p_kern s) (p_mem s) (p_pools s) (p_static s) e
  | None => mkP (p_kern s) (p_mem s) (p_pools s) (p_static s) e
  end.

(** A pointer that is no pool's. *)
Definition deref_pool (mp : Z) (s : pstate) : res rt_mempool :=
  match p_pools s !! mp with Some p => Ok p | None => Fault OutOfBounds end.

Definition take_block (mp : Z) (p : rt_mempool) (s : pstate) : res (mp_outcome * pstate) :=
  let block_ptr := block_list p in
  if block_ptr =? 0 then Fault AssertFail else
  next ← ld32 (p_mem s) block_ptr;
  m ← st32 (p_mem s) block_ptr mp;
  Ok (Got (block_ptr + SIZEOF_PTR), put_pool mp (with_blocks next (u32 (block_free_count p - 1)) p) (put_mem m s)).

(** [rt_list_insert_after] the head. *)
Definition wait_first (k : wait_list) (t : Z) (s : kstate) : res kstate :=
  '(_, s) ← rt_thread_suspend t s;
  if linked t s then Fault ListCorrupt else Ok (with_waits (<[k := t :: wlist k s]> (wait_lists s)) s).

(** A round of [while (mp->block_free_count == 0)], and what follows the loop. *)
Definition alloc_loop (mp time : Z) (s : pstate) : res (mp_outcome * pstate) :=
  p ← deref_pool mp s;
  if block_free_count p =? 0 then
    if time =? 0 then Ok (Got 0, rt_set_errno (- RT_ETIMEOUT) s) else
    if negb (rt_interrupt_nest (p_kern s) =? 0) then Fault AssertFail else
    match rt_thread_self (p_kern s) with
    | None => Fault NullDeref
    | Some t =>
        k ← wait_first (suspend_thread mp) t (upd_thread (with_error RT_EOK) t (p_kern s));
        let before_sleep := rt_tick_get (ktimers k) in
        k ← start_waiting t time k;
        k ← rt_schedule k;
        Ok (Waits t mp time before_sleep, put_pool mp (with_suspended (u32 (suspend_thread_count p + 1)) p) (put_kern k s))
    end
  else take_block mp p s.
Definition rt_mp_alloc (mp time : Z) (s : pstate) : res (mp_outcome * pstate) := alloc_loop mp time s.

(** When thread [t] runs again. *)
Definition alloc_rest (t mp time before_sleep : Z) (s : pstate) : res (mp_outcome * pstate) :=
  th ← get_thread t (p_kern s);
  if negb (error th =? RT_EOK) then Ok (Got 0, s) else
  let time := if 0 <? time then
                let time := s32 (time - u32 (rt_tick_get (ktimers (p_kern s)) - before_sleep)) in
                if time <? 0 then 0 else time
              else time in
  alloc_loop mp time s.

(** ** Giving a block back *)

(** With a count above zero the list's first entry is taken for a thread. *)
Definition rt_mp_free (block : Z) (s : pstate) : res pstate :=
  let block_ptr := u32 (block - SIZEOF_PTR) in
  mp ← ld32 (p_mem s) block_ptr;
  p ← deref_pool mp s;
  m ← st32 (p_mem s) block_ptr (block_list p);
  let p := with_blocks block_ptr (u32 (block_free_count p + 1)) p in
  let s := put_mem m s in
  if 0 <? suspend_thread_count p then
    match wlist (suspend_thread mp) (p_kern s) with
    | [] => Fault OutOfBounds
    | t :: _ =>
        '(_, k) ← rt_thread_resume t (upd_thread (with_error RT_EOK) t (p_kern s));
        k ← rt_schedule k;
        Ok (put_pool mp (with_suspended (suspend_thread_count p - 1) p) (put_kern k s))
    end
  else Ok (put_pool mp p s).

(** ** The blocks *)

(** Where the caller's part of a block begins. *)
Definition block_at (p : rt_mempool) (k : nat) : Z := start_address p + Z.of_nat k * stride p + SIZEOF_PTR.
Definition blocks (p : rt_mempool) : list Z := map (block_at p) (seq 0 (Z.to_nat (block_total_count p))).

(** The free blocks, from the list's head on. *)
Fixpoint links (m : list Z) (x : Z) (l : list Z) : Prop :=
  match l with [] => x = 0 | b :: l' => x = b - SIZEOF_PTR /\ links m (word m x) l' end.

(** Pool [p] at address [mp]: the blocks are free or in use. *)
Record mem_rep (mp : Z) (p : rt_mempool) (m : list Z) (free : list Z) (live : gmap Z (list Z)) : Prop := mkRep {
  mr_start : 0 < start_address p;
  mr_size : 0 <= block_size p;
  mr_step : stride p = block_size p + SIZEOF_PTR;
  mr_total : 0 <= block_total_count p;
  mr_room : start_address p + block_total_count p * stride p <= Z.of_nat (length m) < 2 ^ 32;
  mr_id : is_u32 mp;
  mr_bytes : bytes_ok m;
  mr_links : links m (block_list p) free;
  mr_nodup : NoDup free;
  mr_blocks : forall b, b ∈ blocks p <-> b ∈ free \/ is_Some (live !! b);
  mr_apart : forall b, b ∈ free -> live !! b = None;
  mr_live : forall b l, live !! b = Some l -> word m (b - SIZEOF_PTR) = mp /\ slice m b (block_size p) = l;
  mr_count : block_free_count p = Z.of_nat (length free) }.

Lemma block_room mp p m free live b : mem_rep mp p m free live -> b ∈ blocks p ->
  SIZEOF_PTR < b /\ b + block_size p <= Z.of_nat (length m) /\ (b - SIZEOF_PTR - start_address p) mod stride p = 0.
Proof.
  intros R (k & -> & Hk)%list_elem_of_fmap. apply elem_of_seq in Hk. pose proof (mr_start _ _ _ _ _ R). pose proof (mr_size _ _ _ _ _ R).
  pose proof (mr_room _ _ _ _ _ R). pose proof (mr_step _ _ _ _ _ R). unfold block_at, SIZEOF_PTR in *.
  assert (Z.of_nat k * stride p + stride p <= block_total_count p * stride p).
  { replace (Z.of_nat k * stride p + stride p) with ((Z.of_nat k + 1) * stride p) by lia. apply Z.mul_le_mono_nonneg_r; lia. }
  split; [|split]; [assert (0 <= Z.of_nat k * stride p) by (apply Z.mul_nonneg_nonneg; lia); lia|lia|].
  replace (_ - 4 - _) with (Z.of_nat k * stride p) by lia. apply Z.mod_mul. lia.
Qed.

Lemma blocks_disjoint mp p m free live b c : mem_rep mp p m free live -> b ∈ blocks p -> c ∈ blocks p -> b <> c ->
  b + block_size p <= c - SIZEOF_PTR \/ c + block_size p <= b - SIZEOF_PTR.
Proof.
  intros R (j & -> & _)%list_elem_of_fmap (k & -> & _)%list_elem_of_fmap Hn. pose proof (mr_step _ _ _ _ _ R) as E.
  pose proof (mr_size _ _ _ _ _ R). unfold block_at, SIZEOF_PTR in *. destruct (Nat.lt_trichotomy j k) as [Hl|[->|Hl]]; [left|done|right].
  - assert ((Z.of_nat j + 1) * stride p <= Z.of_nat k * stride p) by (apply Z.mul_le_mono_nonneg_r; lia). lia.
  - assert ((Z.of_nat k + 1) * stride p <= Z.of_nat j * stride p) by (apply Z.mul_le_mono_nonneg_r; lia). lia.
Qed.

Lemma blocks_nodup p : 0 < stride p -> NoDup (blocks p).
Proof.
  intros Hs. apply NoDup_fmap_2_strong; [|apply NoDup_seq]. intros j k _ _ E. unfold block_at in E.
  assert (Z.of_nat j * stride p = Z.of_nat k * stride p) as E' by lia. apply Z.mul_reg_r in E'; lia.
Qed.
Lemma length_blocks p : 0 <= block_total_count p -> Z.of_nat (length (blocks p)) = block_total_count p.
Proof. intros H. unfold blocks. rewrite length_map, length_seq. lia. Qed.

(** No more are free than there are. *)
Lemma free_bound mp p m free live l : mem_rep mp p m free live -> NoDup l -> (forall b, b ∈ l -> b ∈ blocks p) ->
  Z.of_nat (length l) <= block_total_count p < 2 ^ 32.
Proof.
  intros R Hl Hs. pose proof (mr_total _ _ _ _ _ R). split.
  - rewrite <- length_blocks by done. apply inj_le. by apply submseteq_length, NoDup_submseteq.
  - pose proof (mr_room _ _ _ _ _ R). pose proof (mr_start _ _ _ _ _ R). pose proof (mr_step _ _ _ _ _ R). pose proof (mr_size _ _ _ _ _ R).
    unfold SIZEOF_PTR in *. assert (block_total_count p * 1 <= block_total_count p * stride p) by (apply Z.mul_le_mono_nonneg_l; lia). lia.
Qed.

Lemma links_ext m m' x l : (forall b, b ∈ l -> word m' (b - SIZEOF_PTR) = word m (b - SIZEOF_PTR)) -> links m x l -> links m' x l.
Proof.
  revert x. induction l as [|b l IH]; intros x Hw; [done|]. cbn [links]. intros [-> HL]. split; [done|].
  rewrite Hw by (by left). apply IH; [|done]. intros c Hc. apply Hw. by right.
Qed.

(** What a change of the pointer before block [b] leaves alone. *)
Lemma header_written mp p m free live m' b f : mem_rep mp p m free live -> b ∈ blocks p ->
  written m m' (b - SIZEOF_PTR) 4 f ->
  (forall c, c ∈ blocks p -> slice m' c (block_size p) = slice m c (block_size p))
  /\ (forall c, c ∈ blocks p -> c <> b -> word m' (c - SIZEOF_PTR) = word m (c - SIZEOF_PTR))
  /\ (forall x l, (forall c, c ∈ l -> c ∈ blocks p /\ c <> b) -> links m x l -> links m' x l).
Proof.
  intros R Hb W. pose proof (mr_size _ _ _ _ _ R). destruct (block_room _ _ _ _ _ _ R Hb) as (Hb1 & Hb2 & _).
  assert (forall c, c ∈ blocks p -> c <> b -> c + block_size p <= b - 4 \/ b + block_size p <= c - 4) as HD
    by (intros c Hc Hn; exact (blocks_disjoint _ _ _ _ _ c b R Hc Hb Hn)).
  assert (forall c, c ∈ blocks p -> c <> b -> word m' (c - SIZEOF_PTR) = word m (c - SIZEOF_PTR)) as HW.
  { intros c Hc Hn. destruct (block_room _ _ _ _ _ _ R Hc) as (Hc1 & _). unfold SIZEOF_PTR in *.
    eapply word_other; [exact W|lia|]. destruct (HD c Hc Hn); lia. }
  split; [|split; [done|]].
  - intros c Hc. destruct (block_room _ _ _ _ _ _ R Hc) as (Hc1 & Hc2 & _). unfold SIZEOF_PTR in *.
    eapply slice_other; [exact W|unfold room; lia|done|].
    destruct (decide (c = b)) as [->|Hn]; [lia|]. destruct (HD c Hc Hn); lia.
  - intros x l Hl. apply links_ext. intros c Hc. destruct (Hl c Hc). by apply HW.
Qed.

Lemma live_block mp p m free live b l : mem_rep mp p m free live -> live !! b = Some l -> b ∈ blocks p.
Proof. intros R Hl. apply (mr_blocks _ _ _ _ _ R). right. by eexists. Qed.
Lemma free_block mp p m free live b : mem_rep mp p m free live -> b ∈ free -> b ∈ blocks p.
Proof. intros R Hb. apply (mr_blocks _ _ _ _ _ R). by left. Qed.
Lemma list_head mp p m free live : mem_rep mp p m free live -> is_u32 (block_list p).
Proof.
  intros R. pose proof (mr_links _ _ _ _ _ R) as HL. unfold is_u32. destruct free as [|b free]; cbn in HL; [lia|].
  destruct HL as [-> _]. destruct (block_room _ _ _ _ _ b R ltac:(apply (free_block _ _ _ _ _ _ R); by left)) as (? & ? & _).
  pose proof (mr_room _ _ _ _ _ R). pose proof (mr_size _ _ _ _ _ R). unfold SIZEOF_PTR in *. change (2 ^ 32) with 4294967296 in *. lia.
Qed.

(** The first free block goes into use. *)
Lemma take_mem mp p m b free live : mem_rep mp p m (b :: free) live ->
  exists m', ld32 m (block_list p) = Ok (word m (block_list p)) /\ st32 m (block_list p) mp = Ok m'
    /\ block_list p = b - SIZEOF_PTR /\ 0 < block_list p
    /\ mem_rep mp (with_blocks (word m (block_list p)) (u32 (block_free_count p - 1)) p) m' free (<[b := slice m b (block_size p)]> live).
Proof.
  intros R. assert (b ∈ blocks p) as Hb by (apply (free_block _ _ _ _ _ _ R); by left).
  destruct (block_room _ _ _ _ _ _ R Hb) as (Hb1 & Hb2 & _). pose proof (mr_links _ _ _ _ _ R) as [El HL].
  pose proof (mr_size _ _ _ _ _ R). rewrite El in *. pose proof (mr_nodup _ _ _ _ _ R) as [Hni Hnd]%list.NoDup_cons.
  assert (room m (b - SIZEOF_PTR) 4) as Hr by (unfold room, SIZEOF_PTR in *; lia).
  destruct (st32_ok m (b - SIZEOF_PTR) mp Hr) as (m' & E & W). exists m'. split; [by apply ld32_ok|]. split; [done|].
  split; [done|]. split; [lia|]. destruct (header_written _ _ _ _ _ m' b _ R Hb W) as (HS & HW & HLk).
  assert (forall c, c ∈ free -> c ∈ blocks p) as Hfb by (intros c Hc; apply (free_block _ _ _ _ _ _ R); by right).
  destruct R as [R1 R2 R3 R4 R5 R6 R7 R8 R9 R10 R11 R12 R13]. constructor; cbn [with_blocks start_address block_size block_total_count block_list block_free_count]; try done.
  - by rewrite (proj1 W).
  - eapply written_bytes; [exact W|done|]. intros i Hi. unfold is_u8, byte. apply Z.mod_pos_bound. lia.
  - apply HLk; [|done]. intros c Hc. split; [by apply Hfb|]. by intros ->.
  - intros c. change (blocks _) with (blocks p). rewrite (R10 c), list.elem_of_cons. destruct (decide (c = b)) as [->|Hn].
    + rewrite lookup_insert_eq. split; [intros _; right; by eexists|by left; left].
    + rewrite lookup_insert_ne by done. tauto.
  - intros c Hc. rewrite lookup_insert_ne by (by intros ->). apply R11. by right.
  - intros c l Hl. destruct (decide (c = b)) as [->|Hn].
    + rewrite lookup_insert_eq in Hl. injection Hl as <-. split; [|by apply HS].
      by apply (word_written m m' (b - SIZEOF_PTR) mp W R6 ltac:(lia)).
    + rewrite lookup_insert_ne in Hl by done. assert (c ∈ blocks p) as Hc by (apply R10; right; by eexists).
      destruct (R12 c l Hl) as [<- <-]. split; [by apply HW|by apply HS].
  - rewrite R13. cbn [length]. unfold u32. change 4294967296 with (2 ^ 32).
    assert (Z.of_nat (length (b :: free)) <= block_total_count p < 2 ^ 32) as Hle
      by (eapply (free_bound mp p m (b :: free) live); [by constructor|done|]; intros c Hc; apply R10; by left).
    cbn [length] in Hle. rewrite Z.mod_small; lia.
Qed.

(** A block in use becomes the first free one. *)
Lemma give_mem mp p m b l free live : mem_rep mp p m free live -> live !! b = Some l ->
  exists m', ld32 m (u32 (b - SIZEOF_PTR)) = Ok mp /\ st32 m (u32 (b - SIZEOF_PTR)) (block_list p) = Ok m'
    /\ mem_rep mp (with_blocks (u32 (b - SIZEOF_PTR)) (u32 (block_free_count p + 1)) p) m' (b :: free) (delete b live).
Proof.
  intros R Hl. pose proof (live_block _ _ _ _ _ _ _ R Hl) as Hb. pose proof (list_head _ _ _ _ _ R) as Hu.
  destruct (block_room _ _ _ _ _ _ R Hb) as (Hb1 & Hb2 & _). pose proof (mr_room _ _ _ _ _ R) as HR.
  pose proof (mr_size _ _ _ _ _ R). assert (u32 (b - SIZEOF_PTR) = b - SIZEOF_PTR) as ->
    by (unfold u32, SIZEOF_PTR in *; change 4294967296 with (2 ^ 32); rewrite Z.mod_small; lia).
  assert (room m (b - SIZEOF_PTR) 4) as Hr by (unfold room, SIZEOF_PTR in *; lia).
  destruct (st32_ok m (b - SIZEOF_PTR) (block_list p) Hr) as (m' & E & W). exists m'.
  destruct (mr_live _ _ _ _ _ R b l Hl) as [Hw _]. split; [by rewrite ld32_ok, Hw|]. split; [done|].
  destruct (header_written _ _ _ _ _ m' b _ R Hb W) as (HS & HW & HLk).
  assert (b ∉ free) as Hni by (intros Hin; rewrite (mr_apart _ _ _ _ _ R b Hin) in Hl; done).
  assert (NoDup (b :: free)) as Hnd by (apply list.NoDup_cons; split; [done|apply (mr_nodup _ _ _ _ _ R)]).
  pose proof R as [R1 R2 R3 R4 R5 R6 R7 R8 R9 R10 R11 R12 R13].
  constructor; cbn [with_blocks start_address block_size block_total_count block_list block_free_count]; try done.
  - by rewrite (proj1 W).
  - eapply written_bytes; [exact W|done|]. intros i Hi. unfold is_u8, byte. apply Z.mod_pos_bound. lia.
  - split; [done|]. rewrite (word_written m m' _ _ W Hu ltac:(lia)). apply HLk; [|done]. intros c Hc.
    split; [apply R10; by left|]. by intros ->.
  - intros c. change (blocks _) with (blocks p). rewrite (R10 c), list.elem_of_cons. destruct (decide (c = b)) as [->|Hn].
    + rewrite lookup_delete_eq. split; [by left; left|]. intros _. right. by eexists.
    + rewrite lookup_delete_ne by done. tauto.
  - intros c [->|Hc]%list.elem_of_cons; [apply lookup_delete_eq|]. rewrite lookup_delete_None. right. by apply R11.
  - intros c k Hk. destruct (decide (c = b)) as [->|Hn]; [by rewrite lookup_delete_eq in Hk|].
    rewrite lookup_delete_ne in Hk by done. assert (c ∈ blocks p) as Hc by (apply R10; right; by eexists).
    destruct (R12 c k Hk) as [<- <-]. split; [by apply HW|by apply HS].
  - rewrite R13. cbn [length]. unfold u32. change 4294967296 with (2 ^ 32).
    assert (Z.of_nat (length (b :: free)) <= block_total_count p < 2 ^ 32) as Hle
      by (eapply (free_bound mp p m free live); [done|done|]; intros c [->|Hc]%list.elem_of_cons; [done|apply R10; by left]).
    cbn [length] in Hle. rewrite Z.mod_small; lia.
Qed.

(** A byte stored into a block in use. *)
Lemma store_mem mp p m b l i v free live : mem_rep mp p m free live -> live !! b = Some l -> 0 <= i < block_size p -> is_u8 v ->
  exists m', set m (b + i) v = Ok m' /\ mem_rep mp p m' free (<[b := upd l i v]> live).
Proof.
  intros R Hl Hi Hv. pose proof (live_block _ _ _ _ _ _ _ R Hl) as Hb. destruct (block_room _ _ _ _ _ _ R Hb) as (Hb1 & Hb2 & _).
  destruct (set_written m (b + i) v) as (m' & E & W); [unfold room, SIZEOF_PTR in *; lia|]. exists m'. split; [done|].
  assert (forall c, c ∈ blocks p -> word m' (c - SIZEOF_PTR) = word m (c - SIZEOF_PTR)) as HW.
  { intros c Hc. destruct (block_room _ _ _ _ _ _ R Hc) as (Hc1 & _). unfold SIZEOF_PTR in *. eapply word_other; [exact W|lia|].
    destruct (decide (c = b)) as [->|Hn]; [lia|]. destruct (blocks_disjoint _ _ _ _ _ _ _ R Hc Hb Hn); unfold SIZEOF_PTR in *; lia. }
  pose proof R as [R1 R2 R3 R4 R5 R6 R7 R8 R9 R10 R11 R12 R13]. constructor; try done.
  - by rewrite (proj1 W).
  - by eapply written_bytes.
  - apply (links_ext m); [|done]. intros c Hc. apply HW, R10. by left.
  - intros c. rewrite R10. destruct (decide (c = b)) as [->|Hn]; [|by rewrite lookup_insert_ne].
    rewrite lookup_insert_eq. split; intros _; right; by eexists.
  - intros c Hc. rewrite lookup_insert_ne; [by apply R11|]. intros ->. by rewrite (R11 c Hc) in Hl.
  - intros c k Hk. destruct (decide (c = b)) as [->|Hn].
    + rewrite lookup_insert_eq in Hk. injection Hk as <-. destruct (R12 b l Hl) as [<- <-]. split; [by apply HW|].
      apply slice_store; [done|unfold room, SIZEOF_PTR in *; lia|done].
    + rewrite lookup_insert_ne in Hk by done. assert (c ∈ blocks p) as Hc by (apply R10; right; by eexists).
      destruct (R12 c k Hk) as [<- <-]. split; [by apply HW|]. destruct (block_room _ _ _ _ _ _ R Hc) as (? & ? & _).
      eapply slice_other; [exact W|unfold room, SIZEOF_PTR in *; lia|done|].
      destruct (blocks_disjoint _ _ _ _ _ _ _ R Hc Hb Hn); unfold SIZEOF_PTR in *; lia.
Qed.

(** ** A new pool *)

Lemma link_blocks_ok n start step : forall off m, 0 <= off -> 0 < start -> 4 <= step -> bytes_ok m ->
  start + (off + Z.of_nat n) * step <= Z.of_nat (length m) < 2 ^ 32 ->
  exists m', link_blocks n off start step m = Ok m' /\ length m' = length m /\ bytes_ok m'
    /\ (forall j, off <= j < off + Z.of_nat n -> word m' (start + j * step) = start + (j + 1) * step)
    /\ (forall j, 0 <= j < off -> word m' (start + j * step) = word m (start + j * step)).
Proof.
  induction n as [|n IH]; intros off m Ho Hst Hsp Hu Hr; cbn [link_blocks].
  { exists m. split_and!; try done. lia. }
  assert (0 <= off * step /\ 0 <= Z.of_nat n * step) as [Hm1 Hm2] by (split; apply Z.mul_nonneg_nonneg; lia).
  rewrite Nat2Z.inj_succ in Hr.
  assert (is_u32 (start + (off + 1) * step) /\ is_u32 (start + off * step)) as [Hv Ha]
    by (unfold is_u32; change 4294967296 with (2 ^ 32); lia).
  assert (u32 (start + (off + 1) * step) = start + (off + 1) * step) as -> by (apply Z.mod_small, Hv).
  assert (u32 (start + off * step) = start + off * step) as -> by (apply Z.mod_small, Ha).
  destruct (st32_ok m (start + off * step) (start + (off + 1) * step)) as (m1 & -> & W1); [unfold room; lia|].
  rewrite bind_ret_l. destruct (IH (off + 1) m1) as (m2 & E2 & L2 & U2 & Hnew & Hold); [lia|done|done| | |].
  { eapply written_bytes; [exact W1|done|]. intros i Hi. unfold is_u8, byte. apply Z.mod_pos_bound. lia. }
  { rewrite (proj1 W1). lia. }
  exists m2. split; [done|]. split; [by rewrite L2, (proj1 W1)|]. split; [done|]. split.
  - intros j Hj. destruct (decide (j = off)) as [->|Hn]; [|apply Hnew; lia].
    rewrite Hold by lia. apply (word_written m m1 _ _ W1); [done|lia].
  - intros j Hj. rewrite Hold by lia. eapply word_other; [exact W1| |].
    + assert (0 <= j * step) by (apply Z.mul_nonneg_nonneg; lia). lia.
    + left. assert ((j + 1) * step <= off * step) by (apply Z.mul_le_mono_nonneg_r; lia). lia.
Qed.

Lemma init_blocks_ok start total step m : 0 < total -> 0 < start -> 4 <= step -> bytes_ok m ->
  start + total * step <= Z.of_nat (length m) < 2 ^ 32 ->
  exists m', init_blocks start total step m = Ok m' /\ length m' = length m /\ bytes_ok m'
    /\ (forall j, 0 <= j < total - 1 -> word m' (start + j * step) = start + (j + 1) * step)
    /\ word m' (start + (total - 1) * step) = 0.
Proof.
  intros Ht Hst Hsp Hu Hr. unfold init_blocks.
  assert (total * 1 <= total * step) by (apply Z.mul_le_mono_nonneg_l; lia).
  assert (0 <= (total - 1) * step) by (apply Z.mul_nonneg_nonneg; lia).
  destruct (link_blocks_ok (Z.to_nat total) start step 0 m) as (m1 & -> & L1 & U1 & Hnew & _); [lia|done|done|done| |].
  { rewrite Z2Nat.id by lia. lia. }
  rewrite bind_ret_l. assert (u32 (total - 1) = total - 1) as ->
    by (unfold u32; change 4294967296 with (2 ^ 32); apply Z.mod_small; lia).
  assert (u32 (start + (total - 1) * step) = start + (total - 1) * step) as ->
    by (unfold u32; change 4294967296 with (2 ^ 32); apply Z.mod_small; lia).
  destruct (st32_ok m1 (start + (total - 1) * step) 0) as (m2 & -> & W2); [unfold room; lia|]. exists m2. split; [done|].
  split; [by rewrite (proj1 W2)|]. split; [|split].
  - eapply written_bytes; [exact W2|done|]. intros i Hi. unfold is_u8, byte. apply Z.mod_pos_bound. lia.
  - intros j Hj. rewrite (word_other _ _ _ _ _ _ W2); [apply Hnew; lia| |].
    + assert (0 <= j * step) by (apply Z.mul_nonneg_nonneg; lia). lia.
    + left. assert ((j + 1) * step <= (total - 1) * step) by (apply Z.mul_le_mono_nonneg_r; lia). lia.
  - apply (word_written m1 m2 _ _ W2); [by unfold is_u32; lia|lia].
Qed.

Lemma links_all p m n : forall k, (0 < n)%nat -> Z.of_nat (k + n) = block_total_count p ->
  (forall j, 0 <= j < block_total_count p - 1 -> word m (start_address p + j * stride p) = start_address p + (j + 1) * stride p) ->
  word m (start_address p + (block_total_count p - 1) * stride p) = 0 ->
  links m (start_address p + Z.of_nat k * stride p) (map (block_at p) (seq k n)).
Proof.
  induction n as [|n IH]; intros k Hn Hk Hw Hl; [lia|]. cbn [seq map links]. split; [unfold block_at; lia|].
  destruct n as [|n].
  - cbn. rewrite <- Hl. do 3 f_equal. lia.
  - rewrite Hw by lia. replace (Z.of_nat k + 1) with (Z.of_nat (S k)) by lia. apply IH; [lia..|done|done].
Qed.

Lemma new_pool_rep mp p m' : is_u32 mp -> bytes_ok m' -> 0 < start_address p -> 0 <= block_size p ->
  stride p = block_size p + SIZEOF_PTR -> 0 < block_total_count p -> block_free_count p = block_total_count p ->
  block_list p = start_address p -> start_address p + block_total_count p * stride p <= Z.of_nat (length m') < 2 ^ 32 ->
  (forall j, 0 <= j < block_total_count p - 1 -> word m' (start_address p + j * stride p) = start_address p + (j + 1) * stride p) ->
  word m' (start_address p + (block_total_count p - 1) * stride p) = 0 ->
  mem_rep mp p m' (blocks p) ∅.
Proof.
  intros Hid Hu Hst Hb Hsp Ht Hf Hl Hr Hw Hlast. unfold SIZEOF_PTR in *. constructor; try done.
  - lia.
  - rewrite Hl. unfold blocks. replace (start_address p) with (start_address p + Z.of_nat 0 * stride p) at 1 by lia.
    apply links_all; [lia|lia|done|done].
  - apply blocks_nodup. lia.
  - intros b. rewrite lookup_empty. split; [by left|]. by intros [?|[? ?]].
  - rewrite Hf, length_blocks; lia.
Qed.

(** ** The kernel's part *)

(** The errors of the threads. *)
Definition errs (s : kstate) : gmap Z Z := error <$> threads s.

Lemma errs_frame s s' : sched_frame s s' -> errs s' = errs s.
Proof.
  intros F. apply map_eq. intros t. unfold errs. rewrite !lookup_fmap. destruct (sf_threads _ _ F t) as (x & -> & _).
  by destruct (threads s !! t).
Qed.
Lemma errs_alter f t m : (forall th, error (f th) = error th) -> error <$> alter f t m = error <$> (m : gmap Z rt_thread).
Proof.
  intros Hf. apply map_eq. intros x. rewrite !lookup_fmap. destruct (decide (x = t)) as [->|Hn].
  - rewrite lookup_alter_eq. destruct (m !! t); [|done]. cbn. by rewrite Hf.
  - by rewrite lookup_alter_ne.
Qed.
Lemma errs_resumed t th s : threads s !! t = Some th -> errs (resumed t s) = errs s.
Proof. intros Ht. unfold errs. rewrite (resumed_threads t th s Ht). by apply errs_alter. Qed.
Lemma errs_suspended t s : errs (suspended t s) = errs s.
Proof. unfold errs. cbn. by apply errs_alter. Qed.
Lemma errs_error e t s x : x <> t -> errs (upd_thread (with_error e) t s) !! x = errs s !! x.
Proof. intros Hn. unfold errs. rewrite !lookup_fmap. cbn. by rewrite lookup_alter_ne. Qed.
Lemma errs_error_eq e t s : is_Some (threads s !! t) -> errs (upd_thread (with_error e) t s) !! t = Some e.
Proof. intros [th Ht]. unfold errs. rewrite lookup_fmap. cbn. by rewrite lookup_alter_eq, Ht. Qed.
Lemma size_error e t s : size (threads (upd_thread (with_error e) t s)) = size (threads s).
Proof. cbn. rewrite <- !size_dom. by rewrite dom_alter_L. Qed.
Lemma size_errs s : size (threads s) = size (errs s).
Proof. unfold errs. by rewrite map_size_fmap. Qed.

Lemma kernel_error e t s : kernel_ok s -> kernel_ok (upd_thread (with_error e) t s).
Proof. intros Hk. by apply kernel_upd. Qed.

(** Waiting at the head of a list. *)
Definition first_waiting (k : wait_list) (t : Z) (s : kstate) : kstate :=
  with_waits (<[k := t :: wlist k s]> (wait_lists s)) (suspended t s).
Lemma wait_first_ok k t th s : kernel_ok s -> threads s !! t = Some th -> runnable (stat th) ->
  wait_first k t s = Ok (first_waiting k t s) /\ kernel_ok (first_waiting k t s).
Proof.
  intros Hk Ht Hr. destruct (suspend_ok t th s Hk Ht Hr) as [E Hk1].
  pose proof (suspended_waits t th s Hk Ht Hr) as Ew.
  assert (forall k, wlist k (suspended t s) = wlist k s) as Ewl by (intros k'; unfold wlist; by rewrite Ew).
  assert (unlinked t (suspended t s)) as Hu
    by (apply (lists_ok_unlinked t (removed t s)), (removed_ok None); [apply Hk|by left]).
  assert (has_stat (suspended t s) t RT_THREAD_SUSPEND) as Hst by (eexists; cbn; by rewrite lookup_alter_eq, Ht).
  split.
  - unfold wait_first. by rewrite E, bind_ret_l, (proj2 (linked_false _ _) Hu), Ewl, Ew.
  - unfold first_waiting. rewrite <- Ew. apply kernel_waits; [done|].
    apply (wait_lists_ok k t); [apply Hk1|done|done|]. by rewrite Ewl.
Qed.

(** ** Sessions *)

(** A pool as its users see it: free blocks, contents of the others, threads that
    wait, the latest first, and threads that were woken and have not run yet. *)
Record pool_abs := mkAbs { a_free : list Z; a_live : gmap Z (list Z); a_waiting : list Z; a_woken : gset Z }.

(** Calls of the current thread, which waits forever or not at all; [Continue] is
    the rest of a call that waited. *)
Inductive pool_call := Alloc (wait : bool) | Continue | Free (b : Z) | Store (b i v : Z) | Load (b : Z).
Inductive pool_result := RGot (b : Z) | RWaits (t : Z) | RDone | RBytes (l : list Z).

Definition result_of (o : mp_outcome) : pool_result :=
  match o with Got b => RGot b | Waits t _ _ _ => RWaits t end.
Definition run_pool (mp bs t : Z) (c : pool_call) (s : pstate) : res (pool_result * pstate) :=
  match c with
  | Alloc wait => '(o, s) ← rt_mp_alloc mp (if wait then -1 else 0) s; Ok (result_of o, s)
  | Continue => '(o, s) ← alloc_rest t mp (-1) 0 s; Ok (result_of o, s)
  | Free b => s ← rt_mp_free b s; Ok (RDone, s)
  | Store b i v => m ← set (p_mem s) (b + i) v; Ok (RDone, put_mem m s)
  | Load b => Ok (RBytes (slice (p_mem s) b bs), s)
  end.

(** What a call of thread [t] does; a new block holds what memory [m'] has there. *)
Definition spec_pool (bs t : Z) (m' : list Z) (c : pool_call) (a : pool_abs) : pool_result * pool_abs :=
  match c with
  | Alloc wait =>
      match a_free a with
      | b :: f => (RGot b, mkAbs f (<[b := slice m' b bs]> (a_live a)) (a_waiting a) (a_woken a))
      | [] => if wait then (RWaits t, mkAbs [] (a_live a) (t :: a_waiting a) (a_woken a)) else (RGot 0, a)
      end
  | Continue =>
      match a_free a with
      | b :: f => (RGot b, mkAbs f (<[b := slice m' b bs]> (a_live a)) (a_waiting a) (a_woken a ∖ {[t]}))
      | [] => (RWaits t, mkAbs [] (a_live a) (t :: a_waiting a) (a_woken a ∖ {[t]}))
      end
  | Free b =>
      match a_waiting a with
      | x :: w => (RDone, mkAbs (b :: a_free a) (delete b (a_live a)) w ({[x]} ∪ a_woken a))
      | [] => (RDone, mkAbs (b :: a_free a) (delete b (a_live a)) [] (a_woken a))
      end
  | Store b i v => (RDone, mkAbs (a_free a) (alter (fun l => upd l i v) b (a_live a)) (a_waiting a) (a_woken a))
  | Load b => (RBytes (default [] (a_live a !! b)), a)
  end.

(** The running thread [t] may make the call. *)
Definition permitted (bs t : Z) (c : pool_call) (a : pool_abs) : Prop :=
  match c with
  | Alloc _ => t ∉ a_woken a
  | Continue => t ∈ a_woken a
  | Free b | Load b => is_Some (a_live a !! b)
  | Store b i v => is_Some (a_live a !! b) /\ 0 <= i < bs /\ is_u8 v
  end.
Definition calls_now (t : Z) (s : pstate) : Prop :=
  rt_current_thread (p_kern s) = Some t /\ has_stat (p_kern s) t RT_THREAD_RUNNING.

Record pool_rep (mp : Z) (p : rt_mempool) (s : pstate) (a : pool_abs) : Prop := mkPoolRep {
  pp_pool : p_pools s !! mp = Some p;
  pp_mem : mem_rep mp p (p_mem s) (a_free a) (a_live a);
  pp_kernel : kernel_ok (p_kern s);
  pp_current : is_Some (rt_current_thread (p_kern s));
  pp_nest : rt_interrupt_nest (p_kern s) = 0;
  pp_few : Z.of_nat (size (threads (p_kern s))) < 2 ^ 32 - 1;
  pp_waiting : wlist (suspend_thread mp) (p_kern s) = a_waiting a;
  pp_count : suspend_thread_count p = Z.of_nat (length (a_waiting a));
  pp_errors : forall t, t ∈ a_waiting a \/ t ∈ a_woken a -> errs (p_kern s) !! t = Some RT_EOK;
  pp_apart : forall t, t ∈ a_woken a -> t ∉ a_waiting a;
  pp_idle : a_waiting a <> [] -> (length (a_free a) <= size (a_woken a))%nat }.

(** The fields that never change. *)
Definition same_pool (p p' : rt_mempool) : Prop :=
  start_address p' = start_address p /\ block_size p' = block_size p /\ block_total_count p' = block_total_count p.

Lemma deref_ok mp p s a : pool_rep mp p s a -> deref_pool mp s = Ok p.
Proof. intros R. unfold deref_pool. by rewrite (pp_pool _ _ _ _ R). Qed.
Lemma running_thread t s : calls_now t s -> exists th, threads (p_kern s) !! t = Some th /\ runnable (stat th).
Proof. intros [_ (th & Ht & Hs)]. exists th. split; [done|]. by right. Qed.
Lemma running_not_waiting mp p t s a : pool_rep mp p s a -> calls_now t s -> t ∉ a_waiting a.
Proof.
  intros R Hc. destruct (running_thread t s Hc) as (th & Ht & Hr). rewrite <- (pp_waiting _ _ _ _ R).
  eapply runnable_unlinked_waits; [apply (pp_kernel _ _ _ _ R)|done|done].
Qed.
Lemma few_waiting mp p s a : pool_rep mp p s a -> Z.of_nat (length (a_waiting a)) < 2 ^ 32 - 1.
Proof.
  intros R. pose proof (pp_few _ _ _ _ R). pose proof (so_lists _ (ko_sched _ (pp_kernel _ _ _ _ R))) as HL.
  rewrite <- (pp_waiting _ _ _ _ R). pose proof (wlist_nodup (suspend_thread mp) _ HL) as Hnd.
  assert (length (wlist (suspend_thread mp) (p_kern s)) <= size (threads (p_kern s)))%nat; [|lia].
  rewrite <- size_dom, <- (size_list_to_set (C := gset Z)) by done. apply subseteq_size. intros t Ht%elem_of_list_to_set.
  destruct (waiting_stat _ _ t HL Ht) as (th & E & _). by apply elem_of_dom.
Qed.

(** The first free block taken. *)
Lemma take_rep mp p s b f live w wk wk' : pool_rep mp p s (mkAbs (b :: f) live w wk) -> wk' ⊆ wk ->
  (w <> [] -> (length f <= size wk')%nat) ->
  exists p' s', take_block mp p s = Ok (Got b, s') /\ same_pool p p'
    /\ pool_rep mp p' s' (mkAbs f (<[b := slice (p_mem s') b (block_size p)]> live) w wk').
Proof.
  intros [R1 R2 R3 R4 R5 R6 R7 R8 R9 R10 R11] Hs Hi. cbn [a_free a_live a_waiting a_woken] in *.
  destruct (take_mem _ _ _ _ _ _ R2) as (m' & E1 & E2 & Eb & Hp & R2'). set (p' := with_blocks _ _ p) in R2'.
  exists p', (put_pool mp p' (put_mem m' s)). split.
  - unfold take_block. destruct (Z.eqb_spec (block_list p) 0); [lia|]. rewrite E1, bind_ret_l, E2, bind_ret_l.
    unfold SIZEOF_PTR in *. do 3 f_equal. lia.
  - split; [done|]. constructor; cbn [a_free a_live a_waiting a_woken p_pools p_mem p_kern put_pool put_mem]; try done.
    + apply lookup_insert_eq.
    + assert (slice m' b (block_size p) = slice (p_mem s) b (block_size p)) as ->; [|done].
      apply (mr_live _ _ _ _ _ R2' b). apply lookup_insert_eq.
    + intros t Ht. apply R9. destruct Ht; [by left|right]. by apply Hs.
    + intros t Ht. apply R10. by apply Hs.
Qed.

(** The running thread waits. *)
Lemma wait_rep mp p s t live w wk wk' : pool_rep mp p s (mkAbs [] live w wk) -> calls_now t s -> wk' ⊆ wk -> t ∉ wk' ->
  exists p' s', alloc_loop mp (-1) s = Ok (Waits t mp (-1) (rt_tick_get (ktimers (p_kern s))), s') /\ same_pool p p'
    /\ pool_rep mp p' s' (mkAbs [] live (t :: w) wk').
Proof.
  intros R Hc Hs Hn. pose proof (running_not_waiting _ _ _ _ _ R Hc) as Hnw. pose proof (few_waiting _ _ _ _ R) as Hfew.
  destruct (running_thread t s Hc) as (th & Ht & Hr). pose proof (deref_ok _ _ _ _ R) as Ed.
  destruct R as [R1 R2 R3 R4 R5 R6 R7 R8 R9 R10 R11]. cbn [a_free a_live a_waiting a_woken] in *.
  set (k1 := upd_thread (with_error RT_EOK) t (p_kern s)).
  assert (threads k1 !! t = Some (with_error RT_EOK th)) as Ht1 by (cbn; by rewrite lookup_alter_eq, Ht).
  destruct (wait_first_ok (suspend_thread mp) t _ k1 (kernel_error _ _ _ R3) Ht1 Hr) as [E1 Hk2].
  set (k2 := first_waiting (suspend_thread mp) t k1) in *.
  destruct (kernel_schedule k2 t Hk2 (proj1 Hc)) as (k3 & E3 & Hk3 & F & Hc3).
  assert (errs k3 = errs k1) as Ee by (rewrite (errs_frame _ _ F); apply errs_suspended).
  exists (with_suspended (u32 (suspend_thread_count p + 1)) p),
    (put_pool mp (with_suspended (u32 (suspend_thread_count p + 1)) p) (put_kern k3 s)). split.
  - unfold alloc_loop. rewrite Ed, bind_ret_l, (mr_count _ _ _ _ _ R2). cbn [length Z.of_nat Z.eqb]. rewrite R5. cbn [Z.eqb negb].
    unfold rt_thread_self. rewrite (proj1 Hc). fold k1. rewrite E1, bind_ret_l. cbn [start_waiting Z.ltb Z.compare].
    unfold start_waiting. cbn [Z.ltb Z.compare]. rewrite bind_ret_l. fold k2. by rewrite E3, bind_ret_l.
  - split; [done|]. constructor; cbn [a_free a_live a_waiting a_woken p_pools p_mem p_kern put_pool put_kern]; try done.
    + apply lookup_insert_eq.
    + by destruct R2.
    + by rewrite (sf_nest _ _ F).
    + rewrite size_errs, Ee, <- size_errs. unfold k1. by rewrite size_error.
    + rewrite (wlist_frame _ _ _ F). unfold k2, first_waiting. unfold wlist at 1. cbn. rewrite lookup_insert_eq. cbn. f_equal. exact R7.
    + cbn [suspend_thread_count with_suspended length]. rewrite R8. unfold u32. change 4294967296 with (2 ^ 32). rewrite Z.mod_small; lia.
    + intros x Hx. rewrite Ee. destruct (decide (x = t)) as [->|Hxt]; [apply errs_error_eq; by eexists|].
      unfold k1. rewrite errs_error by done. apply R9. destruct Hx as [[->|Hx]%list.elem_of_cons|Hx]; [done|by left|right; by apply Hs].
    + intros x Hx [->|Hxw]%list.elem_of_cons; [done|]. by apply (R10 x (Hs x Hx)).
    + intros _. cbn. lia.
Qed.

(** A block given back; a waiting thread is woken. *)
Lemma free_rep mp p s b l f live w wk : pool_rep mp p s (mkAbs f live w wk) -> live !! b = Some l ->
  exists p' s', rt_mp_free b s = Ok s' /\ same_pool p p'
    /\ pool_rep mp p' s' (mkAbs (b :: f) (delete b live) (tail w) (match w with x :: _ => {[x]} ∪ wk | [] => wk end)).
Proof.
  intros R Hl. pose proof (few_waiting _ _ _ _ R) as Hfew. pose proof (deref_ok _ _ _ _ R) as Ed.
  destruct R as [R1 R2 R3 R4 R5 R6 R7 R8 R9 R10 R11]. cbn [a_free a_live a_waiting a_woken] in *.
  destruct (give_mem _ _ _ _ _ _ _ R2 Hl) as (m' & E1 & E2 & R2'). set (p1 := with_blocks _ _ p) in R2'.
  unfold rt_mp_free. rewrite E1, bind_ret_l, Ed, bind_ret_l, E2, bind_ret_l. fold p1.
  change (suspend_thread_count p1) with (suspend_thread_count p). rewrite R8. cbn [p_kern put_mem]. rewrite R7.
  destruct w as [|x w]; cbn [length tail].
  - exists p1, (put_pool mp p1 (put_mem m' s)). split; [done|]. split; [done|].
    constructor; cbn [a_free a_live a_waiting a_woken p_pools p_mem p_kern put_pool put_mem]; try done. apply lookup_insert_eq.
  - destruct (Z.ltb_spec 0 (Z.of_nat (S (length w)))); [|lia]. set (k1 := upd_thread (with_error RT_EOK) x (p_kern s)).
    assert (kernel_ok k1) as Hk1 by (by apply kernel_error). assert (wlist (suspend_thread mp) k1 = x :: w) as Hw1 by exact R7.
    destruct (list_resume_ok (suspend_thread mp) x w k1 Hk1 Hw1) as (_ & Hk2 & Hw2 & _).
    assert (x ∈ wlist (suspend_thread mp) k1) as Hin by (rewrite Hw1; by left).
    destruct (waiting_stat (suspend_thread mp) k1 x (so_lists _ (ko_sched _ Hk1)) Hin) as (th & Ht & Hst).
    destruct (resume_ok x th k1 Hk1 Ht Hst) as [E3 _]. rewrite E3, bind_ret_l. destruct R4 as [c Hc].
    destruct (kernel_schedule (resumed x k1) c Hk2 ltac:(by rewrite resumed_current)) as (k3 & E4 & Hk3 & F & Hc3).
    rewrite E4, bind_ret_l.
    assert (errs k3 = errs k1) as Ee by (rewrite (errs_frame _ _ F); by apply (errs_resumed x th)).
    assert (is_Some (threads (p_kern s) !! x)) as Hx by (apply (fmap_is_Some error); rewrite <- lookup_fmap; unfold errs in R9; rewrite R9 by (left; by left); by eexists).
    assert (x ∉ w) as Hni by (pose proof (wlist_nodup (suspend_thread mp) _ (so_lists _ (ko_sched _ Hk1))) as Hnd; rewrite Hw1 in Hnd; by apply list.NoDup_cons in Hnd as [? _]).
    exists (with_suspended (Z.of_nat (S (length w)) - 1) p1). eexists. split; [done|]. split; [done|].
    constructor; cbn [a_free a_live a_waiting a_woken p_pools p_mem p_kern put_pool put_kern put_mem]; try done.
    + apply lookup_insert_eq.
    + by destruct R2'.
    + rewrite (sf_nest _ _ F). unfold resumed. by rewrite (sb_nest _ _ (made_ready_frame x _)).
    + rewrite size_errs, Ee, <- size_errs. unfold k1. by rewrite size_error.
    + by rewrite (wlist_frame _ _ _ F).
    + cbn [suspend_thread_count with_suspended]. lia.
    + intros y Hy. rewrite Ee. destruct (decide (y = x)) as [->|Hyx]; [by apply errs_error_eq|].
      unfold k1. rewrite errs_error by done. apply R9. destruct Hy as [Hy|Hy]; [left; by right|]. right. set_solver.
    + intros y Hy Hyw. assert (y = x \/ y ∈ wk) as [->|Hy'] by set_solver; [done|]. apply (R10 y Hy'). by right.
    + intros _. cbn [length]. assert (x ∉ wk) as Hxk by (intros Hxk; apply (R10 x Hxk); by left).
      rewrite size_union, size_singleton by set_solver. specialize (R11 ltac:(done)). lia.
Qed.

Lemma woken_rest mp p s a t : pool_rep mp p s a -> t ∈ a_woken a -> alloc_rest t mp (-1) 0 s = alloc_loop mp (-1) s.
Proof.
  intros R Ht. pose proof (pp_errors _ _ _ _ R t (or_intror Ht)) as E. unfold errs in E. rewrite lookup_fmap in E.
  apply fmap_Some in E as (th & Eth & Ee). unfold alloc_rest, get_thread. rewrite Eth, bind_ret_l, <- Ee. done.
Qed.

(** The current thread's error number is its own affair. *)
Lemma errno_rep mp p s a t : pool_rep mp p s a -> calls_now t s -> t ∉ a_woken a ->
  pool_rep mp p (rt_set_errno (- RT_ETIMEOUT) s) a.
Proof.
  intros R Hc Hn. pose proof (running_not_waiting _ _ _ _ _ R Hc) as Hnw. destruct R as [R1 R2 R3 R4 R5 R6 R7 R8 R9 R10 R11].
  unfold rt_set_errno, rt_thread_self. rewrite (proj1 Hc), R5. cbn [Z.eqb].
  constructor; cbn [p_pools p_mem p_kern put_kern]; try done.
  - by apply kernel_error.
  - by rewrite size_error.
  - intros x Hx. rewrite errs_error; [by apply R9|]. intros ->. by destruct Hx.
Qed.

Lemma call_rep mp p s a t c : pool_rep mp p s a -> calls_now t s -> permitted (block_size p) t c a ->
  exists r p' s', run_pool mp (block_size p) t c s = Ok (r, s') /\ same_pool p p'
    /\ r = (spec_pool (block_size p) t (p_mem s') c a).1 /\ pool_rep mp p' s' (spec_pool (block_size p) t (p_mem s') c a).2.
Proof.
  intros R Hc Hp. pose proof (deref_ok _ _ _ _ R) as Ed. pose proof (mr_count _ _ _ _ _ (pp_mem _ _ _ _ R)) as Hn.
  destruct a as [f live w wk]. destruct c as [wait| |b|b i v|b]; cbn [permitted a_free a_live a_waiting a_woken] in *;
    cbn [run_pool spec_pool a_free a_live a_waiting a_woken].
  - destruct f as [|b f].
    + destruct wait.
      * destruct (wait_rep _ _ _ t live w wk wk R Hc ltac:(done) Hp) as (p' & s' & E & Hs & R'). unfold rt_mp_alloc.
        rewrite E, bind_ret_l. by exists (RWaits t), p', s'.
      * assert (rt_mp_alloc mp 0 s = Ok (Got 0, rt_set_errno (- RT_ETIMEOUT) s)) as E
          by (unfold rt_mp_alloc, alloc_loop; by rewrite Ed, bind_ret_l, Hn). rewrite E, bind_ret_l.
        exists (RGot 0), p, (rt_set_errno (- RT_ETIMEOUT) s). split; [done|]. split; [done|]. split; [done|]. by eapply errno_rep.
    + destruct (take_rep _ _ _ b f live w wk wk R ltac:(done)) as (p' & s' & E & Hs & R').
      { intros Hw. pose proof (pp_idle _ _ _ _ R Hw) as Hi. cbn in Hi. lia. }
      unfold rt_mp_alloc, alloc_loop. rewrite Ed, bind_ret_l, Hn. cbn [length]. destruct (Z.eqb_spec (Z.of_nat (S (length f))) 0); [lia|].
      rewrite E, bind_ret_l. by exists (RGot b), p', s'.
  - rewrite (woken_rest mp p s _ t R Hp). destruct f as [|b f].
    + destruct (wait_rep _ _ _ t live w wk (wk ∖ {[t]}) R Hc) as (p' & s' & E & Hs & R'); [set_solver..|].
      rewrite E, bind_ret_l. by exists (RWaits t), p', s'.
    + destruct (take_rep _ _ _ b f live w wk (wk ∖ {[t]}) R ltac:(set_solver)) as (p' & s' & E & Hs & R').
      { intros Hw. pose proof (pp_idle _ _ _ _ R Hw) as Hi. cbn in Hi. rewrite size_difference by set_solver.
        rewrite size_singleton. lia. }
      unfold alloc_loop. rewrite Ed, bind_ret_l, Hn. cbn [length]. destruct (Z.eqb_spec (Z.of_nat (S (length f))) 0); [lia|].
      rewrite E, bind_ret_l. by exists (RGot b), p', s'.
  - destruct Hp as [l Hl]. destruct (free_rep _ _ _ b l f live w wk R Hl) as (p' & s' & E & Hs & R'). rewrite E, bind_ret_l.
    exists RDone, p', s'. split; [done|]. split; [done|]. by destruct w as [|x w].
  - destruct Hp as ([l Hl] & Hi & Hv). destruct (store_mem _ _ _ b l i v _ _ (pp_mem _ _ _ _ R) Hl Hi Hv) as (m' & E & R').
    rewrite E, bind_ret_l. exists RDone, p, (put_mem m' s). split; [done|]. split; [done|]. split; [done|].
    assert (alter (fun l => upd l i v) b live = <[b := upd l i v]> live) as E'.
    { apply map_eq. intros c. destruct (decide (c = b)) as [->|Hcb]; [by rewrite lookup_alter_eq, lookup_insert_eq, Hl|].
      by rewrite lookup_alter_ne, lookup_insert_ne. }
    cbn [snd]. rewrite E'. destruct R. by constructor.
  - destruct Hp as [l Hl]. exists (RBytes (slice (p_mem s) b (block_size p))), p, s. split; [done|]. split; [done|]. split; [|done].
    cbn [fst]. rewrite Hl. cbn. f_equal. apply (mr_live _ _ _ _ _ (pp_mem _ _ _ _ R) b l Hl).
Qed.

(** ** From the start of a pool *)

Lemma init_waiting_ok mp k : kernel_ok k -> kernel_ok (init_waiting mp k).
Proof.
  intros Hk. apply kernel_waits; [done|]. pose proof (so_lists _ (ko_sched _ Hk)) as [L G N R Q Wt W1 Df P].
  constructor; try done; cbn.
  - intros k' l E. destruct (decide (k' = suspend_thread mp)) as [->|Hn].
    + rewrite lookup_insert_eq in E. injection E as <-. split; [constructor|]. by intros t []%list.not_elem_of_nil.
    + rewrite lookup_insert_ne in E by done. by eapply Wt.
  - intros k1 k2 l1 l2 t E1 E2 H1 H2. destruct (decide (k1 = suspend_thread mp)) as [->|N1].
    { rewrite lookup_insert_eq in E1. injection E1 as <-. by apply list.not_elem_of_nil in H1. }
    destruct (decide (k2 = suspend_thread mp)) as [->|N2].
    { rewrite lookup_insert_eq in E2. injection E2 as <-. by apply list.not_elem_of_nil in H2. }
    rewrite lookup_insert_ne in E1, E2 by done. by eapply W1.
Qed.

(** The kernel runs a thread, and memory has room for a pool of [total] blocks of
    [bs] bytes at [start] (bytes beyond the last block may be left). *)
Record pool_area (mp start size bsize total bs : Z) (s : pstate) : Prop := mkArea {
  pa_kernel : kernel_ok (p_kern s);
  pa_current : is_Some (rt_current_thread (p_kern s));
  pa_nest : rt_interrupt_nest (p_kern s) = 0;
  pa_lock : lock_room (p_kern s);
  pa_few : Z.of_nat (base.size (threads (p_kern s))) < 2 ^ 32 - 1;
  pa_bytes : bytes_ok (p_mem s);
  pa_new : p_pools s !! mp = None;
  pa_id : is_u32 mp;
  pa_start : 0 < start;
  pa_size : is_u32 size;
  pa_room : start + RT_ALIGN_DOWN size <= Z.of_nat (length (p_mem s)) < 2 ^ 32;
  pa_bsize : 0 <= bsize <= 2 ^ 32 - 16;
  pa_bs : bs = RT_ALIGN bsize;
  pa_total : total = RT_ALIGN_DOWN size / (bs + SIZEOF_PTR);
  pa_some : 0 < total }.

Definition all_blocks (start total bs : Z) : list Z :=
  map (fun k => start + Z.of_nat k * (bs + SIZEOF_PTR) + SIZEOF_PTR) (seq 0 (Z.to_nat total)).

Lemma mp_init_ok mp start size bsize total bs s : pool_area mp start size bsize total bs s ->
  exists s' p, rt_mp_init mp start size bsize s = Ok (RT_EOK, s') /\ start_address p = start /\ block_size p = bs
    /\ block_total_count p = total /\ pool_rep mp p s' (mkAbs (all_blocks start total bs) ∅ [] ∅).
Proof.
  intros [A1 A2 A3 A4 A5 A6 A7 A8 A9 A10 A11 A12 A13 A14 A15]. destruct A2 as [c Hc].
  destruct (critical_ok _ A1 A4) as (k & Ek & Hk & F & Hcur).
  assert (0 <= bs <= 2 ^ 32 - 12) as Hbs.
  { destruct (RT_ALIGN_ok bsize) as (_ & ? & HH & _); [unfold is_u32; lia|]. specialize (HH ltac:(lia)). lia. }
  set (step := u32 (bs + SIZEOF_PTR)). assert (step = bs + SIZEOF_PTR) as Estep
    by (unfold step, u32, SIZEOF_PTR; change 4294967296 with (2 ^ 32); apply Z.mod_small; lia).
  set (p := mkPool start (RT_ALIGN_DOWN size) start bs total total 0).
  assert (total * step <= RT_ALIGN_DOWN size) as Hts.
  { rewrite Estep, A14, Z.mul_comm. apply Z.mul_div_le. unfold SIZEOF_PTR. lia. }
  destruct (init_blocks_ok start total step (p_mem s) A15 A9 ltac:(unfold SIZEOF_PTR in *; lia) A6 ltac:(lia)) as (m & Em & Lm & Um & Hw & Hlast).
  exists (mkP (init_waiting mp k) m (<[mp := p]> (p_pools s)) ({[mp]} ∪ p_static s) (p_errno s)), p.
  split.
  { unfold rt_mp_init. rewrite A7, Ek, bind_ret_l. rewrite <- A13. fold step. destruct (Z.eqb_spec step 0); [unfold SIZEOF_PTR in *; lia|].
    rewrite Estep at 1. rewrite <- A14, Em, bind_ret_l. rewrite Estep, <- A14. done. }
  split; [done|]. split; [done|]. split; [done|].
  assert (stride p = step) as Es by done.
  assert (all_blocks start total bs = blocks p) as ->.
  { unfold all_blocks, blocks. apply List.map_ext. intros j. unfold block_at. by rewrite Es, Estep. }
  constructor; cbn [a_free a_live a_waiting a_woken p_pools p_mem p_kern]; try done.
  - apply lookup_insert_eq.
  - apply new_pool_rep; try done; cbn [p start_address block_size block_total_count]; rewrite ?Es; try lia.
  - by apply init_waiting_ok.
  - cbn. destruct Hcur as [E|(c' & E & _)]; rewrite E; [rewrite Hc|]; by eexists.
  - cbn. by rewrite (sf_nest _ _ F).
  - cbn. rewrite size_errs, (errs_frame _ _ F), <- size_errs. exact A5.
  - unfold wlist. cbn. by rewrite lookup_insert_eq.
  - intros t [Ht|Ht]; [by apply list.not_elem_of_nil in Ht|set_solver].
Qed.

(** Sessions of the threads that run, one call after another. *)
Inductive pool_session (mp start total bs : Z) : pstate -> pool_abs -> Prop :=
| pool_begin s0 s size bsize : pool_area mp start size bsize total bs s0 -> rt_mp_init mp start size bsize s0 = Ok (RT_EOK, s) ->
    pool_session mp start total bs s (mkAbs (all_blocks start total bs) ∅ [] ∅)
| pool_next s a t c r s' : pool_session mp start total bs s a -> calls_now t s -> permitted bs t c a ->
    run_pool mp bs t c s = Ok (r, s') -> pool_session mp start total bs s' (spec_pool bs t (p_mem s') c a).2.

Lemma session_pool mp start total bs s a : pool_session mp start total bs s a ->
  exists p, pool_rep mp p s a /\ start_address p = start /\ block_size p = bs /\ block_total_count p = total.
Proof.
  induction 1 as [s0 s size bsize A E|s a t c r s' _ (p & R & E1 & E2 & E3) Hc Hp E].
  - destruct (mp_init_ok _ _ _ _ _ _ _ A) as (s' & p & E' & ? & ? & ? & R). rewrite E in E'. injection E' as ->. by exists p.
  - subst bs. destruct (call_rep mp p s a t c R Hc Hp) as (r' & p' & s'' & E' & (S1 & S2 & S3) & _ & R').
    rewrite E in E'. injection E' as <- <-. exists p'. split; [done|]. by rewrite S1, S2, S3.
Qed.

(** Every block is free or in use. *)
Lemma blocks_counted mp p m free live : mem_rep mp p m free live ->
  Z.of_nat (length free) + Z.of_nat (size live) = block_total_count p.
Proof.
  intros R. pose proof (mr_size _ _ _ _ _ R). pose proof (mr_step _ _ _ _ _ R).
  rewrite <- (length_blocks p) by apply (mr_total _ _ _ _ _ R).
  assert (blocks p ≡ₚ free ++ elements (dom live)) as ->.
  { apply NoDup_Permutation.
    - apply blocks_nodup. unfold SIZEOF_PTR in *. lia.
    - apply list.NoDup_app. split; [apply (mr_nodup _ _ _ _ _ R)|]. split; [|apply NoDup_elements]. intros b Hb Hd%elem_of_elements.
      apply elem_of_dom in Hd as [l Hl]. by rewrite (mr_apart _ _ _ _ _ R b Hb) in Hl.
    - intros b. rewrite (mr_blocks _ _ _ _ _ R), elem_of_app, elem_of_elements, elem_of_dom. done. }
  rewrite length_app, <- size_dom. unfold size at 1, set_size. cbn. lia.
Qed.

(** C15: A memory pool is a store of equal blocks, and no block lies idle.  In any
    session of threads that take blocks (waiting for one without a time limit, or
    not at all), give them back and use them: the blocks in use lie in the pool's area on their grid, do not
    overlap each other or the pointers before the others, and hold the bytes last
    put there; with the free ones they are all blocks of the pool; the count of
    waiting threads is the length of their list; and while a thread waits, at most
    as many blocks are free as threads have been woken for them.  Whatever permitted
    call comes next returns without a fault and does as specified: it takes the
    block given back last, or waits or fails if there is none; a block given back
    wakes the thread that began to wait last.  Waits with a time limit are left out:
    after one that ran out the count is too high ([timeout_then_free_faults]). *)
Theorem pool_refines_blocks (mp start total bs : Z) (s : pstate) (a : pool_abs) (Hs : pool_session mp start total bs s a) :
  (forall b l, a_live a !! b = Some l -> start + SIZEOF_PTR <= b /\ b + bs <= start + total * (bs + SIZEOF_PTR)
     /\ (b - SIZEOF_PTR - start) mod (bs + SIZEOF_PTR) = 0 /\ slice (p_mem s) b bs = l)
  /\ (forall b c, is_Some (a_live a !! b) -> is_Some (a_live a !! c) -> b < c -> b + bs <= c - SIZEOF_PTR)
  /\ Z.of_nat (length (a_free a)) + Z.of_nat (size (a_live a)) = total
  /\ wlist (suspend_thread mp) (p_kern s) = a_waiting a
  /\ (suspend_thread_count <$> p_pools s !! mp) = Some (Z.of_nat (length (a_waiting a)))
  /\ (a_waiting a <> [] -> (length (a_free a) <= size (a_woken a))%nat)
  /\ forall t c, calls_now t s -> permitted bs t c a -> exists s',
       run_pool mp bs t c s = Ok ((spec_pool bs t (p_mem s') c a).1, s')
       /\ pool_session mp start total bs s' (spec_pool bs t (p_mem s') c a).2.
Proof.
  destruct (session_pool _ _ _ _ _ _ Hs) as (p & R & <- & <- & <-). pose proof (pp_mem _ _ _ _ R) as M.
  pose proof (mr_step _ _ _ _ _ M) as Es. pose proof (mr_size _ _ _ _ _ M) as Hb. split; [|split; [|split; [|split; [|split; [|split]]]]].
  - intros b l Hl. pose proof (live_block _ _ _ _ _ _ _ M Hl) as Hin. destruct (block_room _ _ _ _ _ _ M Hin) as (_ & _ & Hm).
    rewrite Es in Hm. destruct (mr_live _ _ _ _ _ M b l Hl) as [_ Hc]. apply list_elem_of_fmap in Hin as (k & -> & Hk). apply elem_of_seq in Hk.
    unfold block_at in *. rewrite Es in *. unfold SIZEOF_PTR in *.
    assert (0 <= Z.of_nat k * (block_size p + 4)) by (apply Z.mul_nonneg_nonneg; lia).
    assert ((Z.of_nat k + 1) * (block_size p + 4) <= block_total_count p * (block_size p + 4)) by (apply Z.mul_le_mono_nonneg_r; lia).
    split; [lia|]. split; [lia|]. by split.
  - intros b c [l Hl] [k Hk] Hlt. destruct (blocks_disjoint _ _ _ _ _ b c M); [by eapply live_block..|lia|done|].
    unfold SIZEOF_PTR in *. lia.
  - by apply (blocks_counted mp p (p_mem s)).
  - apply (pp_waiting _ _ _ _ R).
  - rewrite (pp_pool _ _ _ _ R). cbn. by rewrite (pp_count _ _ _ _ R).
  - apply (pp_idle _ _ _ _ R).
  - intros t c Hc Hp. destruct (call_rep mp p s a t c R Hc Hp) as (r & p' & s' & E & _ & -> & _). exists s'. split; [done|].
    by eapply pool_next.
Qed.

(** ** Limits *)

(** A pool whose area holds no block: the word one block before the area is cleared. *)
Theorem empty_pool_writes_before (start step : Z) (m : list Z) : 0 <= step <= start -> start < 2 ^ 32 ->
  init_blocks start 0 step m = st32 m (start - step) 0.
Proof.
  intros Hs Hu. change (init_blocks start 0 step m) with (st32 m (u32 (start + u32 (0 - 1) * step)) 0). f_equal. unfold u32.
  change 4294967296 with (2 ^ 32). change ((0 - 1) mod 2 ^ 32) with (2 ^ 32 - 1).
  replace (start + (2 ^ 32 - 1) * step) with (start - step + step * 2 ^ 32) by lia. rewrite Z.mod_add by lia. apply Z.mod_small. lia.
Qed.

(** The count of waiting threads above the length of their list: giving a block
    back takes the list's head for a thread. *)
Theorem stale_count_faults (mp b : Z) (p : rt_mempool) (s : pstate) (m : list Z) :
  ld32 (p_mem s) (u32 (b - SIZEOF_PTR)) = Ok mp -> p_pools s !! mp = Some p ->
  st32 (p_mem s) (u32 (b - SIZEOF_PTR)) (block_list p) = Ok m ->
  0 < suspend_thread_count p -> wlist (suspend_thread mp) (p_kern s) = [] -> rt_mp_free b s = Fault OutOfBounds.
Proof.
  intros E1 E2 E3 Hn Hw. unfold rt_mp_free, deref_pool. rewrite E1, bind_ret_l, E2, bind_ret_l, E3, bind_ret_l.
  cbn [suspend_thread_count with_blocks p_kern put_mem]. destruct (Z.ltb_spec 0 (suspend_thread_count p)); [|lia]. by rewrite Hw.
Qed.

(** ** A pool of two blocks *)

Module PoolDemo.
Definition state_of {A} (m : res (A * pstate)) (d : pstate) : pstate := match m with Ok (_, s) => s | Fault _ => d end.
Definition area : pstate := mkP boot (replicate 64 0) ∅ ∅ 0.
Definition s0 : pstate := state_of (rt_mp_init 1000 4 24 7 area) area.
Definition step (t : Z) (c : pool_call) (s : pstate) : pstate := state_of (run_pool 1000 8 t c s) s.
Definition s1 : pstate := step 2 (Alloc false) s0.
Definition s2 : pstate := step 2 (Alloc false) s1.
Definition s3 : pstate := step 2 (Store 8 3 65) s2.
(** The main thread waits, the idle thread gives a block back, the main thread is woken. *)
Definition s4 : pstate := step 2 (Alloc true) s3.
Definition s5 : pstate := step 1 (Free 20) s4.

Definition a0 : pool_abs := mkAbs (all_blocks 4 2 8) ∅ [] ∅.
Definition a1 : pool_abs := (spec_pool 8 2 (p_mem s1) (Alloc false) a0).2.
Definition a2 : pool_abs := (spec_pool 8 2 (p_mem s2) (Alloc false) a1).2.
Definition a3 : pool_abs := (spec_pool 8 2 (p_mem s3) (Store 8 3 65) a2).2.
Definition a4 : pool_abs := (spec_pool 8 2 (p_mem s4) (Alloc true) a3).2.
Definition a5 : pool_abs := (spec_pool 8 1 (p_mem s5) (Free 20) a4).2.

Lemma area_ok : pool_area 1000 4 24 7 2 8 area.
Proof.
  constructor.
  - exact boot_ok.
  - exists 2. vm_compute. reflexivity.
  - vm_compute. reflexivity.
  - apply room_is_true. vm_compute. reflexivity.
  - vm_compute. reflexivity.
  - by apply Forall_replicate.
  - reflexivity.
  - by split.
  - reflexivity.
  - by split.
  - by split; vm_compute.
  - by split; vm_compute.
  - reflexivity.
  - reflexivity.
  - reflexivity.
Qed.
Ltac session_step s a t c :=
  eapply (pool_next 1000 4 2 8 s a t c);
  [|split; [by vm_compute|apply stat_is_true; by vm_compute]| |vm_compute; reflexivity].
Lemma pool_demo : pool_session 1000 4 2 8 s5 a5.
Proof.
  session_step s4 a4 1 (Free 20); [|by eexists].
  session_step s3 a3 2 (Alloc true); [|by vm_compute].
  session_step s2 a2 2 (Store 8 3 65); [|split; [by eexists|by split]].
  session_step s1 a1 2 (Alloc false); [|by vm_compute].
  session_step s0 a0 2 (Alloc false); [|by vm_compute].
  eapply pool_begin; [exact area_ok|vm_compute; reflexivity].
Qed.

(** The woken thread goes on and gets the block; the other block kept its byte. *)
Lemma pool_refines_blocks_witness :
  slice (p_mem s5) 8 8 = [0; 0; 0; 65; 0; 0; 0; 0] /\ exists s', run_pool 1000 8 2 Continue s5 = Ok (RGot 20, s').
Proof.
  destruct (pool_refines_blocks 1000 4 2 8 s5 a5 pool_demo) as (H1 & _ & _ & _ & _ & _ & H7). split.
  - destruct (H1 8 [0; 0; 0; 65; 0; 0; 0; 0] eq_refl) as (_ & _ & _ & E). exact E.
  - destruct (H7 2 Continue) as (s' & E & _).
    + split; [by vm_compute|apply stat_is_true; by vm_compute].
    + apply (bool_decide_unpack (2 ∈ a_woken a5)). vm_compute. exact I.
    + exists s'. exact E.
Defined.

(** A wait of two ticks that times out: the thread leaves the list but stays in
    the count, and the next block given back faults. *)
Definition late : pstate := state_of (rt_mp_alloc 1000 2 s3) s3.
Definition timed : pstate := match tick_interrupts no_cb 10 2 (p_kern late) with Ok k => put_kern k late | Fault _ => late end.
Lemma timeout_then_free_faults : wlist (suspend_thread 1000) (p_kern timed) = []
  /\ (suspend_thread_count <$> p_pools timed !! 1000) = Some 1
  /\ alloc_rest 2 1000 2 0 timed = Ok (Got 0, timed) /\ rt_mp_free 8 timed = Fault OutOfBounds.
Proof. vm_compute. done. Qed.
End PoolDemo.
