(* ===== verification/Spi.v ===== *)
(** * The SPI bus (Task/drivers/drv_spi.c, components/spi/spi_core.c)

    Several chips share one bus: each device of the bus has a configuration and
    a chip-select pin, and a call on a device sets the peripheral up for it when
    another device used the bus last.  The peripheral, the pins, the HAL's
    initialisation and the mutex of the bus are operations of a class.  Memory
    is a list of bytes and a pointer an offset into it; [RT_NULL] is [None].
    DMA is not configured ([SPI_USE_DMA]).  A session of calls is proved to give
    each chip exactly the frames sent to it. *)
From stdpp Require Import gmap.
From S2P Require Import Prelude CC1101 KernelService.

(** ** Constants *)

Definition RT_EOK : Z := 0.
Definition RT_ERROR : Z := 1.
Definition RT_EBUSY : Z := 7.
Definition RT_EIO : Z := 8.

Definition RT_SPI_CPHA : Z := 1.
Definition RT_SPI_CPOL : Z := 2.
Definition RT_SPI_MSB : Z := 4.
Definition RT_SPI_MODE_MASK : Z := Z.lor (Z.lor RT_SPI_CPHA RT_SPI_CPOL) RT_SPI_MSB.

Definition SPI_DATASIZE_8BIT : Z := 0.
Definition SPI_DATASIZE_16BIT : Z := 0x800.
Definition SPI_BAUDRATEPRESCALER_2 : Z := 0x00.
Definition SPI_BAUDRATEPRESCALER_4 : Z := 0x08.
Definition SPI_BAUDRATEPRESCALER_8 : Z := 0x10.
Definition SPI_BAUDRATEPRESCALER_16 : Z := 0x18.
Definition SPI_BAUDRATEPRESCALER_32 : Z := 0x20.
Definition SPI_BAUDRATEPRESCALER_64 : Z := 0x28.
Definition SPI_BAUDRATEPRESCALER_128 : Z := 0x30.
Definition SPI_BAUDRATEPRESCALER_256 : Z := 0x38.
Definition SPI_POLARITY_LOW : Z := 0.
Definition SPI_POLARITY_HIGH : Z := 2.
Definition SPI_PHASE_1EDGE : Z := 0.
Definition SPI_PHASE_2EDGE : Z := 1.
Definition SPI_FIRSTBIT_MSB : Z := 0.
Definition SPI_FIRSTBIT_LSB : Z := 0x80.
Definition SPI_DIRECTION_2LINES : Z := 0.
Definition SPI_MODE_MASTER : Z := 0x104.
Definition SPI_NSS_SOFT : Z := 0x200.
Definition SPI_CRCCALCULATION_DISABLE : Z := 0.
Definition SPI_TIMODE_DISABLE : Z := 0.
Definition SPI_FLAG_RXNE : Z := 1.
Definition SPI_FLAG_TXE : Z := 2.

(** ** Data *)

(** [reserved] is never used. *)
Record rt_spi_configuration := mkCfg { mode : Z; data_width : Z; max_hz : Z }.

(** The members of [SPI_InitTypeDef] that the driver sets. *)
Record SPI_InitTypeDef := mkInit {
  Mode : Z; Direction : Z; DataSize : Z; CLKPolarity : Z; CLKPhase : Z; NSS : Z;
  BaudRatePrescaler : Z; FirstBit : Z; TIMode : Z; CRCCalculation : Z }.

(** A chain of messages linked by [next] is a list. *)
Record rt_spi_message := mkMsg {
  send_buf : option Z; recv_buf : option Z; msg_length : Z; cs_take : bool; cs_release : bool }.

(** [dev_cs] is the chip-select pin behind [parent.user_data]. *)
Record rt_spi_device := mkDev { has_bus : bool; dev_config : rt_spi_configuration; dev_cs : option Z }.

(** One bus with its devices: the bus's [owner], the peripheral's handle, the
    memory of the buffers, the calling thread's [errno] and the hardware. *)
Record spi_st (W : Type) := mkSpi {
  devices : list rt_spi_device; owner : option nat; Init : SPI_InitTypeDef;
  mem : list Z; errno : Z; hw : W }.
Arguments mkSpi {W} _ _ _ _ _ _.
Arguments devices {W} _.
Arguments owner {W} _.
Arguments Init {W} _.
Arguments mem {W} _.
Arguments errno {W} _.
Arguments hw {W} _.

Definition set_devices {W} l (s : spi_st W) : spi_st W := mkSpi l (owner s) (Init s) (mem s) (errno s) (hw s).
Definition set_owner {W} o (s : spi_st W) : spi_st W := mkSpi (devices s) o (Init s) (mem s) (errno s) (hw s).
Definition set_Init {W} i (s : spi_st W) : spi_st W := mkSpi (devices s) (owner s) i (mem s) (errno s) (hw s).
Definition set_mem {W} m (s : spi_st W) : spi_st W := mkSpi (devices s) (owner s) (Init s) m (errno s) (hw s).
Definition set_errno {W} e (s : spi_st W) : spi_st W := mkSpi (devices s) (owner s) (Init s) (mem s) e (hw s).
Definition set_hw {W} (w : W) (s : spi_st W) : spi_st W := mkSpi (devices s) (owner s) (Init s) (mem s) (errno s) w.

(** What the code does to the peripheral, the pins and the bus's mutex. *)
Class SpiHw (W : Type) := {
  read_SR : W -> Z * W;
  write_DR : Z -> W -> W;
  read_DR : W -> Z * W;
  HAL_GPIO_WritePin : Z -> bool -> W -> W;
  HAL_SPI_Init : SPI_InitTypeDef -> W -> bool * W;
  HAL_SPI_ENABLE : W -> W;
  rt_mutex_take : W -> Z * W;
  rt_mutex_release : W -> W }.

(** ** The STM32 driver *)

(** The clock divider for a device that stands [max_hz], from the clock of the
    peripheral bus; [uint32_t] division. *)
Definition prescaler (clock hz : Z) : Z :=
  if clock / 2 <=? hz then SPI_BAUDRATEPRESCALER_2
  else if clock / 4 <=? hz then SPI_BAUDRATEPRESCALER_4
  else if clock / 8 <=? hz then SPI_BAUDRATEPRESCALER_8
  else if clock / 16 <=? hz then SPI_BAUDRATEPRESCALER_16
  else if clock / 32 <=? hz then SPI_BAUDRATEPRESCALER_32
  else if clock / 64 <=? hz then SPI_BAUDRATEPRESCALER_64
  else if clock / 128 <=? hz then SPI_BAUDRATEPRESCALER_128
  else SPI_BAUDRATEPRESCALER_256.

(** The handle's settings for a configuration whose width is supported. *)
Definition settings (clock : Z) (c : rt_spi_configuration) : SPI_InitTypeDef :=
  {| DataSize := if data_width c <=? 8 then SPI_DATASIZE_8BIT else SPI_DATASIZE_16BIT;
     BaudRatePrescaler := prescaler clock (max_hz c);
     CLKPolarity := if negb (Z.land (mode c) RT_SPI_CPOL =? 0) then SPI_POLARITY_HIGH else SPI_POLARITY_LOW;
     CLKPhase := if negb (Z.land (mode c) RT_SPI_CPHA =? 0) then SPI_PHASE_2EDGE else SPI_PHASE_1EDGE;
     FirstBit := if negb (Z.land (mode c) RT_SPI_MSB =? 0) then SPI_FIRSTBIT_MSB else SPI_FIRSTBIT_LSB;
     Direction := SPI_DIRECTION_2LINES; Mode := SPI_MODE_MASTER; NSS := SPI_NSS_SOFT;
     CRCCalculation := SPI_CRCCALCULATION_DISABLE; TIMode := SPI_TIMODE_DISABLE |}.

Section Driver.
Context {W : Type} `{SpiHw W}.
(** [HAL_RCC_GetPCLK2Freq], and the polls a busy-wait is given. *)
Variable clock : Z.
Variable polls : nat.

Definition st_get {A} (f : spi_st W -> A) : drv (spi_st W) A := fun s => Ok (f s, s).
Definition on_hw (f : W -> W) : drv (spi_st W) unit := drv_do (fun s => set_hw (f (hw s)) s).
Definition ask_hw {A} (f : W -> A * W) : drv (spi_st W) A :=
  fun s => let '(a, w) := f (hw s) in Ok (a, set_hw w s).
Definition the_device (d : nat) : drv (spi_st W) rt_spi_device :=
  fun s => match devices s !! d with Some v => Ok (v, s) | None => Fault NullDeref end.

(** A width above 16 is refused with a positive [RT_EIO]. *)
Definition configure (configuration : rt_spi_configuration) : drv (spi_st W) Z :=
  if 16 <? data_width configuration then mret RT_EIO else
  _ ← drv_do (set_Init (settings clock configuration));
  i ← st_get Init;
  ok ← ask_hw (HAL_SPI_Init i);
  if negb ok then mret RT_ERROR else
  _ ← on_hw HAL_SPI_ENABLE; mret RT_EOK.

(** [while ((SPI->SR & flag) == RESET);] *)
Fixpoint wait_flag (fuel : nat) (flag : Z) : drv (spi_st W) unit :=
  match fuel with
  | O => drv_lift (Fault Hang)
  | S f => sr ← ask_hw read_SR; if Z.land sr flag =? 0 then wait_flag f flag else mret tt
  end.

(** Elements of the buffers: bytes, or 16-bit halves when [wide]. *)
Definition step_of (wide : bool) : Z := if wide then 2 else 1.
Definition load (wide : bool) (p : Z) : drv (spi_st W) Z :=
  fun s => v ← (if wide then ld16 (mem s) p else get (mem s) p); Ok (v, s).
Definition store (wide : bool) (p v : Z) : drv (spi_st W) unit :=
  fun s => m ← (if wide then st16 (mem s) p v else set (mem s) p v); Ok (tt, set_mem m s).

(** The two [while (size--)] loops. *)
Fixpoint xfer_loop (wide : bool) (size : nat) (send_ptr recv_ptr : option Z) : drv (spi_st W) unit :=
  match size with
  | O => mret tt
  | S size' =>
      data ← match send_ptr with Some p => load wide p | None => mret 0xFF end;
      _ ← wait_flag polls SPI_FLAG_TXE;
      _ ← on_hw (write_DR data);
      _ ← wait_flag polls SPI_FLAG_RXNE;
      data ← ask_hw read_DR;
      let data := if wide then u16 data else u8 data in
      _ ← match recv_ptr with Some p => store wide p data | None => mret tt end;
      xfer_loop wide size' ((fun p => p + step_of wide) <$> send_ptr) ((fun p => p + step_of wide) <$> recv_ptr)
  end.

Definition xfer (d : nat) (message : rt_spi_message) : drv (spi_st W) Z :=
  dev ← the_device d;
  let set_cs b := match dev_cs dev with Some pin => on_hw (HAL_GPIO_WritePin pin b) | None => mret tt end in
  _ ← (if cs_take message then set_cs false else mret tt);
  _ ← (if data_width (dev_config dev) <=? 8 then
         xfer_loop false (Z.to_nat (msg_length message)) (send_buf message) (recv_buf message)
       else if data_width (dev_config dev) <=? 16 then
         xfer_loop true (Z.to_nat (msg_length message)) (send_buf message) (recv_buf message)
       else mret tt);
  _ ← (if cs_release message then set_cs true else mret tt);
  mret (msg_length message).

(** ** The bus (spi_core.c) *)

Definition assert (b : bool) : drv (spi_st W) unit := if b then mret tt else drv_lift (Fault AssertFail).
Definition rt_set_errno (e : Z) : drv (spi_st W) unit := drv_do (set_errno e).
Definition take_lock : drv (spi_st W) Z := ask_hw rt_mutex_take.
Definition release_lock : drv (spi_st W) unit := on_hw rt_mutex_release.

Definition rt_spi_configure (d : nat) (cfg : rt_spi_configuration) : drv (spi_st W) Z :=
  dev ← the_device d;
  let config := mkCfg (Z.land (mode cfg) RT_SPI_MODE_MASK) (data_width cfg) (max_hz cfg) in
  _ ← drv_do (fun s => set_devices (<[d := mkDev (has_bus dev) config (dev_cs dev)]> (devices s)) s);
  _ ← (if has_bus dev then
         result ← take_lock;
         if result =? RT_EOK then
           o ← st_get owner;
           _ ← (if bool_decide (o = Some d) then configure config else mret RT_EOK);
           release_lock
         else mret tt
       else mret tt);
  mret RT_EOK.

(** "not the same owner as current, re-configure SPI bus": the block that opens
    every call below. *)
Definition own_bus (d : nat) : drv (spi_st W) Z :=
  o ← st_get owner;
  if bool_decide (o = Some d) then mret RT_EOK else
  dev ← the_device d;
  result ← configure (dev_config dev);
  if result =? RT_EOK then _ ← drv_do (set_owner (Some d)); mret RT_EOK else mret result.

(** What [rt_spi_send_then_send] and [rt_spi_send_then_recv] share: two
    messages, the chip selected by the first and released by the second. *)
Definition send_then (d : nat) (first second : rt_spi_message) : drv (spi_st W) Z :=
  dev ← the_device d;
  _ ← assert (has_bus dev);
  result ← take_lock;
  if result =? RT_EOK then
    result ← (result ← own_bus d;
              if negb (result =? RT_EOK) then mret (- RT_EIO) else
              result ← xfer d first;
              if result =? 0 then mret (- RT_EIO) else
              result ← xfer d second;
              if result =? 0 then mret (- RT_EIO) else mret RT_EOK);
    _ ← release_lock; mret result
  else mret (- RT_EIO).

Definition rt_spi_send_then_send (d : nat) (send_buf1 : option Z) (send_length1 : Z)
    (send_buf2 : option Z) (send_length2 : Z) : drv (spi_st W) Z :=
  send_then d (mkMsg send_buf1 None send_length1 true false) (mkMsg send_buf2 None send_length2 false true).

Definition rt_spi_send_then_recv (d : nat) (send_buf : option Z) (send_length : Z)
    (recv_buf : option Z) (recv_length : Z) : drv (spi_st W) Z :=
  send_then d (mkMsg send_buf None send_length true false) (mkMsg None recv_buf recv_length false true).

Definition rt_spi_transfer (d : nat) (send_buf recv_buf : option Z) (len : Z) : drv (spi_st W) Z :=
  dev ← the_device d;
  _ ← assert (has_bus dev);
  result ← take_lock;
  if result =? RT_EOK then
    result ← (result ← own_bus d;
              if negb (result =? RT_EOK) then _ ← rt_set_errno (- RT_EIO); mret 0 else
              result ← xfer d (mkMsg send_buf recv_buf len true true);
              if result =? 0 then _ ← rt_set_errno (- RT_EIO); mret result else mret result);
    _ ← release_lock; mret result
  else _ ← rt_set_errno (- RT_EIO); mret 0.

(** The messages not transmitted, which is what [index] points to. *)
Fixpoint transmit (d : nat) (index : list rt_spi_message) : drv (spi_st W) (list rt_spi_message) :=
  match index with
  | [] => mret []
  | m :: rest =>
      result ← xfer d m;
      if result =? 0 then _ ← rt_set_errno (- RT_EIO); mret index else transmit d rest
  end.

(** [device->bus] is read without an assertion. *)
Definition rt_spi_transfer_message (d : nat) (message : list rt_spi_message) : drv (spi_st W) (list rt_spi_message) :=
  dev ← the_device d;
  match message with
  | [] => mret []
  | _ =>
      _ ← (if has_bus dev then mret tt else drv_lift (Fault NullDeref));
      result ← take_lock;
      if negb (result =? RT_EOK) then _ ← rt_set_errno (- RT_EBUSY); mret message else
      _ ← rt_set_errno RT_EOK;
      result ← own_bus d;
      index ← (if result =? RT_EOK then transmit d message
               else _ ← rt_set_errno (- RT_EIO); mret message);
      _ ← release_lock; mret index
  end.

Definition rt_spi_take_bus (d : nat) : drv (spi_st W) Z :=
  dev ← the_device d;
  _ ← assert (has_bus dev);
  result ← take_lock;
  if negb (result =? RT_EOK) then _ ← rt_set_errno (- RT_EBUSY); mret (- RT_EBUSY) else
  _ ← rt_set_errno RT_EOK;
  result ← own_bus d;
  if result =? RT_EOK then mret RT_EOK else
  _ ← rt_set_errno (- RT_EIO); _ ← release_lock; mret (- RT_EIO).

Definition rt_spi_release_bus (d : nat) : drv (spi_st W) Z :=
  dev ← the_device d;
  _ ← assert (has_bus dev);
  o ← st_get owner;
  _ ← assert (bool_decide (o = Some d));
  _ ← release_lock; mret RT_EOK.

Definition rt_spi_take (d : nat) : drv (spi_st W) Z :=
  dev ← the_device d; _ ← assert (has_bus dev); xfer d (mkMsg None None 0 true false).
Definition rt_spi_release (d : nat) : drv (spi_st W) Z :=
  dev ← the_device d; _ ← assert (has_bus dev); xfer d (mkMsg None None 0 false true).

(** ** The device interface (spi_dev.c); the position is not used *)

(** A bus passes a request to the device that used it last. *)
Definition bus_owner_device : drv (spi_st W) nat :=
  o ← st_get owner; match o with Some d => mret d | None => drv_lift (Fault AssertFail) end.
Definition _spi_bus_device_read (buffer : option Z) (size : Z) : drv (spi_st W) Z :=
  d ← bus_owner_device; rt_spi_transfer d None buffer size.
Definition _spi_bus_device_write (buffer : option Z) (size : Z) : drv (spi_st W) Z :=
  d ← bus_owner_device; rt_spi_transfer d buffer None size.
Definition _spi_bus_device_control (cmd : Z) : drv (spi_st W) Z := mret RT_EOK.

Definition _spidev_device_read (d : nat) (buffer : option Z) (size : Z) : drv (spi_st W) Z :=
  dev ← the_device d; _ ← assert (has_bus dev); rt_spi_transfer d None buffer size.
Definition _spidev_device_write (d : nat) (buffer : option Z) (size : Z) : drv (spi_st W) Z :=
  dev ← the_device d; _ ← assert (has_bus dev); rt_spi_transfer d buffer None size.
Definition _spidev_device_control (cmd : Z) : drv (spi_st W) Z := mret RT_EOK.
End Driver.

(** ** Chips on the bus

    What the hardware does, as far as the code relies on it.  A chip reacts to
    its select pin and to each element clocked through it under the
    peripheral's settings, and answers each element with one. *)
Class Chip (C : Type) := {
  on_select : C -> C;
  on_element : SPI_InitTypeDef -> Z -> C -> C * Z;
  on_release : C -> C }.

(** The part of a hardware state that matters: the chips by select pin, the
    pins that are low, the peripheral's settings, whether it is enabled, the
    element in its receive register and how often the bus is locked. *)
Record hwview (C : Type) := mkView {
  v_chips : gmap Z C; v_sel : gset Z; v_init : SPI_InitTypeDef; v_on : bool;
  v_rx : option Z; v_locks : nat }.
Arguments mkView {C} _ _ _ _ _ _.
Arguments v_chips {C} _.
Arguments v_sel {C} _.
Arguments v_init {C} _.
Arguments v_on {C} _.
Arguments v_rx {C} _.
Arguments v_locks {C} _.

(** The flag shows within [n] reads of the status register, which change nothing. *)
Fixpoint flag_within {W V} `{SpiHw W} (view : W -> V) (n : nat) (flag : Z) (w : W) : Prop :=
  match n with
  | O => False
  | S n' => let '(sr, w') := read_SR w in
            view w' = view w /\ (Z.land sr flag <> 0 \/ flag_within view n' flag w')
  end.

Class SpiBoard (W C : Type) `{SpiHw W} `{Chip C} (polls : nat) := {
  view : W -> hwview C;
  law_low : forall w p c, v_chips (view w) !! p = Some c -> p ∉ v_sel (view w) ->
    view (HAL_GPIO_WritePin p false w)
    = mkView (<[p := on_select c]> (v_chips (view w))) ({[p]} ∪ v_sel (view w)) (v_init (view w)) (v_on (view w))
        (v_rx (view w)) (v_locks (view w));
  law_high : forall w p c, v_chips (view w) !! p = Some c -> p ∈ v_sel (view w) ->
    view (HAL_GPIO_WritePin p true w)
    = mkView (<[p := on_release c]> (v_chips (view w))) (v_sel (view w) ∖ {[p]}) (v_init (view w)) (v_on (view w))
        (v_rx (view w)) (v_locks (view w));
  law_init : forall i w, v_sel (view w) = ∅ -> exists w', HAL_SPI_Init i w = (true, w')
    /\ view w' = mkView (v_chips (view w)) ∅ i false (v_rx (view w)) (v_locks (view w));
  law_enable : forall w, view (HAL_SPI_ENABLE w)
    = mkView (v_chips (view w)) (v_sel (view w)) (v_init (view w)) true (v_rx (view w)) (v_locks (view w));
  law_txe : forall w, v_on (view w) = true -> v_rx (view w) = None -> flag_within view polls SPI_FLAG_TXE w;
  law_exchange : forall w p c x, v_on (view w) = true -> v_rx (view w) = None -> v_sel (view w) = {[p]} ->
    v_chips (view w) !! p = Some c ->
    view (write_DR x w)
    = mkView (<[p := (on_element (v_init (view w)) x c).1]> (v_chips (view w))) (v_sel (view w)) (v_init (view w)) true
        (Some (on_element (v_init (view w)) x c).2) (v_locks (view w));
  law_rxne : forall w r, v_on (view w) = true -> v_rx (view w) = Some r -> flag_within view polls SPI_FLAG_RXNE w;
  law_read : forall w r, v_rx (view w) = Some r -> exists w', read_DR w = (r, w')
    /\ view w' = mkView (v_chips (view w)) (v_sel (view w)) (v_init (view w)) (v_on (view w)) None (v_locks (view w));
  law_take : forall w, exists w', rt_mutex_take w = (RT_EOK, w')
    /\ view w' = mkView (v_chips (view w)) (v_sel (view w)) (v_init (view w)) (v_on (view w)) (v_rx (view w))
        (S (v_locks (view w)));
  law_unlock : forall w n, v_locks (view w) = S n -> view (rt_mutex_release w)
    = mkView (v_chips (view w)) (v_sel (view w)) (v_init (view w)) (v_on (view w)) (v_rx (view w)) n }.

(** ** The specification: frames of elements to one chip *)

Section Spec.
Context {C : Type} `{Chip C}.
Variable clock : Z.

Fixpoint exchange (i : SPI_InitTypeDef) (out : list Z) (c : C) : C * list Z :=
  match out with
  | [] => (c, [])
  | x :: out' => let '(c, r) := on_element i x c in
                 let '(c, rs) := exchange i out' c in (c, r :: rs)
  end.

Definition is_wide (cfg : rt_spi_configuration) : bool := negb (data_width cfg <=? 8).

(** [n] elements at [p], and elements as bytes. *)
Fixpoint units_at (wide : bool) (m : list Z) (p : Z) (n : nat) : list Z :=
  match n with
  | O => []
  | S n' => (if wide then half m p else rd m p) :: units_at wide m (p + step_of wide) n'
  end.
Definition element_bytes (wide : bool) (v : Z) : list Z := if wide then [byte 0 v; byte 1 v] else [byte 0 v].

(** What a message sends, and memory with the answers it stores. *)
Definition outgoing (wide : bool) (m : list Z) (send : option Z) (n : nat) : list Z :=
  match send with Some p => units_at wide m p n | None => replicate n 0xFF end.
Definition stored (wide : bool) (m : list Z) (recv : option Z) (rs : list Z) : list Z :=
  match recv with Some p => splice m p (concat (map (element_bytes wide) rs)) | None => m end.

(** A message: all elements are read, then exchanged, then all answers stored. *)
Definition spec_message (cfg : rt_spi_configuration) (m : rt_spi_message) (cm : C * list Z) : C * list Z :=
  let '(c, mem) := cm in
  let out := outgoing (is_wide cfg) mem (send_buf m) (Z.to_nat (msg_length m)) in
  let '(c, rs) := exchange (settings clock cfg) out c in
  (c, stored (is_wide cfg) mem (recv_buf m) rs).
Definition spec_messages (cfg : rt_spi_configuration) (ms : list rt_spi_message) (cm : C * list Z) : C * list Z :=
  foldl (fun cm m => spec_message cfg m cm) cm ms.
(** The messages of one frame, between selection and release of the chip. *)
Definition spec_frame (cfg : rt_spi_configuration) (ms : list rt_spi_message) (c : C) (mem : list Z) : C * list Z :=
  let '(c, mem) := spec_messages cfg ms (on_select c, mem) in (on_release c, mem).
End Spec.

(** The buffers of a message lie in memory, and the answers do not overwrite
    elements that are still to be sent; in particular both may be the same. *)
Definition buffers_ok (wide : bool) (n : Z) (m : list Z) (send recv : option Z) : Prop :=
  (forall a, send = Some a -> room m a (step_of wide * n))
  /\ (forall b, recv = Some b -> room m b (step_of wide * n))
  /\ (forall a b, send = Some a -> recv = Some b -> ahead b a (step_of wide * n)).
Definition message_ok (cfg : rt_spi_configuration) (mem : list Z) (m : rt_spi_message) : Prop :=
  0 <= msg_length m /\ buffers_ok (is_wide cfg) (msg_length m) mem (send_buf m) (recv_buf m).
Definition supported (cfg : rt_spi_configuration) : Prop := data_width cfg <= 16.

(** The first message selects the chip, the last releases it, and only the last may be empty. *)
Fixpoint framed (first : bool) (ms : list rt_spi_message) : Prop :=
  match ms with
  | [] => False
  | [m] => cs_take m = first /\ cs_release m = true
  | m :: ms' => cs_take m = first /\ cs_release m = false /\ 0 < msg_length m /\ framed false ms'
  end.
(** An empty last message counts as not sent. *)
Definition unsent (ms : list rt_spi_message) : list rt_spi_message :=
  match list.last ms with Some m => if msg_length m =? 0 then [m] else [] | None => [] end.

(** ** Sessions *)

(** Calls on the devices of a bus. *)
Inductive spi_call :=
| Configure (d : nat) (cfg : rt_spi_configuration)
| Transfer (d : nat) (send recv : option Z) (len : Z)
| SendSend (d : nat) (b1 : option Z) (n1 : Z) (b2 : option Z) (n2 : Z)
| SendRecv (d : nat) (b1 : option Z) (n1 : Z) (b2 : option Z) (n2 : Z)
| Messages (d : nat) (ms : list rt_spi_message)
| TakeBus (d : nat)
| ReleaseBus (d : nat)
| BusRead (buffer : option Z) (size : Z)
| BusWrite (buffer : option Z) (size : Z)
| DevRead (d : nat) (buffer : option Z) (size : Z)
| DevWrite (d : nat) (buffer : option Z) (size : Z).

Definition run_call {W} `{SpiHw W} (clock : Z) (polls : nat) (c : spi_call) : drv (spi_st W) Z :=
  match c with
  | Configure d cfg => rt_spi_configure clock d cfg
  | Transfer d send recv len => rt_spi_transfer clock polls d send recv len
  | SendSend d b1 n1 b2 n2 => rt_spi_send_then_send clock polls d b1 n1 b2 n2
  | SendRecv d b1 n1 b2 n2 => rt_spi_send_then_recv clock polls d b1 n1 b2 n2
  | Messages d ms => rest ← rt_spi_transfer_message clock polls d ms; mret (Z.of_nat (length rest))
  | TakeBus d => rt_spi_take_bus clock d
  | ReleaseBus d => rt_spi_release_bus d
  | BusRead buffer size => _spi_bus_device_read clock polls buffer size
  | BusWrite buffer size => _spi_bus_device_write clock polls buffer size
  | DevRead d buffer size => _spidev_device_read clock polls d buffer size
  | DevWrite d buffer size => _spidev_device_write clock polls d buffer size
  end.
Fixpoint run_calls {W} `{SpiHw W} (clock : Z) (polls : nat) (cs : list spi_call) : drv (spi_st W) (list Z) :=
  match cs with
  | [] => mret []
  | c :: cs' => r ← run_call clock polls c; rs ← run_calls clock polls cs'; mret (r :: rs)
  end.

(** The bus as its users see it. *)
Record bus_spec (C : Type) := mkBus {
  s_devices : list rt_spi_device; s_owner : option nat; s_errno : Z; s_locks : nat;
  s_chips : gmap Z C; s_mem : list Z }.
Arguments mkBus {C} _ _ _ _ _ _.
Arguments s_devices {C} _.
Arguments s_owner {C} _.
Arguments s_errno {C} _.
Arguments s_locks {C} _.
Arguments s_chips {C} _.
Arguments s_mem {C} _.

Section SpecCalls.
Context {C : Type} `{Chip C}.
Variable clock : Z.

(** The frame goes to the chip of device [d], under the configuration of [d]. *)
Definition spec_send (d : nat) (ms : list rt_spi_message) (e : Z) (b : bus_spec C) : bus_spec C :=
  match s_devices b !! d with
  | Some dev =>
      match dev_cs dev with
      | Some p =>
          match s_chips b !! p with
          | Some c => let '(c, mem) := spec_frame clock (dev_config dev) ms c (s_mem b) in
                      mkBus (s_devices b) (Some d) e (s_locks b) (<[p := c]> (s_chips b)) mem
          | None => b
          end
      | None => b
      end
  | None => b
  end.

Definition first_of (b1 : option Z) (n1 : Z) : rt_spi_message := mkMsg b1 None n1 true false.
Definition spec_transfer (d : nat) (send recv : option Z) (len : Z) (b : bus_spec C) : Z * bus_spec C :=
  (len, spec_send d [mkMsg send recv len true true] (if len =? 0 then - RT_EIO else s_errno b) b).
(** A request to the bus itself goes to its owner. *)
Definition spec_owner (send recv : option Z) (len : Z) (b : bus_spec C) : Z * bus_spec C :=
  match s_owner b with Some d => spec_transfer d send recv len b | None => (0, b) end.
Definition spec_call (c : spi_call) (b : bus_spec C) : Z * bus_spec C :=
  match c with
  | Configure d cfg =>
      (RT_EOK, mkBus (alter (fun dev => mkDev (has_bus dev)
                 (mkCfg (Z.land (mode cfg) RT_SPI_MODE_MASK) (data_width cfg) (max_hz cfg)) (dev_cs dev)) d (s_devices b))
                 (s_owner b) (s_errno b) (s_locks b) (s_chips b) (s_mem b))
  | Transfer d send recv len => spec_transfer d send recv len b
  | SendSend d b1 n1 b2 n2 =>
      (if n2 =? 0 then - RT_EIO else RT_EOK, spec_send d [first_of b1 n1; mkMsg b2 None n2 false true] (s_errno b) b)
  | SendRecv d b1 n1 b2 n2 =>
      (if n2 =? 0 then - RT_EIO else RT_EOK, spec_send d [first_of b1 n1; mkMsg None b2 n2 false true] (s_errno b) b)
  | Messages d ms =>
      (Z.of_nat (length (unsent ms)), spec_send d ms (if unsent ms then RT_EOK else - RT_EIO) b)
  | TakeBus d => (RT_EOK, mkBus (s_devices b) (Some d) RT_EOK (S (s_locks b)) (s_chips b) (s_mem b))
  | ReleaseBus d => (RT_EOK, mkBus (s_devices b) (s_owner b) (s_errno b) (pred (s_locks b)) (s_chips b) (s_mem b))
  | BusRead buffer size => spec_owner None buffer size b
  | BusWrite buffer size => spec_owner buffer None size b
  | DevRead d buffer size => spec_transfer d None buffer size b
  | DevWrite d buffer size => spec_transfer d buffer None size b
  end.
Fixpoint spec_calls (cs : list spi_call) (b : bus_spec C) : list Z * bus_spec C :=
  match cs with
  | [] => ([], b)
  | c :: cs' => let '(r, b) := spec_call c b in let '(rs, b) := spec_calls cs' b in (r :: rs, b)
  end.

(** Calls within the contract: a known device, widths up to 16, buffers in
    memory, a first part that is not empty, and a release by the last user. *)
Definition frame_ok (d : nat) (ms : list rt_spi_message) (b : bus_spec C) : Prop :=
  framed true ms
  /\ exists dev, s_devices b !! d = Some dev /\ supported (dev_config dev)
     /\ Forall (message_ok (dev_config dev) (s_mem b)) ms.
Definition transfer_fits (d : nat) (send recv : option Z) (len : Z) (b : bus_spec C) : Prop :=
  frame_ok d [mkMsg send recv len true true] b.
Definition call_ok (c : spi_call) (b : bus_spec C) : Prop :=
  match c with
  | Configure d cfg => is_Some (s_devices b !! d) /\ supported cfg
  | Transfer d send recv len => frame_ok d [mkMsg send recv len true true] b
  | SendSend d b1 n1 b2 n2 => frame_ok d [first_of b1 n1; mkMsg b2 None n2 false true] b
  | SendRecv d b1 n1 b2 n2 => frame_ok d [first_of b1 n1; mkMsg None b2 n2 false true] b
  | Messages d ms => frame_ok d ms b
  | TakeBus d => exists dev, s_devices b !! d = Some dev /\ supported (dev_config dev)
  | ReleaseBus d => s_owner b = Some d /\ (0 < s_locks b)%nat
  | BusRead buffer size => exists d, s_owner b = Some d /\ transfer_fits d None buffer size b
  | BusWrite buffer size => exists d, s_owner b = Some d /\ transfer_fits d buffer None size b
  | DevRead d buffer size => transfer_fits d None buffer size b
  | DevWrite d buffer size => transfer_fits d buffer None size b
  end.
Fixpoint calls_ok (cs : list spi_call) (b : bus_spec C) : Prop :=
  match cs with [] => True | c :: cs' => call_ok c b /\ calls_ok cs' (spec_call c b).2 end.
End SpecCalls.

(** ** Memory lemmas *)

Lemma units_at_splice wide m q l p n : room m q (Z.of_nat (length l)) -> 0 <= p ->
  q + Z.of_nat (length l) <= p \/ p + step_of wide * Z.of_nat n <= q ->
  units_at wide (splice m q l) p n = units_at wide m p n.
Proof.
  intros Hr. revert p. induction n as [|n IH]; intros p Hp Hd; [done|]. cbn [units_at]. f_equal.
  - unfold half, step_of in *. destruct wide; rewrite !rd_splice_at by (done || lia); by rewrite !decide_False by lia.
  - apply IH; unfold step_of in *; destruct wide; lia.
Qed.

Lemma length_element_bytes wide v : Z.of_nat (length (element_bytes wide v)) = step_of wide.
Proof. by destruct wide. Qed.
Lemma length_units_at wide m p n : length (units_at wide m p n) = n.
Proof. revert p. induction n as [|n IH]; intros p; cbn; [done|]. by rewrite IH. Qed.
Lemma length_concat_bytes wide rs :
  Z.of_nat (length (concat (map (element_bytes wide) rs))) = step_of wide * Z.of_nat (length rs).
Proof.
  induction rs as [|r rs IH]; cbn [map concat length]; [lia|]. rewrite length_app.
  pose proof (length_element_bytes wide r). lia.
Qed.

(** ** The driver on such hardware *)

Lemma drv_bind_ok {W A B} (m : drv W A) (f : A -> drv W B) s a s' : m s = Ok (a, s') -> (m ≫= f) s = f a s'.
Proof. intros E. unfold mbind, drv_bind. by rewrite E. Qed.
Ltac go := erewrite drv_bind_ok by (reflexivity || eassumption || (cbn; by eauto)).

Section Board.
Context {W C : Type} `{SpiHw W} `{Chip C}.
Variable clock : Z.
Variable polls : nat.
Context `{!SpiBoard W C polls}.

Lemma wait_flag_ok n flag (s : spi_st W) : flag_within view n flag (hw s) ->
  exists w', wait_flag n flag s = Ok (tt, set_hw w' s) /\ view w' = view (hw s).
Proof.
  revert s. induction n as [|n IH]; intros s; [done|]. cbn [flag_within wait_flag].
  unfold mbind, drv_bind, ask_hw. destruct (read_SR (hw s)) as [sr w1] eqn:E. intros [Hv Hf].
  destruct (Z.eqb_spec (Z.land sr flag) 0) as [E0|E0].
  - destruct Hf as [?|Hf]; [done|]. destruct (IH (set_hw w1 s) Hf) as (w' & Ew & Hw).
    exists w'. split; [exact Ew|]. cbn in Hw. congruence.
  - by exists w1.
Qed.

(** The bus is held for the chip [c] at pin [p]. *)
Definition talking (p : Z) (c : C) (w : W) : Prop :=
  v_chips (view w) !! p = Some c /\ v_sel (view w) = {[p]} /\ v_on (view w) = true /\ v_rx (view w) = None.
Definition with_chip (p : Z) (c : C) (v : hwview C) : hwview C :=
  mkView (<[p := c]> (v_chips v)) (v_sel v) (v_init v) (v_on v) (v_rx v) (v_locks v).

Lemma load_ok wide p (s : spi_st W) : room (mem s) p (step_of wide) ->
  load wide p s = Ok (if wide then half (mem s) p else rd (mem s) p, s).
Proof.
  intros Hr. unfold load. destruct wide; cbn [step_of] in Hr.
  - by rewrite ld16_ok, bind_ret_l.
  - unfold room in Hr. rewrite get_in by (unfold in_range; lia). done.
Qed.
Lemma store_ok wide p v (s : spi_st W) : room (mem s) p (step_of wide) ->
  store wide p (if wide then u16 v else u8 v) s = Ok (tt, set_mem (splice (mem s) p (element_bytes wide v)) s).
Proof.
  intros Hr. unfold store. destruct wide; cbn [step_of] in Hr.
  - destruct (st16_ok (mem s) p (u16 v) Hr) as (m' & -> & Hw). rewrite bind_ret_l. do 3 f_equal.
    eapply written_splice; [exact Hw|exact Hr|]. intros i Hi. cbn in Hi. assert (i = 0 \/ i = 1) as [-> | ->] by lia.
    + change (rd (element_bytes true v) 0) with (byte 0 v). unfold byte, u16. change (256 ^ 0) with 1. lia.
    + change (rd (element_bytes true v) 1) with (byte 1 v). unfold byte, u16. change (256 ^ 1) with 256. lia.
  - destruct (set_written (mem s) p (u8 v) Hr) as (m' & -> & Hw). rewrite bind_ret_l. do 3 f_equal.
    eapply written_splice; [exact Hw|exact Hr|]. intros i Hi. cbn in Hi. assert (i = 0) as -> by lia.
    change (rd (element_bytes false v) 0) with (byte 0 v). unfold byte, u8. by rewrite Z.div_1_r.
Qed.

(** One element out and one back. *)
Lemma element_ok p c x (s : spi_st W) : talking p c (hw s) ->
  let '(c', r) := on_element (v_init (view (hw s))) x c in
  exists w', (_ ← wait_flag polls SPI_FLAG_TXE; _ ← on_hw (write_DR x); _ ← wait_flag polls SPI_FLAG_RXNE;
              ask_hw read_DR) s = Ok (r, set_hw w' s)
    /\ view w' = with_chip p c' (view (hw s)).
Proof.
  intros (Hc & Hs & Ho & Hr). destruct (on_element _ x c) as [c' r] eqn:Ee.
  destruct (wait_flag_ok polls SPI_FLAG_TXE s (law_txe _ Ho Hr)) as (w1 & E1 & V1).
  rewrite <- V1 in Hc, Hs, Ho, Hr, Ee |- *. clear V1.
  pose proof (law_exchange w1 p c x Ho Hr Hs Hc) as V2. rewrite Ee in V2. cbn in V2.
  set (s2 := set_hw (write_DR x w1) s).
  destruct (wait_flag_ok polls SPI_FLAG_RXNE s2) as (w3 & E3 & V3).
  { eapply law_rxne; cbn; by rewrite V2. }
  destruct (law_read w3 r) as (w4 & E4 & V4); [rewrite V3; cbn; by rewrite V2|].
  exists w4. split.
  - erewrite drv_bind_ok by exact E1. erewrite drv_bind_ok by reflexivity. erewrite drv_bind_ok by exact E3.
    unfold ask_hw. cbn. by rewrite E4.
  - rewrite V4, V3. cbn. rewrite V2. cbn. unfold with_chip. by rewrite Ho, Hr.
Qed.

Lemma buffers_ok_step wide n m m' send recv : 0 <= n -> length m' = length m -> buffers_ok wide (n + 1) m send recv ->
  buffers_ok wide n m' ((fun p => p + step_of wide) <$> send) ((fun p => p + step_of wide) <$> recv).
Proof.
  intros Hn L (Hs & Hr & Ha). assert (step_of wide = 1 \/ step_of wide = 2) as Hstep by (destruct wide; auto).
  split; [|split].
  - intros a [a' [-> ->]]%fmap_Some. specialize (Hs a' eq_refl). unfold room in *. nia.
  - intros b [b' [-> ->]]%fmap_Some. specialize (Hr b' eq_refl). unfold room in *. nia.
  - intros a b [a' [-> ->]]%fmap_Some [b' [-> ->]]%fmap_Some. specialize (Ha a' b' eq_refl eq_refl).
    unfold ahead in *. nia.
Qed.

Lemma stored_length wide n m recv rs send : buffers_ok wide n m send recv -> Z.of_nat (length rs) <= n ->
  length (stored wide m recv rs) = length m.
Proof.
  intros (_ & Hr & _) Hn. destruct recv as [b|]; [|done]. cbn. apply length_splice.
  specialize (Hr b eq_refl). rewrite length_concat_bytes. unfold room in *. destruct wide; cbn [step_of] in *; lia.
Qed.

(** Storing the first answer, then the others behind it; the rest of what is sent stays. *)
Lemma stored_cons wide m recv r rs send : buffers_ok wide (Z.of_nat (S (length rs))) m send recv ->
  stored wide (stored wide m recv [r]) ((fun p => p + step_of wide) <$> recv) rs = stored wide m recv (r :: rs).
Proof.
  intros (_ & Hr & _). destruct recv as [b|]; [|done]. cbn [fmap option_fmap option_map stored map concat].
  specialize (Hr b eq_refl). rewrite app_nil_r. rewrite <- (length_element_bytes wide r). apply splice_app.
  rewrite length_app, Nat2Z.inj_add, length_concat_bytes, length_element_bytes. unfold room in *.
  destruct wide; cbn [step_of] in *; lia.
Qed.
Lemma outgoing_stored wide m send recv r n : buffers_ok wide (Z.of_nat (S n)) m send recv ->
  outgoing wide (stored wide m recv [r]) ((fun p => p + step_of wide) <$> send) n
  = outgoing wide m ((fun p => p + step_of wide) <$> send) n.
Proof.
  intros (Hs & Hr & Ha). destruct send as [a|]; [|done]. destruct recv as [b|]; [|done].
  specialize (Hs a eq_refl). specialize (Hr b eq_refl). specialize (Ha a b eq_refl eq_refl).
  cbn [fmap option_fmap option_map outgoing stored map concat]. rewrite app_nil_r.
  apply units_at_splice; rewrite ?length_element_bytes; unfold room, ahead in *; destruct wide; cbn [step_of] in *; lia.
Qed.

Lemma length_exchange i out (c : C) : length (exchange i out c).2 = length out.
Proof.
  revert c. induction out as [|x out IH]; intros c; [done|]. cbn. destruct (on_element i x c) as [c' r].
  specialize (IH c'). destruct (exchange i out c'). cbn in *. by rewrite IH.
Qed.
Lemma length_outgoing wide m send n : length (outgoing wide m send n) = n.
Proof. destruct send; cbn; [apply length_units_at|apply length_replicate]. Qed.

Lemma load_outgoing wide n send recv (s : spi_st W) : buffers_ok wide (Z.of_nat (S n)) (mem s) send recv ->
  exists x, match send with Some p => load wide p | None => mret 0xFF end s = Ok (x, s)
    /\ outgoing wide (mem s) send (S n) = x :: outgoing wide (mem s) ((fun p => p + step_of wide) <$> send) n.
Proof.
  intros (Hs & _ & _). destruct send as [a|]; [|by eexists]. eexists. split; [|done]. apply load_ok.
  specialize (Hs a eq_refl). unfold room in *. destruct wide; cbn [step_of] in *; lia.
Qed.
Lemma store_stored wide n send recv r (s : spi_st W) : buffers_ok wide (Z.of_nat (S n)) (mem s) send recv ->
  match recv with Some p => store wide p (if wide then u16 r else u8 r) | None => mret tt end s
  = Ok (tt, set_mem (stored wide (mem s) recv [r]) s).
Proof.
  intros (_ & Hr & _). destruct recv as [b|]; [|by destruct s]. cbn [stored map concat]. rewrite app_nil_r.
  apply store_ok. specialize (Hr b eq_refl). unfold room in *. destruct wide; cbn [step_of] in *; lia.
Qed.

Lemma element_then {A} x (k : Z -> drv (spi_st W) A) s r s' :
  (_ ← wait_flag polls SPI_FLAG_TXE; _ ← on_hw (write_DR x); _ ← wait_flag polls SPI_FLAG_RXNE; ask_hw read_DR) s = Ok (r, s') ->
  (_ ← wait_flag polls SPI_FLAG_TXE; _ ← on_hw (write_DR x); _ ← wait_flag polls SPI_FLAG_RXNE;
   data ← ask_hw read_DR; k data) s = k r s'.
Proof.
  unfold mbind, drv_bind. intros E. destruct (wait_flag polls SPI_FLAG_TXE s) as [[[] s1]|]; [|done].
  destruct (on_hw (write_DR x) s1) as [[[] s2]|]; [|done].
  destruct (wait_flag polls SPI_FLAG_RXNE s2) as [[[] s3]|]; [|done]. by rewrite E.
Qed.

Lemma xfer_loop_ok wide n p : forall send recv (s : spi_st W) c,
  talking p c (hw s) -> buffers_ok wide (Z.of_nat n) (mem s) send recv ->
  let '(c', rs) := exchange (v_init (view (hw s))) (outgoing wide (mem s) send n) c in
  exists w', xfer_loop polls wide n send recv s = Ok (tt, set_mem (stored wide (mem s) recv rs) (set_hw w' s))
    /\ view w' = with_chip p c' (view (hw s)).
Proof.
  induction n as [|n IH]; intros send recv s c Ht Hb.
  { destruct (outgoing wide (mem s) send 0) eqn:E; [|by apply (f_equal length) in E; rewrite length_outgoing in E].
    cbn. exists (hw s). split.
    - destruct recv as [b|]; cbn; [|by destruct s]. destruct Hb as (_ & Hr & _). specialize (Hr b eq_refl).
      assert (splice (mem s) b [] = mem s) as ->; [|by destruct s].
      unfold splice. cbn. by rewrite Nat.add_0_r, take_drop.
    - destruct Ht as (Hc & _). unfold with_chip. rewrite insert_id by done. by destruct (view (hw s)). }
  destruct (load_outgoing wide n send recv s Hb) as (x & El & ->). cbn [exchange xfer_loop].
  pose proof (element_ok p c x s Ht) as He. destruct (on_element _ x c) as [c1 r].
  destruct He as (w1 & E1 & V1). set (s1 := set_mem (stored wide (mem s) recv [r]) (set_hw w1 s)).
  assert (talking p c1 (hw s1)) as Ht1.
  { unfold talking. cbn. rewrite V1. cbn. destruct Ht as (_ & ? & ? & ?). by rewrite lookup_insert_eq. }
  assert (buffers_ok wide (Z.of_nat n) (mem s1) ((fun p => p + step_of wide) <$> send) ((fun p => p + step_of wide) <$> recv)) as Hb1.
  { apply buffers_ok_step with (mem s); [lia|cbn; apply stored_length with (Z.of_nat (S n)) send; [done|cbn; lia]|].
    by replace (Z.of_nat n + 1) with (Z.of_nat (S n)) by lia. }
  specialize (IH _ _ s1 c1 Ht1 Hb1). cbn [s1 mem set_mem hw set_hw] in IH.
  assert (v_init (view w1) = v_init (view (hw s))) as Hi by (by rewrite V1). 
  rewrite (outgoing_stored wide (mem s) send recv r n Hb), Hi in IH.
  pose proof (length_exchange (v_init (view (hw s))) (outgoing wide (mem s) ((fun p => p + step_of wide) <$> send) n) c1) as Hl.
  destruct (exchange _ _ c1) as [c2 rs]. destruct IH as (w2 & E2 & V2). cbn in Hl. rewrite length_outgoing in Hl.
  exists w2. split.
  - erewrite drv_bind_ok by exact El. rewrite <- (stored_cons wide (mem s) recv r rs send) by (by rewrite Hl).
    erewrite element_then by exact E1. cbv beta zeta.
    erewrite drv_bind_ok by exact (store_stored wide n send recv r (set_hw w1 s) Hb). exact E2.
  - rewrite V2, V1. unfold with_chip. cbn. by rewrite insert_insert_eq.
Qed.

(** *** One message *)

(** The hardware while chip [c] at pin [p] has the bus or has just had it. *)
Definition shape (ch : gmap Z C) (p : Z) (c : C) (sel : bool) (i : SPI_InitTypeDef) (n : nat) : hwview C :=
  mkView (<[p := c]> ch) (if sel then {[p]} else ∅) i true None n.
Lemma shape_talking ch p c i n w : view w = shape ch p c true i n -> talking p c w.
Proof. unfold talking. intros ->. cbn. by rewrite lookup_insert_eq. Qed.

Lemma message_ok_length cfg mem mem' m : length mem' = length mem -> message_ok cfg mem m -> message_ok cfg mem' m.
Proof. intros L. unfold message_ok, buffers_ok, room. by rewrite L. Qed.

Lemma spec_message_length cfg m (c : C) mem : message_ok cfg mem m -> length (spec_message clock cfg m (c, mem)).2 = length mem.
Proof.
  intros (Hn & Hb). unfold spec_message.
  pose proof (length_exchange (settings clock cfg) (outgoing (is_wide cfg) mem (send_buf m) (Z.to_nat (msg_length m))) c) as L.
  destruct (exchange _ _ c) as [c' rs]. cbn in L |- *. rewrite length_outgoing in L. eapply stored_length; [exact Hb|lia].
Qed.

Lemma pin_low ch p c i n w : view w = shape ch p c false i n ->
  view (HAL_GPIO_WritePin p false w) = shape ch p (on_select c) true i n.
Proof.
  intros Hv. rewrite (law_low w p c); rewrite Hv; cbn; [|by rewrite lookup_insert_eq|set_solver].
  unfold shape. rewrite insert_insert_eq. f_equal. set_solver.
Qed.
Lemma pin_high ch p c i n w : view w = shape ch p c true i n ->
  view (HAL_GPIO_WritePin p true w) = shape ch p (on_release c) false i n.
Proof.
  intros Hv. rewrite (law_high w p c); rewrite Hv; cbn; [|by rewrite lookup_insert_eq|set_solver].
  unfold shape. rewrite insert_insert_eq. f_equal. set_solver.
Qed.

Lemma width_loop cfg n send recv : supported cfg ->
  (if data_width cfg <=? 8 then xfer_loop polls false n send recv
   else if data_width cfg <=? 16 then xfer_loop polls true n send recv else mret tt)
  = xfer_loop polls (is_wide cfg) n send recv :> drv (spi_st W) unit.
Proof.
  unfold supported, is_wide. intros Hs. destruct (Z.leb_spec (data_width cfg) 8); [done|].
  destruct (Z.leb_spec (data_width cfg) 16); [done|lia].
Qed.

Lemma xfer_ok d m dev p ch c n (s : spi_st W) :
  devices s !! d = Some dev -> dev_cs dev = Some p -> supported (dev_config dev) ->
  message_ok (dev_config dev) (mem s) m ->
  view (hw s) = shape ch p c (negb (cs_take m)) (settings clock (dev_config dev)) n ->
  let '(c', mem') := spec_message clock (dev_config dev) m (if cs_take m then on_select c else c, mem s) in
  exists w', xfer polls d m s = Ok (msg_length m, set_mem mem' (set_hw w' s))
    /\ view w' = shape ch p (if cs_release m then on_release c' else c') (negb (cs_release m))
                   (settings clock (dev_config dev)) n.
Proof.
  intros Hd Hp Hw (Hn & Hb) Hv. set (i := settings clock (dev_config dev)) in *.
  assert (exists w1, (if cs_take m then on_hw (HAL_GPIO_WritePin p false) else mret tt) s = Ok (tt, set_hw w1 s)
    /\ view w1 = shape ch p (if cs_take m then on_select c else c) true i n) as (w1 & E1 & V1).
  { destruct (cs_take m); [|by exists (hw s); destruct s]. eexists. split; [done|]. by apply pin_low. }
  pose proof (xfer_loop_ok (is_wide (dev_config dev)) (Z.to_nat (msg_length m)) p (send_buf m) (recv_buf m) (set_hw w1 s) _
    (shape_talking _ _ _ _ _ _ V1)) as Hl. rewrite Z2Nat.id in Hl by done. specialize (Hl Hb). cbn [hw set_hw mem] in Hl.
  rewrite V1 in Hl. unfold spec_message. cbn [v_init shape] in Hl. fold i.
  destruct (exchange i _ _) as [c' rs]. destruct Hl as (w2 & E2 & V2).
  set (s2 := set_mem _ (set_hw w2 (set_hw w1 s))) in E2.
  assert (exists w3, (if cs_release m then on_hw (HAL_GPIO_WritePin p true) else mret tt) s2 = Ok (tt, set_hw w3 s2)
    /\ view w3 = shape ch p (if cs_release m then on_release c' else c') (negb (cs_release m)) i n) as (w3 & E3 & V3).
  { assert (view w2 = shape ch p c' true i n) as V2' by (rewrite V2; unfold shape, with_chip; cbn; by rewrite insert_insert_eq).
    destruct (cs_release m); [|by exists w2]. eexists. split; [done|]. by apply pin_high. }
  exists w3. split; [|exact V3]. unfold xfer. erewrite drv_bind_ok by (unfold the_device; by rewrite Hd).
  rewrite Hp. cbv zeta. erewrite drv_bind_ok by exact E1. rewrite width_loop by done.
  erewrite drv_bind_ok by exact E2. erewrite drv_bind_ok by exact E3. done.
Qed.

(** *** Frames *)

Lemma transmit_ok d dev p ch n ms : dev_cs dev = Some p -> supported (dev_config dev) ->
  forall first c (s : spi_st W),
  devices s !! d = Some dev -> framed first ms -> Forall (message_ok (dev_config dev) (mem s)) ms ->
  view (hw s) = shape ch p c (negb first) (settings clock (dev_config dev)) n ->
  let '(c', mem') := spec_messages clock (dev_config dev) ms (if first then on_select c else c, mem s) in
  exists w', transmit polls d ms s
    = Ok (unsent ms, set_errno (if unsent ms then errno s else - RT_EIO) (set_mem mem' (set_hw w' s)))
    /\ view w' = shape ch p (on_release c') false (settings clock (dev_config dev)) n.
Proof.
  intros Hp Hw. induction ms as [|m ms IH]; intros first c s Hd Hf Hm Hv; [done|].
  apply list.Forall_cons in Hm as [Hm Hms]. assert (cs_take m = first) as Ht by (destruct ms; apply Hf).
  rewrite <- Ht in *. pose proof (xfer_ok d m dev p ch c n s Hd Hp Hw Hm Hv) as Hx.
  pose proof (spec_message_length (dev_config dev) m (if cs_take m then on_select c else c) (mem s) Hm) as Hl.
  unfold spec_messages. cbn [foldl]. fold (spec_messages clock (dev_config dev) ms).
  destruct (spec_message _ _ m _) as [c1 mem1]. destruct Hx as (w1 & E1 & V1). cbn [transmit].
  unfold mbind, drv_bind. rewrite E1. destruct ms as [|m2 ms].
  - destruct Hf as [_ Hr]. rewrite Hr in V1. cbn [spec_messages foldl]. exists w1. unfold unsent. cbn [list.last].
    destruct (Z.eqb_spec (msg_length m) 0); [done|]. split; [by destruct s|done].
  - destruct Hf as (_ & Hr & Hpos & Hf). rewrite Hr in V1. destruct (Z.eqb_spec (msg_length m) 0); [lia|].
    specialize (IH false c1 (set_mem mem1 (set_hw w1 s)) Hd Hf).
    destruct (spec_messages _ _ (m2 :: ms) _) as [c' mem'] eqn:Es.
    assert (foldl (fun cm m => spec_message clock (dev_config dev) m cm) (c1, mem1) (m2 :: ms) = (c', mem')) as -> by exact Es.
    destruct IH as (w' & E' & V'); [|exact V1|by exists w'].
    eapply list.Forall_impl; [exact Hms|]. intros x. by apply message_ok_length.
Qed.

(** *** Calls *)

(** The bus at rest: no chip selected, nothing unread, and the peripheral set
    up for the owner. *)
Record related (s : spi_st W) (b : bus_spec C) : Prop := mkRelated {
  rel_devices : devices s = s_devices b;
  rel_owner : owner s = s_owner b;
  rel_errno : errno s = s_errno b;
  rel_mem : mem s = s_mem b;
  rel_chips : v_chips (view (hw s)) = s_chips b;
  rel_locks : v_locks (view (hw s)) = s_locks b;
  rel_sel : v_sel (view (hw s)) = ∅;
  rel_rx : v_rx (view (hw s)) = None;
  rel_wired : forall d dev, devices s !! d = Some dev ->
    has_bus dev = true /\ exists p, dev_cs dev = Some p /\ is_Some (s_chips b !! p);
  rel_set_up : forall d, owner s = Some d -> exists dev, devices s !! d = Some dev
    /\ v_on (view (hw s)) = true /\ v_init (view (hw s)) = settings clock (dev_config dev) }.

Lemma the_device_ok d dev (s : spi_st W) : devices s !! d = Some dev -> the_device d s = Ok (dev, s).
Proof. unfold the_device. by intros ->. Qed.

Lemma configure_ok cfg (s : spi_st W) : supported cfg -> v_sel (view (hw s)) = ∅ ->
  exists w', configure clock cfg s = Ok (RT_EOK, set_Init (settings clock cfg) (set_hw w' s))
    /\ view w' = mkView (v_chips (view (hw s))) ∅ (settings clock cfg) true (v_rx (view (hw s))) (v_locks (view (hw s))).
Proof.
  intros Hs He. unfold configure, supported in *. destruct (Z.ltb_spec 16 (data_width cfg)); [lia|].
  destruct (law_init (settings clock cfg) (hw s) He) as (w1 & E1 & V1). exists (HAL_SPI_ENABLE w1). split.
  - do 2 go. unfold mbind, drv_bind, ask_hw. cbn. by rewrite E1.
  - rewrite law_enable, V1. done.
Qed.

Lemma own_bus_ok d dev (s : spi_st W) b : related s b -> devices s !! d = Some dev -> supported (dev_config dev) ->
  exists i w', own_bus clock d s = Ok (RT_EOK, set_owner (Some d) (set_Init i (set_hw w' s)))
    /\ view w' = mkView (s_chips b) ∅ (settings clock (dev_config dev)) true None (v_locks (view (hw s))).
Proof.
  intros R Hd Hs. unfold own_bus. erewrite drv_bind_ok by reflexivity. case_bool_decide as Ho.
  - exists (Init s), (hw s). split; [rewrite <- Ho; by destruct s|].
    destruct (rel_set_up s b R d Ho) as (dev' & Hd' & Hon & Hi). rewrite Hd in Hd'. injection Hd' as <-.
    rewrite <- (rel_chips s b R), <- Hi, <- Hon, <- (rel_rx s b R), <- (rel_sel s b R). by destruct (view (hw s)).
  - erewrite drv_bind_ok by (by apply the_device_ok).
    destruct (configure_ok (dev_config dev) s Hs (rel_sel s b R)) as (w' & E & V).
    erewrite drv_bind_ok by exact E. eexists _, w'. split; [done|].
    by rewrite V, (rel_chips s b R), (rel_rx s b R).
Qed.

Lemma lock_ok (s : spi_st W) : exists w', take_lock s = Ok (RT_EOK, set_hw w' s)
  /\ view w' = mkView (v_chips (view (hw s))) (v_sel (view (hw s))) (v_init (view (hw s))) (v_on (view (hw s)))
                 (v_rx (view (hw s))) (S (v_locks (view (hw s)))).
Proof.
  destruct (law_take (hw s)) as (w' & E & V). exists w'. split; [|done]. unfold take_lock, ask_hw. by rewrite E.
Qed.

(** Taking the lock keeps the bus at rest. *)
Lemma related_locked s b w' : related s b ->
  view w' = mkView (v_chips (view (hw s))) (v_sel (view (hw s))) (v_init (view (hw s))) (v_on (view (hw s)))
              (v_rx (view (hw s))) (S (v_locks (view (hw s)))) ->
  related (set_hw w' s) (mkBus (s_devices b) (s_owner b) (s_errno b) (S (s_locks b)) (s_chips b) (s_mem b)).
Proof. intros [] V. constructor; cbn; rewrite ?V; cbn; try done. congruence. Qed.

(** The state after a frame of device [d] whose hardware ends in [w']. *)
Lemma related_send s b d dev p c ms e mem' c' i w w' n : related s b ->
  s_devices b !! d = Some dev -> dev_cs dev = Some p -> s_chips b !! p = Some c ->
  spec_frame clock (dev_config dev) ms c (s_mem b) = (c', mem') ->
  view w = shape (s_chips b) p c' false (settings clock (dev_config dev)) (S n) -> n = s_locks b ->
  w' = rt_mutex_release w ->
  related (set_hw w' (set_errno e (set_mem mem' (set_owner (Some d) (set_Init i s))))) (spec_send clock d ms e b).
Proof.
  intros R Hd Hp Hc Hf V -> ->. pose proof (law_unlock w (s_locks b)) as V'. rewrite V in V'. specialize (V' eq_refl).
  unfold spec_send. rewrite Hd, Hp, Hc, Hf.
  destruct R. constructor; cbn; try done; rewrite ?V'; cbn; try done.
  - intros d0 dev0 Hd0. destruct (rel_wired0 d0 dev0 Hd0) as (? & p0 & ? & ?). split; [done|]. exists p0. split; [done|].
    by apply lookup_insert_is_Some'; right.
  - intros d0 [= <-]. exists dev. split; [|done]. congruence.
Qed.

Lemma related_errno s b e : related s b ->
  related (set_errno e s) (mkBus (s_devices b) (s_owner b) e (s_locks b) (s_chips b) (s_mem b)).
Proof. by intros []. Qed.

(** The frame part shared by the transfer calls: with the lock taken and the
    bus owned, [xfer] or [transmit] runs from here. *)
Lemma frame_start d ms e (s : spi_st W) b : related s b -> frame_ok d ms b ->
  exists dev p c i w1 w2,
    devices s !! d = Some dev /\ has_bus dev = true /\ dev_cs dev = Some p /\ s_chips b !! p = Some c
    /\ supported (dev_config dev) /\ Forall (message_ok (dev_config dev) (mem s)) ms
    /\ take_lock s = Ok (RT_EOK, set_hw w1 s)
    /\ own_bus clock d (set_errno e (set_hw w1 s))
       = Ok (RT_EOK, set_owner (Some d) (set_Init i (set_hw w2 (set_errno e s))))
    /\ view w2 = shape (s_chips b) p c false (settings clock (dev_config dev)) (S (s_locks b)).
Proof.
  intros R (Hf & dev & Hd & Hs & Hm). rewrite <- (rel_devices s b R) in Hd. rewrite <- (rel_mem s b R) in Hm.
  destruct (rel_wired s b R d dev Hd) as (Hb & p & Hp & [c Hc]). destruct (lock_ok s) as (w1 & E1 & V1).
  pose proof (related_errno _ _ e (related_locked s b w1 R V1)) as R1.
  destruct (own_bus_ok d dev _ _ R1 Hd Hs) as (i & w2 & E2 & V2).
  exists dev, p, c, i, w1, w2. do 8 (split; [done|]).
  rewrite V2. cbn. rewrite V1. cbn. rewrite (rel_locks s b R). unfold shape. by rewrite insert_id.
Qed.

Lemma spec_frame_messages cfg ms (c : C) mem c' mem' : spec_messages clock cfg ms (on_select c, mem) = (c', mem') ->
  spec_frame clock cfg ms c mem = (on_release c', mem').
Proof. unfold spec_frame. by intros ->. Qed.

Lemma send_then_ok d m1 m2 (s : spi_st W) b : related s b -> frame_ok d [m1; m2] b ->
  exists s', send_then clock polls d m1 m2 s = Ok (if msg_length m2 =? 0 then - RT_EIO else RT_EOK, s')
    /\ related s' (spec_send clock d [m1; m2] (s_errno b) b).
Proof.
  intros R Hok. pose proof Hok as [(Ht1 & Hr1 & Hpos & Ht2 & Hr2) _].
  destruct (frame_start d [m1; m2] (errno s) s b R Hok) as (dev & p & c & i & w1 & w2 & Hd & Hb & Hp & Hc & Hs & Hm & E1 & E2 & V2).
  apply list.Forall_cons in Hm as [Hm1 [Hm2 _]%list.Forall_cons].
  set (s2 := set_owner _ _) in E2.
  pose proof (xfer_ok d m1 dev p (s_chips b) c (S (s_locks b)) s2 Hd Hp Hs Hm1) as X1. rewrite Ht1 in X1. specialize (X1 V2).
  pose proof (spec_message_length (dev_config dev) m1 (on_select c) (mem s) Hm1) as L1.
  cbn [mem s2 set_owner set_Init set_hw set_errno] in X1.
  destruct (spec_message clock (dev_config dev) m1 (on_select c, mem s)) as [c1 mem1] eqn:S1.
  destruct X1 as (w3 & E3 & V3). rewrite Hr1 in V3.
  pose proof (xfer_ok d m2 dev p (s_chips b) c1 (S (s_locks b)) (set_mem mem1 (set_hw w3 s2)) Hd Hp Hs) as X2.
  specialize (X2 (message_ok_length _ _ _ _ L1 Hm2)). rewrite Ht2 in X2. specialize (X2 V3). cbn [mem set_mem] in X2.
  destruct (spec_message clock (dev_config dev) m2 (c1, mem1)) as [c2 mem2] eqn:S2.
  destruct X2 as (w4 & E4 & V4). rewrite Hr2 in V4.
  exists (set_hw (rt_mutex_release w4) (set_errno (s_errno b) (set_mem mem2 (set_owner (Some d) (set_Init i s))))). split.
  - unfold send_then. erewrite drv_bind_ok by (by apply the_device_ok). rewrite Hb. go. erewrite drv_bind_ok by exact E1.
    cbn [Z.eqb RT_EOK]. unfold mbind at 1. unfold drv_bind at 1.
    erewrite (drv_bind_ok (own_bus clock d)) by exact E2. cbn [Z.eqb RT_EOK negb].
    erewrite (drv_bind_ok (xfer polls d m1)) by exact E3. destruct (Z.eqb_spec (msg_length m1) 0); [lia|].
    erewrite (drv_bind_ok (xfer polls d m2)) by exact E4.
    rewrite <- (rel_errno s b R). by destruct (Z.eqb_spec (msg_length m2) 0).
  - eapply related_send; [exact R| |exact Hp|exact Hc| |exact V4|done..].
    + by rewrite <- (rel_devices s b R).
    + apply spec_frame_messages. unfold spec_messages. cbn [foldl]. rewrite <- (rel_mem s b R), S1. exact S2.
Qed.

Lemma transfer_ok d send recv len (s : spi_st W) b : related s b -> frame_ok d [mkMsg send recv len true true] b ->
  exists s', rt_spi_transfer clock polls d send recv len s = Ok (len, s')
    /\ related s' (spec_send clock d [mkMsg send recv len true true] (if len =? 0 then - RT_EIO else s_errno b) b).
Proof.
  intros R Hok. set (m := mkMsg send recv len true true) in *.
  destruct (frame_start d [m] (errno s) s b R Hok) as (dev & p & c & i & w1 & w2 & Hd & Hb & Hp & Hc & Hs & Hm & E1 & E2 & V2).
  apply list.Forall_cons in Hm as [Hm _]. set (s2 := set_owner _ _) in E2.
  pose proof (xfer_ok d m dev p (s_chips b) c (S (s_locks b)) s2 Hd Hp Hs Hm V2) as X.
  cbn [mem s2 set_owner set_Init set_hw set_errno m cs_take] in X.
  destruct (spec_message _ _ _ _) as [c' mem'] eqn:S1. destruct X as (w3 & E3 & V3).
  exists (set_hw (rt_mutex_release w3) (set_errno (if len =? 0 then - RT_EIO else s_errno b)
           (set_mem mem' (set_owner (Some d) (set_Init i s))))). split.
  - unfold rt_spi_transfer. erewrite drv_bind_ok by (by apply the_device_ok). rewrite Hb. go. erewrite drv_bind_ok by exact E1.
    cbn [Z.eqb RT_EOK]. unfold mbind at 1. unfold drv_bind at 1.
    erewrite (drv_bind_ok (own_bus clock d)) by exact E2. cbn [Z.eqb RT_EOK negb].
    erewrite (drv_bind_ok (xfer polls d m)) by exact E3. cbn [msg_length m]. rewrite <- (rel_errno s b R).
    by destruct (Z.eqb_spec len 0).
  - eapply related_send; [exact R| |exact Hp|exact Hc| |exact V3|done..].
    + by rewrite <- (rel_devices s b R).
    + apply spec_frame_messages. unfold spec_messages. cbn [foldl]. rewrite <- (rel_mem s b R). exact S1.
Qed.

Lemma messages_ok d ms (s : spi_st W) b : related s b -> frame_ok d ms b ->
  exists s', rt_spi_transfer_message clock polls d ms s = Ok (unsent ms, s')
    /\ related s' (spec_send clock d ms (if unsent ms then RT_EOK else - RT_EIO) b).
Proof.
  intros R Hok. pose proof Hok as [Hf _].
  destruct (frame_start d ms RT_EOK s b R Hok) as (dev & p & c & i & w1 & w2 & Hd & Hb & Hp & Hc & Hs & Hm & E1 & E2 & V2).
  set (s2 := set_owner _ _) in E2.
  pose proof (transmit_ok d dev p (s_chips b) (S (s_locks b)) ms Hp Hs true c s2 Hd Hf Hm V2) as X.
  cbn [mem s2 set_owner set_Init set_hw set_errno errno] in X.
  destruct (spec_messages _ _ _ _) as [c' mem'] eqn:S1. destruct X as (w3 & E3 & V3).
  exists (set_hw (rt_mutex_release w3) (set_errno (if unsent ms then RT_EOK else - RT_EIO)
           (set_mem mem' (set_owner (Some d) (set_Init i s))))). split.
  - unfold rt_spi_transfer_message. erewrite drv_bind_ok by (by apply the_device_ok). rewrite Hb.
    destruct ms as [|m ms]; [done|]. go. erewrite drv_bind_ok by exact E1. cbn [Z.eqb RT_EOK negb]. go.
    erewrite (drv_bind_ok (own_bus clock d)) by exact E2. cbn [Z.eqb RT_EOK].
    erewrite (drv_bind_ok (transmit polls d (m :: ms))) by exact E3. done.
  - eapply related_send; [exact R| |exact Hp|exact Hc| |exact V3|done..].
    + by rewrite <- (rel_devices s b R).
    + apply spec_frame_messages. rewrite <- (rel_mem s b R). exact S1.
Qed.

(** Releasing the lock gives the state before it was taken. *)
Lemma related_unlocked s b : related s b -> (0 < s_locks b)%nat ->
  related (set_hw (rt_mutex_release (hw s)) s)
    (mkBus (s_devices b) (s_owner b) (s_errno b) (pred (s_locks b)) (s_chips b) (s_mem b)).
Proof.
  intros R Hl. destruct (s_locks b) as [|n] eqn:E; [lia|].
  pose proof (law_unlock (hw s) n (eq_trans (rel_locks s b R) E)) as V.
  destruct R. constructor; cbn; rewrite ?V; cbn; done.
Qed.

Lemma configure_call_ok d cfg (s : spi_st W) b : related s b -> call_ok (Configure d cfg) b ->
  exists s', rt_spi_configure clock d cfg s = Ok (RT_EOK, s') /\ related s' (spec_call clock (Configure d cfg) b).2.
Proof.
  intros R [[dev Hd] Hs]. rewrite <- (rel_devices s b R) in Hd. destruct (rel_wired s b R d dev Hd) as (Hb & p & Hp & Hc).
  set (cfg' := mkCfg (Z.land (mode cfg) RT_SPI_MODE_MASK) (data_width cfg) (max_hz cfg)).
  set (dev' := mkDev (has_bus dev) cfg' (dev_cs dev)). set (s1 := set_devices (<[d := dev']> (devices s)) s).
  destruct (lock_ok s1) as (w2 & E2 & V2).
  assert (exists i w3 r, (if bool_decide (owner s1 = Some d) then configure clock cfg' else mret RT_EOK) (set_hw w2 s1)
            = Ok (r, set_Init i (set_hw w3 s1))
    /\ v_chips (view w3) = v_chips (view w2) /\ v_sel (view w3) = ∅ /\ v_rx (view w3) = None
    /\ v_locks (view w3) = v_locks (view w2)
    /\ (owner s1 = Some d -> v_on (view w3) = true /\ v_init (view w3) = settings clock cfg')
    /\ (owner s1 <> Some d -> v_on (view w3) = v_on (view (hw s)) /\ v_init (view w3) = v_init (view (hw s))))
    as (i & w3 & r & E3 & V3c & V3s & V3r & V3l & V3y & V3n).
  { case_bool_decide as Ho.
    - destruct (configure_ok cfg' (set_hw w2 s1)) as (w3 & E & V); [done|cbn; rewrite V2; apply (rel_sel s b R)|].
      eexists _, w3, RT_EOK. split; [exact E|]. rewrite V. cbn. rewrite V2. cbn. by rewrite (rel_rx s b R).
    - exists (Init s1), w2, RT_EOK. split; [done|]. rewrite V2. cbn. by rewrite (rel_sel s b R), (rel_rx s b R). }
  exists (set_hw (rt_mutex_release w3) (set_Init i s1)). split.
  - unfold rt_spi_configure. erewrite drv_bind_ok by (by apply the_device_ok). fold cfg' dev'. cbv zeta. go.
    rewrite Hb. unfold mbind at 1. unfold drv_bind at 1. fold s1. erewrite (drv_bind_ok take_lock) by exact E2.
    cbn [Z.eqb RT_EOK]. go. erewrite drv_bind_ok by exact E3. done.
  - assert (v_locks (view w3) = S (s_locks b)) as L by (rewrite V3l, V2; cbn; by rewrite (rel_locks s b R)).
    pose proof (law_unlock w3 _ L) as V. assert (v_chips (view w3) = s_chips b) as Cc by (rewrite V3c, V2; apply (rel_chips s b R)).
    destruct R. constructor; cbn; rewrite ?V; cbn; try done.
    + rewrite <- rel_devices0. fold cfg'. symmetry. unfold dev'. apply list_eq. intros j.
      destruct (decide (d = j)) as [<-|Hj].
      * rewrite list_lookup_alter_eq, list_lookup_insert_eq, Hd by (by eapply lookup_lt_Some). done.
      * by rewrite list_lookup_alter_ne, list_lookup_insert_ne.
    + intros j dj Hj. destruct (decide (d = j)) as [<-|Hn].
      * rewrite list_lookup_insert_eq in Hj by (by eapply lookup_lt_Some). injection Hj as <-. cbn. by eauto.
      * rewrite list_lookup_insert_ne in Hj by done. by apply rel_wired0 in Hj.
    + intros j Hj. cbn [owner s1 set_devices] in V3y, V3n. destruct (decide (d = j)) as [<-|Hn].
      * exists dev'. rewrite list_lookup_insert_eq by (by eapply lookup_lt_Some). split; [done|by apply V3y].
      * rewrite list_lookup_insert_ne by done. destruct V3n as [-> ->]; [congruence|]. by apply rel_set_up0.
Qed.

Lemma take_bus_ok d (s : spi_st W) b : related s b -> call_ok (TakeBus d) b ->
  exists s', rt_spi_take_bus clock d s = Ok (RT_EOK, s') /\ related s' (spec_call clock (TakeBus d) b).2.
Proof.
  intros R (dev & Hd & Hs). rewrite <- (rel_devices s b R) in Hd. destruct (rel_wired s b R d dev Hd) as (Hb & _).
  destruct (lock_ok s) as (w1 & E1 & V1). pose proof (related_errno _ _ RT_EOK (related_locked s b w1 R V1)) as R1.
  destruct (own_bus_ok d dev _ _ R1 Hd Hs) as (i & w2 & E2 & V2). eexists. split.
  - unfold rt_spi_take_bus. erewrite drv_bind_ok by (by apply the_device_ok). rewrite Hb. go. erewrite drv_bind_ok by exact E1.
    cbn [Z.eqb RT_EOK negb]. go. erewrite drv_bind_ok by exact E2. done.
  - destruct R1. constructor; cbn; try done; rewrite ?V2; try done. by intros d0 [= <-]; eauto.
Qed.

Lemma release_bus_ok d (s : spi_st W) b : related s b -> call_ok (ReleaseBus d) b ->
  exists s', rt_spi_release_bus d s = Ok (RT_EOK, s') /\ related s' (spec_call clock (ReleaseBus d) b).2.
Proof.
  intros R [Ho Hl]. rewrite <- (rel_owner s b R) in Ho. destruct (rel_set_up s b R d Ho) as (dev & Hd & _).
  destruct (rel_wired s b R d dev Hd) as (Hb & _). eexists. split; [|by apply related_unlocked].
  unfold rt_spi_release_bus. erewrite drv_bind_ok by (by apply the_device_ok). rewrite Hb. do 2 go.
  rewrite bool_decide_true by done. go. done.
Qed.

(** The two assertions of the device interface hold on a bus that is set up. *)
Lemma owner_device_ok d (s : spi_st W) b : related s b -> s_owner b = Some d -> bus_owner_device s = Ok (d, s).
Proof. intros R Ho. unfold bus_owner_device, st_get, mbind, drv_bind. by rewrite (rel_owner s b R), Ho. Qed.
Lemma spidev_ok {A} d send recv len (s : spi_st W) b (k : drv (spi_st W) A) : related s b -> transfer_fits d send recv len b ->
  (dev ← the_device d; _ ← assert (has_bus dev); k) s = k s.
Proof.
  intros R [_ (dev & Hd & _)]. rewrite <- (rel_devices s b R) in Hd. destruct (rel_wired s b R d dev Hd) as (Hb & _).
  erewrite drv_bind_ok by (by apply the_device_ok). by rewrite Hb.
Qed.

Lemma call_refines c (s : spi_st W) b : related s b -> call_ok c b ->
  exists s', run_call clock polls c s = Ok ((spec_call clock c b).1, s') /\ related s' (spec_call clock c b).2.
Proof.
  intros R Hc. destruct c.
  - by apply configure_call_ok.
  - by apply transfer_ok.
  - exact (send_then_ok d _ _ s b R Hc).
  - exact (send_then_ok d _ _ s b R Hc).
  - destruct (messages_ok d ms s b R Hc) as (s' & E & R'). exists s'. split; [|done]. cbn [run_call].
    erewrite drv_bind_ok by exact E. done.
  - by apply take_bus_ok.
  - by apply release_bus_ok.
  - destruct Hc as (d & Ho & Hf). cbn [run_call spec_call]. unfold _spi_bus_device_read, spec_owner. rewrite Ho.
    erewrite drv_bind_ok by (by eapply owner_device_ok). by apply transfer_ok.
  - destruct Hc as (d & Ho & Hf). cbn [run_call spec_call]. unfold _spi_bus_device_write, spec_owner. rewrite Ho.
    erewrite drv_bind_ok by (by eapply owner_device_ok). by apply transfer_ok.
  - cbn [run_call]. unfold _spidev_device_read. erewrite spidev_ok by done. by apply transfer_ok.
  - cbn [run_call]. unfold _spidev_device_write. erewrite spidev_ok by done. by apply transfer_ok.
Qed.

(** C11: Chips on one SPI bus.  For every board whose hardware follows the laws
    of [SpiBoard] and every session of calls within the contract (configure,
    transfer, send-then-send, send-then-receive, message chains, taking and
    releasing the bus, reading and writing a device or, through it, its owner), from a bus at rest: every call returns, its result is
    that of the specification, and so are memory, [errno] and lock depth.  The
    contract: widths of at most 16 bits, buffers inside memory, no empty part but
    the last, and the chip released at the end of every chain; what happens
    outside it is shown in [spi_calls_outside_contract].  Each
    call is one frame of exactly the chip of its device, between one selection
    and one release, with the elements sent under the settings of that device's
    latest configuration whichever device used the bus before; the answers are
    stored, in place if both buffers are the same; no other chip changes.  After
    every call no chip is selected and no element is left in the receive
    register. *)
Theorem spi_sessions_refine (cs : list spi_call) (s : spi_st W) (b : bus_spec C)
  (R : related s b) (Hcs : calls_ok clock cs b) :
  exists s', run_calls clock polls cs s = Ok ((spec_calls clock cs b).1, s')
    /\ related s' (spec_calls clock cs b).2.
Proof.
  revert s b R Hcs. induction cs as [|c cs IH]; intros s b R Hcs; [by exists s|]. destruct Hcs as [Hc Hcs].
  destruct (call_refines c s b R Hc) as (s1 & E1 & R1). cbn [run_calls spec_calls].
  destruct (spec_call clock c b) as [r b1]. cbn [fst snd] in *. destruct (IH s1 b1 R1 Hcs) as (s2 & E2 & R2).
  destruct (spec_calls clock cs b1) as [rs b2]. exists s2. split; [|done].
  erewrite drv_bind_ok by exact E1. erewrite drv_bind_ok by exact E2. done.
Qed.

(** *** Where the contract ends *)

Lemma empty_first_selected (s : spi_st W) (b : bus_spec C) d dev p c buf second : related s b ->
  devices s !! d = Some dev -> dev_cs dev = Some p -> s_chips b !! p = Some c -> supported (dev_config dev) ->
  exists s', send_then clock polls d (first_of buf 0) second s = Ok (- RT_EIO, s')
    /\ mem s' = mem s /\ v_sel (view (hw s')) = {[p]} /\ v_chips (view (hw s')) = <[p := on_select c]> (s_chips b)
    /\ v_locks (view (hw s')) = s_locks b.
Proof.
  intros R Hds Hp Hc Hs. destruct (rel_wired s b R d dev Hds) as (Hb & _). set (m := first_of buf 0).
  destruct (lock_ok s) as (w1 & E1 & V1). pose proof (related_locked s b w1 R V1) as R1.
  destruct (own_bus_ok d dev _ _ R1 Hds Hs) as (i & w2 & E2 & V2). cbn in V2.
  set (s2 := set_owner _ _) in E2. set (w3 := HAL_GPIO_WritePin p false w2).
  assert (view w3 = shape (s_chips b) p (on_select c) true (settings clock (dev_config dev)) (S (s_locks b))) as V3.
  { apply pin_low. rewrite V2, V1. cbn. rewrite (rel_locks s b R). unfold shape. by rewrite insert_id. }
  pose proof (law_unlock w3 (s_locks b)) as V4. rewrite V3 in V4. specialize (V4 eq_refl).
  exists (set_hw (rt_mutex_release w3) s2). split; [|cbn; by rewrite V4].
  unfold send_then. erewrite drv_bind_ok by (by apply the_device_ok). rewrite Hb. go. erewrite drv_bind_ok by exact E1.
  cbn [Z.eqb RT_EOK]. unfold mbind at 1. unfold drv_bind at 1.
  erewrite (drv_bind_ok (own_bus clock d)) by exact E2. cbn [Z.eqb RT_EOK negb].
  assert (xfer polls d m s2 = Ok (0, set_hw w3 s2)) as Ex.
  { unfold xfer. erewrite drv_bind_ok by (by apply the_device_ok). rewrite Hp. cbv zeta. cbn [cs_take cs_release m first_of].
    go. rewrite width_loop by done. by go. }
  by erewrite (drv_bind_ok (xfer polls d m)) by exact Ex.
Qed.

Lemma unsupported_width_silent (s : spi_st W) (b : bus_spec C) d dev p c cfg send recv len : related s b ->
  devices s !! d = Some dev -> dev_cs dev = Some p -> s_chips b !! p = Some c -> owner s = Some d ->
  16 < data_width cfg -> 0 < len -> exists s' s'',
    rt_spi_configure clock d cfg s = Ok (RT_EOK, s')
    /\ Init s' = Init s /\ v_init (view (hw s')) = v_init (view (hw s))
    /\ rt_spi_transfer clock polls d send recv len s' = Ok (len, s'')
    /\ mem s'' = mem s /\ errno s'' = errno s
    /\ v_chips (view (hw s'')) = <[p := on_release (on_select c)]> (s_chips b).
Proof.
  intros R Hds Hp Hc Ho Hwd Hlen. destruct (rel_wired s b R d dev Hds) as (Hb & _).
  set (cfg' := mkCfg (Z.land (mode cfg) RT_SPI_MODE_MASK) (data_width cfg) (max_hz cfg)).
  set (dev' := mkDev (has_bus dev) cfg' (dev_cs dev)). set (s1 := set_devices (<[d := dev']> (devices s)) s).
  assert (devices s1 !! d = Some dev') as Hd1 by (cbn; apply list_lookup_insert_eq; by eapply lookup_lt_Some).
  destruct (lock_ok s1) as (w2 & E2 & V2). set (w3 := rt_mutex_release w2).
  pose proof (law_unlock w2 (v_locks (view (hw s)))) as V3. rewrite V2 in V3. specialize (V3 eq_refl). cbn in V3.
  set (s3 := set_hw w3 s1).
  assert (view w3 = view (hw s)) as V3' by (unfold w3; rewrite V3; by destruct (view (hw s))).
  destruct (lock_ok s3) as (w4 & E4 & V4). cbn in V4. rewrite V3' in V4.
  destruct (rel_set_up s b R d Ho) as (dv & _ & Hon & Hi).
  assert (view w4 = shape (s_chips b) p c false (v_init (view (hw s))) (S (s_locks b))) as V4'.
  { rewrite V4, (rel_chips s b R), (rel_sel s b R), Hon, (rel_rx s b R), (rel_locks s b R). unfold shape. by rewrite insert_id. }
  pose proof (pin_high _ _ _ _ _ _ (pin_low _ _ _ _ _ _ V4')) as V6.
  set (w6 := HAL_GPIO_WritePin p true _) in V6.
  pose proof (law_unlock w6 (s_locks b)) as V7. rewrite V6 in V7. specialize (V7 eq_refl).
  exists s3, (set_hw (rt_mutex_release w6) s3).
  assert (data_width cfg' <=? 8 = false /\ data_width cfg' <=? 16 = false /\ 16 <? data_width cfg' = true) as (F1 & F2 & F3).
  { cbn. destruct (Z.leb_spec (data_width cfg) 8), (Z.leb_spec (data_width cfg) 16), (Z.ltb_spec 16 (data_width cfg)); lia. }
  split; [|split; [done|split; [cbn; by rewrite V3'|split; [|cbn; by rewrite V7]]]].
  + unfold rt_spi_configure. erewrite drv_bind_ok by (by apply the_device_ok). fold cfg' dev'. cbv zeta. go.
    rewrite Hb. unfold mbind at 1. unfold drv_bind at 1. fold s1. erewrite (drv_bind_ok take_lock) by exact E2.
    cbn [Z.eqb RT_EOK]. go. rewrite bool_decide_true by done. unfold configure. rewrite F3. by go.
  + unfold rt_spi_transfer. erewrite drv_bind_ok by (by apply the_device_ok). cbn [has_bus dev']. rewrite Hb. go.
    erewrite drv_bind_ok by exact E4. cbn [Z.eqb RT_EOK]. unfold mbind at 1. unfold drv_bind at 1.
    erewrite (drv_bind_ok (own_bus clock d)); [|unfold own_bus; go; by rewrite bool_decide_true].
    cbn [Z.eqb RT_EOK negb]. set (m := mkMsg send recv len true true).
    assert (xfer polls d m (set_hw w4 s3) = Ok (len, set_hw w6 s3)) as Ex.
    { unfold xfer. erewrite drv_bind_ok by (by apply the_device_ok). cbn [dev_cs dev' dev_config]. rewrite Hp, F1, F2. done. }
    erewrite (drv_bind_ok (xfer polls d m)) by exact Ex. by destruct (Z.eqb_spec len 0); [lia|].
Qed.

(** Two ways in which a call returns with the bus not as its caller thinks.
    A send-then call whose first part is empty returns [-RT_EIO] with the chip
    still selected.  A width above 16 is accepted by [rt_spi_configure] on the
    device that owns the bus, although the driver refused it and kept the old
    settings; a transfer on that device then reports all its elements as
    transferred, but none is: memory is unchanged and the chip is only selected
    and released. *)
Theorem spi_calls_outside_contract (s : spi_st W) (b : bus_spec C) (d : nat) (dev : rt_spi_device) (p : Z) (c : C)
  (R : related s b) (Hd : s_devices b !! d = Some dev) (Hp : dev_cs dev = Some p) (Hc : s_chips b !! p = Some c) :
  (supported (dev_config dev) -> forall buf second, exists s',
     send_then clock polls d (first_of buf 0) second s = Ok (- RT_EIO, s')
     /\ mem s' = mem s /\ v_sel (view (hw s')) = {[p]} /\ v_chips (view (hw s')) = <[p := on_select c]> (s_chips b)
     /\ v_locks (view (hw s')) = s_locks b)
  /\ (owner s = Some d -> forall cfg send recv len, 16 < data_width cfg -> 0 < len -> exists s' s'',
       rt_spi_configure clock d cfg s = Ok (RT_EOK, s')
       /\ Init s' = Init s /\ v_init (view (hw s')) = v_init (view (hw s))
       /\ rt_spi_transfer clock polls d send recv len s' = Ok (len, s'')
       /\ mem s'' = mem s /\ errno s'' = errno s
       /\ v_chips (view (hw s'')) = <[p := on_release (on_select c)]> (s_chips b)).
Proof.
  rewrite <- (rel_devices s b R) in Hd. split.
  - intros Hs buf second. by eapply empty_first_selected.
  - intros Ho cfg send recv len Hwd Hlen. by eapply unsupported_width_silent.
Qed.
End Board.

(** ** The clock divider *)

(** The divider is the smallest power of two from 2 to 256 that brings the clock
    down to [hz], or 256 when none does. *)
Theorem prescaler_smallest (clock hz : Z) : exists k, 0 <= k <= 7 /\ prescaler clock hz = 8 * k
  /\ (k < 7 -> clock / 2 ^ (k + 1) <= hz) /\ forall j, 0 <= j < k -> hz < clock / 2 ^ (j + 1).
Proof.
  unfold prescaler.
  assert (forall k, 0 <= k <= 7 -> (k < 7 -> clock / 2 ^ (k + 1) <= hz) ->
    (forall j, 0 <= j < k -> hz < clock / 2 ^ (j + 1)) -> forall v, v = 8 * k -> exists k, 0 <= k <= 7 /\ v = 8 * k
    /\ (k < 7 -> clock / 2 ^ (k + 1) <= hz) /\ forall j, 0 <= j < k -> hz < clock / 2 ^ (j + 1)) as K.
  { intros k Hk H1 H2 v ->. by exists k. }
  assert (forall (P : Z -> Prop) k, 0 <= k <= 7 -> (0 < k -> P 0) -> (1 < k -> P 1) -> (2 < k -> P 2) -> (3 < k -> P 3) ->
    (4 < k -> P 4) -> (5 < k -> P 5) -> (6 < k -> P 6) -> forall j, 0 <= j < k -> P j) as D.
  { intros P k Hk P0 P1 P2 P3 P4 P5 P6 j Hj.
    assert (j = 0 \/ j = 1 \/ j = 2 \/ j = 3 \/ j = 4 \/ j = 5 \/ j = 6) as Hc by lia.
    destruct Hc as [-> |[-> |[-> |[-> |[-> |[-> | ->]]]]]]; [apply P0|apply P1|apply P2|apply P3|apply P4|apply P5|apply P6]; lia. }
  destruct (Z.leb_spec (clock / 2) hz); [apply (K 0); [lia|done|apply D; cbn; lia|done]|].
  destruct (Z.leb_spec (clock / 4) hz); [apply (K 1); [lia|done|apply D; cbn; lia|done]|].
  destruct (Z.leb_spec (clock / 8) hz); [apply (K 2); [lia|done|apply D; cbn; lia|done]|].
  destruct (Z.leb_spec (clock / 16) hz); [apply (K 3); [lia|done|apply D; cbn; lia|done]|].
  destruct (Z.leb_spec (clock / 32) hz); [apply (K 4); [lia|done|apply D; cbn; lia|done]|].
  destruct (Z.leb_spec (clock / 64) hz); [apply (K 5); [lia|done|apply D; cbn; lia|done]|].
  destruct (Z.leb_spec (clock / 128) hz); [apply (K 6); [lia|done|apply D; cbn; lia|done]|].
  apply (K 7); [lia|lia|apply D; cbn; lia|done].
Qed.

(** A device slower than the clock over 256 is clocked too fast. *)
Example slow_device_overclocked : prescaler 90000000 100000 = SPI_BAUDRATEPRESCALER_256 /\ 100000 < 90000000 / 256.
Proof. split; reflexivity. Qed.

(** ** A board *)

(** The view itself as hardware, for chips of any kind. *)
Section ViewBoard.
Context {C : Type} `{Chip C}.

Definition view_pin (p : Z) (b : bool) (w : hwview C) : hwview C :=
  match v_chips w !! p with
  | Some c =>
      if b then
        if decide (p ∈ v_sel w) then
          mkView (<[p := on_release c]> (v_chips w)) (v_sel w ∖ {[p]}) (v_init w) (v_on w) (v_rx w) (v_locks w) else w
      else if decide (p ∈ v_sel w) then w else
        mkView (<[p := on_select c]> (v_chips w)) ({[p]} ∪ v_sel w) (v_init w) (v_on w) (v_rx w) (v_locks w)
  | None => w
  end.
Definition view_write (x : Z) (w : hwview C) : hwview C :=
  match elements (v_sel w) with
  | [p] =>
      match v_chips w !! p with
      | Some c => let '(c, r) := on_element (v_init w) x c in
                  mkView (<[p := c]> (v_chips w)) (v_sel w) (v_init w) (v_on w) (Some r) (v_locks w)
      | None => w
      end
  | _ => w
  end.
#[global] Instance view_hw : SpiHw (hwview C) := {
  read_SR w := (match v_rx w with Some _ => 3 | None => 2 end, w);
  write_DR := view_write;
  read_DR w := (default 0 (v_rx w), mkView (v_chips w) (v_sel w) (v_init w) (v_on w) None (v_locks w));
  HAL_GPIO_WritePin := view_pin;
  HAL_SPI_Init i w := (true, mkView (v_chips w) (v_sel w) i false (v_rx w) (v_locks w));
  HAL_SPI_ENABLE w := mkView (v_chips w) (v_sel w) (v_init w) true (v_rx w) (v_locks w);
  rt_mutex_take w := (RT_EOK, mkView (v_chips w) (v_sel w) (v_init w) (v_on w) (v_rx w) (S (v_locks w)));
  rt_mutex_release w := mkView (v_chips w) (v_sel w) (v_init w) (v_on w) (v_rx w) (pred (v_locks w)) }.

#[global] Program Instance view_board : SpiBoard (hwview C) C 1 := { view w := w }.
Next Obligation. intros w p c Hc Hs. cbn. unfold view_pin. by rewrite Hc, decide_False. Qed.
Next Obligation. intros w p c Hc Hs. cbn. unfold view_pin. by rewrite Hc, decide_True. Qed.
Next Obligation. intros i w Hs. cbn. rewrite Hs. by eexists. Qed.
Next Obligation. done. Qed.
Next Obligation. intros w Ho Hr. cbn. rewrite Hr. by split; [|left]. Qed.
Next Obligation.
  intros w p c x Ho Hr Hs Hc. cbn. unfold view_write. rewrite Hs, elements_singleton, Hc.
  destruct (on_element (v_init w) x c) as [c' r]. cbn. by rewrite Ho.
Qed.
Next Obligation. intros w r Ho Hr. cbn. rewrite Hr. by split; [|left]. Qed.
Next Obligation. intros w r Hr. cbn. rewrite Hr. by eexists. Qed.
Next Obligation. intros w. cbn. by eexists. Qed.
Next Obligation. intros w n Hn. cbn. by rewrite Hn. Qed.
End ViewBoard.

Module SpiDemo.
(** A chip that records what happens to it and answers with the previous element. *)
Inductive event := Sel | El (phase x : Z) | Rel.
Record chip := mkChip { heard : list event; answer : Z }.
#[global] Instance demo_chip : Chip chip := {
  on_select c := mkChip (heard c ++ [Sel]) 0xA5;
  on_element i x c := (mkChip (heard c ++ [El (CLKPhase i) x]) x, answer c);
  on_release c := mkChip (heard c ++ [Rel]) (answer c) }.
Definition board : Type := hwview chip.

Definition quiet : chip := mkChip [] 0.
Definition flash : rt_spi_device := mkDev true (mkCfg 0 0 0) (Some 3).
Definition radio : rt_spi_device := mkDev true (mkCfg 0 0 0) (Some 7).
Definition start_init : SPI_InitTypeDef := mkInit 0 0 0 0 0 0 0 0 0 0.
Definition start_hw : board := mkView {[3 := quiet; 7 := quiet]} ∅ start_init false None 0.
Definition start_mem : list Z := [0x9F; 1; 2; 3; 4; 5].
Definition start : spi_st board := mkSpi [flash; radio] None start_init start_mem 0 start_hw.
Definition start_spec : bus_spec chip := mkBus [flash; radio] None 0 0 {[3 := quiet; 7 := quiet]} start_mem.

Lemma start_related : related 90000000 1 start start_spec.
Proof.
  constructor; try done. intros d dev Hd. destruct d as [|[|d]]; [..|done]; injection Hd as <-; split; try done.
  - by exists 3.
  - by exists 7.
Qed.

(** The flash in mode 0 and the radio in mode 1 are used in turn. *)
Definition session : list spi_call :=
  [Configure 0 (mkCfg 4 8 20000000); Configure 1 (mkCfg 5 16 1000000);
   SendRecv 0 (Some 0) 1 (Some 1) 2; Transfer 1 (Some 4) (Some 4) 1; Transfer 0 None (Some 3) 1].

Ltac solve_messages :=
  eexists; split; [reflexivity|]; split; [done|];
  repeat first [apply List.Forall_nil | apply List.Forall_cons];
  (split; [done|]); (split; [|split]); intros *; repeat intros [= <-];
  solve [by split; vm_compute | by left; vm_compute | by right; vm_compute | done].

Lemma session_ok : calls_ok 90000000 session start_spec.
Proof.
  repeat (split; [cbn [call_ok]; first [split; [by eexists|done] | split; [done|]; solve_messages]|]). done.
Qed.

(** The flash answers the command under the first edge, the radio's element is
    exchanged in place under the second, and each chip saw only its own frames. *)
Lemma spi_sessions_refine_witness : exists s', run_calls 90000000 1 session start = Ok ([0; 0; 0; 1; 1], s')
  /\ mem s' = [0x9F; 0x9F; 0xFF; 0xA5; 0xA5; 0]
  /\ v_chips (hw s') !! 3 = Some (mkChip [Sel; El 0 0x9F; El 0 0xFF; El 0 0xFF; Rel; Sel; El 0 0xFF; Rel] 0xFF)
  /\ v_chips (hw s') !! 7 = Some (mkChip [Sel; El 1 0x504; Rel] 0x504)
  /\ v_sel (hw s') = ∅.
Proof.
  destruct (spi_sessions_refine 90000000 1 session start start_spec start_related session_ok) as (s' & E & R).
  exists s'. split; [exact E|]. rewrite (rel_mem _ _ _ _ R). split; [reflexivity|].
  pose proof (rel_chips _ _ _ _ R) as Hc. cbn [view view_board] in Hc. rewrite Hc.
  split; [reflexivity|]. split; [reflexivity|]. exact (rel_sel _ _ _ _ R).
Defined.

Definition used_hw : board :=
  mkView {[3 := quiet; 7 := quiet]} ∅ (settings 90000000 (mkCfg 4 8 20000000)) true None 0.
Definition used : spi_st board :=
  mkSpi [mkDev true (mkCfg 4 8 20000000) (Some 3); radio] (Some 0%nat) (settings 90000000 (mkCfg 4 8 20000000)) start_mem 0 used_hw.
Definition used_spec : bus_spec chip :=
  mkBus [mkDev true (mkCfg 4 8 20000000) (Some 3); radio] (Some 0%nat) 0 0 {[3 := quiet; 7 := quiet]} start_mem.
Lemma used_related : related 90000000 1 used used_spec.
Proof.
  constructor; try done.
  - intros d dev Hd. destruct d as [|[|d]]; [..|done]; injection Hd as <-; split; try done.
    + by exists 3.
    + by exists 7.
  - intros d [= <-]. by eexists.
Qed.

(** The flash stays selected after an empty command, and a 24-bit transfer of four elements does nothing. *)
Lemma spi_calls_outside_contract_witness :
  (exists s', rt_spi_send_then_recv 90000000 1 0 None 0 (Some 1) 2 used = Ok (- RT_EIO, s') /\ v_sel (hw s') = {[3]})
  /\ (exists s' s'', rt_spi_configure 90000000 0 (mkCfg 4 24 20000000) used = Ok (RT_EOK, s')
       /\ rt_spi_transfer 90000000 1 0 (Some 0) (Some 0) 4 s' = Ok (4, s'') /\ mem s'' = start_mem).
Proof.
  destruct (spi_calls_outside_contract 90000000 1 used used_spec 0%nat (mkDev true (mkCfg 4 8 20000000) (Some 3)) 3 quiet
              used_related eq_refl eq_refl eq_refl) as [H1 H2].
  split.
  - destruct (H1 ltac:(done) None (mkMsg None (Some 1) 2 false true)) as (s' & E & _ & Hs & _). by exists s'.
  - destruct (H2 eq_refl (mkCfg 4 24 20000000) (Some 0) (Some 0) 4 ltac:(done) ltac:(done)) as (s' & s'' & E1 & _ & _ & E2 & Em & _).
    by exists s', s''.
Defined.

(** With the flash left selected, a transfer of the radio has both chips on the line. *)
Example two_chips_selected : exists s',
  (_ ← rt_spi_send_then_recv 90000000 1 0 None 0 (Some 1) 2; _ ← rt_spi_take_bus 90000000 1;
   rt_spi_take 1 1) used = Ok (0, s') /\ v_sel (hw s') = {[3; 7]}.
Proof. eexists. split; [vm_compute; reflexivity|]. by vm_compute. Qed.
End SpiDemo.
