(* ===== verification/Sfud.v ===== *)
(** * The flash driver (components/spi/sfud/src/sfud.c, sfud_sfdp.c)

    The relay's files live on a serial NOR flash.  The driver finds out what
    chip it has, and reads, erases and programs it through one function that
    sends bytes in a frame and reads the answer ([spi.wr]), which is an
    operation of a class here; [SpiFlash] gives it on the SPI bus.  The lock of
    the flash is taken and released around each operation; its calls and the
    retry delay are operations of the class too.  [SFUD_ASSERT] and printing
    are empty in this configuration.  A buffer handed to a function is the list
    of its bytes. *)
From S2P Require Import Prelude CC1101 KernelService.

(** ** Constants *)

Definition SFUD_CMD_WRITE_ENABLE : Z := 0x06.
Definition SFUD_CMD_WRITE_DISABLE : Z := 0x04.
Definition SFUD_CMD_READ_STATUS_REGISTER : Z := 0x05.
Definition SFUD_VOLATILE_SR_WRITE_ENABLE : Z := 0x50.
Definition SFUD_CMD_WRITE_STATUS_REGISTER : Z := 0x01.
Definition SFUD_CMD_PAGE_PROGRAM : Z := 0x02.
Definition SFUD_CMD_AAI_WORD_PROGRAM : Z := 0xAD.
Definition SFUD_CMD_ERASE_CHIP : Z := 0xC7.
Definition SFUD_CMD_READ_DATA : Z := 0x03.
Definition SFUD_CMD_JEDEC_ID : Z := 0x9F.
Definition SFUD_CMD_READ_SFDP_REGISTER : Z := 0x5A.
Definition SFUD_CMD_ENABLE_RESET : Z := 0x66.
Definition SFUD_CMD_RESET : Z := 0x99.
Definition SFUD_CMD_ENTER_4B_ADDRESS_MODE : Z := 0xB7.
Definition SFUD_CMD_EXIT_4B_ADDRESS_MODE : Z := 0xE9.
Definition SFUD_DUMMY_DATA : Z := 0xFF.
Definition SFUD_STATUS_REGISTER_BUSY : Z := 1.
Definition SFUD_STATUS_REGISTER_WEL : Z := 2.
Definition SFUD_SUCCESS : Z := 0.
Definition SFUD_ERR_NOT_FOUND : Z := 1.
Definition SFUD_ERR_WRITE : Z := 2.
Definition SFUD_ERR_TIMEOUT : Z := 4.
Definition SFUD_ERR_ADDR_OUT_OF_BOUND : Z := 5.
Definition SFUD_WM_PAGE_256B : Z := 1.
Definition SFUD_WM_BYTE : Z := 2.
Definition SFUD_WM_AAI : Z := 4.
Definition SFUD_WM_DUAL_BUFFER : Z := 8.
Definition SUPPORT_MAX_SFDP_MAJOR_REV : Z := 1.
Definition BASIC_TABLE_LEN : Z := 9.

(** ** Data *)

(** Names are only printed. *)
Record sfud_flash_chip := mkFlashChip {
  mf_id : Z; type_id : Z; capacity_id : Z; capacity : Z; write_mode : Z; erase_gran : Z; erase_gran_cmd : Z }.
Record eraser := mkEraser { er_size : Z; er_cmd : Z }.
Record sfud_sfdp := mkSfdp {
  available : bool; major_rev : Z; minor_rev : Z; write_gran : Z; erase_4k : bool; erase_4k_cmd : Z;
  sr_is_non_vola : bool; vola_sr_we_cmd : Z; addr_3_byte : bool; addr_4_byte : bool; sfdp_capacity : Z;
  erasers : list eraser }.
Record sfud_flash := mkFlash {
  chip : sfud_flash_chip; init_ok : bool; addr_in_4_byte : bool; retry_times : Z; sfdp : sfud_sfdp }.

Definition set_chip c (f : sfud_flash) : sfud_flash := mkFlash c (init_ok f) (addr_in_4_byte f) (retry_times f) (sfdp f).
Definition set_init_ok b (f : sfud_flash) : sfud_flash := mkFlash (chip f) b (addr_in_4_byte f) (retry_times f) (sfdp f).
Definition set_addr_in_4_byte b (f : sfud_flash) : sfud_flash := mkFlash (chip f) (init_ok f) b (retry_times f) (sfdp f).
Definition set_sfdp s (f : sfud_flash) : sfud_flash := mkFlash (chip f) (init_ok f) (addr_in_4_byte f) (retry_times f) s.

(** [SFUD_FLASH_CHIP_TABLE]. *)
Definition flash_chip_table : list sfud_flash_chip :=
  [mkFlashChip 0x1F 0x26 0x00 (2*1024*1024) (Z.lor SFUD_WM_BYTE SFUD_WM_DUAL_BUFFER) 512 0x81;
   mkFlashChip 0xEF 0x40 0x13 (512*1024) SFUD_WM_PAGE_256B 4096 0x20;
   mkFlashChip 0xBF 0x25 0x41 (2*1024*1024) (Z.lor SFUD_WM_BYTE SFUD_WM_AAI) 4096 0x20;
   mkFlashChip 0x20 0x20 0x16 (4*1024*1024) SFUD_WM_PAGE_256B (64*1024) 0xD8;
   mkFlashChip 0x20 0x20 0x14 (1*1024*1024) SFUD_WM_PAGE_256B (64*1024) 0xD8;
   mkFlashChip 0x20 0x20 0x13 (512*1024) SFUD_WM_PAGE_256B (64*1024) 0xD8;
   mkFlashChip 0x1C 0x30 0x16 (4*1024*1024) SFUD_WM_PAGE_256B 4096 0x20;
   mkFlashChip 0xC8 0x40 0x17 (8*1024*1024) SFUD_WM_PAGE_256B 4096 0x20;
   mkFlashChip 0xC8 0x40 0x15 (2*1024*1024) SFUD_WM_PAGE_256B 4096 0x20;
   mkFlashChip 0x01 0x40 0x15 (2*1024*1024) SFUD_WM_PAGE_256B 4096 0x20;
   mkFlashChip 0x37 0x30 0x14 (1*1024*1024) SFUD_WM_PAGE_256B 4096 0x20;
   mkFlashChip 0x8C 0x20 0x13 (512*1024) (Z.lor SFUD_WM_BYTE SFUD_WM_AAI) 4096 0x20;
   mkFlashChip 0xBF 0x25 0x41 (2*1024*1024) (Z.lor SFUD_WM_BYTE SFUD_WM_AAI) 4096 0x20;
   mkFlashChip 0xEF 0x40 0x19 (30*1024*1024) SFUD_WM_PAGE_256B 4096 0x20].

(** [spi.wr out n]: the bytes of one frame and the [n] bytes read behind them;
    [spi.lock], [spi.unlock] and [retry.delay]. *)
Class FlashPort (W : Type) := {
  wr : list Z -> Z -> drv W (Z * list Z);
  spi_lock : W -> W;
  spi_unlock : W -> W;
  retry_delay : W -> W }.

(** [x << k] on [int], put into a [uint32_t]: by more than the width is undefined. *)
Definition shl_int (x k : Z) : res Z :=
  if (0 <=? k) && (k <? 32) then Ok (u32 (Z.shiftl x k)) else Fault SignedOverflow.

(** [uint32_t] remainder. *)
Definition mod_u32 (a b : Z) : res Z := if b =? 0 then Fault DivZero else Ok (a mod b).

Section Sfud.
Context {W : Type} `{FlashPort W}.

Definition send (out : list Z) : drv W Z := r ← wr out 0; mret r.1.
Definition lock : drv W unit := drv_do spi_lock.
Definition unlock : drv W unit := drv_do spi_unlock.

(** ** Basic commands *)

(** [None]: the status was not read. *)
Definition sfud_read_status : drv W (Z * option Z) :=
  r ← wr [SFUD_CMD_READ_STATUS_REGISTER] 1;
  mret (r.1, if r.1 =? SFUD_SUCCESS then Some (rd r.2 0) else None).

(** [retry_times] more polls, with a delay before each. *)
Fixpoint wait_busy_loop (retry : nat) : drv W Z :=
  r ← sfud_read_status;
  if match r with (0, Some status) => Z.land status SFUD_STATUS_REGISTER_BUSY =? 0 | _ => false end then mret SFUD_SUCCESS
  else match retry with
       | O => mret SFUD_ERR_TIMEOUT
       | S retry' => _ ← drv_do retry_delay; wait_busy_loop retry'
       end.
Definition wait_busy (flash : sfud_flash) : drv W Z := wait_busy_loop (Z.to_nat (retry_times flash)).

(** Masked with 2, the status is compared with 1 when writing is disabled. *)
Definition set_write_enabled (enabled : bool) : drv W Z :=
  result ← send [if enabled then SFUD_CMD_WRITE_ENABLE else SFUD_CMD_WRITE_DISABLE];
  if negb (result =? SFUD_SUCCESS) then mret result else
  r ← sfud_read_status;
  match r with
  | (0, Some register_status) =>
      if enabled && (Z.land register_status SFUD_STATUS_REGISTER_WEL =? 0) then mret SFUD_ERR_WRITE
      else if negb enabled && (Z.land register_status SFUD_STATUS_REGISTER_WEL =? 1) then mret SFUD_ERR_WRITE
      else mret SFUD_SUCCESS
  | _ => mret r.1
  end.

(** Most significant byte first, four bytes or three. *)
Definition make_adress_byte_array (flash : sfud_flash) (addr : Z) : list Z :=
  let len := if addr_in_4_byte flash then 4 else 3 in
  map (fun i => Z.land (Z.shiftr addr ((len - (i + 1)) * 8)) 0xFF) (seqZ 0 len).

Definition set_4_byte_address_mode (enabled : bool) (flash : sfud_flash) : drv W (Z * sfud_flash) :=
  result ← set_write_enabled true;
  if negb (result =? SFUD_SUCCESS) then mret (result, flash) else
  result ← send [if enabled then SFUD_CMD_ENTER_4B_ADDRESS_MODE else SFUD_CMD_EXIT_4B_ADDRESS_MODE];
  mret (result, if result =? SFUD_SUCCESS then set_addr_in_4_byte enabled flash else flash).

(** Both bytes go out in one frame. *)
Definition reset (flash : sfud_flash) : drv W Z :=
  result ← send [SFUD_CMD_ENABLE_RESET; SFUD_CMD_RESET];
  if result =? SFUD_SUCCESS then wait_busy flash else mret result.

Definition read_jedec_id (flash : sfud_flash) : drv W (Z * sfud_flash) :=
  r ← wr [SFUD_CMD_JEDEC_ID] 3;
  let c := chip flash in
  mret (r.1, if r.1 =? SFUD_SUCCESS then
               set_chip (mkFlashChip (rd r.2 0) (rd r.2 1) (rd r.2 2) (capacity c) (write_mode c) (erase_gran c)
                           (erase_gran_cmd c)) flash
             else flash).

Definition sfud_write_status (is_volatile : bool) (status : Z) : drv W Z :=
  result ← (if is_volatile then send [SFUD_VOLATILE_SR_WRITE_ENABLE] else set_write_enabled true);
  if result =? SFUD_SUCCESS then send [SFUD_CMD_WRITE_STATUS_REGISTER; status] else mret result.

(** ** Reading *)

Definition sfud_read (flash : sfud_flash) (addr size : Z) : drv W (Z * list Z) :=
  if capacity (chip flash) <? u32 (addr + size) then mret (SFUD_ERR_ADDR_OUT_OF_BOUND, []) else
  _ ← lock;
  result ← wait_busy flash;
  r ← (if result =? SFUD_SUCCESS then wr (SFUD_CMD_READ_DATA :: make_adress_byte_array flash addr) size
       else mret (result, []));
  _ ← unlock; mret r.

(** ** Erasing *)

Definition sfud_chip_erase (flash : sfud_flash) : drv W Z :=
  _ ← lock;
  result ← (result ← set_write_enabled true;
            if negb (result =? SFUD_SUCCESS) then mret result else
            result ← send (if negb (Z.land (write_mode (chip flash)) SFUD_WM_DUAL_BUFFER =? 0)
                           then [SFUD_CMD_ERASE_CHIP; 0x94; 0x80; 0x9A] else [SFUD_CMD_ERASE_CHIP]);
            if negb (result =? SFUD_SUCCESS) then mret result else wait_busy flash);
  _ ← set_write_enabled false;
  _ ← unlock; mret result.

(** From the last eraser down to the first. *)
Fixpoint suitable (l : list eraser) (i : nat) (addr erase_size : Z) : nat :=
  match l !! i with
  | Some e =>
      if negb (er_size e =? 0) && (er_size e <=? erase_size) && (addr mod er_size e =? 0) then i
      else match i with O => O | S i' => suitable l i' addr erase_size end
  | None => O
  end.
Definition sfud_sfdp_get_suitable_eraser (l : list eraser) (addr erase_size : Z) : res nat :=
  r ← mod_u32 addr (er_size (default (mkEraser 0 0) (l !! 0%nat)));
  Ok (if negb (r =? 0) then 0%nat else suitable l 3 addr erase_size).

Definition choose_eraser (flash : sfud_flash) (addr size : Z) : res eraser :=
  if available (sfdp flash) then
    i ← sfud_sfdp_get_suitable_eraser (erasers (sfdp flash)) addr size;
    Ok (default (mkEraser 0 0) (erasers (sfdp flash) !! i))
  else Ok (mkEraser (erase_gran (chip flash)) (erase_gran_cmd (chip flash))).

(** One round sends one erase command; a round takes at least a byte off [size]. *)
Fixpoint erase_loop (fuel : nat) (flash : sfud_flash) (addr size : Z) : drv W Z :=
  match fuel with
  | O => drv_lift (Fault Hang)
  | S fuel' =>
      if size =? 0 then mret SFUD_SUCCESS else
      e ← drv_lift (choose_eraser flash addr size);
      result ← set_write_enabled true;
      if negb (result =? SFUD_SUCCESS) then mret result else
      result ← send (er_cmd e :: make_adress_byte_array flash addr);
      if negb (result =? SFUD_SUCCESS) then mret result else
      result ← wait_busy flash;
      if negb (result =? SFUD_SUCCESS) then mret result else
      r ← drv_lift (mod_u32 addr (er_size e));
      let step := er_size e - r in
      if step <? size then erase_loop fuel' flash (u32 (addr + step)) (size - step) else mret SFUD_SUCCESS
  end.

Definition sfud_erase (flash : sfud_flash) (addr size : Z) : drv W Z :=
  if capacity (chip flash) <? u32 (addr + size) then mret SFUD_ERR_ADDR_OUT_OF_BOUND else
  if (addr =? 0) && (size =? capacity (chip flash)) then sfud_chip_erase flash else
  _ ← lock;
  result ← erase_loop (S (Z.to_nat size)) flash addr size;
  _ ← set_write_enabled false;
  _ ← unlock; mret result.

(** ** Programming *)

(** [memcpy] of [n] bytes from a buffer. *)
Definition bytes_of (data : list Z) (n : Z) : res (list Z) :=
  if Z.of_nat (length data) <? n then Fault OutOfBounds else Ok (take (Z.to_nat n) data).

(** One round sends one page program command. *)
Fixpoint write_loop (fuel : nat) (flash : sfud_flash) (addr size gran : Z) (data : list Z) : drv W Z :=
  match fuel with
  | O => drv_lift (Fault Hang)
  | S fuel' =>
      if size =? 0 then mret SFUD_SUCCESS else
      result ← set_write_enabled true;
      if negb (result =? SFUD_SUCCESS) then mret result else
      let cmd := SFUD_CMD_PAGE_PROGRAM :: make_adress_byte_array flash addr in
      let data_size := if gran - addr mod gran <? size then gran - addr mod gran else size in
      d ← drv_lift (bytes_of data data_size);
      result ← send (cmd ++ d);
      if negb (result =? SFUD_SUCCESS) then mret result else
      result ← wait_busy flash;
      if negb (result =? SFUD_SUCCESS) then mret result else
      write_loop fuel' flash (u32 (addr + data_size)) (size - data_size) gran (drop (Z.to_nat data_size) data)
  end.

Definition page256_or_1_byte_write (flash : sfud_flash) (addr size gran : Z) (data : list Z) : drv W Z :=
  if capacity (chip flash) <? u32 (addr + size) then mret SFUD_ERR_ADDR_OUT_OF_BOUND else
  _ ← lock;
  result ← write_loop (S (Z.to_nat size)) flash addr size gran data;
  _ ← set_write_enabled false;
  _ ← unlock; mret result.

(** The word loop; [cmd_data] has room for six bytes.  Returns the address, size and data left. *)
Fixpoint aai_loop (fuel : nat) (flash : sfud_flash) (first_write : bool) (addr size : Z) (data : list Z)
    : drv W (Z * (Z * Z * list Z)) :=
  match fuel with
  | O => drv_lift (Fault Hang)
  | S fuel' =>
      if size <? 2 then mret (SFUD_SUCCESS, (addr, size, data)) else
      d ← drv_lift (bytes_of data 2);
      let cmd := SFUD_CMD_AAI_WORD_PROGRAM :: (if first_write then make_adress_byte_array flash addr else []) ++ d in
      if (6 <? length cmd)%nat then drv_lift (Fault OutOfBounds) else
      result ← send cmd;
      if negb (result =? SFUD_SUCCESS) then mret (result, (addr, size, data)) else
      result ← wait_busy flash;
      if negb (result =? SFUD_SUCCESS) then mret (result, (addr, size, data)) else
      aai_loop fuel' flash false (u32 (addr + 2)) (size - 2) (drop 2 data)
  end.

(** [size--] wraps around when an odd address comes with no data. *)
Definition aai_write (flash : sfud_flash) (addr size : Z) (data : list Z) : drv W Z :=
  if capacity (chip flash) <? u32 (addr + size) then mret SFUD_ERR_ADDR_OUT_OF_BOUND else
  _ ← lock;
  result ←
    ('(result, (addr, size, data)) ←
       (if negb (addr mod 2 =? 0) then
          result ← page256_or_1_byte_write flash addr 1 1 data;
          mret (result, (u32 (addr + 1), if result =? SFUD_SUCCESS then u32 (size - 1) else size, drop 1 data))
        else mret (SFUD_SUCCESS, (addr, size, data)));
     if negb (result =? SFUD_SUCCESS) then mret result else
     result ← set_write_enabled true;
     if negb (result =? SFUD_SUCCESS) then mret result else
     '(result, (addr, size, data)) ← aai_loop (S (Z.to_nat size)) flash true addr size data;
     if negb (result =? SFUD_SUCCESS) then mret result else
     result ← set_write_enabled false;
     if (result =? SFUD_SUCCESS) && (size =? 1) then page256_or_1_byte_write flash addr 1 1 data else mret result);
  _ ← (if negb (result =? SFUD_SUCCESS) then set_write_enabled false else mret SFUD_SUCCESS);
  _ ← unlock; mret result.

(** The byte mode of a chip described by SFDP is none of the three. *)
Definition sfud_write (flash : sfud_flash) (addr size : Z) (data : list Z) : drv W Z :=
  if negb (Z.land (write_mode (chip flash)) SFUD_WM_PAGE_256B =? 0) then page256_or_1_byte_write flash addr size 256 data
  else if negb (Z.land (write_mode (chip flash)) SFUD_WM_AAI =? 0) then aai_write flash addr size data
  else mret SFUD_SUCCESS.

Definition sfud_erase_write (flash : sfud_flash) (addr size : Z) (data : list Z) : drv W Z :=
  result ← sfud_erase flash addr size;
  if result =? SFUD_SUCCESS then sfud_write flash addr size data else mret result.
End Sfud.
