(* ===== verification/SfudInit.v ===== *)
(** * Finding out what flash there is (sfud.c, sfud_sfdp.c)

    The chip's identification and its SFDP tables, the choice of write mode and
    erase granularity, and the initialisation of a flash device. *)
From S2P Require Import Prelude CC1101 KernelService Sfud.

(** [printing] the manufacturer's name is left out. *)
Record sfdp_para_header := mkHeader { h_id : Z; h_minor_rev : Z; h_major_rev : Z; h_len : Z; h_ptp : Z }.

Section Init.
Context {W : Type} `{FlashPort W}.

Definition read_sfdp_data (addr size : Z) : drv W (Z * list Z) :=
  wr [SFUD_CMD_READ_SFDP_REGISTER; Z.land (Z.shiftr addr 16) 0xFF; Z.land (Z.shiftr addr 8) 0xFF;
          Z.land (Z.shiftr addr 0) 0xFF; SFUD_DUMMY_DATA] size.

Definition set_available b (s : sfud_sfdp) : sfud_sfdp :=
  mkSfdp b (major_rev s) (minor_rev s) (write_gran s) (erase_4k s) (erase_4k_cmd s) (sr_is_non_vola s) (vola_sr_we_cmd s)
    (addr_3_byte s) (addr_4_byte s) (sfdp_capacity s) (erasers s).
Definition set_revision major minor (s : sfud_sfdp) : sfud_sfdp :=
  mkSfdp (available s) major minor (write_gran s) (erase_4k s) (erase_4k_cmd s) (sr_is_non_vola s) (vola_sr_we_cmd s)
    (addr_3_byte s) (addr_4_byte s) (sfdp_capacity s) (erasers s).

Definition read_sfdp_header (s : sfud_sfdp) : drv W (bool * sfud_sfdp) :=
  let s := set_available false s in
  '(result, header) ← read_sfdp_data 0 8;
  if negb (result =? SFUD_SUCCESS) then mret (false, s) else
  if negb ((rd header 0 =? 83) && (rd header 1 =? 70) && (rd header 2 =? 68) && (rd header 3 =? 80)) then mret (false, s) else
  let s := set_revision (rd header 5) (rd header 4) s in
  mret (rd header 5 <=? SUPPORT_MAX_SFDP_MAJOR_REV, s).

Definition read_basic_header : drv W (option sfdp_para_header) :=
  '(result, header) ← read_sfdp_data 8 8;
  if negb (result =? SFUD_SUCCESS) then mret None else
  let h := mkHeader (rd header 0) (rd header 1) (rd header 2) (rd header 3)
             (Z.lor (Z.lor (rd header 4) (Z.shiftl (rd header 5) 8)) (Z.shiftl (rd header 6) 16)) in
  if SUPPORT_MAX_SFDP_MAJOR_REV <? h_major_rev h then mret None else
  if h_len h <? BASIC_TABLE_LEN then mret None else mret (Some h).
End Init.

(** The erasers of the table, in its order; entries of size code 0 are skipped. *)
Fixpoint collect_erasers (n : nat) (i : Z) (table : list Z) : res (list eraser) :=
  match n with
  | O => Ok []
  | S n' =>
      if negb (rd table (28 + 2 * i) =? 0) then
        size ← shl_int 1 (rd table (28 + 2 * i));
        l ← collect_erasers n' (i + 1) table; Ok (mkEraser size (rd table (28 + 2 * i + 1)) :: l)
      else collect_erasers n' (i + 1) table
  end.
(** They overwrite the first entries of the old list. *)
Definition store_erasers (new old : list eraser) : list eraser := new ++ drop (length new) old.

(** The inner loop of the sort: entry [i] against entry [j]. *)
Definition sort_step (i j : nat) (l : list eraser) : list eraser :=
  match l !! i, l !! j with
  | Some a, Some b => if negb (er_size b =? 0) && (er_size b <? er_size a) then <[j := a]> (<[i := b]> l) else l
  | _, _ => l
  end.
Definition sort_pass (i : nat) (l : list eraser) : list eraser :=
  match l !! i with
  | Some a => if negb (er_size a =? 0) then foldl (fun l j => sort_step i j l) l (seq (S i) (3 - i)) else l
  | None => l
  end.
Definition sort_erasers (l : list eraser) : list eraser := foldl (fun l i => sort_pass i l) l (seq 0 4).

(** Capacity in bytes from the second word of the table, or [None] above 4 GB. *)
Definition table_capacity (table : list Z) : res (option Z) :=
  top ← shl_int (rd table 7) 24;
  let table2_temp := Z.lor (Z.lor (Z.lor top (Z.shiftl (rd table 6) 16)) (Z.shiftl (rd table 5) 8)) (rd table 4) in
  if Z.shiftr (Z.land (rd table 7) 0x80) 7 =? 0 then Ok (Some (1 + Z.shiftr table2_temp 3)) else
  let table2_temp := Z.land table2_temp 0x7FFFFFFF in
  if 35 <? table2_temp then Ok None else
  c ← shl_int 1 (table2_temp - 3); Ok (Some c).

(** What the table says, put into [s]; [false] at a value that is not supported. *)
Definition parse_basic_table (table : list Z) (s : sfud_sfdp) : res (bool * sfud_sfdp) :=
  let s1 e4k := mkSfdp (available s) (major_rev s) (minor_rev s) (write_gran s) e4k (rd table 1) (sr_is_non_vola s)
                  (vola_sr_we_cmd s) (addr_3_byte s) (addr_4_byte s) (sfdp_capacity s) (erasers s) in
  let mode4k := Z.land (rd table 0) 3 in
  if negb ((mode4k =? 1) || (mode4k =? 3)) then Ok (false, s1 (erase_4k s)) else
  let s := s1 (mode4k =? 1) in
  let gran := if Z.shiftr (Z.land (rd table 0) 4) 2 =? 0 then 1 else 256 in
  let non_vola := Z.shiftr (Z.land (rd table 0) 8) 3 =? 0 in
  let we_cmd := if non_vola then vola_sr_we_cmd s
                else if Z.shiftr (Z.land (rd table 0) 16) 4 =? 0 then SFUD_VOLATILE_SR_WRITE_ENABLE else SFUD_CMD_WRITE_ENABLE in
  let bytes := Z.shiftr (Z.land (rd table 2) 6) 1 in
  let s2 b3 b4 cap er := mkSfdp (available s) (major_rev s) (minor_rev s) gran (erase_4k s) (erase_4k_cmd s) non_vola we_cmd
                  b3 b4 cap er in
  if bytes =? 3 then Ok (false, s2 false false (sfdp_capacity s) (erasers s)) else
  let b3 := negb (bytes =? 2) in
  let b4 := negb (bytes =? 0) in
  cap ← table_capacity table;
  match cap with
  | None => Ok (false, s2 b3 b4 0 (erasers s))
  | Some cap =>
      l ← collect_erasers 4 0 table;
      Ok (true, set_available true (s2 b3 b4 cap (sort_erasers (store_erasers l (erasers s)))))
  end.

Section Init2.
Context {W : Type} `{FlashPort W}.

Definition read_basic_table (h : sfdp_para_header) (s : sfud_sfdp) : drv W (bool * sfud_sfdp) :=
  '(result, table) ← read_sfdp_data (h_ptp h) (BASIC_TABLE_LEN * 4);
  if negb (result =? SFUD_SUCCESS) then mret (false, s) else drv_lift (parse_basic_table table s).

Definition sfud_read_sfdp (flash : sfud_flash) : drv W (bool * sfud_flash) :=
  '(ok, s) ← read_sfdp_header (sfdp flash);
  if negb ok then mret (false, set_sfdp s flash) else
  h ← read_basic_header;
  match h with
  | None => mret (false, set_sfdp s flash)
  | Some h => '(ok, s) ← read_basic_table h s; mret (ok, set_sfdp s flash)
  end.

(** The smallest eraser that is there. *)
Definition smallest_eraser (l : list eraser) : eraser :=
  foldl (fun e x => if negb (er_size x =? 0) && (er_size x <? er_size e) then x else e)
    (default (mkEraser 0 0) (l !! 0%nat)) (drop 1 (take 4 l)).

Definition lacks (c : sfud_flash_chip) : bool :=
  (capacity c =? 0) || (write_mode c =? 0) || (erase_gran c =? 0) || (erase_gran_cmd c =? 0).

(** The chip's parameters, from SFDP or else from the table of known chips. *)
Definition chip_parameters (sfdp_ok : bool) (flash : sfud_flash) : sfud_flash :=
  let c := chip flash in
  if sfdp_ok then
    let s := sfdp flash in
    let e := smallest_eraser (erasers s) in
    set_chip (mkFlashChip (mf_id c) (type_id c) (capacity_id c) (sfdp_capacity s)
                (if write_gran s =? 1 then SFUD_WM_BYTE else SFUD_WM_PAGE_256B) (er_size e) (er_cmd e)) flash
  else
    match List.find (fun t => (mf_id t =? mf_id c) && (type_id t =? type_id c) && (capacity_id t =? capacity_id c)) flash_chip_table with
    | Some t => set_chip (mkFlashChip (mf_id c) (type_id c) (capacity_id c) (capacity t) (write_mode t) (erase_gran t) (erase_gran_cmd t)) flash
    | None => flash
    end.

(** [sfud_spi_port_init] sets the operations and the number of retries. *)
Definition hardware_init (flash : sfud_flash) : drv W (Z * sfud_flash) :=
  let flash := mkFlash (chip flash) (init_ok flash) (addr_in_4_byte flash) (60 * 10000) (sfdp flash) in
  '(result, flash) ←
    (if lacks (chip flash) then
       '(result, flash) ← read_jedec_id flash;
       if negb (result =? SFUD_SUCCESS) then mret (result, flash) else
       '(ok, flash) ← sfud_read_sfdp flash;
       mret (SFUD_SUCCESS, chip_parameters ok flash)
     else mret (SFUD_SUCCESS, flash));
  if negb (result =? SFUD_SUCCESS) then mret (result, flash) else
  if lacks (chip flash) then mret (SFUD_ERR_NOT_FOUND, flash) else
  result ← reset flash;
  if negb (result =? SFUD_SUCCESS) then mret (result, flash) else
  result ← (if negb (Z.land (write_mode (chip flash)) SFUD_WM_AAI =? 0) then sfud_write_status true 0 else mret SFUD_SUCCESS);
  if negb (result =? SFUD_SUCCESS) then mret (result, flash) else
  if 2 ^ 24 <? capacity (chip flash) then set_4_byte_address_mode true flash
  else mret (SFUD_SUCCESS, set_addr_in_4_byte false flash).

(** [software_init] does nothing. *)
Definition sfud_device_init (flash : sfud_flash) : drv W (Z * sfud_flash) :=
  '(result, flash) ← hardware_init flash;
  mret (result, set_init_ok (result =? SFUD_SUCCESS) flash).
End Init2.
