(* ===== verification/SfudSpec.v ===== *)
(** * The flash driver on a NOR chip

    What a serial NOR flash does with a frame, and the proof that the driver's
    operations are reading, filling with ones and writing of its cells. *)
From S2P Require Import Prelude CC1101 KernelService Sfud.

(** ** The chip

    [busy] counts the frames until a program or erase operation is done;
    [four] is the 4-byte address mode. *)
Record nor := mkNor { cells : list Z; wel : bool; busy : nat; four : bool }.

(** Erase commands with their block sizes, identification, SFDP data, and how
    long an operation takes. *)
Record nor_kind := mkKind { nk_erasers : list (Z * Z); nk_id : list Z; nk_sfdp : list Z; nk_time : nat }.

Definition addr_of (bs : list Z) : Z := foldl (fun a b => 256 * a + b) 0 bs.
Definition naddr (c : nor) : nat := if four c then 4 else 3.
Definition status (c : nor) : Z := (if busy c then 0 else 1) + (if wel c then 2 else 0).

(** The answer while the next byte is clocked in, after the bytes [inp] of this frame. *)
Definition nor_out (K : nor_kind) (c : nor) (inp : list Z) : Z :=
  match inp with
  | [] => 0xFF
  | cmd :: rest =>
      if cmd =? 0x05 then status c else
      if (0 <? busy c)%nat then 0xFF else
      if cmd =? 0x03 then
        if (length rest <? naddr c)%nat then 0xFF
        else u8 (rd (cells c) (addr_of (take (naddr c) rest) + Z.of_nat (length rest - naddr c)))
      else if cmd =? 0x9F then u8 (rd (nk_id K) (Z.of_nat (length rest)))
      else if cmd =? 0x5A then
        if (length rest <? 4)%nat then 0xFF else u8 (rd (nk_sfdp K) (addr_of (take 3 rest) + Z.of_nat (length rest - 4)))
      else 0xFF
  end.

(** Programming clears bits, and wraps around within a page of 256 bytes. *)
Fixpoint program (base off : Z) (data cs : list Z) : list Z :=
  match data with
  | [] => cs
  | d :: data' => program base (off + 1) data'
                    (upd cs (base + off mod 256) (Z.land (rd cs (base + off mod 256)) d))
  end.
Definition erase_block (size a : Z) (cs : list Z) : list Z :=
  splice cs (a - a mod size) (replicate (Z.to_nat size) 0xFF).
Definition started (K : nor_kind) (c : nor) (cs : list Z) : nor := mkNor cs false (nk_time K) (four c).

(** What the frame does when the chip is released. *)
Definition nor_exec (K : nor_kind) (c : nor) (inp : list Z) : nor :=
  match inp with
  | [] => c
  | cmd :: rest =>
      if (0 <? busy c)%nat then mkNor (cells c) (wel c) (pred (busy c)) (four c) else
      if cmd =? 0x06 then mkNor (cells c) true 0 (four c)
      else if cmd =? 0x04 then mkNor (cells c) false 0 (four c)
      else if cmd =? 0xB7 then mkNor (cells c) (wel c) 0 true
      else if cmd =? 0xE9 then mkNor (cells c) (wel c) 0 false
      else if (cmd =? 0x05) || (cmd =? 0x03) || (cmd =? 0x9F) || (cmd =? 0x5A) || (cmd =? 0x66) || negb (wel c) then c
      else if cmd =? 0x02 then
        if (naddr c <? length rest)%nat then
          let a := addr_of (take (naddr c) rest) in
          started K c (program (a - a mod 256) (a mod 256) (drop (naddr c) rest) (cells c))
        else c
      else if (cmd =? 0xC7) && (length rest =? 0)%nat then started K c (replicate (length (cells c)) 0xFF)
      else match List.find (fun e => e.1 =? cmd) (nk_erasers K) with
           | Some (_, size) =>
               if (length rest =? naddr c)%nat then started K c (erase_block size (addr_of rest) (cells c)) else c
           | None => c
           end
  end.

(** A frame: the bytes sent, then [n] bytes read while dummy bytes are sent. *)
Definition nor_frame (K : nor_kind) (out : list Z) (n : nat) (c : nor) : list Z * nor :=
  (map (fun i => nor_out K c (out ++ replicate i 0xFF)) (seq 0 n), nor_exec K c (out ++ replicate n 0xFF)).

(** A port whose frames reach such a chip: [sees w c] says that the chip is in
    state [c] and the port ready for the next frame. *)
Class NorPort (W : Type) `{FlashPort W} (K : nor_kind) := {
  sees : W -> nor -> Prop;
  law_wr : forall out n w c, sees w c -> out <> [] -> 0 <= n -> exists w',
    wr out n w = Ok ((SFUD_SUCCESS, (nor_frame K out (Z.to_nat n) c).1), w')
    /\ sees w' (nor_frame K out (Z.to_nat n) c).2;
  law_spi_lock : forall w c, sees w c -> sees (spi_lock w) c;
  law_spi_unlock : forall w c, sees w c -> sees (spi_unlock w) c;
  law_retry_delay : forall w c, sees w c -> sees (retry_delay w) c }.

Section Correct.
Context {W : Type} (K : nor_kind) `{NorPort W K}.

(** The computation returns [r] and leaves the chip in state [c]. *)
Definition yields {A} (m : drv W A) (w : W) (r : A) (c : nor) : Prop := exists w', m w = Ok (r, w') /\ sees w' c.

Lemma yields_ret {A} (a : A) w c : sees w c -> yields (mret a) w a c.
Proof. intros Hc. by exists w. Qed.
Lemma yields_bind {A B} (m : drv W A) (f : A -> drv W B) w a c b c' :
  yields m w a c -> (forall w1, sees w1 c -> yields (f a) w1 b c') -> yields (m ≫= f) w b c'.
Proof.
  intros (w1 & E1 & V1) Hf. destruct (Hf w1 V1) as (w2 & E2 & V2). exists w2. split; [|done].
  unfold mbind, drv_bind. by rewrite E1.
Qed.
Lemma yields_step {A} (m : drv W A) w a c : yields m w a c ->
  exists w1, sees w1 c /\ forall B (f : A -> drv W B), (m ≫= f) w = f a w1.
Proof. intros (w1 & E & V). exists w1. split; [done|]. intros B f. unfold mbind, drv_bind. by rewrite E. Qed.
Lemma lift_bind {A B} (a : A) (f : A -> drv W B) w : (drv_lift (Ok a) ≫= f) w = f a w.
Proof. done. Qed.

Lemma wr_ok out n w c : sees w c -> out <> [] -> 0 <= n ->
  yields (wr out n) w (SFUD_SUCCESS, (nor_frame K out (Z.to_nat n) c).1) (nor_frame K out (Z.to_nat n) c).2.
Proof. apply law_wr. Qed.
Lemma send_ok out w c : out <> [] -> sees w c -> yields (send out) w SFUD_SUCCESS (nor_exec K c out).
Proof.
  intros Ho Hc. unfold send. eapply yields_bind; [by apply wr_ok|]. intros w1 V1. apply yields_ret.
  cbn in V1. by rewrite app_nil_r in V1.
Qed.
Lemma lock_ok' w c : sees w c -> yields lock w tt c.
Proof. intros Hc. eexists. split; [done|]. by apply law_spi_lock. Qed.
Lemma unlock_ok w c : sees w c -> yields unlock w tt c.
Proof. intros Hc. eexists. split; [done|]. by apply law_spi_unlock. Qed.

Definition nor_tick (c : nor) : nor := mkNor (cells c) (wel c) (pred (busy c)) (four c).
Definition idle (c : nor) : nor := mkNor (cells c) (wel c) 0 (four c).
Definition enabled (b : bool) (c : nor) : nor := mkNor (cells c) b 0 (four c).

Lemma read_status_ok w c : sees w c -> yields sfud_read_status w (SFUD_SUCCESS, Some (status c)) (nor_tick c).
Proof.
  intros Hc. unfold sfud_read_status. eapply yields_bind; [by apply wr_ok|]. intros w1 V1.
  apply yields_ret. replace (nor_tick c) with (nor_frame K [SFUD_CMD_READ_STATUS_REGISTER] 1 c).2; [exact V1|].
  destruct c as [cs [] [|b] f]; done.
Qed.
Lemma land_busy c : Z.land (status c) SFUD_STATUS_REGISTER_BUSY =? 0 = match busy c with O => true | _ => false end.
Proof. by destruct c as [cs [] [|b] f]. Qed.

Lemma wait_busy_ok n w c : sees w c -> (busy c <= n)%nat -> yields (wait_busy_loop n) w SFUD_SUCCESS (idle c).
Proof.
  revert w c. induction n as [|n IH]; intros w c Hc Hb.
  - cbn [wait_busy_loop]. eapply yields_bind; [by apply read_status_ok|]. intros w1 V1. cbn match. rewrite land_busy.
    destruct c as [cs wl [|b] f]; [|cbn in Hb; lia]. by apply yields_ret.
  - cbn [wait_busy_loop]. eapply yields_bind; [by apply read_status_ok|]. intros w1 V1. cbn match. rewrite land_busy.
    destruct c as [cs wl [|b] f]; [by apply yields_ret|]. cbn in Hb, V1 |- *.
    eapply yields_bind; [eexists; split; [done|by apply law_retry_delay]|]. intros w2 V2.
    exact (IH w2 (nor_tick (mkNor cs wl (S b) f)) V2 ltac:(cbn; lia)).
Qed.

Lemma write_enabled_ok b w c : sees w c -> busy c = O -> yields (set_write_enabled b) w SFUD_SUCCESS (enabled b c).
Proof.
  intros Hc Hb. unfold set_write_enabled. eapply yields_bind; [by apply send_ok|]. intros w1 V1. cbn [Z.eqb SFUD_SUCCESS negb].
  assert (sees w1 (enabled b c)) as V1'.
  { replace (enabled b c) with (nor_exec K c [if b then SFUD_CMD_WRITE_ENABLE else SFUD_CMD_WRITE_DISABLE]); [done|].
    destruct c as [cs wl bz f]; cbn in *; subst; by destruct b. }
  eapply yields_bind; [by apply read_status_ok|]. intros w2 V2. cbn match. by destruct b; apply yields_ret.
Qed.

(** ** Addresses *)

Lemma addr_of_app l x : addr_of (l ++ [x]) = 256 * addr_of l + x.
Proof. unfold addr_of. by rewrite foldl_app. Qed.
Lemma address_bytes (flash : sfud_flash) addr : 0 <= addr < (if addr_in_4_byte flash then 2 ^ 32 else 2 ^ 24) ->
  addr_of (make_adress_byte_array flash addr) = addr.
Proof.
  unfold make_adress_byte_array. destruct (addr_in_4_byte flash); intros Ha.
  - change (seqZ 0 4) with [0; 1; 2; 3]. unfold addr_of. cbn [map foldl].
    change ((4 - (0 + 1)) * 8) with 24. change ((4 - (1 + 1)) * 8) with 16. change ((4 - (2 + 1)) * 8) with 8.
    change ((4 - (3 + 1)) * 8) with 0. rewrite !land_ff, !Z.shiftr_div_pow2 by lia.
    change (2 ^ 24) with 16777216. change (2 ^ 16) with 65536. change (2 ^ 8) with 256. change (2 ^ 0) with 1.
    change (2 ^ 32) with 4294967296 in Ha. lia.
  - change (seqZ 0 3) with [0; 1; 2]. unfold addr_of. cbn [map foldl].
    change ((3 - (0 + 1)) * 8) with 16. change ((3 - (1 + 1)) * 8) with 8. change ((3 - (2 + 1)) * 8) with 0.
    rewrite !land_ff, !Z.shiftr_div_pow2 by lia.
    change (2 ^ 16) with 65536. change (2 ^ 8) with 256. change (2 ^ 0) with 1. change (2 ^ 24) with 16777216 in Ha. lia.
Qed.
Lemma length_address (flash : sfud_flash) addr c : addr_in_4_byte flash = four c ->
  length (make_adress_byte_array flash addr) = naddr c.
Proof. unfold make_adress_byte_array, naddr. intros <-. by destruct (addr_in_4_byte flash). Qed.

(** ** The flash and its description *)

(** The commands that are not erase commands. *)
Definition reserved : list Z := [0x02; 0x03; 0x04; 0x05; 0x06; 0x5A; 0x66; 0x9F; 0xB7; 0xC7; 0xE9].
Definition in_kind (e : eraser) : Prop :=
  0 < er_size e /\ List.find (fun x => x.1 =? er_cmd e) (nk_erasers K) = Some (er_cmd e, er_size e) /\ er_cmd e ∉ reserved.

(** The erasers the driver uses are erasers of the chip, and their sizes are
    multiples of the granularity [g]. *)
Definition erasers_ok (flash : sfud_flash) (g : Z) : Prop :=
  if available (sfdp flash) then
    er_size (default (mkEraser 0 0) (erasers (sfdp flash) !! 0%nat)) = g
    /\ Forall (fun e => er_size e = 0 \/ in_kind e /\ (g | er_size e)) (erasers (sfdp flash)) /\ 0 < g
  else er_size (mkEraser (erase_gran (chip flash)) (erase_gran_cmd (chip flash))) = g
       /\ in_kind (mkEraser (erase_gran (chip flash)) (erase_gran_cmd (chip flash))).

Record flash_ok (flash : sfud_flash) (g : Z) (c : nor) : Prop := mkFlashOk {
  fo_four : addr_in_4_byte flash = four c;
  fo_time : (nk_time K <= Z.to_nat (retry_times flash))%nat;
  fo_capacity : capacity (chip flash) = Z.of_nat (length (cells c));
  fo_range : capacity (chip flash) <= (if four c then 2 ^ 32 - 1 else 2 ^ 24);
  fo_idle : busy c = O;
  fo_erasers : erasers_ok flash g;
  fo_gran : 0 < g;
  fo_whole : (g | capacity (chip flash));
  fo_mode : write_mode (chip flash) = SFUD_WM_PAGE_256B;
  fo_bytes : Forall is_u8 (cells c) }.

Definition with_cells (cs : list Z) (c : nor) : nor := mkNor cs false 0 (four c).

Lemma flash_ok_cells flash g c cs b : flash_ok flash g c -> length cs = length (cells c) -> Forall is_u8 cs ->
  flash_ok flash g (mkNor cs b 0 (four c)).
Proof. intros [] L Hu. by constructor; cbn; rewrite ?L. Qed.

Lemma flash_addr flash g c addr : flash_ok flash g c -> 0 <= addr < capacity (chip flash) ->
  addr_of (make_adress_byte_array flash addr) = addr.
Proof. intros F Ha. apply address_bytes. pose proof (fo_range _ _ _ F). rewrite (fo_four _ _ _ F). destruct (four c); lia. Qed.

(** The bound check of the operations passes. *)
Lemma in_bounds flash g c addr size : flash_ok flash g c -> 0 <= addr -> 0 <= size -> addr + size <= capacity (chip flash) ->
  capacity (chip flash) <? u32 (addr + size) = false.
Proof.
  intros F Ha Hs Hb. pose proof (fo_range _ _ _ F). apply Z.ltb_ge.
  assert (capacity (chip flash) < 2 ^ 32) by (destruct (four c); lia). change (2 ^ 32) with 4294967296 in *.
  unfold u32. rewrite Z.mod_small by lia. lia.
Qed.

(** ** Reading *)

Lemma frame_read flash g c addr n : flash_ok flash g c -> 0 <= addr < capacity (chip flash) ->
  addr + Z.of_nat n <= capacity (chip flash) ->
  nor_frame K (SFUD_CMD_READ_DATA :: make_adress_byte_array flash addr) n c = (slice (cells c) addr (Z.of_nat n), c).
Proof.
  intros F Ha Hb. pose proof (fo_capacity _ _ _ F) as Hc. pose proof (fo_idle _ _ _ F) as Hi.
  pose proof (length_address flash addr c (fo_four _ _ _ F)) as Hl. pose proof (flash_addr _ _ _ _ F Ha) as Hv.
  unfold nor_frame. f_equal; [|destruct c; cbn in Hi; subst; done].
  assert (room (cells c) addr (Z.of_nat n)) as Hr by (unfold room; lia).
  apply rd_ext.
  - rewrite length_map, length_seq. pose proof (length_slice (cells c) addr (Z.of_nat n) Hr ltac:(lia)). lia.
  - intros i Hi2. unfold in_range in Hi2. rewrite length_map, length_seq in Hi2.
    rewrite rd_slice by lia. unfold rd at 1. rewrite list_lookup_fmap, lookup_seq_lt by lia. cbn [fmap option_fmap option_map default].
    unfold nor_out, id. cbn [app Z.eqb SFUD_CMD_READ_DATA Pos.eqb]. rewrite Hi. change (0 <? 0)%nat with false. cbv iota.
    rewrite length_app, Hl, length_replicate. destruct (Nat.ltb_spec (naddr c + (0 + Z.to_nat i)) (naddr c)); [lia|].
    rewrite <- Hl, take_app_length. rewrite Hv, u8_id by (apply rd_u8, (fo_bytes _ _ _ F)). f_equal. lia.
Qed.

Theorem sfud_read_ok flash g w c addr size : sees w c -> flash_ok flash g c -> 0 <= addr < capacity (chip flash) -> 0 <= size ->
  addr + size <= capacity (chip flash) ->
  yields (sfud_read flash addr size) w (SFUD_SUCCESS, slice (cells c) addr size) c.
Proof.
  intros V F Ha Hs Hb. unfold sfud_read. rewrite (in_bounds _ _ _ _ _ F) by lia.
  eapply yields_bind; [by apply lock_ok'|]. intros w1 V1.
  eapply yields_bind; [apply wait_busy_ok; [exact V1|rewrite (fo_idle _ _ _ F); lia]|]. intros w2 V2.
  assert (idle c = c) as Hi by (unfold idle; rewrite <- (fo_idle _ _ _ F); by destruct c).
  rewrite Hi in V2. cbn [Z.eqb SFUD_SUCCESS].
  pose proof (frame_read flash g c addr (Z.to_nat size) F Ha) as Hf. rewrite Z2Nat.id in Hf by done. specialize (Hf Hb).
  eapply yields_bind; [by apply wr_ok|]. intros w3. rewrite Hf. intros V3.
  eapply yields_bind; [by apply unlock_ok|]. intros w4 V4. by apply yields_ret.
Qed.

(** ** Erasing *)

Definition filled (lo hi : Z) (cs : list Z) : list Z := splice cs lo (replicate (Z.to_nat (hi - lo)) 0xFF).
Lemma length_filled lo hi cs : 0 <= lo <= hi -> hi <= Z.of_nat (length cs) -> length (filled lo hi cs) = length cs.
Proof. intros. apply length_splice. rewrite length_replicate. unfold room. lia. Qed.
Lemma filled_bytes lo hi cs : 0 <= lo <= hi -> hi <= Z.of_nat (length cs) -> Forall is_u8 cs -> Forall is_u8 (filled lo hi cs).
Proof.
  intros. unfold filled, splice. repeat apply list.Forall_app_2; [by apply Forall_take|by apply Forall_replicate|by apply Forall_drop].
Qed.
Lemma filled_app lo mid hi cs : 0 <= lo <= mid -> mid <= hi <= Z.of_nat (length cs) ->
  filled mid hi (filled lo mid cs) = filled lo hi cs.
Proof.
  intros. unfold filled. set (l1 := replicate (Z.to_nat (mid - lo)) 0xFF). set (l2 := replicate (Z.to_nat (hi - mid)) 0xFF).
  assert (replicate (Z.to_nat (hi - lo)) 0xFF = l1 ++ l2) as ->.
  { unfold l1, l2. rewrite <- replicate_add. f_equal. lia. }
  assert (mid = lo + Z.of_nat (length l1)) as E by (unfold l1; rewrite length_replicate; lia).
  replace (splice (splice cs lo l1) mid l2) with (splice (splice cs lo l1) (lo + Z.of_nat (length l1)) l2) by (by rewrite <- E).
  apply splice_app. unfold l1, l2. rewrite length_app, !length_replicate. unfold room. lia.
Qed.

Lemma multiple_unique g x y : (g | x) -> (g | y) -> x - g < y < x + g -> x = y.
Proof. intros [a ->] [b ->] Hxy. assert (a = b) by nia. by subst. Qed.
Lemma multiple_next g x y : 0 < g -> (g | x) -> (g | y) -> x < y -> x + g <= y.
Proof.
  intros Hg [a ->] [b ->] Hxy. assert (a < b) by (by apply (Z.mul_lt_mono_pos_r g)). assert (a + 1 <= b) as Hab by lia.
  apply (Z.mul_le_mono_nonneg_r _ _ g) in Hab; lia.
Qed.

Lemma suitable_ok l n addr size : suitable l n addr size = O \/
  exists e, l !! suitable l n addr size = Some e /\ er_size e <> 0 /\ er_size e <= size /\ addr mod er_size e = 0.
Proof.
  induction n as [|n IH]; cbn [suitable].
  - destruct (l !! 0%nat); [|by left]. by destruct (_ && _); left.
  - destruct (l !! S n) as [e|] eqn:E; [|by left].
    destruct (negb (er_size e =? 0) && (er_size e <=? size) && (addr mod er_size e =? 0)) eqn:C; [|done].
    right. exists e. split; [done|]. apply andb_prop in C as [C C3]. apply andb_prop in C as [C1 C2].
    apply negb_true_iff, Z.eqb_neq in C1. apply Z.leb_le in C2. by apply Z.eqb_eq in C3.
Qed.

Lemma choose_eraser_ok flash g c addr size : flash_ok flash g c ->
  exists e, choose_eraser flash addr size = Ok e /\ in_kind e /\ (g | er_size e)
    /\ (er_size e = g \/ addr mod er_size e = 0 /\ er_size e <= size).
Proof.
  intros F. pose proof (fo_erasers _ _ _ F) as E. pose proof (fo_gran _ _ _ F) as Hg. unfold erasers_ok, choose_eraser in *.
  destruct (available (sfdp flash)).
  - destruct E as (E0 & El & _). set (l := erasers (sfdp flash)) in *.
    unfold sfud_sfdp_get_suitable_eraser, mod_u32. rewrite E0. destruct (Z.eqb_spec g 0); [lia|]. rewrite !bind_ret_l.
    assert (exists e, l !! 0%nat = Some e /\ er_size e = g) as (e0 & Hh0 & Hs0).
    { destruct (l !! 0%nat) as [e|]; [by exists e|]. cbn in E0. lia. }
    assert (forall e i, l !! i = Some e -> er_size e <> 0 -> in_kind e /\ (g | er_size e)) as Hall.
    { intros e i Hi Hn. pose proof (list.Forall_lookup_1 _ _ _ _ El Hi) as [?|?]; done. }
    destruct (Hall e0 0%nat Hh0 ltac:(lia)) as [K0 D0].
    destruct (negb (addr mod g =? 0)); [exists e0; rewrite Hh0; split_and!; [done..|by left]|].
    destruct (suitable_ok l 3 addr size) as [->|(e & He & Hn & Hle & Hm)]; [exists e0; rewrite Hh0; split_and!; [done..|by left]|].
    exists e. rewrite He. destruct (Hall e _ He Hn). split_and!; [done..|by right].
  - destruct E as (E0 & Ek). cbn in E0. eexists. split; [done|]. split; [done|]. cbn [er_size]. rewrite E0. split; [done|by left].
Qed.

Lemma exec_erase flash g c e addr : flash_ok flash g c -> wel c = true -> in_kind e -> 0 <= addr < capacity (chip flash) ->
  nor_exec K c (er_cmd e :: make_adress_byte_array flash addr) = started K c (erase_block (er_size e) addr (cells c)).
Proof.
  intros F Hw (Hp & Hf & Hr) Ha. unfold nor_exec. rewrite (fo_idle _ _ _ F), Hw. change (0 <? 0)%nat with false. cbv iota.
  assert (forall v, v ∈ reserved -> er_cmd e =? v = false) as N by (intros v Hv; apply Z.eqb_neq; intros Hx; apply Hr; by rewrite Hx).
  rewrite !N by (unfold reserved; rewrite ?list.elem_of_cons; tauto). cbn [orb negb andb].
  rewrite Hf, (length_address flash addr c (fo_four _ _ _ F)), Nat.eqb_refl, (flash_addr _ _ _ _ F Ha). done.
Qed.

(** The wait that follows a program or erase command. *)
Lemma wait_started flash g c cs w : flash_ok flash g c -> sees w (started K c cs) ->
  yields (wait_busy flash) w SFUD_SUCCESS (with_cells cs c).
Proof. intros F V. eapply wait_busy_ok in V; [exact V|]. cbn. apply (fo_time _ _ _ F). Qed.

Lemma enabled_ok flash g c b : flash_ok flash g c -> flash_ok flash g (enabled b c).
Proof. intros F. eapply (flash_ok_cells flash g c); [done..|apply (fo_bytes _ _ _ F)]. Qed.

(** The block that a round erases begins at [lo] and does not reach beyond the chip. *)
Lemma round_block g e addr size lo cap : 0 < g -> 0 < er_size e -> (g | er_size e) -> (g | lo) -> (g | cap) -> 0 <= lo ->
  lo <= addr < lo + g -> addr + size <= cap -> 0 < size -> er_size e = g \/ addr mod er_size e = 0 /\ er_size e <= size ->
  addr - addr mod er_size e = lo /\ lo + er_size e <= cap.
Proof.
  intros Hg Hp De Dl Dw Hl0 Hlo Hb Hs Hc. pose proof (Z.mod_pos_bound addr (er_size e) Hp) as Hm.
  pose proof (multiple_next g lo cap Hg Dl Dw ltac:(lia)) as Hn.
  assert (g | addr - addr mod er_size e) as Db.
  { apply Z.divide_trans with (er_size e); [done|]. exists (addr / er_size e). pose proof (Z.div_mod addr (er_size e)). lia. }
  assert (addr - addr mod er_size e = lo) as Elo.
  { apply (multiple_unique g); [done..|]. destruct Hc as [->|[Hz _]]; [lia|rewrite Hz in *; lia]. }
  split; [done|]. destruct Hc as [->|[Hz ?]]; lia.
Qed.

Lemma erase_loop_ok flash g fuel : forall w c addr size lo hi, sees w c -> flash_ok flash g c ->
  0 <= addr -> 0 < size -> (Z.to_nat size < fuel)%nat -> addr + size <= capacity (chip flash) ->
  (g | lo) -> (g | hi) -> lo <= addr < lo + g -> hi - g < addr + size <= hi -> 0 <= lo ->
  yields (erase_loop fuel flash addr size) w SFUD_SUCCESS (with_cells (filled lo hi (cells c)) c).
Proof.
  induction fuel as [|fuel IH]; intros w c addr size lo hi V F Ha Hs Hf Hb Dl Dh Hlo Hhi Hl0; [lia|].
  pose proof (fo_gran _ _ _ F) as Hg. pose proof (fo_whole _ _ _ F) as Dw. pose proof (fo_capacity _ _ _ F) as Hcap.
  cbn [erase_loop]. destruct (Z.eqb_spec size 0); [lia|].
  destruct (choose_eraser_ok flash g c addr size F) as (e & Ee & Ke & De & Hc). pose proof Ke as (Hp & _).
  destruct (round_block g e addr size lo _ Hg Hp De Dl Dw Hl0 Hlo Hb Hs Hc) as [Elo Hle].
  rewrite Ee. unfold yields. rewrite lift_bind.
  eapply yields_bind; [apply write_enabled_ok; [exact V|apply (fo_idle _ _ _ F)]|]. intros w2 V2. cbn [Z.eqb SFUD_SUCCESS negb].
  eapply yields_bind; [apply send_ok; [done|exact V2]|]. intros w3 V3. cbn [Z.eqb SFUD_SUCCESS negb].
  rewrite (exec_erase flash g (enabled true c) e addr) in V3 by (first [by apply enabled_ok|done|lia]).
  eapply yields_bind; [eapply wait_started; [apply (enabled_ok _ _ _ true F)|exact V3]|]. intros w5 V5. cbn [Z.eqb SFUD_SUCCESS negb].
  unfold mod_u32. destruct (Z.eqb_spec (er_size e) 0); [lia|]. unfold yields. rewrite lift_bind.
  cbn [cells enabled with_cells four] in V5. cbv zeta.
  assert (erase_block (er_size e) addr (cells c) = filled lo (lo + er_size e) (cells c)) as Eb.
  { unfold erase_block, filled. rewrite Elo. do 3 f_equal. lia. }
  rewrite Eb in V5. assert (g | lo + er_size e) as De' by (by apply Z.divide_add_r).
  assert (length (filled lo (lo + er_size e) (cells c)) = length (cells c)) as Lf by (apply length_filled; lia).
  pose proof (Z.mod_pos_bound addr (er_size e) Hp) as Hm.
  destruct (Z.ltb_spec (er_size e - addr mod er_size e) size) as [Hlt|Hge].
  - assert (u32 (addr + (er_size e - addr mod er_size e)) = lo + er_size e) as ->.
    { unfold u32. rewrite Z.mod_small; [lia|]. pose proof (fo_range _ _ _ F). destruct (four c); lia. }
    pose proof (multiple_next g (lo + er_size e) hi Hg De' Dh ltac:(lia)) as Hn2.
    pose proof (multiple_next g (hi - g) (capacity (chip flash)) Hg ltac:(by apply Z.divide_sub_r) Dw ltac:(lia)) as Hn3.
    specialize (IH w5 _ (lo + er_size e) (size - (er_size e - addr mod er_size e)) (lo + er_size e) hi V5
                  ltac:(apply (flash_ok_cells _ _ c); [done..|apply filled_bytes; [lia..|apply (fo_bytes _ _ _ F)]])).
    unfold with_cells in IH |- *. cbn [cells four] in IH. rewrite filled_app in IH by lia. apply IH; first [done|lia].
  - assert (hi = lo + er_size e) as ->.
    { apply (multiple_unique g); [done..|]. destruct Hc as [Hc|[Hz ?]]; [rewrite Hc in *|]; lia. }
    by apply yields_ret.
Qed.

Lemma filled_all cs : filled 0 (Z.of_nat (length cs)) cs = replicate (length cs) 0xFF.
Proof.
  unfold filled, splice. rewrite length_replicate. replace (Z.to_nat (Z.of_nat (length cs) - 0)) with (length cs) by lia.
  change (Z.to_nat 0) with O. cbn [take app Nat.add]. rewrite drop_ge by lia. apply app_nil_r.
Qed.

(** The end that erasing and programming share. *)
Lemma finish_ok flash g c cs b (r : Z) w : flash_ok flash g c -> sees w (mkNor cs b 0 (four c)) ->
  yields (_ ← set_write_enabled false; _ ← unlock; mret r) w r (with_cells cs c).
Proof.
  intros F V. eapply yields_bind; [by eapply write_enabled_ok; [exact V|]|]. intros w3 V3.
  eapply yields_bind; [by apply unlock_ok|]. intros w4 V4. by apply yields_ret.
Qed.

Lemma chip_erase_ok flash g w c : sees w c -> flash_ok flash g c ->
  yields (sfud_chip_erase flash) w SFUD_SUCCESS (with_cells (replicate (length (cells c)) 0xFF) c).
Proof.
  intros V F. unfold sfud_chip_erase. eapply yields_bind; [by apply lock_ok'|]. intros w1 V1.
  eapply yields_bind; [|intros w2 V2; by eapply finish_ok].
  eapply yields_bind; [apply write_enabled_ok; [exact V1|apply (fo_idle _ _ _ F)]|]. intros w2 V2. cbn [Z.eqb SFUD_SUCCESS negb].
  rewrite (fo_mode _ _ _ F). cbn [Z.land SFUD_WM_PAGE_256B SFUD_WM_DUAL_BUFFER Pos.land Z.eqb negb Z.of_N].
  eapply yields_bind; [apply send_ok; [done|exact V2]|]. intros w3 V3. cbn [Z.eqb SFUD_SUCCESS negb].
  eapply (wait_started flash g (enabled true c)) in V3; [exact V3|by apply enabled_ok].
Qed.

(** An erase fills the blocks that the range touches, and nothing else. *)
Theorem sfud_erase_ok flash g w c addr size lo hi : sees w c -> flash_ok flash g c ->
  0 <= addr -> 0 < size -> addr + size <= capacity (chip flash) ->
  (g | lo) -> (g | hi) -> lo <= addr < lo + g -> hi - g < addr + size <= hi -> 0 <= lo ->
  yields (sfud_erase flash addr size) w SFUD_SUCCESS (with_cells (filled lo hi (cells c)) c).
Proof.
  intros V F Ha Hs Hb Dl Dh Hlo Hhi Hl0. unfold sfud_erase. rewrite (in_bounds _ _ _ _ _ F) by lia.
  pose proof (fo_gran _ _ _ F) as Hg. pose proof (fo_whole _ _ _ F) as Dw. pose proof (fo_capacity _ _ _ F) as Hcap.
  destruct ((addr =? 0) && (size =? capacity (chip flash))) eqn:Ec.
  - apply andb_prop in Ec as [->%Z.eqb_eq ->%Z.eqb_eq].
    assert (lo = 0) as -> by (apply (multiple_unique g); [done|apply Z.divide_0_r|lia]).
    assert (hi = capacity (chip flash)) as -> by (apply (multiple_unique g); [done|done|lia]).
    rewrite Hcap, filled_all. by eapply chip_erase_ok.
  - eapply yields_bind; [by apply lock_ok'|]. intros w1 V1.
    eapply yields_bind; [apply (erase_loop_ok flash g _ w1 c addr size lo hi); first [done|lia]|]. intros w2 V2.
    by eapply finish_ok.
Qed.

(** ** Programming *)

(** [cs'] is [cs] with [data] programmed at [a]: bits are only cleared. *)
Definition burns (cs cs' : list Z) (a : Z) (data : list Z) : Prop :=
  written cs cs' a (Z.of_nat (length data)) (fun i => Z.land (rd cs (a + i)) (rd data i)).

Lemma burns_app cs1 cs2 cs3 a d1 d2 : 0 <= a -> burns cs1 cs2 a d1 -> burns cs2 cs3 (a + Z.of_nat (length d1)) d2 ->
  burns cs1 cs3 a (d1 ++ d2).
Proof.
  intros Ha B1 B2. unfold burns. rewrite length_app, Nat2Z.inj_add.
  eapply written_ext; [exact (written_app _ _ _ _ _ _ _ _ B1 B2 ltac:(lia) ltac:(lia))|]. intros i Hi. cbv beta.
  destruct (decide (i < Z.of_nat (length d1))).
  - unfold rd at 4. by rewrite lookup_app_l by lia.
  - destruct B1 as [_ B1]. rewrite B1 by lia. rewrite decide_False by lia. unfold rd at 4.
    rewrite lookup_app_r by lia. f_equal; [f_equal; lia|]. unfold rd. do 2 f_equal. lia.
Qed.
Lemma burns_bytes cs cs' a data : burns cs cs' a data -> 0 <= a -> Forall is_u8 cs -> Forall is_u8 cs'.
Proof.
  intros B Ha Hu. eapply written_bytes; [exact B|done|]. intros i Hi. pose proof (rd_u8 cs (a + i) Hu) as Hr. unfold is_u8.
  assert (0 <= Z.land (rd cs (a + i)) (rd data i)) by (apply Z.land_nonneg; lia).
  split; [done|]. rewrite <- (Z.mod_small (rd cs (a + i)) (2 ^ 8)) by (change (2 ^ 8) with 256; lia).
  rewrite <- Z.land_ones, <- Z.land_assoc, (Z.land_comm (Z.ones 8)), Z.land_assoc, Z.land_ones by lia.
  change (2 ^ 8) with 256. apply Z.mod_pos_bound. lia.
Qed.
Lemma burns_nil cs a : burns cs cs a [].
Proof. apply written_zero. Qed.

Lemma program_ok base data : forall off cs, 0 <= base -> 0 <= off -> off + Z.of_nat (length data) <= 256 ->
  base + off + Z.of_nat (length data) <= Z.of_nat (length cs) -> burns cs (program base off data cs) (base + off) data.
Proof.
  induction data as [|d data IH]; intros off cs Hb Ho Hp Hl; [apply burns_nil|]. cbn [program length] in *.
  rewrite Z.mod_small by lia. set (cs1 := upd cs (base + off) _).
  assert (burns cs cs1 (base + off) [d]) as B1.
  { destruct (set_written cs (base + off) (Z.land (rd cs (base + off)) d)) as (m' & E & Wr); [unfold room; lia|].
    apply set_Ok in E as [_ ->]. eapply written_ext; [exact Wr|]. intros i Hi. assert (i = 0) as -> by (cbn in Hi; lia).
    by rewrite Z.add_0_r. }
  apply (burns_app cs cs1 _ (base + off) [d] data); [lia|done|]. cbn [length].
  replace (base + off + Z.of_nat 1) with (base + (off + 1)) by lia. apply IH; [lia..|]. unfold cs1. rewrite length_upd. lia.
Qed.

Lemma exec_program flash g c addr d : flash_ok flash g c -> wel c = true -> d <> [] ->
  0 <= addr -> addr + Z.of_nat (length d) <= capacity (chip flash) -> addr mod 256 + Z.of_nat (length d) <= 256 ->
  exists cs, nor_exec K c ((SFUD_CMD_PAGE_PROGRAM :: make_adress_byte_array flash addr) ++ d) = started K c cs
    /\ burns (cells c) cs addr d.
Proof.
  intros F Hw Hd Ha Hb Hp. pose proof (length_address flash addr c (fo_four _ _ _ F)) as Hl.
  assert (0 < Z.of_nat (length d)) by (destruct d; cbn; [done|lia]).
  cbn [app]. unfold nor_exec. rewrite (fo_idle _ _ _ F), Hw. change (0 <? 0)%nat with false.
  cbn [Z.eqb SFUD_CMD_PAGE_PROGRAM Pos.eqb orb negb]. cbv iota. rewrite length_app, Hl.
  destruct (Nat.ltb_spec (naddr c) (naddr c + length d)); [|lia]. rewrite <- Hl, take_app_length, drop_app_length.
  rewrite (flash_addr flash g c addr F) by lia. eexists. split; [done|].
  pose proof (Z.mod_pos_bound addr 256 ltac:(lia)). pose proof (fo_capacity _ _ _ F).
  pose proof (program_ok (addr - addr mod 256) d (addr mod 256) (cells c)) as B.
  replace (addr - addr mod 256 + addr mod 256) with addr in B by lia. apply B; lia.
Qed.

Lemma take_pieces {A} (n k : nat) (l : list A) : (n <= k)%nat -> (k <= length l)%nat ->
  take k l = take n l ++ take (k - n) (drop n l).
Proof.
  intros. rewrite <- (take_drop n l) at 1. rewrite take_app, length_take, take_take. f_equal; f_equal; lia.
Qed.

Lemma write_loop_ok flash g fuel : forall w c addr size data, sees w c -> flash_ok flash g c -> 0 <= addr -> 0 <= size ->
  (Z.to_nat size < fuel)%nat -> addr + size <= capacity (chip flash) -> size <= Z.of_nat (length data) ->
  exists cs b, yields (write_loop fuel flash addr size 256 data) w SFUD_SUCCESS (mkNor cs b 0 (four c))
    /\ burns (cells c) cs addr (take (Z.to_nat size) data).
Proof.
  induction fuel as [|fuel IH]; intros w c addr size data V F Ha Hs Hf Hb Hd; [lia|].
  cbn [write_loop]. destruct (Z.eqb_spec size 0) as [->|Hn].
  { exists (cells c), (wel c). split; [|apply burns_nil]. apply yields_ret. rewrite <- (fo_idle _ _ _ F). by destruct c. }
  pose proof (Z.mod_pos_bound addr 256 ltac:(lia)) as Hm.
  set (n := if 256 - addr mod 256 <? size then 256 - addr mod 256 else size).
  assert (0 < n <= size /\ addr mod 256 + n <= 256) as [Hn1 Hn2] by (unfold n; destruct (Z.ltb_spec (256 - addr mod 256) size); lia).
  set (d := take (Z.to_nat n) data). assert (Z.of_nat (length d) = n) as Ld by (unfold d; rewrite length_take; lia).
  destruct (exec_program flash g (enabled true c) addr d) as (cs & Ex & B1);
    [by apply enabled_ok|done|by intros E; rewrite E in Ld; cbn in Ld; lia|lia..|].
  assert (length cs = length (cells c)) as Lc by apply B1.
  destruct (yields_step _ _ _ _ (write_enabled_ok true w c V (fo_idle _ _ _ F))) as (w1 & V1 & E1).
  destruct (yields_step _ _ _ _ (send_ok ((SFUD_CMD_PAGE_PROGRAM :: make_adress_byte_array flash addr) ++ d) w1 _ ltac:(done) V1))
    as (w2 & V2 & E2). rewrite Ex in V2.
  destruct (yields_step _ _ _ _ (wait_started flash g _ _ w2 (enabled_ok _ _ _ true F) V2)) as (w3 & V3 & E3).
  destruct (IH w3 _ (addr + n) (size - n) (drop (Z.to_nat n) data) V3) as (cs' & b & Y & B2);
    [apply (flash_ok_cells _ _ c); [done..|exact (burns_bytes _ _ _ _ B1 Ha (fo_bytes _ _ _ F))]
    |lia|lia|lia|lia|rewrite length_drop; lia|].
  exists cs', b. split.
  - unfold yields. rewrite E1. cbn [Z.eqb SFUD_SUCCESS negb]. unfold bytes_of. fold n.
    destruct (Z.ltb_spec (Z.of_nat (length data)) n); [lia|]. fold d.
    cbv zeta. rewrite lift_bind, E2. cbn [Z.eqb SFUD_SUCCESS negb]. rewrite E3. cbn [Z.eqb SFUD_SUCCESS negb].
    assert (u32 (addr + n) = addr + n) as ->; [|exact Y].
    unfold u32. apply Z.mod_small. pose proof (fo_range _ _ _ F). destruct (four c); lia.
  - rewrite (take_pieces (Z.to_nat n)) by lia. apply (burns_app _ cs); [done|exact B1|].
    fold d. rewrite Ld. by replace (Z.to_nat size - Z.to_nat n)%nat with (Z.to_nat (size - n)) by lia.
Qed.

(** Programming within bounds, across any number of pages. *)
Theorem sfud_write_ok flash g w c addr size data : sees w c -> flash_ok flash g c -> 0 <= addr -> 0 <= size ->
  addr + size <= capacity (chip flash) -> size <= Z.of_nat (length data) ->
  exists cs, yields (sfud_write flash addr size data) w SFUD_SUCCESS (with_cells cs c)
    /\ burns (cells c) cs addr (take (Z.to_nat size) data).
Proof.
  intros V F Ha Hs Hb Hd. unfold sfud_write. rewrite (fo_mode _ _ _ F).
  change (negb (Z.land SFUD_WM_PAGE_256B SFUD_WM_PAGE_256B =? 0)) with true. cbv iota.
  unfold page256_or_1_byte_write. rewrite (in_bounds _ _ _ _ _ F) by lia.
  destruct (yields_step _ _ _ _ (lock_ok' w _ V)) as (w1 & V1 & E1).
  destruct (write_loop_ok flash g (S (Z.to_nat size)) w1 c addr size data V1 F) as (cs & b & Y & B); [lia..|].
  exists cs. split; [|done]. unfold yields. rewrite E1. eapply yields_bind; [exact Y|]. intros w2 V2. by eapply finish_ok.
Qed.

(** Programming erased cells puts the bytes there. *)
Lemma burns_filled cs cs' a data : Forall is_u8 data -> room cs a (Z.of_nat (length data)) ->
  burns (filled a (a + Z.of_nat (length data)) cs) cs' a data -> cs' = splice cs a data.
Proof.
  intros Hd Hr [L B]. assert (length (filled a (a + Z.of_nat (length data)) cs) = length cs) as Lf
    by (unfold room in Hr; apply length_filled; lia).
  assert (forall i, 0 <= i -> rd (filled a (a + Z.of_nat (length data)) cs) i
    = if decide (a <= i < a + Z.of_nat (length data)) then 255 else rd cs i) as Hf.
  { intros i Hi. unfold filled. rewrite rd_splice_at; rewrite ?length_replicate; [|unfold room in *; lia|done].
    replace (Z.of_nat (Z.to_nat (a + Z.of_nat (length data) - a))) with (Z.of_nat (length data)) by lia.
    case_decide; [|done]. unfold rd. by rewrite lookup_replicate_2 by lia. }
  eapply (written_splice cs cs' a data (fun i => rd data i)); [|done|done]. split; [congruence|].
  intros i Hi. rewrite B by done. rewrite (Hf i) by done. case_decide; [|done].
  rewrite Hf, decide_True by (unfold room in Hr; lia). rewrite Z.land_comm, land_ff. apply Z.mod_small. apply rd_u8. exact Hd.
Qed.

(** Whole blocks are replaced by the data, whatever was there. *)
Theorem sfud_erase_write_ok flash g w c addr size data : sees w c -> flash_ok flash g c -> 0 <= addr -> 0 < size ->
  addr + size <= capacity (chip flash) -> (g | addr) -> (g | size) -> Z.of_nat (length data) = size -> Forall is_u8 data ->
  yields (sfud_erase_write flash addr size data) w SFUD_SUCCESS (with_cells (splice (cells c) addr data) c).
Proof.
  intros V F Ha Hs Hb Da Ds Hd Hu. pose proof (fo_gran _ _ _ F) as Hg. pose proof (fo_capacity _ _ _ F) as Hcap.
  unfold sfud_erase_write.
  destruct (yields_step _ _ _ _ (sfud_erase_ok flash g w c addr size addr (addr + size) V F Ha Hs Hb Da ltac:(by apply Z.divide_add_r)
              ltac:(lia) ltac:(lia) Ha)) as (w1 & V1 & E1).
  assert (length (filled addr (addr + size) (cells c)) = length (cells c)) as Lf by (apply length_filled; lia).
  destruct (sfud_write_ok flash g w1 _ addr size data V1) as (cs & Y & B);
    [apply (flash_ok_cells _ _ c); [done..|apply filled_bytes; [lia..|apply (fo_bytes _ _ _ F)]]|lia..|].
  cbn [cells with_cells] in B. rewrite firstn_all2 in B by lia. rewrite <- Hd in B.
  apply burns_filled in B as ->; [|done|unfold room; lia].
  unfold yields. rewrite E1. exact Y.
Qed.
End Correct.
