(* ===== verification/SpiFlash.v ===== *)
(** * The flash as a block device, on the SPI bus (components/spi/spi_flash_sfud.c)

    The device operations that the file system calls, on the flash driver of
    [Sfud]; and the driver's port on the SPI bus of [Spi], for a NOR chip that
    hangs on the bus. *)
From stdpp Require Import gmap.
From S2P Require Import Prelude CC1101 KernelService Spi Sfud SfudSpec.

(** ** The block device *)

Record rt_device_blk_geometry := mkGeometry { sector_count : Z; bytes_per_sector : Z; block_size : Z }.
Record spi_flash_device := mkFlashDev { geometry : rt_device_blk_geometry; sfud_dev : sfud_flash }.

Definition RT_DEVICE_CTRL_BLK_GETGEOME : Z := 0x10.
Definition RT_DEVICE_CTRL_BLK_ERASE : Z := 0x12.

(** The geometry that the probe takes from the initialised driver. *)
Definition flash_geometry (f : sfud_flash) : res spi_flash_device :=
  if erase_gran (chip f) =? 0 then Fault DivZero else
  Ok (mkFlashDev (mkGeometry (capacity (chip f) / erase_gran (chip f)) (erase_gran (chip f)) (erase_gran (chip f))) f).

Section Block.
Context {W : Type} `{FlashPort W}.

Definition rt_sfud_read (dev : spi_flash_device) (pos size : Z) : drv W (Z * list Z) :=
  let phy_pos := u32 (pos * bytes_per_sector (geometry dev)) in
  let phy_size := u32 (size * bytes_per_sector (geometry dev)) in
  r ← sfud_read (sfud_dev dev) phy_pos phy_size;
  mret (if negb (r.1 =? SFUD_SUCCESS) then 0 else size, r.2).

Definition rt_sfud_write (dev : spi_flash_device) (pos : Z) (buffer : list Z) (size : Z) : drv W Z :=
  let phy_pos := u32 (pos * bytes_per_sector (geometry dev)) in
  let phy_size := u32 (size * bytes_per_sector (geometry dev)) in
  result ← sfud_erase_write (sfud_dev dev) phy_pos phy_size buffer;
  mret (if negb (result =? SFUD_SUCCESS) then 0 else size).

(** [args]: the two words it points to, [None] for the null pointer, which an erase
    reads before it checks it.  What the geometry command stores is the second component. *)
Definition rt_sfud_control (dev : spi_flash_device) (cmd : Z) (args : option (Z * Z)) : drv W (Z * option rt_device_blk_geometry) :=
  if cmd =? RT_DEVICE_CTRL_BLK_GETGEOME then
    match args with None => mret (- RT_ERROR, None) | Some _ => mret (RT_EOK, Some (geometry dev)) end
  else if cmd =? RT_DEVICE_CTRL_BLK_ERASE then
    match args with
    | None => drv_lift (Fault NullDeref)
    | Some (start_addr, end_addr) =>
        if end_addr <? start_addr then mret (- RT_ERROR, None) else
        let phy_start_addr := u32 (start_addr * bytes_per_sector (geometry dev)) in
        let phy_size := u32 ((end_addr - start_addr) * bytes_per_sector (geometry dev)) in
        result ← sfud_erase (sfud_dev dev) phy_start_addr phy_size;
        mret (if negb (result =? SFUD_SUCCESS) then - RT_ERROR else RT_EOK, None)
    end
  else mret (RT_EOK, None).
End Block.

(** ** Sessions of the block device *)

Inductive blk_call :=
| BRead (pos size : Z)
| BWrite (pos : Z) (buffer : list Z) (size : Z)
| BErase (first last : Z).

(** What a call returns: a count or code, and the bytes read. *)
Definition run_blk {W} `{FlashPort W} (dev : spi_flash_device) (k : blk_call) : drv W (Z * list Z) :=
  match k with
  | BRead pos size => rt_sfud_read dev pos size
  | BWrite pos buffer size => r ← rt_sfud_write dev pos buffer size; mret (r, [])
  | BErase first last => r ← rt_sfud_control dev RT_DEVICE_CTRL_BLK_ERASE (Some (first, last)); mret (r.1, [])
  end.
Fixpoint run_blks {W} `{FlashPort W} (dev : spi_flash_device) (ks : list blk_call) : drv W (list (Z * list Z)) :=
  match ks with
  | [] => mret []
  | k :: ks' => r ← run_blk dev k; rs ← run_blks dev ks'; mret (r :: rs)
  end.

(** A disk is its bytes. *)
Definition disk_call (g : Z) (k : blk_call) (disk : list Z) : (Z * list Z) * list Z :=
  match k with
  | BRead pos size => ((size, slice disk (pos * g) (size * g)), disk)
  | BWrite pos buffer size => ((size, []), splice disk (pos * g) buffer)
  | BErase first last => ((RT_EOK, []), filled (first * g) (last * g) disk)
  end.
Fixpoint disk_calls (g : Z) (ks : list blk_call) (disk : list Z) : list (Z * list Z) * list Z :=
  match ks with
  | [] => ([], disk)
  | k :: ks' => let '(r, disk) := disk_call g k disk in let '(rs, disk) := disk_calls g ks' disk in (r :: rs, disk)
  end.

(** Sectors that exist, and a buffer of the right size. *)
Definition blk_ok (g n : Z) (k : blk_call) : Prop :=
  match k with
  | BRead pos size => 0 <= pos < n /\ 0 <= size /\ pos + size <= n
  | BWrite pos buffer size =>
      0 <= pos /\ 0 < size /\ pos + size <= n /\ Z.of_nat (length buffer) = size * g /\ Forall is_u8 buffer
  | BErase first last => 0 <= first < last /\ last <= n
  end.

Section BlockCorrect.
Context {W : Type} (K : nor_kind) `{NorPort W K}.

(** The device's geometry is that of the flash. *)
Definition device_ok (dev : spi_flash_device) (c : nor) : Prop :=
  flash_ok K (sfud_dev dev) (bytes_per_sector (geometry dev)) c
  /\ sector_count (geometry dev) * bytes_per_sector (geometry dev) = capacity (chip (sfud_dev dev)).

Lemma device_ok_cells dev c cs : device_ok dev c -> length cs = length (cells c) -> Forall is_u8 cs ->
  device_ok dev (with_cells cs c).
Proof. intros [F E] L Hu. split; [|done]. by apply (flash_ok_cells K _ _ c). Qed.

(** Sector numbers times their size, without overflow. *)
Lemma sector_bytes dev c n : device_ok dev c -> 0 <= n <= sector_count (geometry dev) ->
  u32 (n * bytes_per_sector (geometry dev)) = n * bytes_per_sector (geometry dev)
  /\ n * bytes_per_sector (geometry dev) <= capacity (chip (sfud_dev dev)).
Proof.
  intros [F E] Hn. pose proof (fo_gran _ _ _ _ F) as Hg. pose proof (fo_range _ _ _ _ F) as Hr.
  assert (n * bytes_per_sector (geometry dev) <= capacity (chip (sfud_dev dev))) as Hle.
  { rewrite <- E. apply Z.mul_le_mono_nonneg_r; lia. }
  split; [|done]. unfold u32. apply Z.mod_small. split; [apply Z.mul_nonneg_nonneg; lia|].
  change 4294967296 with (2 ^ 32). destruct (four c); lia.
Qed.

Lemma blk_call_ok dev w c k : sees w c -> device_ok dev c ->
  blk_ok (bytes_per_sector (geometry dev)) (sector_count (geometry dev)) k ->
  exists c', yields K (run_blk dev k) w (disk_call (bytes_per_sector (geometry dev)) k (cells c)).1 c'
    /\ cells c' = (disk_call (bytes_per_sector (geometry dev)) k (cells c)).2 /\ device_ok dev c'.
Proof.
  intros V D Hk. pose proof D as [F Es]. pose proof (fo_gran _ _ _ _ F) as Hg. pose proof (fo_capacity _ _ _ _ F) as Hcap.
  set (g := bytes_per_sector (geometry dev)) in *. destruct k as [pos size|pos buffer size|first last]; cbn [blk_ok] in Hk.
  - destruct (sector_bytes dev c pos D ltac:(lia)) as [E1 H1]. destruct (sector_bytes dev c size D ltac:(lia)) as [E2 H2].
    destruct (sector_bytes dev c (pos + size) D ltac:(lia)) as [_ H3]. fold g in E1, E2, H1, H2, H3.
    exists c. split; [|done]. cbn [run_blk]. unfold rt_sfud_read. fold g. rewrite E1, E2.
    eapply yields_bind; [eapply (sfud_read_ok K _ g w c (pos * g) (size * g) V F)|intros w1 V1; by apply yields_ret].
    + split; [apply Z.mul_nonneg_nonneg; lia|]. rewrite <- Es. apply Z.mul_lt_mono_pos_r; lia.
    + apply Z.mul_nonneg_nonneg; lia.
    + lia.
  - destruct Hk as (Hp & Hs & Hle & Hlen & Hu).
    destruct (sector_bytes dev c pos D ltac:(lia)) as [E1 H1]. destruct (sector_bytes dev c size D ltac:(lia)) as [E2 H2].
    destruct (sector_bytes dev c (pos + size) D ltac:(lia)) as [_ H3]. fold g in E1, E2, H1, H2, H3.
    assert (0 <= pos * g /\ 0 < size * g) as [Hpg Hsg] by (split; [apply Z.mul_nonneg_nonneg|apply Z.mul_pos_pos]; lia).
    exists (with_cells (splice (cells c) (pos * g) buffer) c). split; [|split; [done|]].
    + cbn [run_blk]. unfold rt_sfud_write. fold g. rewrite E1, E2.
      eapply yields_bind; [eapply yields_bind; [eapply (sfud_erase_write_ok K _ g w c _ _ _ V F)|intros w1 V1; by apply yields_ret]
                          |intros w2 V2; by apply yields_ret]; try done; try lia; apply Z.divide_factor_r.
    + apply device_ok_cells; [done|apply length_splice; unfold room; lia|].
      unfold splice. repeat apply list.Forall_app_2; [apply Forall_take|done|apply Forall_drop]; apply (fo_bytes _ _ _ _ F).
  - destruct (sector_bytes dev c first D ltac:(lia)) as [E1 H1]. destruct (sector_bytes dev c (last - first) D ltac:(lia)) as [E2 H2].
    destruct (sector_bytes dev c last D ltac:(lia)) as [_ H3]. fold g in E1, E2, H1, H2, H3.
    assert (0 <= first * g /\ 0 < (last - first) * g) as [Hpg Hsg] by (split; [apply Z.mul_nonneg_nonneg|apply Z.mul_pos_pos]; lia).
    exists (with_cells (filled (first * g) (last * g) (cells c)) c). split; [|split; [done|]].
    + cbn [run_blk]. unfold rt_sfud_control. fold g. cbn [Z.eqb RT_DEVICE_CTRL_BLK_GETGEOME RT_DEVICE_CTRL_BLK_ERASE Pos.eqb].
      destruct (Z.ltb_spec last first); [lia|]. rewrite E1, E2.
      eapply yields_bind; [eapply yields_bind; [eapply (sfud_erase_ok K _ g w c _ _ (first * g) (last * g) V F)
                          |intros w1 V1; by apply yields_ret]|intros w2 V2; by apply yields_ret]; try lia; apply Z.divide_factor_r.
    + apply device_ok_cells; [done|apply length_filled; lia|apply filled_bytes; [lia..|apply (fo_bytes _ _ _ _ F)]].
Qed.

(** C10: The flash is a disk.  For every port that brings frames to a NOR chip
    (pages of 256 bytes in which programming only clears bits, erase commands for
    whole blocks, operations that keep the chip busy), and every flash device whose
    description fits the chip, every session of sector reads, sector writes and
    erases within the device returns, and does what it would do on an array of
    bytes: a read returns what was last written, a write replaces exactly its
    sectors, an erase fills exactly its sectors with 0xFF.  The chip is left idle
    and still fits the description.  This is what the file system under the
    configuration files relies on. *)
Theorem flash_refines_disk (dev : spi_flash_device) (ks : list blk_call) (w : W) (c : nor)
  (V : sees w c) (D : device_ok dev c)
  (Hk : Forall (blk_ok (bytes_per_sector (geometry dev)) (sector_count (geometry dev))) ks) :
  exists w' c', run_blks dev ks w = Ok ((disk_calls (bytes_per_sector (geometry dev)) ks (cells c)).1, w')
    /\ sees w' c' /\ cells c' = (disk_calls (bytes_per_sector (geometry dev)) ks (cells c)).2 /\ device_ok dev c'.
Proof.
  revert w c V D. induction Hk as [|k ks Hk Hks IH]; intros w c V D; [by exists w, c|].
  destruct (blk_call_ok dev w c k V D Hk) as (c1 & Y1 & E1 & D1). destruct (yields_step K _ _ _ _ Y1) as (w1 & V1 & R1).
  destruct (IH w1 c1 V1 D1) as (w2 & c2 & R2 & V2 & E2 & D2). cbn [run_blks disk_calls]. rewrite E1 in R2, E2.
  destruct (disk_call _ k (cells c)) as [r disk]. cbn [fst snd] in *. destruct (disk_calls _ ks disk) as [rs disk'].
  exists w2, c2. split; [|done]. rewrite R1. unfold mbind at 1. unfold drv_bind at 1. by rewrite R2.
Qed.
End BlockCorrect.

(** ** The port on the SPI bus *)

Definition spi_write_read {W} `{SpiHw W} (clock : Z) (polls : nat) (d : nat) (write_buf : option Z) (write_size : Z)
    (read_buf : option Z) (read_size : Z) : drv (spi_st W) Z :=
  _ ← (if negb (write_size =? 0) then assert (bool_decide (write_buf <> None)) else mret tt);
  _ ← (if negb (read_size =? 0) then assert (bool_decide (read_buf <> None)) else mret tt);
  if negb (write_size =? 0) && negb (read_size =? 0) then
    r ← rt_spi_send_then_recv clock polls d write_buf write_size read_buf read_size;
    mret (if negb (r =? RT_EOK) then SFUD_ERR_TIMEOUT else SFUD_SUCCESS)
  else if negb (write_size =? 0) then
    r ← rt_spi_transfer clock polls d write_buf None write_size;
    mret (if r =? 0 then SFUD_ERR_TIMEOUT else SFUD_SUCCESS)
  else
    r ← rt_spi_transfer clock polls d None read_buf read_size;
    mret (if r =? 0 then SFUD_ERR_TIMEOUT else SFUD_SUCCESS).

(** The call on buffers of its own: [out] in one, [n] bytes of room in another. *)
Definition with_buffers {W} (out : list Z) (n : Z) (call : option Z -> option Z -> drv (spi_st W) Z) : drv (spi_st W) (Z * list Z) :=
  fun s => match call (Some 0) (Some (Z.of_nat (length out))) (set_mem (out ++ replicate (Z.to_nat n) 0) s) with
           | Ok (r, s') => Ok ((r, slice (mem s') (Z.of_nat (length out)) n), set_mem (mem s) s')
           | Fault e => Fault e
           end.

(** A NOR chip on the bus hears a byte when the bus runs in mode 0, most
    significant bit first; its frame ends when it is released. *)
Record nor_chip := mkNorChip { nc_nor : nor; nc_heard : list Z }.
Definition readable (i : SPI_InitTypeDef) : bool :=
  (CLKPolarity i =? SPI_POLARITY_LOW) && (CLKPhase i =? SPI_PHASE_1EDGE) && (FirstBit i =? SPI_FIRSTBIT_MSB)
  && (DataSize i =? SPI_DATASIZE_8BIT).
Definition nor_on_bus (K : nor_kind) : Chip nor_chip := {|
  on_select c := mkNorChip (nc_nor c) [];
  on_element i x c := if readable i then (mkNorChip (nc_nor c) (nc_heard c ++ [x]), nor_out K (nc_nor c) (nc_heard c))
                      else (mkNorChip (nc_nor c) (nc_heard c ++ [0xFF]), 0xFF);
  on_release c := mkNorChip (nor_exec K (nc_nor c) (nc_heard c)) [] |}.

Section BusPort.
Context {W : Type} `{SpiHw W} (K : nor_kind).
Let this_chip : Chip nor_chip := nor_on_bus K.
#[local] Existing Instance this_chip.
Variable clock : Z.
Variable polls : nat.
Context `{!SpiBoard W nor_chip polls}.
(** The device on the bus and the pin of its chip. *)
Variable d : nat.
Variable pin : Z.

(** Only one thread uses the flash, so its own lock has no effect here, and a
    delay does not change the bus. *)
Definition bus_port : FlashPort (spi_st W) := {|
  wr out n := with_buffers out n (fun wb rb => spi_write_read clock polls d wb (Z.of_nat (length out)) rb n);
  spi_lock s := s;
  spi_unlock s := s;
  retry_delay s := s |}.

(** The bus is at rest and its device [d] is set for the chip [c]. *)
Definition bus_sees (s : spi_st W) (c : nor) : Prop :=
  exists b dev, related clock polls s b /\ s_devices b !! d = Some dev /\ dev_cs dev = Some pin
    /\ supported (dev_config dev) /\ is_wide (dev_config dev) = false /\ readable (settings clock (dev_config dev)) = true
    /\ s_chips b !! pin = Some (mkNorChip c []).

Lemma related_mem s b m : related clock polls s b ->
  related clock polls (set_mem m s) (mkBus (s_devices b) (s_owner b) (s_errno b) (s_locks b) (s_chips b) m).
Proof. by intros []. Qed.

(** What the chip hears and answers during an exchange. *)
Lemma exchange_nor i out c : forall heard, readable i = true ->
  exchange i out (mkNorChip c heard)
  = (mkNorChip c (heard ++ out), map (fun k => nor_out K c (heard ++ take k out)) (seq 0 (length out))).
Proof.
  induction out as [|x out IH]; intros heard Hr; cbn [exchange].
  { by rewrite app_nil_r. }
  cbn [on_element this_chip nor_on_bus nc_nor nc_heard]. rewrite Hr, IH by done. rewrite <- app_assoc. f_equal.
  cbn [length seq map]. rewrite app_nil_r. f_equal. rewrite <- seq_shift, List.map_map. apply List.map_ext. intros k.
  by rewrite <- app_assoc.
Qed.

Lemma units_at_bytes m p n : room m p (Z.of_nat n) -> units_at false m p n = slice m p (Z.of_nat n).
Proof.
  revert p. induction n as [|n IH]; intros p Hr; [done|]. cbn [units_at]. rewrite IH by (unfold room in *; cbn; lia).
  unfold room in Hr. destruct (lookup_lt_is_Some_2 m (Z.to_nat p) ltac:(lia)) as [v Hv].
  unfold slice. cbn [step_of]. rewrite Nat2Z.id, Nat2Z.id. replace (Z.to_nat (p + 1)) with (S (Z.to_nat p)) by lia.
  rewrite (drop_S _ _ _ Hv). cbn [take]. f_equal. unfold rd. by rewrite Hv.
Qed.
Lemma nor_out_u8 c inp : is_u8 (nor_out K c inp).
Proof.
  unfold nor_out. destruct inp as [|cmd rest]; [done|].
  destruct (cmd =? 5); [unfold status; by destruct (busy c), (wel c)|].
  repeat (case_match; try done); apply u8_range.
Qed.
Lemma bytes_of_answers l : Forall is_u8 l -> concat (map (element_bytes false) l) = l.
Proof.
  induction 1 as [|x l Hx Hl IH]; [done|]. cbn. rewrite IH. f_equal. unfold byte. rewrite Z.div_1_r. by apply u8_id.
Qed.

Lemma slice_front (l r : list Z) : slice (l ++ r) 0 (Z.of_nat (length l)) = l.
Proof. unfold slice. change (Z.to_nat 0) with O. by rewrite drop_0, Nat2Z.id, take_app_length. Qed.
Lemma slice_back (l r : list Z) n : Z.of_nat (length r) = n -> slice (l ++ r) (Z.of_nat (length l)) n = r.
Proof. intros <-. unfold slice. rewrite !Nat2Z.id, drop_app_length. by apply take_ge. Qed.
Lemma splice_back (l r r' : list Z) : length r' = length r -> splice (l ++ r) (Z.of_nat (length l)) r' = l ++ r'.
Proof.
  intros L. unfold splice. rewrite Nat2Z.id, take_app_length. rewrite drop_ge by (rewrite length_app; lia). by rewrite app_nil_r.
Qed.

Definition two_messages (out : list Z) (n : Z) : list rt_spi_message :=
  [first_of (Some 0) (Z.of_nat (length out)); mkMsg None (Some (Z.of_nat (length out))) n false true].
Definition one_message (out : list Z) : list rt_spi_message := [mkMsg (Some 0) None (Z.of_nat (length out)) true true].

Lemma message_sends cfg out r c heard cs_t cs_r : is_wide cfg = false -> readable (settings clock cfg) = true ->
  spec_message clock cfg (mkMsg (Some 0) None (Z.of_nat (length out)) cs_t cs_r) (mkNorChip c heard, out ++ r)
  = (mkNorChip c (heard ++ out), out ++ r).
Proof.
  intros Hw Hr. unfold spec_message. cbn [send_buf recv_buf msg_length outgoing stored]. rewrite Hw, Nat2Z.id.
  rewrite units_at_bytes by (unfold room; rewrite length_app; lia). by rewrite slice_front, exchange_nor.
Qed.

Lemma frame_two cfg out n c : is_wide cfg = false -> readable (settings clock cfg) = true -> 0 <= n ->
  spec_frame clock cfg (two_messages out n) (mkNorChip c []) (out ++ replicate (Z.to_nat n) 0)
  = (mkNorChip (nor_frame K out (Z.to_nat n) c).2 [], out ++ (nor_frame K out (Z.to_nat n) c).1).
Proof.
  intros Hw Hr Hn. unfold spec_frame, spec_messages, two_messages. cbn [foldl].
  change (on_select (mkNorChip c [])) with (mkNorChip c []). unfold first_of. rewrite message_sends by done.
  unfold spec_message. cbn [send_buf recv_buf msg_length outgoing stored app]. rewrite Hw, exchange_nor by done.
  rewrite length_replicate. set (rs := map _ (seq 0 _)).
  assert (rs = (nor_frame K out (Z.to_nat n) c).1) as Ers.
  { unfold rs, nor_frame. cbn [fst]. apply List.map_ext_in. intros k Hk%List.in_seq. do 2 f_equal.
    rewrite take_replicate. f_equal. lia. }
  assert (Forall is_u8 rs) as Hu by (apply Forall_map, Forall_true; intros k; apply nor_out_u8).
  rewrite bytes_of_answers by done. rewrite splice_back by (unfold rs; by rewrite length_map, length_seq, length_replicate).
  by rewrite Ers.
Qed.
Lemma frame_one cfg out c : is_wide cfg = false -> readable (settings clock cfg) = true ->
  spec_frame clock cfg (one_message out) (mkNorChip c []) (out ++ []) = (mkNorChip (nor_exec K c out) [], out ++ []).
Proof.
  intros Hw Hr. unfold spec_frame, spec_messages, one_message. cbn [foldl].
  change (on_select (mkNorChip c [])) with (mkNorChip c []). by rewrite message_sends.
Qed.

(** A message of the frame lies in the buffers. *)
Lemma frame_messages_ok cfg out n : is_wide cfg = false -> 0 <= n ->
  Forall (message_ok cfg (out ++ replicate (Z.to_nat n) 0)) (two_messages out n).
Proof.
  intros Hw Hn. assert (length (out ++ replicate (Z.to_nat n) 0%Z) = length out + Z.to_nat n)%nat as L
    by (by rewrite length_app, length_replicate).
  unfold message_ok, buffers_ok, room. rewrite Hw. cbn [step_of].
  repeat apply List.Forall_cons; [..|apply List.Forall_nil]; cbn [msg_length send_buf recv_buf first_of]; rewrite L;
    (split; [lia|]); split_and!; intros *; try done; intros [= <-]; lia.
Qed.

(** After a frame of [d] the chip is in state [c'] and memory holds [m]. *)
Lemma sees_after (s s' : spi_st W) b dev ms e cfg c c' m : related clock polls s' (spec_send clock d ms e b) ->
  s_devices b !! d = Some dev -> dev_config dev = cfg -> dev_cs dev = Some pin -> s_chips b !! pin = Some (mkNorChip c []) ->
  supported cfg -> is_wide cfg = false -> readable (settings clock cfg) = true ->
  spec_frame clock cfg ms (mkNorChip c []) (s_mem b) = (mkNorChip c' [], m) ->
  mem s' = m /\ bus_sees (set_mem (mem s) s') c'.
Proof.
  intros R Hd <- Hp Hc Hs Hw Hr Ef. unfold spec_send in R. rewrite Hd, Hp, Hc, Ef in R.
  split; [exact (rel_mem _ _ _ _ R)|]. eexists _, dev. split; [by apply related_mem|]. cbn. by rewrite lookup_insert_eq.
Qed.

Lemma bus_law_wr out n (s : spi_st W) c : bus_sees s c -> out <> [] -> 0 <= n -> exists s',
  @wr _ bus_port out n s = Ok ((SFUD_SUCCESS, (nor_frame K out (Z.to_nat n) c).1), s')
  /\ bus_sees s' (nor_frame K out (Z.to_nat n) c).2.
Proof.
  intros (b & dev & R & Hd & Hp & Hs & Hw & Hr & Hc) Ho Hn.
  assert (0 < Z.of_nat (length out)) as Hl by (destruct out; cbn; [done|lia]).
  set (M := out ++ replicate (Z.to_nat n) 0).
  pose proof (related_mem s b M R) as R0. set (b0 := mkBus _ _ _ _ _ M) in R0.
  pose proof (frame_messages_ok (dev_config dev) out n Hw Hn) as Hm. fold M in Hm.
  cbn [wr bus_port]. unfold with_buffers. fold M. unfold spi_write_read.
  destruct (Z.eqb_spec (Z.of_nat (length out)) 0); [lia|]. cbn [negb andb]. rewrite !bool_decide_true by done.
  destruct (Z.eqb_spec n 0) as [->|Hn0]; cbn [negb andb].
  - destruct (transfer_ok clock polls d (Some 0) None (Z.of_nat (length out)) (set_mem M s) b0 R0) as (s' & E & R').
    { split; [done|]. exists dev. split; [done|]. split; [done|]. apply list.Forall_cons in Hm as [Hm _].
      apply List.Forall_cons; [|apply List.Forall_nil]. destruct Hm as (? & ? & ? & ?). by split. }
    destruct (sees_after s s' b0 dev _ _ _ c _ _ R' Hd eq_refl Hp Hc Hs Hw Hr (frame_one (dev_config dev) out c Hw Hr)) as [Em Hs'].
    exists (set_mem (mem s) s'). rewrite (drv_bind_ok _ _ _ tt _ eq_refl), (drv_bind_ok _ _ _ tt _ eq_refl), (drv_bind_ok _ _ _ _ _ E).
    destruct (Z.eqb_spec (Z.of_nat (length out)) 0); [lia|]. cbn. rewrite app_nil_r. by split.
  - destruct (send_then_ok clock polls d (first_of (Some 0) (Z.of_nat (length out)))
      (mkMsg None (Some (Z.of_nat (length out))) n false true) (set_mem M s) b0 R0) as (s' & E & R').
    { split; [by cbn|]. exists dev. done. }
    cbn [msg_length] in E. destruct (Z.eqb_spec n 0); [done|].
    destruct (sees_after s s' b0 dev _ _ _ c _ _ R' Hd eq_refl Hp Hc Hs Hw Hr (frame_two (dev_config dev) out n c Hw Hr Hn)) as [Em Hs'].
    exists (set_mem (mem s) s'). split; [|done].
    rewrite (drv_bind_ok _ _ _ tt _ eq_refl), (drv_bind_ok _ _ _ tt _ eq_refl).
    rewrite (drv_bind_ok (rt_spi_send_then_recv _ _ _ _ _ _ _) _ _ _ _ E). cbn [Z.eqb RT_EOK negb mret drv_ret].
    rewrite Em, slice_back; [done|]. unfold nor_frame. cbn [fst]. rewrite length_map, length_seq. lia.
Qed.

(** The driver's port on the bus reaches the chip. *)
Definition bus_nor_port : @NorPort (spi_st W) bus_port K :=
  {| sees := bus_sees; law_wr := bus_law_wr;
     law_spi_lock := fun w c h => h; law_spi_unlock := fun w c h => h; law_retry_delay := fun w c h => h |}.
End BusPort.

(** ** A flash of four sectors on the bus *)

Module FlashDemo.
Definition kind : nor_kind := mkKind [(0x20, 256); (0xD8, 512)] [0xEF; 0x40; 0x13] [] 2.
Definition new_chip : nor := mkNor (replicate 1024 0) true 0 false.
Definition no_sfdp : sfud_sfdp := mkSfdp false 0 0 0 false 0 false 0 false false 0 (replicate 4 (mkEraser 0 0)).
Definition flash : sfud_flash := mkFlash (mkFlashChip 0xEF 0x40 0x13 1024 SFUD_WM_PAGE_256B 256 0x20) true false 5 no_sfdp.
Definition dev : spi_flash_device := mkFlashDev (mkGeometry 4 256 256) flash.

#[local] Instance bus_chip : Chip nor_chip := nor_on_bus kind.
Definition cfg : rt_spi_configuration := mkCfg 4 8 50000000.
Definition spi40 : rt_spi_device := mkDev true cfg (Some 4).
Definition chips : gmap Z nor_chip := {[4 := mkNorChip new_chip []]}.
Definition init0 : SPI_InitTypeDef := mkInit 0 0 0 0 0 0 0 0 0 0.
Definition start : spi_st (hwview nor_chip) := mkSpi [spi40] None init0 [] 0 (mkView chips ∅ init0 false None 0).
Definition start_bus : bus_spec nor_chip := mkBus [spi40] None 0 0 chips [].

Lemma start_bus_related : related 90000000 1 start start_bus.
Proof. constructor; try done. intros [|[|d]] dev Hd; [|done..]. injection Hd as <-. split; [done|]. by exists 4. Qed.
Lemma start_sees : bus_sees kind 90000000 1 0 4 start new_chip.
Proof. exists start_bus, spi40. split; [exact start_bus_related|]. by split_and!. Qed.
Lemma dev_ok : device_ok kind dev new_chip.
Proof.
  split; [|done]. constructor; try done.
  - vm_compute. lia.
  - split; [done|]. split_and!; [done|done|]. by apply (bool_decide_unpack (_ ∉ _)).
  - by exists 4.
  - by apply Forall_replicate.
Qed.

Definition calls : list blk_call :=
  [BWrite 1 (replicate 512 0x5A) 2; BRead 1 1; BWrite 2 (replicate 256 7) 1; BErase 3 4; BRead 0 4].
Lemma calls_fit : Forall (blk_ok 256 4) calls.
Proof.
  repeat apply List.Forall_cons; [..|apply List.Forall_nil]; cbn [blk_ok]; rewrite ?length_replicate; split_and!;
    first [lia|by apply Forall_replicate|done].
Qed.

(** Writes over old data, an erase, and everything read back, over the bus. *)
Lemma flash_refines_disk_witness : exists w',
  @run_blks _ (bus_port 90000000 1 0) dev calls start
  = Ok ([(2, []); (1, replicate 256 0x5A); (1, []); (0, []);
         (4, replicate 256 0 ++ replicate 256 0x5A ++ replicate 256 7 ++ replicate 256 0xFF)], w').
Proof.
  destruct (@flash_refines_disk _ kind (bus_port 90000000 1 0) (bus_nor_port kind 90000000 1 0 4) dev calls start new_chip
              start_sees dev_ok calls_fit) as (w' & c' & E & _).
  exists w'. rewrite E. reflexivity.
Defined.
End FlashDemo.
