(* ===== verification/SfudProbe.v ===== *)
(** * Probing a flash that describes itself

    The initialisation of a flash device on a NOR chip with SFDP tables
    establishes what the block device needs ([SpiFlash.device_ok]); the sorting
    of the erasers; and limits of the driver. *)
From stdpp Require Import gmap.
From S2P Require Import Prelude CC1101 KernelService Spi Sfud SfudInit SfudSpec SpiFlash.

(** ** Sorting the erasers *)

Lemma sort_step_perm i j l : i <> j -> sort_step i j l ≡ₚ l.
Proof.
  intros Hn. unfold sort_step. destruct (l !! i) as [a|] eqn:Ei; [|done]. destruct (l !! j) as [b|] eqn:Ej; [|done].
  destruct (negb _ && _); [|done]. by apply Permutation_insert_swap.
Qed.
Lemma sort_pass_perm i l : sort_pass i l ≡ₚ l.
Proof.
  unfold sort_pass. destruct (l !! i); [|done]. destruct (negb _); [|done].
  assert (forall js l, Forall (fun j => i <> j) js -> foldl (fun l j => sort_step i j l) l js ≡ₚ l) as Hf.
  { intros js l' Hj. revert l'. induction Hj as [|j js Hj Hjs IH]; intros l'; [done|]. cbn. rewrite IH. by apply sort_step_perm. }
  apply Hf. apply list.Forall_forall. intros j Hj%elem_of_seq. lia.
Qed.
Lemma sort_erasers_perm l : sort_erasers l ≡ₚ l.
Proof.
  unfold sort_erasers. generalize (seq 0 4). intros ks. revert l. induction ks as [|i ks IH]; intros l; [done|].
  cbn. rewrite IH. apply sort_pass_perm.
Qed.

(** Sizes ascend, and unused entries are at the end. *)
Fixpoint ascending (l : list eraser) : Prop :=
  match l with
  | [] => True
  | a :: l' => Forall (fun b => er_size b <> 0 -> er_size a <> 0 /\ er_size a <= er_size b) l' /\ ascending l'
  end.

(** The steps on a list of four. *)
Definition exchanges (a b : eraser) : bool := negb (er_size b =? 0) && (er_size b <? er_size a).
Definition in_use (a : eraser) : bool := negb (er_size a =? 0).
Lemma step01 a b c d : sort_step 0 1 [a; b; c; d] = if exchanges a b then [b; a; c; d] else [a; b; c; d].
Proof. done. Qed.
Lemma step02 a b c d : sort_step 0 2 [a; b; c; d] = if exchanges a c then [c; b; a; d] else [a; b; c; d].
Proof. done. Qed.
Lemma step03 a b c d : sort_step 0 3 [a; b; c; d] = if exchanges a d then [d; b; c; a] else [a; b; c; d].
Proof. done. Qed.
Lemma step12 a b c d : sort_step 1 2 [a; b; c; d] = if exchanges b c then [a; c; b; d] else [a; b; c; d].
Proof. done. Qed.
Lemma step13 a b c d : sort_step 1 3 [a; b; c; d] = if exchanges b d then [a; d; c; b] else [a; b; c; d].
Proof. done. Qed.
Lemma step23 a b c d : sort_step 2 3 [a; b; c; d] = if exchanges c d then [a; b; d; c] else [a; b; c; d].
Proof. done. Qed.
Lemma pass0 a b c d : sort_pass 0 [a; b; c; d]
  = if in_use a then sort_step 0 3 (sort_step 0 2 (sort_step 0 1 [a; b; c; d])) else [a; b; c; d].
Proof. done. Qed.
Lemma pass1 a b c d : sort_pass 1 [a; b; c; d] = if in_use b then sort_step 1 3 (sort_step 1 2 [a; b; c; d]) else [a; b; c; d].
Proof. done. Qed.
Lemma pass2 a b c d : sort_pass 2 [a; b; c; d] = if in_use c then sort_step 2 3 [a; b; c; d] else [a; b; c; d].
Proof. done. Qed.
Lemma pass3 a b c d : sort_pass 3 [a; b; c; d] = [a; b; c; d].
Proof. unfold sort_pass. cbn. by destruct (negb _). Qed.

(** An exchange puts the smaller of two used entries first. *)
Lemma exchanges_true a b : exchanges a b = true -> er_size b <> 0 /\ er_size b < er_size a.
Proof. intros [H1 H2]%andb_prop. apply negb_true_iff, Z.eqb_neq in H1. by apply Z.ltb_lt in H2. Qed.
Lemma exchanges_false a b : exchanges a b = false -> er_size b = 0 \/ er_size a <= er_size b.
Proof.
  intros [H|H]%andb_false_iff; [left; by apply negb_false_iff, Z.eqb_eq in H|right; by apply Z.ltb_ge in H].
Qed.
Lemma in_use_true a : in_use a = true -> er_size a <> 0.
Proof. intros H. by apply negb_true_iff, Z.eqb_neq in H. Qed.
Lemma in_use_false a : in_use a = false -> er_size a = 0.
Proof. intros H. by apply negb_false_iff, Z.eqb_eq in H. Qed.

Ltac sort_cases :=
  repeat (first [rewrite pass0|rewrite pass1|rewrite pass2|rewrite pass3|rewrite step01|rewrite step02|rewrite step03
                |rewrite step12|rewrite step13|rewrite step23];
    try match goal with
    | |- context [if in_use ?x then _ else _] =>
        let E := fresh in destruct (in_use x) eqn:E; [apply in_use_true in E|apply in_use_false in E]
    | |- context [if exchanges ?x ?y then _ else _] =>
        let E := fresh in destruct (exchanges x y) eqn:E; [apply exchanges_true in E|apply exchanges_false in E]
    end; try lia).

Lemma sort_erasers_ascending l k : length l = 4%nat -> Forall (fun e => 0 < er_size e) (take k l) ->
  Forall (fun e => er_size e = 0) (drop k l) -> ascending (sort_erasers l).
Proof.
  intros Hl Hu Hz. destruct l as [|a [|b [|c [|d [|]]]]]; try done. unfold sort_erasers. cbn [seq foldl].
  destruct k as [|[|[|[|k]]]]; cbn [take drop] in Hu, Hz; repeat rewrite list.Forall_cons in Hu; repeat rewrite list.Forall_cons in Hz; sort_cases;
    cbn [ascending]; rewrite ?list.Forall_cons, ?list.Forall_nil; lia.
Qed.

(** ** The tables of JESD216 *)

(** The little-endian word [i] of a table, and bits of a word. *)
Definition dword (t : list Z) (i : Z) : Z :=
  rd t (4 * i) + 256 * rd t (4 * i + 1) + 65536 * rd t (4 * i + 2) + 16777216 * rd t (4 * i + 3).
Definition field (w lo n : Z) : Z := w / 2 ^ lo mod 2 ^ n.

(** The density in bits: the number less one, or with the top bit set a power of two. *)
Definition density (w : Z) : Z := if w <? 2 ^ 31 then w + 1 else 2 ^ (w - 2 ^ 31).
(** Erase type [k]: the exponent of its size, 0 if there is none, and its command. *)
Definition erase_type (t : list Z) (k : Z) : Z * Z :=
  (field (dword t (7 + k / 2)) (16 * (k mod 2)) 8, field (dword t (7 + k / 2)) (16 * (k mod 2) + 8) 8).

(** A basic parameter table that says of a chip with [size] bytes and the erase
    commands of [K] what is true, with page programming, and whose smallest erase
    type has [g] bytes. *)
Record table_describes (K : nor_kind) (t : list Z) (g size : Z) : Prop := mkTableDescribes {
  td_bytes : Forall is_u8 t;
  td_4k : field (dword t 0) 0 2 = 1 \/ field (dword t 0) 0 2 = 3;
  td_page : field (dword t 0) 2 1 = 1;
  td_address : field (dword t 0) 17 2 <> 3;
  td_density : density (dword t 1) = 8 * size;
  td_size : 0 < size <= 2 ^ 31;
  td_types : forall k, 0 <= k < 4 -> (erase_type t k).1 <> 0 ->
    (erase_type t k).1 < 32 /\ (erase_type t k).2 <> 0
    /\ in_kind K (mkEraser (2 ^ (erase_type t k).1) (erase_type t k).2) /\ g <= 2 ^ (erase_type t k).1;
  td_smallest : exists k, 0 <= k < 4 /\ (erase_type t k).1 <> 0 /\ 2 ^ (erase_type t k).1 = g;
  td_whole : (g | size) }.

Lemma byte_of t i : Forall is_u8 t -> 0 <= rd t i < 256.
Proof. apply rd_u8. Qed.

(** *** Decoding *)
Lemma dword_0 t : dword t 0 = rd t 0 + 256 * rd t 1 + 65536 * rd t 2 + 16777216 * rd t 3.
Proof. done. Qed.
Lemma dword_1 t : dword t 1 = rd t 4 + 256 * rd t 5 + 65536 * rd t 6 + 16777216 * rd t 7.
Proof. done. Qed.

Lemma decode_4k t : Forall is_u8 t -> Z.land (rd t 0) 3 = field (dword t 0) 0 2.
Proof.
  intros H. unfold field. rewrite dword_0. pose proof (byte_of t 0 H).
  change 3 with (Z.ones 2) at 1. rewrite Z.land_ones by lia. change (2 ^ 2) with 4. change (2 ^ 0) with 1. lia.
Qed.
Lemma bit_2 b : 0 <= b < 256 -> Z.shiftr (Z.land b 4) 2 = b / 4 mod 2.
Proof. intros H. apply Z.eqb_eq. by_enumeration 256%nat b. Qed.
Lemma bits_1_2 b : 0 <= b < 256 -> Z.shiftr (Z.land b 6) 1 = b / 2 mod 4.
Proof. intros H. apply Z.eqb_eq. by_enumeration 256%nat b. Qed.
Lemma bit_7 b : 0 <= b < 256 -> (Z.shiftr (Z.land b 0x80) 7 =? 0) = (b <? 128).
Proof. intros H. apply Bool.eqb_prop. by_enumeration 256%nat b. Qed.
Lemma decode_page t : Forall is_u8 t -> Z.shiftr (Z.land (rd t 0) 4) 2 = field (dword t 0) 2 1.
Proof.
  intros H. pose proof (byte_of t 0 H) as B. rewrite bit_2 by done. unfold field. rewrite dword_0.
  change (2 ^ 2) with 4. change (2 ^ 1) with 2. lia.
Qed.
Lemma decode_address t : Forall is_u8 t -> Z.shiftr (Z.land (rd t 2) 6) 1 = field (dword t 0) 17 2.
Proof.
  intros H. pose proof (byte_of t 0 H). pose proof (byte_of t 1 H). pose proof (byte_of t 2 H).
  rewrite bits_1_2 by done. unfold field. rewrite dword_0. change (2 ^ 17) with 131072. change (2 ^ 2) with 4. lia.
Qed.

Lemma decode_word t : Forall is_u8 t ->
  Z.lor (Z.lor (Z.lor (u32 (Z.shiftl (rd t 7) 24)) (Z.shiftl (rd t 6) 16)) (Z.shiftl (rd t 5) 8)) (rd t 4) = dword t 1
  /\ 0 <= dword t 1 < 2 ^ 32 /\ (rd t 7 <? 128) = (dword t 1 <? 2 ^ 31).
Proof.
  intros H. pose proof (byte_of t 4 H). pose proof (byte_of t 5 H). pose proof (byte_of t 6 H). pose proof (byte_of t 7 H).
  rewrite dword_1. split; [|change (2 ^ 32) with 4294967296; change (2 ^ 31) with 2147483648; lia].
  rewrite !Z.shiftl_mul_pow2 by lia. unfold u32. rewrite (Z.mod_small (rd t 7 * 2 ^ 24)) by lia.
  rewrite (lor_disjoint (rd t 6 * 2 ^ 16) (rd t 7) 24) by lia.
  replace (rd t 7 * 2 ^ 24 + rd t 6 * 2 ^ 16) with ((rd t 7 * 256 + rd t 6) * 2 ^ 16) by lia.
  rewrite (lor_disjoint (rd t 5 * 2 ^ 8) _ 16) by lia.
  replace ((rd t 7 * 256 + rd t 6) * 2 ^ 16 + rd t 5 * 2 ^ 8) with ((rd t 7 * 65536 + rd t 6 * 256 + rd t 5) * 2 ^ 8) by lia.
  rewrite (lor_disjoint (rd t 4) _ 8) by lia. lia.
Qed.

Lemma decode_capacity K t g size : table_describes K t g size -> table_capacity t = Ok (Some size).
Proof.
  intros D. pose proof (td_bytes _ _ _ _ D) as H. destruct (decode_word t H) as (Ew & Hw & Eb).
  pose proof (td_density _ _ _ _ D) as Hd. pose proof (td_size _ _ _ _ D) as Hs.
  unfold table_capacity, shl_int. cbn [Z.leb Z.compare Z.ltb Pos.compare Pos.compare_cont andb]. rewrite bind_ret_l.
  cbv zeta. rewrite Ew, bit_7, Eb by by apply byte_of. unfold density in Hd.
  destruct (Z.ltb_spec (dword t 1) (2 ^ 31)) as [Hlt|Hge].
  - rewrite Z.shiftr_div_pow2 by lia. change (2 ^ 3) with 8. do 2 f_equal. lia.
  - change 0x7FFFFFFF with (Z.ones 31). rewrite Z.land_ones by lia.
    replace (dword t 1 mod 2 ^ 31) with (dword t 1 - 2 ^ 31) by (rewrite <- (Z.mod_add _ (-1)), Z.mod_small; lia).
    set (n := dword t 1 - 2 ^ 31) in *. assert (0 <= n) by lia.
    assert (n <= 34).
    { destruct (Z.le_gt_cases n 34); [done|]. assert (2 ^ 35 <= 2 ^ n) by (apply Z.pow_le_mono_r; lia). lia. }
    assert (3 <= n).
    { destruct (Z.le_gt_cases 3 n); [done|]. assert (2 ^ n <= 2 ^ 2) by (apply Z.pow_le_mono_r; lia). lia. }
    replace (35 <? n) with false by lia. replace ((0 <=? n - 3) && (n - 3 <? 32)) with true by lia. rewrite bind_ret_l.
    rewrite Z.shiftl_mul_pow2, Z.mul_1_l by lia. unfold u32. replace n with (n - 3 + 3) in Hd by lia.
    rewrite Z.pow_add_r in Hd by lia. rewrite Z.mod_small; [do 2 f_equal; lia|].
    split; [apply Z.pow_nonneg; lia|]. apply Z.le_lt_trans with (2 ^ 31); lia.
Qed.

(** *** The erasers *)
Lemma decode_type t k : Forall is_u8 t -> 0 <= k < 4 -> erase_type t k = (rd t (28 + 2 * k), rd t (28 + 2 * k + 1)).
Proof.
  intros H Hk. assert (k = 0 \/ k = 1 \/ k = 2 \/ k = 3) as Hc by lia.
  assert (forall i, 0 <= rd t i < 256) as B by (intros i; by apply byte_of).
  assert (dword t 7 = rd t 28 + 256 * rd t 29 + 65536 * rd t 30 + 16777216 * rd t 31) as E7 by done.
  assert (dword t 8 = rd t 32 + 256 * rd t 33 + 65536 * rd t 34 + 16777216 * rd t 35) as E8 by done.
  pose proof (B 28). pose proof (B 29). pose proof (B 30). pose proof (B 31). pose proof (B 32). pose proof (B 33).
  pose proof (B 34). pose proof (B 35).
  destruct Hc as [->|[->|[->| ->]]].
  - change (erase_type t 0) with (dword t 7 / 1 mod 256, dword t 7 / 256 mod 256). rewrite E7.
    change (28 + 2 * 0) with 28. change (28 + 1) with 29. f_equal; lia.
  - change (erase_type t 1) with (dword t 7 / 65536 mod 256, dword t 7 / 16777216 mod 256). rewrite E7.
    change (28 + 2 * 1) with 30. change (30 + 1) with 31. f_equal; lia.
  - change (erase_type t 2) with (dword t 8 / 1 mod 256, dword t 8 / 256 mod 256). rewrite E8.
    change (28 + 2 * 2) with 32. change (32 + 1) with 33. f_equal; lia.
  - change (erase_type t 3) with (dword t 8 / 65536 mod 256, dword t 8 / 16777216 mod 256). rewrite E8.
    change (28 + 2 * 3) with 34. change (34 + 1) with 35. f_equal; lia.
Qed.

Definition type_of (t : list Z) (k : Z) : eraser := mkEraser (2 ^ (erase_type t k).1) (erase_type t k).2.
(** The erase types from [k] on that are there. *)
Fixpoint types_from (n : nat) (k : Z) (t : list Z) : list eraser :=
  match n with
  | O => []
  | S n' => if (erase_type t k).1 =? 0 then types_from n' (k + 1) t else type_of t k :: types_from n' (k + 1) t
  end.

Lemma collect_types K t g size : table_describes K t g size -> forall n k, 0 <= k -> k + Z.of_nat n <= 4 ->
  collect_erasers n k t = Ok (types_from n k t).
Proof.
  intros D. induction n as [|n IH]; intros k H0 H4; [done|]. cbn [collect_erasers types_from].
  pose proof (decode_type t k (td_bytes _ _ _ _ D) ltac:(lia)) as E. unfold type_of.
  pose proof (td_types _ _ _ _ D k ltac:(lia)) as Ht. rewrite E in *. cbn [fst snd] in *.
  destruct (Z.eqb_spec (rd t (28 + 2 * k)) 0) as [E0|E0]; cbn [negb]; [apply IH; lia|].
  destruct (Ht E0) as (Hlt & _). pose proof (byte_of t (28 + 2 * k) (td_bytes _ _ _ _ D)).
  unfold shl_int. replace ((0 <=? _) && _) with true by lia. rewrite bind_ret_l, IH, bind_ret_l by lia.
  do 2 f_equal. f_equal. rewrite Z.shiftl_mul_pow2, Z.mul_1_l by lia. unfold u32. apply Z.mod_small.
  split; [apply Z.pow_nonneg; lia|]. apply (Z.pow_lt_mono_r 2 _ 32); lia.
Qed.

Lemma types_from_in t e : forall n k, e ∈ types_from n k t <->
  exists i, k <= i < k + Z.of_nat n /\ (erase_type t i).1 <> 0 /\ e = type_of t i.
Proof.
  induction n as [|n IH]; intros k; cbn [types_from].
  - split; [by intros ?%list.not_elem_of_nil|]. intros (i & Hi & _). lia.
  - destruct (Z.eqb_spec (erase_type t k).1 0) as [E|E]; [|rewrite list.elem_of_cons]; rewrite IH; split.
    + intros (i & Hi & H). exists i. split; [lia|done].
    + intros (i & Hi & Hn & H). exists i. split; [|done]. destruct (decide (i = k)) as [->|]; [done|lia].
    + intros [->|(i & Hi & H)]; [exists k; split; [lia|done]|exists i; split; [lia|done]].
    + intros (i & Hi & Hn & ->). destruct (decide (i = k)) as [->|]; [by left|right]. exists i. split; [lia|done].
Qed.
Lemma types_from_length t n : forall k, (length (types_from n k t) <= n)%nat.
Proof. induction n as [|n IH]; intros k; cbn [types_from]; [done|]. destruct (_ =? _); cbn [length]; specialize (IH (k + 1)); lia. Qed.

(** ** Probing *)

(** What [rt_memset] leaves of a flash device. *)
Definition zero_sfdp : sfud_sfdp := mkSfdp false 0 0 0 false 0 false 0 false false 0 (replicate 4 (mkEraser 0 0)).
Definition zero_flash : sfud_flash := mkFlash (mkFlashChip 0 0 0 0 0 0 0) false false 0 zero_sfdp.

Section Probe.
Context {W : Type} (K : nor_kind) `{NorPort W K}.

Definition sfdp_bytes (addr : Z) (n : nat) : list Z := map (fun i => u8 (rd (nk_sfdp K) (addr + Z.of_nat i))) (seq 0 n).

Lemma read_sfdp_data_ok w c addr n : sees w c -> busy c = O -> 0 <= addr < 2 ^ 24 -> 0 <= n ->
  yields K (read_sfdp_data addr n) w (SFUD_SUCCESS, sfdp_bytes addr (Z.to_nat n)) c.
Proof.
  intros V Hb Ha Hn. unfold read_sfdp_data. set (out := [_; _; _; _; _]).
  assert (addr_of (take 3 (drop 1 out)) = addr) as Hv.
  { unfold out, addr_of. cbn [drop take foldl]. rewrite !land_ff, !Z.shiftr_div_pow2 by lia.
    change (2 ^ 16) with 65536. change (2 ^ 8) with 256. change (2 ^ 0) with 1. change (2 ^ 24) with 16777216 in Ha. lia. }
  assert (nor_frame K out (Z.to_nat n) c = (sfdp_bytes addr (Z.to_nat n), c)) as Ef.
  { unfold nor_frame. f_equal.
    - unfold sfdp_bytes. apply List.map_ext. intros k. unfold nor_out, out. cbn [app Z.eqb SFUD_CMD_READ_SFDP_REGISTER Pos.eqb].
      rewrite Hb. change (0 <? 0)%nat with false. cbv iota. cbn [length Nat.ltb Nat.leb].
      cbn [out drop take] in Hv. cbn [take]. rewrite Hv. rewrite length_replicate. do 2 f_equal. lia.
    - unfold nor_exec, out. cbn [app]. rewrite Hb. change (0 <? 0)%nat with false. by destruct c. }
  pose proof (wr_ok K out n w c V ltac:(done) Hn) as Y. by rewrite Ef in Y.
Qed.

(** The tables of the chip, as the driver reads them, and what they come to. *)
Definition header0 : list Z := sfdp_bytes 0 8.
Definition header8 : list Z := sfdp_bytes 8 8.
Definition table_at : Z := Z.lor (Z.lor (rd header8 4) (Z.shiftl (rd header8 5) 8)) (Z.shiftl (rd header8 6) 16).
Definition basic_table : list Z := sfdp_bytes table_at 36.

(** The chip carries tables that are valid by the standard, with page programming,
    and say about it what is true; the smallest eraser has [g] bytes. *)
Record describes (g : Z) (c : nor) : Prop := mkDescribes {
  ds_signature : take 4 header0 = [83; 70; 68; 80];
  ds_revision : rd header0 5 <= 1 /\ rd header8 2 <= 1;
  ds_length : 9 <= rd header8 3;
  ds_table : table_describes K (sfdp_bytes (rd header8 4 + 256 * rd header8 5 + 65536 * rd header8 6) 36)
               g (Z.of_nat (length (cells c)));
  ds_mode : Z.of_nat (length (cells c)) <= 2 ^ 24 -> four c = false }.

(** What the driver makes of them. *)
Record understood (s : sfud_sfdp) (g : Z) (c : nor) : Prop := mkUnderstood {
  us_signature : take 4 header0 = [83; 70; 68; 80];
  us_revision : rd header0 5 <= 1 /\ rd header8 2 <= 1;
  us_length : 9 <= rd header8 3;
  us_parsed : parse_basic_table basic_table (set_revision (rd header0 5) (rd header0 4) zero_sfdp) = Ok (true, s);
  us_pages : write_gran s = 256;
  us_capacity : sfdp_capacity s = Z.of_nat (length (cells c));
  us_range : 0 < sfdp_capacity s <= 2 ^ 32 - 1;
  us_mode : sfdp_capacity s <= 2 ^ 24 -> four c = false;
  us_first : exists e, erasers s !! 0%nat = Some e /\ er_size e = g /\ er_cmd e <> 0 /\ 0 < g;
  us_erasers : Forall (fun e => er_size e = 0 \/ in_kind K e /\ (g | er_size e)) (erasers s);
  us_whole : (g | sfdp_capacity s) }.

Lemma header8_bytes i : 0 <= rd header8 i < 256.
Proof. apply rd_u8. unfold header8, sfdp_bytes. apply Forall_map, Forall_true. intros k. apply u8_range. Qed.

Lemma table_at_le : table_at = rd header8 4 + 256 * rd header8 5 + 65536 * rd header8 6.
Proof.
  unfold table_at. pose proof (header8_bytes 4). pose proof (header8_bytes 5). pose proof (header8_bytes 6).
  rewrite !Z.shiftl_mul_pow2 by lia. rewrite (Z.lor_comm (rd header8 4)), (lor_disjoint (rd header8 4) (rd header8 5) 8) by lia.
  rewrite Z.lor_comm, (lor_disjoint _ (rd header8 6) 16) by lia. lia.
Qed.

(** The sorted erasers begin with the smallest. *)
Lemma ascending_first l g : ascending l -> Forall (fun e => er_size e = 0 \/ g <= er_size e) l -> 0 < g ->
  (exists e, e ∈ l /\ er_size e = g) -> exists e, l !! 0%nat = Some e /\ er_size e = g.
Proof.
  intros Ha Hl Hg (e & Hin & He). destruct l as [|a l]; [by apply list.not_elem_of_nil in Hin|]. exists a. split; [done|].
  apply list.elem_of_cons in Hin as [->|Hin]; [done|]. destruct Ha as [Ha _]. rewrite list.Forall_forall in Ha.
  destruct (Ha e Hin) as [H1 H2]; [lia|]. apply list.Forall_cons in Hl as [[Hl|Hl] _]; lia.
Qed.

Lemma types_stored t g size : table_describes K t g size ->
  let l := sort_erasers (store_erasers (types_from 4 0 t) (replicate 4 (mkEraser 0 0))) in
  (exists e, l !! 0%nat = Some e /\ er_size e = g /\ er_cmd e <> 0 /\ 0 < g)
  /\ Forall (fun e => er_size e = 0 \/ in_kind K e /\ (g | er_size e)) l.
Proof.
  intros D l. set (ts := types_from 4 0 t) in *. pose proof (types_from_length t 4 0) as Hlen. fold ts in Hlen.
  assert (Hin : forall e, e ∈ ts -> exists i, 0 <= i < 4 /\ (erase_type t i).1 <> 0 /\ e = type_of t i).
  { intros e (i & Hi & H')%types_from_in. exists i. split; [lia|done]. }
  destruct (td_smallest _ _ _ _ D) as (k & Hk & Hnk & Egk).
  assert (Hn : forall i, 0 <= i < 4 -> 0 <= (erase_type t i).1).
  { intros i Hi. rewrite decode_type by (done || apply (td_bytes _ _ _ _ D)). apply byte_of, (td_bytes _ _ _ _ D). }
  assert (Hg : 0 < g) by (rewrite <- Egk; apply Z.pow_pos_nonneg; [lia|by apply Hn]).
  assert (Hperm : l ≡ₚ ts ++ drop (length ts) (replicate 4 (mkEraser 0 0))) by apply sort_erasers_perm.
  assert (Hts : Forall (fun e => 0 < er_size e /\ g <= er_size e /\ er_cmd e <> 0 /\ in_kind K e /\ (g | er_size e)) ts).
  { apply list.Forall_forall. intros e He. destruct (Hin e He) as (i & Hi & Hni & ->).
    destruct (td_types _ _ _ _ D i Hi Hni) as (_ & Hc & Hik & Hle). unfold type_of. cbn [er_size er_cmd].
    split; [lia|]. split; [done|]. split; [done|]. split; [done|]. rewrite <- Egk in *.
    assert ((erase_type t k).1 <= (erase_type t i).1) by (apply Z.pow_le_mono_r_iff in Hle; [lia|lia|by apply Hn]).
    exists (2 ^ ((erase_type t i).1 - (erase_type t k).1)). rewrite <- Z.pow_add_r; [f_equal; lia|lia|by apply Hn]. }
  assert (Hz : Forall (fun e => er_size e = 0) (drop (length ts) (replicate 4 (mkEraser 0 0))))
    by (apply Forall_drop; by repeat constructor).
  assert (Hall : Forall (fun e => er_size e = 0 \/ g <= er_size e /\ er_cmd e <> 0 /\ in_kind K e /\ (g | er_size e)) l).
  { rewrite Hperm. apply list.Forall_app. split; [eapply list.Forall_impl; [exact Hts|]; cbn; tauto|].
    eapply list.Forall_impl; [exact Hz|]. cbn. tauto. }
  split; [|eapply list.Forall_impl; [exact Hall|]; cbn; tauto].
  destruct (ascending_first l g) as (e & He & Hge).
  - apply (sort_erasers_ascending _ (length ts)).
    + unfold store_erasers. rewrite length_app, length_drop, length_replicate. lia.
    + unfold store_erasers. rewrite take_app_length. eapply list.Forall_impl; [exact Hts|]. cbn. tauto.
    + unfold store_erasers. by rewrite drop_app_length.
  - eapply list.Forall_impl; [exact Hall|]. cbn. tauto.
  - done.
  - exists (type_of t k). split; [|done]. rewrite Hperm. apply elem_of_app. left. apply types_from_in. exists k. split; [lia|done].
  - exists e. split; [done|]. split; [done|]. split; [|done].
    apply (list.Forall_lookup_1 _ _ _ _ Hall) in He. destruct He as [He|He]; [lia|tauto].
Qed.

(** The driver understands valid tables. *)
Lemma tables_understood g c : describes g c -> exists s, understood s g c.
Proof.
  intros [S R L D M]. rewrite <- table_at_le in D. fold basic_table in D. pose proof (td_bytes _ _ _ _ D) as Hb.
  destruct (types_stored _ _ _ D) as [H1 H2]. pose proof (td_size _ _ _ _ D) as Hs.
  assert (exists s, parse_basic_table basic_table (set_revision (rd header0 5) (rd header0 4) zero_sfdp) = Ok (true, s)
    /\ write_gran s = 256 /\ sfdp_capacity s = Z.of_nat (length (cells c))
    /\ erasers s = sort_erasers (store_erasers (types_from 4 0 basic_table) (replicate 4 (mkEraser 0 0))))
    as (s & Ep & Eg & Ec & Ee).
  { unfold parse_basic_table. cbv zeta. rewrite decode_4k, decode_page, decode_address, (td_page _ _ _ _ D) by done.
    pose proof (td_4k _ _ _ _ D) as H4. pose proof (td_address _ _ _ _ D) as Ha.
    replace (negb _) with false by (destruct H4 as [-> | ->]; done). destruct (Z.eqb_spec (field (dword basic_table 0) 17 2) 3); [done|].
    rewrite (decode_capacity _ _ _ _ D), bind_ret_l, (collect_types _ _ _ _ D 4 0), bind_ret_l by lia.
    eexists. split; [done|]. by split_and!. }
  exists s. constructor; try done; rewrite ?Ec, ?Ee; try done; [lia|apply (td_whole _ _ _ _ D)].
Qed.

Lemma parse_available table s0 s : parse_basic_table table s0 = Ok (true, s) -> available s = true.
Proof.
  unfold parse_basic_table. cbv zeta. destruct (negb _); [done|]. destruct (_ =? 3); [done|].
  intros E. bind_inv E. destruct a; [|done]. bind_inv E. by injection E as <-.
Qed.

(** No eraser is smaller than one whose size divides all sizes. *)
Lemma smallest_first s g e : erasers s !! 0%nat = Some e -> er_size e = g -> 0 < g ->
  Forall (fun e => er_size e = 0 \/ in_kind K e /\ (g | er_size e)) (erasers s) -> smallest_eraser (erasers s) = e.
Proof.
  intros H0' Hg Hp Hall. unfold smallest_eraser. rewrite H0'. cbn [default from_option id].
  assert (Forall (fun e => er_size e = 0 \/ in_kind K e /\ (g | er_size e)) (drop 1 (take 4 (erasers s)))) as Hd
    by (by apply Forall_drop, Forall_take).
  induction Hd as [|x l Hx Hl IH]; [done|]. cbn [foldl].
  assert (negb (er_size x =? 0) && (er_size x <? er_size e) = false) as ->; [|done].
  destruct Hx as [->|[(Hpx & _) Hdx]]; [done|]. apply andb_false_intro2, Z.ltb_ge. rewrite Hg. by apply Z.divide_pos_le.
Qed.

Lemma read_sfdp_ok w c s g (f : sfud_flash) : sees w c -> busy c = O -> understood s g c -> sfdp f = zero_sfdp ->
  yields K (sfud_read_sfdp f) w (true, set_sfdp s f) c.
Proof.
  intros V Hb D Hf. unfold sfud_read_sfdp, read_sfdp_header. rewrite Hf.
  assert (rd header0 0 = 83 /\ rd header0 1 = 70 /\ rd header0 2 = 68 /\ rd header0 3 = 80) as (S0 & S1 & S2 & S3).
  { assert (forall i, 0 <= i < 4 -> rd header0 i = rd (take 4 header0) i) as Hr.
    { intros i Hi. unfold rd. by rewrite lookup_take_lt by lia. }
    rewrite !Hr by lia. by rewrite (us_signature _ _ _ D). }
  destruct (us_revision _ _ _ D) as [R0 R8]. pose proof (us_length _ _ _ D) as L8.
  assert (0 <= table_at < 2 ^ 24) as Ht.
  { unfold table_at. assert (forall i, 0 <= rd header8 i < 256) as Hu.
    { intros i. apply rd_u8. unfold header8, sfdp_bytes. apply Forall_map, Forall_true. intros k. apply u8_range. }
    pose proof (Hu 4). pose proof (Hu 5). pose proof (Hu 6). rewrite !Z.shiftl_mul_pow2 by lia.
    rewrite (Z.lor_comm (rd header8 4)), (lor_disjoint (rd header8 4) (rd header8 5) 8) by lia.
    rewrite Z.lor_comm, (lor_disjoint _ (rd header8 6) 16) by lia. lia. }
  eapply yields_bind; [eapply yields_bind; [by apply (read_sfdp_data_ok w c 0 8)|]|].
  { intros w1 V1. cbn [Z.eqb SFUD_SUCCESS negb]. change (sfdp_bytes 0 (Z.to_nat 8)) with header0. rewrite S0, S1, S2, S3. cbn [Z.eqb Pos.eqb andb negb].
    unfold SUPPORT_MAX_SFDP_MAJOR_REV. destruct (Z.leb_spec (rd header0 5) 1); [|lia]. by apply yields_ret. }
  intros w1 V1. cbn [negb]. eapply yields_bind; [unfold read_basic_header; eapply yields_bind; [by apply (read_sfdp_data_ok w1 c 8 8)|]|].
  { intros w2 V2. cbn [Z.eqb SFUD_SUCCESS negb h_major_rev h_len]. change (sfdp_bytes 8 (Z.to_nat 8)) with header8. unfold SUPPORT_MAX_SFDP_MAJOR_REV, BASIC_TABLE_LEN.
    destruct (Z.ltb_spec 1 (rd header8 2)); [lia|]. destruct (Z.ltb_spec (rd header8 3) 9); [lia|]. by apply yields_ret. }
  intros w2 V2. cbv beta iota zeta. change (sfdp_bytes 8 (Z.to_nat 8)) with header8. fold table_at. eapply yields_bind; [unfold read_basic_table; eapply yields_bind;
    [by apply (read_sfdp_data_ok w2 c table_at 36)|]|].
  { intros w3 V3. cbn [Z.eqb SFUD_SUCCESS negb]. change (sfdp_bytes table_at (Z.to_nat 36)) with basic_table. change (set_available false zero_sfdp) with zero_sfdp.
    eexists. rewrite (us_parsed _ _ _ D). cbn [drv_lift]. by split. }
  intros w3 V3. by apply yields_ret.
Qed.

Lemma read_jedec_id_ok w c f : sees w c -> busy c = O -> exists m t k,
  yields K (read_jedec_id f) w (SFUD_SUCCESS, set_chip (mkFlashChip m t k (capacity (chip f)) (write_mode (chip f))
    (erase_gran (chip f)) (erase_gran_cmd (chip f))) f) c.
Proof.
  intros V Hb. do 3 eexists. unfold read_jedec_id. eapply yields_bind; [by apply wr_ok|]. intros w1 V1. cbn [Z.eqb SFUD_SUCCESS fst].
  apply yields_ret. unfold nor_frame in V1. cbn [snd] in V1.
  assert (nor_exec K c ([SFUD_CMD_JEDEC_ID] ++ replicate (Z.to_nat 3) 0xFF) = c) as E; [|by rewrite E in V1].
  unfold nor_exec. cbn [app]. rewrite Hb. change (0 <? 0)%nat with false. by destruct c.
Qed.

Lemma reset_ok w c f : sees w c -> busy c = O -> yields K (reset f) w SFUD_SUCCESS c.
Proof.
  intros V Hb. unfold reset. eapply yields_bind; [by apply send_ok|]. intros w1 V1. cbn [Z.eqb SFUD_SUCCESS].
  assert (nor_exec K c [SFUD_CMD_ENABLE_RESET; SFUD_CMD_RESET] = c) as E.
  { unfold nor_exec. rewrite Hb. change (0 <? 0)%nat with false. by destruct c. }
  rewrite E in V1. pose proof (wait_busy_ok K (Z.to_nat (retry_times f)) w1 c V1 ltac:(rewrite Hb; lia)) as Y.
  assert (idle c = c) as Hi by (unfold idle; rewrite <- Hb; by destruct c). by rewrite Hi in Y.
Qed.

Lemma four_byte_ok w c f : sees w c -> busy c = O ->
  yields K (set_4_byte_address_mode true f) w (SFUD_SUCCESS, set_addr_in_4_byte true f) (mkNor (cells c) true 0 true).
Proof.
  intros V Hb. unfold set_4_byte_address_mode. eapply yields_bind; [by apply write_enabled_ok|]. intros w1 V1.
  cbn [Z.eqb SFUD_SUCCESS negb]. eapply yields_bind; [by apply send_ok|]. intros w2 V2. by apply yields_ret.
Qed.

(** The device and the chip after probing; [m], [t] and [k] are the chip's identification. *)
Definition described_flash (m t k : Z) (s : sfud_sfdp) (e : eraser) (ok : bool) : sfud_flash :=
  mkFlash (mkFlashChip m t k (sfdp_capacity s) SFUD_WM_PAGE_256B (er_size e) (er_cmd e)) ok (2 ^ 24 <? sfdp_capacity s)
    (60 * 10000) s.
Definition probed_chip (s : sfud_sfdp) (c : nor) : nor :=
  if 2 ^ 24 <? sfdp_capacity s then mkNor (cells c) true 0 true else c.

Lemma device_init_ok w c s g e : sees w c -> busy c = O -> understood s g c -> erasers s !! 0%nat = Some e -> er_size e = g ->
  er_cmd e <> 0 -> 0 < g -> exists m t k,
  yields K (sfud_device_init zero_flash) w (SFUD_SUCCESS, described_flash m t k s e true) (probed_chip s c).
Proof.
  intros V Hb D He Hge Hcmd Hg. pose proof (us_range _ _ _ D) as Hcap.
  pose proof (smallest_first s g e He Hge Hg (us_erasers _ _ _ D)) as Hsm.
  set (f1 := mkFlash (chip zero_flash) false false (60 * 10000) zero_sfdp).
  destruct (read_jedec_id_ok w c f1 V Hb) as (m & t & k & Yj). exists m, t, k.
  unfold sfud_device_init, hardware_init. cbv zeta.
  change (mkFlash (chip zero_flash) (init_ok zero_flash) (addr_in_4_byte zero_flash) (60 * 10000) (sfdp zero_flash)) with f1.
  change (lacks (chip f1)) with true. cbv iota.
  apply (yields_bind K _ _ w (SFUD_SUCCESS, described_flash m t k s e false) (probed_chip s c)); [|intros w9 V9; by apply yields_ret].
  eapply yields_bind; [eapply yields_bind; [exact Yj|]|].
  { intros w1 V1. cbn [Z.eqb SFUD_SUCCESS negb]. eapply yields_bind; [by eapply read_sfdp_ok|]. intros w2 V2. by apply yields_ret. }
  intros w2 V2. cbn [Z.eqb SFUD_SUCCESS negb]. set (f2 := chip_parameters true _).
  assert (f2 = set_addr_in_4_byte false (described_flash m t k s e false)) as ->.
  { unfold f2, chip_parameters. cbn [sfdp set_sfdp]. by rewrite Hsm, (us_pages _ _ _ D). }
  set (f3 := set_addr_in_4_byte false _). assert (lacks (chip f3) = false) as ->.
  { unfold lacks. cbn. rewrite Hge. destruct (Z.eqb_spec (sfdp_capacity s) 0), (Z.eqb_spec g 0), (Z.eqb_spec (er_cmd e) 0); lia || done. }
  eapply yields_bind; [by apply reset_ok|]. intros w3 V3. cbn [Z.eqb SFUD_SUCCESS negb].
  change (Z.land (write_mode (chip f3)) SFUD_WM_AAI) with 0. change (negb (0 =? 0)) with false. cbv iota.
  eapply yields_bind; [by apply yields_ret|]. intros w4 V4. cbn [Z.eqb SFUD_SUCCESS negb].
  change (capacity (chip f3)) with (sfdp_capacity s). unfold probed_chip, described_flash.
  destruct (2 ^ 24 <? sfdp_capacity s) eqn:E.
  - pose proof (four_byte_ok w4 c f3 V4 Hb) as Y. unfold f3, set_addr_in_4_byte, described_flash in Y. exact Y.
  - by apply yields_ret.
Qed.

Lemma described_flash_ok c s g e m t k : busy c = O -> Z.of_nat (nk_time K) <= 600000 -> Forall is_u8 (cells c) ->
  understood s g c -> erasers s !! 0%nat = Some e -> er_size e = g -> 0 < g ->
  flash_ok K (described_flash m t k s e true) g (probed_chip s c).
Proof.
  intros Hb Ht Hu D He Hge Hg. pose proof (us_range _ _ _ D) as Hcap.
  assert (cells (probed_chip s c) = cells c /\ busy (probed_chip s c) = O /\ four (probed_chip s c) = (2 ^ 24 <? sfdp_capacity s)) as (E1 & E2 & E3).
  { unfold probed_chip. destruct (Z.ltb_spec (2 ^ 24) (sfdp_capacity s)); [done|]. by rewrite (us_mode _ _ _ D). }
  constructor; rewrite ?E1; cbn; try done.
  - lia.
  - apply (us_capacity _ _ _ D).
  - rewrite E3. destruct (Z.ltb_spec (2 ^ 24) (sfdp_capacity s)); lia.
  - unfold erasers_ok. cbn. rewrite (parse_available _ _ _ (us_parsed _ _ _ D)), He. split; [done|].
    split; [apply (us_erasers _ _ _ D)|done].
  - apply (us_whole _ _ _ D).
Qed.

(** Probing establishes what the disk needs.  On an idle NOR chip whose SFDP
    tables are valid and describe it (capacity, pages, erasers whose sizes are
    multiples of the smallest), the initialisation of a zeroed flash device
    returns success without touching the cells, the address mode of driver and
    chip agree (four bytes above 16 MB, three otherwise), and the block device with
    the geometry taken from it meets the conditions under which it is a disk. *)
Theorem probe_establishes_disk (w : W) (c : nor) (g : Z)
  (V : sees w c) (Hb : busy c = O) (Ht : Z.of_nat (nk_time K) <= 600000) (Hu : Forall is_u8 (cells c))
  (D : describes g c) :
  exists f c' dev, yields K (sfud_device_init zero_flash) w (SFUD_SUCCESS, f) c'
    /\ init_ok f = true /\ cells c' = cells c /\ addr_in_4_byte f = (2 ^ 24 <? Z.of_nat (length (cells c)))
    /\ flash_geometry f = Ok dev /\ device_ok K dev c' /\ bytes_per_sector (geometry dev) = g.
Proof.
  destruct (tables_understood g c D) as (s & U). destruct (us_first _ _ _ U) as (e & He & Hge & Hcmd & Hg).
  destruct (device_init_ok w c s g e V Hb U He Hge Hcmd Hg) as (m & t & k & Y).
  pose proof (described_flash_ok c s g e m t k Hb Ht Hu U He Hge Hg) as F. do 3 eexists. split; [exact Y|]. split; [done|].
  split; [by unfold probed_chip; destruct (_ <? _)|]. split; [cbn; by rewrite (us_capacity _ _ _ U)|]. unfold flash_geometry. cbn [chip described_flash erase_gran].
  rewrite Hge. destruct (Z.eqb_spec g 0); [lia|]. split; [done|]. split; [|done]. split; [exact F|].
  cbn. destruct (us_whole _ _ _ U) as [q ->]. rewrite Z.div_mul by lia. lia.
Qed.
End Probe.

(** ** Limits *)

(** A chip whose tables announce byte programming gets a write mode for which
    the driver has no case: a write reports success and does nothing. *)
Theorem byte_mode_write_ignored {W} `{FlashPort W} (f : sfud_flash) (addr size : Z) (data : list Z) (w : W) :
  write_gran (sfdp f) = 1 ->
  sfud_write (chip_parameters true f) addr size data w = Ok (SFUD_SUCCESS, w).
Proof. intros Hg. unfold chip_parameters, sfud_write. cbn [chip set_chip write_mode]. by rewrite Hg. Qed.

(** Disabling writes never fails on what the status register says. *)
Theorem write_disable_unchecked {W} `{FlashPort W} (w : W) (w1 w2 : W) (l1 l2 : list Z) :
  wr [SFUD_CMD_WRITE_DISABLE] 0 w = Ok ((SFUD_SUCCESS, l1), w1) ->
  wr [SFUD_CMD_READ_STATUS_REGISTER] 1 w1 = Ok ((SFUD_SUCCESS, l2), w2) ->
  set_write_enabled false w = Ok (SFUD_SUCCESS, w2).
Proof.
  intros E1 E2. unfold set_write_enabled, send, sfud_read_status, mbind, drv_bind, mret, drv_ret. rewrite E1. cbn. rewrite E2. cbn.
  unfold SFUD_STATUS_REGISTER_WEL. destruct (Z.eqb_spec (Z.land (rd l2 0) 2) 1) as [E|]; [|done]. exfalso.
  assert (Z.testbit (Z.land (rd l2 0) 2) 0 = true) as B by (by rewrite E).
  rewrite Z.land_spec in B. change (Z.testbit 2 0) with false in B. by rewrite andb_false_r in B.
Qed.

(** A range that wraps around 2^32 passes the bound check. *)
Theorem bound_check_wraps (f : sfud_flash) (addr size : Z) : 2 ^ 32 <= addr + size <= 2 ^ 32 + capacity (chip f) ->
  capacity (chip f) < 2 ^ 32 -> capacity (chip f) <? u32 (addr + size) = false.
Proof.
  intros Hs Hc. apply Z.ltb_ge. unfold u32. change 4294967296 with (2 ^ 32). 
  rewrite <- (Z.mod_add _ (-1)) by lia. rewrite Z.mod_small; lia.
Qed.

(** In four-byte mode the first word of an AAI write needs seven bytes of a buffer of six. *)
Theorem aai_overruns {W} `{FlashPort W} (f : sfud_flash) (n : nat) (addr size d0 d1 : Z) (data : list Z) (w : W) :
  addr_in_4_byte f = true -> 2 <= size -> aai_loop (S n) f true addr size (d0 :: d1 :: data) w = Fault OutOfBounds.
Proof.
  intros Hf Hs. cbn [aai_loop]. destruct (Z.ltb_spec size 2); [lia|]. unfold bytes_of. cbn [length].
  destruct (Z.ltb_spec (Z.of_nat (S (S (length data)))) 2); [lia|]. rewrite lift_bind. unfold make_adress_byte_array. by rewrite Hf.
Qed.

(** ** A chip of four sectors *)

Module ProbeDemo.
(** The larger eraser comes first in the table; the density is 8191 bits less one. *)
Definition tables : list Z :=
  [83; 70; 68; 80; 0; 1; 0; 0xFF] ++ [0; 0; 1; 9; 16; 0; 0; 0xFF]
  ++ [0x05; 0x20; 0; 0xFF; 0xFF; 0x1F; 0; 0] ++ replicate 20 0 ++ [9; 0xD8; 8; 0x20; 0; 0; 0; 0].
Definition kind : nor_kind := mkKind [(0x20, 256); (0xD8, 512)] [0xEF; 0x40; 0x13] tables 3.
Definition new_chip : nor := mkNor (replicate 1024 0) false 0 false.

Lemma in_kind_small : in_kind kind (mkEraser 256 0x20).
Proof. split_and!; [done|done|]. by apply (bool_decide_unpack (_ ∉ _)). Qed.
Lemma in_kind_large : in_kind kind (mkEraser 512 0xD8).
Proof. split_and!; [done|done|]. by apply (bool_decide_unpack (_ ∉ _)). Qed.
Lemma tables_describe : describes kind 256 new_chip.
Proof.
  constructor; try done. change (sfdp_bytes kind _ 36) with (drop 16 tables).
  assert (forall k, 0 <= k < 4 -> k = 0 \/ k = 1 \/ k = 2 \/ k = 3) as Hc by (intros; lia).
  constructor; try done.
  - repeat constructor; lia.
  - by left.
  - intros k [->|[->|[->| ->]]]%Hc Hk; [| |done|done]; (split; [done|]; split; [done|]; split; [|done]).
    + exact in_kind_large.
    + exact in_kind_small.
  - exists 1. by split.
  - by exists 4.
Qed.

#[local] Instance probe_chip : Chip nor_chip := nor_on_bus kind.
Definition spi40 : rt_spi_device := mkDev true (mkCfg 4 8 50000000) (Some 4).
Definition chips : gmap Z nor_chip := {[4 := mkNorChip new_chip []]}.
Definition init0 : SPI_InitTypeDef := mkInit 0 0 0 0 0 0 0 0 0 0.
Definition start : spi_st (hwview nor_chip) := mkSpi [spi40] None init0 [] 0 (mkView chips ∅ init0 false None 0).
Lemma probe_start_sees : bus_sees kind 90000000 1 0 4 start new_chip.
Proof.
  exists (mkBus [spi40] None 0 0 chips []), spi40. split; [|by split_and!].
  constructor; try done. intros [|[|d]] dev Hd; [|done..]. injection Hd as <-. split; [done|]. by exists 4.
Qed.

(** Probing over the bus finds four sectors of 256 bytes. *)
Lemma probe_over_bus : exists f w' dev,
  @sfud_device_init _ (bus_port 90000000 1 0) zero_flash start = Ok ((SFUD_SUCCESS, f), w')
  /\ flash_geometry f = Ok dev /\ bytes_per_sector (geometry dev) = 256.
Proof.
  destruct (@probe_establishes_disk _ kind (bus_port 90000000 1 0) (bus_nor_port kind 90000000 1 0 4) start new_chip 256
    probe_start_sees eq_refl ltac:(cbn; lia) ltac:(by apply Forall_replicate) tables_describe)
    as (f & c' & dev & (w' & E & _) & _ & _ & _ & Eg & _ & Eb).
  exists f, w', dev. split; [exact E|]. split; [exact Eg|exact Eb].
Defined.
End ProbeDemo.
