(* ===== verification/SpiBus.v ===== *)
(** * Setting up the SPI bus and the flash device

    Registration of a bus and its devices (components/spi/spi_core.c, spi_dev.c,
    Task/drivers/drv_spi.c), the board's start-up of bus 4 and of its flash
    (Task/drivers/drv_spi_flash.c, [rt_sfud_flash_probe] of spi_flash_sfud.c),
    on the registry of [KernelObject].  A bus, a device and a mutex are known by
    their addresses; the address of a bus is that of its device structure. *)
From stdpp Require Import gmap.
From S2P Require Import Prelude CC1101 KernelService KernelObject Spi Sfud SfudInit SfudSpec SpiFlash SfudProbe.

Definition RT_ENOSYS : Z := 6.
Definition RT_Object_Class_Mutex : Z := 3.
Definition RT_Device_Class_Block : Z := 1.
Definition RT_Device_Class_SPIBUS : Z := 11.
Definition RT_Device_Class_SPIDevice : Z := 12.

(** [bus_periph] is the peripheral behind [parent.user_data]. *)
Record rt_spi_bus := mkSpiBus { bus_owner : option Z; bus_ops : bool; bus_periph : option Z }.
Record spidev := mkSpidev { sd_bus : option Z; sd_config : rt_spi_configuration; sd_cs : option Z }.

(** The registry, the device types, the buses and the devices, by address, and the levels of pins. *)
Record bus_sys := mkSys {
  sys_reg : registry; sys_type : gmap Z Z; sys_buses : gmap Z rt_spi_bus; sys_devs : gmap Z spidev; sys_pins : gmap Z bool }.

Definition set_type (dev type : Z) (s : bus_sys) : bus_sys :=
  mkSys (sys_reg s) (<[dev := type]> (sys_type s)) (sys_buses s) (sys_devs s) (sys_pins s).
Definition set_reg (r : registry) (s : bus_sys) : bus_sys := mkSys r (sys_type s) (sys_buses s) (sys_devs s) (sys_pins s).
Definition set_bus (a : Z) (b : rt_spi_bus) (s : bus_sys) : bus_sys :=
  mkSys (sys_reg s) (sys_type s) (<[a := b]> (sys_buses s)) (sys_devs s) (sys_pins s).
Definition set_dev (a : Z) (d : spidev) (s : bus_sys) : bus_sys :=
  mkSys (sys_reg s) (sys_type s) (sys_buses s) (<[a := d]> (sys_devs s)) (sys_pins s).
Definition set_pin (p : Z) (b : bool) (s : bus_sys) : bus_sys :=
  mkSys (sys_reg s) (sys_type s) (sys_buses s) (sys_devs s) (<[p := b]> (sys_pins s)).

Definition get_bus (a : Z) (s : bus_sys) : rt_spi_bus := default (mkSpiBus None false None) (sys_buses s !! a).
Definition get_dev (a : Z) (s : bus_sys) : spidev := default (mkSpidev None (mkCfg 0 0 0) None) (sys_devs s !! a).

(** ** Registration *)

Definition register_as (type dev : Z) (name : list Z) (s : bus_sys) : res (Z * bus_sys) :=
  let s := set_type dev type s in
  '(result, r) ← rt_device_register (Some dev) name (sys_reg s); Ok (result, set_reg r s).
Definition rt_spi_bus_device_init (bus : Z) (name : list Z) (s : bus_sys) : res (Z * bus_sys) :=
  register_as RT_Device_Class_SPIBUS bus name s.
Definition rt_spidev_device_init (dev : Z) (name : list Z) (s : bus_sys) : res (Z * bus_sys) :=
  register_as RT_Device_Class_SPIDevice dev name s.

(** [lock] is the address of the bus's mutex. *)
Definition rt_spi_bus_register (bus lock : Z) (name : list Z) (s : bus_sys) : res (Z * bus_sys) :=
  '(result, s) ← rt_spi_bus_device_init bus name s;
  if negb (result =? RT_EOK) then Ok (result, s) else
  r ← rt_object_init lock RT_Object_Class_Mutex name (sys_reg s);
  let s := set_reg r s in
  Ok (RT_EOK, set_bus bus (mkSpiBus None true (bus_periph (get_bus bus s))) s).

Definition rt_spi_bus_attach_device (dev : Z) (name bus_name : list Z) (cs : option Z) (s : bus_sys) : res (Z * bus_sys) :=
  bus ← rt_device_find bus_name (sys_reg s);
  match bus with
  | Some bus =>
      if bool_decide (sys_type s !! bus = Some RT_Device_Class_SPIBUS) then
        let d := get_dev dev s in
        let s := set_dev dev (mkSpidev (Some bus) (sd_config d) (sd_cs d)) s in
        '(result, s) ← rt_spidev_device_init dev name s;
        if negb (result =? RT_EOK) then Ok (result, s) else
        Ok (RT_EOK, set_dev dev (mkSpidev (Some bus) (mkCfg 0 0 0) cs) s)
      else Ok (- RT_ERROR, s)
  | None => Ok (- RT_ERROR, s)
  end.

(** The buses that are compiled in ([RT_USING_SPI2], 4 and 5), at addresses
    [bus_at] with mutexes at [lock_at]; for one that is not, the variable
    [spi_bus] is used without a value. *)
Definition stm32_spi_bus_register (bus_at lock_at : Z -> Z) (SPI : Z) (name : list Z) (s : bus_sys) : res (Z * bus_sys) :=
  if negb ((1 <=? SPI) && (SPI <=? 6)) then Ok (RT_ENOSYS, s) else
  if bool_decide (SPI ∈ [2; 4; 5]) then
    let b := get_bus (bus_at SPI) s in
    rt_spi_bus_register (bus_at SPI) (lock_at SPI) name (set_bus (bus_at SPI) (mkSpiBus (bus_owner b) (bus_ops b) (Some SPI)) s)
  else Fault Uninit.

(** PE4 *)
Definition spi_cs : Z := 0x44.
Definition rt_hw_spi4_init (bus_at lock_at : Z -> Z) (spi_device : Z) (s : bus_sys) : res (Z * bus_sys) :=
  '(result, s) ← stm32_spi_bus_register bus_at lock_at 4 (text "spi4" ++ [0]) s;
  if negb (result =? RT_EOK) then Ok (result, s) else
  let s := set_pin spi_cs true s in
  '(result, s) ← rt_spi_bus_attach_device spi_device (text "spi40" ++ [0]) (text "spi4" ++ [0]) (Some spi_cs) s;
  Ok (if negb (result =? RT_EOK) then result else RT_EOK, s).

(** ** Probing the flash *)

Section ProbeDev.
Context {W : Type} `{FlashPort W}.
(** [rt_spi_configure] of the device. *)
Variable spi_configure : rt_spi_configuration -> drv W Z.

Definition default_cfg : rt_spi_configuration := mkCfg (Z.lor 0 RT_SPI_MSB) 8 (50 * 1000 * 1000).

(** [memory]: whether the four allocations succeed; [rtt] and [lock] are the
    addresses of the new device and of its mutex.  [None] is the null pointer;
    what was allocated is freed then. *)
Definition rt_sfud_flash_probe (memory : bool) (rtt lock : Z) (flash_name dev_name : list Z) (s : bus_sys)
    : drv W (option spi_flash_device * bus_sys) :=
  if negb memory then mret (None, s) else
  dev ← drv_lift (rt_device_find dev_name (sys_reg s));
  match dev with
  | None => mret (None, s)
  | Some dev =>
      if negb (bool_decide (sys_type s !! dev = Some RT_Device_Class_SPIDevice)) then mret (None, s) else
      _ ← spi_configure default_cfg;
      r ← drv_lift (rt_object_init lock RT_Object_Class_Mutex flash_name (sys_reg s));
      let s := set_reg r s in
      '(result, f) ← sfud_device_init zero_flash;
      if negb (result =? SFUD_SUCCESS) then mret (None, s) else
      d ← drv_lift (flash_geometry f);
      '(_, s) ← drv_lift (register_as RT_Device_Class_Block rtt flash_name s);
      mret (Some d, s)
  end.
End ProbeDev.

(** ** Start-up *)

Section Boot.
(** The addresses that are devices. *)
Context (D : gset Z).
#[local] Notation devices := KernelObject.devices.

Lemma linked_elsewhere x d t o r : t ∈ rt_object_container -> x <> d -> object_linked x r = false -> object_linked x (link d t o r) = false.
Proof.
  intros Ht Hx Hn. unfold object_linked in *. apply not_true_iff_false in Hn. apply not_true_iff_false. rewrite existsb_exists in *.
  intros (t' & Ht' & Hin). apply Hn. exists t'. split; [done|]. apply bool_decide_eq_true in Hin. apply bool_decide_eq_true.
  rewrite object_list_link in Hin. case_decide; [subst t'|done]. by apply list.elem_of_cons in Hin as [->|?].
Qed.

Lemma mutex_init_ok m r l s : reg_ok D m r -> l ∉ D -> object_linked l r = false -> is_str s ->
  exists r', rt_object_init l RT_Object_Class_Mutex (s ++ [0]) r = Ok r' /\ reg_ok D m r' /\ devices r' = devices r
    /\ forall x, x <> l -> object_linked x r = false -> object_linked x r' = false.
Proof.
  intros R Hl Hf Hs. unfold rt_object_init. change (negb (rt_object_get_information RT_Object_Class_Mutex)) with false. cbv iota.
  rewrite bool_decide_eq_false_2, Hf.
  2: { intros Hin. apply not_true_iff_false in Hf. apply Hf. unfold object_linked. apply existsb_exists.
       exists RT_Object_Class_Mutex. split; [by apply (bool_decide_unpack _)|]. by apply bool_decide_eq_true. }
  rewrite copy_name_key, bind_ret_l by done. eexists. split; [done|]. set (r' := link _ _ _ _).
  assert (devices r' = devices r) as Ed by (unfold devices, r'; by rewrite object_list_link, decide_False).
  split; [|split; [done|]].
  - constructor.
    + intros d. rewrite Ed. intros Hd. destruct (ro_obj D m r R d Hd) as (HD & t & ? & Ho). split; [done|]. exists t. split; [done|].
      cbn. rewrite lookup_insert_ne; [done|by intros ->].
    + intros k d. rewrite Ed, (ro_map D m r R). cbn. split; intros (Hd & o & Ho & Hk); (split; [done|]); exists o;
        (split; [|done]); (rewrite lookup_insert_ne in * || rewrite lookup_insert_ne); try done;
        intros ->; by destruct (ro_obj D m r R d Hd).
    + intros t d Ht Hd. unfold r'. rewrite object_list_link. case_decide as E; [subst t|by apply (ro_other D m r R)].
      intros [->|Hin]%list.elem_of_cons; [done|]. by apply (ro_other D m r R _ d Ht Hd).
  - intros x. apply linked_elsewhere. by apply (bool_decide_unpack _).
Qed.

(** Registering a new device under a free name. *)
Lemma register_as_ok m type d s name : reg_ok D m (sys_reg s) -> is_str name -> d ∈ D -> d ∉ devices (sys_reg s) -> m !! key name = None ->
  exists r, register_as type d (name ++ [0]) s = Ok (RT_EOK, set_reg r (set_type d type s))
    /\ reg_ok D (<[key name := d]> m) r /\ devices r = d :: devices (sys_reg s)
    /\ forall x, x <> d -> object_linked x (sys_reg s) = false -> object_linked x r = false.
Proof.
  intros R Hs Hd Hn Hk. unfold register_as, rt_device_register. cbn [sys_reg set_type].
  rewrite (rt_device_find_map D m) by done. rewrite bind_ret_l, Hk.
  destruct (register_ok D m (sys_reg s) d name R Hs Hd Hn Hk) as (r & E & R'). rewrite E, !bind_ret_l.
  exists r. split; [done|]. split; [done|]. unfold rt_object_init in E.
  change (negb (rt_object_get_information RT_Object_Class_Device)) with false in E. cbv iota in E.
  rewrite bool_decide_eq_false_2, (not_object_linked D m) in E by done.
  rewrite copy_name_key, bind_ret_l in E by done. injection E as <-.
  split; [unfold devices; by rewrite object_list_link, decide_True|]. intros x. apply linked_elsewhere. by apply (bool_decide_unpack _).
Qed.

Variable bus_at lock_at : Z -> Z.
(** The static device of the flash on the bus; the allocated block device and its mutex. *)
Variable spi_device rtt lock : Z.

(** Before start-up: the addresses are distinct objects of no list, and no name is in use. *)
Record board_free (m : gmap (list Z) Z) (r : registry) : Prop := mkFree {
  bf_reg : reg_ok D m r;
  bf_devices : [bus_at 4; spi_device; rtt] ⊆ elements D;
  bf_new : Forall (fun d => d ∉ devices r) [bus_at 4; spi_device; rtt];
  bf_distinct : NoDup [bus_at 4; spi_device; rtt; lock_at 4; lock];
  bf_locks : lock_at 4 ∉ D /\ lock ∉ D /\ object_linked (lock_at 4) r = false /\ object_linked lock r = false;
  bf_names : m !! key (text "spi4") = None /\ m !! key (text "spi40") = None /\ m !! key (text "W25Q256FV") = None }.

Lemma is_str_names : is_str (text "spi4") /\ is_str (text "spi40") /\ is_str (text "W25Q256FV").
Proof. by repeat (split || constructor). Qed.

(** What the board has after the bus is up. *)
Record bus_up (m : gmap (list Z) Z) (s0 s : bus_sys) : Prop := mkUp {
  bu_reg : reg_ok D (<[key (text "spi40") := spi_device]> (<[key (text "spi4") := bus_at 4]> m)) (sys_reg s);
  bu_devices : devices (sys_reg s) = spi_device :: bus_at 4 :: devices (sys_reg s0);
  bu_bus : sys_buses s !! bus_at 4 = Some (mkSpiBus None true (Some 4));
  bu_device : sys_devs s !! spi_device = Some (mkSpidev (Some (bus_at 4)) (mkCfg 0 0 0) (Some spi_cs));
  bu_type : sys_type s !! spi_device = Some RT_Device_Class_SPIDevice;
  bu_pin : sys_pins s !! spi_cs = Some true;
  bu_lock : object_linked lock (sys_reg s0) = false -> object_linked lock (sys_reg s) = false }.

Lemma spi4_init_ok m s : board_free m (sys_reg s) ->
  exists s', rt_hw_spi4_init bus_at lock_at spi_device s = Ok (RT_EOK, s') /\ bus_up m s s'.
Proof.
  intros [R Hd Hn Hdist (Hl1 & Hl2 & Hu1 & Hu2) (N1 & N2 & N3)]. destruct is_str_names as (S1 & S2 & _).
  apply list.Forall_cons in Hn as [Hn1 Hn]. apply list.Forall_cons in Hn as [Hn2 _].
  assert (forall x, x ∈ [bus_at 4; spi_device; rtt] -> x ∈ D) as HD by (intros x Hx; by apply elem_of_elements, Hd).
  rewrite !list.NoDup_cons in Hdist. destruct Hdist as (X1 & X2 & X3 & X4 & _).
  assert (bus_at 4 <> spi_device /\ lock_at 4 <> bus_at 4 /\ lock <> bus_at 4 /\ lock <> spi_device /\ lock <> lock_at 4)
    as (Y1 & Y2 & Y3 & Y4 & Y5) by (split_and!; intros E; rewrite E in *; set_solver).
  unfold rt_hw_spi4_init, stm32_spi_bus_register. cbn [Z.leb andb negb Z.compare Pos.compare Pos.compare_cont].
  rewrite bool_decide_eq_true_2 by (by apply (bool_decide_unpack _)). unfold rt_spi_bus_register, rt_spi_bus_device_init.
  set (s1 := set_bus _ _ s).
  destruct (register_as_ok m RT_Device_Class_SPIBUS (bus_at 4) s1 (text "spi4") R S1 (HD (bus_at 4) ltac:(set_solver)) Hn1 N1)
    as (r1 & -> & R1 & D1 & K1). rewrite bind_ret_l. cbn [Z.eqb RT_EOK negb sys_reg set_reg].
  destruct (mutex_init_ok _ r1 (lock_at 4) (text "spi4") R1 Hl1 (K1 _ Y2 Hu1) S1) as (r2 & -> & R2 & D2 & K2).
  rewrite !bind_ret_l. cbn [Z.eqb RT_EOK negb]. unfold rt_spi_bus_attach_device. cbn [sys_reg set_pin set_bus set_reg].
  rewrite (rt_device_find_map D _ _ _ R2 S1), bind_ret_l, lookup_insert_eq.
  cbn [sys_type set_pin set_bus set_reg set_type]. rewrite lookup_insert_eq, bool_decide_eq_true_2 by done.
  set (s2 := set_dev _ _ _). unfold rt_spidev_device_init.
  assert (sys_reg s2 = r2) as E2 by done.
  destruct (register_as_ok _ RT_Device_Class_SPIDevice spi_device s2 (text "spi40") ltac:(rewrite E2; exact R2) S2
     (HD spi_device ltac:(set_solver))) as (r3 & -> & R3 & D3 & K3).
  { rewrite E2, D2, D1. by apply not_elem_of_cons. }
  { rewrite lookup_insert_ne; [done|]. by apply (bool_decide_unpack _). }
  rewrite !bind_ret_l. cbn [Z.eqb RT_EOK negb]. eexists. split; [done|]. constructor; cbn.
  - exact R3.
  - by rewrite D3, E2, D2, D1.
  - rewrite lookup_insert_eq. do 2 f_equal. unfold get_bus. cbn. by rewrite lookup_insert_eq.
  - by rewrite lookup_insert_eq.
  - by rewrite lookup_insert_eq.
  - by rewrite lookup_insert_eq.
  - intros H. apply K3; [done|]. rewrite E2. apply K2; [done|]. by apply K1.
Qed.

Context {W : Type} (K : nor_kind) `{NorPort W K}.
Variable spi_configure : rt_spi_configuration -> drv W Z.

(** The probe on the board with its bus up. *)
Lemma flash_probe_ok m s0 s w w1 code c g : board_free m (sys_reg s0) -> bus_up m s0 s ->
  spi_configure default_cfg w = Ok (code, w1) -> sees w1 c -> busy c = O -> Z.of_nat (nk_time K) <= 600000 ->
  Forall is_u8 (cells c) -> describes K g c ->
  exists fd s' c', yields K (rt_sfud_flash_probe spi_configure true rtt lock (text "W25Q256FV" ++ [0]) (text "spi40" ++ [0]) s) w (Some fd, s') c'
    /\ cells c' = cells c /\ device_ok K fd c' /\ bytes_per_sector (geometry fd) = g
    /\ rt_device_find (text "W25Q256FV" ++ [0]) (sys_reg s') = Ok (Some rtt) /\ sys_type s' !! rtt = Some RT_Device_Class_Block.
Proof.
  intros [R0 Hd Hn Hdist (_ & Hl & _ & Hu) (_ & _ & N3)] U Ec V Hb Ht Hc Hds. destruct is_str_names as (_ & S2 & S3).
  pose proof (bu_reg _ _ _ U) as R. apply list.Forall_cons in Hn as [_ Hn]. apply list.Forall_cons in Hn as [_ Hn].
  apply list.Forall_cons in Hn as [Hn3 _]. rewrite !list.NoDup_cons in Hdist. destruct Hdist as (X1 & X2 & X3 & _).
  assert (rtt ∈ D) as HD by (apply elem_of_elements, Hd; set_solver).
  destruct (mutex_init_ok _ (sys_reg s) lock (text "W25Q256FV") R Hl (bu_lock _ _ _ U Hu) S3) as (r1 & E1 & R1 & D1 & K1).
  destruct (probe_establishes_disk K w1 c g V Hb Ht Hc Hds) as (f & c' & fd & (w2 & E2 & V2) & _ & Hcells & _ & Eg & Hok & Hg).
  destruct (register_as_ok _ RT_Device_Class_Block rtt (set_reg r1 s) (text "W25Q256FV") R1 S3 HD) as (r2 & E3 & R2 & _ & _).
  { cbn. rewrite D1, (bu_devices _ _ _ U). rewrite !not_elem_of_cons. set_solver. }
  { rewrite !lookup_insert_ne by (by apply (bool_decide_unpack _)). done. }
  exists fd, (set_reg r2 (set_type rtt RT_Device_Class_Block (set_reg r1 s))), c'. split.
  - exists w2. split; [|done]. unfold rt_sfud_flash_probe. cbn [negb].
    rewrite (rt_device_find_map D _ _ _ R S2), lookup_insert_eq, lift_bind.
    rewrite (bu_type _ _ _ U), bool_decide_eq_true_2 by done. cbn [negb].
    rewrite (drv_bind_ok _ _ _ _ _ Ec), E1, lift_bind. cbv zeta. rewrite (drv_bind_ok _ _ _ _ _ E2).
    cbn [Z.eqb SFUD_SUCCESS negb]. by rewrite Eg, lift_bind, E3.
  - split; [done|]. split; [done|]. split; [done|]. split; [|cbn; by rewrite lookup_insert_eq].
    cbn [sys_reg set_reg].
    by rewrite (rt_device_find_map D _ _ _ R2 S3), lookup_insert_eq.
Qed.

(** C12: The board's flash comes up as a disk.  From any registry in which the
    board's objects are new and its names free, the start-up of bus 4 succeeds and
    leaves the bus with its operations and without owner, the device on it with a
    zero configuration and its chip-select pin high; then, with a NOR chip behind
    the bus whose SFDP tables are valid by JESD216 and describe it (page
    programming, density, address bytes, erase types in any order), probing
    configures the device, initialises the flash without touching its cells, chooses the sector
    size and the address mode that fit the chip, and registers a block device that
    is found by its name and meets the conditions under which it is a disk. *)
Theorem board_flash_comes_up (m : gmap (list Z) Z) (s : bus_sys) (w w1 : W) (code : Z) (c : nor) (g : Z)
  (F : board_free m (sys_reg s))
  (Ec : spi_configure default_cfg w = Ok (code, w1)) (V : sees w1 c)
  (Hb : busy c = O) (Ht : Z.of_nat (nk_time K) <= 600000) (Hc : Forall is_u8 (cells c)) (Hd : describes K g c) :
  exists s1 fd s2 w2 c', rt_hw_spi4_init bus_at lock_at spi_device s = Ok (RT_EOK, s1)
    /\ sys_buses s1 !! bus_at 4 = Some (mkSpiBus None true (Some 4))
    /\ sys_devs s1 !! spi_device = Some (mkSpidev (Some (bus_at 4)) (mkCfg 0 0 0) (Some spi_cs))
    /\ sys_pins s1 !! spi_cs = Some true
    /\ rt_sfud_flash_probe spi_configure true rtt lock (text "W25Q256FV" ++ [0]) (text "spi40" ++ [0]) s1 w = Ok ((Some fd, s2), w2)
    /\ sees w2 c' /\ cells c' = cells c /\ device_ok K fd c' /\ bytes_per_sector (geometry fd) = g
    /\ rt_device_find (text "W25Q256FV" ++ [0]) (sys_reg s2) = Ok (Some rtt)
    /\ sys_type s2 !! rtt = Some RT_Device_Class_Block.
Proof.
  destruct (spi4_init_ok m s F) as (s1 & E1 & U).
  destruct (flash_probe_ok m s s1 w w1 code c g F U Ec V Hb Ht Hc Hd) as (fd & s2 & c' & (w2 & E2 & V2) & P).
  exists s1, fd, s2, w2, c'. split; [done|]. split; [apply (bu_bus _ _ _ U)|]. split; [apply (bu_device _ _ _ U)|].
  split; [apply (bu_pin _ _ _ U)|]. split; [done|]. by split.
Qed.
End Boot.

(** ** On the bus *)

Section OnBus.
Context {W : Type} `{SpiHw W} (K : nor_kind).
Let bus_chip : Chip nor_chip := nor_on_bus K.
#[local] Existing Instance bus_chip.
Variable clock : Z.
Variable polls : nat.
Context `{!SpiBoard W nor_chip polls}.

(** Configuring the flash's device makes its chip visible to the driver. *)
Lemma bus_configure_sees (d : nat) (dev : rt_spi_device) (pin : Z) (c : nor) (s : spi_st W) (b : bus_spec nor_chip) :
  related clock polls s b -> s_devices b !! d = Some dev -> dev_cs dev = Some pin -> s_chips b !! pin = Some (mkNorChip c []) ->
  exists s', rt_spi_configure clock d default_cfg s = Ok (RT_EOK, s') /\ bus_sees K clock polls d pin s' c.
Proof.
  intros R Hd Hp Hc. destruct (configure_call_ok clock polls d default_cfg s b R) as (s' & E & R').
  { split; [by eexists|done]. }
  exists s'. split; [exact E|]. eexists _, _. split; [exact R'|]. cbn [spec_call snd s_devices s_chips].
  rewrite list_lookup_alter_eq, Hd. split; [done|]. by split_and!.
Qed.
End OnBus.

(** ** Limits *)

(** The buses whose code is not compiled in: the bus is used uninitialised. *)
Theorem absent_bus_uninitialised (bus_at lock_at : Z -> Z) (SPI : Z) (name : list Z) (s : bus_sys) : SPI ∈ [1; 3; 6] ->
  stm32_spi_bus_register bus_at lock_at SPI name s = Fault Uninit.
Proof. intros HS. repeat (apply list.elem_of_cons in HS as [->|HS]; [done|]). by apply list.not_elem_of_nil in HS. Qed.

(** A probe that fails on the chip frees its device but leaves the device's
    mutex in the list of mutexes. *)
Theorem failed_probe_leaves_mutex {W} `{FlashPort W} (spi_configure : rt_spi_configuration -> drv W Z) (rtt lock dev code result : Z)
  (name dname : list Z) (s : bus_sys) (r : registry) (f : sfud_flash) (w w1 w2 : W) :
  rt_device_find dname (sys_reg s) = Ok (Some dev) -> sys_type s !! dev = Some RT_Device_Class_SPIDevice ->
  spi_configure default_cfg w = Ok (code, w1) -> rt_object_init lock RT_Object_Class_Mutex name (sys_reg s) = Ok r ->
  sfud_device_init zero_flash w1 = Ok ((result, f), w2) -> result <> SFUD_SUCCESS ->
  exists s', rt_sfud_flash_probe spi_configure true rtt lock name dname s w = Ok ((None, s'), w2)
    /\ lock ∈ object_list RT_Object_Class_Mutex (sys_reg s').
Proof.
  intros Ef Et Ec Er Ei Hr. exists (set_reg r s). split.
  - unfold rt_sfud_flash_probe. cbn [negb]. rewrite Ef, lift_bind, Et, bool_decide_eq_true_2 by done. cbn [negb].
    rewrite (drv_bind_ok _ _ _ _ _ Ec), Er, lift_bind. cbv zeta. rewrite (drv_bind_ok _ _ _ _ _ Ei).
    by destruct (Z.eqb_spec result SFUD_SUCCESS).
  - cbn [sys_reg set_reg]. unfold rt_object_init in Er. destruct (negb _); [done|]. destruct (bool_decide _); [done|].
    destruct (object_linked _ _); [done|]. destruct (copy_name name) as [n|]; [|done]. rewrite bind_ret_l in Er. injection Er as <-.
    rewrite object_list_link, decide_True by done. by left.
Qed.

(** ** A board with a chip of four sectors *)

Module BoardDemo.
Import ProbeDemo.
Definition no_buses : bus_sys := mkSys (Registry ∅ ∅) ∅ ∅ ∅ ∅.
Definition bus_at (n : Z) : Z := 100 + n.
Definition lock_at (n : Z) : Z := 200 + n.
Definition objs : gset Z := {[104; 300; 400]}.
Lemma no_buses_free : board_free objs bus_at lock_at 300 400 401 ∅ (sys_reg no_buses).
Proof.
  constructor; try done.
  - constructor; [intros d []%list.not_elem_of_nil| |intros t d _ _; apply list.not_elem_of_nil].
    intros k d. rewrite lookup_empty. split; [done|]. by intros [[]%list.not_elem_of_nil _].
  - intros x Hx. apply elem_of_elements. unfold objs. set_solver.
  - repeat apply List.Forall_cons; [..|apply List.Forall_nil]; apply list.not_elem_of_nil.
  - by apply (bool_decide_unpack _).
Qed.

#[local] Instance demo_chip : Chip nor_chip := nor_on_bus kind.
Definition dev0 : rt_spi_device := mkDev true (mkCfg 0 0 0) (Some 4).
Definition start0 : spi_st (hwview nor_chip) := mkSpi [dev0] None init0 [] 0 (mkView chips ∅ init0 false None 0).
Definition start0_bus : bus_spec nor_chip := mkBus [dev0] None 0 0 chips [].
Lemma start0_related : related 90000000 1 start0 start0_bus.
Proof. constructor; try done. intros [|[|d]] dev Hd; [|done..]. injection Hd as <-. split; [done|]. by exists 4. Qed.

(** Start-up and probing over the bus: four sectors of 256 bytes under the flash's name. *)
Lemma board_flash_comes_up_witness : exists s1 fd s2 w2,
  rt_hw_spi4_init bus_at lock_at 300 no_buses = Ok (RT_EOK, s1)
  /\ @rt_sfud_flash_probe _ (bus_port 90000000 1 0) (rt_spi_configure 90000000 0) true 400 401
       (text "W25Q256FV" ++ [0]) (text "spi40" ++ [0]) s1 start0 = Ok ((Some fd, s2), w2)
  /\ bytes_per_sector (geometry fd) = 256 /\ rt_device_find (text "W25Q256FV" ++ [0]) (sys_reg s2) = Ok (Some 400).
Proof.
  destruct (bus_configure_sees kind 90000000 1 0 dev0 4 new_chip start0 start0_bus start0_related eq_refl eq_refl eq_refl)
    as (w1 & Ec & V).
  destruct (@board_flash_comes_up objs bus_at lock_at 300 400 401 _ kind (bus_port 90000000 1 0) (bus_nor_port kind 90000000 1 0 4)
    (rt_spi_configure 90000000 0) ∅ no_buses start0 w1 RT_EOK new_chip 256
    no_buses_free Ec V eq_refl ltac:(cbn; lia) ltac:(by apply Forall_replicate) tables_describe)
    as (s1 & fd & s2 & w2 & c' & E1 & _ & _ & _ & E2 & _ & _ & _ & Eb & Ef & _).
  exists s1, fd, s2, w2. split; [exact E1|]. split; [exact E2|]. split; [exact Eb|exact Ef].
Defined.
End BoardDemo.
